(* ===== verification/_CoqProject ===== *)
-Q . S2P
Prelude.v
Fifo.v
Frame.v
Checksum.v
TxOffload.v
TxRing.v
TxRingSpec.v
RxRing.v
RxRingSpec.v
Firmware.v
FwScript.v
FwData8125.v
FwData8126.v
FwImages.v
Mmio.v
Eeprom.v
EepromSpec.v
Channel.v
ChannelSpec.v
EriSpec.v
Chip.v
SwVars.v
Hw.v
HwSpec.v
McuTables.v
Mcu.v
McuSpec.v
WolSpec.v
RxFilter.v
RxFilterSpec.v
Power.v
Fiber.v
Footprint.v
FiberSpec.v
PhyTables.v
PhyConfig.v
PhySpec.v
BringUp.v
Driver.v
DriverSpec.v
IrqSpec.v
RequestSpec.v
KextPool.v
KextPoolSpec.v
KextTx.v
KextTxSpec.v
KextRx.v
KextRxSpec.v
KextRxRun.v
KextRxMap.v
KextHw.v
KextMedia.v
KextMediaSpec.v
KextCtl.v
KextCtlSpec.v
KextCtlRun.v
Owner.v
KextRes.v
DextRes.v
DextResSpec.v
KextClient.v
KextClientSpec.v
KextIface.v
Compat.v
PollLock.v
