(* ===== verification/Prelude.v ===== *)
(** * A model of the RTL812x Ethernet drivers

    The repository holds two macOS drivers for the Realtek RTL8125, RTL8126 and
    RTL8127 chips: a kernel extension (RTL812xLucy/) and a DriverKit driver
    (RTL8127Dext/) with the same hardware layer: rtl812xx.cpp, rtl812x_eeprom.c,
    rtl812x_phy.c, rtl812x_firmware.c and rtl8127_fiber.cpp are compiled into
    both. This library models both drivers (data path, hardware object, control
    paths) and the shared hardware layer, and proves what makes them correct.

    ** How the parts interact

    The framework hands transmit packets to txDequeueAction, which rewrites
    headers for the checksum engines, fills one descriptor per packet and rings
    the doorbell; txRingReclaim, on the work queue, takes finished descriptors
    back and pushes their packets into per-class FIFOs, from which
    txEnqueueAction returns them. Receive is the mirror image: packets from a
    FIFO (or a pool) are armed in the ring, the chip fills them, rxRingService
    takes them out and pushes them to the framework. Below, the chip is reached
    through memory-mapped registers: directly, or through indirect channels that
    take a command, a poll and a data register. On those channels rest the chip
    set-up (identification, software variables, resets, power management, wake
    events, microcontroller patches, PHY and SerDes set-up) and the firmware
    interpreter. Above them the hardware object (RTL8127Hw.cpp) brings the chip
    up, follows the link and keeps the receive filter; the driver object answers
    requests, interrupts and timer ticks with calls of it and of the rings.

    The kernel extension has the same parts over mbufs: outputStart takes one
    descriptor per segment of a packet, maps it for the IOMMU if there is one,
    and txInterrupt gives it back; rxInterrupt chains the buffers of a frame and
    exchanges them for new ones from a pool that a thread of its own refills. Its
    driver object answers the network family, an interrupt, a watchdog timer and
    a thread that polls for input, which excludes the interrupt handler by a flag.

    ** Files

    - [Prelude] (this file): C integers at their width ([u8] .. [u64], [s32], [s16]),
      bit operators in [c_scope], [has] for C bit tests, arrays as finite maps,
      reachability ([star]), the tactics and the hint databases.
    - [Fifo]: struct PacketFifo of RTL8127Driver.cpp. The class [BoundedQueue] is
      what the rings rely on; the ring buffer is its instance. [prod_step] and
      [cons_step] are the same operations cut at every shared access.
    - [Frame], [Checksum], [TxOffload]: RTL8127TxBuffer.h and the header work of
      the transmit path (prepareTSO4/6, txPartialChecksum, describeTcpSyn, the
      descriptor words), over a byte memory in which a wrong access is [None].
    - [TxRing], [TxRingSpec]: txDequeueAction, txRingReclaim, txEnqueueAction,
      txQueryFreeSpace, link up and down. [tx_step] interleaves their bodies.
    - [RxRing], [RxRingSpec]: rxRingRefill, rxRingService, rxRingRearm, the two
      framework callbacks and the release of the ring; [rx_step] adds the chip.
    - [Firmware], [FwScript]: rtl812x_firmware.c, the checks and the interpreter,
      and the structured programs it is proved to execute; [FwData8125],
      [FwData8126], [FwImages]: the shipped images (Firmware/).
    - [Mmio]: the RTL_R8 .. RTL_W32 accessors and udelay over an abstract device
      (class [Mmio]) and the monad the register sequences are written in.
    - [Eeprom], [EepromSpec]: rtl812x_eeprom.c against a serial EEPROM.
    - [Channel]: PHY OCP and MDIO, MAC OCP, ERI, CSI, EPHY and the management
      mutex (rtl812xx.cpp, lines 150 to 885); [ChannelSpec] and [EriSpec]: what
      they do to the register spaces behind them.
    - [Chip], [SwVars]: chip table and identification (RTL8127Hw.cpp),
      rtl8125_init_software_variable, link options, ring pointer registers.
    - [Hw], [HwSpec], [WolSpec]: resets, PHY reset, ASPM, configuration-space
      offsets, patch requests, EEE and wake-on-LAN.
    - [McuTables], [Mcu], [McuSpec]: the patches of the MAC microcontroller and
      rtl8125_hw_mac_mcu_config.
    - [RxFilter], [RxFilterSpec]: etherCrc, the promiscuous and multicast
      requests and applyRxMode; [RxFilter.Kext] has the kernel extension's
      handlers for the same requests.
    - [Power]: rtl8125_hw_d3_para, D0 speed-up, PLL power-down and power-up,
      rtl8125_exit_oob, the DASH hand-over (rtl812xx.cpp, lines 1568 to 2401 and
      from 17092 on).
    - [Fiber], [FiberSpec]: rtl8127_fiber.cpp (SerDes) and rtl8125_hw_ephy_config
      (PCIe PHY).
    - [PhyTables], [PhyConfig], [PhySpec]: the images of the PHY microcontroller,
      rtl8125_init_hw_phy_mcu and rtl8125_hw_phy_config for every variant.
    - [BringUp]: RTL8127Hw.cpp: rtl812xInit, initMacAddr, rtl812xEnable and
      rtl812xDisable, rtl812xHwConfig, rtl812xSetPhyMedium, the link patches. The
      record [hwst] is class RTL8127Hw.
    - [Driver]: the control side of RTL8127Driver.cpp: updateLinkStatus,
      InterruptOccurred, StatsTimerOccurred, setInterfaceEnable, the media, MTU
      and offload requests, and Start up to the framework objects. The record
      [driver] joins the hardware object and the two rings.
    - [Footprint]: which registers a register sequence writes, and the tactics
      that compute it; used to show what a sequence leaves alone.
    - [DriverSpec], [IrqSpec], [RequestSpec]: properties of [Driver] over all
      sequences of events ([on_events]), of the interrupt masks, and of single
      requests.

    - [KextPool], [KextPoolSpec]: RTL8125LucyRxPool.cpp, the receive pool; the
      class [Mbufs] is the part of the mbuf interface it uses.
    - [KextTx], [KextTxSpec]: outputStart, txInterrupt, the mapping for the IOMMU
      and the transmit part of clearRxTxRings; [kstep] of [KextTxSpec]
      interleaves the output thread, the chip and the interrupt.
    - [KextRx], [KextRxSpec], [KextRxRun]: rxInterrupt, rxInterruptVTD,
      rxMapBuffers, setupRxResources and the receive part of clearRxTxRings, over
      the class [RxBuffers] (what the receive path takes from the pool) with the
      laws of [RxPool]; the pool of [KextPool] is an instance. [KextRxMap]:
      setupRxMap, the set-up of the ring with the IOMMU.
    - [KextHw]: RTL812xLucyHardware.cpp where it differs from RTL8127Hw.cpp; what
      has the same text is shared with [BringUp].
    - [KextMedia], [KextMediaSpec]: the medium table, the medium of a link, the
      parameters, the counters, the two methods of the user client.
    - [KextCtl]: the control side of RTL812xLucy.cpp: start, enable, disable, the
      link state machine, both interrupt handlers, input polling, the watchdog,
      the requests. The record [kdrv] is class RTL8125.
    - [KextCtlSpec], [KextCtlRun]: an abstract machine of the control state
      ([view], [astep]); every handler does a step of it ([ctl] is the relation),
      and what follows for all sequences of events.
    - [PollLock]: the routines of the kernel extension cut at every access to
      stateFlags, on two threads, the work loop and the poller; the flag
      __POLLING as a lock.
    - [Owner]: members that own something as pointers that are null, live or
      dangling, with allocation, release and use; shared by the next three.
    - [KextRes]: what start, stop and free of the kernel extension, the set-up
      functions and their error labels allocate and release.
    - [DextRes], [DextResSpec]: init, Start, Stop and free of the DriverKit driver:
      its framework objects, and the teardown as a step system of the stopping
      thread, the work queue and the two asynchronous cancellations.
    - [KextClient], [KextClientSpec]: newUserClient, the life cycle of
      RTL812xUserClient, and rtl812xtool (main.c) on top of them, to the text it
      prints.
    - [KextIface]: what the kernel extension tells the network family:
      configureInterface, the model name, the checksum and offload features.
    - [Compat]: linux/linux.h over the kernel and over the shims of
      compat/IOKit/IOLib.h: flag words, fsleep, the CRC of Linux.

    State of the C structures is in records with the source's field names; an
    operation of the source is a function of the same name on that state. An
    early return is a branch; a failing access is [None] or [Fault]; a loop is a
    structural recursion on a list or on its own bound.

    ** What the theorems show

    - Rings: [tx_ring_safe] and [rx_ring_safe] are invariants of all interleavings
      of the handlers, the chip, the link and the disabling of the interface
      (every packet is in exactly one place; the chip owns only slots that hold a
      packet, except those a disable leaves stale; counters agree). [tx_dequeue_refines], [tx_reclaim_refines],
      [rx_service_refines], [rx_rearm_restarts], [tx_link_down_returns_all] and
      [tx_query_matches_dequeue] say what each handler does to the abstract
      queues, on every branch. [tx_link_on_leaks] and [rx_release_leaves_owned]
      are the two paths that lose packets or leave the chip a stale buffer;
      [tx_small_mtu_leaves_buffer] is the store outside a buffer that an MTU below
      78 allows.
    - FIFO: [fifo_refines_queue], [spsc_fifo_safe] (any interleaving of one
      producer and one consumer), [two_producers_lose_a_packet].
    - Frames: [tx_partial_checksum_correct], [prepare_tso4_pseudo_header],
      [prepare_tso6_pseudo_header], [tx_descriptor_word], [tx_buffer_view_exact],
      with no access outside the frame.
    - Firmware: [fw_format_ok_in_image], [fw_data_ok_safe],
      [fw_data_ok_allows_endless], [fw_script_refines] and
      [shipped_images_terminate] (each shipped image passes the checks and runs
      to its end on every device).
    - Channels and EEPROM: an access reads or changes exactly the addressed bits,
      bytes or cell and nothing else ([phy_ocp_rmw_exact],
      [mdio_write_read_roundtrip], [eri_read_returns_bytes],
      [eri_write_changes_bytes] and its exception [eri_write_spills],
      [csi_write_byte_exact], [sds_access_exact] and its exception [sds_dead_port],
      [eeprom_read_returns_cell], [eeprom_write_changes_cell],
      [eeprom_write_read_roundtrip]).
    - Chip: [identify_agrees_with_table], [tx_pointers_fit],
      [link_option_within_chip], [aspm_clkreq_lock_exact],
      [wol_set_get_roundtrip], [eee_disable_skips_8126a],
      [mac_mcu_load_exact], [mac_mcu_config_loads], [mcu_version_roundtrip],
      [fiber_speeds] (the speed selection on a SerDes port, by computation),
      [ephy_8127_addresses_collapse],
      [phy_images_load_exactly], [phy_version_stamps].
    - Driver: [driver_control_state] (the link flags, MTU and receive size agree
      in all their copies after any events), [interrupts_never_lost] and its
      exception [second_enable_masks_interrupts], [station_address_valid],
      [mtu_request], [media_choice_ignored_on_copper].
    - Receive filter: [ether_crc_is_remainder] (the bitwise routine is polynomial
      division), [rx_filter_refines] (the chip accepts what was asked for, and the
      two cases in which the driver falls out of step),
      [allmulticast_off_forgets_groups], [kext_multicast_list_undefined],
      [kext_multicast_drops_promiscuous].

    - Kernel extension, rings: [kext_tx_ring_safe], [kext_rx_frames_exact] (what
      goes up is what the reference reassembly says),
      [kext_rx_interrupt_returns], [rx_pool_safe], [vtd_rx_setup]; where they fail:
      [vtd_mapping_exhausted], [vtd_unmap_panics], [kext_rx_touches_freed],
      [rx_error_frames_spin], [vtd_rx_error_spin].
    - Kernel extension, control: [kext_control_state] (the control state refines
      the abstract machine), [kext_watchdog], [kext_packet_size],
      [kext_link_medium], [kext_medium_advertises], [stat_dump_roundtrip]; where
      it fails: [kext_link_on_leaks], [kext_start_reports_success],
      [kext_disable_silent], [kext_poll_mask_lost], [medium_dict_hides_failure],
      [sensor_sign_lost].
    - Kernel extension, resources: [kext_resources_released] (whichever calls of the
      kernel fail, with what is kept: the mapper and the interface object); where it
      fails: [kext_double_release], [kext_mapper_kept].
    - Kernel extension, threads: [poll_lock_exclusive] (the interrupt handler and
      the poller never serve the rings together, whatever else the work loop
      does); what does not take the lock: [link_down_under_poller],
      [restart_under_poller], [hang_check_under_poller], [disable_under_poller],
      [lock_broken_by_disable].
    - DriverKit driver, resources: [dext_teardown_safe] (in every interleaving of
      the teardown nothing is used or released that is not live, and in the end
      nothing is left), [dext_teardown_completes]; where it fails:
      [dext_timer_race], [dext_start_failure_keeps].
    - User client and tool: [kext_client_session], [tool_prints_counters] (what
      the chip counted is what is printed); where it fails:
      [client_alloc_failure], [method_after_close], [tool_prints_junk].
    - Interface: [model_name_complete], [kext_offers_honoured] (what the driver
      offers, the transmit path does, and nothing else), [configured_without_statistics].
    - Compatibility layer: [fsleep_slack] on every clock whose waits last at
      least as long as asked, [fsleep_wraps],
      [ether_crc_le_mirrors].

    ** The hardware

    Nothing is assumed of the chip except through classes, each with a device
    that satisfies it: [Mmio] (no laws), [EepromPort], [OnePort] and [TwoPort]
    (a channel: a command is done after a bounded number of status reads),
    [ByteRegs] (byte registers with the write lock of Cfg9346 on Config0 to Config5
    and with reserved bits, that is, each register stores the bits it has and only
    when the lock allows), [OcpFrame] and [ByteMac] (separate registers do
    not disturb each other), [McuRam] (a paged window), [FilterRegs] (the receive
    mode and hash registers), [SdsPort] (the SerDes channel),
    [IrqRegs] (the interrupt mask and timer registers keep what is written),
    [AddrRegs] (the address registers), [PciConfig] and [PciBars] (the framework's
    configuration space and BAR accesses; no laws), [PciDevice] (the other calls of
    IOPCIDevice; no laws), [Clock] with [ClockLaws] (waits take at least as
    long as asked; [shim_clock] is the clock of the shims over any such IODelay and
    IOSleep). [driver_control_state] and [kext_control_state] need
    no law at all: the chip may answer anything. The witnesses run on
    these devices. The firmware theorems hold for every behaviour of the register
    callbacks.

    ** Bounds

    Loop bounds are the source's: 100 polls of the PHY window, 10 of EPHY, CSI
    and ERI writes, 20000 of ERI reads, 3000 FIFO waits, 1000 patch waits, 2500
    PHY reset waits, 50000 EEPROM ready polls, 1024 ring slots per service, 100
    SerDes polls, 16 PCI capabilities, 6 BARs, 2001 tries for the management mutex,
    10 to 100 polls in the power and DASH sequences. A channel theorem assumes an answer within the polls. Fuel appears in three
    places: [fold16] has three rounds, enough for any 32-bit sum; the ERI loops
    have four, one per byte at most; [fw_run] counts interpreter steps, and
    [script_cost] bounds them for structured programs, so termination of the
    shipped images is a theorem. Checksum loops have [loop_fuel], more
    than one round per byte. rxInterrupt takes the number of rounds and what the
    chip does before each as arguments: 1025 rounds, one more than the ring has
    slots, are enough when the chip completes nothing meanwhile (so in [KextCtl],
    where the chip acts between the handlers), and one more for each descriptor it
    completes ([kext_rx_interrupt_returns]); rxInterruptVTD gets its rounds as an
    argument, since it may not return; a batch of receive buffers is 16. The page
    size of the kernel extension is 4 KB, that of the x86 build; the set-up with
    the IOMMU ([KextRxMap]) has it as a parameter.

    The interleavings assume sequentially consistent shared accesses: the FIFO
    indices are acquire/release atomics and each slot is written by one side
    before the index that publishes it. In [Driver] a handler runs whole before
    the next event: the work queue serialises interrupts and ticks, and a request
    from a framework thread in the middle of a handler is not interleaved there.
    In [KextCtl] the poller is two events, the test of the flags and the work, with
    any other event between them; each half runs whole. [PollLock] cuts the same
    routines at every access to the flags, and [DextRes] the teardown at every
    asynchronous completion.

    ** Not modelled

    Log output, its counters, and the registers read only for it; the addresses
    of descriptor memory, which the kernel chooses; what the packets in the rings of the DriverKit driver are worth to
    the pools that take them back in Stop (the pools themselves are resources);
    the host application, which is not C. Of linux.h, the type names, the
    byte-order macros and the declarations that no source uses; of the Apple
    headers, everything but the constants. What remains to follow: an
    invariant of rxInterruptVTD against a mapper that may fail (its set-up has
    one, [vtd_rx_setup]), and the ring contents under the interleavings of [PollLock], which says where
    the threads are and not what they do to the rings there. *)
From Stdlib Require Export ZArith Lia.
From stdpp Require Export base tactics list gmap.
#[global] Open Scope Z_scope.

Ltac Zify.zify_post_hook ::= Z.div_mod_to_equations.

(** ** C integers at their width *)

Definition u8 (x : Z) : Z := x mod 256.
Definition u16 (x : Z) : Z := x mod 65536.
Definition u32 (x : Z) : Z := x mod 4294967296.
Definition u64 (x : Z) : Z := x mod 18446744073709551616.

(** Two's complement reading of a 32-bit pattern ([int], [SInt32]). *)
Definition s32 (x : Z) : Z := (x + 2147483648) mod 4294967296 - 2147483648.
Definition s16 (x : Z) : Z := (x + 32768) mod 65536 - 32768.

Declare Scope c_scope.
Delimit Scope c_scope with c.
Infix ".&" := Z.land (at level 40, left associativity) : c_scope.
Infix ".|" := Z.lor (at level 50, left associativity) : c_scope.
Infix ".^" := Z.lxor (at level 50, left associativity) : c_scope.
Infix ".&~" := Z.ldiff (at level 40, left associativity) : c_scope.
#[global] Open Scope c_scope.

(** [if (x & m)] of the C sources. *)
Definition has (x m : Z) : bool := negb (x .& m =? 0).

(** [BIT_n] / [1 << n]. *)
Definition BIT (n : Z) : Z := 2 ^ n.

(** ** Tactics *)

Ltac unfold_width := unfold u8, u16, u32, u64, s32, s16 in *.

(** Linear arithmetic after the width wrap-arounds are unfolded. *)
Ltac width_lia := unfold_width; lia.

(** Split a goal made of nested [if]s on boolean tests, keeping the tests. *)
Ltac bool_cases :=
  repeat match goal with
  | |- context [if ?b then _ else _] =>
      lazymatch type of b with
      | bool => let E := fresh "E" in destruct b eqn:E
      end
  end.

(** Turn boolean comparisons among the hypotheses into propositions. *)
Ltac bool_props :=
  repeat match goal with
  | H : (_ && _)%bool = true |- _ => apply andb_true_iff in H; destruct H
  | H : (_ || _)%bool = false |- _ => apply orb_false_iff in H; destruct H
  | H : negb _ = true |- _ => apply negb_true_iff in H
  | H : negb _ = false |- _ => apply negb_false_iff in H
  | H : (_ =? _) = true |- _ => apply Z.eqb_eq in H
  | H : (_ =? _) = false |- _ => apply Z.eqb_neq in H
  | H : (_ <? _) = true |- _ => apply Z.ltb_lt in H
  | H : (_ <? _) = false |- _ => apply Z.ltb_ge in H
  | H : (_ <=? _) = true |- _ => apply Z.leb_le in H
  | H : (_ <=? _) = false |- _ => apply Z.leb_gt in H
  end.

Create HintDb rtl discriminated.
Create Rewrite HintDb rtl_bits.

(** ** Width lemmas *)

Lemma u8_range x : 0 <= u8 x < 256.
Proof. width_lia. Qed.
Lemma u16_range x : 0 <= u16 x < 65536.
Proof. width_lia. Qed.
Lemma u32_range x : 0 <= u32 x < 4294967296.
Proof. width_lia. Qed.
Lemma u64_range x : 0 <= u64 x < 18446744073709551616.
Proof. width_lia. Qed.
#[export] Hint Resolve u8_range u16_range u32_range u64_range : rtl.

Lemma u8_small x : 0 <= x < 256 -> u8 x = x.
Proof. width_lia. Qed.
Lemma u16_small x : 0 <= x < 65536 -> u16 x = x.
Proof. width_lia. Qed.
Lemma u32_small x : 0 <= x < 4294967296 -> u32 x = x.
Proof. width_lia. Qed.
Lemma u64_small x : 0 <= x < 18446744073709551616 -> u64 x = x.
Proof. width_lia. Qed.

(** ** Masks *)

Lemma land_ones_mod x n : 0 <= n -> x .& (2 ^ n - 1) = x mod 2 ^ n.
Proof.
  intros Hn. replace (2 ^ n - 1) with (Z.ones n) by (rewrite Z.ones_equiv; lia).
  by apply Z.land_ones.
Qed.

Lemma land_mask x m n : 0 <= n -> m = 2 ^ n - 1 -> x .& m = x mod 2 ^ n.
Proof. intros Hn ->. by apply land_ones_mod. Qed.

Lemma land_nonneg_r x m : 0 <= m -> 0 <= x .& m.
Proof. intros H. apply Z.land_nonneg. by right. Qed.

(** A number whose bits from [n] on are clear is its own residue. *)
Lemma bits_bound x n :
  0 <= n -> (forall i, n <= i -> Z.testbit x i = false) -> 0 <= x < 2 ^ n.
Proof.
  intros Hn Hx. assert (E : x = x mod 2 ^ n).
  { apply Z.bits_inj'. intros i Hi. destruct (Z.lt_ge_cases i n) as [Hin|Hin].
    - by rewrite Z.mod_pow2_bits_low.
    - rewrite Z.mod_pow2_bits_high by lia. auto. }
  rewrite E. apply Z.mod_pos_bound. lia.
Qed.

Lemma testbit_high x n i : 0 <= x < 2 ^ n -> n <= i -> Z.testbit x i = false.
Proof.
  intros Hx Hi. destruct (Z.le_gt_cases 0 n) as [Hn|Hn].
  - rewrite <- (Z.mod_small x (2 ^ n)) by done. by apply Z.mod_pow2_bits_high.
  - rewrite Z.pow_neg_r in Hx by lia. lia.
Qed.

Lemma land_bound x m n : 0 <= n -> 0 <= m < 2 ^ n -> 0 <= x .& m < 2 ^ n.
Proof.
  intros Hn Hm. apply bits_bound; [done|]. intros i Hi.
  by rewrite Z.land_spec, (testbit_high m n), andb_false_r.
Qed.

Lemma lor_bound x y n : 0 <= n -> 0 <= x < 2 ^ n -> 0 <= y < 2 ^ n -> 0 <= x .| y < 2 ^ n.
Proof.
  intros Hn Hx Hy. apply bits_bound; [done|]. intros i Hi.
  by rewrite Z.lor_spec, (testbit_high x n), (testbit_high y n).
Qed.

Lemma lxor_bound x y n : 0 <= n -> 0 <= x < 2 ^ n -> 0 <= y < 2 ^ n -> 0 <= x .^ y < 2 ^ n.
Proof.
  intros Hn Hx Hy. apply bits_bound; [done|]. intros i Hi.
  by rewrite Z.lxor_spec, (testbit_high x n), (testbit_high y n).
Qed.

Lemma ldiff_bound x m n : 0 <= n -> 0 <= x < 2 ^ n -> 0 <= x .&~ m < 2 ^ n.
Proof.
  intros Hn Hx. apply bits_bound; [done|]. intros i Hi.
  by rewrite Z.ldiff_spec, (testbit_high x n).
Qed.

Lemma land_shift_disjoint x y n : 0 <= n -> 0 <= y < 2 ^ n -> (x * 2 ^ n) .& y = 0.
Proof.
  intros Hn Hy. rewrite <- Z.shiftl_mul_pow2 by done.
  apply Z.bits_inj'. intros i Hi. rewrite Z.land_spec, Z.bits_0, Z.shiftl_spec by done.
  destruct (Z.lt_ge_cases i n).
  - by rewrite Z.testbit_neg_r by lia.
  - by rewrite (testbit_high y n), andb_false_r.
Qed.

(** Fields that do not overlap: [or] is addition. *)
Lemma lor_add_shift x y n : 0 <= n -> 0 <= y < 2 ^ n -> (x * 2 ^ n) .| y = x * 2 ^ n + y.
Proof.
  intros Hn Hy. pose proof (land_shift_disjoint x y n Hn Hy) as D.
  by rewrite Z.add_nocarry_lxor, Z.lxor_lor.
Qed.

#[export] Hint Rewrite Z.land_spec Z.lor_spec Z.lxor_spec Z.ldiff_spec
  andb_false_r andb_true_r orb_false_r orb_true_r Z.bits_0 : rtl_bits.

(** [1 << n] tests one bit. *)
Lemma has_bit x n : 0 <= n -> has x (BIT n) = Z.testbit x n.
Proof.
  intros Hn. unfold has, BIT. destruct (Z.testbit x n) eqn:E.
  - apply negb_true_iff, Z.eqb_neq. intros H0.
    assert (Z.testbit (x .& 2 ^ n) n = false) as H1 by (by rewrite H0, Z.bits_0).
    by rewrite Z.land_spec, E, Z.pow2_bits_true in H1.
  - apply negb_false_iff, Z.eqb_eq, Z.bits_inj'. intros i Hi.
    rewrite Z.land_spec, Z.bits_0. destruct (decide (i = n)) as [->|Hne].
    + by rewrite E.
    + rewrite Z.pow2_bits_false by done. apply andb_false_r.
Qed.

(** ** Arrays

    A C array of fixed length, indexed by [Z]; a slot never written holds the
    initial value [d] (the drivers zero their arrays when they allocate them). *)

Definition aget {A} (d : A) (a : gmap Z A) (i : Z) : A := default d (a !! i).

Lemma aget_insert_eq {A} (d : A) a i x : aget d (<[i := x]> a) i = x.
Proof. unfold aget. by rewrite lookup_insert_eq. Qed.

Lemma aget_insert_ne {A} (d : A) a i j x : i <> j -> aget d (<[i := x]> a) j = aget d a j.
Proof. intros H. unfold aget. by rewrite lookup_insert_ne. Qed.

Lemma aget_empty {A} (d : A) i : aget d ∅ i = d.
Proof. unfold aget. by rewrite lookup_empty. Qed.

(** ** Positions in a ring of [n] slots *)

Lemma ring_inj n a i j :
  0 < n -> 0 <= i < n -> 0 <= j < n -> (a + i) mod n = (a + j) mod n -> i = j.
Proof.
  intros Hn Hi Hj E.
  assert (H : (i - j) mod n = 0).
  { replace (i - j) with ((a + i) - (a + j)) by lia.
    rewrite Zminus_mod, E, Z.sub_diag. by apply Z.mod_0_l; lia. }
  apply Z.mod_divide in H; [|lia]. destruct H as [k Hk].
  assert (k = 0 \/ k <= -1 \/ 1 <= k) as [->|[?|?]] by lia; nia.
Qed.

(** ** Sums *)

Fixpoint sumZ (l : list Z) : Z := match l with [] => 0 | x :: r => x + sumZ r end.

Lemma sumZ_app l r : sumZ (l ++ r) = sumZ l + sumZ r.
Proof. induction l as [|x l IH]; simpl; lia. Qed.

Lemma sumZ_nonneg l : Forall (fun x => 0 <= x) l -> 0 <= sumZ l.
Proof. induction 1; simpl; lia. Qed.

(** Two tests that differ at one element of a list only. *)
Lemma filter_flip {A} (P Q : A -> bool) (l : list A) (i : A) : NoDup l -> i ∈ l ->
  (forall j, j <> i -> P j = Q j) -> P i = false -> Q i = true ->
  length (List.filter Q l) = S (length (List.filter P l)).
Proof.
  intros Hd Hi He HP HQ. induction l as [|x l IH]; [by apply not_elem_of_nil in Hi|].
  apply NoDup_cons in Hd as [Hx Hd]. apply elem_of_cons in Hi as [->|Hi]; cbn [List.filter].
  - rewrite HP, HQ. cbn [length]. f_equal. f_equal. apply List.filter_ext_in. intros j Hj%list_elem_of_In.
    symmetry. apply He. by intros ->.
  - rewrite (He x) by (by intros ->). destruct (Q x); cbn [length]; by rewrite IH.
Qed.

(** ** Sequences of steps *)

Inductive star {S : Type} (step : S -> S -> Prop) : S -> S -> Prop :=
| star_refl s : star step s s
| star_step s1 s2 s3 : step s1 s2 -> star step s2 s3 -> star step s1 s3.

(** An invariant of every step is an invariant of every sequence of steps. *)
Lemma star_invariant {S : Type} (step : S -> S -> Prop) (P : S -> Prop) :
  (forall s s', P s -> step s s' -> P s') ->
  forall s s', star step s s' -> P s -> P s'.
Proof. intros Hstep s s' Hs. induction Hs; eauto. Qed.

Lemma star_trans {S : Type} (step : S -> S -> Prop) s1 s2 s3 :
  star step s1 s2 -> star step s2 s3 -> star step s1 s3.
Proof. induction 1; eauto using @star_step. Qed.
