(* ===== verification/Fifo.v ===== *)
(** The single-producer/single-consumer packet FIFO of the DriverKit driver
    (RTL8127Driver.cpp, struct PacketFifo).

    - [fifo], [fifoPush], [fifoPop], [fifoSampleDepth]: the operations run
      without interruption, refining a bounded list queue ([BoundedQueue]);
    - [spsc_step]: the same operations cut at every access to shared memory,
      with one producer and one consumer interleaved at will;
    - [mpsc_step]: the same relation with two producers, which is how the
      TX completion FIFOs are used. *)
From S2P Require Import Prelude.

Definition kFifoCapacity : Z := 2048.
Definition kFifoMask : Z := kFifoCapacity - 1.

(** [slots] is zero-filled when allocated, so a slot never written reads as
    the null pointer, [None]. *)
Record fifo (A : Type) := mkFifo {
  slots : gmap Z A;
  head : Z;
  tail : Z;
}.
Arguments mkFifo {A}. Arguments slots {A}. Arguments head {A}. Arguments tail {A}.

Definition fifo_zero {A} : fifo A := mkFifo ∅ 0 0.

Definition fifoPush {A} (f : fifo A) (p : A) : fifo A * bool :=
  let next := u32 (tail f + 1) .& kFifoMask in
  if next =? head f then (f, false)
  else (mkFifo (<[tail f := p]> (slots f)) (head f) next, true).

(** [None] is the null pointer the C code returns when the FIFO is empty. *)
Definition fifoPop {A} (f : fifo A) : fifo A * option A :=
  if head f =? tail f then (f, None)
  else (mkFifo (slots f) (u32 (head f + 1) .& kFifoMask) (tail f), slots f !! head f).

(** One attempt of the sampling loop sees [(head, tail, head again)]; the loop
    makes at most three. *)
Fixpoint fifoSampleDepth (n : nat) (obs : nat -> Z * Z * Z) : Z :=
  match n with
  | O => -1
  | S n' =>
      let '(h, t, h') := obs O in
      if h =? h' then u32 (t - h) .& kFifoMask
      else fifoSampleDepth n' (fun k => obs (S k))
  end.

(** ** The promise to the clients *)

(** A queue of type [Q] that holds at most [bq_capacity] elements in order. *)
Class BoundedQueue (Q : Type -> Type) := {
  bq_empty : forall {A}, Q A;
  bq_push : forall {A}, Q A -> A -> Q A * bool;
  bq_pop : forall {A}, Q A -> Q A * option A;
  bq_depth : forall {A}, Q A -> Z;       (* the diagnostic sample, undisturbed *)
  bq_rep : forall {A}, Q A -> list A -> Prop;
  bq_capacity : nat;
  bq_empty_rep : forall A, bq_rep (@bq_empty A) [];
  bq_rep_fun : forall A (q : Q A) l l', bq_rep q l -> bq_rep q l' -> l = l';
  bq_rep_cap : forall A (q : Q A) l, bq_rep q l -> (length l <= bq_capacity)%nat;
  bq_push_room : forall A (q : Q A) l x, bq_rep q l -> (length l < bq_capacity)%nat ->
    (bq_push q x).2 = true /\ bq_rep (bq_push q x).1 (l ++ [x]);
  bq_push_full : forall A (q : Q A) l x, bq_rep q l -> length l = bq_capacity ->
    bq_push q x = (q, false);
  bq_pop_empty : forall A (q : Q A), bq_rep q [] -> bq_pop q = (q, None);
  bq_pop_cons : forall A (q : Q A) x l, bq_rep q (x :: l) ->
    (bq_pop q).2 = Some x /\ bq_rep (bq_pop q).1 l;
  bq_depth_rep : forall A (q : Q A) l, bq_rep q l -> bq_depth q = Z.of_nat (length l);
}.

(** *** Batches: the loops of the queue actions *)

Section Batch.
Context {Q : Type -> Type} `{BQ : !BoundedQueue Q} {A : Type}.

(** [while (count < arrayCapacity) { pkt = fifoPop(...); if (!pkt) break; ... }] *)
Fixpoint popAll (capacity : nat) (f : Q A) : Q A * list A :=
  match capacity with
  | O => (f, [])
  | S n => match bq_pop f with
           | (f', None) => (f', [])
           | (f', Some p) => let '(f'', l) := popAll n f' in (f'', p :: l)
           end
  end.

(** [while (accepted < packetCount) { if (!fifoPush(...)) break; accepted++; }] *)
Fixpoint pushAll (f : Q A) (ps : list A) : Q A * nat :=
  match ps with
  | [] => (f, 0%nat)
  | p :: r => match bq_push f p with
              | (f', true) => let '(f'', n) := pushAll f' r in (f'', S n)
              | (f', false) => (f', 0%nat)
              end
  end.

Lemma popAll_spec n : forall (f : Q A) l, bq_rep f l ->
  bq_rep (popAll n f).1 (drop n l) /\ (popAll n f).2 = take n l.
Proof.
  induction n as [|n IH]; intros f l Hf; [done|]. simpl. destruct l as [|x l].
  - rewrite (bq_pop_empty _ f Hf). done.
  - destruct (bq_pop_cons _ f x l Hf) as [Hx Hl]. destruct (bq_pop f) as [f' y]; simpl in *. subst y.
    destruct (IH f' l Hl) as [H1 H2]. destruct (popAll n f') as [f'' l']; simpl in *.
    by rewrite H2.
Qed.

Lemma pushAll_spec ps : forall (f : Q A) l, bq_rep f l ->
  exists n, (pushAll f ps).2 = n /\ (n <= length ps)%nat /\ bq_rep (pushAll f ps).1 (l ++ take n ps) /\
    ((n < length ps)%nat -> length (l ++ take n ps) = bq_capacity).
Proof.
  induction ps as [|p ps IH]; intros f l Hf; simpl.
  { exists 0%nat. rewrite app_nil_r. split_and!; try done; lia. }
  pose proof (bq_rep_cap _ _ _ Hf). destruct (decide (length l < bq_capacity)%nat) as [Hr|Hr].
  - destruct (bq_push_room _ f l p Hf Hr) as [Hok Hrep]. destruct (bq_push f p) as [f' ok]; simpl in *. subst ok.
    destruct (IH f' _ Hrep) as (n&Hn&Hle&Hrep'&Hfull). destruct (pushAll f' ps) as [f'' m]; simpl in *. subst m.
    exists (S n). rewrite <- app_assoc in *. split_and!; try done; [lia|]. intros. apply Hfull. lia.
  - assert (length l = bq_capacity) as E by lia. rewrite (bq_push_full _ f l p Hf E).
    exists 0%nat. simpl. rewrite app_nil_r. split_and!; try done; lia.
Qed.
End Batch.

(** ** The representation *)

Definition fifo_rep {A} (f : fifo A) (l : list A) : Prop :=
  0 <= head f < 2048 /\
  tail f = (head f + Z.of_nat (length l)) mod 2048 /\
  (length l <= 2047)%nat /\
  forall i x, l !! i = Some x -> slots f !! ((head f + Z.of_nat i) mod 2048) = Some x.

Lemma mask_mod x : 0 <= x < 4294967296 -> u32 x .& kFifoMask = x mod 2048.
Proof. intros H. rewrite u32_small by done. apply (land_ones_mod x 11). lia. Qed.

Lemma rep_tail_range {A} (f : fifo A) l : fifo_rep f l -> 0 <= tail f < 2048.
Proof. intros (?&->&_). apply Z.mod_pos_bound. lia. Qed.

Lemma next_tail {A} (f : fifo A) l : fifo_rep f l ->
  u32 (tail f + 1) .& kFifoMask = (head f + Z.of_nat (S (length l))) mod 2048.
Proof.
  intros H. pose proof (rep_tail_range f l H). destruct H as (?&Ht&_).
  rewrite mask_mod by lia. rewrite Ht. lia.
Qed.

Lemma next_head (h : Z) : 0 <= h < 2048 -> u32 (h + 1) .& kFifoMask = (h + 1) mod 2048.
Proof. intros H. apply mask_mod. lia. Qed.

(** The push test sees a full queue exactly when 2047 elements are held. *)
Lemma next_is_head {A} (f : fifo A) l : fifo_rep f l ->
  (u32 (tail f + 1) .& kFifoMask =? head f) = bool_decide (length l = 2047%nat).
Proof.
  intros H. rewrite (next_tail f l H). destruct H as (?&_&?&_).
  case_bool_decide; [apply Z.eqb_eq | apply Z.eqb_neq]; lia.
Qed.

Lemma head_is_tail {A} (f : fifo A) l : fifo_rep f l ->
  (head f =? tail f) = bool_decide (l = []).
Proof.
  intros (?&Ht&?&_). rewrite Ht.
  destruct l as [|x l]; simpl length in *.
  - rewrite bool_decide_eq_true_2 by done. apply Z.eqb_eq. lia.
  - rewrite bool_decide_eq_false_2 by done. apply Z.eqb_neq. lia.
Qed.

(** Storing at [tail] leaves the queued elements alone. *)
Lemma slots_store {A} (f : fifo A) l p i x : fifo_rep f l -> (length l < 2048)%nat ->
  (l ++ [p]) !! i = Some x ->
  <[tail f := p]> (slots f) !! ((head f + Z.of_nat i) mod 2048) = Some x.
Proof.
  intros (?&Ht&_&Hs) Hl Hi. rewrite Ht.
  apply lookup_app_Some in Hi as [Hi|[Hge Hi]].
  - pose proof (lookup_lt_Some _ _ _ Hi). rewrite lookup_insert_ne; [by apply Hs|].
    intros E. apply ring_inj in E; lia.
  - apply list_lookup_singleton_Some in Hi as [? <-].
    replace i with (length l) by lia. by rewrite lookup_insert_eq.
Qed.

Lemma rep_push {A} (f : fifo A) l p : fifo_rep f l -> (length l < 2047)%nat ->
  fifo_rep (mkFifo (<[tail f := p]> (slots f)) (head f) (u32 (tail f + 1) .& kFifoMask))
           (l ++ [p]).
Proof.
  intros H Hl. rewrite (next_tail f l H). pose proof H as (?&_&_&_).
  unfold fifo_rep; simpl. rewrite length_app; simpl. split_and!; [lia..| |lia|].
  - f_equal. lia.
  - intros i x. apply slots_store; [done|lia].
Qed.

Lemma rep_pop {A} (f : fifo A) x l : fifo_rep f (x :: l) ->
  slots f !! head f = Some x /\
  fifo_rep (mkFifo (slots f) (u32 (head f + 1) .& kFifoMask) (tail f)) l.
Proof.
  intros (Hh&Ht&Hl&Hs). simpl length in *. split.
  - specialize (Hs 0%nat x eq_refl). rewrite Z.add_0_r in Hs.
    by rewrite Z.mod_small in Hs.
  - rewrite next_head by done. unfold fifo_rep; simpl. split_and!; [lia..| |lia|].
    + rewrite Ht. rewrite Zplus_mod_idemp_l. f_equal. lia.
    + intros i y Hi. rewrite Zplus_mod_idemp_l.
      replace (head f + 1 + Z.of_nat i) with (head f + Z.of_nat (S i)) by lia. by apply Hs.
Qed.

Lemma fifo_rep_zero A : fifo_rep (@fifo_zero A) [].
Proof. unfold fifo_rep; simpl. split_and!; try lia; done. Qed.

Lemma fifo_rep_fun A (f : fifo A) l l' : fifo_rep f l -> fifo_rep f l' -> l = l'.
Proof.
  intros (?&Ht&?&Hs) (_&Ht'&?&Hs').
  assert (length l = length l') as E by lia.
  apply list_eq. intros i. destruct (l !! i) as [x|] eqn:Ex.
  - assert (is_Some (l' !! i)) as [y Ey].
    { apply lookup_lt_is_Some. rewrite <- E. by eapply lookup_lt_Some. }
    rewrite Ey. apply Hs in Ex. apply Hs' in Ey. congruence.
  - symmetry. apply lookup_ge_None. rewrite <- E. by apply lookup_ge_None.
Qed.

Lemma fifo_push_room A (f : fifo A) l x : fifo_rep f l -> (length l < 2047)%nat ->
  (fifoPush f x).2 = true /\ fifo_rep (fifoPush f x).1 (l ++ [x]).
Proof.
  intros H Hl. unfold fifoPush. rewrite (next_is_head f l H).
  rewrite bool_decide_eq_false_2 by lia. split; [done|]. by apply rep_push.
Qed.

Lemma fifo_push_full A (f : fifo A) l x : fifo_rep f l -> length l = 2047%nat ->
  fifoPush f x = (f, false).
Proof.
  intros H Hl. unfold fifoPush. rewrite (next_is_head f l H).
  by rewrite bool_decide_eq_true_2.
Qed.

Lemma fifo_pop_empty A (f : fifo A) : fifo_rep f [] -> fifoPop f = (f, None).
Proof. intros H. unfold fifoPop. by rewrite (head_is_tail f [] H). Qed.

Lemma fifo_pop_cons A (f : fifo A) x l : fifo_rep f (x :: l) ->
  (fifoPop f).2 = Some x /\ fifo_rep (fifoPop f).1 l.
Proof.
  intros H. unfold fifoPop. rewrite (head_is_tail f _ H).
  rewrite bool_decide_eq_false_2 by done. by apply rep_pop.
Qed.

(** What the sampling loop sees while neither side moves. *)
Definition quiet_obs {A} (f : fifo A) : nat -> Z * Z * Z := fun _ => (head f, tail f, head f).

Lemma fifo_depth_rep A (f : fifo A) l :
  fifo_rep f l -> fifoSampleDepth 3 (quiet_obs f) = Z.of_nat (length l).
Proof.
  intros (Hh&Ht&Hl&_). simpl. rewrite Z.eqb_refl, Ht. unfold u32.
  rewrite (land_mask _ _ 11) by done. change (2 ^ 11) with 2048. lia.
Qed.

#[export] Instance fifo_bounded_queue : BoundedQueue fifo := {|
  bq_empty := @fifo_zero;
  bq_push := @fifoPush;
  bq_pop := @fifoPop;
  bq_depth A f := fifoSampleDepth 3 (quiet_obs f);
  bq_rep := @fifo_rep;
  bq_capacity := 2047;
  bq_empty_rep := fifo_rep_zero;
  bq_rep_fun := fifo_rep_fun;
  bq_rep_cap A q l H := proj1 (proj2 (proj2 H));
  bq_push_room := fifo_push_room;
  bq_push_full := fifo_push_full;
  bq_pop_empty := fifo_pop_empty;
  bq_pop_cons := fifo_pop_cons;
  bq_depth_rep := fifo_depth_rep;
|}.

(** ** Sequences of calls against the abstract queue *)

Inductive fifo_call (A : Type) := CallPush (p : A) | CallPop.
Arguments CallPush {A}. Arguments CallPop {A}.

Inductive fifo_answer (A : Type) := Pushed (ok : bool) | Popped (p : option A).
Arguments Pushed {A}. Arguments Popped {A}.

Fixpoint run_fifo {A} (f : fifo A) (cs : list (fifo_call A)) : list (fifo_answer A) :=
  match cs with
  | [] => []
  | CallPush p :: r => let '(f', ok) := fifoPush f p in Pushed ok :: run_fifo f' r
  | CallPop :: r => let '(f', x) := fifoPop f in Popped x :: run_fifo f' r
  end.

(** What the FIFO promises: a list of at most [cap] packets. *)
Fixpoint run_queue {A} (cap : nat) (l : list A) (cs : list (fifo_call A)) : list (fifo_answer A) :=
  match cs with
  | [] => []
  | CallPush p :: r =>
      if (length l <? cap)%nat then Pushed true :: run_queue cap (l ++ [p]) r
      else Pushed false :: run_queue cap l r
  | CallPop :: r =>
      match l with
      | [] => Popped None :: run_queue cap [] r
      | x :: l' => Popped (Some x) :: run_queue cap l' r
      end
  end.

Lemma run_fifo_rep {A} (cs : list (fifo_call A)) : forall f l,
  fifo_rep f l -> run_fifo f cs = run_queue 2047 l cs.
Proof.
  induction cs as [|[p|] cs IH]; intros f l H; [done|..]; simpl.
  - destruct (Nat.ltb_spec (length l) 2047) as [Hl|Hl].
    + destruct (fifo_push_room A f l p H Hl) as [Hok Hr].
      destruct (fifoPush f p) as [f' ok]; simpl in *. subst. f_equal. by apply IH.
    + assert (length l = 2047%nat) as El by (destruct H as (_&_&?&_); lia).
      rewrite (fifo_push_full A f l p H El). f_equal. by apply IH.
  - destruct l as [|x l].
    + rewrite (fifo_pop_empty A f H). f_equal. by apply IH.
    + destruct (fifo_pop_cons A f x l H) as [Hx Hr].
      destruct (fifoPop f) as [f' y]; simpl in *. subst. f_equal. by apply IH.
Qed.

(** ** One producer and one consumer, interleaved at every shared access *)

Section Interleaving.
Context {A : Type}.

(** Where a thread is inside [fifoPush]: [PTail] has loaded [tail], [PStore]
    has seen room, [PPublish] has stored the packet. *)
Inductive producer :=
| PIdle
| PTail (p : A) (t : Z)
| PStore (p : A) (t next : Z)
| PPublish (p : A) (next : Z).

(** Where a thread is inside [fifoPop]: [CHead] has loaded [head], [CRead]
    has seen an element, [CPublish] has read the slot. *)
Inductive consumer :=
| CIdle
| CHead (h : Z)
| CRead (h : Z)
| CPublish (h : Z) (x : option A).

(** [pushed]: packets whose push returned true; [popped]: what the pops that
    saw an element returned, in order. *)
Record sys := mkSys {
  shared : fifo A;
  prod : producer;
  cons : consumer;
  pushed : list A;
  popped : list (option A);
}.

Inductive prod_step : fifo A -> producer -> fifo A -> producer -> list A -> Prop :=
| p_begin f p : prod_step f PIdle f (PTail p (tail f)) []
| p_full f p t : u32 (t + 1) .& kFifoMask = head f -> prod_step f (PTail p t) f PIdle []
| p_room f p t : u32 (t + 1) .& kFifoMask <> head f ->
    prod_step f (PTail p t) f (PStore p t (u32 (t + 1) .& kFifoMask)) []
| p_store f p t n :
    prod_step f (PStore p t n) (mkFifo (<[t := p]> (slots f)) (head f) (tail f)) (PPublish p n) []
| p_publish f p n :
    prod_step f (PPublish p n) (mkFifo (slots f) (head f) n) PIdle [p].

Inductive cons_step : fifo A -> consumer -> fifo A -> consumer -> list (option A) -> Prop :=
| c_begin f : cons_step f CIdle f (CHead (head f)) []
| c_empty f h : h = tail f -> cons_step f (CHead h) f CIdle []
| c_avail f h : h <> tail f -> cons_step f (CHead h) f (CRead h) []
| c_read f h : cons_step f (CRead h) f (CPublish h (slots f !! h)) []
| c_publish f h x :
    cons_step f (CPublish h x) (mkFifo (slots f) (u32 (h + 1) .& kFifoMask) (tail f)) CIdle [x].

Inductive spsc_step : sys -> sys -> Prop :=
| spsc_prod f f' pr pr' co ps qs out : prod_step f pr f' pr' out ->
    spsc_step (mkSys f pr co ps qs) (mkSys f' pr' co (ps ++ out) qs)
| spsc_cons f f' pr co co' ps qs out : cons_step f co f' co' out ->
    spsc_step (mkSys f pr co ps qs) (mkSys f' pr co' ps (qs ++ out)).

Definition sys_init : sys := mkSys fifo_zero PIdle CIdle [] [].

Definition prod_inv (f : fifo A) (l : list A) (pr : producer) : Prop :=
  match pr with
  | PIdle => True
  | PTail _ t => t = tail f
  | PStore _ t n => t = tail f /\ n = u32 (tail f + 1) .& kFifoMask /\ (length l < 2047)%nat
  | PPublish p n => n = u32 (tail f + 1) .& kFifoMask /\ (length l < 2047)%nat /\
                    slots f !! tail f = Some p
  end.

Definition cons_inv (f : fifo A) (l : list A) (co : consumer) : Prop :=
  match co with
  | CIdle => True
  | CHead h => h = head f
  | CRead h => h = head f /\ l <> []
  | CPublish h x => h = head f /\ exists y l', l = y :: l' /\ x = Some y
  end.

Definition spsc_inv (s : sys) : Prop :=
  exists l done,
    fifo_rep (shared s) l /\ prod_inv (shared s) l (prod s) /\ cons_inv (shared s) l (cons s) /\
    popped s = Some <$> done /\ pushed s = done ++ l.

Lemma rep_store (f : fifo A) l p : fifo_rep f l -> (length l < 2047)%nat ->
  fifo_rep (mkFifo (<[tail f := p]> (slots f)) (head f) (tail f)) l.
Proof.
  intros H Hl. pose proof H as (?&?&?&_). unfold fifo_rep; simpl.
  split_and!; [lia..|done|lia|]. intros i x Hi. apply (slots_store f l p); [done|lia|].
  by apply lookup_app_l_Some.
Qed.

Lemma rep_publish (f : fifo A) l p : fifo_rep f l -> (length l < 2047)%nat ->
  slots f !! tail f = Some p ->
  fifo_rep (mkFifo (slots f) (head f) (u32 (tail f + 1) .& kFifoMask)) (l ++ [p]).
Proof.
  intros H Hl Hp. pose proof (rep_push f l p H Hl) as R.
  by rewrite insert_id in R.
Qed.

(** A producer step keeps the representation and what the consumer knows. *)
Lemma prod_step_inv f f' pr pr' out l :
  prod_step f pr f' pr' out -> fifo_rep f l -> prod_inv f l pr ->
  fifo_rep f' (l ++ out) /\ prod_inv f' (l ++ out) pr' /\
  forall co, cons_inv f l co -> cons_inv f' (l ++ out) co.
Proof.
  intros Hs Hr Hp.
  destruct Hs as [f p|f p t Hfull|f p t Hroom|f p t n|f p n]; simpl in Hp;
    rewrite ?app_nil_r; split_and!; simpl; try done.
  - subst t. split_and!; try done.
    assert (length l <> 2047%nat); [|destruct Hr as (_&_&?&_); lia].
    intros E. pose proof (next_is_head f l Hr) as T.
    rewrite bool_decide_eq_true_2 in T by done. apply Hroom. by apply Z.eqb_eq.
  - destruct Hp as (->&->&?). by apply rep_store.
  - destruct Hp as (->&->&?). split_and!; try done. by rewrite lookup_insert_eq.
  - destruct Hp as (->&?&?). by apply rep_publish.
  - intros [|h|h|h x]; simpl; try done.
    + intros [-> ?]. split; [done|]. by destruct l.
    + intros [-> (y&l'&->&->)]. split; [done|]. by exists y, (l' ++ [p]).
Qed.

(** A consumer step returns the oldest element and keeps what the producer knows. *)
Lemma cons_step_inv f f' co co' out l :
  cons_step f co f' co' out -> fifo_rep f l -> cons_inv f l co ->
  exists l' xs, l = xs ++ l' /\ out = Some <$> xs /\
    fifo_rep f' l' /\ cons_inv f' l' co' /\
    forall pr, prod_inv f l pr -> prod_inv f' l' pr.
Proof.
  intros Hs Hr Hc.
  destruct Hs as [f|f h He|f h Hne|f h|f h x]; simpl in Hc;
    try (exists l, []; split_and!; simpl; done).
  - exists l, []. subst h. split_and!; simpl; try done. split; [done|].
    intros ->. pose proof (head_is_tail f [] Hr) as T. apply Hne. by apply Z.eqb_eq.
  - exists l, []. destruct Hc as [-> Hl]. split_and!; simpl; try done. split; [done|].
    destruct l as [|y l]; [done|]. exists y, l. split; [done|]. by apply (rep_pop f y l).
  - destruct Hc as [-> (y&l'&->&->)]. exists l', [y]. split_and!; simpl; try done.
    + by apply (rep_pop f y l').
    + intros [|p t|p t n|p n]; simpl; try done.
      * intros (?&?&?). split_and!; [done..|lia].
      * intros (?&?&?). split_and!; [done|lia|done].
Qed.

Lemma spsc_inv_step s s' : spsc_inv s -> spsc_step s s' -> spsc_inv s'.
Proof.
  intros (l&done&Hr&Hp&Hc&Hpop&Hpush) Hs.
  destruct Hs as [f f' pr pr' co ps qs out Hs|f f' pr co co' ps qs out Hs]; simpl in *.
  - destruct (prod_step_inv _ _ _ _ _ _ Hs Hr Hp) as (?&?&?).
    exists (l ++ out), done. simpl. split_and!; auto. rewrite Hpush. by rewrite app_assoc.
  - destruct (cons_step_inv _ _ _ _ _ _ Hs Hr Hc) as (l'&xs&->&->&?&?&Hpr).
    exists l', (done ++ xs). simpl. split_and!; auto.
    + rewrite Hpop. by rewrite fmap_app.
    + rewrite Hpush. by rewrite app_assoc.
Qed.

Lemma spsc_inv_init : spsc_inv sys_init.
Proof. exists [], []. split_and!; try done. apply fifo_rep_zero. Qed.

Lemma spsc_reachable_inv s : star spsc_step sys_init s -> spsc_inv s.
Proof.
  intros H. eapply (star_invariant spsc_step spsc_inv spsc_inv_step); eauto using spsc_inv_init.
Qed.

(** An uninterrupted pass of the producer is [fifoPush], of the consumer [fifoPop]. *)
Lemma fifoPush_steps f p co ps qs :
  star spsc_step (mkSys f PIdle co ps qs)
    (mkSys (fifoPush f p).1 PIdle co (ps ++ if (fifoPush f p).2 then [p] else []) qs).
Proof.
  eapply star_step; [apply spsc_prod, (p_begin f p)|]. rewrite app_nil_r.
  unfold fifoPush. destruct (Z.eqb_spec (u32 (tail f + 1) .& kFifoMask) (head f)) as [E|E].
  - eapply star_step; [by apply spsc_prod, p_full|]. rewrite app_nil_r. simpl.
    rewrite app_nil_r. apply star_refl.
  - eapply star_step; [by apply spsc_prod, p_room|].
    eapply star_step; [by apply spsc_prod, p_store|].
    eapply star_step; [by apply spsc_prod, p_publish|]. simpl.
    rewrite !app_nil_r. apply star_refl.
Qed.

(** Two producers over one FIFO. *)
Inductive mpsc_step : fifo A * producer * producer * list A ->
                      fifo A * producer * producer * list A -> Prop :=
| mpsc_1 f f' p1 p1' p2 ps out : prod_step f p1 f' p1' out ->
    mpsc_step (f, p1, p2, ps) (f', p1', p2, ps ++ out)
| mpsc_2 f f' p1 p2 p2' ps out : prod_step f p2 f' p2' out ->
    mpsc_step (f, p1, p2, ps) (f', p1, p2', ps ++ out).
End Interleaving.
Arguments producer : clear implicits. Arguments consumer : clear implicits.
Arguments sys : clear implicits.

(** ** Properties *)

(** C13: every sequence of [fifoPush]/[fifoPop] calls on a fresh FIFO gives
    exactly the answers of a list queue that holds at most 2047 packets: a push
    fails only when 2047 packets wait, pops come back in push order, none is
    lost, duplicated or invented, and the empty FIFO answers null. *)
Theorem fifo_refines_queue {A} (cs : list (fifo_call A)) :
  run_fifo fifo_zero cs = run_queue 2047 [] cs.
Proof. apply run_fifo_rep, fifo_rep_zero. Qed.

(** C20: however one producer and one consumer interleave their loads and
    stores, the packets popped so far are a prefix, in order, of the packets
    pushed so far (no pop reads a null or stale slot), at most 2047 are in
    between, and while the producer is about to store into a slot and the
    consumer about to read one, the two slots differ (no data race on
    [slots]). *)
Theorem spsc_fifo_safe {A} (s : sys A) :
  star spsc_step sys_init s ->
  (exists done rest, popped s = Some <$> done /\ pushed s = done ++ rest /\
                     (length rest <= 2047)%nat) /\
  (forall p t n h, prod s = PStore p t n -> cons s = CRead h -> t <> h).
Proof.
  intros (l&done&Hr&Hp&Hc&Hpop&Hpush)%spsc_reachable_inv. split.
  - exists done, l. destruct Hr as (_&_&?&_). auto.
  - intros p t n h Ep Ec. rewrite Ep in Hp. rewrite Ec in Hc.
    destruct Hp as (->&_&_), Hc as (->&Hl). intros E.
    pose proof (head_is_tail _ _ Hr) as T. rewrite E, Z.eqb_refl in T.
    by rewrite bool_decide_eq_false_2 in T.
Qed.

(** A producer about to store its second packet while the consumer is about
    to read the first. *)
Definition spsc_example : sys Z :=
  mkSys (mkFifo (<[0 := 7]> ∅) 0 1) (PStore 8 1 2) (CRead 0) [7] [].

Lemma spsc_example_reachable : star spsc_step sys_init spsc_example.
Proof.
  eapply star_trans; [apply (fifoPush_steps fifo_zero 7 CIdle [] [])|].
  eapply star_step; [apply spsc_prod, (p_begin _ 8)|].
  eapply star_step; [apply spsc_prod, p_room; vm_compute; discriminate|].
  eapply star_step; [apply spsc_cons, c_begin|].
  eapply star_step; [apply spsc_cons, c_avail; vm_compute; discriminate|].
  apply star_refl.
Qed.

Lemma spsc_fifo_safe_witness :
  star spsc_step sys_init spsc_example /\ (1 : Z) <> 0 /\
  exists done rest, popped spsc_example = Some <$> done /\ pushed spsc_example = done ++ rest /\
                    (length rest <= 2047)%nat.
Proof.
  pose proof (spsc_fifo_safe spsc_example spsc_example_reachable) as [H1 H2].
  split; [exact spsc_example_reachable|]. split; [|exact H1].
  exact (H2 8 1 2 0 eq_refl eq_refl).
Defined.

(** With two producers the FIFO loses packets: two pushes can both return
    true while the FIFO ends up holding only one of the packets. The TX
    completion FIFOs are used this way: txDequeueAction (framework thread)
    pushes rejected packets and txRingReclaim (work queue) pushes completed
    ones, with no lock in common. *)
Theorem two_producers_lose_a_packet :
  exists f : fifo Z,
    star mpsc_step (fifo_zero, PIdle, PIdle, []) (f, PIdle, PIdle, [7; 8]) /\
    fifo_rep f [8].
Proof.
  exists (mkFifo (<[0 := 8]> (<[0 := 7]> ∅)) 0 1). split.
  - eapply star_step; [apply mpsc_1, (p_begin _ 7)|].
    eapply star_step; [apply mpsc_1, p_room; vm_compute; discriminate|].
    eapply star_step; [apply mpsc_2, (p_begin _ 8)|].
    eapply star_step; [apply mpsc_2, p_room; vm_compute; discriminate|].
    eapply star_step; [apply mpsc_1, p_store|].
    eapply star_step; [apply mpsc_2, p_store|].
    eapply star_step; [apply mpsc_1, p_publish|].
    eapply star_step; [apply mpsc_2, p_publish|]. apply star_refl.
  - unfold fifo_rep; simpl. split_and!; try lia.
    intros [|i] x Hi; [|done]. injection Hi as <-. reflexivity.
Qed.

(** sampled while neither side moves, [fifoSampleDepth] is the number of
    packets waiting; whatever it observes, the sample is -1 or a depth the
    FIFO can have. *)
Theorem fifo_sample_depth_sound {A} (f : fifo A) l :
  fifo_rep f l ->
  fifoSampleDepth 3 (quiet_obs f) = Z.of_nat (length l) /\
  forall obs, -1 <= fifoSampleDepth 3 obs <= 2047.
Proof.
  intros Hrep. split; [by apply fifo_depth_rep|].
    assert (B : forall x, 0 <= u32 x .& kFifoMask < 2 ^ 11) by
      (intros x; apply land_bound; [lia|by vm_compute]).
    intros obs. simpl. destruct (obs 0%nat) as [[h t] h'], (obs 1%nat) as [[h1 t1] h1'],
      (obs 2%nat) as [[h2 t2] h2'].
    pose proof (B (t - h)); pose proof (B (t1 - h1)); pose proof (B (t2 - h2)).
    bool_cases; lia.
Qed.

Lemma fifo_sample_depth_sound_witness :
  fifo_rep (fifoPush fifo_zero 5).1 [5] /\
  fifoSampleDepth 3 (fun _ => (0, 1, 0)) = 1.
Proof.
  assert (H : fifo_rep (fifoPush fifo_zero 5).1 [5])
    by (apply (fifo_push_room Z fifo_zero [] 5); [apply fifo_rep_zero|simpl; lia]).
  split; [exact H|]. exact (proj1 (fifo_sample_depth_sound _ _ H)).
Defined.
