(* ===== verification/Frame.v ===== *)
(** Frame memory and the buffer view of the DriverKit transmit path
    (RTL8127TxBuffer.h): byte loads and stores that fail outside mapped
    memory, big-endian words, and the resolution of a packet's offset into a
    CPU address and a DMA address. *)
From S2P Require Import Prelude.

(** ** Byte memory

    A partial map from addresses to bytes; an access outside it is undefined
    behaviour of the C code, the value [None]. *)

Abbreviation mem := (gmap Z Z).

Definition ld8 (m : mem) (a : Z) : option Z := u8 <$> m !! a.

Definition st8 (m : mem) (a v : Z) : option mem :=
  match m !! a with Some _ => Some (<[a := u8 v]> m) | None => None end.

(** [(uint16_t)(p[0] << 8 | p[1])] *)
Definition be16 (hi lo : Z) : Z := u16 (Z.shiftl hi 8 .| lo).

Definition ld16be (m : mem) (a : Z) : option Z :=
  hi ← ld8 m a; lo ← ld8 m (a + 1); Some (be16 hi lo).

(** A [uint16_t] load on the little-endian hosts the driver runs on. *)
Definition ld16 (m : mem) (a : Z) : option Z :=
  lo ← ld8 m a; hi ← ld8 m (a + 1); Some (be16 hi lo).

Definition st16 (m : mem) (a v : Z) : option mem :=
  m1 ← st8 m a v; st8 m1 (a + 1) (Z.shiftr v 8).

Definition bswap16 (v : Z) : Z := be16 (u8 v) (u8 (Z.shiftr v 8)).

(** [n] bytes from [a] on are mapped. *)
Definition mapped (m : mem) (a n : Z) : Prop := forall i, 0 <= i < n -> is_Some (m !! (a + i)).

(** Two memories that agree except on [[a, a + n)]. *)
Definition same_except (m m' : mem) (a n : Z) : Prop :=
  (forall b, is_Some (m !! b) <-> is_Some (m' !! b)) /\ forall b, ~ (a <= b < a + n) -> m !! b = m' !! b.

(** ** The buffer view *)

(** Both fields are zero in the view of a rejected packet. *)
Record RTL8127TxBufferView := mkView { view_frame : Z; view_iova : Z }.

Definition UINT64_MAX : Z := 18446744073709551615.

Definition rtl8127TxBufferView (baseVA baseIOVA offset length capacity : Z)
    : bool * RTL8127TxBufferView :=
  if ((baseVA =? 0) || (length =? 0) || (offset >? capacity)
      || (length >? u64 (capacity - offset))
      || (baseVA >? u64 (UINT64_MAX - offset)) || (baseIOVA >? u64 (UINT64_MAX - offset)))%bool
  then (false, mkView 0 0)
  else (true, mkView (u64 (baseVA + offset)) (u64 (baseIOVA + offset))).

(** ** Lemmas *)

Lemma ld8_range m a v : ld8 m a = Some v -> 0 <= v < 256.
Proof. unfold ld8. destruct (m !! a); simpl; intros H; simplify_eq. apply u8_range. Qed.

Lemma ld8_mapped m a n i : mapped m a n -> 0 <= i < n -> exists v, ld8 m (a + i) = Some v /\ 0 <= v < 256.
Proof.
  intros H Hi. destruct (H i Hi) as [x Hx]. exists (u8 x). unfold ld8. rewrite Hx.
  split; [done|apply u8_range].
Qed.

Lemma be16_sum hi lo : 0 <= hi < 256 -> 0 <= lo < 256 -> be16 hi lo = hi * 256 + lo.
Proof.
  intros ??. unfold be16. rewrite Z.shiftl_mul_pow2 by lia.
  rewrite lor_add_shift by lia. rewrite u16_small; lia.
Qed.

Lemma be16_range hi lo : 0 <= be16 hi lo < 65536.
Proof. apply u16_range. Qed.

Lemma bswap16_be16 hi lo : 0 <= hi < 256 -> 0 <= lo < 256 -> bswap16 (be16 hi lo) = be16 lo hi.
Proof.
  intros ??. unfold bswap16. rewrite (be16_sum hi lo) by done.
  f_equal; [width_lia|]. rewrite Z.shiftr_div_pow2 by lia. width_lia.
Qed.

(** Swapping a little-endian load gives the big-endian word. *)
Lemma ld16_bswap m a v : ld16be m a = Some v <-> exists w, ld16 m a = Some w /\ bswap16 w = v.
Proof.
  unfold ld16be, ld16. destruct (ld8 m a) as [x|] eqn:Ex; simpl.
  2:{ split; [done|]. by intros (?&?&_). }
  destruct (ld8 m (a + 1)) as [y|] eqn:Ey; simpl.
  2:{ split; [done|]. by intros (?&?&_). }
  apply ld8_range in Ex, Ey. split.
  - intros [= <-]. eexists. split; [done|]. by rewrite bswap16_be16.
  - intros (w&[= <-]&<-). by rewrite bswap16_be16.
Qed.

Lemma ld16be_mapped m a : mapped m a 2 -> exists v, ld16be m a = Some v /\ 0 <= v < 65536.
Proof.
  intros H. destruct (ld8_mapped m a 2 0 H) as (x&Hx&?); [lia|].
  destruct (ld8_mapped m a 2 1 H) as (y&Hy&?); [lia|]. rewrite Z.add_0_r in Hx.
  unfold ld16be. rewrite Hx, Hy. simpl. eexists. split; [done|]. apply be16_range.
Qed.

Lemma mapped_sub m a n b k : mapped m a n -> a <= b -> b + k <= a + n -> mapped m b k.
Proof.
  intros H ?? i Hi. replace (b + i) with (a + (b - a + i)) by lia. apply H. lia.
Qed.

Lemma st8_mapped m a v : is_Some (m !! a) -> st8 m a v = Some (<[a := u8 v]> m).
Proof. intros [x Hx]. unfold st8. by rewrite Hx. Qed.

Lemma insert_mapped (m : mem) a v b :
  is_Some (m !! a) -> is_Some (m !! b) <-> is_Some (<[a := v]> m !! b).
Proof.
  intros H. destruct (decide (a = b)) as [<-|Hne].
  - by rewrite lookup_insert_eq.
  - by rewrite lookup_insert_ne.
Qed.

Lemma same_except_refl m a n : same_except m m a n.
Proof. done. Qed.

Lemma same_except_mapped m m' a n b k : same_except m m' a n -> mapped m b k -> mapped m' b k.
Proof.
  intros [Hd _] Hm i Hi. apply Hd. by apply Hm.
Qed.

Lemma same_except_weaken m m' a n b k : same_except m m' a n -> b <= a -> a + n <= b + k ->
  same_except m m' b k.
Proof. intros [Hd H] ??. split; [done|]. intros c Hc. apply H. lia. Qed.

Lemma same_except_ld8 m m' a n b : same_except m m' a n -> ~ (a <= b < a + n) -> ld8 m' b = ld8 m b.
Proof. intros [_ H] Hb. unfold ld8. by rewrite H. Qed.

(** Storing a 16-bit value big-endian: two byte stores, read back whole. *)
Lemma st16be_spec m a v : mapped m a 2 -> 0 <= v < 65536 ->
  exists m1 m', st8 m a (Z.shiftr v 8) = Some m1 /\ st8 m1 (a + 1) v = Some m' /\
    same_except m m' a 2 /\ ld16be m' a = Some v.
Proof.
  intros H Hv. pose proof (H 0 ltac:(lia)) as H0. pose proof (H 1 ltac:(lia)) as H1.
  rewrite Z.add_0_r in H0.
  rewrite (st8_mapped m a) by done. eexists _, _. split; [done|].
  rewrite st8_mapped by (rewrite lookup_insert_ne by lia; done). split; [done|].
  split; [split|].
  - intros b. rewrite (insert_mapped m a) by done. apply insert_mapped.
    by rewrite lookup_insert_ne by lia.
  - intros b Hb. by rewrite !lookup_insert_ne by lia.
  - unfold ld16be, ld8. rewrite (lookup_insert_ne _ (a + 1) a) by lia.
    rewrite !lookup_insert_eq. simpl.
    f_equal. rewrite be16_sum by width_lia. rewrite Z.shiftr_div_pow2 by lia. width_lia.
Qed.

(** A [uint16_t] store of a swapped value is a big-endian store. *)
Lemma st16_bswap m a v : mapped m a 2 -> 0 <= v < 65536 ->
  exists m', st16 m a (bswap16 v) = Some m' /\ same_except m m' a 2 /\ ld16be m' a = Some v.
Proof.
  intros H Hv. destruct (st16be_spec m a v H Hv) as (m1&m'&H1&H2&H3&H4).
  exists m'. split; [|done]. unfold st16, bswap16.
  assert (E : be16 (u8 v) (u8 (Z.shiftr v 8)) = u8 v * 256 + u8 (Z.shiftr v 8))
    by (apply be16_sum; apply u8_range).
  assert (B : u8 (u8 v * 256 + u8 (Z.shiftr v 8)) = u8 (Z.shiftr v 8)) by width_lia.
  assert (C : u8 (Z.shiftr (u8 v * 256 + u8 (Z.shiftr v 8)) 8) = u8 v).
  { rewrite (Z.shiftr_div_pow2 (_ + _)) by lia. width_lia. }
  rewrite E. unfold st8 in *. rewrite B, C.
  destruct (m !! a); [|done]. simplify_eq. simpl. done.
Qed.

Lemma tx_view_accept va iova off len cap v :
  0 <= va < 2 ^ 64 -> 0 <= iova < 2 ^ 64 -> 0 <= off < 2 ^ 64 -> 0 <= len < 2 ^ 32 -> 0 <= cap < 2 ^ 32 ->
  rtl8127TxBufferView va iova off len cap = (true, v) ->
  va <> 0 /\ 0 < len /\ off + len <= cap /\ va + off < 2 ^ 64 /\ iova + off < 2 ^ 64 /\
  view_frame v = va + off /\ view_iova v = iova + off.
Proof.
  intros ????? H. unfold rtl8127TxBufferView in H.
  destruct (_ || _)%bool eqn:E in H; [done|]. injection H as <-. bool_props.
  rewrite !Z.gtb_ltb in *. bool_props. unfold UINT64_MAX in *. simpl. width_lia.
Qed.

Lemma tx_view_reject va iova off len cap :
  (rtl8127TxBufferView va iova off len cap).1 = false ->
  (rtl8127TxBufferView va iova off len cap).2 = mkView 0 0.
Proof. unfold rtl8127TxBufferView. by destruct (_ || _)%bool. Qed.

Lemma tx_view_complete va iova off len cap :
  0 < va -> 0 <= iova -> 0 <= off -> 0 < len -> off + len <= cap -> cap < 2 ^ 32 ->
  va + off < 2 ^ 64 -> iova + off < 2 ^ 64 ->
  rtl8127TxBufferView va iova off len cap = (true, mkView (va + off) (iova + off)).
Proof.
  intros. unfold rtl8127TxBufferView, UINT64_MAX. rewrite !Z.gtb_ltb.
  destruct (_ || _)%bool eqn:E.
  - exfalso. repeat (apply orb_true_iff in E; destruct E as [E|E]); bool_props; width_lia.
  - f_equal. f_equal; width_lia.
Qed.

(** [rtl8127TxBufferView] accepts a packet exactly when its buffer exists,
    the frame is not empty, fits the buffer at its offset and neither address
    wraps; the accepted view names the same byte of the buffer for the CPU and
    for the DMA engine, every byte of the frame lies inside the buffer, and a
    rejected view is all zero. *)
Theorem tx_buffer_view_exact va iova off len cap :
  0 <= va < 2 ^ 64 -> 0 <= iova < 2 ^ 64 -> 0 <= off < 2 ^ 64 ->
  0 <= len < 2 ^ 32 -> 0 <= cap < 2 ^ 32 ->
  let '(ok, v) := rtl8127TxBufferView va iova off len cap in
  (ok = true <-> va <> 0 /\ 0 < len /\ off + len <= cap /\ va + off < 2 ^ 64 /\ iova + off < 2 ^ 64) /\
  (ok = true -> view_frame v - va = off /\ view_iova v - iova = off /\
     forall i, 0 <= i < len -> va <= view_frame v + i < va + cap /\
                               iova <= view_iova v + i < iova + cap) /\
  (ok = false -> v = mkView 0 0).
Proof.
  intros Hva Hio Hoff Hlen Hcap.
  destruct (rtl8127TxBufferView va iova off len cap) as [ok v] eqn:E. split_and!.
  - split.
    + intros ->. apply tx_view_accept in E as (?&?&?&?&?&_); done.
    + intros (?&?&?&?&?). rewrite tx_view_complete in E by lia. by simplify_eq.
  - intros ->. apply tx_view_accept in E as (?&?&?&?&?&->&->); [|done..]. split_and!; lia.
  - intros ->. pose proof (tx_view_reject va iova off len cap) as R. rewrite E in R. by apply R.
Qed.

(** The offsets of the test suite: two padding bytes, frame up to the last byte. *)
Lemma tx_buffer_view_exact_witness :
  rtl8127TxBufferView 4096 4882169856 2 126 128 = (true, mkView 4098 4882169858) /\
  view_frame (mkView 4098 4882169858) - 4096 = 2.
Proof.
  split; [reflexivity|].
  pose proof (tx_buffer_view_exact 4096 4882169856 2 126 128
    ltac:(lia) ltac:(lia) ltac:(lia) ltac:(lia) ltac:(lia)) as H.
  exact (proj1 (proj1 (proj2 H) eq_refl)).
Defined.
