(* ===== verification/Checksum.v ===== *)
(** Checksum work of the DriverKit transmit path (RTL8127Driver.cpp):
    prepareTSO4/prepareTSO6 seed the TCP checksum field for the giant-send
    engine, txPartialChecksum chooses the hardware bits or finishes the sum in
    software, describeTcpSyn parses a frame for the diagnostics.

    The reference is one's-complement arithmetic: a 16-bit value that is not
    zero and is congruent to a sum modulo 65535 is the folded sum. *)
From S2P Require Import Prelude Frame.

Definition kMacHdrLen : Z := 14.
Definition kIPv6HdrLen : Z := 40.
Definition IPPROTO_TCP : Z := 6.
Definition IPPROTO_UDP : Z := 17.
Definition TH_SYN : Z := 2.

(** Descriptor bits of rtl812xx.h. *)
Definition TxUDPCS_C : Z := BIT 31.
Definition TxTCPCS_C : Z := BIT 30.
Definition TxIPCS_C : Z := BIT 29.
Definition TxIPV6F_C : Z := BIT 28.
Definition TCPHO_SHIFT : Z := 18.
Definition TCPHO_MAX : Z := 0x3ff.

(** ** TSO seeds *)

(** One pass of the loop: [csum += bswap16(addr[i]); csum += csum >> 16; csum &= 0xffff]. *)
Definition csum_step (csum w : Z) : Z :=
  let c1 := u32 (csum + w) in u32 (c1 + Z.shiftr c1 16) .& 0xffff.

(** The loop over [n] halfwords from address [a]. *)
Fixpoint csum_addrs (m : mem) (a : Z) (n : nat) (csum : Z) : option Z :=
  match n with
  | O => Some csum
  | S n' => w ← ld16 m a; csum_addrs m (a + 2) n' (csum_step csum (bswap16 w))
  end.

Definition prepareTSO4 (m : mem) (frame : Z) : option (mem * Z) :=
  let iph := frame + kMacHdrLen in
  hl ← ld8 m iph;
  let il := Z.shiftl (hl .& 0x0f) 2 in
  let th := iph + il in
  csum ← csum_addrs m (iph + 12) 4 IPPROTO_TCP;
  m' ← st16 m (th + 16) (bswap16 (u16 csum));
  Some (m', kMacHdrLen + il).

Definition prepareTSO6 (m : mem) (frame : Z) : option (mem * Z) :=
  let ip6 := frame + kMacHdrLen in
  let th := ip6 + kIPv6HdrLen in
  m1 ← st16 m (ip6 + 4) 0;
  csum ← csum_addrs m1 (ip6 + 8) 16 IPPROTO_TCP;
  m' ← st16 m1 (th + 16) (bswap16 (u16 csum));
  Some (m', kMacHdrLen + kIPv6HdrLen).

(** ** Partial checksum *)

(** [while (sum >> 16) sum = (sum & 0xffff) + (sum >> 16);] *)
Fixpoint fold16 (fuel : nat) (sum : Z) : Z :=
  match fuel with
  | O => sum
  | S f => if Z.shiftr sum 16 =? 0 then sum
           else fold16 f (u32 ((sum .& 0xffff) + Z.shiftr sum 16))
  end.

(** [while (n > 1) { sum += p[0] << 8 | p[1]; ... } if (n) sum += p[0] << 8;] *)
Fixpoint sum_loop (fuel : nat) (m : mem) (p n sum : Z) : option Z :=
  match fuel with
  | O => None
  | S f =>
      if 1 <? n then
        w ← ld16be m p; sum_loop f m (p + 2) (n - 2) (u32 (sum + w))
      else if n =? 0 then Some sum
      else b ← ld8 m p; Some (u32 (sum + Z.shiftl b 8))
  end.

Definition loop_fuel (n : Z) : nat := Z.to_nat n + 1.

(** The answers of the C function: [PcFail] is the early [return false],
    [PcDone m opts2] is [return true] with the memory it leaves. [None] is an
    access outside mapped memory. A null [frame] is address 0. *)
Inductive pcsum := PcFail | PcDone (m : mem) (opts2 : Z).

(** The software fallback. *)
Definition softChecksum (m : mem) (frame len start stuff proto : Z) : option pcsum :=
  if (start >=? len) || (stuff + 2 >? len) then Some PcFail else
  sum ← sum_loop (loop_fuel (len - start)) m (frame + start) (len - start) 0;
  let sum := fold16 3 sum in
  let csum := u16 (Z.lnot sum) in
  let csum := if (csum =? 0) && (proto =? IPPROTO_UDP) then 0xffff else csum in
  m1 ← st8 m (frame + stuff) (Z.shiftr csum 8);
  m2 ← st8 m1 (frame + stuff + 1) csum;
  Some (PcDone m2 0).

Definition txPartialChecksum (m : mem) (frame len start stuff : Z) : option pcsum :=
  if (frame =? 0) || (len <? kMacHdrLen + 20) then Some PcFail else
  etherType ← ld16be m (frame + 12);
  if etherType =? 0x0800 then
    hl ← ld8 m (frame + kMacHdrLen);
    proto ← ld8 m (frame + kMacHdrLen + 9);
    let l4off := kMacHdrLen + Z.shiftl (hl .& 0x0f) 2 in
    if (proto =? IPPROTO_TCP) && (stuff =? l4off + 16) then Some (PcDone m (TxIPCS_C .| TxTCPCS_C))
    else if (proto =? IPPROTO_UDP) && (stuff =? l4off + 6) then Some (PcDone m (TxIPCS_C .| TxUDPCS_C))
    else softChecksum m frame len start stuff proto
  else if etherType =? 0x86DD then
    proto ← ld8 m (frame + kMacHdrLen + 6);
    let l4off := kMacHdrLen + kIPv6HdrLen in
    let ho := Z.shiftl (l4off .& TCPHO_MAX) TCPHO_SHIFT in
    if (proto =? IPPROTO_TCP) && (stuff =? l4off + 16) then
      Some (PcDone m (TxTCPCS_C .| TxIPV6F_C .| ho))
    else if (proto =? IPPROTO_UDP) && (stuff =? l4off + 6) then
      Some (PcDone m (TxUDPCS_C .| TxIPV6F_C .| ho))
    else softChecksum m frame len start stuff proto
  else softChecksum m frame len start stuff 0.

(** ** TCP SYN diagnostics

    The formatted text is the record of the values printed. *)
Record syn_info := mkSyn {
  syn_v6 : bool; syn_sport : Z; syn_dport : Z; syn_flags : Z;
  syn_len : Z; syn_field : Z; syn_kind : Z;
}.

(** The halfwords [f[a], f[a+1]], ... summed ([n] of them). *)
Fixpoint sum_addrs (m : mem) (a : Z) (n : nat) (acc : Z) : option Z :=
  match n with
  | O => Some acc
  | S n' => w ← ld16be m a; sum_addrs m (a + 2) n' (u32 (acc + w))
  end.

(** The part after the L4 offset is known. [None]: outside memory;
    [Some None]: [return false]. *)
Definition describeTail (m : mem) (f len l4 : Z) (v6 : bool) : option (option syn_info) :=
  if len <? l4 + 20 then Some None else
  doff ← ld8 m (f + l4 + 12);
  let tcpHeaderLen := Z.shiftl (Z.shiftr doff 4) 2 in
  if (tcpHeaderLen <? 20) || (tcpHeaderLen >? len - l4) then Some None else
  flags ← ld8 m (f + l4 + 13);
  if negb (has flags TH_SYN) then Some None else
  sport ← ld16be m (f + l4);
  dport ← ld16be m (f + l4 + 2);
  if negb (sport =? 80) && negb (dport =? 80) then Some None else
  let l4len := len - l4 in
  ph0 ← (if v6 then sum_addrs m (f + 22) 16 0 else sum_addrs m (f + 26) 4 0);
  let ph := u32 (ph0 + IPPROTO_TCP) in
  field ← ld16be m (f + l4 + 16);
  sumFull ← sum_loop (loop_fuel l4len) m (f + l4) l4len (u32 (ph + l4len));
  let sumFull := fold16 3 sumFull in
  let sumSeed := fold16 3 ph in
  let kind :=
    if (u16 sumFull =? 0xffff) || (u16 sumFull =? 0) then 0
    else if (field =? u16 sumSeed) || (field =? u16 (u32 (sumSeed + l4len))) then 1 else 2 in
  Some (Some (mkSyn v6 sport dport flags len field kind)).

(** The header bytes the conditions test are loaded up front; all of them lie
    in the first 54 bytes, which the length guard has established. *)
Definition describeTcpSyn (m : mem) (f len : Z) : option (option syn_info) :=
  if (f =? 0) || (len <? 54) then Some None else
  et ← ld16be m (f + 12);
  b14 ← ld8 m (f + 14);
  b20 ← ld8 m (f + 20);
  b21 ← ld8 m (f + 21);
  b23 ← ld8 m (f + 23);
  if (et =? 0x0800) && (Z.shiftr b14 4 =? 4) && (b23 =? 6) then
    let ipHeaderLen := Z.shiftl (b14 .& 0x0f) 2 in
    if (ipHeaderLen <? 20) || has b20 0x1f || negb (b21 =? 0) then Some None
    else describeTail m f len (14 + ipHeaderLen) false
  else if (et =? 0x86DD) && (Z.shiftr b14 4 =? 6) && (b20 =? 6) then
    describeTail m f len 54 true
  else Some None.

(** ** Reference sums *)

(** Bytes taken alternately as high and low halves of big-endian words, an odd
    last byte padded with zero (RFC 1071). *)
Fixpoint wsum (m : mem) (p : Z) (n : nat) (hi : bool) : Z :=
  match n with
  | O => 0
  | S n' => default 0 (ld8 m p) * (if hi then 256 else 1) + wsum m (p + 1) n' (negb hi)
  end.

Lemma ld8_default m a : 0 <= default 0 (ld8 m a) < 256.
Proof. unfold ld8. destruct (m !! a); simpl; [apply u8_range|lia]. Qed.

Lemma wsum_bound m : forall n p hi, 0 <= wsum m p n hi <= 65280 * Z.of_nat n.
Proof.
  induction n as [|n IH]; intros p hi; simpl wsum; [lia|].
  specialize (IH (p + 1) (negb hi)). pose proof (ld8_default m p).
  destruct hi; lia.
Qed.

Lemma wsum_app m : forall a p b hi,
  wsum m p (a + b) hi = wsum m p a hi + wsum m (p + Z.of_nat a) b (if Nat.even a then hi else negb hi).
Proof.
  induction a as [|a IH]; intros p b hi.
  - simpl. by rewrite Z.add_0_r.
  - cbn [wsum Nat.add]. rewrite IH, Nat.even_succ, <- Nat.negb_even.
    replace (p + 1 + Z.of_nat a) with (p + Z.of_nat (S a)) by lia.
    destruct (Nat.even a), hi; cbn -[wsum Z.mul Z.add]; lia.
Qed.

Lemma wsum_same m m' a k : same_except m m' a k -> forall n p hi,
  (p + Z.of_nat n <= a \/ a + k <= p) -> wsum m' p n hi = wsum m p n hi.
Proof.
  intros H. induction n as [|n IH]; intros p hi Hp; [done|]. simpl.
  rewrite (same_except_ld8 m m' a k) by (done || lia). rewrite IH by lia. done.
Qed.

Lemma ld16be_wsum m p v : ld16be m p = Some v -> wsum m p 2 true = v.
Proof.
  unfold ld16be. destruct (ld8 m p) as [x|] eqn:Ex; [|done]. simpl.
  destruct (ld8 m (p + 1)) as [y|] eqn:Ey; [|done]. simpl. intros [= <-].
  rewrite be16_sum by eauto using ld8_range. simpl. rewrite ?Ex, ?Ey. simpl. lia.
Qed.

(** Replacing the word at an even distance from the start. *)
Lemma wsum_update m m' p n a v w :
  same_except m m' a 2 -> p <= a -> (a - p) mod 2 = 0 -> a + 2 <= p + Z.of_nat n ->
  ld16be m a = Some v -> ld16be m' a = Some w ->
  wsum m' p n true = wsum m p n true - v + w.
Proof.
  intros H Hpa Hev Hn Hv Hw. set (k := Z.to_nat (a - p)).
  replace n with (k + (2 + (n - k - 2)))%nat by lia.
  assert (Nat.even k = true) as Ek.
  { apply Nat.even_spec. exists (Z.to_nat ((a - p) / 2)). lia. }
  rewrite !wsum_app, Ek. cbn [Nat.even].
  replace (p + Z.of_nat k) with a by lia.
  rewrite (ld16be_wsum m a v Hv), (ld16be_wsum m' a w Hw).
  rewrite !(wsum_same m m' a 2) by (done || lia). lia.
Qed.

(** ** The loops compute the reference *)

Lemma sum_loop_spec m : forall fuel p n sum,
  mapped m p n -> 0 <= n -> n < Z.of_nat fuel -> 0 <= sum < 4294967296 ->
  sum_loop fuel m p n sum = Some (u32 (sum + wsum m p (Z.to_nat n) true)).
Proof.
  induction fuel as [|fuel IH]; intros p n sum Hm Hn Hf Hs; [lia|]. cbn [sum_loop].
  destruct (Z.ltb_spec 1 n) as [H1|H1].
  - destruct (ld16be_mapped m p) as (w&Hw&?); [by eapply mapped_sub; [done|lia..]|].
    rewrite Hw. simpl. rewrite IH; [|by eapply mapped_sub; [done|lia..]|lia|lia|apply u32_range].
    replace (Z.to_nat n) with (2 + Z.to_nat (n - 2))%nat by lia.
    rewrite (wsum_app m 2), (ld16be_wsum m p w Hw). cbn [Nat.even]. change (Z.of_nat 2) with 2.
    f_equal. width_lia.
  - destruct (Z.eqb_spec n 0) as [->|?].
    + f_equal. simpl. rewrite Z.add_0_r. by rewrite u32_small.
    + replace n with 1 in * by lia. destruct (ld8_mapped m p 1 0 Hm) as (b&Hb&?); [lia|].
      rewrite Z.add_0_r in Hb. rewrite Hb. simpl. rewrite Hb. simpl.
      rewrite Z.shiftl_mul_pow2 by lia. do 2 f_equal. lia.
Qed.

Lemma land_ffff x : 0 <= x -> x .& 0xffff = x mod 65536.
Proof. intros. apply (land_ones_mod x 16). lia. Qed.

Lemma shiftr16 x : Z.shiftr x 16 = x / 65536.
Proof. by rewrite Z.shiftr_div_pow2. Qed.

(** A folded value: 16 bits, congruent to the sum, zero only for the zero sum. *)
Definition folds (r s : Z) : Prop :=
  0 <= r < 65536 /\ r mod 65535 = s mod 65535 /\ (0 < s -> 0 < r).

Lemma fold16_once s : 0 <= s < 4294967296 -> s / 65536 <> 0 ->
  let s' := u32 ((s .& 0xffff) + Z.shiftr s 16) in
  0 < s' < 131071 /\ (s < 131071 -> s' < 65536) /\ s' mod 65535 = s mod 65535.
Proof.
  intros Hs Hq. simpl. rewrite land_ffff, shiftr16 by lia.
  pose proof (Z.div_mod s 65536 ltac:(lia)) as D.
  remember (s / 65536) as q. remember (s mod 65536) as r.
  assert (0 <= r < 65536) by (subst; apply Z.mod_pos_bound; lia).
  assert (0 <= q < 65536) by (subst; split; [apply Z.div_pos|apply Z.div_lt_upper_bound]; lia).
  rewrite u32_small by lia. split_and!; try lia.
Qed.

(** Three rounds are enough for any 32-bit sum: the loop has ended. *)
Lemma fold16_spec s : 0 <= s < 4294967296 -> folds (fold16 3 s) s.
Proof.
  intros Hs. unfold folds. cbn [fold16]. rewrite !shiftr16.
  destruct (Z.eqb_spec (s / 65536) 0) as [E|E]; [split_and!; lia|].
  destruct (fold16_once s Hs E) as (B1&_&C1).
  rewrite shiftr16 in B1, C1.
  set (s1 := u32 (s .& 65535 + s / 65536)) in *.
  destruct (Z.eqb_spec (s1 / 65536) 0) as [E1|E1]; [split_and!; lia|].
  destruct (fold16_once s1 ltac:(lia) E1) as (B2&L2&C2).
  rewrite shiftr16 in B2, L2, C2.
  set (s2 := u32 (s1 .& 65535 + s1 / 65536)) in *.
  destruct (Z.eqb_spec (s2 / 65536) 0) as [E2|E2]; [split_and!; lia|]. lia.
Qed.

Lemma csum_step_spec c w : 0 <= c < 65536 -> 0 <= w < 65536 ->
  csum_step c w = if c + w <? 65536 then c + w else c + w - 65535.
Proof.
  intros Hc Hw. unfold csum_step. rewrite shiftr16, land_ffff by apply u32_range.
  destruct (Z.ltb_spec (c + w) 65536); width_lia.
Qed.

Lemma csum_step_folds c s w : folds c s -> 0 <= s -> 0 <= w < 65536 -> folds (csum_step c w) (s + w).
Proof.
  intros (Hc&Hm&Hz) Hs Hw. unfold folds. rewrite csum_step_spec by done.
  destruct (Z.ltb_spec (c + w) 65536); split_and!; try lia.
Qed.

(** Big-endian words from [a], as numbers. *)
Fixpoint words (m : mem) (a : Z) (n : nat) : list Z :=
  match n with O => [] | S n' => default 0 (ld16be m a) :: words m (a + 2) n' end.

Lemma words_nonneg m : forall n a, 0 <= sumZ (words m a n).
Proof.
  induction n as [|n IH]; intros a; simpl; [lia|]. specialize (IH (a + 2)).
  unfold ld16be. destruct (ld8 m a); simpl; [|lia]. destruct (ld8 m (a + 1)); simpl; [|lia].
  pose proof (be16_range z z0). lia.
Qed.

Lemma csum_addrs_folds m : forall n a c s,
  mapped m a (2 * Z.of_nat n) -> folds c s -> 0 <= s ->
  exists r, csum_addrs m a n c = Some r /\ folds r (s + sumZ (words m a n)).
Proof.
  induction n as [|n IH]; intros a c s Hm Hc Hs; simpl.
  - exists c. by rewrite Z.add_0_r.
  - destruct (ld16be_mapped m a) as (v&Hv&?); [by eapply mapped_sub; [done|lia..]|].
    destruct (proj1 (ld16_bswap m a v) Hv) as (w&Hw&<-). rewrite Hw, Hv. simpl.
    destruct (IH (a + 2) (csum_step c (bswap16 w)) (s + bswap16 w)) as (r&Hr&Hf).
    + eapply mapped_sub; [done|lia..].
    + by apply csum_step_folds.
    + lia.
    + exists r. split; [done|]. by rewrite Z.add_assoc.
Qed.

Lemma sum_addrs_some m : forall n a acc,
  mapped m a (2 * Z.of_nat n) -> 0 <= acc < 4294967296 ->
  exists r, sum_addrs m a n acc = Some r /\ 0 <= r < 4294967296.
Proof.
  induction n as [|n IH]; intros a acc Hm Ha; simpl; [by exists acc|].
  destruct (ld16be_mapped m a) as (v&Hv&?); [by eapply mapped_sub; [done|lia..]|].
  rewrite Hv. simpl. apply IH; [by eapply mapped_sub; [done|lia..]|apply u32_range].
Qed.

Lemma nibble b : 0 <= b .& 0x0f < 16.
Proof. apply (land_bound b 0x0f 4); lia. Qed.

Lemma ip_header_len b : 0 <= Z.shiftl (b .& 0x0f) 2 <= 60.
Proof. pose proof (nibble b). rewrite Z.shiftl_mul_pow2 by lia. lia. Qed.

(** The software sum: two bytes change, and the receiver's sum comes out. *)
Lemma softChecksum_spec m frame len start stuff proto :
  0 <= len <= 65536 -> mapped m frame len -> 0 <= start -> 0 <= stuff ->
  (softChecksum m frame len start stuff proto = Some PcFail /\ (len <= start \/ len < stuff + 2)) \/
  exists m' seed,
    softChecksum m frame len start stuff proto = Some (PcDone m' 0) /\ stuff + 2 <= len /\
    same_except m m' (frame + stuff) 2 /\ ld16be m (frame + stuff) = Some seed /\
    (start <= stuff -> (stuff - start) mod 2 = 0 ->
     (seed + wsum m' (frame + start) (Z.to_nat (len - start)) true) mod 65535 = 0).
Proof.
  intros Hlen Hm Hstart Hstuff. unfold softChecksum.
  destruct (Z.geb_spec start len) as [?|?]; [left; split; [done|lia]|]. rewrite Z.gtb_ltb.
  destruct (Z.ltb_spec len (stuff + 2)) as [?|?]; [left; split; [done|lia]|]. right. cbn [orb].
  rewrite sum_loop_spec; [|by eapply mapped_sub; [done|lia..]|lia|unfold loop_fuel; lia|lia].
  set (n := Z.to_nat (len - start)). pose proof (wsum_bound m n (frame + start) true) as B.
  rewrite u32_small by lia. rewrite Z.add_0_l. cbn [mbind option_bind].
  destruct (fold16_spec (wsum m (frame + start) n true)) as (Hr&Hmod&_); [lia|].
  set (r := fold16 3 _) in *.
  assert (Hnot : u16 (Z.lnot r) = 65535 - r) by (unfold Z.lnot; width_lia). rewrite Hnot.
  set (csum := if (_ && _)%bool then 65535 else 65535 - r).
  assert (Hcs : 0 <= csum < 65536 /\ csum mod 65535 = (65535 - r) mod 65535).
  { unfold csum. destruct (Z.eqb_spec (65535 - r) 0) as [E|E], (proto =? IPPROTO_UDP);
      simpl; split; try lia. }
  assert (Hms : mapped m (frame + stuff) 2) by (eapply mapped_sub; [done|lia..]).
  destruct (st16be_spec m (frame + stuff) csum Hms) as (m1&m'&->&H2&Hsame&Hld); [tauto|].
  destruct (ld16be_mapped m (frame + stuff) Hms) as (seed&Hseed&?).
  cbn [mbind option_bind]. rewrite H2. exists m', seed. split_and!; [done..|].
  intros Hge Hev. rewrite (wsum_update m m' _ n (frame + stuff) seed csum); try done; try lia.
Qed.

Lemma prepareTSO4_spec m frame : mapped m frame 92 ->
  exists hl m' csum,
    ld8 m (frame + 14) = Some hl /\
    prepareTSO4 m frame = Some (m', 14 + 4 * (hl .& 0x0f)) /\
    same_except m m' (frame + 14 + 4 * (hl .& 0x0f) + 16) 2 /\
    ld16be m' (frame + 14 + 4 * (hl .& 0x0f) + 16) = Some csum /\
    folds csum (6 + sumZ (words m (frame + 26) 4)).
Proof.
  intros Hm. destruct (ld8_mapped m frame 92 14 Hm) as (hl&Hhl&?); [lia|].
  pose proof (nibble hl) as Hn. unfold prepareTSO4, kMacHdrLen, IPPROTO_TCP.
  rewrite Hhl. cbn [mbind option_bind].
  assert (E : Z.shiftl (hl .& 15) 2 = 4 * (hl .& 15)) by (rewrite Z.shiftl_mul_pow2 by lia; lia).
  rewrite E. set (il := 4 * (hl .& 15)) in *.
  destruct (csum_addrs_folds m 4 (frame + 14 + 12) 6 6) as (r&Hr&Hf); [|done|lia|].
  { eapply mapped_sub; [done|lia..]. }
  rewrite Hr. cbn [mbind option_bind]. rewrite (u16_small r) by apply Hf.
  destruct (st16_bswap m (frame + 14 + il + 16) r) as (m'&Hst&Hs&Hl).
  { eapply mapped_sub; [done|lia..]. } { apply Hf. }
  rewrite Hst. exists hl, m', r. split_and!; try done.
  by replace (frame + 26) with (frame + 14 + 12) by lia.
Qed.

Lemma words_same m m' a k : same_except m m' a k -> forall n p,
  (p + 2 * Z.of_nat n <= a \/ a + k <= p) -> words m' p n = words m p n.
Proof.
  intros H. induction n as [|n IH]; intros p Hp; [done|]. simpl. unfold ld16be.
  rewrite !(same_except_ld8 m m' a k) by (done || lia). rewrite IH by lia. done.
Qed.

Lemma prepareTSO6_spec m frame : mapped m frame 74 ->
  exists m' csum,
    prepareTSO6 m frame = Some (m', 54) /\
    (forall b, ~ (frame + 18 <= b < frame + 20) -> ~ (frame + 70 <= b < frame + 72) ->
               m !! b = m' !! b) /\
    (forall b, is_Some (m !! b) <-> is_Some (m' !! b)) /\
    ld16be m' (frame + 18) = Some 0 /\
    ld16be m' (frame + 70) = Some csum /\
    folds csum (6 + sumZ (words m (frame + 22) 16)).
Proof.
  intros Hm. unfold prepareTSO6, kMacHdrLen, kIPv6HdrLen, IPPROTO_TCP.
  destruct (st16_bswap m (frame + 14 + 4) 0) as (m1&Hst1&Hs1&Hl1);
    [eapply mapped_sub; [done|lia..]|lia|]. change (bswap16 0) with 0 in Hst1.
  rewrite Hst1. cbn [mbind option_bind].
  assert (Hm1 : mapped m1 frame 74) by (eapply same_except_mapped; done).
  destruct (csum_addrs_folds m1 16 (frame + 14 + 8) 6 6) as (r&Hr&Hf); [|done|lia|].
  { eapply mapped_sub; [done|lia..]. }
  rewrite Hr. cbn [mbind option_bind]. rewrite (u16_small r) by apply Hf.
  destruct (st16_bswap m1 (frame + 14 + 40 + 16) r) as (m'&Hst&Hs&Hl).
  { eapply mapped_sub; [done|lia..]. } { apply Hf. }
  rewrite Hst. exists m', r. split_and!; try done.
  - intros b Hb1 Hb2. rewrite (proj2 Hs1 b), (proj2 Hs b) by lia. done.
  - intros b. rewrite (proj1 Hs1 b). apply (proj1 Hs).
  - replace (frame + 18) with (frame + 14 + 4) by lia. rewrite <- Hl1. unfold ld16be.
    by rewrite !(same_except_ld8 m1 m' _ _ _ Hs) by lia.
  - replace (frame + 70) with (frame + 14 + 40 + 16) by lia. done.
  - replace (frame + 22) with (frame + 14 + 8) by lia.
    rewrite <- (words_same m m1 (frame + 14 + 4) 2); [done|done|lia].
Qed.

(** ** Properties *)

(** For a frame whose headers are in mapped memory, [prepareTSO4] returns
    the offset of the TCP header, writes exactly the two bytes of the TCP
    checksum field and leaves there, big-endian, the one's-complement sum of
    the protocol number and the source and destination addresses (no length). *)
Theorem prepare_tso4_pseudo_header m frame :
  mapped m frame 92 ->
  exists hl m' csum,
    ld8 m (frame + 14) = Some hl /\
    prepareTSO4 m frame = Some (m', 14 + 4 * (hl .& 0x0f)) /\
    same_except m m' (frame + (14 + 4 * (hl .& 0x0f)) + 16) 2 /\
    ld16be m' (frame + (14 + 4 * (hl .& 0x0f)) + 16) = Some csum /\
    0 < csum < 65536 /\
    csum mod 65535 = (6 + sumZ (words m (frame + 26) 4)) mod 65535.
Proof.
  intros (hl&m'&csum&H1&H2&H3&H4&Hr&Hmod&Hz)%prepareTSO4_spec.
  exists hl, m', csum. rewrite !Z.add_assoc. pose proof (words_nonneg m 4 (frame + 26)).
  split_and!; try done; lia.
Qed.

(** Frames of concrete bytes at address 4096. *)
Definition mem_of (a : Z) (l : list Z) : mem :=
  list_to_map (imap (fun i b => (a + Z.of_nat i, b)) l).

Definition mapped_b (m : mem) (a : Z) (n : nat) : bool :=
  forallb (fun i => bool_decide (is_Some (m !! (a + Z.of_nat i)))) (seq 0 n).

Lemma mapped_b_sound m a n : mapped_b m a n = true -> mapped m a (Z.of_nat n).
Proof.
  intros H i Hi. unfold mapped_b in H. rewrite forallb_forall in H.
  specialize (H (Z.to_nat i)). rewrite Z2Nat.id in H by lia.
  apply bool_decide_eq_true in H; [done|]. apply in_seq. lia.
Qed.

(** An IPv4/TCP frame 10.0.0.1 -> 10.0.0.2 padded to 100 bytes. *)
Definition tcp4_frame : list Z :=
  [0;0x11;0x22;0x33;0x44;0x55; 0x88;0xc9;0xb3;0xbc;0x52;0xc0; 0x08;0x00;
   0x45;0;0;86;0;0;0x40;0;64;6;0;0;10;0;0;1;10;0;0;2;
   0x30;0x39;0;80;0;0;0;1;0;0;0;2;0x50;0x02;0xff;0xff;0x12;0x34;0;0] ++ replicate 46 0xa5.

Lemma prepare_tso4_pseudo_header_witness :
  mapped (mem_of 4096 tcp4_frame) 4096 92 /\
  exists hl m' csum, prepareTSO4 (mem_of 4096 tcp4_frame) 4096 = Some (m', 14 + 4 * (hl .& 0x0f)) /\
    0 < csum < 65536.
Proof.
  assert (H : mapped (mem_of 4096 tcp4_frame) 4096 92)
    by (apply (mapped_b_sound _ _ 92); vm_compute; reflexivity).
  split; [exact H|].
  destruct (prepare_tso4_pseudo_header _ _ H) as (hl&m'&csum&_&H2&_&_&H5&_).
  exists hl, m', csum. split; [exact H2|exact H5].
Defined.

(** [prepareTSO6] clears the payload length, writes the TCP checksum field
    and nothing else, and the field holds the one's-complement sum of the
    protocol number and the sixteen address halfwords of the frame. *)
Theorem prepare_tso6_pseudo_header m frame :
  mapped m frame 74 ->
  exists m' csum,
    prepareTSO6 m frame = Some (m', 54) /\
    (forall b, ~ (frame + 18 <= b < frame + 20) -> ~ (frame + 70 <= b < frame + 72) ->
               ld8 m' b = ld8 m b) /\
    ld16be m' (frame + 18) = Some 0 /\
    ld16be m' (frame + 70) = Some csum /\
    0 < csum < 65536 /\
    csum mod 65535 = (6 + sumZ (words m (frame + 22) 16)) mod 65535.
Proof.
  intros (m'&csum&H1&H2&_&H3&H4&Hr&Hmod&Hz)%prepareTSO6_spec.
  exists m', csum. pose proof (words_nonneg m 16 (frame + 22)).
  split_and!; try done; try lia. intros b ??. unfold ld8. by rewrite (H2 b).
Qed.

Lemma prepare_tso6_pseudo_header_witness :
  mapped (mem_of 4096 tcp4_frame) 4096 74 /\
  exists m' csum, prepareTSO6 (mem_of 4096 tcp4_frame) 4096 = Some (m', 54) /\ 0 < csum < 65536.
Proof.
  assert (H : mapped (mem_of 4096 tcp4_frame) 4096 74)
    by (apply (mapped_b_sound _ _ 74); vm_compute; reflexivity).
  split; [exact H|].
  destruct (prepare_tso6_pseudo_header _ _ H) as (m'&csum&H1&_&_&_&H5&_).
  exists m', csum. split; [exact H1|exact H5].
Defined.

(** The request is for the TCP or UDP checksum of the header the frame
    carries, and [opts2] is the command word that asks the chip for it: over
    IPv4 the header behind the options its IHL counts, over IPv6 the header
    right behind the fixed one. *)
Definition hw_request (m : mem) (frame stuff opts2 : Z) : Prop :=
  (ld16be m (frame + 12) = Some 0x0800 /\
   exists hl, ld8 m (frame + 14) = Some hl /\
     let l4 := 14 + 4 * (hl .& 0x0f) in
     (ld8 m (frame + 23) = Some 6 /\ stuff = l4 + 16 /\ opts2 = (TxIPCS_C .| TxTCPCS_C) \/
      ld8 m (frame + 23) = Some 17 /\ stuff = l4 + 6 /\ opts2 = (TxIPCS_C .| TxUDPCS_C))) \/
  (ld16be m (frame + 12) = Some 0x86DD /\
   (ld8 m (frame + 20) = Some 6 /\ stuff = 70 /\
      opts2 = (TxTCPCS_C .| TxIPV6F_C .| Z.shiftl 54 TCPHO_SHIFT) \/
    ld8 m (frame + 20) = Some 17 /\ stuff = 60 /\
      opts2 = (TxUDPCS_C .| TxIPV6F_C .| Z.shiftl 54 TCPHO_SHIFT))).

(** What a call of [txPartialChecksum] may answer. *)
Definition pcsum_ok (m : mem) (frame len start stuff : Z) (r : pcsum) : Prop :=
  match r with
  | PcFail => frame = 0 \/ len < 34 \/ len <= start \/ len < stuff + 2
  | PcDone m' opts2 =>
      if opts2 =? 0 then
        (forall o, ~ hw_request m frame stuff o) /\
        exists seed, stuff + 2 <= len /\ same_except m m' (frame + stuff) 2 /\ ld16be m (frame + stuff) = Some seed /\
          (start <= stuff -> (stuff - start) mod 2 = 0 ->
           (seed + wsum m' (frame + start) (Z.to_nat (len - start)) true) mod 65535 = 0)
      else m' = m /\ hw_request m frame stuff opts2
  end.

Lemma softChecksum_ok m frame len start stuff proto :
  0 <= len <= 65536 -> mapped m frame len -> 0 <= start -> 0 <= stuff ->
  (forall o, ~ hw_request m frame stuff o) ->
  exists r, softChecksum m frame len start stuff proto = Some r /\ pcsum_ok m frame len start stuff r.
Proof.
  intros. destruct (softChecksum_spec m frame len start stuff proto) as [[? ?]|(m'&seed&?&?&?&?&?)];
    try done.
  - exists PcFail. simpl. split; [done|lia].
  - exists (PcDone m' 0). simpl. split; [done|]. split; [done|]. by exists seed.
Qed.

Lemma hw_request_ok m frame len start stuff opts2 :
  opts2 <> 0 -> hw_request m frame stuff opts2 ->
  pcsum_ok m frame len start stuff (PcDone m opts2).
Proof. intros Ho Hb. simpl. apply Z.eqb_neq in Ho. by rewrite Ho. Qed.

(** No hardware request when the tests of the header fail. *)
Lemma no_hw_request m frame stuff et hl p4 p6 opts2 :
  ld16be m (frame + 12) = Some et -> ld8 m (frame + 14) = Some hl ->
  ld8 m (frame + 23) = Some p4 -> ld8 m (frame + 20) = Some p6 ->
  (et = 0x0800 -> (p4 =? 6) && (stuff =? 14 + 4 * (hl .& 15) + 16) = false /\
                  (p4 =? 17) && (stuff =? 14 + 4 * (hl .& 15) + 6) = false) ->
  (et = 0x86DD -> (p6 =? 6) && (stuff =? 14 + 40 + 16) = false /\
                  (p6 =? 17) && (stuff =? 14 + 40 + 6) = false) ->
  ~ hw_request m frame stuff opts2.
Proof.
  intros E1 E2 E3 E4 H4 H6 [(A&hl'&B&C)|(A&C)]; simplify_eq.
  - destruct (H4 eq_refl) as [T U]. destruct C as [(?&?&_)|(?&?&_)]; simplify_eq; lia.
  - destruct (H6 eq_refl) as [T U]. destruct C as [(?&?&_)|(?&?&_)]; simplify_eq; lia.
Qed.

Lemma txPartialChecksum_ok m frame len start stuff :
  0 <= len <= 65536 -> mapped m frame len -> 0 <= start -> 0 <= stuff ->
  exists r, txPartialChecksum m frame len start stuff = Some r /\
            pcsum_ok m frame len start stuff r.
Proof.
  intros Hlen Hm Hstart Hstuff. unfold txPartialChecksum, kMacHdrLen, kIPv6HdrLen.
  destruct (Z.eqb_spec frame 0); [exists PcFail; simpl; auto|].
  destruct (Z.ltb_spec len (14 + 20)); [exists PcFail; simpl; split; [done|lia]|]. cbn [orb].
  destruct (ld16be_mapped m (frame + 12)) as (et&Eet&_); [by eapply mapped_sub; [done|lia..]|].
  destruct (ld8_mapped m frame len 14 Hm) as (hl&Ehl&_); [lia|].
  destruct (ld8_mapped m frame len (14 + 9) Hm) as (p4&Ep4&_); [lia|].
  destruct (ld8_mapped m frame len (14 + 6) Hm) as (p6&Ep6&_); [lia|].
  pose proof Ep4 as Ep4'. pose proof Ep6 as Ep6'.
  rewrite Z.add_assoc in Ep4', Ep6'. rewrite Eet, Ehl, Ep4', Ep6'. cbn [mbind option_bind].
  assert (E : Z.shiftl (hl .& 15) 2 = 4 * (hl .& 15)) by (rewrite Z.shiftl_mul_pow2 by lia; lia).
  rewrite E. unfold IPPROTO_TCP, IPPROTO_UDP.
  replace (14 + 9) with 23 in Ep4 by done. replace (14 + 6) with 20 in Ep6 by done.
  bool_cases;
    try (by apply softChecksum_ok; try done; intros o; eapply no_hw_request; [done..| |]; intros ?; (lia || (split; done)));
    bool_props; simplify_eq; eexists; (split; [reflexivity|]); apply hw_request_ok; try done.
  all: first [by left; split; [done|]; exists hl; split; [done|]; (by left) || (by right)
             |by right; split; [done|]; (by left) || (by right)].
Qed.

(** C21: given a frame of at most 64 KiB in mapped memory, [txPartialChecksum]
    touches no byte outside it, always answers, and refuses only frames that
    are too short for the requested field. It uses the chip's engine exactly
    when the requested field is the TCP or UDP checksum field of the header
    the frame carries (EtherType, IHL and protocol byte read from the frame);
    then it leaves the frame alone and its command word is the one for that
    protocol over that IP version, with the header's offset for IPv6.
    Otherwise it sums in software: only the two bytes of the field change,
    and if the field lies in the summed region an even number of bytes from
    its start ([start <= stuff], [stuff - start] even, as in every header the
    stack asks for), the receiver's check holds: the seed plus the finished
    region sums to zero in one's complement. Without those two conditions
    nothing is claimed about the sum. *)
Theorem tx_partial_checksum_correct m frame len start stuff :
  0 <= len <= 65536 -> mapped m frame len -> 0 <= start -> 0 <= stuff ->
  exists r, txPartialChecksum m frame len start stuff = Some r /\
            pcsum_ok m frame len start stuff r.
Proof. apply txPartialChecksum_ok. Qed.

(** The software path on the example frame: an ICMP-like request to sum from
    byte 34 into byte 36. *)
Lemma tx_partial_checksum_correct_witness :
  mapped (mem_of 4096 tcp4_frame) 4096 100 /\
  exists r, txPartialChecksum (mem_of 4096 tcp4_frame) 4096 100 34 36 = Some r /\
            pcsum_ok (mem_of 4096 tcp4_frame) 4096 100 34 36 r.
Proof.
  assert (H : mapped (mem_of 4096 tcp4_frame) 4096 100)
    by (apply (mapped_b_sound _ _ 100); vm_compute; reflexivity).
  split; [exact H|]. apply (tx_partial_checksum_correct _ 4096 100 34 36); [lia|exact H|lia|lia].
Defined.

Lemma describeTail_safe m f len l4 v6 :
  mapped m f len -> 54 <= len < 4294967296 -> 34 <= l4 -> is_Some (describeTail m f len l4 v6).
Proof.
  intros Hm Hlen Hl4. unfold describeTail.
  destruct (Z.ltb_spec len (l4 + 20)); [done|].
  assert (L8 : forall i, 0 <= i < len -> exists v, ld8 m (f + i) = Some v /\ 0 <= v < 256)
    by (intros; eapply ld8_mapped; done).
  assert (L16 : forall i, 0 <= i -> i + 2 <= len -> exists v, ld16be m (f + i) = Some v /\ 0 <= v < 65536)
    by (intros; apply ld16be_mapped; eapply mapped_sub; [done|lia..]).
  rewrite <- !Z.add_assoc.
  destruct (L8 (l4 + 12)) as (d&->&_); [lia|]. cbn [mbind option_bind].
  destruct (_ || _)%bool; [done|].
  destruct (L8 (l4 + 13)) as (fl&->&_); [lia|]. cbn [mbind option_bind].
  destruct (negb _); [done|].
  destruct (L16 l4) as (sp&->&_); [lia..|]. cbn [mbind option_bind].
  destruct (L16 (l4 + 2)) as (dp&->&_); [lia..|]. cbn [mbind option_bind].
  destruct (_ && _)%bool; [done|].
  destruct (sum_addrs_some m 16 (f + 22) 0) as (p6&H6&?); [eapply mapped_sub; [done|lia..]|lia|].
  destruct (sum_addrs_some m 4 (f + 26) 0) as (p4&H4&?); [eapply mapped_sub; [done|lia..]|lia|].
  destruct (L16 (l4 + 16)) as (fi&Hfi&_); [lia..|].
  rewrite H6, H4, Hfi. destruct v6; cbn [mbind option_bind];
    (rewrite sum_loop_spec; [done|eapply mapped_sub; [done|lia..]|lia|unfold loop_fuel; lia|apply u32_range]).
Qed.

(** [describeTcpSyn] reads only bytes of the frame it is given, whatever
    the frame holds: header lengths taken from the packet never lead it past
    the end. *)
Theorem describe_tcp_syn_in_bounds m f len :
  0 <= len < 4294967296 -> mapped m f len -> is_Some (describeTcpSyn m f len).
Proof.
  intros Hlen Hm. unfold describeTcpSyn.
  destruct (Z.eqb_spec f 0); [done|]. destruct (Z.ltb_spec len 54); [done|]. cbn [orb].
  destruct (ld16be_mapped m (f + 12)) as (et&->&_); [by eapply mapped_sub; [done|lia..]|].
  destruct (ld8_mapped m f len 14 Hm) as (b14&->&_); [lia|].
  destruct (ld8_mapped m f len 20 Hm) as (b20&->&_); [lia|].
  destruct (ld8_mapped m f len 21 Hm) as (b21&->&_); [lia|].
  destruct (ld8_mapped m f len 23 Hm) as (b23&->&_); [lia|].
  cbn [mbind option_bind]. bool_cases; try done.
  - bool_props. apply describeTail_safe; [done|lia..].
  - apply describeTail_safe; [done|lia..].
Qed.

(** On the example frame (a SYN to port 80 whose checksum field is neither the
    full sum nor the seed). *)
Lemma describe_tcp_syn_in_bounds_witness :
  mapped (mem_of 4096 tcp4_frame) 4096 100 /\
  describeTcpSyn (mem_of 4096 tcp4_frame) 4096 100 =
    Some (Some (mkSyn false 12345 80 2 100 0x1234 2)) /\
  is_Some (describeTcpSyn (mem_of 4096 tcp4_frame) 4096 100).
Proof.
  assert (H : mapped (mem_of 4096 tcp4_frame) 4096 100)
    by (apply (mapped_b_sound _ _ 100); vm_compute; reflexivity).
  split; [exact H|]. split; [vm_compute; reflexivity|].
  apply (describe_tcp_syn_in_bounds _ 4096 100); [lia|exact H].
Defined.
