(* ===== verification/TxOffload.v ===== *)
(** The offload decision of txDequeueAction (RTL8127Driver.cpp): from a
    packet's TSO and checksum requests to the command and option words of its
    descriptor, with the header bytes the driver rewrites on the way. *)
From S2P Require Import Prelude Frame Checksum.

(** Descriptor bits of rtl812xx.h. *)
Definition DescOwn : Z := BIT 31.
Definition RingEnd : Z := BIT 30.
Definition FirstFrag : Z := BIT 29.
Definition LastFrag : Z := BIT 28.
Definition GiantSendv4 : Z := BIT 26.
Definition GiantSendv6 : Z := BIT 25.
Definition GTTCPHO_SHIFT : Z := 18.
Definition MSSMask : Z := 0x7ff.
Definition MSS_MAX : Z := 0x7ff.
Definition MSSShift_8125 : Z := 18.
Definition kTxDescLenMask : Z := 0xffff.
Definition kTxBufferSize : Z := 32768.

(** What the framework's packet object answers; the flag words of the
    framework are given by the tests the driver makes on them. *)
Record packet := mkPacket {
  pid : Z;                       (* identity of the object *)
  getDataLength : Z;
  getDataOff : Z;
  getDataVirtualAddress : Z;
  getDataIOVirtualAddress : Z;
  pkt_mss : Z;
  tso_ipv4 : bool;
  tso_ipv6 : bool;
  csum_partial : bool;
  csum_tcp4 : bool;
  csum_udp4 : bool;
  csum_tcp6 : bool;
  csum_udp6 : bool;
  csum_ip : bool;
  csum_start : Z;
  csum_stuff : Z;
}.

#[export] Instance packet_eq_dec : EqDecision packet.
Proof. solve_decision. Defined.

Record offload := mkOffload {
  off_mem : mem;
  off_cmd : Z;
  off_opts2 : Z;
  off_partial : bool;          (* txPartial is counted *)
  off_fail : bool;             (* txPartialFail is counted *)
}.

Definition tsoSegment (mss : Z) : Z :=
  if (mss =? 0) || (mss >? MSS_MAX) then MSS_MAX else mss.

(** The giant-send branch. *)
Definition txGiantSend (m : mem) (frame : Z) (p : packet) : option offload :=
  let opts2 := Z.shiftl (tsoSegment (pkt_mss p) .& MSSMask) MSSShift_8125 in
  if tso_ipv4 p then
    '(m', tcpOff) ← prepareTSO4 m frame;
    Some (mkOffload m' (GiantSendv4 .| Z.shiftl tcpOff GTTCPHO_SHIFT) opts2 false false)
  else
    '(m', tcpOff) ← prepareTSO6 m frame;
    Some (mkOffload m' (GiantSendv6 .| Z.shiftl tcpOff GTTCPHO_SHIFT) opts2 false false).

(** The checksum branch. *)
Definition txChecksum (m : mem) (frame len : Z) (p : packet) : option offload :=
  let ho := Z.shiftl (kMacHdrLen + kIPv6HdrLen) TCPHO_SHIFT in
  if csum_partial p then
    r ← txPartialChecksum m frame len (csum_start p) (csum_stuff p);
    match r with
    | PcFail => Some (mkOffload m 0 0 true true)
    | PcDone m' o => Some (mkOffload m' 0 o true false)
    end
  else if csum_tcp4 p || tso_ipv4 p then Some (mkOffload m 0 (TxIPCS_C .| TxTCPCS_C) false false)
  else if csum_udp4 p then Some (mkOffload m 0 (TxIPCS_C .| TxUDPCS_C) false false)
  else if csum_tcp6 p || tso_ipv6 p then
    Some (mkOffload m 0 (TxTCPCS_C .| TxIPV6F_C .| ho) false false)
  else if csum_udp6 p then Some (mkOffload m 0 (TxUDPCS_C .| TxIPV6F_C .| ho) false false)
  else if csum_ip p then Some (mkOffload m 0 TxIPCS_C false false)
  else Some (mkOffload m 0 0 false false).

Definition txOffload (tsoEnabled : bool) (mtu : Z) (m : mem) (frame len : Z) (p : packet)
    : option offload :=
  if tsoEnabled && (tso_ipv4 p || tso_ipv6 p) && (u32 (len - kMacHdrLen) >? mtu)
  then txGiantSend m frame p
  else txChecksum m frame len p.

(** [opts1] as written to the descriptor of slot [index], ownership included. *)
Definition txOpts1 (index len cmd : Z) : Z :=
  let opts1 := (len .& kTxDescLenMask) .| cmd .| FirstFrag .| LastFrag in
  (if index =? 1023 then opts1 .| RingEnd else opts1) .| DescOwn.

(** ** Lemmas *)

(** [b] has no bit in common with [m]. *)
Lemma land_lor_drop a b m : b .& m = 0 -> (a .| b) .& m = a .& m.
Proof. intros H. by rewrite Z.land_lor_distr_l, H, Z.lor_0_r. Qed.

Lemma land_high_low x k n : 0 <= k -> 0 <= n < 2 ^ k -> Z.shiftl x k .& n = 0.
Proof. intros Hk Hn. rewrite Z.shiftl_mul_pow2 by done. by apply land_shift_disjoint. Qed.

(** A command word: nothing below bit 16 nor above bit 26. *)
Definition cmd_ok (cmd : Z) : Prop := cmd .& 0xffff = 0 /\ 0 <= cmd < 2 ^ 27.

Lemma giant_cmd_ok giant off : (giant = GiantSendv4 \/ giant = GiantSendv6) -> 0 <= off < 128 ->
  cmd_ok (giant .| Z.shiftl off GTTCPHO_SHIFT).
Proof.
  intros Hg Hoff. split.
  - rewrite land_lor_drop; [by destruct Hg as [-> | ->]|].
    change GTTCPHO_SHIFT with (16 + 2). rewrite <- Z.shiftl_shiftl by lia. rewrite Z.shiftl_shiftl by lia.
    replace (16 + 2) with (2 + 16) by lia. rewrite <- Z.shiftl_shiftl by lia.
    apply land_high_low; lia.
  - apply lor_bound; [lia|destruct Hg as [-> | ->]; vm_compute; split; congruence|].
    unfold GTTCPHO_SHIFT. rewrite Z.shiftl_mul_pow2 by lia. lia.
Qed.

Lemma giant_cmd_fields giant off : (giant = GiantSendv4 \/ giant = GiantSendv6) -> 0 <= off < 128 ->
  let cmd := giant .| Z.shiftl off GTTCPHO_SHIFT in
  Z.shiftr cmd GTTCPHO_SHIFT .& 0x7f = off /\
  has cmd GiantSendv4 = (giant =? GiantSendv4) /\ has cmd GiantSendv6 = (giant =? GiantSendv6).
Proof.
  intros Hg Hoff. simpl. unfold GTTCPHO_SHIFT.
  assert (B : forall k, 25 <= k -> Z.testbit (Z.shiftl off 18) k = false).
  { intros k Hk. rewrite Z.shiftl_spec by lia. apply (testbit_high _ 7); lia. }
  split; [|split].
  - rewrite Z.shiftr_lor, Z.shiftr_shiftl_l, Z.shiftl_0_r by lia. rewrite Z.land_lor_distr_l.
    rewrite (land_mask off _ 7) by done. rewrite Z.mod_small by lia.
    by destruct Hg as [-> | ->].
  - unfold GiantSendv4 at 1. rewrite has_bit, Z.lor_spec, B, orb_false_r by lia.
    by destruct Hg as [-> | ->].
  - unfold GiantSendv6 at 1. rewrite has_bit, Z.lor_spec, B, orb_false_r by lia.
    by destruct Hg as [-> | ->].
Qed.

(** Bit [n] of a word whose [cmd] is in range: set iff the fixed part has it. *)
Lemma txOpts1_length index len cmd : 0 <= len < 65536 -> cmd_ok cmd ->
  txOpts1 index len cmd .& 0xffff = len.
Proof.
  intros Hlen [Hc _]. unfold txOpts1.
  assert (E : len .& kTxDescLenMask = len).
  { unfold kTxDescLenMask. rewrite land_ffff by lia. apply Z.mod_small. lia. }
  rewrite E, land_lor_drop by done. change kTxDescLenMask with 0xffff in E.
  destruct (index =? 1023); by rewrite ?land_lor_drop by done.
Qed.

Lemma txOpts1_bit index len cmd n : 0 <= len < 65536 -> cmd_ok cmd -> 27 <= n ->
  Z.testbit (txOpts1 index len cmd) n =
  ((n =? 28) || (n =? 29) || (n =? 31) || ((n =? 30) && (index =? 1023)))%bool.
Proof.
  intros Hlen [_ Hc] Hn. unfold txOpts1, FirstFrag, LastFrag, RingEnd, DescOwn, BIT.
  assert (Hl : Z.testbit (len .& kTxDescLenMask) n = false).
  { apply (testbit_high _ 16); [|lia]. apply land_bound; unfold kTxDescLenMask; lia. }
  assert (Hcn : Z.testbit cmd n = false) by (by apply (testbit_high _ 27)).
  destruct (index =? 1023); rewrite !Z.lor_spec, Hl, Hcn, !Z.pow2_bits_eqb by lia;
    rewrite !(Z.eqb_sym _ n); cbn [orb];
    destruct (n =? 28), (n =? 29), (n =? 30), (n =? 31); done.
Qed.

(** The offload work stays inside the frame and always answers. *)
Lemma txChecksum_safe m frame len p :
  mapped m frame len -> 14 <= len <= 32768 -> 0 <= csum_start p -> 0 <= csum_stuff p ->
  exists o, txChecksum m frame len p = Some o /\ off_cmd o = 0 /\
            same_except m (off_mem o) frame len.
Proof.
  intros Hm Hl Hs Ht. unfold txChecksum. destruct (csum_partial p).
  - assert (exists r, txPartialChecksum m frame len (csum_start p) (csum_stuff p) = Some r /\
              pcsum_ok m frame len (csum_start p) (csum_stuff p) r) as (r&->&Hr)
      by (apply txPartialChecksum_ok; done || lia).
    destruct r as [|m' o]; (eexists; split; [done|]; split; [done|]); simpl; [done|].
    simpl in Hr. destruct (o =? 0); [|destruct Hr as [-> _]; done].
    destruct Hr as (_&seed&?&Hsame&_&_). eapply same_except_weaken; [done|lia|lia].
  - bool_cases; eexists; done.
Qed.

Lemma tsoSegment_range mss : 0 <= mss -> 1 <= tsoSegment mss <= 2047.
Proof.
  intros H. unfold tsoSegment, MSS_MAX. rewrite Z.gtb_ltb.
  destruct (Z.eqb_spec mss 0), (Z.ltb_spec 2047 mss); simpl; lia.
Qed.

Lemma txGiantSend_safe m frame len p :
  mapped m frame len -> 92 <= len ->
  exists o, txGiantSend m frame p = Some o /\ cmd_ok (off_cmd o) /\
            same_except m (off_mem o) frame len.
Proof.
  intros Hm Hl. unfold txGiantSend. destruct (tso_ipv4 p).
  - destruct (prepareTSO4_spec m frame) as (hl&m'&csum&_&->&Hs&_); [eapply mapped_sub; [done|lia..]|].
    cbn [mbind option_bind]. eexists. split; [done|]. simpl. pose proof (nibble hl).
    split; [apply giant_cmd_ok; [by left|lia]|]. eapply same_except_weaken; [done|lia|lia].
  - destruct (prepareTSO6_spec m frame) as (m'&csum&->&Hs&Hd&_); [eapply mapped_sub; [done|lia..]|].
    cbn [mbind option_bind]. eexists. split; [done|]. simpl.
    split; [apply giant_cmd_ok; [by right|lia]|]. split; [done|].
    intros b Hb. apply Hs; lia.
Qed.

Lemma txOffload_safe tsoEnabled mtu m frame len p :
  mapped m frame len -> 14 <= len <= 32768 -> 78 <= mtu ->
  0 <= csum_start p -> 0 <= csum_stuff p ->
  exists o, txOffload tsoEnabled mtu m frame len p = Some o /\ cmd_ok (off_cmd o) /\
            same_except m (off_mem o) frame len.
Proof.
  intros Hm Hl Hmtu Hs Ht. unfold txOffload, kMacHdrLen. destruct (_ && _)%bool eqn:E.
  - bool_props. rewrite Z.gtb_ltb in *. bool_props. rewrite u32_small in * by lia.
    apply txGiantSend_safe; [done|lia].
  - destruct (txChecksum_safe m frame len p) as (o&?&Hc&?); try done.
    exists o. rewrite Hc. split_and!; try done.
Qed.

(** Preparing a large send reads and writes the headers of the packet, up to 92
    bytes from the start of the frame (an IP header of 60 bytes): they are in the
    frame if it is that long, and it is with an MTU of 78 or more; with a smaller
    one they may go beyond it, and then must at least be in the buffer. *)
Lemma txOffload_room tsoEnabled mtu m frame len p :
  mapped m frame len -> 14 <= len <= 32768 -> 78 <= mtu \/ mapped m frame 92 ->
  0 <= csum_start p -> 0 <= csum_stuff p -> is_Some (txOffload tsoEnabled mtu m frame len p).
Proof.
  intros Hm Hl [Hmtu|H92] Hs Ht.
  { destruct (txOffload_safe tsoEnabled mtu m frame len p) as (o&->&_); done. }
  unfold txOffload. destruct (_ && _)%bool.
  - destruct (txGiantSend_safe m frame 92 p H92 ltac:(lia)) as (o&->&_). done.
  - destruct (txChecksum_safe m frame len p) as (o&->&_); done.
Qed.

(** A store changes no more than the bytes it names. *)
Lemma st16_dom m a v m' : st16 m a v = Some m' -> forall b, is_Some (m !! b) <-> is_Some (m' !! b).
Proof.
  unfold st16, st8. destruct (m !! a) as [x|] eqn:E1; [|done]. cbn [mbind option_bind].
  destruct (<[a:=u8 v]> m !! (a + 1)) as [y|] eqn:E2; [|done]. intros [= <-] b.
  rewrite (insert_mapped m a (u8 v) b) by done. by apply insert_mapped.
Qed.

(** Whatever the MTU: if the preparation comes to an end, its command word is in
    range and no byte of memory has gone. *)
Lemma txGiantSend_some m frame p o : txGiantSend m frame p = Some o ->
  cmd_ok (off_cmd o) /\ forall b, is_Some (m !! b) <-> is_Some (off_mem o !! b).
Proof.
  unfold txGiantSend. cbv zeta. destruct (tso_ipv4 p).
  - destruct (prepareTSO4 m frame) as [[m' off]|] eqn:E; [|done]. cbn [mbind option_bind]. intros [= <-]. cbn [off_cmd off_mem].
    revert E. unfold prepareTSO4. destruct (ld8 _ _) as [hl|]; [|done]. cbn [mbind option_bind].
    destruct (csum_addrs _ _ _ _) as [cs|]; [|done]. cbn [mbind option_bind]. destruct (st16 _ _ _) as [m1|] eqn:E1; [|done].
    intros [= <- <-]. split; [|by eapply st16_dom]. pose proof (ip_header_len hl). apply giant_cmd_ok; [by left|]. unfold kMacHdrLen. lia.
  - destruct (prepareTSO6 m frame) as [[m' off]|] eqn:E; [|done]. cbn [mbind option_bind]. intros [= <-]. cbn [off_cmd off_mem].
    revert E. unfold prepareTSO6. destruct (st16 m _ _) as [m1|] eqn:E1; [|done]. cbn [mbind option_bind].
    destruct (csum_addrs _ _ _ _) as [cs|]; [|done]. cbn [mbind option_bind]. destruct (st16 m1 _ _) as [m2|] eqn:E2; [|done].
    intros [= <- <-].
    split; [apply giant_cmd_ok; [by right|]; unfold kMacHdrLen, kIPv6HdrLen; lia|]. intros b.
    etransitivity; [by eapply st16_dom|by eapply st16_dom].
Qed.

Lemma txOffload_some tsoEnabled mtu m frame len p o :
  mapped m frame len -> 14 <= len <= 32768 -> 0 <= csum_start p -> 0 <= csum_stuff p ->
  txOffload tsoEnabled mtu m frame len p = Some o ->
  cmd_ok (off_cmd o) /\ forall b, is_Some (m !! b) <-> is_Some (off_mem o !! b).
Proof.
  intros Hm Hl Hs Ht. unfold txOffload. destruct (_ && _)%bool; [apply txGiantSend_some|].
  destruct (txChecksum_safe m frame len p) as (o'&->&Hc&Hd); try done. intros [= <-]. rewrite Hc. split; [done|]. apply Hd.
Qed.

(** ** Properties *)

(** Whatever offloads a packet asks for, the driver never reads or writes
    outside the frame while it prepares it (MTU at least 78), and the first
    descriptor word says exactly: length in the low 16 bits, owned by the
    chip, first and last fragment, end of ring only in slot 1023. *)
Theorem tx_descriptor_word tsoEnabled mtu m frame len p index :
  mapped m frame len -> 14 <= len <= 32768 -> 78 <= mtu ->
  0 <= csum_start p -> 0 <= csum_stuff p ->
  exists o, txOffload tsoEnabled mtu m frame len p = Some o /\
    same_except m (off_mem o) frame len /\
    let opts1 := txOpts1 index len (off_cmd o) in
    opts1 .& 0xffff = len /\
    has opts1 DescOwn = true /\ has opts1 FirstFrag = true /\ has opts1 LastFrag = true /\
    has opts1 RingEnd = (index =? 1023) /\ 0 <= opts1 < 2 ^ 32.
Proof.
  intros Hm Hl Hmtu Hs Ht.
  destruct (txOffload_safe tsoEnabled mtu m frame len p) as (o&Ho&Hc&Hsame); try done.
  assert (Hr : 0 <= txOpts1 index len (off_cmd o) < 2 ^ 32).
  { apply bits_bound; [lia|]. intros i Hi. rewrite txOpts1_bit by (done || lia).
    rewrite !(proj2 (Z.eqb_neq i _)) by lia. done. }
  exists o. split; [done|]. split; [done|]. simpl.
  unfold DescOwn, FirstFrag, LastFrag, RingEnd. rewrite !has_bit by lia.
  rewrite !txOpts1_bit by (done || lia). split_and!; try done.
  - apply txOpts1_length; [lia|done].
  - apply Hr.
  - apply Hr.
Qed.

(** A packet asking for a large TCP/IPv4 send. *)
Definition tso_packet : packet :=
  mkPacket 1 100 0 4096 8192 1448 true false false false false false false false 0 0.

Lemma tx_descriptor_word_witness :
  mapped (mem_of 4096 tcp4_frame) 4096 100 /\
  exists o, txOffload true 80 (mem_of 4096 tcp4_frame) 4096 100 tso_packet = Some o /\
    txOpts1 1023 100 (off_cmd o) .& 0xffff = 100.
Proof.
  assert (H : mapped (mem_of 4096 tcp4_frame) 4096 100)
    by (apply (mapped_b_sound _ _ 100); vm_compute; reflexivity).
  split; [exact H|].
  destruct (tx_descriptor_word true 80 (mem_of 4096 tcp4_frame) 4096 100 tso_packet 1023 H
    ltac:(lia) ltac:(lia) ltac:(simpl; lia) ltac:(simpl; lia)) as (o&H1&_&H2&_).
  exists o. split; [exact H1|exact H2].
Defined.

(** a giant send puts the TCP header offset into bits 18 to 24 of the
    first word beside exactly one of the two giant-send bits, and a segment
    size between 1 and 2047 (the requested one whenever it fits the 11-bit
    field) into bits 18 to 28 of the second. *)
Theorem tx_giant_send_words m frame p :
  mapped m frame 92 -> 0 <= pkt_mss p ->
  exists o off,
    txGiantSend m frame p = Some o /\
    off = Z.shiftr (off_cmd o) GTTCPHO_SHIFT .& 0x7f /\
    (if tso_ipv4 p then 14 <= off <= 74 else off = 54) /\
    has (off_cmd o) GiantSendv4 = tso_ipv4 p /\ has (off_cmd o) GiantSendv6 = negb (tso_ipv4 p) /\
    1 <= Z.shiftr (off_opts2 o) MSSShift_8125 <= 2047 /\
    (0 < pkt_mss p <= 2047 -> Z.shiftr (off_opts2 o) MSSShift_8125 = pkt_mss p).
Proof.
  intros Hm Hmss. pose proof (tsoSegment_range _ Hmss) as Hseg.
  assert (Hmss' : Z.shiftr (Z.shiftl (tsoSegment (pkt_mss p) .& MSSMask) MSSShift_8125) MSSShift_8125
                  = tsoSegment (pkt_mss p)).
  { unfold MSSShift_8125, MSSMask. rewrite Z.shiftr_shiftl_l, Z.shiftl_0_r by lia.
    rewrite (land_mask _ _ 11) by done. apply Z.mod_small. lia. }
  assert (Hkeep : 0 < pkt_mss p <= 2047 -> tsoSegment (pkt_mss p) = pkt_mss p).
  { intros ?. unfold tsoSegment, MSS_MAX. rewrite Z.gtb_ltb.
    destruct (Z.eqb_spec (pkt_mss p) 0), (Z.ltb_spec 2047 (pkt_mss p)); simpl; lia. }
  unfold txGiantSend. destruct (tso_ipv4 p).
  - destruct (prepareTSO4_spec m frame Hm) as (hl&m'&csum&_&->&_). pose proof (nibble hl).
    destruct (giant_cmd_fields GiantSendv4 (14 + 4 * (hl .& 15))) as (F1&F2&F3); [by left|lia|].
    eexists _, _. split; [done|]. cbn [off_cmd off_opts2]. split; [done|]. rewrite F2, F3, Hmss'. split_and!; done || lia.
  - destruct (prepareTSO6_spec m frame) as (m'&csum&->&_); [eapply mapped_sub; [done|lia..]|].
    destruct (giant_cmd_fields GiantSendv6 54) as (F1&F2&F3); [by right|lia|].
    eexists _, _. split; [done|]. cbn [off_cmd off_opts2]. split; [done|]. rewrite F2, F3, Hmss'. split_and!; done || lia.
Qed.

Lemma tx_giant_send_words_witness :
  mapped (mem_of 4096 tcp4_frame) 4096 92 /\
  exists o off, txGiantSend (mem_of 4096 tcp4_frame) 4096 tso_packet = Some o /\
    14 <= off <= 74 /\ Z.shiftr (off_opts2 o) MSSShift_8125 = 1448.
Proof.
  assert (H : mapped (mem_of 4096 tcp4_frame) 4096 92)
    by (apply (mapped_b_sound _ _ 92); vm_compute; reflexivity).
  split; [exact H|].
  destruct (tx_giant_send_words _ _ tso_packet H ltac:(simpl; lia)) as (o&off&H1&_&H2&_&_&_&H3).
  exists o, off. split; [exact H1|]. split; [exact H2|]. apply H3. simpl. lia.
Defined.

(** At an MTU of 60, which the driver accepts, a large send of 80 bytes whose
    header says 60 bytes of IP options has its checksum field stored behind the
    frame; at the end of the buffer that is outside it. *)
Theorem tx_small_mtu_leaves_buffer :
  let frame := <[14%nat := 0x4f]> (take 80 tcp4_frame) in
  let p := mkPacket 1 80 32688 4096 8192 1448 true false false false false false false false 0 0 in
  mapped (mem_of 36784 frame) 36784 80 /\ getDataOff p + 80 = kTxBufferSize /\
  txOffload true 60 (mem_of 36784 frame) 36784 80 p = None.
Proof.
  split; [apply (mapped_b_sound _ _ 80); vm_compute; reflexivity|]. split; [reflexivity|vm_compute; reflexivity].
Qed.
