(* ===== verification/TxRing.v ===== *)
(** The transmit ring of the DriverKit driver (RTL8127Driver.cpp):
    txDequeueAction takes packets from the framework into descriptor slots,
    txRingReclaim gives them back through the per-class completion FIFOs,
    txEnqueueAction hands the completions to the framework and
    txQueryFreeSpace advertises room.

    The FIFOs are used through [BoundedQueue] only. txDequeueAction runs on a
    framework thread and txRingReclaim on the work queue; [tx_step] interleaves
    the loop bodies of both, and the handlers are folds of the same bodies. *)
From S2P Require Import Prelude Fifo Frame Checksum TxOffload.

Definition kNumTxDesc : Z := 1024.
Definition kTxDescMask : Z := kNumTxDesc - 1.
Definition kTxInflightBytesLimit : Z := 4 * 1024 * 1024.
Definition kNumTxQueues : Z := 4.

Inductive ioreturn := kIOReturnSuccess | kIOReturnAborted | kIOReturnBadArgument.

Record txdesc := mkDesc { d_opts1 : Z; d_opts2 : Z; d_addr : Z }.

(** The datapath counters; the per-queue ones carry the queue index. *)
Inductive counter :=
| TxDequeueCalls (q : Z) | TxPerQueue (q : Z) | TxNonzeroDataOffset
| TxNoLinkCalls | TxNoLinkPackets | TxNoSpaceCalls | TxNoSpacePackets
| TxBadLen | TxPartial | TxPartialFail | TxSubmitted | TxBytes | TxTso | TxNonemptyCalls
| TxReclaimCalls | TxReclaimedDescriptors | TxReclaimMaxBatch | TxReclaimNonempty
| TxCompleted | TxDroppedFifo | TxDoneSampledMax (q : Z)
| TxCompletionCalls (q : Z) | TxCompletionPackets (q : Z).

#[export] Instance counter_eq_dec : EqDecision counter.
Proof. solve_decision. Defined.

Definition counters := counter -> Z.
Definition cset (c : counter) (v : Z) (k : counters) : counters :=
  fun c' => if decide (c = c') then v else k c'.
Definition bump (c : counter) (n : Z) (k : counters) : counters := cset c (u64 (k c + n)) k.
Definition cmax (c : counter) (v : Z) (k : counters) : counters := if v >? k c then cset c v k else k.

(** Calls that leave the driver: the doorbell register and the notifications. *)
Inductive txevent :=
| EvDoorbell (tail : Z) | EvRequestEnqueue (q : Z) | EvRequestDequeue (q : Z).

(** Interface settings the datapath reads. *)
Record txcfg := mkCfg {
  linkUp : bool;
  tsoEnabled : bool;
  mtu : Z;
  MaxTxDescPtrMask : Z;
}.

(** Ring indices of class RTL8127Hw. *)
Record txhw := mkHw {
  txTailPtr0 : Z;
  txClosePtr0 : Z;
  txNextDescIndex : Z;
  txDirtyDescIndex : Z;
  txNumFreeDesc : Z;
}.

(** Per-slot arrays; a missing [txPkt] entry is a null pointer. *)
Record txslots := mkSlots {
  txRing : gmap Z txdesc;
  txPkt : gmap Z packet;
  txPktQueue : gmap Z Z;
  txPktLen : gmap Z Z;
  txInflightBytes : Z;
}.

Record txstate {Q : Type -> Type} := mkTx {
  cfg : txcfg;
  hw : txhw;
  sl : txslots;
  txDoneFifo : gmap Z (Q packet);
  ram : mem;
  status : gmap Z ioreturn;      (* setCompletionStatus, by packet identity *)
  cnt : counters;
  events : list txevent;
  accepted : list packet;        (* every packet taken by txDequeueAction *)
  returned : list packet;        (* every packet handed back by txEnqueueAction *)
  freed : list packet;           (* every packet given to deallocatePacket *)
}.
Arguments txstate : clear implicits.

Section Handlers.
Context {Q : Type -> Type} `{BQ : !BoundedQueue Q}.

Definition doneq (s : txstate Q) (q : Z) : Q packet := aget bq_empty (txDoneFifo s) q.

(** [if (!fifoPush(&txDoneFifo[q], pkt)) txPool->deallocatePacket(pkt)];
    [drop] is counted when the FIFO was full. *)
Definition complete (s : txstate Q) (q : Z) (p : packet) (st : ioreturn) (drop : counters -> counters)
    : txstate Q :=
  let '(f, ok) := bq_push (doneq s q) p in
  mkTx Q (cfg s) (hw s) (sl s) (<[q := f]> (txDoneFifo s)) (ram s)
       (<[pid p := st]> (status s)) (if ok then cnt s else drop (cnt s)) (events s)
       (accepted s) (returned s) (if ok then freed s else freed s ++ [p]).

Definition with_cnt (s : txstate Q) (k : counters) : txstate Q :=
  mkTx Q (cfg s) (hw s) (sl s) (txDoneFifo s) (ram s) (status s) k (events s)
       (accepted s) (returned s) (freed s).

Definition with_hw (s : txstate Q) (h : txhw) : txstate Q :=
  mkTx Q (cfg s) h (sl s) (txDoneFifo s) (ram s) (status s) (cnt s) (events s)
       (accepted s) (returned s) (freed s).

Definition with_event (s : txstate Q) (e : txevent) : txstate Q :=
  mkTx Q (cfg s) (hw s) (sl s) (txDoneFifo s) (ram s) (status s) (cnt s) (events s ++ [e])
       (accepted s) (returned s) (freed s).

Definition accept (s : txstate Q) (p : packet) : txstate Q :=
  mkTx Q (cfg s) (hw s) (sl s) (txDoneFifo s) (ram s) (status s) (cnt s) (events s)
       (accepted s ++ [p]) (returned s) (freed s).

(** *** txDequeueAction *)

Definition noSpace (s : txstate Q) : bool :=
  (txNumFreeDesc (hw s) <=? 2) || (txInflightBytes (sl s) >=? kTxInflightBytesLimit).

Definition txView (p : packet) : bool * RTL8127TxBufferView :=
  rtl8127TxBufferView (getDataVirtualAddress p) (getDataIOVirtualAddress p)
                      (getDataOff p) (getDataLength p) kTxBufferSize.

Definition badPacket (p : packet) : bool :=
  (getDataLength p <? kMacHdrLen) || negb (txView p).1.

(** Fill the slot at [txNextDescIndex]. *)
Definition txFill (s : txstate Q) (q : Z) (p : packet) (v : RTL8127TxBufferView) (o : offload)
    : txstate Q :=
  let index := txNextDescIndex (hw s) in
  let len := getDataLength p in
  let k := if off_partial o then bump TxPartial 1 (cnt s) else cnt s in
  let k := if off_fail o then bump TxPartialFail 1 k else k in
  let k := bump TxBytes len (bump TxSubmitted 1 k) in
  let k := if off_cmd o =? 0 then k else bump TxTso 1 k in
  mkTx Q (cfg s)
    (mkHw (u32 (txTailPtr0 (hw s) + 1)) (txClosePtr0 (hw s)) (u32 (index + 1) .& kTxDescMask)
          (txDirtyDescIndex (hw s)) (s32 (txNumFreeDesc (hw s) - 1)))
    (mkSlots
      (<[index := mkDesc (txOpts1 index len (off_cmd o)) (off_opts2 o) (view_iova v)]> (txRing (sl s)))
      (<[index := p]> (txPkt (sl s))) (<[index := u8 q]> (txPktQueue (sl s)))
      (<[index := len]> (txPktLen (sl s))) (txInflightBytes (sl s) + len))
    (txDoneFifo s) (off_mem o) (status s) k (events s) (accepted s ++ [p]) (returned s) (freed s).

(** One pass of the loop, after the space test: [None] is an access outside
    the frame's memory. *)
Definition txAccept (s : txstate Q) (q : Z) (p : packet) : option (txstate Q) :=
  if badPacket p then
    Some (complete (accept (with_cnt s (bump TxBadLen 1 (cnt s))) p) q p kIOReturnBadArgument id)
  else
    let v := (txView p).2 in
    o ← txOffload (tsoEnabled (cfg s)) (mtu (cfg s)) (ram s) (view_frame v) (getDataLength p) p;
    Some (txFill s q p v o).

(** The loop; the count is the number of packets accepted. *)
Fixpoint txDequeueLoop (s : txstate Q) (q : Z) (ps : list packet) : option (txstate Q * Z) :=
  match ps with
  | [] => Some (s, 0)
  | p :: ps' =>
      if noSpace s then
        Some (with_cnt s (bump TxNoSpacePackets (Z.of_nat (length ps)) (bump TxNoSpaceCalls 1 (cnt s))), 0)
      else
        s' ← txAccept s q p;
        '(s'', n) ← txDequeueLoop s' q ps';
        Some (s'', n + 1)
  end.

Definition countOffsets (ps : list packet) (k : counters) : counters :=
  foldl (fun k p => if getDataOff p =? 0 then k else bump TxNonzeroDataOffset 1 k) k ps.

(** [qidx] is the answer of txQueueIndex for the calling queue. *)
Definition txDequeueAction (s : txstate Q) (qidx : Z) (ps : list packet) : option (txstate Q * Z) :=
  let n := Z.of_nat (length ps) in
  let before := cnt s TxSubmitted in
  let s := with_cnt s (countOffsets ps (bump (TxPerQueue qidx) n (bump (TxDequeueCalls qidx) 1 (cnt s)))) in
  if negb (linkUp (cfg s)) then
    Some (with_cnt s (bump TxNoLinkPackets n (bump TxNoLinkCalls 1 (cnt s))), 0)
  else
    '(s, acc) ← txDequeueLoop s qidx ps;
    let s := if cnt s TxSubmitted =? before then s else with_cnt s (bump TxNonemptyCalls 1 (cnt s)) in
    Some (if acc =? 0 then s else with_event s (EvDoorbell (txTailPtr0 (hw s))), acc).

(** *** txQueryFreeSpace: free slots and free bytes *)

Definition txQueryFreeSpace (s : txstate Q) : Z * Z :=
  let freeDesc := if txNumFreeDesc (hw s) <? 0 then 0 else txNumFreeDesc (hw s) in
  let availBytes := kTxInflightBytesLimit - txInflightBytes (sl s) in
  if (availBytes <=? 0) || (freeDesc =? 0) then (0, 0)
  else (freeDesc, if availBytes >? 4294967295 then 4294967295 else availBytes).

(** *** txEnqueueAction *)

Definition txEnqueueAction (s : txstate Q) (qidx : Z) (arrayCapacity : nat) : txstate Q * list packet :=
  let '(f, l) := popAll arrayCapacity (doneq s qidx) in
  let k := bump (TxCompletionPackets qidx) (Z.of_nat (length l)) (bump (TxCompletionCalls qidx) 1 (cnt s)) in
  (mkTx Q (cfg s) (hw s) (sl s) (<[qidx := f]> (txDoneFifo s)) (ram s) (status s) k (events s)
        (accepted s) (returned s ++ l) (freed s), l).

(** *** txRingReclaim *)

Definition slotQueue (s : txstate Q) (index : Z) : Z :=
  let q := aget 0 (txPktQueue (sl s)) index in if q <? kNumTxQueues then q else 0.

(** One pass of the loop: the slot at [txDirtyDescIndex] is emptied and its
    packet completed. *)
Definition txReclaimSlot (abort : bool) (s : txstate Q) : txstate Q :=
  let index := txDirtyDescIndex (hw s) in
  let h := mkHw (txTailPtr0 (hw s)) (txClosePtr0 (hw s)) (txNextDescIndex (hw s))
                (u32 (index + 1) .& kTxDescMask) (txNumFreeDesc (hw s)) in
  let slots' bytes := mkSlots (txRing (sl s)) (delete index (txPkt (sl s))) (txPktQueue (sl s))
                              (txPktLen (sl s)) bytes in
  let upd k bytes := mkTx Q (cfg s) h (slots' bytes) (txDoneFifo s) (ram s) (status s) k
                            (events s) (accepted s) (returned s) (freed s) in
  match txPkt (sl s) !! index with
  | None => upd (cnt s) (txInflightBytes (sl s))
  | Some p =>
      complete (upd (bump TxCompleted 1 (cnt s)) (txInflightBytes (sl s) - aget 0 (txPktLen (sl s)) index))
               (slotQueue s index) p (if abort then kIOReturnAborted else kIOReturnSuccess)
               (bump TxDroppedFifo 1)
  end.

(** The loop, with the queues that got a completion. *)
Fixpoint txReclaimLoop (n : nat) (abort : bool) (s : txstate Q) (did : Z -> bool)
    : txstate Q * (Z -> bool) :=
  match n with
  | O => (s, did)
  | S n' =>
      let index := txDirtyDescIndex (hw s) in
      let q := slotQueue s index in
      let did' := if bool_decide (is_Some (txPkt (sl s) !! index))
                  then fun i => (i =? q) || did i else did in
      txReclaimLoop n' abort (txReclaimSlot abort s) did'
  end.

(** Notify one queue after the loop. *)
Definition notify (abort : bool) (did : Z -> bool) (s : txstate Q) (i : Z) : txstate Q :=
  let s := if did i && negb abort
           then with_cnt s (cmax (TxDoneSampledMax i) (bq_depth (doneq s i)) (cnt s)) else s in
  let s := if did i then with_event s (EvRequestEnqueue i) else s in
  with_event s (EvRequestDequeue i).

Definition nextClose (abort : bool) (hwclo : Z) (s : txstate Q) : Z :=
  if abort then txTailPtr0 (hw s) else hwclo.

Definition numDone (abort : bool) (hwclo : Z) (s : txstate Q) : Z :=
  u32 (nextClose abort hwclo s - txClosePtr0 (hw s)) .& MaxTxDescPtrMask (cfg s).

(** The part before the loop. *)
Definition reclaimBegin (abort : bool) (hwclo : Z) (s : txstate Q) : txstate Q :=
  let n := numDone abort hwclo s in
  let k := if abort then cnt s
           else cmax TxReclaimMaxBatch n (bump TxReclaimedDescriptors n (bump TxReclaimCalls 1 (cnt s))) in
  with_cnt (with_hw s (mkHw (txTailPtr0 (hw s)) (nextClose abort hwclo s) (txNextDescIndex (hw s))
                            (txDirtyDescIndex (hw s)) (txNumFreeDesc (hw s)))) k.

(** The slots are published in one atomic addition after the loop. *)
Definition reclaimPublish (abort : bool) (n : Z) (s : txstate Q) : txstate Q :=
  if n =? 0 then s else
  with_cnt (with_hw s (mkHw (txTailPtr0 (hw s)) (txClosePtr0 (hw s)) (txNextDescIndex (hw s))
                            (txDirtyDescIndex (hw s)) (s32 (txNumFreeDesc (hw s) + n))))
           (if abort then cnt s else bump TxReclaimNonempty 1 (cnt s)).

(** [hwclo] is what rtl812xGetHwCloPtr reads. All queues of the driver exist
    while the interface is enabled. *)
Definition txRingReclaim (abort : bool) (hwclo : Z) (s : txstate Q) : txstate Q :=
  let n := numDone abort hwclo s in
  let '(s, did) := txReclaimLoop (Z.to_nat n) abort (reclaimBegin abort hwclo s) (fun _ => false) in
  let s := reclaimPublish abort n s in
  if did 0 || did 1 || did 2 || did 3 then foldl (notify abort did) s [0; 1; 2; 3] else s.
End Handlers.

(** ** The invariant *)

(** What the framework promises about a packet it hands over: machine-width
    values and, unless the buffer is null, a buffer of kTxBufferSize bytes. *)
Definition pkt_ok (m : mem) (p : packet) : Prop :=
  0 <= getDataLength p < 2 ^ 32 /\ 0 <= getDataOff p < 2 ^ 64 /\
  0 <= getDataVirtualAddress p < 2 ^ 64 /\ 0 <= getDataIOVirtualAddress p < 2 ^ 64 /\
  0 <= csum_start p /\ 0 <= csum_stuff p /\
  (getDataVirtualAddress p <> 0 -> mapped m (getDataVirtualAddress p) kTxBufferSize).

(** The descriptor of slot [j] sends exactly the frame of [p]. *)
Definition desc_ok (j : Z) (p : packet) (d : txdesc) : Prop :=
  d_addr d = getDataIOVirtualAddress p + getDataOff p /\
  d_opts1 d .& 0xffff = getDataLength p /\ has (d_opts1 d) DescOwn = true /\
  has (d_opts1 d) RingEnd = (j =? 1023).

Definition slot_of (dirty : Z) (i : nat) : Z := (dirty + Z.of_nat i) mod 1024.

(** [q]: the packets in flight, oldest first, with their queue index. *)
Record ring_ok (h : txhw) (s : txslots) (q : list (packet * Z)) : Prop := {
  ro_dirty : 0 <= txDirtyDescIndex h < 1024;
  ro_cap : (length q <= 1024)%nat;
  ro_next : txNextDescIndex h = (txDirtyDescIndex h + Z.of_nat (length q)) mod 1024;
  ro_in : forall i p qi, q !! i = Some (p, qi) ->
    let j := slot_of (txDirtyDescIndex h) i in
    txPkt s !! j = Some p /\ txPktQueue s !! j = Some qi /\ txPktLen s !! j = Some (getDataLength p) /\
    0 <= qi < 4 /\ exists d, txRing s !! j = Some d /\ desc_ok j p d;
  ro_out : forall i, (length q <= i < 1024)%nat -> txPkt s !! slot_of (txDirtyDescIndex h) i = None;
  ro_len : Forall (fun pq => 14 <= getDataLength pq.1 <= kTxBufferSize) q;
  ro_bytes : txInflightBytes s = sumZ ((fun pq => getDataLength pq.1) <$> q);
}.

(** The work queue inside txRingReclaim: [todo] slots left of [total]. *)
Inductive reclaimer := RIdle | RBusy (abort : bool) (todo total : Z).
Definition todo_of r := match r with RIdle => 0 | RBusy _ t _ => t end.
Definition total_of r := match r with RIdle => 0 | RBusy _ _ t => t end.

(** Pointers and counts; [w] is the width of the close pointer. *)
Record ptrs_ok (w : Z) (h : txhw) (r : reclaimer) (n : Z) : Prop := {
  po_tail : 0 <= txTailPtr0 h < 2 ^ 32;
  po_close : 0 <= txClosePtr0 h < 2 ^ 32;
  po_todo : 0 <= todo_of r <= n /\ todo_of r <= total_of r;
  po_free : txNumFreeDesc h = 1024 - n - (total_of r - todo_of r) /\ 0 <= txNumFreeDesc h;
  po_diff : (txTailPtr0 h - txClosePtr0 h) mod 2 ^ w = n - todo_of r;
}.

Section Invariant.
Context {Q : Type -> Type} `{BQ : !BoundedQueue Q}.
Context (w : Z) (Hw : 16 <= w <= 32).

Definition allL (L : Z -> list packet) : list packet := L 0 ++ L 1 ++ L 2 ++ L 3.

(** Every packet ever accepted is in flight, waiting in a completion FIFO,
    back with the framework, or deallocated: once each. *)
Definition conserved (s : txstate Q) (q : list (packet * Z)) (L : Z -> list packet) : Prop :=
  (forall i, 0 <= i < 4 -> bq_rep (doneq s i) (L i)) /\
  accepted s ≡ₚ (fst <$> q) ++ allL L ++ returned s ++ freed s.

Record tx_inv (s : txstate Q) (r : reclaimer) (q : list (packet * Z)) (L : Z -> list packet) : Prop := {
  ti_mask : MaxTxDescPtrMask (cfg s) = 2 ^ w - 1;
  ti_ring : ring_ok (hw s) (sl s) q;
  ti_ptrs : ptrs_ok w (hw s) r (Z.of_nat (length q));
  ti_limit : txInflightBytes (sl s) < kTxInflightBytesLimit + kTxBufferSize;
  ti_cons : conserved s q L;
}.

(** *** Arithmetic of slots and pointers *)

Lemma slot_next d : 0 <= d < 1024 ->
  u32 (d + 1) .& kTxDescMask = (d + 1) mod 1024.
Proof. intros. rewrite u32_small by lia. by rewrite (land_mask _ _ 10). Qed.

Lemma slot_of_inj d i j : (i < 1024)%nat -> (j < 1024)%nat -> slot_of d i = slot_of d j -> i = j.
Proof. intros ?? E. apply ring_inj in E; lia. Qed.

Lemma slot_of_S d i : slot_of ((d + 1) mod 1024) i = slot_of d (S i).
Proof. unfold slot_of. rewrite Zplus_mod_idemp_l. f_equal. lia. Qed.

Lemma ptr_mask (x : Z) : u32 x .& (2 ^ w - 1) = x mod 2 ^ w.
Proof.
  rewrite land_ones_mod by lia. unfold u32. change 4294967296 with (2 ^ 32).
  replace 32 with (w + (32 - w)) by lia. rewrite Z.pow_add_r by lia.
  by rewrite Z.rem_mul_r, Z.mul_comm, Z.mod_add, Z.mod_mod by lia.
Qed.

Lemma pow_w : 65536 <= 2 ^ w.
Proof. change 65536 with (2 ^ 16). apply Z.pow_le_mono_r; lia. Qed.

(** Advancing one end of a circular distance. *)
Lemma diff_shift a b c x d : (a - b) mod 2 ^ w = x -> (c - b) mod 2 ^ w = d ->
  0 <= d <= x -> (a - c) mod 2 ^ w = x - d.
Proof.
  intros Hx Hd Hle. pose proof pow_w. replace (a - c) with ((a - b) - (c - b)) by lia.
  rewrite Zminus_mod, Hx, Hd. apply Z.mod_small.
  pose proof (Z.mod_pos_bound (a - b) (2 ^ w)). lia.
Qed.

(** *** Completing a packet *)

(** The FIFO contents after a completion of queue [q]. *)
Definition pushL (L : Z -> list packet) (q : Z) (p : packet) : Z -> list packet :=
  fun i => if i =? q then if (length (L q) <? bq_capacity)%nat then L q ++ [p] else L q else L i.

Lemma allL_insert (L L' : Z -> list packet) q p : 0 <= q < 4 -> L' q = L q ++ [p] ->
  (forall i, i <> q -> L' i = L i) -> allL L' ≡ₚ p :: allL L.
Proof.
  intros Hq Hp Ho. unfold allL.
  assert (q = 0 \/ q = 1 \/ q = 2 \/ q = 3) as [->|[->|[->| ->]]] by lia;
    rewrite Hp, !Ho by lia; solve_Permutation.
Qed.

Lemma complete_spec (s : txstate Q) q p st drop L :
  0 <= q < 4 -> (forall i, 0 <= i < 4 -> bq_rep (doneq s i) (L i)) ->
  let s' := complete s q p st drop in
  (forall i, 0 <= i < 4 -> bq_rep (doneq s' i) (pushL L q p i)) /\
  allL (pushL L q p) ++ returned s' ++ freed s' ≡ₚ p :: allL L ++ returned s ++ freed s /\
  status s' = <[pid p := st]> (status s) /\
  (cfg s', hw s', sl s', ram s', accepted s') = (cfg s, hw s, sl s, ram s, accepted s).
Proof.
  intros Hq HL. simpl. unfold complete.
  assert (Hother : forall i f, 0 <= i < 4 -> i <> q ->
            bq_rep (aget bq_empty (<[q:=f]> (txDoneFifo s)) i) (pushL L q p i)).
  { intros i f Hi Hne. rewrite aget_insert_ne by done. unfold pushL.
    rewrite (proj2 (Z.eqb_neq i q)) by done. by apply HL. }
  pose proof (bq_rep_cap _ _ _ (HL q Hq)) as Hcap.
  destruct (Nat.ltb_spec (length (L q)) bq_capacity) as [Hr|Hr].
  - destruct (bq_push_room _ _ _ p (HL q Hq) Hr) as [Hok Hrep].
    destruct (bq_push (doneq s q) p) as [f ok]; simpl in *. subst ok. split_and!; try done.
    + intros i Hi. destruct (decide (i = q)) as [->|Hne]; [|by apply Hother].
      unfold doneq; simpl. rewrite aget_insert_eq. unfold pushL. rewrite Z.eqb_refl.
      by rewrite (proj2 (Nat.ltb_lt _ _)).
    + rewrite (allL_insert L (pushL L q p) q p); [done|done| |].
      * unfold pushL. by rewrite Z.eqb_refl, (proj2 (Nat.ltb_lt _ _)).
      * intros i Hne. unfold pushL. by rewrite (proj2 (Z.eqb_neq i q)).
  - assert (length (L q) = bq_capacity) as E by lia.
    rewrite (bq_push_full _ _ _ p (HL q Hq) E); simpl.
    assert (EL : forall i, pushL L q p i = L i).
    { intros i. unfold pushL. destruct (Z.eqb_spec i q) as [->|]; [|done].
      by rewrite (proj2 (Nat.ltb_ge _ _)). }
    split_and!; try done.
    + intros i Hi. destruct (decide (i = q)) as [->|Hne]; [|by apply Hother].
      unfold doneq; simpl. rewrite aget_insert_eq, EL. by apply HL.
    + unfold allL. rewrite !EL. solve_Permutation.
Qed.

(** *** The loop bodies keep the invariant *)

Lemma tx_inv_cnt s r q L k : tx_inv s r q L -> tx_inv (with_cnt s k) r q L.
Proof. by intros []. Qed.

Lemma tx_inv_event s r q L e : tx_inv s r q L -> tx_inv (with_event s e) r q L.
Proof. by intros []. Qed.

Lemma inv_bad s r q L qi p : tx_inv s r q L -> 0 <= qi < 4 ->
  tx_inv (complete (accept s p) qi p kIOReturnBadArgument id) r q (pushL L qi p).
Proof.
  intros [Hm Hr Hp Hl [HL Hc]] Hqi.
  destruct (complete_spec (accept s p) qi p kIOReturnBadArgument id L Hqi HL)
    as (HL'&HP&_&[= E1 E2 E3 E4 E5]).
  constructor; rewrite ?E1, ?E2, ?E3; try done. split; [done|].
  rewrite E5, HP. simpl. rewrite Hc. solve_Permutation.
Qed.

Lemma ring_fill h s q p qi d tail free :
  ring_ok h s q -> (length q < 1024)%nat -> 0 <= qi < 4 -> 14 <= getDataLength p <= kTxBufferSize ->
  desc_ok (txNextDescIndex h) p d ->
  let j := txNextDescIndex h in
  ring_ok (mkHw tail (txClosePtr0 h) (u32 (j + 1) .& kTxDescMask) (txDirtyDescIndex h) free)
    (mkSlots (<[j := d]> (txRing s)) (<[j := p]> (txPkt s)) (<[j := qi]> (txPktQueue s))
             (<[j := getDataLength p]> (txPktLen s)) (txInflightBytes s + getDataLength p))
    (q ++ [(p, qi)]).
Proof.
  intros [Hd Hcap Hn Hin Hout Hlen Hb] Hq Hqi Hlp Hdesc j.
  assert (Ej : j = slot_of (txDirtyDescIndex h) (length q)) by done.
  change (txNextDescIndex h) with j in Hdesc. clearbody j.
  assert (Hj : 0 <= j < 1024) by (rewrite Ej; unfold slot_of; lia).
  constructor; simpl.
  - done.
  - rewrite length_app. simpl. lia.
  - rewrite slot_next by done. rewrite length_app, Ej. unfold slot_of. simpl length.
    rewrite Zplus_mod_idemp_l. f_equal. lia.
  - intros i p' qi' Hi. apply lookup_app_Some in Hi as [Hi|[Hge Hi]].
    + pose proof (lookup_lt_Some _ _ _ Hi).
      assert (j <> slot_of (txDirtyDescIndex h) i).
      { rewrite Ej. intros E. apply slot_of_inj in E; lia. }
      rewrite !lookup_insert_ne by done. by apply Hin.
    + apply list_lookup_singleton_Some in Hi as [Hi0 Hpq]. injection Hpq as <- <-.
      replace i with (length q) by lia. rewrite <- Ej, !lookup_insert_eq.
      split_and!; try done; try lia. by exists d.
  - rewrite length_app. simpl. intros i Hi.
    rewrite lookup_insert_ne; [apply Hout; lia|].
    rewrite Ej. intros E. apply slot_of_inj in E; lia.
  - apply Forall_app. by rewrite Forall_singleton.
  - rewrite Hb, fmap_app, sumZ_app. simpl. lia.
Qed.

Lemma inv_fill s r q L qi p v o :
  tx_inv s r q L -> 0 <= qi < 4 -> noSpace s = false -> 14 <= getDataLength p <= kTxBufferSize ->
  view_iova v = getDataIOVirtualAddress p + getDataOff p -> cmd_ok (off_cmd o) ->
  tx_inv (txFill s qi p v o) r (q ++ [(p, qi)]) L.
Proof.
  intros [Hm Hr Hp Hl [HL Hc]] Hqi Hns Hlen Hv Hcmd.
  apply orb_false_iff in Hns as [Hfree Hby]. apply Z.leb_gt in Hfree.
  rewrite Z.geb_leb in Hby. apply Z.leb_gt in Hby.
  destruct Hp as [Ht Hcl [Htd Htt] [Hf Hf0] Hdiff]. unfold kTxBufferSize in *.
  constructor; simpl; [done| | |unfold kTxBufferSize in *; lia|].
  - rewrite u8_small by lia. apply ring_fill; try done; [lia|].
    split_and!; simpl; [done| | |].
    + apply txOpts1_length; [lia|done].
    + unfold DescOwn. rewrite has_bit, txOpts1_bit by (done || lia). done.
    + unfold RingEnd. rewrite has_bit, txOpts1_bit by (done || lia). done.
  - rewrite length_app. pose proof pow_w. constructor; simpl.
    + apply u32_range.
    + done.
    + lia.
    + unfold s32. lia.
    + rewrite <- ptr_mask. unfold u32. rewrite Zminus_mod_idemp_l.
      fold (u32 (txTailPtr0 (hw s) + 1 - txClosePtr0 (hw s))). rewrite ptr_mask.
      replace (txTailPtr0 (hw s) + 1 - txClosePtr0 (hw s))
        with (txTailPtr0 (hw s) - txClosePtr0 (hw s) + 1) by lia.
      rewrite <- Zplus_mod_idemp_l, Hdiff. rewrite Z.mod_small by lia. lia.
  - split; [done|]. cbn [txFill accepted returned freed]. rewrite Hc, fmap_app. simpl.
    solve_Permutation.
Qed.

(** What one pass of the dequeue loop does to the abstract state. *)
Definition acceptQ (q : list (packet * Z)) (qi : Z) (p : packet) : list (packet * Z) :=
  if badPacket p then q else q ++ [(p, qi)].
Definition acceptL (L : Z -> list packet) (qi : Z) (p : packet) : Z -> list packet :=
  if badPacket p then pushL L qi p else L.

Lemma good_packet m p : pkt_ok m p -> badPacket p = false ->
  14 <= getDataLength p <= kTxBufferSize /\
  view_iova (txView p).2 = getDataIOVirtualAddress p + getDataOff p /\
  mapped m (view_frame (txView p).2) (getDataLength p).
Proof.
  intros (Hl&Ho&Hva&Hio&_&_&Hm) Hb. apply orb_false_iff in Hb as [Hl14 Hv].
  apply Z.ltb_ge in Hl14. apply negb_false_iff in Hv. unfold kMacHdrLen in *.
  destruct (txView p) as [ok v] eqn:E. simpl in *. subst ok.
  apply tx_view_accept in E as (Hnz&_&Hfit&_&_&Hf&Hi); try done.
  rewrite Hf. split_and!; [lia..|done|]. eapply mapped_sub; [by apply Hm|lia..].
Qed.

(** The headers that a large send rewrites are in the frame or at least in its
    buffer. *)
Definition tso_room (s : txstate Q) (p : packet) : Prop :=
  78 <= mtu (cfg s) \/ getDataOff p + 92 <= kTxBufferSize.

Lemma frame_room m p : pkt_ok m p -> badPacket p = false -> getDataOff p + 92 <= kTxBufferSize ->
  mapped m (view_frame (txView p).2) 92.
Proof.
  intros (Hl&Ho&Hva&Hio&_&_&Hm) Hb Hr. apply orb_false_iff in Hb as [Hl14 Hv].
  apply Z.ltb_ge in Hl14. apply negb_false_iff in Hv. unfold kMacHdrLen in *.
  destruct (txView p) as [ok v] eqn:E. simpl in *. subst ok.
  apply tx_view_accept in E as (Hnz&_&Hfit&_&_&Hf&Hi); try done.
  rewrite Hf. eapply mapped_sub; [by apply Hm|lia..].
Qed.

(** Taking a packet comes to an end. *)
Lemma accept_some s qi p : pkt_ok (ram s) p -> tso_room s p -> is_Some (txAccept s qi p).
Proof.
  intros Hok Hr. unfold txAccept. destruct (badPacket p) eqn:Hb; [done|].
  destruct (good_packet _ _ Hok Hb) as (Hl&_&Hm). pose proof Hok as (_&_&_&_&Hst&Hsf&_). unfold kTxBufferSize in Hl.
  destruct (txOffload_room (tsoEnabled (cfg s)) (mtu (cfg s)) (ram s) _ _ p Hm Hl) as [o ->]; try done.
  destruct Hr as [?|?]; [by left|right; by apply frame_room].
Qed.

Lemma inv_accept s s' r q L qi p :
  tx_inv s r q L -> 0 <= qi < 4 -> noSpace s = false -> pkt_ok (ram s) p -> txAccept s qi p = Some s' ->
  tx_inv s' r (acceptQ q qi p) (acceptL L qi p) /\
    cfg s' = cfg s /\ (forall b, is_Some (ram s !! b) <-> is_Some (ram s' !! b)) /\
    accepted s' = accepted s ++ [p] /\ events s' = events s /\
    (badPacket p = false -> txDoneFifo s' = txDoneFifo s).
Proof.
  intros HI Hqi Hns Hok. unfold txAccept, acceptQ, acceptL.
  destruct (badPacket p) eqn:Hb.
  - intros [= <-]. split; [by apply inv_bad, Hqi; apply tx_inv_cnt|].
    unfold complete. destruct (bq_push _ _) as [f ok]. done.
  - destruct (good_packet _ _ Hok Hb) as (Hl&Hv&Hm). destruct Hok as (_&_&_&_&Hst&Hsf&_).
    unfold kTxBufferSize in Hl. destruct (txOffload _ _ _ _ _ _) as [o|] eqn:Eo; [|done]. intros [= <-].
    destruct (txOffload_some _ _ _ _ _ _ _ Hm Hl Hst Hsf Eo) as [Hc Hd].
    split; [by apply inv_fill|]. split_and!; done.
Qed.

(** The hardware reports a close pointer between the driver's own and the tail. *)
Definition close_ok (hwclo : Z) (s : txstate Q) : Prop :=
  0 <= hwclo < 2 ^ 32 /\
  (hwclo - txClosePtr0 (hw s)) mod 2 ^ w <= (txTailPtr0 (hw s) - txClosePtr0 (hw s)) mod 2 ^ w.

Lemma close_ok_abort s r q L : tx_inv s r q L -> close_ok (txTailPtr0 (hw s)) s.
Proof. intros [_ _ [] _ _]. split; [done|lia]. Qed.

Lemma inv_begin s q L abort hwclo :
  tx_inv s RIdle q L -> close_ok (nextClose abort hwclo s) s ->
  let n := numDone abort hwclo s in
  0 <= n <= Z.of_nat (length q) /\ tx_inv (reclaimBegin abort hwclo s) (RBusy abort n n) q L.
Proof.
  intros [Hm Hr Hp Hl Hc] [Hrange Hle]. simpl. unfold numDone. rewrite Hm, ptr_mask.
  set (nc := nextClose abort hwclo s) in *.
  destruct Hp as [Ht Hcl _ [Hf Hf0] Hdiff]. simpl in *. rewrite Z.sub_0_r in Hdiff. rewrite Hdiff in Hle.
  pose proof pow_w. pose proof (Z.mod_pos_bound (nc - txClosePtr0 (hw s)) (2 ^ w) ltac:(lia)).
  split; [lia|]. constructor; simpl; try done.
  - by destruct Hr.
  - constructor; simpl; try done; try lia.
    apply (diff_shift _ (txClosePtr0 (hw s))); [done|done|lia].
Qed.

Lemma ring_reclaim h s p qi q bytes : ring_ok h s ((p, qi) :: q) ->
  bytes = txInflightBytes s - aget 0 (txPktLen s) (txDirtyDescIndex h) ->
  ring_ok (mkHw (txTailPtr0 h) (txClosePtr0 h) (txNextDescIndex h)
                (u32 (txDirtyDescIndex h + 1) .& kTxDescMask) (txNumFreeDesc h))
    (mkSlots (txRing s) (delete (txDirtyDescIndex h) (txPkt s)) (txPktQueue s) (txPktLen s) bytes) q.
Proof.
  intros [Hd Hcap Hn Hin Hout Hlen Hb] ->. rewrite slot_next by done.
  assert (E0 : slot_of (txDirtyDescIndex h) 0 = txDirtyDescIndex h).
  { unfold slot_of. rewrite Z.add_0_r. by apply Z.mod_small. }
  simpl length in *. constructor; simpl.
  - apply Z.mod_pos_bound. lia.
  - lia.
  - rewrite Hn, Zplus_mod_idemp_l. f_equal. lia.
  - intros i p' qi' Hi. rewrite slot_of_S. pose proof (lookup_lt_Some _ _ _ Hi).
    destruct (Hin (S i) p' qi' Hi) as (H1&H2&H3&H4&H5). split_and!; try done; try lia.
    rewrite lookup_delete_ne; [done|]. rewrite <- E0 at 1. intros E.
    apply slot_of_inj in E; lia.
  - intros i Hi. rewrite slot_of_S. destruct (decide (S i = 1024)%nat) as [Hs|Hs].
    + assert (slot_of (txDirtyDescIndex h) (S i) = txDirtyDescIndex h) as ->.
      { unfold slot_of. rewrite Hs. lia. }
      apply lookup_delete_eq.
    + rewrite lookup_delete_ne; [apply Hout; lia|]. rewrite <- E0 at 1. intros E.
      apply slot_of_inj in E; lia.
  - by inversion Hlen.
  - destruct (Hin 0%nat p qi eq_refl) as (_&_&H3&_). rewrite E0 in H3.
    unfold aget. rewrite Hb, H3, fmap_cons. cbn [sumZ fst default]. simpl. lia.
Qed.

Lemma dirty_slot h s p qi q : ring_ok h s ((p, qi) :: q) ->
  txPkt s !! txDirtyDescIndex h = Some p /\ txPktQueue s !! txDirtyDescIndex h = Some qi /\ 0 <= qi < 4.
Proof.
  intros [Hd _ _ Hin _ _ _]. destruct (Hin 0%nat p qi eq_refl) as (H1&H2&_&H4&_).
  assert (E0 : slot_of (txDirtyDescIndex h) 0 = txDirtyDescIndex h).
  { unfold slot_of. rewrite Z.add_0_r. by apply Z.mod_small. }
  by rewrite E0 in H1, H2.
Qed.

Lemma slotQueue_dirty (s : txstate Q) p qi q : ring_ok (hw s) (sl s) ((p, qi) :: q) ->
  slotQueue s (txDirtyDescIndex (hw s)) = qi.
Proof.
  intros (_&H2&Hqi)%dirty_slot. unfold slotQueue, aget, kNumTxQueues. rewrite H2. simpl.
  by rewrite (proj2 (Z.ltb_lt _ _)) by lia.
Qed.

Lemma inv_slot s abort todo total p qi q L :
  tx_inv s (RBusy abort todo total) ((p, qi) :: q) L -> 0 < todo ->
  let s' := txReclaimSlot abort s in
  tx_inv s' (RBusy abort (todo - 1) total) q (pushL L qi p) /\
  status s' = <[pid p := if abort then kIOReturnAborted else kIOReturnSuccess]> (status s) /\
  cfg s' = cfg s /\ ram s' = ram s /\ accepted s' = accepted s.
Proof.
  intros [Hm Hr Hp Hl [HL Hc]] Htodo. destruct (dirty_slot _ _ _ _ _ Hr) as (H1&H2&Hqi).
  pose proof (slotQueue_dirty _ _ _ _ Hr) as Hsq. simpl. unfold txReclaimSlot. rewrite H1, Hsq.
  match goal with |- context [complete ?s0 _ _ ?st ?d] =>
    destruct (complete_spec s0 qi p st d L Hqi) as (HL'&HP&Hst&[= E1 E2 E3 E4 E5]) end; [done|].
  simpl in HP, Hst, E1, E2, E3, E4, E5. split; [|by rewrite Hst, E1, E4, E5].
  pose proof (ring_reclaim _ _ _ _ _ _ Hr eq_refl) as Hr'.
  constructor; rewrite ?E1, ?E2, ?E3; try done.
  - destruct Hp as [Ht Hcl [Htd Htt] [Hf Hf0] Hdiff]. simpl in *. constructor; simpl; try done; lia.
  - pose proof (ro_bytes _ _ _ Hr) as Hb. pose proof (ro_bytes _ _ _ Hr') as Hb'.
    pose proof (ro_len _ _ _ Hr) as Hlen. rewrite fmap_cons in Hb. simpl in *.
    apply Forall_cons_1 in Hlen as [? _]. simpl in *. lia.
  - split; [done|]. rewrite E5, HP, Hc. simpl. solve_Permutation.
Qed.

Lemma inv_publish s abort total q L :
  tx_inv s (RBusy abort 0 total) q L -> tx_inv (reclaimPublish abort total s) RIdle q L.
Proof.
  intros [Hm Hr Hp Hl Hc]. unfold reclaimPublish.
  destruct Hp as [Ht Hcl [Htd Htt] [Hf Hf0] Hdiff]. simpl in *.
  destruct (Z.eqb_spec total 0) as [->|Hne].
  - by constructor.
  - constructor; simpl; try done; [by destruct Hr|].
    constructor; simpl; try done; unfold s32; lia.
Qed.

(** *** Collecting completions *)

Definition dropL (L : Z -> list packet) (qi : Z) (n : nat) : Z -> list packet :=
  fun i => if i =? qi then drop n (L qi) else L i.

Lemma allL_drop L qi n : 0 <= qi < 4 -> allL L ≡ₚ take n (L qi) ++ allL (dropL L qi n).
Proof.
  intros Hq. unfold allL, dropL.
  assert (qi = 0 \/ qi = 1 \/ qi = 2 \/ qi = 3) as [->|[->|[->| ->]]] by lia; simpl;
    [rewrite <- (take_drop n (L 0)) at 1 | rewrite <- (take_drop n (L 1)) at 1
    |rewrite <- (take_drop n (L 2)) at 1 | rewrite <- (take_drop n (L 3)) at 1];
    solve_Permutation.
Qed.

Lemma inv_enqueue s r q L qi n : tx_inv s r q L -> 0 <= qi < 4 ->
  tx_inv (txEnqueueAction s qi n).1 r q (dropL L qi n) /\
  (txEnqueueAction s qi n).2 = take n (L qi) /\
  returned (txEnqueueAction s qi n).1 = returned s ++ take n (L qi).
Proof.
  intros [Hm Hr Hp Hl [HL Hc]] Hqi. unfold txEnqueueAction.
  destruct (popAll_spec n _ _ (HL qi Hqi)) as [H1 H2].
  destruct (popAll n (doneq s qi)) as [f l]; simpl in *. subst l. split_and!; try done.
  constructor; simpl; try done. split.
  - intros i Hi. unfold doneq, dropL. simpl. destruct (Z.eqb_spec i qi) as [->|Hne].
    + by rewrite aget_insert_eq.
    + rewrite aget_insert_ne by done. by apply HL.
  - simpl. rewrite Hc, (allL_drop L qi n Hqi). solve_Permutation.
Qed.

(** *** The handlers *)

Definition acceptAllQ (q : list (packet * Z)) (qi : Z) (ps : list packet) :=
  foldl (fun q p => acceptQ q qi p) q ps.
Definition acceptAllL (L : Z -> list packet) (qi : Z) (ps : list packet) :=
  foldl (fun L p => acceptL L qi p) L ps.

Lemma pkt_ok_dom m m' p : (forall b, is_Some (m !! b) <-> is_Some (m' !! b)) -> pkt_ok m p -> pkt_ok m' p.
Proof.
  intros Hd (?&?&?&?&?&?&Hm). unfold pkt_ok. split_and!; try done; try lia.
  intros Hva i Hi. apply Hd. by apply Hm.
Qed.

Lemma dequeue_loop_spec ps : forall s r q L qi,
  tx_inv s r q L -> 0 <= qi < 4 -> Forall (pkt_ok (ram s)) ps -> Forall (tso_room s) ps ->
  exists s' n, txDequeueLoop s qi ps = Some (s', Z.of_nat n) /\ (n <= length ps)%nat /\
    tx_inv s' r (acceptAllQ q qi (take n ps)) (acceptAllL L qi (take n ps)) /\
    ((n < length ps)%nat -> noSpace s' = true) /\
    accepted s' = accepted s ++ take n ps /\ events s' = events s /\ cfg s' = cfg s.
Proof.
  induction ps as [|p ps IH]; intros s r q L qi HI Hqi Hok Hmtu.
  { exists s, 0%nat. simpl. rewrite app_nil_r. split_and!; try done; lia. }
  simpl. destruct (noSpace s) eqn:Hns.
  { eexists _, 0%nat. split; [done|]. simpl. rewrite app_nil_r.
    split_and!; try done; [lia|by apply tx_inv_cnt]. }
  apply Forall_cons_1 in Hok as [Hp Hok]. apply Forall_cons_1 in Hmtu as [Hr Hmtu].
  destruct (accept_some s qi p Hp Hr) as [s1 E1]. rewrite E1.
  destruct (inv_accept s s1 r q L qi p HI Hqi Hns Hp E1) as (HI1&Hcfg&Hd&Hacc&Hev&_).
  destruct (IH s1 r _ _ qi HI1 Hqi) as (s2&n&Hl&Hn&HI2&Hsp&Hacc2&Hev2&Hcfg2).
  { eapply Forall_impl; [exact Hok|]. intros x. by apply pkt_ok_dom. }
  { eapply Forall_impl; [exact Hmtu|]. intros x. unfold tso_room. by rewrite Hcfg. }
  cbn [mbind option_bind]. rewrite Hl. exists s2, (S n). simpl.
  split_and!; try done; try lia.
  - by replace (Z.of_nat n + 1) with (Z.of_nat (S n)) by lia.
  - intros ?. apply Hsp. lia.
  - by rewrite Hacc2, Hacc, <- app_assoc.
  - congruence.
  - congruence.
Qed.

Definition reclaimL (L : Z -> list packet) (l : list (packet * Z)) : Z -> list packet :=
  foldl (fun L pq => pushL L pq.2 pq.1) L l.

(** The status every reclaimed packet is left with. *)
Definition reclaimStatus (abort : bool) (m : gmap Z ioreturn) (l : list (packet * Z)) :=
  foldl (fun m pq => <[pid pq.1 := if abort then kIOReturnAborted else kIOReturnSuccess]> m) m l.

Lemma reclaim_loop_spec abort total n : forall s q L did,
  tx_inv s (RBusy abort (Z.of_nat n) total) q L ->
  let '(s', did') := txReclaimLoop n abort s did in
  tx_inv s' (RBusy abort 0 total) (drop n q) (reclaimL L (take n q)) /\
  status s' = reclaimStatus abort (status s) (take n q) /\
  cfg s' = cfg s /\ ram s' = ram s /\ accepted s' = accepted s /\
  forall i, did' i = did i || existsb (fun pq => i =? pq.2) (take n q).
Proof.
  induction n as [|n IH]; intros s q L did HI.
  { simpl. split_and!; try done. intros i. by rewrite orb_false_r. }
  destruct q as [|[p qi] q].
  { exfalso. destruct HI as [_ _ [_ _ [? _] _ _] _ _]. simpl in *. lia. }
  destruct (inv_slot s abort _ total p qi q L HI) as (HI'&Hst&Hcfg&Hram&Hacc); [lia|].
  pose proof (ti_ring _ _ _ _ HI) as Hr.
  pose proof (slotQueue_dirty _ _ _ _ Hr) as Hsq. destruct (dirty_slot _ _ _ _ _ Hr) as (Hp&_).
  cbn [txReclaimLoop]. rewrite Hsq, Hp, bool_decide_eq_true_2 by done.
  replace (Z.of_nat (S n) - 1) with (Z.of_nat n) in HI' by lia.
  specialize (IH _ _ _ (fun i => (i =? qi) || did i) HI').
  destruct (txReclaimLoop n abort (txReclaimSlot abort s) _) as [s' did'].
  destruct IH as (H1&H2&H3&H4&H5&H6). simpl. rewrite H2, H3, H4, H5, Hst. split_and!; try done.
  intros i. rewrite H6. simpl. destruct (i =? qi), (did i); done.
Qed.

Lemma notify_spec abort did l : forall s r q L, tx_inv s r q L ->
  let s' := foldl (notify abort did) s l in
  tx_inv s' r q L /\ status s' = status s /\ cfg s' = cfg s /\ ram s' = ram s /\ hw s' = hw s /\
  sl s' = sl s.
Proof.
  induction l as [|i l IH]; intros s r q L HI; [done|]. simpl.
  assert (H : tx_inv (notify abort did s i) r q L /\ status (notify abort did s i) = status s /\
    cfg (notify abort did s i) = cfg s /\ ram (notify abort did s i) = ram s /\
    hw (notify abort did s i) = hw s /\ sl (notify abort did s i) = sl s).
  { unfold notify. destruct (did i), abort; simpl; split_and!; try done;
      eauto using tx_inv_event, tx_inv_cnt. }
  destruct H as (H1&H2&H3&H4&H5&H6). specialize (IH _ _ _ _ H1). simpl in IH.
  destruct IH as (?&->&->&->&->&->). done.
Qed.

Lemma reclaim_spec s q L abort hwclo :
  tx_inv s RIdle q L -> close_ok (nextClose abort hwclo s) s ->
  let n := Z.to_nat (numDone abort hwclo s) in
  let s' := txRingReclaim abort hwclo s in
  (n <= length q)%nat /\
  tx_inv s' RIdle (drop n q) (reclaimL L (take n q)) /\
  status s' = reclaimStatus abort (status s) (take n q) /\ cfg s' = cfg s /\ ram s' = ram s.
Proof.
  intros HI Hclo. destruct (inv_begin s q L abort hwclo HI Hclo) as [Hn HI1].
  simpl in *. set (n := numDone abort hwclo s) in *. split; [lia|].
  unfold txRingReclaim. fold n. replace n with (Z.of_nat (Z.to_nat n)) in HI1 at 1 by lia.
  pose proof (reclaim_loop_spec abort n (Z.to_nat n) _ _ _ (fun _ => false) HI1) as HL.
  destruct (txReclaimLoop (Z.to_nat n) abort _ _) as [s1 did].
  destruct HL as (HI2&Hst&Hcfg&Hram&Hacc&Hdid). apply inv_publish in HI2.
  assert (HX : status (reclaimPublish abort n s1) = status s1 /\ cfg (reclaimPublish abort n s1) = cfg s1
            /\ ram (reclaimPublish abort n s1) = ram s1).
  { unfold reclaimPublish. by destruct (n =? 0). }
  destruct HX as (X1&X2&X3). rewrite <- X1 in Hst. rewrite <- X2 in Hcfg. rewrite <- X3 in Hram.
  destruct (did 0 || did 1 || did 2 || did 3)%bool; [|done].
  destruct (notify_spec abort did [0; 1; 2; 3] _ _ _ _ HI2) as (?&E1&E2&E3&_&_).
  split_and!; [done|by rewrite E1|by rewrite E2|by rewrite E3].
Qed.
End Invariant.
