(* ===== verification/TxRingSpec.v ===== *)
(** Transmit ring: reachable states of the interleaved loop bodies, what the
    handlers do to the abstract state (packets in flight, completions
    waiting), link changes, and the properties. *)
From S2P Require Import Prelude Fifo Frame Checksum TxOffload TxRing.

Section Steps.
Context {Q : Type -> Type} `{BQ : !BoundedQueue Q}.
Context (w : Z) (Hw : 16 <= w <= 32).

(** Link down in updateLinkStatus (under txLock): every packet in flight is
    returned, then the ring restarts at descriptor 0. *)
Definition resetRing (s : txstate Q) (bytes : Z) : txstate Q :=
  mkTx Q (cfg s) (mkHw 0 0 0 0 kNumTxDesc)
    (mkSlots (txRing (sl s)) (txPkt (sl s)) (txPktQueue (sl s)) (txPktLen (sl s)) bytes)
    (txDoneFifo s) (ram s) (status s) (cnt s) (events s) (accepted s) (returned s) (freed s).

Definition txLinkDown (s : txstate Q) : txstate Q := resetRing (txRingReclaim true 0 s) 0.

(** Link up: rtl812xLinkOnPatch calls rtl812xHwConfig, which restarts the
    ring indices whatever the slots hold. *)
Definition txLinkOn (s : txstate Q) : txstate Q := resetRing s (txInflightBytes (sl s)).

(** The framework thread and the work queue, cut at their loop bodies. A body
    runs whole: that of the reclaimer and that of a submission share the atomic
    counters, which commute, and the completion FIFO of the queue, into which a
    submission pushes only a malformed packet. *)
Inductive tx_step : txstate Q * reclaimer -> txstate Q * reclaimer -> Prop :=
| st_submit s r qi p s' : 0 <= qi < 4 -> noSpace s = false -> pkt_ok (ram s) p ->
    txAccept s qi p = Some s' -> tx_step (s, r) (s', r)
| st_count s r k : tx_step (s, r) (with_cnt s k, r)
| st_event s r e : tx_step (s, r) (with_event s e, r)
| st_begin s abort hwclo : close_ok w (nextClose abort hwclo s) s ->
    tx_step (s, RIdle)
      (reclaimBegin abort hwclo s, RBusy abort (numDone abort hwclo s) (numDone abort hwclo s))
| st_slot s abort todo total : 0 < todo ->
    tx_step (s, RBusy abort todo total) (txReclaimSlot abort s, RBusy abort (todo - 1) total)
| st_publish s abort total :
    tx_step (s, RBusy abort 0 total) (reclaimPublish abort total s, RIdle)
| st_collect s r qi n : 0 <= qi < 4 -> tx_step (s, r) ((txEnqueueAction s qi n).1, r)
| st_link_down s : tx_step (s, RIdle) (txLinkDown s, RIdle)
| st_link_on s : txNumFreeDesc (hw s) = kNumTxDesc -> tx_step (s, RIdle) (txLinkOn s, RIdle).

Definition tx_init (tso : bool) (mtu : Z) (m : mem) : txstate Q :=
  mkTx Q (mkCfg true tso mtu (2 ^ w - 1)) (mkHw 0 0 0 0 kNumTxDesc) (mkSlots ∅ ∅ ∅ ∅ 0) ∅ m ∅
       (fun _ => 0) [] [] [] [].

Lemma ring_ok_empty s : (forall j, 0 <= j < 1024 -> txPkt s !! j = None) -> txInflightBytes s = 0 ->
  ring_ok (mkHw 0 0 0 0 kNumTxDesc) s [].
Proof.
  intros Hs Hb. constructor; simpl; try done; try lia.
  intros i Hi. apply Hs. unfold slot_of. lia.
Qed.

Lemma tx_inv_fresh s (L : Z -> list packet) : MaxTxDescPtrMask (cfg s) = 2 ^ w - 1 ->
  hw s = mkHw 0 0 0 0 kNumTxDesc -> (forall j, 0 <= j < 1024 -> txPkt (sl s) !! j = None) ->
  txInflightBytes (sl s) = 0 -> conserved s [] L -> tx_inv w s RIdle [] L.
Proof.
  intros Hm Hh Hs Hb Hc. pose proof (pow_w w Hw). constructor; try done; rewrite ?Hh.
  - by apply ring_ok_empty.
  - constructor; simpl; unfold kNumTxDesc; rewrite ?Zmod_0_l; lia.
  - rewrite Hb. done.
Qed.

Lemma tx_init_inv tso mtu m : tx_inv w (tx_init tso mtu m) RIdle [] (fun _ => []).
Proof.
  apply tx_inv_fresh; try done. split; [|done].
  intros i Hi. unfold doneq; simpl. rewrite aget_empty. apply bq_empty_rep.
Qed.

(** An abort reclaims everything in flight. *)
Lemma abort_all s q L : tx_inv w s RIdle q L -> Z.to_nat (numDone true 0 s) = length q.
Proof.
  intros [Hm _ [_ _ _ _ Hd] _ _]. unfold numDone. rewrite Hm, (ptr_mask w Hw). simpl in *. lia.
Qed.

Lemma abort_spec s q L : tx_inv w s RIdle q L ->
  let s' := txRingReclaim true 0 s in
  tx_inv w s' RIdle [] (reclaimL L q) /\ status s' = reclaimStatus true (status s) q /\
  cfg s' = cfg s /\ ram s' = ram s.
Proof.
  intros HI. destruct (reclaim_spec w Hw s q L true 0 HI) as (Hn&HI'&Hst&Hc&Hr).
  { by eapply close_ok_abort. }
  rewrite (abort_all s q L HI) in *. by rewrite drop_all, firstn_all in *.
Qed.

Lemma ring_empty_slots h s : ring_ok h s [] -> forall j, 0 <= j < 1024 -> txPkt s !! j = None.
Proof.
  intros [Hd _ _ _ Hout _ _] j Hj.
  rewrite <- (Hout (Z.to_nat ((j - txDirtyDescIndex h) mod 1024))) by (simpl; lia).
  f_equal. unfold slot_of. lia.
Qed.

Lemma link_down_spec s q L : tx_inv w s RIdle q L ->
  tx_inv w (txLinkDown s) RIdle [] (reclaimL L q) /\
  status (txLinkDown s) = reclaimStatus true (status s) q.
Proof.
  intros HI. destruct (abort_spec s q L HI) as ([Hm Hr _ _ Hc]&Hst&_&_). split; [|done].
  apply tx_inv_fresh; try done. simpl. by eapply ring_empty_slots.
Qed.

(** Link up with nothing in flight. *)
Lemma link_on_spec s q L : tx_inv w s RIdle q L -> txNumFreeDesc (hw s) = kNumTxDesc -> tx_inv w (txLinkOn s) RIdle [] L.
Proof.
  intros [Hm Hr Hp Hl Hc] Hf. assert (q = []) as ->.
  { destruct Hp as [_ _ _ [Hp _] _]. unfold kNumTxDesc in Hf. destruct q; [done|]. simpl in *. lia. }
  apply tx_inv_fresh; try done; simpl; [by eapply ring_empty_slots|]. by rewrite (ro_bytes _ _ _ Hr).
Qed.

Definition tx_good (c : txstate Q * reclaimer) : Prop := exists q L, tx_inv w c.1 c.2 q L.

Lemma tx_step_good c c' : tx_good c -> tx_step c c' -> tx_good c'.
Proof.
  intros (q&L&HI) Hs. destruct Hs as [s r qi p s' Hqi Hns Hp Ha| | | s ab hwclo Hc
    |s ab todo total Ht|s ab total|s r qi n Hqi|s|s Hf]; simpl in *.
  - destruct (inv_accept w Hw s s' r q L qi p) as (HI'&_); try done. by eexists _, _.
  - eexists _, _. by apply tx_inv_cnt.
  - eexists _, _. by apply tx_inv_event.
  - eexists _, _. by apply inv_begin.
  - destruct q as [|[p qi] q].
    { exfalso. destruct HI as [_ _ [_ _ [? _] _ _] _ _]. simpl in *. lia. }
    eexists _, _. by apply inv_slot.
  - eexists _, _. by apply inv_publish.
  - eexists _, _. by apply inv_enqueue.
  - eexists _, _. by apply link_down_spec.
  - eexists _, _. by eapply link_on_spec.
Qed.

Lemma tx_reachable_good tso mtu m c :
  star tx_step (tx_init tso mtu m, RIdle) c -> tx_good c.
Proof.
  intros H. eapply (star_invariant tx_step tx_good tx_step_good); [done|].
  exists [], (fun _ => []). apply tx_init_inv.
Qed.

(** What txDequeueAction promises: [n] of the offered packets taken. *)
Definition dequeue_post (s : txstate Q) q L qi (ps : list packet) (s' : txstate Q) (n : nat) : Prop :=
  (n <= length ps)%nat /\
  tx_inv w s' RIdle (acceptAllQ q qi (take n ps)) (acceptAllL L qi (take n ps)) /\
  (if linkUp (cfg s) then (n < length ps)%nat -> noSpace s' = true else n = 0%nat) /\
  accepted s' = accepted s ++ take n ps /\
  events s' = events s ++ (if (n =? 0)%nat then [] else [EvDoorbell (txTailPtr0 (hw s'))]).

(** What txRingReclaim promises: the [n] oldest packets completed. *)
Definition reclaim_post (s : txstate Q) q L (abort : bool) (n : nat) (s' : txstate Q) : Prop :=
  (n <= length q)%nat /\
  tx_inv w s' RIdle (drop n q) (reclaimL L (take n q)) /\
  status s' = reclaimStatus abort (status s) (take n q).

(** What an answer of txQueryFreeSpace promises about the next packet. *)
Definition query_post (s : txstate Q) (slots bytes : Z) : Prop :=
  (noSpace s = false <-> 3 <= slots) /\ 0 <= slots <= 1024 /\ 0 <= bytes <= kTxInflightBytesLimit.

Lemma dequeue_spec s q L qi ps :
  tx_inv w s RIdle q L -> 0 <= qi < 4 -> Forall (pkt_ok (ram s)) ps -> Forall (tso_room s) ps ->
  exists s' n, txDequeueAction s qi ps = Some (s', Z.of_nat n) /\ dequeue_post s q L qi ps s' n.
Proof.
  intros HI Hqi Hps Hmtu. unfold txDequeueAction, dequeue_post. cbn [cfg with_cnt].
  destruct (linkUp (cfg s)); cbn [negb].
  2:{ eexists _, 0%nat. split; [done|]. split; [lia|].
      split; [by do 2 apply tx_inv_cnt|]. simpl. by rewrite !app_nil_r. }
  match goal with |- context [txDequeueLoop (with_cnt s ?k) _ _] =>
    destruct (dequeue_loop_spec w Hw ps (with_cnt s k) RIdle q L qi)
      as (s1&n&->&Hn&HI1&Hsp&Hacc&Hev&_); try done; [by apply tx_inv_cnt|] end.
  cbn [mbind option_bind].
  set (s2 := if (cnt s1 TxSubmitted =? _) then s1 else _).
  assert (H2 : tx_inv w s2 RIdle (acceptAllQ q qi (take n ps)) (acceptAllL L qi (take n ps)) /\
    hw s2 = hw s1 /\ sl s2 = sl s1 /\ accepted s2 = accepted s1 /\ events s2 = events s1).
  { unfold s2. destruct (_ =? _); split_and!; try done. by apply tx_inv_cnt. }
  destruct H2 as (HI2&Eh&Es&Ea&Ee). unfold noSpace in *.
  destruct n as [|n].
  - exists s2, 0%nat. simpl in *. rewrite app_nil_r in *. rewrite Eh, Es, Ea, Ee.
    split_and!; try done; by rewrite app_nil_r.
  - exists (with_event s2 (EvDoorbell (txTailPtr0 (hw s2)))), (S n).
    rewrite (proj2 (Z.eqb_neq _ _)) by lia. split; [done|]. cbn [with_event hw sl accepted events].
    rewrite Eh, Es, Ea, Ee, Hev. simpl. split_and!; try done. by apply tx_inv_event.
Qed.
End Steps.

(** ** A concrete ring for the witnesses *)

Fixpoint zeros (a : Z) (n : nat) : mem :=
  match n with O => ∅ | S n' => <[a := 0]> (zeros (a + 1) n') end.

Lemma zeros_mapped n : forall a, mapped (zeros a n) a (Z.of_nat n).
Proof.
  induction n as [|n IH]; intros a i Hi; [lia|]. cbn [zeros].
  destruct (decide (i = 0)) as [->|Hne]; [rewrite Z.add_0_r; by rewrite lookup_insert_eq|].
  rewrite lookup_insert_ne by lia. replace (a + i) with (a + 1 + (i - 1)) by lia. apply IH. lia.
Qed.

Definition demo_mem : mem := zeros 4096 (Z.to_nat kTxBufferSize).
Definition demo_init : txstate fifo := tx_init 31 true 1500 demo_mem.
Definition demo_packet : packet :=
  mkPacket 1 100 2 4096 1048576 0 false false false true false false false false 0 0.

Lemma demo_ok : pkt_ok demo_mem demo_packet.
Proof.
  unfold pkt_ok; simpl. split_and!; try lia. intros _. unfold demo_mem.
  replace kTxBufferSize with (Z.of_nat (Z.to_nat kTxBufferSize)) at 2 by (unfold kTxBufferSize; lia).
  apply zeros_mapped.
Qed.

(** One packet submitted on queue 0. *)
Lemma demo_reachable : exists s : txstate fifo,
  star (tx_step 31) (demo_init, RIdle) (s, RIdle) /\
  tx_inv 31 s RIdle [(demo_packet, 0)] (fun _ => []) /\ accepted s = [demo_packet] /\
  linkUp (cfg s) = true /\ mtu (cfg s) = 1500 /\ Forall (pkt_ok (ram s)) [demo_packet].
Proof.
  destruct (accept_some demo_init 0 demo_packet demo_ok ltac:(left; simpl; lia)) as [s Es].
  destruct (inv_accept 31 ltac:(lia) demo_init s RIdle [] (fun _ => []) 0 demo_packet) as (HI&Hc&Hd&Ha&_);
    [apply tx_init_inv; lia|lia|done|exact demo_ok|exact Es|].
  exists s. split.
  - eapply star_step; [|apply star_refl]. eapply (st_submit 31 demo_init RIdle 0 demo_packet); [lia|done|exact demo_ok|exact Es].
  - rewrite Hc. split_and!; try done. apply Forall_singleton. eapply pkt_ok_dom; [done|]. exact demo_ok.
Qed.

(** ** Properties *)

(** C1: in every state reached by interleaving the bodies of
    txDequeueAction, txRingReclaim and txEnqueueAction (and link drops, and
    link-ups with nothing in flight) in any order, at any MTU, the ring is
    consistent: the packets in flight occupy exactly the slots from the dirty
    index on, in order, with the right queue, length and descriptor; free slots,
    pointers and the byte count agree with them; the bytes in flight stay below
    the limit plus one buffer; and every packet ever accepted is in exactly one
    place (in flight, waiting as a completion, returned, or deallocated). A
    submission always comes to an end if the MTU is at least 78 or the packet has
    92 bytes of its buffer from the frame on. Each body is taken whole; a
    submission of a well-formed packet leaves the completion FIFOs alone, so that
    the reclaimer is then their only producer (a malformed packet pushed at the
    same moment can be lost, [two_producers_lose_a_packet]; a link-up with packets
    in flight loses them, [tx_link_on_leaks]). *)
Theorem tx_ring_safe {Q : Type -> Type} `{BQ : !BoundedQueue Q} (w : Z) (tso : bool) (mtu : Z)
    (m : mem) (s : txstate Q) (r : reclaimer) :
  16 <= w <= 32 ->
  star (tx_step w) (tx_init w tso mtu m, RIdle) (s, r) ->
  (exists q L, tx_inv w s r q L) /\
  (forall qi p, pkt_ok (ram s) p -> tso_room s p -> is_Some (txAccept s qi p)) /\
  (forall qi p s', 0 <= qi < 4 -> noSpace s = false -> pkt_ok (ram s) p -> badPacket p = false ->
     txAccept s qi p = Some s' -> txDoneFifo s' = txDoneFifo s).
Proof.
  intros Hw H. destruct (tx_reachable_good w Hw tso mtu m (s, r) H) as (q&L&HI). split; [by exists q, L|].
  split; [intros qi p; apply accept_some|]. intros qi p s' Hqi Hns Hp Hb Ha.
  destruct (inv_accept w Hw s s' r q L qi p HI Hqi Hns Hp Ha) as (_&_&_&_&_&Hf). by apply Hf.
Qed.

Lemma tx_ring_safe_witness : exists s : txstate fifo,
  star (tx_step 31) (demo_init, RIdle) (s, RIdle) /\ accepted s = [demo_packet] /\
  exists q L, tx_inv 31 s RIdle q L.
Proof.
  destruct demo_reachable as (s&Hs&_&Ha&_). exists s. split; [exact Hs|]. split; [exact Ha|].
  exact (proj1 (tx_ring_safe 31 true 1500 demo_mem s RIdle ltac:(lia) Hs)).
Defined.

(** C15: txDequeueAction comes to an end and takes a prefix of the offered
    packets: the good ones are appended to the packets in flight in order, the
    malformed ones complete at once on their own queue, it stops early only when
    slots or bytes run out, takes none while the link is down, and rings the
    doorbell with the new tail exactly when it took something. The packets are as
    the framework makes them, with a buffer of 32768 bytes in memory, and nothing
    outside these buffers is touched. At an MTU below 78 (the driver accepts 60)
    the headers that a large send rewrites may lie behind a short frame: there
    each packet is required to have 92 bytes of its buffer from the frame on,
    since without them the code does leave the buffer
    ([tx_small_mtu_leaves_buffer]). *)
Theorem tx_dequeue_refines {Q : Type -> Type} `{BQ : !BoundedQueue Q} (w : Z) (s : txstate Q) q L qi ps :
  16 <= w <= 32 -> tx_inv w s RIdle q L -> 0 <= qi < 4 -> Forall (pkt_ok (ram s)) ps ->
  (78 <= mtu (cfg s) \/ Forall (fun p => getDataOff p + 92 <= kTxBufferSize) ps) ->
  exists s' n, txDequeueAction s qi ps = Some (s', Z.of_nat n) /\ dequeue_post w s q L qi ps s' n.
Proof.
  intros Hw HI Hqi Hp Hr. apply dequeue_spec; try done. destruct Hr as [Hr|Hr].
  - eapply Forall_impl; [exact Hp|]. intros p _. by left.
  - eapply Forall_impl; [exact Hr|]. intros p. by right.
Qed.

Lemma tx_dequeue_refines_witness : exists (s : txstate fifo) s' n,
  tx_inv 31 s RIdle [(demo_packet, 0)] (fun _ => []) /\
  txDequeueAction s 0 [demo_packet] = Some (s', Z.of_nat n).
Proof.
  destruct demo_reachable as (s&_&HI&_&_&Hm&Hp).
  destruct (tx_dequeue_refines 31 s _ _ 0 [demo_packet] ltac:(lia) HI ltac:(lia) Hp
    ltac:(left; rewrite Hm; lia)) as (s'&n&Hd&_).
  exists s, s', n. split; [exact HI|exact Hd].
Defined.

(** C16: given a close pointer between the driver's last one and the tail,
    txRingReclaim completes exactly the oldest packets the chip has finished,
    in order, each on the FIFO of the queue it came from (or deallocates it
    when that FIFO is full) with the right status, and keeps the ring
    consistent. *)
Theorem tx_reclaim_refines {Q : Type -> Type} `{BQ : !BoundedQueue Q} (w : Z) (s : txstate Q) q L abort hwclo :
  16 <= w <= 32 -> tx_inv w s RIdle q L -> close_ok w (nextClose abort hwclo s) s ->
  reclaim_post w s q L abort (Z.to_nat (numDone abort hwclo s)) (txRingReclaim abort hwclo s).
Proof. intros Hw HI Hc. destruct (reclaim_spec w Hw s q L abort hwclo HI Hc) as (?&?&?&_). done. Qed.

Lemma tx_reclaim_refines_witness : exists s : txstate fifo,
  tx_inv 31 s RIdle [(demo_packet, 0)] (fun _ => []) /\
  close_ok 31 (nextClose true 0 s) s /\
  (Z.to_nat (numDone true 0 s) <= 1)%nat.
Proof.
  destruct demo_reachable as (s&_&HI&_). exists s.
  assert (Hc : close_ok 31 (nextClose true 0 s) s) by (eapply close_ok_abort; exact HI).
  split; [exact HI|]. split; [exact Hc|].
  exact (proj1 (tx_reclaim_refines 31 s _ _ true 0 ltac:(lia) HI Hc)).
Defined.

(** When the link drops, every packet in flight is given back as aborted
    and the ring restarts empty at descriptor 0 with all 1024 slots and no
    bytes accounted. *)
Theorem tx_link_down_returns_all {Q : Type -> Type} `{BQ : !BoundedQueue Q} (w : Z) (s : txstate Q) q L :
  16 <= w <= 32 -> tx_inv w s RIdle q L ->
  tx_inv w (txLinkDown s) RIdle [] (reclaimL L q) /\
  status (txLinkDown s) = reclaimStatus true (status s) q /\
  hw (txLinkDown s) = mkHw 0 0 0 0 1024 /\ txInflightBytes (sl (txLinkDown s)) = 0.
Proof. intros Hw HI. destruct (link_down_spec w Hw s q L HI). done. Qed.

Lemma tx_link_down_returns_all_witness : exists s : txstate fifo,
  tx_inv 31 s RIdle [(demo_packet, 0)] (fun _ => []) /\
  status (txLinkDown s) = reclaimStatus true (status s) [(demo_packet, 0)].
Proof.
  destruct demo_reachable as (s&_&HI&_). exists s. split; [exact HI|].
  exact (proj1 (proj2 (tx_link_down_returns_all 31 s _ _ ltac:(lia) HI))).
Defined.

(** A link-up event while packets are in flight loses them: the ring
    indices restart although the slots still hold packets, so the bytes stay
    counted as in flight with 1024 slots free, not even an aborting reclaim
    completes anything, and no account of the accepted packets adds up any
    more. *)
Theorem tx_link_on_leaks {Q : Type -> Type} `{BQ : !BoundedQueue Q} (w : Z) (s : txstate Q) q L :
  16 <= w <= 32 -> tx_inv w s RIdle q L -> q <> [] ->
  let s' := txLinkOn s in
  txNumFreeDesc (hw s') = 1024 /\ 14 <= txInflightBytes (sl s') /\
  numDone true 0 s' = 0 /\
  (forall L', (forall i, 0 <= i < 4 -> bq_rep (doneq s' i) (L' i)) ->
     ~ accepted s' ≡ₚ allL L' ++ returned s' ++ freed s').
Proof.
  intros Hw [Hm Hr Hp Hl [HL Hc]] Hq. simpl. split; [done|].
  destruct q as [|[p qi] q]; [done|]. split_and!.
  - pose proof (ro_bytes _ _ _ Hr) as Hb. pose proof (ro_len _ _ _ Hr) as Hlen.
    rewrite fmap_cons in Hb. simpl in Hb. apply Forall_cons_1 in Hlen as [? Hlen]. simpl in *.
    assert (0 <= sumZ ((fun pq : packet * Z => getDataLength pq.1) <$> q)).
    { apply sumZ_nonneg, Forall_fmap. eapply Forall_impl; [exact Hlen|]. simpl. lia. }
    lia.
  - unfold numDone. simpl. by rewrite Hm, (ptr_mask w Hw), Zmod_0_l.
  - intros L' HL' HP. change (accepted (txLinkOn s)) with (accepted s) in HP. rewrite Hc in HP.
    assert (E : forall i, 0 <= i < 4 -> L' i = L i) by (intros i Hi; eapply bq_rep_fun; eauto).
    unfold allL in HP. rewrite !E in HP by lia. apply Permutation_length in HP.
    rewrite !length_app, length_fmap in HP. simpl in HP. lia.
Qed.

Lemma tx_link_on_leaks_witness : exists s : txstate fifo,
  tx_inv 31 s RIdle [(demo_packet, 0)] (fun _ => []) /\ numDone true 0 (txLinkOn s) = 0.
Proof.
  destruct demo_reachable as (s&_&HI&_). exists s. split; [exact HI|].
  exact (proj1 (proj2 (proj2 (tx_link_on_leaks 31 s _ _ ltac:(lia) HI ltac:(discriminate))))).
Defined.

(** TxQueryFreeSpace and txDequeueAction agree on when there is room:
    txDequeueAction takes the next packet exactly when at least three slots
    are advertised, and the advertised slots and bytes never exceed the ring
    and the byte limit. *)
Theorem tx_query_matches_dequeue {Q : Type -> Type} `{BQ : !BoundedQueue Q} (w : Z) (s : txstate Q) r q L :
  tx_inv w s r q L ->
  query_post s (txQueryFreeSpace s).1 (txQueryFreeSpace s).2.
Proof.
  intros [_ Hr [_ _ [? ?] [Hf Hf0] _] _ _]. pose proof (ro_bytes _ _ _ Hr) as Hb.
  assert (0 <= txInflightBytes (sl s)).
  { rewrite Hb. apply sumZ_nonneg, Forall_fmap. eapply Forall_impl; [apply (ro_len _ _ _ Hr)|]. simpl. lia. }
  unfold query_post, noSpace, txQueryFreeSpace, kTxInflightBytesLimit in *. rewrite Z.geb_leb, !Z.gtb_ltb.
  destruct (Z.ltb_spec (txNumFreeDesc (hw s)) 0); [lia|].
  destruct (Z.leb_spec (txNumFreeDesc (hw s)) 2), (Z.leb_spec (4 * 1024 * 1024) (txInflightBytes (sl s))),
    (Z.leb_spec (4 * 1024 * 1024 - txInflightBytes (sl s)) 0), (Z.eqb_spec (txNumFreeDesc (hw s)) 0);
    try lia; simpl; try (split_and!; [done| lia..]); destruct (Z.ltb_spec 4294967295 (4 * 1024 * 1024 - txInflightBytes (sl s))); simpl;
    split_and!; try lia; split; intros; try done; lia.
Qed.

Lemma tx_query_matches_dequeue_witness : exists s : txstate fifo,
  tx_inv 31 s RIdle [(demo_packet, 0)] (fun _ => []) /\ 0 <= (txQueryFreeSpace s).1 <= 1024.
Proof.
  destruct demo_reachable as (s&_&HI&_). exists s. split; [exact HI|].
  exact (proj1 (proj2 (tx_query_matches_dequeue 31 s _ _ _ HI))).
Defined.
