(* ===== verification/RxRing.v ===== *)
(** The receive ring of the DriverKit driver (RTL8127Driver.cpp): rxRingRefill
    arms empty slots with packets, rxRingService takes received frames out and
    hands them to the framework, rxRingRearm restarts the ring after a chip
    reset, rxDequeueAction and rxEnqueueAction exchange packets with the
    framework through two FIFOs. The chip is a step of its own. *)
From S2P Require Import Prelude Fifo TxOffload.

Definition kNumRxDesc : Z := 1024.
Definition rxSlots : nat := Z.to_nat kNumRxDesc.
Definition kRxDescMask : Z := kNumRxDesc - 1.
Definition kRxBufferSize : Z := 9216.

(** Descriptor bits of rtl812xx.h. *)
Definition RxRES : Z := BIT 21.
Definition RxIPF : Z := BIT 16.
Definition RxUDPF : Z := BIT 15.
Definition RxTCPF : Z := BIT 14.
Definition RxUDPT : Z := BIT 18.
Definition RxTCPT : Z := BIT 17.
Definition RxV4F : Z := BIT 30.

Record rxpkt := mkRxPkt { rid : Z; rxIOVA : Z }.

#[export] Instance rxpkt_eq_dec : EqDecision rxpkt.
Proof. solve_decision. Defined.

Record rxdesc := mkRxDesc { r_opts1 : Z; r_opts2 : Z; r_addr : Z }.

(** The flags passed to setRxChecksumInfo. *)
Record rxcsum := mkRxCsum { ipChecked : bool; ipValid : bool; dataValid : bool }.

Record rxstate {Q : Type -> Type} := mkRx {
  rxNextDescIndex : Z;
  rxRing : gmap Z rxdesc;
  rxPkt : gmap Z rxpkt;
  rxFreeFifo : Q rxpkt;
  rxDoneFifo : Q rxpkt;
  rxPool : list rxpkt;                 (* packets the pool can still allocate *)
  meta : gmap Z (Z * option rxcsum);   (* setDataLength, setRxChecksumInfo, by identity *)
  rxErrors : Z;
  rxDelivered : Z;
  rxDroppedFifo : Z;
  rxRefillShort : Z;
  notified : list bool;                (* requestEnqueue/requestDequeue after a delivery *)
}.
Arguments rxstate : clear implicits.

(** [(kRxBufferSize | DescOwn)], with [RingEnd] in the last slot. *)
Definition rxWord1 (i : Z) : Z :=
  let word1 := kRxBufferSize .| DescOwn in if i =? 1023 then word1 .| RingEnd else word1.

(** *** The checksum verdict of rxRingService *)

Definition rxChecksum (opts2 : Z) : option rxcsum :=
  let v4 := has opts2 RxV4F in
  let ip := v4 && negb (has opts2 RxIPF) in
  let l4 := (has opts2 RxTCPT && negb (has opts2 RxTCPF)) ||
            (has opts2 RxUDPT && negb (has opts2 RxUDPF)) in
  if v4 || ip || l4 then Some (mkRxCsum v4 ip l4) else None.

Section Handlers.
Context {Q : Type -> Type} `{BQ : !BoundedQueue Q}.

(** *** rxRingRefill *)

(** A packet from the free FIFO, or else from the pool. *)
Definition takePacket (s : rxstate Q) : rxstate Q * option rxpkt :=
  match bq_pop (rxFreeFifo s) with
  | (f, Some p) => (mkRx Q (rxNextDescIndex s) (rxRing s) (rxPkt s) f (rxDoneFifo s) (rxPool s)
                     (meta s) (rxErrors s) (rxDelivered s) (rxDroppedFifo s) (rxRefillShort s) (notified s), Some p)
  | (f, None) =>
      let st pool := mkRx Q (rxNextDescIndex s) (rxRing s) (rxPkt s) f (rxDoneFifo s) pool
                     (meta s) (rxErrors s) (rxDelivered s) (rxDroppedFifo s) (rxRefillShort s) (notified s) in
      match rxPool s with
      | [] => (st [], None)
      | p :: pool => (st pool, Some p)
      end
  end.

(** Put [p] into slot [i] and give the slot to the chip. *)
Definition armSlot (s : rxstate Q) (i : Z) (p : rxpkt) : rxstate Q :=
  mkRx Q (rxNextDescIndex s) (<[i := mkRxDesc (rxWord1 i) 0 (rxIOVA p)]> (rxRing s)) (<[i := p]> (rxPkt s))
       (rxFreeFifo s) (rxDoneFifo s) (rxPool s) (meta s) (rxErrors s) (rxDelivered s) (rxDroppedFifo s)
       (rxRefillShort s) (notified s).

(** The loop from slot [i], [n] slots left; the flag is [complete]. *)
Fixpoint refillLoop (n : nat) (i : Z) (s : rxstate Q) : rxstate Q * bool :=
  match n with
  | O => (s, true)
  | S n' =>
      match rxPkt s !! i with
      | Some _ => refillLoop n' (i + 1) s
      | None => match takePacket s with
                | (s', None) => (s', false)
                | (s', Some p) => refillLoop n' (i + 1) (armSlot s' i p)
                end
      end
  end.

Definition rxRingRefill (s : rxstate Q) : rxstate Q * bool := refillLoop rxSlots 0 s.

(** *** rxRingRearm *)

(** Rewrite the option words of slot [i] if it holds a packet. *)
Definition rearmSlot (s : rxstate Q) (i : Z) : rxstate Q :=
  match rxPkt s !! i with
  | None => s
  | Some _ =>
      let addr := r_addr (aget (mkRxDesc 0 0 0) (rxRing s) i) in
      mkRx Q (rxNextDescIndex s) (<[i := mkRxDesc (rxWord1 i) 0 addr]> (rxRing s)) (rxPkt s) (rxFreeFifo s)
           (rxDoneFifo s) (rxPool s) (meta s) (rxErrors s) (rxDelivered s) (rxDroppedFifo s)
           (rxRefillShort s) (notified s)
  end.

Fixpoint rearmLoop (n : nat) (i : Z) (s : rxstate Q) : rxstate Q :=
  match n with O => s | S n' => rearmLoop n' (i + 1) (rearmSlot s i) end.

Definition setNext (s : rxstate Q) (i : Z) : rxstate Q :=
  mkRx Q i (rxRing s) (rxPkt s) (rxFreeFifo s) (rxDoneFifo s) (rxPool s) (meta s) (rxErrors s)
       (rxDelivered s) (rxDroppedFifo s) (rxRefillShort s) (notified s).

Definition rearmN (n : nat) (s : rxstate Q) : rxstate Q :=
  (refillLoop n 0 (setNext (rearmLoop n 0 s) 0)).1.

Definition rxRingRearm (s : rxstate Q) : rxstate Q := rearmN rxSlots s.

(** *** rxRingService *)

Definition rxBad (status : Z) : bool :=
  let length := (status .& 0x3fff) - 4 in
  has status RxRES || (length <=? 0) || negb (has status FirstFrag) || negb (has status LastFrag).

(** Recycle the buffer of slot [i] in place: only the first word is rewritten. *)
Definition recycle (s : rxstate Q) (i : Z) (d : rxdesc) : rxstate Q :=
  mkRx Q (rxNextDescIndex s) (<[i := mkRxDesc (rxWord1 i) (r_opts2 d) (r_addr d)]> (rxRing s)) (rxPkt s)
       (rxFreeFifo s) (rxDoneFifo s) (rxPool s) (meta s) (u64 (rxErrors s + 1)) (rxDelivered s)
       (rxDroppedFifo s) (rxRefillShort s) (notified s).

(** Take packet [p] out of slot [i] and push it, or drop it when the FIFO is full. *)
Definition deliver (s : rxstate Q) (i : Z) (p : rxpkt) (d : rxdesc) : rxstate Q :=
  let len := (r_opts1 d .& 0x3fff) - 4 in
  let '(f, ok) := bq_push (rxDoneFifo s) p in
  mkRx Q (rxNextDescIndex s) (rxRing s) (delete i (rxPkt s)) (rxFreeFifo s) f
       (if ok then rxPool s else rxPool s ++ [p])
       (<[rid p := (len, rxChecksum (r_opts2 d))]> (meta s))
       (rxErrors s) (u64 (rxDelivered s + 1)) (if ok then rxDroppedFifo s else u64 (rxDroppedFifo s + 1))
       (rxRefillShort s) (notified s).

(** One pass of the loop: [None] is the [break]; the flag says a frame was delivered. *)
Definition serviceSlot (s : rxstate Q) : option (rxstate Q * bool) :=
  let index := rxNextDescIndex s in
  let d := aget (mkRxDesc 0 0 0) (rxRing s) index in
  if has (r_opts1 d) DescOwn then None else
  match rxPkt s !! index with
  | None => None
  | Some p =>
      let '(s', dl) := if rxBad (r_opts1 d) then (recycle s index d, false) else (deliver s index p d, true) in
      Some (setNext s' (u32 (index + 1) .& kRxDescMask), dl)
  end.

Fixpoint serviceLoop (budget : nat) (s : rxstate Q) (delivered : bool) : rxstate Q * bool :=
  match budget with
  | O => (s, delivered)
  | S n => match serviceSlot s with
           | None => (s, delivered)
           | Some (s', dl) => serviceLoop n s' (delivered || dl)
           end
  end.

Definition serviceN (n : nat) (s : rxstate Q) : rxstate Q :=
  let '(s, delivered) := serviceLoop n s false in
  let '(s, complete) := refillLoop n 0 s in
  mkRx Q (rxNextDescIndex s) (rxRing s) (rxPkt s) (rxFreeFifo s) (rxDoneFifo s) (rxPool s) (meta s)
       (rxErrors s) (rxDelivered s) (rxDroppedFifo s)
       (if complete then rxRefillShort s else u64 (rxRefillShort s + 1))
       (if delivered then notified s ++ [true] else notified s).

Definition rxRingService (s : rxstate Q) : rxstate Q := serviceN rxSlots s.

(** *** The framework's side *)

(** Empty packets from the framework, until the FIFO is full. *)
Definition rxDequeueAction (s : rxstate Q) (ps : list rxpkt) : rxstate Q * nat :=
  let '(f, n) := pushAll (rxFreeFifo s) ps in
  (mkRx Q (rxNextDescIndex s) (rxRing s) (rxPkt s) f (rxDoneFifo s) (rxPool s) (meta s) (rxErrors s)
        (rxDelivered s) (rxDroppedFifo s) (rxRefillShort s) (notified s), n).

(** Received packets to the framework. *)
Definition rxEnqueueAction (s : rxstate Q) (arrayCapacity : nat) : rxstate Q * list rxpkt :=
  let '(f, l) := popAll arrayCapacity (rxDoneFifo s) in
  (mkRx Q (rxNextDescIndex s) (rxRing s) (rxPkt s) (rxFreeFifo s) f (rxPool s) (meta s) (rxErrors s)
        (rxDelivered s) (rxDroppedFifo s) (rxRefillShort s) (notified s), l).

(** The ring part of setInterfaceEnable(false): ring-held packets go back to
    the pool; the descriptors keep their contents. *)
Fixpoint releaseLoop (n : nat) (i : Z) (s : rxstate Q) : rxstate Q :=
  match n with
  | O => s
  | S n' =>
      releaseLoop n' (i + 1)
        match rxPkt s !! i with
        | None => s
        | Some p => mkRx Q (rxNextDescIndex s) (rxRing s) (delete i (rxPkt s)) (rxFreeFifo s) (rxDoneFifo s)
                         (rxPool s ++ [p]) (meta s) (rxErrors s) (rxDelivered s) (rxDroppedFifo s)
                         (rxRefillShort s) (notified s)
        end
  end.

Definition rxRelease (s : rxstate Q) : rxstate Q := releaseLoop rxSlots 0 s.
End Handlers.

(** ** The invariant *)

Lemma rxSlots_eq : Z.of_nat rxSlots = 1024.
Proof. reflexivity. Qed.
#[local] Opaque rxSlots.

Definition rdesc (r : gmap Z rxdesc) (i : Z) : rxdesc := aget (mkRxDesc 0 0 0) r i.
Definition chip_owns (r : gmap Z rxdesc) (i : Z) : bool := has (r_opts1 (rdesc r i)) DescOwn.

Section Invariant.
Context {Q : Type -> Type} `{BQ : !BoundedQueue Q}.
(** The slots whose descriptor was left with the chip when their packet was
    given back (see [rxRelease]). *)
Context {stale : Z -> bool}.

(** The packets on the driver's side. *)
Definition held_by_driver (s : rxstate Q) (F Dn : list rxpkt) : list rxpkt :=
  rxPool s ++ (map_to_list (rxPkt s)).*2 ++ F ++ Dn.

(** [F] and [Dn]: contents of the free and done FIFOs. *)
Record ring_inv (s : rxstate Q) (F Dn : list rxpkt) : Prop := {
  rx_next : 0 <= rxNextDescIndex s < 1024;
  rx_dom : forall i p, rxPkt s !! i = Some p -> 0 <= i < 1024;
  (* the chip only owns slots that hold a packet, and stale ones *)
  rx_owned : forall i, chip_owns (rxRing s) i = true -> is_Some (rxPkt s !! i) \/ stale i = true;
  (* a slot with a packet points at its buffer *)
  rx_addr : forall i p, rxPkt s !! i = Some p -> r_addr (rdesc (rxRing s) i) = rxIOVA p;
  rx_len : forall i, 0 <= r_opts1 (rdesc (rxRing s) i) .& 0x3fff <= kRxBufferSize;
  rx_free : bq_rep (rxFreeFifo s) F;
  rx_done : bq_rep (rxDoneFifo s) Dn;
}.

Lemma word1_own i : has (rxWord1 i) DescOwn = true.
Proof.
  unfold DescOwn. rewrite has_bit by lia. unfold rxWord1. destruct (i =? 1023); by vm_compute.
Qed.

Lemma word1_len i : 0 <= rxWord1 i .& 0x3fff <= kRxBufferSize.
Proof. unfold rxWord1. destruct (i =? 1023); vm_compute; split; congruence. Qed.

Lemma rdesc_insert r i j d : rdesc (<[i := d]> r) j = if decide (i = j) then d else rdesc r j.
Proof.
  unfold rdesc. destruct (decide (i = j)) as [->|]; [apply aget_insert_eq|by apply aget_insert_ne].
Qed.

(** Packets of the ring, as a multiset. *)
Lemma ring_put (m : gmap Z rxpkt) i p : m !! i = None ->
  (map_to_list (<[i := p]> m)).*2 ≡ₚ p :: (map_to_list m).*2.
Proof. intros H. by rewrite (map_to_list_insert m i p H). Qed.

Lemma ring_take (m : gmap Z rxpkt) i p : m !! i = Some p ->
  (map_to_list m).*2 ≡ₚ p :: (map_to_list (delete i m)).*2.
Proof. intros H. by rewrite <- (map_to_list_delete m i p H). Qed.

(** *** Refill *)

Lemma take_packet_spec s F Dn : ring_inv s F Dn ->
  match takePacket s with
  | (s', None) => F = [] /\ rxPool s = [] /\ ring_inv s' [] Dn /\ rxPkt s' = rxPkt s /\ rxRing s' = rxRing s /\
                  rxPool s' = [] /\ rxNextDescIndex s' = rxNextDescIndex s /\
                  rxDoneFifo s' = rxDoneFifo s /\ meta s' = meta s
  | (s', Some p) => exists F', ring_inv s' F' Dn /\ rxPkt s' = rxPkt s /\ rxRing s' = rxRing s /\
                  rxNextDescIndex s' = rxNextDescIndex s /\ rxPool s' ++ F' ++ [p] ≡ₚ rxPool s ++ F /\
                  rxDoneFifo s' = rxDoneFifo s /\ meta s' = meta s
  end.
Proof.
  intros [Hn Hd Ho Ha Hl Hf Hdn]. unfold takePacket. destruct F as [|p F].
  - rewrite (bq_pop_empty _ _ Hf). destruct (rxPool s) as [|p pool] eqn:Ep.
    + split_and!; done.
    + exists []. split_and!; try done. simpl. solve_Permutation.
  - destruct (bq_pop_cons _ _ _ _ Hf) as [Hx Hr]. destruct (bq_pop (rxFreeFifo s)) as [f x]; simpl in *.
    subst x. exists F. split_and!; try done. simpl. solve_Permutation.
Qed.

Lemma arm_slot_inv s F Dn i p : ring_inv s F Dn -> 0 <= i < 1024 -> rxPkt s !! i = None ->
  ring_inv (armSlot s i p) F Dn /\
  held_by_driver (armSlot s i p) F Dn ≡ₚ p :: held_by_driver s F Dn.
Proof.
  intros [Hn Hd Ho Ha Hl Hf Hdn] Hi Hnone. split.
  - constructor; simpl; try done.
    + intros j x. destruct (decide (i = j)) as [<-|Hne]; [done|]. rewrite lookup_insert_ne by done. apply Hd.
    + intros j. unfold chip_owns. rewrite rdesc_insert. destruct (decide (i = j)) as [<-|Hne].
      * intros _. left. by rewrite lookup_insert_eq.
      * rewrite lookup_insert_ne by done. apply Ho.
    + intros j x. rewrite rdesc_insert. destruct (decide (i = j)) as [<-|Hne].
      * rewrite lookup_insert_eq. by intros [= <-].
      * rewrite lookup_insert_ne by done. apply Ha.
    + intros j. rewrite rdesc_insert. destruct (decide (i = j)); [apply word1_len|apply Hl].
  - unfold held_by_driver. simpl. rewrite (ring_put _ _ _ Hnone). solve_Permutation.
Qed.

(** After the loop: every slot visited holds a packet, unless the driver has
    run out of packets altogether. *)
Lemma refill_spec n : forall i s F Dn, ring_inv s F Dn -> 0 <= i -> i + Z.of_nat n <= 1024 ->
  let '(s', complete) := refillLoop n i s in
  exists F', ring_inv s' F' Dn /\ held_by_driver s' F' Dn ≡ₚ held_by_driver s F Dn /\
    rxNextDescIndex s' = rxNextDescIndex s /\ rxDoneFifo s' = rxDoneFifo s /\ meta s' = meta s /\
    (forall j, is_Some (rxPkt s !! j) -> rxPkt s' !! j = rxPkt s !! j /\ rdesc (rxRing s') j = rdesc (rxRing s) j) /\
    (forall j, rxPkt s !! j = None -> is_Some (rxPkt s' !! j) -> chip_owns (rxRing s') j = true) /\
    (if complete then forall j, i <= j < i + Z.of_nat n -> is_Some (rxPkt s' !! j)
     else F' = [] /\ rxPool s' = []).
Proof.
  induction n as [|n IH]; intros i s F Dn HI Hi Hn; cbn [refillLoop].
  { exists F. split_and!; try done. - intros j ?[]; congruence. - intros; lia. }
  destruct (rxPkt s !! i) as [p|] eqn:Ei.
  - specialize (IH (i + 1) s F Dn HI ltac:(lia) ltac:(lia)).
    destruct (refillLoop n (i + 1) s) as [s' b]. destruct IH as (F'&?&?&?&?&?&Hk&?&Hb).
    exists F'. split_and!; try done. destruct b; [|done]. intros j Hj.
    destruct (decide (j = i)) as [->|]; [|apply Hb; lia].
    destruct (Hk i) as [-> _]; [by rewrite Ei|]. by rewrite Ei.
  - pose proof (take_packet_spec s F Dn HI) as Ht. destruct (takePacket s) as [s1 [p|]].
    + destruct Ht as (F1&HI1&Hp1&Hr1&Hn1&HP&Hdf&Hmt).
      destruct (arm_slot_inv s1 F1 Dn i p HI1) as [HI2 Hheld]; [lia|by rewrite Hp1|].
      specialize (IH (i + 1) (armSlot s1 i p) F1 Dn HI2 ltac:(lia) ltac:(lia)).
      destruct (refillLoop n (i + 1) (armSlot s1 i p)) as [s' b].
      destruct IH as (F'&HI'&Hh'&Hn'&Hd'&Hm'&Hk&Hnew&Hb). exists F'.
      split_and!.
      * done.
      * rewrite Hh', Hheld. unfold held_by_driver. rewrite Hp1.
        trans ((rxPool s1 ++ F1 ++ [p]) ++ (map_to_list (rxPkt s)).*2 ++ Dn); [solve_Permutation|].
        rewrite HP. solve_Permutation.
      * rewrite Hn'. done.
      * rewrite Hd'. done.
      * rewrite Hm'. done.
      * intros j Hj. assert (i <> j) by (intros <-; rewrite Ei in Hj; by destruct Hj).
        destruct (Hk j) as [E1 E2]; simpl in *; rewrite lookup_insert_ne, Hp1 in * by done; [done|].
        rewrite rdesc_insert, decide_False, Hr1 in E2 by done. done.
      * intros j Hnone Hsome. destruct (decide (i = j)) as [<-|Hne].
        -- destruct (Hk i) as [_ E2]; simpl in *; [by rewrite lookup_insert_eq|].
           unfold chip_owns. rewrite E2, rdesc_insert, decide_True by done. apply word1_own.
        -- apply Hnew; [simpl; by rewrite lookup_insert_ne, Hp1|done].
      * destruct b; [|done]. intros j Hj. destruct (decide (j = i)) as [->|]; [|apply Hb; lia].
        destruct (Hk i) as [-> _]; simpl; by rewrite lookup_insert_eq.
    + destruct Ht as (->&Hp&HI1&Hp1&Hr1&Hpool&Hn1&Hdf&Hmt). exists [].
      rewrite Hp1, Hr1. split_and!; try done.
      * unfold held_by_driver. by rewrite Hp1, Hpool, Hp.
      * intros j ?[]; congruence.
Qed.

(** *** Re-arming *)

Lemma set_next_inv s F Dn i : ring_inv s F Dn -> 0 <= i < 1024 -> ring_inv (setNext s i) F Dn.
Proof. by intros []. Qed.

Lemma rearm_slot_inv s F Dn i : ring_inv s F Dn ->
  ring_inv (rearmSlot s i) F Dn /\ rxPkt (rearmSlot s i) = rxPkt s /\
  held_by_driver (rearmSlot s i) F Dn = held_by_driver s F Dn /\
  rxDoneFifo (rearmSlot s i) = rxDoneFifo s /\
  (is_Some (rxPkt s !! i) -> chip_owns (rxRing (rearmSlot s i)) i = true) /\
  (forall j, chip_owns (rxRing s) j = true -> chip_owns (rxRing (rearmSlot s i)) j = true).
Proof.
  intros HI. pose proof HI as [Hn Hd Ho Ha Hl Hf Hdn]. unfold rearmSlot. destruct (rxPkt s !! i) as [p|] eqn:Ei.
  2:{ split_and!; try done. }
  split_and!; try done.
  - constructor; simpl; try done.
    + intros j. unfold chip_owns. rewrite rdesc_insert. destruct (decide (i = j)) as [<-|]; [left; by rewrite Ei|apply Ho].
    + intros j x. rewrite rdesc_insert. destruct (decide (i = j)) as [<-|]; [|apply Ha].
      simpl. apply Ha.
    + intros j. rewrite rdesc_insert. destruct (decide (i = j)); [apply word1_len|apply Hl].
  - simpl. intros _. unfold chip_owns. rewrite rdesc_insert, decide_True by done. apply word1_own.
  - simpl. intros j Hj. unfold chip_owns in *. rewrite rdesc_insert.
    destruct (decide (i = j)); [apply word1_own|done].
Qed.

Lemma rearm_loop_spec n : forall i s F Dn, ring_inv s F Dn ->
  ring_inv (rearmLoop n i s) F Dn /\ rxPkt (rearmLoop n i s) = rxPkt s /\
  held_by_driver (rearmLoop n i s) F Dn = held_by_driver s F Dn /\
  rxDoneFifo (rearmLoop n i s) = rxDoneFifo s /\
  (forall j, i <= j < i + Z.of_nat n -> is_Some (rxPkt s !! j) -> chip_owns (rxRing (rearmLoop n i s)) j = true) /\
  (forall j, chip_owns (rxRing s) j = true -> chip_owns (rxRing (rearmLoop n i s)) j = true).
Proof.
  induction n as [|n IH]; intros i s F Dn HI; cbn [rearmLoop]; [split_and!; try done; lia|].
  destruct (rearm_slot_inv s F Dn i HI) as (HI1&Hp1&Hh1&Hd1&Ho1&Hk1).
  destruct (IH (i + 1) _ F Dn HI1) as (HI2&Hp2&Hh2&Hd2&Ho2&Hk2).
  rewrite Hp2, Hh2, Hd2. split_and!; try done; auto. intros j Hj Hs.
  destruct (decide (j = i)) as [->|]; [by apply Hk2, Ho1|]. apply Ho2; [lia|by rewrite Hp1].
Qed.

Lemma rearm_spec N s F Dn : ring_inv s F Dn -> Z.of_nat N = 1024 ->
  exists F', ring_inv (rearmN N s) F' Dn /\
    held_by_driver (rearmN N s) F' Dn ≡ₚ held_by_driver s F Dn /\
    rxNextDescIndex (rearmN N s) = 0 /\ rxDoneFifo (rearmN N s) = rxDoneFifo s /\
    (forall j, 0 <= j < 1024 -> is_Some (rxPkt (rearmN N s) !! j) -> chip_owns (rxRing (rearmN N s)) j = true) /\
    ((forall j, 0 <= j < 1024 -> is_Some (rxPkt (rearmN N s) !! j)) \/ F' = [] /\ rxPool (rearmN N s) = []).
Proof.
  intros HI HN. unfold rearmN.
  destruct (rearm_loop_spec N 0 s F Dn HI) as (HI1&Hp1&Hh1&Hd1&Ho1&_). rewrite HN in Ho1.
  remember (rearmLoop N 0 s) as s0 eqn:E0. clear E0.
  pose proof (refill_spec N 0 (setNext s0 0) F Dn (set_next_inv s0 F Dn 0 HI1 ltac:(lia)) ltac:(lia) ltac:(lia)) as H.
  destruct (refillLoop N 0 (setNext s0 0)) as [s2 b]. cbn [fst snd]. rewrite HN in H.
  destruct H as (F'&HI3&Hh3&Hn3&Hd3&_&Hk3&Hnew&Hb). exists F'. split_and!.
  - exact HI3.
  - rewrite Hh3, <- Hh1. done.
  - exact Hn3.
  - by rewrite Hd3, <- Hd1.
  - intros j Hj Hs. destruct (rxPkt s !! j) as [p|] eqn:Ej.
    + unfold chip_owns. destruct (Hk3 j) as [_ ->]; [simpl; by rewrite Hp1, Ej|].
      apply Ho1; [lia|by rewrite Ej].
    + apply Hnew; [simpl; by rewrite Hp1|done].
  - destruct b; auto.
Qed.

(** *** Service *)

(** The frames a run of the loop took, with their verdicts. *)
Inductive taken := Recycled (p : rxpkt) | Delivered (p : rxpkt) (len : Z) (csum : option rxcsum).

Definition delivered_of (l : list taken) : list rxpkt :=
  omap (fun t => match t with Recycled _ => None | Delivered p _ _ => Some p end) l.

(** What the slot at position [i] of the ring of [s] gives. *)
Definition take_of (p : rxpkt) (d : rxdesc) : taken :=
  if rxBad (r_opts1 d) then Recycled p
  else Delivered p ((r_opts1 d .& 0x3fff) - 4) (rxChecksum (r_opts2 d)).

(** [pushR]: the done list after delivering [ps], packets that do not fit dropped. *)
Definition pushR (Dn : list rxpkt) (ps : list rxpkt) : list rxpkt :=
  foldl (fun Dn p => if (length Dn <? bq_capacity)%nat then Dn ++ [p] else Dn) Dn ps.

Lemma recycle_inv s F Dn i d p : ring_inv s F Dn -> rxPkt s !! i = Some p -> d = rdesc (rxRing s) i ->
  ring_inv (recycle s i d) F Dn /\ held_by_driver (recycle s i d) F Dn = held_by_driver s F Dn.
Proof.
  intros [Hn Hd Ho Ha Hl Hf Hdn] Hp ->. split; [|done]. constructor; simpl; try done.
  - intros j. unfold chip_owns. rewrite rdesc_insert. destruct (decide (i = j)) as [<-|]; [left; by rewrite Hp|apply Ho].
  - intros j x. rewrite rdesc_insert. destruct (decide (i = j)) as [<-|]; [|apply Ha]. simpl. apply Ha.
  - intros j. rewrite rdesc_insert. destruct (decide (i = j)); [apply word1_len|apply Hl].
Qed.

Lemma deliver_inv s F Dn i d p : ring_inv s F Dn -> rxPkt s !! i = Some p -> d = rdesc (rxRing s) i ->
  chip_owns (rxRing s) i = false ->
  ring_inv (deliver s i p d) F (pushR Dn [p]) /\
  held_by_driver (deliver s i p d) F (pushR Dn [p]) ≡ₚ held_by_driver s F Dn.
Proof.
  intros [Hn Hd Ho Ha Hl Hf Hdn] Hp -> Hown. unfold deliver, pushR. simpl foldl.
  assert (Hdel : forall j x, delete i (rxPkt s) !! j = Some x -> rxPkt s !! j = Some x)
    by (intros j x; rewrite lookup_delete_Some; tauto).
  assert (Hown' : forall j, chip_owns (rxRing s) j = true -> is_Some (delete i (rxPkt s) !! j) \/ stale j = true).
  { intros j Hj. destruct (decide (i = j)) as [<-|]; [congruence|]. rewrite lookup_delete_ne by done. by apply Ho. }
  destruct (Nat.ltb_spec (length Dn) bq_capacity) as [Hr|Hr].
  - destruct (bq_push_room _ _ _ p Hdn Hr) as [Hok Hrep].
    destruct (bq_push (rxDoneFifo s) p) as [f ok]; simpl in *. subst ok. split.
    + constructor; simpl; eauto.
    + unfold held_by_driver; simpl. rewrite (ring_take _ _ _ Hp). solve_Permutation.
  - assert (length Dn = bq_capacity) as E by (pose proof (bq_rep_cap _ _ _ Hdn); lia).
    rewrite (bq_push_full _ _ _ p Hdn E); simpl. split.
    + constructor; simpl; eauto.
    + unfold held_by_driver; simpl. rewrite (ring_take _ _ _ Hp). solve_Permutation.
Qed.

Definition record_meta (m : gmap Z (Z * option rxcsum)) (t : taken) :=
  match t with Recycled _ => m | Delivered p len c => <[rid p := (len, c)]> m end.

Lemma service_slot_spec s F Dn : ring_inv s F Dn ->
  match serviceSlot s with
  | None => chip_owns (rxRing s) (rxNextDescIndex s) = true \/ rxPkt s !! rxNextDescIndex s = None
  | Some (s', dl) => exists p,
      let i := rxNextDescIndex s in let t := take_of p (rdesc (rxRing s) i) in
      rxPkt s !! i = Some p /\ chip_owns (rxRing s) i = false /\
      ring_inv s' F (pushR Dn (delivered_of [t])) /\
      held_by_driver s' F (pushR Dn (delivered_of [t])) ≡ₚ held_by_driver s F Dn /\
      rxNextDescIndex s' = (i + 1) mod 1024 /\ dl = bool_decide (delivered_of [t] <> []) /\
      meta s' = record_meta (meta s) t /\
      (forall j, j <> i -> rxPkt s' !! j = rxPkt s !! j /\ rdesc (rxRing s') j = rdesc (rxRing s) j)
  end.
Proof.
  intros HI. unfold serviceSlot. fold (rdesc (rxRing s) (rxNextDescIndex s)).
  fold (chip_owns (rxRing s) (rxNextDescIndex s)).
  destruct (chip_owns (rxRing s) (rxNextDescIndex s)) eqn:Hown; [by left|].
  destruct (rxPkt s !! rxNextDescIndex s) as [p|] eqn:Hp; [|by right].
  set (i := rxNextDescIndex s) in *. pose proof (rx_next _ _ _ HI) as Hi. fold i in Hi.
  assert (Hmask : u32 (i + 1) .& kRxDescMask = (i + 1) mod 1024).
  { rewrite u32_small by lia. by rewrite (land_mask _ _ 10). }
  unfold take_of. destruct (rxBad (r_opts1 (rdesc (rxRing s) i))) eqn:Hb; exists p; cbn zeta.
  - destruct (recycle_inv s F Dn i _ p HI Hp eq_refl) as [HI' Hh].
    rewrite Hmask. split_and!; try done.
    + apply set_next_inv; [done|apply Z.mod_pos_bound; lia].
    + intros j Hj. simpl. rewrite rdesc_insert, decide_False by done. done.
  - destruct (deliver_inv s F Dn i _ p HI Hp eq_refl Hown) as [HI' Hh].
    rewrite Hmask. unfold deliver in *. destruct (bq_push (rxDoneFifo s) p) as [f ok].
    split_and!; try done.
    + apply set_next_inv; [done|apply Z.mod_pos_bound; lia].
    + intros j Hj. simpl. by rewrite lookup_delete_ne.
Qed.

(** [l]: the frames taken, in ring order from the next index on. *)
Lemma service_loop_spec n : forall s F Dn b, ring_inv s F Dn -> (n <= 1024)%nat ->
  let '(s', dl) := serviceLoop n s b in
  exists l, (length l <= n)%nat /\
    ring_inv s' F (pushR Dn (delivered_of l)) /\
    held_by_driver s' F (pushR Dn (delivered_of l)) ≡ₚ held_by_driver s F Dn /\
    rxNextDescIndex s' = (rxNextDescIndex s + Z.of_nat (length l)) mod 1024 /\
    dl = (b || bool_decide (delivered_of l <> [])) /\
    meta s' = foldl record_meta (meta s) l /\
    (forall k t, l !! k = Some t ->
       let i := (rxNextDescIndex s + Z.of_nat k) mod 1024 in
       exists p, rxPkt s !! i = Some p /\ chip_owns (rxRing s) i = false /\ t = take_of p (rdesc (rxRing s) i)) /\
    (length l = n \/ chip_owns (rxRing s') (rxNextDescIndex s') = true \/ rxPkt s' !! rxNextDescIndex s' = None).
Proof.
  induction n as [|n IH]; intros s F Dn b HI Hn; cbn [serviceLoop].
  { exists []. pose proof (rx_next _ _ _ HI). simpl. split_and!; try done; try lia; try tauto.
    by rewrite orb_false_r. }
  pose proof (service_slot_spec s F Dn HI) as Hs. pose proof (rx_next _ _ _ HI) as Hi.
  destruct (serviceSlot s) as [[s1 d1]|].
  2:{ exists []. simpl. split_and!; try done; try lia; [by rewrite orb_false_r|by right]. }
  destruct Hs as (p&Hp&Hown&HI1&Hh1&Hn1&Hd1&Hm1&Hk1). cbn zeta in *.
  set (t := take_of p (rdesc (rxRing s) (rxNextDescIndex s))) in *.
  specialize (IH s1 F _ (b || d1) HI1 ltac:(lia)). destruct (serviceLoop n s1 (b || d1)) as [s' dl].
  destruct IH as (l&Hl&HI2&Hh2&Hn2&Hdl&Hm2&Hall&Hstop). exists (t :: l).
  assert (Ed : delivered_of (t :: l) = delivered_of [t] ++ delivered_of l) by (simpl; by destruct t).
  assert (Ep : pushR Dn (delivered_of (t :: l)) = pushR (pushR Dn (delivered_of [t])) (delivered_of l)).
  { rewrite Ed. unfold pushR. by rewrite foldl_app. }
  rewrite Ep. split_and!; try done.
  - simpl. lia.
  - by rewrite Hh2.
  - rewrite Hn2, Hn1, Zplus_mod_idemp_l. simpl length. f_equal. lia.
  - rewrite Hdl, Hd1, Ed. destruct (delivered_of [t]), (delivered_of l), b; done.
  - rewrite Hm2, Hm1. done.
  - intros [|k] t' Hk.
    + simpl in Hk. simplify_eq. rewrite Z.add_0_r, Z.mod_small by done. by exists p.
    + pose proof (lookup_lt_Some _ _ _ Hk) as Hlt. simpl in Hk, Hlt.
      destruct (Hall k t' Hk) as (p'&H1&H2&H3). rewrite Hn1, Zplus_mod_idemp_l in *.
      replace (rxNextDescIndex s + 1 + Z.of_nat k) with (rxNextDescIndex s + Z.of_nat (S k)) in * by lia.
      destruct (Hk1 ((rxNextDescIndex s + Z.of_nat (S k)) mod 1024)) as [E1 E2].
      { intros E. assert ((rxNextDescIndex s + Z.of_nat (S k)) mod 1024 = (rxNextDescIndex s + 0) mod 1024) as E'
          by (rewrite E, Z.add_0_r, Z.mod_small; done). apply ring_inj in E'; lia. }
      exists p'. unfold chip_owns in *. rewrite E1, E2 in *. done.
  - simpl. destruct Hstop as [->|Hstop]; [by left|by right].
Qed.
End Invariant.
Arguments ring_inv {Q BQ} stale s F Dn.
(** No slot is stale. *)
Notation rx_inv := (ring_inv (fun _ => false)).

Lemma rx_inv_owned {Q : Type -> Type} `{BQ : !BoundedQueue Q} (s : rxstate Q) F Dn i :
  rx_inv s F Dn -> chip_owns (rxRing s) i = true -> is_Some (rxPkt s !! i).
Proof. intros HI Ho. by destruct (rx_owned _ _ _ HI i Ho). Qed.
