(* ===== verification/RxRingSpec.v ===== *)
(** Receive ring: the chip, the driver and the framework as steps over one
    state, and the properties of the handlers. *)
From S2P Require Import Prelude Fifo TxOffload RxRing.
#[local] Opaque rxSlots.

(** Packets moving between the two sides. *)
Lemma perm_dequeue {A} (P R F D ps h : list A) n :
  (P ++ R ++ (F ++ take n ps) ++ D) ++ drop n ps ++ h ≡ₚ (P ++ R ++ F ++ D) ++ ps ++ h.
Proof.
  pose proof (take_drop n ps) as E. set (t := take n ps) in *. set (d := drop n ps) in *.
  clearbody t d. subst ps. solve_Permutation.
Qed.

Lemma perm_enqueue {A} (P R F D h : list A) n :
  (P ++ R ++ F ++ drop n D) ++ h ++ take n D ≡ₚ (P ++ R ++ F ++ D) ++ h.
Proof.
  pose proof (take_drop n D) as E. set (t := take n D) in *. set (d := drop n D) in *.
  clearbody t d. subst D. solve_Permutation.
Qed.

Section Steps.
Context {Q : Type -> Type} `{BQ : !BoundedQueue Q}.

(** The chip finishes slot [i]: it writes the option words, clearing its
    ownership, and a length that fits the buffer the slot advertised. *)
Definition chip_receive (s : rxstate Q) (i v o : Z) : rxstate Q :=
  mkRx Q (rxNextDescIndex s) (<[i := mkRxDesc v o (r_addr (rdesc (rxRing s) i))]> (rxRing s)) (rxPkt s)
       (rxFreeFifo s) (rxDoneFifo s) (rxPool s) (meta s) (rxErrors s) (rxDelivered s) (rxDroppedFifo s)
       (rxRefillShort s) (notified s).

(** The ring, the packets the framework holds, and the slots whose descriptor
    the last disable of the interface left with the chip. A refill that finds a
    packet for every slot (the one of the next enable, if there are enough)
    leaves none of them. *)
Record rxsys := mkSys { ring : rxstate Q; held : list rxpkt; stale : Z -> bool }.

Inductive rx_step : rxsys -> rxsys -> Prop :=
| rs_chip s h st i v o : chip_owns (rxRing s) i = true -> has v DescOwn = false ->
    v .& 0x3fff <= kRxBufferSize -> rx_step (mkSys s h st) (mkSys (chip_receive s i v o) h st)
| rs_service s h st : rx_step (mkSys s h st) (mkSys (rxRingService s) h st)
| rs_refill s h st :
    rx_step (mkSys s h st) (mkSys (rxRingRefill s).1 h (if (rxRingRefill s).2 then (fun _ => false) else st))
| rs_rearm s h st : rx_step (mkSys s h st) (mkSys (rxRingRearm s) h st)
| rs_disable s h st : rx_step (mkSys s h st) (mkSys (rxRelease s) h (chip_owns (rxRing s)))
| rs_dequeue s h st ps h' : h ≡ₚ ps ++ h' ->
    rx_step (mkSys s h st) (mkSys (rxDequeueAction s ps).1 (drop (rxDequeueAction s ps).2 ps ++ h') st)
| rs_enqueue s h st n :
    rx_step (mkSys s h st) (mkSys (rxEnqueueAction s n).1 (h ++ (rxEnqueueAction s n).2) st).

(** A fresh ring: nothing armed, all packets in the pool. *)
Definition rx_init (pool : list rxpkt) : rxstate Q :=
  mkRx Q 0 ∅ ∅ bq_empty bq_empty pool ∅ 0 0 0 0 [].

(** The invariant of the system: no packet is lost or duplicated. *)
Definition rx_good (total : list rxpkt) (c : rxsys) : Prop :=
  exists F Dn, ring_inv (stale c) (ring c) F Dn /\ held_by_driver (ring c) F Dn ++ held c ≡ₚ total.

(** Nothing is stale at first. *)
Definition rx_start (pool : list rxpkt) : rxsys := mkSys (rx_init pool) [] (fun _ => false).

Lemma rx_init_good pool : rx_good pool (rx_start pool).
Proof.
  exists [], []. split.
  - constructor; simpl; try lia; try (apply bq_empty_rep).
    + intros i p. by rewrite lookup_empty.
    + intros i. unfold chip_owns, rdesc. rewrite aget_empty. by vm_compute.
    + intros i p. by rewrite lookup_empty.
    + intros i. unfold rdesc. rewrite aget_empty. vm_compute. split; congruence.
  - unfold held_by_driver; simpl. rewrite map_to_list_empty. simpl. by rewrite !app_nil_r.
Qed.

Lemma chip_receive_inv st s F Dn i v o : ring_inv st s F Dn -> chip_owns (rxRing s) i = true ->
  has v DescOwn = false -> v .& 0x3fff <= kRxBufferSize -> ring_inv st (chip_receive s i v o) F Dn.
Proof.
  intros [Hn Hd Ho Ha Hl Hf Hdn] Hown Hv Hlen. constructor; simpl; try done.
  - intros j. unfold chip_owns. rewrite rdesc_insert. destruct (decide (i = j)) as [<-|]; [|apply Ho].
    simpl. congruence.
  - intros j p. rewrite rdesc_insert. destruct (decide (i = j)) as [<-|]; [|apply Ha]. simpl. apply Ha.
  - intros j. rewrite rdesc_insert. destruct (decide (i = j)); [|apply Hl]. simpl.
    split; [apply land_nonneg_r; lia|done].
Qed.

(** What rxRingService promises; [l] is the list of frames it took. *)
Definition service_at (st : Z -> bool) (s : rxstate Q) (F Dn : list rxpkt) (l : list taken) (s' : rxstate Q) : Prop :=
  (length l <= 1024)%nat /\
  (exists F', ring_inv st s' F' (pushR Dn (delivered_of l)) /\
     held_by_driver s' F' (pushR Dn (delivered_of l)) ≡ₚ held_by_driver s F Dn /\
     ((forall j, 0 <= j < 1024 -> is_Some (rxPkt s' !! j)) \/ F' = [] /\ rxPool s' = [])) /\
  rxNextDescIndex s' = (rxNextDescIndex s + Z.of_nat (length l)) mod 1024 /\
  meta s' = foldl record_meta (meta s) l /\
  (forall k t, l !! k = Some t ->
     let i := (rxNextDescIndex s + Z.of_nat k) mod 1024 in
     exists p, rxPkt s !! i = Some p /\ chip_owns (rxRing s) i = false /\ t = take_of p (rdesc (rxRing s) i)) /\
  (length l = 1024%nat \/ rxPkt s' !! rxNextDescIndex s' = None \/
   chip_owns (rxRing s') (rxNextDescIndex s') = true) /\
  Forall (fun t => match t with Recycled _ => True | Delivered _ len _ => 0 < len <= kRxBufferSize - 4 end) l.

(** A delivered frame has a sane length. *)
Lemma take_of_length p d : 0 <= r_opts1 d .& 0x3fff <= kRxBufferSize ->
  match take_of p d with Recycled _ => True | Delivered _ len _ => 0 < len <= kRxBufferSize - 4 end.
Proof.
  intros H. unfold take_of. destruct (rxBad (r_opts1 d)) eqn:E; [done|]. unfold rxBad in E.
  apply orb_false_iff in E as [E _]. apply orb_false_iff in E as [E _].
  apply orb_false_iff in E as [_ E]. apply Z.leb_gt in E. lia.
Qed.

Lemma service_spec N st s F Dn : ring_inv st s F Dn -> Z.of_nat N = 1024 ->
  exists l, service_at st s F Dn l (serviceN N s).
Proof.
  intros HI HN. unfold serviceN, service_at.
  pose proof (service_loop_spec N s F Dn false HI ltac:(lia)) as H1.
  destruct (serviceLoop N s false) as [s1 dl]. destruct H1 as (l&Hl&HI1&Hh1&Hn1&Hdl&Hm1&Hall&Hstop).
  pose proof (refill_spec N 0 s1 F _ HI1 ltac:(lia) ltac:(lia)) as H2.
  destruct (refillLoop N 0 s1) as [s2 b]. destruct H2 as (F'&HI2&Hh2&Hn2&_&Hm2&Hk2&Hnew2&Hb).
  rewrite HN in Hb. exists l. cbn [rxNextDescIndex meta rxPkt rxRing rxPool].
  assert (Hinv : forall k nt, ring_inv st (mkRx Q (rxNextDescIndex s2) (rxRing s2) (rxPkt s2) (rxFreeFifo s2)
      (rxDoneFifo s2) (rxPool s2) (meta s2) (rxErrors s2) (rxDelivered s2) (rxDroppedFifo s2) k nt)
      F' (pushR Dn (delivered_of l))) by (intros; by destruct HI2).
  split_and!; [lia| | | |done| |].
  - exists F'. split; [apply Hinv|]. split.
    + etrans; [exact Hh2|exact Hh1].
    + destruct b; [left; exact Hb|right; exact Hb].
  - congruence.
  - congruence.
  - destruct Hstop as [E|Hstop]; [left; lia|]; rewrite Hn2.
    destruct (rxPkt s1 !! rxNextDescIndex s1) as [p|] eqn:Hp.
    + right; right. destruct Hstop as [Ho|]; [|done].
      unfold chip_owns in *. destruct (Hk2 (rxNextDescIndex s1)) as [_ ->]; [by rewrite Hp|done].
    + right. destruct (rxPkt s2 !! rxNextDescIndex s1) as [p|] eqn:Ep; [right|by left].
      apply Hnew2; [done|by rewrite Ep].
  - apply Forall_lookup. intros k t Hk. destruct (Hall k t Hk) as (p&_&_&->).
    apply take_of_length, (rx_len _ _ _ HI).
Qed.

(** *** Disabling the interface *)

Lemma release_loop_spec n : forall i (s : rxstate Q),
  rxRing (releaseLoop n i s) = rxRing s /\
  (forall j, i <= j < i + Z.of_nat n -> rxPkt (releaseLoop n i s) !! j = None) /\
  (forall j, rxPkt s !! j = None -> rxPkt (releaseLoop n i s) !! j = None) /\
  (forall p, p ∈ rxPool s -> p ∈ rxPool (releaseLoop n i s)) /\
  (forall j p, i <= j < i + Z.of_nat n -> rxPkt s !! j = Some p -> p ∈ rxPool (releaseLoop n i s)).
Proof.
  induction n as [|n IH]; intros i s; cbn [releaseLoop]; [split_and!; try done; lia|].
  match goal with |- context [releaseLoop n (i + 1) ?x] => set (s1 := x) end.
  destruct (IH (i + 1) s1) as (Hr&Hn&Hk&Hp&Hin).
  assert (H1 : rxRing s1 = rxRing s /\ rxPkt s1 !! i = None /\
    (forall j, rxPkt s !! j = None -> rxPkt s1 !! j = None) /\ (forall p, p ∈ rxPool s -> p ∈ rxPool s1) /\
    (forall p, rxPkt s !! i = Some p -> p ∈ rxPool s1) /\ (forall j, j <> i -> rxPkt s1 !! j = rxPkt s !! j)).
  { unfold s1. destruct (rxPkt s !! i) as [p|] eqn:E; simpl; split_and!; try done.
    - by rewrite lookup_delete_eq.
    - intros j Hj. rewrite lookup_delete_None. by right.
    - intros q Hq. apply elem_of_app. by left.
    - intros q [= <-]. apply elem_of_app. right. by apply list_elem_of_singleton.
    - intros j Hj. by rewrite lookup_delete_ne. }
  destruct H1 as (E1&E2&E3&E4&E5&E6). split_and!.
  - congruence.
  - intros j Hj. destruct (decide (j = i)) as [->|]; [by apply Hk|apply Hn; lia].
  - auto.
  - auto.
  - intros j p Hj Hs. destruct (decide (j = i)) as [->|]; [by apply Hp, E5|].
    apply (Hin j); [lia|]. by rewrite E6.
Qed.

(** Releasing gives every packet of the ring back to the pool. *)
Lemma release_loop_held n : forall i (s : rxstate Q) F Dn,
  held_by_driver (releaseLoop n i s) F Dn ≡ₚ held_by_driver s F Dn.
Proof.
  induction n as [|n IH]; intros i s F Dn; cbn [releaseLoop]; [done|]. rewrite IH.
  destruct (rxPkt s !! i) as [p|] eqn:E; [|done]. unfold held_by_driver. cbn [rxPool rxPkt].
  rewrite (ring_take _ _ _ E). solve_Permutation.
Qed.

Lemma release_loop_rest n : forall i (s : rxstate Q),
  rxNextDescIndex (releaseLoop n i s) = rxNextDescIndex s /\ rxFreeFifo (releaseLoop n i s) = rxFreeFifo s /\
  rxDoneFifo (releaseLoop n i s) = rxDoneFifo s /\
  (forall j p, rxPkt (releaseLoop n i s) !! j = Some p -> rxPkt s !! j = Some p).
Proof.
  induction n as [|n IH]; intros i s; cbn [releaseLoop]; [done|].
  match goal with |- context [releaseLoop n (i + 1) ?x] => destruct (IH (i + 1) x) as (->&->&->&Hp) end.
  destruct (rxPkt s !! i) as [q|] eqn:E; [|done]. split_and!; try done.
  intros j p Hj. specialize (Hp j p Hj). simpl in Hp. by apply lookup_delete_Some in Hp as [_ Hp].
Qed.

(** What the chip owned becomes stale. *)
Lemma release_inv st s F Dn : ring_inv st s F Dn ->
  ring_inv (chip_owns (rxRing s)) (rxRelease s) F Dn /\ held_by_driver (rxRelease s) F Dn ≡ₚ held_by_driver s F Dn.
Proof.
  intros HI. unfold rxRelease. split; [|exact (release_loop_held rxSlots 0 s F Dn)]. destruct HI as [Hn Hd Ho Ha Hl Hf Hdn].
  destruct (release_loop_spec rxSlots 0 s) as (Er&_). destruct (release_loop_rest rxSlots 0 s) as (En&Ef&Ed&Hp).
  set (s' := releaseLoop rxSlots 0 s) in *. clearbody s'. constructor; rewrite ?En, ?Er, ?Ef, ?Ed; try done.
  - intros i p Hi. by eapply Hd, Hp.
  - intros i Hi. by right.
  - intros i p Hi. by apply Ha, Hp.
Qed.

(** A ring with a packet in every slot has none that is stale. *)
Lemma complete_inv st s F Dn : (forall i, st i = true -> 0 <= i < 1024) -> ring_inv st s F Dn ->
  (forall j, 0 <= j < 1024 -> is_Some (rxPkt s !! j)) -> rx_inv s F Dn.
Proof.
  intros Hst [Hn Hd Ho Ha Hl Hf Hdn] H. constructor; try done. intros i Hi.
  destruct (Ho i Hi) as [?|Hs]; [by left|left; by apply H, Hst].
Qed.

(** The ring has 1024 slots: the chip owns no other. *)
Definition rx_stale_ok (c : rxsys) : Prop := forall i, stale c i = true -> 0 <= i < 1024.

Lemma owned_range st s F Dn i : (forall i, st i = true -> 0 <= i < 1024) -> ring_inv st s F Dn ->
  chip_owns (rxRing s) i = true -> 0 <= i < 1024.
Proof. intros Hst HI Ho. destruct (rx_owned _ _ _ HI i Ho) as [[p Hp]|H]; [by apply (rx_dom _ _ _ HI i p)|by apply Hst]. Qed.

Lemma rx_step_good total c c' : rx_good total c /\ rx_stale_ok c -> rx_step c c' -> rx_good total c' /\ rx_stale_ok c'.
Proof.
  intros [(F&Dn&HI&HP) Hst] Hs.
  destruct Hs as [s h st i v o H1 H2 H3|s h st|s h st|s h st|s h st|s h st ps h' Hps|s h st n]; unfold rx_stale_ok in *; cbn [ring held stale] in *.
  - split; [|done]. exists F, Dn. split; [by apply chip_receive_inv|exact HP].
  - split; [|done]. destruct (service_spec rxSlots st s F Dn HI rxSlots_eq) as (l&_&(F'&HI'&Hh'&_)&_).
    exists F', (pushR Dn (delivered_of l)). split; [exact HI'|]. cbn [ring held]. rewrite Hh'. exact HP.
  - pose proof (refill_spec rxSlots 0 s F Dn HI ltac:(lia)) as H. rewrite rxSlots_eq in H.
    specialize (H ltac:(lia)). unfold rxRingRefill. destruct (refillLoop rxSlots 0 s) as [s2 b]. cbn [fst snd].
    destruct H as (F'&HI'&Hh'&_&_&_&_&_&Hb). split; [|by destruct b]. exists F', Dn. cbn [ring held stale]. split; [|by rewrite Hh'].
    destruct b; [|done]. by apply (complete_inv st).
  - split; [|done]. destruct (rearm_spec rxSlots s F Dn HI rxSlots_eq) as (F'&HI'&Hh'&_).
    exists F', Dn. split; [exact HI'|]. cbn [ring held]. rewrite Hh'. exact HP.
  - destruct (release_inv st s F Dn HI) as [HI' Hh']. split; [|intros i; by apply (owned_range st s F Dn)].
    exists F, Dn. split; [exact HI'|]. cbn [ring held]. by rewrite Hh'.
  - split; [|done]. unfold rxDequeueAction. destruct (pushAll_spec ps _ _ (rx_free _ _ _ HI)) as (n&Hn&Hle&Hrep&_).
    destruct (pushAll (rxFreeFifo s) ps) as [f m]; cbn [fst snd] in *. subst m.
    exists (F ++ take n ps), Dn. split; [destruct HI; constructor; simpl; done|]. cbn [ring held].
    rewrite <- HP, Hps. apply perm_dequeue.
  - split; [|done]. unfold rxEnqueueAction. destruct (popAll_spec n _ _ (rx_done _ _ _ HI)) as [Hrep Hl].
    destruct (popAll n (rxDoneFifo s)) as [f l]; cbn [fst snd] in *. subst l.
    exists F, (drop n Dn). split; [destruct HI; constructor; simpl; done|]. cbn [ring held].
    rewrite <- HP. apply perm_enqueue.
Qed.

Lemma rx_refill_clean s h : rx_step (mkSys s h (fun _ => false)) (mkSys (rxRingRefill s).1 h (fun _ => false)).
Proof. pose proof (rs_refill s h (fun _ => false)) as H. by destruct (rxRingRefill s) as [s1 []]. Qed.

Lemma rx_reachable_good pool c : star rx_step (rx_start pool) c -> rx_good pool c.
Proof.
  intros H. refine (proj1 (star_invariant _ (fun c => rx_good pool c /\ rx_stale_ok c) (rx_step_good pool) _ _ H _)).
  split; [apply rx_init_good|done].
Qed.
End Steps.
Arguments rxsys Q : clear implicits.
Notation service_post := (service_at (fun _ => false)).

(** The kext's verdict on the same descriptor (getChecksumResult): the IP
    header is good, the data is good. *)
Definition getChecksumResult (status1 status2 : Z) : bool * bool :=
  (has status2 RxV4F && negb (has status1 RxIPF),
   (has status1 RxTCPT && negb (has status1 RxTCPF)) || (has status1 RxUDPT && negb (has status1 RxUDPF))).

(** [RxVlanTag] of the second descriptor word. *)
Definition RxVlanTag : Z := BIT 16.

(** ** A concrete ring *)

Definition rx_demo_init : rxstate fifo := rx_init [mkRxPkt 1 4096; mkRxPkt 2 16384].
Definition rx_demo : rxstate fifo := (rxRingRefill rx_demo_init).1.

(** ** Properties *)

(** C2: in every state the chip, the driver and the framework can reach
    together, with the interface disabled and enabled again any number of
    times: every packet of the pool is in exactly one place (pool, ring, FIFOs,
    framework); a slot that holds a packet points at that packet's buffer; and
    the chip owns only slots that hold a packet, so that nothing is received
    into memory the driver has given away, with one exception: disabling the
    interface gives the packets back and leaves their descriptors with the
    chip, and those slots stay stale until a refill (the one that enables the
    interface again, say) finds a packet for every slot. *)
Theorem rx_ring_safe {Q : Type -> Type} `{BQ : !BoundedQueue Q} (pool : list rxpkt) (c : rxsys Q) :
  star rx_step (rx_start pool) c -> rx_good pool c.
Proof. apply rx_reachable_good. Qed.

(** Two packets in the ring, and then the interface is disabled: slot 0 is stale. *)
Definition rx_demo_off : rxsys fifo := mkSys (rxRelease rx_demo) [] (chip_owns (rxRing rx_demo)).

Lemma rx_demo_steps : star rx_step (rx_start [mkRxPkt 1 4096; mkRxPkt 2 16384]) (mkSys rx_demo [] (fun _ => false)) /\
  star rx_step (rx_start [mkRxPkt 1 4096; mkRxPkt 2 16384]) rx_demo_off.
Proof.
  assert (H : rx_step (rx_start [mkRxPkt 1 4096; mkRxPkt 2 16384]) (mkSys rx_demo [] (fun _ => false))).
  { exact (rx_refill_clean rx_demo_init []). }
  split; [eapply star_step; [exact H|apply star_refl]|].
  eapply star_step; [exact H|]. eapply star_step; [apply rs_disable|apply star_refl].
Qed.

Lemma rx_ring_safe_witness : stale rx_demo_off 0 = true /\ rx_good [mkRxPkt 1 4096; mkRxPkt 2 16384] rx_demo_off.
Proof.
  split; [vm_compute; reflexivity|]. apply rx_ring_safe. exact (proj2 rx_demo_steps).
Defined.

(** C19: rxRingService takes the finished slots in ring order from its index
    on, at most one round, recycles the bad frames in place and delivers the
    good ones in order with their length (1 to 9212 bytes) and checksum
    verdict, stops at the first slot the chip still owns or that is empty,
    and leaves no slot empty unless the driver has no packet left at all. *)
Theorem rx_service_refines {Q : Type -> Type} `{BQ : !BoundedQueue Q} (s : rxstate Q) F Dn :
  rx_inv s F Dn -> exists l, service_post s F Dn l (rxRingService s).
Proof. intros HI. exact (service_spec rxSlots (fun _ => false) s F Dn HI rxSlots_eq). Qed.

Lemma rx_demo_inv : exists F Dn, rx_inv rx_demo F Dn.
Proof.
  destruct (rx_reachable_good [mkRxPkt 1 4096; mkRxPkt 2 16384] _ (proj1 rx_demo_steps)) as (F&Dn&HI&_). by exists F, Dn.
Qed.

Lemma rx_service_refines_witness : exists F Dn l,
  rx_inv rx_demo F Dn /\ service_post rx_demo F Dn l (rxRingService rx_demo).
Proof.
  destruct rx_demo_inv as (F&Dn&HI). destruct (rx_service_refines rx_demo F Dn HI) as (l&Hl).
  exists F, Dn, l. split; [exact HI|exact Hl].
Defined.

(** RxRingRearm restarts the ring at descriptor 0 with every slot that
    holds a packet owned by the chip again, keeps all packets, and leaves
    slots empty only when the driver has no packet left. *)
Theorem rx_rearm_restarts {Q : Type -> Type} `{BQ : !BoundedQueue Q} (s : rxstate Q) F Dn :
  rx_inv s F Dn ->
  rxNextDescIndex (rxRingRearm s) = 0 /\
  (forall j, 0 <= j < 1024 -> is_Some (rxPkt (rxRingRearm s) !! j) -> chip_owns (rxRing (rxRingRearm s)) j = true) /\
  exists F', rx_inv (rxRingRearm s) F' Dn /\ rx_good (held_by_driver s F Dn) (mkSys (rxRingRearm s) [] (fun _ => false)) /\
    ((forall j, 0 <= j < 1024 -> is_Some (rxPkt (rxRingRearm s) !! j)) \/ F' = [] /\ rxPool (rxRingRearm s) = []).
Proof.
  intros HI. destruct (rearm_spec rxSlots s F Dn HI rxSlots_eq) as (F'&H1&H2&H3&_&H5&H6).
  split; [exact H3|]. split; [exact H5|]. exists F'. split; [exact H1|]. split; [|exact H6].
  exists F', Dn. split; [exact H1|]. cbn [ring held]. rewrite app_nil_r. exact H2.
Qed.

Lemma rx_rearm_restarts_witness : exists F Dn,
  rx_inv rx_demo F Dn /\ rxNextDescIndex (rxRingRearm rx_demo) = 0.
Proof.
  destruct rx_demo_inv as (F&Dn&HI). exists F, Dn. split; [exact HI|].
  exact (proj1 (rx_rearm_restarts rx_demo F Dn HI)).
Defined.

(** Disabling the interface gives the packets of the ring back to the pool
    but leaves their descriptors owned by the chip and pointing at the
    buffers, so the ring invariant is broken until every slot has been filled
    again: a later enable that runs short of packets hands the chip freed
    buffers. *)
Theorem rx_release_leaves_owned {Q : Type -> Type} `{BQ : !BoundedQueue Q} (s : rxstate Q) F Dn i :
  rx_inv s F Dn -> chip_owns (rxRing s) i = true ->
  chip_owns (rxRing (rxRelease s)) i = true /\ rxPkt (rxRelease s) !! i = None /\
  (exists p, p ∈ rxPool (rxRelease s) /\ r_addr (rdesc (rxRing (rxRelease s)) i) = rxIOVA p) /\
  forall pool h, ~ rx_good pool (mkSys (rxRelease s) h (fun _ => false)).
Proof.
  intros HI Ho. destruct (rx_inv_owned _ _ _ i HI Ho) as [p Hp]. pose proof (rx_dom _ _ _ HI i p Hp) as Hi.
  destruct (release_loop_spec rxSlots 0 s) as (Hr&Hn&_&_&Hin). fold (rxRelease s) in *.
  rewrite rxSlots_eq in *. specialize (Hn i ltac:(lia)). specialize (Hin i p ltac:(lia) Hp).
  assert (Ho' : chip_owns (rxRing (rxRelease s)) i = true) by (rewrite Hr; exact Ho).
  split; [exact Ho'|]. split; [exact Hn|]. split.
  - exists p. split; [exact Hin|]. rewrite Hr. by apply (rx_addr _ _ _ HI).
  - intros pool h (F'&Dn'&HI'&_). destruct (rx_inv_owned _ _ _ i HI' Ho') as [x Hx]. cbn [ring] in Hx. congruence.
Qed.

Lemma rx_release_leaves_owned_witness : exists F Dn,
  rx_inv rx_demo F Dn /\ chip_owns (rxRing rx_demo) 0 = true /\ rxPkt (rxRelease rx_demo) !! 0 = None.
Proof.
  destruct rx_demo_inv as (F&Dn&HI). exists F, Dn.
  assert (H : chip_owns (rxRing rx_demo) 0 = true) by (vm_compute; reflexivity).
  split; [exact HI|]. split; [exact H|].
  exact (proj1 (proj2 (rx_release_leaves_owned rx_demo F Dn 0 HI H))).
Defined.

(** the DriverKit driver's checksum verdict does not follow the kext's
    although it claims the same bits: it reads the TCP/UDP/IP verdict bits
    from the second descriptor word, where the kext (and the header) has them
    in the first. A correct TCP/IPv4 frame is reported unchecked, and a frame
    with a VLAN tag is never reported as having a valid IP header. *)
Theorem rx_checksum_differs_from_kext :
  getChecksumResult RxTCPT RxV4F = (true, true) /\
  rxChecksum RxV4F = Some (mkRxCsum true true false) /\
  forall opts2, has opts2 RxVlanTag = true ->
    match rxChecksum opts2 with Some c => ipValid c = false | None => True end.
Proof.
  split; [reflexivity|]. split; [reflexivity|]. intros opts2 H. unfold rxChecksum.
  change RxIPF with RxVlanTag. rewrite H. rewrite andb_false_r.
  by destruct (_ || _ || _)%bool.
Qed.
