(* ===== verification/FwScript.v ===== *)
(** Structured firmware programs.

    Every firmware program the driver ships is a sequence of straight-line
    actions and of one idiom, a bounded poll:
<<
      CLEAR_READCOUNT
   t: DELAY_MS d ; READ r ; DATA_AND m ; COMP_EQ_SKIPN 2, v
      READCOUNT_EQ_SKIP n ; BJMPN 5 -> t
>>
    [run_script] gives such a program its direct meaning, [flatten] its action
    words; the interpreter of Firmware.v computes [run_script] on the words and
    halts, whatever the chip answers. [decompile] recovers the structure. *)
From S2P Require Import Prelude Firmware.

Inductive item :=
| Op (a : Z)
| Poll (clear delay read mask comp limit back : Z).

Definition item_words (it : item) : list Z :=
  match it with
  | Op a => [a]
  | Poll a0 a1 a2 a3 a4 a5 a6 => [a0; a1; a2; a3; a4; a5; a6]
  end.
Definition flatten (s : list item) : list Z := concat (item_words <$> s).

Definition is_op (o : rtl_fw_opcode) (a : Z) : bool :=
  negb (a =? 0) && bool_decide (opcode a = Some o).

(** Actions that only move on to the next one. *)
Definition straight (a : Z) : bool :=
  negb (a =? 0) &&
  match opcode a with
  | Some (PHY_READ | PHY_DATA_OR | PHY_DATA_AND | PHY_MDIO_CHG | PHY_CLEAR_READCOUNT
          | PHY_WRITE | PHY_WRITE_PREVIOUS | PHY_DELAY_MS) => true
  | _ => false
  end.

Definition item_ok (it : item) : bool :=
  match it with
  | Op a => straight a
  | Poll a0 a1 a2 a3 a4 a5 a6 =>
      is_op PHY_CLEAR_READCOUNT a0 && is_op PHY_DELAY_MS a1 && is_op PHY_READ a2 &&
      is_op PHY_DATA_AND a3 && is_op PHY_COMP_EQ_SKIPN a4 && (regno a4 =? 2) &&
      is_op PHY_READCOUNT_EQ_SKIP a5 && (0 <? data_of a5) && is_op PHY_BJMPN a6 && (regno a6 =? 5)
  end.

(** Recognise the idiom; anything else must be straight. *)
Fixpoint decompile (fuel : nat) (l : list Z) : option (list item) :=
  match fuel with
  | O => match l with [] => Some [] | _ => None end
  | S n =>
      match l with
      | [] => Some []
      | a :: r =>
          if is_op PHY_CLEAR_READCOUNT a then
            match r with
            | a1 :: a2 :: a3 :: a4 :: a5 :: a6 :: r' =>
                let p := Poll a a1 a2 a3 a4 a5 a6 in
                if item_ok p then cons p <$> decompile n r' else cons (Op a) <$> decompile n r
            | _ => cons (Op a) <$> decompile n r
            end
          else if straight a then cons (Op a) <$> decompile n r else None
      end
  end.

Section Meaning.
Context {D : Type} (cb : callbacks D).

(** A straight action changes the variables only. *)
Definition exec (a : Z) (c : core D) : core D := (fw_exec cb a 0 c).2.

(** One round of a poll and the poll itself; [left] rounds remain. *)
Definition poll_round (a1 a2 a3 : Z) (c : core D) : core D := exec a3 (exec a2 (exec a1 c)).

Fixpoint poll (left : nat) (a1 a2 a3 want : Z) (c : core D) : core D :=
  match left with
  | O => c
  | S n => let c' := poll_round a1 a2 a3 c in
           if predata c' =? want then c' else poll n a1 a2 a3 want c'
  end.

Definition run_item (it : item) (c : core D) : core D :=
  match it with
  | Op a => exec a c
  | Poll a0 a1 a2 a3 a4 a5 _ => poll (Z.to_nat (data_of a5)) a1 a2 a3 (data_of a4) (exec a0 c)
  end.

Definition run_script (s : list item) (c : core D) : core D := foldl (fun c it => run_item it c) c s.

(** Passes of the interpreter's loop that are always enough. *)
Definition item_cost (it : item) : nat :=
  match it with Op _ => 1 | Poll _ _ _ _ _ a5 _ => 1 + 6 * Z.to_nat (data_of a5) end.
Definition script_cost (s : list item) : nat := foldr (fun it n => (item_cost it + n)%nat) 0%nat s.

(** ** Lemmas *)

Lemma is_op_spec o a : is_op o a = true -> a <> 0 /\ opcode a = Some o.
Proof.
  unfold is_op. intros H. apply andb_true_iff in H as [H1 H2]. bool_props.
  by apply bool_decide_eq_true in H2.
Qed.

Lemma straight_exec a i c : straight a = true -> a <> 0 /\ fw_exec cb a i c = (i, exec a c).
Proof.
  unfold straight, exec, fw_exec. intros H. apply andb_true_iff in H as [H1 H2]. bool_props.
  split; [done|]. destruct (opcode a) as [[]|]; try done. by destruct (fw_read cb c (regno a)).
Qed.

Lemma is_op_straight o a : is_op o a = true ->
  (o = PHY_CLEAR_READCOUNT \/ o = PHY_DELAY_MS \/ o = PHY_READ \/ o = PHY_DATA_AND) -> straight a = true.
Proof.
  intros [Hne Ho]%is_op_spec Hc. unfold straight. rewrite Ho.
  apply andb_true_iff. split; [by apply negb_true_iff, Z.eqb_neq|].
  by destruct Hc as [->|[->|[->| ->]]].
Qed.

(** The program [pa] has the words [ws] at index [i]. *)
Definition at_index (pa : phy_action) (i : Z) (ws : list Z) : Prop :=
  0 <= i /\ i + Z.of_nat (length ws) <= size pa /\ size pa < 2 ^ 32 /\
  forall k a, ws !! k = Some a -> code pa !! Z.to_nat (i + Z.of_nat k) = Some a.

Lemma at_step pa i ws k a c : at_index pa i ws -> ws !! k = Some a -> a <> 0 ->
  fw_step cb pa (i + Z.of_nat k) c =
  let '(j, c') := fw_exec cb a (i + Z.of_nat k) c in Running (u64 (j + 1)) c'.
Proof.
  intros (H0&Hs&_&Hw) Hk Ha. pose proof (lookup_lt_Some _ _ _ Hk). unfold fw_step.
  destruct (Z.ltb_spec (i + Z.of_nat k) (size pa)); [|lia].
  rewrite (Hw k a Hk). by destruct (Z.eqb_spec a 0).
Qed.

Lemma at_straight pa i ws k a c : at_index pa i ws -> ws !! k = Some a -> straight a = true ->
  fw_step cb pa (i + Z.of_nat k) c = Running (i + Z.of_nat (S k)) (exec a c).
Proof.
  intros H Hk Hs. destruct (straight_exec a (i + Z.of_nat k) c Hs) as [Hne He].
  rewrite (at_step pa i ws k a c H Hk Hne), He. pose proof (lookup_lt_Some _ _ _ Hk).
  destruct H as (?&?&?&_). f_equal. unfold u64. lia.
Qed.

Lemma at_index_app pa i w1 w2 : at_index pa i (w1 ++ w2) ->
  at_index pa i w1 /\ at_index pa (i + Z.of_nat (length w1)) w2.
Proof.
  intros (H0&Hs&Hb&Hw). rewrite length_app in Hs. split; (split_and!; [lia..|done|]).
  - intros k a Hk. apply Hw. by apply lookup_app_l_Some.
  - intros k a Hk. replace (i + Z.of_nat (length w1) + Z.of_nat k) with (i + Z.of_nat (length w1 + k)) by lia.
    apply Hw. rewrite lookup_app_r by lia. by replace (length w1 + k - length w1)%nat with k by lia.
Qed.

Lemma exec_count_read a c : opcode a = Some PHY_READ -> count (exec a c) = s32 (count c + 1).
Proof. intros H. unfold exec, fw_exec. rewrite H. by destruct (fw_read cb c (regno a)). Qed.

Lemma exec_count_keep a c : opcode a = Some PHY_DELAY_MS \/ opcode a = Some PHY_DATA_AND ->
  count (exec a c) = count c.
Proof. intros [H|H]; unfold exec, fw_exec; by rewrite H. Qed.

Section OnePoll.
Context (pa : phy_action) (i a0 a1 a2 a3 a4 a5 a6 : Z).
Context (Hat : at_index pa i [a0; a1; a2; a3; a4; a5; a6]).
Context (Hok : item_ok (Poll a0 a1 a2 a3 a4 a5 a6) = true).

Lemma poll_parts :
  straight a0 = true /\ straight a1 = true /\ straight a2 = true /\ straight a3 = true /\
  opcode a1 = Some PHY_DELAY_MS /\ opcode a2 = Some PHY_READ /\ opcode a3 = Some PHY_DATA_AND /\
  (a4 <> 0 /\ opcode a4 = Some PHY_COMP_EQ_SKIPN) /\ regno a4 = 2 /\
  (a5 <> 0 /\ opcode a5 = Some PHY_READCOUNT_EQ_SKIP) /\ 0 < data_of a5 < 65536 /\
  (a6 <> 0 /\ opcode a6 = Some PHY_BJMPN) /\ regno a6 = 5.
Proof.
  pose proof Hok as H. unfold item_ok in H. do 9 (apply andb_true_iff in H; destruct H as [H ?]).
  bool_props. pose proof (data_of_range a5).
  split_and!; try done; try lia; try (eapply is_op_straight; [done|tauto]); by eapply is_op_spec.
Qed.

(** The three straight actions of a round. *)
Lemma poll_round_steps c :
  fw_steps cb pa 3 (i + 1) c (i + 4) (poll_round a1 a2 a3 c) /\
  (0 <= count c < 65535 -> count (poll_round a1 a2 a3 c) = count c + 1).
Proof.
  destruct poll_parts as (_&S1&S2&S3&O1&O2&O3&_). split.
  - econstructor; [apply (at_straight pa i _ 1 a1 c Hat eq_refl S1)|].
    econstructor; [apply (at_straight pa i _ 2 a2 _ Hat eq_refl S2)|].
    econstructor; [apply (at_straight pa i _ 3 a3 _ Hat eq_refl S3)|]. apply fs_nil.
  - intros Hc. unfold poll_round. rewrite exec_count_keep, exec_count_read, exec_count_keep by auto.
    unfold s32. lia.
Qed.

(** The three control actions, from index [i + 4]. *)
Lemma poll_comp c : fw_step cb pa (i + 4) c =
  Running (if predata c =? data_of a4 then i + 7 else i + 5) c.
Proof.
  destruct poll_parts as (_&_&_&_&_&_&_&[N4 O4]&R4&_). pose proof Hat as (?&Hs&?&_). simpl in Hs.
  change (i + 4) with (i + Z.of_nat 4) at 1.
  rewrite (at_step pa i _ 4 a4 c Hat eq_refl N4). unfold fw_exec. rewrite O4, R4.
  destruct (predata c =? data_of a4); f_equal; unfold u64; lia.
Qed.

Lemma poll_limit c : 0 <= count c < 65536 -> fw_step cb pa (i + 5) c =
  Running (if count c =? data_of a5 then i + 7 else i + 6) c.
Proof.
  intros Hc. destruct poll_parts as (_&_&_&_&_&_&_&_&_&[N5 O5]&_). pose proof Hat as (?&Hs&?&_).
  simpl in Hs. change (i + 5) with (i + Z.of_nat 5) at 1.
  rewrite (at_step pa i _ 5 a5 c Hat eq_refl N5). unfold fw_exec. rewrite O5.
  rewrite u32_small by lia. destruct (count c =? data_of a5); f_equal; unfold u64; lia.
Qed.

Lemma poll_back c : fw_step cb pa (i + 6) c = Running (i + 1) c.
Proof.
  destruct poll_parts as (_&_&_&_&_&_&_&_&_&_&_&[N6 O6]&R6). pose proof Hat as (?&Hs&?&_).
  simpl in Hs. change (i + 6) with (i + Z.of_nat 6) at 1.
  rewrite (at_step pa i _ 6 a6 c Hat eq_refl N6). unfold fw_exec. rewrite O6, R6.
  f_equal. unfold u64. lia.
Qed.

Lemma poll_steps : forall left c, (0 < left)%nat -> count c = data_of a5 - Z.of_nat left -> 0 <= count c ->
  exists n, (n <= 6 * left)%nat /\
    fw_steps cb pa n (i + 1) c (i + 7) (poll left a1 a2 a3 (data_of a4) c).
Proof.
  destruct poll_parts as (_&_&_&_&_&_&_&_&_&_&Hlim&_).
  induction left as [|left IH]; intros c Hl Hc Hc0; [lia|]. cbn [poll].
  destruct (poll_round_steps c) as [Hst Hcnt]. specialize (Hcnt ltac:(lia)).
  set (c' := poll_round a1 a2 a3 c) in *. pose proof (poll_comp c') as H4.
  destruct (predata c' =? data_of a4).
  { exists (3 + 1)%nat. split; [lia|]. eapply fw_steps_app; [exact Hst|].
    econstructor; [exact H4|apply fs_nil]. }
  pose proof (poll_limit c' ltac:(lia)) as H5.
  destruct (Z.eqb_spec (count c') (data_of a5)) as [E|E].
  { assert (left = 0%nat) as -> by lia. exists (3 + 2)%nat. split; [lia|].
    eapply fw_steps_app; [exact Hst|]. econstructor; [exact H4|]. econstructor; [exact H5|apply fs_nil]. }
  destruct (IH c') as (n&Hn&Hrest); [lia|lia|lia|].
  exists (3 + (3 + n))%nat. split; [lia|]. eapply fw_steps_app; [exact Hst|].
  econstructor; [exact H4|]. econstructor; [exact H5|]. econstructor; [apply poll_back|exact Hrest].
Qed.
End OnePoll.

Lemma item_steps pa i it c : at_index pa i (item_words it) -> item_ok it = true ->
  exists n, (n <= item_cost it)%nat /\
    fw_steps cb pa n i c (i + Z.of_nat (length (item_words it))) (run_item it c).
Proof.
  intros Hat Hok. destruct it as [a|a0 a1 a2 a3 a4 a5 a6].
  - exists 1%nat. split; [simpl; lia|]. econstructor; [|apply fs_nil].
    pose proof (at_straight pa i _ 0 a c Hat eq_refl Hok) as H. by rewrite Z.add_0_r in H.
  - destruct (poll_parts _ _ _ _ _ _ _ Hok) as (S0&_&_&_&_&_&_&_&_&_&Hlim&_).
    assert (E0 : count (exec a0 c) = 0).
    { do 9 (apply andb_true_iff in Hok; destruct Hok as [Hok _]).
      apply is_op_spec in Hok as [_ Ho]. unfold exec, fw_exec. by rewrite Ho. }
    destruct (poll_steps pa i _ _ _ _ _ _ _ Hat Hok (Z.to_nat (data_of a5)) (exec a0 c)) as (n&Hn&Hst);
      [lia|lia|lia|].
    exists (S n). split; [simpl; lia|]. econstructor; [|exact Hst].
    pose proof (at_straight pa i _ 0 a0 c Hat eq_refl S0) as H. by rewrite Z.add_0_r in H.
Qed.

Lemma script_steps pa s : forall i c, at_index pa i (flatten s) -> forallb item_ok s = true ->
  exists n, (n <= script_cost s)%nat /\
    fw_steps cb pa n i c (i + Z.of_nat (length (flatten s))) (run_script s c).
Proof.
  induction s as [|it s IH]; intros i c Hat Hok.
  { exists 0%nat. split; [simpl; lia|]. simpl. rewrite Z.add_0_r. apply fs_nil. }
  unfold flatten in *. cbn [fmap list_fmap concat] in *. apply andb_true_iff in Hok as [Hit Hok].
  apply at_index_app in Hat as [Hat1 Hat2].
  destruct (item_steps pa i it c Hat1 Hit) as (n1&Hn1&H1).
  destruct (IH _ (run_item it c) Hat2 Hok) as (n2&Hn2&H2).
  exists (n1 + n2)%nat. split; [simpl; lia|].
  rewrite length_app, Nat2Z.inj_add, Z.add_assoc. by eapply fw_steps_app.
Qed.

(** The whole program: from index 0 the interpreter halts at the end. *)
Lemma script_runs pa s fuel d :
  take (Z.to_nat (size pa)) (code pa) = flatten s -> size pa = Z.of_nat (length (flatten s)) ->
  size pa < 2 ^ 32 -> forallb item_ok s = true -> (script_cost s < fuel)%nat ->
  rtl8125_fw_write_firmware cb fuel pa d = Halted (size pa) (run_script s (mkCore 0 0 false d)).
Proof.
  intros Hcode Hsz Hlen Hok Hf. unfold rtl8125_fw_write_firmware.
  destruct (script_steps pa s 0 (mkCore 0 0 false d)) as (n&Hn&Hst); [|done|].
  { split_and!; [lia|lia|done|]. intros k a Hk. rewrite Z.add_0_l, Nat2Z.id, <- Hk, <- Hcode.
    rewrite lookup_take_lt; [done|]. apply lookup_lt_Some in Hk. lia. }
  replace fuel with (n + S (fuel - n - 1))%nat by lia. rewrite (fw_steps_run cb pa n _ _ _ _ _ Hst).
  rewrite Z.add_0_l, <- Hsz. cbn [fw_run]. unfold fw_step.
  by destruct (Z.ltb_spec (size pa) (size pa)); [lia|].
Qed.
End Meaning.

(** ** decompile *)

(** Prepending a recognised item. *)
Lemma decompile_cons it ws r rest s : item_words it = ws -> item_ok it = true ->
  cons it <$> r = Some s ->
  (forall s', r = Some s' -> flatten s' = rest /\ forallb item_ok s' = true) ->
  flatten s = ws ++ rest /\ forallb item_ok s = true.
Proof.
  intros Hw Hit Hs IH. destruct r as [s'|]; [|done]. simpl in Hs. simplify_eq.
  destruct (IH s' eq_refl) as [<- Hok]. split; [done|]. simpl. by rewrite Hit, Hok.
Qed.

Lemma decompile_sound : forall fuel l s, decompile fuel l = Some s ->
  flatten s = l /\ forallb item_ok s = true.
Proof.
  induction fuel as [|n IH]; intros [|a r] s H; cbn [decompile] in H; try (by simplify_eq).
  assert (Hop : straight a = true -> cons (Op a) <$> decompile n r = Some s ->
            flatten s = a :: r /\ forallb item_ok s = true).
  { intros Ha Hs. apply (decompile_cons (Op a) [a] _ r s eq_refl Ha Hs). eauto. }
  destruct (is_op PHY_CLEAR_READCOUNT a) eqn:Ha; [|by destruct (straight a) eqn:E; auto].
  apply is_op_straight in Ha as Hst; [|auto].
  destruct r as [|a1 [|a2 [|a3 [|a4 [|a5 [|a6 r]]]]]]; try (by apply Hop).
  destruct (item_ok (Poll a a1 a2 a3 a4 a5 a6)) eqn:Hp; [|by apply Hop].
  apply (decompile_cons (Poll a a1 a2 a3 a4 a5 a6) [a; a1; a2; a3; a4; a5; a6] _ r s eq_refl Hp H).
  eauto.
Qed.

(** A program whose first [size] words decompile. *)
Definition scripted (pa : phy_action) : option (list item) :=
  if (size pa <? 2 ^ 32) && (Z.of_nat (length (code pa)) >=? size pa) && (0 <=? size pa)
  then decompile (Z.to_nat (size pa)) (take (Z.to_nat (size pa)) (code pa)) else None.

Lemma scripted_runs {D} (cb : callbacks D) pa s fuel d :
  scripted pa = Some s -> (script_cost s < fuel)%nat ->
  rtl8125_fw_write_firmware cb fuel pa d = Halted (size pa) (run_script cb s (mkCore 0 0 false d)).
Proof.
  unfold scripted. destruct (_ && _)%bool eqn:E; [|done]. intros [Hfl Hok]%decompile_sound Hf.
  rewrite Z.geb_leb in E. bool_props. apply script_runs; try done; try lia.
  rewrite Hfl, length_take. lia.
Qed.

(** ** Properties *)

(** C35: the interpreter executes every structured program (straight actions
    and bounded polls) to its end for every chip behaviour: it halts within
    the stated number of passes, at the end of the program, in the state the
    direct meaning of the program gives. *)
Theorem fw_script_refines {D} (cb : callbacks D) pa s fuel d :
  scripted pa = Some s -> (script_cost s < fuel)%nat ->
  rtl8125_fw_write_firmware cb fuel pa d = Halted (size pa) (run_script cb s (mkCore 0 0 false d)).
Proof. apply scripted_runs. Qed.

(** A poll of register 0x10 for value 0x40, at most three reads, then a write. *)
Definition poll_prog : phy_action :=
  mkPa [0x70000000; 0xe0000001; 0x00100000; 0x20000040; 0xa0020040; 0x90000003; 0x30050000; 0x80110001] 8.

Lemma fw_script_refines_witness :
  exists s, scripted poll_prog = Some s /\
    rtl8125_fw_write_firmware log_cb 30 poll_prog [] =
      Halted 8 (run_script log_cb s (mkCore 0 0 false [])) /\
    run_script log_cb s (mkCore 0 0 false []) = mkCore 0 3 false [(0x11, 1)].
Proof.
  exists [Poll 0x70000000 0xe0000001 0x00100000 0x20000040 0xa0020040 0x90000003 0x30050000; Op 0x80110001].
  split; [vm_compute; reflexivity|]. split; [|vm_compute; reflexivity].
  apply (fw_script_refines log_cb poll_prog); [vm_compute; reflexivity|].
  apply Nat.ltb_lt. vm_compute. reflexivity.
Defined.
