(* ===== verification/FwData8125.v ===== *)
(** The firmware images of the RTL8125 family, byte for byte as the arrays of
    Firmware/rtl8125*.h. An array is cut into pieces and put together again. *)
From S2P Require Import Prelude.
From Stdlib Require Import Strings.Byte.

(** *** Firmware/rtl8125a-3.h: 3456 bytes *)

Definition rtl8125a_3_fw_0 : list byte := [
  x00; x00; x00; x00; x72; x74; x6c; x38; x31; x32; x35; x61;
  x2d; x33; x5f; x30; x2e; x30; x2e; x31; x20; x30; x38; x2f;
  x32; x34; x2f; x31; x39; x00; x00; x00; x00; x00; x00; x00;
  x60; x00; x00; x00; x46; x03; x00; x00; xda; x00; x52; x4c;
  x36; x34; x38; x36; x42; x5f; x70; x61; x74; x63; x68; x5f;
  x62; x70; x36; x5f; x73; x76; x6e; x36; x33; x30; x39; x5f;
  x32; x30; x31; x39; x38; x30; x33; x2e; x62; x69; x6e; x20;
  x30; x30; x3a; x35; x32; x3a; x35; x38; x00; x8d; x49; x00;
  x01; x00; x00; x40; xc2; x0f; x1f; x80; x00; x00; x28; x80;
  x00; x00; x08; x80; x00; x00; x0a; x80; x00; x00; x0c; x80;
  x00; x00; x0e; x80; x00; x00; x10; x80; x00; x00; x12; x80;
  x00; x00; x14; x80; x00; x00; x16; x80; x00; x00; x18; x80;
  x00; x00; x1a; x80; x00; x00; x1c; x80; x00; x00; x1e; x80;
  x00; x00; x20; x80; x00; x00; x22; x80; x00; x00; x24; x80;
  x00; x00; x26; x80; x03; x00; x00; xe0; x00; x00; x06; x80;
  x80; x0f; x1f; x80; x08; xe0; x00; x80; x1e; xe0; x02; x80;
  x2e; xe0; x04; x80; x54; xe0; x06; x80; x57; xe0; x08; x80;
  x59; xe0; x0a; x80; xc2; xe0; x0c; x80; xcb; xe0; x0e; x80;
  x96; x99; x10; x80; xd1; x49; x12; x80; x05; xf0; x14; x80;
  xd4; x49; x16; x80; x0a; xf1; x18; x80; xd8; x49; x1a; x80;
  x08; xf1; x1c; x80; x0f; xc0; x1e; x80; x00; x71; x20; x80;
  x9c; x20; x22; x80; x9c; x24; x24; x80; x09; xc0; x26; x80;
  x00; x99; x28; x80; x04; xe0; x2a; x80; x06; xc0; x2c; x80;
  x00; x19; x2e; x80; x00; x99; x30; x80; x02; xc6; x32; x80;
  x00; xbe; x34; x80; x48; x5a; x36; x80; xc2; xe0; x38; x80;
  x04; x00; x3a; x80; x0a; xe1; x3c; x80; x0f; xc6; x3e; x80;
  xc4; x73; x40; x80; xb3; x49; x42; x80; x06; xf1; x44; x80;
  xc2; x73; x46; x80; x08; xc6; x48; x80; x06; xb4; x4a; x80;
  x09; xc6; x4c; x80; x80; xff; x4e; x80; x05; xc6; x50; x80;
  x06; xb4; x52; x80; x05; xc6; x54; x80; x80; xff; x56; x80;
  x44; x05; x58; x80; x68; x05; x5a; x80; x06; xe9; x5c; x80;
  xe8; xcd; x5e; x80; x24; xc7; x60; x80; x24; xc6; x62; x80;
  xe2; x9e; x64; x80; x01; x1e; x66; x80; xe0; x9e; x68; x80;
  xe0; x76; x6a; x80; xe0; x49; x6c; x80; xfe; xf1; x6e; x80;
  xe6; x76; x70; x80; x6d; x48; x72; x80; x68; x48; x74; x80;
  xe4; x9e; x76; x80; x03; x1e; x78; x80; xe0; x9e; x7a; x80;
  xe0; x76; x7c; x80; xe0; x49; x7e; x80; xfe; xf1; x80; x80;
  x15; xc6; x82; x80; xe2; x9e; x84; x80; x01; x1e; x86; x80;
  xe0; x9e; x88; x80; xe0; x76; x8a; x80; xe0; x49; x8c; x80;
  xfe; xf1; x8e; x80; xe6; x76; x90; x80; x6f; x48; x92; x80;
  xe4; x9e; x94; x80; x03; x1e; x96; x80; xe0; x9e; x98; x80;
  xe0; x76; x9a; x80; xe0; x49; x9c; x80; xfe; xf1; x9e; x80;
  x96; x71; xa0; x80; x02; xc7; xa2; x80; x00; xbf; xa4; x80;
  x44; x5a; xa6; x80; x0e; xeb; xa8; x80; x70; x00; xaa; x80;
  xc3; x00; xac; x80; xc0; x1b; xae; x80; x02; xc6; xb0; x80;
  x00; xbe; xb2; x80; x26; x0e; xb4; x80; x02; xc6; xb6; x80;
  x00; xbe; xb8; x80; xba; x0e; xba; x80; x01; x15; xbc; x80;
  x2a; xf0; xbe; x80; x00; x15; xc0; x80; x5d; xf1; xc2; x80;
  x61; xc6; xc4; x80; xc8; x75; xc6; x80; xd5; x49; xc8; x80;
  x0a; xf0; xca; x80; xd6; x49; xcc; x80; x08; xf0; xce; x80;
  xd7; x49; xd0; x80; x06; xf0; xd2; x80; xd8; x49; xd4; x80;
  x04; xf0; xd6; x80; xd2; x75; xd8; x80; xd9; x49; xda; x80;
  x50; xf1; xdc; x80; x53; xc5; xde; x80; xa0; x77; xe0; x80;
  xc8; x75; xe2; x80; x55; x48; xe4; x80; x56; x48; xe6; x80;
  x57; x48; xe8; x80; x58; x48; xea; x80; xda; x48; xec; x80;
  xdb; x48; xee; x80; xfe; x49; xf0; x80; x02; xf0; xf2; x80;
  x5a; x48; xf4; x80; xff; x49; xf6; x80; x02; xf0; xf8; x80;
  x5b; x48; xfa; x80; xc8; x9d; xfc; x80; xd2; x75; xfe; x80;
  x59; x48; x00; x81; xd2; x9d; x02; x81; x43; xc6; x04; x81;
  xc0; x75; x06; x81; xd4; x49; x08; x81; x33; xf0; x0a; x81;
  xd0; x49; x0c; x81; x37; xf1; x0e; x81; x30; xe0; x10; x81;
  x3a; xc6; x12; x81; xc8; x75; x14; x81; xd5; x49; x16; x81;
  x0e; xf0; x18; x81; xd6; x49; x1a; x81; x0c; xf0; x1c; x81;
  xd7; x49; x1e; x81; x0a; xf0; x20; x81; xd8; x49; x22; x81;
  x08; xf0; x24; x81; xd2; x75; x26; x81; xd9; x49; x28; x81;
  x05; xf0; x2a; x81; x2e; xc6; x2c; x81; xc0; x75; x2e; x81;
  xd7; x49; x30; x81; x25; xf1; x32; x81; x28; xc5; x34; x81;
  xa0; x77; x36; x81; x27; xc6; x38; x81; xc8; x75; x3a; x81;
  x55; x48; x3c; x81; x56; x48; x3e; x81; x57; x48; x40; x81;
  x58; x48; x42; x81; xda; x48; x44; x81; xdb; x48; x46; x81;
  xfe; x49; x48; x81; x02; xf0; x4a; x81; x5a; x48; x4c; x81;
  xff; x49; x4e; x81; x02; xf0; x50; x81; x5b; x48; x52; x81;
  xc8; x9d; x54; x81; xd2; x75; x56; x81; x59; x48; x58; x81;
  xd2; x9d; x5a; x81; x16; xc6; x5c; x81; xc0; x75; x5e; x81;
  x57; x48; x60; x81; xc0; x9d; x62; x81; x13; xc6; x64; x81;
  xc0; x75; x66; x81; xda; x49; x68; x81; x03; xf0; x6a; x81;
  xd0; x49; x6c; x81; x07; xf1; x6e; x81; x0b; xc6; x70; x81;
  x0e; xc5; x72; x81; xd9; x48; x74; x81; xc0; x9d; x76; x81;
  x59; x48; x78; x81; xc0; x9d; x7a; x81; x08; xc6; x7c; x81;
  x02; xc7; x7e; x81; x00; xbf; x80; x81; xe0; x3a; x82; x81;
  x60; xe8; x84; x81; x00; xb4; x86; x81; xd4; xb5; x88; x81;
  x08; xe9; x8a; x81; x6c; xe8; x8c; x81; x00; x12; x8e; x81;
  x09; xc4; x90; x81; x80; x67; x92; x81; xf1; x48; x94; x81;
  x80; x8f; x96; x81; x04; xc4; x98; x81; x02; xc6; x9a; x81;
  x00; xbe; x9c; x81; xaa; x10; x9e; x81; x10; xc0; xa0; x81;
  x7c; xea; xa2; x81; x02; xc6; xa4; x81; x00; xbe; xa6; x81;
  x00; x00; xa8; x81; xc2; x0f; x1f; x80; x00; x80; x06; x80;
  x40; x05; x0a; x80; x24; x0e; x0e; x80; xb8; x0e; x10; x80;
  x5c; x3a; x12; x80; xa8; x10; x14; x80; x7a; x00; x28; x80;
  x00; x00; x00; x40; x82; x0b; x1f; x80; x00; x00; x10; x00;
  x10; x00; x00; x10; x00; x00; x10; xc0; x80; x0b; x1f; x80;
  x00; x00; x00; x70; x01; x00; x00; xe0; x00; x00; x10; x00;
  x40; x00; x00; x20; x40; x00; x02; xa0; x64; x00; x00; x90;
  x00; x00; x05; x30; x43; x0a; x1f; x80; x24; x80; x13; x80;
  x01; x86; x14; x80; x2e; xb8; x13; x80; x01; x00; x14; x80;
  x82; x0b; x1f; x80; x00; x00; x10; x00; x80; x00; x00; x10;
  x00; x00; x10; xc0; x43; x0a; x1f; x80; x16; xa0; x13; x80;
  x00; x00; x14; x80; x12; xa0; x13; x80; x00; x00; x14; x80;
  x14; xa0; x13; x80; x00; x18; x14; x80; x10; x80; x14; x80;
  x00; x18; x14; x80; x8b; x80; x14; x80; x00; x18; x14; x80;
  x8f; x80; x14; x80; x00; x18; x14; x80; x93; x80; x14; x80;
  x00; x18; x14; x80; x97; x80; x14; x80; x00; x18; x14; x80;
  x9d; x80; x14; x80; x00; x18; x14; x80; xa1; x80; x14; x80;
  x00; x18; x14; x80; xaa; x80; x14; x80; x18; xd7; x14; x80;
  x7b; x60; x14; x80; xda; x40; x14; x80; x0e; xf0; x14; x80;
  xda; x42; x14; x80; x1e; xf0; x14; x80; x18; xd7; x14; x80;
  x5b; x61; x14; x80; x00; x10; x14; x80; x56; x14; x14; x80;
  x00; x10; x14; x80; xa4; x14; x14; x80; x00; x10; x14; x80;
  xbc; x14; x14; x80; x18; xd7; x14; x80; x2e; x5f; x14; x80;
  x1c; xf0; x14; x80; x00; x10; x14; x80; x56; x14; x14; x80;
  x00; x10; x14; x80; xa4; x14; x14; x80; x00; x10; x14; x80;
  xbc; x14; x14; x80; x18; xd7; x14; x80; x2e; x5f; x14; x80;
  x24; xf0; x14; x80; x00; x10; x14; x80; x56; x14; x14; x80;
  x00; x10; x14; x80; xa4; x14; x14; x80; x00; x10; x14; x80;
  xbc; x14; x14; x80; x18; xd7; x14; x80; x2e; x5f; x14; x80;
  x2c; xf0; x14; x80; x00; x10; x14; x80; x56; x14; x14; x80;
  x00; x10; x14; x80; xa4; x14; x14; x80; x00; x10; x14; x80;
  xbc; x14; x14; x80; x18; xd7; x14; x80; x2e; x5f; x14; x80;
  x34; xf0; x14; x80; x19; xd7; x14; x80; x18; x41; x14; x80;
  x04; xd5; x14; x80; x11; xac; x14; x80; x01; xd5; x14; x80;
  x01; xce; x14; x80; x10; xa4; x14; x80; x00; xce; x14; x80;
  x00; xd5; x14; x80; x79; x47; x14; x80; x04; xd5; x14; x80;
  x0f; xac; x14; x80; x01; xae; x14; x80; x00; xd5; x14; x80;
  x00; x10; x14; x80; x44; x14; x14; x80; x34; xf0; x14; x80;
  x19; xd7; x14; x80; x18; x41; x14; x80; x04; xd5; x14; x80;
  x22; xac; x14; x80; x01; xd5; x14; x80; x01; xce; x14; x80;
  x20; xa4; x14; x80; x00; xce; x14; x80; x00; xd5; x14; x80;
  x59; x45; x14; x80; x04; xd5; x14; x80; x0f; xac; x14; x80;
  x01; xae; x14; x80; x00; xd5; x14; x80; x00; x10; x14; x80;
  x44; x14; x14; x80; x23; xf0; x14; x80; x19; xd7; x14; x80;
  x18; x41; x14; x80; x04; xd5; x14; x80; x44; xac; x14; x80;
  x01; xd5; x14; x80; x01; xce; x14; x80; x40; xa4; x14; x80;
  x00; xce; x14; x80; x00; xd5; x14; x80; x39; x43; x14; x80;
  x04; xd5; x14; x80; x0f; xac; x14; x80; x01; xae; x14; x80;
  x00; xd5; x14; x80; x00; x10; x14; x80; x44; x14; x14; x80;
  x12; xf0; x14; x80; x19; xd7; x14; x80; x18; x41; x14; x80;
  x04; xd5; x14; x80; x88; xac; x14; x80; x01; xd5; x14; x80;
  x01; xce; x14; x80; x80; xa4; x14; x80; x00; xce; x14; x80;
  x00; xd5; x14; x80; x19; x41; x14; x80; x04; xd5; x14; x80;
  x0f; xac; x14; x80; x01; xae; x14; x80; x00; xd5; x14; x80;
  x00; x10; x14; x80; x44; x14; x14; x80; x01; xf0; x14; x80;
  x00; x10; x14; x80; x56; x14; x14; x80; x18; xd7; x14; x80;
  xac; x5f; x14; x80; x8f; xc4; x14; x80; x00; x10; x14; x80;
  x1b; x14; x14; x80; x04; xd5; x14; x80; x10; x80; x14; x80;
  x00; x18; x14; x80; x1a; x12; x14; x80; xb4; xd0; x14; x80;
  xbb; xd1; x14; x80; x00; x18; x14; x80; x98; x08; x14; x80;
  xb4; xd0; x14; x80; xbb; xd1; x14; x80; x00; x18; x14; x80;
  x0e; x0a; x14; x80; x64; xd0; x14; x80; x8a; xd1; x14; x80].

Definition rtl8125a_3_fw_1 : list byte := [
  x00; x18; x14; x80; x7e; x0b; x14; x80; x1c; x40; x14; x80;
  x01; xd5; x14; x80; x04; xa8; x14; x80; x04; x88; x14; x80;
  x00; x18; x14; x80; x3b; x05; x14; x80; x00; xd5; x14; x80;
  x01; xa3; x14; x80; x00; x18; x14; x80; x48; x06; x14; x80;
  x20; xc5; x14; x80; x01; xa2; x14; x80; x01; xd7; x14; x80;
  x2d; x25; x14; x80; x46; x16; x14; x80; x08; xd7; x14; x80;
  x06; x40; x14; x80; x00; x18; x14; x80; x46; x16; x14; x80;
  x00; x18; x14; x80; x08; x03; x14; x80; x26; xa0; x13; x80;
  x07; x03; x14; x80; x24; xa0; x13; x80; x45; x16; x14; x80;
  x22; xa0; x13; x80; x47; x06; x14; x80; x20; xa0; x13; x80;
  x3a; x05; x14; x80; x06; xa0; x13; x80; x7c; x0b; x14; x80;
  x04; xa0; x13; x80; x0c; x0a; x14; x80; x02; xa0; x13; x80;
  x96; x08; x14; x80; x00; xa0; x13; x80; xa1; x11; x14; x80;
  x08; xa0; x13; x80; x00; xff; x14; x80; x43; x0a; x1f; x80;
  x16; xa0; x13; x80; x10; x00; x14; x80; x12; xa0; x13; x80;
  x00; x00; x14; x80; x14; xa0; x13; x80; x00; x18; x14; x80;
  x10; x80; x14; x80; x00; x18; x14; x80; x15; x80; x14; x80;
  x00; x18; x14; x80; x1a; x80; x14; x80; x00; x18; x14; x80;
  x1a; x80; x14; x80; x00; x18; x14; x80; x1a; x80; x14; x80;
  x00; x18; x14; x80; x1a; x80; x14; x80; x00; x18; x14; x80;
  x1a; x80; x14; x80; x00; x18; x14; x80; x1a; x80; x14; x80;
  x02; xad; x14; x80; x00; x10; x14; x80; xd7; x02; x14; x80;
  x00; x18; x14; x80; xed; x00; x14; x80; x0f; x0c; x14; x80;
  x09; x05; x14; x80; x00; xc1; x14; x80; x00; x18; x14; x80;
  x8f; x00; x14; x80; x8e; xa0; x13; x80; xff; xff; x14; x80;
  x8c; xa0; x13; x80; xff; xff; x14; x80; x8a; xa0; x13; x80;
  xff; xff; x14; x80; x88; xa0; x13; x80; xff; xff; x14; x80;
  x86; xa0; x13; x80; xff; xff; x14; x80; x84; xa0; x13; x80;
  xff; xff; x14; x80; x82; xa0; x13; x80; x8d; x00; x14; x80;
  x80; xa0; x13; x80; xeb; x00; x14; x80; x90; xa0; x13; x80;
  x03; x01; x14; x80; x43; x0a; x1f; x80; x16; xa0; x13; x80;
  x20; x00; x14; x80; x12; xa0; x13; x80; x00; x00; x14; x80;
  x14; xa0; x13; x80; x00; x18; x14; x80; x10; x80; x14; x80;
  x00; x18; x14; x80; x14; x80; x14; x80; x00; x18; x14; x80;
  x18; x80; x14; x80; x00; x18; x14; x80; x24; x80; x14; x80;
  x00; x18; x14; x80; x51; x80; x14; x80; x00; x18; x14; x80;
  x55; x80; x14; x80; x00; x18; x14; x80; x72; x80; x14; x80;
  x00; x18; x14; x80; xdc; x80; x14; x80; x00; x00; x14; x80;
  x00; x00; x14; x80; x00; x00; x14; x80; xfd; xff; x14; x80;
  x00; x00; x14; x80; x00; x00; x14; x80; x00; x00; x14; x80;
  xfd; xff; x14; x80; x01; x83; x14; x80; x0a; x80; x14; x80;
  x90; x81; x14; x80; xa0; x82; x14; x80; x04; x84; x14; x80;
  x0c; xa7; x14; x80; x02; x94; x14; x80; x0c; x89; x14; x80;
  x40; x88; x14; x80; x80; xa3; x14; x80; x00; x18; x14; x80;
  x6e; x06; x14; x80; x91; xcb; x14; x80; x00; xd7; x14; x80;
  x63; x40; x14; x80; x39; xd1; x14; x80; x02; xf0; x14; x80;
  x40; xd1; x14; x80; x40; xd0; x14; x80; x04; xb4; x14; x80;
  x0f; x0c; x14; x80; x00; x0d; x14; x80; x00; x10; x14; x80;
  xe0; x07; x14; x80; x10; xa6; x14; x80; x10; xa1; x14; x80;
  xa0; xa2; x14; x80; x04; xa4; x14; x80; x04; xd7; x14; x80;
  x85; x40; x14; x80; x80; xa1; x14; x80; x04; xa4; x14; x80;
  x80; x82; x14; x80; x04; xd7; x14; x80; x5d; x40; x14; x80;
  x20; xa7; x14; x80; x00; x10; x14; x80; x43; x07; x14; x80;
  x00; x10; x14; x80; xf0; x07; x14; x80; x00; xd7; x14; x80;
  x74; x5f; x14; x80; x00; x10; x14; x80; x43; x07; x14; x80;
  x02; xd7; x14; x80; xb6; x7f; x14; x80; x90; x81; x14; x80;
  xa0; x82; x14; x80; x04; x84; x14; x80; x10; x86; x14; x80;
  x00; x00; x14; x80; x0f; x0c; x14; x80; x01; x0d; x14; x80;
  x00; x10; x14; x80; xe0; x07; x14; x80; x00; x18; x14; x80;
  x6e; x06; x14; x80; x58; xd1; x14; x80; x4d; xd0; x14; x80;
  x00; x18; x14; x80; xd4; x03; x14; x80; xbc; x94; x14; x80;
  x0c; x87; x14; x80; x80; x83; x14; x80; x0d; xd1; x14; x80;
  x40; xd0; x14; x80; x00; x10; x14; x80; xc4; x07; x14; x80;
  x00; xd7; x14; x80; xb4; x5f; x14; x80; x90; xa1; x14; x80;
  x0a; xa0; x14; x80; x80; xa2; x14; x80; x04; xa4; x14; x80;
  x20; xa2; x14; x80; x30; xd1; x14; x80; x40; xd0; x14; x80;
  x00; x10; x14; x80; xc4; x07; x14; x80; x00; xd7; x14; x80;
  xb4; x5f; x14; x80; x80; xbb; x14; x80; xc4; xd1; x14; x80;
  x74; xd0; x14; x80; x01; xa3; x14; x80; x04; xd7; x14; x80;
  x4b; x60; x14; x80; x0c; xa9; x14; x80; x00; x18; x14; x80;
  x56; x05; x14; x80; x92; xcb; x14; x80; x00; xd7; x14; x80;
  x63; x40; x14; x80; x16; xd1; x14; x80; x02; xf0; x14; x80;
  x19; xd1; x14; x80; x40; xd0; x14; x80; x03; xd7; x14; x80;
  xa0; x60; x14; x80; x41; x62; x14; x80; xe2; x63; x14; x80;
  x83; x65; x14; x80; x54; xf0; x14; x80; x01; xd7; x14; x80;
  x1e; x61; x14; x80; x01; xd7; x14; x80; xda; x40; x14; x80;
  xf0; x0c; x14; x80; x10; x0d; x14; x80; x10; xa0; x14; x80;
  x40; x87; x14; x80; x2f; xf0; x14; x80; xf0; x0c; x14; x80;
  x50; x0d; x14; x80; x10; x80; x14; x80; x40; xa7; x14; x80;
  x2a; xf0; x14; x80; x01; xd7; x14; x80; x1e; x61; x14; x80;
  x01; xd7; x14; x80; xda; x40; x14; x80; xf0; x0c; x14; x80;
  x20; x0d; x14; x80; x10; xa0; x14; x80; x40; x87; x14; x80;
  x21; xf0; x14; x80; xf0; x0c; x14; x80; x60; x0d; x14; x80;
  x10; x80; x14; x80; x40; xa7; x14; x80; x1c; xf0; x14; x80;
  x01; xd7; x14; x80; x1e; x61; x14; x80; x01; xd7; x14; x80;
  xda; x40; x14; x80; xf0; x0c; x14; x80; x30; x0d; x14; x80;
  x10; xa0; x14; x80; x40; x87; x14; x80; x13; xf0; x14; x80;
  xf0; x0c; x14; x80; x70; x0d; x14; x80; x10; x80; x14; x80;
  x40; xa7; x14; x80; x0e; xf0; x14; x80; x01; xd7; x14; x80;
  x1e; x61; x14; x80; x01; xd7; x14; x80; xda; x40; x14; x80;
  xf0; x0c; x14; x80; x40; x0d; x14; x80; x10; xa0; x14; x80;
  x40; x87; x14; x80; x05; xf0; x14; x80; xf0; x0c; x14; x80;
  x80; x0d; x14; x80; x10; x80; x14; x80; x40; xa7; x14; x80;
  x00; x10; x14; x80; xe8; x07; x14; x80; x10; xa6; x14; x80;
  x04; xd7; x14; x80; x5d; x40; x14; x80; x20; xa7; x14; x80;
  x00; xd7; x14; x80; xf4; x5f; x14; x80; x08; xa0; x14; x80;
  x04; xd7; x14; x80; x46; x40; x14; x80; x02; xa0; x14; x80;
  x00; x10; x14; x80; x43; x07; x14; x80; x00; x10; x14; x80;
  xfb; x07; x14; x80; x03; xd7; x14; x80; x6f; x7f; x14; x80;
  x4e; x7f; x14; x80; x2d; x7f; x14; x80; x0c; x7f; x14; x80;
  x0a; x80; x14; x80; xf0; x0c; x14; x80; x00; x0d; x14; x80;
  x00; x10; x14; x80; xe8; x07; x14; x80; x10; x80; x14; x80;
  x40; xa7; x14; x80; x00; x10; x14; x80; x43; x07; x14; x80;
  x02; xd7; x14; x80; xb5; x7f; x14; x80; x01; xd7; x14; x80;
  xd4; x3a; x14; x80; x56; x05; x14; x80; x10; x86; x14; x80;
  x00; x18; x14; x80; x6e; x06; x14; x80; xf5; xd1; x14; x80;
  x49; xd0; x14; x80; x00; x18; x14; x80; xec; x01; x14; x80;
  x0e; xa1; x13; x80; xea; x01; x14; x80; x0c; xa1; x13; x80;
  xa9; x06; x14; x80; x0a; xa1; x13; x80; x8a; x07; x14; x80;
  x08; xa1; x13; x80; xd2; x03; x14; x80; x06; xa1; x13; x80;
  x7f; x06; x14; x80; x04; xa1; x13; x80; x65; x06; x14; x80;
  x02; xa1; x13; x80; x00; x00; x14; x80; x00; xa1; x13; x80;
  x00; x00; x14; x80; x10; xa1; x13; x80; xfc; x00; x14; x80;
  x43; x0a; x1f; x80; x7c; xb8; x13; x80; x30; x85; x14; x80;
  x7e; xb8; x13; x80; x85; xaf; x14; x80; xaf; x3c; x14; x80;
  x45; x85; x14; x80; x85; xaf; x14; x80; xaf; x45; x14; x80;
  x45; x85; x14; x80; x82; xee; x14; x80; x00; xf9; x14; x80;
  x03; x01; x14; x80; x03; xaf; x14; x80; xf8; xb7; x14; x80;
  xa6; xe0; x14; x80; xe1; x00; x14; x80; x01; xa6; x14; x80;
  x01; xef; x14; x80; xf0; x58; x14; x80; x80; xa0; x14; x80;
  xa1; x37; x14; x80; x02; x84; x14; x80; x16; xae; x14; x80;
  x85; xa1; x14; x80; xae; x02; x14; x80; xa1; x11; x14; x80;
  x02; x87; x14; x80; x0c; xae; x14; x80; x88; xa1; x14; x80;
  xae; x02; x14; x80; xa1; x07; x14; x80; x02; x89; x14; x80;
  x02; xae; x14; x80; x1c; xae; x14; x80; xb4; xe0; x14; x80;
  xe1; x62; x14; x80; x63; xb4; x14; x80; x01; x69; x14; x80;
  xb4; xe4; x14; x80; xe5; x62; x14; x80; x63; xb4; x14; x80;
  xb4; xe0; x14; x80; xe1; x62; x14; x80; x63; xb4; x14; x80;
  x01; x69; x14; x80; xb4; xe4; x14; x80; xe5; x62; x14; x80;
  x63; xb4; x14; x80; x04; xfc; x14; x80; x5e; xb8; x13; x80;
  xb3; x03; x14; x80; x60; xb8; x13; x80; xff; xff; x14; x80;
  x62; xb8; x13; x80; xff; xff; x14; x80; x64; xb8; x13; x80;
  xff; xff; x14; x80; x78; xb8; x13; x80; x01; x00; x14; x80;
  x82; x0b; x1f; x80; x00; x00; x10; x00; x7f; xff; x00; x20;
  x00; x00; x10; xc0; x43; x0a; x1f; x80; x00; x00; x13; x80;
  x00; x00; x14; x80; x82; x0b; x1f; x80; x00; x00; x17; x00;
  xfe; xff; x00; x20; x00; x00; x17; xc0; x43; x0a; x1f; x80;
  x24; x80; x13; x80; x00; x00; x14; x80; x82; x0b; x1f; x80;
  x00; x00; x10; x00; xef; xff; x00; x20; x00; x00; x10; xc0;
  x40; x0a; x1f; x80; x00; x00; x00; x00; x00; x00; x00; x00].

Definition rtl8125a_3_fw : list byte :=
  rtl8125a_3_fw_0 ++ rtl8125a_3_fw_1.

(** *** Firmware/rtl8125b-1.h: 10128 bytes *)

Definition rtl8125b_1_fw_0 : list byte := [
  x00; x00; x00; x00; x72; x74; x6c; x38; x31; x32; x35; x62;
  x2d; x31; x5f; x30; x2e; x30; x2e; x32; x20; x30; x37; x2f;
  x31; x34; x2f; x32; x30; x00; x00; x00; x00; x00; x00; x00;
  x70; x00; x00; x00; xc5; x09; x00; x00; x1d; x00; x72; x74;
  x6c; x38; x31; x32; x35; x62; x20; x72; x65; x76; x2e; x61;
  x20; x6d; x61; x63; x20; x61; x6e; x64; x20; x70; x68; x79;
  x20; x6d; x63; x75; x20; x66; x69; x72; x6d; x77; x61; x72;
  x65; x20; x70; x61; x74; x63; x68; x20; x63; x6f; x64; x65;
  x20; x31; x35; x3a; x35; x34; x3a; x32; x30; x00; x8d; x9b;
  x00; x00; x00; x00; x01; x00; x00; x40; xc2; x0f; x1f; x80;
  x00; x00; x28; x80; x00; x00; x08; x80; x00; x00; x0a; x80;
  x00; x00; x0c; x80; x00; x00; x0e; x80; x00; x00; x10; x80;
  x00; x00; x12; x80; x00; x00; x14; x80; x00; x00; x16; x80;
  x00; x00; x18; x80; x00; x00; x1a; x80; x00; x00; x1c; x80;
  x00; x00; x1e; x80; x00; x00; x20; x80; x00; x00; x22; x80;
  x00; x00; x24; x80; x00; x00; x26; x80; x03; x00; x00; xe0;
  x00; x00; x06; x80; x80; x0f; x1f; x80; xc2; x0f; x1f; x80;
  x00; x00; x28; x80; x00; x00; x00; x40; xf8; x0b; x1f; x80;
  x00; x90; x13; x80; x40; x0c; x1f; x80; x00; x00; x11; x00;
  x00; x04; x00; x10; x00; x00; x11; xc0; x00; x00; x11; x00;
  xff; xfb; x00; x20; x00; x00; x11; xc0; xd8; x0b; x1f; x80;
  x10; x10; x13; x80; x10; x10; x14; x80; xd4; x0b; x1f; x80;
  x00; x00; x17; x00; xff; xfb; x00; x20; x00; x00; x17; xc0;
  x00; x00; x17; x00; x00; x08; x00; x10; x00; x00; x17; xc0;
  xf4; x0b; x1f; x80; x00; x00; x13; x00; xff; xf7; x00; x20;
  x00; x00; x13; xc0; x00; x00; x13; x00; x00; x07; x00; x10;
  x00; x00; x13; xc0; x82; x0b; x1f; x80; x00; x00; x10; x00;
  x10; x00; x00; x10; x00; x00; x10; xc0; x80; x0b; x1f; x80;
  x00; x00; x00; x70; x01; x00; x00; xe0; x00; x00; x10; x00;
  x40; x00; x00; x20; x40; x00; x02; xa0; x64; x00; x00; x90;
  x00; x00; x05; x30; x43; x0a; x1f; x80; x24; x80; x13; x80;
  x00; x37; x14; x80; x2e; xb8; x13; x80; x01; x00; x14; x80;
  x82; x0b; x1f; x80; x90; x00; x10; x80; x43; x0a; x1f; x80;
  x16; xa0; x13; x80; x00; x00; x14; x80; x12; xa0; x13; x80;
  x00; x00; x14; x80; x14; xa0; x13; x80; x00; x18; x14; x80;
  x10; x80; x14; x80; x00; x18; x14; x80; x25; x80; x14; x80;
  x00; x18; x14; x80; x3a; x80; x14; x80; x00; x18; x14; x80;
  x44; x80; x14; x80; x00; x18; x14; x80; x83; x80; x14; x80;
  x00; x18; x14; x80; x8d; x80; x14; x80; x00; x18; x14; x80;
  x8d; x80; x14; x80; x00; x18; x14; x80; x8d; x80; x14; x80;
  x12; xd7; x14; x80; x77; x40; x14; x80; x1e; xd7; x14; x80;
  x59; x41; x14; x80; x1e; xd7; x14; x80; x99; x60; x14; x80;
  x44; x7f; x14; x80; x00; x18; x14; x80; x14; x1a; x14; x80;
  x40; x90; x14; x80; x01; x92; x14; x80; x00; x18; x14; x80;
  x1a; x1b; x14; x80; x1e; xd7; x14; x80; x25; x24; x14; x80;
  x14; x1a; x14; x80; x1f; xd7; x14; x80; xe5; x3c; x14; x80;
  xfb; x1a; x14; x80; x00; x18; x14; x80; x00; x1b; x14; x80;
  x12; xd7; x14; x80; x77; x40; x14; x80; x1e; xd7; x14; x80;
  x59; x41; x14; x80; x1e; xd7; x14; x80; xb9; x60; x14; x80;
  x21; x24; x14; x80; x17; x1c; x14; x80; x00; x18; x14; x80;
  x14; x1a; x14; x80; x40; x90; x14; x80; x00; x18; x14; x80;
  x2c; x1c; x14; x80; x1e; xd7; x14; x80; x25; x24; x14; x80;
  x14; x1a; x14; x80; x1f; xd7; x14; x80; xe5; x3c; x14; x80;
  x0f; x1c; x14; x80; x00; x18; x14; x80; x13; x1c; x14; x80;
  x02; xd7; x14; x80; x01; xd5; x14; x80; x72; x60; x14; x80;
  x01; x84; x14; x80; x02; xf0; x14; x80; x01; xa4; x14; x80;
  x00; x10; x14; x80; x6e; x14; x14; x80; x00; x18; x14; x80;
  x77; x0b; x14; x80; x03; xd7; x14; x80; x5d; x66; x14; x80;
  x3e; x65; x14; x80; x1f; x64; x14; x80; x00; xd7; x14; x80;
  xc4; x62; x14; x80; x85; x61; x14; x80; x66; x60; x14; x80;
  x00; x18; x14; x80; x5a; x16; x14; x80; x01; xc1; x14; x80;
  x00; xcb; x14; x80; x00; x10; x14; x80; x45; x19; x14; x80;
  x00; xd7; x14; x80; xa6; x7f; x14; x80; x00; x18; x14; x80;
  x7d; x80; x14; x80; x02; xc1; x14; x80; x00; xcb; x14; x80;
  x00; x10; x14; x80; x45; x19; x14; x80; x00; xd7; x14; x80;
  x69; x25; x14; x80; x58; x80; x14; x80; x00; x18; x14; x80;
  x7d; x80; x14; x80; x04; xc1; x14; x80; x00; xcb; x14; x80;
  x00; x10; x14; x80; x45; x19; x14; x80; x00; xd7; x14; x80;
  xa4; x7f; x14; x80; x00; x18; x14; x80; x7d; x80; x14; x80;
  x20; xc1; x14; x80; x00; xcb; x14; x80; x00; x10; x14; x80;
  x45; x19; x14; x80; x03; xd7; x14; x80; xbf; x7f; x14; x80;
  x00; x18; x14; x80; x7d; x80; x14; x80; x40; xc1; x14; x80;
  x00; xcb; x14; x80; x00; x10; x14; x80; x45; x19; x14; x80;
  x03; xd7; x14; x80; xbe; x7f; x14; x80; x00; x18; x14; x80;
  x7d; x80; x14; x80; x80; xc1; x14; x80; x00; xcb; x14; x80;
  x00; x10; x14; x80; x45; x19; x14; x80; x03; xd7; x14; x80;
  xbd; x7f; x14; x80; x00; xc1; x14; x80; x00; xcb; x14; x80;
  x08; xd7; x14; x80; x18; x60; x14; x80; x00; x18; x14; x80;
  x5a; x16; x14; x80; x00; x10; x14; x80; xf6; x14; x14; x80;
  x14; xd0; x14; x80; xe3; xd1; x14; x80; x00; x10; x14; x80;
  x56; x13; x14; x80; x05; xd7; x14; x80; xbe; x5f; x14; x80;
  x00; x18; x14; x80; x59; x15; x14; x80; x26; xa0; x13; x80;
  xff; xff; x14; x80; x24; xa0; x13; x80; xff; xff; x14; x80;
  x22; xa0; x13; x80; xff; xff; x14; x80; x20; xa0; x13; x80;
  x57; x15; x14; x80; x06; xa0; x13; x80; x77; x16; x14; x80;
  x04; xa0; x13; x80; x75; x0b; x14; x80; x02; xa0; x13; x80;
  x17; x1c; x14; x80; x00; xa0; x13; x80; x04; x1b; x14; x80;
  x08; xa0; x13; x80; x00; x1f; x14; x80; x16; xa0; x13; x80;
  x20; x00; x14; x80; x12; xa0; x13; x80; x00; x00; x14; x80;
  x14; xa0; x13; x80; x00; x18; x14; x80; x10; x80; x14; x80;
  x00; x18; x14; x80; x7f; x81; x14; x80; x00; x18; x14; x80;
  xab; x82; x14; x80; x00; x18; x14; x80; xf8; x83; x14; x80;
  x00; x18; x14; x80; x44; x84; x14; x80; x00; x18; x14; x80;
  x54; x84; x14; x80; x00; x18; x14; x80; x59; x84; x14; x80;
  x00; x18; x14; x80; x65; x84; x14; x80; x11; xcb; x14; x80;
  x0c; xa5; x14; x80; x10; x83; x14; x80; x01; xd7; x14; x80;
  x76; x40; x14; x80; x03; x0c; x14; x80; x03; x09; x14; x80;
  x00; xd7; x14; x80; x83; x60; x14; x80; x1f; x0c; x14; x80;
  x00; x0d; x14; x80; x03; xf0; x14; x80; x1f; x0c; x14; x80;
  x00; x0d; x14; x80; x00; x10; x14; x80; x7d; x0a; x14; x80;
  x00; x10; x14; x80; x4d; x0a; x14; x80; x12; xcb; x14; x80;
  x00; x10; x14; x80; x5e; x0a; x14; x80; x1f; xd7; x14; x80;
  x84; x5f; x14; x80; x02; xd1; x14; x80; x40; xd0; x14; x80;
  x00; x10; x14; x80; x5e; x0a; x14; x80; x00; xd7; x14; x80;
  xb4; x5f; x14; x80; x01; xd7; x14; x80; xf3; x60; x14; x80;
  x13; xd4; x14; x80; x00; x10; x14; x80; x37; x0a; x14; x80;
  x10; xd4; x14; x80; x00; x10; x14; x80; x37; x0a; x14; x80;
  x13; xcb; x14; x80; x08; xa1; x14; x80; x00; x10; x14; x80;
  x42; x0a; x14; x80; x08; x81; x14; x80; x0a; xa0; x14; x80;
  x10; xa9; x14; x80; x80; xa7; x14; x80; x4a; xd1; x14; x80;
  x48; xd0; x14; x80; x00; x10; x14; x80; x5e; x0a; x14; x80;
  x01; xd7; x14; x80; x55; x62; x14; x80; x00; xd7; x14; x80;
  x74; x5f; x14; x80; x26; x63; x14; x80; x02; xd7; x14; x80;
  x07; x5f; x14; x80; x0a; x80; x14; x80; x04; xa0; x14; x80;
  x00; x10; x14; x80; x42; x0a; x14; x80; x04; x80; x14; x80;
  x01; xa0; x14; x80; x00; x10; x14; x80; x42; x0a; x14; x80;
  x01; x80; x14; x80; x03; x0c; x14; x80; x02; x09; x14; x80;
  xe2; xff; x14; x80; x00; x10; x14; x80; x5e; x0a; x14; x80;
  x1f; xd7; x14; x80; xab; x5f; x14; x80; x08; xba; x14; x80;
  x00; x10; x14; x80; x5e; x0a; x14; x80; x1f; xd7; x14; x80;
  x8b; x7f; x14; x80; x08; x9a; x14; x80; x0a; x80; x14; x80;
  x02; xd7; x14; x80; x35; x65; x14; x80; x0d; xd4; x14; x80;
  x00; x10; x14; x80; x37; x0a; x14; x80; x14; xcb; x14; x80;
  x04; xa0; x14; x80; x00; x10; x14; x80; x42; x0a; x14; x80;
  x04; x80; x14; x80; x01; xa0; x14; x80; x00; x10; x14; x80;
  x42; x0a; x14; x80; x01; x80; x14; x80; x0a; xa0; x14; x80;
  x80; xa7; x14; x80; x4a; xd1; x14; x80; x48; xd0; x14; x80;
  x00; x10; x14; x80; x5e; x0a; x14; x80; x00; xd7; x14; x80;
  xb4; x5f; x14; x80; x06; x62; x14; x80; x02; xd7; x14; x80;
  x47; x5f; x14; x80; x0a; x80; x14; x80; x04; xa0; x14; x80;
  x00; x10; x14; x80; x42; x0a; x14; x80; x04; x80; x14; x80;
  x01; xa0; x14; x80; x00; x10; x14; x80; x42; x0a; x14; x80;
  x01; x80; x14; x80; x03; x0c; x14; x80; x02; x09; x14; x80;
  x00; x18; x14; x80; x64; x80; x14; x80; x0a; x80; x14; x80;
  x0e; xd4; x14; x80; x00; x10; x14; x80; x37; x0a; x14; x80;
  x20; xb9; x14; x80; x00; x10; x14; x80; x5e; x0a; x14; x80;
  x1f; xd7; x14; x80; xac; x5f; x14; x80; x20; x99; x14; x80;
  x00; x10; x14; x80; x5e; x0a; x14; x80; x1f; xd7; x14; x80;
  x8c; x7f; x14; x80; x01; xd7; x14; x80; x73; x60; x14; x80;
  x01; xd7; x14; x80; x16; x42; x14; x80; x04; xa0; x14; x80;
  x00; x10; x14; x80; x42; x0a; x14; x80; x04; x80; x14; x80;
  x01; xa0; x14; x80; x00; x10; x14; x80; x42; x0a; x14; x80;
  x01; x80; x14; x80; x20; xd1; x14; x80; x40; xd0; x14; x80;
  x00; x10; x14; x80; x5e; x0a; x14; x80; x00; xd7; x14; x80;
  xb4; x5f; x14; x80; x04; x85; x14; x80; x21; xcb; x14; x80;
  x01; xa3; x14; x80; x00; x10; x14; x80; x5e; x0a; x14; x80;
  x00; xd7; x14; x80; x9f; x5f; x14; x80; x01; x83; x14; x80;
  x04; xd7; x14; x80; xe0; x40; x14; x80; x96; xd1; x14; x80].

Definition rtl8125b_1_fw_1 : list byte := [
  x4d; xd0; x14; x80; x00; x10; x14; x80; x5e; x0a; x14; x80;
  x00; xd7; x14; x80; xb4; x5f; x14; x80; x22; xcb; x14; x80;
  x00; x10; x14; x80; x6d; x0a; x14; x80; x03; x0c; x14; x80;
  x02; x15; x14; x80; x40; xa6; x14; x80; x03; x95; x14; x80;
  x10; x89; x14; x80; x20; x87; x14; x80; x00; xd7; x14; x80;
  x83; x60; x14; x80; x1f; x0c; x14; x80; x01; x0d; x14; x80;
  x03; xf0; x14; x80; x1f; x0c; x14; x80; x01; x0d; x14; x80;
  x00; x10; x14; x80; x7d; x0a; x14; x80; x1f; x0c; x14; x80;
  x14; x0f; x14; x80; x23; xcb; x14; x80; xc0; x8f; x14; x80;
  x00; x10; x14; x80; x25; x0a; x14; x80; x40; xaf; x14; x80;
  x00; x10; x14; x80; x25; x0a; x14; x80; xc0; x0c; x14; x80;
  x80; x0f; x14; x80; x00; x10; x14; x80; x25; x0a; x14; x80;
  xc0; xaf; x14; x80; x00; x10; x14; x80; x25; x0a; x14; x80;
  x00; x10; x14; x80; x5e; x0a; x14; x80; x01; xd7; x14; x80;
  xee; x5d; x14; x80; x24; xcb; x14; x80; x1f; x8f; x14; x80;
  x00; x10; x14; x80; x5e; x0a; x14; x80; x01; xd7; x14; x80;
  x6e; x7f; x14; x80; x11; xa1; x14; x80; x15; xa2; x14; x80;
  x01; xa4; x14; x80; x04; x84; x14; x80; x20; xa7; x14; x80;
  x25; xcb; x14; x80; x03; x0c; x14; x80; x02; x15; x14; x80;
  x40; x86; x14; x80; x03; x95; x14; x80; x00; x10; x14; x80;
  x43; x0b; x14; x80; x00; x10; x14; x80; x86; x0b; x14; x80;
  x00; x10; x14; x80; x5e; x0a; x14; x80; x20; xb9; x14; x80;
  x00; x10; x14; x80; x5e; x0a; x14; x80; x1f; xd7; x14; x80;
  xac; x5f; x14; x80; x20; x99; x14; x80; x00; x10; x14; x80;
  x5e; x0a; x14; x80; x1f; xd7; x14; x80; x8c; x7f; x14; x80;
  x26; xcb; x14; x80; x00; x10; x14; x80; x5e; x0a; x14; x80;
  x1f; xd7; x14; x80; x82; x5f; x14; x80; x11; x81; x14; x80;
  x05; x82; x14; x80; x04; x84; x14; x80; x27; xcb; x14; x80;
  x04; xd4; x14; x80; x00; x10; x14; x80; x37; x0a; x14; x80;
  x00; xd7; x14; x80; x83; x60; x14; x80; x1f; x0c; x14; x80;
  x02; x0d; x14; x80; x03; xf0; x14; x80; x1f; x0c; x14; x80;
  x02; x0d; x14; x80; x00; x10; x14; x80; x7d; x0a; x14; x80;
  x10; xa7; x14; x80; x04; xa1; x14; x80; x00; x10; x14; x80;
  x42; x0a; x14; x80; x04; x81; x14; x80; x01; xa0; x14; x80;
  x00; x10; x14; x80; x42; x0a; x14; x80; x01; x80; x14; x80;
  x20; xa1; x14; x80; x0f; xaa; x14; x80; x10; x81; x14; x80;
  x84; xa2; x14; x80; x04; xa4; x14; x80; x0a; xa0; x14; x80;
  x93; xd1; x14; x80; x46; xd0; x14; x80; x00; x10; x14; x80;
  x5e; x0a; x14; x80; x00; xd7; x14; x80; xb4; x5f; x14; x80;
  x28; xcb; x14; x80; x10; xa1; x14; x80; x00; x10; x14; x80;
  x5e; x0a; x14; x80; x00; xd7; x14; x80; xa8; x5f; x14; x80;
  x10; x81; x14; x80; x84; x82; x14; x80; x04; xa4; x14; x80;
  x0a; x80; x14; x80; x10; x87; x14; x80; x04; xb8; x14; x80;
  x00; x10; x14; x80; x5e; x0a; x14; x80; x1f; xd7; x14; x80;
  x82; x7f; x14; x80; x04; x98; x14; x80; x29; xcb; x14; x80;
  x00; x10; x14; x80; x5e; x0a; x14; x80; x1f; xd7; x14; x80;
  x85; x5f; x14; x80; x10; xa7; x14; x80; x20; xb8; x14; x80;
  x00; x10; x14; x80; x5e; x0a; x14; x80; x1f; xd7; x14; x80;
  x65; x7f; x14; x80; x20; x98; x14; x80; x2a; xcb; x14; x80;
  x90; xa1; x14; x80; x84; xa2; x14; x80; x04; xa4; x14; x80;
  x0a; xa0; x14; x80; x3d; xd1; x14; x80; x4a; xd0; x14; x80;
  x00; x10; x14; x80; x5e; x0a; x14; x80; x00; xd7; x14; x80;
  x44; x34; x14; x80; x49; x81; x14; x80; x20; xa2; x14; x80;
  xa0; xd1; x14; x80; x40; xd0; x14; x80; x00; x10; x14; x80;
  x5e; x0a; x14; x80; x00; xd7; x14; x80; x44; x34; x14; x80;
  x51; x81; x14; x80; x02; xd7; x14; x80; x51; x5f; x14; x80;
  x2f; xcb; x14; x80; x02; xa3; x14; x80; x00; x10; x14; x80;
  x5e; x0a; x14; x80; x08; xd7; x14; x80; x63; x5f; x14; x80;
  x11; xd4; x14; x80; x00; x10; x14; x80; x37; x0a; x14; x80;
  x02; x83; x14; x80; x09; xd4; x14; x80; x00; x10; x14; x80;
  x37; x0a; x14; x80; x20; xb9; x14; x80; x00; x10; x14; x80;
  x5e; x0a; x14; x80; x1f; xd7; x14; x80; xac; x5f; x14; x80;
  x20; x99; x14; x80; x00; x10; x14; x80; x5e; x0a; x14; x80;
  x1f; xd7; x14; x80; x8c; x7f; x14; x80; x00; x10; x14; x80;
  x5e; x0a; x14; x80; x1f; xd7; x14; x80; xa3; x5f; x14; x80;
  x90; x81; x14; x80; xa4; x82; x14; x80; x04; x84; x14; x80;
  x0a; x80; x14; x80; x08; xb8; x14; x80; x00; x10; x14; x80;
  x5e; x0a; x14; x80; x1f; xd7; x14; x80; xa3; x7f; x14; x80;
  x08; x98; x14; x80; x00; x18; x14; x80; x33; x04; x14; x80;
  x15; xcb; x14; x80; x08; xa5; x14; x80; x00; xd7; x14; x80;
  x83; x60; x14; x80; x1f; x0c; x14; x80; x01; x0d; x14; x80;
  x03; xf0; x14; x80; x1f; x0c; x14; x80; x01; x0d; x14; x80;
  x00; x10; x14; x80; x7d; x0a; x14; x80; x00; x10; x14; x80;
  x4d; x0a; x14; x80; x01; xa3; x14; x80; x00; x10; x14; x80;
  x5e; x0a; x14; x80; x00; xd7; x14; x80; x9f; x5f; x14; x80;
  x01; x83; x14; x80; x04; xd7; x14; x80; xe0; x40; x14; x80;
  x15; xd1; x14; x80; x4f; xd0; x14; x80; x00; x10; x14; x80;
  x5e; x0a; x14; x80; x00; xd7; x14; x80; xb4; x5f; x14; x80;
  x13; xd4; x14; x80; x00; x10; x14; x80; x37; x0a; x14; x80;
  x16; xcb; x14; x80; x00; x10; x14; x80; x6d; x0a; x14; x80;
  x03; x0c; x14; x80; x02; x15; x14; x80; x40; xa6; x14; x80;
  x03; x95; x14; x80; x20; x87; x14; x80; x7a; xd1; x14; x80;
  x4c; xd0; x14; x80; x1f; x0c; x14; x80; x14; x0f; x14; x80;
  x17; xcb; x14; x80; xc0; x8f; x14; x80; x00; x10; x14; x80;
  x25; x0a; x14; x80; x40; xaf; x14; x80; x00; x10; x14; x80;
  x25; x0a; x14; x80; xc0; x0c; x14; x80; x80; x0f; x14; x80;
  x00; x10; x14; x80; x25; x0a; x14; x80; xc0; xaf; x14; x80;
  x00; x10; x14; x80; x25; x0a; x14; x80; x00; x10; x14; x80;
  x5e; x0a; x14; x80; x01; xd7; x14; x80; xce; x61; x14; x80;
  x00; xd7; x14; x80; xb4; x5d; x14; x80; x18; xcb; x14; x80;
  x03; x0c; x14; x80; x02; x15; x14; x80; x40; x86; x14; x80;
  x03; x95; x14; x80; x20; xa7; x14; x80; x00; x10; x14; x80;
  x43; x0b; x14; x80; x00; x10; x14; x80; x5e; x0a; x14; x80;
  xd6; xff; x14; x80; x1f; x8f; x14; x80; x00; x10; x14; x80;
  x5e; x0a; x14; x80; x01; xd7; x14; x80; x8e; x7f; x14; x80;
  x31; xa1; x14; x80; x0f; xaa; x14; x80; xd5; xa2; x14; x80;
  x07; xa4; x14; x80; x20; xa7; x14; x80; x10; x83; x14; x80;
  x08; xa3; x14; x80; x08; x83; x14; x80; x19; xcb; x14; x80;
  x03; x0c; x14; x80; x02; x15; x14; x80; x40; x86; x14; x80;
  x03; x95; x14; x80; x00; x10; x14; x80; x43; x0b; x14; x80;
  x00; x10; x14; x80; x86; x0b; x14; x80; x00; x10; x14; x80;
  x5e; x0a; x14; x80; x20; xb9; x14; x80; x00; x10; x14; x80;
  x5e; x0a; x14; x80; x1f; xd7; x14; x80; xac; x5f; x14; x80;
  x20; x99; x14; x80; x00; x10; x14; x80; x5e; x0a; x14; x80;
  x1f; xd7; x14; x80; x8c; x7f; x14; x80; x1a; xcb; x14; x80;
  x00; x10; x14; x80; x5e; x0a; x14; x80; x1f; xd7; x14; x80;
  x82; x5f; x14; x80; x11; x81; x14; x80; xc5; x82; x14; x80;
  x04; xa4; x14; x80; x02; x84; x14; x80; x04; xb8; x14; x80;
  x00; x10; x14; x80; x5e; x0a; x14; x80; x1f; xd7; x14; x80;
  x82; x7f; x14; x80; x04; x98; x14; x80; x1b; xcb; x14; x80;
  x00; x10; x14; x80; x5e; x0a; x14; x80; x1f; xd7; x14; x80;
  x85; x5f; x14; x80; x10; xa7; x14; x80; x20; xb8; x14; x80;
  x00; x10; x14; x80; x5e; x0a; x14; x80; x1f; xd7; x14; x80;
  x65; x7f; x14; x80; x20; x98; x14; x80; x1c; xcb; x14; x80;
  x00; xd7; x14; x80; x83; x60; x14; x80; x1f; x0c; x14; x80;
  x02; x0d; x14; x80; x03; xf0; x14; x80; x1f; x0c; x14; x80;
  x02; x0d; x14; x80; x00; x10; x14; x80; x7d; x0a; x14; x80;
  x10; xa1; x14; x80; x84; xa2; x14; x80; x04; xa4; x14; x80;
  x02; x84; x14; x80; x00; x10; x14; x80; x5e; x0a; x14; x80;
  x00; xd7; x14; x80; xa8; x5f; x14; x80; x1d; xcb; x14; x80;
  x80; xa1; x14; x80; x02; xa4; x14; x80; x00; x10; x14; x80;
  x5e; x0a; x14; x80; x00; xd7; x14; x80; xa8; x5f; x14; x80;
  x20; xa2; x14; x80; xf5; xd1; x14; x80; x49; xd0; x14; x80;
  x00; x10; x14; x80; x5e; x0a; x14; x80; x00; xd7; x14; x80;
  x44; x34; x14; x80; x21; x82; x14; x80; x02; xd7; x14; x80;
  x51; x5f; x14; x80; x20; xb9; x14; x80; x00; x10; x14; x80;
  x5e; x0a; x14; x80; x1f; xd7; x14; x80; xac; x5f; x14; x80;
  x20; x99; x14; x80; x00; x10; x14; x80; x5e; x0a; x14; x80;
  x1f; xd7; x14; x80; x8c; x7f; x14; x80; x00; x10; x14; x80;
  x5e; x0a; x14; x80; x1f; xd7; x14; x80; xa3; x5f; x14; x80;
  x04; xa5; x14; x80; x00; xd7; x14; x80; x83; x60; x14; x80;
  x1f; x0c; x14; x80; x00; x0d; x14; x80; x03; xf0; x14; x80;
  x1f; x0c; x14; x80; x00; x0d; x14; x80; x00; x10; x14; x80;
  x7d; x0a; x14; x80; x0a; xa0; x14; x80; x90; x81; x14; x80;
  xa4; x82; x14; x80; x02; x84; x14; x80; x04; xa4; x14; x80;
  x08; xb8; x14; x80; x00; x10; x14; x80; x5e; x0a; x14; x80;
  x1f; xd7; x14; x80; xa3; x7f; x14; x80; x08; x98; x14; x80;
  x2b; xcb; x14; x80; x2c; xcb; x14; x80; x00; x10; x14; x80;
  x5e; x0a; x14; x80; x1f; xd7; x14; x80; x84; x5f; x14; x80;
  x4a; xd1; x14; x80; x48; xd0; x14; x80; x80; xa7; x14; x80;
  x2d; xcb; x14; x80; x00; x10; x14; x80; x5e; x0a; x14; x80;
  x00; xd7; x14; x80; x94; x5f; x14; x80; x08; x62; x14; x80;
  x02; xd7; x14; x80; x27; x5f; x14; x80; x0a; x80; x14; x80;
  x04; xa0; x14; x80; x00; x10; x14; x80; x42; x0a; x14; x80;
  x04; x80; x14; x80; x01; xa0; x14; x80; x00; x10; x14; x80;
  x42; x0a; x14; x80; x01; x80; x14; x80; x03; x0c; x14; x80;
  x02; x09; x14; x80; x0a; xa0; x14; x80; xe9; xff; x14; x80;
  x2e; xcb; x14; x80; x00; xd7; x14; x80; x83; x60; x14; x80].

Definition rtl8125b_1_fw_2 : list byte := [
  x1f; x0c; x14; x80; x02; x0d; x14; x80; x03; xf0; x14; x80;
  x1f; x0c; x14; x80; x02; x0d; x14; x80; x00; x10; x14; x80;
  x7d; x0a; x14; x80; x90; xa1; x14; x80; x84; xa2; x14; x80;
  x06; xa4; x14; x80; x00; x10; x14; x80; x5e; x0a; x14; x80;
  x00; xd7; x14; x80; xa8; x5f; x14; x80; x20; xa2; x14; x80;
  xa0; xd1; x14; x80; x40; xd0; x14; x80; x00; x10; x14; x80;
  x5e; x0a; x14; x80; x00; xd7; x14; x80; x44; x34; x14; x80;
  x7d; x82; x14; x80; x02; xd7; x14; x80; x51; x5f; x14; x80;
  x2f; xcb; x14; x80; x02; xa3; x14; x80; x00; x10; x14; x80;
  x5e; x0a; x14; x80; x08; xd7; x14; x80; x63; x5f; x14; x80;
  x11; xd4; x14; x80; x00; x10; x14; x80; x37; x0a; x14; x80;
  x02; x83; x14; x80; x09; xd4; x14; x80; x00; x10; x14; x80;
  x37; x0a; x14; x80; x20; xb9; x14; x80; x00; x10; x14; x80;
  x5e; x0a; x14; x80; x1f; xd7; x14; x80; xac; x5f; x14; x80;
  x20; x99; x14; x80; x00; x10; x14; x80; x5e; x0a; x14; x80;
  x1f; xd7; x14; x80; x8c; x7f; x14; x80; x00; x10; x14; x80;
  x5e; x0a; x14; x80; x1f; xd7; x14; x80; xa3; x5f; x14; x80;
  x90; x81; x14; x80; xa4; x82; x14; x80; x06; x84; x14; x80;
  x0a; x80; x14; x80; x08; xb8; x14; x80; x00; x10; x14; x80;
  x5e; x0a; x14; x80; x1f; xd7; x14; x80; xa3; x7f; x14; x80;
  x08; x98; x14; x80; x00; x18; x14; x80; x33; x04; x14; x80;
  x30; xcb; x14; x80; x80; x83; x14; x80; x31; xcb; x14; x80;
  x00; x10; x14; x80; x5e; x0a; x14; x80; x1f; xd7; x14; x80;
  x86; x5f; x14; x80; x08; x93; x14; x80; x04; xb2; x14; x80;
  x01; xb3; x14; x80; x00; x10; x14; x80; x5e; x0a; x14; x80;
  x01; xd7; x14; x80; xa2; x5f; x14; x80; x02; xb3; x14; x80;
  x04; x92; x14; x80; x32; xcb; x14; x80; x08; xd4; x14; x80;
  x00; x10; x14; x80; x37; x0a; x14; x80; x41; xd1; x14; x80;
  x43; xd0; x14; x80; x00; x10; x14; x80; x5e; x0a; x14; x80;
  x00; xd7; x14; x80; xb4; x5f; x14; x80; x04; xd7; x14; x80;
  xcc; x4c; x14; x80; x00; xd7; x14; x80; x81; x4c; x14; x80;
  x02; xd7; x14; x80; x9e; x60; x14; x80; xe5; xd1; x14; x80;
  x4d; xd0; x14; x80; x03; xf0; x14; x80; xe5; xd1; x14; x80;
  x4d; xd0; x14; x80; x00; x10; x14; x80; x5e; x0a; x14; x80;
  x00; xd7; x14; x80; xb4; x5f; x14; x80; x00; xd7; x14; x80;
  x83; x60; x14; x80; x1f; x0c; x14; x80; x01; x0d; x14; x80;
  x03; xf0; x14; x80; x1f; x0c; x14; x80; x01; x0d; x14; x80;
  x00; x10; x14; x80; x7d; x0a; x14; x80; x10; x87; x14; x80;
  x08; xa1; x14; x80; x00; x10; x14; x80; x42; x0a; x14; x80;
  x08; x81; x14; x80; x03; xa2; x14; x80; x20; x81; x14; x80;
  x0f; x8a; x14; x80; x11; xa1; x14; x80; x04; x82; x14; x80;
  x40; xa1; x14; x80; x00; x10; x14; x80; x42; x0a; x14; x80;
  x40; x81; x14; x80; x7a; xd1; x14; x80; x4b; xd0; x14; x80;
  x00; x10; x14; x80; x5e; x0a; x14; x80; x00; xd7; x14; x80;
  xb4; x5f; x14; x80; x04; xa2; x14; x80; x00; x10; x14; x80;
  x5e; x0a; x14; x80; x00; xd7; x14; x80; xa7; x5f; x14; x80;
  x20; xb9; x14; x80; x00; x10; x14; x80; x5e; x0a; x14; x80;
  x1f; xd7; x14; x80; xac; x5f; x14; x80; x20; x99; x14; x80;
  x00; x10; x14; x80; x5e; x0a; x14; x80; x1f; xd7; x14; x80;
  x8c; x7f; x14; x80; x04; xd4; x14; x80; x00; x10; x14; x80;
  x37; x0a; x14; x80; x00; xd7; x14; x80; x83; x60; x14; x80;
  x1f; x0c; x14; x80; x02; x0d; x14; x80; x03; xf0; x14; x80;
  x1f; x0c; x14; x80; x02; x0d; x14; x80; x00; x10; x14; x80;
  x7d; x0a; x14; x80; x10; xa7; x14; x80; x01; x81; x14; x80;
  x01; x82; x14; x80; x04; xa1; x14; x80; x00; x10; x14; x80;
  x42; x0a; x14; x80; x04; x81; x14; x80; x20; xa1; x14; x80;
  x0f; xaa; x14; x80; x10; x81; x14; x80; x84; xa2; x14; x80;
  x04; xa4; x14; x80; x0a; xa0; x14; x80; x93; xd1; x14; x80;
  x47; xd0; x14; x80; x00; x10; x14; x80; x5e; x0a; x14; x80;
  x00; xd7; x14; x80; xb4; x5f; x14; x80; x10; xa1; x14; x80;
  x00; x10; x14; x80; x5e; x0a; x14; x80; x00; xd7; x14; x80;
  xa8; x5f; x14; x80; x80; xa1; x14; x80; x3d; xd1; x14; x80;
  x4a; xd0; x14; x80; x00; x10; x14; x80; x5e; x0a; x14; x80;
  x00; xd7; x14; x80; xb4; x5f; x14; x80; x24; xf0; x14; x80;
  x10; xa7; x14; x80; x0a; xa0; x14; x80; x90; x81; x14; x80;
  x04; x82; x14; x80; x80; xa2; x14; x80; x04; xa4; x14; x80;
  x00; x10; x14; x80; x5e; x0a; x14; x80; x00; xd7; x14; x80;
  xa7; x5f; x14; x80; x10; x87; x14; x80; x20; xb9; x14; x80;
  x00; x10; x14; x80; x5e; x0a; x14; x80; x1f; xd7; x14; x80;
  xac; x5f; x14; x80; x20; x99; x14; x80; x00; x10; x14; x80;
  x5e; x0a; x14; x80; x1f; xd7; x14; x80; x8c; x7f; x14; x80;
  x0a; x80; x14; x80; x90; x81; x14; x80; x84; x82; x14; x80;
  x06; x84; x14; x80; x00; xd7; x14; x80; x21; x41; x14; x80;
  x01; xd7; x14; x80; xf3; x60; x14; x80; xe5; xd1; x14; x80;
  x4d; xd0; x14; x80; x00; x10; x14; x80; x5e; x0a; x14; x80;
  x00; xd7; x14; x80; xb4; x5f; x14; x80; x10; x87; x14; x80;
  x0a; xa0; x14; x80; x90; x81; x14; x80; x04; x82; x14; x80;
  x80; xa2; x14; x80; x04; xa4; x14; x80; x20; xb9; x14; x80;
  x00; x10; x14; x80; x5e; x0a; x14; x80; x1f; xd7; x14; x80;
  xac; x5f; x14; x80; x20; x99; x14; x80; x00; x10; x14; x80;
  x5e; x0a; x14; x80; x1f; xd7; x14; x80; x8c; x7f; x14; x80;
  x33; xcb; x14; x80; x00; x10; x14; x80; x5e; x0a; x14; x80;
  x1f; xd7; x14; x80; x85; x5f; x14; x80; x10; xa7; x14; x80;
  x20; xb8; x14; x80; x00; x10; x14; x80; x5e; x0a; x14; x80;
  x1f; xd7; x14; x80; x65; x7f; x14; x80; x20; x98; x14; x80;
  x34; xcb; x14; x80; x0a; xa0; x14; x80; x90; xa1; x14; x80;
  x84; xa2; x14; x80; x04; xa4; x14; x80; x00; x10; x14; x80;
  x5e; x0a; x14; x80; x00; xd7; x14; x80; xa9; x5f; x14; x80;
  x01; xd7; x14; x80; x53; x68; x14; x80; x00; xd7; x14; x80;
  x83; x60; x14; x80; x1f; x0c; x14; x80; x00; x0d; x14; x80;
  x03; xf0; x14; x80; x1f; x0c; x14; x80; x00; x0d; x14; x80;
  x00; x10; x14; x80; x7d; x0a; x14; x80; x90; x81; x14; x80;
  x84; x82; x14; x80; x35; xcb; x14; x80; x07; xd4; x14; x80;
  x00; x10; x14; x80; x37; x0a; x14; x80; x10; x81; x14; x80;
  x04; x82; x14; x80; x80; xa2; x14; x80; x0a; xa0; x14; x80;
  x04; xd7; x14; x80; x15; x42; x14; x80; x04; xa3; x14; x80;
  x00; x10; x14; x80; x5e; x0a; x14; x80; x00; xd7; x14; x80;
  xb8; x5f; x14; x80; xc3; xd1; x14; x80; x43; xd0; x14; x80;
  x00; x10; x14; x80; x5e; x0a; x14; x80; x00; xd7; x14; x80;
  xb4; x5f; x14; x80; x04; x83; x14; x80; x00; xd7; x14; x80;
  x09; x41; x14; x80; x1e; xf0; x14; x80; x36; xcb; x14; x80;
  x12; xd4; x14; x80; x00; x10; x14; x80; x37; x0a; x14; x80;
  x00; xd7; x14; x80; x09; x63; x14; x80; x02; xd7; x14; x80;
  xc7; x42; x14; x80; x0a; x80; x14; x80; x80; x81; x14; x80;
  x80; x82; x14; x80; x04; x84; x14; x80; x04; xa0; x14; x80;
  x00; x10; x14; x80; x42; x0a; x14; x80; x04; x80; x14; x80;
  x01; xa0; x14; x80; x00; x10; x14; x80; x42; x0a; x14; x80;
  x01; x80; x14; x80; x03; x0c; x14; x80; x02; x09; x14; x80;
  x0a; xa0; x14; x80; x4a; xd1; x14; x80; x48; xd0; x14; x80;
  x00; x10; x14; x80; x5e; x0a; x14; x80; x00; xd7; x14; x80;
  xb4; x5f; x14; x80; x00; xd7; x14; x80; x83; x60; x14; x80;
  x1f; x0c; x14; x80; x02; x0d; x14; x80; x03; xf0; x14; x80;
  x1f; x0c; x14; x80; x02; x0d; x14; x80; x00; x10; x14; x80;
  x7d; x0a; x14; x80; x55; xcc; x14; x80; x37; xcb; x14; x80;
  x0a; xa0; x14; x80; x90; xa1; x14; x80; xa4; xa2; x14; x80;
  x04; xa4; x14; x80; x00; xd7; x14; x80; x41; x60; x14; x80;
  x02; xa4; x14; x80; x3d; xd1; x14; x80; x4a; xd0; x14; x80;
  x00; x10; x14; x80; x5e; x0a; x14; x80; x00; xd7; x14; x80;
  xb4; x5f; x14; x80; x00; x10; x14; x80; x5e; x0a; x14; x80;
  x00; xd7; x14; x80; xa9; x5f; x14; x80; x02; xd7; x14; x80;
  x71; x5f; x14; x80; x38; xcb; x14; x80; x24; x82; x14; x80;
  x88; xa2; x14; x80; x80; x81; x14; x80; x10; xa1; x14; x80;
  x04; xa4; x14; x80; x0a; x80; x14; x80; x00; xd7; x14; x80;
  x41; x60; x14; x80; x02; x84; x14; x80; x15; xd4; x14; x80;
  x00; x10; x14; x80; x37; x0a; x14; x80; x3d; xd1; x14; x80;
  x4a; xd0; x14; x80; x00; x10; x14; x80; x5e; x0a; x14; x80;
  x00; xd7; x14; x80; xb4; x5f; x14; x80; x39; xcb; x14; x80;
  x0a; xa0; x14; x80; x90; xa1; x14; x80; xa0; xa2; x14; x80;
  x04; xa4; x14; x80; x00; xd7; x14; x80; x41; x60; x14; x80;
  x02; xa4; x14; x80; x7a; xd1; x14; x80; x47; xd0; x14; x80;
  x00; x10; x14; x80; x5e; x0a; x14; x80; x00; xd7; x14; x80;
  xb4; x5f; x14; x80; x00; x18; x14; x80; x60; x05; x14; x80;
  x11; xa1; x14; x80; x00; x00; x14; x80; x00; x00; x14; x80;
  x00; x00; x14; x80; x00; x00; x14; x80; xf5; xd3; x14; x80;
  x19; xd2; x14; x80; x00; x10; x14; x80; x31; x0c; x14; x80;
  x08; xd7; x14; x80; xa5; x5f; x14; x80; x15; xa2; x14; x80;
  x0e; xd3; x14; x80; x1a; xd2; x14; x80; x00; x10; x14; x80;
  x31; x0c; x14; x80; x08; xd7; x14; x80; xe9; x63; x14; x80;
  x08; xd7; x14; x80; x65; x5f; x14; x80; x08; xd7; x14; x80;
  x36; x7f; x14; x80; x04; xa0; x14; x80; x00; x10; x14; x80;
  x35; x0c; x14; x80; x04; x80; x14; x80; x01; xa0; x14; x80;
  x00; x10; x14; x80; x35; x0c; x14; x80; x01; x80; x14; x80;
  x08; xd7; x14; x80; x98; x40; x14; x80; x02; xd1; x14; x80;
  x01; x94; x14; x80; x03; xf0; x14; x80; x03; xd1; x14; x80;
  x01; xb4; x14; x80; x00; x10; x14; x80; x27; x0c; x14; x80;
  x08; xa1; x14; x80; x00; x10; x14; x80; x35; x0c; x14; x80;
  x08; x81; x14; x80; x10; x81; x14; x80; x94; x82; x14; x80;
  x02; xa2; x14; x80; x00; x18; x14; x80; xdb; x0b; x14; x80].

Definition rtl8125b_1_fw_3 : list byte := [
  x9c; xd3; x14; x80; x10; xd2; x14; x80; x00; x10; x14; x80;
  x31; x0c; x14; x80; x08; xd7; x14; x80; xa5; x5f; x14; x80;
  x9c; xd3; x14; x80; x10; xd2; x14; x80; x00; x10; x14; x80;
  x31; x0c; x14; x80; x08; xd7; x14; x80; xa5; x5f; x14; x80;
  x00; x10; x14; x80; x31; x0c; x14; x80; x08; xd7; x14; x80;
  xb5; x29; x14; x80; x0e; x84; x14; x80; x08; xd7; x14; x80;
  x4a; x5f; x14; x80; x1f; x0c; x14; x80; x14; x10; x14; x80;
  x00; x10; x14; x80; x31; x0c; x14; x80; x09; xd7; x14; x80;
  xa4; x7f; x14; x80; x1f; x90; x14; x80; x00; x18; x14; x80;
  x23; x0c; x14; x80; x43; xcb; x14; x80; x08; xa5; x14; x80;
  x01; xd7; x14; x80; x99; x36; x14; x80; x4a; x84; x14; x80;
  x04; xa5; x14; x80; x90; xa1; x14; x80; xa0; xa2; x14; x80;
  x04; xa4; x14; x80; x0a; xa0; x14; x80; x00; xd7; x14; x80;
  x09; x21; x14; x80; xea; x05; x14; x80; x02; xa4; x14; x80;
  x00; x18; x14; x80; xea; x05; x14; x80; x90; xcb; x14; x80;
  xf0; x0c; x14; x80; xa0; x0c; x14; x80; x00; x18; x14; x80;
  xdb; x06; x14; x80; xff; xd1; x14; x80; x52; xd0; x14; x80;
  x08; xa5; x14; x80; x18; x87; x14; x80; x0a; xa0; x14; x80;
  x90; xa1; x14; x80; xa0; xa2; x14; x80; x04; xa4; x14; x80;
  xf0; x0c; x14; x80; x50; x0c; x14; x80; x00; x18; x14; x80;
  xef; x09; x14; x80; x00; x10; x14; x80; x5e; x0a; x14; x80;
  x04; xd7; x14; x80; x70; x2e; x14; x80; xda; x06; x14; x80;
  x00; xd7; x14; x80; x55; x5f; x14; x80; x0c; xa9; x14; x80;
  x00; x18; x14; x80; x45; x06; x14; x80; x0e; xa1; x13; x80;
  x44; x06; x14; x80; x0c; xa1; x13; x80; xe9; x09; x14; x80;
  x0a; xa1; x13; x80; xda; x06; x14; x80; x08; xa1; x13; x80;
  xe1; x05; x14; x80; x06; xa1; x13; x80; xe4; x0b; x14; x80;
  x04; xa1; x13; x80; x35; x04; x14; x80; x02; xa1; x13; x80;
  x41; x01; x14; x80; x00; xa1; x13; x80; x6d; x02; x14; x80;
  x10; xa1; x13; x80; xff; x00; x14; x80; x7c; xb8; x13; x80;
  xfe; x85; x14; x80; x7e; xb8; x13; x80; x86; xaf; x14; x80;
  xaf; x16; x14; x80; x99; x86; x14; x80; x86; xaf; x14; x80;
  xaf; xe5; x14; x80; xf9; x86; x14; x80; x87; xaf; x14; x80;
  xaf; x7a; x14; x80; x3a; x88; x14; x80; x88; xaf; x14; x80;
  xaf; x58; x14; x80; x6c; x8b; x14; x80; x8b; xd4; x14; x80;
  x02; x7c; x14; x80; x44; x86; x14; x80; x00; x2c; x14; x80;
  x3c; x50; x14; x80; xd6; xff; x14; x80; x27; xac; x14; x80;
  xe1; x18; x14; x80; xfe; x82; x14; x80; x28; xad; x14; x80;
  xd4; x0c; x14; x80; x84; x8b; x14; x80; x86; x02; x14; x80;
  x2c; x44; x14; x80; x3c; x00; x14; x80; x27; xac; x14; x80;
  xee; x06; x14; x80; x99; x82; x14; x80; xae; x01; x14; x80;
  xee; x04; x14; x80; x99; x82; x14; x80; xaf; x00; x14; x80;
  xdc; x23; x14; x80; xfa; xf9; x14; x80; xfa; xce; x14; x80;
  xef; xfb; x14; x80; xfb; x79; x14; x80; xbf; xc4; x14; x80;
  x76; x8b; x14; x80; x6c; x02; x14; x80; xac; x6d; x14; x80;
  x04; x28; x14; x80; x03; xd2; x14; x80; x02; xae; x14; x80;
  x01; xd2; x14; x80; xd8; xbd; x14; x80; xd9; x19; x14; x80;
  x94; xef; x14; x80; x6c; x02; x14; x80; x78; x6d; x14; x80;
  xef; x03; x14; x80; x8a; x64; x14; x80; x02; x00; x14; x80;
  xd8; xbd; x14; x80; xd9; x19; x14; x80; x94; xef; x14; x80;
  x6c; x02; x14; x80; x78; x6d; x14; x80; xef; x03; x14; x80;
  x02; x74; x14; x80; xcd; x72; x14; x80; x50; xac; x14; x80;
  xef; x02; x14; x80; x3a; x64; x14; x80; x9f; x01; x14; x80;
  xef; xe4; x14; x80; x78; x46; x14; x80; xac; x03; x14; x80;
  x02; x20; x14; x80; x02; xae; x14; x80; xff; xd0; x14; x80;
  xef; xff; x14; x80; xff; x97; x14; x80; xc6; xfe; x14; x80;
  xfd; xfe; x14; x80; x1f; x04; x14; x80; x1f; x77; x14; x80;
  x1c; x22; x14; x80; x0d; x45; x14; x80; x1f; x48; x14; x80;
  xac; x00; x14; x80; x04; x7f; x14; x80; x94; x1a; x14; x80;
  x08; xae; x14; x80; x94; x1a; x14; x80; x7f; xac; x14; x80;
  xd7; x03; x14; x80; x00; x01; x14; x80; x46; xef; x14; x80;
  x48; x0d; x14; x80; x00; x1f; x14; x80; x45; x1c; x14; x80;
  x69; xef; x14; x80; x57; xef; x14; x80; x74; xef; x14; x80;
  x72; x02; x14; x80; xa7; xe8; x14; x80; xff; xff; x14; x80;
  x1a; x0d; x14; x80; x1b; x94; x14; x80; x9e; x97; x14; x80;
  x2d; x07; x14; x80; x00; x01; x14; x80; x64; x1a; x14; x80;
  x76; xef; x14; x80; x97; xef; x14; x80; x98; x0d; x14; x80;
  x00; xd4; x14; x80; x1d; xff; x14; x80; x1a; x94; x14; x80;
  xcf; x89; x14; x80; x75; x1a; x14; x80; x74; xaf; x14; x80;
  xbf; xf9; x14; x80; x79; x8b; x14; x80; x6c; x02; x14; x80;
  xa1; x6d; x14; x80; x05; x00; x14; x80; x80; xe1; x14; x80;
  xae; xa0; x14; x80; xe1; x03; x14; x80; xa1; x80; x14; x80;
  x26; xaf; x14; x80; xac; x9a; x14; x80; x4d; x28; x14; x80;
  x8f; xe0; x14; x80; xef; xff; x14; x80; xc0; x10; x14; x80;
  x8f; xe0; x14; x80; x10; xfe; x14; x80; x08; x1b; x14; x80;
  x00; xa0; x14; x80; xc8; x04; x14; x80; x40; xaf; x14; x80;
  xc8; x67; x14; x80; x8b; xbf; x14; x80; x02; x8c; x14; x80;
  x4e; x6c; x14; x80; xbf; xc4; x14; x80; x8f; x8b; x14; x80;
  x6c; x02; x14; x80; xef; x6d; x14; x80; xe0; x74; x14; x80;
  x0c; x83; x14; x80; x20; xad; x14; x80; x02; x03; x14; x80;
  xac; x74; x14; x80; xef; xcc; x14; x80; x1b; x97; x14; x80;
  xad; x76; x14; x80; x02; x5f; x14; x80; x13; xae; x14; x80;
  x69; xef; x14; x80; x30; xef; x14; x80; x32; x1b; x14; x80;
  xef; xc4; x14; x80; xe4; x46; x14; x80; xfb; x8f; x14; x80;
  x8f; xe5; x14; x80; xe7; xfc; x14; x80; xfd; x8f; x14; x80;
  x10; xcc; x14; x80; xae; x11; x14; x80; xd1; xb8; x14; x80;
  xa1; x00; x14; x80; x03; x1f; x14; x80; x40; xaf; x14; x80;
  xbf; x4f; x14; x80; x8c; x8b; x14; x80; x6c; x02; x14; x80;
  xc4; x4e; x14; x80; x8b; xbf; x14; x80; x02; x8f; x14; x80;
  x6d; x6c; x14; x80; x74; xef; x14; x80; x83; xe0; x14; x80;
  xad; x0c; x14; x80; x03; x20; x14; x80; x74; x02; x14; x80;
  xcc; xac; x14; x80; x97; xef; x14; x80; x76; x1b; x14; x80;
  x5f; xad; x14; x80; xae; x02; x14; x80; xef; x04; x14; x80;
  xef; x69; x14; x80; x11; x31; x14; x80; xd1; xae; x14; x80;
  x87; x02; x14; x80; xaf; x80; x14; x80; x93; x22; x14; x80;
  xf9; xf8; x14; x80; xfb; xfa; x14; x80; x59; xef; x14; x80;
  x80; xe0; x14; x80; xad; x13; x14; x80; x2f; x25; x14; x80;
  x88; xbf; x14; x80; x02; x28; x14; x80; x6d; x6c; x14; x80;
  x64; xef; x14; x80; x44; x1f; x14; x80; x8f; xe1; x14; x80;
  x1b; xb9; x14; x80; xad; x64; x14; x80; x1d; x4f; x14; x80;
  x88; xd6; x14; x80; xd7; x2b; x14; x80; x2e; x88; x14; x80;
  x74; x02; x14; x80; xad; x73; x14; x80; x08; x50; x14; x80;
  x88; xbf; x14; x80; x02; x31; x14; x80; x7c; x73; x14; x80;
  x03; xae; x14; x80; x87; x02; x14; x80; xbf; xd0; x14; x80;
  x2b; x88; x14; x80; x73; x02; x14; x80; xe0; x73; x14; x80;
  x4c; x82; x14; x80; x21; xf6; x14; x80; x82; xe4; x14; x80;
  xbf; x4c; x14; x80; x34; x88; x14; x80; x73; x02; x14; x80;
  xef; x7c; x14; x80; xff; x95; x14; x80; xfd; xfe; x14; x80;
  x04; xfc; x14; x80; xf9; xf8; x14; x80; xfb; xfa; x14; x80;
  x79; xef; x14; x80; x88; xbf; x14; x80; x02; x1f; x14; x80;
  x7c; x73; x14; x80; x22; x1f; x14; x80; x32; xac; x14; x80;
  xef; x31; x14; x80; xbf; x12; x14; x80; x22; x88; x14; x80;
  x6c; x02; x14; x80; xd6; x4e; x14; x80; xba; x8f; x14; x80;
  x33; x1f; x14; x80; x3c; xac; x14; x80; xef; x1e; x14; x80;
  xbf; x13; x14; x80; x37; x88; x14; x80; x6c; x02; x14; x80;
  xef; x4e; x14; x80; xd8; x96; x14; x80; xd9; x19; x14; x80;
  x88; xbf; x14; x80; x02; x25; x14; x80; x4e; x6c; x14; x80;
  x88; xbf; x14; x80; x02; x25; x14; x80; x4e; x6c; x14; x80;
  x16; x16; x14; x80; xae; x13; x14; x80; x12; xdf; x14; x80;
  xcc; xae; x14; x80; x88; xbf; x14; x80; x02; x1f; x14; x80;
  x73; x73; x14; x80; x97; xef; x14; x80; xfe; xff; x14; x80;
  xfc; xfd; x14; x80; x66; x04; x14; x80; x88; xac; x14; x80;
  xac; x54; x14; x80; xf0; x88; x14; x80; x8a; xac; x14; x80;
  xac; x92; x14; x80; xdd; xba; x14; x80; x6c; xac; x14; x80;
  xac; xee; x14; x80; xff; x6c; x14; x80; x02; xad; x14; x80;
  xac; x99; x14; x80; x30; x00; x14; x80; x88; xac; x14; x80;
  xc3; xd4; x14; x80; x00; x50; x14; x80; x00; x00; x14; x80;
  x00; x00; x14; x80; x00; x00; x14; x80; x00; x00; x14; x80;
  x00; x00; x14; x80; x00; x00; x14; x80; x00; x00; x14; x80;
  x00; x00; x14; x80; xb4; x00; x14; x80; xee; xec; x14; x80;
  x98; x82; x14; x80; xaf; x00; x14; x80; x12; x14; x14; x80;
  xbf; xf8; x14; x80; x5d; x8b; x14; x80; x6c; x02; x14; x80;
  x58; x6d; x14; x80; xe1; x03; x14; x80; xb8; x8f; x14; x80;
  x01; x29; x14; x80; x8f; xe5; x14; x80; xa0; xb8; x14; x80;
  x49; x00; x14; x80; x47; xef; x14; x80; x83; xe4; x14; x80;
  xe5; x02; x14; x80; x03; x83; x14; x80; xc2; xbf; x14; x80;
  x1a; x5f; x14; x80; xf7; x95; x14; x80; xee; x05; x14; x80;
  xd2; xff; x14; x80; xd8; x00; x14; x80; x05; xf6; x14; x80;
  x11; x1f; x14; x80; x60; xef; x14; x80; x8b; xbf; x14; x80;
  x02; x30; x14; x80; x4e; x6c; x14; x80; x8b; xbf; x14; x80;
  x02; x33; x14; x80; x6d; x6c; x14; x80; x28; xf7; x14; x80;
  x8b; xbf; x14; x80; x02; x33; x14; x80; x4e; x6c; x14; x80;
  x28; xf6; x14; x80; x8b; xbf; x14; x80; x02; x33; x14; x80;
  x4e; x6c; x14; x80; x64; x0c; x14; x80; x46; xef; x14; x80;
  x8b; xbf; x14; x80; x02; x60; x14; x80; x4e; x6c; x14; x80;
  x89; x02; x14; x80; x02; x99; x14; x80; x20; x39; x14; x80;
  x89; xaf; x14; x80; xa0; x96; x14; x80; x49; x01; x14; x80;
  x47; xef; x14; x80; x83; xe4; x14; x80; xe5; x04; x14; x80].

Definition rtl8125b_1_fw_4 : list byte := [
  x05; x83; x14; x80; xc2; xbf; x14; x80; x1a; x5f; x14; x80;
  xf7; x95; x14; x80; xee; x05; x14; x80; xd2; xff; x14; x80;
  xd8; x00; x14; x80; x05; xf6; x14; x80; x11; x1f; x14; x80;
  x60; xef; x14; x80; x8b; xbf; x14; x80; x02; x30; x14; x80;
  x4e; x6c; x14; x80; x8b; xbf; x14; x80; x02; x33; x14; x80;
  x6d; x6c; x14; x80; x29; xf7; x14; x80; x8b; xbf; x14; x80;
  x02; x33; x14; x80; x4e; x6c; x14; x80; x29; xf6; x14; x80;
  x8b; xbf; x14; x80; x02; x33; x14; x80; x4e; x6c; x14; x80;
  x64; x0c; x14; x80; x46; xef; x14; x80; x8b; xbf; x14; x80;
  x02; x63; x14; x80; x4e; x6c; x14; x80; x89; x02; x14; x80;
  x02; x99; x14; x80; x20; x39; x14; x80; x89; xaf; x14; x80;
  xa0; x96; x14; x80; x49; x02; x14; x80; x47; xef; x14; x80;
  x83; xe4; x14; x80; xe5; x06; x14; x80; x07; x83; x14; x80;
  xc2; xbf; x14; x80; x1a; x5f; x14; x80; xf7; x95; x14; x80;
  xee; x05; x14; x80; xd2; xff; x14; x80; xd8; x00; x14; x80;
  x05; xf6; x14; x80; x11; x1f; x14; x80; x60; xef; x14; x80;
  x8b; xbf; x14; x80; x02; x30; x14; x80; x4e; x6c; x14; x80;
  x8b; xbf; x14; x80; x02; x33; x14; x80; x6d; x6c; x14; x80;
  x2a; xf7; x14; x80; x8b; xbf; x14; x80; x02; x33; x14; x80;
  x4e; x6c; x14; x80; x2a; xf6; x14; x80; x8b; xbf; x14; x80;
  x02; x33; x14; x80; x4e; x6c; x14; x80; x64; x0c; x14; x80;
  x46; xef; x14; x80; x8b; xbf; x14; x80; x02; x66; x14; x80;
  x4e; x6c; x14; x80; x89; x02; x14; x80; x02; x99; x14; x80;
  x20; x39; x14; x80; x89; xaf; x14; x80; xef; x96; x14; x80;
  xe4; x47; x14; x80; x08; x83; x14; x80; x83; xe5; x14; x80;
  xbf; x09; x14; x80; x5f; xc2; x14; x80; x95; x1a; x14; x80;
  x05; xf7; x14; x80; xff; xee; x14; x80; x00; xd2; x14; x80;
  xf6; xd8; x14; x80; x1f; x05; x14; x80; xef; x11; x14; x80;
  xbf; x60; x14; x80; x30; x8b; x14; x80; x6c; x02; x14; x80;
  xbf; x4e; x14; x80; x33; x8b; x14; x80; x6c; x02; x14; x80;
  xf7; x6d; x14; x80; xbf; x2b; x14; x80; x33; x8b; x14; x80;
  x6c; x02; x14; x80; xf6; x4e; x14; x80; xbf; x2b; x14; x80;
  x33; x8b; x14; x80; x6c; x02; x14; x80; x0c; x4e; x14; x80;
  xef; x64; x14; x80; xbf; x46; x14; x80; x69; x8b; x14; x80;
  x6c; x02; x14; x80; x02; x4e; x14; x80; x99; x89; x14; x80;
  x39; x02; x14; x80; xaf; x20; x14; x80; x96; x89; x14; x80;
  x39; xaf; x14; x80; xf8; x1e; x14; x80; xfa; xf9; x14; x80;
  x8f; xe0; x14; x80; x38; xb8; x14; x80; xad; x02; x14; x80;
  x02; x27; x14; x80; x03; xae; x14; x80; x8b; xaf; x14; x80;
  x1f; x20; x14; x80; xef; x66; x14; x80; xbf; x65; x14; x80;
  x1f; xc2; x14; x80; x96; x1a; x14; x80; x05; xf7; x14; x80;
  xff; xee; x14; x80; x00; xd2; x14; x80; xf6; xda; x14; x80;
  xbf; x05; x14; x80; x2f; xc2; x14; x80; x96; x1a; x14; x80;
  x05; xf7; x14; x80; xff; xee; x14; x80; x00; xd2; x14; x80;
  xf6; xdb; x14; x80; xef; x05; x14; x80; x1f; x02; x14; x80;
  x0d; x11; x14; x80; xbf; x42; x14; x80; x3c; x8b; x14; x80;
  x6c; x02; x14; x80; xef; x4e; x14; x80; x1b; x02; x14; x80;
  x1f; x03; x14; x80; x0d; x11; x14; x80; xbf; x42; x14; x80;
  x36; x8b; x14; x80; x6c; x02; x14; x80; xef; x4e; x14; x80;
  x1a; x02; x14; x80; x1f; x03; x14; x80; x0d; x11; x14; x80;
  xbf; x42; x14; x80; x39; x8b; x14; x80; x6c; x02; x14; x80;
  xbf; x4e; x14; x80; x3f; xc2; x14; x80; x96; x1a; x14; x80;
  x05; xf7; x14; x80; xff; xee; x14; x80; x00; xd2; x14; x80;
  xf6; xda; x14; x80; xbf; x05; x14; x80; x4f; xc2; x14; x80;
  x96; x1a; x14; x80; x05; xf7; x14; x80; xff; xee; x14; x80;
  x00; xd2; x14; x80; xf6; xdb; x14; x80; xef; x05; x14; x80;
  x1f; x02; x14; x80; x0d; x11; x14; x80; xbf; x42; x14; x80;
  x45; x8b; x14; x80; x6c; x02; x14; x80; xef; x4e; x14; x80;
  x1b; x02; x14; x80; x1f; x03; x14; x80; x0d; x11; x14; x80;
  xbf; x42; x14; x80; x3f; x8b; x14; x80; x6c; x02; x14; x80;
  xef; x4e; x14; x80; x1a; x02; x14; x80; x1f; x03; x14; x80;
  x0d; x11; x14; x80; xbf; x42; x14; x80; x42; x8b; x14; x80;
  x6c; x02; x14; x80; xef; x4e; x14; x80; xd0; x56; x14; x80;
  x1f; x20; x14; x80; xbf; x11; x14; x80; x4e; x8b; x14; x80;
  x6c; x02; x14; x80; xbf; x4e; x14; x80; x48; x8b; x14; x80;
  x6c; x02; x14; x80; xbf; x4e; x14; x80; x4b; x8b; x14; x80;
  x6c; x02; x14; x80; xe1; x4e; x14; x80; x78; x85; x14; x80;
  x03; xef; x14; x80; x0a; x48; x14; x80; x05; x28; x14; x80;
  x20; xef; x14; x80; x01; x1b; x14; x80; x27; xad; x14; x80;
  x1f; x3f; x14; x80; xe0; x44; x14; x80; x60; x85; x14; x80;
  x85; xe1; x14; x80; xbf; x61; x14; x80; x51; x8b; x14; x80;
  x6c; x02; x14; x80; xe0; x4e; x14; x80; x66; x85; x14; x80;
  x85; xe1; x14; x80; xbf; x67; x14; x80; x54; x8b; x14; x80;
  x6c; x02; x14; x80; xe0; x4e; x14; x80; x6c; x85; x14; x80;
  x85; xe1; x14; x80; xbf; x6d; x14; x80; x57; x8b; x14; x80;
  x6c; x02; x14; x80; xe0; x4e; x14; x80; x72; x85; x14; x80;
  x85; xe1; x14; x80; xbf; x73; x14; x80; x5a; x8b; x14; x80;
  x6c; x02; x14; x80; xe1; x4e; x14; x80; xb8; x8f; x14; x80;
  x00; x59; x14; x80; x28; xf7; x14; x80; x8f; xe5; x14; x80;
  xaf; xb8; x14; x80; x2c; x8b; x14; x80; x85; xe1; x14; x80;
  x1b; x79; x14; x80; xad; x21; x14; x80; x3e; x37; x14; x80;
  x44; x1f; x14; x80; x85; xe0; x14; x80; xe1; x62; x14; x80;
  x63; x85; x14; x80; x8b; xbf; x14; x80; x02; x51; x14; x80;
  x4e; x6c; x14; x80; x85; xe0; x14; x80; xe1; x68; x14; x80;
  x69; x85; x14; x80; x8b; xbf; x14; x80; x02; x54; x14; x80;
  x4e; x6c; x14; x80; x85; xe0; x14; x80; xe1; x6e; x14; x80;
  x6f; x85; x14; x80; x8b; xbf; x14; x80; x02; x57; x14; x80;
  x4e; x6c; x14; x80; x85; xe0; x14; x80; xe1; x74; x14; x80;
  x75; x85; x14; x80; x8b; xbf; x14; x80; x02; x5a; x14; x80;
  x4e; x6c; x14; x80; x8f; xe1; x14; x80; x59; xb8; x14; x80;
  xf7; x00; x14; x80; xe5; x28; x14; x80; xb8; x8f; x14; x80;
  x4a; xae; x14; x80; x44; x1f; x14; x80; x85; xe0; x14; x80;
  xe1; x64; x14; x80; x65; x85; x14; x80; x8b; xbf; x14; x80;
  x02; x51; x14; x80; x4e; x6c; x14; x80; x85; xe0; x14; x80;
  xe1; x6a; x14; x80; x6b; x85; x14; x80; x8b; xbf; x14; x80;
  x02; x54; x14; x80; x4e; x6c; x14; x80; x85; xe0; x14; x80;
  xe1; x70; x14; x80; x71; x85; x14; x80; x8b; xbf; x14; x80;
  x02; x57; x14; x80; x4e; x6c; x14; x80; x85; xe0; x14; x80;
  xe1; x76; x14; x80; x77; x85; x14; x80; x8b; xbf; x14; x80;
  x02; x5a; x14; x80; x4e; x6c; x14; x80; x8f; xe1; x14; x80;
  x59; xb8; x14; x80; xf7; x00; x14; x80; xe5; x28; x14; x80;
  xb8; x8f; x14; x80; x0c; xae; x14; x80; x8f; xe1; x14; x80;
  x39; xb8; x14; x80; xac; x04; x14; x80; x04; x2f; x14; x80;
  x8f; xee; x14; x80; x00; xb8; x14; x80; xfd; xfe; x14; x80;
  x04; xfc; x14; x80; xac; xf0; x14; x80; xfc; x8e; x14; x80;
  x8c; xac; x14; x80; xac; xf0; x14; x80; xf0; xfa; x14; x80;
  xf8; xac; x14; x80; xac; xf0; x14; x80; xf0; xf6; x14; x80;
  x00; xad; x14; x80; xac; xf0; x14; x80; xf0; xfe; x14; x80;
  xfc; xac; x14; x80; xac; xf0; x14; x80; xf0; xf4; x14; x80;
  xf2; xac; x14; x80; xac; xf0; x14; x80; xf0; xf0; x14; x80;
  xb0; xac; x14; x80; xac; xf0; x14; x80; xf0; xae; x14; x80;
  xac; xac; x14; x80; xac; xf0; x14; x80; xf0; xaa; x14; x80;
  xee; xac; x14; x80; xb0; xf0; x14; x80; xf0; x24; x14; x80;
  xa4; xb0; x14; x80; xb1; xf0; x14; x80; xf0; x24; x14; x80;
  xa4; xb1; x14; x80; x8f; xee; x14; x80; x00; xb8; x14; x80;
  x00; xd4; x14; x80; xaf; x00; x14; x80; x76; x39; x14; x80;
  xac; x66; x14; x80; xbb; xea; x14; x80; x30; xa4; x14; x80;
  x50; x6e; x14; x80; x53; x6e; x14; x80; x56; x6e; x14; x80;
  x59; x6e; x14; x80; x5c; x6e; x14; x80; x5f; x6e; x14; x80;
  x62; x6e; x14; x80; x65; x6e; x14; x80; xac; xd9; x14; x80;
  xf0; x70; x14; x80; x6a; xac; x14; x80; x5e; xb8; x13; x80;
  xb7; x23; x14; x80; x60; xb8; x13; x80; xdb; x74; x14; x80;
  x62; xb8; x13; x80; x8c; x26; x14; x80; x64; xb8; x13; x80;
  xe5; x3f; x14; x80; x86; xb8; x13; x80; x50; x22; x14; x80;
  x88; xb8; x13; x80; x0e; x14; x14; x80; x8a; xb8; x13; x80;
  x96; x36; x14; x80; x8c; xb8; x13; x80; x73; x39; x14; x80;
  x38; xb8; x13; x80; xff; x00; x14; x80; x82; x0b; x1f; x80;
  x10; x00; x10; x80; x43; x0a; x1f; x80; x64; x84; x13; x80;
  x84; xaf; x14; x80; xaf; x7c; x14; x80; x85; x84; x14; x80;
  x85; xaf; x14; x80; xaf; x13; x14; x80; x1e; x85; x14; x80;
  x85; xaf; x14; x80; xaf; xb9; x14; x80; x84; x86; x14; x80;
  x87; xaf; x14; x80; xaf; x01; x14; x80; x01; x87; x14; x80;
  x38; xac; x14; x80; xaf; x03; x14; x80; xbb; x38; x14; x80;
  x38; xaf; x14; x80; x02; xc3; x14; x80; x18; x46; x14; x80;
  x85; xbf; x14; x80; x02; x0a; x14; x80; xb7; x54; x14; x80;
  x85; xbf; x14; x80; x02; x10; x14; x80; xc0; x54; x14; x80;
  x00; xd4; x14; x80; xbf; x0f; x14; x80; x07; x85; x14; x80;
  x4f; x02; x14; x80; xbf; x48; x14; x80; x04; x85; x14; x80;
  x4f; x02; x14; x80; x59; x67; x14; x80; xa1; xf0; x14; x80;
  x08; x30; x14; x80; x85; xbf; x14; x80; x02; x0d; x14; x80;
  xc0; x54; x14; x80; x06; xae; x14; x80; x85; xbf; x14; x80;
  x02; x0d; x14; x80; xb7; x54; x14; x80; x85; xbf; x14; x80;
  x02; x04; x14; x80; x67; x4f; x14; x80; x83; xa1; x14; x80;
  xae; x02; x14; x80; xa1; x15; x14; x80; x02; x85; x14; x80;
  x10; xae; x14; x80; xf0; x59; x14; x80; x80; xa1; x14; x80;
  xbf; x16; x14; x80; x01; x85; x14; x80; x4f; x02; x14; x80;
  xa1; x67; x14; x80; x1b; x38; x14; x80; x0b; xae; x14; x80;
  x8f; xe1; x14; x80; xbf; xff; x14; x80; xfe; x84; x14; x80].

Definition rtl8125b_1_fw_5 : list byte := [
  x4f; x02; x14; x80; xae; x48; x14; x80; xbf; x17; x14; x80;
  xfe; x84; x14; x80; x54; x02; x14; x80; xbf; xb7; x14; x80;
  xfb; x84; x14; x80; x54; x02; x14; x80; xae; xb7; x14; x80;
  xa1; x09; x14; x80; x06; x50; x14; x80; x84; xbf; x14; x80;
  x02; xfb; x14; x80; xc0; x54; x14; x80; x04; xaf; x14; x80;
  x00; x47; x14; x80; x34; xad; x14; x80; xad; xfd; x14; x80;
  x70; x06; x14; x80; x14; xae; x14; x80; xa6; xf0; x14; x80;
  xb8; x00; x14; x80; x32; xbd; x14; x80; xbd; x30; x14; x80;
  xaa; x30; x14; x80; x2c; xbd; x14; x80; xbd; xcc; x14; x80;
  xa1; x2c; x14; x80; x05; x07; x14; x80; x80; xec; x14; x80;
  x40; xaf; x14; x80; xaf; xf7; x14; x80; xf5; x40; x14; x80;
  x01; xd1; x14; x80; x85; xbf; x14; x80; x02; xa4; x14; x80;
  x48; x4f; x14; x80; x85; xbf; x14; x80; x02; xa7; x14; x80;
  xc0; x54; x14; x80; x0f; xd1; x14; x80; x85; xbf; x14; x80;
  x02; xaa; x14; x80; x48; x4f; x14; x80; x4d; x02; x14; x80;
  xbf; x6a; x14; x80; xad; x85; x14; x80; x4f; x02; x14; x80;
  xbf; x67; x14; x80; xf7; x8f; x14; x80; xbf; xdd; x14; x80;
  xb0; x85; x14; x80; x4f; x02; x14; x80; xbf; x67; x14; x80;
  xf8; x8f; x14; x80; xbf; xdd; x14; x80; xb3; x85; x14; x80;
  x4f; x02; x14; x80; xbf; x67; x14; x80; xf9; x8f; x14; x80;
  xbf; xdd; x14; x80; xb6; x85; x14; x80; x4f; x02; x14; x80;
  xbf; x67; x14; x80; xfa; x8f; x14; x80; xd1; xdd; x14; x80;
  xbf; x00; x14; x80; xaa; x85; x14; x80; x4f; x02; x14; x80;
  x02; x48; x14; x80; x6a; x4d; x14; x80; x85; xbf; x14; x80;
  x02; xad; x14; x80; x67; x4f; x14; x80; x8f; xbf; x14; x80;
  xdd; xfb; x14; x80; x85; xbf; x14; x80; x02; xb0; x14; x80;
  x67; x4f; x14; x80; x8f; xbf; x14; x80; xdd; xfc; x14; x80;
  x85; xbf; x14; x80; x02; xb3; x14; x80; x67; x4f; x14; x80;
  x8f; xbf; x14; x80; xdd; xfd; x14; x80; x85; xbf; x14; x80;
  x02; xb6; x14; x80; x67; x4f; x14; x80; x8f; xbf; x14; x80;
  xdd; xfe; x14; x80; x85; xbf; x14; x80; x02; xa7; x14; x80;
  xb7; x54; x14; x80; x85; xbf; x14; x80; x02; xa1; x14; x80;
  xb7; x54; x14; x80; x3c; xaf; x14; x80; x66; x20; x14; x80;
  x00; xb8; x14; x80; xbd; xb8; x14; x80; xee; x30; x14; x80;
  x2c; xbd; x14; x80; xbd; xb8; x14; x80; x40; x70; x14; x80;
  x86; xbd; x14; x80; xbd; xc8; x14; x80; x40; x86; x14; x80;
  x88; xbd; x14; x80; xbd; xc8; x14; x80; x02; x88; x14; x80;
  x29; x19; x14; x80; x02; xa2; x14; x80; xae; x02; x14; x80;
  xa2; x03; x14; x80; x2e; x03; x14; x80; x0f; xd1; x14; x80;
  x85; xbf; x14; x80; x02; xaa; x14; x80; x48; x4f; x14; x80;
  x8f; xe1; x14; x80; xbf; xf7; x14; x80; xad; x85; x14; x80;
  x4f; x02; x14; x80; xe1; x48; x14; x80; xf8; x8f; x14; x80;
  x85; xbf; x14; x80; x02; xb0; x14; x80; x48; x4f; x14; x80;
  x8f; xe1; x14; x80; xbf; xf9; x14; x80; xb3; x85; x14; x80;
  x4f; x02; x14; x80; xe1; x48; x14; x80; xfa; x8f; x14; x80;
  x85; xbf; x14; x80; x02; xb6; x14; x80; x48; x4f; x14; x80;
  x2c; xae; x14; x80; x00; xd1; x14; x80; x85; xbf; x14; x80;
  x02; xaa; x14; x80; x48; x4f; x14; x80; x8f; xe1; x14; x80;
  xbf; xfb; x14; x80; xad; x85; x14; x80; x4f; x02; x14; x80;
  xe1; x48; x14; x80; xfc; x8f; x14; x80; x85; xbf; x14; x80;
  x02; xb0; x14; x80; x48; x4f; x14; x80; x8f; xe1; x14; x80;
  xbf; xfd; x14; x80; xb3; x85; x14; x80; x4f; x02; x14; x80;
  xe1; x48; x14; x80; xfe; x8f; x14; x80; x85; xbf; x14; x80;
  x02; xb6; x14; x80; x48; x4f; x14; x80; x86; xbf; x14; x80;
  x02; x7e; x14; x80; x67; x4f; x14; x80; x00; xa1; x14; x80;
  xae; x02; x14; x80; xa1; x25; x14; x80; x1d; x04; x14; x80;
  x8f; xe1; x14; x80; xbf; xf1; x14; x80; x75; x86; x14; x80;
  x4f; x02; x14; x80; xe1; x48; x14; x80; xf2; x8f; x14; x80;
  x86; xbf; x14; x80; x02; x78; x14; x80; x48; x4f; x14; x80;
  x8f; xe1; x14; x80; xbf; xf3; x14; x80; x7b; x86; x14; x80;
  x4f; x02; x14; x80; xae; x48; x14; x80; xa1; x29; x14; x80;
  x0b; x07; x14; x80; x24; xae; x14; x80; x86; xbf; x14; x80;
  x02; x81; x14; x80; x67; x4f; x14; x80; x28; xad; x14; x80;
  xe1; x1b; x14; x80; xf4; x8f; x14; x80; x86; xbf; x14; x80;
  x02; x75; x14; x80; x48; x4f; x14; x80; x8f; xe1; x14; x80;
  xbf; xf5; x14; x80; x78; x86; x14; x80; x4f; x02; x14; x80;
  xe1; x48; x14; x80; xf6; x8f; x14; x80; x86; xbf; x14; x80;
  x02; x7b; x14; x80; x48; x4f; x14; x80; x09; xaf; x14; x80;
  x20; x84; x14; x80; x32; xbc; x14; x80; xbc; x20; x14; x80;
  x76; x3e; x14; x80; x08; xbc; x14; x80; xa6; xfd; x14; x80;
  x00; x1a; x14; x80; x4e; xb6; x14; x80; x01; xd1; x14; x80;
  x85; xbf; x14; x80; x02; xa4; x14; x80; x48; x4f; x14; x80;
  x85; xbf; x14; x80; x02; xa7; x14; x80; xc0; x54; x14; x80;
  x0f; xd1; x14; x80; x85; xbf; x14; x80; x02; xaa; x14; x80;
  x48; x4f; x14; x80; x4d; x02; x14; x80; xbf; x6a; x14; x80;
  xad; x85; x14; x80; x4f; x02; x14; x80; xbf; x67; x14; x80;
  xf7; x8f; x14; x80; xbf; xdd; x14; x80; xb0; x85; x14; x80;
  x4f; x02; x14; x80; xbf; x67; x14; x80; xf8; x8f; x14; x80;
  xbf; xdd; x14; x80; xb3; x85; x14; x80; x4f; x02; x14; x80;
  xbf; x67; x14; x80; xf9; x8f; x14; x80; xbf; xdd; x14; x80;
  xb6; x85; x14; x80; x4f; x02; x14; x80; xbf; x67; x14; x80;
  xfa; x8f; x14; x80; xd1; xdd; x14; x80; xbf; x00; x14; x80;
  xaa; x85; x14; x80; x4f; x02; x14; x80; x02; x48; x14; x80;
  x6a; x4d; x14; x80; x85; xbf; x14; x80; x02; xad; x14; x80;
  x67; x4f; x14; x80; x8f; xbf; x14; x80; xdd; xfb; x14; x80;
  x85; xbf; x14; x80; x02; xb0; x14; x80; x67; x4f; x14; x80;
  x8f; xbf; x14; x80; xdd; xfc; x14; x80; x85; xbf; x14; x80;
  x02; xb3; x14; x80; x67; x4f; x14; x80; x8f; xbf; x14; x80;
  xdd; xfd; x14; x80; x85; xbf; x14; x80; x02; xb6; x14; x80;
  x67; x4f; x14; x80; x8f; xbf; x14; x80; xdd; xfe; x14; x80;
  x85; xbf; x14; x80; x02; xa7; x14; x80; xb7; x54; x14; x80;
  x00; xaf; x14; x80; x00; x88; x14; x80; x18; xb8; x13; x80;
  xb8; x38; x14; x80; x1a; xb8; x13; x80; x44; x04; x14; x80;
  x1c; xb8; x13; x80; xee; x40; x14; x80; x1e; xb8; x13; x80;
  x1a; x3c; x14; x80; x50; xb8; x13; x80; x81; x09; x14; x80;
  x52; xb8; x13; x80; x85; x00; x14; x80; x78; xb8; x13; x80;
  xff; xff; x14; x80; x84; xb8; x13; x80; xff; xff; x14; x80;
  x32; xb8; x13; x80; x3f; x00; x14; x80; x00; x00; x13; x80;
  x00; x00; x14; x80; x2e; xb8; x13; x80; x00; x00; x14; x80;
  x24; x80; x13; x80; x00; x00; x14; x80; x82; x0b; x1f; x80;
  x00; x00; x10; x80; x43; x0a; x1f; x80; x1e; x80; x13; x80;
  x21; x00; x14; x80; x82; x0b; x1f; x80; x00; x00; x10; x00;
  xef; xff; x00; x20; x00; x00; x10; xc0; x40; x0a; x1f; x80;
  x00; x00; x00; x00; x00; x00; x00; x00; x00; x00; x00; x00].

Definition rtl8125b_1_fw : list byte :=
  rtl8125b_1_fw_0 ++ rtl8125b_1_fw_1 ++ rtl8125b_1_fw_2 ++ rtl8125b_1_fw_3 ++ rtl8125b_1_fw_4 ++ rtl8125b_1_fw_5.

(** *** Firmware/rtl8125b-2.h: 3328 bytes *)

Definition rtl8125b_2_fw_0 : list byte := [
  x00; x00; x00; x00; x72; x74; x6c; x38; x31; x32; x35; x62;
  x2d; x32; x5f; x30; x2e; x30; x2e; x32; x20; x30; x37; x2f;
  x31; x33; x2f; x32; x30; x00; x00; x00; x00; x00; x00; x00;
  x70; x00; x00; x00; x20; x03; x00; x00; x2c; x00; x72; x74;
  x6c; x38; x31; x32; x35; x62; x20; x72; x65; x76; x2e; x62;
  x20; x6d; x61; x63; x20; x61; x6e; x64; x20; x70; x68; x79;
  x20; x6d; x63; x75; x20; x66; x69; x72; x6d; x77; x61; x72;
  x65; x20; x70; x61; x74; x63; x68; x20; x63; x6f; x64; x65;
  x20; x31; x38; x3a; x30; x32; x3a; x31; x31; x00; x8d; x9b;
  x00; x00; x00; x00; x01; x00; x00; x40; xc2; x0f; x1f; x80;
  x00; x00; x28; x80; x00; x00; x08; x80; x00; x00; x0a; x80;
  x00; x00; x0c; x80; x00; x00; x0e; x80; x00; x00; x10; x80;
  x00; x00; x12; x80; x00; x00; x14; x80; x00; x00; x16; x80;
  x00; x00; x18; x80; x00; x00; x1a; x80; x00; x00; x1c; x80;
  x00; x00; x1e; x80; x00; x00; x20; x80; x00; x00; x22; x80;
  x00; x00; x24; x80; x00; x00; x26; x80; x03; x00; x00; xe0;
  x00; x00; x06; x80; x80; x0f; x1f; x80; x08; xe0; x00; x80;
  x13; xe0; x02; x80; x1e; xe0; x04; x80; x2f; xe0; x06; x80;
  x35; xe0; x08; x80; x4f; xe0; x0a; x80; x53; xe0; x0c; x80;
  x55; xe0; x0e; x80; x0a; x74; x10; x80; x46; x48; x12; x80;
  x47; x48; x14; x80; x0a; x9c; x16; x80; x07; xc6; x18; x80;
  xc0; x74; x1a; x80; xc6; x48; x1c; x80; xc0; x9c; x1e; x80;
  x02; xc6; x20; x80; x00; xbe; x22; x80; xf0; x13; x24; x80;
  x54; xe0; x26; x80; xca; x72; x28; x80; x26; x48; x2a; x80;
  x27; x48; x2c; x80; xca; x9a; x2e; x80; x07; xc6; x30; x80;
  xc0; x72; x32; x80; xa6; x48; x34; x80; xc0; x9a; x36; x80;
  x02; xc6; x38; x80; x00; xbe; x3a; x80; x1c; x08; x3c; x80;
  x54; xe0; x3e; x80; x0f; xc6; x40; x80; xc4; x74; x42; x80;
  xcc; x49; x44; x80; x09; xf1; x46; x80; x0c; xc6; x48; x80;
  xca; x74; x4a; x80; xc7; x48; x4c; x80; xca; x9c; x4e; x80;
  x09; xc6; x50; x80; xc0; x74; x52; x80; x46; x48; x54; x80;
  xc0; x9c; x56; x80; x02; xc6; x58; x80; x00; xbe; x5a; x80;
  x94; x24; x5c; x80; x92; xe0; x5e; x80; xc0; xe0; x60; x80;
  x54; xe0; x62; x80; x20; x74; x64; x80; xc0; x48; x66; x80;
  x20; x9c; x68; x80; x44; x74; x6a; x80; x02; xc6; x6c; x80;
  x00; xbe; x6e; x80; xdc; x12; x70; x80; x3a; x73; x72; x80;
  xb5; x21; x74; x80; xbc; x25; x76; x80; x04; x13; x78; x80;
  x11; xf1; x7a; x80; x12; x1b; x7c; x80; x2a; x1d; x7e; x80;
  x68; x31; x80; x80; xda; x3a; x82; x80; xab; x31; x84; x80;
  x00; x1a; x86; x80; xc0; x9a; x88; x80; x00; x13; x8a; x80;
  xfb; xf1; x8c; x80; x20; x76; x8e; x80; x6e; x23; x90; x80;
  x6f; x27; x92; x80; x3c; x1a; x94; x80; xa1; x22; x96; x80;
  xb5; x41; x98; x80; xe2; x9e; x9a; x80; xe4; x76; x9c; x80;
  x6f; x48; x9e; x80; xe4; x9e; xa0; x80; x02; xc6; xa2; x80;
  x00; xbe; xa4; x80; x26; x4a; xa6; x80; x3a; x73; xa8; x80;
  xbb; x49; xaa; x80; x02; xc6; xac; x80; x00; xbe; xae; x80;
  xa2; x47; xb0; x80; x02; xc6; xb2; x80; x00; xbe; xb4; x80;
  x00; x00; xb6; x80; x02; xc6; xb8; x80; x00; xbe; xba; x80;
  x00; x00; xbc; x80; xc2; x0f; x1f; x80; x00; x80; x06; x80;
  xe6; x13; x08; x80; x12; x08; x0a; x80; x8c; x24; x0c; x80;
  xda; x12; x0e; x80; x20; x4a; x10; x80; xa0; x47; x12; x80;
  x3f; x00; x28; x80; x00; x00; x00; x40; x82; x0b; x1f; x80;
  x00; x00; x10; x00; x10; x00; x00; x10; x00; x00; x10; xc0;
  x80; x0b; x1f; x80; x00; x00; x00; x70; x01; x00; x00; xe0;
  x00; x00; x10; x00; x40; x00; x00; x20; x40; x00; x02; xa0;
  x64; x00; x00; x90; x00; x00; x05; x30; x43; x0a; x1f; x80;
  x24; x80; x13; x80; x01; x37; x14; x80; x2e; xb8; x13; x80;
  x01; x00; x14; x80; x82; x0b; x1f; x80; x90; x00; x10; x80;
  x43; x0a; x1f; x80; x16; xa0; x13; x80; x00; x00; x14; x80;
  x12; xa0; x13; x80; x00; x00; x14; x80; x14; xa0; x13; x80;
  x00; x18; x14; x80; x10; x80; x14; x80; x00; x18; x14; x80;
  x1a; x80; x14; x80; x00; x18; x14; x80; x24; x80; x14; x80;
  x00; x18; x14; x80; x2f; x80; x14; x80; x00; x18; x14; x80;
  x51; x80; x14; x80; x00; x18; x14; x80; x57; x80; x14; x80;
  x00; x18; x14; x80; x63; x80; x14; x80; x00; x18; x14; x80;
  x68; x80; x14; x80; x93; xd0; x14; x80; xc4; xd1; x14; x80;
  x00; x10; x14; x80; x5c; x13; x14; x80; x04; xd7; x14; x80;
  xbc; x5f; x14; x80; x04; xd5; x14; x80; xf1; xc9; x14; x80;
  x00; x18; x14; x80; xc9; x0f; x14; x80; x50; xbb; x14; x80;
  x05; xd5; x14; x80; x02; xa2; x14; x80; x04; xd5; x14; x80;
  x0f; x8c; x14; x80; x00; xd5; x14; x80; x00; x10; x14; x80;
  x19; x15; x14; x80; x00; x18; x14; x80; x48; x15; x14; x80;
  x70; x2f; x14; x80; x2a; x80; x14; x80; x73; x2f; x14; x80;
  x6a; x15; x14; x80; x00; x18; x14; x80; x5c; x15; x14; x80;
  x05; xd5; x14; x80; x02; xa2; x14; x80; x00; xd5; x14; x80;
  x00; x18; x14; x80; x51; x15; x14; x80; xc1; xc0; x14; x80;
  xc0; xc0; x14; x80; x5a; xd0; x14; x80; xba; xd1; x14; x80;
  x01; xd7; x14; x80; x29; x25; x14; x80; x2a; x02; x14; x80;
  xa7; xd0; x14; x80; xb9; xd1; x14; x80; x08; xa2; x14; x80;
  x00; x10; x14; x80; x0e; x08; x14; x80; x01; xd7; x14; x80;
  x8b; x40; x14; x80; x00; x10; x14; x80; x65; x0a; x14; x80;
  x03; xf0; x14; x80; x00; x10; x14; x80; x6b; x0a; x14; x80;
  x01; xd7; x14; x80; x00; x10; x14; x80; x20; x09; x14; x80;
  x00; x10; x14; x80; x15; x09; x14; x80; x00; x10; x14; x80;
  x09; x09; x14; x80; x8f; x22; x14; x80; x38; x80; x14; x80;
  x01; x98; x14; x80; x1e; xd7; x14; x80; x61; x5d; x14; x80;
  x01; xd7; x14; x80; x00; x18; x14; x80; x2a; x02; x14; x80;
  x05; x20; x14; x80; x1a; x09; x14; x80; xd9; x3b; x14; x80;
  x19; x09; x14; x80; x00; x18; x14; x80; x16; x09; x14; x80;
  x00; x10; x14; x80; xc5; x14; x14; x80; x03; xd7; x14; x80;
  x81; x31; x14; x80; x61; x80; x14; x80; xad; x60; x14; x80;
  x00; x10; x14; x80; x5c; x13; x14; x80; x03; xd7; x14; x80;
  xba; x5f; x14; x80; x00; x18; x14; x80; xc7; x0c; x14; x80;
  x96; xd0; x14; x80; xa9; xd1; x14; x80; x03; xd5; x14; x80;
  x00; x18; x14; x80; x94; x0c; x14; x80; x26; xa0; x13; x80;
  xff; xff; x14; x80; x24; xa0; x13; x80; x93; x0c; x14; x80;
  x22; xa0; x13; x80; xc5; x0c; x14; x80; x20; xa0; x13; x80;
  x15; x09; x14; x80; x06; xa0; x13; x80; x0a; x02; x14; x80;
  x04; xa0; x13; x80; x5b; x15; x14; x80; x02; xa0; x13; x80;
  x42; x15; x14; x80; x00; xa0; x13; x80; xc7; x0f; x14; x80;
  x08; xa0; x13; x80; x00; x7f; x14; x80; x16; xa0; x13; x80;
  x10; x00; x14; x80; x12; xa0; x13; x80; x00; x00; x14; x80;
  x14; xa0; x13; x80; x00; x18; x14; x80; x10; x80; x14; x80;
  x00; x18; x14; x80; x1d; x80; x14; x80; x00; x18; x14; x80;
  x2c; x80; x14; x80; x00; x18; x14; x80; x2c; x80; x14; x80;
  x00; x18; x14; x80; x2c; x80; x14; x80; x00; x18; x14; x80;
  x2c; x80; x14; x80; x00; x18; x14; x80; x2c; x80; x14; x80;
  x00; x18; x14; x80; x2c; x80; x14; x80; x00; xd7; x14; x80;
  x90; x60; x14; x80; xd1; x60; x14; x80; x5c; xc9; x14; x80;
  x07; xf0; x14; x80; xb1; x60; x14; x80; x5a; xc9; x14; x80;
  x04; xf0; x14; x80; x56; xc9; x14; x80; x02; xf0; x14; x80;
  x4e; xc9; x14; x80; x00; x18; x14; x80; xcd; x00; x14; x80;
  x00; xd7; x14; x80; x90; x60; x14; x80; xd1; x60; x14; x80;
  x5c; xc9; x14; x80; x07; xf0; x14; x80; xb1; x60; x14; x80;
  x5a; xc9; x14; x80; x04; xf0; x14; x80; x56; xc9; x14; x80;
  x02; xf0; x14; x80; x4e; xc9; x14; x80; x00; x10; x14; x80;
  x2a; x02; x14; x80; x00; x18; x14; x80; x32; x01; x14; x80;
  x8e; xa0; x13; x80; xff; xff; x14; x80; x8c; xa0; x13; x80;
  xff; xff; x14; x80; x8a; xa0; x13; x80; xff; xff; x14; x80;
  x88; xa0; x13; x80; xff; xff; x14; x80; x86; xa0; x13; x80;
  xff; xff; x14; x80; x84; xa0; x13; x80; xff; xff; x14; x80;
  x82; xa0; x13; x80; x2f; x01; x14; x80; x80; xa0; x13; x80;
  xcc; x00; x14; x80; x90; xa0; x13; x80; x03; x01; x14; x80;
  x16; xa0; x13; x80; x20; x00; x14; x80; x12; xa0; x13; x80;
  x00; x00; x14; x80; x14; xa0; x13; x80; x00; x18; x14; x80;
  x10; x80; x14; x80; x00; x18; x14; x80; x20; x80; x14; x80;
  x00; x18; x14; x80; x2a; x80; x14; x80; x00; x18; x14; x80;
  x35; x80; x14; x80; x00; x18; x14; x80; x3c; x80; x14; x80;
  x00; x18; x14; x80; x3c; x80; x14; x80; x00; x18; x14; x80;
  x3c; x80; x14; x80; x00; x18; x14; x80; x3c; x80; x14; x80;
  x07; xd1; x14; x80; x42; xd0; x14; x80; x04; xa4; x14; x80;
  x00; x10; x14; x80; xdf; x09; x14; x80; x00; xd7; x14; x80;
  xb4; x5f; x14; x80; x80; x82; x14; x80; x00; xd7; x14; x80;
  x65; x60; x14; x80; x25; xd1; x14; x80; x02; xf0; x14; x80;
  x2b; xd1; x14; x80; x40; xd0; x14; x80; x00; x18; x14; x80;
  x7f; x07; x14; x80; xf0; x0c; x14; x80; x50; x0c; x14; x80;
  x04; xd1; x14; x80; x40; xd0; x14; x80; x00; x10; x14; x80;
  xa8; x0a; x14; x80; x00; xd7; x14; x80; xb4; x5f; x14; x80;
  x00; x18; x14; x80; x2e; x0a; x14; x80; x9b; xcb; x14; x80;
  x10; xd1; x14; x80; x40; xd0; x14; x80; x00; x10; x14; x80;
  x7b; x0b; x14; x80; x00; x10; x14; x80; xdf; x09; x14; x80;
  x00; xd7; x14; x80; xb4; x5f; x14; x80; x00; x18; x14; x80;
  x1b; x08; x14; x80; x00; x10; x14; x80; xdf; x09; x14; x80;
  x04; xd7; x14; x80; xb8; x7f; x14; x80; x18; xa7; x14; x80;
  x00; x18; x14; x80; x4e; x07; x14; x80; x0e; xa1; x13; x80;
  xff; xff; x14; x80; x0c; xa1; x13; x80; xff; xff; x14; x80;
  x0a; xa1; x13; x80; xff; xff; x14; x80; x08; xa1; x13; x80;
  xff; xff; x14; x80; x06; xa1; x13; x80; x4d; x07; x14; x80].

Definition rtl8125b_2_fw_1 : list byte := [
  x04; xa1; x13; x80; x18; x08; x14; x80; x02; xa1; x13; x80;
  x2c; x0a; x14; x80; x00; xa1; x13; x80; x7e; x07; x14; x80;
  x10; xa1; x13; x80; x0f; x00; x14; x80; x7c; xb8; x13; x80;
  x25; x86; x14; x80; x7e; xb8; x13; x80; x86; xaf; x14; x80;
  xaf; x3d; x14; x80; x89; x86; x14; x80; x88; xaf; x14; x80;
  xaf; x69; x14; x80; x87; x88; x14; x80; x88; xaf; x14; x80;
  xaf; x9c; x14; x80; x9c; x88; x14; x80; x88; xaf; x14; x80;
  xaf; x9c; x14; x80; x9c; x88; x14; x80; x86; xbf; x14; x80;
  xd7; x49; x14; x80; x40; x00; x14; x80; x77; x02; x14; x80;
  xaf; x7d; x14; x80; x27; x27; x14; x80; x00; x00; x14; x80;
  x05; x72; x14; x80; x00; x00; x14; x80; x08; x72; x14; x80;
  x00; x00; x14; x80; xf3; x71; x14; x80; x00; x00; x14; x80;
  xf6; x71; x14; x80; x00; x00; x14; x80; x29; x72; x14; x80;
  x00; x00; x14; x80; x2c; x72; x14; x80; x00; x00; x14; x80;
  x17; x72; x14; x80; x00; x00; x14; x80; x1a; x72; x14; x80;
  x00; x00; x14; x80; x1d; x72; x14; x80; x00; x00; x14; x80;
  x11; x72; x14; x80; x00; x00; x14; x80; x20; x72; x14; x80;
  x00; x00; x14; x80; x14; x72; x14; x80; x00; x00; x14; x80;
  x2f; x72; x14; x80; x00; x00; x14; x80; x23; x72; x14; x80;
  x00; x00; x14; x80; x32; x72; x14; x80; x00; x00; x14; x80;
  x26; x72; x14; x80; xf9; xf8; x14; x80; xe0; xfa; x14; x80;
  xb3; x85; x14; x80; x02; x38; x14; x80; x27; xad; x14; x80;
  xae; x02; x14; x80; xaf; x03; x14; x80; x30; x88; x14; x80;
  x66; x1f; x14; x80; x65; xef; x14; x80; xc2; xbf; x14; x80;
  x1a; x1f; x14; x80; xf7; x96; x14; x80; xee; x05; x14; x80;
  xd2; xff; x14; x80; xda; x00; x14; x80; x05; xf6; x14; x80;
  xc2; xbf; x14; x80; x1a; x2f; x14; x80; xf7; x96; x14; x80;
  xee; x05; x14; x80; xd2; xff; x14; x80; xdb; x00; x14; x80;
  x05; xf6; x14; x80; x02; xef; x14; x80; x11; x1f; x14; x80;
  x42; x0d; x14; x80; x88; xbf; x14; x80; x02; x42; x14; x80;
  x7d; x6e; x14; x80; x02; xef; x14; x80; x03; x1b; x14; x80;
  x11; x1f; x14; x80; x42; x0d; x14; x80; x88; xbf; x14; x80;
  x02; x45; x14; x80; x7d; x6e; x14; x80; x02; xef; x14; x80;
  x03; x1a; x14; x80; x11; x1f; x14; x80; x42; x0d; x14; x80;
  x88; xbf; x14; x80; x02; x48; x14; x80; x7d; x6e; x14; x80;
  xc2; xbf; x14; x80; x1a; x3f; x14; x80; xf7; x96; x14; x80;
  xee; x05; x14; x80; xd2; xff; x14; x80; xda; x00; x14; x80;
  x05; xf6; x14; x80; xc2; xbf; x14; x80; x1a; x4f; x14; x80;
  xf7; x96; x14; x80; xee; x05; x14; x80; xd2; xff; x14; x80;
  xdb; x00; x14; x80; x05; xf6; x14; x80; x02; xef; x14; x80;
  x11; x1f; x14; x80; x42; x0d; x14; x80; x88; xbf; x14; x80;
  x02; x4b; x14; x80; x7d; x6e; x14; x80; x02; xef; x14; x80;
  x03; x1b; x14; x80; x11; x1f; x14; x80; x42; x0d; x14; x80;
  x88; xbf; x14; x80; x02; x4e; x14; x80; x7d; x6e; x14; x80;
  x02; xef; x14; x80; x03; x1a; x14; x80; x11; x1f; x14; x80;
  x42; x0d; x14; x80; x88; xbf; x14; x80; x02; x51; x14; x80;
  x7d; x6e; x14; x80; x56; xef; x14; x80; x20; xd0; x14; x80;
  x11; x1f; x14; x80; x88; xbf; x14; x80; x02; x54; x14; x80;
  x7d; x6e; x14; x80; x88; xbf; x14; x80; x02; x57; x14; x80;
  x7d; x6e; x14; x80; x88; xbf; x14; x80; x02; x5a; x14; x80;
  x7d; x6e; x14; x80; x85; xe1; x14; x80; xef; xa0; x14; x80;
  x48; x03; x14; x80; x28; x0a; x14; x80; xef; x05; x14; x80;
  x1b; x20; x14; x80; xad; x01; x14; x80; x35; x27; x14; x80;
  x44; x1f; x14; x80; x85; xe0; x14; x80; xe1; x88; x14; x80;
  x89; x85; x14; x80; x88; xbf; x14; x80; x02; x5d; x14; x80;
  x7d; x6e; x14; x80; x85; xe0; x14; x80; xe1; x8e; x14; x80;
  x8f; x85; x14; x80; x88; xbf; x14; x80; x02; x60; x14; x80;
  x7d; x6e; x14; x80; x85; xe0; x14; x80; xe1; x94; x14; x80;
  x95; x85; x14; x80; x88; xbf; x14; x80; x02; x63; x14; x80;
  x7d; x6e; x14; x80; x85; xe0; x14; x80; xe1; x9a; x14; x80;
  x9b; x85; x14; x80; x88; xbf; x14; x80; x02; x66; x14; x80;
  x7d; x6e; x14; x80; x88; xaf; x14; x80; xbf; x3c; x14; x80;
  x3f; x88; x14; x80; x6e; x02; x14; x80; xad; x9c; x14; x80;
  x35; x28; x14; x80; x44; x1f; x14; x80; x8f; xe0; x14; x80;
  xe1; xf8; x14; x80; xf9; x8f; x14; x80; x88; xbf; x14; x80;
  x02; x5d; x14; x80; x7d; x6e; x14; x80; x8f; xe0; x14; x80;
  xe1; xfa; x14; x80; xfb; x8f; x14; x80; x88; xbf; x14; x80;
  x02; x60; x14; x80; x7d; x6e; x14; x80; x8f; xe0; x14; x80;
  xe1; xfc; x14; x80; xfd; x8f; x14; x80; x88; xbf; x14; x80;
  x02; x63; x14; x80; x7d; x6e; x14; x80; x8f; xe0; x14; x80;
  xe1; xfe; x14; x80; xff; x8f; x14; x80; x88; xbf; x14; x80;
  x02; x66; x14; x80; x7d; x6e; x14; x80; x88; xaf; x14; x80;
  xe1; x3c; x14; x80; xa1; x85; x14; x80; x21; x1b; x14; x80;
  x37; xad; x14; x80; x1f; x34; x14; x80; xe0; x44; x14; x80;
  x8a; x85; x14; x80; x85; xe1; x14; x80; xbf; x8b; x14; x80;
  x5d; x88; x14; x80; x6e; x02; x14; x80; xe0; x7d; x14; x80;
  x90; x85; x14; x80; x85; xe1; x14; x80; xbf; x91; x14; x80;
  x60; x88; x14; x80; x6e; x02; x14; x80; xe0; x7d; x14; x80;
  x96; x85; x14; x80; x85; xe1; x14; x80; xbf; x97; x14; x80;
  x63; x88; x14; x80; x6e; x02; x14; x80; xe0; x7d; x14; x80;
  x9c; x85; x14; x80; x85; xe1; x14; x80; xbf; x9d; x14; x80;
  x66; x88; x14; x80; x6e; x02; x14; x80; xae; x7d; x14; x80;
  x1f; x40; x14; x80; xe0; x44; x14; x80; x8c; x85; x14; x80;
  x85; xe1; x14; x80; xbf; x8d; x14; x80; x5d; x88; x14; x80;
  x6e; x02; x14; x80; xe0; x7d; x14; x80; x92; x85; x14; x80;
  x85; xe1; x14; x80; xbf; x93; x14; x80; x60; x88; x14; x80;
  x6e; x02; x14; x80; xe0; x7d; x14; x80; x98; x85; x14; x80;
  x85; xe1; x14; x80; xbf; x99; x14; x80; x63; x88; x14; x80;
  x6e; x02; x14; x80; xe0; x7d; x14; x80; x9e; x85; x14; x80;
  x85; xe1; x14; x80; xbf; x9f; x14; x80; x66; x88; x14; x80;
  x6e; x02; x14; x80; xae; x7d; x14; x80; xe1; x0c; x14; x80;
  xb3; x85; x14; x80; x04; x39; x14; x80; x2f; xac; x14; x80;
  xee; x04; x14; x80; xb3; x85; x14; x80; xaf; x00; x14; x80;
  xd9; x39; x14; x80; xac; x22; x14; x80; xf0; xea; x14; x80;
  xf6; xac; x14; x80; xac; xf0; x14; x80; xf0; xfa; x14; x80;
  xf8; xac; x14; x80; xac; xf0; x14; x80; xf0; xfc; x14; x80;
  x00; xad; x14; x80; xac; xf0; x14; x80; xf0; xfe; x14; x80;
  xf0; xac; x14; x80; xac; xf0; x14; x80; xf0; xf4; x14; x80;
  xf2; xac; x14; x80; xac; xf0; x14; x80; xf0; xb0; x14; x80;
  xae; xac; x14; x80; xac; xf0; x14; x80; xf0; xac; x14; x80;
  xaa; xac; x14; x80; x00; xa1; x14; x80; xe1; x0c; x14; x80;
  xf7; x8f; x14; x80; x88; xbf; x14; x80; x02; x84; x14; x80;
  x7d; x6e; x14; x80; x26; xaf; x14; x80; xe1; xe9; x14; x80;
  xf6; x8f; x14; x80; x88; xbf; x14; x80; x02; x84; x14; x80;
  x7d; x6e; x14; x80; x26; xaf; x14; x80; x20; xf5; x14; x80;
  x86; xac; x14; x80; x88; xbf; x14; x80; x02; x3f; x14; x80;
  x9c; x6e; x14; x80; x28; xad; x14; x80; xaf; x03; x14; x80;
  x24; x33; x14; x80; x38; xad; x14; x80; xaf; x03; x14; x80;
  xe6; x32; x14; x80; x32; xaf; x14; x80; x00; xfb; x14; x80;
  x7c; xb8; x13; x80; xf6; x8f; x14; x80; x7e; xb8; x13; x80;
  x05; x07; x14; x80; x7c; xb8; x13; x80; xf8; x8f; x14; x80;
  x7e; xb8; x13; x80; xcc; x19; x14; x80; x7c; xb8; x13; x80;
  xfa; x8f; x14; x80; x7e; xb8; x13; x80; xe3; x28; x14; x80;
  x7c; xb8; x13; x80; xfc; x8f; x14; x80; x7e; xb8; x13; x80;
  x47; x10; x14; x80; x7c; xb8; x13; x80; xfe; x8f; x14; x80;
  x7e; xb8; x13; x80; x45; x0a; x14; x80; x5e; xb8; x13; x80;
  x1e; x27; x14; x80; x60; xb8; x13; x80; x46; x38; x14; x80;
  x62; xb8; x13; x80; xe6; x26; x14; x80; x64; xb8; x13; x80;
  xe3; x32; x14; x80; x86; xb8; x13; x80; xff; xff; x14; x80;
  x88; xb8; x13; x80; xff; xff; x14; x80; x8a; xb8; x13; x80;
  xff; xff; x14; x80; x8c; xb8; x13; x80; xff; xff; x14; x80;
  x38; xb8; x13; x80; x0f; x00; x14; x80; x82; x0b; x1f; x80;
  x10; x00; x10; x80; x43; x0a; x1f; x80; x00; x00; x13; x80;
  x00; x00; x14; x80; x2e; xb8; x13; x80; x00; x00; x14; x80;
  x24; x80; x13; x80; x00; x00; x14; x80; x82; x0b; x1f; x80;
  x00; x00; x10; x80; x43; x0a; x1f; x80; x1e; x80; x13; x80;
  x16; x00; x14; x80; x82; x0b; x1f; x80; x00; x00; x10; x00;
  xef; xff; x00; x20; x00; x00; x10; xc0; x40; x0a; x1f; x80;
  x00; x00; x00; x00; x00; x00; x00; x00; x00; x00; x00; x00;
  x00; x00; x00; x00].

Definition rtl8125b_2_fw : list byte :=
  rtl8125b_2_fw_0 ++ rtl8125b_2_fw_1.

(** *** Firmware/rtl8125bp-2.h: 752 bytes *)

Definition rtl8125bp_2_fw_0 : list byte := [
  x00; x00; x00; x00; x72; x74; x6c; x38; x31; x32; x35; x62;
  x70; x2d; x32; x5f; x30; x2e; x30; x2e; x34; x20; x31; x32;
  x2f; x31; x38; x2f; x32; x34; x00; x00; x00; x00; x00; x00;
  x70; x00; x00; x00; x9d; x00; x00; x00; x0f; x00; x72; x74;
  x6c; x38; x31; x32; x35; x62; x70; x20; x72; x65; x76; x2e;
  x62; x20; x6d; x61; x63; x20; x61; x6e; x64; x20; x70; x68;
  x79; x20; x6d; x63; x75; x20; x66; x69; x72; x6d; x77; x61;
  x72; x65; x20; x70; x61; x74; x63; x68; x20; x63; x6f; x64;
  x65; x20; x32; x32; x3a; x33; x38; x3a; x33; x30; x00; x05;
  x00; x00; x00; x00; x01; x00; x00; x40; xc2; x0f; x1f; x80;
  x00; x00; x28; x80; x00; x00; x08; x80; x00; x00; x0a; x80;
  x00; x00; x0c; x80; x00; x00; x0e; x80; x00; x00; x10; x80;
  x00; x00; x12; x80; x00; x00; x14; x80; x00; x00; x16; x80;
  x00; x00; x18; x80; x00; x00; x1a; x80; x00; x00; x1c; x80;
  x00; x00; x1e; x80; x00; x00; x20; x80; x00; x00; x22; x80;
  x00; x00; x24; x80; x00; x00; x26; x80; x03; x00; x00; xe0;
  x00; x00; x06; x80; x80; x0f; x1f; x80; x10; xe0; x00; x80;
  x33; xe0; x02; x80; x46; xe0; x04; x80; x4a; xe0; x06; x80;
  x4d; xe0; x08; x80; x50; xe0; x0a; x80; x52; xe0; x0c; x80;
  x54; xe0; x0e; x80; x56; xe0; x10; x80; x58; xe0; x12; x80;
  x5a; xe0; x14; x80; x5c; xe0; x16; x80; x5e; xe0; x18; x80;
  x60; xe0; x1a; x80; x62; xe0; x1c; x80; x64; xe0; x1e; x80;
  x06; xb4; x20; x80; x00; x10; x22; x80; x16; xf0; x24; x80;
  x1f; xc6; x26; x80; x0e; x40; x28; x80; x12; xf0; x2a; x80;
  x8e; x21; x2c; x80; xbe; x25; x2e; x80; x00; x13; x30; x80;
  x07; xf0; x32; x80; x40; x73; x34; x80; x18; xc6; x36; x80;
  x0e; x40; x38; x80; x02; xf1; x3a; x80; xb0; x48; x3c; x80;
  x20; x83; x3e; x80; x00; xb4; x40; x80; x02; x24; x42; x80;
  x00; x10; x44; x80; x03; xf0; x46; x80; x42; x73; x48; x80;
  x22; x83; x4a; x80; x00; xb0; x4c; x80; x07; xe0; x4e; x80;
  x22; x73; x50; x80; x42; x9b; x52; x80; x20; x73; x54; x80;
  x40; x9b; x56; x80; x00; x03; x58; x80; x00; x03; x5a; x80;
  x06; xb0; x5c; x80; x02; xc3; x5e; x80; x00; xbb; x60; x80;
  x68; x41; x62; x80; xe0; xe6; x64; x80; x1c; xc0; x66; x80;
  x11; xc2; x68; x80; x0a; x40; x6a; x80; x0a; xf0; x6c; x80;
  x0f; xc2; x6e; x80; x0a; x40; x70; x80; x07; xf0; x72; x80;
  xa4; x73; x74; x80; x0c; xc2; x76; x80; x0a; x40; x78; x80;
  x02; xf1; x7a; x80; xb0; x48; x7c; x80; x20; x9b; x7e; x80;
  x00; x1b; x80; x80; xa0; x9b; x82; x80; x02; xc6; x84; x80;
  x00; xbe; x86; x80; x92; x43; x88; x80; xe0; xe6; x8a; x80;
  xe2; xe6; x8c; x80; x1c; xc0; x8e; x80; x66; x41; x90; x80;
  xf6; x9c; x92; x80; x02; xc0; x94; x80; x00; xb8; x96; x80;
  x3c; x14; x98; x80; xd1; x49; x9a; x80; x02; xc6; x9c; x80;
  x00; xbe; x9e; x80; xc4; x3f; xa0; x80; xd1; x49; xa2; x80;
  x02; xc6; xa4; x80; x00; xbe; xa6; x80; x5a; x40; xa8; x80;
  x02; xc6; xaa; x80; x00; xbe; xac; x80; x00; x00; xae; x80;
  x02; xc6; xb0; x80; x00; xbe; xb2; x80; x00; x00; xb4; x80;
  x02; xc1; xb6; x80; x00; xb9; xb8; x80; x00; x00; xba; x80;
  x02; xc0; xbc; x80; x00; xb8; xbe; x80; x00; x00; xc0; x80;
  x02; xc6; xc2; x80; x00; xbe; xc4; x80; x00; x00; xc6; x80;
  x02; xc6; xc8; x80; x00; xbe; xca; x80; x00; x00; xcc; x80;
  x02; xc6; xce; x80; x00; xbe; xd0; x80; x00; x00; xd2; x80;
  x02; xc6; xd4; x80; x00; xbe; xd6; x80; x00; x00; xd8; x80;
  x02; xc6; xda; x80; x00; xbe; xdc; x80; x00; x00; xde; x80;
  x02; xc6; xe0; x80; x00; xbe; xe2; x80; x00; x00; xe4; x80;
  x02; xc6; xe6; x80; x00; xbe; xe8; x80; x00; x00; xea; x80;
  x36; x69; xec; x80; x18; x0b; xee; x80; x02; x0c; xf0; x80;
  x22; x0d; xf2; x80; xc2; x0f; x1f; x80; x00; x80; x06; x80;
  x3c; x41; x08; x80; x8a; x43; x0a; x80; x3a; x14; x0c; x80;
  xc2; x3f; x0e; x80; x58; x40; x10; x80; x1f; x00; x28; x80;
  x00; x00; x00; x40; x43; x0a; x1f; x80; x1e; x80; x13; x80;
  x01; x00; x14; x80; x40; x0a; x1f; x80; x00; x00; x00; x00;
  x00; x00; x00; x00; x00; x00; x00; x00].

Definition rtl8125bp_2_fw : list byte :=
  rtl8125bp_2_fw_0.

(** *** Firmware/rtl8125d-1.h: 17168 bytes *)

Definition rtl8125d_1_fw_0 : list byte := [
  x00; x00; x00; x00; x72; x74; x6c; x38; x31; x32; x35; x64;
  x2d; x31; x5f; x30; x2e; x30; x2e; x37; x20; x31; x30; x2f;
  x31; x35; x2f; x32; x34; x00; x00; x00; x00; x00; x00; x00;
  x70; x00; x00; x00; xa6; x10; x00; x00; xda; x00; x72; x74;
  x6c; x38; x31; x32; x35; x64; x20; x72; x65; x76; x2e; x61;
  x20; x6d; x61; x63; x20; x61; x6e; x64; x20; x70; x68; x79;
  x20; x6d; x63; x75; x20; x66; x69; x72; x6d; x77; x61; x72;
  x65; x20; x70; x61; x74; x63; x68; x20; x63; x6f; x64; x65;
  x20; x32; x33; x3a; x32; x34; x3a; x31; x30; x00; x8d; x9b;
  x00; x00; x00; x00; x01; x00; x00; x40; xc2; x0f; x1f; x80;
  x00; x00; x28; x80; x00; x00; x08; x80; x00; x00; x0a; x80;
  x00; x00; x0c; x80; x00; x00; x0e; x80; x00; x00; x10; x80;
  x00; x00; x12; x80; x00; x00; x14; x80; x00; x00; x16; x80;
  x00; x00; x18; x80; x00; x00; x1a; x80; x00; x00; x1c; x80;
  x00; x00; x1e; x80; x00; x00; x20; x80; x00; x00; x22; x80;
  x00; x00; x24; x80; x00; x00; x26; x80; x03; x00; x00; xe0;
  x00; x00; x06; x80; x80; x0f; x1f; x80; x02; xe0; x00; x80;
  x06; xe0; x02; x80; x66; x41; x04; x80; xf6; x9c; x06; x80;
  x02; xc0; x08; x80; x00; xb8; x0a; x80; xa4; x14; x0c; x80;
  x02; xc1; x0e; x80; x00; xb9; x10; x80; x00; x00; x12; x80;
  x00; x00; x14; x80; x00; x00; x16; x80; x00; x00; x18; x80;
  x00; x00; x1a; x80; x00; x00; x1c; x80; x00; x00; x1e; x80;
  x00; x00; x20; x80; x00; x00; x22; x80; x00; x00; x24; x80;
  x00; x00; x26; x80; x00; x00; x28; x80; x00; x00; x2a; x80;
  x00; x00; x2c; x80; x00; x00; x2e; x80; x00; x00; x30; x80;
  x00; x00; x32; x80; x00; x00; x34; x80; x00; x00; x36; x80;
  x00; x00; x38; x80; x00; x00; x3a; x80; x00; x00; x3c; x80;
  x00; x00; x3e; x80; x00; x00; x40; x80; x00; x00; x42; x80;
  x00; x00; x44; x80; x00; x00; x46; x80; x00; x00; x48; x80;
  x00; x00; x4a; x80; x00; x00; x4c; x80; x00; x00; x4e; x80;
  x00; x00; x50; x80; x00; x00; x52; x80; x00; x00; x54; x80;
  x00; x00; x56; x80; x00; x00; x58; x80; x00; x00; x5a; x80;
  x00; x00; x5c; x80; x00; x00; x5e; x80; x00; x00; x60; x80;
  x00; x00; x62; x80; x00; x00; x64; x80; x00; x00; x66; x80;
  x00; x00; x68; x80; x00; x00; x6a; x80; x00; x00; x6c; x80;
  x00; x00; x6e; x80; x00; x00; x70; x80; x00; x00; x72; x80;
  x00; x00; x74; x80; x00; x00; x76; x80; x00; x00; x78; x80;
  x00; x00; x7a; x80; x00; x00; x7c; x80; x00; x00; x7e; x80;
  x00; x00; x80; x80; x00; x00; x82; x80; x00; x00; x84; x80;
  x00; x00; x86; x80; x00; x00; x88; x80; x00; x00; x8a; x80;
  x00; x00; x8c; x80; x00; x00; x8e; x80; x00; x00; x90; x80;
  x00; x00; x92; x80; x00; x00; x94; x80; x00; x00; x96; x80;
  x00; x00; x98; x80; x00; x00; x9a; x80; x00; x00; x9c; x80;
  x00; x00; x9e; x80; x00; x00; xa0; x80; x00; x00; xa2; x80;
  x00; x00; xa4; x80; x00; x00; xa6; x80; x00; x00; xa8; x80;
  x00; x00; xaa; x80; x00; x00; xac; x80; x00; x00; xae; x80;
  x00; x00; xb0; x80; x00; x00; xb2; x80; x00; x00; xb4; x80;
  x00; x00; xb6; x80; x00; x00; xb8; x80; x00; x00; xba; x80;
  x00; x00; xbc; x80; x00; x00; xbe; x80; x00; x00; xc0; x80;
  x00; x00; xc2; x80; x00; x00; xc4; x80; x00; x00; xc6; x80;
  x00; x00; xc8; x80; x00; x00; xca; x80; x00; x00; xcc; x80;
  x00; x00; xce; x80; x00; x00; xd0; x80; x00; x00; xd2; x80;
  x00; x00; xd4; x80; x00; x00; xd6; x80; x00; x00; xd8; x80;
  x00; x00; xda; x80; x00; x00; xdc; x80; x00; x00; xde; x80;
  x00; x00; xe0; x80; x00; x00; xe2; x80; x00; x00; xe4; x80;
  x00; x00; xe6; x80; x00; x00; xe8; x80; x00; x00; xea; x80;
  x00; x00; xec; x80; x00; x00; xee; x80; x00; x00; xf0; x80;
  x00; x00; xf2; x80; x00; x00; xf4; x80; x00; x00; xf6; x80;
  x00; x00; xf8; x80; x00; x00; xfa; x80; x00; x00; xfc; x80;
  x00; x00; xfe; x80; x90; x0f; x1f; x80; x00; x00; x00; x80;
  x00; x00; x02; x80; x00; x00; x04; x80; x00; x00; x06; x80;
  x00; x00; x08; x80; x00; x00; x0a; x80; x00; x00; x0c; x80;
  x00; x00; x0e; x80; x00; x00; x10; x80; x00; x00; x12; x80;
  x00; x00; x14; x80; x00; x00; x16; x80; x00; x00; x18; x80;
  x00; x00; x1a; x80; x00; x00; x1c; x80; x00; x00; x1e; x80;
  x00; x00; x20; x80; x00; x00; x22; x80; x00; x00; x24; x80;
  x00; x00; x26; x80; x00; x00; x28; x80; x00; x00; x2a; x80;
  x00; x00; x2c; x80; x00; x00; x2e; x80; x00; x00; x30; x80;
  x00; x00; x32; x80; x00; x00; x34; x80; x00; x00; x36; x80;
  x00; x00; x38; x80; x00; x00; x3a; x80; x00; x00; x3c; x80;
  x00; x00; x3e; x80; x00; x00; x40; x80; x00; x00; x42; x80;
  x00; x00; x44; x80; x00; x00; x46; x80; x00; x00; x48; x80;
  x00; x00; x4a; x80; x00; x00; x4c; x80; x00; x00; x4e; x80;
  x00; x00; x50; x80; x00; x00; x52; x80; x00; x00; x54; x80;
  x00; x00; x56; x80; x00; x00; x58; x80; x00; x00; x5a; x80;
  x00; x00; x5c; x80; x00; x00; x5e; x80; x00; x00; x60; x80;
  x00; x00; x62; x80; x00; x00; x64; x80; x00; x00; x66; x80;
  x00; x00; x68; x80; x00; x00; x6a; x80; x00; x00; x6c; x80;
  x00; x00; x6e; x80; x00; x00; x70; x80; x00; x00; x72; x80;
  x00; x00; x74; x80; x00; x00; x76; x80; x00; x00; x78; x80;
  x00; x00; x7a; x80; x00; x00; x7c; x80; x00; x00; x7e; x80;
  x00; x00; x80; x80; x00; x00; x82; x80; x00; x00; x84; x80;
  x00; x00; x86; x80; x00; x00; x88; x80; x00; x00; x8a; x80;
  x00; x00; x8c; x80; x00; x00; x8e; x80; x00; x00; x90; x80;
  x00; x00; x92; x80; x00; x00; x94; x80; x00; x00; x96; x80;
  x00; x00; x98; x80; x00; x00; x9a; x80; x00; x00; x9c; x80;
  x00; x00; x9e; x80; x00; x00; xa0; x80; x00; x00; xa2; x80;
  x00; x00; xa4; x80; x00; x00; xa6; x80; x00; x00; xa8; x80;
  x00; x00; xaa; x80; x00; x00; xac; x80; x00; x00; xae; x80;
  x00; x00; xb0; x80; x00; x00; xb2; x80; x00; x00; xb4; x80;
  x00; x00; xb6; x80; x00; x00; xb8; x80; x00; x00; xba; x80;
  x00; x00; xbc; x80; x00; x00; xbe; x80; x00; x00; xc0; x80;
  x00; x00; xc2; x80; x00; x00; xc4; x80; x00; x00; xc6; x80;
  x00; x00; xc8; x80; x00; x00; xca; x80; x00; x00; xcc; x80;
  x00; x00; xce; x80; x00; x00; xd0; x80; x00; x00; xd2; x80;
  x00; x00; xd4; x80; x00; x00; xd6; x80; x00; x00; xd8; x80;
  x00; x00; xda; x80; x00; x00; xdc; x80; x00; x00; xde; x80;
  x00; x00; xe0; x80; x00; x00; xe2; x80; x00; x00; xe4; x80;
  x00; x00; xe6; x80; x00; x00; xe8; x80; x00; x00; xea; x80;
  x00; x00; xec; x80; x00; x00; xee; x80; x00; x00; xf0; x80;
  x00; x00; xf2; x80; x00; x00; xf4; x80; x00; x00; xf6; x80;
  x00; x00; xf8; x80; x00; x00; xfa; x80; x00; x00; xfc; x80;
  x00; x00; xfe; x80; x44; x0e; x1f; x80; x01; x00; x06; x80;
  x80; x0f; x1f; x80; x00; x00; x00; x80; x00; x00; x02; x80;
  x00; x00; x04; x80; x00; x00; x06; x80; x00; x00; x08; x80;
  x00; x00; x0a; x80; x00; x00; x0c; x80; x00; x00; x0e; x80;
  x00; x00; x10; x80; x00; x00; x12; x80; x00; x00; x14; x80;
  x00; x00; x16; x80; x00; x00; x18; x80; x00; x00; x1a; x80;
  x00; x00; x1c; x80; x00; x00; x1e; x80; x00; x00; x20; x80;
  x00; x00; x22; x80; x00; x00; x24; x80; x00; x00; x26; x80;
  x00; x00; x28; x80; x00; x00; x2a; x80; x00; x00; x2c; x80;
  x00; x00; x2e; x80; x00; x00; x30; x80; x00; x00; x32; x80;
  x00; x00; x34; x80; x00; x00; x36; x80; x00; x00; x38; x80;
  x00; x00; x3a; x80; x00; x00; x3c; x80; x00; x00; x3e; x80;
  x00; x00; x40; x80; x00; x00; x42; x80; x00; x00; x44; x80;
  x00; x00; x46; x80; x00; x00; x48; x80; x00; x00; x4a; x80;
  x00; x00; x4c; x80; x00; x00; x4e; x80; x00; x00; x50; x80;
  x00; x00; x52; x80; x00; x00; x54; x80; x00; x00; x56; x80;
  x00; x00; x58; x80; x00; x00; x5a; x80; x00; x00; x5c; x80;
  x00; x00; x5e; x80; x00; x00; x60; x80; x00; x00; x62; x80;
  x00; x00; x64; x80; x00; x00; x66; x80; x00; x00; x68; x80;
  x00; x00; x6a; x80; x00; x00; x6c; x80; x00; x00; x6e; x80;
  x00; x00; x70; x80; x00; x00; x72; x80; x00; x00; x74; x80;
  x00; x00; x76; x80; x00; x00; x78; x80; x00; x00; x7a; x80;
  x00; x00; x7c; x80; x00; x00; x7e; x80; x00; x00; x80; x80;
  x00; x00; x82; x80; x00; x00; x84; x80; x00; x00; x86; x80;
  x00; x00; x88; x80; x00; x00; x8a; x80; x00; x00; x8c; x80;
  x00; x00; x8e; x80; x00; x00; x90; x80; x00; x00; x92; x80;
  x00; x00; x94; x80; x00; x00; x96; x80; x00; x00; x98; x80;
  x00; x00; x9a; x80; x00; x00; x9c; x80; x00; x00; x9e; x80;
  x00; x00; xa0; x80; x00; x00; xa2; x80; x00; x00; xa4; x80;
  x00; x00; xa6; x80; x00; x00; xa8; x80; x00; x00; xaa; x80;
  x00; x00; xac; x80; x00; x00; xae; x80; x00; x00; xb0; x80;
  x00; x00; xb2; x80; x00; x00; xb4; x80; x00; x00; xb6; x80;
  x00; x00; xb8; x80; x00; x00; xba; x80; x00; x00; xbc; x80;
  x00; x00; xbe; x80; x00; x00; xc0; x80; x00; x00; xc2; x80;
  x00; x00; xc4; x80; x00; x00; xc6; x80; x00; x00; xc8; x80;
  x00; x00; xca; x80; x00; x00; xcc; x80; x00; x00; xce; x80;
  x00; x00; xd0; x80; x00; x00; xd2; x80; x00; x00; xd4; x80;
  x00; x00; xd6; x80; x00; x00; xd8; x80; x00; x00; xda; x80;
  x00; x00; xdc; x80; x00; x00; xde; x80; x00; x00; xe0; x80;
  x00; x00; xe2; x80; x00; x00; xe4; x80; x00; x00; xe6; x80;
  x00; x00; xe8; x80; x00; x00; xea; x80; x00; x00; xec; x80;
  x00; x00; xee; x80; x00; x00; xf0; x80; x00; x00; xf2; x80;
  x00; x00; xf4; x80; x00; x00; xf6; x80; x00; x00; xf8; x80;
  x00; x00; xfa; x80; x00; x00; xfc; x80; x00; x00; xfe; x80;
  x90; x0f; x1f; x80; x00; x00; x00; x80; x00; x00; x02; x80;
  x00; x00; x04; x80; x00; x00; x06; x80; x00; x00; x08; x80].

Definition rtl8125d_1_fw_1 : list byte := [
  x00; x00; x0a; x80; x00; x00; x0c; x80; x00; x00; x0e; x80;
  x00; x00; x10; x80; x00; x00; x12; x80; x00; x00; x14; x80;
  x00; x00; x16; x80; x00; x00; x18; x80; x00; x00; x1a; x80;
  x00; x00; x1c; x80; x00; x00; x1e; x80; x00; x00; x20; x80;
  x00; x00; x22; x80; x00; x00; x24; x80; x00; x00; x26; x80;
  x00; x00; x28; x80; x00; x00; x2a; x80; x00; x00; x2c; x80;
  x00; x00; x2e; x80; x00; x00; x30; x80; x00; x00; x32; x80;
  x00; x00; x34; x80; x00; x00; x36; x80; x00; x00; x38; x80;
  x00; x00; x3a; x80; x00; x00; x3c; x80; x00; x00; x3e; x80;
  x00; x00; x40; x80; x00; x00; x42; x80; x00; x00; x44; x80;
  x00; x00; x46; x80; x00; x00; x48; x80; x00; x00; x4a; x80;
  x00; x00; x4c; x80; x00; x00; x4e; x80; x00; x00; x50; x80;
  x00; x00; x52; x80; x00; x00; x54; x80; x00; x00; x56; x80;
  x00; x00; x58; x80; x00; x00; x5a; x80; x00; x00; x5c; x80;
  x00; x00; x5e; x80; x00; x00; x60; x80; x00; x00; x62; x80;
  x00; x00; x64; x80; x00; x00; x66; x80; x00; x00; x68; x80;
  x00; x00; x6a; x80; x00; x00; x6c; x80; x00; x00; x6e; x80;
  x00; x00; x70; x80; x00; x00; x72; x80; x00; x00; x74; x80;
  x00; x00; x76; x80; x00; x00; x78; x80; x00; x00; x7a; x80;
  x00; x00; x7c; x80; x00; x00; x7e; x80; x00; x00; x80; x80;
  x00; x00; x82; x80; x00; x00; x84; x80; x00; x00; x86; x80;
  x00; x00; x88; x80; x00; x00; x8a; x80; x00; x00; x8c; x80;
  x00; x00; x8e; x80; x00; x00; x90; x80; x00; x00; x92; x80;
  x00; x00; x94; x80; x00; x00; x96; x80; x00; x00; x98; x80;
  x00; x00; x9a; x80; x00; x00; x9c; x80; x00; x00; x9e; x80;
  x00; x00; xa0; x80; x00; x00; xa2; x80; x00; x00; xa4; x80;
  x00; x00; xa6; x80; x00; x00; xa8; x80; x00; x00; xaa; x80;
  x00; x00; xac; x80; x00; x00; xae; x80; x00; x00; xb0; x80;
  x00; x00; xb2; x80; x00; x00; xb4; x80; x00; x00; xb6; x80;
  x00; x00; xb8; x80; x00; x00; xba; x80; x00; x00; xbc; x80;
  x00; x00; xbe; x80; x00; x00; xc0; x80; x00; x00; xc2; x80;
  x00; x00; xc4; x80; x00; x00; xc6; x80; x00; x00; xc8; x80;
  x00; x00; xca; x80; x00; x00; xcc; x80; x00; x00; xce; x80;
  x00; x00; xd0; x80; x00; x00; xd2; x80; x00; x00; xd4; x80;
  x00; x00; xd6; x80; x00; x00; xd8; x80; x00; x00; xda; x80;
  x00; x00; xdc; x80; x00; x00; xde; x80; x00; x00; xe0; x80;
  x00; x00; xe2; x80; x00; x00; xe4; x80; x00; x00; xe6; x80;
  x00; x00; xe8; x80; x00; x00; xea; x80; x00; x00; xec; x80;
  x00; x00; xee; x80; x00; x00; xf0; x80; x00; x00; xf2; x80;
  x00; x00; xf4; x80; x00; x00; xf6; x80; x00; x00; xf8; x80;
  x00; x00; xfa; x80; x00; x00; xfc; x80; x00; x00; xfe; x80;
  x44; x0e; x1f; x80; x02; x00; x06; x80; x80; x0f; x1f; x80;
  x00; x00; x00; x80; x00; x00; x02; x80; x00; x00; x04; x80;
  x00; x00; x06; x80; x00; x00; x08; x80; x00; x00; x0a; x80;
  x00; x00; x0c; x80; x00; x00; x0e; x80; x00; x00; x10; x80;
  x00; x00; x12; x80; x00; x00; x14; x80; x00; x00; x16; x80;
  x00; x00; x18; x80; x00; x00; x1a; x80; x00; x00; x1c; x80;
  x00; x00; x1e; x80; x00; x00; x20; x80; x00; x00; x22; x80;
  x00; x00; x24; x80; x00; x00; x26; x80; x00; x00; x28; x80;
  x00; x00; x2a; x80; x00; x00; x2c; x80; x00; x00; x2e; x80;
  x00; x00; x30; x80; x00; x00; x32; x80; x00; x00; x34; x80;
  x00; x00; x36; x80; x00; x00; x38; x80; x00; x00; x3a; x80;
  x00; x00; x3c; x80; x00; x00; x3e; x80; x00; x00; x40; x80;
  x00; x00; x42; x80; x00; x00; x44; x80; x00; x00; x46; x80;
  x00; x00; x48; x80; x00; x00; x4a; x80; x00; x00; x4c; x80;
  x00; x00; x4e; x80; x00; x00; x50; x80; x00; x00; x52; x80;
  x00; x00; x54; x80; x00; x00; x56; x80; x00; x00; x58; x80;
  x00; x00; x5a; x80; x00; x00; x5c; x80; x00; x00; x5e; x80;
  x00; x00; x60; x80; x00; x00; x62; x80; x00; x00; x64; x80;
  x00; x00; x66; x80; x00; x00; x68; x80; x00; x00; x6a; x80;
  x00; x00; x6c; x80; x00; x00; x6e; x80; x00; x00; x70; x80;
  x00; x00; x72; x80; x00; x00; x74; x80; x00; x00; x76; x80;
  x00; x00; x78; x80; x00; x00; x7a; x80; x00; x00; x7c; x80;
  x00; x00; x7e; x80; x00; x00; x80; x80; x00; x00; x82; x80;
  x00; x00; x84; x80; x00; x00; x86; x80; x00; x00; x88; x80;
  x00; x00; x8a; x80; x00; x00; x8c; x80; x00; x00; x8e; x80;
  x00; x00; x90; x80; x00; x00; x92; x80; x00; x00; x94; x80;
  x00; x00; x96; x80; x00; x00; x98; x80; x00; x00; x9a; x80;
  x00; x00; x9c; x80; x00; x00; x9e; x80; x00; x00; xa0; x80;
  x00; x00; xa2; x80; x00; x00; xa4; x80; x00; x00; xa6; x80;
  x00; x00; xa8; x80; x00; x00; xaa; x80; x00; x00; xac; x80;
  x00; x00; xae; x80; x00; x00; xb0; x80; x00; x00; xb2; x80;
  x00; x00; xb4; x80; x00; x00; xb6; x80; x00; x00; xb8; x80;
  x00; x00; xba; x80; x00; x00; xbc; x80; x00; x00; xbe; x80;
  x00; x00; xc0; x80; x00; x00; xc2; x80; x00; x00; xc4; x80;
  x00; x00; xc6; x80; x00; x00; xc8; x80; x00; x00; xca; x80;
  x00; x00; xcc; x80; x00; x00; xce; x80; x00; x00; xd0; x80;
  x00; x00; xd2; x80; x00; x00; xd4; x80; x00; x00; xd6; x80;
  x00; x00; xd8; x80; x00; x00; xda; x80; x00; x00; xdc; x80;
  x00; x00; xde; x80; x00; x00; xe0; x80; x00; x00; xe2; x80;
  x00; x00; xe4; x80; x00; x00; xe6; x80; x00; x00; xe8; x80;
  x00; x00; xea; x80; x00; x00; xec; x80; x00; x00; xee; x80;
  x00; x00; xf0; x80; x00; x00; xf2; x80; x00; x00; xf4; x80;
  x00; x00; xf6; x80; x00; x00; xf8; x80; x00; x00; xfa; x80;
  x00; x00; xfc; x80; x00; x00; xfe; x80; x90; x0f; x1f; x80;
  x00; x00; x00; x80; x00; x00; x02; x80; x00; x00; x04; x80;
  x00; x00; x06; x80; x00; x00; x08; x80; x00; x00; x0a; x80;
  x00; x00; x0c; x80; x00; x00; x0e; x80; x00; x00; x10; x80;
  x00; x00; x12; x80; x00; x00; x14; x80; x00; x00; x16; x80;
  x00; x00; x18; x80; x00; x00; x1a; x80; x00; x00; x1c; x80;
  x00; x00; x1e; x80; x00; x00; x20; x80; x00; x00; x22; x80;
  x00; x00; x24; x80; x00; x00; x26; x80; x00; x00; x28; x80;
  x00; x00; x2a; x80; x00; x00; x2c; x80; x00; x00; x2e; x80;
  x00; x00; x30; x80; x00; x00; x32; x80; x00; x00; x34; x80;
  x00; x00; x36; x80; x00; x00; x38; x80; x00; x00; x3a; x80;
  x00; x00; x3c; x80; x00; x00; x3e; x80; x00; x00; x40; x80;
  x00; x00; x42; x80; x00; x00; x44; x80; x00; x00; x46; x80;
  x00; x00; x48; x80; x00; x00; x4a; x80; x00; x00; x4c; x80;
  x00; x00; x4e; x80; x00; x00; x50; x80; x00; x00; x52; x80;
  x00; x00; x54; x80; x00; x00; x56; x80; x00; x00; x58; x80;
  x00; x00; x5a; x80; x00; x00; x5c; x80; x00; x00; x5e; x80;
  x00; x00; x60; x80; x00; x00; x62; x80; x00; x00; x64; x80;
  x00; x00; x66; x80; x00; x00; x68; x80; x00; x00; x6a; x80;
  x00; x00; x6c; x80; x00; x00; x6e; x80; x00; x00; x70; x80;
  x00; x00; x72; x80; x00; x00; x74; x80; x00; x00; x76; x80;
  x00; x00; x78; x80; x00; x00; x7a; x80; x00; x00; x7c; x80;
  x00; x00; x7e; x80; x00; x00; x80; x80; x00; x00; x82; x80;
  x00; x00; x84; x80; x00; x00; x86; x80; x00; x00; x88; x80;
  x00; x00; x8a; x80; x00; x00; x8c; x80; x00; x00; x8e; x80;
  x00; x00; x90; x80; x00; x00; x92; x80; x00; x00; x94; x80;
  x00; x00; x96; x80; x00; x00; x98; x80; x00; x00; x9a; x80;
  x00; x00; x9c; x80; x00; x00; x9e; x80; x00; x00; xa0; x80;
  x00; x00; xa2; x80; x00; x00; xa4; x80; x00; x00; xa6; x80;
  x00; x00; xa8; x80; x00; x00; xaa; x80; x00; x00; xac; x80;
  x00; x00; xae; x80; x00; x00; xb0; x80; x00; x00; xb2; x80;
  x00; x00; xb4; x80; x00; x00; xb6; x80; x00; x00; xb8; x80;
  x00; x00; xba; x80; x00; x00; xbc; x80; x00; x00; xbe; x80;
  x00; x00; xc0; x80; x00; x00; xc2; x80; x00; x00; xc4; x80;
  x00; x00; xc6; x80; x00; x00; xc8; x80; x00; x00; xca; x80;
  x00; x00; xcc; x80; x00; x00; xce; x80; x00; x00; xd0; x80;
  x00; x00; xd2; x80; x00; x00; xd4; x80; x00; x00; xd6; x80;
  x00; x00; xd8; x80; x00; x00; xda; x80; x00; x00; xdc; x80;
  x00; x00; xde; x80; x00; x00; xe0; x80; x00; x00; xe2; x80;
  x00; x00; xe4; x80; x00; x00; xe6; x80; x00; x00; xe8; x80;
  x00; x00; xea; x80; x00; x00; xec; x80; x00; x00; xee; x80;
  x00; x00; xf0; x80; x00; x00; xf2; x80; x00; x00; xf4; x80;
  x00; x00; xf6; x80; x38; x69; xf8; x80; x18; x0a; xfa; x80;
  x17; x02; xfc; x80; x2a; x0d; xfe; x80; x44; x0e; x1f; x80;
  x03; x00; x06; x80; x80; x0f; x1f; x80; x44; x0e; x1f; x80;
  x00; x00; x06; x80; x80; x0f; x1f; x80; xc2; x0f; x1f; x80;
  x00; x80; x06; x80; xa2; x14; x08; x80; x01; x00; x28; x80;
  x00; x00; x00; x40; x82; x0b; x1f; x80; x00; x00; x10; x00;
  x10; x00; x00; x10; x00; x00; x10; xc0; x80; x0b; x1f; x80;
  x00; x00; x00; x70; x01; x00; x00; xe0; x00; x00; x10; x00;
  x40; x00; x00; x20; x40; x00; x02; xa0; x64; x00; x00; x90;
  x00; x00; x05; x30; x43; x0a; x1f; x80; x23; x80; x13; x80;
  x00; x38; x14; x80; x2e; xb8; x13; x80; x01; x00; x14; x80;
  x82; x0b; x1f; x80; x90; x00; x10; x80; x43; x0a; x1f; x80;
  x16; xa0; x13; x80; x00; x00; x14; x80; x12; xa0; x13; x80;
  x00; x00; x14; x80; x14; xa0; x13; x80; x00; x18; x14; x80;
  x10; x80; x14; x80; x00; x18; x14; x80; x18; x80; x14; x80;
  x00; x18; x14; x80; x21; x80; x14; x80; x00; x18; x14; x80;
  x29; x80; x14; x80; x00; x18; x14; x80; x31; x80; x14; x80;
  x00; x18; x14; x80; x35; x80; x14; x80; x00; x18; x14; x80;
  x9c; x81; x14; x80; x00; x18; x14; x80; xe9; x81; x14; x80;
  x11; xd7; x14; x80; x81; x60; x14; x80; x04; x89; x14; x80;
  x00; x18; x14; x80; x21; x20; x14; x80; x04; xa9; x14; x80;
  x00; x18; x14; x80; x21; x20; x14; x80; x5f; xd7; x14; x80].

Definition rtl8125d_1_fw_2 : list byte := [
  x83; x40; x14; x80; x03; xd5; x14; x80; x08; xa9; x14; x80;
  xf0; x87; x14; x80; x00; x10; x14; x80; xe0; x17; x14; x80;
  x00; x18; x14; x80; xc3; x13; x14; x80; x07; xd7; x14; x80;
  x05; x20; x14; x80; x27; x80; x14; x80; x5e; xd7; x14; x80;
  x00; x18; x14; x80; x34; x14; x14; x80; x00; x18; x14; x80;
  xa5; x14; x14; x80; x04; xc5; x14; x80; x20; xce; x14; x80;
  x01; xcf; x14; x80; x0a; xd7; x14; x80; x05; x40; x14; x80;
  x02; xcf; x14; x80; x00; x18; x14; x80; x50; x1c; x14; x80;
  x80; xa9; x14; x80; x00; xd5; x14; x80; x00; x18; x14; x80;
  xf3; x14; x14; x80; x5e; xd7; x14; x80; xb1; x67; x14; x80;
  x04; xd5; x14; x80; x1e; xd7; x14; x80; xbb; x65; x14; x80;
  xda; x63; x14; x80; xf9; x61; x14; x80; xf0; x0c; x14; x80;
  x10; x0c; x14; x80; x05; xd5; x14; x80; x0f; x0c; x14; x80;
  x08; x08; x14; x80; x01; xd5; x14; x80; x01; xce; x14; x80;
  xf0; x0c; x14; x80; x70; x04; x14; x80; xf0; x0c; x14; x80;
  x30; x04; x14; x80; xf0; x0c; x14; x80; x10; x04; x14; x80;
  x2a; xf0; x14; x80; xf0; x0c; x14; x80; x20; x0c; x14; x80;
  x05; xd5; x14; x80; x0f; x0c; x14; x80; x04; x08; x14; x80;
  x01; xd5; x14; x80; x01; xce; x14; x80; xf0; x0c; x14; x80;
  x70; x04; x14; x80; xf0; x0c; x14; x80; x30; x04; x14; x80;
  xf0; x0c; x14; x80; x20; x04; x14; x80; x1c; xf0; x14; x80;
  xf0; x0c; x14; x80; x40; x0c; x14; x80; x05; xd5; x14; x80;
  x0f; x0c; x14; x80; x02; x08; x14; x80; x01; xd5; x14; x80;
  x01; xce; x14; x80; xf0; x0c; x14; x80; x70; x04; x14; x80;
  xf0; x0c; x14; x80; x50; x04; x14; x80; xf0; x0c; x14; x80;
  x40; x04; x14; x80; x0e; xf0; x14; x80; xf0; x0c; x14; x80;
  x80; x0c; x14; x80; x05; xd5; x14; x80; x0f; x0c; x14; x80;
  x01; x08; x14; x80; x01; xd5; x14; x80; x01; xce; x14; x80;
  xf0; x0c; x14; x80; xb0; x04; x14; x80; xf0; x0c; x14; x80;
  x90; x04; x14; x80; xf0; x0c; x14; x80; x80; x04; x14; x80;
  x01; xd5; x14; x80; x00; xce; x14; x80; x00; xd5; x14; x80;
  x8e; xc4; x14; x80; x00; x10; x14; x80; x41; x1a; x14; x80;
  x18; xd7; x14; x80; xaf; x5f; x14; x80; x04; xd5; x14; x80;
  x01; x8e; x14; x80; x0f; x8c; x14; x80; x00; xd5; x14; x80;
  x00; x10; x14; x80; xe0; x17; x14; x80; x04; xd5; x14; x80;
  x18; xd7; x14; x80; x74; x40; x14; x80; x95; x61; x14; x80;
  x05; xf0; x14; x80; xf5; x60; x14; x80; x03; x0c; x14; x80;
  x00; x0d; x14; x80; x09; xf0; x14; x80; x03; x0c; x14; x80;
  x01; x0d; x14; x80; x06; xf0; x14; x80; x03; x0c; x14; x80;
  x02; x0d; x14; x80; x03; xf0; x14; x80; x03; x0c; x14; x80;
  x03; x0d; x14; x80; x00; xd5; x14; x80; x06; xd7; x14; x80;
  x29; x25; x14; x80; x9c; x80; x14; x80; x18; xd7; x14; x80;
  x7b; x60; x14; x80; xda; x40; x14; x80; x0f; xf0; x14; x80;
  x1a; x43; x14; x80; x21; xf0; x14; x80; x18; xd7; x14; x80;
  x7b; x61; x14; x80; x00; x10; x14; x80; x41; x1a; x14; x80;
  x00; x10; x14; x80; xd1; x1a; x14; x80; x18; xd7; x14; x80;
  x8e; x60; x14; x80; x3e; xd7; x14; x80; x34; x5f; x14; x80;
  x20; xf0; x14; x80; x53; xf0; x14; x80; x00; x10; x14; x80;
  x41; x1a; x14; x80; x00; x10; x14; x80; xd1; x1a; x14; x80;
  x18; xd7; x14; x80; x8e; x60; x14; x80; x3e; xd7; x14; x80;
  x34; x5f; x14; x80; x23; xf0; x14; x80; x67; xf0; x14; x80;
  x00; x10; x14; x80; x41; x1a; x14; x80; x00; x10; x14; x80;
  xd1; x1a; x14; x80; x18; xd7; x14; x80; x8e; x60; x14; x80;
  x3e; xd7; x14; x80; x34; x5f; x14; x80; x26; xf0; x14; x80;
  x7b; xf0; x14; x80; x00; x10; x14; x80; x41; x1a; x14; x80;
  x00; x10; x14; x80; xd1; x1a; x14; x80; x18; xd7; x14; x80;
  x8e; x60; x14; x80; x3e; xd7; x14; x80; x34; x5f; x14; x80;
  x29; xf0; x14; x80; x8f; xf0; x14; x80; x00; x10; x14; x80;
  x73; x81; x14; x80; x00; x10; x14; x80; x41; x1a; x14; x80;
  x3e; xd7; x14; x80; xb4; x7f; x14; x80; x00; x10; x14; x80;
  x88; x81; x14; x80; x00; x10; x14; x80; x41; x1a; x14; x80;
  x18; xd7; x14; x80; xae; x5f; x14; x80; x28; xf0; x14; x80;
  x00; x10; x14; x80; x73; x81; x14; x80; x00; x10; x14; x80;
  x41; x1a; x14; x80; x3e; xd7; x14; x80; xb4; x7f; x14; x80;
  x00; x10; x14; x80; x88; x81; x14; x80; x00; x10; x14; x80;
  x41; x1a; x14; x80; x18; xd7; x14; x80; xae; x5f; x14; x80;
  x39; xf0; x14; x80; x00; x10; x14; x80; x73; x81; x14; x80;
  x00; x10; x14; x80; x41; x1a; x14; x80; x3e; xd7; x14; x80;
  xb4; x7f; x14; x80; x00; x10; x14; x80; x88; x81; x14; x80;
  x00; x10; x14; x80; x41; x1a; x14; x80; x18; xd7; x14; x80;
  xae; x5f; x14; x80; x4a; xf0; x14; x80; x00; x10; x14; x80;
  x73; x81; x14; x80; x00; x10; x14; x80; x41; x1a; x14; x80;
  x3e; xd7; x14; x80; xb4; x7f; x14; x80; x00; x10; x14; x80;
  x88; x81; x14; x80; x00; x10; x14; x80; x41; x1a; x14; x80;
  x18; xd7; x14; x80; xae; x5f; x14; x80; x5b; xf0; x14; x80;
  x19; xd7; x14; x80; x19; x41; x14; x80; x04; xd5; x14; x80;
  x01; xac; x14; x80; x01; xae; x14; x80; x00; xd5; x14; x80;
  x00; x10; x14; x80; x2f; x1a; x14; x80; x0a; xf0; x14; x80;
  x19; xd7; x14; x80; x18; x41; x14; x80; x04; xd5; x14; x80;
  x11; xac; x14; x80; x01; xd5; x14; x80; x01; xce; x14; x80;
  x10; xa4; x14; x80; x00; xce; x14; x80; x00; xd5; x14; x80;
  x00; x10; x14; x80; x41; x1a; x14; x80; x18; xd7; x14; x80;
  xb0; x5f; x14; x80; x05; xd5; x14; x80; x19; xd7; x14; x80;
  x79; x40; x14; x80; x0f; xa8; x14; x80; x5d; xf0; x14; x80;
  x98; x4b; x14; x80; x08; xa8; x14; x80; x5a; xf0; x14; x80;
  x19; xd7; x14; x80; x19; x41; x14; x80; x04; xd5; x14; x80;
  x02; xac; x14; x80; x01; xae; x14; x80; x00; xd5; x14; x80;
  x00; x10; x14; x80; x2f; x1a; x14; x80; x0a; xf0; x14; x80;
  x19; xd7; x14; x80; x18; x41; x14; x80; x04; xd5; x14; x80;
  x22; xac; x14; x80; x01; xd5; x14; x80; x01; xce; x14; x80;
  x20; xa4; x14; x80; x00; xce; x14; x80; x00; xd5; x14; x80;
  x00; x10; x14; x80; x41; x1a; x14; x80; x18; xd7; x14; x80;
  xb0; x5f; x14; x80; x05; xd5; x14; x80; x19; xd7; x14; x80;
  x79; x40; x14; x80; x0f; xa8; x14; x80; x3f; xf0; x14; x80;
  xd8; x47; x14; x80; x04; xa8; x14; x80; x3c; xf0; x14; x80;
  x19; xd7; x14; x80; x19; x41; x14; x80; x04; xd5; x14; x80;
  x04; xac; x14; x80; x01; xae; x14; x80; x00; xd5; x14; x80;
  x00; x10; x14; x80; x2f; x1a; x14; x80; x0a; xf0; x14; x80;
  x19; xd7; x14; x80; x18; x41; x14; x80; x04; xd5; x14; x80;
  x44; xac; x14; x80; x01; xd5; x14; x80; x01; xce; x14; x80;
  x40; xa4; x14; x80; x00; xce; x14; x80; x00; xd5; x14; x80;
  x00; x10; x14; x80; x41; x1a; x14; x80; x18; xd7; x14; x80;
  xb0; x5f; x14; x80; x05; xd5; x14; x80; x19; xd7; x14; x80;
  x79; x40; x14; x80; x0f; xa8; x14; x80; x21; xf0; x14; x80;
  x18; x44; x14; x80; x02; xa8; x14; x80; x1e; xf0; x14; x80;
  x19; xd7; x14; x80; x19; x41; x14; x80; x04; xd5; x14; x80;
  x08; xac; x14; x80; x01; xae; x14; x80; x00; xd5; x14; x80;
  x00; x10; x14; x80; x2f; x1a; x14; x80; x0a; xf0; x14; x80;
  x19; xd7; x14; x80; x18; x41; x14; x80; x04; xd5; x14; x80;
  x88; xac; x14; x80; x01; xd5; x14; x80; x01; xce; x14; x80;
  x80; xa4; x14; x80; x00; xce; x14; x80; x00; xd5; x14; x80;
  x00; x10; x14; x80; x41; x1a; x14; x80; x18; xd7; x14; x80;
  xb0; x5f; x14; x80; x05; xd5; x14; x80; x19; xd7; x14; x80;
  x79; x40; x14; x80; x0f; xa8; x14; x80; x03; xf0; x14; x80;
  x58; x40; x14; x80; x01; xa8; x14; x80; x00; x18; x14; x80;
  xed; x16; x14; x80; x3e; xd7; x14; x80; x05; xd5; x14; x80;
  x88; x30; x14; x80; x7a; x81; x14; x80; x93; x61; x14; x80;
  x32; x61; x14; x80; xd1; x60; x14; x80; x98; x32; x14; x80;
  x85; x81; x14; x80; x0a; xf0; x14; x80; x08; xa8; x14; x80;
  x08; xf0; x14; x80; x04; xa8; x14; x80; x06; xf0; x14; x80;
  x02; xa8; x14; x80; x04; xf0; x14; x80; x01; xa8; x14; x80;
  x02; xf0; x14; x80; x0f; xa8; x14; x80; x00; xd5; x14; x80;
  x00; x08; x14; x80; x05; xd5; x14; x80; x5e; xd7; x14; x80;
  x11; x62; x14; x80; x1e; xd7; x14; x80; x9b; x61; x14; x80;
  x1a; x61; x14; x80; x99; x60; x14; x80; x0f; x0c; x14; x80;
  x08; x08; x14; x80; x09; xf0; x14; x80; x0f; x0c; x14; x80;
  x04; x08; x14; x80; x06; xf0; x14; x80; x0f; x0c; x14; x80;
  x02; x08; x14; x80; x03; xf0; x14; x80; x0f; x0c; x14; x80;
  x01; x08; x14; x80; x00; xd5; x14; x80; x00; x08; x14; x80;
  x00; xd5; x14; x80; x8d; xc4; x14; x80; x04; xd5; x14; x80;
  x03; x8d; x14; x80; x01; xd7; x14; x80; x45; x40; x14; x80;
  x02; xad; x14; x80; x04; xd5; x14; x80; x06; xd7; x14; x80;
  x29; x25; x14; x80; xad; x81; x14; x80; x18; xd7; x14; x80;
  x7b; x60; x14; x80; xda; x40; x14; x80; x13; xf0; x14; x80;
  x1a; x44; x14; x80; x2d; xf0; x14; x80; x18; xd7; x14; x80;
  xfb; x61; x14; x80; x01; xbb; x14; x80; x5e; xd7; x14; x80;
  x71; x61; x14; x80; xf0; x0c; x14; x80; x10; x0c; x14; x80;
  x01; xd5; x14; x80; x01; xce; x14; x80; xf0; x0c; x14; x80;
  x10; x04; x14; x80; x00; xce; x14; x80; x05; xd5; x14; x80;
  x0f; x0c; x14; x80; x08; x08; x14; x80; x2a; xf0; x14; x80;
  x02; xbb; x14; x80; x5e; xd7; x14; x80; x71; x61; x14; x80;
  xf0; x0c; x14; x80; x20; x0c; x14; x80; x01; xd5; x14; x80;
  x01; xce; x14; x80; xf0; x0c; x14; x80; x20; x04; x14; x80;
  x00; xce; x14; x80; x05; xd5; x14; x80; x0f; x0c; x14; x80;
  x04; x08; x14; x80; x1c; xf0; x14; x80; x04; xbb; x14; x80;
  x5e; xd7; x14; x80; x71; x61; x14; x80; xf0; x0c; x14; x80;
  x40; x0c; x14; x80; x01; xd5; x14; x80; x01; xce; x14; x80;
  xf0; x0c; x14; x80; x40; x04; x14; x80; x00; xce; x14; x80].

Definition rtl8125d_1_fw_3 : list byte := [
  x05; xd5; x14; x80; x0f; x0c; x14; x80; x02; x08; x14; x80;
  x0e; xf0; x14; x80; x08; xbb; x14; x80; x5e; xd7; x14; x80;
  x71; x61; x14; x80; xf0; x0c; x14; x80; x80; x0c; x14; x80;
  x01; xd5; x14; x80; x01; xce; x14; x80; xf0; x0c; x14; x80;
  x80; x04; x14; x80; x00; xce; x14; x80; x05; xd5; x14; x80;
  x0f; x0c; x14; x80; x01; x08; x14; x80; x00; xd5; x14; x80;
  x00; x18; x14; x80; x16; x16; x14; x80; x26; xa0; x13; x80;
  xff; xff; x14; x80; x24; xa0; x13; x80; xd8; x15; x14; x80;
  x22; xa0; x13; x80; x1f; x16; x14; x80; x20; xa0; x13; x80;
  xf2; x14; x14; x80; x06; xa0; x13; x80; x4f; x1c; x14; x80;
  x04; xa0; x13; x80; x33; x14; x14; x80; x02; xa0; x13; x80;
  xc1; x13; x14; x80; x00; xa0; x13; x80; x20; x20; x14; x80;
  x08; xa0; x13; x80; x00; x7f; x14; x80; x16; xa0; x13; x80;
  x00; x00; x14; x80; x12; xa0; x13; x80; xf8; x07; x14; x80;
  x14; xa0; x13; x80; x4d; xd0; x14; x80; x04; x89; x14; x80;
  x3c; x81; x14; x80; x3d; xa1; x14; x80; x01; xcc; x14; x80;
  x00; x00; x14; x80; x00; x00; x14; x80; x00; x00; x14; x80;
  x52; xa1; x13; x80; x84; x13; x14; x80; x54; xa1; x13; x80;
  xa8; x1f; x14; x80; x56; xa1; x13; x80; x8b; x21; x14; x80;
  x58; xa1; x13; x80; xb8; x21; x14; x80; x5a; xa1; x13; x80;
  x1c; x02; x14; x80; x5c; xa1; x13; x80; xff; x3f; x14; x80;
  x5e; xa1; x13; x80; xff; x3f; x14; x80; x60; xa1; x13; x80;
  xff; x3f; x14; x80; x50; xa1; x13; x80; x1f; x00; x14; x80;
  x16; xa0; x13; x80; x10; x00; x14; x80; x12; xa0; x13; x80;
  x00; x00; x14; x80; x14; xa0; x13; x80; x00; x18; x14; x80;
  x10; x80; x14; x80; x00; x18; x14; x80; x13; x80; x14; x80;
  x00; x18; x14; x80; x3a; x80; x14; x80; x00; x18; x14; x80;
  x45; x80; x14; x80; x00; x18; x14; x80; x49; x80; x14; x80;
  x00; x18; x14; x80; x4d; x80; x14; x80; x00; x18; x14; x80;
  x59; x80; x14; x80; x00; x18; x14; x80; x5d; x80; x14; x80;
  xff; xc2; x14; x80; x00; x18; x14; x80; x42; x00; x14; x80;
  x00; x10; x14; x80; xe5; x02; x14; x80; x00; x10; x14; x80;
  xb4; x02; x14; x80; x01; xd7; x14; x80; xe3; x40; x14; x80;
  x00; xd7; x14; x80; x6c; x5f; x14; x80; x00; x10; x14; x80;
  x21; x80; x14; x80; x00; x18; x14; x80; x73; x00; x14; x80;
  x00; x18; x14; x80; x84; x00; x14; x80; x01; xd7; x14; x80;
  x61; x40; x14; x80; x0f; xba; x14; x80; x04; xf0; x14; x80;
  x60; x40; x14; x80; x00; x10; x14; x80; x2a; x80; x14; x80;
  x10; xba; x14; x80; x00; x08; x14; x80; x00; xd7; x14; x80;
  xbb; x60; x14; x80; x1c; x61; x14; x80; x0f; x0c; x14; x80;
  x01; x1a; x14; x80; x0a; xf0; x14; x80; xfc; x60; x14; x80;
  x0f; x0c; x14; x80; x02; x1a; x14; x80; x06; xf0; x14; x80;
  x0f; x0c; x14; x80; x04; x1a; x14; x80; x03; xf0; x14; x80;
  x0f; x0c; x14; x80; x08; x1a; x14; x80; x00; x08; x14; x80;
  x0f; x0c; x14; x80; x04; x05; x14; x80; x02; xad; x14; x80;
  x00; x10; x14; x80; xc0; x02; x14; x80; x00; xd7; x14; x80;
  xac; x5f; x14; x80; x00; x10; x14; x80; x21; x80; x14; x80;
  x00; x18; x14; x80; x39; x01; x14; x80; x1f; x9a; x14; x80;
  xf0; x8b; x14; x80; x00; x18; x14; x80; xdf; x02; x14; x80;
  x1f; x9a; x14; x80; x10; x99; x14; x80; x00; x18; x14; x80;
  xd7; x02; x14; x80; x02; xad; x14; x80; x01; x8d; x14; x80;
  x1f; x9a; x14; x80; x10; x99; x14; x80; x60; x98; x14; x80;
  x00; xcb; x14; x80; x01; xd5; x14; x80; x01; xce; x14; x80;
  xf0; x85; x14; x80; x00; xd5; x14; x80; x00; x18; x14; x80;
  x5c; x01; x14; x80; x80; x85; x14; x80; x02; x8d; x14; x80;
  x00; x18; x14; x80; x8f; x01; x14; x80; x0f; x0c; x14; x80;
  x03; x05; x14; x80; x02; xad; x14; x80; x00; x18; x14; x80;
  xdd; x00; x14; x80; x8e; xa0; x13; x80; xdb; x00; x14; x80;
  x8c; xa0; x13; x80; x8e; x01; x14; x80; x8a; xa0; x13; x80;
  x5a; x01; x14; x80; x88; xa0; x13; x80; xd6; x02; x14; x80;
  x86; xa0; x13; x80; xde; x02; x14; x80; x84; xa0; x13; x80;
  x37; x01; x14; x80; x82; xa0; x13; x80; x71; x00; x14; x80;
  x80; xa0; x13; x80; x41; x00; x14; x80; x90; xa0; x13; x80;
  xff; x00; x14; x80; x16; xa0; x13; x80; x20; x00; x14; x80;
  x12; xa0; x13; x80; xf8; x1f; x14; x80; x14; xa0; x13; x80;
  x1c; x00; x14; x80; x15; xce; x14; x80; x05; xd1; x14; x80;
  x10; xa4; x14; x80; x20; x83; x14; x80; xd7; xff; x14; x80;
  x00; x00; x14; x80; x00; x00; x14; x80; x64; xa1; x13; x80;
  x60; x02; x14; x80; x66; xa1; x13; x80; xdd; x0a; x14; x80;
  x68; xa1; x13; x80; xcc; x05; x14; x80; x6a; xa1; x13; x80;
  xc5; x05; x14; x80; x6c; xa1; x13; x80; x29; x04; x14; x80;
  x6e; xa1; x13; x80; xb6; x07; x14; x80; x70; xa1; x13; x80;
  x59; x02; x14; x80; x72; xa1; x13; x80; xff; x3f; x14; x80;
  x62; xa1; x13; x80; x3f; x00; x14; x80; x16; xa0; x13; x80;
  x20; x00; x14; x80; x12; xa0; x13; x80; x00; x00; x14; x80;
  x14; xa0; x13; x80; x00; x18; x14; x80; x10; x80; x14; x80;
  x00; x18; x14; x80; x23; x80; x14; x80; x00; x18; x14; x80;
  x4c; x81; x14; x80; x00; x18; x14; x80; x56; x81; x14; x80;
  x00; x18; x14; x80; x5e; x81; x14; x80; x00; x18; x14; x80;
  x10; x82; x14; x80; x00; x18; x14; x80; x21; x82; x14; x80;
  x00; x18; x14; x80; x2f; x82; x14; x80; x01; xa8; x14; x80;
  x08; x93; x14; x80; x01; xb2; x14; x80; x01; xb3; x14; x80;
  x01; xd7; x14; x80; x00; x40; x14; x80; xff; xd2; x14; x80;
  x02; xb3; x14; x80; x00; xd2; x14; x80; x01; xb2; x14; x80;
  x09; xb3; x14; x80; x01; xd7; x14; x80; x00; x40; x14; x80;
  xff; xd2; x14; x80; x02; xb3; x14; x80; x00; xd2; x14; x80;
  x00; xa8; x14; x80; x00; x18; x14; x80; x31; x00; x14; x80;
  x00; xd7; x14; x80; x43; x45; x14; x80; x1f; xd7; x14; x80;
  xfe; x40; x14; x80; xb7; xd1; x14; x80; x49; xd0; x14; x80;
  x00; x10; x14; x80; x9e; x10; x14; x80; x00; xd7; x14; x80;
  xbb; x5f; x14; x80; x20; xa2; x14; x80; x01; x85; x14; x80;
  x03; x0c; x14; x80; x02; x15; x14; x80; x70; x0c; x14; x80;
  x00; x0b; x14; x80; x07; x0c; x14; x80; x04; x06; x14; x80;
  x03; x95; x14; x80; x10; xa5; x14; x80; x49; xce; x14; x80;
  x00; x10; x14; x80; xbe; x10; x14; x80; x20; x85; x14; x80;
  x20; xa5; x14; x80; x01; xa5; x14; x80; x05; xd1; x14; x80;
  x47; xd0; x14; x80; x00; x10; x14; x80; x9e; x10; x14; x80;
  x07; xd7; x14; x80; x87; x60; x14; x80; x00; xd7; x14; x80;
  x7b; x5f; x14; x80; xe9; xff; x14; x80; x00; x10; x14; x80;
  x9e; x10; x14; x80; x01; x85; x14; x80; x07; xd7; x14; x80;
  x08; x5e; x14; x80; x30; x85; x14; x80; x20; xba; x14; x80;
  x0c; xf0; x14; x80; x00; xd7; x14; x80; x98; x40; x14; x80;
  xef; xd1; x14; x80; x47; xd0; x14; x80; x03; xf0; x14; x80;
  xdb; xd1; x14; x80; x40; xd0; x14; x80; x00; x10; x14; x80;
  x9e; x10; x14; x80; x00; xd7; x14; x80; xbb; x5f; x14; x80;
  x80; x89; x14; x80; x02; xd7; x14; x80; x26; x61; x14; x80;
  x04; xd7; x14; x80; x63; x40; x14; x80; x02; xd7; x14; x80;
  x60; x60; x14; x80; x02; xd7; x14; x80; x77; x60; x14; x80;
  x10; x84; x14; x80; x02; xf0; x14; x80; x10; xa4; x14; x80;
  x02; xce; x14; x80; x00; x10; x14; x80; xbe; x10; x14; x80;
  x81; xcd; x14; x80; x12; xd4; x14; x80; x00; x10; x14; x80;
  x69; x10; x14; x80; x82; xcd; x14; x80; x0e; xd4; x14; x80;
  x00; x10; x14; x80; x69; x10; x14; x80; x83; xcd; x14; x80;
  x00; x10; x14; x80; x9e; x10; x14; x80; x1f; xd7; x14; x80;
  xb4; x5f; x14; x80; x02; xd7; x14; x80; x26; x6c; x14; x80;
  x04; xd7; x14; x80; x63; x40; x14; x80; x02; xd7; x14; x80;
  x60; x60; x14; x80; x02; xd7; x14; x80; x77; x6b; x14; x80;
  x40; xa3; x14; x80; x06; x0c; x14; x80; x02; x01; x14; x80;
  x01; xce; x14; x80; x00; x10; x14; x80; xbe; x10; x14; x80;
  x40; xa2; x14; x80; x02; xa9; x14; x80; x04; xa2; x14; x80;
  x80; xa2; x14; x80; x64; xa3; x14; x80; x02; xab; x14; x80;
  x80; x83; x14; x80; x0a; xa0; x14; x80; x8d; xcd; x14; x80;
  x00; x10; x14; x80; x9e; x10; x14; x80; x06; xd7; x14; x80;
  xb5; x5f; x14; x80; x20; xb9; x14; x80; x00; x10; x14; x80;
  x9e; x10; x14; x80; x1f; xd7; x14; x80; xb4; x7f; x14; x80;
  x20; x99; x14; x80; x00; x10; x14; x80; x9e; x10; x14; x80;
  x1f; xd7; x14; x80; x65; x60; x14; x80; x74; x7c; x14; x80;
  xfb; xff; x14; x80; x20; xb8; x14; x80; x00; x10; x14; x80;
  x9e; x10; x14; x80; x1f; xd7; x14; x80; xa5; x7f; x14; x80;
  x20; x98; x14; x80; x10; xa4; x14; x80; x02; x89; x14; x80;
  x20; xa1; x14; x80; x80; xa3; x14; x80; x02; xce; x14; x80;
  x00; x10; x14; x80; xbe; x10; x14; x80; x80; x82; x14; x80;
  x24; xa3; x14; x80; x02; xab; x14; x80; x0a; xa0; x14; x80;
  x18; x81; x14; x80; x3f; x86; x14; x80; xfb; x87; x14; x80;
  x8e; xcd; x14; x80; x93; xd1; x14; x80; x47; xd0; x14; x80;
  x00; x10; x14; x80; x9e; x10; x14; x80; x00; x10; x14; x80;
  xa3; x10; x14; x80; x00; xd7; x14; x80; x7b; x5f; x14; x80;
  x80; xa2; x14; x80; x00; x10; x14; x80; x9e; x10; x14; x80;
  x00; x10; x14; x80; xa3; x10; x14; x80; x06; xd7; x14; x80;
  x78; x5f; x14; x80; x10; xa2; x14; x80; x00; xd7; x14; x80;
  x83; x60; x14; x80; x01; xd1; x14; x80; x47; xd0; x14; x80;
  x03; xf0; x14; x80; x60; xd1; x14; x80; x4b; xd0; x14; x80;
  x00; x10; x14; x80; x9e; x10; x14; x80; x00; x10; x14; x80;
  xa3; x10; x14; x80; x00; xd7; x14; x80; x7b; x5f; x14; x80;
  x00; x10; x14; x80; x9e; x10; x14; x80; x00; x10; x14; x80;
  xa3; x10; x14; x80; x06; xd7; x14; x80; x79; x5f; x14; x80;
  x20; x81; x14; x80; x20; xbb; x14; x80; x4c; xf0; x14; x80;
  x0a; xa0; x14; x80; x40; xa3; x14; x80; x06; x0c; x14; x80].

Definition rtl8125d_1_fw_4 : list byte := [
  x02; x01; x14; x80; x40; xa2; x14; x80; x90; xa2; x14; x80;
  x24; xa3; x14; x80; x02; xab; x14; x80; x3e; xd1; x14; x80;
  x5a; xd0; x14; x80; x3e; xd1; x14; x80; x6b; xd0; x14; x80;
  x84; xcd; x14; x80; x00; x10; x14; x80; x9e; x10; x14; x80;
  x06; xd7; x14; x80; x79; x60; x14; x80; x00; xd7; x14; x80;
  x5c; x5f; x14; x80; x8a; xcd; x14; x80; x00; x10; x14; x80;
  x9e; x10; x14; x80; x06; xd7; x14; x80; x79; x60; x14; x80;
  x00; xd7; x14; x80; x5d; x5f; x14; x80; x8b; xcd; x14; x80;
  x00; x10; x14; x80; x9e; x10; x14; x80; x8c; xcd; x14; x80;
  x00; xd7; x14; x80; x50; x60; x14; x80; x04; xab; x14; x80;
  x00; xd7; x14; x80; x83; x40; x14; x80; x60; xd1; x14; x80;
  x4b; xd0; x14; x80; x03; xf0; x14; x80; x93; xd1; x14; x80;
  x47; xd0; x14; x80; x00; x10; x14; x80; x9e; x10; x14; x80;
  x00; xd7; x14; x80; xbb; x5f; x14; x80; x00; x10; x14; x80;
  x9e; x10; x14; x80; x10; x84; x14; x80; x1f; xd7; x14; x80;
  x94; x5f; x14; x80; x20; xb9; x14; x80; x00; x10; x14; x80;
  x9e; x10; x14; x80; x1f; xd7; x14; x80; xb4; x7f; x14; x80;
  x20; x99; x14; x80; x00; x10; x14; x80; x9e; x10; x14; x80;
  x1f; xd7; x14; x80; x05; x61; x14; x80; x54; x60; x14; x80;
  xfb; xff; x14; x80; x00; x10; x14; x80; x9e; x10; x14; x80;
  x06; xd7; x14; x80; xb9; x5f; x14; x80; xf0; xff; x14; x80;
  x10; xa4; x14; x80; x20; xb8; x14; x80; x85; xcd; x14; x80;
  x00; x10; x14; x80; x9e; x10; x14; x80; x1f; xd7; x14; x80;
  xa5; x7f; x14; x80; x20; x98; x14; x80; x20; xbb; x14; x80;
  x05; xd1; x14; x80; x42; xd0; x14; x80; x00; x10; x14; x80;
  x9e; x10; x14; x80; x06; xd7; x14; x80; xbb; x5f; x14; x80;
  x85; x5f; x14; x80; x00; xd7; x14; x80; x5b; x5f; x14; x80;
  x00; xd7; x14; x80; x90; x60; x14; x80; x00; xd7; x14; x80;
  x43; x40; x14; x80; x20; xaa; x14; x80; x86; xcd; x14; x80;
  x00; xd7; x14; x80; x83; x60; x14; x80; xc7; xd1; x14; x80;
  x45; xd0; x14; x80; x03; xf0; x14; x80; x7a; xd1; x14; x80;
  x4b; xd0; x14; x80; x00; x10; x14; x80; x9e; x10; x14; x80;
  x00; xd7; x14; x80; xbb; x5f; x14; x80; x18; x0c; x14; x80;
  x08; x01; x14; x80; x3f; x0c; x14; x80; x09; x06; x14; x80;
  xfb; x0c; x14; x80; x29; x07; x14; x80; x08; xa3; x14; x80;
  x20; x83; x14; x80; x05; xd1; x14; x80; x42; xd0; x14; x80;
  x00; x10; x14; x80; x9e; x10; x14; x80; x00; xd7; x14; x80;
  xbb; x5f; x14; x80; x00; x18; x14; x80; xf7; x08; x14; x80;
  x00; x10; x14; x80; x9e; x10; x14; x80; x00; x10; x14; x80;
  xa3; x10; x14; x80; x00; xd7; x14; x80; x7b; x60; x14; x80;
  x00; xd7; x14; x80; x2b; x5f; x14; x80; x00; x18; x14; x80;
  x81; x0a; x14; x80; x00; xd7; x14; x80; xbd; x40; x14; x80;
  x07; xd7; x14; x80; x65; x40; x14; x80; x00; x18; x14; x80;
  x21; x11; x14; x80; x00; x18; x14; x80; x24; x11; x14; x80;
  x03; x0c; x14; x80; x02; x15; x14; x80; x80; x8f; x14; x80;
  x03; x95; x14; x80; x05; xd7; x14; x80; x1d; x64; x14; x80;
  x04; xd7; x14; x80; xb2; x62; x14; x80; x02; xd7; x14; x80;
  x16; x41; x14; x80; x15; xce; x14; x80; x00; x10; x14; x80;
  xbe; x10; x14; x80; x03; x0c; x14; x80; x02; x15; x14; x80;
  x40; x8f; x14; x80; x03; x95; x14; x80; x0a; xa0; x14; x80;
  x04; xd7; x14; x80; x47; x42; x14; x80; x00; xd7; x14; x80;
  x91; x36; x14; x80; x83; x81; x14; x80; x03; x0c; x14; x80;
  x02; x15; x14; x80; x70; xa5; x14; x80; x03; x95; x14; x80;
  x0a; xf0; x14; x80; x03; x0c; x14; x80; x02; x15; x14; x80;
  x40; xaf; x14; x80; x03; x95; x14; x80; x0a; x80; x14; x80;
  x03; x0c; x14; x80; x02; x15; x14; x80; x70; x85; x14; x80;
  x03; x95; x14; x80; x00; x10; x14; x80; x9e; x10; x14; x80;
  x00; x10; x14; x80; x08; x11; x14; x80; x64; xcd; x14; x80;
  x04; xd7; x14; x80; x98; x33; x14; x80; x03; x82; x14; x80;
  x1f; xd7; x14; x80; x0e; x62; x14; x80; x04; xd7; x14; x80;
  x96; x60; x14; x80; x05; xd7; x14; x80; x51; x60; x14; x80;
  x04; xf0; x14; x80; x05; xd7; x14; x80; x5d; x60; x14; x80;
  x08; xf0; x14; x80; x06; xd7; x14; x80; x9d; x60; x14; x80;
  x05; xd7; x14; x80; x5f; x40; x14; x80; x03; xf0; x14; x80;
  x00; xd7; x14; x80; xfb; x58; x14; x80; x03; x0c; x14; x80;
  x02; x15; x14; x80; xaa; xc7; x14; x80; x03; x95; x14; x80;
  x1f; xd7; x14; x80; x2e; x6d; x14; x80; x04; xd7; x14; x80;
  x96; x60; x14; x80; x05; xd7; x14; x80; x51; x60; x14; x80;
  x05; xf0; x14; x80; x05; xd7; x14; x80; x7d; x60; x14; x80;
  x00; x18; x14; x80; xc7; x0c; x14; x80; x06; xd7; x14; x80;
  xbd; x60; x14; x80; x05; xd7; x14; x80; x7f; x40; x14; x80;
  x00; x18; x14; x80; x42; x0e; x14; x80; x02; xd7; x14; x80;
  xa4; x40; x14; x80; x03; x0c; x14; x80; x02; x15; x14; x80;
  x20; x8e; x14; x80; x03; x95; x14; x80; x02; xd7; x14; x80;
  xa5; x40; x14; x80; x03; x0c; x14; x80; x02; x15; x14; x80;
  x40; x8e; x14; x80; x03; x95; x14; x80; x05; xd7; x14; x80;
  x9d; x65; x14; x80; x04; xd7; x14; x80; xb2; x62; x14; x80;
  x02; xd7; x14; x80; x16; x41; x14; x80; x15; xce; x14; x80;
  x00; x10; x14; x80; xbe; x10; x14; x80; x03; x0c; x14; x80;
  x02; x15; x14; x80; x40; x8f; x14; x80; x03; x95; x14; x80;
  x0a; xa0; x14; x80; x04; xd7; x14; x80; x47; x42; x14; x80;
  x00; xd7; x14; x80; x91; x36; x14; x80; xde; x81; x14; x80;
  x03; x0c; x14; x80; x02; x15; x14; x80; x70; xa5; x14; x80;
  x03; x95; x14; x80; x0a; xf0; x14; x80; x03; x0c; x14; x80;
  x02; x15; x14; x80; x40; xaf; x14; x80; x03; x95; x14; x80;
  x0a; x80; x14; x80; x03; x0c; x14; x80; x02; x15; x14; x80;
  x70; x85; x14; x80; x03; x95; x14; x80; x06; xd7; x14; x80;
  xe4; x60; x14; x80; x03; x0c; x14; x80; x02; x15; x14; x80;
  xf0; x0c; x14; x80; xa0; x07; x14; x80; x03; x95; x14; x80;
  x05; xf0; x14; x80; x03; x0c; x14; x80; x02; x15; x14; x80;
  xf0; x87; x14; x80; x03; x95; x14; x80; x00; x10; x14; x80;
  x9e; x10; x14; x80; x00; x10; x14; x80; x08; x11; x14; x80;
  x61; xcd; x14; x80; x04; xd7; x14; x80; x98; x33; x14; x80;
  x03; x82; x14; x80; x04; xd7; x14; x80; x96; x60; x14; x80;
  x05; xd7; x14; x80; x51; x60; x14; x80; x05; xf0; x14; x80;
  x05; xd7; x14; x80; x7d; x60; x14; x80; x00; x18; x14; x80;
  xc7; x0c; x14; x80; x1f; xd7; x14; x80; xce; x61; x14; x80;
  x06; xd7; x14; x80; x7d; x76; x14; x80; x05; xd7; x14; x80;
  x3f; x56; x14; x80; x00; x18; x14; x80; x42; x0e; x14; x80;
  x0a; x80; x14; x80; x03; x0c; x14; x80; x02; x15; x14; x80;
  x40; xae; x14; x80; x03; x95; x14; x80; x00; x18; x14; x80;
  x47; x0c; x14; x80; x03; x0c; x14; x80; x02; x15; x14; x80;
  x80; xaf; x14; x80; x03; x95; x14; x80; x00; x18; x14; x80;
  x5f; x0b; x14; x80; x7c; x60; x14; x80; x00; x18; x14; x80;
  x7a; x02; x14; x80; x03; x0c; x14; x80; x02; x15; x14; x80;
  x01; xae; x14; x80; x03; x95; x14; x80; x00; x10; x14; x80;
  x9e; x10; x14; x80; x02; xd7; x14; x80; xa3; x5f; x14; x80;
  x03; x0c; x14; x80; x02; x15; x14; x80; x01; x8e; x14; x80;
  x03; x95; x14; x80; x00; x18; x14; x80; x7d; x02; x14; x80;
  x00; x10; x14; x80; xbe; x10; x14; x80; x02; xd7; x14; x80;
  xa5; x40; x14; x80; x03; x0c; x14; x80; x02; x15; x14; x80;
  x40; x8e; x14; x80; x03; x95; x14; x80; x3e; xd7; x14; x80;
  x65; x60; x14; x80; x00; x18; x14; x80; xea; x0c; x14; x80;
  x00; x18; x14; x80; xf4; x0c; x14; x80; x01; xd7; x14; x80;
  xd1; x6f; x14; x80; x1f; xd7; x14; x80; xee; x6e; x14; x80;
  x07; xd7; x14; x80; x0f; x4d; x14; x80; x3e; xd7; x14; x80;
  xc5; x4c; x14; x80; x05; xd7; x14; x80; x99; x4c; x14; x80;
  x04; xd7; x14; x80; x57; x6c; x14; x80; x02; xd7; x14; x80;
  x11; x6c; x14; x80; x03; x0c; x14; x80; x02; x15; x14; x80;
  x20; x8c; x14; x80; x08; xa6; x14; x80; x03; x95; x14; x80;
  x01; xa2; x14; x80; x04; xa8; x14; x80; x04; xd7; x14; x80;
  xa7; x40; x14; x80; x03; x0c; x14; x80; x02; x15; x14; x80;
  x20; xa6; x14; x80; x03; x95; x14; x80; x03; x0c; x14; x80;
  x02; x15; x14; x80; x40; xac; x14; x80; x03; x95; x14; x80;
  x0a; x80; x14; x80; x90; x82; x14; x80; x06; x83; x14; x80;
  x02; x8b; x14; x80; x03; x0c; x14; x80; x02; x15; x14; x80;
  x70; x85; x14; x80; x03; x95; x14; x80; x00; xce; x14; x80;
  x00; x10; x14; x80; xbe; x10; x14; x80; x99; xcd; x14; x80;
  x00; x10; x14; x80; x9e; x10; x14; x80; x00; x10; x14; x80;
  xcc; x10; x14; x80; x01; xd7; x14; x80; xf1; x69; x14; x80;
  x1f; xd7; x14; x80; x0e; x69; x14; x80; x3e; xd7; x14; x80;
  xe6; x5e; x14; x80; x03; x0c; x14; x80; x02; x15; x14; x80;
  xf0; x87; x14; x80; x03; x95; x14; x80; x46; xce; x14; x80;
  x00; x10; x14; x80; xbe; x10; x14; x80; x0a; xa0; x14; x80;
  x04; xd7; x14; x80; xa7; x40; x14; x80; x03; x0c; x14; x80;
  x02; x15; x14; x80; x70; xa5; x14; x80; x03; x95; x14; x80;
  x9a; xcd; x14; x80; x00; xd7; x14; x80; x78; x60; x14; x80;
  x00; xd7; x14; x80; x9a; x60; x14; x80; x09; xd1; x14; x80;
  x74; xd0; x14; x80; x03; xf0; x14; x80; x09; xd1; x14; x80;
  x75; xd0; x14; x80; x00; x10; x14; x80; x9e; x10; x14; x80;
  x00; x10; x14; x80; xcc; x10; x14; x80; x01; xd7; x14; x80;
  xb1; x65; x14; x80; x1f; xd7; x14; x80; xce; x64; x14; x80;
  x00; xd7; x14; x80; xfe; x5e; x14; x80; x00; xce; x14; x80;
  x00; x10; x14; x80; xbe; x10; x14; x80; x03; x0c; x14; x80;
  x02; x15; x14; x80; x08; x86; x14; x80; x40; x8c; x14; x80;
  x03; x95; x14; x80; x01; x82; x14; x80; x0a; x80; x14; x80;
  x90; x82; x14; x80; x06; x83; x14; x80; x02; x8b; x14; x80;
  x03; x0c; x14; x80; x02; x15; x14; x80; xaa; xc7; x14; x80].

Definition rtl8125d_1_fw_5 : list byte := [
  x70; x85; x14; x80; x08; x8d; x14; x80; x03; x95; x14; x80;
  x9b; xcd; x14; x80; x00; x18; x14; x80; x8b; x0c; x14; x80;
  x00; x10; x14; x80; x9e; x10; x14; x80; x05; xd7; x14; x80;
  xd9; x61; x14; x80; x04; xd7; x14; x80; x93; x41; x14; x80;
  x0a; x80; x14; x80; x03; x0c; x14; x80; x02; x15; x14; x80;
  x40; xae; x14; x80; x03; x95; x14; x80; x00; x18; x14; x80;
  x47; x0c; x14; x80; x00; x18; x14; x80; xf8; x0d; x14; x80;
  x00; x18; x14; x80; x39; x83; x14; x80; x00; x08; x14; x80;
  x03; x0c; x14; x80; x02; x15; x14; x80; x08; x8d; x14; x80;
  x02; x8f; x14; x80; x40; x8c; x14; x80; x03; x95; x14; x80;
  x01; x82; x14; x80; x04; xa8; x14; x80; x04; xd7; x14; x80;
  xa7; x40; x14; x80; x03; x0c; x14; x80; x02; x15; x14; x80;
  x20; xa6; x14; x80; x03; x95; x14; x80; x0a; x80; x14; x80;
  x90; x82; x14; x80; x06; x83; x14; x80; x02; x8b; x14; x80;
  x10; x80; x14; x80; x03; x0c; x14; x80; x02; x15; x14; x80;
  x70; x85; x14; x80; x03; x95; x14; x80; x03; xaa; x14; x80;
  x03; x0c; x14; x80; x02; x15; x14; x80; x20; xac; x14; x80;
  x08; xa6; x14; x80; x03; x95; x14; x80; x00; xce; x14; x80;
  x00; x10; x14; x80; xbe; x10; x14; x80; x95; xcd; x14; x80;
  x00; x10; x14; x80; x9e; x10; x14; x80; x01; xd7; x14; x80;
  x91; x7b; x14; x80; x1f; xd7; x14; x80; xae; x7a; x14; x80;
  x01; xd7; x14; x80; xb0; x7a; x14; x80; x04; xd7; x14; x80;
  xf3; x7e; x14; x80; x01; xd7; x14; x80; xb3; x5e; x14; x80;
  xb0; x84; x14; x80; x03; x0c; x14; x80; x02; x15; x14; x80;
  x08; xa6; x14; x80; x00; xc7; x14; x80; x03; x95; x14; x80;
  x54; xce; x14; x80; x00; x10; x14; x80; xbe; x10; x14; x80;
  x90; xa2; x14; x80; x04; xa3; x14; x80; x02; xab; x14; x80;
  x00; xd7; x14; x80; x50; x60; x14; x80; x04; xab; x14; x80;
  x38; x0c; x14; x80; x08; x06; x14; x80; x0b; xaa; x14; x80;
  x03; x0c; x14; x80; x02; x15; x14; x80; x01; x8d; x14; x80;
  x03; x0c; x14; x80; x02; x15; x14; x80; x40; xae; x14; x80;
  x03; x95; x14; x80; x02; xd7; x14; x80; xa4; x40; x14; x80;
  x03; x0c; x14; x80; x02; x15; x14; x80; x20; x8e; x14; x80;
  x03; x95; x14; x80; x03; x0c; x14; x80; x02; x15; x14; x80;
  x20; x8c; x14; x80; x03; x95; x14; x80; x00; xd7; x14; x80;
  x78; x60; x14; x80; x00; xd7; x14; x80; x9a; x60; x14; x80;
  x09; xd1; x14; x80; x74; xd0; x14; x80; x03; xf0; x14; x80;
  x09; xd1; x14; x80; x75; xd0; x14; x80; x04; xd7; x14; x80;
  xb2; x62; x14; x80; x02; xd7; x14; x80; x16; x41; x14; x80;
  x54; xce; x14; x80; x00; x10; x14; x80; xbe; x10; x14; x80;
  x03; x0c; x14; x80; x02; x15; x14; x80; x40; x8f; x14; x80;
  x03; x95; x14; x80; x0a; xa0; x14; x80; x04; xd7; x14; x80;
  x47; x42; x14; x80; x00; xd7; x14; x80; x91; x36; x14; x80;
  x26; x83; x14; x80; x03; x0c; x14; x80; x02; x15; x14; x80;
  x70; xa5; x14; x80; x03; x95; x14; x80; x0a; xf0; x14; x80;
  x03; x0c; x14; x80; x02; x15; x14; x80; x40; xaf; x14; x80;
  x03; x95; x14; x80; x0a; x80; x14; x80; x03; x0c; x14; x80;
  x02; x15; x14; x80; x70; x85; x14; x80; x03; x95; x14; x80;
  x00; x10; x14; x80; x9e; x10; x14; x80; x04; xd7; x14; x80;
  xf3; x60; x14; x80; x1f; xd7; x14; x80; x8e; x61; x14; x80;
  x00; xd7; x14; x80; x5e; x5b; x14; x80; x00; x18; x14; x80;
  xeb; x0d; x14; x80; x0a; x80; x14; x80; x03; x0c; x14; x80;
  x02; x15; x14; x80; x40; xae; x14; x80; x03; x95; x14; x80;
  x00; x18; x14; x80; x47; x0c; x14; x80; x00; x18; x14; x80;
  xf8; x0d; x14; x80; x03; x0c; x14; x80; x02; x15; x14; x80;
  x08; x86; x14; x80; x03; x95; x14; x80; x00; x18; x14; x80;
  x2b; x0e; x14; x80; x0e; xa1; x13; x80; x14; x0d; x14; x80;
  x0c; xa1; x13; x80; xe8; x0c; x14; x80; x0a; xa1; x13; x80;
  x79; x02; x14; x80; x08; xa1; x13; x80; x19; x0b; x14; x80;
  x06; xa1; x13; x80; x1f; x11; x14; x80; x04; xa1; x13; x80;
  x7b; x0a; x14; x80; x02; xa1; x13; x80; xa3; x0b; x14; x80;
  x00; xa1; x13; x80; x22; x00; x14; x80; x10; xa1; x13; x80;
  xff; x00; x14; x80; x7c; xb8; x13; x80; x9b; x85; x14; x80;
  x7e; xb8; x13; x80; x85; xaf; x14; x80; xaf; xb3; x14; x80;
  x3b; x86; x14; x80; x86; xaf; x14; x80; xaf; x4c; x14; x80;
  x88; x86; x14; x80; x86; xaf; x14; x80; xaf; xce; x14; x80;
  x44; x87; x14; x80; x87; xaf; x14; x80; xaf; x68; x14; x80;
  x81; x87; x14; x80; x5e; xbf; x14; x80; x02; x72; x14; x80;
  x7e; x5f; x14; x80; x28; xac; x14; x80; xe1; x68; x14; x80;
  xe6; x84; x14; x80; x28; xad; x14; x80; xbf; x09; x14; x80;
  x75; x5e; x14; x80; x5f; x02; x14; x80; xac; x7e; x14; x80;
  x59; x2d; x14; x80; x8f; xe1; x14; x80; xad; xeb; x14; x80;
  x09; x28; x14; x80; x5e; xbf; x14; x80; x02; x75; x14; x80;
  x7e; x5f; x14; x80; x2e; xac; x14; x80; xe1; x50; x14; x80;
  xe6; x84; x14; x80; x28; xac; x14; x80; xbf; x08; x14; x80;
  x3e; x87; x14; x80; x5f; x02; x14; x80; xae; x3c; x14; x80;
  xbf; x06; x14; x80; x3e; x87; x14; x80; x5f; x02; x14; x80;
  xbf; x33; x14; x80; x41; x87; x14; x80; x5f; x02; x14; x80;
  xee; x33; x14; x80; xea; x8f; x14; x80; xe1; x02; x14; x80;
  xe4; x84; x14; x80; x28; xad; x14; x80; xe1; x14; x14; x80;
  xe8; x8f; x14; x80; x28; xad; x14; x80; xe1; x17; x14; x80;
  xe5; x84; x14; x80; xe5; x11; x14; x80; xe5; x84; x14; x80;
  x0c; xa1; x14; x80; xee; x04; x14; x80; xe5; x84; x14; x80;
  x02; x00; x14; x80; x77; x49; x14; x80; x84; xee; x14; x80;
  x03; xdc; x14; x80; x1d; xae; x14; x80; x8f; xe1; x14; x80;
  x11; xe8; x14; x80; x8f; xe5; x14; x80; xae; xe8; x14; x80;
  xbf; x14; x14; x80; x3e; x87; x14; x80; x5f; x02; x14; x80;
  xbf; x3c; x14; x80; x41; x87; x14; x80; x5f; x02; x14; x80;
  xee; x3c; x14; x80; xea; x8f; x14; x80; xee; x01; x14; x80;
  xe4; x84; x14; x80; xaf; x00; x14; x80; xc1; x50; x14; x80;
  x00; x1f; x14; x80; x5a; xbf; x14; x80; x02; x61; x14; x80;
  x5f; x5f; x14; x80; x5a; xbf; x14; x80; x02; x5e; x14; x80;
  x3c; x5f; x14; x80; x45; xaf; x14; x80; xe0; x7b; x14; x80;
  x12; x80; x14; x80; x23; xad; x14; x80; x1f; x14; x14; x80;
  x1f; x00; x14; x80; xd1; x22; x14; x80; xbf; x00; x14; x80;
  xcf; x3f; x14; x80; x61; x02; x14; x80; x12; x34; x14; x80;
  x04; xa2; x14; x80; xee; xf6; x14; x80; x17; x83; x14; x80;
  xe0; x00; x14; x80; x12; x80; x14; x80; x24; xad; x14; x80;
  x1f; x14; x14; x80; x1f; x00; x14; x80; xd1; x22; x14; x80;
  xbf; x00; x14; x80; xd7; x3f; x14; x80; x61; x02; x14; x80;
  x12; x34; x14; x80; x04; xa2; x14; x80; xee; xf6; x14; x80;
  x17; x83; x14; x80; xef; x00; x14; x80; xfe; x96; x14; x80;
  xfc; xfd; x14; x80; x42; xaf; x14; x80; x02; x98; x14; x80;
  xec; x56; x14; x80; x0b; xf7; x14; x80; x13; xac; x14; x80;
  xbf; x0f; x14; x80; x75; x5e; x14; x80; x5f; x02; x14; x80;
  xac; x7e; x14; x80; x0c; x28; x14; x80; xff; xe2; x14; x80;
  xad; xcf; x14; x80; xee; x32; x14; x80; x57; x02; x14; x80;
  xaf; x05; x14; x80; xa4; x00; x14; x80; x86; x02; x14; x80;
  xae; xaa; x14; x80; xf8; xef; x14; x80; xef; xf9; x14; x80;
  x02; x59; x14; x80; xe1; x1f; x14; x80; x59; xbf; x14; x80;
  x02; x4d; x14; x80; x3c; x5f; x14; x80; x13; xac; x14; x80;
  xbf; x09; x14; x80; x75; x5e; x14; x80; x5f; x02; x14; x80;
  xa1; x7e; x14; x80; xf4; x00; x14; x80; x59; xbf; x14; x80;
  x02; x4d; x14; x80; x33; x5f; x14; x80; x95; xef; x14; x80;
  xfc; xfd; x14; x80; xbf; x04; x14; x80; x72; x5e; x14; x80;
  x5f; x02; x14; x80; xac; x7e; x14; x80; x4a; x28; x14; x80;
  x84; xe1; x14; x80; xad; xe6; x14; x80; x09; x28; x14; x80;
  x5e; xbf; x14; x80; x02; x75; x14; x80; x7e; x5f; x14; x80;
  x2d; xac; x14; x80; xe1; x3b; x14; x80; xeb; x8f; x14; x80;
  x28; xad; x14; x80; xbf; x09; x14; x80; x75; x5e; x14; x80;
  x5f; x02; x14; x80; xac; x7e; x14; x80; x32; x2e; x14; x80;
  x84; xe1; x14; x80; xac; xe6; x14; x80; x08; x28; x14; x80;
  x87; xbf; x14; x80; x02; x3e; x14; x80; x3c; x5f; x14; x80;
  x06; xae; x14; x80; x87; xbf; x14; x80; x02; x3e; x14; x80;
  x33; x5f; x14; x80; x87; xbf; x14; x80; x02; x41; x14; x80;
  x33; x5f; x14; x80; x8f; xee; x14; x80; x04; xea; x14; x80;
  x5e; xbf; x14; x80; x02; x4e; x14; x80; x7e; x5f; x14; x80;
  x28; xad; x14; x80; x02; x1f; x14; x80; x12; x4b; x14; x80;
  x1a; xae; x14; x80; x87; xbf; x14; x80; x02; x3e; x14; x80;
  x3c; x5f; x14; x80; x87; xbf; x14; x80; x02; x41; x14; x80;
  x3c; x5f; x14; x80; x8f; xee; x14; x80; x03; xea; x14; x80;
  x5e; xbf; x14; x80; x02; x2a; x14; x80; x33; x5f; x14; x80;
  x84; xee; x14; x80; x01; xe7; x14; x80; x4a; xaf; x14; x80;
  x44; x74; x14; x80; x0e; xac; x14; x80; xac; x55; x14; x80;
  xbf; x0e; x14; x80; x75; x5e; x14; x80; x5f; x02; x14; x80;
  xad; x7e; x14; x80; x0b; x2d; x14; x80; x5e; xbf; x14; x80;
  xe1; x36; x14; x80; xe9; x8f; x14; x80; x5f; x02; x14; x80;
  xae; x5f; x14; x80; xbf; x09; x14; x80; x36; x5e; x14; x80;
  x84; xe1; x14; x80; x02; xe1; x14; x80; x5f; x5f; x14; x80;
  x8f; xee; x14; x80; x00; xe8; x14; x80; x49; xaf; x14; x80;
  xbf; xcd; x14; x80; x5c; x59; x14; x80; x5f; x02; x14; x80;
  xa1; x7e; x14; x80; x03; x02; x14; x80; x87; xaf; x14; x80;
  xd1; x79; x14; x80; xaf; x00; x14; x80; x7c; x87; x14; x80;
  x81; xe1; x14; x80; x1f; x94; x14; x80; xaf; x00; x14; x80;
  xf7; x3f; x14; x80; x4e; xac; x14; x80; xac; x06; x14; x80;
  x03; x40; x14; x80; x24; xaf; x14; x80; xaf; x97; x14; x80;
  x67; x24; x14; x80; x5e; xb8; x13; x80; x82; x50; x14; x80;
  x60; xb8; x13; x80; x75; x45; x14; x80; x62; xb8; x13; x80].

Definition rtl8125d_1_fw_6 : list byte := [
  x5f; x42; x14; x80; x64; xb8; x13; x80; x96; x00; x14; x80;
  x86; xb8; x13; x80; x44; x4a; x14; x80; x88; xb8; x13; x80;
  xc4; x49; x14; x80; x8a; xb8; x13; x80; xf2; x3f; x14; x80;
  x8c; xb8; x13; x80; x5c; x24; x14; x80; x38; xb8; x13; x80;
  xff; x00; x14; x80; x82; x0b; x1f; x80; x10; x00; x10; x80;
  x43; x0a; x1f; x80; x3d; x84; x13; x80; x84; xaf; x14; x80;
  xaf; xa6; x14; x80; x40; x85; x14; x80; x85; xaf; x14; x80;
  xaf; xae; x14; x80; xb5; x85; x14; x80; x87; xaf; x14; x80;
  xaf; x7d; x14; x80; x84; x87; x14; x80; x87; xaf; x14; x80;
  xaf; x87; x14; x80; xe5; x87; x14; x80; x66; x00; x14; x80;
  x03; x0a; x14; x80; x07; x66; x14; x80; x66; x26; x14; x80;
  x00; x1c; x14; x80; x0d; x66; x14; x80; x66; x01; x14; x80;
  x04; x10; x14; x80; x16; x66; x14; x80; x66; x05; x14; x80;
  x06; x1f; x14; x80; x5d; x6a; x14; x80; x66; x27; x14; x80;
  x00; x19; x14; x80; x25; x66; x14; x80; x66; x24; x14; x80;
  x20; x28; x14; x80; x2b; x66; x14; x80; x66; x24; x14; x80;
  x00; x46; x14; x80; x4c; x66; x14; x80; x66; x01; x14; x80;
  x02; x49; x14; x80; x61; x88; x14; x80; x88; x03; x14; x80;
  x05; x5e; x14; x80; x6d; x88; x14; x80; x88; x05; x14; x80;
  x05; x70; x14; x80; x73; x88; x14; x80; x88; x05; x14; x80;
  x05; x76; x14; x80; x79; x88; x14; x80; x88; x05; x14; x80;
  x05; x7c; x14; x80; x7f; x88; x14; x80; x88; x05; x14; x80;
  x05; x82; x14; x80; x85; x88; x14; x80; x88; x05; x14; x80;
  x1e; x88; x14; x80; xad; x13; x14; x80; x41; x28; x14; x80;
  x64; xbf; x14; x80; x02; xf1; x14; x80; x9d; x6b; x14; x80;
  x28; xad; x14; x80; xaf; x03; x14; x80; xfc; x15; x14; x80;
  x65; xbf; x14; x80; x02; xcb; x14; x80; x9d; x6b; x14; x80;
  x11; x0d; x14; x80; x2f; xf6; x14; x80; x31; xef; x14; x80;
  x02; xd2; x14; x80; x88; xbf; x14; x80; x02; x64; x14; x80;
  x52; x6b; x14; x80; x82; xe0; x14; x80; x0d; x02; x14; x80;
  xf6; x01; x14; x80; x1b; x27; x14; x80; xaa; x03; x14; x80;
  x82; x01; x14; x80; x82; xe0; x14; x80; x0d; x01; x14; x80;
  xf6; x01; x14; x80; x1b; x27; x14; x80; xaa; x03; x14; x80;
  x82; x07; x14; x80; x88; xbf; x14; x80; x02; x64; x14; x80;
  x5b; x6b; x14; x80; x15; xaf; x14; x80; xbf; xf9; x14; x80;
  xcb; x65; x14; x80; x6b; x02; x14; x80; x0d; x9d; x14; x80;
  xf6; x11; x14; x80; xef; x2f; x14; x80; xe0; x31; x14; x80;
  xf7; x8f; x14; x80; x01; x0d; x14; x80; x27; xf6; x14; x80;
  x03; x1b; x14; x80; x20; xaa; x14; x80; x8f; xe1; x14; x80;
  xd0; xf4; x14; x80; xbf; x00; x14; x80; x87; x65; x14; x80;
  x6b; x02; x14; x80; xe1; x7e; x14; x80; xf5; x8f; x14; x80;
  x65; xbf; x14; x80; x02; x8a; x14; x80; x7e; x6b; x14; x80;
  x8f; xe1; x14; x80; xbf; xf6; x14; x80; x84; x65; x14; x80;
  x6b; x02; x14; x80; xaf; x7e; x14; x80; xfc; x15; x14; x80;
  x8f; xe1; x14; x80; xd0; xf1; x14; x80; xbf; x00; x14; x80;
  x87; x65; x14; x80; x6b; x02; x14; x80; xe1; x7e; x14; x80;
  xf2; x8f; x14; x80; x65; xbf; x14; x80; x02; x8a; x14; x80;
  x7e; x6b; x14; x80; x8f; xe1; x14; x80; xbf; xf3; x14; x80;
  x84; x65; x14; x80; x15; xaf; x14; x80; xd1; xfc; x14; x80;
  xbf; x07; x14; x80; xce; x65; x14; x80; x6b; x02; x14; x80;
  xd1; x7e; x14; x80; xbf; x0c; x14; x80; xd1; x65; x14; x80;
  x6b; x02; x14; x80; xd1; x7e; x14; x80; xbf; x03; x14; x80;
  x5e; x88; x14; x80; x6b; x02; x14; x80; xd1; x7e; x14; x80;
  xbf; x05; x14; x80; x67; x88; x14; x80; x6b; x02; x14; x80;
  xd1; x7e; x14; x80; xbf; x07; x14; x80; x6a; x88; x14; x80;
  x6b; x02; x14; x80; xbf; x7e; x14; x80; x6c; x6a; x14; x80;
  x6b; x02; x14; x80; x02; x5b; x14; x80; xb5; x62; x14; x80;
  x6a; xbf; x14; x80; x02; x00; x14; x80; x5b; x6b; x14; x80;
  x64; xbf; x14; x80; x02; x4e; x14; x80; x9d; x6b; x14; x80;
  x28; xac; x14; x80; xbf; x0b; x14; x80; x12; x64; x14; x80;
  x6b; x02; x14; x80; xa1; x9d; x14; x80; x02; x05; x14; x80;
  xec; xae; x14; x80; x04; xd1; x14; x80; x65; xbf; x14; x80;
  x02; xce; x14; x80; x7e; x6b; x14; x80; x04; xd1; x14; x80;
  x65; xbf; x14; x80; x02; xd1; x14; x80; x7e; x6b; x14; x80;
  x02; xd1; x14; x80; x88; xbf; x14; x80; x02; x67; x14; x80;
  x7e; x6b; x14; x80; x04; xd1; x14; x80; x88; xbf; x14; x80;
  x02; x6a; x14; x80; x7e; x6b; x14; x80; x62; xaf; x14; x80;
  xf6; x72; x14; x80; xf6; x0a; x14; x80; xaf; x09; x14; x80;
  xe3; x34; x14; x80; x85; x02; x14; x80; x02; xbe; x14; x80;
  x6c; x10; x14; x80; x10; xaf; x14; x80; xf8; x6b; x14; x80;
  xef; xfa; x14; x80; xe0; x69; x14; x80; x4c; x80; x14; x80;
  x25; xac; x14; x80; xe0; x17; x14; x80; x40; x80; x14; x80;
  x25; xad; x14; x80; x02; x1a; x14; x80; xed; x85; x14; x80;
  x80; xe0; x14; x80; xac; x40; x14; x80; x11; x25; x14; x80;
  x87; xbf; x14; x80; x02; x65; x14; x80; x5b; x6b; x14; x80;
  x09; xae; x14; x80; x87; x02; x14; x80; x02; x24; x14; x80;
  x5a; x87; x14; x80; x87; x02; x14; x80; xef; x4f; x14; x80;
  xfe; x96; x14; x80; x04; xfc; x14; x80; xe0; xf8; x14; x80;
  x19; x80; x14; x80; x20; xad; x14; x80; xe0; x11; x14; x80;
  xe3; x8f; x14; x80; x20; xac; x14; x80; x02; x05; x14; x80;
  x0a; x86; x14; x80; x03; xae; x14; x80; x86; x02; x14; x80;
  x02; x78; x14; x80; xc1; x86; x14; x80; x87; x02; x14; x80;
  xfc; x4f; x14; x80; xf8; x04; x14; x80; xef; xf9; x14; x80;
  xfb; x79; x14; x80; x87; xbf; x14; x80; x02; x68; x14; x80;
  x9d; x6b; x14; x80; x20; x5c; x14; x80; x0d; x00; x14; x80;
  xa1; x4d; x14; x80; x51; x01; x14; x80; x87; xbf; x14; x80;
  x02; x68; x14; x80; x9d; x6b; x14; x80; x07; x5c; x14; x80;
  xe3; xff; x14; x80; xe4; x8f; x14; x80; x31; x1b; x14; x80;
  x41; x9f; x14; x80; x48; x0d; x14; x80; x8f; xe3; x14; x80;
  x1b; xe5; x14; x80; x9f; x31; x14; x80; xbf; x38; x14; x80;
  x6b; x87; x14; x80; x6b; x02; x14; x80; x5c; x9d; x14; x80;
  xff; x07; x14; x80; x8f; xe3; x14; x80; x1b; xe6; x14; x80;
  x9f; x31; x14; x80; x0d; x28; x14; x80; xe3; x48; x14; x80;
  xe7; x8f; x14; x80; x31; x1b; x14; x80; x1f; x9f; x14; x80;
  x87; xbf; x14; x80; x02; x6e; x14; x80; x9d; x6b; x14; x80;
  x07; x5c; x14; x80; xe3; xff; x14; x80; xe8; x8f; x14; x80;
  x31; x1b; x14; x80; x0f; x9f; x14; x80; x48; x0d; x14; x80;
  x8f; xe3; x14; x80; x1b; xe9; x14; x80; x9f; x31; x14; x80;
  xee; x06; x14; x80; xe3; x8f; x14; x80; xae; x01; x14; x80;
  xee; x04; x14; x80; xe3; x8f; x14; x80; xff; x00; x14; x80;
  x97; xef; x14; x80; xfc; xfd; x14; x80; xf8; x04; x14; x80;
  xef; xf9; x14; x80; xfb; x79; x14; x80; x87; xbf; x14; x80;
  x02; x68; x14; x80; x9d; x6b; x14; x80; x20; x5c; x14; x80;
  x0d; x00; x14; x80; xa1; x4d; x14; x80; x20; x00; x14; x80;
  x87; xbf; x14; x80; x02; x68; x14; x80; x9d; x6b; x14; x80;
  x06; x5c; x14; x80; x0d; x00; x14; x80; xe3; x49; x14; x80;
  xea; x8f; x14; x80; x31; x1b; x14; x80; x0e; x9f; x14; x80;
  x87; xbf; x14; x80; x02; x71; x14; x80; x5b; x6b; x14; x80;
  x87; xbf; x14; x80; x02; x77; x14; x80; x5b; x6b; x14; x80;
  x0c; xae; x14; x80; x87; xbf; x14; x80; x02; x71; x14; x80;
  x52; x6b; x14; x80; x87; xbf; x14; x80; x02; x77; x14; x80;
  x52; x6b; x14; x80; x8f; xee; x14; x80; x00; xe3; x14; x80;
  xef; xff; x14; x80; xfd; x97; x14; x80; x04; xfc; x14; x80;
  xf9; xf8; x14; x80; x79; xef; x14; x80; xbf; xfb; x14; x80;
  x68; x87; x14; x80; x6b; x02; x14; x80; x5c; x9d; x14; x80;
  x00; x20; x14; x80; x4d; x0d; x14; x80; x01; xa1; x14; x80;
  xbf; x4a; x14; x80; x68; x87; x14; x80; x6b; x02; x14; x80;
  x5c; x9d; x14; x80; xff; x07; x14; x80; x8f; xe3; x14; x80;
  x1b; xeb; x14; x80; x9f; x31; x14; x80; x0d; x3a; x14; x80;
  xe3; x48; x14; x80; xec; x8f; x14; x80; x31; x1b; x14; x80;
  x31; x9f; x14; x80; x87; xbf; x14; x80; x02; x6b; x14; x80;
  x9d; x6b; x14; x80; x8f; xe3; x14; x80; x1b; xed; x14; x80;
  x9f; x31; x14; x80; x0d; x24; x14; x80; xe3; x48; x14; x80;
  xee; x8f; x14; x80; x31; x1b; x14; x80; x1b; x9f; x14; x80;
  x87; xbf; x14; x80; x02; x6e; x14; x80; x9d; x6b; x14; x80;
  x8f; xe3; x14; x80; x1b; xef; x14; x80; x9f; x31; x14; x80;
  xbf; x0e; x14; x80; x74; x87; x14; x80; x6b; x02; x14; x80;
  xbf; x5b; x14; x80; x7a; x87; x14; x80; x6b; x02; x14; x80;
  xae; x5b; x14; x80; xff; x00; x14; x80; x97; xef; x14; x80;
  xfc; xfd; x14; x80; xf8; x04; x14; x80; x79; xef; x14; x80;
  xe0; xfb; x14; x80; x19; x80; x14; x80; x20; xad; x14; x80;
  xee; x1c; x14; x80; xe3; x8f; x14; x80; xbf; x00; x14; x80;
  x71; x87; x14; x80; x6b; x02; x14; x80; xbf; x52; x14; x80;
  x77; x87; x14; x80; x6b; x02; x14; x80; xbf; x52; x14; x80;
  x74; x87; x14; x80; x6b; x02; x14; x80; xbf; x52; x14; x80;
  x7a; x87; x14; x80; x6b; x02; x14; x80; xff; x52; x14; x80;
  x97; xef; x14; x80; x04; xfc; x14; x80; xe0; xf8; x14; x80;
  x40; x80; x14; x80; x25; xf6; x14; x80; x80; xe4; x14; x80;
  xfc; x40; x14; x80; xf8; x04; x14; x80; x80; xe0; x14; x80;
  xf6; x4c; x14; x80; xe4; x25; x14; x80; x4c; x80; x14; x80;
  x04; xfc; x14; x80; xa4; x55; x14; x80; xf0; xba; x14; x80;
  x4a; xa6; x14; x80; xa6; xf0; x14; x80; xf0; x4c; x14; x80;
  x4e; xa6; x14; x80; xa4; x66; x14; x80; x55; xb6; x14; x80;
  xb6; xa4; x14; x80; xac; x00; x14; x80; x66; x0e; x14; x80;
  x0e; xac; x14; x80; x80; xee; x14; x80; x3a; x4c; x14; x80;
  x07; xaf; x14; x80; xaf; xd0; x14; x80; xd0; x26; x14; x80;
  x01; xa2; x14; x80; xbf; x0e; x14; x80; x3d; x66; x14; x80;
  x6b; x02; x14; x80; xbf; x52; x14; x80; x43; x66; x14; x80].

Definition rtl8125d_1_fw_7 : list byte := [
  x6b; x02; x14; x80; xae; x52; x14; x80; xbf; x11; x14; x80;
  x43; x66; x14; x80; x6b; x02; x14; x80; xd4; x5b; x14; x80;
  x54; x00; x14; x80; xfe; xb4; x14; x80; x66; xbf; x14; x80;
  x02; x3d; x14; x80; x5b; x6b; x14; x80; x00; xd3; x14; x80;
  x0d; x02; x14; x80; xa2; xf6; x14; x80; x05; x04; x14; x80;
  x81; xe0; x14; x80; xae; x47; x14; x80; xe0; x03; x14; x80;
  x48; x81; x14; x80; x23; xac; x14; x80; xae; x02; x14; x80;
  x68; x02; x14; x80; x1a; xf0; x14; x80; xad; x10; x14; x80;
  x04; x2f; x14; x80; x00; xd1; x14; x80; x05; xae; x14; x80;
  x2c; xad; x14; x80; xd1; x02; x14; x80; x1f; x0f; x14; x80;
  xa2; x00; x14; x80; x07; x04; x14; x80; x08; x39; x14; x80;
  x2f; xad; x14; x80; xd1; x02; x14; x80; x02; x00; x14; x80;
  x1c; x0e; x14; x80; x01; x2b; x14; x80; x3a; xad; x14; x80;
  xaf; xc9; x14; x80; xee; x0d; x14; x80; x00; xa0; x14; x80;
  x02; x27; x14; x80; xeb; x1b; x14; x80; x8f; xe1; x14; x80;
  xac; xe1; x14; x80; x19; x28; x14; x80; x8f; xee; x14; x80;
  x01; xe1; x14; x80; x44; x1f; x14; x80; x65; xbf; x14; x80;
  x02; x93; x14; x80; x9d; x6b; x14; x80; x8f; xe5; x14; x80;
  x1f; xe2; x14; x80; xd1; x44; x14; x80; xbf; x02; x14; x80;
  x93; x65; x14; x80; x6b; x02; x14; x80; xe0; x7e; x14; x80;
  xb1; x82; x14; x80; x49; xae; x14; x80; x01; xa0; x14; x80;
  x02; x05; x14; x80; x4d; x1c; x14; x80; x41; xae; x14; x80;
  x02; xa0; x14; x80; x02; x05; x14; x80; x90; x1c; x14; x80;
  x39; xae; x14; x80; x03; xa0; x14; x80; x02; x05; x14; x80;
  x9d; x1c; x14; x80; x31; xae; x14; x80; x04; xa0; x14; x80;
  x02; x05; x14; x80; xbc; x1c; x14; x80; x29; xae; x14; x80;
  x05; xa0; x14; x80; x02; x1e; x14; x80; xc9; x1c; x14; x80;
  x80; xe0; x14; x80; xac; xdf; x14; x80; x13; x20; x14; x80;
  x21; xac; x14; x80; xac; x10; x14; x80; x0d; x22; x14; x80;
  x8f; xe1; x14; x80; xbf; xe2; x14; x80; x93; x65; x14; x80;
  x6b; x02; x14; x80; xee; x7e; x14; x80; xe1; x8f; x14; x80;
  xae; x00; x14; x80; xa0; x08; x14; x80; x05; x06; x14; x80;
  x1d; x02; x14; x80; xae; x07; x14; x80; xe0; x00; x14; x80;
  xb1; x82; x14; x80; x1b; xaf; x14; x80; x10; xe9; x14; x80;
  x4a; xbf; x14; x80; xbf; x99; x14; x80; x00; x4a; x14; x80;
  x6a; xa8; x14; x80; xad; xfd; x14; x80; xca; x5e; x14; x80;
  x5e; xad; x14; x80; xbd; x88; x14; x80; x99; x2c; x14; x80;
  x2c; xbd; x14; x80; xbd; x33; x14; x80; x22; x32; x14; x80;
  x32; xbd; x14; x80; xbd; x11; x14; x80; x00; x32; x14; x80;
  x32; xbd; x14; x80; xbd; x77; x14; x80; x66; x32; x14; x80;
  x32; xbd; x14; x80; xbd; x55; x14; x80; x44; x32; x14; x80;
  x32; xbd; x14; x80; x18; xb8; x13; x80; xc5; x15; x14; x80;
  x1a; xb8; x13; x80; x55; x62; x14; x80; x1c; xb8; x13; x80;
  xe1; x34; x14; x80; x1e; xb8; x13; x80; x68; x10; x14; x80;
  x50; xb8; x13; x80; xcc; x07; x14; x80; x52; xb8; x13; x80;
  xca; x26; x14; x80; x78; xb8; x13; x80; xbf; x0d; x14; x80;
  x84; xb8; x13; x80; xb1; x1b; x14; x80; x32; xb8; x13; x80;
  xff; x00; x14; x80; x00; x00; x13; x80; x00; x00; x14; x80;
  x82; x0b; x1f; x80; x00; x00; x17; x80; x43; x0a; x1f; x80;
  x23; x80; x13; x80; x00; x00; x14; x80; x1e; x80; x13; x80;
  x31; x00; x14; x80; x82; x0b; x1f; x80; x00; x00; x10; x80;
  x82; x0b; x1f; x80; x00; x00; x10; x00; xef; xff; x00; x20;
  x00; x00; x10; xc0; x80; x0b; x1f; x80; x00; x00; x00; x70;
  x01; x00; x00; xe0; x00; x00; x10; x00; x40; x00; x00; x20;
  x40; x00; x02; xa0; x64; x00; x00; x90; x00; x00; x05; x30;
  x82; x0b; x1f; x80; x00; x00; x10; x00; x10; x00; x00; x10;
  x00; x00; x10; xc0; x80; x0b; x1f; x80; x00; x00; x00; x70;
  x01; x00; x00; xe0; x00; x00; x10; x00; x40; x00; x00; x20;
  x40; x00; x02; xa0; x64; x00; x00; x90; x00; x00; x05; x30;
  x89; x0b; x1f; x80; x00; x00; x11; x80; x88; x0b; x1f; x80;
  x8f; xc2; x17; x80; x89; x0b; x1f; x80; x2d; x25; x10; x80;
  x88; x0b; x1f; x80; x90; xc2; x17; x80; x89; x0b; x1f; x80;
  x24; xc9; x10; x80; x88; x0b; x1f; x80; x91; xc2; x17; x80;
  x89; x0b; x1f; x80; x2e; xc9; x10; x80; x88; x0b; x1f; x80;
  x92; xc2; x17; x80; x89; x0b; x1f; x80; x26; xf6; x10; x80;
  x88; x0b; x1f; x80; x93; xc2; x17; x80; x89; x0b; x1f; x80;
  x30; xf6; x10; x80; x88; x0b; x1f; x80; x94; xc2; x17; x80;
  x89; x0b; x1f; x80; x28; xa3; x10; x80; x88; x0b; x1f; x80;
  x95; xc2; x17; x80; x89; x0b; x1f; x80; x32; xa3; x10; x80;
  x88; x0b; x1f; x80; x96; xc2; x17; x80; x89; x0b; x1f; x80;
  x2b; xd7; x10; x80; x88; x0b; x1f; x80; x97; xc2; x17; x80;
  x89; x0b; x1f; x80; x35; xd7; x10; x80; x88; x0b; x1f; x80;
  x98; xc2; x17; x80; x89; x0b; x1f; x80; x2e; x8a; x10; x80;
  x88; x0b; x1f; x80; x99; xc2; x17; x80; x89; x0b; x1f; x80;
  x38; x8a; x10; x80; x88; x0b; x1f; x80; x9a; xc2; x17; x80;
  x89; x0b; x1f; x80; x32; xbe; x10; x80; x88; x0b; x1f; x80;
  x9b; xc2; x17; x80; x89; x0b; x1f; x80; x3c; xbe; x10; x80;
  x88; x0b; x1f; x80; x9c; xc2; x17; x80; x89; x0b; x1f; x80;
  x36; x74; x10; x80; x88; x0b; x1f; x80; x9d; xc2; x17; x80;
  x89; x0b; x1f; x80; x40; x74; x10; x80; x88; x0b; x1f; x80;
  x9e; xc2; x17; x80; x89; x0b; x1f; x80; x3b; xad; x10; x80;
  x88; x0b; x1f; x80; x9f; xc2; x17; x80; x89; x0b; x1f; x80;
  x45; xad; x10; x80; x88; x0b; x1f; x80; xa0; xc2; x17; x80;
  x89; x0b; x1f; x80; x40; x66; x10; x80; x88; x0b; x1f; x80;
  xa1; xc2; x17; x80; x89; x0b; x1f; x80; x4a; x66; x10; x80;
  x88; x0b; x1f; x80; xa2; xc2; x17; x80; x89; x0b; x1f; x80;
  x46; xa6; x10; x80; x88; x0b; x1f; x80; xa3; xc2; x17; x80;
  x89; x0b; x1f; x80; x50; xa6; x10; x80; x88; x0b; x1f; x80;
  xa4; xc2; x17; x80; x89; x0b; x1f; x80; x4c; x62; x10; x80;
  x88; x0b; x1f; x80; xa5; xc2; x17; x80; x89; x0b; x1f; x80;
  x56; x62; x10; x80; x88; x0b; x1f; x80; xa6; xc2; x17; x80;
  x89; x0b; x1f; x80; x53; xa4; x10; x80; x88; x0b; x1f; x80;
  xa7; xc2; x17; x80; x89; x0b; x1f; x80; x5d; xa4; x10; x80;
  x88; x0b; x1f; x80; xa8; xc2; x17; x80; x89; x0b; x1f; x80;
  x5a; x66; x10; x80; x88; x0b; x1f; x80; xa9; xc2; x17; x80;
  x89; x0b; x1f; x80; x64; x66; x10; x80; x88; x0b; x1f; x80;
  xaa; xc2; x17; x80; x89; x0b; x1f; x80; x62; xac; x10; x80;
  x88; x0b; x1f; x80; xab; xc2; x17; x80; x89; x0b; x1f; x80;
  x6c; xac; x10; x80; x88; x0b; x1f; x80; xac; xc2; x17; x80;
  x89; x0b; x1f; x80; x6a; x74; x10; x80; x88; x0b; x1f; x80;
  xad; xc2; x17; x80; x89; x0b; x1f; x80; x74; x74; x10; x80;
  x88; x0b; x1f; x80; xae; xc2; x17; x80; x89; x0b; x1f; x80;
  xfa; xbc; x10; x80; x88; x0b; x1f; x80; xaf; xc2; x17; x80;
  x89; x0b; x1f; x80; xfd; xbc; x10; x80; x88; x0b; x1f; x80;
  xb0; xc2; x17; x80; x89; x0b; x1f; x80; xff; x79; x10; x80;
  x88; x0b; x1f; x80; xb1; xc2; x17; x80; x89; x0b; x1f; x80;
  x01; x79; x10; x80; x88; x0b; x1f; x80; xb2; xc2; x17; x80;
  x89; x0b; x1f; x80; x03; xf7; x10; x80; x88; x0b; x1f; x80;
  xb3; xc2; x17; x80; x89; x0b; x1f; x80; x06; xf7; x10; x80;
  x88; x0b; x1f; x80; xb4; xc2; x17; x80; x89; x0b; x1f; x80;
  x08; x74; x10; x80; x88; x0b; x1f; x80; xb5; xc2; x17; x80;
  x89; x0b; x1f; x80; x0a; x74; x10; x80; x88; x0b; x1f; x80;
  xb6; xc2; x17; x80; x89; x0b; x1f; x80; x0c; xf1; x10; x80;
  x88; x0b; x1f; x80; xb7; xc2; x17; x80; x89; x0b; x1f; x80;
  x0f; xf1; x10; x80; x88; x0b; x1f; x80; xb8; xc2; x17; x80;
  x89; x0b; x1f; x80; x10; x6f; x10; x80; x88; x0b; x1f; x80;
  xb9; xc2; x17; x80; x89; x0b; x1f; x80; x13; x6f; x10; x80;
  x88; x0b; x1f; x80; xba; xc2; x17; x80; x89; x0b; x1f; x80;
  x15; xec; x10; x80; x88; x0b; x1f; x80; xbb; xc2; x17; x80;
  x89; x0b; x1f; x80; x18; xec; x10; x80; x88; x0b; x1f; x80;
  xbc; xc2; x17; x80; x89; x0b; x1f; x80; x1a; x6a; x10; x80;
  x88; x0b; x1f; x80; xbd; xc2; x17; x80; x89; x0b; x1f; x80;
  x1c; x6a; x10; x80; x88; x0b; x1f; x80; xbe; xc2; x17; x80;
  x89; x0b; x1f; x80; x1e; xe7; x10; x80; x88; x0b; x1f; x80;
  xbf; xc2; x17; x80; x89; x0b; x1f; x80; x21; xe7; x10; x80;
  x88; x0b; x1f; x80; xc0; xc2; x17; x80; x89; x0b; x1f; x80;
  x24; x64; x10; x80; x88; x0b; x1f; x80; xc1; xc2; x17; x80;
  x89; x0b; x1f; x80; x25; x64; x10; x80; x88; x0b; x1f; x80;
  xc2; xc2; x17; x80; x89; x0b; x1f; x80; x28; xe2; x10; x80;
  x88; x0b; x1f; x80; xc3; xc2; x17; x80; x89; x0b; x1f; x80;
  x2a; xe2; x10; x80; x88; x0b; x1f; x80; xc4; xc2; x17; x80;
  x89; x0b; x1f; x80; x2b; x5f; x10; x80; x88; x0b; x1f; x80;
  xc5; xc2; x17; x80; x89; x0b; x1f; x80; x2e; x5f; x10; x80;
  x88; x0b; x1f; x80; xc6; xc2; x17; x80; x89; x0b; x1f; x80;
  x31; xdc; x10; x80; x88; x0b; x1f; x80; xc7; xc2; x17; x80;
  x89; x0b; x1f; x80; x33; xdc; x10; x80; x88; x0b; x1f; x80;
  xc8; xc2; x17; x80; x89; x0b; x1f; x80; x35; x20; x10; x80;
  x88; x0b; x1f; x80; xc9; xc2; x17; x80; x89; x0b; x1f; x80;
  x36; x20; x10; x80; x88; x0b; x1f; x80; xca; xc2; x17; x80;
  x89; x0b; x1f; x80; x3a; x9f; x10; x80; x88; x0b; x1f; x80;
  xcb; xc2; x17; x80; x89; x0b; x1f; x80; x3a; x9f; x10; x80;
  x88; x0b; x1f; x80; xcc; xc2; x17; x80; x89; x0b; x1f; x80;
  x30; x44; x10; x80; x82; x0b; x1f; x80; x00; x00; x10; x00;
  xef; xff; x00; x20; x00; x00; x10; xc0; x80; x0b; x1f; x80;
  x00; x00; x00; x70; x01; x00; x00; xe0; x00; x00; x10; x00;
  x40; x00; x00; x20; x40; x00; x02; xa0; x64; x00; x00; x90;
  x00; x00; x05; x30; x82; x0b; x1f; x80; x00; x00; x10; x00;
  x10; x00; x00; x10; x00; x00; x10; xc0; x80; x0b; x1f; x80].

Definition rtl8125d_1_fw_8 : list byte := [
  x00; x00; x00; x70; x01; x00; x00; xe0; x00; x00; x10; x00;
  x40; x00; x00; x20; x40; x00; x02; xa0; x64; x00; x00; x90;
  x00; x00; x05; x30; x43; x0a; x1f; x80; xca; xac; x13; x80;
  x04; x01; x14; x80; xcc; xac; x13; x80; x00; x80; x14; x80;
  xce; xac; x13; x80; xff; xff; x14; x80; xd0; xac; x13; x80;
  xff; x0f; x14; x80; xce; xac; x13; x80; x47; xfd; x14; x80;
  xd0; xac; x13; x80; xff; x0f; x14; x80; xce; xac; x13; x80;
  xff; xff; x14; x80; xd0; xac; x13; x80; xff; x07; x14; x80;
  xce; xac; x13; x80; x6f; xe5; x14; x80; xd0; xac; x13; x80;
  xc0; x01; x14; x80; xce; xac; x13; x80; xff; xff; x14; x80;
  xd0; xac; x13; x80; xff; x07; x14; x80; xce; xac; x13; x80;
  x97; xed; x14; x80; xd0; xac; x13; x80; xc8; x01; x14; x80;
  xce; xac; x13; x80; xff; xff; x14; x80; xd0; xac; x13; x80;
  xff; x07; x14; x80; xce; xac; x13; x80; xbf; xf5; x14; x80;
  xd0; xac; x13; x80; xd0; x01; x14; x80; xce; xac; x13; x80;
  x07; xfb; x14; x80; xd0; xac; x13; x80; xff; x07; x14; x80;
  xce; xac; x13; x80; x0f; xfb; x14; x80; xd0; xac; x13; x80;
  xd8; x01; x14; x80; xce; xac; x13; x80; x87; xa0; x14; x80;
  xd0; xac; x13; x80; x80; x01; x14; x80; xce; xac; x13; x80;
  x0f; xa0; x14; x80; xd0; xac; x13; x80; x08; x01; x14; x80;
  xce; xac; x13; x80; x07; xa8; x14; x80; xd0; xac; x13; x80;
  x00; x01; x14; x80; xce; xac; x13; x80; x8f; xa8; x14; x80;
  xd0; xac; x13; x80; x88; x01; x14; x80; xce; xac; x13; x80;
  x27; xb0; x14; x80; xd0; xac; x13; x80; x20; x01; x14; x80;
  xce; xac; x13; x80; x2f; xb0; x14; x80; xd0; xac; x13; x80;
  x28; x01; x14; x80; xce; xac; x13; x80; x47; xb8; x14; x80;
  xd0; xac; x13; x80; x40; x01; x14; x80; xce; xac; x13; x80;
  x4f; xb8; x14; x80; xd0; xac; x13; x80; x48; x01; x14; x80;
  xce; xac; x13; x80; x17; xfb; x14; x80; xd0; xac; x13; x80;
  xff; x07; x14; x80; xce; xac; x13; x80; x1f; xfb; x14; x80;
  xd0; xac; x13; x80; xff; x07; x14; x80; xce; xac; x13; x80;
  x17; xa0; x14; x80; xd0; xac; x13; x80; x10; x01; x14; x80;
  xce; xac; x13; x80; x1f; xa0; x14; x80; xd0; xac; x13; x80;
  x18; x01; x14; x80; xce; xac; x13; x80; x37; xa8; x14; x80;
  xd0; xac; x13; x80; x30; x01; x14; x80; xce; xac; x13; x80;
  x3f; xa8; x14; x80; xd0; xac; x13; x80; x38; x01; x14; x80;
  xce; xac; x13; x80; x97; xb0; x14; x80; xd0; xac; x13; x80;
  x90; x01; x14; x80; xce; xac; x13; x80; x5f; xb0; x14; x80;
  xd0; xac; x13; x80; x58; x01; x14; x80; xce; xac; x13; x80;
  x57; xb8; x14; x80; xd0; xac; x13; x80; x50; x01; x14; x80;
  xce; xac; x13; x80; x9f; xb8; x14; x80; xd0; xac; x13; x80;
  x98; x01; x14; x80; xce; xac; x13; x80; x27; xfb; x14; x80;
  xd0; xac; x13; x80; xff; x07; x14; x80; xce; xac; x13; x80;
  x2f; xfb; x14; x80; xd0; xac; x13; x80; xff; x07; x14; x80;
  xce; xac; x13; x80; x87; x80; x14; x80; xd0; xac; x13; x80;
  x80; x01; x14; x80; xce; xac; x13; x80; x0f; x80; x14; x80;
  xd0; xac; x13; x80; x08; x01; x14; x80; xce; xac; x13; x80;
  x07; x88; x14; x80; xd0; xac; x13; x80; x00; x01; x14; x80;
  xce; xac; x13; x80; x8f; x88; x14; x80; xd0; xac; x13; x80;
  x88; x01; x14; x80; xce; xac; x13; x80; x27; x90; x14; x80;
  xd0; xac; x13; x80; x20; x01; x14; x80; xce; xac; x13; x80;
  x2f; x90; x14; x80; xd0; xac; x13; x80; x28; x01; x14; x80;
  xce; xac; x13; x80; x47; x98; x14; x80; xd0; xac; x13; x80;
  x40; x01; x14; x80; xce; xac; x13; x80; x4f; x98; x14; x80;
  xd0; xac; x13; x80; x48; x01; x14; x80; xce; xac; x13; x80;
  xa7; xa0; x14; x80; xd0; xac; x13; x80; xa0; x01; x14; x80;
  xce; xac; x13; x80; xaf; xa8; x14; x80; xd0; xac; x13; x80;
  xa8; x01; x14; x80; xce; xac; x13; x80; x67; xa0; x14; x80;
  xd0; xac; x13; x80; x61; x01; x14; x80; xce; xac; x13; x80;
  x6f; xa8; x14; x80; xd0; xac; x13; x80; x69; x01; x14; x80;
  xce; xac; x13; x80; x37; xfb; x14; x80; xd0; xac; x13; x80;
  xff; x07; x14; x80; xce; xac; x13; x80; x3f; xfb; x14; x80;
  xd0; xac; x13; x80; xff; x07; x14; x80; xce; xac; x13; x80;
  x17; x80; x14; x80; xd0; xac; x13; x80; x10; x01; x14; x80;
  xce; xac; x13; x80; x1f; x80; x14; x80; xd0; xac; x13; x80;
  x18; x01; x14; x80; xce; xac; x13; x80; x37; x88; x14; x80;
  xd0; xac; x13; x80; x30; x01; x14; x80; xce; xac; x13; x80;
  x3f; x88; x14; x80; xd0; xac; x13; x80; x38; x01; x14; x80;
  xce; xac; x13; x80; x97; x90; x14; x80; xd0; xac; x13; x80;
  x90; x01; x14; x80; xce; xac; x13; x80; x5f; x90; x14; x80;
  xd0; xac; x13; x80; x58; x01; x14; x80; xce; xac; x13; x80;
  x57; x98; x14; x80; xd0; xac; x13; x80; x50; x01; x14; x80;
  xce; xac; x13; x80; x9f; x98; x14; x80; xd0; xac; x13; x80;
  x98; x01; x14; x80; xce; xac; x13; x80; xb7; xb0; x14; x80;
  xd0; xac; x13; x80; xb0; x01; x14; x80; xce; xac; x13; x80;
  xbf; xb8; x14; x80; xd0; xac; x13; x80; xb8; x01; x14; x80;
  xce; xac; x13; x80; x77; xb0; x14; x80; xd0; xac; x13; x80;
  x71; x01; x14; x80; xce; xac; x13; x80; x7f; xb8; x14; x80;
  xd0; xac; x13; x80; x79; x01; x14; x80; xce; xac; x13; x80;
  x47; xfb; x14; x80; xd0; xac; x13; x80; xff; x07; x14; x80;
  xce; xac; x13; x80; x4f; xfb; x14; x80; xd0; xac; x13; x80;
  xff; x07; x14; x80; xce; xac; x13; x80; x87; x60; x14; x80;
  xd0; xac; x13; x80; x80; x01; x14; x80; xce; xac; x13; x80;
  x0f; x60; x14; x80; xd0; xac; x13; x80; x08; x01; x14; x80;
  xce; xac; x13; x80; x07; x68; x14; x80; xd0; xac; x13; x80;
  x00; x01; x14; x80; xce; xac; x13; x80; x8f; x68; x14; x80;
  xd0; xac; x13; x80; x88; x01; x14; x80; xce; xac; x13; x80;
  x27; x70; x14; x80; xd0; xac; x13; x80; x20; x01; x14; x80;
  xce; xac; x13; x80; x2f; x70; x14; x80; xd0; xac; x13; x80;
  x28; x01; x14; x80; xce; xac; x13; x80; x47; x78; x14; x80;
  xd0; xac; x13; x80; x40; x01; x14; x80; xce; xac; x13; x80;
  x4f; x78; x14; x80; xd0; xac; x13; x80; x48; x01; x14; x80;
  xce; xac; x13; x80; xa7; x80; x14; x80; xd0; xac; x13; x80;
  xa0; x01; x14; x80; xce; xac; x13; x80; xaf; x88; x14; x80;
  xd0; xac; x13; x80; xa8; x01; x14; x80; xce; xac; x13; x80;
  x67; x80; x14; x80; xd0; xac; x13; x80; x61; x01; x14; x80;
  xce; xac; x13; x80; x6f; x88; x14; x80; xd0; xac; x13; x80;
  x69; x01; x14; x80; xce; xac; x13; x80; x57; xfb; x14; x80;
  xd0; xac; x13; x80; xff; x07; x14; x80; xce; xac; x13; x80;
  x5f; xfb; x14; x80; xd0; xac; x13; x80; xff; x07; x14; x80;
  xce; xac; x13; x80; x17; x60; x14; x80; xd0; xac; x13; x80;
  x10; x01; x14; x80; xce; xac; x13; x80; x1f; x60; x14; x80;
  xd0; xac; x13; x80; x18; x01; x14; x80; xce; xac; x13; x80;
  x37; x68; x14; x80; xd0; xac; x13; x80; x30; x01; x14; x80;
  xce; xac; x13; x80; x3f; x68; x14; x80; xd0; xac; x13; x80;
  x38; x01; x14; x80; xce; xac; x13; x80; x97; x70; x14; x80;
  xd0; xac; x13; x80; x90; x01; x14; x80; xce; xac; x13; x80;
  x5f; x70; x14; x80; xd0; xac; x13; x80; x58; x01; x14; x80;
  xce; xac; x13; x80; x57; x78; x14; x80; xd0; xac; x13; x80;
  x50; x01; x14; x80; xce; xac; x13; x80; x9f; x78; x14; x80;
  xd0; xac; x13; x80; x98; x01; x14; x80; xce; xac; x13; x80;
  xb7; x90; x14; x80; xd0; xac; x13; x80; xb0; x01; x14; x80;
  xce; xac; x13; x80; xbf; x98; x14; x80; xd0; xac; x13; x80;
  xb8; x01; x14; x80; xce; xac; x13; x80; x77; x90; x14; x80;
  xd0; xac; x13; x80; x71; x01; x14; x80; xce; xac; x13; x80;
  x7f; x98; x14; x80; xd0; xac; x13; x80; x79; x01; x14; x80;
  xce; xac; x13; x80; x67; xfb; x14; x80; xd0; xac; x13; x80;
  xff; x07; x14; x80; xce; xac; x13; x80; x6f; xfb; x14; x80;
  xd0; xac; x13; x80; xff; x07; x14; x80; xce; xac; x13; x80;
  x87; x40; x14; x80; xd0; xac; x13; x80; x80; x01; x14; x80;
  xce; xac; x13; x80; x0f; x40; x14; x80; xd0; xac; x13; x80;
  x08; x01; x14; x80; xce; xac; x13; x80; x07; x48; x14; x80;
  xd0; xac; x13; x80; x00; x01; x14; x80; xce; xac; x13; x80;
  x8f; x48; x14; x80; xd0; xac; x13; x80; x88; x01; x14; x80;
  xce; xac; x13; x80; x27; x50; x14; x80; xd0; xac; x13; x80;
  x20; x01; x14; x80; xce; xac; x13; x80; x2f; x50; x14; x80;
  xd0; xac; x13; x80; x28; x01; x14; x80; xce; xac; x13; x80;
  x47; x58; x14; x80; xd0; xac; x13; x80; x40; x01; x14; x80;
  xce; xac; x13; x80; x4f; x58; x14; x80; xd0; xac; x13; x80;
  x48; x01; x14; x80; xce; xac; x13; x80; xa7; x60; x14; x80;
  xd0; xac; x13; x80; xa0; x01; x14; x80; xce; xac; x13; x80;
  xaf; x68; x14; x80; xd0; xac; x13; x80; xa8; x01; x14; x80;
  xce; xac; x13; x80; x67; x60; x14; x80; xd0; xac; x13; x80;
  x61; x01; x14; x80; xce; xac; x13; x80; x6f; x68; x14; x80;
  xd0; xac; x13; x80; x69; x01; x14; x80; xce; xac; x13; x80;
  x77; xfb; x14; x80; xd0; xac; x13; x80; xff; x07; x14; x80;
  xce; xac; x13; x80; x7f; xfb; x14; x80; xd0; xac; x13; x80;
  xff; x07; x14; x80; xce; xac; x13; x80; x17; x40; x14; x80;
  xd0; xac; x13; x80; x10; x01; x14; x80; xce; xac; x13; x80;
  x1f; x40; x14; x80; xd0; xac; x13; x80; x18; x01; x14; x80;
  xce; xac; x13; x80; x37; x48; x14; x80; xd0; xac; x13; x80;
  x30; x01; x14; x80; xce; xac; x13; x80; x3f; x48; x14; x80;
  xd0; xac; x13; x80; x38; x01; x14; x80; xce; xac; x13; x80;
  x97; x50; x14; x80; xd0; xac; x13; x80; x90; x01; x14; x80;
  xce; xac; x13; x80; x5f; x50; x14; x80; xd0; xac; x13; x80;
  x58; x01; x14; x80; xce; xac; x13; x80; x57; x58; x14; x80;
  xd0; xac; x13; x80; x50; x01; x14; x80; xce; xac; x13; x80;
  x9f; x58; x14; x80; xd0; xac; x13; x80; x98; x01; x14; x80].

Definition rtl8125d_1_fw_9 : list byte := [
  xce; xac; x13; x80; xb7; x70; x14; x80; xd0; xac; x13; x80;
  xb0; x01; x14; x80; xce; xac; x13; x80; xbf; x78; x14; x80;
  xd0; xac; x13; x80; xb8; x01; x14; x80; xce; xac; x13; x80;
  x77; x70; x14; x80; xd0; xac; x13; x80; x71; x01; x14; x80;
  xce; xac; x13; x80; x7f; x78; x14; x80; xd0; xac; x13; x80;
  x79; x01; x14; x80; xce; xac; x13; x80; x87; xfb; x14; x80;
  xd0; xac; x13; x80; xff; x07; x14; x80; xce; xac; x13; x80;
  x8f; xfb; x14; x80; xd0; xac; x13; x80; xff; x07; x14; x80;
  xce; xac; x13; x80; xa7; x40; x14; x80; xd0; xac; x13; x80;
  xa0; x01; x14; x80; xce; xac; x13; x80; xaf; x48; x14; x80;
  xd0; xac; x13; x80; xa8; x01; x14; x80; xce; xac; x13; x80;
  x67; x40; x14; x80; xd0; xac; x13; x80; x61; x01; x14; x80;
  xce; xac; x13; x80; x6f; x48; x14; x80; xd0; xac; x13; x80;
  x69; x01; x14; x80; xce; xac; x13; x80; x97; xfb; x14; x80;
  xd0; xac; x13; x80; xff; x07; x14; x80; xce; xac; x13; x80;
  x9f; xfb; x14; x80; xd0; xac; x13; x80; xff; x07; x14; x80;
  xce; xac; x13; x80; xb7; x50; x14; x80; xd0; xac; x13; x80;
  xb0; x01; x14; x80; xce; xac; x13; x80; xbf; x58; x14; x80;
  xd0; xac; x13; x80; xb8; x01; x14; x80; xce; xac; x13; x80;
  x77; x50; x14; x80; xd0; xac; x13; x80; x71; x01; x14; x80;
  xce; xac; x13; x80; x7f; x58; x14; x80; xd0; xac; x13; x80;
  x79; x01; x14; x80; xce; xac; x13; x80; xa7; xfb; x14; x80;
  xd0; xac; x13; x80; xff; x07; x14; x80; xce; xac; x13; x80;
  xaf; xfb; x14; x80; xd0; xac; x13; x80; xff; x07; x14; x80;
  xce; xac; x13; x80; x67; x20; x14; x80; xd0; xac; x13; x80;
  x61; x01; x14; x80; xce; xac; x13; x80; x6f; x28; x14; x80;
  xd0; xac; x13; x80; x69; x01; x14; x80; xce; xac; x13; x80;
  xb7; xfb; x14; x80; xd0; xac; x13; x80; xff; x07; x14; x80;
  xce; xac; x13; x80; xbf; xfb; x14; x80; xd0; xac; x13; x80;
  xff; x07; x14; x80; xce; xac; x13; x80; x77; x30; x14; x80;
  xd0; xac; x13; x80; x71; x01; x14; x80; xce; xac; x13; x80;
  x7f; x38; x14; x80; xd0; xac; x13; x80; x79; x01; x14; x80;
  xce; xac; x13; x80; xf9; xff; x14; x80; xd0; xac; x13; x80;
  xff; x17; x14; x80; xce; xac; x13; x80; xf9; xff; x14; x80;
  xd0; xac; x13; x80; xff; x17; x14; x80; xce; xac; x13; x80;
  xff; xff; x14; x80; xd0; xac; x13; x80; xff; x0f; x14; x80;
  xce; xac; x13; x80; xf8; xff; x14; x80; xd0; xac; x13; x80;
  xff; x0f; x14; x80; xce; xac; x13; x80; xff; xff; x14; x80;
  xd0; xac; x13; x80; xff; x07; x14; x80; xce; xac; x13; x80;
  xff; xff; x14; x80; xd0; xac; x13; x80; xff; x07; x14; x80;
  xce; xac; x13; x80; xff; xff; x14; x80; xd0; xac; x13; x80;
  xff; x07; x14; x80; xce; xac; x13; x80; xff; xff; x14; x80;
  xd0; xac; x13; x80; xff; x07; x14; x80; xce; xac; x13; x80;
  xff; xff; x14; x80; xd0; xac; x13; x80; xff; x07; x14; x80;
  xce; xac; x13; x80; xff; xff; x14; x80; xd0; xac; x13; x80;
  xff; x07; x14; x80; xce; xac; x13; x80; xff; xff; x14; x80;
  xd0; xac; x13; x80; xff; x07; x14; x80; xce; xac; x13; x80;
  xff; xff; x14; x80; xd0; xac; x13; x80; xff; x07; x14; x80;
  xce; xac; x13; x80; xff; xff; x14; x80; xd0; xac; x13; x80;
  xff; x07; x14; x80; xce; xac; x13; x80; xff; xff; x14; x80;
  xd0; xac; x13; x80; xff; x07; x14; x80; xce; xac; x13; x80;
  x47; xfb; x14; x80; xd0; xac; x13; x80; xff; x07; x14; x80;
  xce; xac; x13; x80; x4f; xfb; x14; x80; xd0; xac; x13; x80;
  xff; x07; x14; x80; xce; xac; x13; x80; x87; x60; x14; x80;
  xd0; xac; x13; x80; x80; x01; x14; x80; xce; xac; x13; x80;
  x0f; x60; x14; x80; xd0; xac; x13; x80; x08; x01; x14; x80;
  xce; xac; x13; x80; x07; x68; x14; x80; xd0; xac; x13; x80;
  x00; x01; x14; x80; xce; xac; x13; x80; x8f; x68; x14; x80;
  xd0; xac; x13; x80; x88; x01; x14; x80; xce; xac; x13; x80;
  x27; x70; x14; x80; xd0; xac; x13; x80; x20; x01; x14; x80;
  xce; xac; x13; x80; x2f; x70; x14; x80; xd0; xac; x13; x80;
  x28; x01; x14; x80; xce; xac; x13; x80; x47; x78; x14; x80;
  xd0; xac; x13; x80; x40; x01; x14; x80; xce; xac; x13; x80;
  x4f; x78; x14; x80; xd0; xac; x13; x80; x48; x01; x14; x80;
  xce; xac; x13; x80; xa7; x80; x14; x80; xd0; xac; x13; x80;
  xa0; x01; x14; x80; xce; xac; x13; x80; xaf; x88; x14; x80;
  xd0; xac; x13; x80; xa8; x01; x14; x80; xce; xac; x13; x80;
  x67; x80; x14; x80; xd0; xac; x13; x80; x61; x01; x14; x80;
  xce; xac; x13; x80; x6f; x88; x14; x80; xd0; xac; x13; x80;
  x69; x01; x14; x80; xce; xac; x13; x80; x57; xfb; x14; x80;
  xd0; xac; x13; x80; xff; x07; x14; x80; xce; xac; x13; x80;
  x5f; xfb; x14; x80; xd0; xac; x13; x80; xff; x07; x14; x80;
  xce; xac; x13; x80; x17; x60; x14; x80; xd0; xac; x13; x80;
  x10; x01; x14; x80; xce; xac; x13; x80; x1f; x60; x14; x80;
  xd0; xac; x13; x80; x18; x01; x14; x80; xce; xac; x13; x80;
  x37; x68; x14; x80; xd0; xac; x13; x80; x30; x01; x14; x80;
  xce; xac; x13; x80; x3f; x68; x14; x80; xd0; xac; x13; x80;
  x38; x01; x14; x80; xce; xac; x13; x80; x97; x70; x14; x80;
  xd0; xac; x13; x80; x90; x01; x14; x80; xce; xac; x13; x80;
  x5f; x70; x14; x80; xd0; xac; x13; x80; x58; x01; x14; x80;
  xce; xac; x13; x80; x57; x78; x14; x80; xd0; xac; x13; x80;
  x50; x01; x14; x80; xce; xac; x13; x80; x9f; x78; x14; x80;
  xd0; xac; x13; x80; x98; x01; x14; x80; xce; xac; x13; x80;
  xb7; x90; x14; x80; xd0; xac; x13; x80; xb0; x01; x14; x80;
  xce; xac; x13; x80; xbf; x98; x14; x80; xd0; xac; x13; x80;
  xb8; x01; x14; x80; xce; xac; x13; x80; x77; x90; x14; x80;
  xd0; xac; x13; x80; x71; x11; x14; x80; xce; xac; x13; x80;
  x7f; x98; x14; x80; xd0; xac; x13; x80; x79; x11; x14; x80;
  xca; xac; x13; x80; x04; x00; x14; x80; xc6; xac; x13; x80;
  x08; x00; x14; x80; xc8; xac; x13; x80; x00; xc0; x14; x80;
  xc6; xac; x13; x80; x15; x00; x14; x80; xc8; xac; x13; x80;
  x43; xc0; x14; x80; xc8; xac; x13; x80; x00; x00; x14; x80;
  x82; x0b; x1f; x80; x00; x00; x10; x80; x43; x0a; x1f; x80;
  x1e; x80; x13; x80; x27; x00; x14; x80; x82; x0b; x1f; x80;
  x00; x00; x10; x00; xef; xff; x00; x20; x00; x00; x10; xc0;
  x80; x0b; x1f; x80; x00; x00; x00; x70; x01; x00; x00; xe0;
  x00; x00; x10; x00; x40; x00; x00; x20; x40; x00; x02; xa0;
  x64; x00; x00; x90; x00; x00; x05; x30; x40; x0a; x1f; x80;
  x00; x00; x00; x00; x00; x00; x00; x00].

Definition rtl8125d_1_fw : list byte :=
  rtl8125d_1_fw_0 ++ rtl8125d_1_fw_1 ++ rtl8125d_1_fw_2 ++ rtl8125d_1_fw_3 ++ rtl8125d_1_fw_4 ++ rtl8125d_1_fw_5 ++ rtl8125d_1_fw_6 ++ rtl8125d_1_fw_7 ++ rtl8125d_1_fw_8 ++ rtl8125d_1_fw_9.

(** *** Firmware/rtl8125d-2.h: 6800 bytes *)

Definition rtl8125d_2_fw_0 : list byte := [
  x00; x00; x00; x00; x72; x74; x6c; x38; x31; x32; x35; x64;
  x2d; x32; x5f; x30; x2e; x30; x2e; x34; x20; x31; x32; x2f;
  x31; x30; x2f; x32; x34; x00; x00; x00; x00; x00; x00; x00;
  x70; x00; x00; x00; x85; x06; x00; x00; x86; x00; x72; x74;
  x6c; x38; x31; x32; x35; x64; x20; x72; x65; x76; x2e; x62;
  x20; x6d; x61; x63; x20; x61; x6e; x64; x20; x70; x68; x79;
  x20; x6d; x63; x75; x20; x66; x69; x72; x6d; x77; x61; x72;
  x65; x20; x70; x61; x74; x63; x68; x20; x63; x6f; x64; x65;
  x20; x32; x33; x3a; x32; x36; x3a; x33; x34; x00; x8d; x9b;
  x00; x00; x00; x00; x01; x00; x00; x40; xc2; x0f; x1f; x80;
  x00; x00; x28; x80; x00; x00; x08; x80; x00; x00; x0a; x80;
  x00; x00; x0c; x80; x00; x00; x0e; x80; x00; x00; x10; x80;
  x00; x00; x12; x80; x00; x00; x14; x80; x00; x00; x16; x80;
  x00; x00; x18; x80; x00; x00; x1a; x80; x00; x00; x1c; x80;
  x00; x00; x1e; x80; x00; x00; x20; x80; x00; x00; x22; x80;
  x00; x00; x24; x80; x00; x00; x26; x80; x03; x00; x00; xe0;
  x00; x00; x06; x80; x80; x0f; x1f; x80; x00; x00; x00; x40;
  x82; x0b; x1f; x80; x00; x00; x10; x00; x10; x00; x00; x10;
  x00; x00; x10; xc0; x80; x0b; x1f; x80; x00; x00; x00; x70;
  x01; x00; x00; xe0; x00; x00; x10; x00; x40; x00; x00; x20;
  x40; x00; x02; xa0; x64; x00; x00; x90; x00; x00; x05; x30;
  x43; x0a; x1f; x80; x23; x80; x13; x80; x01; x38; x14; x80;
  x2e; xb8; x13; x80; x01; x00; x14; x80; x82; x0b; x1f; x80;
  x90; x00; x10; x80; x43; x0a; x1f; x80; x16; xa0; x13; x80;
  x00; x00; x14; x80; x12; xa0; x13; x80; x00; x00; x14; x80;
  x14; xa0; x13; x80; x00; x18; x14; x80; x10; x80; x14; x80;
  x00; x18; x14; x80; x7e; x80; x14; x80; x00; x18; x14; x80;
  xbe; x80; x14; x80; x00; x18; x14; x80; xc8; x81; x14; x80;
  x00; x18; x14; x80; xc8; x81; x14; x80; x00; x18; x14; x80;
  xc8; x81; x14; x80; x00; x18; x14; x80; xc8; x81; x14; x80;
  x00; x18; x14; x80; xc8; x81; x14; x80; x00; xd5; x14; x80;
  x8d; xc4; x14; x80; x04; xd5; x14; x80; x03; x8d; x14; x80;
  x01; xd7; x14; x80; x45; x40; x14; x80; x02; xad; x14; x80;
  x04; xd5; x14; x80; x06; xd7; x14; x80; x29; x25; x14; x80;
  x21; x80; x14; x80; x18; xd7; x14; x80; x7b; x60; x14; x80;
  xda; x40; x14; x80; x1b; xf0; x14; x80; x1a; x46; x14; x80;
  x45; xf0; x14; x80; x18; xd7; x14; x80; xfb; x62; x14; x80;
  x01; xbb; x14; x80; x5e; xd7; x14; x80; x71; x62; x14; x80;
  xf0; x0c; x14; x80; x10; x0c; x14; x80; x01; xd5; x14; x80;
  x01; xce; x14; x80; x0c; xd7; x14; x80; x87; x61; x14; x80;
  xf0; x0c; x14; x80; x70; x04; x14; x80; xf0; x0c; x14; x80;
  x30; x04; x14; x80; xf0; x0c; x14; x80; x10; x04; x14; x80;
  x00; xce; x14; x80; x05; xd5; x14; x80; x0f; x0c; x14; x80;
  x08; x08; x14; x80; x02; xf0; x14; x80; xf0; xa4; x14; x80;
  x42; xf0; x14; x80; x02; xbb; x14; x80; x5e; xd7; x14; x80;
  x71; x62; x14; x80; xf0; x0c; x14; x80; x20; x0c; x14; x80;
  x01; xd5; x14; x80; x01; xce; x14; x80; x0c; xd7; x14; x80;
  x87; x61; x14; x80; xf0; x0c; x14; x80; x70; x04; x14; x80;
  xf0; x0c; x14; x80; x30; x04; x14; x80; xf0; x0c; x14; x80;
  x20; x04; x14; x80; x00; xce; x14; x80; x05; xd5; x14; x80;
  x0f; x0c; x14; x80; x04; x08; x14; x80; x02; xf0; x14; x80;
  xf0; xa4; x14; x80; x2c; xf0; x14; x80; x04; xbb; x14; x80;
  x5e; xd7; x14; x80; x71; x62; x14; x80; xf0; x0c; x14; x80;
  x40; x0c; x14; x80; x01; xd5; x14; x80; x01; xce; x14; x80;
  x0c; xd7; x14; x80; x87; x61; x14; x80; xf0; x0c; x14; x80;
  x70; x04; x14; x80; xf0; x0c; x14; x80; x50; x04; x14; x80;
  xf0; x0c; x14; x80; x40; x04; x14; x80; x00; xce; x14; x80;
  x05; xd5; x14; x80; x0f; x0c; x14; x80; x02; x08; x14; x80;
  x02; xf0; x14; x80; xf0; xa4; x14; x80; x16; xf0; x14; x80;
  x08; xbb; x14; x80; x5e; xd7; x14; x80; x71; x62; x14; x80;
  xf0; x0c; x14; x80; x80; x0c; x14; x80; x01; xd5; x14; x80;
  x01; xce; x14; x80; x0c; xd7; x14; x80; x87; x61; x14; x80;
  xf0; x0c; x14; x80; xb0; x04; x14; x80; xf0; x0c; x14; x80;
  x90; x04; x14; x80; xf0; x0c; x14; x80; x80; x04; x14; x80;
  x00; xce; x14; x80; x05; xd5; x14; x80; x0f; x0c; x14; x80;
  x01; x08; x14; x80; x02; xf0; x14; x80; xf0; xa4; x14; x80;
  x00; xce; x14; x80; x00; xd5; x14; x80; x00; x18; x14; x80;
  x5a; x16; x14; x80; x5e; xd7; x14; x80; xb1; x67; x14; x80;
  x04; xd5; x14; x80; x1e; xd7; x14; x80; xbb; x65; x14; x80;
  xda; x63; x14; x80; xf9; x61; x14; x80; xf0; x0c; x14; x80;
  x10; x0c; x14; x80; x05; xd5; x14; x80; x0f; x0c; x14; x80;
  x08; x08; x14; x80; x01; xd5; x14; x80; x01; xce; x14; x80;
  x0c; xd7; x14; x80; x87; x60; x14; x80; xf0; x0c; x14; x80;
  x10; x04; x14; x80; x2c; xf0; x14; x80; xf0; xa4; x14; x80;
  x2a; xf0; x14; x80; xf0; x0c; x14; x80; x20; x0c; x14; x80;
  x05; xd5; x14; x80; x0f; x0c; x14; x80; x04; x08; x14; x80;
  x01; xd5; x14; x80; x01; xce; x14; x80; x0c; xd7; x14; x80;
  x87; x60; x14; x80; xf0; x0c; x14; x80; x20; x04; x14; x80;
  x1e; xf0; x14; x80; xf0; xa4; x14; x80; x1c; xf0; x14; x80;
  xf0; x0c; x14; x80; x40; x0c; x14; x80; x05; xd5; x14; x80;
  x0f; x0c; x14; x80; x02; x08; x14; x80; x01; xd5; x14; x80;
  x01; xce; x14; x80; x0c; xd7; x14; x80; x87; x60; x14; x80;
  xf0; x0c; x14; x80; x40; x04; x14; x80; x10; xf0; x14; x80;
  xf0; xa4; x14; x80; x0e; xf0; x14; x80; xf0; x0c; x14; x80;
  x80; x0c; x14; x80; x05; xd5; x14; x80; x0f; x0c; x14; x80;
  x01; x08; x14; x80; x01; xd5; x14; x80; x01; xce; x14; x80;
  x0c; xd7; x14; x80; x87; x60; x14; x80; xf0; x0c; x14; x80;
  x80; x04; x14; x80; x02; xf0; x14; x80; xf0; xa4; x14; x80;
  x00; x18; x14; x80; x8c; x16; x14; x80; x00; xd5; x14; x80;
  x06; xd7; x14; x80; x29; x25; x14; x80; xc8; x80; x14; x80;
  x18; xd7; x14; x80; x7b; x60; x14; x80; xda; x40; x14; x80;
  x0f; xf0; x14; x80; x1a; x43; x14; x80; x21; xf0; x14; x80;
  x18; xd7; x14; x80; x7b; x61; x14; x80; x00; x10; x14; x80;
  x8a; x1a; x14; x80; x00; x10; x14; x80; x1a; x1b; x14; x80;
  x18; xd7; x14; x80; x8e; x60; x14; x80; x3e; xd7; x14; x80;
  x34; x5f; x14; x80; x20; xf0; x14; x80; x53; xf0; x14; x80;
  x00; x10; x14; x80; x8a; x1a; x14; x80; x00; x10; x14; x80;
  x1a; x1b; x14; x80; x18; xd7; x14; x80; x8e; x60; x14; x80;
  x3e; xd7; x14; x80; x34; x5f; x14; x80; x23; xf0; x14; x80;
  x67; xf0; x14; x80; x00; x10; x14; x80; x8a; x1a; x14; x80;
  x00; x10; x14; x80; x1a; x1b; x14; x80; x18; xd7; x14; x80;
  x8e; x60; x14; x80; x3e; xd7; x14; x80; x34; x5f; x14; x80;
  x26; xf0; x14; x80; x7b; xf0; x14; x80; x00; x10; x14; x80;
  x8a; x1a; x14; x80; x00; x10; x14; x80; x1a; x1b; x14; x80;
  x18; xd7; x14; x80; x8e; x60; x14; x80; x3e; xd7; x14; x80;
  x34; x5f; x14; x80; x29; xf0; x14; x80; x8f; xf0; x14; x80;
  x00; x10; x14; x80; x9f; x81; x14; x80; x00; x10; x14; x80;
  x8a; x1a; x14; x80; x3e; xd7; x14; x80; xb4; x7f; x14; x80;
  x00; x10; x14; x80; xb4; x81; x14; x80; x00; x10; x14; x80;
  x8a; x1a; x14; x80; x18; xd7; x14; x80; xae; x5f; x14; x80;
  x28; xf0; x14; x80; x00; x10; x14; x80; x9f; x81; x14; x80;
  x00; x10; x14; x80; x8a; x1a; x14; x80; x3e; xd7; x14; x80;
  xb4; x7f; x14; x80; x00; x10; x14; x80; xb4; x81; x14; x80;
  x00; x10; x14; x80; x8a; x1a; x14; x80; x18; xd7; x14; x80;
  xae; x5f; x14; x80; x39; xf0; x14; x80; x00; x10; x14; x80;
  x9f; x81; x14; x80; x00; x10; x14; x80; x8a; x1a; x14; x80;
  x3e; xd7; x14; x80; xb4; x7f; x14; x80; x00; x10; x14; x80;
  xb4; x81; x14; x80; x00; x10; x14; x80; x8a; x1a; x14; x80;
  x18; xd7; x14; x80; xae; x5f; x14; x80; x4a; xf0; x14; x80;
  x00; x10; x14; x80; x9f; x81; x14; x80; x00; x10; x14; x80;
  x8a; x1a; x14; x80; x3e; xd7; x14; x80; xb4; x7f; x14; x80;
  x00; x10; x14; x80; xb4; x81; x14; x80; x00; x10; x14; x80;
  x8a; x1a; x14; x80; x18; xd7; x14; x80; xae; x5f; x14; x80;
  x5b; xf0; x14; x80; x19; xd7; x14; x80; x19; x41; x14; x80;
  x04; xd5; x14; x80; x01; xac; x14; x80; x01; xae; x14; x80;
  x00; xd5; x14; x80; x00; x10; x14; x80; x78; x1a; x14; x80;
  x0a; xf0; x14; x80; x19; xd7; x14; x80; x18; x41; x14; x80;
  x04; xd5; x14; x80; x11; xac; x14; x80; x01; xd5; x14; x80;
  x01; xce; x14; x80; x10; xa4; x14; x80; x00; xce; x14; x80;
  x00; xd5; x14; x80; x00; x10; x14; x80; x8a; x1a; x14; x80;
  x18; xd7; x14; x80; xb0; x5f; x14; x80; x05; xd5; x14; x80;
  x19; xd7; x14; x80; x79; x40; x14; x80; x0f; xa8; x14; x80;
  x5d; xf0; x14; x80; x98; x4b; x14; x80; x08; xa8; x14; x80;
  x5a; xf0; x14; x80; x19; xd7; x14; x80; x19; x41; x14; x80;
  x04; xd5; x14; x80; x02; xac; x14; x80; x01; xae; x14; x80;
  x00; xd5; x14; x80; x00; x10; x14; x80; x78; x1a; x14; x80;
  x0a; xf0; x14; x80; x19; xd7; x14; x80; x18; x41; x14; x80;
  x04; xd5; x14; x80; x22; xac; x14; x80; x01; xd5; x14; x80;
  x01; xce; x14; x80; x20; xa4; x14; x80; x00; xce; x14; x80;
  x00; xd5; x14; x80; x00; x10; x14; x80; x8a; x1a; x14; x80;
  x18; xd7; x14; x80; xb0; x5f; x14; x80; x05; xd5; x14; x80;
  x19; xd7; x14; x80; x79; x40; x14; x80; x0f; xa8; x14; x80;
  x3f; xf0; x14; x80; xd8; x47; x14; x80; x04; xa8; x14; x80;
  x3c; xf0; x14; x80; x19; xd7; x14; x80; x19; x41; x14; x80;
  x04; xd5; x14; x80; x04; xac; x14; x80; x01; xae; x14; x80;
  x00; xd5; x14; x80; x00; x10; x14; x80; x78; x1a; x14; x80;
  x0a; xf0; x14; x80; x19; xd7; x14; x80; x18; x41; x14; x80;
  x04; xd5; x14; x80; x44; xac; x14; x80; x01; xd5; x14; x80].

Definition rtl8125d_2_fw_1 : list byte := [
  x01; xce; x14; x80; x40; xa4; x14; x80; x00; xce; x14; x80;
  x00; xd5; x14; x80; x00; x10; x14; x80; x8a; x1a; x14; x80;
  x18; xd7; x14; x80; xb0; x5f; x14; x80; x05; xd5; x14; x80;
  x19; xd7; x14; x80; x79; x40; x14; x80; x0f; xa8; x14; x80;
  x21; xf0; x14; x80; x18; x44; x14; x80; x02; xa8; x14; x80;
  x1e; xf0; x14; x80; x19; xd7; x14; x80; x19; x41; x14; x80;
  x04; xd5; x14; x80; x08; xac; x14; x80; x01; xae; x14; x80;
  x00; xd5; x14; x80; x00; x10; x14; x80; x78; x1a; x14; x80;
  x0a; xf0; x14; x80; x19; xd7; x14; x80; x18; x41; x14; x80;
  x04; xd5; x14; x80; x88; xac; x14; x80; x01; xd5; x14; x80;
  x01; xce; x14; x80; x80; xa4; x14; x80; x00; xce; x14; x80;
  x00; xd5; x14; x80; x00; x10; x14; x80; x8a; x1a; x14; x80;
  x18; xd7; x14; x80; xb0; x5f; x14; x80; x05; xd5; x14; x80;
  x19; xd7; x14; x80; x79; x40; x14; x80; x0f; xa8; x14; x80;
  x03; xf0; x14; x80; x58; x40; x14; x80; x01; xa8; x14; x80;
  x00; x18; x14; x80; x36; x17; x14; x80; x3e; xd7; x14; x80;
  x05; xd5; x14; x80; x88; x30; x14; x80; xa6; x81; x14; x80;
  x93; x61; x14; x80; x32; x61; x14; x80; xd1; x60; x14; x80;
  x98; x32; x14; x80; xb1; x81; x14; x80; x0a; xf0; x14; x80;
  x08; xa8; x14; x80; x08; xf0; x14; x80; x04; xa8; x14; x80;
  x06; xf0; x14; x80; x02; xa8; x14; x80; x04; xf0; x14; x80;
  x01; xa8; x14; x80; x02; xf0; x14; x80; x0f; xa8; x14; x80;
  x00; xd5; x14; x80; x00; x08; x14; x80; x05; xd5; x14; x80;
  x5e; xd7; x14; x80; x11; x62; x14; x80; x1e; xd7; x14; x80;
  x9b; x61; x14; x80; x1a; x61; x14; x80; x99; x60; x14; x80;
  x0f; x0c; x14; x80; x08; x08; x14; x80; x09; xf0; x14; x80;
  x0f; x0c; x14; x80; x04; x08; x14; x80; x06; xf0; x14; x80;
  x0f; x0c; x14; x80; x02; x08; x14; x80; x03; xf0; x14; x80;
  x0f; x0c; x14; x80; x01; x08; x14; x80; x00; xd5; x14; x80;
  x00; x08; x14; x80; x26; xa0; x13; x80; xff; xff; x14; x80;
  x24; xa0; x13; x80; xff; xff; x14; x80; x22; xa0; x13; x80;
  xff; xff; x14; x80; x20; xa0; x13; x80; xff; xff; x14; x80;
  x06; xa0; x13; x80; xff; xff; x14; x80; x04; xa0; x13; x80;
  xab; x16; x14; x80; x02; xa0; x13; x80; x63; x16; x14; x80;
  x00; xa0; x13; x80; x08; x16; x14; x80; x08; xa0; x13; x80;
  x00; x07; x14; x80; x16; xa0; x13; x80; x00; x00; x14; x80;
  x12; xa0; x13; x80; xf8; x07; x14; x80; x14; xa0; x13; x80;
  x01; xcc; x14; x80; x00; x00; x14; x80; x00; x00; x14; x80;
  x00; x00; x14; x80; x00; x00; x14; x80; x00; x00; x14; x80;
  x00; x00; x14; x80; x00; x00; x14; x80; x52; xa1; x13; x80;
  x1c; x02; x14; x80; x54; xa1; x13; x80; xff; x3f; x14; x80;
  x56; xa1; x13; x80; xff; x3f; x14; x80; x58; xa1; x13; x80;
  xff; x3f; x14; x80; x5a; xa1; x13; x80; xff; x3f; x14; x80;
  x5c; xa1; x13; x80; xff; x3f; x14; x80; x5e; xa1; x13; x80;
  xff; x3f; x14; x80; x60; xa1; x13; x80; xff; x3f; x14; x80;
  x50; xa1; x13; x80; x01; x00; x14; x80; x16; xa0; x13; x80;
  x10; x00; x14; x80; x12; xa0; x13; x80; x00; x00; x14; x80;
  x14; xa0; x13; x80; x00; x18; x14; x80; x10; x80; x14; x80;
  x00; x18; x14; x80; x13; x80; x14; x80; x00; x18; x14; x80;
  x3a; x80; x14; x80; x00; x18; x14; x80; x45; x80; x14; x80;
  x00; x18; x14; x80; x49; x80; x14; x80; x00; x18; x14; x80;
  x4d; x80; x14; x80; x00; x18; x14; x80; x59; x80; x14; x80;
  x00; x18; x14; x80; x5d; x80; x14; x80; xff; xc2; x14; x80;
  x00; x18; x14; x80; x42; x00; x14; x80; x00; x10; x14; x80;
  xe5; x02; x14; x80; x00; x10; x14; x80; xb4; x02; x14; x80;
  x01; xd7; x14; x80; xe3; x40; x14; x80; x00; xd7; x14; x80;
  x6c; x5f; x14; x80; x00; x10; x14; x80; x21; x80; x14; x80;
  x00; x18; x14; x80; x73; x00; x14; x80; x00; x18; x14; x80;
  x84; x00; x14; x80; x01; xd7; x14; x80; x61; x40; x14; x80;
  x0f; xba; x14; x80; x04; xf0; x14; x80; x60; x40; x14; x80;
  x00; x10; x14; x80; x2a; x80; x14; x80; x10; xba; x14; x80;
  x00; x08; x14; x80; x00; xd7; x14; x80; xbb; x60; x14; x80;
  x1c; x61; x14; x80; x0f; x0c; x14; x80; x01; x1a; x14; x80;
  x0a; xf0; x14; x80; xfc; x60; x14; x80; x0f; x0c; x14; x80;
  x02; x1a; x14; x80; x06; xf0; x14; x80; x0f; x0c; x14; x80;
  x04; x1a; x14; x80; x03; xf0; x14; x80; x0f; x0c; x14; x80;
  x08; x1a; x14; x80; x00; x08; x14; x80; x0f; x0c; x14; x80;
  x04; x05; x14; x80; x02; xad; x14; x80; x00; x10; x14; x80;
  xc0; x02; x14; x80; x00; xd7; x14; x80; xac; x5f; x14; x80;
  x00; x10; x14; x80; x21; x80; x14; x80; x00; x18; x14; x80;
  x39; x01; x14; x80; x1f; x9a; x14; x80; xf0; x8b; x14; x80;
  x00; x18; x14; x80; xdf; x02; x14; x80; x1f; x9a; x14; x80;
  x10; x99; x14; x80; x00; x18; x14; x80; xd7; x02; x14; x80;
  x02; xad; x14; x80; x01; x8d; x14; x80; x1f; x9a; x14; x80;
  x10; x99; x14; x80; x60; x98; x14; x80; x00; xcb; x14; x80;
  x01; xd5; x14; x80; x01; xce; x14; x80; xf0; x85; x14; x80;
  x00; xd5; x14; x80; x00; x18; x14; x80; x5c; x01; x14; x80;
  x80; x85; x14; x80; x02; x8d; x14; x80; x00; x18; x14; x80;
  x8f; x01; x14; x80; x0f; x0c; x14; x80; x03; x05; x14; x80;
  x02; xad; x14; x80; x00; x18; x14; x80; xdd; x00; x14; x80;
  x8e; xa0; x13; x80; xdb; x00; x14; x80; x8c; xa0; x13; x80;
  x8e; x01; x14; x80; x8a; xa0; x13; x80; x5a; x01; x14; x80;
  x88; xa0; x13; x80; xd6; x02; x14; x80; x86; xa0; x13; x80;
  xde; x02; x14; x80; x84; xa0; x13; x80; x37; x01; x14; x80;
  x82; xa0; x13; x80; x71; x00; x14; x80; x80; xa0; x13; x80;
  x41; x00; x14; x80; x90; xa0; x13; x80; xff; x00; x14; x80;
  x16; xa0; x13; x80; x20; x00; x14; x80; x12; xa0; x13; x80;
  x00; x00; x14; x80; x14; xa0; x13; x80; x00; x18; x14; x80;
  x10; x80; x14; x80; x00; x18; x14; x80; x1d; x80; x14; x80;
  x00; x18; x14; x80; x8a; x80; x14; x80; x00; x18; x14; x80;
  xa1; x80; x14; x80; x00; x18; x14; x80; xb4; x80; x14; x80;
  x00; x18; x14; x80; x04; x81; x14; x80; x00; x18; x14; x80;
  x0b; x81; x14; x80; x00; x18; x14; x80; x0f; x81; x14; x80;
  x80; x89; x14; x80; x02; xd7; x14; x80; x26; x61; x14; x80;
  x04; xd7; x14; x80; x63; x40; x14; x80; x02; xd7; x14; x80;
  x60; x60; x14; x80; x02; xd7; x14; x80; x77; x60; x14; x80;
  x00; x18; x14; x80; x29; x0c; x14; x80; x00; x18; x14; x80;
  x2b; x0c; x14; x80; x00; x10; x14; x80; x5a; x11; x14; x80;
  x1f; xd7; x14; x80; xb4; x5f; x14; x80; x02; xd7; x14; x80;
  x46; x6c; x14; x80; x04; xd7; x14; x80; x63; x40; x14; x80;
  x02; xd7; x14; x80; x60; x60; x14; x80; x02; xd7; x14; x80;
  x97; x6b; x14; x80; x40; xa3; x14; x80; x06; x0c; x14; x80;
  x02; x01; x14; x80; x01; xce; x14; x80; x00; x10; x14; x80;
  x7a; x11; x14; x80; x40; xa2; x14; x80; x02; xa9; x14; x80;
  x04; xa2; x14; x80; x80; xa2; x14; x80; x64; xa3; x14; x80;
  x02; xab; x14; x80; x80; x83; x14; x80; x0a; xa0; x14; x80;
  x8d; xcd; x14; x80; x00; x10; x14; x80; x5a; x11; x14; x80;
  x06; xd7; x14; x80; xb5; x5f; x14; x80; x20; xb9; x14; x80;
  x00; x10; x14; x80; x5a; x11; x14; x80; x1f; xd7; x14; x80;
  xb4; x7f; x14; x80; x20; x99; x14; x80; x00; x10; x14; x80;
  x5a; x11; x14; x80; x1f; xd7; x14; x80; x65; x60; x14; x80;
  x74; x7c; x14; x80; xfb; xff; x14; x80; x20; xb8; x14; x80;
  x00; x10; x14; x80; x5a; x11; x14; x80; x1f; xd7; x14; x80;
  xa5; x7f; x14; x80; x20; x98; x14; x80; x10; xa4; x14; x80;
  x02; x89; x14; x80; x20; xa1; x14; x80; x80; xa3; x14; x80;
  x02; xce; x14; x80; x00; x10; x14; x80; x7a; x11; x14; x80;
  x80; x82; x14; x80; x24; xa3; x14; x80; x02; xab; x14; x80;
  x0a; xa0; x14; x80; x18; x81; x14; x80; x3f; x86; x14; x80;
  xfb; x87; x14; x80; x8e; xcd; x14; x80; x93; xd1; x14; x80;
  x47; xd0; x14; x80; x00; x10; x14; x80; x5a; x11; x14; x80;
  x00; x10; x14; x80; x5f; x11; x14; x80; x00; xd7; x14; x80;
  x7b; x5f; x14; x80; x80; xa2; x14; x80; x00; x10; x14; x80;
  x5a; x11; x14; x80; x00; x10; x14; x80; x5f; x11; x14; x80;
  x06; xd7; x14; x80; x78; x5f; x14; x80; x10; xa2; x14; x80;
  x00; xd7; x14; x80; x83; x60; x14; x80; x01; xd1; x14; x80;
  x47; xd0; x14; x80; x03; xf0; x14; x80; x60; xd1; x14; x80;
  x4b; xd0; x14; x80; x00; x10; x14; x80; x5a; x11; x14; x80;
  x00; x10; x14; x80; x5f; x11; x14; x80; x00; xd7; x14; x80;
  x7b; x5f; x14; x80; x00; x10; x14; x80; x5a; x11; x14; x80;
  x00; x10; x14; x80; x5f; x11; x14; x80; x06; xd7; x14; x80;
  x79; x5f; x14; x80; x20; x81; x14; x80; x20; xbb; x14; x80;
  x00; x18; x14; x80; x8b; x0c; x14; x80; x03; x0c; x14; x80;
  x02; x15; x14; x80; x80; x8f; x14; x80; x03; x95; x14; x80;
  x00; x18; x14; x80; x3c; x0c; x14; x80; x03; x0c; x14; x80;
  x02; x15; x14; x80; x80; x8f; x14; x80; x03; x95; x14; x80;
  x04; xd7; x14; x80; x92; x61; x14; x80; x02; xd7; x14; x80;
  x16; x41; x14; x80; x04; xce; x14; x80; x00; x10; x14; x80;
  x7a; x11; x14; x80; x03; x0c; x14; x80; x02; x15; x14; x80;
  x40; x8f; x14; x80; x03; x95; x14; x80; x00; x18; x14; x80;
  x3d; x0b; x14; x80; x03; x0c; x14; x80; x02; x15; x14; x80;
  x40; xaf; x14; x80; x03; x95; x14; x80; x00; x18; x14; x80;
  x48; x0b; x14; x80; x04; xd7; x14; x80; x92; x61; x14; x80;
  x02; xd7; x14; x80; x16; x41; x14; x80; x04; xce; x14; x80;
  x00; x10; x14; x80; x7a; x11; x14; x80; x03; x0c; x14; x80;
  x02; x15; x14; x80; x40; x8f; x14; x80; x03; x95; x14; x80;
  x00; x18; x14; x80; x69; x12; x14; x80; x03; x0c; x14; x80;
  x02; x15; x14; x80; x40; xaf; x14; x80; x03; x95; x14; x80;
  x00; x18; x14; x80; x74; x12; x14; x80; x03; x0c; x14; x80].

Definition rtl8125d_2_fw_2 : list byte := [
  x02; x15; x14; x80; x08; xa6; x14; x80; x00; xc7; x14; x80;
  x03; x95; x14; x80; x54; xce; x14; x80; x00; x10; x14; x80;
  x7a; x11; x14; x80; x90; xa2; x14; x80; x04; xa3; x14; x80;
  x02; xab; x14; x80; x00; xd7; x14; x80; x50; x60; x14; x80;
  x04; xab; x14; x80; x38; x0c; x14; x80; x08; x06; x14; x80;
  x0b; xaa; x14; x80; x02; xd7; x14; x80; x03; x0c; x14; x80;
  x02; x15; x14; x80; x01; x8d; x14; x80; x40; xae; x14; x80;
  x44; x40; x14; x80; x20; x8e; x14; x80; x03; x95; x14; x80;
  x03; x0c; x14; x80; x02; x15; x14; x80; x20; x8c; x14; x80;
  x03; x95; x14; x80; x00; xd7; x14; x80; x78; x60; x14; x80;
  x00; xd7; x14; x80; x9a; x60; x14; x80; x09; xd1; x14; x80;
  x74; xd0; x14; x80; x03; xf0; x14; x80; x09; xd1; x14; x80;
  x75; xd0; x14; x80; x00; x10; x14; x80; x5a; x11; x14; x80;
  x04; xd7; x14; x80; x52; x62; x14; x80; x02; xd7; x14; x80;
  x16; x41; x14; x80; x54; xce; x14; x80; x00; x10; x14; x80;
  x7a; x11; x14; x80; x03; x0c; x14; x80; x02; x15; x14; x80;
  x40; x8f; x14; x80; x03; x95; x14; x80; x0a; xa0; x14; x80;
  x04; xd7; x14; x80; xe7; x41; x14; x80; x03; x0c; x14; x80;
  x02; x15; x14; x80; x70; xa5; x14; x80; x03; x95; x14; x80;
  x0a; xf0; x14; x80; x03; x0c; x14; x80; x02; x15; x14; x80;
  x40; xaf; x14; x80; x03; x95; x14; x80; x0a; x80; x14; x80;
  x03; x0c; x14; x80; x02; x15; x14; x80; x70; x85; x14; x80;
  x03; x95; x14; x80; x04; xd7; x14; x80; xf3; x60; x14; x80;
  x1f; xd7; x14; x80; xee; x60; x14; x80; x00; xd7; x14; x80;
  xbe; x5b; x14; x80; x00; x18; x14; x80; x71; x0e; x14; x80;
  x00; x18; x14; x80; x7c; x0e; x14; x80; x00; x18; x14; x80;
  x7e; x0e; x14; x80; x03; x0c; x14; x80; x02; x15; x14; x80;
  x80; xaf; x14; x80; x03; x95; x14; x80; x62; xcd; x14; x80;
  x00; x18; x14; x80; xd2; x0b; x14; x80; x0a; x80; x14; x80;
  x06; x83; x14; x80; x00; x18; x14; x80; xb6; x0c; x14; x80;
  x03; x0c; x14; x80; x02; x15; x14; x80; x08; x86; x14; x80;
  x20; x8c; x14; x80; x03; x95; x14; x80; x00; x18; x14; x80;
  xb9; x0e; x14; x80; x0e; xa1; x13; x80; xb5; x0e; x14; x80;
  x0c; xa1; x13; x80; xb5; x0c; x14; x80; x0a; xa1; x13; x80;
  xd1; x0b; x14; x80; x08; xa1; x13; x80; x37; x0e; x14; x80;
  x06; xa1; x13; x80; x67; x12; x14; x80; x04; xa1; x13; x80;
  x3b; x0b; x14; x80; x02; xa1; x13; x80; x38; x0c; x14; x80;
  x00; xa1; x13; x80; x24; x0c; x14; x80; x10; xa1; x13; x80;
  xff; x00; x14; x80; x7c; xb8; x13; x80; xbf; x85; x14; x80;
  x7e; xb8; x13; x80; x85; xaf; x14; x80; xaf; xd7; x14; x80;
  xfb; x85; x14; x80; x86; xaf; x14; x80; xaf; x10; x14; x80;
  x38; x86; x14; x80; x86; xaf; x14; x80; xaf; x47; x14; x80;
  x47; x86; x14; x80; x86; xaf; x14; x80; xaf; x47; x14; x80;
  x47; x86; x14; x80; x85; xbf; x14; x80; x02; xf8; x14; x80;
  x7f; x62; x14; x80; x61; xbf; x14; x80; x02; xc7; x14; x80;
  x7f; x62; x14; x80; x0c; xae; x14; x80; x85; xbf; x14; x80;
  x02; xf8; x14; x80; x76; x62; x14; x80; x61; xbf; x14; x80;
  x02; xc7; x14; x80; x76; x62; x14; x80; x85; xee; x14; x80;
  x00; x42; x14; x80; x1b; xaf; x14; x80; x33; x23; x14; x80;
  x84; xa4; x14; x80; x86; xbf; x14; x80; x02; x0a; x14; x80;
  x7f; x62; x14; x80; x86; xbf; x14; x80; x02; x0d; x14; x80;
  x7f; x62; x14; x80; x1b; xaf; x14; x80; x22; x84; x14; x80;
  x84; xa4; x14; x80; xac; x66; x14; x80; xf8; x0e; x14; x80;
  xef; xfb; x14; x80; xfb; x79; x14; x80; x80; xe0; x14; x80;
  xad; x16; x14; x80; x0f; x23; x14; x80; x85; xee; x14; x80;
  x00; x42; x14; x80; x44; x1f; x14; x80; x86; xbf; x14; x80;
  xd7; x30; x14; x80; x08; x00; x14; x80; x64; x02; x14; x80;
  xff; xa3; x14; x80; x97; xef; x14; x80; xfc; xff; x14; x80;
  x85; x04; x14; x80; x61; xf8; x14; x80; x86; xc7; x14; x80;
  x86; x0a; x14; x80; xe1; x0d; x14; x80; xeb; x8f; x14; x80;
  x83; xe5; x14; x80; xe1; x20; x14; x80; xea; x8f; x14; x80;
  x83; xe5; x14; x80; xaf; x21; x14; x80; xa7; x41; x14; x80;
  x5e; xb8; x13; x80; x05; x1b; x14; x80; x60; xb8; x13; x80;
  x78; x1b; x14; x80; x62; xb8; x13; x80; x08; x1a; x14; x80;
  x64; xb8; x13; x80; x9f; x41; x14; x80; x86; xb8; x13; x80;
  xff; xff; x14; x80; x88; xb8; x13; x80; xff; xff; x14; x80;
  x8a; xb8; x13; x80; xff; xff; x14; x80; x8c; xb8; x13; x80;
  xff; xff; x14; x80; x38; xb8; x13; x80; x0f; x00; x14; x80;
  x82; x0b; x1f; x80; x10; x00; x10; x80; x43; x0a; x1f; x80;
  x00; x00; x13; x80; x00; x00; x14; x80; x82; x0b; x1f; x80;
  x00; x00; x17; x80; x43; x0a; x1f; x80; x23; x80; x13; x80;
  x00; x00; x14; x80; x1e; x80; x13; x80; x08; x00; x14; x80;
  x82; x0b; x1f; x80; x00; x00; x10; x80; x82; x0b; x1f; x80;
  x00; x00; x10; x00; xef; xff; x00; x20; x00; x00; x10; xc0;
  x80; x0b; x1f; x80; x00; x00; x00; x70; x01; x00; x00; xe0;
  x00; x00; x10; x00; x40; x00; x00; x20; x40; x00; x02; xa0;
  x64; x00; x00; x90; x00; x00; x05; x30; x82; x0b; x1f; x80;
  x00; x00; x10; x00; x10; x00; x00; x10; x00; x00; x10; xc0;
  x80; x0b; x1f; x80; x00; x00; x00; x70; x01; x00; x00; xe0;
  x00; x00; x10; x00; x40; x00; x00; x20; x40; x00; x02; xa0;
  x64; x00; x00; x90; x00; x00; x05; x30; x43; x0a; x1f; x80;
  xca; xac; x13; x80; x04; x01; x14; x80; xcc; xac; x13; x80;
  x00; x80; x14; x80; xce; xac; x13; x80; xff; xff; x14; x80;
  xd0; xac; x13; x80; xff; x0f; x14; x80; xce; xac; x13; x80;
  x47; xfd; x14; x80; xd0; xac; x13; x80; xff; x0f; x14; x80;
  xce; xac; x13; x80; xff; xff; x14; x80; xd0; xac; x13; x80;
  xff; x07; x14; x80; xce; xac; x13; x80; x6f; xe5; x14; x80;
  xd0; xac; x13; x80; xc0; x01; x14; x80; xce; xac; x13; x80;
  xff; xff; x14; x80; xd0; xac; x13; x80; xff; x07; x14; x80;
  xce; xac; x13; x80; x97; xed; x14; x80; xd0; xac; x13; x80;
  xc8; x01; x14; x80; xce; xac; x13; x80; xff; xff; x14; x80;
  xd0; xac; x13; x80; xff; x07; x14; x80; xce; xac; x13; x80;
  xbf; xf5; x14; x80; xd0; xac; x13; x80; xd0; x01; x14; x80;
  xce; xac; x13; x80; x07; xfb; x14; x80; xd0; xac; x13; x80;
  xff; x07; x14; x80; xce; xac; x13; x80; x0f; xfb; x14; x80;
  xd0; xac; x13; x80; xd8; x01; x14; x80; xce; xac; x13; x80;
  x87; xa0; x14; x80; xd0; xac; x13; x80; x80; x01; x14; x80;
  xce; xac; x13; x80; x0f; xa0; x14; x80; xd0; xac; x13; x80;
  x08; x01; x14; x80; xce; xac; x13; x80; x07; xa8; x14; x80;
  xd0; xac; x13; x80; x00; x01; x14; x80; xce; xac; x13; x80;
  x8f; xa8; x14; x80; xd0; xac; x13; x80; x88; x01; x14; x80;
  xce; xac; x13; x80; x27; xb0; x14; x80; xd0; xac; x13; x80;
  x20; x01; x14; x80; xce; xac; x13; x80; x2f; xb0; x14; x80;
  xd0; xac; x13; x80; x28; x01; x14; x80; xce; xac; x13; x80;
  x47; xb8; x14; x80; xd0; xac; x13; x80; x40; x01; x14; x80;
  xce; xac; x13; x80; x4f; xb8; x14; x80; xd0; xac; x13; x80;
  x48; x01; x14; x80; xce; xac; x13; x80; x17; xfb; x14; x80;
  xd0; xac; x13; x80; xff; x07; x14; x80; xce; xac; x13; x80;
  x1f; xfb; x14; x80; xd0; xac; x13; x80; xff; x07; x14; x80;
  xce; xac; x13; x80; x17; xa0; x14; x80; xd0; xac; x13; x80;
  x10; x01; x14; x80; xce; xac; x13; x80; x1f; xa0; x14; x80;
  xd0; xac; x13; x80; x18; x01; x14; x80; xce; xac; x13; x80;
  x37; xa8; x14; x80; xd0; xac; x13; x80; x30; x01; x14; x80;
  xce; xac; x13; x80; x3f; xa8; x14; x80; xd0; xac; x13; x80;
  x38; x01; x14; x80; xce; xac; x13; x80; x97; xb0; x14; x80;
  xd0; xac; x13; x80; x90; x01; x14; x80; xce; xac; x13; x80;
  x5f; xb0; x14; x80; xd0; xac; x13; x80; x58; x01; x14; x80;
  xce; xac; x13; x80; x57; xb8; x14; x80; xd0; xac; x13; x80;
  x50; x01; x14; x80; xce; xac; x13; x80; x9f; xb8; x14; x80;
  xd0; xac; x13; x80; x98; x01; x14; x80; xce; xac; x13; x80;
  x27; xfb; x14; x80; xd0; xac; x13; x80; xff; x07; x14; x80;
  xce; xac; x13; x80; x2f; xfb; x14; x80; xd0; xac; x13; x80;
  xff; x07; x14; x80; xce; xac; x13; x80; x87; x80; x14; x80;
  xd0; xac; x13; x80; x80; x01; x14; x80; xce; xac; x13; x80;
  x0f; x80; x14; x80; xd0; xac; x13; x80; x08; x01; x14; x80;
  xce; xac; x13; x80; x07; x88; x14; x80; xd0; xac; x13; x80;
  x00; x01; x14; x80; xce; xac; x13; x80; x8f; x88; x14; x80;
  xd0; xac; x13; x80; x88; x01; x14; x80; xce; xac; x13; x80;
  x27; x90; x14; x80; xd0; xac; x13; x80; x20; x01; x14; x80;
  xce; xac; x13; x80; x2f; x90; x14; x80; xd0; xac; x13; x80;
  x28; x01; x14; x80; xce; xac; x13; x80; x47; x98; x14; x80;
  xd0; xac; x13; x80; x40; x01; x14; x80; xce; xac; x13; x80;
  x4f; x98; x14; x80; xd0; xac; x13; x80; x48; x01; x14; x80;
  xce; xac; x13; x80; xa7; xa0; x14; x80; xd0; xac; x13; x80;
  xa0; x01; x14; x80; xce; xac; x13; x80; xaf; xa8; x14; x80;
  xd0; xac; x13; x80; xa8; x01; x14; x80; xce; xac; x13; x80;
  x67; xa0; x14; x80; xd0; xac; x13; x80; x61; x01; x14; x80;
  xce; xac; x13; x80; x6f; xa8; x14; x80; xd0; xac; x13; x80;
  x69; x01; x14; x80; xce; xac; x13; x80; x37; xfb; x14; x80;
  xd0; xac; x13; x80; xff; x07; x14; x80; xce; xac; x13; x80;
  x3f; xfb; x14; x80; xd0; xac; x13; x80; xff; x07; x14; x80;
  xce; xac; x13; x80; x17; x80; x14; x80; xd0; xac; x13; x80;
  x10; x01; x14; x80; xce; xac; x13; x80; x1f; x80; x14; x80;
  xd0; xac; x13; x80; x18; x01; x14; x80; xce; xac; x13; x80;
  x37; x88; x14; x80; xd0; xac; x13; x80; x30; x01; x14; x80;
  xce; xac; x13; x80; x3f; x88; x14; x80; xd0; xac; x13; x80;
  x38; x01; x14; x80; xce; xac; x13; x80; x97; x90; x14; x80;
  xd0; xac; x13; x80; x90; x01; x14; x80; xce; xac; x13; x80].

Definition rtl8125d_2_fw_3 : list byte := [
  x5f; x90; x14; x80; xd0; xac; x13; x80; x58; x01; x14; x80;
  xce; xac; x13; x80; x57; x98; x14; x80; xd0; xac; x13; x80;
  x50; x01; x14; x80; xce; xac; x13; x80; x9f; x98; x14; x80;
  xd0; xac; x13; x80; x98; x01; x14; x80; xce; xac; x13; x80;
  xb7; xb0; x14; x80; xd0; xac; x13; x80; xb0; x01; x14; x80;
  xce; xac; x13; x80; xbf; xb8; x14; x80; xd0; xac; x13; x80;
  xb8; x01; x14; x80; xce; xac; x13; x80; x77; xb0; x14; x80;
  xd0; xac; x13; x80; x71; x01; x14; x80; xce; xac; x13; x80;
  x7f; xb8; x14; x80; xd0; xac; x13; x80; x79; x01; x14; x80;
  xce; xac; x13; x80; x47; xfb; x14; x80; xd0; xac; x13; x80;
  xff; x07; x14; x80; xce; xac; x13; x80; x4f; xfb; x14; x80;
  xd0; xac; x13; x80; xff; x07; x14; x80; xce; xac; x13; x80;
  x87; x60; x14; x80; xd0; xac; x13; x80; x80; x01; x14; x80;
  xce; xac; x13; x80; x0f; x60; x14; x80; xd0; xac; x13; x80;
  x08; x01; x14; x80; xce; xac; x13; x80; x07; x68; x14; x80;
  xd0; xac; x13; x80; x00; x01; x14; x80; xce; xac; x13; x80;
  x8f; x68; x14; x80; xd0; xac; x13; x80; x88; x01; x14; x80;
  xce; xac; x13; x80; x27; x70; x14; x80; xd0; xac; x13; x80;
  x20; x01; x14; x80; xce; xac; x13; x80; x2f; x70; x14; x80;
  xd0; xac; x13; x80; x28; x01; x14; x80; xce; xac; x13; x80;
  x47; x78; x14; x80; xd0; xac; x13; x80; x40; x01; x14; x80;
  xce; xac; x13; x80; x4f; x78; x14; x80; xd0; xac; x13; x80;
  x48; x01; x14; x80; xce; xac; x13; x80; xa7; x80; x14; x80;
  xd0; xac; x13; x80; xa0; x01; x14; x80; xce; xac; x13; x80;
  xaf; x88; x14; x80; xd0; xac; x13; x80; xa8; x01; x14; x80;
  xce; xac; x13; x80; x67; x80; x14; x80; xd0; xac; x13; x80;
  x61; x01; x14; x80; xce; xac; x13; x80; x6f; x88; x14; x80;
  xd0; xac; x13; x80; x69; x01; x14; x80; xce; xac; x13; x80;
  x57; xfb; x14; x80; xd0; xac; x13; x80; xff; x07; x14; x80;
  xce; xac; x13; x80; x5f; xfb; x14; x80; xd0; xac; x13; x80;
  xff; x07; x14; x80; xce; xac; x13; x80; x17; x60; x14; x80;
  xd0; xac; x13; x80; x10; x01; x14; x80; xce; xac; x13; x80;
  x1f; x60; x14; x80; xd0; xac; x13; x80; x18; x01; x14; x80;
  xce; xac; x13; x80; x37; x68; x14; x80; xd0; xac; x13; x80;
  x30; x01; x14; x80; xce; xac; x13; x80; x3f; x68; x14; x80;
  xd0; xac; x13; x80; x38; x01; x14; x80; xce; xac; x13; x80;
  x97; x70; x14; x80; xd0; xac; x13; x80; x90; x01; x14; x80;
  xce; xac; x13; x80; x5f; x70; x14; x80; xd0; xac; x13; x80;
  x58; x01; x14; x80; xce; xac; x13; x80; x57; x78; x14; x80;
  xd0; xac; x13; x80; x50; x01; x14; x80; xce; xac; x13; x80;
  x9f; x78; x14; x80; xd0; xac; x13; x80; x98; x01; x14; x80;
  xce; xac; x13; x80; xb7; x90; x14; x80; xd0; xac; x13; x80;
  xb0; x01; x14; x80; xce; xac; x13; x80; xbf; x98; x14; x80;
  xd0; xac; x13; x80; xb8; x01; x14; x80; xce; xac; x13; x80;
  x77; x90; x14; x80; xd0; xac; x13; x80; x71; x01; x14; x80;
  xce; xac; x13; x80; x7f; x98; x14; x80; xd0; xac; x13; x80;
  x79; x01; x14; x80; xce; xac; x13; x80; x67; xfb; x14; x80;
  xd0; xac; x13; x80; xff; x07; x14; x80; xce; xac; x13; x80;
  x6f; xfb; x14; x80; xd0; xac; x13; x80; xff; x07; x14; x80;
  xce; xac; x13; x80; x87; x40; x14; x80; xd0; xac; x13; x80;
  x80; x01; x14; x80; xce; xac; x13; x80; x0f; x40; x14; x80;
  xd0; xac; x13; x80; x08; x01; x14; x80; xce; xac; x13; x80;
  x07; x48; x14; x80; xd0; xac; x13; x80; x00; x01; x14; x80;
  xce; xac; x13; x80; x8f; x48; x14; x80; xd0; xac; x13; x80;
  x88; x01; x14; x80; xce; xac; x13; x80; x27; x50; x14; x80;
  xd0; xac; x13; x80; x20; x01; x14; x80; xce; xac; x13; x80;
  x2f; x50; x14; x80; xd0; xac; x13; x80; x28; x01; x14; x80;
  xce; xac; x13; x80; x47; x58; x14; x80; xd0; xac; x13; x80;
  x40; x01; x14; x80; xce; xac; x13; x80; x4f; x58; x14; x80;
  xd0; xac; x13; x80; x48; x01; x14; x80; xce; xac; x13; x80;
  xa7; x60; x14; x80; xd0; xac; x13; x80; xa0; x01; x14; x80;
  xce; xac; x13; x80; xaf; x68; x14; x80; xd0; xac; x13; x80;
  xa8; x01; x14; x80; xce; xac; x13; x80; x67; x60; x14; x80;
  xd0; xac; x13; x80; x61; x01; x14; x80; xce; xac; x13; x80;
  x6f; x68; x14; x80; xd0; xac; x13; x80; x69; x01; x14; x80;
  xce; xac; x13; x80; x77; xfb; x14; x80; xd0; xac; x13; x80;
  xff; x07; x14; x80; xce; xac; x13; x80; x7f; xfb; x14; x80;
  xd0; xac; x13; x80; xff; x07; x14; x80; xce; xac; x13; x80;
  x17; x40; x14; x80; xd0; xac; x13; x80; x10; x01; x14; x80;
  xce; xac; x13; x80; x1f; x40; x14; x80; xd0; xac; x13; x80;
  x18; x01; x14; x80; xce; xac; x13; x80; x37; x48; x14; x80;
  xd0; xac; x13; x80; x30; x01; x14; x80; xce; xac; x13; x80;
  x3f; x48; x14; x80; xd0; xac; x13; x80; x38; x01; x14; x80;
  xce; xac; x13; x80; x97; x50; x14; x80; xd0; xac; x13; x80;
  x90; x01; x14; x80; xce; xac; x13; x80; x5f; x50; x14; x80;
  xd0; xac; x13; x80; x58; x01; x14; x80; xce; xac; x13; x80;
  x57; x58; x14; x80; xd0; xac; x13; x80; x50; x01; x14; x80;
  xce; xac; x13; x80; x9f; x58; x14; x80; xd0; xac; x13; x80;
  x98; x01; x14; x80; xce; xac; x13; x80; xb7; x70; x14; x80;
  xd0; xac; x13; x80; xb0; x01; x14; x80; xce; xac; x13; x80;
  xbf; x78; x14; x80; xd0; xac; x13; x80; xb8; x01; x14; x80;
  xce; xac; x13; x80; x77; x70; x14; x80; xd0; xac; x13; x80;
  x71; x01; x14; x80; xce; xac; x13; x80; x7f; x78; x14; x80;
  xd0; xac; x13; x80; x79; x01; x14; x80; xce; xac; x13; x80;
  x87; xfb; x14; x80; xd0; xac; x13; x80; xff; x07; x14; x80;
  xce; xac; x13; x80; x8f; xfb; x14; x80; xd0; xac; x13; x80;
  xff; x07; x14; x80; xce; xac; x13; x80; xa7; x40; x14; x80;
  xd0; xac; x13; x80; xa0; x01; x14; x80; xce; xac; x13; x80;
  xaf; x48; x14; x80; xd0; xac; x13; x80; xa8; x01; x14; x80;
  xce; xac; x13; x80; x67; x40; x14; x80; xd0; xac; x13; x80;
  x61; x01; x14; x80; xce; xac; x13; x80; x6f; x48; x14; x80;
  xd0; xac; x13; x80; x69; x01; x14; x80; xce; xac; x13; x80;
  x97; xfb; x14; x80; xd0; xac; x13; x80; xff; x07; x14; x80;
  xce; xac; x13; x80; x9f; xfb; x14; x80; xd0; xac; x13; x80;
  xff; x07; x14; x80; xce; xac; x13; x80; xb7; x50; x14; x80;
  xd0; xac; x13; x80; xb0; x01; x14; x80; xce; xac; x13; x80;
  xbf; x58; x14; x80; xd0; xac; x13; x80; xb8; x01; x14; x80;
  xce; xac; x13; x80; x77; x50; x14; x80; xd0; xac; x13; x80;
  x71; x01; x14; x80; xce; xac; x13; x80; x7f; x58; x14; x80;
  xd0; xac; x13; x80; x79; x01; x14; x80; xce; xac; x13; x80;
  xa7; xfb; x14; x80; xd0; xac; x13; x80; xff; x07; x14; x80;
  xce; xac; x13; x80; xaf; xfb; x14; x80; xd0; xac; x13; x80;
  xff; x07; x14; x80; xce; xac; x13; x80; x67; x20; x14; x80;
  xd0; xac; x13; x80; x61; x01; x14; x80; xce; xac; x13; x80;
  x6f; x28; x14; x80; xd0; xac; x13; x80; x69; x01; x14; x80;
  xce; xac; x13; x80; xb7; xfb; x14; x80; xd0; xac; x13; x80;
  xff; x07; x14; x80; xce; xac; x13; x80; xbf; xfb; x14; x80;
  xd0; xac; x13; x80; xff; x07; x14; x80; xce; xac; x13; x80;
  x77; x30; x14; x80; xd0; xac; x13; x80; x71; x01; x14; x80;
  xce; xac; x13; x80; x7f; x38; x14; x80; xd0; xac; x13; x80;
  x79; x01; x14; x80; xce; xac; x13; x80; xf9; xff; x14; x80;
  xd0; xac; x13; x80; xff; x17; x14; x80; xce; xac; x13; x80;
  xf9; xff; x14; x80; xd0; xac; x13; x80; xff; x17; x14; x80;
  xca; xac; x13; x80; x04; x00; x14; x80; xc6; xac; x13; x80;
  x08; x00; x14; x80; xc8; xac; x13; x80; x00; xc0; x14; x80;
  xc8; xac; x13; x80; x00; x00; x14; x80; x82; x0b; x1f; x80;
  x00; x00; x10; x80; x43; x0a; x1f; x80; x1e; x80; x13; x80;
  x27; x00; x14; x80; x82; x0b; x1f; x80; x00; x00; x10; x00;
  xef; xff; x00; x20; x00; x00; x10; xc0; x80; x0b; x1f; x80;
  x00; x00; x00; x70; x01; x00; x00; xe0; x00; x00; x10; x00;
  x40; x00; x00; x20; x40; x00; x02; xa0; x64; x00; x00; x90;
  x00; x00; x05; x30; x40; x0a; x1f; x80; x00; x00; x00; x00;
  x00; x00; x00; x00; x00; x00; x00; x00].

Definition rtl8125d_2_fw : list byte :=
  rtl8125d_2_fw_0 ++ rtl8125d_2_fw_1 ++ rtl8125d_2_fw_2 ++ rtl8125d_2_fw_3.
