(* ===== verification/FwData8126.v ===== *)
(** The firmware images of the RTL8126 family, byte for byte as the arrays of
    Firmware/rtl8126*.h. An array is cut into pieces and put together again. *)
From S2P Require Import Prelude.
From Stdlib Require Import Strings.Byte.

(** *** Firmware/rtl8126a-2.h: 29248 bytes *)

Definition rtl8126a_2_fw_0 : list byte := [
  x00; x00; x00; x00; x72; x74; x6c; x38; x31; x32; x36; x61;
  x2d; x32; x5f; x30; x2e; x30; x2e; x32; x20; x30; x32; x2f;
  x30; x31; x2f; x32; x34; x00; x00; x00; x00; x00; x00; x00;
  x70; x00; x00; x00; x72; x1c; x00; x00; xdf; x00; x72; x74;
  x6c; x38; x31; x32; x36; x61; x20; x72; x65; x76; x2e; x62;
  x20; x6d; x61; x63; x20; x61; x6e; x64; x20; x70; x68; x79;
  x20; x6d; x63; x75; x20; x66; x69; x72; x6d; x77; x61; x72;
  x65; x20; x70; x61; x74; x63; x68; x20; x63; x6f; x64; x65;
  x20; x32; x30; x3a; x35; x33; x3a; x32; x33; x00; x8d; x9b;
  x00; x00; x00; x00; x01; x00; x00; x40; xc2; x0f; x1f; x80;
  x00; x00; x28; x80; x00; x00; x08; x80; x00; x00; x0a; x80;
  x00; x00; x0c; x80; x00; x00; x0e; x80; x00; x00; x10; x80;
  x00; x00; x12; x80; x00; x00; x14; x80; x00; x00; x16; x80;
  x00; x00; x18; x80; x00; x00; x1a; x80; x00; x00; x1c; x80;
  x00; x00; x1e; x80; x00; x00; x20; x80; x00; x00; x22; x80;
  x00; x00; x24; x80; x00; x00; x26; x80; x03; x00; x00; xe0;
  x00; x00; x06; x80; x80; x0f; x1f; x80; x00; x00; x00; x40;
  x82; x0b; x1f; x80; x00; x00; x10; x00; x10; x00; x00; x10;
  x00; x00; x10; xc0; x80; x0b; x1f; x80; x00; x00; x00; x70;
  x01; x00; x00; xe0; x00; x00; x10; x00; x40; x00; x00; x20;
  x40; x00; x02; xa0; x64; x00; x00; x90; x00; x00; x05; x30;
  x43; x0a; x1f; x80; x23; x80; x13; x80; x00; x47; x14; x80;
  x2e; xb8; x13; x80; x01; x00; x14; x80; x82; x0b; x1f; x80;
  x90; x00; x10; x80; x43; x0a; x1f; x80; x16; xa0; x13; x80;
  x00; x00; x14; x80; x12; xa0; x13; x80; x00; x00; x14; x80;
  x14; xa0; x13; x80; x00; x18; x14; x80; x10; x80; x14; x80;
  x00; x18; x14; x80; x25; x80; x14; x80; x00; x18; x14; x80;
  x33; x80; x14; x80; x00; x18; x14; x80; x37; x80; x14; x80;
  x00; x18; x14; x80; x3c; x80; x14; x80; x00; x18; x14; x80;
  x44; x80; x14; x80; x00; x18; x14; x80; x54; x80; x14; x80;
  x00; x18; x14; x80; x59; x80; x14; x80; x04; xd5; x14; x80;
  xb5; xc9; x14; x80; x00; xd5; x14; x80; x07; xd7; x14; x80;
  x70; x40; x14; x80; x00; x18; x14; x80; x7a; x10; x14; x80;
  x04; xd5; x14; x80; x94; xc9; x14; x80; x00; xd5; x14; x80;
  x07; xd7; x14; x80; xd0; x60; x14; x80; x01; xd7; x14; x80;
  x2d; x25; x14; x80; x23; x80; x14; x80; x00; x18; x14; x80;
  x64; x10; x14; x80; x00; x18; x14; x80; x7a; x10; x14; x80;
  x00; x18; x14; x80; x52; x10; x14; x80; x04; xd5; x14; x80;
  xd0; xc9; x14; x80; x00; xd5; x14; x80; x07; xd7; x14; x80;
  xd0; x60; x14; x80; x01; xd7; x14; x80; x2d; x25; x14; x80;
  x31; x80; x14; x80; x00; x18; x14; x80; x71; x11; x14; x80;
  x00; x18; x14; x80; x87; x11; x14; x80; x00; x18; x14; x80;
  x6a; x11; x14; x80; xff; xc0; x14; x80; xff; xca; x14; x80;
  x00; x18; x14; x80; xd6; x00; x14; x80; x04; xd5; x14; x80;
  x01; xa0; x14; x80; x04; xd7; x14; x80; x00; x18; x14; x80;
  x8b; x12; x14; x80; x07; xd7; x14; x80; x05; x20; x14; x80;
  x42; x80; x14; x80; x5e; xd7; x14; x80; x00; x18; x14; x80;
  x7a; x13; x14; x80; x00; x18; x14; x80; xed; x13; x14; x80;
  xd0; x61; x14; x80; x01; xd7; x14; x80; xa5; x60; x14; x80;
  x04; xd5; x14; x80; xb2; xc9; x14; x80; x00; xd5; x14; x80;
  x04; xf0; x14; x80; x04; xd5; x14; x80; xb1; xc9; x14; x80;
  x00; xd5; x14; x80; x07; xd7; x14; x80; x70; x60; x14; x80;
  x00; x18; x14; x80; xa8; x10; x14; x80; x00; x18; x14; x80;
  xbd; x10; x14; x80; x00; xd5; x14; x80; x92; xc4; x14; x80;
  x01; xd5; x14; x80; x00; x18; x14; x80; xc1; x13; x14; x80;
  x80; xa9; x14; x80; x00; xd5; x14; x80; x00; x18; x14; x80;
  x3b; x14; x14; x80; x26; xa0; x13; x80; x3a; x14; x14; x80;
  x24; xa0; x13; x80; xc0; x13; x14; x80; x22; xa0; x13; x80;
  xbc; x10; x14; x80; x20; xa0; x13; x80; x79; x13; x14; x80;
  x06; xa0; x13; x80; x8a; x12; x14; x80; x04; xa0; x13; x80;
  xd5; x00; x14; x80; x02; xa0; x13; x80; x82; x11; x14; x80;
  x00; xa0; x13; x80; x75; x10; x14; x80; x08; xa0; x13; x80;
  x00; xff; x14; x80; x16; xa0; x13; x80; x10; x00; x14; x80;
  x12; xa0; x13; x80; x00; x00; x14; x80; x14; xa0; x13; x80;
  x00; x18; x14; x80; x10; x80; x14; x80; x00; x18; x14; x80;
  x15; x80; x14; x80; x00; x18; x14; x80; x1a; x80; x14; x80;
  x00; x18; x14; x80; x1e; x80; x14; x80; x00; x18; x14; x80;
  x27; x80; x14; x80; x00; x18; x14; x80; x27; x80; x14; x80;
  x00; x18; x14; x80; x27; x80; x14; x80; x00; x18; x14; x80;
  x27; x80; x14; x80; x0f; x0c; x14; x80; x05; x05; x14; x80;
  x01; xba; x14; x80; x00; x18; x14; x80; x5e; x01; x14; x80;
  x0f; x0c; x14; x80; x06; x05; x14; x80; x02; xba; x14; x80;
  x00; x18; x14; x80; x7c; x01; x14; x80; x10; x99; x14; x80;
  x03; x9a; x14; x80; x00; x18; x14; x80; xd4; x02; x14; x80;
  x80; x85; x14; x80; x90; xc0; x14; x80; x03; x9a; x14; x80;
  x00; x10; x14; x80; xc9; x02; x14; x80; x00; xd7; x14; x80;
  xa3; x5f; x14; x80; x00; x18; x14; x80; x67; x00; x14; x80;
  x8e; xa0; x13; x80; xff; xff; x14; x80; x8c; xa0; x13; x80;
  xff; xff; x14; x80; x8a; xa0; x13; x80; xff; xff; x14; x80;
  x88; xa0; x13; x80; xff; xff; x14; x80; x86; xa0; x13; x80;
  x8c; x01; x14; x80; x84; xa0; x13; x80; xd3; x02; x14; x80;
  x82; xa0; x13; x80; x7a; x01; x14; x80; x80; xa0; x13; x80;
  x5c; x01; x14; x80; x90; xa0; x13; x80; x0f; x00; x14; x80;
  x16; xa0; x13; x80; x20; x00; x14; x80; x12; xa0; x13; x80;
  x00; x00; x14; x80; x14; xa0; x13; x80; x00; x18; x14; x80;
  x10; x80; x14; x80; x00; x18; x14; x80; x23; x80; x14; x80;
  x00; x18; x14; x80; x13; x83; x14; x80; x00; x18; x14; x80;
  x1a; x83; x14; x80; x00; x18; x14; x80; x89; x84; x14; x80;
  x00; x18; x14; x80; xb9; x86; x14; x80; x00; x18; x14; x80;
  xc1; x86; x14; x80; x00; x18; x14; x80; xad; x87; x14; x80;
  x00; x10; x14; x80; x4e; x12; x14; x80; x08; x93; x14; x80;
  x01; xb2; x14; x80; x01; xb3; x14; x80; x01; xd7; x14; x80;
  xe0; x5f; x14; x80; xff; xd2; x14; x80; x02; xb3; x14; x80;
  x00; xd2; x14; x80; x01; xb2; x14; x80; x09; xb3; x14; x80;
  x01; xd7; x14; x80; xe0; x5f; x14; x80; xff; xd2; x14; x80;
  x02; xb3; x14; x80; x00; xd2; x14; x80; x00; x18; x14; x80;
  x25; x00; x14; x80; x06; xd7; x14; x80; x69; x60; x14; x80;
  x00; xd7; x14; x80; x21; x64; x14; x80; x0c; xd7; x14; x80;
  xab; x43; x14; x80; x0a; x80; x14; x80; x90; x81; x14; x80;
  x04; x82; x14; x80; x80; xa2; x14; x80; x06; x84; x14; x80;
  x03; x0c; x14; x80; x02; x15; x14; x80; x08; xa1; x14; x80;
  x03; x95; x14; x80; x03; x0c; x14; x80; x02; x15; x14; x80;
  x1f; x0c; x14; x80; x19; x0f; x14; x80; x03; x95; x14; x80;
  x00; x10; x14; x80; x75; x11; x14; x80; x0c; xd7; x14; x80;
  xb3; x5f; x14; x80; x03; x0c; x14; x80; x02; x15; x14; x80;
  x1f; x8f; x14; x80; x03; x95; x14; x80; x00; x10; x14; x80;
  x75; x11; x14; x80; x0c; xd7; x14; x80; x33; x7f; x14; x80;
  x00; x10; x14; x80; xbd; x11; x14; x80; x00; x18; x14; x80;
  xaa; x81; x14; x80; x10; x87; x14; x80; x01; xd7; x14; x80;
  xb1; x33; x14; x80; x51; x80; x14; x80; x01; xd7; x14; x80;
  xb5; x60; x14; x80; x06; xd7; x14; x80; x69; x60; x14; x80;
  x00; x18; x14; x80; x56; x80; x14; x80; x0a; xa0; x14; x80;
  x80; xa2; x14; x80; x04; xa4; x14; x80; x00; x18; x14; x80;
  xf3; x80; x14; x80; x73; xd1; x14; x80; x4d; xd0; x14; x80;
  x00; x10; x14; x80; x75; x11; x14; x80; x00; xd7; x14; x80;
  xb4; x5f; x14; x80; x73; xd1; x14; x80; x5d; xd0; x14; x80;
  x0d; xd1; x14; x80; x49; xd0; x14; x80; x00; x10; x14; x80;
  x75; x11; x14; x80; x00; xd7; x14; x80; xb4; x5f; x14; x80;
  x00; xd7; x14; x80; xf5; x64; x14; x80; x00; xd7; x14; x80;
  xe7; x5e; x14; x80; x20; xb9; x14; x80; x00; x10; x14; x80;
  x75; x11; x14; x80; x1f; xd7; x14; x80; xb4; x7f; x14; x80;
  x20; x99; x14; x80; x3c; xcb; x14; x80; x00; x10; x14; x80;
  x75; x11; x14; x80; x1f; xd7; x14; x80; x94; x7d; x14; x80;
  x45; x60; x14; x80; xfa; xff; x14; x80; x20; xb8; x14; x80;
  x00; x10; x14; x80; x75; x11; x14; x80; x1f; xd7; x14; x80;
  xa5; x7f; x14; x80; x20; x98; x14; x80; x3d; xcb; x14; x80;
  x00; x10; x14; x80; x75; x11; x14; x80; x00; xd7; x14; x80;
  xb5; x60; x14; x80; x1f; xd7; x14; x80; xb4; x7b; x14; x80;
  xb6; x61; x14; x80; xf8; xff; x14; x80; x80; xbb; x14; x80;
  x00; x10; x14; x80; x75; x11; x14; x80; x1f; xd7; x14; x80;
  xb4; x5f; x14; x80; x80; x9b; x14; x80; x00; xd7; x14; x80;
  xe7; x60; x14; x80; x3f; xcb; x14; x80; x00; x18; x14; x80;
  x94; x80; x14; x80; x3e; xcb; x14; x80; x00; x18; x14; x80;
  x0f; x81; x14; x80; x00; x18; x14; x80; xf3; x80; x14; x80;
  x03; x0c; x14; x80; x02; x15; x14; x80; x04; xae; x14; x80;
  x03; x95; x14; x80; x00; x00; x14; x80; x00; x00; x14; x80;
  x03; x0c; x14; x80; x02; x15; x14; x80; x04; x8e; x14; x80;
  x03; x95; x14; x80; x06; xd7; x14; x80; xfe; x65; x14; x80;
  x1f; x0c; x14; x80; x04; x0d; x14; x80; xc0; x8d; x14; x80;
  x00; x10; x14; x80; xbd; x11; x14; x80; x0c; xd7; x14; x80;
  x4b; x41; x14; x80; xc0; x0c; x14; x80; x40; x00; x14; x80;
  x03; x0c; x14; x80; x02; x01; x14; x80; xe0; x0c; x14; x80;
  xe0; x03; x14; x80; xce; xcc; x14; x80; x00; x18; x14; x80;
  xb7; x80; x14; x80; xc0; x0c; x14; x80; x40; x00; x14; x80;
  x03; x0c; x14; x80; x00; x01; x14; x80; xe0; x0c; x14; x80;
  x80; x03; x14; x80; x9c; xcc; x14; x80; x10; x87; x14; x80;
  x00; x10; x14; x80; x18; x11; x14; x80; x04; xa1; x14; x80;
  x00; x10; x14; x80; x2a; x11; x14; x80; x04; x81; x14; x80].

Definition rtl8126a_2_fw_1 : list byte := [
  x02; xa2; x14; x80; x40; xa1; x14; x80; x00; x10; x14; x80;
  x2a; x11; x14; x80; x40; x81; x14; x80; x00; x10; x14; x80;
  x21; x11; x14; x80; x0f; xaa; x14; x80; x30; xa1; x14; x80;
  x2f; xaa; x14; x80; xd5; xa2; x14; x80; x05; xa4; x14; x80;
  x20; xa7; x14; x80; x0a; xa0; x14; x80; x00; x18; x14; x80;
  xf3; x80; x14; x80; x04; xd7; x14; x80; xf1; x3c; x14; x80;
  xd5; x80; x14; x80; x1f; x0c; x14; x80; x02; x0d; x14; x80;
  x00; x18; x14; x80; xd7; x80; x14; x80; x1f; x0c; x14; x80;
  x01; x0d; x14; x80; xc0; x0c; x14; x80; x40; x0d; x14; x80;
  x00; x10; x14; x80; xbd; x11; x14; x80; x10; x87; x14; x80;
  x00; x10; x14; x80; x18; x11; x14; x80; x08; xa1; x14; x80;
  x00; x10; x14; x80; x2a; x11; x14; x80; x08; x81; x14; x80;
  x03; xa2; x14; x80; x2f; x8a; x14; x80; x30; xa1; x14; x80;
  x04; x82; x14; x80; x40; xa1; x14; x80; x00; x10; x14; x80;
  x2a; x11; x14; x80; x40; x81; x14; x80; x00; x10; x14; x80;
  x21; x11; x14; x80; x7a; xd1; x14; x80; x4b; xd0; x14; x80;
  x00; x10; x14; x80; x75; x11; x14; x80; x00; xd7; x14; x80;
  xb4; x5f; x14; x80; x04; xa2; x14; x80; x00; x10; x14; x80;
  x75; x11; x14; x80; x00; xd7; x14; x80; xa7; x5f; x14; x80;
  x20; xb9; x14; x80; x00; x10; x14; x80; x75; x11; x14; x80;
  x1f; xd7; x14; x80; xb4; x7f; x14; x80; x20; x99; x14; x80;
  x00; x10; x14; x80; x75; x11; x14; x80; x1f; xd7; x14; x80;
  x25; x61; x14; x80; x54; x60; x14; x80; xfb; xff; x14; x80;
  x00; x10; x14; x80; x75; x11; x14; x80; x00; xd7; x14; x80;
  xa7; x5f; x14; x80; x00; x18; x14; x80; xf7; x80; x14; x80;
  x20; xb8; x14; x80; x00; x10; x14; x80; x75; x11; x14; x80;
  x1f; xd7; x14; x80; xa5; x7f; x14; x80; x20; x98; x14; x80;
  x01; x9b; x14; x80; x02; xd4; x14; x80; x00; x10; x14; x80;
  x0d; x11; x14; x80; x01; xd7; x14; x80; xb1; x33; x14; x80;
  x1c; x81; x14; x80; x01; xd7; x14; x80; xb5; x60; x14; x80;
  x06; xd7; x14; x80; x69; x60; x14; x80; x00; x18; x14; x80;
  x1e; x81; x14; x80; x00; x18; x14; x80; x83; x81; x14; x80;
  x0c; xd7; x14; x80; xab; x40; x14; x80; x0a; x80; x14; x80;
  x10; x81; x14; x80; x84; x82; x14; x80; x04; x84; x14; x80;
  x10; xa7; x14; x80; x20; x81; x14; x80; x41; x82; x14; x80;
  x00; x10; x14; x80; x18; x11; x14; x80; x04; xa1; x14; x80;
  x00; x10; x14; x80; x2a; x11; x14; x80; x04; x81; x14; x80;
  x00; x10; x14; x80; x21; x11; x14; x80; x2f; xaa; x14; x80;
  x0c; xd7; x14; x80; x8b; x43; x14; x80; x84; xa2; x14; x80;
  x78; xd0; x14; x80; x0a; x80; x14; x80; x10; x81; x14; x80;
  x84; xa2; x14; x80; x04; x84; x14; x80; x03; x0c; x14; x80;
  x02; x15; x14; x80; x08; xa1; x14; x80; x03; x95; x14; x80;
  x03; x0c; x14; x80; x02; x15; x14; x80; x1f; x0c; x14; x80;
  x19; x0f; x14; x80; x03; x95; x14; x80; x00; x10; x14; x80;
  x75; x11; x14; x80; x0c; xd7; x14; x80; xb3; x5f; x14; x80;
  x03; x0c; x14; x80; x02; x15; x14; x80; x1f; x8f; x14; x80;
  x03; x95; x14; x80; x00; x10; x14; x80; x75; x11; x14; x80;
  x0c; xd7; x14; x80; x33; x7f; x14; x80; x1f; x0c; x14; x80;
  x06; x0d; x14; x80; xc0; x8d; x14; x80; x00; x10; x14; x80;
  xbd; x11; x14; x80; x10; x81; x14; x80; x84; xa2; x14; x80;
  x04; xa4; x14; x80; x0a; xa0; x14; x80; x0c; xd7; x14; x80;
  xa1; x40; x14; x80; x03; x0c; x14; x80; x02; x15; x14; x80;
  x10; xad; x14; x80; x03; x95; x14; x80; x0c; xd7; x14; x80;
  x4b; x41; x14; x80; xc0; x0c; x14; x80; x80; x00; x14; x80;
  x03; x0c; x14; x80; x02; x01; x14; x80; xe0; x0c; x14; x80;
  x40; x03; x14; x80; x52; xcc; x14; x80; x00; x18; x14; x80;
  x6b; x81; x14; x80; xc0; x80; x14; x80; x03; x81; x14; x80;
  xe0; x83; x14; x80; xff; x8c; x14; x80; x93; xd1; x14; x80;
  x47; xd0; x14; x80; x00; x10; x14; x80; x75; x11; x14; x80;
  x00; x10; x14; x80; x93; x11; x14; x80; x00; xd7; x14; x80;
  x74; x5f; x14; x80; x10; xa1; x14; x80; x00; x10; x14; x80;
  x75; x11; x14; x80; x00; x10; x14; x80; x93; x11; x14; x80;
  x00; xd7; x14; x80; x6a; x5f; x14; x80; x80; xa1; x14; x80;
  xf5; xd1; x14; x80; x49; xd0; x14; x80; x00; x10; x14; x80;
  x75; x11; x14; x80; x00; x10; x14; x80; x93; x11; x14; x80;
  x00; xd7; x14; x80; x74; x5f; x14; x80; x10; x87; x14; x80;
  x0a; xa0; x14; x80; x90; x81; x14; x80; x04; x82; x14; x80;
  x80; xa2; x14; x80; x04; xa4; x14; x80; x80; xbb; x14; x80;
  x00; x10; x14; x80; x75; x11; x14; x80; x1f; xd7; x14; x80;
  xb4; x5f; x14; x80; x20; xb9; x14; x80; x80; x9b; x14; x80;
  x00; x10; x14; x80; x75; x11; x14; x80; x1f; xd7; x14; x80;
  xb4; x7f; x14; x80; x20; x99; x14; x80; x00; x10; x14; x80;
  x75; x11; x14; x80; x33; xcb; x14; x80; x1f; xd7; x14; x80;
  x05; x61; x14; x80; x74; x5f; x14; x80; x00; x10; x14; x80;
  x75; x11; x14; x80; x00; xd7; x14; x80; xa7; x5f; x14; x80;
  x00; x18; x14; x80; x8e; x81; x14; x80; x10; xa7; x14; x80;
  x20; xb8; x14; x80; x00; x10; x14; x80; x75; x11; x14; x80;
  x1f; xd7; x14; x80; x65; x7f; x14; x80; x20; x98; x14; x80;
  x00; x18; x14; x80; xf1; x81; x14; x80; x1f; x0c; x14; x80;
  x04; x0d; x14; x80; xc0; x8d; x14; x80; x00; x10; x14; x80;
  xbd; x11; x14; x80; x0a; xa0; x14; x80; x80; x82; x14; x80;
  x10; xa7; x14; x80; x03; xd1; x14; x80; x4c; xd0; x14; x80;
  x00; x10; x14; x80; x75; x11; x14; x80; x00; xd7; x14; x80;
  xb4; x5f; x14; x80; x1f; x0c; x14; x80; x06; x0d; x14; x80;
  xc0; x8d; x14; x80; x00; x10; x14; x80; xbd; x11; x14; x80;
  x10; x87; x14; x80; x90; xa1; x14; x80; x04; xa2; x14; x80;
  x80; x82; x14; x80; x04; xa4; x14; x80; x00; x10; x14; x80;
  x75; x11; x14; x80; x00; xd7; x14; x80; xa7; x5f; x14; x80;
  x0a; xa0; x14; x80; x10; xa1; x14; x80; x84; xa2; x14; x80;
  x04; xa4; x14; x80; x33; xcb; x14; x80; x1f; xd7; x14; x80;
  x54; x5f; x14; x80; x20; xb9; x14; x80; x00; x10; x14; x80;
  x75; x11; x14; x80; x1f; xd7; x14; x80; xb4; x7f; x14; x80;
  x20; x99; x14; x80; x00; x10; x14; x80; x75; x11; x14; x80;
  x1f; xd7; x14; x80; x45; x61; x14; x80; x74; x60; x14; x80;
  x00; x18; x14; x80; xd3; x81; x14; x80; x00; x10; x14; x80;
  x75; x11; x14; x80; x00; xd7; x14; x80; xa7; x5f; x14; x80;
  x00; x18; x14; x80; xcd; x81; x14; x80; x20; xb8; x14; x80;
  x00; x10; x14; x80; x75; x11; x14; x80; x1f; xd7; x14; x80;
  xa5; x7f; x14; x80; x10; xa7; x14; x80; x20; x98; x14; x80;
  x20; xbb; x14; x80; x08; x93; x14; x80; x10; xb2; x14; x80;
  x01; xb3; x14; x80; x00; x10; x14; x80; x75; x11; x14; x80;
  x01; xd7; x14; x80; xa4; x5f; x14; x80; x02; xb3; x14; x80;
  x10; x92; x14; x80; x0a; xa0; x14; x80; x90; xa1; x14; x80;
  x84; xa2; x14; x80; x04; xa4; x14; x80; x34; xcb; x14; x80;
  x01; xd7; x14; x80; xb1; x33; x14; x80; x3f; x82; x14; x80;
  x06; xd7; x14; x80; xa9; x60; x14; x80; xf5; xd1; x14; x80;
  x49; xd0; x14; x80; x00; x18; x14; x80; x01; x82; x14; x80;
  x3c; xd1; x14; x80; x4a; xd0; x14; x80; x00; x10; x14; x80;
  x75; x11; x14; x80; x00; x10; x14; x80; x93; x11; x14; x80;
  x00; xd7; x14; x80; x74; x5f; x14; x80; x00; xd7; x14; x80;
  x2b; x5f; x14; x80; x1f; x0c; x14; x80; x03; x0d; x14; x80;
  xc0; x8d; x14; x80; x00; x10; x14; x80; xbd; x11; x14; x80;
  x90; x81; x14; x80; x04; x82; x14; x80; x80; xa2; x14; x80;
  x0a; xa0; x14; x80; x03; x0c; x14; x80; x02; x15; x14; x80;
  x04; x83; x14; x80; x03; x95; x14; x80; x35; xcb; x14; x80;
  x0c; xd7; x14; x80; x4b; x41; x14; x80; x80; x82; x14; x80;
  x0a; x80; x14; x80; x11; xd4; x14; x80; x00; x10; x14; x80;
  x0d; x11; x14; x80; x00; x10; x14; x80; xbd; x11; x14; x80;
  x80; xa2; x14; x80; x0a; xa0; x14; x80; x0a; xd4; x14; x80;
  x36; xcb; x14; x80; x00; x10; x14; x80; x0d; x11; x14; x80;
  x06; xd7; x14; x80; x1b; x43; x14; x80; x0a; x80; x14; x80;
  x80; x81; x14; x80; x80; x82; x14; x80; x04; x84; x14; x80;
  x04; xa0; x14; x80; x00; x10; x14; x80; x2a; x11; x14; x80;
  x04; x80; x14; x80; x01; xa0; x14; x80; x00; x10; x14; x80;
  x2a; x11; x14; x80; x01; x80; x14; x80; x03; x0c; x14; x80;
  x02; x09; x14; x80; x0a; xa0; x14; x80; x4a; xd1; x14; x80;
  x48; xd0; x14; x80; x00; x10; x14; x80; x75; x11; x14; x80;
  x00; x10; x14; x80; x93; x11; x14; x80; x00; xd7; x14; x80;
  x74; x5f; x14; x80; x1f; x0c; x14; x80; x06; x0d; x14; x80;
  xc0; x8d; x14; x80; x00; x10; x14; x80; xbd; x11; x14; x80;
  x0c; xd7; x14; x80; x4b; x41; x14; x80; xc0; x0c; x14; x80;
  x80; x00; x14; x80; x03; x0c; x14; x80; x01; x01; x14; x80;
  xe0; x0c; x14; x80; xa0; x03; x14; x80; xb5; xcc; x14; x80;
  x00; x18; x14; x80; x56; x82; x14; x80; xc0; x0c; x14; x80;
  x00; x00; x14; x80; x03; x0c; x14; x80; x01; x01; x14; x80;
  xe0; x0c; x14; x80; x20; x03; x14; x80; x21; xcc; x14; x80;
  x03; x0c; x14; x80; x02; x15; x14; x80; x30; x0c; x14; x80;
  x20; x01; x14; x80; x04; xa3; x14; x80; x03; x95; x14; x80;
  x0c; xd7; x14; x80; x4b; x67; x14; x80; x04; xd7; x14; x80;
  x1a; x47; x14; x80; x01; xa3; x14; x80; x0a; x80; x14; x80;
  x10; xa1; x14; x80; x80; x81; x14; x80; x04; xa2; x14; x80;
  xa0; x82; x14; x80; x04; xa4; x14; x80; x40; xaa; x14; x80;
  x03; x0c; x14; x80; x02; x15; x14; x80; x01; xaa; x14; x80;
  x03; x95; x14; x80; x78; xd1; x14; x80; x49; xd0; x14; x80;
  x00; x10; x14; x80; x75; x11; x14; x80; x00; x10; x14; x80;
  x93; x11; x14; x80; x00; xd7; x14; x80; x74; x5f; x14; x80;
  x01; x83; x14; x80; x0a; xa0; x14; x80; x10; x81; x14; x80;
  x80; xa1; x14; x80; x84; xa2; x14; x80; x20; x82; x14; x80].

Definition rtl8126a_2_fw_2 : list byte := [
  x04; xa4; x14; x80; x78; xd1; x14; x80; x48; xd0; x14; x80;
  x00; x10; x14; x80; x75; x11; x14; x80; x00; x10; x14; x80;
  x93; x11; x14; x80; x00; xd7; x14; x80; x74; x5f; x14; x80;
  x3a; xcb; x14; x80; x01; x83; x14; x80; x0a; xa0; x14; x80;
  x90; xa1; x14; x80; x80; xa2; x14; x80; x24; x82; x14; x80;
  x04; xa4; x14; x80; x00; xd7; x14; x80; x41; x60; x14; x80;
  x02; xa4; x14; x80; x78; xd1; x14; x80; x49; xd0; x14; x80;
  x00; x10; x14; x80; x75; x11; x14; x80; x00; x10; x14; x80;
  x93; x11; x14; x80; x00; xd7; x14; x80; x74; x5f; x14; x80;
  x00; x18; x14; x80; xab; x82; x14; x80; x0a; xa0; x14; x80;
  x90; xa1; x14; x80; xa4; xa2; x14; x80; x04; xa4; x14; x80;
  x00; xd7; x14; x80; x41; x60; x14; x80; x02; xa4; x14; x80;
  x37; xcb; x14; x80; x06; xd7; x14; x80; xa9; x60; x14; x80;
  x3d; xd1; x14; x80; x4a; xd0; x14; x80; x00; x18; x14; x80;
  xa7; x82; x14; x80; x3c; xd1; x14; x80; x4b; xd0; x14; x80;
  x00; x10; x14; x80; x75; x11; x14; x80; x00; xd7; x14; x80;
  xb4; x5f; x14; x80; x00; x10; x14; x80; x75; x11; x14; x80;
  x00; x10; x14; x80; x93; x11; x14; x80; x00; xd7; x14; x80;
  x6b; x5f; x14; x80; x1f; x0c; x14; x80; x07; x0d; x14; x80;
  xc0; x8d; x14; x80; x00; x10; x14; x80; xbd; x11; x14; x80;
  x0d; xd4; x14; x80; x00; x10; x14; x80; x0d; x11; x14; x80;
  x08; xa2; x14; x80; x04; x82; x14; x80; x40; xaa; x14; x80;
  x38; xcb; x14; x80; x06; xd7; x14; x80; x29; x61; x14; x80;
  x0c; xd7; x14; x80; x8b; x60; x14; x80; x7a; xd1; x14; x80;
  x47; xd0; x14; x80; x06; xf0; x14; x80; x3d; xd1; x14; x80;
  x4b; xd0; x14; x80; x03; xf0; x14; x80; x96; xd1; x14; x80;
  x4b; xd0; x14; x80; x00; x10; x14; x80; x75; x11; x14; x80;
  x00; x10; x14; x80; x93; x11; x14; x80; x00; xd7; x14; x80;
  x74; x5f; x14; x80; x04; xd7; x14; x80; xac; x35; x14; x80;
  x11; x83; x14; x80; xc0; x0c; x14; x80; x00; x00; x14; x80;
  x03; x0c; x14; x80; x01; x01; x14; x80; xe0; x0c; x14; x80;
  x20; x03; x14; x80; x21; xcc; x14; x80; x1f; x0c; x14; x80;
  x03; x0d; x14; x80; xc0; x8d; x14; x80; x00; x10; x14; x80;
  xbd; x11; x14; x80; xc0; x0c; x14; x80; x00; x00; x14; x80;
  x07; x0c; x14; x80; x07; x0c; x14; x80; x03; x0c; x14; x80;
  x02; x15; x14; x80; x80; xa2; x14; x80; x80; x87; x14; x80;
  x60; x0c; x14; x80; x00; x07; x14; x80; x03; x95; x14; x80;
  x04; xd7; x14; x80; x9c; x40; x14; x80; x10; xd1; x14; x80;
  x4d; xd0; x14; x80; x03; xf0; x14; x80; x10; xd1; x14; x80;
  x4d; xd0; x14; x80; x4a; xcb; x14; x80; x00; x10; x14; x80;
  x75; x11; x14; x80; x00; xd7; x14; x80; xb4; x5f; x14; x80;
  x03; x0c; x14; x80; x02; x15; x14; x80; x40; xa2; x14; x80;
  x80; xa1; x14; x80; x01; xa2; x14; x80; x80; xa7; x14; x80;
  x03; x95; x14; x80; x14; xd1; x14; x80; x4a; xd0; x14; x80;
  x00; x00; x14; x80; x00; x00; x14; x80; x00; x00; x14; x80;
  x00; x00; x14; x80; x00; x00; x14; x80; x00; x00; x14; x80;
  x00; x00; x14; x80; x00; x00; x14; x80; x00; x00; x14; x80;
  x00; x00; x14; x80; x00; x00; x14; x80; x00; x00; x14; x80;
  x4b; xcb; x14; x80; x00; x10; x14; x80; x75; x11; x14; x80;
  x00; xd7; x14; x80; xb4; x5f; x14; x80; x00; x18; x14; x80;
  xc3; x0b; x14; x80; x00; x18; x14; x80; xc3; x0b; x14; x80;
  x00; x10; x14; x80; x0d; x11; x14; x80; x19; xd4; x14; x80;
  x00; x10; x14; x80; x0d; x11; x14; x80; x00; x18; x14; x80;
  xae; x01; x14; x80; x10; x81; x14; x80; x80; xa1; x14; x80;
  x80; x82; x14; x80; x04; xa4; x14; x80; x0a; xa0; x14; x80;
  x02; x84; x14; x80; x42; xcb; x14; x80; x06; xd7; x14; x80;
  xe9; x3d; x14; x80; x7a; x83; x14; x80; x04; xd7; x14; x80;
  xac; x35; x14; x80; x80; x83; x14; x80; x00; x10; x14; x80;
  x75; x11; x14; x80; x00; xd7; x14; x80; xab; x5f; x14; x80;
  x1f; x0c; x14; x80; x06; x0d; x14; x80; xc0; x8d; x14; x80;
  x00; x10; x14; x80; xbd; x11; x14; x80; x18; xd4; x14; x80;
  x00; x10; x14; x80; x0d; x11; x14; x80; x1f; x0c; x14; x80;
  x03; x0d; x14; x80; xc0; x8d; x14; x80; x00; x10; x14; x80;
  xbd; x11; x14; x80; x03; x0c; x14; x80; x02; x15; x14; x80;
  x80; xa7; x14; x80; x0e; xa2; x14; x80; x03; x95; x14; x80;
  x04; xd7; x14; x80; x9c; x40; x14; x80; x14; xd1; x14; x80;
  x4d; xd0; x14; x80; x03; xf0; x14; x80; x14; xd1; x14; x80;
  x4d; xd0; x14; x80; x03; x0c; x14; x80; x02; x15; x14; x80;
  x03; xa0; x14; x80; x03; x95; x14; x80; x4c; xcb; x14; x80;
  x00; x10; x14; x80; x75; x11; x14; x80; x00; xd7; x14; x80;
  xb4; x5f; x14; x80; x03; x0c; x14; x80; x02; x15; x14; x80;
  x60; x0c; x14; x80; x20; x07; x14; x80; x20; xa2; x14; x80;
  x03; x95; x14; x80; x4d; xcb; x14; x80; x04; xd7; x14; x80;
  x9c; x40; x14; x80; x28; xd1; x14; x80; x4f; xd0; x14; x80;
  x03; xf0; x14; x80; x28; xd1; x14; x80; x4f; xd0; x14; x80;
  x00; x10; x14; x80; x75; x11; x14; x80; x00; xd7; x14; x80;
  xb4; x5f; x14; x80; x03; x0c; x14; x80; x02; x15; x14; x80;
  x60; x0c; x14; x80; x40; x07; x14; x80; x10; xa2; x14; x80;
  x03; x95; x14; x80; x04; xd7; x14; x80; x9c; x40; x14; x80;
  x14; xd1; x14; x80; x4e; xd0; x14; x80; x03; xf0; x14; x80;
  x14; xd1; x14; x80; x4e; xd0; x14; x80; x4e; xcb; x14; x80;
  x00; x10; x14; x80; x75; x11; x14; x80; x00; xd7; x14; x80;
  xb4; x5f; x14; x80; x1f; x0c; x14; x80; x06; x0d; x14; x80;
  xc0; x8d; x14; x80; x00; x10; x14; x80; xbd; x11; x14; x80;
  xc0; x0c; x14; x80; x00; x00; x14; x80; x07; x0c; x14; x80;
  x01; x0c; x14; x80; x04; xd7; x14; x80; xb5; x40; x14; x80;
  x03; x0c; x14; x80; x02; x15; x14; x80; x3c; xa2; x14; x80;
  x03; x95; x14; x80; x20; xb9; x14; x80; x00; x10; x14; x80;
  x75; x11; x14; x80; x1f; xd7; x14; x80; xb4; x7f; x14; x80;
  x10; x87; x14; x80; x20; x99; x14; x80; x00; x10; x14; x80;
  x75; x11; x14; x80; x1f; xd7; x14; x80; x05; x61; x14; x80;
  x54; x60; x14; x80; xfb; xff; x14; x80; x00; x10; x14; x80;
  x75; x11; x14; x80; x00; xd7; x14; x80; xa7; x5f; x14; x80;
  xef; xff; x14; x80; x10; xa7; x14; x80; x20; xb8; x14; x80;
  x00; x10; x14; x80; x75; x11; x14; x80; x1f; xd7; x14; x80;
  xa5; x7f; x14; x80; x20; x98; x14; x80; x0a; xa0; x14; x80;
  x03; x0c; x14; x80; x02; x15; x14; x80; x03; xa1; x14; x80;
  x03; x95; x14; x80; x20; xbb; x14; x80; x06; xd7; x14; x80;
  xdd; x60; x14; x80; x1f; x0c; x14; x80; x07; x0d; x14; x80;
  xc0; x8d; x14; x80; x00; x10; x14; x80; xbd; x11; x14; x80;
  x03; x0c; x14; x80; x02; x15; x14; x80; x30; x0c; x14; x80;
  x20; x01; x14; x80; x04; xa3; x14; x80; x03; x95; x14; x80;
  x90; xa1; x14; x80; xa0; xa2; x14; x80; x04; xa4; x14; x80;
  x0a; xa0; x14; x80; x04; xa6; x14; x80; x00; xd7; x14; x80;
  x41; x60; x14; x80; x02; xa4; x14; x80; x43; xcb; x14; x80;
  x7a; xd1; x14; x80; x48; xd0; x14; x80; x00; x10; x14; x80;
  x75; x11; x14; x80; x00; x10; x14; x80; x93; x11; x14; x80;
  x00; xd7; x14; x80; x74; x5f; x14; x80; x9d; x60; x14; x80;
  x17; xd4; x14; x80; x00; x10; x14; x80; x0d; x11; x14; x80;
  x00; x10; x14; x80; x75; x11; x14; x80; x00; x10; x14; x80;
  x93; x11; x14; x80; x00; xd7; x14; x80; x7a; x5f; x14; x80;
  x04; xd7; x14; x80; x36; x5f; x14; x80; x06; xd7; x14; x80;
  x89; x60; x14; x80; x0c; xd4; x14; x80; x00; x10; x14; x80;
  x0d; x11; x14; x80; x40; xaa; x14; x80; x10; xbb; x14; x80;
  x50; xcb; x14; x80; x00; x10; x14; x80; x75; x11; x14; x80;
  x00; x10; x14; x80; x93; x11; x14; x80; x1f; xd7; x14; x80;
  x75; x5f; x14; x80; x90; x81; x14; x80; xa0; x82; x14; x80;
  x02; x84; x14; x80; x04; xa4; x14; x80; x0a; x80; x14; x80;
  x18; x87; x14; x80; x10; x9b; x14; x80; x20; x9b; x14; x80;
  x00; x10; x14; x80; x75; x11; x14; x80; x1f; xd7; x14; x80;
  xb5; x7f; x14; x80; x51; xcb; x14; x80; x00; x10; x14; x80;
  x75; x11; x14; x80; x1f; xd7; x14; x80; x94; x5f; x14; x80;
  x06; xd7; x14; x80; x89; x60; x14; x80; x41; xd1; x14; x80;
  x43; xd0; x14; x80; x03; xf0; x14; x80; x41; xd1; x14; x80;
  x44; xd0; x14; x80; x00; x10; x14; x80; x75; x11; x14; x80;
  x00; xd7; x14; x80; xb4; x5f; x14; x80; x00; xd7; x14; x80;
  xe5; x60; x14; x80; x04; xd7; x14; x80; xbe; x60; x14; x80;
  x06; xd7; x14; x80; xb1; x29; x14; x80; xfb; x83; x14; x80;
  x02; xf0; x14; x80; x80; xa8; x14; x80; x0a; xa0; x14; x80;
  x90; xa1; x14; x80; x20; x82; x14; x80; x80; xa2; x14; x80;
  x04; xa4; x14; x80; x20; xa6; x14; x80; x03; x0c; x14; x80;
  x02; x15; x14; x80; xaa; xc5; x14; x80; x03; x95; x14; x80;
  x00; xd7; x14; x80; x61; x60; x14; x80; x02; xa4; x14; x80;
  x80; xa4; x14; x80; x52; xcb; x14; x80; x00; x10; x14; x80;
  x75; x11; x14; x80; x00; xd7; x14; x80; xba; x5f; x14; x80;
  x04; xd7; x14; x80; x76; x5f; x14; x80; x20; xb9; x14; x80;
  x53; xcb; x14; x80; x00; x10; x14; x80; x75; x11; x14; x80;
  x1f; xd7; x14; x80; xb4; x7f; x14; x80; x20; x99; x14; x80;
  x0a; xa0; x14; x80; x90; xa1; x14; x80; x80; xa2; x14; x80;
  x20; x82; x14; x80; x04; xa4; x14; x80; x80; xb5; x14; x80;
  x00; xd7; x14; x80; xa1; x40; x14; x80; x03; x0c; x14; x80;
  x02; x15; x14; x80; x02; xa6; x14; x80; x03; x95; x14; x80;
  x03; x0c; x14; x80; x02; x15; x14; x80; x10; xa3; x14; x80;
  x03; x95; x14; x80; x60; xcb; x14; x80; xc8; xd1; x14; x80;
  x45; xd0; x14; x80; x00; x10; x14; x80; x75; x11; x14; x80;
  x00; xd7; x14; x80; xb4; x5f; x14; x80; x10; xaa; x14; x80;
  x0c; xd7; x14; x80; x33; x28; x14; x80; x34; x84; x14; x80;
  x03; xf0; x14; x80; x00; x10; x14; x80; x38; x12; x14; x80].

Definition rtl8126a_2_fw_3 : list byte := [
  x0c; xd7; x14; x80; xa6; x40; x14; x80; x03; x0c; x14; x80;
  x02; x15; x14; x80; x40; xa1; x14; x80; x03; x95; x14; x80;
  x0c; xd7; x14; x80; xa3; x40; x14; x80; x03; x0c; x14; x80;
  x02; x15; x14; x80; x20; xac; x14; x80; x03; x95; x14; x80;
  x0c; xa9; x14; x80; x80; xaa; x14; x80; x1f; x0c; x14; x80;
  x07; x0d; x14; x80; xc0; x8d; x14; x80; x00; x10; x14; x80;
  xbd; x11; x14; x80; x0a; xa0; x14; x80; x90; xa1; x14; x80;
  x80; xa2; x14; x80; x20; x82; x14; x80; x04; xa4; x14; x80;
  x80; xb5; x14; x80; x03; x0c; x14; x80; x02; x15; x14; x80;
  x00; xc5; x14; x80; x03; x95; x14; x80; xe0; x83; x14; x80;
  x00; xd7; x14; x80; xc1; x40; x14; x80; x03; x0c; x14; x80;
  x02; x15; x14; x80; x02; xa6; x14; x80; x03; x95; x14; x80;
  x01; x8e; x14; x80; x4a; xd1; x14; x80; x58; xd0; x14; x80;
  x0c; xd7; x14; x80; x63; x40; x14; x80; x00; x10; x14; x80;
  xf2; x11; x14; x80; x62; xcb; x14; x80; x00; x10; x14; x80;
  x75; x11; x14; x80; x04; xd7; x14; x80; x70; x2e; x14; x80;
  x79; x84; x14; x80; x1f; xd7; x14; x80; x6e; x62; x14; x80;
  x04; xd7; x14; x80; x68; x38; x14; x80; x7d; x84; x14; x80;
  x0c; xd7; x14; x80; x18; x2f; x14; x80; x83; x84; x14; x80;
  x00; xd7; x14; x80; xb5; x5d; x14; x80; x03; x0c; x14; x80;
  x02; x15; x14; x80; xaa; xc5; x14; x80; x03; x95; x14; x80;
  xe0; x0c; x14; x80; x20; x03; x14; x80; x00; x18; x14; x80;
  x6f; x0d; x14; x80; x00; x18; x14; x80; x15; x0f; x14; x80;
  x00; x18; x14; x80; xae; x0d; x14; x80; x03; x0c; x14; x80;
  x02; x15; x14; x80; xaa; xc5; x14; x80; x03; x95; x14; x80;
  x00; x18; x14; x80; xc9; x0f; x14; x80; x03; x0c; x14; x80;
  x02; x15; x14; x80; xaa; xc5; x14; x80; x03; x95; x14; x80;
  x00; x18; x14; x80; x84; x0d; x14; x80; x00; x10; x14; x80;
  xe5; x16; x14; x80; x0c; xd7; x14; x80; xa4; x5f; x14; x80;
  x06; xa7; x14; x80; x0c; xd7; x14; x80; x8b; x40; x14; x80;
  x01; xa7; x14; x80; x02; xa5; x14; x80; x80; xa8; x14; x80;
  x01; x88; x14; x80; x01; x8e; x14; x80; x50; xca; x14; x80;
  x00; x10; x14; x80; x2e; x85; x14; x80; x51; xca; x14; x80;
  x0e; xd7; x14; x80; x10; x22; x14; x80; x2c; x85; x14; x80;
  x0c; xd7; x14; x80; x84; x40; x14; x80; x05; xd7; x14; x80;
  xfd; x5e; x14; x80; x07; xf0; x14; x80; x00; x10; x14; x80;
  xe9; x16; x14; x80; x0c; xd7; x14; x80; xa2; x5c; x14; x80;
  x00; x18; x14; x80; xb2; x15; x14; x80; x0c; xd7; x14; x80;
  x5a; x60; x14; x80; x10; x9a; x14; x80; x40; x8e; x14; x80;
  x04; x84; x14; x80; x00; x10; x14; x80; x4e; x17; x14; x80;
  x80; x8e; x14; x80; x62; xca; x14; x80; x05; xd7; x14; x80;
  x84; x30; x14; x80; x0e; x85; x14; x80; x10; xba; x14; x80;
  x00; x00; x14; x80; x00; x00; x14; x80; x00; x10; x14; x80;
  x08; x86; x14; x80; x03; x0c; x14; x80; x00; x01; x14; x80;
  x02; xd7; x14; x80; x38; x46; x14; x80; xc4; xd1; x14; x80;
  x44; xd0; x14; x80; x00; x10; x14; x80; xe5; x16; x14; x80;
  x00; x10; x14; x80; x0f; x17; x14; x80; x0c; xd7; x14; x80;
  x7c; x5f; x14; x80; x08; x81; x14; x80; x1f; x0c; x14; x80;
  x07; x09; x14; x80; x40; x89; x14; x80; x00; x10; x14; x80;
  x02; x17; x14; x80; xc4; xa0; x14; x80; x10; x86; x14; x80;
  x30; x80; x14; x80; x06; x87; x14; x80; x07; x0c; x14; x80;
  x06; x0b; x14; x80; x10; x84; x14; x80; x80; xa9; x14; x80;
  x02; xa7; x14; x80; xc4; xd1; x14; x80; x45; xd0; x14; x80;
  x00; x10; x14; x80; xe5; x16; x14; x80; x00; x10; x14; x80;
  x0f; x17; x14; x80; x0c; xd7; x14; x80; x7c; x5f; x14; x80;
  x07; x0c; x14; x80; x06; x0b; x14; x80; x30; xa0; x14; x80;
  x10; xa6; x14; x80; x00; xd7; x14; x80; x41; x60; x14; x80;
  x01; xa5; x14; x80; x08; xa1; x14; x80; xc4; xd1; x14; x80;
  x45; xd0; x14; x80; x63; xca; x14; x80; x00; x10; x14; x80;
  xe5; x16; x14; x80; x00; x10; x14; x80; x0f; x17; x14; x80;
  x0c; xd7; x14; x80; x7c; x5f; x14; x80; x02; xd7; x14; x80;
  x78; x60; x14; x80; x20; x99; x14; x80; x03; xf0; x14; x80;
  x20; xb9; x14; x80; x80; xa8; x14; x80; x10; x9a; x14; x80;
  x00; x10; x14; x80; xe5; x16; x14; x80; x00; x10; x14; x80;
  x0f; x17; x14; x80; x1f; xd7; x14; x80; x73; x5f; x14; x80;
  x11; xf0; x14; x80; x0c; xd7; x14; x80; x9b; x40; x14; x80;
  x20; x99; x14; x80; x10; x9a; x14; x80; xf5; xff; x14; x80;
  xfe; x80; x14; x80; x10; x86; x14; x80; x01; x85; x14; x80;
  x80; x89; x14; x80; x02; x87; x14; x80; x10; xa4; x14; x80;
  x40; xa9; x14; x80; xc0; x81; x14; x80; x80; xae; x14; x80;
  x00; x18; x14; x80; xb3; x84; x14; x80; x04; x88; x14; x80;
  x04; xa7; x14; x80; x88; x87; x14; x80; x80; xff; x14; x80;
  x08; xbb; x14; x80; x1f; x0c; x14; x80; x07; x09; x14; x80;
  x40; x89; x14; x80; x00; x10; x14; x80; x02; x17; x14; x80;
  x01; x87; x14; x80; x02; x85; x14; x80; xf4; xa0; x14; x80;
  x10; xa6; x14; x80; x00; xd7; x14; x80; x61; x60; x14; x80;
  x02; xa0; x14; x80; x01; xa5; x14; x80; x06; x87; x14; x80;
  x10; x84; x14; x80; x80; xa9; x14; x80; x64; xca; x14; x80;
  x10; xd1; x14; x80; x40; xd0; x14; x80; x00; x10; x14; x80;
  xe5; x16; x14; x80; x00; x10; x14; x80; x0f; x17; x14; x80;
  x0c; xd7; x14; x80; x7c; x5f; x14; x80; x04; x88; x14; x80;
  x06; xa7; x14; x80; x00; x18; x14; x80; x8d; x84; x14; x80;
  x00; x18; x14; x80; x84; x13; x14; x80; x05; xd7; x14; x80;
  x5f; x40; x14; x80; x36; xf0; x14; x80; x05; xd7; x14; x80;
  x34; x62; x14; x80; x0c; xd7; x14; x80; xc6; x41; x14; x80;
  x0d; xd7; x14; x80; x9d; x41; x14; x80; x0d; xd7; x14; x80;
  x7e; x41; x14; x80; x04; xd7; x14; x80; x27; x61; x14; x80;
  x51; x29; x14; x80; x43; x85; x14; x80; x0c; xd7; x14; x80;
  x83; x40; x14; x80; x0c; xd7; x14; x80; x81; x2e; x14; x80;
  x43; x85; x14; x80; xc5; xf0; x14; x80; xfe; x80; x14; x80;
  x10; x86; x14; x80; x01; x85; x14; x80; x04; x87; x14; x80;
  x30; x0c; x14; x80; x10; x04; x14; x80; x01; xa7; x14; x80;
  x02; xac; x14; x80; x02; xa5; x14; x80; x80; x89; x14; x80;
  x60; xca; x14; x80; x04; xa0; x14; x80; x0c; xd7; x14; x80;
  x65; x60; x14; x80; x00; x18; x14; x80; x54; x85; x14; x80;
  x04; x80; x14; x80; x04; xa8; x14; x80; x0f; x0c; x14; x80;
  x02; x06; x14; x80; x70; x0c; x14; x80; x30; x07; x14; x80;
  x08; xa7; x14; x80; x04; xd7; x14; x80; x9c; x60; x14; x80;
  x1f; x0c; x14; x80; x12; x09; x14; x80; x03; xf0; x14; x80;
  x1f; x0c; x14; x80; x0e; x09; x14; x80; x40; xa9; x14; x80;
  x00; x10; x14; x80; x02; x17; x14; x80; x80; xa7; x14; x80;
  xa2; xf0; x14; x80; x04; xd7; x14; x80; xeb; x63; x14; x80;
  x05; xd7; x14; x80; xb1; x43; x14; x80; x02; xd7; x14; x80;
  x9c; x33; x14; x80; x07; x86; x14; x80; x88; x87; x14; x80;
  x04; x87; x14; x80; x1f; x0c; x14; x80; x07; x09; x14; x80;
  x40; x89; x14; x80; x00; x10; x14; x80; x02; x17; x14; x80;
  x10; x84; x14; x80; xf4; xa0; x14; x80; x10; xa6; x14; x80;
  x00; xd7; x14; x80; x61; x60; x14; x80; x02; xa0; x14; x80;
  x01; xa5; x14; x80; x06; xa7; x14; x80; x04; x88; x14; x80;
  x80; xa9; x14; x80; x0c; xd7; x14; x80; x85; x60; x14; x80;
  x01; x87; x14; x80; x02; x85; x14; x80; x02; x8c; x14; x80;
  x01; xa7; x14; x80; x02; xa5; x14; x80; x82; xf0; x14; x80;
  x0c; xd7; x14; x80; xc5; x60; x14; x80; x02; xd7; x14; x80;
  x53; x60; x14; x80; x7d; xf0; x14; x80; x00; x18; x14; x80;
  x04; x86; x14; x80; x0d; xd7; x14; x80; x1b; x4d; x14; x80;
  x10; xba; x14; x80; x40; xae; x14; x80; xfc; x0c; x14; x80;
  xb4; x03; x14; x80; xfc; x0c; x14; x80; xb4; x05; x14; x80;
  xc4; xd1; x14; x80; x44; xd0; x14; x80; x00; x10; x14; x80;
  xe5; x16; x14; x80; x00; x10; x14; x80; x0f; x17; x14; x80;
  x0c; xd7; x14; x80; x7c; x5f; x14; x80; x06; x87; x14; x80;
  x80; x82; x14; x80; xe0; xac; x14; x80; x80; xa6; x14; x80;
  x40; xa2; x14; x80; x00; x10; x14; x80; xe5; x16; x14; x80;
  x00; x10; x14; x80; x0f; x17; x14; x80; x02; xd7; x14; x80;
  x79; x5f; x14; x80; x40; x82; x14; x80; x02; xd7; x14; x80;
  x98; x68; x14; x80; x02; xd7; x14; x80; x57; x49; x14; x80;
  x00; x18; x14; x80; xf6; x85; x14; x80; xc0; xa1; x14; x80;
  x3f; x0c; x14; x80; x20; x02; x14; x80; xfc; x0c; x14; x80;
  x0c; x03; x14; x80; xfc; x0c; x14; x80; x0c; x05; x14; x80;
  x08; x81; x14; x80; x40; x86; x14; x80; x20; xa1; x14; x80;
  x40; xa6; x14; x80; x03; x0c; x14; x80; x01; x01; x14; x80;
  x10; xa1; x14; x80; xc4; xd1; x14; x80; x44; xd0; x14; x80;
  x84; xca; x14; x80; x00; x10; x14; x80; xe5; x16; x14; x80;
  x00; x10; x14; x80; x0f; x17; x14; x80; x0c; xd7; x14; x80;
  x7c; x5f; x14; x80; x02; xd7; x14; x80; xfc; x60; x14; x80;
  x10; x82; x14; x80; xe0; x0c; x14; x80; x20; x03; x14; x80;
  xe0; x0c; x14; x80; x20; x05; x14; x80; x02; xf0; x14; x80;
  x10; xa2; x14; x80; xc4; xd1; x14; x80; x43; xd0; x14; x80;
  x00; x10; x14; x80; xe5; x16; x14; x80; x00; x10; x14; x80;
  x0f; x17; x14; x80; x0c; xd7; x14; x80; x7c; x5f; x14; x80;
  x33; x82; x14; x80; xfc; x0c; x14; x80; x6c; x03; x14; x80;
  xfc; x0c; x14; x80; x6c; x05; x14; x80; xc4; xd1; x14; x80;
  x44; xd0; x14; x80; x85; xca; x14; x80; x00; x10; x14; x80;
  xe5; x16; x14; x80; x00; x10; x14; x80; x0f; x17; x14; x80;
  x0c; xd7; x14; x80; x7c; x5f; x14; x80; x80; xa6; x14; x80;
  x40; xa2; x14; x80; x00; x10; x14; x80; xe5; x16; x14; x80;
  x00; x10; x14; x80; x0f; x17; x14; x80; x02; xd7; x14; x80;
  x79; x5f; x14; x80; x40; x82; x14; x80; xfc; x0c; x14; x80;
  x90; x03; x14; x80; xfc; x0c; x14; x80; x90; x05; x14; x80].

Definition rtl8126a_2_fw_4 : list byte := [
  x02; xd7; x14; x80; x58; x60; x14; x80; x02; xf0; x14; x80;
  xc7; xfe; x14; x80; xc0; x81; x14; x80; x80; x88; x14; x80;
  x06; x87; x14; x80; x61; xca; x14; x80; xc4; xd1; x14; x80;
  x54; xd0; x14; x80; x00; x10; x14; x80; xe5; x16; x14; x80;
  x00; x10; x14; x80; x0f; x17; x14; x80; x0c; xd7; x14; x80;
  x7d; x5f; x14; x80; x06; xa7; x14; x80; x04; xf0; x14; x80;
  x88; x87; x14; x80; x04; xa4; x14; x80; x02; x87; x14; x80;
  x00; x08; x14; x80; x43; x84; x14; x80; x03; x83; x14; x80;
  x80; x82; x14; x80; x20; x99; x14; x80; xe0; x8c; x14; x80;
  x04; x80; x14; x80; xc0; xa1; x14; x80; x0e; xd7; x14; x80;
  x4a; x40; x14; x80; x80; xa2; x14; x80; x02; xd7; x14; x80;
  xd0; x3b; x14; x80; x18; x86; x14; x80; x3f; x0c; x14; x80;
  x23; x02; x14; x80; x03; xf0; x14; x80; x3f; x0c; x14; x80;
  x20; x02; x14; x80; xfc; x0c; x14; x80; x08; x03; x14; x80;
  xfc; x0c; x14; x80; x08; x05; x14; x80; x08; x81; x14; x80;
  x40; x86; x14; x80; x20; xa1; x14; x80; x40; xa6; x14; x80;
  x02; xd7; x14; x80; x77; x60; x14; x80; x03; x81; x14; x80;
  x03; xf0; x14; x80; x03; x0c; x14; x80; x01; x01; x14; x80;
  x10; xa1; x14; x80; x02; xd7; x14; x80; x77; x60; x14; x80;
  x08; xa1; x14; x80; x06; xf0; x14; x80; x04; xd7; x14; x80;
  x77; x60; x14; x80; x08; x81; x14; x80; x02; xf0; x14; x80;
  x08; xa1; x14; x80; x93; xd1; x14; x80; x45; xd0; x14; x80;
  x82; xca; x14; x80; x00; x10; x14; x80; xe5; x16; x14; x80;
  x0e; xd7; x14; x80; x6a; x60; x14; x80; x00; x10; x14; x80;
  x0f; x17; x14; x80; x0c; xd7; x14; x80; x3c; x5f; x14; x80;
  x02; xd7; x14; x80; xfc; x60; x14; x80; x10; x82; x14; x80;
  xe0; x0c; x14; x80; x20; x03; x14; x80; xe0; x0c; x14; x80;
  x20; x05; x14; x80; x02; xf0; x14; x80; x10; xa2; x14; x80;
  xc4; xd1; x14; x80; x43; xd0; x14; x80; x00; x10; x14; x80;
  xe5; x16; x14; x80; x0e; xd7; x14; x80; x6a; x60; x14; x80;
  x00; x10; x14; x80; x0f; x17; x14; x80; x0c; xd7; x14; x80;
  x3c; x5f; x14; x80; x02; xd7; x14; x80; xd0; x3b; x14; x80;
  x56; x86; x14; x80; x3f; x0c; x14; x80; x0c; x02; x14; x80;
  x02; xf0; x14; x80; x3f; x82; x14; x80; xfc; x0c; x14; x80;
  x4c; x03; x14; x80; xfc; x0c; x14; x80; x4c; x05; x14; x80;
  xc4; xd1; x14; x80; x44; xd0; x14; x80; x00; x10; x14; x80;
  xe5; x16; x14; x80; x0e; xd7; x14; x80; x6a; x60; x14; x80;
  x00; x10; x14; x80; x0f; x17; x14; x80; x0c; xd7; x14; x80;
  x3c; x5f; x14; x80; x0c; x82; x14; x80; x60; xa3; x14; x80;
  x60; xa5; x14; x80; xc4; xd1; x14; x80; x43; xd0; x14; x80;
  x83; xca; x14; x80; x00; x10; x14; x80; xe5; x16; x14; x80;
  x0e; xd7; x14; x80; x6a; x60; x14; x80; x00; x10; x14; x80;
  x0f; x17; x14; x80; x0c; xd7; x14; x80; x3c; x5f; x14; x80;
  x0e; xd7; x14; x80; x6a; x40; x14; x80; x80; x86; x14; x80;
  x02; xf0; x14; x80; x80; xa6; x14; x80; x40; xa2; x14; x80;
  x0f; x0c; x14; x80; x04; x06; x14; x80; x70; x0c; x14; x80;
  x50; x07; x14; x80; x08; xa7; x14; x80; x04; xd7; x14; x80;
  x9c; x60; x14; x80; x1f; x0c; x14; x80; x14; x09; x14; x80;
  x03; xf0; x14; x80; x1f; x0c; x14; x80; x10; x09; x14; x80;
  x40; xa9; x14; x80; x00; x10; x14; x80; x02; x17; x14; x80;
  x80; xa7; x14; x80; x00; x10; x14; x80; xe5; x16; x14; x80;
  x0e; xd7; x14; x80; x6a; x60; x14; x80; x00; x10; x14; x80;
  x0f; x17; x14; x80; x02; xd7; x14; x80; x9c; x39; x14; x80;
  x89; x86; x14; x80; x40; x82; x14; x80; x88; x87; x14; x80;
  x02; xd7; x14; x80; xf8; x63; x14; x80; x05; xd7; x14; x80;
  x3c; x64; x14; x80; x02; xa4; x14; x80; x12; xf0; x14; x80;
  x02; x84; x14; x80; x05; xd7; x14; x80; x1b; x61; x14; x80;
  x01; xa4; x14; x80; x02; xa3; x14; x80; x02; xd7; x14; x80;
  x7d; x41; x14; x80; x40; xa4; x14; x80; x80; xa2; x14; x80;
  x08; xf0; x14; x80; x01; x84; x14; x80; x02; x83; x14; x80;
  x0c; xd7; x14; x80; x60; x60; x14; x80; x01; xa3; x14; x80;
  x02; xf0; x14; x80; x01; x83; x14; x80; x0c; xd7; x14; x80;
  x80; x40; x14; x80; x0e; xd7; x14; x80; x4a; x60; x14; x80;
  x5f; xff; x14; x80; x05; xd7; x14; x80; xdd; x3c; x14; x80;
  xb8; x86; x14; x80; x5b; xff; x14; x80; xfc; x0c; x14; x80;
  x90; x03; x14; x80; xfc; x0c; x14; x80; x90; x05; x14; x80;
  x00; x08; x14; x80; x1f; x0c; x14; x80; x00; x0d; x14; x80;
  xc0; x8d; x14; x80; x00; x10; x14; x80; xbd; x11; x14; x80;
  x04; xa5; x14; x80; x00; x18; x14; x80; xd3; x0f; x14; x80;
  x0d; xd7; x14; x80; x7d; x40; x14; x80; x10; xa7; x14; x80;
  x02; xf0; x14; x80; x10; xa7; x14; x80; x80; x95; x14; x80;
  x03; x0c; x14; x80; x02; x15; x14; x80; x04; xa3; x14; x80;
  x03; x95; x14; x80; x1f; x0c; x14; x80; x07; x0d; x14; x80;
  xc0; x8d; x14; x80; x00; x10; x14; x80; xbd; x11; x14; x80;
  x81; xcb; x14; x80; x0c; xd7; x14; x80; x82; x48; x14; x80;
  x06; xd7; x14; x80; x7a; x40; x14; x80; x0c; xd7; x14; x80;
  x07; x48; x14; x80; x06; xd7; x14; x80; x5a; x40; x14; x80;
  x10; x89; x14; x80; x10; xa2; x14; x80; x04; xd7; x14; x80;
  x1c; x61; x14; x80; xc0; x0c; x14; x80; x80; x00; x14; x80;
  x03; x0c; x14; x80; x01; x01; x14; x80; xe0; x0c; x14; x80;
  xa0; x03; x14; x80; xb5; xcc; x14; x80; xc0; x0c; x14; x80;
  x80; x00; x14; x80; x03; x0c; x14; x80; x02; x01; x14; x80;
  xe0; x0c; x14; x80; x40; x03; x14; x80; x52; xcc; x14; x80;
  x06; xd7; x14; x80; xba; x42; x14; x80; x03; x0c; x14; x80;
  x02; x15; x14; x80; x1f; x0c; x14; x80; x1c; x0f; x14; x80;
  x03; x95; x14; x80; x00; x10; x14; x80; x75; x11; x14; x80;
  x0c; xd7; x14; x80; xb3; x5f; x14; x80; x03; x0c; x14; x80;
  x02; x15; x14; x80; x1f; x8f; x14; x80; x03; x95; x14; x80;
  x00; x10; x14; x80; x75; x11; x14; x80; x0c; xd7; x14; x80;
  x33; x7f; x14; x80; x90; x81; x14; x80; x04; x82; x14; x80;
  x16; xf0; x14; x80; x03; x0c; x14; x80; x02; x15; x14; x80;
  x1f; x0c; x14; x80; x1b; x0f; x14; x80; x03; x95; x14; x80;
  x00; x10; x14; x80; x75; x11; x14; x80; x0c; xd7; x14; x80;
  xb3; x5f; x14; x80; x03; x0c; x14; x80; x02; x15; x14; x80;
  x1f; x8f; x14; x80; x03; x95; x14; x80; x00; x10; x14; x80;
  x75; x11; x14; x80; x0c; xd7; x14; x80; x33; x7f; x14; x80;
  x0c; xd7; x14; x80; x47; x60; x14; x80; x02; xf0; x14; x80;
  x0c; xf0; x14; x80; x03; xd4; x14; x80; x82; xcb; x14; x80;
  x00; x10; x14; x80; x0d; x11; x14; x80; x0a; xd4; x14; x80;
  x00; x10; x14; x80; x0d; x11; x14; x80; x0c; xd7; x14; x80;
  x47; x42; x14; x80; x00; x10; x14; x80; x25; x12; x14; x80;
  x40; x8a; x14; x80; x00; x10; x14; x80; x18; x11; x14; x80;
  x04; xa1; x14; x80; x00; x10; x14; x80; x2a; x11; x14; x80;
  x04; x81; x14; x80; x00; x10; x14; x80; x21; x11; x14; x80;
  x03; x0c; x14; x80; x02; x15; x14; x80; x04; xa7; x14; x80;
  x03; x95; x14; x80; x88; xcb; x14; x80; x12; xf0; x14; x80;
  x10; xa2; x14; x80; x0a; xa0; x14; x80; x40; xaa; x14; x80;
  x00; x10; x14; x80; x18; x11; x14; x80; x04; xa1; x14; x80;
  x00; x10; x14; x80; x2a; x11; x14; x80; x04; x81; x14; x80;
  x00; x10; x14; x80; x21; x11; x14; x80; x90; xa1; x14; x80;
  x84; xa2; x14; x80; x04; xa4; x14; x80; x10; x8a; x14; x80;
  x80; x8a; x14; x80; x84; xcb; x14; x80; x3e; xd1; x14; x80;
  x5a; xd0; x14; x80; x3e; xd1; x14; x80; x6b; xd0; x14; x80;
  x00; x10; x14; x80; x75; x11; x14; x80; x00; xd7; x14; x80;
  x59; x35; x14; x80; x4b; x87; x14; x80; xfb; xff; x14; x80;
  x00; xd7; x14; x80; x4b; x60; x14; x80; x8a; xcb; x14; x80;
  x00; x10; x14; x80; x75; x11; x14; x80; x00; xd7; x14; x80;
  x59; x36; x14; x80; x54; x87; x14; x80; xfb; xff; x14; x80;
  x00; xd7; x14; x80; x6b; x60; x14; x80; x8b; xcb; x14; x80;
  xeb; x5e; x14; x80; x00; xd7; x14; x80; x41; x60; x14; x80;
  x02; xa4; x14; x80; x8c; xcb; x14; x80; x06; xd7; x14; x80;
  x9a; x60; x14; x80; xf5; xd1; x14; x80; x48; xd0; x14; x80;
  x03; xf0; x14; x80; x60; xd1; x14; x80; x4b; xd0; x14; x80;
  x00; x10; x14; x80; x75; x11; x14; x80; x00; xd7; x14; x80;
  xb4; x5f; x14; x80; x8d; xcb; x14; x80; x10; x87; x14; x80;
  x1f; xd7; x14; x80; xd4; x5f; x14; x80; x20; xb9; x14; x80;
  x00; x10; x14; x80; x75; x11; x14; x80; x1f; xd7; x14; x80;
  xb4; x7f; x14; x80; x20; x99; x14; x80; x00; x10; x14; x80;
  x75; x11; x14; x80; x1f; xd7; x14; x80; x05; x61; x14; x80;
  x54; x60; x14; x80; xfb; xff; x14; x80; x00; x10; x14; x80;
  x75; x11; x14; x80; x00; xd7; x14; x80; xab; x5f; x14; x80;
  xf0; xff; x14; x80; x10; xa7; x14; x80; x20; xb8; x14; x80;
  x00; x10; x14; x80; x75; x11; x14; x80; x1f; xd7; x14; x80;
  xa5; x7f; x14; x80; x20; x98; x14; x80; x14; xd1; x14; x80;
  x40; xd0; x14; x80; x00; x10; x14; x80; x75; x11; x14; x80;
  x00; xd7; x14; x80; xba; x5f; x14; x80; x04; xd7; x14; x80;
  x76; x5f; x14; x80; x00; xd7; x14; x80; x34; x5f; x14; x80;
  x00; xd7; x14; x80; x81; x60; x14; x80; x06; xd7; x14; x80;
  x5a; x40; x14; x80; x80; xa4; x14; x80; x86; xcb; x14; x80;
  x06; xd7; x14; x80; x9a; x60; x14; x80; xc8; xd1; x14; x80;
  x45; xd0; x14; x80; x03; xf0; x14; x80; x7a; xd1; x14; x80;
  x4b; xd0; x14; x80; x00; x10; x14; x80; x75; x11; x14; x80;
  x00; xd7; x14; x80; xb4; x5f; x14; x80; xc0; x0c; x14; x80;
  x00; x00; x14; x80; x03; x0c; x14; x80; x01; x01; x14; x80;
  xe0; x0c; x14; x80; x20; x03; x14; x80; x29; xcc; x14; x80;
  x08; xa2; x14; x80; x04; x82; x14; x80; x14; xd1; x14; x80;
  x40; xd0; x14; x80; x00; xd7; x14; x80; xf4; x5f; x14; x80;
  x00; x18; x14; x80; xc3; x0b; x14; x80; x0a; xa0; x14; x80].

Definition rtl8126a_2_fw_5 : list byte := [
  x08; x93; x14; x80; x10; xb2; x14; x80; x01; xb3; x14; x80;
  x00; x10; x14; x80; x75; x11; x14; x80; x01; xd7; x14; x80;
  xa4; x5f; x14; x80; x02; xb3; x14; x80; x10; x92; x14; x80;
  x0a; x80; x14; x80; x00; x18; x14; x80; x73; x05; x14; x80;
  x0e; xa1; x13; x80; x72; x05; x14; x80; x0c; xa1; x13; x80;
  x47; x0e; x14; x80; x0a; xa1; x13; x80; xd2; x0f; x14; x80;
  x08; xa1; x13; x80; x03; x15; x14; x80; x06; xa1; x13; x80;
  x0d; x0c; x14; x80; x04; xa1; x13; x80; xac; x01; x14; x80;
  x02; xa1; x13; x80; x56; x09; x14; x80; x00; xa1; x13; x80;
  x1c; x00; x14; x80; x10; xa1; x13; x80; xff; x00; x14; x80;
  x16; xa0; x13; x80; x20; x00; x14; x80; x12; xa0; x13; x80;
  xf8; x1f; x14; x80; x14; xa0; x13; x80; x00; x00; x14; x80;
  xf0; x85; x14; x80; xa0; xa2; x14; x80; x80; x88; x14; x80;
  x00; x0d; x14; x80; x00; xc5; x14; x80; x0a; x80; x14; x80;
  x01; xae; x14; x80; x64; xa1; x13; x80; x13; x10; x14; x80;
  x66; xa1; x13; x80; x14; x10; x14; x80; x68; xa1; x13; x80;
  x98; x0f; x14; x80; x6a; xa1; x13; x80; xca; x0d; x14; x80;
  x6c; xa1; x13; x80; x9b; x10; x14; x80; x6e; xa1; x13; x80;
  xa2; x10; x14; x80; x70; xa1; x13; x80; x33; x0f; x14; x80;
  x72; xa1; x13; x80; x6e; x0f; x14; x80; x62; xa1; x13; x80;
  xff; x00; x14; x80; x7c; xb8; x13; x80; x45; x8a; x14; x80;
  x7e; xb8; x13; x80; x8a; xaf; x14; x80; xaf; x5d; x14; x80;
  x63; x8a; x14; x80; x8a; xaf; x14; x80; xaf; x6c; x14; x80;
  x78; x8a; x14; x80; x8a; xaf; x14; x80; xaf; x87; x14; x80;
  x90; x8a; x14; x80; x8a; xaf; x14; x80; xaf; x96; x14; x80;
  xcf; x8a; x14; x80; x8a; x02; x14; x80; xaf; xec; x14; x80;
  x1f; x21; x14; x80; x65; x02; x14; x80; x02; xcb; x14; x80;
  xb4; x8f; x14; x80; x21; xaf; x14; x80; xa1; x6f; x14; x80;
  x03; x19; x14; x80; x8f; x02; x14; x80; x02; x3d; x14; x80;
  x61; x22; x14; x80; x21; xaf; x14; x80; xad; x2e; x14; x80;
  x09; x21; x14; x80; x8f; xe0; x14; x80; xac; xff; x14; x80;
  x03; x25; x14; x80; x4b; xaf; x14; x80; xaf; xee; x14; x80;
  xeb; x4b; x14; x80; x35; xad; x14; x80; xaf; x03; x14; x80;
  x1b; x42; x14; x80; x42; xaf; x14; x80; xe1; x5c; x14; x80;
  x52; x86; x14; x80; x49; xaf; x14; x80; xef; xdc; x14; x80;
  xe1; x31; x14; x80; xfd; x8f; x14; x80; x28; xac; x14; x80;
  xbf; x2e; x14; x80; xda; x6d; x14; x80; x74; x02; x14; x80;
  xad; x95; x14; x80; x25; x28; x14; x80; x8f; xe2; x14; x80;
  xef; xe4; x14; x80; x1b; x13; x14; x80; xac; x12; x14; x80;
  x10; x2f; x14; x80; x31; xef; x14; x80; x44; x1f; x14; x80;
  x13; xef; x14; x80; x6c; xbf; x14; x80; x02; xcf; x14; x80;
  x76; x74; x14; x80; x12; x1a; x14; x80; x08; xae; x14; x80;
  x6c; xbf; x14; x80; x02; xcf; x14; x80; x4a; x74; x14; x80;
  x13; xef; x14; x80; x08; xaf; x14; x80; xaf; x66; x14; x80;
  x5c; x08; x14; x80; x8f; xe1; x14; x80; xad; xe3; x14; x80;
  x06; x27; x14; x80; x8f; xe5; x14; x80; xaf; xe9; x14; x80;
  x91; x40; x14; x80; x8f; xe0; x14; x80; xac; xe1; x14; x80;
  x02; x20; x14; x80; x03; xae; x14; x80; x8f; xe1; x14; x80;
  xe5; xe2; x14; x80; xe9; x8f; x14; x80; x3f; xaf; x14; x80;
  xf8; xe5; x14; x80; x8f; xe0; x14; x80; xa0; xe7; x14; x80;
  x05; x00; x14; x80; x8b; x02; x14; x80; xae; x0d; x14; x80;
  xa0; x13; x14; x80; x05; x01; x14; x80; x8b; x02; x14; x80;
  xae; x96; x14; x80; xa0; x0b; x14; x80; x05; x02; x14; x80;
  x8b; x02; x14; x80; xae; xc2; x14; x80; x02; x03; x14; x80;
  x18; x8c; x14; x80; x04; xfc; x14; x80; xfa; xf8; x14; x80;
  x69; xef; x14; x80; xfb; xfa; x14; x80; x80; xe0; x14; x80;
  xad; x15; x14; x80; x43; x23; x14; x80; x8f; xe0; x14; x80;
  xac; xfd; x14; x80; x3d; x20; x14; x80; x8f; xe0; x14; x80;
  xa0; xe9; x14; x80; x02; x00; x14; x80; x35; xae; x14; x80;
  x8f; xee; x14; x80; x00; xe8; x14; x80; x8c; x02; x14; x80;
  xbf; xc8; x14; x80; xeb; x8f; x14; x80; x19; xd8; x14; x80;
  xef; xd9; x14; x80; xbf; x64; x14; x80; xef; x8f; x14; x80;
  x19; xd8; x14; x80; xef; xd9; x14; x80; x02; x74; x14; x80;
  xa4; x73; x14; x80; x50; xad; x14; x80; xee; x18; x14; x80;
  xff; x8f; x14; x80; x02; x01; x14; x80; x1b; x8e; x14; x80;
  x73; x02; x14; x80; xef; xd7; x14; x80; xe5; x47; x14; x80;
  xa6; x85; x14; x80; x85; xe4; x14; x80; xee; xa5; x14; x80;
  xe7; x8f; x14; x80; xae; x01; x14; x80; xbf; x33; x14; x80;
  x87; x8f; x14; x80; x74; x02; x14; x80; xbf; x4a; x14; x80;
  x8d; x8f; x14; x80; x74; x02; x14; x80; xbf; x4a; x14; x80;
  x93; x8f; x14; x80; x74; x02; x14; x80; xbf; x4a; x14; x80;
  x99; x8f; x14; x80; x74; x02; x14; x80; xbf; x4a; x14; x80;
  x84; x8f; x14; x80; x74; x02; x14; x80; xbf; x53; x14; x80;
  x8a; x8f; x14; x80; x74; x02; x14; x80; xbf; x53; x14; x80;
  x90; x8f; x14; x80; x74; x02; x14; x80; xbf; x53; x14; x80;
  x96; x8f; x14; x80; x74; x02; x14; x80; x02; x53; x14; x80;
  x61; x22; x14; x80; xfe; xff; x14; x80; x96; xef; x14; x80;
  xfc; xfe; x14; x80; xf8; x04; x14; x80; xfb; xfa; x14; x80;
  x85; xe0; x14; x80; xe1; xa5; x14; x80; xa6; x85; x14; x80;
  x64; xef; x14; x80; x00; xd0; x14; x80; x8f; xe1; x14; x80;
  xef; xea; x14; x80; x02; x74; x14; x80; xf2; x73; x14; x80;
  x50; xad; x14; x80; xe0; x10; x14; x80; xe8; x8f; x14; x80;
  x24; xac; x14; x80; xee; x06; x14; x80; xe7; x8f; x14; x80;
  xae; x02; x14; x80; xee; x04; x14; x80; xe7; x8f; x14; x80;
  xff; x03; x14; x80; xfc; xfe; x14; x80; xf8; x04; x14; x80;
  xfa; xf9; x14; x80; x69; xef; x14; x80; x02; xfb; x14; x80;
  xc8; x8c; x14; x80; x8f; xbf; x14; x80; xd8; xeb; x14; x80;
  xd9; x19; x14; x80; x8f; xbf; x14; x80; xe2; xf3; x14; x80;
  xe8; x8f; x14; x80; x32; xef; x14; x80; x02; x4b; x14; x80;
  x93; x1a; x14; x80; x19; xdc; x14; x80; x12; xdd; x14; x80;
  x8f; xe6; x14; x80; xe3; xe8; x14; x80; xe9; x8f; x14; x80;
  x23; x1b; x14; x80; x37; xad; x14; x80; xe0; x07; x14; x80;
  xff; x8f; x14; x80; x02; x48; x14; x80; x09; xae; x14; x80;
  x8f; xee; x14; x80; x10; xe8; x14; x80; x00; x1f; x14; x80;
  x8f; xe4; x14; x80; xe4; xfe; x14; x80; xff; x8f; x14; x80;
  x8e; x02; x14; x80; x02; x1b; x14; x80; xd7; x73; x14; x80;
  x47; xef; x14; x80; x85; xe5; x14; x80; xe4; xa6; x14; x80;
  xa5; x85; x14; x80; x8f; xee; x14; x80; x01; xe7; x14; x80;
  xef; xff; x14; x80; xfe; x96; x14; x80; xfc; xfd; x14; x80;
  xf8; x04; x14; x80; xfa; xf9; x14; x80; x69; xef; x14; x80;
  xfb; xfa; x14; x80; x8c; x02; x14; x80; xbf; xc8; x14; x80;
  xeb; x8f; x14; x80; x19; xd8; x14; x80; xef; xd9; x14; x80;
  xbf; x64; x14; x80; xef; x8f; x14; x80; x19; xd8; x14; x80;
  xef; xd9; x14; x80; x02; x74; x14; x80; xa4; x73; x14; x80;
  x50; xad; x14; x80; xbf; x27; x14; x80; xed; x8f; x14; x80;
  x19; xd8; x14; x80; xef; xd9; x14; x80; xbf; x64; x14; x80;
  xf1; x8f; x14; x80; x19; xd8; x14; x80; xef; xd9; x14; x80;
  x02; x74; x14; x80; xa4; x73; x14; x80; x50; xad; x14; x80;
  xe2; x11; x14; x80; xe8; x8f; x14; x80; x8f; xe3; x14; x80;
  xef; xe9; x14; x80; x58; x02; x14; x80; x1b; x0f; x14; x80;
  xac; x03; x14; x80; x44; x27; x14; x80; x09; xae; x14; x80;
  x8f; xe0; x14; x80; xe4; xfe; x14; x80; xff; x8f; x14; x80;
  x8e; x02; x14; x80; x02; x1b; x14; x80; x61; x22; x14; x80;
  x8f; xee; x14; x80; x00; xe7; x14; x80; x8f; xbf; x14; x80;
  x02; x87; x14; x80; x4a; x74; x14; x80; x8f; xbf; x14; x80;
  x02; x8d; x14; x80; x4a; x74; x14; x80; x8f; xbf; x14; x80;
  x02; x93; x14; x80; x4a; x74; x14; x80; x8f; xbf; x14; x80;
  x02; x99; x14; x80; x4a; x74; x14; x80; x8f; xbf; x14; x80;
  x02; x84; x14; x80; x53; x74; x14; x80; x8f; xbf; x14; x80;
  x02; x8a; x14; x80; x53; x74; x14; x80; x8f; xbf; x14; x80;
  x02; x90; x14; x80; x53; x74; x14; x80; x8f; xbf; x14; x80;
  x02; x96; x14; x80; x53; x74; x14; x80; x1f; xae; x14; x80;
  xe6; x12; x14; x80; xe8; x8f; x14; x80; x8f; xe0; x14; x80;
  xe4; xff; x14; x80; xfe; x8f; x14; x80; x8d; x02; x14; x80;
  x02; x3e; x14; x80; x1b; x8e; x14; x80; x73; x02; x14; x80;
  xef; xd7; x14; x80; xe5; x47; x14; x80; xa6; x85; x14; x80;
  x85; xe4; x14; x80; xee; xa5; x14; x80; xe7; x8f; x14; x80;
  xff; x01; x14; x80; xef; xfe; x14; x80; xfe; x96; x14; x80;
  xfc; xfd; x14; x80; xf8; x04; x14; x80; xfa; xf9; x14; x80;
  x69; xef; x14; x80; xfb; xfa; x14; x80; x22; x1f; x14; x80;
  x8f; xee; x14; x80; x00; xeb; x14; x80; x8f; xee; x14; x80;
  x00; xec; x14; x80; x8f; xee; x14; x80; x00; xed; x14; x80;
  x8f; xee; x14; x80; x00; xee; x14; x80; x33; x1f; x14; x80;
  x8f; xee; x14; x80; x00; xe5; x14; x80; x8f; xee; x14; x80;
  x00; xe6; x14; x80; x53; xbf; x14; x80; x02; x7d; x14; x80;
  x62; x76; x14; x80; x64; xef; x14; x80; x8f; xbf; x14; x80;
  xd8; xe5; x14; x80; xd9; x19; x14; x80; x74; xef; x14; x80;
  x73; x02; x14; x80; xef; xbf; x14; x80; xdd; x47; x14; x80;
  xdc; x89; x14; x80; xff; xd1; x14; x80; xfe; xb1; x14; x80;
  xad; x13; x14; x80; xe0; x3b; x14; x80; x73; x0d; x14; x80;
  x8f; xbf; x14; x80; xd8; xed; x14; x80; xd9; x19; x14; x80;
  x64; xef; x14; x80; x47; xef; x14; x80; x73; x02; x14; x80;
  xad; xa4; x14; x80; x03; x50; x14; x80; x89; xdd; x14; x80;
  xef; xdc; x14; x80; xbf; x64; x14; x80; xeb; x8f; x14; x80;
  x19; xd8; x14; x80; x1a; xd9; x14; x80; xdd; x46; x14; x80;
  xdc; x89; x14; x80; xad; x12; x14; x80; xb0; x32; x14; x80;
  x42; x0d; x14; x80; x19; xdc; x14; x80; xff; xdd; x14; x80;
  xef; xfe; x14; x80; xfe; x96; x14; x80; xfc; xfd; x14; x80].

Definition rtl8126a_2_fw_6 : list byte := [
  xf8; x04; x14; x80; xfa; xf9; x14; x80; x69; xef; x14; x80;
  xfb; xfa; x14; x80; x22; x1f; x14; x80; xff; xd6; x14; x80;
  xef; xff; x14; x80; xbf; x03; x14; x80; xf3; x8f; x14; x80;
  x32; xef; x14; x80; x02; x4b; x14; x80; x93; x1a; x14; x80;
  x30; xef; x14; x80; x19; xd8; x14; x80; xef; xd9; x14; x80;
  x02; x74; x14; x80; xa4; x73; x14; x80; x50; xac; x14; x80;
  xef; x04; x14; x80; xef; x32; x14; x80; xe0; x64; x14; x80;
  xe9; x8f; x14; x80; xef; x12; x14; x80; x1b; x12; x14; x80;
  xac; x10; x14; x80; xd9; x2f; x14; x80; x03; xef; x14; x80;
  x8f; xbf; x14; x80; x48; xf3; x14; x80; x1a; x02; x14; x80;
  xec; x90; x14; x80; x19; xff; x14; x80; xff; xec; x14; x80;
  x01; xd0; x14; x80; x03; xae; x14; x80; x01; x0c; x14; x80;
  xa3; x83; x14; x80; xfa; x00; x14; x80; x8f; xe1; x14; x80;
  x1e; xff; x14; x80; xe5; x10; x14; x80; xff; x8f; x14; x80;
  xfe; xff; x14; x80; x96; xef; x14; x80; xfd; xfe; x14; x80;
  x04; xfc; x14; x80; x5a; x72; x14; x80; x5d; x72; x14; x80;
  x60; x72; x14; x80; x63; x72; x14; x80; xfa; x71; x14; x80;
  xfd; x71; x14; x80; x00; x72; x14; x80; x03; x72; x14; x80;
  x4b; x8f; x14; x80; x4e; x8f; x14; x80; x51; x8f; x14; x80;
  x54; x8f; x14; x80; x57; x8f; x14; x80; x5a; x8f; x14; x80;
  x5d; x8f; x14; x80; x60; x8f; x14; x80; x2a; x72; x14; x80;
  x2d; x72; x14; x80; x30; x72; x14; x80; x33; x72; x14; x80;
  x1e; x72; x14; x80; x21; x72; x14; x80; x24; x72; x14; x80;
  x27; x72; x14; x80; x12; x72; x14; x80; x15; x72; x14; x80;
  x18; x72; x14; x80; x1b; x72; x14; x80; x4e; x72; x14; x80;
  x51; x72; x14; x80; x54; x72; x14; x80; x57; x72; x14; x80;
  x42; x72; x14; x80; x45; x72; x14; x80; x48; x72; x14; x80;
  x4b; x72; x14; x80; x36; x72; x14; x80; x39; x72; x14; x80;
  x3c; x72; x14; x80; x3f; x72; x14; x80; x84; x8f; x14; x80;
  x8a; x8f; x14; x80; x90; x8f; x14; x80; x96; x8f; x14; x80;
  x9c; x8f; x14; x80; xa2; x8f; x14; x80; xa8; x8f; x14; x80;
  xae; x8f; x14; x80; x87; x8f; x14; x80; x8d; x8f; x14; x80;
  x93; x8f; x14; x80; x99; x8f; x14; x80; x9f; x8f; x14; x80;
  xa5; x8f; x14; x80; xab; x8f; x14; x80; xb1; x8f; x14; x80;
  x63; x8f; x14; x80; x66; x8f; x14; x80; x69; x8f; x14; x80;
  x6c; x8f; x14; x80; x6f; x8f; x14; x80; x72; x8f; x14; x80;
  x75; x8f; x14; x80; x78; x8f; x14; x80; x7b; x8f; x14; x80;
  xf9; xf8; x14; x80; xef; xfa; x14; x80; xfa; x69; x14; x80;
  xe2; xfb; x14; x80; xff; x8f; x14; x80; x30; xad; x14; x80;
  xd1; x06; x14; x80; xd3; x00; x14; x80; xae; x00; x14; x80;
  xd1; x04; x14; x80; xd3; x01; x14; x80; xbf; x0f; x14; x80;
  x99; x8d; x14; x80; x00; xd7; x14; x80; x02; x08; x14; x80;
  x77; x76; x14; x80; x13; xef; x14; x80; x8d; xbf; x14; x80;
  xd7; xa1; x14; x80; x08; x00; x14; x80; x76; x02; x14; x80;
  xad; x77; x14; x80; x06; x31; x14; x80; x00; xd1; x14; x80;
  x00; xd3; x14; x80; x04; xae; x14; x80; x01; xd1; x14; x80;
  x0f; xd3; x14; x80; x8d; xbf; x14; x80; xd7; xa9; x14; x80;
  x08; x00; x14; x80; x76; x02; x14; x80; xef; x77; x14; x80;
  xbf; x13; x14; x80; xb1; x8d; x14; x80; x00; xd7; x14; x80;
  x02; x08; x14; x80; x77; x76; x14; x80; x32; xad; x14; x80;
  xd1; x06; x14; x80; xd3; x00; x14; x80; xae; x00; x14; x80;
  xd1; x04; x14; x80; xd3; x01; x14; x80; xbf; x03; x14; x80;
  xb9; x8d; x14; x80; x00; xd7; x14; x80; x02; x18; x14; x80;
  x77; x76; x14; x80; x13; xef; x14; x80; x8d; xbf; x14; x80;
  xd7; xd1; x14; x80; x18; x00; x14; x80; x76; x02; x14; x80;
  xad; x77; x14; x80; x04; x33; x14; x80; x01; xd1; x14; x80;
  x02; xae; x14; x80; x00; xd1; x14; x80; x00; xd3; x14; x80;
  x8d; xbf; x14; x80; xd7; xe9; x14; x80; x10; x00; x14; x80;
  x76; x02; x14; x80; xef; x77; x14; x80; xbf; x13; x14; x80;
  xf9; x8d; x14; x80; x00; xd7; x14; x80; x02; x10; x14; x80;
  x77; x76; x14; x80; x33; x1f; x14; x80; x8f; xe3; x14; x80;
  xac; xfd; x14; x80; x03; x38; x14; x80; x8f; xaf; x14; x80;
  xad; x35; x14; x80; x05; x34; x14; x80; x8f; xe1; x14; x80;
  xae; xfb; x14; x80; xd1; x02; x14; x80; xbf; x00; x14; x80;
  x09; x8e; x14; x80; x00; xd7; x14; x80; x02; x12; x14; x80;
  x77; x76; x14; x80; x35; xad; x14; x80; xd1; x06; x14; x80;
  xd3; x01; x14; x80; xae; x04; x14; x80; xd1; x04; x14; x80;
  xd3; x00; x14; x80; xbf; x00; x14; x80; x8a; x6f; x14; x80;
  x74; x02; x14; x80; xbf; x76; x14; x80; xd0; x6b; x14; x80;
  x74; x02; x14; x80; x1a; x95; x14; x80; xbf; x13; x14; x80;
  xd0; x6b; x14; x80; x74; x02; x14; x80; xbf; x76; x14; x80;
  x2c; x6d; x14; x80; x74; x02; x14; x80; xac; x95; x14; x80;
  x0b; x28; x14; x80; x6d; xbf; x14; x80; x02; x2f; x14; x80;
  x95; x74; x14; x80; x28; xac; x14; x80; xae; x02; x14; x80;
  xad; x0b; x14; x80; x04; x35; x14; x80; x01; xd1; x14; x80;
  x0d; xae; x14; x80; x0f; xd1; x14; x80; x09; xae; x14; x80;
  x35; xad; x14; x80; xd1; x04; x14; x80; xae; x05; x14; x80;
  xd1; x02; x14; x80; xbf; x0f; x14; x80; x7e; x8f; x14; x80;
  x74; x02; x14; x80; xe3; x76; x14; x80; xfc; x8f; x14; x80;
  x38; xac; x14; x80; xad; x05; x14; x80; x18; x36; x14; x80;
  x08; xae; x14; x80; x71; xbf; x14; x80; x02; x9d; x14; x80;
  x4a; x74; x14; x80; x0e; xae; x14; x80; x02; xd1; x14; x80;
  x8f; xbf; x14; x80; x02; x81; x14; x80; x76; x74; x14; x80;
  x71; xbf; x14; x80; x02; x9d; x14; x80; x76; x74; x14; x80;
  xfe; xff; x14; x80; x96; xef; x14; x80; xfd; xfe; x14; x80;
  x04; xfc; x14; x80; x1f; xf9; x14; x80; xe3; x33; x14; x80;
  xfd; x8f; x14; x80; x38; xad; x14; x80; x02; x03; x14; x80;
  x1b; x8e; x14; x80; x04; xfd; x14; x80; xb0; x55; x14; x80;
  x55; x20; x14; x80; xa0; xb0; x14; x80; xb1; x55; x14; x80;
  x55; x20; x14; x80; xa0; xb1; x14; x80; xb0; xfc; x14; x80;
  xfc; x22; x14; x80; xa2; xb0; x14; x80; xb1; xfc; x14; x80;
  xfc; x22; x14; x80; xa2; xb1; x14; x80; xad; xfd; x14; x80;
  xca; xda; x14; x80; xda; xad; x14; x80; xad; x97; x14; x80;
  x64; xda; x14; x80; xda; xad; x14; x80; xad; x20; x14; x80;
  xfd; xda; x14; x80; xdc; xad; x14; x80; xad; xca; x14; x80;
  x97; xdc; x14; x80; xdc; xad; x14; x80; xad; x64; x14; x80;
  xa7; xdc; x14; x80; x1e; xbf; x14; x80; xbc; x20; x14; x80;
  x99; x32; x14; x80; xfe; xad; x14; x80; xad; x85; x14; x80;
  x44; xfe; x14; x80; xfe; xad; x14; x80; xad; x30; x14; x80;
  xff; xfe; x14; x80; x00; xae; x14; x80; xae; xeb; x14; x80;
  xaa; x00; x14; x80; x00; xae; x14; x80; xae; x96; x14; x80;
  xdd; x00; x14; x80; x94; xad; x14; x80; xad; xcc; x14; x80;
  x99; x94; x14; x80; x94; xad; x14; x80; xad; x88; x14; x80;
  xff; x94; x14; x80; x94; xad; x14; x80; xad; xee; x14; x80;
  xbb; x94; x14; x80; x94; xad; x14; x80; xad; xaa; x14; x80;
  xf9; x94; x14; x80; x8f; xe2; x14; x80; xee; xff; x14; x80;
  xff; x8f; x14; x80; xe3; x00; x14; x80; xfd; x8f; x14; x80;
  x8f; xee; x14; x80; x01; xfd; x14; x80; x8f; xee; x14; x80;
  x01; xfc; x14; x80; x8e; x02; x14; x80; xe6; x1b; x14; x80;
  xff; x8f; x14; x80; x8f; xe7; x14; x80; xee; xfd; x14; x80;
  xfc; x8f; x14; x80; xee; x00; x14; x80; xe7; x8f; x14; x80;
  xfd; x00; x14; x80; x00; x04; x14; x80; x5e; xb8; x13; x80;
  x1c; x21; x14; x80; x60; xb8; x13; x80; x6c; x21; x14; x80;
  x62; xb8; x13; x80; x2b; x21; x14; x80; x64; xb8; x13; x80;
  xe8; x4b; x14; x80; x86; xb8; x13; x80; x09; x42; x14; x80;
  x88; xb8; x13; x80; xda; x49; x14; x80; x8a; xb8; x13; x80;
  x5a; x08; x14; x80; x8c; xb8; x13; x80; xdf; x3f; x14; x80;
  x38; xb8; x13; x80; xff; x00; x14; x80; x82; x0b; x1f; x80;
  x10; x00; x10; x80; x46; x0a; x1f; x80; x03; x00; x13; x80;
  x43; x0a; x1f; x80; x28; x85; x13; x80; x00; x00; x14; x80;
  xf8; x85; x13; x80; x86; xaf; x14; x80; xaf; x10; x14; x80;
  x22; x86; x14; x80; x86; xaf; x14; x80; xaf; x4a; x14; x80;
  x58; x86; x14; x80; x86; xaf; x14; x80; xaf; x64; x14; x80;
  x85; x86; x14; x80; x86; xaf; x14; x80; xaf; xc4; x14; x80;
  xcf; x86; x14; x80; x04; xa1; x14; x80; xe0; x0c; x14; x80;
  x94; x83; x14; x80; x20; xad; x14; x80; xaf; x03; x14; x80;
  x67; x2b; x14; x80; x2a; xaf; x14; x80; xaf; xf0; x14; x80;
  x8d; x2b; x14; x80; x6b; xbf; x14; x80; x02; x72; x14; x80;
  xdc; x72; x14; x80; x06; xa1; x14; x80; xe1; x19; x14; x80;
  x64; x81; x14; x80; x6d; xbf; x14; x80; x02; x5b; x14; x80;
  xbd; x72; x14; x80; x13; x0d; x14; x80; x6d; xbf; x14; x80;
  x02; x58; x14; x80; xbd; x72; x14; x80; x13; x0d; x14; x80;
  x6d; xbf; x14; x80; x02; x6a; x14; x80; xbd; x72; x14; x80;
  x75; x02; x14; x80; xaf; x12; x14; x80; x0d; x38; x14; x80;
  x55; x0d; x14; x80; x07; x5d; x14; x80; xbf; xff; x14; x80;
  x09; x8b; x14; x80; x72; x02; x14; x80; xaf; x91; x14; x80;
  xe2; x3e; x14; x80; x3d; x02; x14; x80; xbf; xff; x14; x80;
  x09; x8b; x14; x80; x72; x02; x14; x80; xaf; x9a; x14; x80;
  xa6; x41; x14; x80; x23; x02; x14; x80; xf8; x24; x14; x80;
  xef; xfa; x14; x80; xbf; x69; x14; x80; x9c; x6b; x14; x80;
  x72; x02; x14; x80; xe0; xdc; x14; x80; x7a; x8f; x14; x80;
  x01; x1f; x14; x80; x06; x9e; x14; x80; x8f; xe5; x14; x80;
  x02; x7a; x14; x80; x50; x75; x14; x80; x96; xef; x14; x80;
  xfc; xfe; x14; x80; x06; xaf; x14; x80; x02; x87; x14; x80;
  xac; x1c; x14; x80; xf9; xf8; x14; x80; xef; xfa; x14; x80;
  xfb; x69; x14; x80; x8f; xd7; x14; x80; xae; x97; x14; x80;
  xbf; x00; x14; x80; x4f; x6d; x14; x80; x72; x02; x14; x80;
  xd3; x91; x14; x80; xa3; x00; x14; x80; x02; x12; x14; x80].

Definition rtl8126a_2_fw_7 : list byte := [
  x1b; xae; x14; x80; x6d; xbf; x14; x80; xef; x52; x14; x80;
  x02; x13; x14; x80; xbd; x72; x14; x80; x97; xef; x14; x80;
  xbf; xd9; x14; x80; x55; x6d; x14; x80; x72; x02; x14; x80;
  x17; xbd; x14; x80; xae; x13; x14; x80; xbf; xe6; x14; x80;
  x4f; x6d; x14; x80; x72; x02; x14; x80; xff; x9a; x14; x80;
  x96; xef; x14; x80; xfd; xfe; x14; x80; xaf; xfc; x14; x80;
  x05; x1c; x14; x80; x00; x00; x14; x80; x1b; x02; x14; x80;
  x02; xf2; x14; x80; x00; x87; x14; x80; x1b; xaf; x14; x80;
  xad; x73; x14; x80; x03; x20; x14; x80; x06; x02; x14; x80;
  xad; x6e; x14; x80; x08; x21; x14; x80; x80; xe2; x14; x80;
  xf7; x51; x14; x80; xe6; x30; x14; x80; x51; x80; x14; x80;
  x80; xe1; x14; x80; x1e; x42; x14; x80; xe5; x10; x14; x80;
  x42; x80; x14; x80; xff; xe0; x14; x80; xe1; xee; x14; x80;
  x43; x80; x14; x80; x10; x1e; x14; x80; x80; xe5; x14; x80;
  xe0; x43; x14; x80; xef; xff; x14; x80; x20; xad; x14; x80;
  xee; x04; x14; x80; x4f; x80; x14; x80; xaf; x1e; x14; x80;
  x61; x06; x14; x80; xfa; xf8; x14; x80; x69; xef; x14; x80;
  x80; xe0; x14; x80; xac; x4f; x14; x80; x17; x24; x14; x80;
  x80; xe0; x14; x80; xad; x44; x14; x80; x1a; x24; x14; x80;
  x87; x02; x14; x80; xe0; x2f; x14; x80; x44; x80; x14; x80;
  x24; xac; x14; x80; xbf; x11; x14; x80; x0c; x8b; x14; x80;
  x72; x02; x14; x80; xae; x9a; x14; x80; x02; x09; x14; x80;
  xc8; x88; x14; x80; x8a; x02; x14; x80; x02; x95; x14; x80;
  x8a; x8a; x14; x80; x96; xef; x14; x80; xfc; xfe; x14; x80;
  xf8; x04; x14; x80; x8f; xe0; x14; x80; xa0; x96; x14; x80;
  x05; x00; x14; x80; x88; x02; x14; x80; xae; x6c; x14; x80;
  xa0; x38; x14; x80; x05; x01; x14; x80; x87; x02; x14; x80;
  xae; x75; x14; x80; xa0; x30; x14; x80; x05; x02; x14; x80;
  x87; x02; x14; x80; xae; xb3; x14; x80; xa0; x28; x14; x80;
  x05; x03; x14; x80; x87; x02; x14; x80; xae; xc9; x14; x80;
  xa0; x20; x14; x80; x05; x04; x14; x80; x87; x02; x14; x80;
  xae; xd6; x14; x80; xa0; x18; x14; x80; x05; x05; x14; x80;
  x88; x02; x14; x80; xae; x1a; x14; x80; xa0; x10; x14; x80;
  x05; x06; x14; x80; x88; x02; x14; x80; xae; x27; x14; x80;
  xa0; x08; x14; x80; x05; x07; x14; x80; x88; x02; x14; x80;
  xae; x48; x14; x80; xfc; x00; x14; x80; xf8; x04; x14; x80;
  xef; xfa; x14; x80; xe0; x69; x14; x80; x18; x80; x14; x80;
  x25; xad; x14; x80; x02; x2c; x14; x80; x67; x8a; x14; x80;
  x84; xe1; x14; x80; xe5; x5d; x14; x80; x92; x8f; x14; x80;
  x8f; xe5; x14; x80; xe5; x93; x14; x80; x94; x8f; x14; x80;
  x8f; xe5; x14; x80; x02; x95; x14; x80; xe6; x88; x14; x80;
  x84; xe1; x14; x80; x59; xf7; x14; x80; xe5; x0f; x14; x80;
  x7b; x8f; x14; x80; x8f; xe5; x14; x80; xe5; x7c; x14; x80;
  x7d; x8f; x14; x80; x8f; xe5; x14; x80; xee; x7e; x14; x80;
  x96; x8f; x14; x80; xae; x02; x14; x80; x02; x03; x14; x80;
  x8a; x8a; x14; x80; x96; xef; x14; x80; xfc; xfe; x14; x80;
  xf9; x04; x14; x80; x89; x02; x14; x80; xac; x19; x14; x80;
  x09; x30; x14; x80; x8f; xee; x14; x80; x03; x96; x14; x80;
  x88; x02; x14; x80; xae; x8e; x14; x80; xee; x04; x14; x80;
  x96; x8f; x14; x80; xfd; x04; x14; x80; xfb; x04; x14; x80;
  x88; x02; x14; x80; xad; x55; x14; x80; x04; x50; x14; x80;
  x8f; xee; x14; x80; x02; x96; x14; x80; x04; xff; x14; x80;
  x02; xf9; x14; x80; x43; x89; x14; x80; x8f; xe2; x14; x80;
  x0c; x92; x14; x80; x5a; x24; x14; x80; xe3; xf0; x14; x80;
  xf7; x84; x14; x80; xf0; x5b; x14; x80; x23; x1b; x14; x80;
  x0f; x9e; x14; x80; x8a; x02; x14; x80; xee; x52; x14; x80;
  x96; x8f; x14; x80; x02; x05; x14; x80; x8e; x88; x14; x80;
  x87; x02; x14; x80; xae; xff; x14; x80; xee; x04; x14; x80;
  x96; x8f; x14; x80; xfd; x06; x14; x80; xf8; x04; x14; x80;
  xfa; xf9; x14; x80; x69; xef; x14; x80; x1f; xfa; x14; x80;
  xd2; x44; x14; x80; xbf; x04; x14; x80; x7f; x8f; x14; x80;
  x19; xdc; x14; x80; x19; xdd; x14; x80; x9f; x82; x14; x80;
  xfe; xf9; x14; x80; x96; xef; x14; x80; xfd; xfe; x14; x80;
  x04; xfc; x14; x80; x02; xfb; x14; x80; x55; x88; x14; x80;
  x50; xad; x14; x80; xee; x04; x14; x80; x96; x8f; x14; x80;
  xff; x04; x14; x80; xf8; x04; x14; x80; xfa; xf9; x14; x80;
  x69; xef; x14; x80; x89; x02; x14; x80; xac; x19; x14; x80;
  x09; x30; x14; x80; x8f; xee; x14; x80; x07; x96; x14; x80;
  x88; x02; x14; x80; xae; x8e; x14; x80; x02; x07; x14; x80;
  x8a; x8a; x14; x80; x8f; xee; x14; x80; x01; x96; x14; x80;
  x96; xef; x14; x80; xfd; xfe; x14; x80; x04; xfc; x14; x80;
  x02; xfb; x14; x80; x55; x88; x14; x80; x50; xad; x14; x80;
  xee; x04; x14; x80; x96; x8f; x14; x80; xff; x06; x14; x80;
  xf8; x04; x14; x80; xe0; xfa; x14; x80; x57; x84; x14; x80;
  x84; xe1; x14; x80; xef; x58; x14; x80; xe1; x64; x14; x80;
  x90; x8f; x14; x80; x00; xd0; x14; x80; x74; xef; x14; x80;
  x71; x02; x14; x80; xfe; xff; x14; x80; x04; xfc; x14; x80;
  xfa; xf8; x14; x80; x69; xef; x14; x80; x8f; xee; x14; x80;
  x01; x96; x14; x80; x8f; xee; x14; x80; x04; x90; x14; x80;
  x8f; xee; x14; x80; x40; x8f; x14; x80; x8b; xbf; x14; x80;
  x02; x0f; x14; x80; xdc; x72; x14; x80; x84; xe5; x14; x80;
  xee; x5d; x14; x80; x91; x8f; x14; x80; xef; x77; x14; x80;
  xfe; x96; x14; x80; x04; xfc; x14; x80; xfa; xf8; x14; x80;
  xef; xfb; x14; x80; xe1; x69; x14; x80; x92; x8f; x14; x80;
  x8b; xbf; x14; x80; x02; x0f; x14; x80; xbd; x72; x14; x80;
  x8f; xe1; x14; x80; xbf; x93; x14; x80; x12; x8b; x14; x80;
  x72; x02; x14; x80; xe1; xbd; x14; x80; x94; x8f; x14; x80;
  x8b; xbf; x14; x80; x02; x15; x14; x80; xbd; x72; x14; x80;
  x8f; xe1; x14; x80; xbf; x95; x14; x80; x18; x8b; x14; x80;
  x72; x02; x14; x80; x02; xbd; x14; x80; xe4; x71; x14; x80;
  x47; xef; x14; x80; x84; xe4; x14; x80; xe5; x57; x14; x80;
  x58; x84; x14; x80; x96; xef; x14; x80; xfe; xff; x14; x80;
  x04; xfc; x14; x80; xe0; xf8; x14; x80; x18; x80; x14; x80;
  x25; xad; x14; x80; xee; x15; x14; x80; x96; x8f; x14; x80;
  xd0; x00; x14; x80; xe4; x08; x14; x80; x92; x8f; x14; x80;
  x8f; xe4; x14; x80; xe4; x93; x14; x80; x94; x8f; x14; x80;
  x8f; xe4; x14; x80; x02; x95; x14; x80; x8e; x88; x14; x80;
  x04; xfc; x14; x80; xe2; xf9; x14; x80; x5d; x84; x14; x80;
  x8f; xe3; x14; x80; x0d; x91; x14; x80; x5b; x34; x14; x80;
  x1a; x0f; x14; x80; xac; x32; x14; x80; x09; x3c; x14; x80;
  x34; x0c; x14; x80; xf0; x5b; x14; x80; x84; xe7; x14; x80;
  xae; xf7; x14; x80; xee; x04; x14; x80; xf7; x84; x14; x80;
  xe3; xf0; x14; x80; x91; x8f; x14; x80; x0f; x5b; x14; x80;
  x23; x1b; x14; x80; x37; xac; x14; x80; xe3; x0a; x14; x80;
  xf7; x84; x14; x80; x32; x1e; x14; x80; x84; xe7; x14; x80;
  xae; xf7; x14; x80; xfd; x00; x14; x80; xf8; x04; x14; x80;
  xef; xfa; x14; x80; xfa; x69; x14; x80; xd2; xfb; x14; x80;
  xd3; x01; x14; x80; xd6; x04; x14; x80; x92; x8f; x14; x80;
  x8f; xd7; x14; x80; xef; x7b; x14; x80; xd9; x97; x14; x80;
  x96; xef; x14; x80; x1b; xd8; x14; x80; x9e; x10; x14; x80;
  x80; x04; x14; x80; xd2; xdc; x14; x80; x16; x00; x14; x80;
  x83; x17; x14; x80; xed; x9f; x14; x80; xfe; xff; x14; x80;
  x96; xef; x14; x80; xfc; xfe; x14; x80; xf8; x04; x14; x80;
  xfa; xf9; x14; x80; xef; xfb; x14; x80; xfb; x79; x14; x80;
  xfb; xcf; x14; x80; x00; xd2; x14; x80; x00; xbe; x14; x80;
  xef; x00; x14; x80; x29; x12; x14; x80; xd0; x40; x14; x80;
  x1c; x04; x14; x80; x1a; x08; x14; x80; xbf; x10; x14; x80;
  x27; x8b; x14; x80; x72; x02; x14; x80; x02; xbd; x14; x80;
  xee; x89; x14; x80; x8f; xbf; x14; x80; xef; x7f; x14; x80;
  x49; x12; x14; x80; x1a; x02; x14; x80; xd8; x91; x14; x80;
  xd9; x19; x14; x80; x74; xef; x14; x80; x71; x02; x14; x80;
  xef; xcc; x14; x80; xdd; x47; x14; x80; xdc; x89; x14; x80;
  xa8; x18; x14; x80; x02; x00; x14; x80; x02; xd2; x14; x80;
  x90; x89; x14; x80; xa2; x12; x14; x80; xc8; x04; x14; x80;
  xc7; xff; x14; x80; xef; xff; x14; x80; xff; x97; x14; x80;
  xfd; xfe; x14; x80; x04; xfc; x14; x80; xf9; xf8; x14; x80;
  xfb; xfa; x14; x80; x79; xef; x14; x80; xbf; xfb; x14; x80;
  x7f; x8f; x14; x80; x12; xef; x14; x80; x02; x49; x14; x80;
  x91; x1a; x14; x80; x19; xd8; x14; x80; xef; xd9; x14; x80;
  xbf; x64; x14; x80; x87; x8f; x14; x80; x12; xef; x14; x80;
  x02; x49; x14; x80; x91; x1a; x14; x80; x19; xd8; x14; x80;
  xef; xd9; x14; x80; x89; x74; x14; x80; x71; x02; x14; x80;
  xad; xb1; x14; x80; x2c; x50; x14; x80; x46; xef; x14; x80;
  x19; xdc; x14; x80; xa2; xdd; x14; x80; x06; x00; x14; x80;
  x8b; xbf; x14; x80; x02; x0f; x14; x80; xdc; x72; x14; x80;
  x01; xa2; x14; x80; xbf; x06; x14; x80; x12; x8b; x14; x80;
  x72; x02; x14; x80; xa2; xdc; x14; x80; x06; x02; x14; x80;
  x8b; xbf; x14; x80; x02; x15; x14; x80; xdc; x72; x14; x80;
  x8b; xbf; x14; x80; x02; x18; x14; x80; xdc; x72; x14; x80;
  x8f; xbf; x14; x80; x1a; x7b; x14; x80; xdd; x92; x14; x80;
  xef; xff; x14; x80; xff; x97; x14; x80; xfd; xfe; x14; x80;
  x04; xfc; x14; x80; xf8; xf9; x14; x80; xef; xfb; x14; x80;
  xfb; x79; x14; x80; x8a; x02; x14; x80; xbf; xa0; x14; x80;
  x1b; x8b; x14; x80; x72; x02; x14; x80; x16; x9a; x14; x80;
  x8b; xbf; x14; x80; x02; x1e; x14; x80; xdc; x72; x14; x80;
  x28; xac; x14; x80; xae; x02; x14; x80; xd6; xf4; x14; x80;
  x00; x00; x14; x80; x8b; xbf; x14; x80; x02; x1b; x14; x80;
  x91; x72; x14; x80; x03; xae; x14; x80; x8a; x02; x14; x80].

Definition rtl8126a_2_fw_8 : list byte := [
  xd2; x8a; x14; x80; xd7; x00; x14; x80; x00; x00; x14; x80;
  x8f; xe1; x14; x80; x1b; x8f; x14; x80; xa1; x12; x14; x80;
  x04; x00; x14; x80; x67; xef; x14; x80; x1d; xae; x14; x80;
  x12; xef; x14; x80; x8b; xbf; x14; x80; x02; x21; x14; x80;
  xbd; x72; x14; x80; xbf; x12; x14; x80; x24; x8b; x14; x80;
  x72; x02; x14; x80; xef; xdc; x14; x80; xad; x64; x14; x80;
  x04; x4f; x14; x80; xff; x7e; x14; x80; x16; xff; x14; x80;
  x71; x02; x14; x80; xae; xcc; x14; x80; xbf; xd7; x14; x80;
  x2d; x8b; x14; x80; x72; x02; x14; x80; xff; x91; x14; x80;
  x97; xef; x14; x80; xfc; xff; x14; x80; x04; xfd; x14; x80;
  xfa; xf8; x14; x80; x69; xef; x14; x80; x04; xd1; x14; x80;
  x8f; xbf; x14; x80; xd8; x92; x14; x80; xdc; x10; x14; x80;
  x81; x19; x14; x80; xf9; x9f; x14; x80; x96; xef; x14; x80;
  xfc; xfe; x14; x80; xf8; x04; x14; x80; xfa; xfb; x14; x80;
  x69; xef; x14; x80; x8f; xbf; x14; x80; xd0; x87; x14; x80;
  xd1; x08; x14; x80; x02; xff; x14; x80; x7c; x8a; x14; x80;
  x96; xef; x14; x80; xff; xfe; x14; x80; x04; xfc; x14; x80;
  xfa; xf8; x14; x80; x69; xef; x14; x80; x19; xdd; x14; x80;
  x9f; x80; x14; x80; xef; xfb; x14; x80; xfe; x96; x14; x80;
  x04; xfc; x14; x80; xe0; xf8; x14; x80; x44; x80; x14; x80;
  x24; xf6; x14; x80; x80; xe4; x14; x80; xfc; x44; x14; x80;
  xf8; x04; x14; x80; x80; xe0; x14; x80; xf6; x4f; x14; x80;
  xe4; x24; x14; x80; x4f; x80; x14; x80; x04; xfc; x14; x80;
  xfa; xf8; x14; x80; xef; xfb; x14; x80; xfb; x79; x14; x80;
  x8b; xbf; x14; x80; x02; x2a; x14; x80; x91; x72; x14; x80;
  x8b; xbf; x14; x80; x02; x33; x14; x80; x91; x72; x14; x80;
  x8b; xd6; x14; x80; xd7; x2d; x14; x80; x30; x8b; x14; x80;
  x16; x01; x14; x80; x50; xad; x14; x80; xbf; x0c; x14; x80;
  x2a; x8b; x14; x80; x72; x02; x14; x80; xbf; x9a; x14; x80;
  x33; x8b; x14; x80; x72; x02; x14; x80; xff; x9a; x14; x80;
  x97; xef; x14; x80; xfe; xff; x14; x80; x04; xfc; x14; x80;
  xf9; xf8; x14; x80; xef; xfa; x14; x80; xf8; x49; x14; x80;
  xf8; xcc; x14; x80; x96; xef; x14; x80; x72; x02; x14; x80;
  x1f; x9a; x14; x80; xc7; x22; x14; x80; x02; xbd; x14; x80;
  xdc; x72; x14; x80; x28; xac; x14; x80; xac; x16; x14; x80;
  x08; x30; x14; x80; x71; x02; x14; x80; xef; xe4; x14; x80;
  x12; x67; x14; x80; xee; xae; x14; x80; x00; xd7; x14; x80;
  x02; x02; x14; x80; xff; x71; x14; x80; x50; xac; x14; x80;
  xae; x05; x14; x80; xd7; xe3; x14; x80; x00; x00; x14; x80;
  xc4; xfc; x14; x80; xef; xfc; x14; x80; xfe; x94; x14; x80;
  xfc; xfd; x14; x80; xcc; x04; x14; x80; x10; xc0; x14; x80;
  xac; x44; x14; x80; x30; x00; x14; x80; xe0; xbc; x14; x80;
  xbc; x74; x14; x80; xb8; xe0; x14; x80; xe0; xbc; x14; x80;
  xbc; xfc; x14; x80; x11; xe0; x14; x80; xb4; xac; x14; x80;
  xac; xdd; x14; x80; xfa; xb6; x14; x80; xb4; xac; x14; x80;
  xac; xf0; x14; x80; x92; xba; x14; x80; xb4; xac; x14; x80;
  xac; xff; x14; x80; x00; x56; x14; x80; xb4; xac; x14; x80;
  xac; xcc; x14; x80; xff; xb6; x14; x80; x34; xb0; x14; x80;
  x18; xb8; x13; x80; xe4; x2a; x14; x80; x1a; xb8; x13; x80;
  x0a; x38; x14; x80; x1c; xb8; x13; x80; xdd; x3e; x14; x80;
  x1e; xb8; x13; x80; xa3; x41; x14; x80; x50; xb8; x13; x80;
  x84; x06; x14; x80; x52; xb8; x13; x80; x02; x1c; x14; x80;
  x78; xb8; x13; x80; x70; x1b; x14; x80; x84; xb8; x13; x80;
  x33; x06; x14; x80; x32; xb8; x13; x80; xff; x00; x14; x80;
  xfc; xac; x13; x80; x00; x01; x14; x80; xfe; xac; x13; x80;
  x00; x80; x14; x80; x00; xad; x13; x80; xff; x27; x14; x80;
  x02; xad; x13; x80; x67; x3c; x14; x80; x04; xad; x13; x80;
  xfe; xff; x14; x80; x06; xad; x13; x80; xff; xff; x14; x80;
  x08; xad; x13; x80; x0f; x00; x14; x80; x00; xad; x13; x80;
  xff; x47; x14; x80; x02; xad; x13; x80; x67; x3e; x14; x80;
  x04; xad; x13; x80; xfe; xff; x14; x80; x06; xad; x13; x80;
  xff; xff; x14; x80; x08; xad; x13; x80; x0f; x00; x14; x80;
  x00; xad; x13; x80; xff; x67; x14; x80; x02; xad; x13; x80;
  x67; x30; x14; x80; x04; xad; x13; x80; xfe; xff; x14; x80;
  x06; xad; x13; x80; xff; xff; x14; x80; x08; xad; x13; x80;
  x0f; x00; x14; x80; x00; xad; x13; x80; xff; x87; x14; x80;
  x02; xad; x13; x80; x67; x32; x14; x80; x04; xad; x13; x80;
  xfe; xff; x14; x80; x06; xad; x13; x80; xff; xff; x14; x80;
  x08; xad; x13; x80; x0f; x00; x14; x80; x00; xad; x13; x80;
  xff; xa7; x14; x80; x02; xad; x13; x80; x67; x34; x14; x80;
  x04; xad; x13; x80; xfe; xff; x14; x80; x06; xad; x13; x80;
  xff; xff; x14; x80; x08; xad; x13; x80; x0f; x00; x14; x80;
  x00; xad; x13; x80; xff; xcf; x14; x80; x02; xad; x13; x80;
  x67; x36; x14; x80; x04; xad; x13; x80; xfe; xff; x14; x80;
  x06; xad; x13; x80; xff; xff; x14; x80; x08; xad; x13; x80;
  x0f; x00; x14; x80; x00; xad; x13; x80; xff; xef; x14; x80;
  x02; xad; x13; x80; x67; x38; x14; x80; x04; xad; x13; x80;
  xfe; xff; x14; x80; x06; xad; x13; x80; xff; xff; x14; x80;
  x08; xad; x13; x80; x0f; x00; x14; x80; x00; xad; x13; x80;
  xff; x0f; x14; x80; x02; xad; x13; x80; x67; x3a; x14; x80;
  x04; xad; x13; x80; xfe; xff; x14; x80; x06; xad; x13; x80;
  xff; xff; x14; x80; x08; xad; x13; x80; x0f; x00; x14; x80;
  x00; xad; x13; x80; xff; x2f; x14; x80; x02; xad; x13; x80;
  xe7; x3c; x14; x80; x04; xad; x13; x80; xfe; xff; x14; x80;
  x06; xad; x13; x80; xff; xff; x14; x80; x08; xad; x13; x80;
  x07; x00; x14; x80; x00; xad; x13; x80; xff; x4f; x14; x80;
  x02; xad; x13; x80; xe7; x3e; x14; x80; x04; xad; x13; x80;
  xfe; xff; x14; x80; x06; xad; x13; x80; xff; xff; x14; x80;
  x08; xad; x13; x80; x07; x00; x14; x80; x00; xad; x13; x80;
  xff; x6f; x14; x80; x02; xad; x13; x80; xe7; x30; x14; x80;
  x04; xad; x13; x80; xfe; xff; x14; x80; x06; xad; x13; x80;
  xff; xff; x14; x80; x08; xad; x13; x80; x07; x00; x14; x80;
  x00; xad; x13; x80; xff; x8f; x14; x80; x02; xad; x13; x80;
  xe7; x32; x14; x80; x04; xad; x13; x80; xfe; xff; x14; x80;
  x06; xad; x13; x80; xff; xff; x14; x80; x08; xad; x13; x80;
  x07; x00; x14; x80; x00; xad; x13; x80; xff; xaf; x14; x80;
  x02; xad; x13; x80; xe7; x34; x14; x80; x04; xad; x13; x80;
  x08; x10; x14; x80; x06; xad; x13; x80; xf4; xff; x14; x80;
  x08; xad; x13; x80; x07; x00; x14; x80; x00; xad; x13; x80;
  xff; xff; x14; x80; x02; xad; x13; x80; xff; x36; x14; x80;
  x04; xad; x13; x80; x48; x10; x14; x80; x06; xad; x13; x80;
  xf5; xff; x14; x80; x08; xad; x13; x80; x07; x00; x14; x80;
  x00; xad; x13; x80; xff; xff; x14; x80; x02; xad; x13; x80;
  xff; x38; x14; x80; x04; xad; x13; x80; x88; x10; x14; x80;
  x06; xad; x13; x80; xf6; xff; x14; x80; x08; xad; x13; x80;
  x07; x00; x14; x80; x00; xad; x13; x80; xff; xff; x14; x80;
  x02; xad; x13; x80; xff; x3a; x14; x80; x04; xad; x13; x80;
  xc8; x10; x14; x80; x06; xad; x13; x80; x17; xf4; x14; x80;
  x08; xad; x13; x80; x07; x00; x14; x80; x00; xad; x13; x80;
  xff; xff; x14; x80; x02; xad; x13; x80; xff; xff; x14; x80;
  x04; xad; x13; x80; x09; x11; x14; x80; x06; xad; x13; x80;
  x34; xf4; x14; x80; x08; xad; x13; x80; x07; x00; x14; x80;
  x00; xad; x13; x80; x07; x02; x14; x80; x02; xad; x13; x80;
  xe2; xff; x14; x80; x04; xad; x13; x80; x49; x11; x14; x80;
  x06; xad; x13; x80; x55; x04; x14; x80; x08; xad; x13; x80;
  x02; x00; x14; x80; x00; xad; x13; x80; x27; x22; x14; x80;
  x02; xad; x13; x80; xe2; xff; x14; x80; x04; xad; x13; x80;
  x89; x11; x14; x80; x06; xad; x13; x80; x76; x14; x14; x80;
  x08; xad; x13; x80; x02; x00; x14; x80; x00; xad; x13; x80;
  x47; x42; x14; x80; x02; xad; x13; x80; xe2; xff; x14; x80;
  x04; xad; x13; x80; xc9; x11; x14; x80; x06; xad; x13; x80;
  x17; x25; x14; x80; x08; xad; x13; x80; x02; x00; x14; x80;
  x00; xad; x13; x80; x67; x62; x14; x80; x02; xad; x13; x80;
  xe2; xff; x14; x80; x04; xad; x13; x80; x09; x12; x14; x80;
  x06; xad; x13; x80; x34; x35; x14; x80; x08; xad; x13; x80;
  x02; x00; x14; x80; x00; xad; x13; x80; x07; x00; x14; x80;
  x02; xad; x13; x80; xe0; xff; x14; x80; x04; xad; x13; x80;
  x49; x12; x14; x80; x06; xad; x13; x80; x55; x05; x14; x80;
  x08; xad; x13; x80; x02; x00; x14; x80; x00; xad; x13; x80;
  x27; x20; x14; x80; x02; xad; x13; x80; xe0; xff; x14; x80;
  x04; xad; x13; x80; x89; x12; x14; x80; x06; xad; x13; x80;
  x76; x15; x14; x80; x08; xad; x13; x80; x02; x00; x14; x80;
  x00; xad; x13; x80; x47; x40; x14; x80; x02; xad; x13; x80;
  xe0; xff; x14; x80; x04; xad; x13; x80; xc9; x12; x14; x80;
  x06; xad; x13; x80; x17; x25; x14; x80; x08; xad; x13; x80;
  x02; x00; x14; x80; x00; xad; x13; x80; x67; x60; x14; x80;
  x02; xad; x13; x80; xe0; xff; x14; x80; x04; xad; x13; x80;
  x09; x13; x14; x80; x06; xad; x13; x80; x34; x35; x14; x80;
  x08; xad; x13; x80; x02; x00; x14; x80; x00; xad; x13; x80;
  x87; x80; x14; x80; x02; xad; x13; x80; xe0; xff; x14; x80;
  x04; xad; x13; x80; x49; x13; x14; x80; x06; xad; x13; x80;
  x55; x05; x14; x80; x08; xad; x13; x80; x02; x00; x14; x80;
  x00; xad; x13; x80; xa7; xa0; x14; x80; x02; xad; x13; x80;
  xe0; xff; x14; x80; x04; xad; x13; x80; x89; x13; x14; x80;
  x06; xad; x13; x80; x76; x15; x14; x80; x08; xad; x13; x80;
  x02; x00; x14; x80; x00; xad; x13; x80; xc7; xc0; x14; x80;
  x02; xad; x13; x80; xe0; xff; x14; x80; x04; xad; x13; x80;
  xc9; x13; x14; x80; x06; xad; x13; x80; x17; x25; x14; x80].

Definition rtl8126a_2_fw_9 : list byte := [
  x08; xad; x13; x80; x02; x00; x14; x80; x00; xad; x13; x80;
  xe7; xe0; x14; x80; x02; xad; x13; x80; xe0; xff; x14; x80;
  x04; xad; x13; x80; x0b; x14; x14; x80; x06; xad; x13; x80;
  x34; x35; x14; x80; x08; xad; x13; x80; x02; x00; x14; x80;
  x00; xad; x13; x80; x07; x01; x14; x80; x02; xad; x13; x80;
  xe1; xff; x14; x80; x04; xad; x13; x80; x4b; x14; x14; x80;
  x06; xad; x13; x80; x55; x05; x14; x80; x08; xad; x13; x80;
  x02; x00; x14; x80; x00; xad; x13; x80; x27; x21; x14; x80;
  x02; xad; x13; x80; xe1; xff; x14; x80; x04; xad; x13; x80;
  x8b; x14; x14; x80; x06; xad; x13; x80; x76; x15; x14; x80;
  x08; xad; x13; x80; x02; x00; x14; x80; x00; xad; x13; x80;
  x47; x41; x14; x80; x02; xad; x13; x80; xe1; xff; x14; x80;
  x04; xad; x13; x80; xcb; x14; x14; x80; x06; xad; x13; x80;
  x17; x24; x14; x80; x08; xad; x13; x80; x02; x00; x14; x80;
  x00; xad; x13; x80; x67; x61; x14; x80; x02; xad; x13; x80;
  xe1; xff; x14; x80; x04; xad; x13; x80; x09; x51; x14; x80;
  x06; xad; x13; x80; x34; x34; x14; x80; x08; xad; x13; x80;
  x02; x00; x14; x80; x00; xad; x13; x80; x87; x82; x14; x80;
  x02; xad; x13; x80; xe2; xff; x14; x80; x04; xad; x13; x80;
  x49; x51; x14; x80; x06; xad; x13; x80; x55; x04; x14; x80;
  x08; xad; x13; x80; x02; x00; x14; x80; x00; xad; x13; x80;
  xa7; xa2; x14; x80; x02; xad; x13; x80; xe2; xff; x14; x80;
  x04; xad; x13; x80; x89; x51; x14; x80; x06; xad; x13; x80;
  x76; x14; x14; x80; x08; xad; x13; x80; x02; x00; x14; x80;
  x00; xad; x13; x80; xc7; xc2; x14; x80; x02; xad; x13; x80;
  xe2; xff; x14; x80; x04; xad; x13; x80; xc9; x51; x14; x80;
  x06; xad; x13; x80; x17; x24; x14; x80; x08; xad; x13; x80;
  x02; x00; x14; x80; x00; xad; x13; x80; xe7; xe2; x14; x80;
  x02; xad; x13; x80; xe2; xff; x14; x80; x04; xad; x13; x80;
  x09; x50; x14; x80; x06; xad; x13; x80; x34; x34; x14; x80;
  x08; xad; x13; x80; x02; x00; x14; x80; x00; xad; x13; x80;
  x0f; x0a; x14; x80; x02; xad; x13; x80; xe2; xff; x14; x80;
  x04; xad; x13; x80; x49; x50; x14; x80; x06; xad; x13; x80;
  x55; x04; x14; x80; x08; xad; x13; x80; x02; x00; x14; x80;
  x00; xad; x13; x80; x2f; x2a; x14; x80; x02; xad; x13; x80;
  xe2; xff; x14; x80; x04; xad; x13; x80; x89; x50; x14; x80;
  x06; xad; x13; x80; x76; x14; x14; x80; x08; xad; x13; x80;
  x02; x00; x14; x80; x00; xad; x13; x80; x4f; x4a; x14; x80;
  x02; xad; x13; x80; xe2; xff; x14; x80; x04; xad; x13; x80;
  xc9; x50; x14; x80; x06; xad; x13; x80; x17; x25; x14; x80;
  x08; xad; x13; x80; x02; x00; x14; x80; x00; xad; x13; x80;
  x6f; x6a; x14; x80; x02; xad; x13; x80; xe2; xff; x14; x80;
  x04; xad; x13; x80; x09; x52; x14; x80; x06; xad; x13; x80;
  x34; x35; x14; x80; x08; xad; x13; x80; x02; x00; x14; x80;
  x00; xad; x13; x80; x0f; x08; x14; x80; x02; xad; x13; x80;
  xe0; xff; x14; x80; x04; xad; x13; x80; x49; x52; x14; x80;
  x06; xad; x13; x80; x55; x05; x14; x80; x08; xad; x13; x80;
  x02; x00; x14; x80; x00; xad; x13; x80; x2f; x28; x14; x80;
  x02; xad; x13; x80; xe0; xff; x14; x80; x04; xad; x13; x80;
  x89; x52; x14; x80; x06; xad; x13; x80; x76; x15; x14; x80;
  x08; xad; x13; x80; x02; x00; x14; x80; x00; xad; x13; x80;
  x4f; x48; x14; x80; x02; xad; x13; x80; xe0; xff; x14; x80;
  x04; xad; x13; x80; xc9; x52; x14; x80; x06; xad; x13; x80;
  x17; x25; x14; x80; x08; xad; x13; x80; x02; x00; x14; x80;
  x00; xad; x13; x80; x6f; x68; x14; x80; x02; xad; x13; x80;
  xe0; xff; x14; x80; x04; xad; x13; x80; x09; x53; x14; x80;
  x06; xad; x13; x80; x34; x35; x14; x80; x08; xad; x13; x80;
  x02; x00; x14; x80; x00; xad; x13; x80; x8f; x88; x14; x80;
  x02; xad; x13; x80; xe0; xff; x14; x80; x04; xad; x13; x80;
  x49; x53; x14; x80; x06; xad; x13; x80; x55; x05; x14; x80;
  x08; xad; x13; x80; x02; x00; x14; x80; x00; xad; x13; x80;
  xaf; xa8; x14; x80; x02; xad; x13; x80; xe0; xff; x14; x80;
  x04; xad; x13; x80; x89; x53; x14; x80; x06; xad; x13; x80;
  x76; x15; x14; x80; x08; xad; x13; x80; x02; x00; x14; x80;
  x00; xad; x13; x80; xcf; xc8; x14; x80; x02; xad; x13; x80;
  xe0; xff; x14; x80; x04; xad; x13; x80; xc9; x53; x14; x80;
  x06; xad; x13; x80; x17; x25; x14; x80; x08; xad; x13; x80;
  x02; x00; x14; x80; x00; xad; x13; x80; xef; xe8; x14; x80;
  x02; xad; x13; x80; xe0; xff; x14; x80; x04; xad; x13; x80;
  x0b; x55; x14; x80; x06; xad; x13; x80; x34; x35; x14; x80;
  x08; xad; x13; x80; x02; x00; x14; x80; x00; xad; x13; x80;
  x0f; x09; x14; x80; x02; xad; x13; x80; xe1; xff; x14; x80;
  x04; xad; x13; x80; x4b; x55; x14; x80; x06; xad; x13; x80;
  x55; x05; x14; x80; x08; xad; x13; x80; x02; x00; x14; x80;
  x00; xad; x13; x80; x2f; x29; x14; x80; x02; xad; x13; x80;
  xe1; xff; x14; x80; x04; xad; x13; x80; x8b; x55; x14; x80;
  x06; xad; x13; x80; x76; x15; x14; x80; x08; xad; x13; x80;
  x02; x00; x14; x80; x00; xad; x13; x80; x4f; x49; x14; x80;
  x02; xad; x13; x80; xe1; xff; x14; x80; x04; xad; x13; x80;
  xcb; x55; x14; x80; x06; xad; x13; x80; x17; x24; x14; x80;
  x08; xad; x13; x80; x02; x00; x14; x80; x00; xad; x13; x80;
  x6f; x69; x14; x80; x02; xad; x13; x80; xe1; xff; x14; x80;
  x04; xad; x13; x80; x09; x92; x14; x80; x06; xad; x13; x80;
  x34; x34; x14; x80; x08; xad; x13; x80; x02; x00; x14; x80;
  x00; xad; x13; x80; x8f; x8a; x14; x80; x02; xad; x13; x80;
  xe2; xff; x14; x80; x04; xad; x13; x80; x49; x92; x14; x80;
  x06; xad; x13; x80; x55; x04; x14; x80; x08; xad; x13; x80;
  x02; x00; x14; x80; x00; xad; x13; x80; xaf; xaa; x14; x80;
  x02; xad; x13; x80; xe2; xff; x14; x80; x04; xad; x13; x80;
  x89; x92; x14; x80; x06; xad; x13; x80; x76; x14; x14; x80;
  x08; xad; x13; x80; x02; x00; x14; x80; x00; xad; x13; x80;
  xcf; xca; x14; x80; x02; xad; x13; x80; xe2; xff; x14; x80;
  x04; xad; x13; x80; xc9; x92; x14; x80; x06; xad; x13; x80;
  x17; x24; x14; x80; x08; xad; x13; x80; x02; x00; x14; x80;
  x00; xad; x13; x80; xef; xea; x14; x80; x02; xad; x13; x80;
  xe2; xff; x14; x80; x04; xad; x13; x80; x09; x90; x14; x80;
  x06; xad; x13; x80; x34; x34; x14; x80; x08; xad; x13; x80;
  x02; x00; x14; x80; x00; xad; x13; x80; x17; x12; x14; x80;
  x02; xad; x13; x80; xe2; xff; x14; x80; x04; xad; x13; x80;
  x49; x90; x14; x80; x06; xad; x13; x80; x55; x04; x14; x80;
  x08; xad; x13; x80; x02; x00; x14; x80; x00; xad; x13; x80;
  x37; x32; x14; x80; x02; xad; x13; x80; xe2; xff; x14; x80;
  x04; xad; x13; x80; x89; x90; x14; x80; x06; xad; x13; x80;
  x76; x14; x14; x80; x08; xad; x13; x80; x02; x00; x14; x80;
  x00; xad; x13; x80; x57; x52; x14; x80; x02; xad; x13; x80;
  xe2; xff; x14; x80; x04; xad; x13; x80; xc9; x90; x14; x80;
  x06; xad; x13; x80; x17; x25; x14; x80; x08; xad; x13; x80;
  x02; x00; x14; x80; x00; xad; x13; x80; x77; x72; x14; x80;
  x02; xad; x13; x80; xe2; xff; x14; x80; x04; xad; x13; x80;
  x09; x91; x14; x80; x06; xad; x13; x80; x34; x35; x14; x80;
  x08; xad; x13; x80; x02; x00; x14; x80; x00; xad; x13; x80;
  x17; x10; x14; x80; x02; xad; x13; x80; xe0; xff; x14; x80;
  x04; xad; x13; x80; x49; x91; x14; x80; x06; xad; x13; x80;
  x55; x05; x14; x80; x08; xad; x13; x80; x02; x00; x14; x80;
  x00; xad; x13; x80; x37; x30; x14; x80; x02; xad; x13; x80;
  xe0; xff; x14; x80; x04; xad; x13; x80; x89; x91; x14; x80;
  x06; xad; x13; x80; x76; x15; x14; x80; x08; xad; x13; x80;
  x02; x00; x14; x80; x00; xad; x13; x80; x57; x50; x14; x80;
  x02; xad; x13; x80; xe0; xff; x14; x80; x04; xad; x13; x80;
  xc9; x91; x14; x80; x06; xad; x13; x80; x17; x25; x14; x80;
  x08; xad; x13; x80; x02; x00; x14; x80; x00; xad; x13; x80;
  x77; x70; x14; x80; x02; xad; x13; x80; xe0; xff; x14; x80;
  x04; xad; x13; x80; x09; x93; x14; x80; x06; xad; x13; x80;
  x34; x35; x14; x80; x08; xad; x13; x80; x02; x00; x14; x80;
  x00; xad; x13; x80; x97; x90; x14; x80; x02; xad; x13; x80;
  xe0; xff; x14; x80; x04; xad; x13; x80; x49; x93; x14; x80;
  x06; xad; x13; x80; x55; x05; x14; x80; x08; xad; x13; x80;
  x02; x00; x14; x80; x00; xad; x13; x80; xb7; xb0; x14; x80;
  x02; xad; x13; x80; xe0; xff; x14; x80; x04; xad; x13; x80;
  x89; x93; x14; x80; x06; xad; x13; x80; x76; x15; x14; x80;
  x08; xad; x13; x80; x02; x00; x14; x80; x00; xad; x13; x80;
  xd7; xd0; x14; x80; x02; xad; x13; x80; xe0; xff; x14; x80;
  x04; xad; x13; x80; xc9; x93; x14; x80; x06; xad; x13; x80;
  x17; x25; x14; x80; x08; xad; x13; x80; x02; x00; x14; x80;
  x00; xad; x13; x80; xf7; xf0; x14; x80; x02; xad; x13; x80;
  xe0; xff; x14; x80; x04; xad; x13; x80; x0b; x96; x14; x80;
  x06; xad; x13; x80; x34; x35; x14; x80; x08; xad; x13; x80;
  x02; x00; x14; x80; x00; xad; x13; x80; x17; x11; x14; x80;
  x02; xad; x13; x80; xe1; xff; x14; x80; x04; xad; x13; x80;
  x4b; x96; x14; x80; x06; xad; x13; x80; x55; x05; x14; x80;
  x08; xad; x13; x80; x02; x00; x14; x80; x00; xad; x13; x80;
  x37; x31; x14; x80; x02; xad; x13; x80; xe1; xff; x14; x80;
  x04; xad; x13; x80; x8b; x96; x14; x80; x06; xad; x13; x80;
  x76; x15; x14; x80; x08; xad; x13; x80; x02; x00; x14; x80;
  x00; xad; x13; x80; x57; x51; x14; x80; x02; xad; x13; x80;
  xe1; xff; x14; x80; x04; xad; x13; x80; xcb; x96; x14; x80;
  x06; xad; x13; x80; x17; x24; x14; x80; x08; xad; x13; x80;
  x02; x00; x14; x80; x00; xad; x13; x80; x77; x71; x14; x80].

Definition rtl8126a_2_fw_10 : list byte := [
  x02; xad; x13; x80; xe1; xff; x14; x80; x04; xad; x13; x80;
  x09; xd3; x14; x80; x06; xad; x13; x80; x34; x34; x14; x80;
  x08; xad; x13; x80; x02; x00; x14; x80; x00; xad; x13; x80;
  x97; x92; x14; x80; x02; xad; x13; x80; xe2; xff; x14; x80;
  x04; xad; x13; x80; x49; xd3; x14; x80; x06; xad; x13; x80;
  x55; x04; x14; x80; x08; xad; x13; x80; x02; x00; x14; x80;
  x00; xad; x13; x80; xb7; xb2; x14; x80; x02; xad; x13; x80;
  xe2; xff; x14; x80; x04; xad; x13; x80; x89; xd3; x14; x80;
  x06; xad; x13; x80; x76; x14; x14; x80; x08; xad; x13; x80;
  x02; x00; x14; x80; x00; xad; x13; x80; xd7; xd2; x14; x80;
  x02; xad; x13; x80; xe2; xff; x14; x80; x04; xad; x13; x80;
  xc9; xd3; x14; x80; x06; xad; x13; x80; x17; x24; x14; x80;
  x08; xad; x13; x80; x02; x00; x14; x80; x00; xad; x13; x80;
  xf7; xf2; x14; x80; x02; xad; x13; x80; xe2; xff; x14; x80;
  x04; xad; x13; x80; x09; xd0; x14; x80; x06; xad; x13; x80;
  x34; x34; x14; x80; x08; xad; x13; x80; x02; x00; x14; x80;
  x00; xad; x13; x80; x1f; x1a; x14; x80; x02; xad; x13; x80;
  xe2; xff; x14; x80; x04; xad; x13; x80; x49; xd0; x14; x80;
  x06; xad; x13; x80; x55; x04; x14; x80; x08; xad; x13; x80;
  x02; x00; x14; x80; x00; xad; x13; x80; x3f; x3a; x14; x80;
  x02; xad; x13; x80; xe2; xff; x14; x80; x04; xad; x13; x80;
  x89; xd0; x14; x80; x06; xad; x13; x80; x76; x14; x14; x80;
  x08; xad; x13; x80; x02; x00; x14; x80; x00; xad; x13; x80;
  x5f; x5a; x14; x80; x02; xad; x13; x80; xe2; xff; x14; x80;
  x04; xad; x13; x80; xc9; xd0; x14; x80; x06; xad; x13; x80;
  x17; x25; x14; x80; x08; xad; x13; x80; x02; x00; x14; x80;
  x00; xad; x13; x80; x7f; x7a; x14; x80; x02; xad; x13; x80;
  xe2; xff; x14; x80; x04; xad; x13; x80; x09; xd1; x14; x80;
  x06; xad; x13; x80; x34; x35; x14; x80; x08; xad; x13; x80;
  x02; x00; x14; x80; x00; xad; x13; x80; x1f; x18; x14; x80;
  x02; xad; x13; x80; xe0; xff; x14; x80; x04; xad; x13; x80;
  x49; xd1; x14; x80; x06; xad; x13; x80; x55; x05; x14; x80;
  x08; xad; x13; x80; x02; x00; x14; x80; x00; xad; x13; x80;
  x3f; x38; x14; x80; x02; xad; x13; x80; xe0; xff; x14; x80;
  x04; xad; x13; x80; x89; xd1; x14; x80; x06; xad; x13; x80;
  x76; x15; x14; x80; x08; xad; x13; x80; x02; x00; x14; x80;
  x00; xad; x13; x80; x5f; x58; x14; x80; x02; xad; x13; x80;
  xe0; xff; x14; x80; x04; xad; x13; x80; xc9; xd1; x14; x80;
  x06; xad; x13; x80; x17; x25; x14; x80; x08; xad; x13; x80;
  x02; x00; x14; x80; x00; xad; x13; x80; x7f; x78; x14; x80;
  x02; xad; x13; x80; xe0; xff; x14; x80; x04; xad; x13; x80;
  x09; xd2; x14; x80; x06; xad; x13; x80; x34; x35; x14; x80;
  x08; xad; x13; x80; x02; x00; x14; x80; x00; xad; x13; x80;
  x9f; x98; x14; x80; x02; xad; x13; x80; xe0; xff; x14; x80;
  x04; xad; x13; x80; x49; xd2; x14; x80; x06; xad; x13; x80;
  x55; x05; x14; x80; x08; xad; x13; x80; x02; x00; x14; x80;
  x00; xad; x13; x80; xbf; xb8; x14; x80; x02; xad; x13; x80;
  xe0; xff; x14; x80; x04; xad; x13; x80; x89; xd2; x14; x80;
  x06; xad; x13; x80; x76; x15; x14; x80; x08; xad; x13; x80;
  x02; x00; x14; x80; x00; xad; x13; x80; xdf; xd8; x14; x80;
  x02; xad; x13; x80; xe0; xff; x14; x80; x04; xad; x13; x80;
  xc9; xd2; x14; x80; x06; xad; x13; x80; x17; x25; x14; x80;
  x08; xad; x13; x80; x02; x00; x14; x80; x00; xad; x13; x80;
  xff; xf8; x14; x80; x02; xad; x13; x80; xe0; xff; x14; x80;
  x04; xad; x13; x80; x0b; xd7; x14; x80; x06; xad; x13; x80;
  x34; x35; x14; x80; x08; xad; x13; x80; x02; x00; x14; x80;
  x00; xad; x13; x80; x1f; x19; x14; x80; x02; xad; x13; x80;
  xe1; xff; x14; x80; x04; xad; x13; x80; x4b; xd7; x14; x80;
  x06; xad; x13; x80; x55; x05; x14; x80; x08; xad; x13; x80;
  x02; x00; x14; x80; x00; xad; x13; x80; x3f; x39; x14; x80;
  x02; xad; x13; x80; xe1; xff; x14; x80; x04; xad; x13; x80;
  x8b; xd7; x14; x80; x06; xad; x13; x80; x76; x15; x14; x80;
  x08; xad; x13; x80; x02; x00; x14; x80; x00; xad; x13; x80;
  x5f; x59; x14; x80; x02; xad; x13; x80; xe1; xff; x14; x80;
  x04; xad; x13; x80; xcb; xd7; x14; x80; x06; xad; x13; x80;
  x17; x24; x14; x80; x08; xad; x13; x80; x02; x00; x14; x80;
  x00; xad; x13; x80; x7f; x79; x14; x80; x02; xad; x13; x80;
  xe1; xff; x14; x80; x04; xad; x13; x80; x0d; x00; x14; x80;
  x06; xad; x13; x80; x34; x34; x14; x80; x08; xad; x13; x80;
  x02; x00; x14; x80; x00; xad; x13; x80; x9f; x9a; x14; x80;
  x02; xad; x13; x80; xe2; xff; x14; x80; x04; xad; x13; x80;
  x4d; x00; x14; x80; x06; xad; x13; x80; x55; x04; x14; x80;
  x08; xad; x13; x80; x02; x00; x14; x80; x00; xad; x13; x80;
  xbf; xba; x14; x80; x02; xad; x13; x80; xe2; xff; x14; x80;
  x04; xad; x13; x80; x8d; x00; x14; x80; x06; xad; x13; x80;
  x76; x14; x14; x80; x08; xad; x13; x80; x02; x00; x14; x80;
  x00; xad; x13; x80; xdf; xda; x14; x80; x02; xad; x13; x80;
  xe2; xff; x14; x80; x04; xad; x13; x80; xcd; x00; x14; x80;
  x06; xad; x13; x80; x17; x2c; x14; x80; x08; xad; x13; x80;
  x02; x00; x14; x80; x00; xad; x13; x80; xf8; xfa; x14; x80;
  x02; xad; x13; x80; xe2; xff; x14; x80; x04; xad; x13; x80;
  x0d; x40; x14; x80; x06; xad; x13; x80; x34; x3c; x14; x80;
  x08; xad; x13; x80; x02; x00; x14; x80; x00; xad; x13; x80;
  x87; x81; x14; x80; x02; xad; x13; x80; xe1; xff; x14; x80;
  x04; xad; x13; x80; x4d; x40; x14; x80; x06; xad; x13; x80;
  x55; x0c; x14; x80; x08; xad; x13; x80; x02; x00; x14; x80;
  x00; xad; x13; x80; xa7; xa1; x14; x80; x02; xad; x13; x80;
  xe1; xff; x14; x80; x04; xad; x13; x80; x8d; x40; x14; x80;
  x06; xad; x13; x80; x76; x1c; x14; x80; x08; xad; x13; x80;
  x02; x00; x14; x80; x00; xad; x13; x80; xc7; xc1; x14; x80;
  x02; xad; x13; x80; xe1; xff; x14; x80; x04; xad; x13; x80;
  xcd; x40; x14; x80; x06; xad; x13; x80; x97; x2c; x14; x80;
  x08; xad; x13; x80; x02; x00; x14; x80; x00; xad; x13; x80;
  xe7; xe1; x14; x80; x02; xad; x13; x80; xe1; xff; x14; x80;
  x04; xad; x13; x80; x0d; x80; x14; x80; x06; xad; x13; x80;
  xb4; x3c; x14; x80; x08; xad; x13; x80; x02; x00; x14; x80;
  x00; xad; x13; x80; x8f; x89; x14; x80; x02; xad; x13; x80;
  xe1; xff; x14; x80; x04; xad; x13; x80; x4d; x80; x14; x80;
  x06; xad; x13; x80; xd5; x0c; x14; x80; x08; xad; x13; x80;
  x02; x00; x14; x80; x00; xad; x13; x80; xaf; xa9; x14; x80;
  x02; xad; x13; x80; xe1; xff; x14; x80; x04; xad; x13; x80;
  x8d; x80; x14; x80; x06; xad; x13; x80; xf6; x1c; x14; x80;
  x08; xad; x13; x80; x02; x00; x14; x80; x00; xad; x13; x80;
  xcf; xc9; x14; x80; x02; xad; x13; x80; xe1; xff; x14; x80;
  x04; xad; x13; x80; xcd; x80; x14; x80; x06; xad; x13; x80;
  x17; x2d; x14; x80; x08; xad; x13; x80; x02; x00; x14; x80;
  x00; xad; x13; x80; xef; xe9; x14; x80; x02; xad; x13; x80;
  xe1; xff; x14; x80; x04; xad; x13; x80; x0d; xc0; x14; x80;
  x06; xad; x13; x80; x34; x3d; x14; x80; x08; xad; x13; x80;
  x02; x00; x14; x80; x00; xad; x13; x80; x97; x91; x14; x80;
  x02; xad; x13; x80; xe1; xff; x14; x80; x04; xad; x13; x80;
  x4d; xc0; x14; x80; x06; xad; x13; x80; x55; x0d; x14; x80;
  x08; xad; x13; x80; x02; x00; x14; x80; x00; xad; x13; x80;
  xb7; xb1; x14; x80; x02; xad; x13; x80; xe1; xff; x14; x80;
  x04; xad; x13; x80; x8d; xc0; x14; x80; x06; xad; x13; x80;
  x76; x1d; x14; x80; x08; xad; x13; x80; x02; x00; x14; x80;
  x00; xad; x13; x80; xd7; xd1; x14; x80; x02; xad; x13; x80;
  xe1; xff; x14; x80; x04; xad; x13; x80; xcd; xc0; x14; x80;
  x06; xad; x13; x80; x97; x2d; x14; x80; x08; xad; x13; x80;
  x02; x00; x14; x80; x00; xad; x13; x80; xf7; xf1; x14; x80;
  x02; xad; x13; x80; xe1; xff; x14; x80; x04; xad; x13; x80;
  xff; xff; x14; x80; x06; xad; x13; x80; xbf; x3d; x14; x80;
  x08; xad; x13; x80; x02; x00; x14; x80; x00; xad; x13; x80;
  x9f; x99; x14; x80; x02; xad; x13; x80; xe1; xff; x14; x80;
  x04; xad; x13; x80; xff; xff; x14; x80; x06; xad; x13; x80;
  xdf; x0d; x14; x80; x08; xad; x13; x80; x02; x00; x14; x80;
  x00; xad; x13; x80; xbf; xb9; x14; x80; x02; xad; x13; x80;
  xe1; xff; x14; x80; x04; xad; x13; x80; xff; xff; x14; x80;
  x06; xad; x13; x80; xff; x1d; x14; x80; x08; xad; x13; x80;
  x02; x00; x14; x80; x00; xad; x13; x80; xdf; xd9; x14; x80;
  x02; xad; x13; x80; xe1; xff; x14; x80; x04; xad; x13; x80;
  xff; xff; x14; x80; x06; xad; x13; x80; xff; x2f; x14; x80;
  x08; xad; x13; x80; x02; x00; x14; x80; x00; xad; x13; x80;
  xff; xf9; x14; x80; x02; xad; x13; x80; xe1; xff; x14; x80;
  x04; xad; x13; x80; xff; xff; x14; x80; x06; xad; x13; x80;
  xff; x3f; x14; x80; x08; xad; x13; x80; x02; x00; x14; x80;
  x00; xad; x13; x80; xff; xd7; x14; x80; x02; xad; x13; x80;
  xe7; xff; x14; x80; x04; xad; x13; x80; xff; xff; x14; x80;
  x06; xad; x13; x80; xff; xff; x14; x80; x08; xad; x13; x80;
  x07; x00; x14; x80; x00; xad; x13; x80; xff; xf7; x14; x80;
  x02; xad; x13; x80; xe7; xff; x14; x80; x04; xad; x13; x80;
  xff; xff; x14; x80; x06; xad; x13; x80; xff; xff; x14; x80;
  x08; xad; x13; x80; x07; x00; x14; x80; x00; xad; x13; x80;
  xff; x17; x14; x80; x02; xad; x13; x80; xe7; xff; x14; x80;
  x04; xad; x13; x80; xff; xff; x14; x80; x06; xad; x13; x80;
  xff; xff; x14; x80; x08; xad; x13; x80; x07; x00; x14; x80;
  x00; xad; x13; x80; xff; x37; x14; x80; x02; xad; x13; x80;
  x67; x3d; x14; x80; x04; xad; x13; x80; xfe; xff; x14; x80].

Definition rtl8126a_2_fw_11 : list byte := [
  x06; xad; x13; x80; xff; xff; x14; x80; x08; xad; x13; x80;
  x07; x00; x14; x80; x00; xad; x13; x80; xff; x57; x14; x80;
  x02; xad; x13; x80; x67; x3f; x14; x80; x04; xad; x13; x80;
  xfe; xff; x14; x80; x06; xad; x13; x80; xff; xff; x14; x80;
  x08; xad; x13; x80; x07; x00; x14; x80; x00; xad; x13; x80;
  xff; x77; x14; x80; x02; xad; x13; x80; x67; x31; x14; x80;
  x04; xad; x13; x80; xfe; xff; x14; x80; x06; xad; x13; x80;
  xff; xff; x14; x80; x08; xad; x13; x80; x07; x00; x14; x80;
  x00; xad; x13; x80; xff; x97; x14; x80; x02; xad; x13; x80;
  x67; x33; x14; x80; x04; xad; x13; x80; xfe; xff; x14; x80;
  x06; xad; x13; x80; xff; xff; x14; x80; x08; xad; x13; x80;
  x07; x00; x14; x80; x00; xad; x13; x80; xff; xb7; x14; x80;
  x02; xad; x13; x80; x67; x35; x14; x80; x04; xad; x13; x80;
  xfe; xff; x14; x80; x06; xad; x13; x80; xff; xff; x14; x80;
  x08; xad; x13; x80; x07; x00; x14; x80; x00; xad; x13; x80;
  xff; xdf; x14; x80; x02; xad; x13; x80; x67; x37; x14; x80;
  x04; xad; x13; x80; xfe; xff; x14; x80; x06; xad; x13; x80;
  xff; xff; x14; x80; x08; xad; x13; x80; x07; x00; x14; x80;
  x00; xad; x13; x80; xff; xff; x14; x80; x02; xad; x13; x80;
  x67; x39; x14; x80; x04; xad; x13; x80; xfe; xff; x14; x80;
  x06; xad; x13; x80; xff; xff; x14; x80; x08; xad; x13; x80;
  x07; x00; x14; x80; x00; xad; x13; x80; xff; x1f; x14; x80;
  x02; xad; x13; x80; x67; x3b; x14; x80; x04; xad; x13; x80;
  xfe; xff; x14; x80; x06; xad; x13; x80; xff; xff; x14; x80;
  x08; xad; x13; x80; x07; x00; x14; x80; x00; xad; x13; x80;
  xff; x3f; x14; x80; x02; xad; x13; x80; xe7; x3d; x14; x80;
  x04; xad; x13; x80; xfe; xff; x14; x80; x06; xad; x13; x80;
  xff; xff; x14; x80; x08; xad; x13; x80; x07; x00; x14; x80;
  x00; xad; x13; x80; xff; x5f; x14; x80; x02; xad; x13; x80;
  xe7; x3f; x14; x80; x04; xad; x13; x80; xfe; xff; x14; x80;
  x06; xad; x13; x80; xff; xff; x14; x80; x08; xad; x13; x80;
  x07; x00; x14; x80; x00; xad; x13; x80; xff; x7f; x14; x80;
  x02; xad; x13; x80; xe7; x31; x14; x80; x04; xad; x13; x80;
  xfe; xff; x14; x80; x06; xad; x13; x80; xff; xff; x14; x80;
  x08; xad; x13; x80; x07; x00; x14; x80; x00; xad; x13; x80;
  xff; x9f; x14; x80; x02; xad; x13; x80; xe7; x33; x14; x80;
  x04; xad; x13; x80; xfe; xff; x14; x80; x06; xad; x13; x80;
  xff; xff; x14; x80; x08; xad; x13; x80; x07; x00; x14; x80;
  x00; xad; x13; x80; xff; xbf; x14; x80; x02; xad; x13; x80;
  xe7; x35; x14; x80; x04; xad; x13; x80; xfe; xff; x14; x80;
  x06; xad; x13; x80; xff; xff; x14; x80; x08; xad; x13; x80;
  x07; x00; x14; x80; x00; xad; x13; x80; xff; x07; x14; x80;
  x02; xad; x13; x80; xe6; x37; x14; x80; x04; xad; x13; x80;
  xfe; xff; x14; x80; x06; xad; x13; x80; xff; xff; x14; x80;
  x08; xad; x13; x80; x07; x00; x14; x80; x00; xad; x13; x80;
  xff; x27; x14; x80; x02; xad; x13; x80; xe6; x39; x14; x80;
  x04; xad; x13; x80; xfe; xff; x14; x80; x06; xad; x13; x80;
  xff; xff; x14; x80; x08; xad; x13; x80; x07; x00; x14; x80;
  x00; xad; x13; x80; xff; x47; x14; x80; x02; xad; x13; x80;
  xe6; x3b; x14; x80; x04; xad; x13; x80; xfe; xff; x14; x80;
  x06; xad; x13; x80; xff; xff; x14; x80; x08; xad; x13; x80;
  x07; x00; x14; x80; x00; xad; x13; x80; xff; x67; x14; x80;
  x02; xad; x13; x80; x66; x20; x14; x80; x04; xad; x13; x80;
  xfe; xff; x14; x80; x06; xad; x13; x80; xff; xff; x14; x80;
  x08; xad; x13; x80; x07; x00; x14; x80; x00; xad; x13; x80;
  xff; x07; x14; x80; x02; xad; x13; x80; x64; x22; x14; x80;
  x04; xad; x13; x80; xfe; xff; x14; x80; x06; xad; x13; x80;
  xff; xff; x14; x80; x08; xad; x13; x80; x07; x00; x14; x80;
  x00; xad; x13; x80; xff; x27; x14; x80; x02; xad; x13; x80;
  x64; x24; x14; x80; x04; xad; x13; x80; xfe; xff; x14; x80;
  x06; xad; x13; x80; xff; xff; x14; x80; x08; xad; x13; x80;
  x07; x00; x14; x80; x00; xad; x13; x80; xff; x47; x14; x80;
  x02; xad; x13; x80; x64; x26; x14; x80; x04; xad; x13; x80;
  xfe; xff; x14; x80; x06; xad; x13; x80; xff; xff; x14; x80;
  x08; xad; x13; x80; x07; x00; x14; x80; x00; xad; x13; x80;
  xff; x67; x14; x80; x02; xad; x13; x80; x64; x00; x14; x80;
  x04; xad; x13; x80; xfe; xff; x14; x80; x06; xad; x13; x80;
  xff; xff; x14; x80; x08; xad; x13; x80; x07; x00; x14; x80;
  x00; xad; x13; x80; xff; x87; x14; x80; x02; xad; x13; x80;
  x64; x02; x14; x80; x04; xad; x13; x80; xfe; xff; x14; x80;
  x06; xad; x13; x80; xff; xff; x14; x80; x08; xad; x13; x80;
  x07; x00; x14; x80; x00; xad; x13; x80; xff; xa7; x14; x80;
  x02; xad; x13; x80; x64; x04; x14; x80; x04; xad; x13; x80;
  xfe; xff; x14; x80; x06; xad; x13; x80; xff; xff; x14; x80;
  x08; xad; x13; x80; x07; x00; x14; x80; x00; xad; x13; x80;
  xff; xc7; x14; x80; x02; xad; x13; x80; x64; x06; x14; x80;
  x04; xad; x13; x80; xfe; xff; x14; x80; x06; xad; x13; x80;
  xff; xff; x14; x80; x08; xad; x13; x80; x07; x00; x14; x80;
  x00; xad; x13; x80; xff; xe7; x14; x80; x02; xad; x13; x80;
  x64; x08; x14; x80; x04; xad; x13; x80; xfe; xff; x14; x80;
  x06; xad; x13; x80; xff; xff; x14; x80; x08; xad; x13; x80;
  x07; x00; x14; x80; x00; xad; x13; x80; xff; x07; x14; x80;
  x02; xad; x13; x80; x65; x0a; x14; x80; x04; xad; x13; x80;
  xfe; xff; x14; x80; x06; xad; x13; x80; xff; xff; x14; x80;
  x08; xad; x13; x80; x07; x00; x14; x80; x00; xad; x13; x80;
  xff; x27; x14; x80; x02; xad; x13; x80; x65; x0c; x14; x80;
  x04; xad; x13; x80; xfe; xff; x14; x80; x06; xad; x13; x80;
  xff; xff; x14; x80; x08; xad; x13; x80; x07; x00; x14; x80;
  x00; xad; x13; x80; xff; x47; x14; x80; x02; xad; x13; x80;
  x65; x0e; x14; x80; x04; xad; x13; x80; xfe; xff; x14; x80;
  x06; xad; x13; x80; xff; xff; x14; x80; x08; xad; x13; x80;
  x07; x00; x14; x80; x00; xad; x13; x80; xff; x67; x14; x80;
  x02; xad; x13; x80; x65; x10; x14; x80; x04; xad; x13; x80;
  xfe; xff; x14; x80; x06; xad; x13; x80; xff; xff; x14; x80;
  x08; xad; x13; x80; x07; x00; x14; x80; x00; xad; x13; x80;
  xff; x87; x14; x80; x02; xad; x13; x80; x66; x12; x14; x80;
  x04; xad; x13; x80; xfe; xff; x14; x80; x06; xad; x13; x80;
  xff; xff; x14; x80; x08; xad; x13; x80; x07; x00; x14; x80;
  x00; xad; x13; x80; xff; xa7; x14; x80; x02; xad; x13; x80;
  x66; x14; x14; x80; x04; xad; x13; x80; xfe; xff; x14; x80;
  x06; xad; x13; x80; xff; xff; x14; x80; x08; xad; x13; x80;
  x07; x00; x14; x80; x00; xad; x13; x80; xff; xc7; x14; x80;
  x02; xad; x13; x80; x66; x16; x14; x80; x04; xad; x13; x80;
  xfe; xff; x14; x80; x06; xad; x13; x80; xff; xff; x14; x80;
  x08; xad; x13; x80; x07; x00; x14; x80; x00; xad; x13; x80;
  xff; xe7; x14; x80; x02; xad; x13; x80; x66; x28; x14; x80;
  x04; xad; x13; x80; xfe; xff; x14; x80; x06; xad; x13; x80;
  xff; xff; x14; x80; x08; xad; x13; x80; x07; x00; x14; x80;
  x00; xad; x13; x80; xff; x0f; x14; x80; x02; xad; x13; x80;
  x66; x2a; x14; x80; x04; xad; x13; x80; xfe; xff; x14; x80;
  x06; xad; x13; x80; xff; xff; x14; x80; x08; xad; x13; x80;
  x07; x00; x14; x80; x00; xad; x13; x80; xff; x2f; x14; x80;
  x02; xad; x13; x80; x66; x2c; x14; x80; x04; xad; x13; x80;
  xfe; xff; x14; x80; x06; xad; x13; x80; xff; xff; x14; x80;
  x08; xad; x13; x80; x07; x00; x14; x80; x00; xad; x13; x80;
  xff; x4f; x14; x80; x02; xad; x13; x80; x66; x2e; x14; x80;
  x04; xad; x13; x80; xfe; xff; x14; x80; x06; xad; x13; x80;
  xff; xff; x14; x80; x08; xad; x13; x80; x07; x00; x14; x80;
  x00; xad; x13; x80; xff; x6f; x14; x80; x02; xad; x13; x80;
  xe6; x20; x14; x80; x04; xad; x13; x80; xfe; xff; x14; x80;
  x06; xad; x13; x80; xff; xff; x14; x80; x08; xad; x13; x80;
  x07; x00; x14; x80; x00; xad; x13; x80; xff; x0f; x14; x80;
  x02; xad; x13; x80; xe4; x22; x14; x80; x04; xad; x13; x80;
  xfe; xff; x14; x80; x06; xad; x13; x80; xff; xff; x14; x80;
  x08; xad; x13; x80; x07; x00; x14; x80; x00; xad; x13; x80;
  xff; x2f; x14; x80; x02; xad; x13; x80; xe4; x24; x14; x80;
  x04; xad; x13; x80; xfe; xff; x14; x80; x06; xad; x13; x80;
  xff; xff; x14; x80; x08; xad; x13; x80; x07; x00; x14; x80;
  x00; xad; x13; x80; xff; x4f; x14; x80; x02; xad; x13; x80;
  xe4; x26; x14; x80; x04; xad; x13; x80; xfe; xff; x14; x80;
  x06; xad; x13; x80; xff; xff; x14; x80; x08; xad; x13; x80;
  x07; x00; x14; x80; x00; xad; x13; x80; xff; x6f; x14; x80;
  x02; xad; x13; x80; xe4; x00; x14; x80; x04; xad; x13; x80;
  xfe; xff; x14; x80; x06; xad; x13; x80; xff; xff; x14; x80;
  x08; xad; x13; x80; x07; x00; x14; x80; x00; xad; x13; x80;
  xff; x8f; x14; x80; x02; xad; x13; x80; xe4; x02; x14; x80;
  x04; xad; x13; x80; xfe; xff; x14; x80; x06; xad; x13; x80;
  xff; xff; x14; x80; x08; xad; x13; x80; x07; x00; x14; x80;
  x00; xad; x13; x80; xff; xaf; x14; x80; x02; xad; x13; x80;
  xe4; x04; x14; x80; x04; xad; x13; x80; xfe; xff; x14; x80;
  x06; xad; x13; x80; xff; xff; x14; x80; x08; xad; x13; x80;
  x07; x00; x14; x80; x00; xad; x13; x80; xff; xcf; x14; x80;
  x02; xad; x13; x80; xe4; x06; x14; x80; x04; xad; x13; x80;
  xfe; xff; x14; x80; x06; xad; x13; x80; xff; xff; x14; x80;
  x08; xad; x13; x80; x07; x00; x14; x80; x00; xad; x13; x80;
  xff; xef; x14; x80; x02; xad; x13; x80; xe4; x08; x14; x80;
  x04; xad; x13; x80; xfe; xff; x14; x80; x06; xad; x13; x80;
  xff; xff; x14; x80; x08; xad; x13; x80; x07; x00; x14; x80].

Definition rtl8126a_2_fw_12 : list byte := [
  x00; xad; x13; x80; xff; x0f; x14; x80; x02; xad; x13; x80;
  xe5; x0a; x14; x80; x04; xad; x13; x80; xfe; xff; x14; x80;
  x06; xad; x13; x80; xff; xff; x14; x80; x08; xad; x13; x80;
  x07; x00; x14; x80; x00; xad; x13; x80; xff; x2f; x14; x80;
  x02; xad; x13; x80; xe5; x0c; x14; x80; x04; xad; x13; x80;
  xfe; xff; x14; x80; x06; xad; x13; x80; xff; xff; x14; x80;
  x08; xad; x13; x80; x07; x00; x14; x80; x00; xad; x13; x80;
  xff; x4f; x14; x80; x02; xad; x13; x80; xe5; x0e; x14; x80;
  x04; xad; x13; x80; xfe; xff; x14; x80; x06; xad; x13; x80;
  xff; xff; x14; x80; x08; xad; x13; x80; x07; x00; x14; x80;
  x00; xad; x13; x80; xff; x6f; x14; x80; x02; xad; x13; x80;
  xe5; x10; x14; x80; x04; xad; x13; x80; xfe; xff; x14; x80;
  x06; xad; x13; x80; xff; xff; x14; x80; x08; xad; x13; x80;
  x07; x00; x14; x80; x00; xad; x13; x80; xff; x8f; x14; x80;
  x02; xad; x13; x80; xe6; x12; x14; x80; x04; xad; x13; x80;
  xfe; xff; x14; x80; x06; xad; x13; x80; xff; xff; x14; x80;
  x08; xad; x13; x80; x07; x00; x14; x80; x00; xad; x13; x80;
  xff; xaf; x14; x80; x02; xad; x13; x80; xe6; x14; x14; x80;
  x04; xad; x13; x80; xfe; xff; x14; x80; x06; xad; x13; x80;
  xff; xff; x14; x80; x08; xad; x13; x80; x07; x00; x14; x80;
  x00; xad; x13; x80; xff; xcf; x14; x80; x02; xad; x13; x80;
  xe6; x16; x14; x80; x04; xad; x13; x80; xfe; xff; x14; x80;
  x06; xad; x13; x80; xff; xff; x14; x80; x08; xad; x13; x80;
  x07; x00; x14; x80; x00; xad; x13; x80; xff; xef; x14; x80;
  x02; xad; x13; x80; xe6; x28; x14; x80; x04; xad; x13; x80;
  xfe; xff; x14; x80; x06; xad; x13; x80; xff; xff; x14; x80;
  x08; xad; x13; x80; x07; x00; x14; x80; x00; xad; x13; x80;
  xff; x17; x14; x80; x02; xad; x13; x80; xe6; x2a; x14; x80;
  x04; xad; x13; x80; xfe; xff; x14; x80; x06; xad; x13; x80;
  xff; xff; x14; x80; x08; xad; x13; x80; x07; x00; x14; x80;
  x00; xad; x13; x80; xff; x37; x14; x80; x02; xad; x13; x80;
  xe6; x2c; x14; x80; x04; xad; x13; x80; xfe; xff; x14; x80;
  x06; xad; x13; x80; xff; xff; x14; x80; x08; xad; x13; x80;
  x07; x00; x14; x80; x00; xad; x13; x80; xff; x57; x14; x80;
  x02; xad; x13; x80; xe6; x2e; x14; x80; x04; xad; x13; x80;
  xfe; xff; x14; x80; x06; xad; x13; x80; xff; xff; x14; x80;
  x08; xad; x13; x80; x07; x00; x14; x80; x00; xad; x13; x80;
  xff; x77; x14; x80; x02; xad; x13; x80; x66; x21; x14; x80;
  x04; xad; x13; x80; xfe; xff; x14; x80; x06; xad; x13; x80;
  xff; xff; x14; x80; x08; xad; x13; x80; x07; x00; x14; x80;
  x00; xad; x13; x80; xff; x17; x14; x80; x02; xad; x13; x80;
  x64; x23; x14; x80; x04; xad; x13; x80; xfe; xff; x14; x80;
  x06; xad; x13; x80; xff; xff; x14; x80; x08; xad; x13; x80;
  x07; x00; x14; x80; x00; xad; x13; x80; xff; x37; x14; x80;
  x02; xad; x13; x80; x64; x25; x14; x80; x04; xad; x13; x80;
  xfe; xff; x14; x80; x06; xad; x13; x80; xff; xff; x14; x80;
  x08; xad; x13; x80; x07; x00; x14; x80; x00; xad; x13; x80;
  xff; x57; x14; x80; x02; xad; x13; x80; x64; x27; x14; x80;
  x04; xad; x13; x80; xfe; xff; x14; x80; x06; xad; x13; x80;
  xff; xff; x14; x80; x08; xad; x13; x80; x07; x00; x14; x80;
  x00; xad; x13; x80; xff; x77; x14; x80; x02; xad; x13; x80;
  x64; x01; x14; x80; x04; xad; x13; x80; xfe; xff; x14; x80;
  x06; xad; x13; x80; xff; xff; x14; x80; x08; xad; x13; x80;
  x07; x00; x14; x80; x00; xad; x13; x80; xff; x97; x14; x80;
  x02; xad; x13; x80; x64; x03; x14; x80; x04; xad; x13; x80;
  xfe; xff; x14; x80; x06; xad; x13; x80; xff; xff; x14; x80;
  x08; xad; x13; x80; x07; x00; x14; x80; x00; xad; x13; x80;
  xff; xb7; x14; x80; x02; xad; x13; x80; x64; x05; x14; x80;
  x04; xad; x13; x80; xfe; xff; x14; x80; x06; xad; x13; x80;
  xff; xff; x14; x80; x08; xad; x13; x80; x07; x00; x14; x80;
  x00; xad; x13; x80; xff; xd7; x14; x80; x02; xad; x13; x80;
  x64; x07; x14; x80; x04; xad; x13; x80; xfe; xff; x14; x80;
  x06; xad; x13; x80; xff; xff; x14; x80; x08; xad; x13; x80;
  x07; x00; x14; x80; x00; xad; x13; x80; xff; xf7; x14; x80;
  x02; xad; x13; x80; x64; x09; x14; x80; x04; xad; x13; x80;
  xfe; xff; x14; x80; x06; xad; x13; x80; xff; xff; x14; x80;
  x08; xad; x13; x80; x07; x00; x14; x80; x00; xad; x13; x80;
  xff; x17; x14; x80; x02; xad; x13; x80; x65; x0b; x14; x80;
  x04; xad; x13; x80; xfe; xff; x14; x80; x06; xad; x13; x80;
  xff; xff; x14; x80; x08; xad; x13; x80; x07; x00; x14; x80;
  x00; xad; x13; x80; xff; x37; x14; x80; x02; xad; x13; x80;
  x65; x0d; x14; x80; x04; xad; x13; x80; xfe; xff; x14; x80;
  x06; xad; x13; x80; xff; xff; x14; x80; x08; xad; x13; x80;
  x07; x00; x14; x80; x00; xad; x13; x80; xff; x57; x14; x80;
  x02; xad; x13; x80; x65; x0f; x14; x80; x04; xad; x13; x80;
  xfe; xff; x14; x80; x06; xad; x13; x80; xff; xff; x14; x80;
  x08; xad; x13; x80; x07; x00; x14; x80; x00; xad; x13; x80;
  xff; x77; x14; x80; x02; xad; x13; x80; x65; x11; x14; x80;
  x04; xad; x13; x80; xfe; xff; x14; x80; x06; xad; x13; x80;
  xff; xff; x14; x80; x08; xad; x13; x80; x07; x00; x14; x80;
  x00; xad; x13; x80; xff; x97; x14; x80; x02; xad; x13; x80;
  x66; x13; x14; x80; x04; xad; x13; x80; xfe; xff; x14; x80;
  x06; xad; x13; x80; xff; xff; x14; x80; x08; xad; x13; x80;
  x07; x00; x14; x80; x00; xad; x13; x80; xff; xb7; x14; x80;
  x02; xad; x13; x80; x66; x15; x14; x80; x04; xad; x13; x80;
  xfe; xff; x14; x80; x06; xad; x13; x80; xff; xff; x14; x80;
  x08; xad; x13; x80; x07; x00; x14; x80; x00; xad; x13; x80;
  xff; xd7; x14; x80; x02; xad; x13; x80; x66; x17; x14; x80;
  x04; xad; x13; x80; xfe; xff; x14; x80; x06; xad; x13; x80;
  xff; xff; x14; x80; x08; xad; x13; x80; x07; x00; x14; x80;
  x00; xad; x13; x80; xff; xf7; x14; x80; x02; xad; x13; x80;
  x66; x29; x14; x80; x04; xad; x13; x80; xfe; xff; x14; x80;
  x06; xad; x13; x80; xff; xff; x14; x80; x08; xad; x13; x80;
  x07; x00; x14; x80; x00; xad; x13; x80; xff; x1f; x14; x80;
  x02; xad; x13; x80; x66; x2b; x14; x80; x04; xad; x13; x80;
  xfe; xff; x14; x80; x06; xad; x13; x80; xff; xff; x14; x80;
  x08; xad; x13; x80; x07; x00; x14; x80; x00; xad; x13; x80;
  xff; x3f; x14; x80; x02; xad; x13; x80; x66; x2d; x14; x80;
  x04; xad; x13; x80; xfe; xff; x14; x80; x06; xad; x13; x80;
  xff; xff; x14; x80; x08; xad; x13; x80; x07; x00; x14; x80;
  x00; xad; x13; x80; xff; x5f; x14; x80; x02; xad; x13; x80;
  x66; x2f; x14; x80; x04; xad; x13; x80; xfe; xff; x14; x80;
  x06; xad; x13; x80; xff; xff; x14; x80; x08; xad; x13; x80;
  x07; x00; x14; x80; x00; xad; x13; x80; xff; x7f; x14; x80;
  x02; xad; x13; x80; xe6; x21; x14; x80; x04; xad; x13; x80;
  xfe; xff; x14; x80; x06; xad; x13; x80; xff; xff; x14; x80;
  x08; xad; x13; x80; x07; x00; x14; x80; x00; xad; x13; x80;
  xff; x1f; x14; x80; x02; xad; x13; x80; xe4; x23; x14; x80;
  x04; xad; x13; x80; xfe; xff; x14; x80; x06; xad; x13; x80;
  xff; xff; x14; x80; x08; xad; x13; x80; x07; x00; x14; x80;
  x00; xad; x13; x80; xff; x3f; x14; x80; x02; xad; x13; x80;
  xe4; x25; x14; x80; x04; xad; x13; x80; xfe; xff; x14; x80;
  x06; xad; x13; x80; xff; xff; x14; x80; x08; xad; x13; x80;
  x07; x00; x14; x80; x00; xad; x13; x80; xff; x5f; x14; x80;
  x02; xad; x13; x80; xe4; x27; x14; x80; x04; xad; x13; x80;
  xfe; xff; x14; x80; x06; xad; x13; x80; xff; xff; x14; x80;
  x08; xad; x13; x80; x07; x00; x14; x80; x00; xad; x13; x80;
  xff; x7f; x14; x80; x02; xad; x13; x80; xe4; x01; x14; x80;
  x04; xad; x13; x80; xfe; xff; x14; x80; x06; xad; x13; x80;
  xff; xff; x14; x80; x08; xad; x13; x80; x07; x00; x14; x80;
  x00; xad; x13; x80; xff; x9f; x14; x80; x02; xad; x13; x80;
  xe4; x03; x14; x80; x04; xad; x13; x80; xfe; xff; x14; x80;
  x06; xad; x13; x80; xff; xff; x14; x80; x08; xad; x13; x80;
  x07; x00; x14; x80; x00; xad; x13; x80; xff; xbf; x14; x80;
  x02; xad; x13; x80; xe4; x05; x14; x80; x04; xad; x13; x80;
  xfe; xff; x14; x80; x06; xad; x13; x80; xff; xff; x14; x80;
  x08; xad; x13; x80; x07; x00; x14; x80; x00; xad; x13; x80;
  xff; xdf; x14; x80; x02; xad; x13; x80; xe4; x07; x14; x80;
  x04; xad; x13; x80; xfe; xff; x14; x80; x06; xad; x13; x80;
  xff; xff; x14; x80; x08; xad; x13; x80; x07; x00; x14; x80;
  x00; xad; x13; x80; xff; xff; x14; x80; x02; xad; x13; x80;
  xe4; x09; x14; x80; x04; xad; x13; x80; xfe; xff; x14; x80;
  x06; xad; x13; x80; xff; xff; x14; x80; x08; xad; x13; x80;
  x07; x00; x14; x80; x00; xad; x13; x80; xff; x1f; x14; x80;
  x02; xad; x13; x80; xe5; x0b; x14; x80; x04; xad; x13; x80;
  xfe; xff; x14; x80; x06; xad; x13; x80; xff; xff; x14; x80;
  x08; xad; x13; x80; x07; x00; x14; x80; x00; xad; x13; x80;
  xff; x3f; x14; x80; x02; xad; x13; x80; xe5; x0d; x14; x80;
  x04; xad; x13; x80; xfe; xff; x14; x80; x06; xad; x13; x80;
  xff; xff; x14; x80; x08; xad; x13; x80; x07; x00; x14; x80;
  x00; xad; x13; x80; xff; x5f; x14; x80; x02; xad; x13; x80;
  xe5; x0f; x14; x80; x04; xad; x13; x80; xfe; xff; x14; x80;
  x06; xad; x13; x80; xff; xff; x14; x80; x08; xad; x13; x80;
  x07; x00; x14; x80; x00; xad; x13; x80; xff; x7f; x14; x80;
  x02; xad; x13; x80; xe5; x11; x14; x80; x04; xad; x13; x80;
  xfe; xff; x14; x80; x06; xad; x13; x80; xff; xff; x14; x80;
  x08; xad; x13; x80; x07; x00; x14; x80; x00; xad; x13; x80;
  xff; x9f; x14; x80; x02; xad; x13; x80; xe6; x13; x14; x80].

Definition rtl8126a_2_fw_13 : list byte := [
  x04; xad; x13; x80; xfe; xff; x14; x80; x06; xad; x13; x80;
  xff; xff; x14; x80; x08; xad; x13; x80; x07; x00; x14; x80;
  x00; xad; x13; x80; xff; xbf; x14; x80; x02; xad; x13; x80;
  xe6; x15; x14; x80; x04; xad; x13; x80; xfe; xff; x14; x80;
  x06; xad; x13; x80; xff; xff; x14; x80; x08; xad; x13; x80;
  x07; x00; x14; x80; x00; xad; x13; x80; xff; xdf; x14; x80;
  x02; xad; x13; x80; xe6; x17; x14; x80; x04; xad; x13; x80;
  xfe; xff; x14; x80; x06; xad; x13; x80; xff; xff; x14; x80;
  x08; xad; x13; x80; x07; x00; x14; x80; x00; xad; x13; x80;
  xff; xff; x14; x80; x02; xad; x13; x80; xe6; x29; x14; x80;
  x04; xad; x13; x80; xfe; xff; x14; x80; x06; xad; x13; x80;
  xff; xff; x14; x80; x08; xad; x13; x80; x07; x00; x14; x80;
  x00; xad; x13; x80; xff; x87; x14; x80; x02; xad; x13; x80;
  xe5; x2b; x14; x80; x04; xad; x13; x80; xfe; xff; x14; x80;
  x06; xad; x13; x80; xff; xff; x14; x80; x08; xad; x13; x80;
  x07; x00; x14; x80; x00; xad; x13; x80; xff; xa7; x14; x80;
  x02; xad; x13; x80; xe5; x2d; x14; x80; x04; xad; x13; x80;
  xfe; xff; x14; x80; x06; xad; x13; x80; xff; xff; x14; x80;
  x08; xad; x13; x80; x07; x00; x14; x80; x00; xad; x13; x80;
  xff; xc7; x14; x80; x02; xad; x13; x80; xe5; x2f; x14; x80;
  x04; xad; x13; x80; xfe; xff; x14; x80; x06; xad; x13; x80;
  xff; xff; x14; x80; x08; xad; x13; x80; x07; x00; x14; x80;
  x00; xad; x13; x80; xff; xe7; x14; x80; x02; xad; x13; x80;
  x65; x18; x14; x80; x04; xad; x13; x80; xfe; xff; x14; x80;
  x06; xad; x13; x80; xff; xff; x14; x80; x08; xad; x13; x80;
  x07; x00; x14; x80; x00; xad; x13; x80; xff; x8f; x14; x80;
  x02; xad; x13; x80; x65; x1a; x14; x80; x04; xad; x13; x80;
  xfe; xff; x14; x80; x06; xad; x13; x80; xff; xff; x14; x80;
  x08; xad; x13; x80; x07; x00; x14; x80; x00; xad; x13; x80;
  xff; xaf; x14; x80; x02; xad; x13; x80; x65; x1c; x14; x80;
  x04; xad; x13; x80; xfe; xff; x14; x80; x06; xad; x13; x80;
  xff; xff; x14; x80; x08; xad; x13; x80; x07; x00; x14; x80;
  x00; xad; x13; x80; xff; xcf; x14; x80; x02; xad; x13; x80;
  x65; x1e; x14; x80; x04; xad; x13; x80; xfe; xff; x14; x80;
  x06; xad; x13; x80; xff; xff; x14; x80; x08; xad; x13; x80;
  x07; x00; x14; x80; x00; xad; x13; x80; xff; xef; x14; x80;
  x02; xad; x13; x80; xe5; x18; x14; x80; x04; xad; x13; x80;
  xfe; xff; x14; x80; x06; xad; x13; x80; xff; xff; x14; x80;
  x08; xad; x13; x80; x07; x00; x14; x80; x00; xad; x13; x80;
  xff; x97; x14; x80; x02; xad; x13; x80; xe5; x1a; x14; x80;
  x04; xad; x13; x80; xfe; xff; x14; x80; x06; xad; x13; x80;
  xff; xff; x14; x80; x08; xad; x13; x80; x07; x00; x14; x80;
  x00; xad; x13; x80; xff; xb7; x14; x80; x02; xad; x13; x80;
  xe5; x1c; x14; x80; x04; xad; x13; x80; xfe; xff; x14; x80;
  x06; xad; x13; x80; xff; xff; x14; x80; x08; xad; x13; x80;
  x07; x00; x14; x80; x00; xad; x13; x80; xff; xd7; x14; x80;
  x02; xad; x13; x80; xe5; x1e; x14; x80; x04; xad; x13; x80;
  xfe; xff; x14; x80; x06; xad; x13; x80; xff; xff; x14; x80;
  x08; xad; x13; x80; x07; x00; x14; x80; x00; xad; x13; x80;
  xff; xf7; x14; x80; x02; xad; x13; x80; x65; x19; x14; x80;
  x04; xad; x13; x80; xfe; xff; x14; x80; x06; xad; x13; x80;
  xff; xff; x14; x80; x08; xad; x13; x80; x07; x00; x14; x80;
  x00; xad; x13; x80; xff; x9f; x14; x80; x02; xad; x13; x80;
  x65; x1b; x14; x80; x04; xad; x13; x80; xfe; xff; x14; x80;
  x06; xad; x13; x80; xff; xff; x14; x80; x08; xad; x13; x80;
  x07; x00; x14; x80; x00; xad; x13; x80; xff; xbf; x14; x80;
  x02; xad; x13; x80; x65; x1d; x14; x80; x04; xad; x13; x80;
  xfe; xff; x14; x80; x06; xad; x13; x80; xff; xff; x14; x80;
  x08; xad; x13; x80; x07; x00; x14; x80; x00; xad; x13; x80;
  xff; xdf; x14; x80; x02; xad; x13; x80; x65; x1f; x14; x80;
  x04; xad; x13; x80; xfe; xff; x14; x80; x06; xad; x13; x80;
  xff; xff; x14; x80; x08; xad; x13; x80; x07; x00; x14; x80;
  x00; xad; x13; x80; xff; xff; x14; x80; x02; xad; x13; x80;
  xe5; x19; x14; x80; x04; xad; x13; x80; xfe; xff; x14; x80;
  x06; xad; x13; x80; xff; xff; x14; x80; x08; xad; x13; x80;
  x07; x00; x14; x80; x00; xad; x13; x80; xff; x07; x14; x80;
  x02; xad; x13; x80; x9c; x1b; x14; x80; x04; xad; x13; x80;
  xfe; xff; x14; x80; x06; xad; x13; x80; xff; xff; x14; x80;
  x08; xad; x13; x80; x07; x00; x14; x80; x00; xad; x13; x80;
  xff; x27; x14; x80; x02; xad; x13; x80; x9c; x1d; x14; x80;
  x04; xad; x13; x80; xfe; xff; x14; x80; x06; xad; x13; x80;
  xff; xff; x14; x80; x08; xad; x13; x80; x07; x00; x14; x80;
  x00; xad; x13; x80; xff; x0f; x14; x80; x02; xad; x13; x80;
  x9c; x1f; x14; x80; x04; xad; x13; x80; xfe; xff; x14; x80;
  x06; xad; x13; x80; xff; xff; x14; x80; x08; xad; x13; x80;
  x07; x00; x14; x80; x00; xad; x13; x80; xff; x2f; x14; x80;
  x02; xad; x13; x80; x9c; x58; x14; x80; x04; xad; x13; x80;
  xfe; xff; x14; x80; x06; xad; x13; x80; xff; xff; x14; x80;
  x08; xad; x13; x80; x07; x00; x14; x80; x00; xad; x13; x80;
  xff; x17; x14; x80; x02; xad; x13; x80; x9c; x5c; x14; x80;
  x04; xad; x13; x80; xfe; xff; x14; x80; x06; xad; x13; x80;
  xff; xff; x14; x80; x08; xad; x13; x80; x07; x00; x14; x80;
  x00; xad; x13; x80; xff; x37; x14; x80; x02; xad; x13; x80;
  x9c; x59; x14; x80; x04; xad; x13; x80; xfe; xff; x14; x80;
  x06; xad; x13; x80; xff; xff; x14; x80; x08; xad; x13; x80;
  x07; x00; x14; x80; x00; xad; x13; x80; xff; x1f; x14; x80;
  x02; xad; x13; x80; x9c; x5d; x14; x80; x04; xad; x13; x80;
  xfe; xff; x14; x80; x06; xad; x13; x80; xff; xff; x14; x80;
  x08; xad; x13; x80; x07; x00; x14; x80; x00; xad; x13; x80;
  xff; x3f; x14; x80; x02; xad; x13; x80; x9c; x5a; x14; x80;
  x04; xad; x13; x80; x0e; x10; x14; x80; x06; xad; x13; x80;
  xf6; xff; x14; x80; x08; xad; x13; x80; x07; x00; x14; x80;
  x00; xad; x13; x80; xff; xff; x14; x80; x02; xad; x13; x80;
  xff; x5e; x14; x80; x04; xad; x13; x80; x4e; x10; x14; x80;
  x06; xad; x13; x80; xf7; xff; x14; x80; x08; xad; x13; x80;
  x07; x00; x14; x80; x00; xad; x13; x80; xff; xff; x14; x80;
  x02; xad; x13; x80; xff; x5b; x14; x80; x04; xad; x13; x80;
  x0e; x11; x14; x80; x06; xad; x13; x80; xf6; xff; x14; x80;
  x08; xad; x13; x80; x07; x00; x14; x80; x00; xad; x13; x80;
  xff; xff; x14; x80; x02; xad; x13; x80; xff; x5f; x14; x80;
  x04; xad; x13; x80; x4e; x11; x14; x80; x06; xad; x13; x80;
  x17; xf8; x14; x80; x08; xad; x13; x80; x07; x00; x14; x80;
  x00; xad; x13; x80; xff; xff; x14; x80; x02; xad; x13; x80;
  xff; xff; x14; x80; x04; xad; x13; x80; x0f; x12; x14; x80;
  x06; xad; x13; x80; x36; xf8; x14; x80; x08; xad; x13; x80;
  x07; x00; x14; x80; x00; xad; x13; x80; xc7; xc3; x14; x80;
  x02; xad; x13; x80; xe3; xff; x14; x80; x04; xad; x13; x80;
  x4f; x12; x14; x80; x06; xad; x13; x80; x97; x09; x14; x80;
  x08; xad; x13; x80; x04; x00; x14; x80; x00; xad; x13; x80;
  xe7; xe3; x14; x80; x02; xad; x13; x80; xe3; xff; x14; x80;
  x04; xad; x13; x80; x0f; x13; x14; x80; x06; xad; x13; x80;
  xb6; x19; x14; x80; x08; xad; x13; x80; x04; x00; x14; x80;
  x00; xad; x13; x80; x07; x03; x14; x80; x02; xad; x13; x80;
  xe3; xff; x14; x80; x04; xad; x13; x80; x4f; x13; x14; x80;
  x06; xad; x13; x80; x17; x49; x14; x80; x08; xad; x13; x80;
  x04; x00; x14; x80; x00; xad; x13; x80; x27; x23; x14; x80;
  x02; xad; x13; x80; xe3; xff; x14; x80; x04; xad; x13; x80;
  x0f; x51; x14; x80; x06; xad; x13; x80; x36; x59; x14; x80;
  x08; xad; x13; x80; x04; x00; x14; x80; x00; xad; x13; x80;
  x47; x43; x14; x80; x02; xad; x13; x80; xe3; xff; x14; x80;
  x04; xad; x13; x80; x4f; x51; x14; x80; x06; xad; x13; x80;
  x97; x09; x14; x80; x08; xad; x13; x80; x04; x00; x14; x80;
  x00; xad; x13; x80; x67; x63; x14; x80; x02; xad; x13; x80;
  xe3; xff; x14; x80; x04; xad; x13; x80; x0f; x50; x14; x80;
  x06; xad; x13; x80; xb6; x19; x14; x80; x08; xad; x13; x80;
  x04; x00; x14; x80; x00; xad; x13; x80; x87; x83; x14; x80;
  x02; xad; x13; x80; xe3; xff; x14; x80; x04; xad; x13; x80;
  x4f; x50; x14; x80; x06; xad; x13; x80; x17; x48; x14; x80;
  x08; xad; x13; x80; x04; x00; x14; x80; x00; xad; x13; x80;
  xa7; xa3; x14; x80; x02; xad; x13; x80; xe3; xff; x14; x80;
  x04; xad; x13; x80; x0f; x52; x14; x80; x06; xad; x13; x80;
  x36; x58; x14; x80; x08; xad; x13; x80; x04; x00; x14; x80;
  x00; xad; x13; x80; xcf; xcb; x14; x80; x02; xad; x13; x80;
  xe3; xff; x14; x80; x04; xad; x13; x80; x4f; x52; x14; x80;
  x06; xad; x13; x80; x97; x09; x14; x80; x08; xad; x13; x80;
  x04; x00; x14; x80; x00; xad; x13; x80; xef; xeb; x14; x80;
  x02; xad; x13; x80; xe3; xff; x14; x80; x04; xad; x13; x80;
  x0f; x53; x14; x80; x06; xad; x13; x80; xb6; x19; x14; x80;
  x08; xad; x13; x80; x04; x00; x14; x80; x00; xad; x13; x80;
  x0f; x0b; x14; x80; x02; xad; x13; x80; xe3; xff; x14; x80;
  x04; xad; x13; x80; x4f; x53; x14; x80; x06; xad; x13; x80;
  x17; x49; x14; x80; x08; xad; x13; x80; x04; x00; x14; x80;
  x00; xad; x13; x80; x2f; x2b; x14; x80; x02; xad; x13; x80;
  xe3; xff; x14; x80; x04; xad; x13; x80; x0f; x92; x14; x80;
  x06; xad; x13; x80; x36; x59; x14; x80; x08; xad; x13; x80;
  x04; x00; x14; x80; x00; xad; x13; x80; x4f; x4b; x14; x80;
  x02; xad; x13; x80; xe3; xff; x14; x80; x04; xad; x13; x80;
  x4f; x92; x14; x80; x06; xad; x13; x80; x97; x09; x14; x80].

Definition rtl8126a_2_fw_14 : list byte := [
  x08; xad; x13; x80; x04; x00; x14; x80; x00; xad; x13; x80;
  x6f; x6b; x14; x80; x02; xad; x13; x80; xe3; xff; x14; x80;
  x04; xad; x13; x80; x0f; x90; x14; x80; x06; xad; x13; x80;
  xb6; x19; x14; x80; x08; xad; x13; x80; x04; x00; x14; x80;
  x00; xad; x13; x80; x8f; x8b; x14; x80; x02; xad; x13; x80;
  xe3; xff; x14; x80; x04; xad; x13; x80; x4f; x90; x14; x80;
  x06; xad; x13; x80; x17; x48; x14; x80; x08; xad; x13; x80;
  x04; x00; x14; x80; x00; xad; x13; x80; xaf; xab; x14; x80;
  x02; xad; x13; x80; xe3; xff; x14; x80; x04; xad; x13; x80;
  x0f; x91; x14; x80; x06; xad; x13; x80; x36; x58; x14; x80;
  x08; xad; x13; x80; x04; x00; x14; x80; x00; xad; x13; x80;
  xd7; xd3; x14; x80; x02; xad; x13; x80; xe3; xff; x14; x80;
  x04; xad; x13; x80; x4f; x91; x14; x80; x06; xad; x13; x80;
  x97; x09; x14; x80; x08; xad; x13; x80; x04; x00; x14; x80;
  x00; xad; x13; x80; xf7; xf3; x14; x80; x02; xad; x13; x80;
  xe3; xff; x14; x80; x04; xad; x13; x80; x0f; x93; x14; x80;
  x06; xad; x13; x80; xb6; x19; x14; x80; x08; xad; x13; x80;
  x04; x00; x14; x80; x00; xad; x13; x80; x17; x13; x14; x80;
  x02; xad; x13; x80; xe3; xff; x14; x80; x04; xad; x13; x80;
  x4f; x93; x14; x80; x06; xad; x13; x80; x17; x49; x14; x80;
  x08; xad; x13; x80; x04; x00; x14; x80; x00; xad; x13; x80;
  x37; x33; x14; x80; x02; xad; x13; x80; xe3; xff; x14; x80;
  x04; xad; x13; x80; x0f; xd3; x14; x80; x06; xad; x13; x80;
  x36; x59; x14; x80; x08; xad; x13; x80; x04; x00; x14; x80;
  x00; xad; x13; x80; x57; x53; x14; x80; x02; xad; x13; x80;
  xe3; xff; x14; x80; x04; xad; x13; x80; x4f; xd3; x14; x80;
  x06; xad; x13; x80; x97; x09; x14; x80; x08; xad; x13; x80;
  x04; x00; x14; x80; x00; xad; x13; x80; x77; x73; x14; x80;
  x02; xad; x13; x80; xe3; xff; x14; x80; x04; xad; x13; x80;
  x0f; xd0; x14; x80; x06; xad; x13; x80; xb6; x19; x14; x80;
  x08; xad; x13; x80; x04; x00; x14; x80; x00; xad; x13; x80;
  x97; x93; x14; x80; x02; xad; x13; x80; xe3; xff; x14; x80;
  x04; xad; x13; x80; x4f; xd0; x14; x80; x06; xad; x13; x80;
  x17; x48; x14; x80; x08; xad; x13; x80; x04; x00; x14; x80;
  x00; xad; x13; x80; xb7; xb3; x14; x80; x02; xad; x13; x80;
  xe3; xff; x14; x80; x04; xad; x13; x80; x0f; xd1; x14; x80;
  x06; xad; x13; x80; x36; x58; x14; x80; x08; xad; x13; x80;
  x04; x00; x14; x80; x00; xad; x13; x80; xdf; xdb; x14; x80;
  x02; xad; x13; x80; xe3; xff; x14; x80; x04; xad; x13; x80;
  x4f; xd1; x14; x80; x06; xad; x13; x80; x97; x09; x14; x80;
  x08; xad; x13; x80; x04; x00; x14; x80; x00; xad; x13; x80;
  xff; xfb; x14; x80; x02; xad; x13; x80; xe3; xff; x14; x80;
  x04; xad; x13; x80; x0f; xd2; x14; x80; x06; xad; x13; x80;
  xb6; x19; x14; x80; x08; xad; x13; x80; x04; x00; x14; x80;
  x00; xad; x13; x80; x1f; x1b; x14; x80; x02; xad; x13; x80;
  xe3; xff; x14; x80; x04; xad; x13; x80; x4f; xd2; x14; x80;
  x06; xad; x13; x80; x17; x49; x14; x80; x08; xad; x13; x80;
  x04; x00; x14; x80; x00; xad; x13; x80; x3f; x3b; x14; x80;
  x02; xad; x13; x80; xe3; xff; x14; x80; x04; xad; x13; x80;
  xff; xff; x14; x80; x06; xad; x13; x80; x3f; x59; x14; x80;
  x08; xad; x13; x80; x04; x00; x14; x80; x00; xad; x13; x80;
  x5f; x5b; x14; x80; x02; xad; x13; x80; xe3; xff; x14; x80;
  x04; xad; x13; x80; xff; xff; x14; x80; x06; xad; x13; x80;
  x9f; x09; x14; x80; x08; xad; x13; x80; x04; x00; x14; x80;
  x00; xad; x13; x80; x7f; x7b; x14; x80; x02; xad; x13; x80;
  xe3; xff; x14; x80; x04; xad; x13; x80; xff; xff; x14; x80;
  x06; xad; x13; x80; xbf; x19; x14; x80; x08; xad; x13; x80;
  x04; x00; x14; x80; x00; xad; x13; x80; x9f; x9b; x14; x80;
  x02; xad; x13; x80; xe3; xff; x14; x80; x04; xad; x13; x80;
  xff; xff; x14; x80; x06; xad; x13; x80; xff; x4f; x14; x80;
  x08; xad; x13; x80; x04; x00; x14; x80; x00; xad; x13; x80;
  xbf; xbb; x14; x80; x02; xad; x13; x80; xe3; xff; x14; x80;
  x04; xad; x13; x80; xff; xff; x14; x80; x06; xad; x13; x80;
  xff; x5f; x14; x80; x08; xad; x13; x80; x04; x00; x14; x80;
  x00; xad; x13; x80; xff; x07; x14; x80; x02; xad; x13; x80;
  xa4; xff; x14; x80; x04; xad; x13; x80; xff; xff; x14; x80;
  x06; xad; x13; x80; xff; xff; x14; x80; x08; xad; x13; x80;
  x07; x00; x14; x80; x00; xad; x13; x80; xff; x27; x14; x80;
  x02; xad; x13; x80; xa4; xff; x14; x80; x04; xad; x13; x80;
  xff; xff; x14; x80; x06; xad; x13; x80; xff; xff; x14; x80;
  x08; xad; x13; x80; x07; x00; x14; x80; x00; xad; x13; x80;
  xff; x47; x14; x80; x02; xad; x13; x80; xa4; xff; x14; x80;
  x04; xad; x13; x80; xff; xff; x14; x80; x06; xad; x13; x80;
  xff; xff; x14; x80; x08; xad; x13; x80; x07; x00; x14; x80;
  x00; xad; x13; x80; xff; x67; x14; x80; x02; xad; x13; x80;
  xa4; x58; x14; x80; x04; xad; x13; x80; xfe; xff; x14; x80;
  x06; xad; x13; x80; xff; xff; x14; x80; x08; xad; x13; x80;
  x07; x00; x14; x80; x00; xad; x13; x80; xff; x0f; x14; x80;
  x02; xad; x13; x80; xa4; x5c; x14; x80; x04; xad; x13; x80;
  xfe; xff; x14; x80; x06; xad; x13; x80; xff; xff; x14; x80;
  x08; xad; x13; x80; x07; x00; x14; x80; x00; xad; x13; x80;
  xff; x2f; x14; x80; x02; xad; x13; x80; xa4; x50; x14; x80;
  x04; xad; x13; x80; xfe; xff; x14; x80; x06; xad; x13; x80;
  xff; xff; x14; x80; x08; xad; x13; x80; x07; x00; x14; x80;
  x00; xad; x13; x80; xff; x4f; x14; x80; x02; xad; x13; x80;
  xa4; x54; x14; x80; x04; xad; x13; x80; xfe; xff; x14; x80;
  x06; xad; x13; x80; xff; xff; x14; x80; x08; xad; x13; x80;
  x07; x00; x14; x80; x00; xad; x13; x80; xff; x6f; x14; x80;
  x02; xad; x13; x80; xa4; x59; x14; x80; x04; xad; x13; x80;
  xfe; xff; x14; x80; x06; xad; x13; x80; xff; xff; x14; x80;
  x08; xad; x13; x80; x07; x00; x14; x80; x00; xad; x13; x80;
  xff; x17; x14; x80; x02; xad; x13; x80; xa4; x5d; x14; x80;
  x04; xad; x13; x80; xfe; xff; x14; x80; x06; xad; x13; x80;
  xff; xff; x14; x80; x08; xad; x13; x80; x07; x00; x14; x80;
  x00; xad; x13; x80; xff; x37; x14; x80; x02; xad; x13; x80;
  xa4; x51; x14; x80; x04; xad; x13; x80; xfe; xff; x14; x80;
  x06; xad; x13; x80; xff; xff; x14; x80; x08; xad; x13; x80;
  x07; x00; x14; x80; x00; xad; x13; x80; xff; x57; x14; x80;
  x02; xad; x13; x80; xa4; x55; x14; x80; x04; xad; x13; x80;
  xfe; xff; x14; x80; x06; xad; x13; x80; xff; xff; x14; x80;
  x08; xad; x13; x80; x07; x00; x14; x80; x00; xad; x13; x80;
  xff; x77; x14; x80; x02; xad; x13; x80; xa4; x5a; x14; x80;
  x04; xad; x13; x80; xfe; xff; x14; x80; x06; xad; x13; x80;
  xff; xff; x14; x80; x08; xad; x13; x80; x07; x00; x14; x80;
  x00; xad; x13; x80; xff; x1f; x14; x80; x02; xad; x13; x80;
  xa4; x5e; x14; x80; x04; xad; x13; x80; xfe; xff; x14; x80;
  x06; xad; x13; x80; xff; xff; x14; x80; x08; xad; x13; x80;
  x07; x00; x14; x80; x00; xad; x13; x80; xff; x3f; x14; x80;
  x02; xad; x13; x80; xa4; x52; x14; x80; x04; xad; x13; x80;
  xfe; xff; x14; x80; x06; xad; x13; x80; xff; xff; x14; x80;
  x08; xad; x13; x80; x07; x00; x14; x80; x00; xad; x13; x80;
  xff; x5f; x14; x80; x02; xad; x13; x80; xa4; x56; x14; x80;
  x04; xad; x13; x80; xfe; xff; x14; x80; x06; xad; x13; x80;
  xff; xff; x14; x80; x08; xad; x13; x80; x07; x00; x14; x80;
  x00; xad; x13; x80; xff; x7f; x14; x80; x02; xad; x13; x80;
  xa4; x5b; x14; x80; x04; xad; x13; x80; x06; x2a; x14; x80;
  x06; xad; x13; x80; xf6; xff; x14; x80; x08; xad; x13; x80;
  x07; x00; x14; x80; x00; xad; x13; x80; xff; xff; x14; x80;
  x02; xad; x13; x80; xff; x5f; x14; x80; x04; xad; x13; x80;
  x06; x2b; x14; x80; x06; xad; x13; x80; xf7; xff; x14; x80;
  x08; xad; x13; x80; x07; x00; x14; x80; x00; xad; x13; x80;
  xff; xff; x14; x80; x02; xad; x13; x80; xff; x53; x14; x80;
  x04; xad; x13; x80; x06; x2a; x14; x80; x06; xad; x13; x80;
  xf4; xff; x14; x80; x08; xad; x13; x80; x07; x00; x14; x80;
  x00; xad; x13; x80; xff; xff; x14; x80; x02; xad; x13; x80;
  xff; x57; x14; x80; x04; xad; x13; x80; x06; x2b; x14; x80;
  x06; xad; x13; x80; x15; xf6; x14; x80; x08; xad; x13; x80;
  x07; x00; x14; x80; x00; xad; x13; x80; xff; xff; x14; x80;
  x02; xad; x13; x80; xff; xff; x14; x80; x04; xad; x13; x80;
  xff; xff; x14; x80; x06; xad; x13; x80; x3f; xf6; x14; x80;
  x08; xad; x13; x80; x07; x00; x14; x80; x00; xad; x13; x80;
  xff; xff; x14; x80; x02; xad; x13; x80; xff; xff; x14; x80;
  x04; xad; x13; x80; xff; xff; x14; x80; x06; xad; x13; x80;
  x9f; x06; x14; x80; x08; xad; x13; x80; x03; x00; x14; x80;
  x00; xad; x13; x80; xff; xff; x14; x80; x02; xad; x13; x80;
  xff; xff; x14; x80; x04; xad; x13; x80; xff; xff; x14; x80;
  x06; xad; x13; x80; xbf; x16; x14; x80; x08; xad; x13; x80;
  x03; x00; x14; x80; x00; xad; x13; x80; xff; xff; x14; x80;
  x02; xad; x13; x80; xff; xff; x14; x80; x04; xad; x13; x80;
  xff; xff; x14; x80; x06; xad; x13; x80; xff; x4f; x14; x80;
  x08; xad; x13; x80; x03; x00; x14; x80; x00; xad; x13; x80;
  xff; xff; x14; x80; x02; xad; x13; x80; xff; xd0; x14; x80;
  x04; xad; x13; x80; x46; x6a; x14; x80; x06; xad; x13; x80;
  xf6; x5f; x14; x80; x08; xad; x13; x80; x03; x00; x14; x80;
  x00; xad; x13; x80; xff; xff; x14; x80; x02; xad; x13; x80;
  xff; xd4; x14; x80; x04; xad; x13; x80; x46; x6b; x14; x80;
  x06; xad; x13; x80; xf7; xff; x14; x80; x08; xad; x13; x80;
  x07; x00; x14; x80; x00; xad; x13; x80; xff; xff; x14; x80].

Definition rtl8126a_2_fw_15 : list byte := [
  x02; xad; x13; x80; xff; xd8; x14; x80; x04; xad; x13; x80;
  x46; x6a; x14; x80; x06; xad; x13; x80; xf4; xff; x14; x80;
  x08; xad; x13; x80; x07; x00; x14; x80; x00; xad; x13; x80;
  xff; xff; x14; x80; x02; xad; x13; x80; xff; xdc; x14; x80;
  x04; xad; x13; x80; x46; x6b; x14; x80; x06; xad; x13; x80;
  x15; xf6; x14; x80; x08; xad; x13; x80; x07; x00; x14; x80;
  x00; xad; x13; x80; xff; xff; x14; x80; x02; xad; x13; x80;
  xff; xff; x14; x80; x04; xad; x13; x80; xff; xff; x14; x80;
  x06; xad; x13; x80; x3f; xf6; x14; x80; x08; xad; x13; x80;
  x07; x00; x14; x80; x00; xad; x13; x80; xff; xff; x14; x80;
  x02; xad; x13; x80; xff; xff; x14; x80; x04; xad; x13; x80;
  xff; xff; x14; x80; x06; xad; x13; x80; x9f; x06; x14; x80;
  x08; xad; x13; x80; x03; x00; x14; x80; x00; xad; x13; x80;
  xff; xff; x14; x80; x02; xad; x13; x80; xff; xff; x14; x80;
  x04; xad; x13; x80; xff; xff; x14; x80; x06; xad; x13; x80;
  xbf; x16; x14; x80; x08; xad; x13; x80; x03; x00; x14; x80;
  x00; xad; x13; x80; xff; xff; x14; x80; x02; xad; x13; x80;
  xff; xff; x14; x80; x04; xad; x13; x80; xff; xff; x14; x80;
  x06; xad; x13; x80; xff; x4f; x14; x80; x08; xad; x13; x80;
  x03; x00; x14; x80; x00; xad; x13; x80; xff; xff; x14; x80;
  x02; xad; x13; x80; xff; xd1; x14; x80; x04; xad; x13; x80;
  x86; xaa; x14; x80; x06; xad; x13; x80; xf6; x5f; x14; x80;
  x08; xad; x13; x80; x03; x00; x14; x80; x00; xad; x13; x80;
  xff; xff; x14; x80; x02; xad; x13; x80; xff; xd5; x14; x80;
  x04; xad; x13; x80; x86; xab; x14; x80; x06; xad; x13; x80;
  xf7; xff; x14; x80; x08; xad; x13; x80; x07; x00; x14; x80;
  x00; xad; x13; x80; xff; xff; x14; x80; x02; xad; x13; x80;
  xff; xd9; x14; x80; x04; xad; x13; x80; x86; xaa; x14; x80;
  x06; xad; x13; x80; xf4; xff; x14; x80; x08; xad; x13; x80;
  x07; x00; x14; x80; x00; xad; x13; x80; xff; xff; x14; x80;
  x02; xad; x13; x80; xff; xdd; x14; x80; x04; xad; x13; x80;
  x86; xab; x14; x80; x06; xad; x13; x80; x15; xf6; x14; x80;
  x08; xad; x13; x80; x07; x00; x14; x80; x00; xad; x13; x80;
  xff; xff; x14; x80; x02; xad; x13; x80; xff; xff; x14; x80;
  x04; xad; x13; x80; xff; xff; x14; x80; x06; xad; x13; x80;
  x3f; xf6; x14; x80; x08; xad; x13; x80; x07; x00; x14; x80;
  x00; xad; x13; x80; xff; xff; x14; x80; x02; xad; x13; x80;
  xff; xff; x14; x80; x04; xad; x13; x80; xff; xff; x14; x80;
  x06; xad; x13; x80; x9f; x06; x14; x80; x08; xad; x13; x80;
  x03; x00; x14; x80; x00; xad; x13; x80; xff; xff; x14; x80;
  x02; xad; x13; x80; xff; xff; x14; x80; x04; xad; x13; x80;
  xff; xff; x14; x80; x06; xad; x13; x80; xbf; x16; x14; x80;
  x08; xad; x13; x80; x03; x00; x14; x80; x00; xad; x13; x80;
  xff; xff; x14; x80; x02; xad; x13; x80; xff; xff; x14; x80;
  x04; xad; x13; x80; xff; xff; x14; x80; x06; xad; x13; x80;
  xff; x4f; x14; x80; x08; xad; x13; x80; x03; x00; x14; x80;
  x00; xad; x13; x80; xff; xff; x14; x80; x02; xad; x13; x80;
  xff; xd2; x14; x80; x04; xad; x13; x80; xc6; xea; x14; x80;
  x06; xad; x13; x80; xf6; x5f; x14; x80; x08; xad; x13; x80;
  x03; x00; x14; x80; x00; xad; x13; x80; xff; xff; x14; x80;
  x02; xad; x13; x80; xff; xd6; x14; x80; x04; xad; x13; x80;
  xc6; xeb; x14; x80; x06; xad; x13; x80; xf7; xff; x14; x80;
  x08; xad; x13; x80; x07; x00; x14; x80; x00; xad; x13; x80;
  xff; xff; x14; x80; x02; xad; x13; x80; xff; xda; x14; x80;
  x04; xad; x13; x80; xc6; xea; x14; x80; x06; xad; x13; x80;
  xf4; xff; x14; x80; x08; xad; x13; x80; x07; x00; x14; x80;
  x00; xad; x13; x80; xff; xff; x14; x80; x02; xad; x13; x80;
  xff; xde; x14; x80; x04; xad; x13; x80; xc6; xeb; x14; x80;
  x06; xad; x13; x80; x15; xf6; x14; x80; x08; xad; x13; x80;
  x07; x00; x14; x80; x00; xad; x13; x80; xff; xff; x14; x80;
  x02; xad; x13; x80; xff; xff; x14; x80; x04; xad; x13; x80;
  xff; xff; x14; x80; x06; xad; x13; x80; x3f; xf6; x14; x80;
  x08; xad; x13; x80; x17; x00; x14; x80; x00; xad; x13; x80;
  xff; xff; x14; x80; x02; xad; x13; x80; xff; xff; x14; x80;
  x04; xad; x13; x80; xff; xff; x14; x80; x06; xad; x13; x80;
  x9f; x06; x14; x80; x08; xad; x13; x80; x13; x00; x14; x80;
  x00; xad; x13; x80; xff; xff; x14; x80; x02; xad; x13; x80;
  xff; xff; x14; x80; x04; xad; x13; x80; xff; xff; x14; x80;
  x06; xad; x13; x80; xbf; x16; x14; x80; x08; xad; x13; x80;
  x13; x00; x14; x80; x00; xad; x13; x80; xff; xff; x14; x80;
  x02; xad; x13; x80; xff; xff; x14; x80; x04; xad; x13; x80;
  xff; xff; x14; x80; x06; xad; x13; x80; xff; x4f; x14; x80;
  x08; xad; x13; x80; x13; x00; x14; x80; x00; xad; x13; x80;
  xfa; xff; x14; x80; x02; xad; x13; x80; xff; xd3; x14; x80;
  x04; xad; x13; x80; xfe; xff; x14; x80; x06; xad; x13; x80;
  xff; x5f; x14; x80; x08; xad; x13; x80; x13; x00; x14; x80;
  x00; xad; x13; x80; xff; xc7; x14; x80; x02; xad; x13; x80;
  xe7; xd7; x14; x80; x04; xad; x13; x80; xfe; xff; x14; x80;
  x06; xad; x13; x80; xff; xff; x14; x80; x08; xad; x13; x80;
  x17; x00; x14; x80; x00; xad; x13; x80; xff; xe7; x14; x80;
  x02; xad; x13; x80; xe7; xdb; x14; x80; x04; xad; x13; x80;
  xfe; xff; x14; x80; x06; xad; x13; x80; xff; xff; x14; x80;
  x08; xad; x13; x80; x17; x00; x14; x80; x00; xad; x13; x80;
  xff; x07; x14; x80; x02; xad; x13; x80; xe7; xdf; x14; x80;
  x04; xad; x13; x80; xfe; xff; x14; x80; x06; xad; x13; x80;
  xff; xff; x14; x80; x08; xad; x13; x80; x17; x00; x14; x80;
  xfc; xac; x13; x80; x00; x00; x14; x80; xcc; xac; x13; x80;
  x00; x20; x14; x80; xce; xac; x13; x80; x00; x60; x14; x80;
  xcc; xac; x13; x80; x01; x20; x14; x80; xce; xac; x13; x80;
  x08; x60; x14; x80; xcc; xac; x13; x80; x02; x20; x14; x80;
  xce; xac; x13; x80; x10; x60; x14; x80; xcc; xac; x13; x80;
  x03; x20; x14; x80; xce; xac; x13; x80; x20; x60; x14; x80;
  xcc; xac; x13; x80; x04; x20; x14; x80; xce; xac; x13; x80;
  x60; x60; x14; x80; xcc; xac; x13; x80; x05; x20; x14; x80;
  xce; xac; x13; x80; xa0; x60; x14; x80; xcc; xac; x13; x80;
  x06; x20; x14; x80; xce; xac; x13; x80; xe0; x60; x14; x80;
  xcc; xac; x13; x80; x07; x20; x14; x80; xce; xac; x13; x80;
  x28; x61; x14; x80; xcc; xac; x13; x80; x08; x20; x14; x80;
  xce; xac; x13; x80; x78; x61; x14; x80; xcc; xac; x13; x80;
  x09; x20; x14; x80; xce; xac; x13; x80; xa8; x61; x14; x80;
  xcc; xac; x13; x80; x0a; x20; x14; x80; xce; xac; x13; x80;
  xf0; x61; x14; x80; xcc; xac; x13; x80; x0b; x20; x14; x80;
  xce; xac; x13; x80; x48; x62; x14; x80; xcc; xac; x13; x80;
  x0c; x20; x14; x80; xce; xac; x13; x80; x58; x62; x14; x80;
  xcc; xac; x13; x80; x0d; x20; x14; x80; xce; xac; x13; x80;
  x68; x62; x14; x80; xcc; xac; x13; x80; x0e; x20; x14; x80;
  xce; xac; x13; x80; x70; x62; x14; x80; xcc; xac; x13; x80;
  x0f; x20; x14; x80; xce; xac; x13; x80; x74; x62; x14; x80;
  xcc; xac; x13; x80; x10; x20; x14; x80; xce; xac; x13; x80;
  x7c; x62; x14; x80; xcc; xac; x13; x80; x11; x20; x14; x80;
  xce; xac; x13; x80; x84; x62; x14; x80; xcc; xac; x13; x80;
  x12; x20; x14; x80; xce; xac; x13; x80; x94; x62; x14; x80;
  xcc; xac; x13; x80; x13; x20; x14; x80; xce; xac; x13; x80;
  x9c; x62; x14; x80; xcc; xac; x13; x80; x14; x20; x14; x80;
  xce; xac; x13; x80; xac; x62; x14; x80; xcc; xac; x13; x80;
  x15; x20; x14; x80; xce; xac; x13; x80; xbc; x62; x14; x80;
  xcc; xac; x13; x80; x16; x20; x14; x80; xce; xac; x13; x80;
  xc4; x62; x14; x80; xcc; xac; x13; x80; x17; x20; x14; x80;
  xce; xac; x13; x80; x00; x70; x14; x80; xcc; xac; x13; x80;
  x18; x20; x14; x80; xce; xac; x13; x80; x00; x60; x14; x80;
  xcc; xac; x13; x80; x19; x20; x14; x80; xce; xac; x13; x80;
  x00; x60; x14; x80; xcc; xac; x13; x80; x1a; x20; x14; x80;
  xce; xac; x13; x80; x00; x60; x14; x80; xcc; xac; x13; x80;
  x1b; x20; x14; x80; xce; xac; x13; x80; x00; x60; x14; x80;
  xcc; xac; x13; x80; x1c; x20; x14; x80; xce; xac; x13; x80;
  x00; x60; x14; x80; xcc; xac; x13; x80; x1d; x20; x14; x80;
  xce; xac; x13; x80; x00; x60; x14; x80; xcc; xac; x13; x80;
  x1e; x20; x14; x80; xce; xac; x13; x80; x00; x60; x14; x80;
  xcc; xac; x13; x80; x1f; x20; x14; x80; xce; xac; x13; x80;
  x00; x60; x14; x80; xce; xac; x13; x80; x00; x00; x14; x80;
  x00; x00; x13; x80; x00; x00; x14; x80; x82; x0b; x1f; x80;
  x00; x00; x17; x80; x43; x0a; x1f; x80; x23; x80; x13; x80;
  x00; x00; x14; x80; x1e; x80; x13; x80; x27; x00; x14; x80;
  x82; x0b; x1f; x80; x00; x00; x10; x80; x82; x0b; x1f; x80;
  x00; x00; x10; x00; xef; xff; x00; x20; x00; x00; x10; xc0;
  x80; x0b; x1f; x80; x00; x00; x00; x70; x01; x00; x00; xe0;
  x00; x00; x10; x00; x40; x00; x00; x20; x40; x00; x02; xa0;
  x64; x00; x00; x90; x00; x00; x05; x30; x82; x0b; x1f; x80;
  x00; x00; x10; x00; x10; x00; x00; x10; x00; x00; x10; xc0;
  x80; x0b; x1f; x80; x00; x00; x00; x70; x01; x00; x00; xe0;
  x00; x00; x10; x00; x40; x00; x00; x20; x40; x00; x02; xa0;
  x64; x00; x00; x90; x00; x00; x05; x30; x89; x0b; x1f; x80;
  x00; x00; x11; x80; x88; x0b; x1f; x80; x5c; xc1; x17; x80;
  x89; x0b; x1f; x80; x03; x03; x10; x80; x06; x05; x10; x80;
  x07; x08; x10; x80; x0b; x09; x10; x80; x12; x0e; x10; x80;
  x17; x16; x10; x80; x24; x1c; x10; x80; x37; x2b; x10; x80;
  x03; x02; x10; x80; x04; x03; x10; x80; x04; x05; x10; x80;
  x06; x05; x10; x80; x08; x07; x10; x80; x0a; x09; x10; x80].

Definition rtl8126a_2_fw_16 : list byte := [
  x0e; x0b; x10; x80; x13; x10; x10; x80; x19; x15; x10; x80;
  x22; x1d; x10; x80; x2e; x28; x10; x80; x3e; x36; x10; x80;
  x4b; x47; x10; x80; x88; x0b; x1f; x80; x96; xc1; x17; x80;
  x89; x0b; x1f; x80; x5e; x3f; x10; x80; x34; xf8; x10; x80;
  x01; x6c; x10; x80; x7f; xa6; x10; x80; x6c; xa0; x10; x80;
  x3b; x04; x10; x80; x90; x61; x10; x80; xdb; x88; x10; x80;
  xcd; x9e; x10; x80; xbc; x4d; x10; x80; x0e; x6e; x10; x80;
  x2d; x9f; x10; x80; x18; x2c; x10; x80; x8c; x5e; x10; x80;
  xfe; x5b; x10; x80; x3c; x18; x10; x80; xc9; x23; x10; x80;
  x84; x3e; x10; x80; x20; x3c; x10; x80; x56; xcc; x10; x80;
  x80; x34; x10; x80; x40; x00; x10; x80; x88; x0b; x1f; x80;
  x0f; xc0; x17; x80; x89; x0b; x1f; x80; x02; x35; x10; x80;
  x03; x02; x10; x80; x03; x03; x10; x80; x04; x04; x10; x80;
  x06; x05; x10; x80; x07; x06; x10; x80; x0a; x08; x10; x80;
  x0d; x0b; x10; x80; x10; x0e; x10; x80; x14; x11; x10; x80;
  x1b; x17; x10; x80; x22; x1f; x10; x80; x32; x28; x10; x80;
  x01; x01; x10; x80; x01; x01; x10; x80; x02; x02; x10; x80;
  x03; x03; x10; x80; x04; x04; x10; x80; x06; x05; x10; x80;
  x09; x07; x10; x80; x0d; x0a; x10; x80; x88; x0b; x1f; x80;
  x47; xc0; x17; x80; x89; x0b; x1f; x80; x5f; x36; x10; x80;
  x10; xbe; x10; x80; xe4; x84; x10; x80; xe9; x60; x10; x80;
  x6a; xa8; x10; x80; xe3; xf1; x10; x80; x3f; xf7; x10; x80;
  x02; x5c; x10; x80; x47; x95; x10; x80; x0c; xc3; x10; x80;
  x64; xb0; x10; x80; x9a; x07; x10; x80; x23; x1e; x10; x80;
  x5d; x1b; x10; x80; xe7; x92; x10; x80; xaf; x4b; x10; x80;
  x86; x23; x10; x80; xb6; x01; x10; x80; x82; x6f; x10; x80;
  x1c; xdc; x10; x80; x92; x8c; x10; x80; x88; x0b; x1f; x80;
  x10; xc1; x17; x80; x89; x0b; x1f; x80; x7f; x0c; x10; x80;
  x14; x10; x10; x80; x1d; x23; x10; x80; x23; x20; x10; x80;
  x28; x26; x10; x80; x2d; x2a; x10; x80; x2c; x2d; x10; x80;
  x2e; x2c; x10; x80; x0d; x32; x10; x80; x88; x0b; x1f; x80;
  x86; xc1; x17; x80; x89; x0b; x1f; x80; x06; x03; x10; x80;
  x04; x08; x10; x80; x06; x04; x10; x80; x07; x07; x10; x80;
  x09; x07; x10; x80; x0f; x0b; x10; x80; x1d; x16; x10; x80;
  x2a; x20; x10; x80; x5e; x3f; x10; x80; x88; x0b; x1f; x80;
  xc1; xc1; x17; x80; x89; x0b; x1f; x80; x40; x00; x10; x80;
  x20; x59; x10; x80; xcd; x88; x10; x80; xa1; x1c; x10; x80;
  x20; x3d; x10; x80; xe4; x3a; x10; x80; x43; x6a; x10; x80;
  xaf; x30; x10; x80; x16; xdd; x10; x80; x88; x0b; x1f; x80;
  x83; xc2; x17; x80; x89; x0b; x1f; x80; x11; x16; x10; x80;
  x1c; x16; x10; x80; x27; x21; x10; x80; x32; x2c; x10; x80;
  x3d; x37; x10; x80; x47; x42; x10; x80; x52; x4d; x10; x80;
  x5a; x58; x10; x80; x04; x00; x10; x80; x0c; x08; x10; x80;
  x14; x10; x10; x80; x1b; x18; x10; x80; x23; x1f; x10; x80;
  x2b; x27; x10; x80; x33; x2f; x10; x80; x3a; x36; x10; x80;
  x42; x3e; x10; x80; x4a; x46; x10; x80; x51; x4d; x10; x80;
  x59; x55; x10; x80; x65; x5d; x10; x80; x69; xe7; x10; x80;
  x56; xeb; x10; x80; x4b; xc0; x10; x80; x02; xd5; x10; x80;
  xb1; x2f; x10; x80; xb5; x33; x10; x80; xf8; x37; x10; x80;
  x98; xbb; x10; x80; x50; x74; x10; x80; x48; x4c; x10; x80;
  xdc; x12; x10; x80; xdc; xdc; x10; x80; x4a; x93; x10; x80;
  x33; x3e; x10; x80; x96; xe4; x10; x80; x4e; x72; x10; x80;
  x07; x2b; x10; x80; xc0; xe4; x10; x80; x79; x9c; x10; x80;
  x12; x55; x10; x80; x88; x0b; x1f; x80; x12; xc2; x17; x80;
  x89; x0b; x1f; x80; x20; x20; x10; x80; x20; x20; x10; x80;
  x20; x20; x10; x80; x20; x20; x10; x80; x20; x20; x10; x80;
  x19; x20; x10; x80; x88; x0b; x1f; x80; x4d; xc2; x17; x80;
  x89; x0b; x1f; x80; x00; x84; x10; x80; x00; x00; x10; x80;
  x00; x00; x10; x80; x00; x00; x10; x80; x00; x00; x10; x80;
  x00; x00; x10; x80; x88; x0b; x1f; x80; xd3; xc2; x17; x80;
  x89; x0b; x1f; x80; x24; x55; x10; x80; x26; x25; x10; x80;
  x28; x27; x10; x80; x88; x0b; x1f; x80; xe3; xc2; x17; x80;
  x89; x0b; x1f; x80; x23; x33; x10; x80; x24; x23; x10; x80;
  x25; x24; x10; x80; x43; x0a; x1f; x80; x1e; x80; x13; x80;
  x33; x00; x14; x80; x82; x0b; x1f; x80; x00; x00; x10; x00;
  xef; xff; x00; x20; x00; x00; x10; xc0; x80; x0b; x1f; x80;
  x00; x00; x00; x70; x01; x00; x00; xe0; x00; x00; x10; x00;
  x40; x00; x00; x20; x40; x00; x02; xa0; x64; x00; x00; x90;
  x00; x00; x05; x30; x40; x0a; x1f; x80; x00; x00; x00; x00;
  x00; x00; x00; x00].

Definition rtl8126a_2_fw : list byte :=
  rtl8126a_2_fw_0 ++ rtl8126a_2_fw_1 ++ rtl8126a_2_fw_2 ++ rtl8126a_2_fw_3 ++ rtl8126a_2_fw_4 ++ rtl8126a_2_fw_5 ++ rtl8126a_2_fw_6 ++ rtl8126a_2_fw_7 ++ rtl8126a_2_fw_8 ++ rtl8126a_2_fw_9 ++ rtl8126a_2_fw_10 ++ rtl8126a_2_fw_11 ++ rtl8126a_2_fw_12 ++ rtl8126a_2_fw_13 ++ rtl8126a_2_fw_14 ++ rtl8126a_2_fw_15 ++ rtl8126a_2_fw_16.

(** *** Firmware/rtl8126a-3.h: 13232 bytes *)

Definition rtl8126a_3_fw_0 : list byte := [
  x00; x00; x00; x00; x72; x74; x6c; x38; x31; x32; x36; x61;
  x2d; x33; x5f; x30; x2e; x30; x2e; x35; x20; x30; x38; x2f;
  x33; x30; x2f; x32; x34; x00; x00; x00; x00; x00; x00; x00;
  x70; x00; x00; x00; xcf; x0c; x00; x00; x07; x00; x72; x74;
  x6c; x38; x31; x32; x36; x61; x20; x72; x65; x76; x2e; x63;
  x20; x6d; x61; x63; x20; x61; x6e; x64; x20; x70; x68; x79;
  x20; x6d; x63; x75; x20; x66; x69; x72; x6d; x77; x61; x72;
  x65; x20; x70; x61; x74; x63; x68; x20; x63; x6f; x64; x65;
  x20; x31; x34; x3a; x31; x36; x3a; x33; x34; x00; x8d; x9b;
  x00; x00; x00; x00; x01; x00; x00; x40; xc2; x0f; x1f; x80;
  x00; x00; x28; x80; x00; x00; x08; x80; x00; x00; x0a; x80;
  x00; x00; x0c; x80; x00; x00; x0e; x80; x00; x00; x10; x80;
  x00; x00; x12; x80; x00; x00; x14; x80; x00; x00; x16; x80;
  x00; x00; x18; x80; x00; x00; x1a; x80; x00; x00; x1c; x80;
  x00; x00; x1e; x80; x00; x00; x20; x80; x00; x00; x22; x80;
  x00; x00; x24; x80; x00; x00; x26; x80; x03; x00; x00; xe0;
  x00; x00; x06; x80; x80; x0f; x1f; x80; x10; xe0; x00; x80;
  x2c; xe0; x02; x80; x4e; xe0; x04; x80; x52; xe0; x06; x80;
  x54; xe0; x08; x80; x56; xe0; x0a; x80; x58; xe0; x0c; x80;
  x5a; xe0; x0e; x80; x5c; xe0; x10; x80; x5e; xe0; x12; x80;
  x60; xe0; x14; x80; x62; xe0; x16; x80; x64; xe0; x18; x80;
  x66; xe0; x1a; x80; x68; xe0; x1c; x80; x6a; xe0; x1e; x80;
  x16; xc7; x20; x80; x16; xc6; x22; x80; xe0; x9e; x24; x80;
  x16; xc6; x26; x80; xc0; x65; x28; x80; x00; x15; x2a; x80;
  x09; xf0; x2c; x80; x14; xc7; x2e; x80; xe0; x66; x30; x80;
  xb5; x41; x32; x80; xe0; x8e; x34; x80; x11; xc6; x36; x80;
  xc0; x75; x38; x80; x58; x48; x3a; x80; xc0; x9d; x3c; x80;
  x07; xc7; x3e; x80; x08; xc6; x40; x80; xe0; x9e; x42; x80;
  x08; xc6; x44; x80; x02; xc5; x46; x80; x00; xbd; x48; x80;
  x00; x01; x4a; x80; x6c; xe8; x4c; x80; x00; xe0; x4e; x80;
  x00; xa0; x50; x80; x04; xb4; x52; x80; x30; xb4; x54; x80;
  x70; xc0; x56; x80; x26; xe9; x58; x80; xfe; xc2; x5a; x80;
  x0a; x40; x5c; x80; x1a; xf1; x5e; x80; xa4; x63; x60; x80;
  x00; x1a; x62; x80; xb0; x49; x64; x80; x02; xf0; x66; x80;
  x20; x48; x68; x80; xb1; x49; x6a; x80; x02; xf0; x6c; x80;
  x21; x48; x6e; x80; xb2; x49; x70; x80; x02; xf0; x72; x80;
  x22; x48; x74; x80; xb3; x49; x76; x80; x02; xf0; x78; x80;
  x23; x48; x7a; x80; x11; xc4; x7c; x80; x80; x63; x7e; x80;
  xb0; x48; x80; x80; x80; x8b; x82; x80; x20; x63; x84; x80;
  xda; x41; x86; x80; x20; x8b; x88; x80; x80; x63; x8a; x80;
  x30; x48; x8c; x80; x80; x8b; x8e; x80; x03; xe0; x90; x80;
  xa4; x73; x92; x80; x20; x9b; x94; x80; x02; xc3; x96; x80;
  x00; xbb; x98; x80; xe2; x55; x9a; x80; x70; xc0; x9c; x80;
  x22; xe0; x9e; x80; x66; x41; xa0; x80; xf6; x9c; xa2; x80;
  x02; xc6; xa4; x80; x00; xbe; xa6; x80; xa6; x14; xa8; x80;
  x02; xc6; xaa; x80; x00; xbe; xac; x80; x00; x00; xae; x80;
  x02; xc6; xb0; x80; x00; xbe; xb2; x80; x00; x00; xb4; x80;
  x02; xc6; xb6; x80; x00; xbe; xb8; x80; x00; x00; xba; x80;
  x02; xc6; xbc; x80; x00; xbe; xbe; x80; x00; x00; xc0; x80;
  x02; xc6; xc2; x80; x00; xbe; xc4; x80; x00; x00; xc6; x80;
  x02; xc6; xc8; x80; x00; xbe; xca; x80; x00; x00; xcc; x80;
  x02; xc6; xce; x80; x00; xbe; xd0; x80; x00; x00; xd2; x80;
  x02; xc6; xd4; x80; x00; xbe; xd6; x80; x00; x00; xd8; x80;
  x02; xc6; xda; x80; x00; xbe; xdc; x80; x00; x00; xde; x80;
  x02; xc6; xe0; x80; x00; xbe; xe2; x80; x00; x00; xe4; x80;
  x02; xc6; xe6; x80; x00; xbe; xe8; x80; x00; x00; xea; x80;
  x02; xc6; xec; x80; x00; xbe; xee; x80; x00; x00; xf0; x80;
  x02; xc6; xf2; x80; x00; xbe; xf4; x80; x00; x00; xf6; x80;
  x00; x00; xf8; x80; x00; x00; xfa; x80; x00; x00; xfc; x80;
  x00; x00; xfe; x80; x90; x0f; x1f; x80; x00; x00; x00; x80;
  x00; x00; x02; x80; x00; x00; x04; x80; x00; x00; x06; x80;
  x00; x00; x08; x80; x00; x00; x0a; x80; x00; x00; x0c; x80;
  x00; x00; x0e; x80; x00; x00; x10; x80; x00; x00; x12; x80;
  x00; x00; x14; x80; x00; x00; x16; x80; x00; x00; x18; x80;
  x00; x00; x1a; x80; x00; x00; x1c; x80; x00; x00; x1e; x80;
  x00; x00; x20; x80; x00; x00; x22; x80; x00; x00; x24; x80;
  x00; x00; x26; x80; x00; x00; x28; x80; x00; x00; x2a; x80;
  x00; x00; x2c; x80; x00; x00; x2e; x80; x00; x00; x30; x80;
  x00; x00; x32; x80; x00; x00; x34; x80; x00; x00; x36; x80;
  x00; x00; x38; x80; x00; x00; x3a; x80; x00; x00; x3c; x80;
  x00; x00; x3e; x80; x00; x00; x40; x80; x00; x00; x42; x80;
  x00; x00; x44; x80; x00; x00; x46; x80; x00; x00; x48; x80;
  x00; x00; x4a; x80; x00; x00; x4c; x80; x00; x00; x4e; x80;
  x00; x00; x50; x80; x00; x00; x52; x80; x00; x00; x54; x80;
  x00; x00; x56; x80; x00; x00; x58; x80; x00; x00; x5a; x80;
  x00; x00; x5c; x80; x00; x00; x5e; x80; x00; x00; x60; x80;
  x00; x00; x62; x80; x00; x00; x64; x80; x00; x00; x66; x80;
  x00; x00; x68; x80; x00; x00; x6a; x80; x00; x00; x6c; x80;
  x00; x00; x6e; x80; x00; x00; x70; x80; x00; x00; x72; x80;
  x00; x00; x74; x80; x00; x00; x76; x80; x00; x00; x78; x80;
  x00; x00; x7a; x80; x00; x00; x7c; x80; x00; x00; x7e; x80;
  x00; x00; x80; x80; x00; x00; x82; x80; x00; x00; x84; x80;
  x00; x00; x86; x80; x00; x00; x88; x80; x00; x00; x8a; x80;
  x00; x00; x8c; x80; x00; x00; x8e; x80; x00; x00; x90; x80;
  x00; x00; x92; x80; x00; x00; x94; x80; x00; x00; x96; x80;
  x00; x00; x98; x80; x00; x00; x9a; x80; x00; x00; x9c; x80;
  x00; x00; x9e; x80; x00; x00; xa0; x80; x00; x00; xa2; x80;
  x00; x00; xa4; x80; x00; x00; xa6; x80; x00; x00; xa8; x80;
  x00; x00; xaa; x80; x00; x00; xac; x80; x00; x00; xae; x80;
  x00; x00; xb0; x80; x00; x00; xb2; x80; x00; x00; xb4; x80;
  x00; x00; xb6; x80; x00; x00; xb8; x80; x00; x00; xba; x80;
  x00; x00; xbc; x80; x00; x00; xbe; x80; x00; x00; xc0; x80;
  x00; x00; xc2; x80; x00; x00; xc4; x80; x00; x00; xc6; x80;
  x00; x00; xc8; x80; x00; x00; xca; x80; x00; x00; xcc; x80;
  x00; x00; xce; x80; x00; x00; xd0; x80; x00; x00; xd2; x80;
  x00; x00; xd4; x80; x00; x00; xd6; x80; x00; x00; xd8; x80;
  x00; x00; xda; x80; x00; x00; xdc; x80; x00; x00; xde; x80;
  x00; x00; xe0; x80; x00; x00; xe2; x80; x00; x00; xe4; x80;
  x00; x00; xe6; x80; x00; x00; xe8; x80; x00; x00; xea; x80;
  x00; x00; xec; x80; x00; x00; xee; x80; x00; x00; xf0; x80;
  x00; x00; xf2; x80; x00; x00; xf4; x80; x00; x00; xf6; x80;
  x00; x00; xf8; x80; x00; x00; xfa; x80; x00; x00; xfc; x80;
  x00; x00; xfe; x80; x44; x0e; x1f; x80; x01; x00; x06; x80;
  x80; x0f; x1f; x80; x00; x00; x00; x80; x00; x00; x02; x80;
  x00; x00; x04; x80; x00; x00; x06; x80; x00; x00; x08; x80;
  x00; x00; x0a; x80; x00; x00; x0c; x80; x00; x00; x0e; x80;
  x00; x00; x10; x80; x00; x00; x12; x80; x00; x00; x14; x80;
  x00; x00; x16; x80; x00; x00; x18; x80; x00; x00; x1a; x80;
  x00; x00; x1c; x80; x00; x00; x1e; x80; x00; x00; x20; x80;
  x00; x00; x22; x80; x00; x00; x24; x80; x00; x00; x26; x80;
  x00; x00; x28; x80; x00; x00; x2a; x80; x00; x00; x2c; x80;
  x00; x00; x2e; x80; x00; x00; x30; x80; x00; x00; x32; x80;
  x00; x00; x34; x80; x00; x00; x36; x80; x00; x00; x38; x80;
  x00; x00; x3a; x80; x00; x00; x3c; x80; x00; x00; x3e; x80;
  x00; x00; x40; x80; x00; x00; x42; x80; x00; x00; x44; x80;
  x00; x00; x46; x80; x00; x00; x48; x80; x00; x00; x4a; x80;
  x00; x00; x4c; x80; x00; x00; x4e; x80; x00; x00; x50; x80;
  x00; x00; x52; x80; x00; x00; x54; x80; x00; x00; x56; x80;
  x00; x00; x58; x80; x00; x00; x5a; x80; x00; x00; x5c; x80;
  x00; x00; x5e; x80; x00; x00; x60; x80; x00; x00; x62; x80;
  x00; x00; x64; x80; x00; x00; x66; x80; x00; x00; x68; x80;
  x00; x00; x6a; x80; x00; x00; x6c; x80; x00; x00; x6e; x80;
  x00; x00; x70; x80; x00; x00; x72; x80; x00; x00; x74; x80;
  x00; x00; x76; x80; x00; x00; x78; x80; x00; x00; x7a; x80;
  x00; x00; x7c; x80; x00; x00; x7e; x80; x00; x00; x80; x80;
  x00; x00; x82; x80; x00; x00; x84; x80; x00; x00; x86; x80;
  x00; x00; x88; x80; x00; x00; x8a; x80; x00; x00; x8c; x80;
  x00; x00; x8e; x80; x00; x00; x90; x80; x00; x00; x92; x80;
  x00; x00; x94; x80; x00; x00; x96; x80; x00; x00; x98; x80;
  x00; x00; x9a; x80; x00; x00; x9c; x80; x00; x00; x9e; x80;
  x00; x00; xa0; x80; x00; x00; xa2; x80; x00; x00; xa4; x80;
  x00; x00; xa6; x80; x00; x00; xa8; x80; x00; x00; xaa; x80;
  x00; x00; xac; x80; x00; x00; xae; x80; x00; x00; xb0; x80;
  x00; x00; xb2; x80; x00; x00; xb4; x80; x00; x00; xb6; x80;
  x00; x00; xb8; x80; x00; x00; xba; x80; x00; x00; xbc; x80;
  x00; x00; xbe; x80; x00; x00; xc0; x80; x00; x00; xc2; x80;
  x00; x00; xc4; x80; x00; x00; xc6; x80; x00; x00; xc8; x80;
  x00; x00; xca; x80; x00; x00; xcc; x80; x00; x00; xce; x80;
  x00; x00; xd0; x80; x00; x00; xd2; x80; x00; x00; xd4; x80;
  x00; x00; xd6; x80; x00; x00; xd8; x80; x00; x00; xda; x80;
  x00; x00; xdc; x80; x00; x00; xde; x80; x00; x00; xe0; x80;
  x00; x00; xe2; x80; x00; x00; xe4; x80; x00; x00; xe6; x80;
  x00; x00; xe8; x80; x00; x00; xea; x80; x00; x00; xec; x80;
  x00; x00; xee; x80; x00; x00; xf0; x80; x00; x00; xf2; x80;
  x00; x00; xf4; x80; x00; x00; xf6; x80; x00; x00; xf8; x80;
  x00; x00; xfa; x80; x00; x00; xfc; x80; x00; x00; xfe; x80;
  x90; x0f; x1f; x80; x00; x00; x00; x80; x00; x00; x02; x80;
  x00; x00; x04; x80; x00; x00; x06; x80; x00; x00; x08; x80].

Definition rtl8126a_3_fw_1 : list byte := [
  x00; x00; x0a; x80; x00; x00; x0c; x80; x00; x00; x0e; x80;
  x00; x00; x10; x80; x00; x00; x12; x80; x00; x00; x14; x80;
  x00; x00; x16; x80; x00; x00; x18; x80; x00; x00; x1a; x80;
  x00; x00; x1c; x80; x00; x00; x1e; x80; x00; x00; x20; x80;
  x00; x00; x22; x80; x00; x00; x24; x80; x00; x00; x26; x80;
  x00; x00; x28; x80; x00; x00; x2a; x80; x00; x00; x2c; x80;
  x00; x00; x2e; x80; x00; x00; x30; x80; x00; x00; x32; x80;
  x00; x00; x34; x80; x00; x00; x36; x80; x00; x00; x38; x80;
  x00; x00; x3a; x80; x00; x00; x3c; x80; x00; x00; x3e; x80;
  x00; x00; x40; x80; x00; x00; x42; x80; x00; x00; x44; x80;
  x00; x00; x46; x80; x00; x00; x48; x80; x00; x00; x4a; x80;
  x00; x00; x4c; x80; x00; x00; x4e; x80; x00; x00; x50; x80;
  x00; x00; x52; x80; x00; x00; x54; x80; x00; x00; x56; x80;
  x00; x00; x58; x80; x00; x00; x5a; x80; x00; x00; x5c; x80;
  x00; x00; x5e; x80; x00; x00; x60; x80; x00; x00; x62; x80;
  x00; x00; x64; x80; x00; x00; x66; x80; x00; x00; x68; x80;
  x00; x00; x6a; x80; x00; x00; x6c; x80; x00; x00; x6e; x80;
  x00; x00; x70; x80; x00; x00; x72; x80; x00; x00; x74; x80;
  x00; x00; x76; x80; x00; x00; x78; x80; x00; x00; x7a; x80;
  x00; x00; x7c; x80; x00; x00; x7e; x80; x00; x00; x80; x80;
  x00; x00; x82; x80; x00; x00; x84; x80; x00; x00; x86; x80;
  x00; x00; x88; x80; x00; x00; x8a; x80; x00; x00; x8c; x80;
  x00; x00; x8e; x80; x00; x00; x90; x80; x00; x00; x92; x80;
  x00; x00; x94; x80; x00; x00; x96; x80; x00; x00; x98; x80;
  x00; x00; x9a; x80; x00; x00; x9c; x80; x00; x00; x9e; x80;
  x00; x00; xa0; x80; x00; x00; xa2; x80; x00; x00; xa4; x80;
  x00; x00; xa6; x80; x00; x00; xa8; x80; x00; x00; xaa; x80;
  x00; x00; xac; x80; x00; x00; xae; x80; x00; x00; xb0; x80;
  x00; x00; xb2; x80; x00; x00; xb4; x80; x00; x00; xb6; x80;
  x00; x00; xb8; x80; x00; x00; xba; x80; x00; x00; xbc; x80;
  x00; x00; xbe; x80; x00; x00; xc0; x80; x00; x00; xc2; x80;
  x00; x00; xc4; x80; x00; x00; xc6; x80; x00; x00; xc8; x80;
  x00; x00; xca; x80; x00; x00; xcc; x80; x00; x00; xce; x80;
  x00; x00; xd0; x80; x00; x00; xd2; x80; x00; x00; xd4; x80;
  x00; x00; xd6; x80; x00; x00; xd8; x80; x00; x00; xda; x80;
  x00; x00; xdc; x80; x00; x00; xde; x80; x00; x00; xe0; x80;
  x00; x00; xe2; x80; x00; x00; xe4; x80; x00; x00; xe6; x80;
  x00; x00; xe8; x80; x00; x00; xea; x80; x00; x00; xec; x80;
  x00; x00; xee; x80; x00; x00; xf0; x80; x00; x00; xf2; x80;
  x00; x00; xf4; x80; x00; x00; xf6; x80; x00; x00; xf8; x80;
  x00; x00; xfa; x80; x00; x00; xfc; x80; x00; x00; xfe; x80;
  x44; x0e; x1f; x80; x02; x00; x06; x80; x80; x0f; x1f; x80;
  x00; x00; x00; x80; x00; x00; x02; x80; x00; x00; x04; x80;
  x00; x00; x06; x80; x00; x00; x08; x80; x00; x00; x0a; x80;
  x00; x00; x0c; x80; x00; x00; x0e; x80; x00; x00; x10; x80;
  x00; x00; x12; x80; x00; x00; x14; x80; x00; x00; x16; x80;
  x00; x00; x18; x80; x00; x00; x1a; x80; x00; x00; x1c; x80;
  x00; x00; x1e; x80; x00; x00; x20; x80; x00; x00; x22; x80;
  x00; x00; x24; x80; x00; x00; x26; x80; x00; x00; x28; x80;
  x00; x00; x2a; x80; x00; x00; x2c; x80; x00; x00; x2e; x80;
  x00; x00; x30; x80; x00; x00; x32; x80; x00; x00; x34; x80;
  x00; x00; x36; x80; x00; x00; x38; x80; x00; x00; x3a; x80;
  x00; x00; x3c; x80; x00; x00; x3e; x80; x00; x00; x40; x80;
  x00; x00; x42; x80; x00; x00; x44; x80; x00; x00; x46; x80;
  x00; x00; x48; x80; x00; x00; x4a; x80; x00; x00; x4c; x80;
  x00; x00; x4e; x80; x00; x00; x50; x80; x00; x00; x52; x80;
  x00; x00; x54; x80; x00; x00; x56; x80; x00; x00; x58; x80;
  x00; x00; x5a; x80; x00; x00; x5c; x80; x00; x00; x5e; x80;
  x00; x00; x60; x80; x00; x00; x62; x80; x00; x00; x64; x80;
  x00; x00; x66; x80; x00; x00; x68; x80; x00; x00; x6a; x80;
  x00; x00; x6c; x80; x00; x00; x6e; x80; x00; x00; x70; x80;
  x00; x00; x72; x80; x00; x00; x74; x80; x00; x00; x76; x80;
  x00; x00; x78; x80; x00; x00; x7a; x80; x00; x00; x7c; x80;
  x00; x00; x7e; x80; x00; x00; x80; x80; x00; x00; x82; x80;
  x00; x00; x84; x80; x00; x00; x86; x80; x00; x00; x88; x80;
  x00; x00; x8a; x80; x00; x00; x8c; x80; x00; x00; x8e; x80;
  x00; x00; x90; x80; x00; x00; x92; x80; x00; x00; x94; x80;
  x00; x00; x96; x80; x00; x00; x98; x80; x00; x00; x9a; x80;
  x00; x00; x9c; x80; x00; x00; x9e; x80; x00; x00; xa0; x80;
  x00; x00; xa2; x80; x00; x00; xa4; x80; x00; x00; xa6; x80;
  x00; x00; xa8; x80; x00; x00; xaa; x80; x00; x00; xac; x80;
  x00; x00; xae; x80; x00; x00; xb0; x80; x00; x00; xb2; x80;
  x00; x00; xb4; x80; x00; x00; xb6; x80; x00; x00; xb8; x80;
  x00; x00; xba; x80; x00; x00; xbc; x80; x00; x00; xbe; x80;
  x00; x00; xc0; x80; x00; x00; xc2; x80; x00; x00; xc4; x80;
  x00; x00; xc6; x80; x00; x00; xc8; x80; x00; x00; xca; x80;
  x00; x00; xcc; x80; x00; x00; xce; x80; x00; x00; xd0; x80;
  x00; x00; xd2; x80; x00; x00; xd4; x80; x00; x00; xd6; x80;
  x00; x00; xd8; x80; x00; x00; xda; x80; x00; x00; xdc; x80;
  x00; x00; xde; x80; x00; x00; xe0; x80; x00; x00; xe2; x80;
  x00; x00; xe4; x80; x00; x00; xe6; x80; x00; x00; xe8; x80;
  x00; x00; xea; x80; x00; x00; xec; x80; x00; x00; xee; x80;
  x00; x00; xf0; x80; x00; x00; xf2; x80; x00; x00; xf4; x80;
  x00; x00; xf6; x80; x00; x00; xf8; x80; x00; x00; xfa; x80;
  x00; x00; xfc; x80; x00; x00; xfe; x80; x90; x0f; x1f; x80;
  x00; x00; x00; x80; x00; x00; x02; x80; x00; x00; x04; x80;
  x00; x00; x06; x80; x00; x00; x08; x80; x00; x00; x0a; x80;
  x00; x00; x0c; x80; x00; x00; x0e; x80; x00; x00; x10; x80;
  x00; x00; x12; x80; x00; x00; x14; x80; x00; x00; x16; x80;
  x00; x00; x18; x80; x00; x00; x1a; x80; x00; x00; x1c; x80;
  x00; x00; x1e; x80; x00; x00; x20; x80; x00; x00; x22; x80;
  x00; x00; x24; x80; x00; x00; x26; x80; x00; x00; x28; x80;
  x00; x00; x2a; x80; x00; x00; x2c; x80; x00; x00; x2e; x80;
  x00; x00; x30; x80; x00; x00; x32; x80; x00; x00; x34; x80;
  x00; x00; x36; x80; x00; x00; x38; x80; x00; x00; x3a; x80;
  x00; x00; x3c; x80; x00; x00; x3e; x80; x00; x00; x40; x80;
  x00; x00; x42; x80; x00; x00; x44; x80; x00; x00; x46; x80;
  x00; x00; x48; x80; x00; x00; x4a; x80; x00; x00; x4c; x80;
  x00; x00; x4e; x80; x00; x00; x50; x80; x00; x00; x52; x80;
  x00; x00; x54; x80; x00; x00; x56; x80; x00; x00; x58; x80;
  x00; x00; x5a; x80; x00; x00; x5c; x80; x00; x00; x5e; x80;
  x00; x00; x60; x80; x00; x00; x62; x80; x00; x00; x64; x80;
  x00; x00; x66; x80; x00; x00; x68; x80; x00; x00; x6a; x80;
  x00; x00; x6c; x80; x00; x00; x6e; x80; x00; x00; x70; x80;
  x00; x00; x72; x80; x00; x00; x74; x80; x00; x00; x76; x80;
  x00; x00; x78; x80; x00; x00; x7a; x80; x00; x00; x7c; x80;
  x00; x00; x7e; x80; x00; x00; x80; x80; x00; x00; x82; x80;
  x00; x00; x84; x80; x00; x00; x86; x80; x00; x00; x88; x80;
  x00; x00; x8a; x80; x00; x00; x8c; x80; x00; x00; x8e; x80;
  x00; x00; x90; x80; x00; x00; x92; x80; x00; x00; x94; x80;
  x00; x00; x96; x80; x00; x00; x98; x80; x00; x00; x9a; x80;
  x00; x00; x9c; x80; x00; x00; x9e; x80; x00; x00; xa0; x80;
  x00; x00; xa2; x80; x00; x00; xa4; x80; x00; x00; xa6; x80;
  x00; x00; xa8; x80; x00; x00; xaa; x80; x00; x00; xac; x80;
  x00; x00; xae; x80; x00; x00; xb0; x80; x00; x00; xb2; x80;
  x00; x00; xb4; x80; x00; x00; xb6; x80; x00; x00; xb8; x80;
  x00; x00; xba; x80; x00; x00; xbc; x80; x00; x00; xbe; x80;
  x00; x00; xc0; x80; x00; x00; xc2; x80; x00; x00; xc4; x80;
  x00; x00; xc6; x80; x00; x00; xc8; x80; x00; x00; xca; x80;
  x00; x00; xcc; x80; x00; x00; xce; x80; x00; x00; xd0; x80;
  x00; x00; xd2; x80; x00; x00; xd4; x80; x00; x00; xd6; x80;
  x00; x00; xd8; x80; x00; x00; xda; x80; x00; x00; xdc; x80;
  x00; x00; xde; x80; x00; x00; xe0; x80; x00; x00; xe2; x80;
  x00; x00; xe4; x80; x00; x00; xe6; x80; x00; x00; xe8; x80;
  x00; x00; xea; x80; x00; x00; xec; x80; x00; x00; xee; x80;
  x00; x00; xf0; x80; x00; x00; xf2; x80; x00; x00; xf4; x80;
  x00; x00; xf6; x80; x47; x68; xf8; x80; x18; x0b; xfa; x80;
  x09; x04; xfc; x80; x1c; x0a; xfe; x80; x44; x0e; x1f; x80;
  x03; x00; x06; x80; x80; x0f; x1f; x80; x44; x0e; x1f; x80;
  x00; x00; x06; x80; x80; x0f; x1f; x80; xc2; x0f; x1f; x80;
  x00; x80; x06; x80; xa4; x14; x0c; x80; x04; x00; x28; x80;
  x00; x00; x00; x40; x82; x0b; x1f; x80; x00; x00; x10; x00;
  x10; x00; x00; x10; x00; x00; x10; xc0; x80; x0b; x1f; x80;
  x00; x00; x00; x70; x01; x00; x00; xe0; x00; x00; x10; x00;
  x40; x00; x00; x20; x40; x00; x02; xa0; x64; x00; x00; x90;
  x00; x00; x05; x30; x43; x0a; x1f; x80; x23; x80; x13; x80;
  x01; x47; x14; x80; x2e; xb8; x13; x80; x01; x00; x14; x80;
  x82; x0b; x1f; x80; x90; x00; x10; x80; x43; x0a; x1f; x80;
  x16; xa0; x13; x80; x00; x00; x14; x80; x12; xa0; x13; x80;
  x00; x00; x14; x80; x14; xa0; x13; x80; x00; x18; x14; x80;
  x10; x80; x14; x80; x00; x18; x14; x80; x1a; x80; x14; x80;
  x00; x18; x14; x80; x2a; x80; x14; x80; x00; x18; x14; x80;
  x32; x80; x14; x80; x00; x18; x14; x80; x3a; x80; x14; x80;
  x00; x18; x14; x80; x3e; x80; x14; x80; x00; x18; x14; x80;
  x44; x80; x14; x80; x00; x18; x14; x80; x4b; x80; x14; x80;
  x04; xd5; x14; x80; xb5; xc9; x14; x80; x00; xd5; x14; x80;
  x07; xd7; x14; x80; x70; x40; x14; x80; x00; x18; x14; x80;
  x82; x10; x14; x80; x04; xd5; x14; x80; x00; x18; x14; x80].

Definition rtl8126a_3_fw_2 : list byte := [
  x7a; x10; x14; x80; xd0; x61; x14; x80; x01; xd7; x14; x80;
  xa5; x60; x14; x80; x04; xd5; x14; x80; xb2; xc9; x14; x80;
  x00; xd5; x14; x80; x04; xf0; x14; x80; x04; xd5; x14; x80;
  xb1; xc9; x14; x80; x00; xd5; x14; x80; x07; xd7; x14; x80;
  x70; x60; x14; x80; x00; x18; x14; x80; xb0; x10; x14; x80;
  x00; x18; x14; x80; xc5; x10; x14; x80; x07; xd7; x14; x80;
  x05; x20; x14; x80; x30; x80; x14; x80; x5e; xd7; x14; x80;
  x00; x18; x14; x80; x8c; x13; x14; x80; x00; x18; x14; x80;
  xff; x13; x14; x80; x04; xc5; x14; x80; x20; xce; x14; x80;
  x01; xcf; x14; x80; x0a; xd7; x14; x80; x05; x40; x14; x80;
  x02; xcf; x14; x80; x00; x18; x14; x80; x99; x1b; x14; x80;
  x80; xa9; x14; x80; x00; xd5; x14; x80; x00; x18; x14; x80;
  x4d; x14; x14; x80; x7f; x90; x14; x80; xa3; x91; x14; x80;
  x06; x93; x14; x80; x18; xb1; x14; x80; x00; x18; x14; x80;
  x47; x21; x14; x80; x7f; x90; x14; x80; x09; x92; x14; x80;
  xa3; x91; x14; x80; x06; x93; x14; x80; x18; xb1; x14; x80;
  x00; x18; x14; x80; x3c; x20; x14; x80; x07; xd7; x14; x80;
  x21; x41; x14; x80; x06; xd7; x14; x80; xfc; x40; x14; x80;
  x0a; xd7; x14; x80; xb5; x40; x14; x80; x28; xd0; x14; x80;
  xc1; xd1; x14; x80; x00; x18; x14; x80; x57; x80; x14; x80;
  x7b; xd0; x14; x80; xc5; xd1; x14; x80; x03; xd5; x14; x80;
  x08; xa1; x14; x80; x05; xd5; x14; x80; x03; x81; x14; x80;
  x04; xd5; x14; x80; x02; xa0; x14; x80; x02; xa3; x14; x80;
  x07; xd7; x14; x80; x61; x40; x14; x80; x03; xd5; x14; x80;
  x01; x8b; x14; x80; x00; xd5; x14; x80; x8a; xc4; x14; x80;
  x03; xd5; x14; x80; x09; xcc; x14; x80; x58; xcd; x14; x80;
  x01; xaf; x14; x80; x00; xd5; x14; x80; x10; xbe; x14; x80;
  x00; x10; x14; x80; x39; x17; x14; x80; x19; xd7; x14; x80;
  x6c; x60; x14; x80; x04; xd7; x14; x80; x5c; x64; x14; x80;
  x5e; xd7; x14; x80; x4d; x60; x14; x80; xf8; xff; x14; x80;
  x10; x9e; x14; x80; x00; x10; x14; x80; x39; x17; x14; x80;
  x19; xd7; x14; x80; x6c; x60; x14; x80; x04; xd7; x14; x80;
  x1c; x63; x14; x80; x5e; xd7; x14; x80; x4d; x40; x14; x80;
  xf8; xff; x14; x80; x04; xd5; x14; x80; x18; xaa; x14; x80;
  x01; xa0; x14; x80; xe0; xa1; x14; x80; x00; xd5; x14; x80;
  x00; x10; x14; x80; x39; x17; x14; x80; x19; xd7; x14; x80;
  xac; x7f; x14; x80; x04; xd5; x14; x80; x01; xa0; x14; x80;
  x00; xd5; x14; x80; x00; x10; x14; x80; x39; x17; x14; x80;
  x04; xd7; x14; x80; x5c; x5f; x14; x80; x19; xd7; x14; x80;
  xaf; x3a; x14; x80; x91; x80; x14; x80; x16; xf0; x14; x80;
  x07; xd7; x14; x80; x21; x61; x14; x80; x00; x10; x14; x80;
  xd8; x16; x14; x80; x03; xd5; x14; x80; x59; xcd; x14; x80;
  x01; xaf; x14; x80; x00; xd5; x14; x80; x00; x18; x14; x80;
  xdc; x0d; x14; x80; x03; xd5; x14; x80; x40; x80; x14; x80;
  x00; xd5; x14; x80; x00; x10; x14; x80; xd8; x16; x14; x80;
  x03; xd5; x14; x80; x5a; xcd; x14; x80; x01; xaf; x14; x80;
  x00; xd5; x14; x80; x00; x18; x14; x80; xbf; x0d; x14; x80;
  x04; xd5; x14; x80; x08; xa0; x14; x80; x04; xa2; x14; x80;
  x00; xd5; x14; x80; x00; x10; x14; x80; x39; x17; x14; x80;
  x01; xd7; x14; x80; xa0; x5f; x14; x80; x03; xd5; x14; x80;
  x82; xa0; x14; x80; x00; xd5; x14; x80; x1e; xd7; x14; x80;
  x97; x40; x14; x80; x78; xd0; x14; x80; xaa; xd1; x14; x80;
  x03; xf0; x14; x80; x78; xd0; x14; x80; xaa; xd1; x14; x80;
  x07; xd7; x14; x80; xc1; x40; x14; x80; x06; xd7; x14; x80;
  x9c; x40; x14; x80; x0a; xd7; x14; x80; x55; x40; x14; x80;
  x10; xf0; x14; x80; x06; xd7; x14; x80; x65; x60; x14; x80;
  x89; xcc; x14; x80; x02; xf0; x14; x80; x8b; xcc; x14; x80;
  x00; x10; x14; x80; x7b; x0b; x14; x80; x05; xd7; x14; x80;
  xd0; x2a; x14; x80; xca; x80; x14; x80; x03; xf0; x14; x80;
  x00; x10; x14; x80; x81; x0b; x14; x80; x00; x10; x14; x80;
  x87; x0b; x14; x80; x00; x10; x14; x80; x53; x0c; x14; x80;
  x00; x18; x14; x80; xd7; x12; x14; x80; x26; xa0; x13; x80;
  x5d; x12; x14; x80; x24; xa0; x13; x80; x33; x20; x14; x80;
  x22; xa0; x13; x80; x3f; x21; x14; x80; x20; xa0; x13; x80;
  x4c; x14; x14; x80; x06; xa0; x13; x80; x98; x1b; x14; x80;
  x04; xa0; x13; x80; x8b; x13; x14; x80; x02; xa0; x13; x80;
  xc4; x10; x14; x80; x00; xa0; x13; x80; x79; x10; x14; x80;
  x08; xa0; x13; x80; x00; xff; x14; x80; x16; xa0; x13; x80;
  x00; x00; x14; x80; x12; xa0; x13; x80; xf8; x0f; x14; x80;
  x14; xa0; x13; x80; x4d; xd0; x14; x80; x00; x00; x14; x80;
  x00; x00; x14; x80; x00; x00; x14; x80; x00; x00; x14; x80;
  x00; x00; x14; x80; x00; x00; x14; x80; x00; x00; x14; x80;
  x52; xa1; x13; x80; xdc; x12; x14; x80; x54; xa1; x13; x80;
  xff; x3f; x14; x80; x56; xa1; x13; x80; xff; x3f; x14; x80;
  x58; xa1; x13; x80; xff; x3f; x14; x80; x5a; xa1; x13; x80;
  xff; x3f; x14; x80; x5c; xa1; x13; x80; xff; x3f; x14; x80;
  x5e; xa1; x13; x80; xff; x3f; x14; x80; x60; xa1; x13; x80;
  xff; x3f; x14; x80; x50; xa1; x13; x80; x01; x00; x14; x80;
  x16; xa0; x13; x80; x20; x00; x14; x80; x12; xa0; x13; x80;
  x00; x00; x14; x80; x14; xa0; x13; x80; x00; x18; x14; x80;
  x10; x80; x14; x80; x00; x18; x14; x80; x1a; x80; x14; x80;
  x00; x18; x14; x80; x22; x80; x14; x80; x00; x18; x14; x80;
  x23; x82; x14; x80; x00; x18; x14; x80; x22; x83; x14; x80;
  x00; x18; x14; x80; x4f; x85; x14; x80; x00; x18; x14; x80;
  x09; x86; x14; x80; x00; x18; x14; x80; x9f; x86; x14; x80;
  x06; xd7; x14; x80; xa9; x60; x14; x80; x00; xd7; x14; x80;
  xa1; x60; x14; x80; x00; x18; x14; x80; x62; x09; x14; x80;
  x00; x18; x14; x80; x62; x09; x14; x80; x00; x18; x14; x80;
  x82; x09; x14; x80; x0a; x80; x14; x80; x1f; x0c; x14; x80;
  x00; x0d; x14; x80; xc0; x8d; x14; x80; x00; x10; x14; x80;
  xb5; x12; x14; x80; x00; x18; x14; x80; x99; x0f; x14; x80;
  x02; xd7; x14; x80; xc1; x61; x14; x80; x02; xd7; x14; x80;
  x60; x40; x14; x80; x0d; xd7; x14; x80; x5d; x41; x14; x80;
  x01; xd7; x14; x80; x1a; x61; x14; x80; x10; x87; x14; x80;
  x03; x0c; x14; x80; x02; x15; x14; x80; x80; x82; x14; x80;
  x80; x87; x14; x80; x03; x95; x14; x80; x02; xf0; x14; x80;
  x10; xa7; x14; x80; x80; x95; x14; x80; x03; x0c; x14; x80;
  x02; x15; x14; x80; x04; xa3; x14; x80; x03; x95; x14; x80;
  x1f; x0c; x14; x80; x07; x0d; x14; x80; xc0; x8d; x14; x80;
  x00; x10; x14; x80; xb5; x12; x14; x80; x81; xcb; x14; x80;
  x0c; xd7; x14; x80; xe2; x48; x14; x80; x06; xd7; x14; x80;
  x7a; x40; x14; x80; x0c; xd7; x14; x80; x67; x48; x14; x80;
  x06; xd7; x14; x80; x5a; x40; x14; x80; x10; x89; x14; x80;
  x10; xa2; x14; x80; x04; xd7; x14; x80; x1c; x61; x14; x80;
  xc0; x0c; x14; x80; x80; x00; x14; x80; x03; x0c; x14; x80;
  x01; x01; x14; x80; xe0; x0c; x14; x80; xa0; x03; x14; x80;
  xb5; xcc; x14; x80; xc0; x0c; x14; x80; x80; x00; x14; x80;
  x03; x0c; x14; x80; x02; x01; x14; x80; xe0; x0c; x14; x80;
  x40; x03; x14; x80; x52; xcc; x14; x80; x06; xd7; x14; x80;
  xda; x42; x14; x80; x03; x0c; x14; x80; x02; x15; x14; x80;
  x1f; x0c; x14; x80; x1c; x0f; x14; x80; x03; x95; x14; x80;
  x00; x10; x14; x80; x6b; x12; x14; x80; x0c; xd7; x14; x80;
  xb3; x5f; x14; x80; x03; x0c; x14; x80; x02; x15; x14; x80;
  x1f; x8f; x14; x80; x03; x95; x14; x80; x00; x10; x14; x80;
  x6b; x12; x14; x80; x0c; xd7; x14; x80; x33; x7f; x14; x80;
  x90; x81; x14; x80; x04; x82; x14; x80; x00; x18; x14; x80;
  x85; x80; x14; x80; x03; x0c; x14; x80; x02; x15; x14; x80;
  x1f; x0c; x14; x80; x1b; x0f; x14; x80; x03; x95; x14; x80;
  x00; x10; x14; x80; x6b; x12; x14; x80; x0c; xd7; x14; x80;
  xb3; x5f; x14; x80; x03; x0c; x14; x80; x02; x15; x14; x80;
  x1f; x8f; x14; x80; x03; x95; x14; x80; x00; x10; x14; x80;
  x6b; x12; x14; x80; x0c; xd7; x14; x80; x33; x7f; x14; x80;
  x0c; xd7; x14; x80; x67; x60; x14; x80; x00; x18; x14; x80;
  x85; x80; x14; x80; x00; x18; x14; x80; x90; x80; x14; x80;
  x03; xd4; x14; x80; x00; x10; x14; x80; x03; x12; x14; x80;
  x82; xcb; x14; x80; x0a; xd4; x14; x80; x00; x10; x14; x80;
  x03; x12; x14; x80; x0c; xd7; x14; x80; x67; x42; x14; x80;
  x00; x10; x14; x80; x1d; x13; x14; x80; x40; x8a; x14; x80;
  x00; x10; x14; x80; x0e; x12; x14; x80; x04; xa1; x14; x80;
  x00; x10; x14; x80; x20; x12; x14; x80; x04; x81; x14; x80;
  x00; x10; x14; x80; x17; x12; x14; x80; x03; x0c; x14; x80;
  x02; x15; x14; x80; x04; xa7; x14; x80; x03; x95; x14; x80;
  x88; xcb; x14; x80; x00; x18; x14; x80; xa9; x81; x14; x80;
  x02; xd7; x14; x80; x21; x61; x14; x80; x02; xd7; x14; x80;
  x60; x40; x14; x80; x0d; xd7; x14; x80; xbd; x40; x14; x80;
  x01; xd7; x14; x80; x7a; x60; x14; x80; x00; x18; x14; x80;
  xac; x80; x14; x80; x00; x18; x14; x80; x98; x81; x14; x80;
  x10; xa2; x14; x80; x10; x8a; x14; x80; x06; xd7; x14; x80;
  x3e; x64; x14; x80; x1f; x0c; x14; x80; x04; x0d; x14; x80;
  xc0; x8d; x14; x80; x00; x10; x14; x80; xb5; x12; x14; x80;
  xc0; x0c; x14; x80; x40; x00; x14; x80; x03; x0c; x14; x80;
  x02; x01; x14; x80; xe0; x0c; x14; x80; xe0; x03; x14; x80;
  xce; xcc; x14; x80; x0a; xa0; x14; x80; x80; xa2; x14; x80;
  x10; xd1; x14; x80; x4c; xd0; x14; x80; xa0; xcb; x14; x80;
  x00; x10; x14; x80; x6b; x12; x14; x80; x00; xd7; x14; x80;
  xb4; x5f; x14; x80; x10; x87; x14; x80; x0f; xaa; x14; x80;
  x30; xa1; x14; x80; x2f; xaa; x14; x80; xd5; xa2; x14; x80;
  x05; xa4; x14; x80; x20; xa7; x14; x80; x0a; xa0; x14; x80].

Definition rtl8126a_3_fw_3 : list byte := [
  xa1; xcb; x14; x80; x00; x18; x14; x80; xf6; x80; x14; x80;
  x04; xd7; x14; x80; xf1; x3c; x14; x80; xd7; x80; x14; x80;
  x1f; x0c; x14; x80; x02; x0d; x14; x80; x00; x18; x14; x80;
  xd9; x80; x14; x80; x1f; x0c; x14; x80; x01; x0d; x14; x80;
  xc0; x0c; x14; x80; x40; x0d; x14; x80; x00; x10; x14; x80;
  xb5; x12; x14; x80; x10; x87; x14; x80; x00; x10; x14; x80;
  x0e; x12; x14; x80; x08; xa1; x14; x80; x00; x10; x14; x80;
  x20; x12; x14; x80; x08; x81; x14; x80; x03; xa2; x14; x80;
  x2f; x8a; x14; x80; x30; xa1; x14; x80; x04; x82; x14; x80;
  x40; xa1; x14; x80; x00; x10; x14; x80; x20; x12; x14; x80;
  x40; x81; x14; x80; x00; x10; x14; x80; x17; x12; x14; x80;
  xa2; xcb; x14; x80; x7a; xd1; x14; x80; x4b; xd0; x14; x80;
  x00; x10; x14; x80; x6b; x12; x14; x80; x00; xd7; x14; x80;
  xb4; x5f; x14; x80; x04; xa2; x14; x80; x00; x10; x14; x80;
  x6b; x12; x14; x80; x00; xd7; x14; x80; xa7; x5f; x14; x80;
  x20; xb9; x14; x80; x00; x10; x14; x80; x6b; x12; x14; x80;
  x1f; xd7; x14; x80; xb4; x7f; x14; x80; x20; x99; x14; x80;
  x00; x10; x14; x80; x6b; x12; x14; x80; x1f; xd7; x14; x80;
  x45; x61; x14; x80; x74; x60; x14; x80; x00; x18; x14; x80;
  x00; x81; x14; x80; x00; x10; x14; x80; x6b; x12; x14; x80;
  x00; xd7; x14; x80; xa7; x5f; x14; x80; x00; x18; x14; x80;
  xfa; x80; x14; x80; x20; xb8; x14; x80; x00; x10; x14; x80;
  x6b; x12; x14; x80; x1f; xd7; x14; x80; xa5; x7f; x14; x80;
  x20; x98; x14; x80; x01; x9b; x14; x80; x02; xd4; x14; x80;
  x00; x10; x14; x80; x03; x12; x14; x80; x01; xd7; x14; x80;
  xb1; x33; x14; x80; x20; x81; x14; x80; x01; xd7; x14; x80;
  xb5; x60; x14; x80; x06; xd7; x14; x80; x69; x60; x14; x80;
  x00; x18; x14; x80; x22; x81; x14; x80; x00; x18; x14; x80;
  x88; x81; x14; x80; x0c; xd7; x14; x80; xab; x40; x14; x80;
  x0a; x80; x14; x80; x10; x81; x14; x80; x84; x82; x14; x80;
  x04; x84; x14; x80; x10; xa7; x14; x80; x20; x81; x14; x80;
  x41; x82; x14; x80; x00; x10; x14; x80; x0e; x12; x14; x80;
  x04; xa1; x14; x80; x00; x10; x14; x80; x20; x12; x14; x80;
  x04; x81; x14; x80; x00; x10; x14; x80; x17; x12; x14; x80;
  x2f; xaa; x14; x80; xa3; xcb; x14; x80; x0c; xd7; x14; x80;
  x8b; x43; x14; x80; x84; xa2; x14; x80; x78; xd0; x14; x80;
  x0a; x80; x14; x80; x10; x81; x14; x80; x84; xa2; x14; x80;
  x04; x84; x14; x80; x03; x0c; x14; x80; x02; x15; x14; x80;
  x08; xa1; x14; x80; x03; x95; x14; x80; x03; x0c; x14; x80;
  x02; x15; x14; x80; x1f; x0c; x14; x80; x19; x0f; x14; x80;
  x03; x95; x14; x80; x00; x10; x14; x80; x6b; x12; x14; x80;
  x0c; xd7; x14; x80; xb3; x5f; x14; x80; x03; x0c; x14; x80;
  x02; x15; x14; x80; x1f; x8f; x14; x80; x03; x95; x14; x80;
  x00; x10; x14; x80; x6b; x12; x14; x80; x0c; xd7; x14; x80;
  x33; x7f; x14; x80; x1f; x0c; x14; x80; x07; x0d; x14; x80;
  xc0; x8d; x14; x80; x00; x10; x14; x80; xb5; x12; x14; x80;
  x10; x81; x14; x80; x84; xa2; x14; x80; x04; xa4; x14; x80;
  x0a; xa0; x14; x80; xa4; xcb; x14; x80; x0c; xd7; x14; x80;
  xa1; x40; x14; x80; x03; x0c; x14; x80; x02; x15; x14; x80;
  x10; xad; x14; x80; x03; x95; x14; x80; x0c; xd7; x14; x80;
  x4b; x41; x14; x80; xc0; x0c; x14; x80; x80; x00; x14; x80;
  x03; x0c; x14; x80; x02; x01; x14; x80; xe0; x0c; x14; x80;
  x40; x03; x14; x80; x52; xcc; x14; x80; x00; x18; x14; x80;
  x71; x81; x14; x80; xc0; x80; x14; x80; x03; x81; x14; x80;
  xe0; x83; x14; x80; xff; x8c; x14; x80; x93; xd1; x14; x80;
  x47; xd0; x14; x80; x00; x10; x14; x80; x6b; x12; x14; x80;
  x00; xd7; x14; x80; xb4; x5f; x14; x80; x10; xa1; x14; x80;
  xa5; xcb; x14; x80; x00; x10; x14; x80; x6b; x12; x14; x80;
  x00; xd7; x14; x80; xaa; x5f; x14; x80; x80; xa1; x14; x80;
  x00; xd7; x14; x80; x41; x60; x14; x80; x02; xa4; x14; x80;
  xa6; xcb; x14; x80; xf5; xd1; x14; x80; x49; xd0; x14; x80;
  x00; x10; x14; x80; x6b; x12; x14; x80; x00; xd7; x14; x80;
  xb4; x5f; x14; x80; x10; x87; x14; x80; x0a; xa0; x14; x80;
  x90; xa1; x14; x80; x04; xa2; x14; x80; x80; xa2; x14; x80;
  x04; xa4; x14; x80; xa7; xcb; x14; x80; x80; xbb; x14; x80;
  x00; x10; x14; x80; x6b; x12; x14; x80; x1f; xd7; x14; x80;
  xb4; x5f; x14; x80; x20; xb9; x14; x80; x80; x9b; x14; x80;
  x00; x18; x14; x80; xd7; x81; x14; x80; x10; xa2; x14; x80;
  x0a; xa0; x14; x80; x40; xaa; x14; x80; x00; x10; x14; x80;
  x0e; x12; x14; x80; x04; xa1; x14; x80; x00; x10; x14; x80;
  x20; x12; x14; x80; x04; x81; x14; x80; x00; x10; x14; x80;
  x17; x12; x14; x80; x90; xa1; x14; x80; x84; xa2; x14; x80;
  x04; xa4; x14; x80; x10; x8a; x14; x80; x80; x8a; x14; x80;
  x84; xcb; x14; x80; x3e; xd1; x14; x80; x5a; xd0; x14; x80;
  x3e; xd1; x14; x80; x6b; xd0; x14; x80; x00; x10; x14; x80;
  x6b; x12; x14; x80; x00; xd7; x14; x80; x59; x35; x14; x80;
  xb4; x81; x14; x80; x00; x18; x14; x80; xad; x81; x14; x80;
  x00; xd7; x14; x80; x4b; x60; x14; x80; x8a; xcb; x14; x80;
  x00; x10; x14; x80; x6b; x12; x14; x80; x00; xd7; x14; x80;
  x59; x36; x14; x80; xbe; x81; x14; x80; x00; x18; x14; x80;
  xb7; x81; x14; x80; x00; xd7; x14; x80; x6b; x60; x14; x80;
  x8b; xcb; x14; x80; xcb; x5e; x14; x80; x00; xd7; x14; x80;
  x41; x60; x14; x80; x02; xa4; x14; x80; x8c; xcb; x14; x80;
  x06; xd7; x14; x80; xba; x60; x14; x80; x79; xd1; x14; x80;
  x49; xd0; x14; x80; x00; x18; x14; x80; xce; x81; x14; x80;
  x60; xd1; x14; x80; x4b; xd0; x14; x80; x00; x10; x14; x80;
  x6b; x12; x14; x80; x00; xd7; x14; x80; xb4; x5f; x14; x80;
  x8d; xcb; x14; x80; x10; x87; x14; x80; x1f; xd7; x14; x80;
  xd4; x5f; x14; x80; x20; xb9; x14; x80; x00; x10; x14; x80;
  x6b; x12; x14; x80; x1f; xd7; x14; x80; xb4; x7f; x14; x80;
  x20; x99; x14; x80; x00; x10; x14; x80; x6b; x12; x14; x80;
  x1f; xd7; x14; x80; x45; x61; x14; x80; x74; x60; x14; x80;
  x00; x18; x14; x80; xdc; x81; x14; x80; x00; x10; x14; x80;
  x6b; x12; x14; x80; x00; xd7; x14; x80; xab; x5f; x14; x80;
  x00; x18; x14; x80; xd6; x81; x14; x80; x10; xa7; x14; x80;
  x20; xb8; x14; x80; x00; x10; x14; x80; x6b; x12; x14; x80;
  x1f; xd7; x14; x80; xa5; x7f; x14; x80; x20; x98; x14; x80;
  x14; xd1; x14; x80; x40; xd0; x14; x80; x00; x10; x14; x80;
  x6b; x12; x14; x80; x00; xd7; x14; x80; xba; x5f; x14; x80;
  x04; xd7; x14; x80; x76; x5f; x14; x80; x00; xd7; x14; x80;
  x34; x5f; x14; x80; x00; xd7; x14; x80; x81; x60; x14; x80;
  x06; xd7; x14; x80; x5a; x40; x14; x80; x80; xa4; x14; x80;
  x86; xcb; x14; x80; x06; xd7; x14; x80; xba; x60; x14; x80;
  xc8; xd1; x14; x80; x45; xd0; x14; x80; x00; x18; x14; x80;
  x08; x82; x14; x80; x7a; xd1; x14; x80; x4b; xd0; x14; x80;
  x00; x10; x14; x80; x6b; x12; x14; x80; x00; xd7; x14; x80;
  xb4; x5f; x14; x80; xc0; x0c; x14; x80; x00; x00; x14; x80;
  x03; x0c; x14; x80; x01; x01; x14; x80; xe0; x0c; x14; x80;
  x20; x03; x14; x80; x29; xcc; x14; x80; x08; xa2; x14; x80;
  x04; x82; x14; x80; x04; xd7; x14; x80; xf5; x40; x14; x80;
  x03; x0c; x14; x80; x02; x15; x14; x80; x80; xa2; x14; x80;
  x80; x87; x14; x80; x03; x95; x14; x80; x04; x8e; x14; x80;
  x14; xd1; x14; x80; x40; xd0; x14; x80; x00; xd7; x14; x80;
  xf4; x5f; x14; x80; x00; x18; x14; x80; x3e; x0c; x14; x80;
  x06; xd7; x14; x80; x9d; x60; x14; x80; x17; xd4; x14; x80;
  x00; x10; x14; x80; x03; x12; x14; x80; x00; x10; x14; x80;
  x6b; x12; x14; x80; x00; x10; x14; x80; x89; x12; x14; x80;
  x00; xd7; x14; x80; x7a; x5f; x14; x80; x04; xd7; x14; x80;
  x36; x5f; x14; x80; x06; xd7; x14; x80; x89; x60; x14; x80;
  x0c; xd4; x14; x80; x00; x10; x14; x80; x03; x12; x14; x80;
  x40; xaa; x14; x80; x10; xbb; x14; x80; x50; xcb; x14; x80;
  x03; x0c; x14; x80; x02; x15; x14; x80; x10; xa3; x14; x80;
  x03; x95; x14; x80; x5f; xcb; x14; x80; x00; x10; x14; x80;
  x6b; x12; x14; x80; x00; x10; x14; x80; x89; x12; x14; x80;
  x1f; xd7; x14; x80; x75; x5f; x14; x80; x90; x81; x14; x80;
  xa0; x82; x14; x80; x02; x84; x14; x80; x04; xa4; x14; x80;
  x0a; x80; x14; x80; x18; x87; x14; x80; x10; x9b; x14; x80;
  x20; x9b; x14; x80; x00; x10; x14; x80; x6b; x12; x14; x80;
  x1f; xd7; x14; x80; xb5; x7f; x14; x80; x51; xcb; x14; x80;
  x00; x10; x14; x80; x6b; x12; x14; x80; x1f; xd7; x14; x80;
  x94; x5f; x14; x80; x06; xd7; x14; x80; xa9; x61; x14; x80;
  x02; xd7; x14; x80; xa1; x40; x14; x80; x06; xd7; x14; x80;
  x79; x40; x14; x80; x06; xd7; x14; x80; x9d; x60; x14; x80;
  x41; xd1; x14; x80; x43; xd0; x14; x80; x06; xf0; x14; x80;
  x01; xd1; x14; x80; x40; xd0; x14; x80; x03; xf0; x14; x80;
  x41; xd1; x14; x80; x44; xd0; x14; x80; x00; x10; x14; x80;
  x6b; x12; x14; x80; x00; xd7; x14; x80; xb4; x5f; x14; x80;
  x00; xd7; x14; x80; xe5; x60; x14; x80; x04; xd7; x14; x80;
  xbe; x60; x14; x80; x06; xd7; x14; x80; xb1; x29; x14; x80;
  x70; x82; x14; x80; x02; xf0; x14; x80; x80; xa8; x14; x80;
  x0a; xa0; x14; x80; x90; xa1; x14; x80; x20; x82; x14; x80;
  x80; xa2; x14; x80; x04; xa4; x14; x80; x20; xa6; x14; x80;
  x03; x0c; x14; x80; x02; x15; x14; x80; xaa; xc5; x14; x80;
  x03; x95; x14; x80; x00; xd7; x14; x80; x61; x60; x14; x80;
  x02; xa4; x14; x80; x80; xa4; x14; x80; x52; xcb; x14; x80;
  x00; x10; x14; x80; x6b; x12; x14; x80; x00; xd7; x14; x80;
  xba; x5f; x14; x80; x04; xd7; x14; x80; x76; x5f; x14; x80;
  x20; xb9; x14; x80; x53; xcb; x14; x80; x00; x10; x14; x80].

Definition rtl8126a_3_fw_4 : list byte := [
  x6b; x12; x14; x80; x1f; xd7; x14; x80; xb4; x7f; x14; x80;
  x20; x99; x14; x80; x0a; xa0; x14; x80; x90; xa1; x14; x80;
  x80; xa2; x14; x80; x20; x82; x14; x80; x04; xa4; x14; x80;
  x80; xb5; x14; x80; x00; xd7; x14; x80; xa1; x40; x14; x80;
  x03; x0c; x14; x80; x02; x15; x14; x80; x02; xa6; x14; x80;
  x03; x95; x14; x80; x03; x0c; x14; x80; x02; x15; x14; x80;
  x10; xa3; x14; x80; x03; x95; x14; x80; x60; xcb; x14; x80;
  x01; xd1; x14; x80; x40; xd0; x14; x80; x00; x10; x14; x80;
  x6b; x12; x14; x80; x00; xd7; x14; x80; xb4; x5f; x14; x80;
  x10; xaa; x14; x80; x0c; xd7; x14; x80; x33; x28; x14; x80;
  xa9; x82; x14; x80; x03; xf0; x14; x80; x00; x10; x14; x80;
  x30; x13; x14; x80; x0c; xd7; x14; x80; xa6; x40; x14; x80;
  x03; x0c; x14; x80; x02; x15; x14; x80; x40; xa1; x14; x80;
  x03; x95; x14; x80; x0c; xd7; x14; x80; xa3; x40; x14; x80;
  x03; x0c; x14; x80; x02; x15; x14; x80; x20; xac; x14; x80;
  x03; x95; x14; x80; x0c; xa9; x14; x80; x80; xaa; x14; x80;
  x1f; x0c; x14; x80; x07; x0d; x14; x80; xc0; x8d; x14; x80;
  x00; x10; x14; x80; xb5; x12; x14; x80; x0a; xa0; x14; x80;
  x90; xa1; x14; x80; x80; xa2; x14; x80; x20; x82; x14; x80;
  x04; xa4; x14; x80; x80; xb5; x14; x80; x03; x0c; x14; x80;
  x02; x15; x14; x80; x00; xc5; x14; x80; x03; x95; x14; x80;
  xe0; x83; x14; x80; x01; x8e; x14; x80; x00; xd7; x14; x80;
  xa1; x40; x14; x80; x03; x0c; x14; x80; x02; x15; x14; x80;
  x02; xa6; x14; x80; x03; x95; x14; x80; x4a; xd1; x14; x80;
  x58; xd0; x14; x80; x00; x10; x14; x80; xd7; x12; x14; x80;
  x0c; xd7; x14; x80; x63; x40; x14; x80; x00; x10; x14; x80;
  xea; x12; x14; x80; x6f; xcb; x14; x80; x00; x10; x14; x80;
  x6b; x12; x14; x80; x04; xd7; x14; x80; x70; x2e; x14; x80;
  x17; x83; x14; x80; x1f; xd7; x14; x80; x6e; x67; x14; x80;
  x04; xd7; x14; x80; x68; x38; x14; x80; xf2; x82; x14; x80;
  x06; xd7; x14; x80; xc2; x61; x14; x80; x0c; xd7; x14; x80;
  x18; x2f; x14; x80; xf8; x82; x14; x80; x00; xd7; x14; x80;
  x35; x5d; x14; x80; x03; x0c; x14; x80; x02; x15; x14; x80;
  xaa; xc5; x14; x80; x03; x95; x14; x80; xe0; x0c; x14; x80;
  x20; x03; x14; x80; x00; x18; x14; x80; xfe; x82; x14; x80;
  x03; x0c; x14; x80; x02; x15; x14; x80; xaa; xc5; x14; x80;
  x03; x95; x14; x80; x00; x18; x14; x80; x1e; x83; x14; x80;
  x03; x0c; x14; x80; x02; x15; x14; x80; xaa; xc5; x14; x80;
  x03; x95; x14; x80; x00; x18; x14; x80; x20; x83; x14; x80;
  x00; x10; x14; x80; xd7; x12; x14; x80; x02; xae; x14; x80;
  x0c; xd7; x14; x80; x63; x40; x14; x80; x00; x10; x14; x80;
  xea; x12; x14; x80; x61; xcb; x14; x80; x00; x10; x14; x80;
  x6b; x12; x14; x80; x04; xd7; x14; x80; x70; x2e; x14; x80;
  x17; x83; x14; x80; x04; xd7; x14; x80; x68; x38; x14; x80;
  x1e; x83; x14; x80; x06; xd7; x14; x80; xe2; x61; x14; x80;
  x1f; xd7; x14; x80; x2e; x61; x14; x80; x0c; xd7; x14; x80;
  x18; x2f; x14; x80; x20; x83; x14; x80; x00; x18; x14; x80;
  xfe; x82; x14; x80; x02; x8e; x14; x80; x00; x18; x14; x80;
  x99; x0f; x14; x80; x04; xae; x14; x80; x10; x83; x14; x80;
  x00; x18; x14; x80; x31; x0e; x14; x80; x00; x18; x14; x80;
  x9c; x85; x14; x80; x00; x18; x14; x80; x07; x0e; x14; x80;
  x00; x10; x14; x80; xbe; x17; x14; x80; x0c; xd7; x14; x80;
  xa4; x5f; x14; x80; x06; xa7; x14; x80; x0c; xd7; x14; x80;
  x4b; x40; x14; x80; x80; xa8; x14; x80; x01; x88; x14; x80;
  x01; x8e; x14; x80; x50; xca; x14; x80; x00; x10; x14; x80;
  xc5; x83; x14; x80; x51; xca; x14; x80; x0e; xd7; x14; x80;
  x10; x22; x14; x80; xc3; x83; x14; x80; x0c; xd7; x14; x80;
  x84; x40; x14; x80; x05; xd7; x14; x80; xfd; x5e; x14; x80;
  x07; xf0; x14; x80; x00; x10; x14; x80; xc2; x17; x14; x80;
  x0c; xd7; x14; x80; xe2; x5c; x14; x80; x00; x18; x14; x80;
  x92; x16; x14; x80; x0c; xd7; x14; x80; x5a; x60; x14; x80;
  x10; x9a; x14; x80; x40; x8e; x14; x80; x04; x84; x14; x80;
  x00; x10; x14; x80; x27; x18; x14; x80; x80; x8e; x14; x80;
  x62; xca; x14; x80; x05; xd7; x14; x80; x84; x30; x14; x80;
  xa5; x83; x14; x80; x10; xba; x14; x80; x00; x00; x14; x80;
  x00; x00; x14; x80; x00; x10; x14; x80; x9e; x84; x14; x80;
  x03; x0c; x14; x80; x00; x01; x14; x80; x02; xd7; x14; x80;
  x38; x46; x14; x80; xc4; xd1; x14; x80; x44; xd0; x14; x80;
  x00; x10; x14; x80; xbe; x17; x14; x80; x00; x10; x14; x80;
  xe8; x17; x14; x80; x0c; xd7; x14; x80; x7c; x5f; x14; x80;
  x08; x81; x14; x80; x1f; x0c; x14; x80; x07; x09; x14; x80;
  x40; x89; x14; x80; x00; x10; x14; x80; xdb; x17; x14; x80;
  xc4; xa0; x14; x80; x10; x86; x14; x80; x30; x80; x14; x80;
  x06; x87; x14; x80; x07; x0c; x14; x80; x06; x0b; x14; x80;
  x10; x84; x14; x80; x80; xa9; x14; x80; x02; xa7; x14; x80;
  xc4; xd1; x14; x80; x45; xd0; x14; x80; x00; x10; x14; x80;
  xbe; x17; x14; x80; x00; x10; x14; x80; xe8; x17; x14; x80;
  x0c; xd7; x14; x80; x7c; x5f; x14; x80; x07; x0c; x14; x80;
  x06; x0b; x14; x80; x30; xa0; x14; x80; x10; xa6; x14; x80;
  x00; xd7; x14; x80; x41; x60; x14; x80; x01; xa5; x14; x80;
  x08; xa1; x14; x80; xc4; xd1; x14; x80; x45; xd0; x14; x80;
  x63; xca; x14; x80; x00; x10; x14; x80; xbe; x17; x14; x80;
  x00; x10; x14; x80; xe8; x17; x14; x80; x0c; xd7; x14; x80;
  x7c; x5f; x14; x80; x02; xd7; x14; x80; x78; x60; x14; x80;
  x20; x99; x14; x80; x03; xf0; x14; x80; x20; xb9; x14; x80;
  x80; xa8; x14; x80; x10; x9a; x14; x80; x00; x10; x14; x80;
  xbe; x17; x14; x80; x00; x10; x14; x80; xe8; x17; x14; x80;
  x1f; xd7; x14; x80; x73; x5f; x14; x80; x11; xf0; x14; x80;
  x0c; xd7; x14; x80; x9b; x40; x14; x80; x20; x99; x14; x80;
  x10; x9a; x14; x80; xf5; xff; x14; x80; xfe; x80; x14; x80;
  x10; x86; x14; x80; x01; x85; x14; x80; x80; x89; x14; x80;
  x02; x87; x14; x80; x10; xa4; x14; x80; x40; xa9; x14; x80;
  xc0; x81; x14; x80; x80; xae; x14; x80; x00; x18; x14; x80;
  x4a; x83; x14; x80; x04; x88; x14; x80; x04; xa7; x14; x80;
  x88; x87; x14; x80; x82; xff; x14; x80; x08; xbb; x14; x80;
  x1f; x0c; x14; x80; x07; x09; x14; x80; x40; x89; x14; x80;
  x00; x10; x14; x80; xdb; x17; x14; x80; x01; x87; x14; x80;
  x02; x85; x14; x80; xf4; xa0; x14; x80; x10; xa6; x14; x80;
  x00; xd7; x14; x80; x61; x60; x14; x80; x02; xa0; x14; x80;
  x01; xa5; x14; x80; x06; x87; x14; x80; x10; x84; x14; x80;
  x80; xa9; x14; x80; x64; xca; x14; x80; x10; xd1; x14; x80;
  x40; xd0; x14; x80; x00; x10; x14; x80; xbe; x17; x14; x80;
  x00; x10; x14; x80; xe8; x17; x14; x80; x0c; xd7; x14; x80;
  x7c; x5f; x14; x80; x04; x88; x14; x80; x06; xa7; x14; x80;
  x00; x18; x14; x80; x26; x83; x14; x80; x00; x18; x14; x80;
  x7c; x14; x14; x80; x05; xd7; x14; x80; x5f; x40; x14; x80;
  x37; xf0; x14; x80; x01; xd7; x14; x80; x59; x42; x14; x80;
  x05; xd7; x14; x80; x34; x62; x14; x80; x0c; xd7; x14; x80;
  xc6; x41; x14; x80; x0d; xd7; x14; x80; x9d; x41; x14; x80;
  x0d; xd7; x14; x80; x7e; x41; x14; x80; x04; xd7; x14; x80;
  x27; x61; x14; x80; x51; x29; x14; x80; xdc; x83; x14; x80;
  x0c; xd7; x14; x80; x83; x40; x14; x80; x0c; xd7; x14; x80;
  x81; x2e; x14; x80; xdc; x83; x14; x80; xc2; xf0; x14; x80;
  xfe; x80; x14; x80; x10; x86; x14; x80; x01; x85; x14; x80;
  x04; x87; x14; x80; x30; x0c; x14; x80; x10; x04; x14; x80;
  x02; xac; x14; x80; x02; xa5; x14; x80; x80; x89; x14; x80;
  x60; xca; x14; x80; x04; xa0; x14; x80; x0c; xd7; x14; x80;
  x65; x60; x14; x80; x00; x18; x14; x80; xec; x83; x14; x80;
  x04; x80; x14; x80; x04; xa8; x14; x80; x0f; x0c; x14; x80;
  x02; x06; x14; x80; x70; x0c; x14; x80; x30; x07; x14; x80;
  x08; xa7; x14; x80; x04; xd7; x14; x80; x9c; x60; x14; x80;
  x1f; x0c; x14; x80; x12; x09; x14; x80; x03; xf0; x14; x80;
  x1f; x0c; x14; x80; x0e; x09; x14; x80; x40; xa9; x14; x80;
  x00; x10; x14; x80; xdb; x17; x14; x80; x80; xa7; x14; x80;
  xa0; xf0; x14; x80; x04; xd7; x14; x80; xab; x63; x14; x80;
  x05; xd7; x14; x80; x71; x43; x14; x80; x02; xd7; x14; x80;
  x9c; x33; x14; x80; x9d; x84; x14; x80; x88; x87; x14; x80;
  x04; x87; x14; x80; x1f; x0c; x14; x80; x07; x09; x14; x80;
  x40; x89; x14; x80; x00; x10; x14; x80; xdb; x17; x14; x80;
  x10; x84; x14; x80; xf4; xa0; x14; x80; x10; xa6; x14; x80;
  x00; xd7; x14; x80; x61; x60; x14; x80; x02; xa0; x14; x80;
  x01; xa5; x14; x80; x06; xa7; x14; x80; x04; x88; x14; x80;
  x80; xa9; x14; x80; x0c; xd7; x14; x80; x85; x60; x14; x80;
  x01; x87; x14; x80; x02; x85; x14; x80; x02; x8c; x14; x80;
  x82; xf0; x14; x80; x0c; xd7; x14; x80; xc5; x60; x14; x80;
  x02; xd7; x14; x80; x53; x60; x14; x80; x7d; xf0; x14; x80;
  x00; x18; x14; x80; x9a; x84; x14; x80; x0d; xd7; x14; x80;
  x1b; x4d; x14; x80; x10; xba; x14; x80; x40; xae; x14; x80;
  xfc; x0c; x14; x80; xb4; x03; x14; x80; xfc; x0c; x14; x80;
  xb4; x05; x14; x80; xc4; xd1; x14; x80; x44; xd0; x14; x80;
  x00; x10; x14; x80; xbe; x17; x14; x80; x00; x10; x14; x80;
  xe8; x17; x14; x80; x0c; xd7; x14; x80; x7c; x5f; x14; x80;
  x06; x87; x14; x80; x80; x82; x14; x80; xe0; xac; x14; x80;
  x80; xa6; x14; x80; x40; xa2; x14; x80; x00; x10; x14; x80;
  xbe; x17; x14; x80; x00; x10; x14; x80; xe8; x17; x14; x80;
  x02; xd7; x14; x80; x79; x5f; x14; x80; x40; x82; x14; x80;
  x02; xd7; x14; x80; x98; x68; x14; x80; x02; xd7; x14; x80;
  x57; x49; x14; x80; x00; x18; x14; x80; x8c; x84; x14; x80].

Definition rtl8126a_3_fw_5 : list byte := [
  xc0; xa1; x14; x80; x3f; x0c; x14; x80; x20; x02; x14; x80;
  xfc; x0c; x14; x80; x0c; x03; x14; x80; xfc; x0c; x14; x80;
  x0c; x05; x14; x80; x08; x81; x14; x80; x40; x86; x14; x80;
  x20; xa1; x14; x80; x40; xa6; x14; x80; x03; x0c; x14; x80;
  x01; x01; x14; x80; x10; xa1; x14; x80; xc4; xd1; x14; x80;
  x44; xd0; x14; x80; x84; xca; x14; x80; x00; x10; x14; x80;
  xbe; x17; x14; x80; x00; x10; x14; x80; xe8; x17; x14; x80;
  x0c; xd7; x14; x80; x7c; x5f; x14; x80; x02; xd7; x14; x80;
  xfc; x60; x14; x80; x10; x82; x14; x80; xe0; x0c; x14; x80;
  x20; x03; x14; x80; xe0; x0c; x14; x80; x20; x05; x14; x80;
  x02; xf0; x14; x80; x10; xa2; x14; x80; xc4; xd1; x14; x80;
  x43; xd0; x14; x80; x00; x10; x14; x80; xbe; x17; x14; x80;
  x00; x10; x14; x80; xe8; x17; x14; x80; x0c; xd7; x14; x80;
  x7c; x5f; x14; x80; x33; x82; x14; x80; xfc; x0c; x14; x80;
  x6c; x03; x14; x80; xfc; x0c; x14; x80; x6c; x05; x14; x80;
  xc4; xd1; x14; x80; x44; xd0; x14; x80; x85; xca; x14; x80;
  x00; x10; x14; x80; xbe; x17; x14; x80; x00; x10; x14; x80;
  xe8; x17; x14; x80; x0c; xd7; x14; x80; x7c; x5f; x14; x80;
  x80; xa6; x14; x80; x40; xa2; x14; x80; x00; x10; x14; x80;
  xbe; x17; x14; x80; x00; x10; x14; x80; xe8; x17; x14; x80;
  x02; xd7; x14; x80; x79; x5f; x14; x80; x40; x82; x14; x80;
  xfc; x0c; x14; x80; x90; x03; x14; x80; xfc; x0c; x14; x80;
  x90; x05; x14; x80; x02; xd7; x14; x80; x58; x60; x14; x80;
  x02; xf0; x14; x80; xc8; xfe; x14; x80; xc0; x81; x14; x80;
  x80; x88; x14; x80; x06; x87; x14; x80; x61; xca; x14; x80;
  xc4; xd1; x14; x80; x54; xd0; x14; x80; x00; x10; x14; x80;
  xbe; x17; x14; x80; x00; x10; x14; x80; xe8; x17; x14; x80;
  x0c; xd7; x14; x80; x7d; x5f; x14; x80; x06; xa7; x14; x80;
  x04; xf0; x14; x80; x88; x87; x14; x80; x04; xa4; x14; x80;
  x02; x87; x14; x80; x00; x08; x14; x80; x43; x84; x14; x80;
  x03; x83; x14; x80; x80; x82; x14; x80; x20; x99; x14; x80;
  xe0; x8c; x14; x80; x04; x80; x14; x80; xc0; xa1; x14; x80;
  x0e; xd7; x14; x80; x4a; x40; x14; x80; x80; xa2; x14; x80;
  x02; xd7; x14; x80; xd0; x3b; x14; x80; xae; x84; x14; x80;
  x3f; x0c; x14; x80; x23; x02; x14; x80; x03; xf0; x14; x80;
  x3f; x0c; x14; x80; x20; x02; x14; x80; xfc; x0c; x14; x80;
  x08; x03; x14; x80; xfc; x0c; x14; x80; x08; x05; x14; x80;
  x08; x81; x14; x80; x40; x86; x14; x80; x20; xa1; x14; x80;
  x40; xa6; x14; x80; x02; xd7; x14; x80; x77; x60; x14; x80;
  x03; x81; x14; x80; x03; xf0; x14; x80; x03; x0c; x14; x80;
  x01; x01; x14; x80; x10; xa1; x14; x80; x02; xd7; x14; x80;
  x77; x60; x14; x80; x08; xa1; x14; x80; x06; xf0; x14; x80;
  x04; xd7; x14; x80; x77; x60; x14; x80; x08; x81; x14; x80;
  x02; xf0; x14; x80; x08; xa1; x14; x80; x93; xd1; x14; x80;
  x45; xd0; x14; x80; x82; xca; x14; x80; x00; x10; x14; x80;
  xbe; x17; x14; x80; x0e; xd7; x14; x80; x6a; x60; x14; x80;
  x00; x10; x14; x80; xe8; x17; x14; x80; x0c; xd7; x14; x80;
  x3c; x5f; x14; x80; x02; xd7; x14; x80; xfc; x60; x14; x80;
  x10; x82; x14; x80; xe0; x0c; x14; x80; x20; x03; x14; x80;
  xe0; x0c; x14; x80; x20; x05; x14; x80; x02; xf0; x14; x80;
  x10; xa2; x14; x80; xc4; xd1; x14; x80; x43; xd0; x14; x80;
  x00; x10; x14; x80; xbe; x17; x14; x80; x0e; xd7; x14; x80;
  x6a; x60; x14; x80; x00; x10; x14; x80; xe8; x17; x14; x80;
  x0c; xd7; x14; x80; x3c; x5f; x14; x80; x02; xd7; x14; x80;
  xd0; x3b; x14; x80; xec; x84; x14; x80; x3f; x0c; x14; x80;
  x0c; x02; x14; x80; x02; xf0; x14; x80; x3f; x82; x14; x80;
  xfc; x0c; x14; x80; x4c; x03; x14; x80; xfc; x0c; x14; x80;
  x4c; x05; x14; x80; xc4; xd1; x14; x80; x44; xd0; x14; x80;
  x00; x10; x14; x80; xbe; x17; x14; x80; x0e; xd7; x14; x80;
  x6a; x60; x14; x80; x00; x10; x14; x80; xe8; x17; x14; x80;
  x0c; xd7; x14; x80; x3c; x5f; x14; x80; x0c; x82; x14; x80;
  x60; xa3; x14; x80; x60; xa5; x14; x80; xc4; xd1; x14; x80;
  x43; xd0; x14; x80; x83; xca; x14; x80; x00; x10; x14; x80;
  xbe; x17; x14; x80; x0e; xd7; x14; x80; x6a; x60; x14; x80;
  x00; x10; x14; x80; xe8; x17; x14; x80; x0c; xd7; x14; x80;
  x3c; x5f; x14; x80; x0e; xd7; x14; x80; x6a; x40; x14; x80;
  x80; x86; x14; x80; x02; xf0; x14; x80; x80; xa6; x14; x80;
  x40; xa2; x14; x80; x0f; x0c; x14; x80; x04; x06; x14; x80;
  x70; x0c; x14; x80; x50; x07; x14; x80; x08; xa7; x14; x80;
  x04; xd7; x14; x80; x9c; x60; x14; x80; x1f; x0c; x14; x80;
  x14; x09; x14; x80; x03; xf0; x14; x80; x1f; x0c; x14; x80;
  x10; x09; x14; x80; x40; xa9; x14; x80; x00; x10; x14; x80;
  xdb; x17; x14; x80; x80; xa7; x14; x80; x00; x10; x14; x80;
  xbe; x17; x14; x80; x0e; xd7; x14; x80; x6a; x60; x14; x80;
  x00; x10; x14; x80; xe8; x17; x14; x80; x02; xd7; x14; x80;
  x9c; x39; x14; x80; x1f; x85; x14; x80; x40; x82; x14; x80;
  x88; x87; x14; x80; x02; xd7; x14; x80; xf8; x63; x14; x80;
  x05; xd7; x14; x80; x3c; x64; x14; x80; x02; xa4; x14; x80;
  x12; xf0; x14; x80; x02; x84; x14; x80; x05; xd7; x14; x80;
  x1b; x61; x14; x80; x01; xa4; x14; x80; x02; xa3; x14; x80;
  x02; xd7; x14; x80; x7d; x41; x14; x80; x40; xa4; x14; x80;
  x80; xa2; x14; x80; x08; xf0; x14; x80; x01; x84; x14; x80;
  x02; x83; x14; x80; x0c; xd7; x14; x80; x60; x60; x14; x80;
  x01; xa3; x14; x80; x02; xf0; x14; x80; x01; x83; x14; x80;
  x0c; xd7; x14; x80; x80; x40; x14; x80; x0e; xd7; x14; x80;
  x4a; x60; x14; x80; x5f; xff; x14; x80; x05; xd7; x14; x80;
  xdd; x3c; x14; x80; x4e; x85; x14; x80; x5b; xff; x14; x80;
  xfc; x0c; x14; x80; x90; x03; x14; x80; xfc; x0c; x14; x80;
  x90; x05; x14; x80; x00; x08; x14; x80; x04; xd7; x14; x80;
  xf9; x60; x14; x80; x04; xd7; x14; x80; x58; x69; x14; x80;
  x06; xd7; x14; x80; x02; x69; x14; x80; x00; x18; x14; x80;
  x01; x10; x14; x80; x20; xa2; x14; x80; x04; xa4; x14; x80;
  x04; xd7; x14; x80; x54; x40; x14; x80; x40; xa7; x14; x80;
  x04; xa5; x14; x80; x04; xd7; x14; x80; xb5; x40; x14; x80;
  x03; x0c; x14; x80; x02; x15; x14; x80; x03; xa0; x14; x80;
  x03; x95; x14; x80; x90; x81; x14; x80; x91; xcb; x14; x80;
  x00; x10; x14; x80; xaf; x10; x14; x80; x04; xd7; x14; x80;
  xb9; x7f; x14; x80; x20; x82; x14; x80; x04; x84; x14; x80;
  x80; xa2; x14; x80; x10; xa1; x14; x80; x06; xd7; x14; x80;
  x41; x40; x14; x80; x80; xa1; x14; x80; x00; x10; x14; x80;
  x0c; x13; x14; x80; x03; x0c; x14; x80; x02; x15; x14; x80;
  x0f; x85; x14; x80; x03; x95; x14; x80; x1f; x0c; x14; x80;
  x08; x0d; x14; x80; xc0; x0c; x14; x80; x80; x0d; x14; x80;
  x00; x10; x14; x80; xb5; x12; x14; x80; x00; x10; x14; x80;
  xaf; x10; x14; x80; x04; xd7; x14; x80; x5f; x61; x14; x80;
  x0c; xd7; x14; x80; x03; x61; x14; x80; x04; x85; x14; x80;
  x04; xd7; x14; x80; xb5; x40; x14; x80; x03; x0c; x14; x80;
  x02; x15; x14; x80; x03; x80; x14; x80; x03; x95; x14; x80;
  x92; xcb; x14; x80; x00; x10; x14; x80; xaf; x10; x14; x80;
  x06; xd7; x14; x80; xa3; x7f; x14; x80; x80; x82; x14; x80;
  x90; x81; x14; x80; x03; x0c; x14; x80; x02; x15; x14; x80;
  x0f; x0c; x14; x80; x0a; x05; x14; x80; x03; x95; x14; x80;
  x1f; x0c; x14; x80; x00; x0d; x14; x80; xc0; x8d; x14; x80;
  x00; x10; x14; x80; xb5; x12; x14; x80; x00; x18; x14; x80;
  x01; x10; x14; x80; x1f; x0c; x14; x80; x00; x0d; x14; x80;
  xc0; x8d; x14; x80; x00; x10; x14; x80; xb5; x12; x14; x80;
  x0a; x80; x14; x80; x05; xd7; x14; x80; xb9; x40; x14; x80;
  x0c; xd7; x14; x80; x63; x60; x14; x80; x20; xa0; x14; x80;
  x03; xf0; x14; x80; x05; xd7; x14; x80; x20; x80; x14; x80;
  x04; xa5; x14; x80; x04; xd7; x14; x80; xb5; x40; x14; x80;
  x03; x0c; x14; x80; x02; x15; x14; x80; x03; xa0; x14; x80;
  x03; x95; x14; x80; x04; xd7; x14; x80; x54; x40; x14; x80;
  x40; xa7; x14; x80; x90; x81; x14; x80; x93; xcb; x14; x80;
  x00; xd7; x14; x80; x63; x60; x14; x80; x04; xd7; x14; x80;
  x9c; x60; x14; x80; x4b; xd1; x14; x80; x40; xd0; x14; x80;
  x03; xf0; x14; x80; x20; xd1; x14; x80; x40; xd0; x14; x80;
  x00; x10; x14; x80; xaf; x10; x14; x80; x00; xd7; x14; x80;
  xb4; x5f; x14; x80; x08; xa0; x14; x80; x06; xd7; x14; x80;
  x40; x40; x14; x80; x02; xa0; x14; x80; x05; xd7; x14; x80;
  x79; x40; x14; x80; x00; x10; x14; x80; x13; x13; x14; x80;
  x03; x0c; x14; x80; x02; x15; x14; x80; xf0; x85; x14; x80;
  x03; x95; x14; x80; x05; xd7; x14; x80; xd9; x40; x14; x80;
  x0c; xd7; x14; x80; x83; x60; x14; x80; x1f; x0c; x14; x80;
  x09; x0d; x14; x80; x03; xf0; x14; x80; x1f; x0c; x14; x80;
  x0a; x0d; x14; x80; xc0; x0c; x14; x80; x80; x0d; x14; x80;
  x00; x10; x14; x80; xb5; x12; x14; x80; x00; x10; x14; x80;
  xaf; x10; x14; x80; x20; x80; x14; x80; x05; xd7; x14; x80;
  x99; x41; x14; x80; x04; xd7; x14; x80; x5f; x61; x14; x80;
  x0c; xd7; x14; x80; x03; x61; x14; x80; x04; x85; x14; x80;
  x04; xd7; x14; x80; xb5; x40; x14; x80; x03; x0c; x14; x80;
  x02; x15; x14; x80; x03; x80; x14; x80; x03; x95; x14; x80;
  x94; xcb; x14; x80; x00; x10; x14; x80; xaf; x10; x14; x80;
  x06; xd7; x14; x80; xa2; x7f; x14; x80; x0a; x80; x14; x80;
  x03; x0c; x14; x80; x02; x15; x14; x80; xf0; x85; x14; x80;
  x03; x95; x14; x80; x05; xd7; x14; x80; xb9; x40; x14; x80;
  x1f; x0c; x14; x80; x00; x0d; x14; x80; xc0; x8d; x14; x80;
  x05; xf0; x14; x80; x1f; x0c; x14; x80; x07; x0d; x14; x80;
  xc0; x8d; x14; x80; x90; xa1; x14; x80; x00; x10; x14; x80].

Definition rtl8126a_3_fw_6 : list byte := [
  xb5; x12; x14; x80; x05; xd7; x14; x80; xcc; x39; x14; x80;
  x07; x86; x14; x80; x00; x18; x14; x80; x01; x10; x14; x80;
  x00; x18; x14; x80; xb7; x82; x14; x80; x13; xcb; x14; x80;
  x06; xd7; x14; x80; x89; x60; x14; x80; xb8; xd1; x14; x80;
  x4a; xd0; x14; x80; x03; xf0; x14; x80; x1c; xd1; x14; x80;
  x4b; xd0; x14; x80; x00; x10; x14; x80; x6b; x12; x14; x80;
  x01; xd7; x14; x80; xd5; x67; x14; x80; x00; xd7; x14; x80;
  x74; x5f; x14; x80; x0c; xd7; x14; x80; x0c; x61; x14; x80;
  x00; x10; x14; x80; x6b; x12; x14; x80; x00; xd7; x14; x80;
  x46; x68; x14; x80; x06; xd7; x14; x80; x7b; x64; x14; x80;
  xfa; xff; x14; x80; x00; x10; x14; x80; x30; x13; x14; x80;
  x03; x0c; x14; x80; x02; x15; x14; x80; x1f; x0c; x14; x80;
  x16; x0f; x14; x80; x03; x95; x14; x80; x00; x10; x14; x80;
  x6b; x12; x14; x80; x0c; xd7; x14; x80; xb3; x5f; x14; x80;
  x03; x0c; x14; x80; x02; x15; x14; x80; x1f; x8f; x14; x80;
  x03; x95; x14; x80; x00; x10; x14; x80; x6b; x12; x14; x80;
  x0c; xd7; x14; x80; x33; x7f; x14; x80; x00; x10; x14; x80;
  xb5; x12; x14; x80; x07; x0c; x14; x80; x02; x0c; x14; x80;
  xc0; x0c; x14; x80; x80; x00; x14; x80; x4a; xd1; x14; x80;
  x48; xd0; x14; x80; x00; x10; x14; x80; x6b; x12; x14; x80;
  x00; xd7; x14; x80; xb4; x5f; x14; x80; x00; x18; x14; x80;
  x19; x86; x14; x80; x0a; x80; x14; x80; x00; x10; x14; x80;
  x0e; x12; x14; x80; x04; xa0; x14; x80; x00; x10; x14; x80;
  x20; x12; x14; x80; x04; x80; x14; x80; x01; xa0; x14; x80;
  x00; x10; x14; x80; x20; x12; x14; x80; x01; x80; x14; x80;
  x00; x10; x14; x80; x17; x12; x14; x80; x03; x0c; x14; x80;
  x02; x09; x14; x80; x00; x18; x14; x80; xed; x04; x14; x80;
  x00; x10; x14; x80; x6b; x12; x14; x80; x1f; xd7; x14; x80;
  xab; x5f; x14; x80; x08; xba; x14; x80; x00; x10; x14; x80;
  x6b; x12; x14; x80; x1f; xd7; x14; x80; x8b; x7f; x14; x80;
  x08; x9a; x14; x80; x00; x18; x14; x80; x81; x05; x14; x80;
  x0a; x80; x14; x80; x02; xd7; x14; x80; x55; x65; x14; x80;
  x00; x10; x14; x80; x0e; x12; x14; x80; x04; xa0; x14; x80;
  x00; x10; x14; x80; x20; x12; x14; x80; x04; x80; x14; x80;
  x01; xa0; x14; x80; x00; x10; x14; x80; x20; x12; x14; x80;
  x01; x80; x14; x80; x00; x10; x14; x80; x17; x12; x14; x80;
  x0a; xa0; x14; x80; x80; xa7; x14; x80; x14; xcb; x14; x80;
  xb8; xd1; x14; x80; x4a; xd0; x14; x80; x00; x10; x14; x80;
  x6b; x12; x14; x80; x00; xd7; x14; x80; xb4; x5f; x14; x80;
  x86; x62; x14; x80; x06; xd7; x14; x80; x5b; x5f; x14; x80;
  x0a; x80; x14; x80; x00; x10; x14; x80; x0e; x12; x14; x80;
  x04; xa0; x14; x80; x00; x10; x14; x80; x20; x12; x14; x80;
  x04; x80; x14; x80; x01; xa0; x14; x80; x00; x10; x14; x80;
  x20; x12; x14; x80; x01; x80; x14; x80; x00; x10; x14; x80;
  x17; x12; x14; x80; x03; x0c; x14; x80; x02; x09; x14; x80;
  x00; x18; x14; x80; x61; x86; x14; x80; x0a; xa0; x14; x80;
  x08; x93; x14; x80; x10; xb2; x14; x80; x01; xb3; x14; x80;
  x00; x10; x14; x80; x6b; x12; x14; x80; x01; xd7; x14; x80;
  xa4; x5f; x14; x80; x02; xb3; x14; x80; x10; x92; x14; x80;
  x09; xd4; x14; x80; x00; x10; x14; x80; x03; x12; x14; x80;
  x03; xd1; x14; x80; x4c; xd0; x14; x80; x00; x10; x14; x80;
  x6b; x12; x14; x80; x00; xd7; x14; x80; xb4; x5f; x14; x80;
  x00; x18; x14; x80; x81; x05; x14; x80; x0c; xd7; x14; x80;
  xb3; x60; x14; x80; x00; x18; x14; x80; xa3; x86; x14; x80;
  x00; x18; x14; x80; x1a; x00; x14; x80; x00; x18; x14; x80;
  xcb; x12; x14; x80; x0e; xa1; x13; x80; xcf; x12; x14; x80;
  x0c; xa1; x13; x80; xf8; x04; x14; x80; x0a; xa1; x13; x80;
  x03; x10; x14; x80; x08; xa1; x13; x80; xfb; x15; x14; x80;
  x06; xa1; x13; x80; x2b; x0d; x14; x80; x04; xa1; x13; x80;
  xcb; x0e; x14; x80; x02; xa1; x13; x80; x19; x11; x14; x80;
  x00; xa1; x13; x80; x60; x09; x14; x80; x10; xa1; x13; x80;
  xff; x00; x14; x80; x16; xa0; x13; x80; x20; x00; x14; x80;
  x12; xa0; x13; x80; xf8; x1f; x14; x80; x14; xa0; x13; x80;
  x04; xa7; x14; x80; xb7; x82; x14; x80; x00; x00; x14; x80;
  x00; x00; x14; x80; x00; x00; x14; x80; x00; x00; x14; x80;
  x00; x00; x14; x80; x00; x00; x14; x80; x64; xa1; x13; x80;
  x9f; x11; x14; x80; x66; xa1; x13; x80; xa1; x11; x14; x80;
  x68; xa1; x13; x80; xff; x3f; x14; x80; x6a; xa1; x13; x80;
  xff; x3f; x14; x80; x6c; xa1; x13; x80; xff; x3f; x14; x80;
  x6e; xa1; x13; x80; xff; x3f; x14; x80; x70; xa1; x13; x80;
  xff; x3f; x14; x80; x72; xa1; x13; x80; xff; x3f; x14; x80;
  x62; xa1; x13; x80; x03; x00; x14; x80; x7c; xb8; x13; x80;
  x63; x8a; x14; x80; x7e; xb8; x13; x80; x8a; xaf; x14; x80;
  xaf; x7b; x14; x80; xb6; x8a; x14; x80; x8a; xaf; x14; x80;
  xaf; xd6; x14; x80; xe4; x8a; x14; x80; x8a; xaf; x14; x80;
  xaf; xf2; x14; x80; x01; x8b; x14; x80; x8b; xaf; x14; x80;
  xaf; x0a; x14; x80; x10; x8b; x14; x80; x35; xad; x14; x80;
  xbf; x27; x14; x80; x08; x73; x14; x80; x7b; x02; x14; x80;
  xac; x07; x14; x80; x0d; x28; x14; x80; x73; xbf; x14; x80;
  x02; x0b; x14; x80; x07; x7b; x14; x80; x28; xac; x14; x80;
  xd0; x04; x14; x80; xae; x05; x14; x80; xd0; x02; x14; x80;
  xd1; x01; x14; x80; xd3; x01; x14; x80; xee; x04; x14; x80;
  x40; x86; x14; x80; xee; x00; x14; x80; x41; x86; x14; x80;
  xaf; x00; x14; x80; xa6; x6a; x14; x80; x00; xd1; x14; x80;
  x00; xd3; x14; x80; x86; xee; x14; x80; x01; x40; x14; x80;
  x86; xee; x14; x80; x24; x41; x14; x80; x0f; xd0; x14; x80;
  x6a; xaf; x14; x80; xbf; xa6; x14; x80; x9e; x73; x14; x80;
  x7b; x02; x14; x80; xad; x07; x14; x80; x0b; x28; x14; x80;
  x8f; xe1; x14; x80; xad; xfd; x14; x80; x05; x28; x14; x80;
  x8f; xe0; x14; x80; xae; xfe; x14; x80; xe0; x03; x14; x80;
  xff; x8f; x14; x80; x89; xe4; x14; x80; xe0; xe7; x14; x80;
  xe7; x89; x14; x80; x67; xaf; x14; x80; xa0; x9f; x14; x80;
  x02; x94; x14; x80; x03; xae; x14; x80; xb5; xa0; x14; x80;
  xaf; x03; x14; x80; x89; x0d; x14; x80; x0d; xaf; x14; x80;
  xa0; xaf; x14; x80; x02; x94; x14; x80; x03; xae; x14; x80;
  xb5; xa0; x14; x80; xaf; x03; x14; x80; x64; x0c; x14; x80;
  x0c; xaf; x14; x80; xe0; xcc; x14; x80; xa5; x86; x14; x80;
  x25; xad; x14; x80; x02; x06; x14; x80; xa4; x6b; x14; x80;
  x65; x02; x14; x80; xaf; x4f; x14; x80; x9a; x6e; x14; x80;
  x24; xac; x14; x80; xaf; x03; x14; x80; xb4; x6b; x14; x80;
  x6b; xaf; x14; x80; x02; xb6; x14; x80; xe8; x7a; x14; x80;
  x6c; xaf; x14; x80; x00; xa1; x14; x80; x5e; xb8; x13; x80;
  x7f; x6a; x14; x80; x60; xb8; x13; x80; x9c; x67; x14; x80;
  x62; xb8; x13; x80; x86; x0d; x14; x80; x64; xb8; x13; x80;
  x61; x0c; x14; x80; x86; xb8; x13; x80; x7c; x6e; x14; x80;
  x88; xb8; x13; x80; xae; x6b; x14; x80; x8a; xb8; x13; x80;
  x9b; x6c; x14; x80; x8c; xb8; x13; x80; xff; xff; x14; x80;
  x38; xb8; x13; x80; x7f; x00; x14; x80; x82; x0b; x1f; x80;
  x10; x00; x10; x80; x43; x0a; x1f; x80; x29; x86; x13; x80;
  x86; xaf; x14; x80; xaf; x41; x14; x80; x44; x86; x14; x80;
  x88; xaf; x14; x80; xaf; x0c; x14; x80; x13; x88; x14; x80;
  x88; xaf; x14; x80; xaf; x4b; x14; x80; x4b; x88; x14; x80;
  x88; xaf; x14; x80; xaf; x4b; x14; x80; x4b; x88; x14; x80;
  x1d; xaf; x14; x80; x02; x8a; x14; x80; x4d; x86; x14; x80;
  x10; x02; x14; x80; xaf; x64; x14; x80; x63; x10; x14; x80;
  xfa; xf8; x14; x80; x69; xef; x14; x80; x80; xe0; x14; x80;
  xac; x4c; x14; x80; x17; x25; x14; x80; x80; xe0; x14; x80;
  xad; x40; x14; x80; x1a; x25; x14; x80; x86; x02; x14; x80;
  xe0; x7c; x14; x80; x40; x80; x14; x80; x25; xac; x14; x80;
  xbf; x11; x14; x80; xf4; x87; x14; x80; x77; x02; x14; x80;
  xae; xf6; x14; x80; x02; x09; x14; x80; xb3; x87; x14; x80;
  x87; x02; x14; x80; x02; xe9; x14; x80; xde; x87; x14; x80;
  x96; xef; x14; x80; xfc; xfe; x14; x80; xf8; x04; x14; x80;
  x80; xe0; x14; x80; xad; x18; x14; x80; x11; x26; x14; x80;
  x8f; xe0; x14; x80; xac; x9c; x14; x80; x05; x20; x14; x80;
  x86; x02; x14; x80; xae; x99; x14; x80; x02; x03; x14; x80;
  x07; x87; x14; x80; x87; x02; x14; x80; x02; x50; x14; x80;
  xde; x87; x14; x80; x04; xfc; x14; x80; xf9; xf8; x14; x80;
  x79; xef; x14; x80; xbf; xfb; x14; x80; xf7; x87; x14; x80;
  x78; x02; x14; x80; x5c; x38; x14; x80; x00; x20; x14; x80;
  x4d; x0d; x14; x80; x01; xa1; x14; x80; xbf; x51; x14; x80;
  xf7; x87; x14; x80; x78; x02; x14; x80; x5c; x38; x14; x80;
  xff; x07; x14; x80; x8f; xe3; x14; x80; x1b; x9d; x14; x80;
  x9f; x31; x14; x80; x0d; x41; x14; x80; xe3; x48; x14; x80;
  x9e; x8f; x14; x80; x31; x1b; x14; x80; x38; x9f; x14; x80;
  x87; xbf; x14; x80; x02; xfa; x14; x80; x38; x78; x14; x80;
  x07; x5c; x14; x80; xe3; xff; x14; x80; x9f; x8f; x14; x80;
  x31; x1b; x14; x80; x28; x9f; x14; x80; x48; x0d; x14; x80;
  x8f; xe3; x14; x80; x1b; xa0; x14; x80; x9f; x31; x14; x80;
  xbf; x1f; x14; x80; xfd; x87; x14; x80; x78; x02; x14; x80;
  x5c; x38; x14; x80; xff; x07; x14; x80; x8f; xe3; x14; x80;
  x1b; xa1; x14; x80; x9f; x31; x14; x80; x0d; x0f; x14; x80;
  xe3; x48; x14; x80; xa2; x8f; x14; x80; x31; x1b; x14; x80;
  x06; x9f; x14; x80; x8f; xee; x14; x80; x01; x9c; x14; x80;
  x04; xae; x14; x80; x8f; xee; x14; x80; x00; x9c; x14; x80;
  xef; xff; x14; x80; xfd; x97; x14; x80; x04; xfc; x14; x80;
  xf9; xf8; x14; x80; x79; xef; x14; x80; xbf; xfb; x14; x80;
  xf7; x87; x14; x80; x78; x02; x14; x80; x5c; x38; x14; x80].

Definition rtl8126a_3_fw_7 : list byte := [
  x00; x20; x14; x80; x4d; x0d; x14; x80; x00; xa1; x14; x80;
  xbf; x20; x14; x80; xf7; x87; x14; x80; x78; x02; x14; x80;
  x5c; x38; x14; x80; x00; x06; x14; x80; x49; x0d; x14; x80;
  x8f; xe3; x14; x80; x1b; xa3; x14; x80; x9f; x31; x14; x80;
  xbf; x0e; x14; x80; x00; x88; x14; x80; x77; x02; x14; x80;
  xbf; xf6; x14; x80; x06; x88; x14; x80; x77; x02; x14; x80;
  xae; xf6; x14; x80; xbf; x0c; x14; x80; x00; x88; x14; x80;
  x77; x02; x14; x80; xbf; xed; x14; x80; x06; x88; x14; x80;
  x77; x02; x14; x80; xee; xed; x14; x80; x9c; x8f; x14; x80;
  xff; x00; x14; x80; x97; xef; x14; x80; xfc; xfd; x14; x80;
  xf8; x04; x14; x80; xef; xf9; x14; x80; xfb; x79; x14; x80;
  x87; xbf; x14; x80; x02; xf7; x14; x80; x38; x78; x14; x80;
  x20; x5c; x14; x80; x0d; x00; x14; x80; xa1; x4d; x14; x80;
  x4a; x01; x14; x80; x87; xbf; x14; x80; x02; xf7; x14; x80;
  x38; x78; x14; x80; x07; x5c; x14; x80; xe3; xff; x14; x80;
  xa4; x8f; x14; x80; x31; x1b; x14; x80; x3a; x9f; x14; x80;
  x48; x0d; x14; x80; x8f; xe3; x14; x80; x1b; xa5; x14; x80;
  x9f; x31; x14; x80; xbf; x31; x14; x80; xfa; x87; x14; x80;
  x78; x02; x14; x80; xe3; x38; x14; x80; xa6; x8f; x14; x80;
  x31; x1b; x14; x80; x24; x9f; x14; x80; x48; x0d; x14; x80;
  x8f; xe3; x14; x80; x1b; xa7; x14; x80; x9f; x31; x14; x80;
  xbf; x1b; x14; x80; xfd; x87; x14; x80; x78; x02; x14; x80;
  xe3; x38; x14; x80; xa8; x8f; x14; x80; x31; x1b; x14; x80;
  x0e; x9f; x14; x80; x88; xbf; x14; x80; x02; x03; x14; x80;
  xf6; x77; x14; x80; x88; xbf; x14; x80; x02; x09; x14; x80;
  xf6; x77; x14; x80; x00; xae; x14; x80; xef; xff; x14; x80;
  xfd; x97; x14; x80; x04; xfc; x14; x80; xef; xf8; x14; x80;
  xfb; x79; x14; x80; x80; xe0; x14; x80; xad; x18; x14; x80;
  x1c; x26; x14; x80; x8f; xee; x14; x80; x00; x9c; x14; x80;
  x88; xbf; x14; x80; x02; x00; x14; x80; xed; x77; x14; x80;
  x88; xbf; x14; x80; x02; x06; x14; x80; xed; x77; x14; x80;
  x88; xbf; x14; x80; x02; x03; x14; x80; xed; x77; x14; x80;
  x88; xbf; x14; x80; x02; x09; x14; x80; xed; x77; x14; x80;
  xef; xff; x14; x80; xfc; x97; x14; x80; xf8; x04; x14; x80;
  x80; xe0; x14; x80; xf6; x40; x14; x80; xe4; x25; x14; x80;
  x40; x80; x14; x80; x04; xfc; x14; x80; xe0; xf8; x14; x80;
  x4c; x80; x14; x80; x25; xf6; x14; x80; x80; xe4; x14; x80;
  xfc; x4c; x14; x80; x55; x04; x14; x80; xba; xa4; x14; x80;
  xa6; xf0; x14; x80; xf0; x4a; x14; x80; x4c; xa6; x14; x80;
  xa6; xf0; x14; x80; x66; x4e; x14; x80; xb6; xa4; x14; x80;
  xa4; x55; x14; x80; x00; xb6; x14; x80; x56; xac; x14; x80;
  xac; x11; x14; x80; xee; x56; x14; x80; x4c; x80; x14; x80;
  xaf; x3a; x14; x80; x27; x06; x14; x80; x88; xbf; x14; x80;
  x02; x48; x14; x80; xed; x77; x14; x80; x03; xd2; x14; x80;
  x83; xe0; x14; x80; x0d; x8a; x14; x80; xf6; x01; x14; x80;
  x1b; x27; x14; x80; xaa; x03; x14; x80; x82; x01; x14; x80;
  x83; xe0; x14; x80; x0d; x89; x14; x80; xf6; x01; x14; x80;
  x1b; x27; x14; x80; xaa; x03; x14; x80; x82; x01; x14; x80;
  x83; xe0; x14; x80; x0d; x88; x14; x80; xf6; x01; x14; x80;
  x1b; x27; x14; x80; xaa; x03; x14; x80; x82; x07; x14; x80;
  x88; xbf; x14; x80; x02; x48; x14; x80; xf6; x77; x14; x80;
  x16; xaf; x14; x80; x00; x15; x14; x80; x6a; xa8; x14; x80;
  x18; xb8; x13; x80; x84; x1d; x14; x80; x1a; xb8; x13; x80;
  x60; x10; x14; x80; x1c; xb8; x13; x80; x23; x06; x14; x80;
  x1e; xb8; x13; x80; xef; x15; x14; x80; x50; xb8; x13; x80;
  xff; xff; x14; x80; x52; xb8; x13; x80; xff; xff; x14; x80;
  x78; xb8; x13; x80; xff; xff; x14; x80; x84; xb8; x13; x80;
  xff; xff; x14; x80; x32; xb8; x13; x80; x0f; x00; x14; x80;
  x00; x00; x13; x80; x00; x00; x14; x80; x82; x0b; x1f; x80;
  x00; x00; x17; x80; x43; x0a; x1f; x80; x23; x80; x13; x80;
  x00; x00; x14; x80; x82; x0b; x1f; x80; x00; x00; x10; x80;
  x43; x0a; x1f; x80; x1e; x80; x13; x80; x56; x00; x14; x80;
  x82; x0b; x1f; x80; x00; x00; x10; x00; xef; xff; x00; x20;
  x00; x00; x10; xc0; x80; x0b; x1f; x80; x00; x00; x00; x70;
  x01; x00; x00; xe0; x00; x00; x10; x00; x40; x00; x00; x20;
  x40; x00; x02; xa0; x64; x00; x00; x90; x00; x00; x05; x30;
  x40; x0a; x1f; x80; x00; x00; x00; x00].

Definition rtl8126a_3_fw : list byte :=
  rtl8126a_3_fw_0 ++ rtl8126a_3_fw_1 ++ rtl8126a_3_fw_2 ++ rtl8126a_3_fw_3 ++ rtl8126a_3_fw_4 ++ rtl8126a_3_fw_5 ++ rtl8126a_3_fw_6 ++ rtl8126a_3_fw_7.
