(* ===== verification/FwImages.v ===== *)
(** The firmware images of the repository against the interpreter: each one
    passes both checks, is a structured program, and is executed to its end. *)
From S2P Require Import Prelude Firmware FwScript FwData8125 FwData8126.
From Stdlib Require Import Strings.Byte.

Definition bytes_of (l : list byte) : list Z := (fun b => Z.of_N (Byte.to_N b)) <$> l.

(** The arrays of the Firmware directory. *)
Definition images : list (list byte) :=
  [rtl8125a_3_fw; rtl8125b_1_fw; rtl8125b_2_fw; rtl8125bp_2_fw; rtl8125d_1_fw; rtl8125d_2_fw;
   rtl8126a_2_fw; rtl8126a_3_fw].

(** Both checks pass and the program decompiles; the result is the number of
    passes of the interpreter's loop that is always enough. *)
Definition image_budget (img : list byte) : option nat :=
  match rtl8125_fw_format_ok (bytes_of img) [0] with
  | Some (Some p) =>
      match rtl8125_fw_data_ok (action p) with
      | Some true => script_cost <$> scripted (action p)
      | _ => None
      end
  | _ => None
  end.

(** The image as the interpreter sees it. *)
Definition image_action (img : list byte) : option phy_action :=
  match rtl8125_fw_format_ok (bytes_of img) [0] with Some (Some p) => Some (action p) | _ => None end.

Lemma images_pass : forallb (fun img => bool_decide (is_Some (image_budget img))) images = true.
Proof. vm_compute. reflexivity. Qed.

Lemma image_budget_runs img n : image_budget img = Some n ->
  exists pa s, image_action img = Some pa /\ rtl8125_fw_data_ok pa = Some true /\
    scripted pa = Some s /\ script_cost s = n.
Proof.
  unfold image_budget, image_action. intros H.
  destruct (rtl8125_fw_format_ok (bytes_of img) [0]) as [[p|]|]; try done.
  destruct (rtl8125_fw_data_ok (action p)) as [[|]|] eqn:Hd; try done.
  destruct (scripted (action p)) as [s|] eqn:Hs; [|done]. simpl in H. simplify_eq.
  by exists (action p), s.
Qed.

(** ** Properties *)

(** C37: every firmware image of the repository is well formed (checksum,
    header, bounds), passes the static check, and the interpreter executes it
    completely on every chip: whatever the registers answer, it halts at the
    end of the program after a bounded number of actions. *)
Theorem shipped_images_terminate img :
  img ∈ images ->
  exists pa s, image_action img = Some pa /\ rtl8125_fw_data_ok pa = Some true /\
    forall D (cb : callbacks D) d,
      rtl8125_fw_write_firmware cb (S (script_cost s)) pa d =
        Halted (size pa) (run_script cb s (mkCore 0 0 false d)).
Proof.
  intros Himg. pose proof images_pass as Hp. rewrite forallb_forall in Hp.
  apply list_elem_of_In in Himg. specialize (Hp img Himg). apply bool_decide_eq_true in Hp as [n Hn].
  destruct (image_budget_runs img n Hn) as (pa&s&Ha&Hd&Hs&_). exists pa, s.
  split; [done|]. split; [done|]. intros D cb d. apply scripted_runs; [done|lia].
Qed.

Lemma shipped_images_terminate_witness :
  rtl8125bp_2_fw ∈ images /\
  exists pa s, image_action rtl8125bp_2_fw = Some pa /\
    forall D (cb : callbacks D) d,
      rtl8125_fw_write_firmware cb (S (script_cost s)) pa d =
        Halted (size pa) (run_script cb s (mkCore 0 0 false d)).
Proof.
  assert (H : rtl8125bp_2_fw ∈ images)
    by (do 3 apply list_elem_of_further; apply list_elem_of_here).
  split; [exact H|]. destruct (shipped_images_terminate _ H) as (pa&s&Ha&_&Hr).
  exists pa, s. split; [exact Ha|exact Hr].
Defined.
