(* ===== verification/Mmio.v ===== *)
(** Register access of the hardware layers: the RTL_R8/RTL_W8 family and
    udelay over an abstract device, and a small state monad to write the
    register sequences in. *)
From S2P Require Import Prelude.

(** The device behind the BAR: every access may change it. *)
Class Mmio (D : Type) := {
  R8 : Z -> D -> Z * D;
  R16 : Z -> D -> Z * D;
  R32 : Z -> D -> Z * D;
  W8 : Z -> Z -> D -> D;
  W16 : Z -> Z -> D -> D;
  W32 : Z -> Z -> D -> D;
  udelay : Z -> D -> D;
}.

(** Programs over a device. *)
Definition prog (D A : Type) : Type := D -> A * D.
Definition ret {D A} (a : A) : prog D A := fun d => (a, d).
Definition bind {D A B} (m : prog D A) (k : A -> prog D B) : prog D B :=
  fun d => let '(a, d') := m d in k a d'.
Definition act {D} (f : D -> D) : prog D unit := fun d => (tt, f d).

Declare Scope prog_scope.
Delimit Scope prog_scope with prog.
Notation "'do' x <- m ; k" := (bind m (fun x => k))
  (at level 10, x binder, m at level 100, k at level 200) : prog_scope.
Notation "m ;;; k" := (bind m (fun _ => k)) (at level 200, right associativity) : prog_scope.

Section Access.
Context {D : Type} `{M : !Mmio D}.

(** Values are cut to the width of the access, as the C macros do. *)
Definition RTL_R8 (a : Z) : prog D Z := fun d => let '(v, d') := R8 a d in (u8 v, d').
Definition RTL_R16 (a : Z) : prog D Z := fun d => let '(v, d') := R16 a d in (u16 v, d').
Definition RTL_R32 (a : Z) : prog D Z := fun d => let '(v, d') := R32 a d in (u32 v, d').
Definition RTL_W8 (a v : Z) : prog D unit := act (W8 a (u8 v)).
Definition RTL_W16 (a v : Z) : prog D unit := act (W16 a (u16 v)).
Definition RTL_W32 (a v : Z) : prog D unit := act (W32 a (u32 v)).
Definition delay_us (n : Z) : prog D unit := act (udelay n).
End Access.

Lemma bind_run {D A B} (m : prog D A) (k : A -> prog D B) d :
  bind m k d = k (m d).1 (m d).2.
Proof. unfold bind. by destruct (m d). Qed.

(** Run the leading steps of a program. *)
Ltac prog_run := rewrite !bind_run; cbv beta iota delta [ret].
