(* ===== verification/Eeprom.v ===== *)
(** The serial EEPROM bit-banging of rtl812x_eeprom.c over the Cfg9346
    register: clocking bits out and in, reading and writing a word, detecting
    the device.

    The register is the only contact with the EEPROM. [EepromPort] states what
    the code relies on: the control bits read back as written and the data-out
    bit is the device's. The values written are observed as the EEPROM sees
    them ([edges]): a bit is clocked in on a rising clock while selected, and
    dropping the select line ends a command. *)
From S2P Require Import Prelude Mmio.
Local Open Scope prog_scope.

(** Registers and bits of rtl812xx.h. *)
Definition Cfg9346 : Z := 0x50.
Definition RxConfig : Z := 0x44.
Definition Cfg9346_EEDO : Z := BIT 0.
Definition Cfg9346_EEDI : Z := BIT 1.
Definition Cfg9346_EESK : Z := BIT 2.
Definition Cfg9346_EECS : Z := BIT 3.
Definition Cfg9346_EEM1 : Z := BIT 7.
Definition RxCfg_9356SEL : Z := BIT 6.

Definition RTL_EEPROM_READ_OPCODE : Z := 6.
Definition RTL_EEPROM_WRITE_OPCODE : Z := 5.
Definition RTL_EEPROM_ERASE_OPCODE : Z := 7.
Definition RTL_EEPROM_EWEN_OPCODE : Z := 19.
Definition RTL_EEPROM_EWDS_OPCODE : Z := 16.
Definition RTL_CLOCK_RATE : Z := 3.

Inductive eeprom_kind := EEPROM_TYPE_NONE | EEPROM_TYPE_93C46 | EEPROM_TYPE_93C56.

#[export] Instance eeprom_kind_eq_dec : EqDecision eeprom_kind.
Proof. solve_decision. Defined.

Section Code.
Context {D : Type} `{M : !Mmio D}.

(** The C functions update [*x]; here they return it. *)
Definition rtl8125_raise_clock (x : Z) : prog D Z :=
  let x := x .| Cfg9346_EESK in
  RTL_W8 Cfg9346 x ;;; delay_us RTL_CLOCK_RATE ;;; ret x.

Definition rtl8125_lower_clock (x : Z) : prog D Z :=
  let x := x .&~ Cfg9346_EESK in
  RTL_W8 Cfg9346 x ;;; delay_us RTL_CLOCK_RATE ;;; ret x.

(** The do-while loop on [mask]; it returns the last [x]. *)
Fixpoint shift_out_loop (fuel : nat) (data mask x : Z) : prog D Z :=
  match fuel with
  | O => ret x
  | S n =>
      let x := if has data mask then x .| Cfg9346_EEDI else x .&~ Cfg9346_EEDI in
      RTL_W8 Cfg9346 x ;;; delay_us RTL_CLOCK_RATE ;;;
      do x <- rtl8125_raise_clock x;
      do x <- rtl8125_lower_clock x;
      let mask := Z.shiftr mask 1 in
      if mask =? 0 then ret x else shift_out_loop n data mask x
  end.

Definition rtl8125_shift_out_bits (data : Z) (count : nat) : prog D unit :=
  do x <- RTL_R8 Cfg9346;
  do x <- shift_out_loop count data (Z.shiftl 1 (Z.of_nat count - 1)) (x .&~ (Cfg9346_EEDI .| Cfg9346_EEDO));
  RTL_W8 Cfg9346 (x .&~ Cfg9346_EEDI).

(** [n] iterations left. *)
Fixpoint shift_in_loop (n : nat) (x d : Z) : prog D Z :=
  match n with
  | O => ret d
  | S n' =>
      let d := u16 (Z.shiftl d 1) in
      do _ <- rtl8125_raise_clock x;
      do v <- RTL_R8 Cfg9346;
      let x := v .&~ Cfg9346_EEDI in
      let d := if has x Cfg9346_EEDO then d .| 1 else d in
      do x <- rtl8125_lower_clock x;
      shift_in_loop n' x d
  end.

Definition rtl8125_shift_in_bits : prog D Z :=
  do x <- RTL_R8 Cfg9346;
  shift_in_loop 16 (x .&~ (Cfg9346_EEDI .| Cfg9346_EEDO)) 0.

Definition rtl8125_stand_by : prog D unit :=
  do x <- RTL_R8 Cfg9346;
  let x := x .&~ (Cfg9346_EECS .| Cfg9346_EESK) in
  RTL_W8 Cfg9346 x ;;; delay_us RTL_CLOCK_RATE ;;; RTL_W8 Cfg9346 (x .| Cfg9346_EECS).

Definition rtl8125_set_eeprom_sel_low : prog D unit :=
  RTL_W8 Cfg9346 Cfg9346_EEM1 ;;; RTL_W8 Cfg9346 (Cfg9346_EEM1 .| Cfg9346_EESK) ;;;
  delay_us 20 ;;; RTL_W8 Cfg9346 Cfg9346_EEM1.

Definition rtl8125_eeprom_cleanup : prog D unit :=
  do x <- RTL_R8 Cfg9346;
  let x := x .&~ (Cfg9346_EEDI .| Cfg9346_EECS) in
  RTL_W8 Cfg9346 x ;;;
  do x <- rtl8125_raise_clock x;
  do _ <- rtl8125_lower_clock x;
  ret tt.

(** The ready poll: [true] is the return value 0, [false] is -1. *)
Fixpoint cmd_done_loop (n : nat) : prog D bool :=
  match n with
  | O => ret false
  | S n' =>
      do x <- RTL_R8 Cfg9346;
      if has x Cfg9346_EEDO then delay_us (RTL_CLOCK_RATE * 2 * 3) ;;; ret true
      else delay_us 1 ;;; cmd_done_loop n'
  end.

Definition cmd_done_polls : nat := Z.to_nat 50000.

Definition rtl8125_eeprom_cmd_done : prog D bool :=
  rtl8125_stand_by ;;; cmd_done_loop cmd_done_polls.

Definition addr_sz (k : eeprom_kind) : nat :=
  match k with EEPROM_TYPE_93C56 => 8 | _ => 6 end.
Definition w_dummy_addr (k : eeprom_kind) : nat :=
  match k with EEPROM_TYPE_93C56 => 6 | _ => 4 end.

Definition rtl8125_eeprom_read_sc (k : eeprom_kind) (reg : Z) : prog D Z :=
  match k with
  | EEPROM_TYPE_NONE => ret (u16 (-1))
  | _ =>
      RTL_W8 Cfg9346 (Cfg9346_EEM1 .| Cfg9346_EECS) ;;;
      rtl8125_shift_out_bits RTL_EEPROM_READ_OPCODE 3 ;;;
      rtl8125_shift_out_bits reg (addr_sz k) ;;;
      do data <- rtl8125_shift_in_bits;
      rtl8125_eeprom_cleanup ;;;
      RTL_W8 Cfg9346 0 ;;;
      ret data
  end.

(** The steps after a successful erase and after a successful write. *)
Definition write_sc_disable (k : eeprom_kind) (reg : Z) : prog D unit :=
  rtl8125_stand_by ;;;
  rtl8125_shift_out_bits RTL_EEPROM_EWDS_OPCODE 5 ;;;
  rtl8125_shift_out_bits reg (w_dummy_addr k) ;;;
  rtl8125_eeprom_cleanup ;;;
  RTL_W8 Cfg9346 0.

Definition write_sc_word (k : eeprom_kind) (reg data : Z) : prog D unit :=
  rtl8125_stand_by ;;;
  rtl8125_shift_out_bits RTL_EEPROM_WRITE_OPCODE 3 ;;;
  rtl8125_shift_out_bits reg (addr_sz k) ;;;
  rtl8125_shift_out_bits data 16 ;;;
  do ok <- rtl8125_eeprom_cmd_done;
  if ok then write_sc_disable k reg else ret tt.

Definition rtl8125_eeprom_write_sc (k : eeprom_kind) (reg data : Z) : prog D unit :=
  match k with
  | EEPROM_TYPE_NONE => ret tt
  | _ =>
      RTL_W8 Cfg9346 (Cfg9346_EEM1 .| Cfg9346_EECS) ;;;
      rtl8125_shift_out_bits RTL_EEPROM_EWEN_OPCODE 5 ;;;
      rtl8125_shift_out_bits reg (w_dummy_addr k) ;;;
      rtl8125_stand_by ;;;
      rtl8125_shift_out_bits RTL_EEPROM_ERASE_OPCODE 3 ;;;
      rtl8125_shift_out_bits reg (addr_sz k) ;;;
      do ok <- rtl8125_eeprom_cmd_done;
      if ok then write_sc_word k reg data else ret tt
  end.

(** The detected kind and length; [known] is [tp->mcfg != CFG_METHOD_DEFAULT]. *)
Definition rtl8125_eeprom_type (known : bool) : prog D (eeprom_kind * Z) :=
  if negb known then ret (EEPROM_TYPE_NONE, 0) else
  do d2 <- RTL_R8 0xD2;
  if has d2 0x04 then ret (EEPROM_TYPE_NONE, 0) else
  do rxcfg <- RTL_R32 RxConfig;
  let '(k, len) := if has rxcfg RxCfg_9356SEL then (EEPROM_TYPE_93C56, 256) else (EEPROM_TYPE_93C46, 128) in
  do magic <- rtl8125_eeprom_read_sc k 0;
  ret (if negb (magic =? 0x8129) && negb (magic =? 0x8128) then (EEPROM_TYPE_NONE, 0) else (k, len)).
End Code.
