(* ===== verification/EepromSpec.v ===== *)
(** What the EEPROM sees: the waveform of the bit-banging routines of
    Eeprom.v, and the properties. *)
From S2P Require Import Prelude Mmio Eeprom.

(** ** The port *)

(** What the code relies on about the Cfg9346 register: it reads back the
    control bits last written, with the data-out bit of the EEPROM; delays and
    reads of other registers do not change it. [trace] observes the writes and the data-out bits read. *)
Inductive access := Wr (v : Z) | Rd (b : bool).

Class EepromPort (D : Type) `{M : !Mmio D} := {
  regval : D -> Z;
  trace : D -> list access;
  port_read : forall d,
    let '(v, d') := RTL_R8 Cfg9346 d in
    v .&~ Cfg9346_EEDO = regval d .&~ Cfg9346_EEDO /\ regval d' = regval d /\
    trace d' = trace d ++ [Rd (has v Cfg9346_EEDO)];
  port_write : forall v d,
    let d' := (RTL_W8 Cfg9346 v d).2 in
    regval d' = u8 v /\ trace d' = trace d ++ [Wr (u8 v)];
  port_delay : forall n d,
    let d' := (delay_us n d).2 in
    regval d' = regval d /\ trace d' = trace d;
  port_other8 : forall a d, a <> Cfg9346 ->
    let d' := (RTL_R8 a d).2 in regval d' = regval d /\ trace d' = trace d;
  port_other32 : forall a d, a <> Cfg9346 ->
    let d' := (RTL_R32 a d).2 in regval d' = regval d /\ trace d' = trace d;
}.

(** ** The waveform *)

Definition CS (x : Z) : bool := Z.testbit x 3.
Definition SK (x : Z) : bool := Z.testbit x 2.
Definition DI (x : Z) : bool := Z.testbit x 1.

(** What a change of the lines means to the EEPROM. *)
Inductive edge := Bit (b : bool) | Deselect.

Definition edge_of (prev x : Z) : list edge :=
  if CS prev && negb (CS x) then [Deselect]
  else if CS prev && CS x && negb (SK prev) && SK x then [Bit (DI x)]
  else [].

(** What the EEPROM and the code exchange: line changes, and samples of the
    data-out line. *)
Inductive event := Drive (e : edge) | Sample (b : bool).

Fixpoint events (prev : Z) (ws : list access) : list event :=
  match ws with
  | [] => []
  | Wr x :: r => (Drive <$> edge_of prev x) ++ events x r
  | Rd b :: r => Sample b :: events prev r
  end.

(** The register after the accesses. *)
Fixpoint reg_after (prev : Z) (ws : list access) : Z :=
  match ws with [] => prev | Wr x :: r => reg_after x r | Rd _ :: r => reg_after prev r end.

Fixpoint drives (evs : list event) : list edge :=
  match evs with [] => [] | Drive x :: r => x :: drives r | Sample _ :: r => drives r end.
Fixpoint samples (evs : list event) : list bool :=
  match evs with [] => [] | Drive _ :: r => samples r | Sample b :: r => b :: samples r end.

Lemma drives_app e1 e2 : drives (e1 ++ e2) = drives e1 ++ drives e2.
Proof. induction e1 as [|[]]; simpl; congruence. Qed.
Lemma samples_app e1 e2 : samples (e1 ++ e2) = samples e1 ++ samples e2.
Proof. induction e1 as [|[]]; simpl; congruence. Qed.
Lemma drives_fmap es : drives (Drive <$> es) = es.
Proof. induction es as [|e es IH]; [done|]. exact (f_equal (cons e) IH). Qed.
Lemma samples_fmap es : samples (Drive <$> es) = [].
Proof. by induction es. Qed.
Lemma silent evs : samples evs = [] -> evs = Drive <$> drives evs.
Proof. induction evs as [|[e|b] evs IH]; intros H; [done| |done]. exact (f_equal (cons (Drive e)) (IH H)). Qed.

(** [count] bits of [data], most significant first. *)
Fixpoint msb (data : Z) (count : nat) : list bool :=
  match count with O => [] | S n => Z.testbit data (Z.of_nat n) :: msb data n end.

(** The word that bits make, most significant first. *)
Definition word_of (bs : list bool) : Z := foldl (fun d b => 2 * d + Z.b2z b) 0 bs.

Definition bits (data : Z) (count : nat) : list edge := Bit <$> msb data count.

(** ** Bits of the register values *)

Lemma bit_or x k j : 0 <= k -> 0 <= j -> Z.testbit (x .| BIT k) j = Z.testbit x j || (j =? k).
Proof. intros. unfold BIT. rewrite Z.lor_spec, Z.pow2_bits_eqb by done. by rewrite (Z.eqb_sym k j). Qed.

Lemma bit_clear x k j : 0 <= k -> 0 <= j -> Z.testbit (x .&~ BIT k) j = Z.testbit x j && negb (j =? k).
Proof. intros. unfold BIT. rewrite Z.ldiff_spec, Z.pow2_bits_eqb by done. by rewrite (Z.eqb_sym k j). Qed.

Lemma bit_clear2 x k l j : 0 <= k -> 0 <= l -> 0 <= j ->
  Z.testbit (x .&~ (BIT k .| BIT l)) j = Z.testbit x j && negb (j =? k) && negb (j =? l).
Proof.
  intros. rewrite Z.ldiff_spec, bit_or by done. unfold BIT. rewrite Z.pow2_bits_eqb by done.
  rewrite (Z.eqb_sym k j). by rewrite negb_orb, andb_assoc.
Qed.

Lemma bit_u8 x j : 0 <= j < 8 -> Z.testbit (u8 x) j = Z.testbit x j.
Proof. intros. unfold u8. change 256 with (2 ^ 8). by rewrite Z.mod_pow2_bits_low by lia. Qed.

#[export] Hint Rewrite bit_or bit_clear bit_clear2 bit_u8 using lia : rtl_bits.

(** Evaluate the control lines of a register value. *)
Ltac lines :=
  unfold CS, SK, DI, Cfg9346_EECS, Cfg9346_EESK, Cfg9346_EEDI, Cfg9346_EEDO in *;
  repeat (rewrite ?bit_or, ?bit_clear2, ?bit_clear, ?bit_u8 by lia);
  cbn [Z.eqb Pos.eqb negb andb orb];
  rewrite ?andb_true_r, ?andb_false_r, ?orb_true_r, ?orb_false_r.

Section Wave.
Context {D : Type} `{M : !Mmio D} `{P : !EepromPort D}.

(** From [d] to [d'] the EEPROM and the code exchanged [evs]. *)
Definition sees (d d' : D) (evs : list event) : Prop :=
  exists ws, trace d' = trace d ++ ws /\ events (regval d) ws = evs /\
    regval d' = reg_after (regval d) ws.

(** The same with the line changes and the samples apart. *)
Definition emits (d d' : D) (es : list edge) (rs : list bool) : Prop :=
  exists evs, sees d d' evs /\ drives evs = es /\ samples evs = rs.

Lemma events_app p ws1 ws2 : events p (ws1 ++ ws2) = events p ws1 ++ events (reg_after p ws1) ws2.
Proof.
  revert p. induction ws1 as [|[x|b] ws1 IH]; intros p; [done|..]; cbn [app events reg_after]; rewrite IH.
  - by rewrite app_assoc.
  - done.
Qed.

Lemma reg_after_app p ws1 ws2 : reg_after p (ws1 ++ ws2) = reg_after (reg_after p ws1) ws2.
Proof. revert p. induction ws1 as [|[x|b] ws1 IH]; intros p; cbn [app reg_after]; done. Qed.

Lemma sees_trans d1 d2 d3 e1 e2 : sees d1 d2 e1 -> sees d2 d3 e2 -> sees d1 d3 (e1 ++ e2).
Proof.
  intros (w1&Hw1&He1&Hr1) (w2&Hw2&He2&Hr2). exists (w1 ++ w2).
  rewrite Hw2, Hw1, app_assoc, events_app, reg_after_app, He1, <- Hr1, He2. done.
Qed.

(** The exchange is determined by the trace. *)
Lemma sees_fun d d' e1 e2 : sees d d' e1 -> sees d d' e2 -> e1 = e2.
Proof. intros (w1&H1&<-&_) (w2&H2&<-&_). rewrite H1 in H2. by apply app_inv_head in H2 as ->. Qed.

Lemma emits_trans d1 d2 d3 es1 es2 rs1 rs2 :
  emits d1 d2 es1 rs1 -> emits d2 d3 es2 rs2 -> emits d1 d3 (es1 ++ es2) (rs1 ++ rs2).
Proof.
  intros (e1&H1&<-&<-) (e2&H2&<-&<-). exists (e1 ++ e2).
  rewrite drives_app, samples_app. split; [by eapply sees_trans|done].
Qed.

Lemma sees_refl d : sees d d [].
Proof. exists []. by rewrite app_nil_r. Qed.

Lemma emits_refl d : emits d d [] [].
Proof. exists []. split; [apply sees_refl|done]. Qed.

(** Without samples the exchange is determined by the line changes. *)
Lemma emits_sees d d' es : emits d d' es [] -> sees d d' (Drive <$> es).
Proof. intros (evs&Hs&<-&Hr). by rewrite <- (silent evs Hr). Qed.

Lemma emits_write v d :
  emits d (RTL_W8 Cfg9346 v d).2 (edge_of (regval d) (u8 v)) [] /\ regval (RTL_W8 Cfg9346 v d).2 = u8 v.
Proof.
  destruct (port_write v d) as (H1&H2). split; [|done]. eexists. split; [exists [Wr (u8 v)]|].
  - by rewrite H2, H1.
  - cbn [events]. rewrite app_nil_r, drives_fmap, samples_fmap. done.
Qed.

Lemma emits_delay n d : emits d (delay_us n d).2 [] [] /\ regval (delay_us n d).2 = regval d.
Proof.
  destruct (port_delay n d) as (H1&H2). split; [|done]. exists []. split; [|done].
  exists []. by rewrite app_nil_r.
Qed.

(** A read gives the control bits of the register. *)
Lemma sees_read d :
  let '(v, d') := RTL_R8 Cfg9346 d in
  sees d d' [Sample (has v Cfg9346_EEDO)] /\ regval d' = regval d /\
  forall j, 1 <= j -> Z.testbit v j = Z.testbit (regval d) j.
Proof.
  pose proof (port_read d) as H. destruct (RTL_R8 Cfg9346 d) as [v d']. destruct H as (Hv&H1&H2).
  split; [|split; [done|]].
  - by exists [Rd (has v Cfg9346_EEDO)].
  - intros j Hj. apply (f_equal (fun z => Z.testbit z j)) in Hv. unfold Cfg9346_EEDO in Hv.
    rewrite !bit_clear in Hv by lia. rewrite (proj2 (Z.eqb_neq j 0)) in Hv by lia.
    by rewrite !andb_true_r in Hv.
Qed.

Lemma emits_read d :
  let '(v, d') := RTL_R8 Cfg9346 d in
  emits d d' [] [has v Cfg9346_EEDO] /\ regval d' = regval d /\
  forall j, 1 <= j -> Z.testbit v j = Z.testbit (regval d) j.
Proof.
  pose proof (sees_read d) as H. destruct (RTL_R8 Cfg9346 d) as [v d']. destruct H as (Hs&H).
  split; [|done]. by eexists.
Qed.

(** A write of a value whose select line stays up and whose clock does not rise. *)
Lemma write_quiet v d : CS (regval d) = true -> CS v = true -> SK v = false ->
  emits d (RTL_W8 Cfg9346 v d).2 [] [] /\ regval (RTL_W8 Cfg9346 v d).2 = u8 v.
Proof.
  intros H1 H2 H3. destruct (emits_write v d) as [He Hr]. split; [|done].
  unfold edge_of in He. revert He. rewrite H1. lines. rewrite H2, H3.
  cbn [negb andb]. by rewrite andb_false_r.
Qed.

Lemma raise_spec x d : CS (regval d) = true -> SK (regval d) = false -> CS x = true ->
  let '(x', d') := rtl8125_raise_clock x d in
  emits d d' [Bit (DI x)] [] /\ x' = x .| Cfg9346_EESK /\ regval d' = u8 x'.
Proof.
  intros H1 H2 H3. unfold rtl8125_raise_clock. prog_run.
  destruct (emits_write (x .| Cfg9346_EESK) d) as [He Hr].
  destruct (emits_delay RTL_CLOCK_RATE (RTL_W8 Cfg9346 (x .| Cfg9346_EESK) d).2) as [He2 Hr2].
  split; [|split; [done|by rewrite Hr2, Hr]].
  eapply emits_trans in He2; [|exact He]. rewrite !app_nil_r in He2. revert He2.
  unfold edge_of. rewrite H1, H2. lines. rewrite H3. done.
Qed.

Lemma lower_spec x d : CS (regval d) = true -> CS x = true ->
  let '(x', d') := rtl8125_lower_clock x d in
  emits d d' [] [] /\ x' = x .&~ Cfg9346_EESK /\ regval d' = u8 x'.
Proof.
  intros H1 H2. unfold rtl8125_lower_clock. prog_run.
  destruct (write_quiet (x .&~ Cfg9346_EESK) d) as [He Hr]; [done|by lines|by lines|].
  destruct (emits_delay RTL_CLOCK_RATE (RTL_W8 Cfg9346 (x .&~ Cfg9346_EESK) d).2) as [He2 Hr2].
  split; [|split; [done|by rewrite Hr2, Hr]]. exact (emits_trans _ _ _ _ _ _ _ He He2).
Qed.

(** Selected, clock low. *)
Definition idle (d : D) : Prop := CS (regval d) = true /\ SK (regval d) = false.

Local Open Scope prog_scope.
Lemma shift_out_loop_S n data mask x :
  shift_out_loop (D := D) (S n) data mask x =
  let x := if has data mask then x .| Cfg9346_EEDI else x .&~ Cfg9346_EEDI in
  RTL_W8 Cfg9346 x ;;; delay_us RTL_CLOCK_RATE ;;;
  do x <- rtl8125_raise_clock x;
  do x <- rtl8125_lower_clock x;
  if Z.shiftr mask 1 =? 0 then ret x else shift_out_loop n data (Z.shiftr mask 1) x.
Proof. done. Qed.
Local Close Scope prog_scope.

(** One clocked bit: the data line is set up, then the clock pulses. *)
Lemma clock_bit x d : idle d -> CS x = true -> SK x = false ->
  let d1 := (delay_us RTL_CLOCK_RATE (RTL_W8 Cfg9346 x d).2).2 in
  let '(x2, d2) := rtl8125_raise_clock x d1 in
  let '(x3, d3) := rtl8125_lower_clock x2 d2 in
  emits d d3 [Bit (DI x)] [] /\ idle d3 /\ CS x3 = true /\ SK x3 = false.
Proof.
  intros [Hc Hk] Hx Hs. cbv zeta.
  destruct (write_quiet x d Hc Hx Hs) as [E0 R0].
  destruct (emits_delay RTL_CLOCK_RATE (RTL_W8 Cfg9346 x d).2) as [E1 R1].
  set (d1 := (delay_us RTL_CLOCK_RATE (RTL_W8 Cfg9346 x d).2).2) in *.
  pose proof (emits_trans _ _ _ _ _ _ _ E0 E1) as E01. rewrite R0 in R1. simpl in E01.
  assert (CS (regval d1) = true) as Hc1 by (rewrite R1; by lines).
  assert (SK (regval d1) = false) as Hk1 by (rewrite R1; by lines).
  pose proof (raise_spec x d1 Hc1 Hk1 Hx) as H2. destruct (rtl8125_raise_clock x d1) as [x2 d2].
  destruct H2 as (E2&->&R2).
  assert (CS (regval d2) = true) as Hc2 by (rewrite R2; lines; by rewrite Hx).
  pose proof (lower_spec (x .| Cfg9346_EESK) d2 Hc2) as H3.
  destruct (rtl8125_lower_clock (x .| Cfg9346_EESK) d2) as [x3 d3].
  destruct H3 as (E3&->&R3); [by lines|].
  split; [|split; [split|split]].
  - pose proof (emits_trans _ _ _ _ _ _ _ E01 (emits_trans _ _ _ _ _ _ _ E2 E3)) as E.
    simpl in E. exact E.
  - rewrite R3. lines. by rewrite Hx.
  - rewrite R3. by lines.
  - lines. by rewrite Hx.
  - by lines.
Qed.

Lemma shift_out_loop_spec n : forall data x d, idle d -> CS x = true -> SK x = false ->
  let '(x', d') := shift_out_loop (S n) data (BIT (Z.of_nat n)) x d in
  emits d d' (bits data (S n)) [] /\ idle d' /\ CS x' = true /\ SK x' = false.
Proof.
  assert (Hhead : forall k data x, CS x = true -> SK x = false ->
    let x1 := if has data (BIT (Z.of_nat k)) then x .| Cfg9346_EEDI else x .&~ Cfg9346_EEDI in
    CS x1 = true /\ SK x1 = false /\ DI x1 = Z.testbit data (Z.of_nat k)).
  { intros k data x Hx Hs. cbv zeta. rewrite has_bit by lia.
    destruct (Z.testbit data (Z.of_nat k)); lines; rewrite ?Hx, ?Hs; done. }
  assert (Hone : forall k data x d, idle d -> CS x = true -> SK x = false ->
    let x1 := if has data (BIT (Z.of_nat k)) then x .| Cfg9346_EEDI else x .&~ Cfg9346_EEDI in
    let '(x2, d2) := rtl8125_raise_clock x1 (delay_us RTL_CLOCK_RATE (RTL_W8 Cfg9346 x1 d).2).2 in
    let '(x3, d3) := rtl8125_lower_clock x2 d2 in
    emits d d3 [Bit (Z.testbit data (Z.of_nat k))] [] /\ idle d3 /\ CS x3 = true /\ SK x3 = false).
  { intros k data x d Hi Hx Hs. cbv zeta. destruct (Hhead k data x Hx Hs) as (H1&H2&H3).
    pose proof (clock_bit _ d Hi H1 H2) as Hb. cbv zeta in Hb. rewrite H3 in Hb. exact Hb. }
  induction n as [|n IH]; intros data x d Hi Hx Hs; rewrite shift_out_loop_S; cbv zeta; prog_run;
    [specialize (Hone 0%nat data x d Hi Hx Hs) | specialize (Hone (S n) data x d Hi Hx Hs)];
    cbv zeta in Hone; destruct (rtl8125_raise_clock _ _) as [x2 d2]; cbn [fst snd];
    destruct (rtl8125_lower_clock x2 d2) as [x3 d3]; cbn [fst snd] in *.
  - exact Hone.
  - destruct Hone as (He&Hi3&Hx3&Hs3).
    assert (Em : Z.shiftr (BIT (Z.of_nat (S n))) 1 = BIT (Z.of_nat n)).
    { unfold BIT. rewrite Z.shiftr_div_pow2 by lia. rewrite Nat2Z.inj_succ, Z.pow_succ_r by lia.
      rewrite Z.mul_comm. by apply Z.div_mul. }
    rewrite Em. rewrite (proj2 (Z.eqb_neq _ _)) by (unfold BIT; lia).
    specialize (IH data x3 d3 Hi3 Hx3 Hs3).
    destruct (shift_out_loop (S n) data (BIT (Z.of_nat n)) x3 d3) as [x4 d4].
    destruct IH as (He4&?&?&?). split; [|done].
    exact (emits_trans _ _ _ _ _ _ _ He He4).
Qed.

Lemma shift_out_spec data n d : idle d ->
  let d' := (rtl8125_shift_out_bits data (S n) d).2 in
  exists r, emits d d' (bits data (S n)) [r] /\ idle d'.
Proof.
  intros [Hc Hk]. cbv zeta. unfold rtl8125_shift_out_bits. prog_run.
  pose proof (emits_read d) as Hr. destruct (RTL_R8 Cfg9346 d) as [v d1]. destruct Hr as (E1&R1&Hv).
  cbn [fst snd]. replace (Z.of_nat (S n) - 1) with (Z.of_nat n) by lia.
  replace (Z.shiftl 1 (Z.of_nat n)) with (BIT (Z.of_nat n)) by (unfold BIT; by rewrite Z.shiftl_1_l).
  assert (Hi1 : idle d1) by (unfold idle; by rewrite R1).
  set (x := v .&~ (Cfg9346_EEDI .| Cfg9346_EEDO)).
  assert (CS x = true) as Hx by (unfold x; lines; rewrite Hv by lia; exact Hc).
  assert (SK x = false) as Hs by (unfold x; lines; rewrite Hv by lia; exact Hk).
  pose proof (shift_out_loop_spec n data x d1 Hi1 Hx Hs) as H2.
  destruct (shift_out_loop (S n) data (BIT (Z.of_nat n)) x d1) as [x2 d2]. cbn [fst snd].
  destruct H2 as (E2&[Hc2 Hk2]&Hx2&Hs2).
  destruct (write_quiet (x2 .&~ Cfg9346_EEDI) d2 Hc2) as [E3 R3]; [lines; by rewrite Hx2|lines; by rewrite Hs2|].
  exists (has v Cfg9346_EEDO). split.
  - pose proof (emits_trans _ _ _ _ _ _ _ E1 (emits_trans _ _ _ _ _ _ _ E2 E3)) as E.
    rewrite !app_nil_r in E. exact E.
  - split; rewrite R3; lines; [exact Hx2|exact Hs2].
Qed.

Local Open Scope prog_scope.
Lemma shift_in_loop_S n x acc :
  shift_in_loop (D := D) (S n) x acc =
  do _ <- rtl8125_raise_clock x;
  do v <- RTL_R8 Cfg9346;
  do x <- rtl8125_lower_clock (v .&~ Cfg9346_EEDI);
  shift_in_loop n x (if has (v .&~ Cfg9346_EEDI) Cfg9346_EEDO then u16 (Z.shiftl acc 1) .| 1
                     else u16 (Z.shiftl acc 1)).
Proof. done. Qed.
Local Close Scope prog_scope.

Lemma shift_acc acc (b : bool) : 0 <= acc < 32768 ->
  (if b then u16 (Z.shiftl acc 1) .| 1 else u16 (Z.shiftl acc 1)) = 2 * acc + Z.b2z b.
Proof.
  intros H. rewrite Z.shiftl_mul_pow2, u16_small by lia. destruct b; simpl; [|lia].
  rewrite lor_add_shift; lia.
Qed.

(** Bits clocked in: the data line low, one sample after each rising clock. *)
Definition clocked_in (bs : list bool) : list event :=
  b ← bs; [Drive (Bit false); Sample b].

Lemma shift_in_loop_spec n : forall x acc d, idle d -> CS x = true -> SK x = false -> DI x = false ->
  (n <= 16)%nat -> 0 <= acc < 2 ^ (16 - Z.of_nat n) ->
  let '(r, d') := shift_in_loop n x acc d in
  exists bs, length bs = n /\ sees d d' (clocked_in bs) /\ idle d' /\
    r = foldl (fun a b => 2 * a + Z.b2z b) acc bs.
Proof.
  induction n as [|n IH]; intros x acc d Hi Hx Hs Hdi Hn Hacc.
  { exists []. simpl. split_and!; try done. apply sees_refl. }
  rewrite shift_in_loop_S. prog_run. destruct Hi as [Hc Hk].
  pose proof (raise_spec x d Hc Hk Hx) as H1. destruct (rtl8125_raise_clock x d) as [x1 d1]. cbn [fst snd].
  destruct H1 as (E1&->&R1). rewrite Hdi in E1.
  pose proof (sees_read d1) as H2. destruct (RTL_R8 Cfg9346 d1) as [v d2]. cbn [fst snd].
  destruct H2 as (E2&R2&Hv).
  assert (CS v = true) as Hv3 by (unfold CS; rewrite Hv by lia; rewrite R1; lines; exact Hx).
  assert (CS (v .&~ Cfg9346_EEDI) = true) as Hcv by (lines; exact Hv3).
  assert (CS (regval d2) = true) as Hc2 by (rewrite R2, R1; lines; exact Hx).
  pose proof (lower_spec (v .&~ Cfg9346_EEDI) d2 Hc2 Hcv) as H3.
  destruct (rtl8125_lower_clock (v .&~ Cfg9346_EEDI) d2) as [x3 d3]. cbn [fst snd].
  destruct H3 as (E3&->&R3).
  assert (Ho : has (v .&~ Cfg9346_EEDI) Cfg9346_EEDO = has v Cfg9346_EEDO).
  { unfold Cfg9346_EEDI, Cfg9346_EEDO. rewrite !has_bit, bit_clear by lia. simpl. by rewrite andb_true_r. }
  assert (Hpow : 2 ^ (16 - Z.of_nat n) = 2 * 2 ^ (16 - Z.of_nat (S n))).
  { rewrite <- Z.pow_succ_r by lia. f_equal. lia. }
  assert (2 ^ (16 - Z.of_nat (S n)) <= 2 ^ 15) as Hle by (apply Z.pow_le_mono_r; lia).
  rewrite Ho, shift_acc by lia.
  match goal with |- context [shift_in_loop n ?x ?a d3] =>
    specialize (IH x a d3); destruct (shift_in_loop n x a d3) as [r d4] end.
  destruct IH as (bs&Hl&E4&Hi4&Hr).
  - split; rewrite R3; lines; [exact Hv3|done].
  - lines. exact Hv3.
  - by lines.
  - by lines.
  - lia.
  - rewrite Hpow. destruct (has v Cfg9346_EEDO); simpl Z.b2z; lia.
  - exists (has v Cfg9346_EEDO :: bs). split_and!; try done; [simpl; by rewrite Hl|].
    apply emits_sees in E1, E3.
    exact (sees_trans _ _ _ _ _ E1 (sees_trans _ _ _ _ _ E2 (sees_trans _ _ _ _ _ E3 E4))).
Qed.

Lemma shift_in_spec d : idle d ->
  let '(r, d') := rtl8125_shift_in_bits d in
  exists b0 bs, length bs = 16%nat /\ sees d d' (Sample b0 :: clocked_in bs) /\ idle d' /\
    r = word_of bs.
Proof.
  intros [Hc Hk]. unfold rtl8125_shift_in_bits. prog_run.
  pose proof (sees_read d) as Hr. destruct (RTL_R8 Cfg9346 d) as [v d1]. destruct Hr as (E1&R1&Hv).
  cbn [fst snd]. set (x := v .&~ (Cfg9346_EEDI .| Cfg9346_EEDO)).
  pose proof (shift_in_loop_spec 16 x 0 d1) as H.
  destruct (shift_in_loop 16 x 0 d1) as [r d2]. destruct H as (bs&Hl&E2&Hi2&Hr).
  - unfold idle. by rewrite R1.
  - unfold x; lines; rewrite Hv by lia; exact Hc.
  - unfold x; lines; rewrite Hv by lia; exact Hk.
  - unfold x; by lines.
  - lia.
  - lia.
  - exists (has v Cfg9346_EEDO), bs. split_and!; try done.
    exact (sees_trans _ _ _ _ _ E1 E2).
Qed.

Lemma stand_by_spec d : CS (regval d) = true ->
  let d' := (rtl8125_stand_by d).2 in
  exists r, emits d d' [Deselect] [r] /\ idle d' /\ DI (regval d') = DI (regval d).
Proof.
  intros Hc. cbv zeta. unfold rtl8125_stand_by. prog_run.
  pose proof (emits_read d) as Hr. destruct (RTL_R8 Cfg9346 d) as [v d1]. destruct Hr as (E1&R1&Hv).
  cbn [fst snd]. set (x := v .&~ (Cfg9346_EECS .| Cfg9346_EESK)).
  destruct (emits_write x d1) as [E2 R2]. set (d2 := (RTL_W8 Cfg9346 x d1).2) in *.
  destruct (emits_delay RTL_CLOCK_RATE d2) as [E3 R3]. set (d3 := (delay_us RTL_CLOCK_RATE d2).2) in *.
  destruct (emits_write (x .| Cfg9346_EECS) d3) as [E4 R4].
  assert (X2 : edge_of (regval d1) (u8 x) = [Deselect]).
  { unfold edge_of. rewrite R1, Hc. unfold x. by lines. }
  assert (X4 : edge_of (regval d3) (u8 (x .| Cfg9346_EECS)) = []).
  { unfold edge_of. rewrite R3, R2. unfold x. by lines. }
  rewrite X2 in E2. rewrite X4 in E4. exists (has v Cfg9346_EEDO). split; [|split; [split|]].
  - pose proof (emits_trans _ _ _ _ _ _ _ E1 (emits_trans _ _ _ _ _ _ _ E2
      (emits_trans _ _ _ _ _ _ _ E3 E4))) as E. simpl in E. exact E.
  - rewrite R4. by lines.
  - rewrite R4. unfold x. by lines.
  - rewrite R4. unfold x. lines. rewrite Hv by lia. done.
Qed.

Lemma write_deselected v d : CS (regval d) = false ->
  emits d (RTL_W8 Cfg9346 v d).2 [] [] /\ regval (RTL_W8 Cfg9346 v d).2 = u8 v.
Proof.
  intros H. destruct (emits_write v d) as [He Hr]. split; [|done].
  unfold edge_of in He. by rewrite H in He.
Qed.

(** Opening a command: the first write selects the EEPROM with the clock low. *)
Lemma open_spec d : let d' := (RTL_W8 Cfg9346 (Cfg9346_EEM1 .| Cfg9346_EECS) d).2 in
  emits d d' [] [] /\ idle d'.
Proof.
  cbv zeta. destruct (emits_write (Cfg9346_EEM1 .| Cfg9346_EECS) d) as [He Hr].
  change (u8 (Cfg9346_EEM1 .| Cfg9346_EECS)) with 136 in *. split.
  - unfold edge_of in He. change (CS 136) with true in He. change (SK 136) with false in He.
    rewrite !andb_false_r in He. exact He.
  - unfold idle. rewrite Hr. done.
Qed.

(** The clock pulse of the cleanup comes after the deselection. *)
Lemma cleanup_spec d : CS (regval d) = true ->
  let d' := (rtl8125_eeprom_cleanup d).2 in
  exists r, emits d d' [Deselect] [r] /\ CS (regval d') = false.
Proof.
  intros Hc. cbv zeta. unfold rtl8125_eeprom_cleanup, rtl8125_raise_clock, rtl8125_lower_clock. prog_run.
  pose proof (emits_read d) as Hr. destruct (RTL_R8 Cfg9346 d) as [v d1]. destruct Hr as (E1&R1&Hv).
  cbn [fst snd]. set (x := v .&~ (Cfg9346_EEDI .| Cfg9346_EECS)).
  assert (Hx : CS (u8 x) = false) by (unfold x; by lines).
  destruct (emits_write x d1) as [E2 R2]. set (d2 := (RTL_W8 Cfg9346 x d1).2) in *.
  assert (X2 : edge_of (regval d1) (u8 x) = [Deselect]) by (unfold edge_of; by rewrite R1, Hc, Hx).
  rewrite X2 in E2.
  destruct (write_deselected (x .| Cfg9346_EESK) d2) as [E3 R3]; [by rewrite R2|].
  set (d3 := (RTL_W8 Cfg9346 (x .| Cfg9346_EESK) d2).2) in *.
  destruct (emits_delay RTL_CLOCK_RATE d3) as [E4 R4]. set (d4 := (delay_us RTL_CLOCK_RATE d3).2) in *.
  assert (Hc4 : CS (regval d4) = false) by (rewrite R4, R3; unfold x; by lines).
  destruct (write_deselected ((x .| Cfg9346_EESK) .&~ Cfg9346_EESK) d4 Hc4) as [E5 R5].
  set (d5 := (RTL_W8 Cfg9346 ((x .| Cfg9346_EESK) .&~ Cfg9346_EESK) d4).2) in *.
  destruct (emits_delay RTL_CLOCK_RATE d5) as [E6 R6].
  exists (has v Cfg9346_EEDO). split.
  - pose proof (emits_trans _ _ _ _ _ _ _ E1 (emits_trans _ _ _ _ _ _ _ E2 (emits_trans _ _ _ _ _ _ _ E3
      (emits_trans _ _ _ _ _ _ _ E4 (emits_trans _ _ _ _ _ _ _ E5 E6))))) as E. simpl in E. exact E.
  - rewrite R6, R5. unfold x. by lines.
Qed.

Local Open Scope prog_scope.
Lemma cmd_done_loop_S n :
  cmd_done_loop (D := D) (S n) =
  do x <- RTL_R8 Cfg9346;
  if has x Cfg9346_EEDO then delay_us (RTL_CLOCK_RATE * 2 * 3) ;;; ret true
  else delay_us 1 ;;; cmd_done_loop n.
Proof. done. Qed.
Local Close Scope prog_scope.

(** The poll drives nothing; it gives up only after [n] reads of a low bit. *)
Lemma cmd_done_loop_spec n : forall d,
  let '(ok, d') := cmd_done_loop n d in
  exists rs, emits d d' [] rs /\ regval d' = regval d /\
    if ok : bool then last rs = Some true else rs = replicate n false.
Proof.
  induction n as [|n IH]; intros d; [exists []; split_and!; [apply emits_refl|done..]|].
  rewrite cmd_done_loop_S. rewrite bind_run.
  pose proof (emits_read d) as Hr. destruct (RTL_R8 Cfg9346 d) as [v d1]. destruct Hr as (E1&R1&_).
  cbn [fst snd]. destruct (has v Cfg9346_EEDO) eqn:Ho; prog_run.
  - destruct (emits_delay (RTL_CLOCK_RATE * 2 * 3) d1) as [E2 R2]. exists [true].
    pose proof (emits_trans _ _ _ _ _ _ _ E1 E2) as E. split_and!; [done|congruence|done].
  - destruct (emits_delay 1 d1) as [E2 R2]. specialize (IH (delay_us 1 d1).2).
    destruct (cmd_done_loop n (delay_us 1 d1).2) as [ok d3]. destruct IH as (rs&E3&R3&Hok).
    exists (false :: rs). split_and!.
    + exact (emits_trans _ _ _ _ _ _ _ E1 (emits_trans _ _ _ _ _ _ _ E2 E3)).
    + congruence.
    + destruct ok; [|simpl; by rewrite Hok]. by rewrite last_cons, Hok.
Qed.

(** Select line, clock and data line all low at the end of a command. *)
Lemma close_spec d : CS (regval d) = true ->
  let d' := (RTL_W8 Cfg9346 0 (rtl8125_eeprom_cleanup d).2).2 in
  exists r, emits d d' [Deselect] [r] /\ regval d' = 0.
Proof.
  intros Hc. destruct (cleanup_spec d Hc) as (r&E1&H1).
  destruct (write_deselected 0 _ H1) as [E2 R2]. exists r. split; [|exact R2].
  exact (emits_trans _ _ _ _ _ _ _ E1 E2).
Qed.

Lemma shift_out_positive data c d : (0 < c)%nat -> idle d ->
  let d' := (rtl8125_shift_out_bits data c d).2 in
  exists r, emits d d' (bits data c) [r] /\ idle d'.
Proof. intros Hc Hi. destruct c as [|n]; [lia|]. by apply shift_out_spec. Qed.

Lemma sizes_positive k : (0 < addr_sz k)%nat /\ (0 < w_dummy_addr k)%nat.
Proof. destruct k; simpl; lia. Qed.

Lemma read_sc_spec k reg d : k <> EEPROM_TYPE_NONE ->
  let '(v, d') := rtl8125_eeprom_read_sc k reg d in
  exists cmd bs b0 fin, length bs = 16%nat /\
    sees d d' (cmd ++ Sample b0 :: clocked_in bs ++ fin) /\
    drives cmd = bits RTL_EEPROM_READ_OPCODE 3 ++ bits reg (addr_sz k) /\ drives fin = [Deselect] /\
    v = word_of bs /\ regval d' = 0.
Proof.
  intros Hk. destruct (sizes_positive k) as [Hsz _].
  assert (Ecode : rtl8125_eeprom_read_sc (D := D) k reg = (
      RTL_W8 Cfg9346 (Cfg9346_EEM1 .| Cfg9346_EECS) ;;; rtl8125_shift_out_bits RTL_EEPROM_READ_OPCODE 3 ;;;
      rtl8125_shift_out_bits reg (addr_sz k) ;;; do data <- rtl8125_shift_in_bits;
      rtl8125_eeprom_cleanup ;;; RTL_W8 Cfg9346 0 ;;; ret data)%prog) by (by destruct k).
  rewrite Ecode. clear Ecode. prog_run.
  destruct (open_spec d) as [E0 I0]. set (d0 := (RTL_W8 Cfg9346 _ d).2) in *.
  destruct (shift_out_positive RTL_EEPROM_READ_OPCODE 3 d0 ltac:(lia) I0) as (r1&E1&I1).
  set (d1 := (rtl8125_shift_out_bits _ 3 d0).2) in *.
  destruct (shift_out_positive reg (addr_sz k) d1 Hsz I1) as (r2&E2&I2).
  set (d2 := (rtl8125_shift_out_bits reg _ d1).2) in *.
  pose proof (shift_in_spec d2 I2) as H3. destruct (rtl8125_shift_in_bits d2) as [v d3].
  destruct H3 as (r3&bs&Hl&E3&[Hc3 _]&->). cbn [fst snd].
  destruct (close_spec d3 Hc3) as (r4&E4&R4).
  destruct (emits_trans _ _ _ _ _ _ _ E0 (emits_trans _ _ _ _ _ _ _ E1 E2)) as (cmd&S1&D1&_).
  destruct E4 as (fin&S4&D4&_). exists cmd, bs, r3, fin. split_and!; try done.
  pose proof (sees_trans _ _ _ _ _ S1 (sees_trans _ _ _ _ _ E3 S4)) as E. exact E.
Qed.

(** The waveforms of the stages of a write command. *)
Definition enable_wave k reg : list edge :=
  bits RTL_EEPROM_EWEN_OPCODE 5 ++ bits reg (w_dummy_addr k) ++ [Deselect].
Definition erase_wave k reg : list edge :=
  bits RTL_EEPROM_ERASE_OPCODE 3 ++ bits reg (addr_sz k) ++ [Deselect].
Definition word_wave k reg data : list edge :=
  [Deselect] ++ bits RTL_EEPROM_WRITE_OPCODE 3 ++ bits reg (addr_sz k) ++ bits data 16 ++ [Deselect].
Definition disable_wave k reg : list edge :=
  [Deselect] ++ bits RTL_EEPROM_EWDS_OPCODE 5 ++ bits reg (w_dummy_addr k) ++ [Deselect].

(** A command that ends in the ready poll. *)
Lemma cmd_done_spec d : idle d ->
  let '(ok, d') := rtl8125_eeprom_cmd_done d in
  exists rs, emits d d' [Deselect] rs /\ idle d' /\
    (ok = false -> exists r, rs = r :: replicate cmd_done_polls false).
Proof.
  intros [Hc _]. unfold rtl8125_eeprom_cmd_done. prog_run.
  destruct (stand_by_spec d Hc) as (r&E1&I1&_). set (d1 := (rtl8125_stand_by d).2) in *.
  pose proof (cmd_done_loop_spec cmd_done_polls d1) as H. destruct (cmd_done_loop cmd_done_polls d1) as [ok d2].
  destruct H as (rs&E2&R2&Hok). exists (r :: rs). split_and!.
  - exact (emits_trans _ _ _ _ _ _ _ E1 E2).
  - unfold idle. by rewrite R2.
  - intros ->. exists r. by rewrite Hok.
Qed.

Lemma disable_spec k reg d : idle d ->
  exists rs, emits d (write_sc_disable k reg d).2 (disable_wave k reg) rs /\
    regval (write_sc_disable k reg d).2 = 0.
Proof.
  intros [Hc _]. destruct (sizes_positive k) as [_ Hsz]. unfold write_sc_disable. prog_run.
  destruct (stand_by_spec d Hc) as (r0&E0&I0&_). set (d0 := (rtl8125_stand_by d).2) in *.
  destruct (shift_out_positive RTL_EEPROM_EWDS_OPCODE 5 d0 ltac:(lia) I0) as (r1&E1&I1).
  set (d1 := (rtl8125_shift_out_bits _ 5 d0).2) in *.
  destruct (shift_out_positive reg (w_dummy_addr k) d1 Hsz I1) as (r2&E2&[Hc2 _]).
  set (d2 := (rtl8125_shift_out_bits reg _ d1).2) in *.
  destruct (close_spec d2 Hc2) as (r3&E3&R3). eexists. split; [|exact R3].
  exact (emits_trans _ _ _ _ _ _ _ E0 (emits_trans _ _ _ _ _ _ _ E1 (emits_trans _ _ _ _ _ _ _ E2 E3))).
Qed.

(** The last [cmd_done_polls] reads of the data-out line saw it low. *)
Definition timed_out (rs : list bool) : Prop :=
  exists pre, rs = pre ++ replicate cmd_done_polls false.

Lemma timed_out_app pre rs : timed_out rs -> timed_out (pre ++ rs).
Proof. intros [q ->]. exists (pre ++ q). by rewrite app_assoc. Qed.

Lemma gives_up r : timed_out (r :: replicate cmd_done_polls false).
Proof. by exists [r]. Qed.

(** How a write command ends: finished, or given up with the EEPROM selected. *)
Definition write_ends (d d' : D) (full partial : list edge) : Prop :=
  exists rs, (emits d d' full rs /\ regval d' = 0) \/
             (emits d d' partial rs /\ CS (regval d') = true /\ timed_out rs).

Lemma word_spec k reg data d : idle d ->
  write_ends d (write_sc_word k reg data d).2 (word_wave k reg data ++ disable_wave k reg) (word_wave k reg data).
Proof.
  intros [Hc _]. destruct (sizes_positive k) as [Hsz _]. unfold write_sc_word. rewrite !bind_run.
  destruct (stand_by_spec d Hc) as (r0&E0&I0&_). set (d0 := (rtl8125_stand_by d).2) in *.
  destruct (shift_out_positive RTL_EEPROM_WRITE_OPCODE 3 d0 ltac:(lia) I0) as (r1&E1&I1).
  set (d1 := (rtl8125_shift_out_bits _ 3 d0).2) in *.
  destruct (shift_out_positive reg (addr_sz k) d1 Hsz I1) as (r2&E2&I2).
  set (d2 := (rtl8125_shift_out_bits reg _ d1).2) in *.
  destruct (shift_out_positive data 16 d2 ltac:(lia) I2) as (r3&E3&I3).
  set (d3 := (rtl8125_shift_out_bits data 16 d2).2) in *.
  pose proof (cmd_done_spec d3 I3) as H4. destruct (rtl8125_eeprom_cmd_done d3) as [ok d4].
  destruct H4 as (rs&E4&I4&Hno). cbn [fst snd].
  pose proof (emits_trans _ _ _ _ _ _ _ E0 (emits_trans _ _ _ _ _ _ _ E1 (emits_trans _ _ _ _ _ _ _ E2
    (emits_trans _ _ _ _ _ _ _ E3 E4)))) as E. destruct ok.
  - destruct (disable_spec k reg d4 I4) as (rs5&E5&R5). eexists. left. split; [|exact R5].
    exact (emits_trans _ _ _ _ _ _ _ E E5).
  - destruct (Hno eq_refl) as (r&->). eexists. right. split; [exact E|]. split; [apply I4|].
    apply (timed_out_app [r0; r1; r2; r3]), gives_up.
Qed.

(** The three ways a write command can end. *)
Definition full_wave k reg data : list edge :=
  enable_wave k reg ++ erase_wave k reg ++ word_wave k reg data ++ disable_wave k reg.

Definition erase_failed_wave k reg : list edge := enable_wave k reg ++ erase_wave k reg.

Definition word_failed_wave k reg data : list edge :=
  enable_wave k reg ++ erase_wave k reg ++ word_wave k reg data.

Lemma write_sc_spec k reg data d : k <> EEPROM_TYPE_NONE ->
  let d' := (rtl8125_eeprom_write_sc k reg data d).2 in
  exists rs,
    (emits d d' (full_wave k reg data) rs /\ regval d' = 0) \/
    ((emits d d' (erase_failed_wave k reg) rs \/ emits d d' (word_failed_wave k reg data) rs) /\
     CS (regval d') = true /\ timed_out rs).
Proof.
  intros Hk. destruct (sizes_positive k) as [Hsz Hw].
  assert (Ecode : rtl8125_eeprom_write_sc (D := D) k reg data = (
      RTL_W8 Cfg9346 (Cfg9346_EEM1 .| Cfg9346_EECS) ;;; rtl8125_shift_out_bits RTL_EEPROM_EWEN_OPCODE 5 ;;;
      rtl8125_shift_out_bits reg (w_dummy_addr k) ;;; rtl8125_stand_by ;;;
      rtl8125_shift_out_bits RTL_EEPROM_ERASE_OPCODE 3 ;;; rtl8125_shift_out_bits reg (addr_sz k) ;;;
      do ok <- rtl8125_eeprom_cmd_done;
      if ok then write_sc_word k reg data else ret tt)%prog) by (by destruct k).
  cbv zeta. rewrite Ecode. clear Ecode. rewrite !bind_run.
  destruct (open_spec d) as [E0 I0]. set (d0 := (RTL_W8 Cfg9346 _ d).2) in *.
  destruct (shift_out_positive RTL_EEPROM_EWEN_OPCODE 5 d0 ltac:(lia) I0) as (r1&E1&I1).
  set (d1 := (rtl8125_shift_out_bits _ 5 d0).2) in *.
  destruct (shift_out_positive reg (w_dummy_addr k) d1 Hw I1) as (r2&E2&[Hc2 _]).
  set (d2 := (rtl8125_shift_out_bits reg _ d1).2) in *.
  destruct (stand_by_spec d2 Hc2) as (r3&E3&I3&_). set (d3 := (rtl8125_stand_by d2).2) in *.
  destruct (shift_out_positive RTL_EEPROM_ERASE_OPCODE 3 d3 ltac:(lia) I3) as (r4&E4&I4).
  set (d4 := (rtl8125_shift_out_bits _ 3 d3).2) in *.
  destruct (shift_out_positive reg (addr_sz k) d4 Hsz I4) as (r5&E5&I5).
  set (d5 := (rtl8125_shift_out_bits reg _ d4).2) in *.
  pose proof (cmd_done_spec d5 I5) as H6. destruct (rtl8125_eeprom_cmd_done d5) as [ok d6].
  destruct H6 as (rs&E6&I6&Hno). cbn [fst snd].
  pose proof (emits_trans _ _ _ _ _ _ _ E0 (emits_trans _ _ _ _ _ _ _ E1 (emits_trans _ _ _ _ _ _ _ E2
    (emits_trans _ _ _ _ _ _ _ E3 (emits_trans _ _ _ _ _ _ _ E4 (emits_trans _ _ _ _ _ _ _ E5 E6)))))) as E.
  assert (Ew : emits d d6 (enable_wave k reg ++ erase_wave k reg) ([r1; r2; r3; r4; r5] ++ rs)).
  { unfold enable_wave, erase_wave. rewrite <- !app_assoc. exact E. }
  destruct ok.
  - destruct (word_spec k reg data d6 I6) as (rs7&[[E7 R7]|(E7&C7&T7)]).
    + eexists. left. split; [|exact R7]. pose proof (emits_trans _ _ _ _ _ _ _ Ew E7) as E'.
      unfold full_wave. rewrite <- app_assoc in E'. exact E'.
    + eexists. right. split; [right|split; [exact C7|]].
      * pose proof (emits_trans _ _ _ _ _ _ _ Ew E7) as E'. unfold word_failed_wave.
        rewrite <- app_assoc in E'. exact E'.
      * by apply timed_out_app.
  - destruct (Hno eq_refl) as (r&->). eexists. right. split; [left; exact Ew|].
    split; [apply I6|]. apply (timed_out_app [r1; r2; r3; r4; r5]), gives_up.
Qed.
End Wave.

(** ** The EEPROM as a machine

    The three-wire protocol of the 93C46/56/66 in 16-bit organisation: a
    command is the bits clocked in since the chip was selected (a start bit, two
    opcode bits, the address, the data of a write) and takes effect when the
    chip is deselected; after a read command each clock puts the next bit of the
    addressed word on the data-out line, most significant first. *)
Record chip := Chip { cells : Z -> Z; enabled : bool; got : list bool }.

Definition set_cell (c : chip) (a w : Z) : chip :=
  Chip (fun i => if i =? a then w else cells c i) (enabled c) [].

Definition deselect (n : nat) (c : chip) : chip :=
  match got c with
  | true :: false :: true :: r =>
      if enabled c && (length r =? n + 16)%nat then set_cell c (word_of (take n r)) (word_of (drop n r))
      else Chip (cells c) (enabled c) []
  | true :: true :: true :: r =>
      if enabled c && (length r =? n)%nat then set_cell c (word_of r) 65535
      else Chip (cells c) (enabled c) []
  | true :: false :: false :: true :: true :: r =>
      Chip (cells c) (if (length r =? n - 2)%nat then true else enabled c) []
  | true :: false :: false :: false :: false :: r =>
      Chip (cells c) (if (length r =? n - 2)%nat then false else enabled c) []
  | _ => Chip (cells c) (enabled c) []
  end.

Definition drive (n : nat) (c : chip) (e : edge) : chip :=
  match e with
  | Bit b => Chip (cells c) (enabled c) (got c ++ [b])
  | Deselect => deselect n c
  end.

(** The data-out line, where the protocol fixes it. *)
Definition data_out (n : nat) (c : chip) : option bool :=
  match got c with
  | true :: true :: false :: r =>
      if (n <? length r)%nat then
        Some (Z.testbit (cells c (word_of (take n r))) (16 - Z.of_nat (length r - n)))
      else None
  | _ => None
  end.

(** Running an exchange; [None] when a sample is not what the chip drives. *)
Fixpoint chip_run (n : nat) (c : chip) (evs : list event) : option chip :=
  match evs with
  | [] => Some c
  | Drive e :: r => chip_run n (drive n c e) r
  | Sample b :: r => if decide (data_out n c = Some (negb b)) then None else chip_run n c r
  end.

Lemma chip_run_app n e1 : forall c e2 c2, chip_run n c (e1 ++ e2) = Some c2 ->
  exists c1, chip_run n c e1 = Some c1 /\ chip_run n c1 e2 = Some c2.
Proof.
  induction e1 as [|[e|b] e1 IH]; intros c e2 c2 H; [by exists c|by apply IH|].
  cbn [app chip_run] in *. case_decide; [done|]. by apply IH.
Qed.

(** Samples constrain the chip but do not change it. *)
Lemma chip_run_drives n evs : forall c c', chip_run n c evs = Some c' -> c' = foldl (drive n) c (drives evs).
Proof.
  induction evs as [|[e|b] evs IH]; intros c c' H; cbn [chip_run drives] in *.
  - by simplify_eq.
  - by apply IH.
  - case_decide; [done|]. by apply IH.
Qed.

Lemma drive_bits n data k : forall c,
  foldl (drive n) c (bits data k) = Chip (cells c) (enabled c) (got c ++ msb data k).
Proof.
  unfold bits. induction k as [|k IH]; intros c; simpl; [destruct c; simpl; by rewrite app_nil_r|].
  set (b := Z.testbit data (Z.of_nat k)).
  change (foldl (drive n) (drive n c (Bit b)) (Bit <$> msb data k) =
    Chip (cells c) (enabled c) (got c ++ b :: msb data k)).
  rewrite IH. simpl. by rewrite <- app_assoc.
Qed.

Lemma length_msb data k : length (msb data k) = k.
Proof. induction k; simpl; congruence. Qed.

Lemma word_of_snoc_acc acc bs :
  foldl (fun d b => 2 * d + Z.b2z b) acc bs = acc * 2 ^ Z.of_nat (length bs) + word_of bs.
Proof.
  unfold word_of. revert acc. induction bs as [|b bs IH]; intros acc; cbn [foldl length]; [lia|].
  rewrite IH, (IH (2 * 0 + Z.b2z b)). rewrite Nat2Z.inj_succ, Z.pow_succ_r by lia. lia.
Qed.

Lemma word_of_cons b bs : word_of (b :: bs) = Z.b2z b * 2 ^ Z.of_nat (length bs) + word_of bs.
Proof. unfold word_of at 1. cbn [foldl]. rewrite word_of_snoc_acc. lia. Qed.

(** Bits sent are bits received. *)
Lemma word_of_msb data k : word_of (msb data k) = data mod 2 ^ Z.of_nat k.
Proof.
  induction k as [|k IH]; [by rewrite Z.mod_1_r|]. cbn [msb]. rewrite word_of_cons, length_msb, IH.
  rewrite Nat2Z.inj_succ. replace (Z.succ (Z.of_nat k)) with (Z.of_nat k + 1) by lia.
  rewrite Z.pow_add_r, Z.pow_1_r, Z.rem_mul_r, <- Z.testbit_spec' by lia. lia.
Qed.

(** The samples of a word clocked in are the bits of the addressed cell. *)
Lemma clocked_in_word n w bs : forall c r c',
  got c = true :: true :: false :: r -> cells c (word_of (take n r)) = w ->
  (length r + length bs = n + 16)%nat -> (n <= length r)%nat ->
  chip_run n c (clocked_in bs) = Some c' -> bs = msb w (length bs).
Proof.
  induction bs as [|b bs IH]; intros c r c' Hg Hw Hl Hn H; [done|].
  change (chip_run n c (Drive (Bit false) :: Sample b :: clocked_in bs) = Some c') in H.
  cbn [chip_run drive] in H. set (c1 := Chip (cells c) (enabled c) (got c ++ [false])) in *.
  assert (Hg1 : got c1 = true :: true :: false :: (r ++ [false])) by (unfold c1; simpl; by rewrite Hg).
  assert (Ht : take n (r ++ [false]) = take n r) by (apply take_app_le; lia).
  assert (Hw1 : cells c1 (word_of (take n (r ++ [false]))) = w) by (by rewrite Ht).
  assert (Ho : data_out n c1 = Some (Z.testbit w (Z.of_nat (length bs)))).
  { unfold data_out. rewrite Hg1, Hw1, length_app. cbn [length] in *.
    rewrite (proj2 (Nat.ltb_lt _ _)) by lia. do 2 f_equal. lia. }
  rewrite Ho in H. case_decide as Hd; [done|]. cbn [length msb] in *. f_equal.
  - destruct b, (Z.testbit w (Z.of_nat (length bs))); done.
  - eapply (IH c1); [exact Hg1|exact Hw1| | |exact H]; rewrite length_app; simpl; lia.
Qed.

(** ** The stages of a write, as the EEPROM runs them *)

Ltac run_stage Hg :=
  rewrite ?foldl_app, ?drive_bits; rewrite ?Hg; simpl;
  unfold deselect; simpl; rewrite ?length_msb, ?length_app, ?length_msb.

Lemma enable_stage k reg c : got c = [] ->
  foldl (drive (addr_sz k)) c (enable_wave k reg) = Chip (cells c) true [].
Proof. intros Hg. unfold enable_wave. run_stage Hg. by destruct k. Qed.

Lemma disable_stage k reg c : got c = [] ->
  foldl (drive (addr_sz k)) c (disable_wave k reg) = Chip (cells c) false [].
Proof.
  intros Hg. unfold disable_wave. rewrite foldl_app. simpl (foldl _ c [Deselect]).
  unfold deselect at 1. rewrite Hg. run_stage Hg. by destruct k.
Qed.

Lemma erase_stage k reg c : got c = [] -> enabled c = true ->
  foldl (drive (addr_sz k)) c (erase_wave k reg) = set_cell c (reg mod 2 ^ Z.of_nat (addr_sz k)) 65535.
Proof.
  intros Hg He. unfold erase_wave. run_stage Hg. rewrite He, Nat.eqb_refl, word_of_msb.
  unfold set_cell. simpl. by rewrite ?He.
Qed.

Lemma word_stage k reg data c : got c = [] -> enabled c = true ->
  foldl (drive (addr_sz k)) c (word_wave k reg data) =
  set_cell c (reg mod 2 ^ Z.of_nat (addr_sz k)) (u16 data).
Proof.
  intros Hg He. unfold word_wave. rewrite foldl_app. simpl (foldl _ c [Deselect]).
  unfold deselect at 1. rewrite Hg, !foldl_app, !drive_bits. cbn [got app cells enabled].
  change (msb RTL_EEPROM_WRITE_OPCODE 3) with [true; false; true]. cbn [app foldl drive].
  unfold deselect. cbn [got enabled]. rewrite He, length_app, !length_msb, Nat.eqb_refl.
  cbn [andb]. rewrite take_app_length', drop_app_length', !word_of_msb by (by rewrite length_msb).
  unfold set_cell. simpl. by rewrite ?He.
Qed.

Section Properties.
Context {D : Type} `{M : !Mmio D} `{P : !EepromPort D}.

Lemma read_sc_cell k reg d c : k <> EEPROM_TYPE_NONE -> got c = [] ->
  let '(v, d') := rtl8125_eeprom_read_sc k reg d in
  exists evs, sees d d' evs /\ regval d' = 0 /\ forall c',
    chip_run (addr_sz k) c evs = Some c' ->
    v = u16 (cells c (reg mod 2 ^ Z.of_nat (addr_sz k))) /\ c' = c.
Proof.
  intros Hk Hg. pose proof (read_sc_spec k reg d Hk) as H.
  destruct (rtl8125_eeprom_read_sc k reg d) as [v d'].
  destruct H as (cmd&bs&b0&fin&Hl&Hs&Hc&Hf&->&Hr). eexists. split; [exact Hs|split; [exact Hr|]].
  intros c' H. apply chip_run_app in H as (c1&H1&H2). apply chip_run_drives in H1.
  rewrite Hc, foldl_app, !drive_bits, Hg in H1. simpl in H1.
  cbn [chip_run] in H2. case_decide; [done|]. apply chip_run_app in H2 as (c2&H2&H3).
  assert (Hb : bs = msb (cells c (reg mod 2 ^ Z.of_nat (addr_sz k))) (length bs)).
  { eapply (clocked_in_word (addr_sz k) _ bs c1); [by rewrite H1| | | |exact H2]; try rewrite length_msb.
    - rewrite H1. simpl. by rewrite firstn_all2, word_of_msb by (rewrite length_msb; lia).
    - lia.
    - lia. }
  split.
  - rewrite Hb, word_of_msb, Hl. done.
  - apply chip_run_drives in H2, H3. rewrite Hf in H3. rewrite H3, H2, H1.
    assert (Hd : forall x, drives (clocked_in x) = replicate (length x) (Bit false)).
    { intros x. induction x as [|y x IH]; [done|]. exact (f_equal (cons (Bit false)) IH). }
    rewrite Hd, Hl. destruct c as [cs en gt]. simpl in Hg. by subst gt.
Qed.

(** The memory after a write of [data] at [reg]: only the addressed cell changed. *)
Definition written (k : eeprom_kind) (reg w : Z) (c c' : chip) : Prop :=
  forall i, cells c' i = if i =? reg mod 2 ^ Z.of_nat (addr_sz k) then w else cells c i.

Lemma write_sc_cell k reg data d c : k <> EEPROM_TYPE_NONE -> got c = [] ->
  let d' := (rtl8125_eeprom_write_sc k reg data d).2 in
  exists evs, sees d d' evs /\
    ((regval d' = 0 /\ forall c', chip_run (addr_sz k) c evs = Some c' ->
        written k reg (u16 data) c c' /\ enabled c' = false /\ got c' = []) \/
     (CS (regval d') = true /\ timed_out (samples evs) /\
      forall c', chip_run (addr_sz k) c evs = Some c' ->
        (written k reg 65535 c c' \/ written k reg (u16 data) c c') /\ enabled c' = true /\ got c' = [])).
Proof.
  intros Hk Hg. destruct (write_sc_spec k reg data d Hk) as (rs&[[(evs&S&W&_) R]|([(evs&S&W&<-)|(evs&S&W&<-)]&C&T)]);
    exists evs; (split; [exact S|]).
  - left. split; [exact R|]. intros c' H. apply chip_run_drives in H. rewrite W in H.
    unfold full_wave in H. rewrite !foldl_app, enable_stage, erase_stage, word_stage, disable_stage in H by done.
    subst c'. split; [|done]. intros i. simpl. by destruct (i =? _).
  - right. split; [exact C|split; [exact T|]]. intros c' H. apply chip_run_drives in H. rewrite W in H.
    unfold erase_failed_wave in H. rewrite foldl_app, enable_stage, erase_stage in H by done.
    subst c'. split; [by left|done].
  - right. split; [exact C|split; [exact T|]]. intros c' H. apply chip_run_drives in H. rewrite W in H.
    unfold word_failed_wave in H. rewrite !foldl_app, enable_stage, erase_stage, word_stage in H by done.
    subst c'. split; [|done]. right. intros i. simpl. by destruct (i =? _).
Qed.

(** C39: reading a word ([rtl8125_eeprom_read_sc]) drives the select, clock and
    data lines so that an EEPROM following the three-wire protocol sees one read
    command for the low address bits of [reg] and the value returned is the
    addressed cell; the EEPROM is left unchanged and deselected. *)
Theorem eeprom_read_returns_cell k reg d c : k <> EEPROM_TYPE_NONE -> got c = [] ->
  let '(v, d') := rtl8125_eeprom_read_sc k reg d in
  exists evs, sees d d' evs /\ regval d' = 0 /\ forall c',
    chip_run (addr_sz k) c evs = Some c' ->
    v = u16 (cells c (reg mod 2 ^ Z.of_nat (addr_sz k))) /\ c' = c.
Proof. apply read_sc_cell. Qed.

(** Writing a word ([rtl8125_eeprom_write_sc]) changes no cell but the
    addressed one. Either it completes, with the cell holding [data], the write
    latch disabled and the EEPROM deselected; or a ready poll saw the data-out
    line low 50000 times, and the function returns with the EEPROM still
    selected and its write latch still enabled. *)
Theorem eeprom_write_changes_cell k reg data d c : k <> EEPROM_TYPE_NONE -> got c = [] ->
  let d' := (rtl8125_eeprom_write_sc k reg data d).2 in
  exists evs, sees d d' evs /\
    ((regval d' = 0 /\ forall c', chip_run (addr_sz k) c evs = Some c' ->
        written k reg (u16 data) c c' /\ enabled c' = false /\ got c' = []) \/
     (CS (regval d') = true /\ timed_out (samples evs) /\
      forall c', chip_run (addr_sz k) c evs = Some c' ->
        (written k reg 65535 c c' \/ written k reg (u16 data) c c') /\ enabled c' = true /\ got c' = [])).
Proof. apply write_sc_cell. Qed.

(** A word written and read back is the word written: when the write ended
    with the register cleared, the read that follows returns the low 16 bits of
    [data]. *)
Theorem eeprom_write_read_roundtrip k reg data d c : k <> EEPROM_TYPE_NONE -> got c = [] ->
  let d1 := (rtl8125_eeprom_write_sc k reg data d).2 in regval d1 = 0 ->
  let '(v, d2) := rtl8125_eeprom_read_sc k reg d1 in
  exists evs1 evs2, sees d d1 evs1 /\ sees d1 d2 evs2 /\
    forall c2, chip_run (addr_sz k) c (evs1 ++ evs2) = Some c2 -> v = u16 data.
Proof.
  intros Hk Hg d1 Hr. destruct (write_sc_cell k reg data d c Hk Hg) as (evs1&S1&[[_ W1]|[C1 _]]);
    [|fold d1 in C1; by rewrite Hr in C1].
  fold d1 in S1.
  pose proof (fun c1 G => read_sc_cell k reg d1 c1 Hk G) as H1.
  destruct (rtl8125_eeprom_read_sc k reg d1) as [v d2].
  destruct (H1 (Chip (cells c) false []) eq_refl) as (evs2&S2&_&_). exists evs1, evs2.
  split; [exact S1|split; [exact S2|]]. intros c2 H. apply chip_run_app in H as (c1&Hc1&Hc2).
  destruct (W1 c1 Hc1) as (W&_&G). destruct (H1 c1 G) as (evs2'&S2'&_&V).
  rewrite (sees_fun _ _ _ _ S2 S2') in Hc2. destruct (V c2 Hc2) as [-> _].
  rewrite W, Z.eqb_refl. unfold u16. by rewrite Z.mod_mod.
Qed.

(** The signature word of a programmed EEPROM. *)
Definition magic_ok (m : Z) : bool := (m =? 0x8129) || (m =? 0x8128).

Lemma sees_other8 a d d' evs : a <> Cfg9346 -> sees (RTL_R8 a d).2 d' evs -> sees d d' evs.
Proof. intros Ha (ws&H). destruct (port_other8 a d Ha) as [Hr Ht]. exists ws. by rewrite <- Hr, <- Ht. Qed.

Lemma sees_other32 a d d' evs : a <> Cfg9346 -> sees (RTL_R32 a d).2 d' evs -> sees d d' evs.
Proof. intros Ha (ws&H). destruct (port_other32 a d Ha) as [Hr Ht]. exists ws. by rewrite <- Hr, <- Ht. Qed.

(** detection ([rtl8125_eeprom_type]) reports an EEPROM, with its kind and
    length, exactly when the chip is known, register 0xD2 does not say
    two-wire, and word 0 of the attached EEPROM, read with the address width
    of that kind, is one of the two signatures; otherwise it reports none,
    with length 0. *)
Theorem eeprom_type_detects known d c : got c = [] ->
  let '((k, len), d') := rtl8125_eeprom_type known d in
  let absent := k = EEPROM_TYPE_NONE /\ len = 0 in
  if negb known || has (RTL_R8 0xD2 d).1 0x04 then absent
  else exists k0 len0 evs,
    ((k0, len0) = (EEPROM_TYPE_93C56, 256) \/ (k0, len0) = (EEPROM_TYPE_93C46, 128)) /\
    sees d d' evs /\ forall c', chip_run (addr_sz k0) c evs = Some c' ->
    if magic_ok (u16 (cells c 0)) then k = k0 /\ len = len0 else absent.
Proof.
  intros Hg. unfold rtl8125_eeprom_type. destruct known; [|done]. cbn [negb orb].
  rewrite bind_run. destruct (RTL_R8 0xD2 d) as [x d1] eqn:E1. cbn [fst snd].
  assert (H1 : forall d' evs, sees d1 d' evs -> sees d d' evs).
  { intros d' evs H. apply (sees_other8 0xD2); [done|]. by rewrite E1. }
  destruct (has x 4); [done|]. rewrite bind_run. destruct (RTL_R32 RxConfig d1) as [y d2] eqn:E2. cbn [fst snd].
  assert (H2 : forall d' evs, sees d2 d' evs -> sees d d' evs).
  { intros d' evs H. apply H1, (sees_other32 RxConfig); [done|]. by rewrite E2. }
  assert (Hk : forall k0 len0, k0 <> EEPROM_TYPE_NONE ->
    let '((k, len), d') := bind (rtl8125_eeprom_read_sc k0 0) (fun magic => ret
      (if negb (magic =? 0x8129) && negb (magic =? 0x8128) then (EEPROM_TYPE_NONE, 0) else (k0, len0))) d2 in
    exists evs, sees d d' evs /\ forall c', chip_run (addr_sz k0) c evs = Some c' ->
    if magic_ok (u16 (cells c 0)) then k = k0 /\ len = len0 else k = EEPROM_TYPE_NONE /\ len = 0).
  { intros k0 len0 Hk0. rewrite bind_run. pose proof (read_sc_cell k0 0 d2 c Hk0 Hg) as H.
    destruct (rtl8125_eeprom_read_sc k0 0 d2) as [v d3]. destruct H as (evs&S&_&V). cbn [fst snd]. unfold ret.
    rewrite Z.mod_0_l in V by (by destruct k0). rewrite <- negb_orb. fold (magic_ok v).
    destruct (magic_ok v) eqn:Em; cbn [negb]; exists evs; (split; [by apply H2|]);
      intros c' Hc; destruct (V c' Hc) as [<- _]; by rewrite Em. }
  destruct (has y RxCfg_9356SEL).
  - specialize (Hk EEPROM_TYPE_93C56 256 ltac:(done)). destruct (bind _ _ d2) as [[k len] d'].
    destruct Hk as (evs&?&?). exists EEPROM_TYPE_93C56, 256, evs. by split; [left|].
  - specialize (Hk EEPROM_TYPE_93C46 128 ltac:(done)). destruct (bind _ _ d2) as [[k len] d'].
    destruct Hk as (evs&?&?). exists EEPROM_TYPE_93C46, 128, evs. by split; [right|].
Qed.

End Properties.

(** ** A device to run on: the register wired to a chip of the machine above *)
Module Sim.

Record device := Device { reg : Z; attached : chip; log : list access }.

(** The data-out line; high (ready) where the protocol does not fix it. *)
Definition dout (d : device) : bool := default true (data_out 6 (attached d)).

Definition read8 (a : Z) (d : device) : Z * device :=
  if a =? Cfg9346 then
    ((reg d .&~ Cfg9346_EEDO) .| (if dout d then Cfg9346_EEDO else 0),
     Device (reg d) (attached d) (log d ++ [Rd (dout d)]))
  else (0, d).

Definition write8 (a v : Z) (d : device) : device :=
  if a =? Cfg9346 then
    Device v (foldl (drive 6) (attached d) (edge_of (u8 (reg d)) (u8 v))) (log d ++ [Wr (u8 v)])
  else d.

#[export] Instance sim_mmio : Mmio device := {|
  R8 := read8; R16 := fun _ d => (0, d); R32 := fun _ d => (0, d);
  W8 := write8; W16 := fun _ _ d => d; W32 := fun _ _ d => d; udelay := fun _ d => d;
|}.

Lemma u8_idem x : u8 (u8 x) = u8 x.
Proof. unfold u8. by rewrite Z.mod_mod. Qed.

Lemma read_value x (b : bool) :
  u8 ((x .&~ Cfg9346_EEDO) .| (if b then Cfg9346_EEDO else 0)) .&~ Cfg9346_EEDO = u8 x .&~ Cfg9346_EEDO /\
  has (u8 ((x .&~ Cfg9346_EEDO) .| (if b then Cfg9346_EEDO else 0))) Cfg9346_EEDO = b.
Proof.
  unfold Cfg9346_EEDO. split.
  - apply Z.bits_inj'. intros n Hn. rewrite !bit_clear by lia.
    destruct (decide (n < 8)).
    + rewrite !bit_u8, Z.lor_spec, bit_clear by lia.
      destruct (decide (n = 0)) as [->|]; [by rewrite !andb_false_r|].
      rewrite (proj2 (Z.eqb_neq n 0)) by done. rewrite !andb_true_r.
      destruct b; [|by rewrite Z.bits_0, orb_false_r]. unfold BIT. rewrite Z.pow2_bits_false by lia.
      by rewrite orb_false_r.
    + unfold u8. change 256 with (2 ^ 8). by rewrite !Z.mod_pow2_bits_high by lia.
  - rewrite has_bit, bit_u8, Z.lor_spec, bit_clear by lia. rewrite andb_false_r. by destruct b.
Qed.

#[export] Program Instance sim_port : EepromPort device := {|
  regval := fun d => u8 (reg d); trace := log |}.
Next Obligation.
  intros d. unfold RTL_R8. cbn [R8 sim_mmio]. unfold read8. rewrite Z.eqb_refl.
  destruct (read_value (reg d) (dout d)) as [H1 H2]. rewrite H2. by split.
Qed.
Next Obligation. intros v d. cbv zeta. unfold RTL_W8, act. cbn [W8 sim_mmio snd]. unfold write8. rewrite Z.eqb_refl.
  cbn [reg log]. by rewrite !u8_idem. Qed.
Next Obligation. done. Qed.
Next Obligation.
  intros a d Ha. unfold RTL_R8. cbn [R8 sim_mmio]. unfold read8. by rewrite (proj2 (Z.eqb_neq _ _) Ha).
Qed.
Next Obligation. done. Qed.

(** A programmed 93C46: the signature in word 0. *)
Definition card : device :=
  Device 0 (Chip (fun a => if a =? 0 then 0x8129 else a * 257) false []) [].

Lemma eeprom_read_returns_cell_witness :
  let '(v, d') := rtl8125_eeprom_read_sc EEPROM_TYPE_93C46 5 card in
  v = 5 * 257 /\ exists evs, sees card d' evs /\ regval d' = 0 /\
    forall c', chip_run 6 (attached card) evs = Some c' -> v = 5 * 257 /\ c' = attached card.
Proof.
  pose proof (eeprom_read_returns_cell EEPROM_TYPE_93C46 5 card (attached card) ltac:(discriminate) eq_refl) as H.
  assert (E : (rtl8125_eeprom_read_sc EEPROM_TYPE_93C46 5 card).1 = 5 * 257) by (vm_compute; reflexivity).
  destruct (rtl8125_eeprom_read_sc EEPROM_TYPE_93C46 5 card) as [v d']. split; [exact E|exact H].
Defined.

Lemma eeprom_write_changes_cell_witness :
  let d' := (rtl8125_eeprom_write_sc EEPROM_TYPE_93C46 7 0x1234 card).2 in
  (cells (attached d') 7 = 0x1234 /\ enabled (attached d') = false) /\
  exists evs, sees card d' evs /\
    ((regval d' = 0 /\ forall c', chip_run 6 (attached card) evs = Some c' ->
        written EEPROM_TYPE_93C46 7 (u16 0x1234) (attached card) c' /\ enabled c' = false /\ got c' = []) \/
     (CS (regval d') = true /\ timed_out (samples evs) /\
      forall c', chip_run 6 (attached card) evs = Some c' ->
        (written EEPROM_TYPE_93C46 7 65535 (attached card) c' \/
         written EEPROM_TYPE_93C46 7 (u16 0x1234) (attached card) c') /\ enabled c' = true /\ got c' = [])).
Proof.
  split; [vm_compute; split; reflexivity|].
  exact (eeprom_write_changes_cell EEPROM_TYPE_93C46 7 0x1234 card (attached card) ltac:(discriminate) eq_refl).
Defined.

Lemma eeprom_write_read_roundtrip_witness :
  let d1 := (rtl8125_eeprom_write_sc EEPROM_TYPE_93C46 7 0x1234 card).2 in
  let '(v, d2) := rtl8125_eeprom_read_sc EEPROM_TYPE_93C46 7 d1 in
  exists evs1 evs2, sees card d1 evs1 /\ sees d1 d2 evs2 /\
    forall c2, chip_run 6 (attached card) (evs1 ++ evs2) = Some c2 -> v = u16 0x1234.
Proof.
  assert (R : regval (rtl8125_eeprom_write_sc EEPROM_TYPE_93C46 7 0x1234 card).2 = 0) by (vm_compute; reflexivity).
  exact (eeprom_write_read_roundtrip EEPROM_TYPE_93C46 7 0x1234 card (attached card) ltac:(discriminate) eq_refl R).
Defined.

Lemma eeprom_type_detects_witness :
  (rtl8125_eeprom_type true card).1 = (EEPROM_TYPE_93C46, 128) /\
  let '((k, len), d') := rtl8125_eeprom_type true card in
  let absent := k = EEPROM_TYPE_NONE /\ len = 0 in
  if negb true || has (RTL_R8 0xD2 card).1 0x04 then absent
  else exists k0 len0 evs,
    ((k0, len0) = (EEPROM_TYPE_93C56, 256) \/ (k0, len0) = (EEPROM_TYPE_93C46, 128)) /\
    sees card d' evs /\ forall c', chip_run (addr_sz k0) (attached card) evs = Some c' ->
    if magic_ok (u16 (cells (attached card) 0)) then k = k0 /\ len = len0 else absent.
Proof.
  split; [vm_compute; reflexivity|]. pose proof (eeprom_type_detects true card (attached card) eq_refl) as H. exact H.
Defined.
End Sim.
