(* ===== verification/Channel.v ===== *)
(** The indirect register channels of rtl812xx.cpp: the PHY and MAC OCP
    windows, the PCIe PHY (EPHY), the extended registers (ERI), the PCI
    configuration space (CSI) and the management-controller mutex, each reached
    through a command register of the BAR and, mostly, a bounded poll. *)
From S2P Require Import Prelude Mmio.
Local Open Scope prog_scope.

(** Registers and bits of rtl812xx.h. *)
Definition PHYOCP : Z := 0xB8.
Definition MACOCP : Z := 0xB0.
Definition ERIDR : Z := 0x70.
Definition ERIAR : Z := 0x74.
Definition CSIDR : Z := 0x64.
Definition CSIAR : Z := 0x68.
Definition EPHYAR : Z := 0x80.

Definition OCPR_Write : Z := 0x80000000.
Definition OCPR_Flag : Z := 0x80000000.
Definition OCPR_Addr_Reg_shift : Z := 16.
Definition OCPDR_Data_Mask : Z := 0xFFFF.
Definition OCP_STD_PHY_BASE_PAGE : Z := 0x0A40.

Definition ERIAR_Flag : Z := 0x80000000.
Definition ERIAR_Write : Z := 0x80000000.
Definition ERIAR_Read : Z := 0.
Definition ERIAR_Addr_Align : Z := 4.
Definition ERIAR_ExGMAC : Z := 0.
Definition ERIAR_OOB : Z := 2.
Definition ERIAR_Type_shift : Z := 16.
Definition ERIAR_ByteEn : Z := 0x0f.
Definition ERIAR_ByteEn_shift : Z := 12.

Definition EPHYAR_Flag : Z := 0x80000000.
Definition EPHYAR_Write : Z := 0x80000000.
Definition EPHYAR_Read : Z := 0.
Definition EPHYAR_Reg_Mask_v2 : Z := 0x7f.
Definition EPHYAR_Reg_shift : Z := 16.
Definition EPHYAR_Data_Mask : Z := 0xffff.

Definition CSIAR_Flag : Z := 0x80000000.
Definition CSIAR_Write : Z := 0x80000000.
Definition CSIAR_Read : Z := 0.
Definition CSIAR_ByteEn : Z := 0x0f.
Definition CSIAR_ByteEn_shift : Z := 12.
Definition CSIAR_Addr_Mask : Z := 0x0fff.

Definition R8125_CHANNEL_WAIT_COUNT : nat := Z.to_nat 20000.
Definition R8125_CHANNEL_WAIT_TIME : Z := 1.
Definition R8125_CHANNEL_EXIT_DELAY_TIME : Z := 20.
Definition NO_BASE_ADDRESS : Z := 0.

(** The fields of rtl8125_private these functions read. *)
Record chancfg := mkChanCfg {
  rtk_enable_diag : bool;
  AllowAccessDashOcp : bool;
  HwSuppOcpChannelVer : Z;
  HwSuppDashVer : Z;
  DASH : bool;
  mcfg_default : bool;   (* tp->mcfg == CFG_METHOD_DEFAULT *)
}.

(** ** PHY register numbers *)

(** Pages and registers as the OCP window has them; [u8]/[u16] locals. *)
Definition map_phy_ocp_addr (PageNum RegNum : Z) : Z :=
  let '(OcpPageNum, OcpRegNum) :=
    if PageNum =? 0 then (u16 (OCP_STD_PHY_BASE_PAGE + RegNum / 8), u8 (0x10 + RegNum mod 8))
    else (PageNum, RegNum) in
  let OcpPageNum := u16 (Z.shiftl OcpPageNum 4) in
  if OcpRegNum <? 16 then 0
  else u16 (OcpPageNum + u8 (Z.shiftl (u8 (OcpRegNum - 16)) 1)).

Section Code.
Context {D : Type} `{M : !Mmio D}.

(** [for (i = 0; i < n; i++) { udelay(us); if (ready) break; }]: did it break? *)
Fixpoint poll (n : nat) (us : Z) (ready : prog D bool) : prog D bool :=
  match n with
  | O => ret false
  | S n' => delay_us us ;;; do r <- ready; if r then ret true else poll n' us ready
  end.

(** A bit of a register is set, or clear. *)
Definition flag_set (a m : Z) : prog D bool := do v <- RTL_R32 a; ret (has v m).
Definition flag_clear (a m : Z) : prog D bool := do v <- RTL_R32 a; ret (negb (has v m)).

(** ** PHY OCP *)

Definition mdio_real_direct_write_phy_ocp (RegAddr value : Z) : prog D unit :=
  let data32 := u32 (Z.shiftl (RegAddr / 2) OCPR_Addr_Reg_shift) in
  RTL_W32 PHYOCP (data32 .| (OCPR_Write .| value)) ;;;
  poll 100 1 (flag_clear PHYOCP OCPR_Flag) ;;; ret tt.

Definition mdio_direct_write_phy_ocp (tp : chancfg) (RegAddr value : Z) : prog D unit :=
  if rtk_enable_diag tp then ret tt else mdio_real_direct_write_phy_ocp RegAddr value.

Definition mdio_real_direct_read_phy_ocp (RegAddr : Z) : prog D Z :=
  let data32 := u32 (Z.shiftl (RegAddr / 2) OCPR_Addr_Reg_shift) in
  RTL_W32 PHYOCP data32 ;;;
  poll 100 1 (flag_set PHYOCP OCPR_Flag) ;;;
  do v <- RTL_R32 PHYOCP; ret (v .& OCPDR_Data_Mask).

Definition mdio_direct_read_phy_ocp (RegAddr : Z) : prog D Z := mdio_real_direct_read_phy_ocp RegAddr.

Definition rtl8125_mdio_real_write_phy_ocp (PageNum RegAddr value : Z) : prog D unit :=
  mdio_real_direct_write_phy_ocp (map_phy_ocp_addr PageNum (u8 RegAddr)) (u16 value).

Definition rtl8125_mdio_real_read_phy_ocp (PageNum RegAddr : Z) : prog D Z :=
  mdio_real_direct_read_phy_ocp (map_phy_ocp_addr PageNum (u8 RegAddr)).

(** [tp->cur_page] is passed and returned. *)
Definition mdio_real_write (cur_page RegAddr value : Z) : prog D Z :=
  if RegAddr =? 0x1F then ret (u16 value)
  else rtl8125_mdio_real_write_phy_ocp cur_page RegAddr value ;;; ret cur_page.

Definition rtl8125_mdio_write (cur_page RegAddr value : Z) : prog D Z :=
  mdio_real_write cur_page RegAddr value.

Definition mdio_real_read (cur_page RegAddr : Z) : prog D Z :=
  rtl8125_mdio_real_read_phy_ocp cur_page RegAddr.

Definition rtl8125_mdio_read (tp : chancfg) (cur_page RegAddr : Z) : prog D Z :=
  if rtk_enable_diag tp then ret 0xffffffff else mdio_real_read cur_page RegAddr.

Definition ClearAndSetEthPhyBit (tp : chancfg) (cur_page addr clearmask setmask : Z) : prog D Z :=
  do v <- rtl8125_mdio_read tp cur_page addr;
  rtl8125_mdio_write cur_page addr ((u16 v .&~ clearmask) .| setmask).

Definition rtl8125_clear_eth_phy_bit tp cur_page addr mask := ClearAndSetEthPhyBit tp cur_page addr mask 0.
Definition rtl8125_set_eth_phy_bit tp cur_page addr mask := ClearAndSetEthPhyBit tp cur_page addr 0 mask.

Definition ClearAndSetEthPhyOcpBit (tp : chancfg) (addr clearmask setmask : Z) : prog D unit :=
  do v <- mdio_direct_read_phy_ocp addr;
  mdio_direct_write_phy_ocp tp addr ((u16 v .&~ clearmask) .| setmask).

Definition ClearEthPhyOcpBit tp addr mask := ClearAndSetEthPhyOcpBit tp addr mask 0.
Definition SetEthPhyOcpBit tp addr mask := ClearAndSetEthPhyOcpBit tp addr 0 mask.

(** ** MAC OCP: no poll *)

Definition rtl8125_mac_ocp_write (reg_addr value : Z) : prog D unit :=
  let data32 := u32 (Z.shiftl (reg_addr / 2) OCPR_Addr_Reg_shift) in
  RTL_W32 MACOCP (u32 (data32 + value) .| OCPR_Write).

Definition rtl8125_mac_ocp_read (reg_addr : Z) : prog D Z :=
  let data32 := u32 (Z.shiftl (reg_addr / 2) OCPR_Addr_Reg_shift) in
  RTL_W32 MACOCP data32 ;;; do v <- RTL_R32 MACOCP; ret (u16 v).

Definition ClearAndSetMcuAccessRegBit (addr clearmask setmask : Z) : prog D unit :=
  do v <- rtl8125_mac_ocp_read addr;
  rtl8125_mac_ocp_write addr ((v .&~ clearmask) .| setmask).

Definition ClearMcuAccessRegBit addr mask := ClearAndSetMcuAccessRegBit addr mask 0.
Definition SetMcuAccessRegBit addr mask := ClearAndSetMcuAccessRegBit addr 0 mask.

(** ** ERI *)

Definition transformed_base (base_address : Z) : Z :=
  u32 (Z.shiftl (base_address .& 0x00FFF000) 6) .| (base_address .& 0x000FFF).

(** The command for the aligned address [addr]. *)
Definition eri_cmd (op addr type base_address : Z) : Z :=
  let cmd := op .| transformed_base base_address .| Z.shiftl type ERIAR_Type_shift .|
             Z.shiftl ERIAR_ByteEn ERIAR_ByteEn_shift .| (addr .& 0x0FFF) in
  if has addr 0xF000
  then cmd .| (Z.shiftl (Z.shiftr (addr .& 0xF000) 12) 20 .& 0x00F00000) else cmd.

(** The bytes of the word that belong to the access. *)
Definition eri_mask (len val_shift : Z) : Z :=
  let m := if len =? 1 then 0xFF else if len =? 2 then 0xFFFF
           else if len =? 3 then 0xFFFFFF else 0xFFFFFFFF in
  u32 (Z.shiftl m (val_shift * 8)).

Fixpoint eri_read_loop (fuel : nat) (addr len shift type base value2 : Z) : prog D Z :=
  match fuel with
  | O => ret value2
  | S n =>
      if len <=? 0 then ret value2 else
      let val_shift := addr mod ERIAR_Addr_Align in
      let addr := addr .&~ 0x3 in
      RTL_W32 ERIAR (eri_cmd ERIAR_Read addr type base) ;;;
      poll R8125_CHANNEL_WAIT_COUNT R8125_CHANNEL_WAIT_TIME (flag_set ERIAR ERIAR_Flag) ;;;
      do v <- RTL_R32 ERIDR;
      let value1 := v .& eri_mask len val_shift in
      let value2 := value2 .| u32 (Z.shiftl (Z.shiftr value1 (val_shift * 8)) (shift * 8)) in
      if len <=? 4 - val_shift then ret value2
      else eri_read_loop n (addr + 4) (len - (4 - val_shift)) (4 - val_shift) type base value2
  end.

(** The loop runs at most [len] <= 4 times. *)
Definition rtl8125_eri_read_with_oob_base_address (addr len type base_address : Z) : prog D Z :=
  if (4 <? len) || (len <=? 0) then ret (u32 (-1)) else
  do value2 <- eri_read_loop 4 addr len 0 type base_address 0;
  delay_us R8125_CHANNEL_EXIT_DELAY_TIME ;;; ret value2.

Definition rtl8125_ocp_read (tp : chancfg) (addr len : Z) : prog D Z :=
  if negb (AllowAccessDashOcp tp) || negb (HwSuppOcpChannelVer tp =? 2) then ret 0xffffffff
  else rtl8125_eri_read_with_oob_base_address addr len ERIAR_OOB NO_BASE_ADDRESS.

Definition rtl8125_eri_read (addr len type : Z) : prog D Z :=
  rtl8125_eri_read_with_oob_base_address addr len type 0.

Fixpoint eri_write_loop (fuel : nat) (addr len shift value type base : Z) : prog D unit :=
  match fuel with
  | O => ret tt
  | S n =>
      if len <=? 0 then ret tt else
      let val_shift := addr mod ERIAR_Addr_Align in
      let addr := addr .&~ 0x3 in
      let mask := eri_mask len val_shift in
      do old <- rtl8125_eri_read_with_oob_base_address addr 4 type base;
      let value1 := (old .&~ mask) .| Z.shiftr (u32 (Z.shiftl value (val_shift * 8))) (shift * 8) in
      RTL_W32 ERIDR value1 ;;;
      RTL_W32 ERIAR (eri_cmd ERIAR_Write addr type base) ;;;
      poll 10 100 (flag_clear ERIAR ERIAR_Flag) ;;;
      if len <=? 4 - val_shift then ret tt
      else eri_write_loop n (addr + 4) (len - (4 - val_shift)) (4 - val_shift) value type base
  end.

Definition rtl8125_eri_write_with_oob_base_address (addr len value type base_address : Z) : prog D Z :=
  if (4 <? len) || (len <=? 0) then ret (-1) else
  eri_write_loop 4 addr len 0 value type base_address ;;;
  delay_us 20 ;;; ret 0.

Definition rtl8125_ocp_write (tp : chancfg) (addr len value : Z) : prog D unit :=
  if negb (AllowAccessDashOcp tp) || negb (HwSuppOcpChannelVer tp =? 2) then ret tt
  else rtl8125_eri_write_with_oob_base_address addr len value ERIAR_OOB NO_BASE_ADDRESS ;;; ret tt.

Definition rtl8125_eri_write (addr len value type : Z) : prog D Z :=
  rtl8125_eri_write_with_oob_base_address addr len value type NO_BASE_ADDRESS.

Definition rtl8125_oob_notify (tp : chancfg) (cmd : Z) : prog D unit :=
  rtl8125_eri_write 0xE8 1 cmd ERIAR_ExGMAC ;;; rtl8125_ocp_write tp 0x30 1 0x01.

(** ** The mutex with the management controller *)

(** [while (reg_a0) { reg_a0 = read; if (++wait > 2000) break; }]: [n] passes left. *)
Fixpoint mutex_inner (n : nat) (tp : chancfg) (reg_a0 : Z) : prog D unit :=
  match n with
  | O => ret tt
  | S n' => if reg_a0 =? 0 then ret tt
            else do a <- rtl8125_ocp_read tp 0x11C 1; mutex_inner n' tp (u8 a)
  end.

Fixpoint mutex_outer (n : nat) (tp : chancfg) (reg_16 : Z) : prog D unit :=
  match n with
  | O => ret tt
  | S n' =>
      if reg_16 =? 0 then ret tt else
      do a <- rtl8125_ocp_read tp 0x11C 1;
      (if u8 a =? 0 then ret tt else
         rtl8125_ocp_write tp 0x114 1 0x00 ;;;
         do a <- rtl8125_ocp_read tp 0x11C 1;
         mutex_inner 2001 tp (u8 a) ;;;
         rtl8125_ocp_write tp 0x114 1 (BIT 0)) ;;;
      do r <- rtl8125_ocp_read tp 0x110 1;
      mutex_outer n' tp (u8 r)
  end.

Definition rtl8125_oob_mutex_lock (tp : chancfg) : prog D unit :=
  if negb (0 <? HwSuppDashVer tp) then ret tt else
  if negb (DASH tp) then ret tt else
  rtl8125_ocp_write tp 0x114 1 (BIT 0) ;;;
  do r <- rtl8125_ocp_read tp 0x110 1;
  mutex_outer 2001 tp (u8 r).

Definition rtl8125_oob_mutex_unlock (tp : chancfg) : prog D unit :=
  if negb (0 <? HwSuppDashVer tp) then ret tt else
  if negb (DASH tp) then ret tt else
  rtl8125_ocp_write tp 0x11C 1 (BIT 0) ;;; rtl8125_ocp_write tp 0x114 1 0x00.

(** ** EPHY *)

Definition rtl8125_ephy_write (RegAddr value : Z) : prog D unit :=
  RTL_W32 EPHYAR (EPHYAR_Write .| Z.shiftl (RegAddr .& EPHYAR_Reg_Mask_v2) EPHYAR_Reg_shift .|
                  (value .& EPHYAR_Data_Mask)) ;;;
  poll 10 100 (flag_clear EPHYAR EPHYAR_Flag) ;;; delay_us 20.

(** The poll of a read takes the value when it breaks. *)
Fixpoint ephy_read_loop (n : nat) : prog D Z :=
  match n with
  | O => ret 0xffff
  | S n' =>
      delay_us 100 ;;;
      do v <- RTL_R32 EPHYAR;
      if has v EPHYAR_Flag then do v <- RTL_R32 EPHYAR; ret (u16 (v .& EPHYAR_Data_Mask))
      else ephy_read_loop n'
  end.

Definition rtl8125_ephy_read (RegAddr : Z) : prog D Z :=
  RTL_W32 EPHYAR (EPHYAR_Read .| Z.shiftl (RegAddr .& EPHYAR_Reg_Mask_v2) EPHYAR_Reg_shift) ;;;
  do value <- ephy_read_loop 10;
  delay_us 20 ;;; ret value.

Definition ClearAndSetPCIePhyBit (addr clearmask setmask : Z) : prog D unit :=
  do v <- rtl8125_ephy_read addr;
  rtl8125_ephy_write addr ((v .&~ clearmask) .| setmask).

Definition ClearPCIePhyBit addr mask := ClearAndSetPCIePhyBit addr mask 0.
Definition SetPCIePhyBit addr mask := ClearAndSetPCIePhyBit addr 0 mask.

(** ** CSI *)

Definition csi_cmd (op addr multi_fun_sel_bit : Z) : Z :=
  (op .| Z.shiftl CSIAR_ByteEn CSIAR_ByteEn_shift .| (addr .& CSIAR_Addr_Mask)) .| Z.shiftl multi_fun_sel_bit 16.

Fixpoint csi_read_loop (n : nat) : prog D Z :=
  match n with
  | O => ret 0
  | S n' =>
      delay_us 100 ;;;
      do v <- RTL_R32 CSIAR;
      if has v CSIAR_Flag then RTL_R32 CSIDR else csi_read_loop n'
  end.

Definition rtl8125_csi_other_fun_read (tp : chancfg) (multi_fun_sel_bit addr : Z) : prog D Z :=
  let sel := if mcfg_default tp then 0 else multi_fun_sel_bit in
  if 7 <? sel then ret 0xffffffff else
  RTL_W32 CSIAR (csi_cmd CSIAR_Read addr sel) ;;;
  do value <- csi_read_loop 10;
  delay_us 20 ;;; ret value.

Definition rtl8125_csi_other_fun_write (tp : chancfg) (multi_fun_sel_bit addr value : Z) : prog D unit :=
  RTL_W32 CSIDR value ;;;
  let sel := if mcfg_default tp then 0 else multi_fun_sel_bit in
  if 7 <? sel then ret tt else
  RTL_W32 CSIAR (csi_cmd CSIAR_Write addr sel) ;;;
  poll 10 100 (flag_clear CSIAR CSIAR_Flag) ;;; delay_us 20.

Definition rtl8125_csi_read (tp : chancfg) (addr : Z) : prog D Z := rtl8125_csi_other_fun_read tp 0 addr.
Definition rtl8125_csi_write (tp : chancfg) (addr value : Z) : prog D unit :=
  rtl8125_csi_other_fun_write tp 0 addr value.

(** [RegAlignAddr] is a [u16]. *)
Definition rtl8125_csi_fun0_read_byte (tp : chancfg) (addr : Z) : prog D Z :=
  do v <- rtl8125_csi_other_fun_read tp 0 (u16 (addr .&~ 0x3));
  delay_us 20 ;;; ret (u8 (Z.shiftr v (8 * (addr .& 0x3)))).

Definition rtl8125_csi_fun0_write_byte (tp : chancfg) (addr value : Z) : prog D unit :=
  let ShiftByte := addr .& 0x3 in
  do v <- rtl8125_csi_other_fun_read tp 0 (u16 (addr .&~ 0x3));
  rtl8125_csi_other_fun_write tp 0 (u16 (addr .&~ 0x3))
    ((v .&~ Z.shiftl 0xFF (8 * ShiftByte)) .| Z.shiftl value (8 * ShiftByte)) ;;;
  delay_us 20.
End Code.
