(* ===== verification/ChannelSpec.v ===== *)
(** What the indirect channels of Channel.v do to the register spaces behind
    them, and the properties. *)
From S2P Require Import Prelude Mmio Channel.

(** ** The channels

    A command register starts a transfer; bit 31 is the direction in the
    command and the completion flag when read back (set when a read is done,
    clear when a write is done). A transfer is done after a number of reads of
    the command register, [lat]; a command is taken when none is under way. *)

Definition CFlag : Z := 0x80000000.

(** ** Polling

    [rd] is the direction of the transfer under way, [kept] what a status read
    or a delay leaves alone. *)
Section Polling.
Context {D : Type} `{M : !Mmio D} (ar : Z) (kept : D -> D -> Prop) (rd : D -> bool) (lat : D -> nat).

(** The poll of a read waits for the flag, the poll of a write for its absence. *)
Definition done_test (r : bool) : prog D bool := if r then flag_set ar CFlag else flag_clear ar CFlag.

Hypothesis kept_refl : forall d, kept d d.
Hypothesis kept_trans : forall d1 d2 d3, kept d1 d2 -> kept d2 d3 -> kept d1 d3.
Hypothesis kept_rd : forall d d', kept d d' -> rd d' = rd d.
Hypothesis status : forall d, let '(v, d') := RTL_R32 ar d in
  kept d d' /\ lat d' = pred (lat d) /\ has v CFlag = if (lat d =? 0)%nat then rd d else negb (rd d).
Hypothesis delay : forall n d, kept d (delay_us n d).2 /\ lat (delay_us n d).2 = lat d.

Lemma done_test_spec d : let '(b, d') := done_test (rd d) d in
  kept d d' /\ lat d' = pred (lat d) /\ b = (lat d =? 0)%nat.
Proof.
  pose proof (status d) as H. unfold done_test, flag_set, flag_clear.
  destruct (rd d); rewrite bind_run; destruct (RTL_R32 ar d) as [v d']; cbn [fst snd];
    unfold ret; destruct H as (K&L&F); rewrite F; by destruct (lat d =? 0)%nat.
Qed.

Lemma poll_settles n us : forall d, (lat d <= n)%nat ->
  let d' := (poll n us (done_test (rd d)) d).2 in kept d d' /\ lat d' = O.
Proof.
  induction n as [|n IH]; intros d Hl; cbv zeta.
  { split; [apply kept_refl|]. simpl. lia. }
  cbn [poll]. rewrite bind_run. destruct (delay us d) as [K1 L1]. set (d1 := (delay_us us d).2) in *.
  rewrite bind_run. pose proof (done_test_spec d1) as H. rewrite (kept_rd _ _ K1) in H.
  destruct (done_test (rd d) d1) as [b d2]. destruct H as (K2&L2&->). cbn [fst snd].
  pose proof (kept_trans _ _ _ K1 K2) as K12. rewrite L1 in *.
  destruct (lat d =? 0)%nat eqn:E0.
  - apply Nat.eqb_eq in E0. split; [exact K12|]. unfold ret. simpl. lia.
  - apply Nat.eqb_neq in E0. specialize (IH d2 ltac:(lia)). cbv zeta in IH.
    rewrite (kept_rd _ _ K12) in IH. destruct IH as [K3 L3]. split; [exact (kept_trans _ _ _ K12 K3)|exact L3].
Qed.
End Polling.

(** Command and data in one register: PHYOCP, MACOCP, EPHYAR. *)
Definition key1 (cmd : Z) : Z := Z.shiftr cmd 16 .& 0x7fff.

Class OnePort (D : Type) `{M : !Mmio D} (ar : Z) (maxlat : nat) := {
  space : D -> Z -> Z;
  sel : D -> Z;
  rd : D -> bool;
  lat : D -> nat;
  one_write : forall cmd d, lat d = O -> 0 <= cmd < 2 ^ 32 -> has cmd CFlag = true ->
    let d' := (RTL_W32 ar cmd d).2 in
    (forall k, space d' k = if k =? key1 cmd then cmd .& 0xffff else space d k) /\
    rd d' = false /\ (lat d' <= maxlat)%nat;
  one_select : forall cmd d, lat d = O -> 0 <= cmd < 2 ^ 32 -> has cmd CFlag = false ->
    let d' := (RTL_W32 ar cmd d).2 in
    (forall k, space d' k = space d k) /\ rd d' = true /\ sel d' = key1 cmd /\ (lat d' <= maxlat)%nat;
  one_read : forall d, let '(v, d') := RTL_R32 ar d in
    (forall k, space d' k = space d k) /\ rd d' = rd d /\ sel d' = sel d /\ lat d' = pred (lat d) /\
    match lat d with
    | O => has v CFlag = rd d /\ (rd d = true -> v .& 0xffff = space d (sel d))
    | S _ => has v CFlag = negb (rd d)
    end;
  one_delay : forall n d, let d' := (delay_us n d).2 in
    (forall k, space d' k = space d k) /\ rd d' = rd d /\ sel d' = sel d /\ lat d' = lat d;
}.
Arguments space {D M} ar {maxlat _} _ _.
Arguments sel {D M} ar {maxlat _} _.
Arguments rd {D M} ar {maxlat _} _.
Arguments lat {D M} ar {maxlat _} _.

Section One.
Context {D : Type} `{M : !Mmio D} {ar : Z} {maxlat : nat} `{P : !OnePort D ar maxlat}.

(** Nothing but the latency changed. *)
Definition kept (d d' : D) : Prop :=
  (forall k, space ar d' k = space ar d k) /\ rd ar d' = rd ar d /\ sel ar d' = sel ar d.

Lemma kept_refl d : kept d d.
Proof. done. Qed.

Lemma kept_trans d1 d2 d3 : kept d1 d2 -> kept d2 d3 -> kept d1 d3.
Proof.
  intros (A1&B1&C1) (A2&B2&C2). split; [|split; congruence]. intros k. by rewrite A2, A1.
Qed.

Lemma delay_kept n d : kept d (delay_us n d).2 /\ lat ar (delay_us n d).2 = lat ar d.
Proof. destruct (one_delay n d) as (?&?&?&?). by repeat split. Qed.

Lemma status_kept d : let '(v, d') := RTL_R32 ar d in
  kept d d' /\ lat ar d' = pred (lat ar d) /\
  has v CFlag = if (lat ar d =? 0)%nat then rd ar d else negb (rd ar d).
Proof.
  pose proof (one_read d) as H. destruct (RTL_R32 ar d) as [v d']. destruct H as (H1&H2&H3&H4&H5).
  split; [done|split; [done|]]. destruct (lat ar d); [by destruct H5|done].
Qed.

Lemma poll_done n us d : (lat ar d <= n)%nat ->
  let d' := (poll n us (done_test ar (rd ar d)) d).2 in kept d d' /\ lat ar d' = O.
Proof.
  apply (poll_settles ar kept (rd ar) (lat ar));
    [apply kept_refl|apply kept_trans|by intros x y (_&H&_)|apply status_kept|apply delay_kept].
Qed.
End One.

(** ** Command words *)

Lemma has_flag c : has c CFlag = (c / 2 ^ 31 mod 2 =? 1).
Proof.
  change CFlag with (BIT 31). rewrite has_bit by lia.
  destruct (Z.testbit c 31) eqn:E.
  - apply Z.testbit_true in E; [|lia]. by rewrite E.
  - apply Z.testbit_false in E; [|lia]. by rewrite E.
Qed.

(** Flag, address and data fields of a one-register command. *)
Lemma cmd_fields f x v : 0 <= f < 2 -> 0 <= x < 32768 -> 0 <= v < 65536 ->
  let cmd := f * 2 ^ 31 + x * 2 ^ 16 + v in
  0 <= cmd < 2 ^ 32 /\ key1 cmd = x /\ cmd .& 0xffff = v /\ has cmd CFlag = (f =? 1).
Proof.
  intros Hf Hx Hv. cbv zeta. split; [lia|]. split; [|split].
  - unfold key1. rewrite Z.shiftr_div_pow2 by lia. rewrite (land_mask _ _ 15) by (done || lia). lia.
  - rewrite (land_mask _ _ 16) by (done || lia). lia.
  - rewrite has_flag. f_equal. lia.
Qed.

Lemma phy_write_cmd a v : 0 <= a < 65536 -> 0 <= v < 65536 ->
  u32 (Z.shiftl (a / 2) OCPR_Addr_Reg_shift) .| (OCPR_Write .| v) = 1 * 2 ^ 31 + a / 2 * 2 ^ 16 + v.
Proof.
  intros Ha Hv. unfold OCPR_Addr_Reg_shift, OCPR_Write.
  rewrite Z.shiftl_mul_pow2, u32_small by lia.
  rewrite (Z.lor_comm (2147483648) v), Z.lor_assoc, lor_add_shift by lia.
  rewrite Z.lor_comm. change 2147483648 with (1 * 2 ^ 31). rewrite lor_add_shift by lia. lia.
Qed.

Lemma mac_write_cmd a v : 0 <= a < 65536 -> 0 <= v < 65536 ->
  u32 (u32 (Z.shiftl (a / 2) OCPR_Addr_Reg_shift) + v) .| OCPR_Write = 1 * 2 ^ 31 + a / 2 * 2 ^ 16 + v.
Proof.
  intros Ha Hv. unfold OCPR_Addr_Reg_shift, OCPR_Write. rewrite Z.shiftl_mul_pow2 by lia.
  rewrite (u32_small (_ * _)), u32_small by lia. rewrite Z.lor_comm.
  change 2147483648 with (1 * 2 ^ 31). rewrite lor_add_shift by lia. lia.
Qed.

Lemma select_cmd a : 0 <= a < 65536 ->
  u32 (Z.shiftl (a / 2) OCPR_Addr_Reg_shift) = 0 * 2 ^ 31 + a / 2 * 2 ^ 16 + 0.
Proof.
  intros Ha. unfold OCPR_Addr_Reg_shift. rewrite Z.shiftl_mul_pow2, u32_small by lia. lia.
Qed.

(** The value a read-modify-write stores. *)
Definition rmw (old clearmask setmask : Z) : Z := (old .&~ clearmask) .| setmask.

Lemma rmw_range old c m : 0 <= old < 65536 -> 0 <= m < 65536 -> 0 <= rmw old c m < 65536.
Proof. intros Ho Hm. unfold rmw. apply (lor_bound _ _ 16); [lia| |done]. apply (ldiff_bound _ _ 16); lia. Qed.

(** ** PHY OCP *)

(** Register [a] of the PHY. *)
Definition phy_reg {D} `{M : !Mmio D} {l} `{P : !OnePort D PHYOCP l} (d : D) (a : Z) : Z := space PHYOCP d (a / 2).

Section PhyOcp.
Context {D : Type} `{M : !Mmio D} {maxlat : nat} `{P : !OnePort D PHYOCP maxlat}.
Hypothesis prompt : (maxlat <= 100)%nat.

Definition phy_idle (d : D) : Prop := lat PHYOCP d = O.

Lemma phy_write_spec a v d : phy_idle d -> 0 <= a < 65536 -> 0 <= v < 65536 ->
  let d' := (mdio_real_direct_write_phy_ocp a v d).2 in
  phy_idle d' /\ forall b, phy_reg d' b = if b / 2 =? a / 2 then v else phy_reg d b.
Proof.
  intros Hi Ha Hv. cbv zeta. unfold mdio_real_direct_write_phy_ocp. prog_run.
  rewrite phy_write_cmd by done.
  destruct (cmd_fields 1 (a / 2) v) as (R&K&V&F); [lia..|]. set (cmd := _ + _) in *.
  destruct (one_write cmd d Hi R F) as (S1&R1&L1). set (d1 := (RTL_W32 PHYOCP cmd d).2) in *.
  pose proof (poll_done 100 1 d1 ltac:(lia)) as H. rewrite R1 in H. destruct H as [(S2&_) L2].
  split; [exact L2|]. intros b. unfold phy_reg. by rewrite S2, S1, K, V.
Qed.

Lemma phy_read_spec a d : phy_idle d -> 0 <= a < 65536 ->
  let '(v, d') := mdio_real_direct_read_phy_ocp a d in
  phy_idle d' /\ v = phy_reg d a /\ 0 <= v < 65536 /\ forall b, phy_reg d' b = phy_reg d b.
Proof.
  intros Hi Ha. unfold mdio_real_direct_read_phy_ocp. prog_run. rewrite select_cmd by done.
  destruct (cmd_fields 0 (a / 2) 0) as (R&K&_&F); [lia..|]. set (cmd := _ + _) in *.
  destruct (one_select cmd d Hi R F) as (S1&R1&C1&L1). set (d1 := (RTL_W32 PHYOCP cmd d).2) in *.
  pose proof (poll_done 100 1 d1 ltac:(lia)) as H. rewrite R1 in H. cbn [done_test] in H. destruct H as [(S2&R2&C2) L2].
  change OCPR_Flag with CFlag. set (d2 := (poll 100 1 (flag_set PHYOCP CFlag) d1).2) in *.
  pose proof (one_read d2) as H. destruct (RTL_R32 PHYOCP d2) as [v d3]. cbn [fst snd].
  destruct H as (S3&_&_&L3&H3). rewrite L2 in *. destruct H3 as [_ H3]. rewrite R2, R1 in H3.
  specialize (H3 eq_refl). split; [exact L3|]. split; [|split].
  - unfold phy_reg, OCPDR_Data_Mask. by rewrite H3, C2, C1, K, S2, S1.
  - unfold OCPDR_Data_Mask. rewrite (land_mask _ _ 16) by done. lia.
  - intros b. unfold phy_reg. by rewrite S3, S2, S1.
Qed.

Lemma phy_rmw_spec tp a c m d : rtk_enable_diag tp = false -> phy_idle d -> 0 <= a < 65536 -> 0 <= m < 65536 ->
  let d' := (ClearAndSetEthPhyOcpBit tp a c m d).2 in
  phy_idle d' /\ forall b, phy_reg d' b = if b / 2 =? a / 2 then rmw (phy_reg d a) c m else phy_reg d b.
Proof.
  intros Hd Hi Ha Hm. cbv zeta. unfold ClearAndSetEthPhyOcpBit, mdio_direct_read_phy_ocp, mdio_direct_write_phy_ocp.
  rewrite bind_run, Hd. pose proof (phy_read_spec a d Hi Ha) as H.
  destruct (mdio_real_direct_read_phy_ocp a d) as [v d1]. destruct H as (I1&V&Rv&S1). cbn [fst snd].
  rewrite u16_small by done. rewrite V in *.
  destruct (phy_write_spec a (rmw (phy_reg d a) c m) d1 I1 Ha) as [I2 S2]; [by apply rmw_range|].
  split; [exact I2|]. intros b. unfold rmw in S2 at 1. rewrite S2. by rewrite S1.
Qed.
End PhyOcp.

(** ** MAC OCP: the window answers at once *)

Definition mac_reg {D} `{M : !Mmio D} `{P : !OnePort D MACOCP 0} (d : D) (a : Z) : Z := space MACOCP d (a / 2).

Section MacOcp.
Context {D : Type} `{M : !Mmio D} `{P : !OnePort D MACOCP 0}.

Definition mac_idle (d : D) : Prop := lat MACOCP d = O.

Lemma mac_write_spec a v d : mac_idle d -> 0 <= a < 65536 -> 0 <= v < 65536 ->
  let d' := (rtl8125_mac_ocp_write a v d).2 in
  mac_idle d' /\ forall b, mac_reg d' b = if b / 2 =? a / 2 then v else mac_reg d b.
Proof.
  intros Hi Ha Hv. cbv zeta. unfold rtl8125_mac_ocp_write. cbv zeta. rewrite mac_write_cmd by done.
  destruct (cmd_fields 1 (a / 2) v) as (R&K&V&F); [lia..|]. set (cmd := _ + _) in *.
  destruct (one_write cmd d Hi R F) as (S1&R1&L1). split; [unfold mac_idle; lia|].
  intros b. unfold mac_reg. by rewrite S1, K, V.
Qed.

Lemma mac_read_spec a d : mac_idle d -> 0 <= a < 65536 ->
  let '(v, d') := rtl8125_mac_ocp_read a d in
  mac_idle d' /\ v = mac_reg d a /\ 0 <= v < 65536 /\ forall b, mac_reg d' b = mac_reg d b.
Proof.
  intros Hi Ha. unfold rtl8125_mac_ocp_read. prog_run. rewrite select_cmd by done.
  destruct (cmd_fields 0 (a / 2) 0) as (R&K&_&F); [lia..|]. set (cmd := _ + _) in *.
  destruct (one_select cmd d Hi R F) as (S1&R1&C1&L1). set (d1 := (RTL_W32 MACOCP cmd d).2) in *.
  pose proof (one_read d1) as H. destruct (RTL_R32 MACOCP d1) as [v d3]. cbn [fst snd].
  destruct H as (S3&_&_&L3&H3). assert (L1' : lat MACOCP d1 = O) by lia. rewrite L1' in *.
  destruct H3 as [_ H3]. specialize (H3 R1). split; [exact L3|]. split; [|split].
  - unfold mac_reg, u16. change 65536 with (2 ^ 16). rewrite <- (land_mask v 0xffff 16) by done.
    by rewrite H3, C1, K, S1.
  - apply u16_range.
  - intros b. unfold mac_reg. by rewrite S3, S1.
Qed.

Lemma mac_rmw_spec a c m d : mac_idle d -> 0 <= a < 65536 -> 0 <= m < 65536 ->
  let d' := (ClearAndSetMcuAccessRegBit a c m d).2 in
  mac_idle d' /\ forall b, mac_reg d' b = if b / 2 =? a / 2 then rmw (mac_reg d a) c m else mac_reg d b.
Proof.
  intros Hi Ha Hm. cbv zeta. unfold ClearAndSetMcuAccessRegBit. rewrite bind_run.
  pose proof (mac_read_spec a d Hi Ha) as H.
  destruct (rtl8125_mac_ocp_read a d) as [v d1]. destruct H as (I1&V&Rv&S1). cbn [fst snd]. rewrite V in *.
  destruct (mac_write_spec a (rmw (mac_reg d a) c m) d1 I1 Ha) as [I2 S2]; [by apply rmw_range|].
  split; [exact I2|]. intros b. unfold rmw in S2 at 1. rewrite S2. by rewrite S1.
Qed.
End MacOcp.

(** ** EPHY *)

Definition ephy_reg {D} `{M : !Mmio D} {l} `{P : !OnePort D EPHYAR l} (d : D) (a : Z) : Z :=
  space EPHYAR d (a .& EPHYAR_Reg_Mask_v2).

Section Ephy.
Context {D : Type} `{M : !Mmio D} {maxlat : nat} `{P : !OnePort D EPHYAR maxlat}.
Hypothesis prompt : (maxlat < 10)%nat.

Definition ephy_idle (d : D) : Prop := lat EPHYAR d = O.

Lemma ephy_addr a : 0 <= a .& EPHYAR_Reg_Mask_v2 < 128.
Proof. apply (land_bound _ _ 7); unfold EPHYAR_Reg_Mask_v2; lia. Qed.

Lemma ephy_cmd f a v : 0 <= v < 65536 -> f = 0 \/ f = 1 ->
  f * 2 ^ 31 .| Z.shiftl (a .& EPHYAR_Reg_Mask_v2) EPHYAR_Reg_shift .| v =
  f * 2 ^ 31 + (a .& EPHYAR_Reg_Mask_v2) * 2 ^ 16 + v.
Proof.
  intros Hv Hf. pose proof (ephy_addr a). unfold EPHYAR_Reg_shift.
  rewrite Z.shiftl_mul_pow2 by lia. rewrite <- Z.lor_assoc, (lor_add_shift _ v), lor_add_shift by lia. lia.
Qed.

Lemma ephy_write_spec a v d : ephy_idle d -> 0 <= v < 65536 ->
  let d' := (rtl8125_ephy_write a v d).2 in
  ephy_idle d' /\ forall b, ephy_reg d' b =
    if b .& EPHYAR_Reg_Mask_v2 =? a .& EPHYAR_Reg_Mask_v2 then v else ephy_reg d b.
Proof.
  intros Hi Hv. cbv zeta. unfold rtl8125_ephy_write. prog_run. pose proof (ephy_addr a).
  change EPHYAR_Write with (1 * 2 ^ 31).
  assert (E : v .& EPHYAR_Data_Mask = v) by (unfold EPHYAR_Data_Mask; rewrite (land_mask _ _ 16) by done; lia).
  rewrite E, ephy_cmd by auto.
  destruct (cmd_fields 1 (a .& EPHYAR_Reg_Mask_v2) v) as (R&K&V&F); [lia..|]. set (cmd := _ + _) in *.
  destruct (one_write cmd d Hi R F) as (S1&R1&L1). set (d1 := (RTL_W32 EPHYAR cmd d).2) in *.
  pose proof (poll_done 10 100 d1 ltac:(lia)) as H2. rewrite R1 in H2. destruct H2 as [(S2&_) L2].
  change (flag_clear EPHYAR EPHYAR_Flag) with (done_test EPHYAR false).
  set (d2 := (poll 10 100 (done_test EPHYAR false) d1).2) in *.
  destruct (delay_kept 20 d2) as [(S3&_) L3]. split; [unfold ephy_idle; congruence|].
  intros b. unfold ephy_reg. by rewrite S3, S2, S1, K, V.
Qed.

Lemma ephy_loop_spec n : forall d, rd EPHYAR d = true -> (lat EPHYAR d < n)%nat ->
  let '(v, d') := ephy_read_loop n d in
  v = u16 (space EPHYAR d (sel EPHYAR d)) /\ lat EPHYAR d' = O /\ forall k, space EPHYAR d' k = space EPHYAR d k.
Proof.
  induction n as [|n IH]; intros d Hr Hl; [lia|]. cbn [ephy_read_loop]. rewrite bind_run.
  destruct (delay_kept 100 d) as [(S1&R1&C1) L1]. set (d1 := (delay_us 100 d).2) in *. rewrite bind_run.
  pose proof (one_read d1) as H. destruct (RTL_R32 EPHYAR d1) as [v d2]. cbn [fst snd].
  destruct H as (S2&R2&C2&L2&H). rewrite L1, R1, Hr, C1 in *. change EPHYAR_Flag with CFlag.
  destruct (lat EPHYAR d) as [|l].
  - destruct H as [-> _]. rewrite bind_run. pose proof (one_read d2) as H. destruct (RTL_R32 EPHYAR d2) as [w d3].
    cbn [fst snd]. destruct H as (S3&_&_&L3&H). rewrite L2 in *. destruct H as [_ H]. rewrite R2 in H.
    unfold EPHYAR_Data_Mask. rewrite H by done. unfold ret.
    split; [by rewrite S2, S1, C2|split; [done|]]. intros k. by rewrite S3, S2, S1.
  - rewrite H. specialize (IH d2 ltac:(congruence) ltac:(lia)). cbn [negb].
    destruct (ephy_read_loop n d2) as [w d3]. destruct IH as (V&L3&S3).
    split; [|split; [done|]]; [by rewrite V, S2, S1, C2|]. intros k. by rewrite S3, S2, S1.
Qed.

Lemma ephy_read_spec a d : ephy_idle d ->
  let '(v, d') := rtl8125_ephy_read a d in
  ephy_idle d' /\ v = u16 (ephy_reg d a) /\ forall b, ephy_reg d' b = ephy_reg d b.
Proof.
  intros Hi. unfold rtl8125_ephy_read. prog_run. pose proof (ephy_addr a).
  change EPHYAR_Read with (0 * 2 ^ 31).
  rewrite <- (Z.lor_0_r (_ .| _)), ephy_cmd by lia.
  destruct (cmd_fields 0 (a .& EPHYAR_Reg_Mask_v2) 0) as (R&K&_&F); [lia..|]. set (cmd := _ + _) in *.
  destruct (one_select cmd d Hi R F) as (S1&R1&C1&L1). set (d1 := (RTL_W32 EPHYAR cmd d).2) in *.
  pose proof (ephy_loop_spec 10 d1 R1 ltac:(lia)) as H2. destruct (ephy_read_loop 10 d1) as [v d2].
  destruct H2 as (V&L2&S2). cbn [fst snd]. destruct (delay_kept 20 d2) as [(S3&_) L3].
  split; [unfold ephy_idle; congruence|]. unfold ephy_reg. split.
  - by rewrite V, C1, K, S1.
  - intros b. by rewrite S3, S2, S1.
Qed.

Lemma ephy_rmw_spec a c m d : ephy_idle d -> 0 <= m < 65536 ->
  let d' := (ClearAndSetPCIePhyBit a c m d).2 in
  ephy_idle d' /\ forall b, ephy_reg d' b =
    if b .& EPHYAR_Reg_Mask_v2 =? a .& EPHYAR_Reg_Mask_v2 then rmw (u16 (ephy_reg d a)) c m else ephy_reg d b.
Proof.
  intros Hi Hm. cbv zeta. unfold ClearAndSetPCIePhyBit. rewrite bind_run.
  pose proof (ephy_read_spec a d Hi) as H. destruct (rtl8125_ephy_read a d) as [v d1].
  destruct H as (I1&V&S1). cbn [fst snd]. rewrite V in *.
  destruct (ephy_write_spec a (rmw (u16 (ephy_reg d a)) c m) d1 I1) as [I2 S2];
    [apply rmw_range; [apply u16_range|done]|].
  split; [exact I2|]. intros b. unfold rmw in S2 at 1. rewrite S2. by rewrite S1.
Qed.
End Ephy.

(** ** Properties *)

(** The PHY read-modify-write helper ([ClearAndSetEthPhyOcpBit]) clears and
    sets exactly the bits of its masks in the addressed PHY register and changes
    no other register, on any PHY that answers within 100 polls; the channel is
    idle again afterwards. *)
Theorem phy_ocp_rmw_exact {D} `{M : !Mmio D} {maxlat} `{P : !OnePort D PHYOCP maxlat}
    (prompt : (maxlat <= 100)%nat) tp a c m (d : D) :
  rtk_enable_diag tp = false -> phy_idle d -> 0 <= a < 65536 -> 0 <= m < 65536 ->
  let d' := (ClearAndSetEthPhyOcpBit tp a c m d).2 in
  phy_idle d' /\ forall b, phy_reg d' b = if b / 2 =? a / 2 then rmw (phy_reg d a) c m else phy_reg d b.
Proof. by apply phy_rmw_spec. Qed.

Lemma map_phy_page0 r : 0 <= r < 32 -> map_phy_ocp_addr 0 r = 0xA400 + 2 * r.
Proof.
  intros Hr. unfold map_phy_ocp_addr, OCP_STD_PHY_BASE_PAGE. rewrite Z.eqb_refl, !Z.shiftl_mul_pow2 by lia.
  rewrite (u16_small (_ + r / 8)), (u8_small (_ + r mod 8)) by lia.
  rewrite (proj2 (Z.ltb_ge _ 16)) by lia. width_lia.
Qed.

Lemma map_phy_paged p r : 0 < p < 4095 -> 16 <= r < 32 -> map_phy_ocp_addr p r = 16 * p + 2 * (r - 16).
Proof.
  intros Hp Hr. unfold map_phy_ocp_addr. rewrite (proj2 (Z.eqb_neq p 0)), (proj2 (Z.ltb_ge r 16)) by lia.
  rewrite !Z.shiftl_mul_pow2 by lia. rewrite (u16_small (p * 2 ^ 4)), (u8_small (r - 16)), u8_small, u16_small by lia.
  lia.
Qed.

(** A register the mdio functions can name: page 0 has 32, the others 16. *)
Definition mdio_name (page reg : Z) : Prop := (page = 0 /\ 0 <= reg < 31) \/ (0 < page < 4095 /\ 16 <= reg < 31).

Lemma mdio_name_addr page reg : mdio_name page reg ->
  0 <= map_phy_ocp_addr page (u8 reg) < 65536 /\ Z.even (map_phy_ocp_addr page (u8 reg)) = true.
Proof.
  intros [[-> H]|[Hp H]]; rewrite u8_small by lia.
  - rewrite map_phy_page0 by lia. split; [lia|]. by rewrite Z.even_add_mul_2.
  - rewrite map_phy_paged by lia. split; [lia|].
    replace (16 * page + 2 * (reg - 16)) with (0 + 2 * (8 * page + (reg - 16))) by lia. by rewrite Z.even_add_mul_2.
Qed.

(** A value written to a PHY register by page and number
    ([rtl8125_mdio_write]) is read back by the same name ([rtl8125_mdio_read]);
    every register with another OCP address is untouched, the current page
    stays, and selecting a page writes nothing. *)
Theorem mdio_write_read_roundtrip {D} `{M : !Mmio D} {maxlat} `{P : !OnePort D PHYOCP maxlat}
    (prompt : (maxlat <= 100)%nat) tp page reg v (d : D) :
  rtk_enable_diag tp = false -> phy_idle d -> mdio_name page reg -> 0 <= v < 65536 ->
  (forall q, rtl8125_mdio_write page 0x1F q d = (u16 q, d)) /\
  let '(page', d1) := rtl8125_mdio_write page reg v d in
  let '(r, d2) := rtl8125_mdio_read tp page reg d1 in
  page' = page /\ r = v /\ phy_idle d2 /\
  forall b, b / 2 <> map_phy_ocp_addr page (u8 reg) / 2 -> phy_reg d2 b = phy_reg d b.
Proof.
  intros Hd Hi Hn Hv. split; [done|]. destruct (mdio_name_addr page reg Hn) as [Ha _].
  unfold rtl8125_mdio_write, mdio_real_write. rewrite (proj2 (Z.eqb_neq reg 0x1F)) by (destruct Hn; lia).
  prog_run. unfold rtl8125_mdio_real_write_phy_ocp. rewrite u16_small by done.
  destruct (phy_write_spec prompt _ v d Hi Ha Hv) as [I1 S1].
  set (d1 := (mdio_real_direct_write_phy_ocp _ v d).2) in *.
  unfold rtl8125_mdio_read, mdio_real_read, rtl8125_mdio_real_read_phy_ocp. rewrite Hd.
  pose proof (phy_read_spec prompt (map_phy_ocp_addr page (u8 reg)) d1 I1 Ha) as H.
  destruct (mdio_real_direct_read_phy_ocp _ d1) as [r d2]. destruct H as (I2&->&_&S2).
  split_and!; [done| |exact I2|].
  - by rewrite S1, Z.eqb_refl.
  - intros b Hb. rewrite S2, S1. by rewrite (proj2 (Z.eqb_neq _ _) Hb).
Qed.

(** ** A device to run on: a channel that answers after [lag] polls *)
Module PhySim.

Definition lag : nat := 3.

Record dev1 := Dev1 { sp1 : Z -> Z; sel1 : Z; rd1 : bool; lat1 : nat }.

Definition read1 (ar a : Z) (d : dev1) : Z * dev1 :=
  if a =? ar then
    (if (lat1 d =? 0)%nat then (if rd1 d then 2 ^ 31 + u16 (sp1 d (sel1 d)) else 0)
     else (if rd1 d then 0 else 2 ^ 31),
     Dev1 (sp1 d) (sel1 d) (rd1 d) (pred (lat1 d)))
  else (0, d).

Definition write1 (l : nat) (ar a v : Z) (d : dev1) : dev1 :=
  if a =? ar then
    if has v CFlag then Dev1 (fun k => if k =? key1 v then v .& 0xffff else sp1 d k) (sel1 d) false l
    else Dev1 (sp1 d) (key1 v) true l
  else d.

Lemma u16_land v : u16 (v .& 0xffff) = v .& 0xffff.
Proof. rewrite (land_mask v 0xffff 16) by done. width_lia. Qed.

Lemma flag_value (b : bool) x : 0 <= x < 65536 -> has (u32 (if b then 2 ^ 31 + x else 0)) CFlag = b /\
  has (u32 (if b then 0 else 2 ^ 31)) CFlag = negb b.
Proof. intros Hx. destruct b; rewrite !has_flag; unfold u32; split; try apply Z.eqb_eq; try apply Z.eqb_neq; lia. Qed.

(** The registers behind the channel. *)
Definition space1 (d : dev1) (k : Z) : Z := u16 (sp1 d k).

Lemma write1_data l ar cmd d : 0 <= cmd < 2 ^ 32 -> has cmd CFlag = true ->
  let d' := write1 l ar ar (u32 cmd) d in
  (forall k, space1 d' k = if k =? key1 cmd then cmd .& 0xffff else space1 d k) /\
  rd1 d' = false /\ (lat1 d' <= l)%nat.
Proof.
  intros Hc Hf. unfold write1. rewrite Z.eqb_refl, (u32_small cmd), Hf by lia. split_and!; [|done|done].
  intros k. unfold space1. cbn [sp1]. destruct (k =? key1 cmd); [apply u16_land|done].
Qed.

Lemma write1_select l ar cmd d : 0 <= cmd < 2 ^ 32 -> has cmd CFlag = false ->
  let d' := write1 l ar ar (u32 cmd) d in
  (forall k, space1 d' k = space1 d k) /\ rd1 d' = true /\ sel1 d' = key1 cmd /\ (lat1 d' <= l)%nat.
Proof. intros Hc Hf. unfold write1. by rewrite Z.eqb_refl, (u32_small cmd), Hf by lia. Qed.

Lemma read1_status ar d : let '(v, d') := read1 ar ar d in
  (forall k, space1 d' k = space1 d k) /\ rd1 d' = rd1 d /\ sel1 d' = sel1 d /\ lat1 d' = pred (lat1 d) /\
  match lat1 d with
  | O => has (u32 v) CFlag = rd1 d /\ (rd1 d = true -> u32 v .& 0xffff = space1 d (sel1 d))
  | S _ => has (u32 v) CFlag = negb (rd1 d)
  end.
Proof.
  unfold read1. rewrite Z.eqb_refl. cbn [sp1 sel1 rd1 lat1]. split_and!; try done.
  pose proof (u16_range (sp1 d (sel1 d))) as Hr.
  destruct (flag_value (rd1 d) _ Hr) as [F1 F2]. destruct (lat1 d); simpl; [|exact F2].
  split; [exact F1|]. intros ->. rewrite (land_mask _ 0xffff 16) by done. unfold u32, space1. lia.
Qed.

#[export] Instance phy_mmio : Mmio dev1 := {|
  R8 := fun _ d => (0, d); R16 := fun _ d => (0, d); R32 := read1 PHYOCP;
  W8 := fun _ _ d => d; W16 := fun _ _ d => d; W32 := write1 lag PHYOCP; udelay := fun _ d => d |}.

#[export] Program Instance phy_port : OnePort dev1 PHYOCP lag := {|
  space := space1; sel := sel1; rd := rd1; lat := lat1 |}.
Next Obligation. intros cmd d _. apply write1_data. Qed.
Next Obligation. intros cmd d _. apply write1_select. Qed.
Next Obligation.
  intros d. pose proof (read1_status PHYOCP d) as H. unfold RTL_R32. cbn [R32 phy_mmio].
  destruct (read1 PHYOCP PHYOCP d) as [v d']. exact H.
Qed.
Next Obligation. done. Qed.

Definition fresh1 : dev1 := Dev1 (fun k => k) 0 false 0.

Lemma phy_ocp_rmw_exact_witness :
  let d' := (ClearAndSetEthPhyOcpBit (mkChanCfg false false 0 0 false false) 0xA5D4 0x0F 0x30 fresh1).2 in
  phy_idle d' /\ forall b, phy_reg d' b = if b / 2 =? 0xA5D4 / 2 then rmw (phy_reg fresh1 0xA5D4) 0x0F 0x30 else phy_reg fresh1 b.
Proof.
  apply (phy_ocp_rmw_exact (maxlat := lag) ltac:(unfold lag; lia) (mkChanCfg false false 0 0 false false) 0xA5D4 0x0F 0x30 fresh1);
    [reflexivity|reflexivity|lia|lia].
Defined.

Lemma mdio_write_read_roundtrip_witness :
  let tp := mkChanCfg false false 0 0 false false in
  (forall q, rtl8125_mdio_write 0xA43 0x1F q fresh1 = (u16 q, fresh1)) /\
  let '(page', d1) := rtl8125_mdio_write 0xA43 0x11 0x1234 fresh1 in
  let '(r, d2) := rtl8125_mdio_read tp 0xA43 0x11 d1 in
  page' = 0xA43 /\ r = 0x1234 /\ phy_idle d2 /\
  forall b, b / 2 <> map_phy_ocp_addr 0xA43 (u8 0x11) / 2 -> phy_reg d2 b = phy_reg fresh1 b.
Proof.
  apply (mdio_write_read_roundtrip (maxlat := lag) ltac:(unfold lag; lia)
    (mkChanCfg false false 0 0 false false) 0xA43 0x11 0x1234 fresh1);
    [reflexivity|reflexivity|right; lia|lia].
Defined.
End PhySim.
