(* ===== verification/EriSpec.v ===== *)
(** What the two-register channels (ERI, CSI) of Channel.v do to the spaces
    behind them, byte by byte, and the properties of all channels. *)
From S2P Require Import Prelude Mmio Channel ChannelSpec.

(** Command in [ar], data in [dr]; the word is named by the command without
    its direction bit. *)
Definition key2 (cmd : Z) : Z := cmd mod 2 ^ 31.

Class TwoPort (D : Type) `{M : !Mmio D} (ar dr : Z) (maxlat : nat) := {
  words : D -> Z -> Z;
  wsel : D -> Z;
  wrd : D -> bool;
  wlat : D -> nat;
  dreg : D -> Z;
  two_data : forall v d, let d' := (RTL_W32 dr v d).2 in
    words d' = words d /\ dreg d' = u32 v /\ wlat d' = wlat d;
  two_write : forall cmd d, wlat d = O -> 0 <= cmd < 2 ^ 32 -> has cmd CFlag = true ->
    let d' := (RTL_W32 ar cmd d).2 in
    (forall k, words d' k = if k =? key2 cmd then dreg d else words d k) /\
    wrd d' = false /\ (wlat d' <= maxlat)%nat;
  two_select : forall cmd d, wlat d = O -> 0 <= cmd < 2 ^ 32 -> has cmd CFlag = false ->
    let d' := (RTL_W32 ar cmd d).2 in
    words d' = words d /\ wrd d' = true /\ wsel d' = key2 cmd /\ (wlat d' <= maxlat)%nat;
  two_status : forall d, let '(v, d') := RTL_R32 ar d in
    words d' = words d /\ wrd d' = wrd d /\ wsel d' = wsel d /\ wlat d' = pred (wlat d) /\
    has v CFlag = if (wlat d =? 0)%nat then wrd d else negb (wrd d);
  two_value : forall d, let '(v, d') := RTL_R32 dr d in
    words d' = words d /\ wrd d' = wrd d /\ wsel d' = wsel d /\ wlat d' = wlat d /\
    (wlat d = O -> wrd d = true -> v = words d (wsel d));
  two_delay : forall n d, let d' := (delay_us n d).2 in
    words d' = words d /\ wrd d' = wrd d /\ wsel d' = wsel d /\ wlat d' = wlat d;
}.
Arguments words {D M} ar dr {maxlat _} _ _.
Arguments wsel {D M} ar dr {maxlat _} _.
Arguments wrd {D M} ar dr {maxlat _} _.
Arguments wlat {D M} ar dr {maxlat _} _.
Arguments dreg {D M} ar dr {maxlat _} _.

Section Two.
Context {D : Type} `{M : !Mmio D} {ar dr : Z} {maxlat : nat} `{P : !TwoPort D ar dr maxlat}.

Definition wkept (d d' : D) : Prop :=
  words ar dr d' = words ar dr d /\ wrd ar dr d' = wrd ar dr d /\ wsel ar dr d' = wsel ar dr d.

Definition widle (d : D) : Prop := wlat ar dr d = O.

Lemma wpoll_done n us d : (wlat ar dr d <= n)%nat ->
  let d' := (poll n us (done_test ar (wrd ar dr d)) d).2 in wkept d d' /\ widle d'.
Proof.
  apply (poll_settles ar wkept (wrd ar dr) (wlat ar dr)).
  - done.
  - intros d1 d2 d3 (A1&B1&C1) (A2&B2&C2). split_and!; congruence.
  - by intros x y (_&H&_).
  - intros e. pose proof (two_status e) as H. destruct (RTL_R32 ar e) as [v e'].
    destruct H as (?&?&?&?&?). by repeat split.
  - intros k e. destruct (two_delay k e) as (?&?&?&?). by repeat split.
Qed.

Lemma wdelay n d : widle d -> let d' := (delay_us n d).2 in words ar dr d' = words ar dr d /\ widle d'.
Proof. intros Hi. destruct (two_delay n d) as (?&_&_&L). split; [done|]. unfold widle. by rewrite L. Qed.

(** A transfer in: select, wait, fetch. *)
Lemma fetch_spec cmd n us d : widle d -> 0 <= cmd < 2 ^ 31 -> (maxlat <= n)%nat ->
  let d2 := (poll n us (flag_set ar CFlag) (RTL_W32 ar cmd d).2).2 in
  let '(v, d') := RTL_R32 dr d2 in
  widle d' /\ v = words ar dr d cmd /\ words ar dr d' = words ar dr d.
Proof.
  intros Hi Hc Hn. cbv zeta.
  destruct (two_select cmd d Hi) as (W1&R1&S1&L1); [lia|rewrite has_flag; apply Z.eqb_neq; lia|].
  set (d1 := (RTL_W32 ar cmd d).2) in *.
  pose proof (wpoll_done n us d1 ltac:(lia)) as H. rewrite R1 in H. destruct H as [(W2&R2&S2) L2].
  change (flag_set ar CFlag) with (done_test ar true).
  set (d2 := (poll n us (done_test ar true) d1).2) in *.
  pose proof (two_value d2) as H. destruct (RTL_R32 dr d2) as [v d3]. destruct H as (W3&_&_&L3&V).
  split; [unfold widle; congruence|]. split; [|congruence].
  rewrite V by (done || congruence). rewrite W2, W1, S2, S1. unfold key2. by rewrite Z.mod_small by lia.
Qed.

(** A transfer out: data, command, wait. *)
Lemma store_spec cmd v n us d : widle d -> 0 <= cmd < 2 ^ 31 -> 0 <= v < 2 ^ 32 -> (maxlat <= n)%nat ->
  let d2 := (RTL_W32 ar (2 ^ 31 + cmd) (RTL_W32 dr v d).2).2 in
  let d' := (poll n us (flag_clear ar CFlag) d2).2 in
  widle d' /\ forall k, words ar dr d' k = if k =? cmd then v else words ar dr d k.
Proof.
  intros Hi Hc Hv Hn. cbv zeta. destruct (two_data v d) as (W0&V0&L0). set (d0 := (RTL_W32 dr v d).2) in *.
  destruct (two_write (2 ^ 31 + cmd) d0) as (W1&R1&L1);
    [unfold widle in Hi; congruence|lia|rewrite has_flag; apply Z.eqb_eq; lia|].
  set (d1 := (RTL_W32 ar (2 ^ 31 + cmd) d0).2) in *.
  pose proof (wpoll_done n us d1 ltac:(lia)) as H. rewrite R1 in H. destruct H as [(W2&_) L2].
  change (flag_clear ar CFlag) with (done_test ar false). split; [exact L2|].
  intros k. rewrite W2, W1, W0, V0. unfold key2.
  replace ((2 ^ 31 + cmd) mod 2 ^ 31) with cmd by lia. by rewrite u32_small by lia.
Qed.
End Two.

(** ** ERI commands *)

Lemma land_shiftl_mask a m n : 0 <= n -> a .& Z.shiftl m n = Z.shiftl (Z.shiftr a n .& m) n.
Proof.
  intros Hn. apply Z.bits_inj'. intros i Hi. rewrite Z.land_spec, !Z.shiftl_spec by done.
  destruct (decide (i < n)).
  - rewrite !(Z.testbit_neg_r _ (i - n)) by lia. apply andb_false_r.
  - rewrite Z.land_spec, Z.shiftr_spec by lia. by replace (i - n + n) with i by lia.
Qed.

Lemma land_F000 a : 0 <= a < 65536 -> a .& 0xF000 = a / 4096 * 4096.
Proof.
  intros Ha. change 0xF000 with (Z.shiftl 15 12). rewrite land_shiftl_mask, Z.shiftl_mul_pow2, Z.shiftr_div_pow2 by lia.
  rewrite (land_mask _ 15 4) by done. lia.
Qed.

(** The word address of an ERI access ([NO_BASE_ADDRESS]), as the command has it. *)
Definition eri_key (type a : Z) : Z := a / 4096 * 2 ^ 20 + type * 2 ^ 16 + (0xF000 + a mod 4096).

Lemma eri_cmd_key op type a : op = 0 \/ op = 1 -> 0 <= type < 4 -> 0 <= a < 65536 ->
  eri_cmd (op * 2 ^ 31) a type NO_BASE_ADDRESS = op * 2 ^ 31 + eri_key type a.
Proof.
  intros Ho Ht Ha. unfold eri_cmd, NO_BASE_ADDRESS, ERIAR_Type_shift, ERIAR_ByteEn, ERIAR_ByteEn_shift.
  change (transformed_base 0) with 0. rewrite Z.lor_0_r.
  rewrite (land_mask a 0x0FFF 12) by done. rewrite !Z.shiftl_mul_pow2 by lia.
  assert (E : op * 2 ^ 31 .| type * 2 ^ 16 .| 15 * 2 ^ 12 .| a mod 2 ^ 12 =
              op * 2 ^ 31 + (type * 2 ^ 16 + (15 * 2 ^ 12 + a mod 2 ^ 12))).
  { rewrite <- !Z.lor_assoc, (lor_add_shift 15), (lor_add_shift type), lor_add_shift by lia. done. }
  rewrite E. unfold has. rewrite land_F000, Z.shiftr_div_pow2 by lia. unfold eri_key.
  destruct (a / 4096 * 4096 =? 0) eqn:E0; cbn [negb]; bool_props; [lia|].
  change 0x00F00000 with (Z.shiftl 15 20).
  rewrite land_shiftl_mask, Z.shiftr_div_pow2 by lia. rewrite (Z.shiftl_mul_pow2 _ 20) by lia.
  rewrite (land_mask _ 15 4) by done.
  replace (a / 4096 * 4096 / 2 ^ 12 * 2 ^ 20 / 2 ^ 20 mod 2 ^ 4) with (a / 4096) by lia.
  rewrite Z.lor_comm.
  assert (E1 : a / 4096 * 2 ^ 20 .| (op * 2 ^ 31 + (type * 2 ^ 16 + (15 * 2 ^ 12 + a mod 2 ^ 12))) =
               op * 2 ^ 31 + (a / 4096 * 2 ^ 20 + (type * 2 ^ 16 + (15 * 2 ^ 12 + a mod 2 ^ 12)))).
  { rewrite <- (lor_add_shift op (type * _ + _)) by lia. rewrite Z.lor_assoc, (Z.lor_comm _ (op * _)).
    rewrite <- Z.lor_assoc, (lor_add_shift (a / 4096)), lor_add_shift by lia. done. }
  rewrite E1. lia.
Qed.

Lemma eri_key_range type a : 0 <= type < 4 -> 0 <= a < 65536 -> 0 <= eri_key type a < 2 ^ 31.
Proof. unfold eri_key. lia. Qed.

Lemma eri_key_inj type a b : 0 <= type < 4 -> 0 <= a < 65536 -> 0 <= b < 65536 ->
  eri_key type a = eri_key type b -> a = b.
Proof. unfold eri_key. lia. Qed.

Lemma align a : a .&~ 3 = a / 4 * 4.
Proof.
  change 3 with (Z.ones 2). rewrite Z.ldiff_ones_r, Z.shiftl_mul_pow2, Z.shiftr_div_pow2 by lia. done.
Qed.

(** ** Bytes *)

Definition get_byte (w i : Z) : Z := Z.shiftr w (8 * i) .& 0xff.

Lemma get_byte_bits w i j : 0 <= i -> 0 <= j -> Z.testbit (get_byte w i) j = (j <? 8) && Z.testbit w (8 * i + j).
Proof.
  intros Hi Hj. unfold get_byte. change 0xff with (Z.ones 8).
  rewrite Z.land_spec, Z.shiftr_spec, Z.testbit_ones_nonneg by lia.
  rewrite andb_comm. by replace (j + 8 * i) with (8 * i + j) by lia.
Qed.

Lemma get_byte_eq w1 i1 w2 i2 : 0 <= i1 -> 0 <= i2 ->
  (forall j, 0 <= j < 8 -> Z.testbit w1 (8 * i1 + j) = Z.testbit w2 (8 * i2 + j)) ->
  get_byte w1 i1 = get_byte w2 i2.
Proof.
  intros H1 H2 H. apply Z.bits_inj'. intros j Hj. rewrite !get_byte_bits by done.
  destruct (j <? 8) eqn:E; [|done]. bool_props. rewrite H by lia. done.
Qed.

Lemma eri_mask_bits len vs n : 1 <= len <= 4 -> 0 <= vs < 4 -> 0 <= n ->
  Z.testbit (eri_mask len vs) n = (8 * vs <=? n) && (n <? 8 * (vs + len)) && (n <? 32).
Proof.
  intros Hl Hv Hn. assert (E : eri_mask len vs = Z.shiftl (Z.ones (8 * len)) (vs * 8) mod 2 ^ 32).
  { unfold eri_mask, u32. assert (len = 1 \/ len = 2 \/ len = 3 \/ len = 4) as [->|[->|[->| ->]]] by lia; done. }
  rewrite E. destruct (n <? 32) eqn:E32; bool_props.
  - rewrite Z.mod_pow2_bits_low, Z.shiftl_spec by lia. rewrite andb_true_r.
    destruct (8 * vs <=? n) eqn:Ev; bool_props.
    + rewrite Z.testbit_ones_nonneg by lia. cbn [andb]. destruct (n <? _) eqn:E1; bool_props; lia.
    + by rewrite Z.testbit_neg_r by lia.
  - rewrite Z.mod_pow2_bits_high by lia. by rewrite andb_false_r.
Qed.

(** The value a read extracts from a word: its bytes from [vs] on, placed at [sh]. *)
Lemma read_bits w len vs sh n : 1 <= len <= 4 -> 0 <= vs < 4 -> 0 <= sh -> 0 <= n ->
  Z.testbit (u32 (Z.shiftl (Z.shiftr (w .& eri_mask len vs) (vs * 8)) (sh * 8))) n =
  (n <? 32) && (8 * sh <=? n) && Z.testbit w (n - 8 * sh + 8 * vs) &&
  ((n <? 8 * (sh + len)) && (n - 8 * sh + 8 * vs <? 32)).
Proof.
  intros Hl Hv Hs Hn. unfold u32. change 4294967296 with (2 ^ 32). destruct (n <? 32) eqn:E32; bool_props.
  - rewrite Z.mod_pow2_bits_low, Z.shiftl_spec by lia. destruct (8 * sh <=? n) eqn:Es; bool_props.
    + rewrite Z.shiftr_spec, Z.land_spec, eri_mask_bits by lia.
      replace (n - sh * 8 + vs * 8) with (n - 8 * sh + 8 * vs) by lia. cbn [andb]. f_equal.
      rewrite (proj2 (Z.leb_le _ _)) by lia. cbn [andb]. f_equal.
      destruct (n <? 8 * (sh + len)) eqn:E1; bool_props; [apply Z.ltb_lt|apply Z.ltb_ge]; lia.
    + by rewrite Z.testbit_neg_r by lia.
  - by rewrite Z.mod_pow2_bits_high by lia.
Qed.

(** The word a write stores: [value] shifted into place under the mask. *)
Lemma write_bits w len vs sh value n : 1 <= len <= 4 -> 0 <= vs < 4 -> 0 <= sh <= 4 -> (vs = 0 \/ sh = 0) ->
  0 <= value < 2 ^ (8 * (sh + len)) -> sh + len <= 4 -> 0 <= n < 32 ->
  Z.testbit ((w .&~ eri_mask len vs) .| Z.shiftr (u32 (Z.shiftl value (vs * 8))) (sh * 8)) n =
  if (8 * vs <=? n) && (n <? 8 * (vs + len)) then Z.testbit value (n - 8 * vs + 8 * sh) else Z.testbit w n.
Proof.
  intros Hl Hv Hs Hvs Hval Hsl Hn. rewrite Z.lor_spec, Z.ldiff_spec, eri_mask_bits, Z.shiftr_spec by lia.
  rewrite (proj2 (Z.ltb_lt n 32)) by lia. rewrite andb_true_r. unfold u32. change 4294967296 with (2 ^ 32).
  assert (Hb : forall k, 8 * (sh + len) <= k -> Z.testbit value k = false)
    by (intros k Hk; by apply (testbit_high value (8 * (sh + len)))).
  assert (E : Z.testbit (Z.shiftl value (vs * 8) mod 2 ^ 32) (n + sh * 8) =
              (8 * vs <=? n) && Z.testbit value (n - 8 * vs + 8 * sh)).
  { destruct (decide (n + sh * 8 < 32)).
    - rewrite Z.mod_pow2_bits_low, Z.shiftl_spec by lia.
      replace (n + sh * 8 - vs * 8) with (n - 8 * vs + 8 * sh) by lia.
      destruct (8 * vs <=? n) eqn:E1; bool_props; [done|]. rewrite Z.testbit_neg_r by lia. done.
    - rewrite Z.mod_pow2_bits_high by lia. rewrite Hb by lia. by rewrite andb_false_r. }
  rewrite E. destruct (8 * vs <=? n) eqn:E1; cbn [andb]; [|by rewrite orb_false_r, andb_true_r].
  destruct (n <? 8 * (vs + len)) eqn:E2; bool_props.
  - by rewrite andb_false_r.
  - rewrite Hb by lia. by rewrite orb_false_r, andb_true_r.
Qed.

(** A read across a word boundary joins the two words. *)
Lemma two_words w1 w2 len vs n : 1 <= len <= 4 -> 0 <= vs < 4 -> 4 - vs < len -> 0 <= n ->
  ((n <? 32) && (8 * 0 <=? n) && Z.testbit w1 (n - 8 * 0 + 8 * vs) &&
     ((n <? 8 * (0 + len)) && (n - 8 * 0 + 8 * vs <? 32))) ||
  ((n <? 32) && (8 * (4 - vs) <=? n) && Z.testbit w2 (n - 8 * (4 - vs) + 8 * 0) &&
     ((n <? 8 * (4 - vs + (len - (4 - vs)))) && (n - 8 * (4 - vs) + 8 * 0 <? 32))) =
  (n <? 8 * len) && (let k := 8 * vs + n in if k <? 32 then Z.testbit w1 k else Z.testbit w2 (k - 32)).
Proof.
  intros Hl Hv Hx Hn. cbv zeta. replace (4 - vs + (len - (4 - vs))) with len by lia. rewrite Z.add_0_l.
  destruct (n <? 8 * len) eqn:E; bool_props; [|by rewrite !andb_false_r].
  rewrite (proj2 (Z.ltb_lt n 32)), (proj2 (Z.leb_le (8 * 0) n)) by lia. cbn [andb].
  replace (n - 8 * 0 + 8 * vs) with (8 * vs + n) by lia.
  destruct (8 * vs + n <? 32) eqn:E1; bool_props.
  - rewrite (proj2 (Z.leb_gt (8 * (4 - vs)) n)) by lia. by rewrite andb_true_r, orb_false_r.
  - rewrite (proj2 (Z.leb_le (8 * (4 - vs)) n)), (proj2 (Z.ltb_lt (_ + 8 * 0) 32)) by lia.
    rewrite andb_false_r, andb_true_r. cbn [orb andb]. f_equal. lia.
Qed.

Section Eri.
Context {D : Type} `{M : !Mmio D} {maxlat : nat} `{P : !TwoPort D ERIAR ERIDR maxlat}.

(** The byte at address [A] of the ERI space of a type. *)
Definition eri_word (d : D) (type a : Z) : Z := words ERIAR ERIDR d (eri_key type a).
Definition eri_byte (d : D) (type A : Z) : Z := get_byte (eri_word d type (A / 4 * 4)) (A mod 4).

Hypothesis prompt : (maxlat <= 10)%nat.
Variable type : Z.
Hypothesis type_ok : 0 <= type < 4.

Definition eri_idle (d : D) : Prop := widle (ar := ERIAR) (dr := ERIDR) d.

Lemma channel_prompt : (maxlat <= R8125_CHANNEL_WAIT_COUNT)%nat.
Proof. unfold R8125_CHANNEL_WAIT_COUNT. lia. Qed.

Local Open Scope prog_scope.
(** One pass of the read loop. *)
Definition eri_fetch (a : Z) : prog D Z :=
  RTL_W32 ERIAR (eri_cmd ERIAR_Read a type NO_BASE_ADDRESS) ;;;
  poll R8125_CHANNEL_WAIT_COUNT R8125_CHANNEL_WAIT_TIME (flag_set ERIAR ERIAR_Flag) ;;; RTL_R32 ERIDR.

Lemma eri_read_loop_S n A len sh v2 d : 0 < len ->
  eri_read_loop (S n) A len sh type NO_BASE_ADDRESS v2 d =
  (do v <- eri_fetch (A .&~ 3);
   let value2 := v2 .| u32 (Z.shiftl (Z.shiftr (v .& eri_mask len (A mod 4)) (A mod 4 * 8)) (sh * 8)) in
   if len <=? 4 - A mod 4 then ret value2
   else eri_read_loop n (A .&~ 3 + 4) (len - (4 - A mod 4)) (4 - A mod 4) type NO_BASE_ADDRESS value2) d.
Proof.
  intros Hl. cbn [eri_read_loop]. rewrite (proj2 (Z.leb_gt len 0)) by lia.
  unfold eri_fetch. by rewrite !bind_run.
Qed.
Local Close Scope prog_scope.

Lemma eri_fetch_spec a d : eri_idle d -> 0 <= a < 65536 ->
  let '(v, d') := eri_fetch a d in
  eri_idle d' /\ v = eri_word d type a /\ words ERIAR ERIDR d' = words ERIAR ERIDR d.
Proof.
  intros Hi Ha. unfold eri_fetch. prog_run. change ERIAR_Read with (0 * 2 ^ 31).
  rewrite eri_cmd_key by auto. apply fetch_spec; [done| |apply channel_prompt].
  pose proof (eri_key_range type a). lia.
Qed.

(** The [n]th bit of the bytes from address [A] on. *)
Definition eri_bit (d : D) (A n : Z) : bool :=
  let k := 8 * (A mod 4) + n in
  if k <? 32 then Z.testbit (eri_word d type (A / 4 * 4)) k
  else Z.testbit (eri_word d type (A / 4 * 4 + 4)) (k - 32).

Lemma eri_bit_byte d A i j : 0 <= A -> 0 <= i < 4 -> 0 <= j < 8 ->
  eri_bit d A (8 * i + j) = Z.testbit (eri_word d type ((A + i) / 4 * 4)) (8 * ((A + i) mod 4) + j).
Proof.
  intros HA Hi Hj. unfold eri_bit. destruct (decide (A mod 4 + i < 4)) as [Hlt|Hge].
  - rewrite (proj2 (Z.ltb_lt _ _)) by lia.
    replace ((A + i) / 4) with (A / 4) by lia. f_equal. lia.
  - rewrite (proj2 (Z.ltb_ge _ _)) by lia.
    replace ((A + i) / 4 * 4) with (A / 4 * 4 + 4) by lia. f_equal. lia.
Qed.

Lemma eri_loop_bits A len d : eri_idle d -> 1 <= len <= 4 -> 0 <= A -> A + len <= 65536 ->
  let '(v, d') := eri_read_loop 4 A len 0 type NO_BASE_ADDRESS 0 d in
  eri_idle d' /\ words ERIAR ERIDR d' = words ERIAR ERIDR d /\
  forall n, 0 <= n -> Z.testbit v n = (n <? 8 * len) && eri_bit d A n.
Proof.
  intros Hi Hl HA HB. rewrite (eri_read_loop_S 3) by lia. rewrite bind_run, align.
  pose proof (eri_fetch_spec (A / 4 * 4) d Hi ltac:(lia)) as H. destruct (eri_fetch (A / 4 * 4) d) as [w d1].
  destruct H as (I1&->&W1). cbn [fst snd]. cbv zeta.
  assert (Hw : forall a, eri_word d1 type a = eri_word d type a) by (intros a; unfold eri_word; by rewrite W1).
  destruct (len <=? 4 - A mod 4) eqn:E1; bool_props.
  - unfold ret. split; [exact I1|]. split; [exact W1|]. intros n Hn. rewrite Z.lor_0_l, read_bits by lia.
    unfold eri_bit. replace (n - 8 * 0 + 8 * (A mod 4)) with (8 * (A mod 4) + n) by lia.
    rewrite Z.add_0_l, (proj2 (Z.leb_le (8 * 0) n)) by lia.
    destruct (n <? 8 * len) eqn:E2; bool_props; [|by rewrite !andb_false_r].
    rewrite (proj2 (Z.ltb_lt n 32)), (proj2 (Z.ltb_lt (_ + n) 32)) by lia. by rewrite !andb_true_r.
  - rewrite (eri_read_loop_S 2) by lia. rewrite bind_run, align.
    replace ((A / 4 * 4 + 4) / 4 * 4) with (A / 4 * 4 + 4) by lia.
    replace ((A / 4 * 4 + 4) mod 4) with 0 by lia.
    pose proof (eri_fetch_spec (A / 4 * 4 + 4) d1 I1 ltac:(lia)) as H.
    destruct (eri_fetch (A / 4 * 4 + 4) d1) as [w2 d2]. destruct H as (I2&->&W2). cbn [fst snd]. cbv zeta.
    rewrite (proj2 (Z.leb_le (len - (4 - A mod 4)) (4 - 0))) by lia. unfold ret.
    split; [exact I2|]. split; [congruence|]. intros n Hn. rewrite Z.lor_0_l, Z.lor_spec, !read_bits by lia.
    rewrite Hw. unfold eri_bit. apply two_words; lia.
Qed.

Lemma eri_read_bits A len d : eri_idle d -> 1 <= len <= 4 -> 0 <= A -> A + len <= 65536 ->
  let '(v, d') := rtl8125_eri_read_with_oob_base_address A len type NO_BASE_ADDRESS d in
  eri_idle d' /\ words ERIAR ERIDR d' = words ERIAR ERIDR d /\
  forall n, 0 <= n -> Z.testbit v n = (n <? 8 * len) && eri_bit d A n.
Proof.
  intros Hi Hl HA HB. unfold rtl8125_eri_read_with_oob_base_address.
  rewrite (proj2 (Z.ltb_ge 4 len)), (proj2 (Z.leb_gt len 0)) by lia. cbn [orb]. rewrite bind_run.
  pose proof (eri_loop_bits A len d Hi Hl HA HB) as H.
  destruct (eri_read_loop 4 A len 0 type NO_BASE_ADDRESS 0 d) as [v d1]. destruct H as (I1&W1&B1). cbn [fst snd].
  prog_run. destruct (wdelay R8125_CHANNEL_EXIT_DELAY_TIME d1 I1) as [W2 I2].
  split; [exact I2|]. split; [congruence|exact B1].
Qed.

(** The bits of the word at [a] after [len] bytes of [value] went in at [vs]. *)
Definition put (d : D) (a len vs sh value w' : Z) : Prop :=
  forall n, 0 <= n < 32 -> Z.testbit w' n =
    if (8 * vs <=? n) && (n <? 8 * (vs + len)) then Z.testbit value (n - 8 * vs + 8 * sh)
    else Z.testbit (eri_word d type a) n.

Local Open Scope prog_scope.
(** One pass of the write loop. *)
Definition eri_store (a len vs sh value : Z) : prog D bool :=
  do old <- rtl8125_eri_read_with_oob_base_address a 4 type NO_BASE_ADDRESS;
  RTL_W32 ERIDR ((old .&~ eri_mask len vs) .| Z.shiftr (u32 (Z.shiftl value (vs * 8))) (sh * 8)) ;;;
  RTL_W32 ERIAR (eri_cmd ERIAR_Write a type NO_BASE_ADDRESS) ;;;
  poll 10 100 (flag_clear ERIAR ERIAR_Flag).

Lemma eri_write_loop_S n A len sh value d : 0 < len ->
  eri_write_loop (S n) A len sh value type NO_BASE_ADDRESS d =
  (eri_store (A .&~ 3) len (A mod 4) sh value ;;;
   if len <=? 4 - A mod 4 then ret tt
   else eri_write_loop n (A .&~ 3 + 4) (len - (4 - A mod 4)) (4 - A mod 4) value type NO_BASE_ADDRESS) d.
Proof.
  intros Hl. cbn [eri_write_loop]. rewrite (proj2 (Z.leb_gt len 0)) by lia.
  unfold eri_store. by rewrite !bind_run.
Qed.
Local Close Scope prog_scope.

Lemma eri_store_spec a len vs sh value d : eri_idle d -> 1 <= len <= 4 -> 0 <= vs < 4 -> 0 <= sh <= 4 ->
  (vs = 0 \/ sh = 0) -> 0 <= value < 2 ^ (8 * (sh + len)) -> sh + len <= 4 ->
  a mod 4 = 0 -> 0 <= a < 65536 ->
  let d' := (eri_store a len vs sh value d).2 in
  eri_idle d' /\ exists w', put d a len vs sh value w' /\
    forall b, 0 <= b < 65536 -> eri_word d' type b = if b =? a then w' else eri_word d type b.
Proof.
  intros Hi Hl Hv Hs Hvs Hval Hsl Ha Hr. cbv zeta. unfold eri_store. rewrite bind_run.
  pose proof (eri_read_bits a 4 d Hi ltac:(lia) ltac:(lia) ltac:(lia)) as H.
  destruct (rtl8125_eri_read_with_oob_base_address a 4 type NO_BASE_ADDRESS d) as [old d1].
  destruct H as (I1&W1&B1). cbn [fst snd]. prog_run. change ERIAR_Write with (1 * 2 ^ 31).
  rewrite eri_cmd_key by auto. rewrite Z.mul_1_l. set (w' := _ .| _).
  assert (Hold : 0 <= old < 2 ^ 32).
  { apply bits_bound; [lia|]. intros n Hn. rewrite B1 by lia. by rewrite (proj2 (Z.ltb_ge n (8 * 4))) by lia. }
  assert (Hw' : 0 <= w' < 2 ^ 32).
  { apply lor_bound; [lia|apply ldiff_bound; lia|]. rewrite Z.shiftr_div_pow2 by lia.
    pose proof (u32_range (Z.shiftl value (vs * 8))). split; [apply Z.div_pos; lia|].
    apply Z.le_lt_trans with (u32 (Z.shiftl value (vs * 8))); [|lia].
    apply Z.div_le_upper_bound; nia. }
  pose proof (eri_key_range type a type_ok Hr) as Hk.
  destruct (store_spec (ar := ERIAR) (dr := ERIDR) (eri_key type a) w' 10 100 d1 I1 Hk Hw' prompt) as [I2 W2].
  split; [exact I2|]. exists w'. split.
  - intros n Hn. unfold w'. rewrite write_bits by done.
    destruct ((8 * vs <=? n) && (n <? 8 * (vs + len))); [done|]. rewrite B1 by lia.
    rewrite (proj2 (Z.ltb_lt n (8 * 4))) by lia. unfold eri_bit. rewrite Ha.
    rewrite (proj2 (Z.ltb_lt _ 32)) by lia. cbn [andb]. by replace (a / 4 * 4) with a by lia.
  - intros b Hb. unfold eri_word at 1. change ERIAR_Flag with CFlag. rewrite W2, W1.
    destruct (b =? a) eqn:E; bool_props; [by rewrite E, Z.eqb_refl|].
    rewrite (proj2 (Z.eqb_neq _ _)); [done|]. intros Hkk. apply eri_key_inj in Hkk; lia.
Qed.

(** A byte of a word that was written, or was not. *)
Lemma put_byte d a len vs sh value w' i : put d a len vs sh value w' -> 0 <= vs -> 0 <= sh -> 0 <= i < 4 ->
  get_byte w' i = if (vs <=? i) && (i <? vs + len) then get_byte value (i - vs + sh)
                  else get_byte (eri_word d type a) i.
Proof.
  intros Hp Hv Hs Hi. destruct ((vs <=? i) && (i <? vs + len)) eqn:E.
  - bool_props. apply get_byte_eq; [lia..|]. intros j Hj. rewrite Hp by lia.
    rewrite (proj2 (Z.leb_le _ _)), (proj2 (Z.ltb_lt _ _)) by lia. cbn [andb]. f_equal. lia.
  - apply get_byte_eq; [lia..|]. intros j Hj. rewrite Hp by lia.
    apply andb_false_iff in E. destruct E as [E|E]; bool_props.
    + by rewrite (proj2 (Z.leb_gt _ _)) by lia.
    + rewrite (proj2 (Z.ltb_ge (8 * i + j) _)) by lia. by rewrite andb_false_r.
Qed.

(** The bytes after the word at [A / 4 * 4] was written. *)
Lemma stored_byte d d1 A len value w1 B : 0 <= A -> 1 <= len -> 0 <= B < 65536 ->
  put d (A / 4 * 4) len (A mod 4) 0 value w1 -> B / 4 = A / 4 ->
  (forall b, 0 <= b < 65536 -> eri_word d1 type b = if b =? A / 4 * 4 then w1 else eri_word d type b) ->
  eri_byte d1 type B = if (A <=? B) && (B <? A + len) then get_byte value (B - A) else eri_byte d type B.
Proof.
  intros HA Hl HB P1 E W1. unfold eri_byte. rewrite W1, E, Z.eqb_refl by lia.
  rewrite (put_byte _ _ _ _ _ _ _ (B mod 4) P1) by lia.
  assert (X : ((A mod 4 <=? B mod 4) && (B mod 4 <? A mod 4 + len)) = ((A <=? B) && (B <? A + len))).
  { apply eq_iff_eq_true. rewrite !andb_true_iff, !Z.leb_le, !Z.ltb_lt. lia. }
  rewrite X. destruct ((A <=? B) && (B <? A + len)) eqn:E3; [|done]. bool_props. f_equal. lia.
Qed.

Lemma not_in_range A B len : ~ (A <= B < A + len) -> (A <=? B) && (B <? A + len) = false.
Proof. intros H. apply not_true_iff_false. rewrite andb_true_iff, Z.leb_le, Z.ltb_lt. lia. Qed.

Lemma eri_write_loop_bytes A len value d : eri_idle d -> 1 <= len <= 4 -> 0 <= A -> A + len <= 65536 ->
  0 <= value < 2 ^ (8 * len) ->
  let d1 := (eri_write_loop 4 A len 0 value type NO_BASE_ADDRESS d).2 in
  eri_idle d1 /\ forall B, 0 <= B < 65536 ->
    eri_byte d1 type B = if (A <=? B) && (B <? A + len) then get_byte value (B - A) else eri_byte d type B.
Proof.
  intros Hi Hl HA HB Hval. cbv zeta. rewrite (eri_write_loop_S 3) by lia. rewrite bind_run, align.
  destruct (eri_store_spec (A / 4 * 4) len (A mod 4) 0 value d Hi) as [I1 (w1&P1&W1)]; try (done || lia).
  set (d1 := (eri_store _ _ _ _ _ d).2) in *.
  assert (Hfirst : forall B, 0 <= B < 65536 -> B / 4 = A / 4 ->
    eri_byte d1 type B = if (A <=? B) && (B <? A + len) then get_byte value (B - A) else eri_byte d type B).
  { intros B HB0 E. apply (stored_byte d d1 A len value w1); try done; lia. }
  assert (Hrest : forall b, 0 <= b < 65536 -> b <> A / 4 * 4 -> eri_word d1 type b = eri_word d type b).
  { intros b Hb Hne. rewrite W1 by lia. by rewrite (proj2 (Z.eqb_neq _ _) Hne). }
  destruct (len <=? 4 - A mod 4) eqn:E1; bool_props.
  - split; [exact I1|]. intros B HB'. unfold ret. cbn [snd].
    destruct (decide (B / 4 = A / 4)) as [E|E]; [by apply Hfirst|].
    rewrite not_in_range by lia. unfold eri_byte. rewrite Hrest by lia. done.
  - rewrite (eri_write_loop_S 2) by lia. rewrite bind_run, align.
    replace ((A / 4 * 4 + 4) / 4 * 4) with (A / 4 * 4 + 4) by lia.
    replace ((A / 4 * 4 + 4) mod 4) with 0 by lia.
    set (len2 := len - (4 - A mod 4)). set (sh := 4 - A mod 4).
    destruct (eri_store_spec (A / 4 * 4 + 4) len2 0 sh value d1 I1) as [I2 (w2&P2&W2)]; try lia.
    { replace (sh + len2) with len by lia. done. }
    set (d2 := (eri_store _ _ _ _ _ d1).2) in *.
    rewrite (proj2 (Z.leb_le len2 (4 - 0))) by lia. split; [exact I2|]. intros B HB'. unfold ret. cbn [snd].
    destruct (decide (B / 4 = A / 4 + 1)) as [E|E].
    + unfold eri_byte. rewrite W2 by lia. rewrite (proj2 (Z.eqb_eq _ _)) by lia.
      rewrite (put_byte _ _ _ _ _ _ _ (B mod 4) P2) by lia.
      assert (X : ((0 <=? B mod 4) && (B mod 4 <? 0 + len2)) = ((A <=? B) && (B <? A + len))).
      { apply eq_iff_eq_true. rewrite !andb_true_iff, !Z.leb_le, !Z.ltb_lt. lia. }
      rewrite X. destruct ((A <=? B) && (B <? A + len)); [f_equal; lia|].
      replace (B / 4 * 4) with (A / 4 * 4 + 4) by lia. by rewrite Hrest by lia.
    + assert (Hsame : eri_byte d2 type B = eri_byte d1 type B).
      { unfold eri_byte. rewrite W2 by lia. by rewrite (proj2 (Z.eqb_neq _ _)) by lia. }
      rewrite Hsame. destruct (decide (B / 4 = A / 4)) as [E2|E2]; [by apply Hfirst|].
      rewrite not_in_range by lia. unfold eri_byte. rewrite Hrest by lia. done.
Qed.

(** What a write does to the bytes. *)
Lemma eri_write_bytes A len value d : eri_idle d -> 1 <= len <= 4 -> 0 <= A -> A + len <= 65536 ->
  0 <= value < 2 ^ (8 * len) ->
  let d' := (rtl8125_eri_write_with_oob_base_address A len value type NO_BASE_ADDRESS d).2 in
  eri_idle d' /\ forall B, 0 <= B < 65536 ->
    eri_byte d' type B = if (A <=? B) && (B <? A + len) then get_byte value (B - A) else eri_byte d type B.
Proof.
  intros Hi Hl HA HB Hval. cbv zeta.
  unfold rtl8125_eri_write_with_oob_base_address.
  rewrite (proj2 (Z.ltb_ge 4 len)), (proj2 (Z.leb_gt len 0)) by lia. cbn [orb]. rewrite bind_run.
  assert (HL : let d1 := (eri_write_loop 4 A len 0 value type NO_BASE_ADDRESS d).2 in
    eri_idle d1 /\ forall B, 0 <= B < 65536 ->
    eri_byte d1 type B = if (A <=? B) && (B <? A + len) then get_byte value (B - A) else eri_byte d type B).
  { exact (eri_write_loop_bytes A len value d Hi Hl HA HB Hval). }
  set (d1 := (eri_write_loop 4 A len 0 value type NO_BASE_ADDRESS d).2) in *. destruct HL as [I1 B1]. prog_run. cbn [fst snd].
  destruct (wdelay 20 d1 I1) as [W2 I2]. split; [exact I2|]. intros B HB'.
  unfold eri_byte, eri_word. rewrite W2. by apply B1.
Qed.
End Eri.

(** ** CSI: the PCI configuration space *)

Section Csi.
Context {D : Type} `{M : !Mmio D} {maxlat : nat} `{P : !TwoPort D CSIAR CSIDR maxlat}.

Definition csi_word (d : D) (a : Z) : Z := words CSIAR CSIDR d (0xF000 + a).
Definition csi_byte (d : D) (A : Z) : Z := get_byte (csi_word d (A / 4 * 4)) (A mod 4).

Hypothesis prompt : (maxlat < 10)%nat.

Definition csi_idle (d : D) : Prop := widle (ar := CSIAR) (dr := CSIDR) d.

Lemma csi_cmd_key op a : op = 0 \/ op = 1 -> 0 <= a < 4096 ->
  csi_cmd (op * 2 ^ 31) a 0 = op * 2 ^ 31 + (0xF000 + a).
Proof.
  intros Ho Ha. unfold csi_cmd, CSIAR_ByteEn, CSIAR_ByteEn_shift, CSIAR_Addr_Mask.
  rewrite (land_mask a 0xfff 12) by done. rewrite Z.mod_small, !Z.shiftl_mul_pow2 by lia.
  rewrite Z.mul_0_l, Z.lor_0_r, <- Z.lor_assoc, (lor_add_shift 15), lor_add_shift by lia. lia.
Qed.

Lemma csi_loop_spec n : forall d, wrd CSIAR CSIDR d = true -> (wlat CSIAR CSIDR d < n)%nat ->
  let '(v, d') := csi_read_loop n d in
  csi_idle d' /\ v = words CSIAR CSIDR d (wsel CSIAR CSIDR d) /\ words CSIAR CSIDR d' = words CSIAR CSIDR d.
Proof.
  induction n as [|n IH]; intros d Hr Hl; [lia|]. cbn [csi_read_loop]. rewrite bind_run.
  destruct (two_delay 100 d) as (W1&R1&S1&L1). set (d1 := (delay_us 100 d).2) in *. rewrite bind_run.
  pose proof (two_status d1) as H. destruct (RTL_R32 CSIAR d1) as [v d2]. cbn [fst snd].
  destruct H as (W2&R2&S2&L2&H). change CSIAR_Flag with CFlag. rewrite H, L1, R1, Hr.
  destruct (wlat CSIAR CSIDR d =? 0)%nat eqn:E.
  - apply Nat.eqb_eq in E. pose proof (two_value d2) as H3. destruct (RTL_R32 CSIDR d2) as [w d3].
    destruct H3 as (W3&_&_&L3&V). unfold csi_idle, widle. split; [lia|]. split; [|congruence].
    rewrite V by (lia || congruence). congruence.
  - apply Nat.eqb_neq in E. cbn [negb]. specialize (IH d2 ltac:(congruence) ltac:(lia)).
    destruct (csi_read_loop n d2) as [w d3]. destruct IH as (I3&V&W3). split; [done|]. split; congruence.
Qed.

Lemma csi_read_spec tp a d : csi_idle d -> 0 <= a < 4096 ->
  let '(v, d') := rtl8125_csi_other_fun_read tp 0 a d in
  csi_idle d' /\ v = csi_word d a /\ words CSIAR CSIDR d' = words CSIAR CSIDR d.
Proof.
  intros Hi Ha. unfold rtl8125_csi_other_fun_read.
  replace (if mcfg_default tp then 0 else 0) with 0 by (by destruct (mcfg_default tp)).
  cbn [Z.ltb Z.compare]. change CSIAR_Read with (0 * 2 ^ 31). rewrite csi_cmd_key by auto. rewrite !bind_run.
  destruct (two_select (0 * 2 ^ 31 + (61440 + a)) d Hi) as (W1&R1&S1&L1);
    [lia|rewrite has_flag; apply Z.eqb_neq; lia|]. set (d1 := (RTL_W32 CSIAR _ d).2) in *.
  pose proof (csi_loop_spec 10 d1 R1 ltac:(lia)) as H. destruct (csi_read_loop 10 d1) as [v d2].
  destruct H as (I2&V&W2). unfold ret. cbn [fst snd]. destruct (wdelay 20 d2 I2) as [W3 I3].
  split; [exact I3|]. split; [|congruence]. rewrite V, S1, W1. unfold csi_word, key2.
  by rewrite Z.mod_small by lia.
Qed.

Lemma csi_write_spec tp a v d : csi_idle d -> 0 <= a < 4096 -> 0 <= v < 2 ^ 32 ->
  let d' := (rtl8125_csi_other_fun_write tp 0 a v d).2 in
  csi_idle d' /\ forall b, 0 <= b < 4096 -> csi_word d' b = if b =? a then v else csi_word d b.
Proof.
  intros Hi Ha Hv. cbv zeta. unfold rtl8125_csi_other_fun_write. rewrite bind_run.
  replace (if mcfg_default tp then 0 else 0) with 0 by (by destruct (mcfg_default tp)).
  cbn [Z.ltb Z.compare]. change CSIAR_Write with (1 * 2 ^ 31). rewrite csi_cmd_key by auto. rewrite Z.mul_1_l.
  prog_run. change CSIAR_Flag with CFlag.
  destruct (store_spec (ar := CSIAR) (dr := CSIDR) (61440 + a) v 10 100 d Hi) as [I1 W1]; [lia..|].
  set (d1 := (poll 10 100 _ _).2) in *. destruct (wdelay 20 d1 I1) as [W2 I2].
  split; [exact I2|]. intros b Hb. unfold csi_word. rewrite W2, W1.
  destruct (b =? a) eqn:E; bool_props; [by rewrite E, Z.eqb_refl|].
  by rewrite (proj2 (Z.eqb_neq _ _)) by lia.
Qed.

Lemma csi_address A : 0 <= A < 4096 -> u16 (A .&~ 3) = A / 4 * 4 /\ A .& 3 = A mod 4.
Proof.
  intros HA. rewrite align, (land_mask A 3 2) by done. split; [apply u16_small|]; lia.
Qed.

Lemma byte_merge w s value i : 0 <= s < 4 -> 0 <= i < 4 -> 0 <= value < 256 -> 0 <= w < 2 ^ 32 ->
  get_byte ((w .&~ Z.shiftl 0xFF (8 * s)) .| Z.shiftl value (8 * s)) i = if i =? s then value else get_byte w i.
Proof.
  intros Hs Hi Hv Hw. apply Z.bits_inj'. intros j Hj. rewrite get_byte_bits by lia.
  rewrite Z.lor_spec, Z.ldiff_spec, !Z.shiftl_spec by lia. change 0xFF with (Z.ones 8).
  assert (Hhi : forall x k, 0 <= x < 256 -> 8 <= k -> Z.testbit x k = false)
    by (intros x k Hx Hk; apply (testbit_high x 8); lia).
  destruct (i =? s) eqn:E; bool_props.
  - subst i. replace (8 * s + j - 8 * s) with j by lia. rewrite Z.testbit_ones_nonneg by lia.
    destruct (j <? 8) eqn:Ej; bool_props; cbn [andb negb].
    + by rewrite andb_false_r.
    + by rewrite Hhi by lia.
  - rewrite get_byte_bits by lia. destruct (j <? 8) eqn:Ej; bool_props; [|done]. cbn [andb].
    destruct (decide (i < s)).
    + rewrite !(Z.testbit_neg_r _ (8 * i + j - 8 * s)) by lia. by rewrite andb_true_r, orb_false_r.
    + rewrite Z.testbit_ones_nonneg, (Hhi value) by lia. rewrite (proj2 (Z.ltb_ge _ 8)) by lia.
      by rewrite andb_true_r, orb_false_r.
Qed.

Lemma csi_write_byte_spec tp A value d : csi_idle d -> 0 <= A < 4096 -> 0 <= value < 256 ->
  (forall a, 0 <= csi_word d a < 2 ^ 32) ->
  let d' := (rtl8125_csi_fun0_write_byte tp A value d).2 in
  csi_idle d' /\ forall B, 0 <= B < 4096 -> csi_byte d' B = if B =? A then value else csi_byte d B.
Proof.
  intros Hi HA Hv Hw. cbv zeta. unfold rtl8125_csi_fun0_write_byte. destruct (csi_address A HA) as [-> ->].
  rewrite bind_run. pose proof (csi_read_spec tp (A / 4 * 4) d Hi ltac:(lia)) as H.
  destruct (rtl8125_csi_other_fun_read tp 0 (A / 4 * 4) d) as [v d1]. destruct H as (I1&->&W1). cbn [fst snd].
  rewrite bind_run. set (w' := _ .| _).
  assert (Hw' : 0 <= w' < 2 ^ 32).
  { apply lor_bound; [lia|apply ldiff_bound; [lia|apply Hw]|]. rewrite Z.shiftl_mul_pow2 by lia.
    assert (2 ^ (8 * (A mod 4)) <= 2 ^ 24) by (apply Z.pow_le_mono_r; lia). nia. }
  destruct (csi_write_spec tp (A / 4 * 4) w' d1 I1 ltac:(lia) Hw') as [I2 W2].
  set (d2 := (rtl8125_csi_other_fun_write tp 0 _ w' d1).2) in *. destruct (wdelay 20 d2 I2) as [W3 I3].
  split; [exact I3|]. intros B HB. unfold csi_byte, csi_word at 1. rewrite W3.
  change (words CSIAR CSIDR d2 (61440 + B / 4 * 4)) with (csi_word d2 (B / 4 * 4)). rewrite W2 by lia.
  assert (Hd1 : forall a, csi_word d1 a = csi_word d a) by (intros a; unfold csi_word; by rewrite W1).
  destruct (B / 4 * 4 =? A / 4 * 4) eqn:E; bool_props.
  - unfold w'. rewrite byte_merge by (apply Hw || lia). rewrite E.
    replace (B mod 4 =? A mod 4) with (B =? A); [done|]. apply eq_iff_eq_true. rewrite !Z.eqb_eq. lia.
  - rewrite (proj2 (Z.eqb_neq B A)) by (intros ->; done). by rewrite Hd1.
Qed.
End Csi.

(** ** Properties *)

(** C33: an ERI write of [len] bytes (1 to 4, crossing a word boundary or not), with the
    OOB base address 0 and a value that fits in [len] bytes, changes exactly those bytes of
    the ERI space, to the little-endian bytes of the value, and leaves the channel idle, on
    any idle channel that answers within ten polls. The condition on the value is needed:
    the code does not mask it, and a wider one also sets bits of the bytes behind
    ([eri_write_spills]). *)
Theorem eri_write_changes_bytes {D} `{M : !Mmio D} {maxlat} `{P : !TwoPort D ERIAR ERIDR maxlat}
    (prompt : (maxlat <= 10)%nat) type A len value (d : D) :
  0 <= type < 4 -> eri_idle d -> 1 <= len <= 4 -> 0 <= A -> A + len <= 65536 -> 0 <= value < 2 ^ (8 * len) ->
  let d' := (rtl8125_eri_write_with_oob_base_address A len value type NO_BASE_ADDRESS d).2 in
  eri_idle d' /\ forall B, 0 <= B < 65536 ->
    eri_byte d' type B = if (A <=? B) && (B <? A + len) then get_byte value (B - A) else eri_byte d type B.
Proof. intros Ht. by apply eri_write_bytes. Qed.

(** An ERI read of [len] bytes returns the little-endian number of the
    bytes at that address, and nothing above them, whatever the alignment; it
    changes nothing and leaves the channel idle. *)
Theorem eri_read_returns_bytes {D} `{M : !Mmio D} {maxlat} `{P : !TwoPort D ERIAR ERIDR maxlat}
    (prompt : (maxlat <= 10)%nat) type A len (d : D) :
  0 <= type < 4 -> eri_idle d -> 1 <= len <= 4 -> 0 <= A -> A + len <= 65536 ->
  let '(v, d') := rtl8125_eri_read_with_oob_base_address A len type NO_BASE_ADDRESS d in
  eri_idle d' /\ (forall B, eri_byte d' type B = eri_byte d type B) /\ 0 <= v < 2 ^ (8 * len) /\
  forall i, 0 <= i < len -> get_byte v i = eri_byte d type (A + i).
Proof.
  intros Ht Hi Hl HA HB. pose proof (eri_read_bits prompt type Ht A len d Hi Hl HA HB) as H.
  destruct (rtl8125_eri_read_with_oob_base_address A len type NO_BASE_ADDRESS d) as [v d'].
  destruct H as (I&W&B). split; [done|]. split; [|split].
  - intros b. unfold eri_byte, eri_word. by rewrite W.
  - apply bits_bound; [lia|]. intros n Hn. rewrite B by lia. by rewrite (proj2 (Z.ltb_ge _ _)) by lia.
  - intros i Hi'. unfold eri_byte. apply get_byte_eq; [lia..|]. intros j Hj. rewrite B by lia.
    rewrite (proj2 (Z.ltb_lt _ _)) by lia. cbn [andb]. by apply eri_bit_byte; lia.
Qed.

(** Writing one byte of the PCI configuration space through the CSI
    channel changes that byte and no other, although the channel transfers
    whole words. *)
Theorem csi_write_byte_exact {D} `{M : !Mmio D} {maxlat} `{P : !TwoPort D CSIAR CSIDR maxlat}
    (prompt : (maxlat < 10)%nat) tp A value (d : D) :
  csi_idle d -> 0 <= A < 4096 -> 0 <= value < 256 -> (forall a, 0 <= csi_word d a < 2 ^ 32) ->
  let d' := (rtl8125_csi_fun0_write_byte tp A value d).2 in
  csi_idle d' /\ forall B, 0 <= B < 4096 -> csi_byte d' B = if B =? A then value else csi_byte d B.
Proof. by apply csi_write_byte_spec. Qed.

(** ** A device to run on: a channel that answers after [lag] polls *)
Module EriSim.
Import PhySim.

Record dev2 := Dev2 { sp2 : Z -> Z; sel2 : Z; rd2 : bool; lat2 : nat; dr2 : Z }.

Definition read2 (ar dr a : Z) (d : dev2) : Z * dev2 :=
  if a =? ar then
    (if (lat2 d =? 0)%nat then (if rd2 d then 2 ^ 31 else 0) else (if rd2 d then 0 else 2 ^ 31),
     Dev2 (sp2 d) (sel2 d) (rd2 d) (pred (lat2 d)) (dr2 d))
  else (if rd2 d then sp2 d (sel2 d) else dr2 d, d).

Definition write2 (ar dr a v : Z) (d : dev2) : dev2 :=
  if a =? ar then
    if has v CFlag then Dev2 (fun k => if k =? key2 v then dr2 d else sp2 d k) (sel2 d) false lag (dr2 d)
    else Dev2 (sp2 d) (key2 v) true lag (dr2 d)
  else Dev2 (sp2 d) (sel2 d) (rd2 d) (lat2 d) v.

Definition mmio2 (ar dr : Z) : Mmio dev2 := {|
  R8 := fun _ d => (0, d); R16 := fun _ d => (0, d); R32 := read2 ar dr;
  W8 := fun _ _ d => d; W16 := fun _ _ d => d; W32 := write2 ar dr; udelay := fun _ d => d |}.

Program Definition port2 (ar dr : Z) (H : (dr =? ar) = false) : @TwoPort dev2 (mmio2 ar dr) ar dr lag :=
  {| words := fun d k => u32 (sp2 d k); wsel := sel2; wrd := rd2; wlat := lat2; dreg := fun d => u32 (dr2 d) |}.
Next Obligation.
  intros ar dr H v d. unfold RTL_W32, act. cbn [snd W32 mmio2]. unfold write2. rewrite H.
  split_and!; try done. cbn [dr2]. unfold u32. by rewrite Z.mod_mod.
Qed.
Next Obligation.
  intros ar dr H cmd d _ Hc Hf. unfold RTL_W32, act. cbn [snd W32 mmio2]. unfold write2.
  rewrite Z.eqb_refl, (u32_small cmd), Hf by lia. split_and!; [|done|done].
  intros k. cbn [sp2]. by destruct (k =? key2 cmd).
Qed.
Next Obligation.
  intros ar dr H cmd d _ Hc Hf. unfold RTL_W32, act. cbn [snd W32 mmio2]. unfold write2.
  rewrite Z.eqb_refl, (u32_small cmd), Hf by lia. done.
Qed.
Next Obligation.
  intros ar dr H d. unfold RTL_R32. cbn [R32 mmio2]. unfold read2. rewrite Z.eqb_refl. cbn [sp2 sel2 rd2 lat2].
  split_and!; try done. destruct (flag_value (rd2 d) 0 ltac:(lia)) as [F1 F2]. rewrite Z.add_0_r in F1.
  by destruct (lat2 d =? 0)%nat.
Qed.
Next Obligation.
  intros ar dr H d. unfold RTL_R32. cbn [R32 mmio2]. unfold read2. rewrite H. split_and!; try done.
  by intros _ ->.
Qed.
Next Obligation. done. Qed.

#[export] Instance eri_mmio : Mmio dev2 := mmio2 ERIAR ERIDR.
#[export] Instance eri_port : TwoPort dev2 ERIAR ERIDR lag := port2 ERIAR ERIDR eq_refl.
Definition csi_mmio : Mmio dev2 := mmio2 CSIAR CSIDR.
Definition csi_port : @TwoPort dev2 csi_mmio CSIAR CSIDR lag := port2 CSIAR CSIDR eq_refl.

Definition fresh2 : dev2 := Dev2 (fun k => k * 0x01010101) 0 false 0 0.

Lemma eri_write_changes_bytes_witness :
  let d' := (rtl8125_eri_write_with_oob_base_address 0x10E 4 0xAABBCCDD ERIAR_OOB NO_BASE_ADDRESS fresh2).2 in
  eri_idle d' /\ forall B, 0 <= B < 65536 ->
    eri_byte d' ERIAR_OOB B = if (0x10E <=? B) && (B <? 0x10E + 4) then get_byte 0xAABBCCDD (B - 0x10E)
                              else eri_byte fresh2 ERIAR_OOB B.
Proof.
  apply (eri_write_changes_bytes (maxlat := lag) ltac:(unfold lag; lia) ERIAR_OOB 0x10E 4 0xAABBCCDD fresh2);
    [unfold ERIAR_OOB; lia|reflexivity|lia|lia|lia|lia].
Defined.

(** One byte is written with a value of two: the byte behind it takes bits, too. *)
Theorem eri_write_spills :
  let d := Dev2 (fun _ => 0) 0 false 0 0 in
  let d' := (rtl8125_eri_write_with_oob_base_address 0x10C 1 0xF055 ERIAR_OOB NO_BASE_ADDRESS d).2 in
  eri_byte d' ERIAR_OOB 0x10C = 0x55 /\ eri_byte d ERIAR_OOB 0x10D = 0 /\ eri_byte d' ERIAR_OOB 0x10D = 0xF0.
Proof. vm_compute. split_and!; reflexivity. Qed.

Lemma eri_read_returns_bytes_witness :
  let '(v, d') := rtl8125_eri_read_with_oob_base_address 0x10E 3 ERIAR_OOB NO_BASE_ADDRESS fresh2 in
  eri_idle d' /\ (forall B, eri_byte d' ERIAR_OOB B = eri_byte fresh2 ERIAR_OOB B) /\ 0 <= v < 2 ^ (8 * 3) /\
  forall i, 0 <= i < 3 -> get_byte v i = eri_byte fresh2 ERIAR_OOB (0x10E + i).
Proof.
  apply (eri_read_returns_bytes (maxlat := lag) ltac:(unfold lag; lia) ERIAR_OOB 0x10E 3 fresh2);
    [unfold ERIAR_OOB; lia|reflexivity|lia|lia|lia].
Defined.

Lemma csi_write_byte_exact_witness :
  let tp := mkChanCfg false false 0 0 false false in
  let d' := (@rtl8125_csi_fun0_write_byte dev2 csi_mmio tp 0x99 0x5A fresh2).2 in
  csi_idle (P := csi_port) d' /\ forall B, 0 <= B < 4096 ->
    csi_byte (P := csi_port) d' B = if B =? 0x99 then 0x5A else csi_byte (P := csi_port) fresh2 B.
Proof.
  apply (csi_write_byte_exact (P := csi_port) ltac:(unfold lag; lia) (mkChanCfg false false 0 0 false false) 0x99 0x5A fresh2);
    [reflexivity|lia|lia|].
  intros a. apply u32_range.
Defined.
End EriSim.
