(* ===== verification/Chip.v ===== *)
(** The chip variants: identification from TxConfig and the PCI device id
    (RTL8127Hw.cpp, identical in the kext), the chip table, and the variables
    rtl8125_init_software_variable derives from the variant (rtl812xx.cpp). *)
From Stdlib Require Import String.
From S2P Require Import Prelude Mmio Channel.
#[global] Open Scope Z_scope.
Local Open Scope prog_scope.

Inductive cfg :=
| CFG_METHOD_2 | CFG_METHOD_3 | CFG_METHOD_4 | CFG_METHOD_5 | CFG_METHOD_6 | CFG_METHOD_7
| CFG_METHOD_8 | CFG_METHOD_9 | CFG_METHOD_10 | CFG_METHOD_11 | CFG_METHOD_12 | CFG_METHOD_13
| CFG_METHOD_31 | CFG_METHOD_32 | CFG_METHOD_33 | CFG_METHOD_41 | CFG_METHOD_42
| CFG_METHOD_DEFAULT.

#[export] Instance cfg_eq_dec : EqDecision cfg.
Proof. solve_decision. Defined.

(** The values of the C enumeration, for its comparisons. *)
Definition cfg_num (m : cfg) : Z :=
  match m with
  | CFG_METHOD_2 => 2 | CFG_METHOD_3 => 3 | CFG_METHOD_4 => 4 | CFG_METHOD_5 => 5 | CFG_METHOD_6 => 6
  | CFG_METHOD_7 => 7 | CFG_METHOD_8 => 8 | CFG_METHOD_9 => 9 | CFG_METHOD_10 => 10 | CFG_METHOD_11 => 11
  | CFG_METHOD_12 => 12 | CFG_METHOD_13 => 13 | CFG_METHOD_31 => 14 | CFG_METHOD_32 => 15
  | CFG_METHOD_33 => 16 | CFG_METHOD_41 => 17 | CFG_METHOD_42 => 18 | CFG_METHOD_DEFAULT => 19
  end.

(** ** The chip table *)

Definition RX_DMA_BURST_512 : Z := 5.
Definition RX_DMA_BURST_256 : Z := 4.
Definition RxCfgDMAShift : Z := 8.
Definition Rx_Close_Multiple : Z := BIT 21.
Definition Rx_Fetch_Number_8 : Z := BIT 30.
Definition EnableOuterVlan : Z := BIT 23.
Definition EnableInnerVlan : Z := BIT 22.
Definition RxCfg_pause_slot_en : Z := BIT 11.
(** [ETH_DATA_LEN], and [9 * 1024 - ETH_HLEN - VLAN_HLEN - ETH_FCS_LEN]. *)
Definition Jumbo_Frame_1k : Z := 1500.
Definition Jumbo_Frame_9k : Z := 9 * 1024 - 14 - 4 - 4.

Record RtlChipInfo := mkInfo {
  name : string;
  speed_name : string;
  i_mcfg : cfg;
  RCR_Cfg : Z;
  RxConfigMask : Z;
  jumbo_frame_sz : Z;
}.

Definition burst (b : Z) : Z := Z.shiftl b RxCfgDMAShift.
Definition vlan : Z := EnableInnerVlan .| EnableOuterVlan.
(** The four receive configurations of the table. *)
Definition rcr_a : Z := Rx_Fetch_Number_8 .| vlan .| burst RX_DMA_BURST_256.
Definition rcr_b : Z := Rx_Fetch_Number_8 .| RxCfg_pause_slot_en .| vlan .| burst RX_DMA_BURST_256.
Definition rcr_d : Z := Rx_Fetch_Number_8 .| Rx_Close_Multiple .| RxCfg_pause_slot_en .| vlan .| burst RX_DMA_BURST_256.
Definition rcr_26 : Z := Rx_Fetch_Number_8 .| RxCfg_pause_slot_en .| vlan .| burst RX_DMA_BURST_512.
Definition rcr_27 : Z := Rx_Fetch_Number_8 .| Rx_Close_Multiple .| RxCfg_pause_slot_en .| vlan .| burst RX_DMA_BURST_512.

Definition rtlChipInfo : list RtlChipInfo := [
  mkInfo "RTL8125A rev. 1" "2.5" CFG_METHOD_2 rcr_a 0xff7e5880 Jumbo_Frame_9k;
  mkInfo "RTL8125A rev. 2" "2.5" CFG_METHOD_3 rcr_a 0xff7e5880 Jumbo_Frame_9k;
  mkInfo "RTL8125B rev. 1" "2.5" CFG_METHOD_4 rcr_b 0xff7e5880 Jumbo_Frame_9k;
  mkInfo "RTL8125B rev. 2" "2.5" CFG_METHOD_5 rcr_b 0xff7e5880 Jumbo_Frame_9k;
  mkInfo "RTL8168KB rev. 1" "2.5" CFG_METHOD_6 rcr_a 0xff7e5880 Jumbo_Frame_9k;
  mkInfo "RTL8168KB rev. 2" "2.5" CFG_METHOD_7 rcr_b 0xff7e5880 Jumbo_Frame_9k;
  mkInfo "RTL8125BP rev. 1" "2.5" CFG_METHOD_8 rcr_d 0xff7e5880 Jumbo_Frame_9k;
  mkInfo "RTL8125BP rev. 2" "2.5" CFG_METHOD_9 rcr_d 0xff7e5880 Jumbo_Frame_9k;
  mkInfo "RTL8125D rev. 1" "2.5" CFG_METHOD_10 rcr_d 0xff7e5880 Jumbo_Frame_9k;
  mkInfo "RTL8125D rev. 2" "2.5" CFG_METHOD_11 rcr_d 0xff7e5880 Jumbo_Frame_9k;
  mkInfo "RTL8125CP rev. 1" "2.5" CFG_METHOD_12 rcr_d 0xff7e5880 Jumbo_Frame_9k;
  mkInfo "RTL8168KD rev. 1" "2.5" CFG_METHOD_13 rcr_d 0xff7e5880 Jumbo_Frame_9k;
  mkInfo "RTL8126A rev. 1" "5" CFG_METHOD_31 rcr_26 0xff7e5880 Jumbo_Frame_9k;
  mkInfo "RTL8126A rev. 2" "5" CFG_METHOD_32 rcr_27 0xff7e5880 Jumbo_Frame_9k;
  mkInfo "RTL8126A rev. 3" "5" CFG_METHOD_33 rcr_27 0xff7e5880 Jumbo_Frame_9k;
  mkInfo "RTL8127 rev. 1" "10" CFG_METHOD_41 rcr_27 0xff7e5880 Jumbo_Frame_9k;
  mkInfo "RTL8127 rev. 2" "10" CFG_METHOD_42 rcr_27 0xff7e5880 Jumbo_Frame_9k;
  mkInfo "Unknown" "2.5" CFG_METHOD_DEFAULT (burst RX_DMA_BURST_512) 0xff7e5880 Jumbo_Frame_1k ].

(** ** Identification *)

Definition TxConfig : Z := 0x40.

(** mcfg, chipset, HwIcVerUnknown; the default case leaves [chipset] alone. *)
Definition identify (chipset0 val32 : Z) : cfg * Z * bool :=
  let reg := val32 .& 0x7c800000 in
  let ICVerID := val32 .& 0x00700000 in
  let v0 := ICVerID =? 0 in
  let v1 := ICVerID =? 0x100000 in
  let v2 := ICVerID =? 0x200000 in
  if reg =? 0x60800000 then
    if v0 then (CFG_METHOD_2, 0, false) else if v1 then (CFG_METHOD_3, 1, false) else (CFG_METHOD_3, 1, true)
  else if reg =? 0x64000000 then
    if v0 then (CFG_METHOD_4, 2, false) else if v1 then (CFG_METHOD_5, 3, false) else (CFG_METHOD_5, 3, true)
  else if reg =? 0x68000000 then
    if v0 then (CFG_METHOD_8, 6, false) else if v1 then (CFG_METHOD_9, 7, false) else (CFG_METHOD_9, 7, true)
  else if reg =? 0x68800000 then
    if v0 then (CFG_METHOD_10, 8, false) else if v1 then (CFG_METHOD_11, 9, false) else (CFG_METHOD_11, 9, true)
  else if reg =? 0x70800000 then
    if v0 then (CFG_METHOD_12, 10, false) else (CFG_METHOD_12, 10, true)
  else if reg =? 0x6C800000 then
    if v0 then (CFG_METHOD_41, 15, false) else if v1 then (CFG_METHOD_42, 16, false) else (CFG_METHOD_42, 16, true)
  else if reg =? 0x64800000 then
    if v0 then (CFG_METHOD_31, 12, false) else if v1 then (CFG_METHOD_32, 13, false)
    else if v2 then (CFG_METHOD_33, 14, false) else (CFG_METHOD_33, 14, true)
  else (CFG_METHOD_DEFAULT, chipset0, true).

(** The RTL8168K variants, by device id. *)
Definition identify8162 (device : Z) (r : cfg * Z * bool) : cfg * Z * bool :=
  let '(m, c, u) := r in
  if device =? 0x8162 then
    match m with
    | CFG_METHOD_3 => (CFG_METHOD_6, 4, u)
    | CFG_METHOD_5 => (CFG_METHOD_7, 5, u)
    | CFG_METHOD_11 => (CFG_METHOD_13, 11, u)
    | _ => r
    end
  else r.

Definition info (chipset : Z) : RtlChipInfo :=
  nth (Z.to_nat chipset) rtlChipInfo (mkInfo "" "" CFG_METHOD_DEFAULT 0 0 0).

Record identified := mkId {
  mcfg : cfg; chipset : Z; HwIcVerUnknown : bool; rtl8125_rx_config : Z;
}.

(** The fields set, and the return value. *)
Definition rtl812xIdentifyChip {D} `{M : !Mmio D} (device chipset0 : Z) : prog D (identified * bool) :=
  do val32 <- RTL_R32 TxConfig;
  let '(m, c, u) := identify8162 device (identify chipset0 val32) in
  ret (mkId m c u (RCR_Cfg (info c)), negb (bool_decide (m = CFG_METHOD_DEFAULT))).

(** ** rtl8125_init_software_variable, switch by switch

    A switch without a default leaves the field as it was ([old]). *)

Definition HwPcieSNOffset_of (m : cfg) (old : Z) : Z :=
  match m with
  | CFG_METHOD_2 | CFG_METHOD_3 | CFG_METHOD_4 | CFG_METHOD_5 | CFG_METHOD_6 | CFG_METHOD_7 => 0x16C
  | CFG_METHOD_8 | CFG_METHOD_9 | CFG_METHOD_10 | CFG_METHOD_11 | CFG_METHOD_12 | CFG_METHOD_13 => 0x168
  | CFG_METHOD_31 | CFG_METHOD_32 | CFG_METHOD_33 => 0x174
  | CFG_METHOD_41 | CFG_METHOD_42 => 0x168
  | CFG_METHOD_DEFAULT => old
  end.

(** The configuration-space offset saved as org_pci_offset_180. *)
Definition pci_offset_180 (m : cfg) : option Z :=
  match m with
  | CFG_METHOD_2 | CFG_METHOD_3 | CFG_METHOD_6 => Some 0x264
  | CFG_METHOD_4 | CFG_METHOD_5 | CFG_METHOD_7 => Some 0x214
  | CFG_METHOD_8 | CFG_METHOD_9 | CFG_METHOD_10 | CFG_METHOD_11 | CFG_METHOD_13 => Some 0x210
  | CFG_METHOD_12 => Some 0x184
  | CFG_METHOD_31 | CFG_METHOD_32 | CFG_METHOD_33 => Some 0x22c
  | CFG_METHOD_41 | CFG_METHOD_42 => Some 0x254
  | CFG_METHOD_DEFAULT => None
  end.

Definition HwSuppMaxPhyLinkSpeed_of (m : cfg) : Z :=
  match m with
  | CFG_METHOD_2 | CFG_METHOD_3 | CFG_METHOD_4 | CFG_METHOD_5
  | CFG_METHOD_8 | CFG_METHOD_9 | CFG_METHOD_10 | CFG_METHOD_11 | CFG_METHOD_12 => 2500
  | CFG_METHOD_31 | CFG_METHOD_32 | CFG_METHOD_33 => 5000
  | CFG_METHOD_41 | CFG_METHOD_42 => 10000
  | _ => 1000
  end.

Definition WAKEUP_MAGIC_PACKET_V3 : Z := 3.

Definition HwSuppMagicPktVer_of (m : cfg) : Z :=
  match m with
  | CFG_METHOD_2 | CFG_METHOD_3 | CFG_METHOD_4 | CFG_METHOD_5 | CFG_METHOD_6 | CFG_METHOD_7
  | CFG_METHOD_10 | CFG_METHOD_11 | CFG_METHOD_13
  | CFG_METHOD_31 | CFG_METHOD_32 | CFG_METHOD_33 | CFG_METHOD_41 | CFG_METHOD_42 => WAKEUP_MAGIC_PACKET_V3
  | _ => 0
  end.

Definition HwSuppEsdVer_of (m : cfg) : Z :=
  match m with CFG_METHOD_5 | CFG_METHOD_7 => 4 | CFG_METHOD_10 => 5 | _ => 1 end.

Definition HwSuppD0SpeedUpVer_of (m : cfg) (old : Z) : Z :=
  match m with
  | CFG_METHOD_3 | CFG_METHOD_4 | CFG_METHOD_5 | CFG_METHOD_6 | CFG_METHOD_7 | CFG_METHOD_8 | CFG_METHOD_9
  | CFG_METHOD_31 | CFG_METHOD_32 | CFG_METHOD_33 => 1
  | CFG_METHOD_10 | CFG_METHOD_11 | CFG_METHOD_12 | CFG_METHOD_13 | CFG_METHOD_41 | CFG_METHOD_42 => 2
  | _ => old
  end.

Definition HwSuppTxNoCloseVer_of (m : cfg) (old : Z) : Z :=
  match m with
  | CFG_METHOD_2 | CFG_METHOD_3 | CFG_METHOD_4 | CFG_METHOD_5 | CFG_METHOD_6 | CFG_METHOD_7 => 3
  | CFG_METHOD_8 | CFG_METHOD_9 | CFG_METHOD_10 | CFG_METHOD_11 | CFG_METHOD_12 | CFG_METHOD_13
  | CFG_METHOD_41 | CFG_METHOD_42 => 6
  | CFG_METHOD_31 => 4
  | CFG_METHOD_32 | CFG_METHOD_33 => 5
  | CFG_METHOD_DEFAULT => old
  end.

Definition MAX_TX_NO_CLOSE_DESC_PTR_MASK_V2 : Z := 0xFFFF.
Definition MAX_TX_NO_CLOSE_DESC_PTR_MASK_V3 : Z := 0xFFFFFFFF.
Definition MAX_TX_NO_CLOSE_DESC_PTR_MASK_V4 : Z := 0x7FFFFFFF.

Definition MaxTxDescPtrMask_of (ver old : Z) : Z :=
  if (ver =? 5) || (ver =? 6) then MAX_TX_NO_CLOSE_DESC_PTR_MASK_V4
  else if ver =? 4 then MAX_TX_NO_CLOSE_DESC_PTR_MASK_V3
  else if ver =? 3 then MAX_TX_NO_CLOSE_DESC_PTR_MASK_V2 else old.

Definition RequireLSOPatch_of (m : cfg) (old : bool) : bool :=
  match m with CFG_METHOD_2 | CFG_METHOD_3 | CFG_METHOD_6 => true | _ => old end.

Definition sw_ram_code_ver_of (m : cfg) (old : Z) : Z :=
  match m with
  | CFG_METHOD_2 => 0x0b11
  | CFG_METHOD_3 | CFG_METHOD_6 => 0x0b33
  | CFG_METHOD_4 => 0x0b17
  | CFG_METHOD_5 | CFG_METHOD_7 => 0x0b55
  | CFG_METHOD_8 => 0x0013
  | CFG_METHOD_9 => 0x0001
  | CFG_METHOD_10 => 0x0027
  | CFG_METHOD_11 | CFG_METHOD_13 => 0x0031
  | CFG_METHOD_12 => 0x0010
  | CFG_METHOD_31 => 0x0023
  | CFG_METHOD_32 => 0x0033
  | CFG_METHOD_33 => 0x0060
  | CFG_METHOD_41 => 0x0015
  | CFG_METHOD_42 => 0x0036
  | CFG_METHOD_DEFAULT => old
  end.

(** rtl8125_setup_mqs_reg: HwCloPtrReg and SwTailPtrReg. *)
Definition rtl8125_setup_mqs_reg (ver : Z) : Z * Z :=
  if (ver =? 4) || (ver =? 5) then (0x2800, 0x2800)
  else if ver =? 6 then (0x0D34, 0x0D30) else (0x2802, 0x2800).

Definition HwSuppIntMitiVer_of (m : cfg) (old : Z) : Z :=
  match m with
  | CFG_METHOD_2 | CFG_METHOD_3 | CFG_METHOD_6 => 3
  | CFG_METHOD_4 | CFG_METHOD_5 | CFG_METHOD_7 | CFG_METHOD_31 => 4
  | CFG_METHOD_32 | CFG_METHOD_33 => 5
  | CFG_METHOD_8 | CFG_METHOD_9 | CFG_METHOD_10 | CFG_METHOD_11 | CFG_METHOD_12 | CFG_METHOD_13
  | CFG_METHOD_41 | CFG_METHOD_42 => 6
  | CFG_METHOD_DEFAULT => old
  end.

(** HwSuppTcamVer, TcamNotValidReg, TcamValidReg, TcamMaAddrcOffset, TcamVlanTagOffset. *)
Definition Tcam_of (m : cfg) : Z * Z * Z * Z * Z :=
  match m with
  | CFG_METHOD_31 | CFG_METHOD_32 | CFG_METHOD_33 | CFG_METHOD_41 | CFG_METHOD_42 => (2, 0xA000, 0xB000, 0, 3)
  | _ => (1, 0xA000, 0xA800, 448, 496)
  end.

Definition RequiredPfmPatch_of (m : cfg) (old : bool) : bool :=
  match m with CFG_METHOD_10 | CFG_METHOD_11 | CFG_METHOD_13 => true | _ => old end.

(** [RX_DESC_RING_TYPE_n] as [n]. *)
Definition HwSuppRxDescType_of (m : cfg) : Z :=
  match m with
  | CFG_METHOD_2 | CFG_METHOD_3 | CFG_METHOD_4 | CFG_METHOD_5 | CFG_METHOD_6 | CFG_METHOD_7 | CFG_METHOD_31 => 3
  | CFG_METHOD_8 | CFG_METHOD_9 | CFG_METHOD_10 | CFG_METHOD_11 | CFG_METHOD_12 | CFG_METHOD_13
  | CFG_METHOD_32 | CFG_METHOD_33 | CFG_METHOD_41 | CFG_METHOD_42 => 4
  | CFG_METHOD_DEFAULT => 1
  end.
