(* ===== verification/SwVars.v ===== *)
(** rtl8125_init_software_variable as a whole, the link options, the EEE link
    modes and the transmit pointer registers; the properties of the chip
    variants. *)
From S2P Require Import Prelude Mmio Channel Chip.
Local Open Scope prog_scope.

(** ** Link modes (rtl812x_phy.c) *)

(** [1 << n] of [int]: [None] is undefined behaviour. *)
Definition shl_int (n : Z) : option Z := if (0 <=? n) && (n <? 31) then Some (Z.shiftl 1 n) else None.

Definition linkmode_set_bit (nbit : Z) (dst : option Z) : option Z :=
  d ← dst; m ← shl_int nbit; Some (u32 (d .| m)).

Definition linkmode_mod_bit (nbit dst value : Z) : option Z :=
  m ← shl_int nbit; Some (u64 (if value =? 0 then dst .&~ m else dst .| m)).

(** A mask is an array of 64-bit words. *)
Definition LINK_MODE_MASK_NBITS : Z := 121.
Definition bitmap_size (nbits : Z) : Z := ((nbits + 63) .&~ 63) / 8.

(** [memset(dst, 0, len)], or one word for a small constant. *)
Definition bitmap_zero (dst : list Z) (nbits : Z) : list Z :=
  if (nbits <=? 64) && (0 <? nbits) then <[0%nat := 0]> dst
  else let w := Z.to_nat (bitmap_size nbits / 8) in replicate w 0 ++ drop w dst.

Definition linkmode_zero (dst : list Z) : list Z := bitmap_zero dst LINK_MODE_MASK_NBITS.

Definition ethtool_convert_legacy_u32_to_link_mode (dst : list Z) (legacy_u32 : Z) : list Z :=
  <[0%nat := legacy_u32]> (linkmode_zero dst).

(** A converted mask has the legacy modes and nothing else. *)
Lemma legacy_link_mode a b v : ethtool_convert_legacy_u32_to_link_mode [a; b] v = [v; 0].
Proof. reflexivity. Qed.

Definition ETHTOOL_LINK_MODE_100baseT_Full_BIT : Z := 3.
Definition ETHTOOL_LINK_MODE_1000baseT_Full_BIT : Z := 5.
Definition ETHTOOL_LINK_MODE_2500baseT_Full_BIT : Z := 47.
Definition ETHTOOL_LINK_MODE_5000baseT_Full_BIT : Z := 48.

(** ** Link options *)

Definition SPEED_10 : Z := 10.
Definition SPEED_100 : Z := 100.
Definition SPEED_1000 : Z := 1000.
Definition SPEED_2500 : Z := 2500.
Definition SPEED_5000 : Z := 5000.
Definition SPEED_10000 : Z := 10000.
Definition DUPLEX_HALF : Z := 0.
Definition DUPLEX_FULL : Z := 1.
Definition AUTONEG_DISABLE : Z := 0.
Definition AUTONEG_ENABLE : Z := 1.

Definition ADVERTISED_10baseT_Half : Z := BIT 0.
Definition ADVERTISED_10baseT_Full : Z := BIT 1.
Definition ADVERTISED_100baseT_Half : Z := BIT 2.
Definition ADVERTISED_100baseT_Full : Z := BIT 3.
Definition ADVERTISED_1000baseT_Half : Z := BIT 4.
Definition ADVERTISED_1000baseT_Full : Z := BIT 5.
Definition ADVERTISED_10000baseT_Full : Z := BIT 12.
Definition ADVERTISED_2500baseX_Full : Z := BIT 15.
Definition RTK_ADVERTISED_5000baseX_Full : Z := BIT 48.

Definition rtl8125_is_autoneg_mode_valid (autoneg : Z) : bool :=
  (autoneg =? AUTONEG_ENABLE) || (autoneg =? AUTONEG_DISABLE).

Definition rtl8125_is_speed_mode_valid (speed : Z) : bool :=
  (speed =? SPEED_10000) || (speed =? SPEED_5000) || (speed =? SPEED_2500) || (speed =? SPEED_1000) ||
  (speed =? SPEED_100) || (speed =? SPEED_10).

Definition rtl8125_is_duplex_mode_valid (duplex : Z) : bool :=
  (duplex =? DUPLEX_FULL) || (duplex =? DUPLEX_HALF).

Inductive rtl8125_fc_mode :=
  rtl8125_fc_none | rtl8125_fc_rx_pause | rtl8125_fc_tx_pause | rtl8125_fc_full | rtl8125_fc_default.

Record linkopt := mkLink { autoneg : Z; speed : Z; duplex : Z; advertising : Z; fcpause : rtl8125_fc_mode }.

Definition adv_base : Z :=
  ADVERTISED_10baseT_Half .| ADVERTISED_10baseT_Full .| ADVERTISED_100baseT_Half .| ADVERTISED_100baseT_Full .|
  ADVERTISED_1000baseT_Half .| ADVERTISED_1000baseT_Full.

(** The switch falls through from each speed to the slower ones. *)
Definition adv_of_speed (speed : Z) : Z :=
  if speed =? SPEED_10000 then
    ADVERTISED_10000baseT_Full .| RTK_ADVERTISED_5000baseX_Full .| ADVERTISED_2500baseX_Full .| adv_base
  else if speed =? SPEED_5000 then RTK_ADVERTISED_5000baseX_Full .| ADVERTISED_2500baseX_Full .| adv_base
  else if speed =? SPEED_2500 then ADVERTISED_2500baseX_Full .| adv_base
  else adv_base.

Definition rtl8125_set_link_option (HwSuppMaxPhyLinkSpeed autoneg speed duplex : Z) (fc : rtl8125_fc_mode) : linkopt :=
  let speed := if rtl8125_is_speed_mode_valid speed then speed else SPEED_10000 in
  let duplex := if rtl8125_is_duplex_mode_valid duplex then duplex else DUPLEX_FULL in
  let autoneg := if rtl8125_is_autoneg_mode_valid autoneg then autoneg else AUTONEG_ENABLE in
  let speed := Z.min speed HwSuppMaxPhyLinkSpeed in
  mkLink autoneg speed duplex (adv_of_speed speed) fc.

(** ** Energy-efficient Ethernet modes *)

Record keee := mkEee {
  eee_enabled : bool; supported : option Z; advertised : option Z; tx_lpi_enabled : bool; tx_lpi_timer : Z;
}.

(** The block at the end of rtl8125_init_software_variable. *)
Definition init_eee (m : cfg) (maxspeed : Z) (fiber : bool) (e : keee) : keee :=
  if bool_decide (m = CFG_METHOD_DEFAULT) then e else
  let sup := linkmode_set_bit ETHTOOL_LINK_MODE_1000baseT_Full_BIT
               (linkmode_set_bit ETHTOOL_LINK_MODE_100baseT_Full_BIT (supported e)) in
  let adv := linkmode_set_bit ETHTOOL_LINK_MODE_1000baseT_Full_BIT
               (linkmode_set_bit ETHTOOL_LINK_MODE_100baseT_Full_BIT (advertised e)) in
  let '(sup, adv) :=
    if cfg_num CFG_METHOD_3 <? cfg_num m then
      let '(sup, adv) :=
        if 2500 <=? maxspeed then
          (linkmode_set_bit ETHTOOL_LINK_MODE_2500baseT_Full_BIT sup,
           linkmode_set_bit ETHTOOL_LINK_MODE_5000baseT_Full_BIT
             (linkmode_set_bit ETHTOOL_LINK_MODE_2500baseT_Full_BIT adv))
        else (sup, adv) in
      (if 5000 <=? maxspeed then linkmode_set_bit ETHTOOL_LINK_MODE_5000baseT_Full_BIT sup else sup, adv)
    else (sup, adv) in
  mkEee (negb fiber) sup adv (negb fiber) (1500 + 14 + 0x20).

(** ** rtl8125_init_software_variable *)

Record swvars := mkSw {
  s_HwSuppDashVer : Z;
  s_HwSuppOcpChannelVer : Z;
  s_AllowAccessDashOcp : bool;
  HwPkgDet : Z;
  HwPcieSNOffset : Z;
  s_DASH : bool;
  DashFirmwareVersion : Z;
  org_pci_offset_99 : Z;
  org_pci_offset_180 : Z;
  HwSuppMaxPhyLinkSpeed : Z;
  HwFiberModeVer : Z;
  HwSuppMagicPktVer : Z;
  HwSuppEsdVer : Z;
  BackupPhyFuseDout : list Z;
  TestPhyOcpReg : bool;
  HwSuppD0SpeedUpVer : Z;
  HwSuppCheckPhyDisableModeVer : Z;
  HwSuppTxNoCloseVer : Z;
  s_MaxTxDescPtrMask : Z;
  RequireLSOPatch : bool;
  sw_ram_code_ver : Z;
  NotWrRamCodeToMicroP : bool;
  NotWrMcuPatchCode : bool;
  hw_ram_code_ver : Z;
  HwHasWrRamCodeToMicroP : bool;
  RequirePhyMdiSwapPatch : bool;
  HwSuppMacMcuVer : Z;
  MacMcuPageSize : Z;
  HwCloPtrReg : Z;
  SwTailPtrReg : Z;
  HwSuppIntMitiVer : Z;
  Tcam : Z * Z * Z * Z * Z;
  RequiredPfmPatch : bool;
  HwSuppRxDescType : Z;
  wol_opts : Z;
  wol_enabled : bool;
  link : linkopt;
  eee : keee;
}.

Definition Config1 : Z := 0x52.
Definition Config3 : Z := 0x54.
Definition Config5 : Z := 0x56.
Definition PMEnable : Z := BIT 0.
Definition LinkUp : Z := BIT 4.
Definition BWF : Z := BIT 6.
Definition MWF : Z := BIT 5.
Definition UWF : Z := BIT 4.
Definition WAKE_PHY : Z := BIT 0.
Definition WAKE_UCAST : Z := BIT 1.
Definition WAKE_MCAST : Z := BIT 2.
Definition WAKE_BCAST : Z := BIT 3.
Definition WAKE_MAGIC : Z := BIT 5.
Definition OCP_REG_FIRMWARE_MAJOR_VERSION : Z := 0x120.

Section Code.
Context {D : Type} `{M : !Mmio D}.

Definition rtl8125_get_hw_wol (magicVer : Z) : prog D Z :=
  do options <- RTL_R8 Config1;
  if negb (has options PMEnable) then ret 0 else
  do options <- RTL_R8 Config3;
  let wol := if has options LinkUp then WAKE_PHY else 0 in
  do wol <- (if magicVer =? WAKEUP_MAGIC_PACKET_V3 then
               do csi_tmp <- rtl8125_mac_ocp_read 0xC0B6;
               ret (if has csi_tmp (BIT 0) then wol .| WAKE_MAGIC else wol)
             else ret wol);
  do options <- RTL_R8 Config5;
  let wol := if has options UWF then wol .| WAKE_UCAST else wol in
  let wol := if has options BWF then wol .| WAKE_BCAST else wol in
  ret (if has options MWF then wol .| WAKE_MCAST else wol).

(** The first switch: the DASH version. *)
Definition dash_ver (m : cfg) (old : Z) : prog D Z :=
  match m with
  | CFG_METHOD_2 | CFG_METHOD_3 =>
      do t <- rtl8125_mac_ocp_read 0xD006; let tmp := u8 t in
      ret (if (tmp =? 0x02) || (tmp =? 0x04) then 2 else old)
  | CFG_METHOD_8 | CFG_METHOD_9 => ret 4
  | CFG_METHOD_42 =>
      do t <- rtl8125_mac_ocp_read 0xD006; ret (if u8 t =? 0x03 then 4 else old)
  | _ => ret 0
  end.

Definition ocp_channel_ver (m : cfg) (dash old : Z) : Z :=
  match m with
  | CFG_METHOD_2 | CFG_METHOD_3 | CFG_METHOD_42 => if 0 <? dash then 2 else old
  | CFG_METHOD_8 | CFG_METHOD_9 | CFG_METHOD_12 => 2
  | _ => old
  end.

Definition rtl8125_is_allow_access_dash_ocp (m : cfg) (dash : Z) : prog D bool :=
  if negb (0 <? dash) then ret false else
  match m with
  | CFG_METHOD_2 | CFG_METHOD_3 =>
      do v <- rtl8125_mac_ocp_read 0xd460; ret (negb ((v =? 0xffff) || negb (has v (BIT 0))))
  | CFG_METHOD_8 | CFG_METHOD_9 =>
      do v <- rtl8125_mac_ocp_read 0xd4c0; ret (negb ((v =? 0xffff) || has v (BIT 3)))
  | _ => ret true
  end.

Definition dash_cfg (dash ocpver : Z) (allow diag : bool) : chancfg := mkChanCfg diag allow ocpver dash false false.

Definition rtl8125_get_dash_fw_ver (tp : chancfg) : prog D Z :=
  let v := HwSuppDashVer tp in
  if negb ((v =? 2) || (v =? 3) || (v =? 4)) then ret 0xffffffff
  else rtl8125_ocp_read tp OCP_REG_FIRMWARE_MAJOR_VERSION 4.

(** [_rtl8125_check_dash]. *)
Definition check_dash_bit (tp : chancfg) : prog D bool :=
  if negb (AllowAccessDashOcp tp) then ret false else
  if negb (HwSuppDashVer tp =? 4) then ret false else
  do v <- rtl8125_ocp_read tp 0x128 1; ret (has v (BIT 0)).

Definition rtl8125_check_dash (tp : chancfg) : prog D bool :=
  if negb (0 <? HwSuppDashVer tp) then ret false else
  do on <- check_dash_bit tp;
  if negb on then ret false else
  do ver <- rtl8125_get_dash_fw_ver tp; ret (negb ((ver =? 0) || (ver =? 0xffffffff))).

(** [for (i = 0; i < 32; i++)]: select fuse word [i], read it. *)
Fixpoint fuse_loop (n : nat) (tp : chancfg) (i : Z) : prog D (list Z) :=
  match n with
  | O => ret []
  | S n' =>
      ClearAndSetEthPhyOcpBit tp 0xA460 0x001F i ;;;
      do v <- mdio_direct_read_phy_ocp 0xA462;
      do r <- fuse_loop n' tp (i + 1); ret (v :: r)
  end.

Definition fuse_fix (esd : Z) (l : list Z) : list Z :=
  if esd =? 4 then
    <[6%nat := 0xffff]> (<[5%nat := 0xffff]> (<[4%nat := 0xffff]>
      (alter (fun w => w .| 0x03FF) 7%nat (alter (fun w => w .| 0xF000) 3%nat l))))
  else if esd =? 5 then <[31%nat := 0xffff]> (<[30%nat := 0xffff]> l) else l.

Definition rtl8125_backup_phy_fuse_dout (tp : chancfg) (esd : Z) (old : list Z) : prog D (list Z * bool) :=
  if (esd =? 4) || (esd =? 5) then do l <- fuse_loop 32 tp 0; ret (fuse_fix esd l, true) else ret (old, false).

Definition rtl8125_get_hw_phy_mcu_code_ver (tp : chancfg) : prog D Z :=
  mdio_direct_write_phy_ocp tp 0xA436 0x801E ;;; do v <- mdio_direct_read_phy_ocp 0xA438; ret (u16 v).

Definition rtl8127_check_fiber_mode_support (m : cfg) (old : Z) : prog D Z :=
  match m with
  | CFG_METHOD_42 => do t <- rtl8125_mac_ocp_read 0xD006; ret (if u8 t =? 0x07 then 1 else old)
  | _ => ret old
  end.

Definition mdi_swap (m : cfg) (old : bool) : prog D bool :=
  match m with
  | CFG_METHOD_3 | CFG_METHOD_6 =>
      do a <- rtl8125_mac_ocp_read 0xD442;
      if has a (BIT 5) then do b <- mdio_direct_read_phy_ocp 0xD068; ret (if has b (BIT 1) then true else old)
      else ret old
  | _ => ret old
  end.

(** The L1 branch: both saved configuration-space bytes. *)
Definition save_pci (tp : chancfg) (m : cfg) (aspmL1 : bool) (o99 o180 : Z) : prog D (Z * Z) :=
  if negb aspmL1 then ret (o99, o180) else
  do b <- rtl8125_csi_fun0_read_byte tp 0x99;
  let o99 := b .&~ (BIT 5 .| BIT 6) in
  match pci_offset_180 m with
  | Some a => do c <- rtl8125_csi_fun0_read_byte tp a; ret (o99, c)
  | None => ret (o99, o180)
  end.

Definition rtl8125_init_software_variable (diag aspmL1 : bool) (id : identified) (o : swvars) : prog D swvars :=
  let m := mcfg id in
  do dash <- dash_ver m (s_HwSuppDashVer o);
  let ocpver := ocp_channel_ver m dash (s_HwSuppOcpChannelVer o) in
  do allow <- rtl8125_is_allow_access_dash_ocp m dash;
  do pkg <- rtl8125_mac_ocp_read 0xDC00;
  let tp := dash_cfg dash ocpver allow diag in
  do dashOn <- rtl8125_check_dash tp;
  do fwver <- (if dashOn then rtl8125_get_dash_fw_ver tp else ret (DashFirmwareVersion o));
  do pci <- save_pci tp m aspmL1 (org_pci_offset_99 o) (org_pci_offset_180 o);
  let maxspeed := HwSuppMaxPhyLinkSpeed_of m in
  do fiber <- rtl8127_check_fiber_mode_support m (HwFiberModeVer o);
  let esd := HwSuppEsdVer_of m in
  do fuse <- rtl8125_backup_phy_fuse_dout tp esd (BackupPhyFuseDout o);
  let nocl := HwSuppTxNoCloseVer_of m (HwSuppTxNoCloseVer o) in
  let swver := sw_ram_code_ver_of m (sw_ram_code_ver o) in
  do hwver <- rtl8125_get_hw_phy_mcu_code_ver tp;
  do swap <- mdi_swap m (RequirePhyMdiSwapPatch o);
  let '(clo, tail) := rtl8125_setup_mqs_reg nocl in
  let magic := HwSuppMagicPktVer_of m in
  do wol <- rtl8125_get_hw_wol magic;
  let e := if dashOn then mkEee false (supported (eee o)) (advertised (eee o)) (tx_lpi_enabled (eee o)) (tx_lpi_timer (eee o))
           else eee o in
  ret (mkSw dash ocpver allow (Z.shiftr pkg 3 .& 0x07) (HwPcieSNOffset_of m (HwPcieSNOffset o)) dashOn fwver
        pci.1 pci.2 maxspeed fiber magic esd fuse.1 (TestPhyOcpReg o || fuse.2)
        (HwSuppD0SpeedUpVer_of m (HwSuppD0SpeedUpVer o)) 3 nocl
        (MaxTxDescPtrMask_of nocl (s_MaxTxDescPtrMask o)) (RequireLSOPatch_of m (RequireLSOPatch o)) swver
        (NotWrRamCodeToMicroP o || HwIcVerUnknown id) (NotWrMcuPatchCode o || HwIcVerUnknown id)
        hwver (hwver =? swver) swap 2 256 clo tail (HwSuppIntMitiVer_of m (HwSuppIntMitiVer o)) (Tcam_of m)
        (RequiredPfmPatch_of m (RequiredPfmPatch o)) (HwSuppRxDescType_of m) wol (negb (wol =? 0))
        (rtl8125_set_link_option maxspeed AUTONEG_ENABLE SPEED_2500 DUPLEX_FULL rtl8125_fc_none)
        (init_eee m maxspeed (0 <? fiber) e)).

(** ** The transmit pointer registers (RTL8127Hw.cpp) *)

Definition rtl812xGetHwCloPtr (s : swvars) : prog D Z :=
  if HwSuppTxNoCloseVer s =? 3 then RTL_R16 (HwCloPtrReg s) else RTL_R32 (HwCloPtrReg s).

Definition rtl812xDoorbell (s : swvars) (txTailPtr : Z) : prog D unit :=
  if 3 <? HwSuppTxNoCloseVer s then RTL_W32 (SwTailPtrReg s) txTailPtr
  else RTL_W16 (SwTailPtrReg s) (txTailPtr .& 0xffff).
End Code.

(** ** Lemmas on the derived variables *)

Lemma init_tx_fields {D} `{M : !Mmio D} diag l1 id o (d : D) :
  let s := (rtl8125_init_software_variable diag l1 id o d).1 in
  let ver := HwSuppTxNoCloseVer_of (mcfg id) (HwSuppTxNoCloseVer o) in
  HwSuppTxNoCloseVer s = ver /\ s_MaxTxDescPtrMask s = MaxTxDescPtrMask_of ver (s_MaxTxDescPtrMask o) /\
  (HwCloPtrReg s, SwTailPtrReg s) = rtl8125_setup_mqs_reg ver.
Proof.
  cbv zeta. unfold rtl8125_init_software_variable. rewrite !bind_run.
  destruct (rtl8125_setup_mqs_reg _) as [clo tail] eqn:E. rewrite !bind_run. done.
Qed.

Lemma init_link_fields {D} `{M : !Mmio D} diag l1 id o (d : D) :
  let s := (rtl8125_init_software_variable diag l1 id o d).1 in
  HwSuppMaxPhyLinkSpeed s = HwSuppMaxPhyLinkSpeed_of (mcfg id) /\
  link s = rtl8125_set_link_option (HwSuppMaxPhyLinkSpeed_of (mcfg id)) AUTONEG_ENABLE SPEED_2500 DUPLEX_FULL rtl8125_fc_none.
Proof.
  cbv zeta. unfold rtl8125_init_software_variable. rewrite !bind_run.
  destruct (rtl8125_setup_mqs_reg _) as [clo tail] eqn:E. rewrite !bind_run. done.
Qed.

(** A known chip: one rtl812xIdentifyChip accepts. *)
Lemma identify_known chipset0 device val32 : let '(m, c, _) := identify8162 device (identify chipset0 val32) in
  m <> CFG_METHOD_DEFAULT -> i_mcfg (info c) = m /\ 0 <= c < 17.
Proof.
  unfold identify8162, identify. bool_cases; cbv beta iota; try (intros _; split; [reflexivity|lia]); done.
Qed.

(** ** Properties *)

(** Whenever rtl812xIdentifyChip accepts a chip, the index it stores names
    the table entry of the very variant it stores, within the table, and the
    receive configuration is that entry's; the 17 known variants are all
    reached. *)
Theorem identify_agrees_with_table {D} `{M : !Mmio D} device chipset0 (d : D) :
  let '((id, ok), _) := rtl812xIdentifyChip device chipset0 d in
  (ok = true -> mcfg id <> CFG_METHOD_DEFAULT /\ i_mcfg (info (chipset id)) = mcfg id /\
                0 <= chipset id < 17 /\ rtl8125_rx_config id = RCR_Cfg (info (chipset id))) /\
  (ok = false -> mcfg id = CFG_METHOD_DEFAULT /\ HwIcVerUnknown id = true) /\
  forall m, m <> CFG_METHOD_DEFAULT -> exists dev val32, (identify8162 dev (identify 0 val32)).1.1 = m.
Proof.
  unfold rtl812xIdentifyChip. rewrite bind_run. destruct (RTL_R32 TxConfig d) as [v d']. cbn [fst snd].
  pose proof (identify_known chipset0 device v) as H.
  assert (Hu : let '(m, _, u) := identify8162 device (identify chipset0 v) in m = CFG_METHOD_DEFAULT -> u = true).
  { unfold identify8162, identify. bool_cases; cbv beta iota; done. }
  destruct (identify8162 device (identify chipset0 v)) as [[m c] u]. unfold ret. cbn [mcfg chipset HwIcVerUnknown rtl8125_rx_config].
  split; [|split].
  - intros Hok. apply negb_true_iff, bool_decide_eq_false in Hok. by destruct (H Hok).
  - intros Hok. apply negb_false_iff, bool_decide_eq_true in Hok. auto.
  - intros k Hk. destruct k; try done;
      first [exists 0x8125, 0x60800000; reflexivity | exists 0x8125, 0x60900000; reflexivity
            |exists 0x8125, 0x64000000; reflexivity | exists 0x8125, 0x64100000; reflexivity
            |exists 0x8125, 0x68000000; reflexivity | exists 0x8125, 0x68100000; reflexivity
            |exists 0x8125, 0x68800000; reflexivity | exists 0x8125, 0x68900000; reflexivity
            |exists 0x8125, 0x70800000; reflexivity | exists 0x8126, 0x64800000; reflexivity
            |exists 0x8126, 0x64900000; reflexivity | exists 0x8126, 0x64A00000; reflexivity
            |exists 0x8127, 0x6C800000; reflexivity | exists 0x8127, 0x6C900000; reflexivity
            |exists 0x8162, 0x60900000; reflexivity | exists 0x8162, 0x64100000; reflexivity
            |exists 0x8162, 0x68900000; reflexivity].
Qed.

(** For every known chip the transmit pointers fit their registers: the
    pointer mask is all ones of 16, 31 or 32 bits, the close pointer is read at
    least that wide, and the doorbell stores the tail pointer without losing a
    bit under the mask. This is what the transmit ring relies on. *)
Theorem tx_pointers_fit {D} `{M : !Mmio D} diag l1 id o (d : D) : mcfg id <> CFG_METHOD_DEFAULT ->
  let s := (rtl8125_init_software_variable diag l1 id o d).1 in
  exists w, 16 <= w <= 32 /\ s_MaxTxDescPtrMask s = 2 ^ w - 1 /\
    (forall d', 0 <= (rtl812xGetHwCloPtr s d').1 < 2 ^ (if w =? 16 then 16 else 32)) /\
    (forall p d', rtl812xDoorbell s p d' =
       if w =? 16 then RTL_W16 (SwTailPtrReg s) (p mod 2 ^ w) d' else RTL_W32 (SwTailPtrReg s) p d').
Proof.
  intros Hm. cbv zeta. destruct (init_tx_fields diag l1 id o d) as (Hv&Hmask&_).
  set (s := (rtl8125_init_software_variable diag l1 id o d).1) in *. unfold rtl812xGetHwCloPtr, rtl812xDoorbell.
  rewrite Hmask. rewrite Hv. set (ver := HwSuppTxNoCloseVer_of _ _).
  assert (H16 : forall a d', 0 <= (RTL_R16 a d').1 < 2 ^ 16).
  { intros a d'. unfold RTL_R16. destruct (R16 a d'). apply u16_range. }
  assert (H32 : forall a d', 0 <= (RTL_R32 a d').1 < 2 ^ 32).
  { intros a d'. unfold RTL_R32. destruct (R32 a d'). apply u32_range. }
  assert (Hd : ver = 3 \/ ver = 4 \/ ver = 5 \/ ver = 6) by (unfold ver; destruct (mcfg id); simpl; auto; done).
  destruct Hd as [-> | [-> | [-> | ->]]].
  - exists 16. split; [lia|]. split; [done|]. split; [by intros; apply H16|]. intros p d'.
    cbn [Z.ltb Z.compare Z.eqb]. by rewrite (land_mask p 0xffff 16) by done.
  - exists 32. split; [lia|]. split; [done|]. split; [by intros; apply H32|done].
  - exists 31. split; [lia|]. split; [done|]. split; [by intros; apply H32|done].
  - exists 31. split; [lia|]. split; [done|]. split; [by intros; apply H32|done].
Qed.

(** The link options never offer more than the chip has: the speed stays
    within the maximum of the variant, 2.5, 5 and 10 Gbit/s are advertised
    exactly when the resulting speed reaches them, and the 10/100/1000 modes
    always. *)
Theorem link_option_within_chip m autoneg0 speed0 duplex0 fc :
  let l := rtl8125_set_link_option (HwSuppMaxPhyLinkSpeed_of m) autoneg0 speed0 duplex0 fc in
  speed l <= HwSuppMaxPhyLinkSpeed_of m /\ (autoneg l = 0 \/ autoneg l = 1) /\ (duplex l = 0 \/ duplex l = 1) /\
  has (advertising l) ADVERTISED_2500baseX_Full = (2500 <=? speed l) /\
  has (advertising l) RTK_ADVERTISED_5000baseX_Full = (5000 <=? speed l) /\
  has (advertising l) ADVERTISED_10000baseT_Full = (10000 <=? speed l) /\
  advertising l .& adv_base = adv_base.
Proof.
  cbv zeta. unfold rtl8125_set_link_option. cbn [speed autoneg duplex advertising].
  split; [lia|]. split; [unfold rtl8125_is_autoneg_mode_valid, AUTONEG_ENABLE, AUTONEG_DISABLE; bool_cases; lia|].
  split; [unfold rtl8125_is_duplex_mode_valid, DUPLEX_FULL, DUPLEX_HALF; bool_cases; lia|].
  assert (Hs : In (if rtl8125_is_speed_mode_valid speed0 then speed0 else SPEED_10000) [10; 100; 1000; 2500; 5000; 10000]).
  { destruct (rtl8125_is_speed_mode_valid speed0) eqn:E; [|cbn; unfold SPEED_10000; lia].
    unfold rtl8125_is_speed_mode_valid, SPEED_10, SPEED_100, SPEED_1000, SPEED_2500, SPEED_5000, SPEED_10000 in E.
    rewrite !orb_true_iff, !Z.eqb_eq in E. cbn. lia. }
  assert (Hm : In (HwSuppMaxPhyLinkSpeed_of m) [1000; 2500; 5000; 10000]) by (destruct m; cbn; lia).
  cbn in Hs, Hm.
  repeat match goal with H : _ \/ _ |- _ => destruct H as [H|H] end; try done;
    rewrite <- Hs, <- Hm; vm_compute; repeat split; reflexivity.
Qed.

(** [linkmode_set_bit] sets exactly its bit for the modes below 31, but
    the 2500baseT and 5000baseT modes (47 and 48) shift an [int] out of range:
    for every variant newer than CFG_METHOD_3 that reaches 2.5 Gbit/s, which is
    most of them, setting up the EEE modes is undefined behaviour. *)
Theorem eee_modes_undefined :
  (forall n dst, 0 <= n < 31 -> 0 <= dst < 2 ^ 32 -> linkmode_set_bit n (Some dst) = Some (dst .| BIT n)) /\
  forall m fiber e, m <> CFG_METHOD_DEFAULT -> 3 < cfg_num m -> 2500 <= HwSuppMaxPhyLinkSpeed_of m ->
    supported (init_eee m (HwSuppMaxPhyLinkSpeed_of m) fiber e) = None /\
    advertised (init_eee m (HwSuppMaxPhyLinkSpeed_of m) fiber e) = None.
Proof.
  split.
  - intros n dst Hn Hd. unfold linkmode_set_bit, shl_int. cbn [mbind option_bind].
    rewrite (proj2 (Z.leb_le 0 n)), (proj2 (Z.ltb_lt n 31)) by lia. cbn [andb mbind option_bind]. f_equal.
    rewrite Z.shiftl_1_l. fold (BIT n). apply u32_small. apply (lor_bound _ _ 32); [lia|lia|].
    unfold BIT. split; [lia|]. apply Z.pow_lt_mono_r; lia.
  - intros m fiber e Hm Hn Hs. unfold init_eee. rewrite bool_decide_eq_false_2 by done.
    rewrite (proj2 (Z.ltb_lt _ _)) by exact Hn. rewrite (proj2 (Z.leb_le 2500 _) Hs).
    assert (U : forall x, linkmode_set_bit ETHTOOL_LINK_MODE_2500baseT_Full_BIT x = None) by (by intros [x|]).
    assert (V : forall x, linkmode_set_bit ETHTOOL_LINK_MODE_5000baseT_Full_BIT x = None) by (by intros [x|]).
    rewrite !U, !V. destruct (5000 <=? _); done.
Qed.

(** A register file that reads zero. *)
#[export] Instance zero_mmio : Mmio unit := {|
  R8 := fun _ d => (0, d); R16 := fun _ d => (0, d); R32 := fun _ d => (0, d);
  W8 := fun _ _ d => d; W16 := fun _ _ d => d; W32 := fun _ _ d => d; udelay := fun _ d => d |}.

Definition sw_zero : swvars :=
  mkSw 0 0 false 0 0 false 0 0 0 0 0 0 0 [] false 0 0 0 0 false 0 false false 0 false false 0 0 0 0 0
       (0, 0, 0, 0, 0) false 0 0 false (mkLink 0 0 0 0 rtl8125_fc_none) (mkEee false (Some 0) (Some 0) false 0).

Lemma tx_pointers_fit_witness :
  let id := mkId CFG_METHOD_42 16 false rcr_27 in
  let s := (rtl8125_init_software_variable false false id sw_zero tt).1 in
  exists w, 16 <= w <= 32 /\ s_MaxTxDescPtrMask s = 2 ^ w - 1 /\
    (forall d' : unit, 0 <= (rtl812xGetHwCloPtr s d').1 < 2 ^ (if w =? 16 then 16 else 32)) /\
    (forall p (d' : unit), rtl812xDoorbell s p d' =
       if w =? 16 then RTL_W16 (SwTailPtrReg s) (p mod 2 ^ w) d' else RTL_W32 (SwTailPtrReg s) p d').
Proof.
  pose proof (tx_pointers_fit false false (mkId CFG_METHOD_42 16 false rcr_27) sw_zero tt ltac:(discriminate)) as H.
  exact H.
Defined.

Lemma eee_modes_undefined_witness :
  supported (init_eee CFG_METHOD_42 (HwSuppMaxPhyLinkSpeed_of CFG_METHOD_42) false (eee sw_zero)) = None /\
  linkmode_set_bit 3 (Some 0) = Some 8.
Proof.
  split.
  - apply (proj2 eee_modes_undefined CFG_METHOD_42 false (eee sw_zero)); [discriminate|reflexivity|discriminate].
  - apply (proj1 eee_modes_undefined 3 0); lia.
Defined.

Lemma identify_agrees_with_table_witness :
  i_mcfg (info 0) = CFG_METHOD_2 /\
  exists dev val32, (identify8162 dev (identify 0 val32)).1.1 = CFG_METHOD_42.
Proof.
  split; [reflexivity|].
  pose proof (identify_agrees_with_table 0x8127 0 tt) as H.
  destruct (rtl812xIdentifyChip 0x8127 0 tt) as [[id ok] d']. apply H. discriminate.
Defined.
