(* ===== verification/Hw.v ===== *)
(** Control sequences of rtl812xx.cpp: resets, the receive gate, interrupt
    masking, PCIe power management, wake-on-LAN, energy-efficient Ethernet,
    PHY power and the hand-over with the management controller. *)
From S2P Require Import Prelude Mmio Channel Chip SwVars.
From S2P Require Import Eeprom.
Local Open Scope prog_scope.

(** Registers and bits of rtl812xx.h and mii.h. *)
Definition INT_CFG0_8125 : Z := 0x34.
Definition INT_CFG1_8125 : Z := 0x7A.
Definition ChipCmd : Z := 0x37.
Definition IMR0_8125 : Z := 0x38.
Definition ISR0_8125 : Z := 0x3C.
Definition Config2 : Z := 0x53.
Definition TIMER_INT0_8125 : Z := 0x58.
Definition TIMER_INT1_8125 : Z := 0x5C.
Definition TIMER_INT2_8125 : Z := 0x8C.
Definition TIMER_INT3_8125 : Z := 0xF4.
Definition PHYstatus : Z := 0x6C.
Definition PMCH : Z := 0x6F.
Definition MCUCmd_reg : Z := 0xD3.
Definition RxMaxSize : Z := 0xDA.
Definition IntrMitigate : Z := 0xE2.
Definition RADMFIFO_PROTECT : Z := 0x402.
Definition StopReq : Z := 0x80.
Definition CmdReset : Z := 0x10.
Definition CmdRxEnb : Z := 0x08.
Definition CmdTxEnb : Z := 0x04.
Definition Txfifo_empty : Z := BIT 5.
Definition Rxfifo_empty : Z := BIT 4.
Definition Now_is_oob : Z := BIT 7.
Definition Cfg9346_Unlock : Z := 0xC0.
Definition Cfg9346_EEM_MASK : Z := 0xC0.
Definition AcceptErr : Z := 0x20.
Definition AcceptRunt : Z := 0x10.
Definition AcceptBroadcast : Z := 0x08.
Definition AcceptMulticast : Z := 0x04.
Definition AcceptMyPhys : Z := 0x02.
Definition AcceptAllPhys : Z := 0x01.
Definition LinkStatus : Z := 0x02.
Definition PMSTS_En : Z := BIT 5.
Definition LanWake : Z := BIT 1.
Definition MagicPacket : Z := BIT 5.

Definition MII_BMCR : Z := 0x00.
Definition MII_ADVERTISE : Z := 0x04.
Definition MII_LPA : Z := 0x05.
Definition MII_EXPANSION : Z := 0x06.
Definition MII_CTRL1000 : Z := 0x09.
Definition MII_STAT1000 : Z := 0x0a.
Definition BMCR_RESET : Z := 0x8000.
Definition BMCR_SPEED100 : Z := 0x2000.
Definition BMCR_ANENABLE : Z := 0x1000.
Definition BMCR_PDOWN : Z := 0x0800.
Definition BMCR_ANRESTART : Z := 0x0200.
Definition BMCR_FULLDPLX : Z := 0x0100.
Definition BMCR_SPEED10 : Z := 0.
Definition ADVERTISE_10HALF : Z := 0x0020.
Definition ADVERTISE_10FULL : Z := 0x0040.
Definition ADVERTISE_100HALF : Z := 0x0080.
Definition ADVERTISE_100FULL : Z := 0x0100.
Definition ADVERTISE_PAUSE_CAP : Z := 0x0400.
Definition ADVERTISE_PAUSE_ASYM : Z := 0x0800.
Definition ADVERTISE_1000FULL : Z := 0x0200.
Definition ADVERTISE_1000HALF : Z := 0x0100.
Definition RTK_ADVERTISE_2500FULL : Z := 0x80.
Definition RTK_ADVERTISE_5000FULL : Z := 0x100.
Definition RTK_ADVERTISE_10000FULL : Z := 0x1000.
Definition MDIO_EEE_100TX : Z := 0x0002.
Definition MDIO_EEE_1000T : Z := 0x0004.
Definition MDIO_EEE_10GT : Z := 0x0008.
Definition MDIO_EEE_2_5GT : Z := 0x0001.
Definition MDIO_EEE_5GT : Z := 0x0002.
Definition EOPNOTSUPP : Z := 102.

(** What these functions read of rtl8125_private. *)
Record tpctx := mkTp { tid : identified; sw : swvars; diag : bool }.

Definition chan (tp : tpctx) : chancfg :=
  mkChanCfg (diag tp) (s_AllowAccessDashOcp (sw tp)) (s_HwSuppOcpChannelVer (sw tp)) (s_HwSuppDashVer (sw tp))
            (s_DASH (sw tp)) (bool_decide (mcfg (tid tp) = CFG_METHOD_DEFAULT)).

Section Code.
Context {D : Type} `{M : !Mmio D}.

(** [RTL_W8(tp, a, RTL_R8(tp, a) | m)] and its variants. *)
Definition set8 (a m : Z) : prog D unit := do v <- RTL_R8 a; RTL_W8 a (v .| m).
Definition clr8 (a m : Z) : prog D unit := do v <- RTL_R8 a; RTL_W8 a (v .&~ m).

(** ** MAC OCP bits *)

Definition rtl8125_clear_set_mac_ocp_bit (addr clearmask setmask : Z) : prog D unit :=
  do v <- rtl8125_mac_ocp_read addr; rtl8125_mac_ocp_write addr ((v .&~ clearmask) .| setmask).
Definition rtl8125_clear_mac_ocp_bit (addr mask : Z) : prog D unit := rtl8125_clear_set_mac_ocp_bit addr mask 0.
Definition rtl8125_set_mac_ocp_bit (addr mask : Z) : prog D unit := rtl8125_clear_set_mac_ocp_bit addr 0 mask.

(** ** Resets *)

Definition rtl8125_enable_rxdvgate : prog D unit := set8 0xF2 (BIT 3).
Definition rtl8125_disable_rxdvgate : prog D unit := clr8 0xF2 (BIT 3).

Definition rtl8125_irq_mask_and_ack : prog D unit :=
  RTL_W32 IMR0_8125 0 ;;; do v <- RTL_R32 ISR0_8125; RTL_W32 ISR0_8125 v.

Definition rtl8125_disable_rx_packet_filter : prog D unit :=
  do v <- RTL_R32 RxConfig;
  RTL_W32 RxConfig (v .&~ (AcceptErr .| AcceptRunt .| AcceptBroadcast .| AcceptMulticast .| AcceptMyPhys .| AcceptAllPhys)).

(** The variants with the second FIFO wait. *)
Definition has_miti_wait (m : cfg) : bool :=
  match m with
  | CFG_METHOD_4 | CFG_METHOD_5 | CFG_METHOD_7 | CFG_METHOD_8 | CFG_METHOD_9 | CFG_METHOD_10 | CFG_METHOD_11
  | CFG_METHOD_12 | CFG_METHOD_13 | CFG_METHOD_31 | CFG_METHOD_32 | CFG_METHOD_33 | CFG_METHOD_41 | CFG_METHOD_42 => true
  | _ => false
  end.

Definition rtl8125_wait_txrx_fifo_empty (m : cfg) : prog D unit :=
  poll 3000 50 (do v <- RTL_R8 MCUCmd_reg;
                ret (v .& (Txfifo_empty .| Rxfifo_empty) =? Txfifo_empty .| Rxfifo_empty)) ;;;
  if has_miti_wait m then
    poll 3000 50 (do v <- RTL_R16 IntrMitigate;
                  ret (v .& (BIT 0 .| BIT 1 .| BIT 8) =? BIT 0 .| BIT 1 .| BIT 8)) ;;; ret tt
  else ret tt.

Definition rtl8125_stop_all_request (m : cfg) : prog D bool :=
  set8 ChipCmd StopReq ;;;
  match m with
  | CFG_METHOD_2 | CFG_METHOD_3 | CFG_METHOD_6 =>
      poll 20 10 (do v <- RTL_R8 ChipCmd; ret (negb (has v StopReq)))
  | _ => delay_us 200 ;;; ret true
  end.

Definition rtl8125_nic_reset (m : cfg) : prog D unit :=
  rtl8125_disable_rx_packet_filter ;;;
  rtl8125_enable_rxdvgate ;;;
  rtl8125_stop_all_request m ;;;
  rtl8125_wait_txrx_fifo_empty m ;;;
  (do v <- RTL_R8 ChipCmd; RTL_W8 ChipCmd (v .& (CmdTxEnb .| CmdRxEnb))) ;;;
  RTL_W8 ChipCmd CmdReset ;;;
  poll 100 100 (do v <- RTL_R8 ChipCmd; ret (v .& CmdReset =? 0)) ;;;
  RTL_W32 RxConfig (Z.shiftl RX_DMA_BURST_512 RxCfgDMAShift).

Definition rtl8125_hw_clear_timer_int : prog D unit :=
  RTL_W32 TIMER_INT0_8125 0 ;;; RTL_W32 TIMER_INT1_8125 0 ;;; RTL_W32 TIMER_INT2_8125 0 ;;; RTL_W32 TIMER_INT3_8125 0.

Definition rtl8125_hw_reset (m : cfg) : prog D unit :=
  rtl8125_irq_mask_and_ack ;;; rtl8125_hw_clear_timer_int ;;; rtl8125_nic_reset m.

(** [for (i = a; ...; i += 4) RTL_W32(tp, i, 0)], [n] registers. *)
Fixpoint clear_regs (n : nat) (a : Z) : prog D unit :=
  match n with O => ret tt | S n' => RTL_W32 a 0 ;;; clear_regs n' (a + 4) end.

Definition rtl8125_hw_clear_int_miti (ver : Z) : prog D unit :=
  RTL_W8 INT_CFG0_8125 0 ;;;
  if (ver =? 3) || (ver =? 6) then clear_regs 64 0xA00
  else if (ver =? 4) || (ver =? 5) then clear_regs 32 0xA00 ;;; RTL_W16 INT_CFG1_8125 0
  else ret tt.

(** ** PHY status and disable mode *)

(** The status is read as 16 bits into a [u32] and compared with UINT_MAX. *)
Definition rtl8125_xmii_link_ok : prog D Z :=
  do status <- RTL_R16 PHYstatus;
  ret (if status =? 0xffffffff then 0 else if has status LinkStatus then 1 else 0).

Definition rtl8125_is_in_phy_disable_mode : prog D bool :=
  do f <- RTL_R8 0xF2;
  if has f (BIT 5) then do g <- rtl8125_mac_ocp_read 0xDC04; ret (negb (has g (BIT 13))) else ret false.

(** [for (i = 0; i < n; i++) { if (!(BMCR & RESET)) return 0; mdelay(1); }] *)
Fixpoint wait_phy_reset (n : nat) (tp : chancfg) (page : Z) : prog D bool :=
  match n with
  | O => ret false
  | S n' => do v <- rtl8125_mdio_read tp page MII_BMCR;
            if has v BMCR_RESET then delay_us 1000 ;;; wait_phy_reset n' tp page else ret true
  end.

(** Returns the current page. *)
Definition rtl8125_xmii_reset_enable (tp : chancfg) (page : Z) : prog D Z :=
  do off <- rtl8125_is_in_phy_disable_mode;
  if off then ret page else
  do page <- rtl8125_mdio_write page 0x1f 0;
  do a <- rtl8125_mdio_read tp page MII_ADVERTISE;
  do page <- rtl8125_mdio_write page MII_ADVERTISE
    (u16 (a .&~ (ADVERTISE_10HALF .| ADVERTISE_10FULL .| ADVERTISE_100HALF .| ADVERTISE_100FULL)));
  do g <- rtl8125_mdio_read tp page MII_CTRL1000;
  do page <- rtl8125_mdio_write page MII_CTRL1000 (u16 (g .&~ (ADVERTISE_1000HALF .| ADVERTISE_1000FULL)));
  do c <- mdio_direct_read_phy_ocp 0xA5D4;
  mdio_direct_write_phy_ocp tp 0xA5D4 (u16 (c .&~ (RTK_ADVERTISE_2500FULL .| RTK_ADVERTISE_5000FULL))) ;;;
  do page <- rtl8125_mdio_write page MII_BMCR (BMCR_RESET .| BMCR_ANENABLE);
  wait_phy_reset 2500 tp page ;;; ret page.

Definition rtl8125_phy_restart_nway (page : Z) : prog D Z :=
  do off <- rtl8125_is_in_phy_disable_mode;
  if off then ret page else
  do page <- rtl8125_mdio_write page 0x1F 0;
  rtl8125_mdio_write page MII_BMCR (BMCR_ANENABLE .| BMCR_ANRESTART).

Definition rtl8125_phy_setup_force_mode (page speed duplex : Z) : prog D Z :=
  do off <- rtl8125_is_in_phy_disable_mode;
  if off then ret page else
  let bmcr :=
    if (speed =? SPEED_10) && (duplex =? DUPLEX_HALF) then Some BMCR_SPEED10
    else if (speed =? SPEED_10) && (duplex =? DUPLEX_FULL) then Some (BMCR_SPEED10 .| BMCR_FULLDPLX)
    else if (speed =? SPEED_100) && (duplex =? DUPLEX_HALF) then Some BMCR_SPEED100
    else if (speed =? SPEED_100) && (duplex =? DUPLEX_FULL) then Some (BMCR_SPEED100 .| BMCR_FULLDPLX)
    else None in
  match bmcr with
  | None => ret page
  | Some b => do page <- rtl8125_mdio_write page 0x1F 0; rtl8125_mdio_write page MII_BMCR b
  end.

(** ** Configuration lock and PCIe power management *)

Definition rtl8125_enable_cfg9346_write : prog D unit := set8 Cfg9346 Cfg9346_Unlock.
Definition rtl8125_disable_cfg9346_write : prog D unit := clr8 Cfg9346 Cfg9346_Unlock.

Definition rtl8125_enable_force_clkreq (enable : bool) : prog D unit :=
  if enable then set8 0xF1 (BIT 7) else clr8 0xF1 (BIT 7).

(** The switch of rtl8125_enable_aspm_clkreq_lock. *)
Definition aspm_bits (m : cfg) (enable : bool) : prog D unit :=
  let upd := if enable then set8 else clr8 in
  match m with
  | CFG_METHOD_32 | CFG_METHOD_33 | CFG_METHOD_41 | CFG_METHOD_42 => upd INT_CFG0_8125 (BIT 3) ;;; upd Config5 (BIT 0)
  | _ => upd Config2 (BIT 7) ;;; upd Config5 (BIT 0)
  end.

Definition rtl8125_enable_aspm_clkreq_lock (m : cfg) (enable : bool) : prog D unit :=
  do c <- RTL_R8 Cfg9346;
  let unlock_cfg_wr := negb (c .& Cfg9346_EEM_MASK =? Cfg9346_Unlock) in
  (if unlock_cfg_wr then rtl8125_enable_cfg9346_write else ret tt) ;;;
  aspm_bits m enable ;;;
  (if unlock_cfg_wr then rtl8125_disable_cfg9346_write else ret tt).

Definition exit_l1_bits : Z := BIT 7 .| BIT 8 .| BIT 9 .| BIT 10 .| BIT 11 .| BIT 12.
Definition rtl8125_enable_exit_l1_mask : prog D unit := SetMcuAccessRegBit 0xC0AC exit_l1_bits.
Definition rtl8125_disable_exit_l1_mask : prog D unit := ClearMcuAccessRegBit 0xC0AC exit_l1_bits.

Definition rtl8125_disable_pci_offset_99 (tp : chancfg) : prog D unit :=
  rtl8125_clear_mac_ocp_bit 0xE032 (BIT 0 .| BIT 1) ;;; rtl8125_csi_fun0_write_byte tp 0x99 0.

Definition rtl8125_enable_pci_offset_99 (tp : chancfg) (org99 : Z) : prog D unit :=
  rtl8125_csi_fun0_write_byte tp 0x99 org99 ;;;
  do v <- rtl8125_mac_ocp_read 0xE032;
  let v := v .&~ (BIT 0 .| BIT 1) in
  let v := if has org99 (BIT 5 .| BIT 6) then v .| BIT 1 else v in
  let v := if has org99 (BIT 2) then v .| BIT 0 else v in
  rtl8125_mac_ocp_write 0xE032 v.

(** The MAC OCP writes of rtl8125_init_pci_offset_99, around the bit sets. *)
Definition offset_99_tail (m : cfg) : list (Z * Z) :=
  match m with
  | CFG_METHOD_32 | CFG_METHOD_33 =>
      [(0xCDD2, 0x8C09); (0xCDD8, 0x9003); (0xCDD4, 0x9003); (0xCDDA, 0x9003); (0xCDD6, 0x9003); (0xCDDC, 0x9003);
       (0xCDE8, 0x887A); (0xCDEA, 0x9003); (0xCDEC, 0x8C09); (0xCDEE, 0x9003); (0xCDF0, 0x8A62); (0xCDF2, 0x9003);
       (0xCDF4, 0x883E); (0xCDF6, 0x9003)]
  | CFG_METHOD_41 | CFG_METHOD_42 =>
      [(0xCDD2, 0x8C17); (0xCDD8, 0x9003); (0xCDD4, 0x9003); (0xCDDA, 0x9003); (0xCDD6, 0x9003); (0xCDDC, 0x9003);
       (0xCDE8, 0x8C08); (0xCDEA, 0x9003); (0xCDEC, 0x8C12); (0xCDEE, 0x9003); (0xCDF0, 0x8C2E); (0xCDF2, 0x9003);
       (0xCDF4, 0x8892); (0xCDF6, 0x9003); (0xCDF4, 0x8849); (0xCDF6, 0x9003)]
  | _ =>
      [(0xCDD2, 0x889C); (0xCDD8, 0x9003); (0xCDD4, 0x8C30); (0xCDDA, 0x9003); (0xCDD6, 0x9003); (0xCDDC, 0x9003);
       (0xCDE8, 0x883E); (0xCDEA, 0x9003); (0xCDEC, 0x889C); (0xCDEE, 0x9003); (0xCDF0, 0x8C09); (0xCDF2, 0x9003)]
  end.

Fixpoint mac_ocp_writes (l : list (Z * Z)) : prog D unit :=
  match l with [] => ret tt | (a, v) :: r => rtl8125_mac_ocp_write a v ;;; mac_ocp_writes r end.

Definition rtl8125_init_pci_offset_99 (tp : tpctx) : prog D unit :=
  rtl8125_mac_ocp_write 0xCDD0 0x9003 ;;;
  rtl8125_set_mac_ocp_bit 0xE034 (BIT 15 .| BIT 14) ;;;
  mac_ocp_writes (offset_99_tail (mcfg (tid tp))) ;;;
  rtl8125_set_mac_ocp_bit 0xE032 (BIT 14) ;;;
  rtl8125_set_mac_ocp_bit 0xE0A2 (BIT 0) ;;;
  rtl8125_enable_pci_offset_99 (chan tp) (org_pci_offset_99 (sw tp)).

Definition rtl8125_disable_pci_offset_180 : prog D unit := rtl8125_clear_mac_ocp_bit 0xE092 0x00FF.
Definition rtl8125_init_pci_offset_180 : prog D unit :=
  rtl8125_clear_mac_ocp_bit 0xE094 0xFF00 ;;; rtl8125_clear_set_mac_ocp_bit 0xE092 0x00FF (BIT 2).

Definition rtl8125_issue_offset_99_event (m : cfg) : prog D unit :=
  match m with
  | CFG_METHOD_2 | CFG_METHOD_3 | CFG_METHOD_4 | CFG_METHOD_5 => rtl8125_set_mac_ocp_bit 0xE09A (BIT 0)
  | _ => ret tt
  end.

Definition rtl8125_set_pci_99_exit_driver_para (tp : tpctx) : prog D unit :=
  (if has (org_pci_offset_99 (sw tp)) (BIT 2) then rtl8125_issue_offset_99_event (mcfg (tid tp)) else ret tt) ;;;
  rtl8125_disable_pci_offset_99 (chan tp).

Definition rtl8125_set_reg_oobs_en_sel (m : cfg) (enable : bool) : prog D unit :=
  match m with
  | CFG_METHOD_10 | CFG_METHOD_11 | CFG_METHOD_12 | CFG_METHOD_13 =>
      if enable then rtl8125_set_mac_ocp_bit 0xD434 (BIT 1) else rtl8125_clear_mac_ocp_bit 0xD434 (BIT 1)
  | _ => ret tt
  end.

Definition rtl8125_set_pfm_patch (tp : tpctx) (enable : bool) : prog D unit :=
  if negb (RequiredPfmPatch (sw tp)) then ret tt else
  let upd := if enable then rtl8125_set_mac_ocp_bit else rtl8125_clear_mac_ocp_bit in
  upd 0xD3F0 (BIT 0) ;;; upd 0xD3F2 (BIT 0) ;;; upd 0xE85A (BIT 6).

Definition rtl8125_set_radm_fifo_prot (m : cfg) (enable : bool) : prog D unit :=
  match m with CFG_METHOD_42 => RTL_W16 RADMFIFO_PROTECT (if enable then 0x2001 else 0) | _ => ret tt end.

(** ** PHY MCU patch requests *)

(** [do { val = read(0xB800); udelay(100); WaitCount++; } while (...)]: [n]
    passes at most; the result is the success flag. [want] is the value of
    bit 6 waited for. *)
Fixpoint patch_wait (n : nat) (want : bool) : prog D bool :=
  match n with
  | O => ret false
  | S n' => do v <- mdio_direct_read_phy_ocp 0xB800;
            delay_us 100 ;;;
            if Bool.eqb (has v (BIT 6)) want then ret true else patch_wait n' want
  end.

Definition rtl8125_set_phy_mcu_patch_request (tp : chancfg) : prog D bool :=
  SetEthPhyOcpBit tp 0xB820 (BIT 4) ;;; patch_wait 1000 true.

Definition rtl8125_clear_phy_mcu_patch_request (tp : chancfg) : prog D bool :=
  ClearEthPhyOcpBit tp 0xB820 (BIT 4) ;;; patch_wait 1000 false.

Definition rtl8125_disable_ocp_phy_power_saving (tp : tpctx) : prog D unit :=
  match mcfg (tid tp) with
  | CFG_METHOD_2 | CFG_METHOD_3 | CFG_METHOD_6 =>
      do v <- mdio_direct_read_phy_ocp 0xC416;
      if u16 v =? 0x0500 then ret tt else
      rtl8125_set_phy_mcu_patch_request (chan tp) ;;;
      mdio_direct_write_phy_ocp (chan tp) 0xC416 0 ;;;
      mdio_direct_write_phy_ocp (chan tp) 0xC416 0x0500 ;;;
      rtl8125_clear_phy_mcu_patch_request (chan tp) ;;; ret tt
  | _ => ret tt
  end.

(** ** Energy-efficient Ethernet *)

(** The variants with EEEPlus; the result is the return value. *)
Definition eee_plus (m : cfg) (enable : bool) : prog D Z :=
  match m with
  | CFG_METHOD_2 | CFG_METHOD_3 | CFG_METHOD_4 | CFG_METHOD_5 | CFG_METHOD_41 | CFG_METHOD_42 =>
      (if enable then rtl8125_set_mac_ocp_bit else rtl8125_clear_mac_ocp_bit) 0xE080 (BIT 1) ;;; ret 0
  | _ => ret (- EOPNOTSUPP)
  end.
Definition rtl8125_enable_eee_plus (m : cfg) : prog D Z := eee_plus m true.
Definition rtl8125_disable_eee_plus (m : cfg) : prog D Z := eee_plus m false.

Definition rtl8125_is_adv_eee_enabled (m : cfg) : prog D bool :=
  match m with
  | CFG_METHOD_10 | CFG_METHOD_11 | CFG_METHOD_12 => ret false
  | _ => do v <- mdio_direct_read_phy_ocp 0xA430; ret (has v (BIT 15))
  end.

(** [_rtl812x_disable_adv_eee]. *)
Definition disable_adv_eee_regs (tp : tpctx) : prog D unit :=
  do lock <- rtl8125_is_adv_eee_enabled (mcfg (tid tp));
  (if lock then rtl8125_set_phy_mcu_patch_request (chan tp) ;;; ret tt else ret tt) ;;;
  rtl8125_clear_mac_ocp_bit 0xE052 (BIT 0) ;;;
  ClearEthPhyOcpBit (chan tp) 0xA442 (BIT 12 .| BIT 13) ;;;
  ClearEthPhyOcpBit (chan tp) 0xA430 (BIT 15) ;;;
  (if lock then rtl8125_clear_phy_mcu_patch_request (chan tp) ;;; ret tt else ret tt).

Definition rtl8125_disable_adv_eee (tp : tpctx) : prog D unit :=
  let old := cfg_num (mcfg (tid tp)) <? cfg_num CFG_METHOD_31 in
  (if old then rtl8125_oob_mutex_lock (chan tp) else ret tt) ;;;
  disable_adv_eee_regs tp ;;;
  (if old then rtl8125_oob_mutex_unlock (chan tp) else ret tt).

(** The last three register writes of every branch. *)
Definition eee_common (tp : chancfg) : prog D unit :=
  ClearEthPhyOcpBit tp 0xA6D8 (BIT 4) ;;; ClearEthPhyOcpBit tp 0xA428 (BIT 7) ;;; ClearEthPhyOcpBit tp 0xA4A2 (BIT 9).

Definition eee_mask2 (tp : tpctx) : Z :=
  if 5000 <=? HwSuppMaxPhyLinkSpeed (sw tp) then MDIO_EEE_2_5GT .| MDIO_EEE_5GT else MDIO_EEE_2_5GT.

(** The register part of rtl8125_enable_eee; [cap1] and [cap2] are the
    advertised capabilities. *)
Definition enable_eee_regs (tp : tpctx) (cap1 cap2 : Z) : prog D Z :=
  let c := chan tp in
  match mcfg (tid tp) with
  | CFG_METHOD_2 | CFG_METHOD_3 | CFG_METHOD_6 =>
      rtl8125_set_mac_ocp_bit 0xE040 (BIT 1 .| BIT 0) ;;;
      rtl8125_set_mac_ocp_bit 0xEB62 (BIT 2 .| BIT 1) ;;;
      SetEthPhyOcpBit c 0xA432 (BIT 4) ;;;
      ClearAndSetEthPhyOcpBit c 0xA5D0 (MDIO_EEE_100TX .| MDIO_EEE_1000T) cap1 ;;;
      ClearEthPhyOcpBit c 0xA6D4 MDIO_EEE_2_5GT ;;;
      eee_common c ;;; ret 0
  | CFG_METHOD_41 | CFG_METHOD_42 =>
      rtl8125_set_mac_ocp_bit 0xE040 (BIT 1 .| BIT 0) ;;;
      ClearAndSetEthPhyOcpBit c 0xA5D0 (MDIO_EEE_100TX .| MDIO_EEE_1000T .| MDIO_EEE_10GT) cap1 ;;;
      ClearAndSetEthPhyOcpBit c 0xA6D4 (MDIO_EEE_2_5GT .| MDIO_EEE_5GT) cap2 ;;;
      eee_common c ;;; ret 0
  | CFG_METHOD_DEFAULT => ret (- EOPNOTSUPP)
  | _ =>
      rtl8125_set_mac_ocp_bit 0xE040 (BIT 1 .| BIT 0) ;;;
      SetEthPhyOcpBit c 0xA432 (BIT 4) ;;;
      ClearAndSetEthPhyOcpBit c 0xA5D0 (MDIO_EEE_100TX .| MDIO_EEE_1000T) cap1 ;;;
      ClearAndSetEthPhyOcpBit c 0xA6D4 (eee_mask2 tp) cap2 ;;;
      eee_common c ;;; ret 0
  end.

Definition rtl8125_enable_eee (tp : tpctx) (cap1 cap2 : Z) : prog D Z :=
  do r <- enable_eee_regs tp cap1 cap2; rtl8125_disable_adv_eee tp ;;; ret r.

(** The register part of rtl8125_disable_eee. *)
Definition disable_eee_regs (tp : tpctx) : prog D Z :=
  let c := chan tp in
  match mcfg (tid tp) with
  | CFG_METHOD_2 | CFG_METHOD_3 | CFG_METHOD_6 =>
      rtl8125_clear_mac_ocp_bit 0xE040 (BIT 1 .| BIT 0) ;;;
      rtl8125_clear_mac_ocp_bit 0xEB62 (BIT 2 .| BIT 1) ;;;
      ClearEthPhyOcpBit c 0xA432 (BIT 4) ;;;
      ClearEthPhyOcpBit c 0xA5D0 (MDIO_EEE_100TX .| MDIO_EEE_1000T) ;;;
      ClearEthPhyOcpBit c 0xA6D4 (BIT 0) ;;;
      eee_common c ;;; ret 0
  | CFG_METHOD_4 | CFG_METHOD_5 | CFG_METHOD_7 | CFG_METHOD_8 | CFG_METHOD_9 | CFG_METHOD_10 | CFG_METHOD_11
  | CFG_METHOD_12 | CFG_METHOD_13 =>
      rtl8125_clear_mac_ocp_bit 0xE040 (BIT 1 .| BIT 0) ;;;
      SetEthPhyOcpBit c 0xA432 (BIT 4) ;;;
      ClearEthPhyOcpBit c 0xA5D0 (MDIO_EEE_100TX .| MDIO_EEE_1000T) ;;;
      ClearEthPhyOcpBit c 0xA6D4 (eee_mask2 tp) ;;;
      eee_common c ;;; ret 0
  | CFG_METHOD_41 | CFG_METHOD_42 =>
      rtl8125_clear_mac_ocp_bit 0xE040 (BIT 1 .| BIT 0) ;;;
      ClearEthPhyOcpBit c 0xA5D0 (MDIO_EEE_100TX .| MDIO_EEE_1000T .| MDIO_EEE_10GT) ;;;
      ClearEthPhyOcpBit c 0xA6D4 (MDIO_EEE_2_5GT .| MDIO_EEE_5GT) ;;;
      eee_common c ;;; ret 0
  | _ => ret (- EOPNOTSUPP)
  end.

Definition rtl8125_disable_eee (tp : tpctx) : prog D Z :=
  do r <- disable_eee_regs tp; rtl8125_disable_adv_eee tp ;;; ret r.

Definition rtl8125_disable_giga_lite (tp : tpctx) : prog D unit :=
  ClearEthPhyOcpBit (chan tp) 0xA428 (BIT 9) ;;;
  match mcfg (tid tp) with
  | CFG_METHOD_31 | CFG_METHOD_32 | CFG_METHOD_33 | CFG_METHOD_41 | CFG_METHOD_42 =>
      ClearEthPhyOcpBit (chan tp) 0xA5EA (BIT 0 .| BIT 1 .| BIT 2)
  | _ => ClearEthPhyOcpBit (chan tp) 0xA5EA (BIT 0)
  end.

(** ** Wake-on-LAN *)

Definition rtl8125_enable_magic_packet (ver : Z) : prog D unit :=
  if ver =? WAKEUP_MAGIC_PACKET_V3 then rtl8125_set_mac_ocp_bit 0xC0B6 (BIT 0) else ret tt.
Definition rtl8125_disable_magic_packet (ver : Z) : prog D unit :=
  if ver =? WAKEUP_MAGIC_PACKET_V3 then rtl8125_clear_mac_ocp_bit 0xC0B6 (BIT 0) else ret tt.

Definition rtl8125_enable_linkchg_wakeup : prog D unit :=
  set8 Config3 LinkUp ;;; ClearAndSetMcuAccessRegBit 0xE0C6 (BIT 3 .| BIT 2) (BIT 4 .| BIT 1 .| BIT 0).

Definition rtl8125_disable_linkchg_wakeup : prog D unit :=
  clr8 Config3 LinkUp ;;;
  do v <- rtl8125_mac_ocp_read 0xE0C6;
  if has v (BIT 0) then ret tt
  else rtl8125_clear_set_mac_ocp_bit 0xE0C6 (BIT 5 .| BIT 3 .| BIT 2 .| BIT 1) (BIT 4).

Definition WAKE_ANY : Z := WAKE_PHY .| WAKE_MAGIC .| WAKE_UCAST .| WAKE_BCAST .| WAKE_MCAST.

(** The table of rtl8125_set_hw_wol, without its last entry (magic packets go
    through the MAC OCP). *)
Definition wol_cfg : list (Z * Z * Z) :=
  [(WAKE_PHY, Config3, LinkUp); (WAKE_UCAST, Config5, UWF); (WAKE_BCAST, Config5, BWF); (WAKE_MCAST, Config5, MWF);
   (WAKE_ANY, Config5, LanWake)].

Fixpoint wol_loop (l : list (Z * Z * Z)) (wolopts : Z) : prog D unit :=
  match l with
  | [] => ret tt
  | (opt, reg, mask) :: r =>
      do v <- RTL_R8 reg;
      let options := v .&~ mask in
      RTL_W8 reg (if has wolopts opt then options .| mask else options) ;;; wol_loop r wolopts
  end.

Definition rtl8125_set_hw_wol (ver wolopts : Z) : prog D unit :=
  (if has wolopts WAKE_MAGIC then rtl8125_enable_magic_packet ver else rtl8125_disable_magic_packet ver) ;;;
  rtl8125_enable_cfg9346_write ;;;
  wol_loop wol_cfg wolopts ;;;
  (if has wolopts WAKE_PHY then rtl8125_enable_linkchg_wakeup else rtl8125_disable_linkchg_wakeup) ;;;
  rtl8125_disable_cfg9346_write.

(** The advertisement of the slowest common mode before sleep. [st] is
    MII_EXPANSION, MII_LPA, MII_STAT1000 and the 2500 status as last seen. The
    result is the current page and the returned advertisement. *)
Record wolst := mkWolSt { aner : Z; anlpar : Z; gbsr : Z; status_2500 : Z }.

Inductive wolchoice := Leave | Keep10 (b : Z) | Giga (b : Z) | Multi (b : Z).

Definition wol_choice (adv : Z) (st : wolst) : wolchoice :=
  if (aner st .| anlpar st .| gbsr st .| status_2500 st) =? 0 then
    let b := (if has adv ADVERTISED_10baseT_Half then ADVERTISE_10HALF else 0) .|
             (if has adv ADVERTISED_10baseT_Full then ADVERTISE_10FULL else 0) .|
             (if has adv ADVERTISED_100baseT_Half then ADVERTISE_100HALF else 0) .|
             (if has adv ADVERTISED_100baseT_Full then ADVERTISE_100FULL else 0) in
    if b =? 0 then Leave else Keep10 b
  else if negb (has (aner st) 1) then Leave
  else if has adv ADVERTISED_10baseT_Half && has (anlpar st) 0x0020 then Keep10 ADVERTISE_10HALF
  else if has adv ADVERTISED_10baseT_Full && has (anlpar st) 0x0040 then Keep10 ADVERTISE_10FULL
  else if has adv ADVERTISED_100baseT_Half && has (anlpar st) 0x0080 then Keep10 ADVERTISE_100HALF
  else if has adv ADVERTISED_100baseT_Full && has (anlpar st) 0x0100 then Keep10 ADVERTISE_100FULL
  else if has adv ADVERTISED_1000baseT_Half && has (gbsr st) 0x0400 then Giga ADVERTISE_1000HALF
  else if has adv ADVERTISED_1000baseT_Full && has (gbsr st) 0x0800 then Giga ADVERTISE_1000FULL
  else if has adv ADVERTISED_2500baseX_Full && has (status_2500 st) 0x20 then Multi RTK_ADVERTISE_2500FULL
  else if has adv RTK_ADVERTISED_5000baseX_Full && has (status_2500 st) 0x40 then Multi RTK_ADVERTISE_5000FULL
  else if has adv ADVERTISED_10000baseT_Full && has (status_2500 st) 0x800 then Multi RTK_ADVERTISE_10000FULL
  else Leave.

Definition rtl8125_set_wol_link_speed (tp : tpctx) (l : linkopt) (page : Z) (st : wolst) : prog D (Z * Z) :=
  let c := chan tp in
  if negb (autoneg l =? AUTONEG_ENABLE) then ret (page, 0) else
  do page <- rtl8125_mdio_write page 0x1F 0;
  do a <- rtl8125_mdio_read c page MII_ADVERTISE;
  let auto_nego := s32 a .&~ (ADVERTISE_10HALF .| ADVERTISE_10FULL .| ADVERTISE_100HALF .| ADVERTISE_100FULL) in
  do g <- rtl8125_mdio_read c page MII_CTRL1000;
  let giga_ctrl := s32 g .&~ (ADVERTISE_1000HALF .| ADVERTISE_1000FULL) in
  do x <- mdio_direct_read_phy_ocp 0xA5D4;
  let ctrl_2500 := x .&~ (RTK_ADVERTISE_2500FULL .| RTK_ADVERTISE_5000FULL) in
  do up <- rtl8125_xmii_link_ok;
  do st <- (if up =? 0 then ret st else
              do s1 <- rtl8125_mdio_read c page MII_EXPANSION;
              do s2 <- rtl8125_mdio_read c page MII_LPA;
              do s3 <- rtl8125_mdio_read c page MII_STAT1000;
              do s4 <- mdio_direct_read_phy_ocp 0xA5D6;
              ret (mkWolSt (u16 s1) (u16 s2) (u16 s3) (u16 s4)));
  let choice := wol_choice (advertising l) st in
  match choice with
  | Leave => ret (page, auto_nego)
  | _ =>
      let auto_nego := match choice with Keep10 b => auto_nego .| b | _ => auto_nego end in
      let giga_ctrl := match choice with Giga b => giga_ctrl .| b | _ => giga_ctrl end in
      let ctrl_2500 := match choice with Multi b => ctrl_2500 .| b | _ => ctrl_2500 end in
      let auto_nego := if s_DASH (sw tp)
                       then auto_nego .| (ADVERTISE_100FULL .| ADVERTISE_100HALF .| ADVERTISE_10HALF .| ADVERTISE_10FULL)
                       else auto_nego in
      do page <- rtl8125_mdio_write page MII_ADVERTISE (u16 auto_nego);
      do page <- rtl8125_mdio_write page MII_CTRL1000 (u16 giga_ctrl);
      mdio_direct_write_phy_ocp c 0xA5D4 (u16 ctrl_2500) ;;;
      rtl8125_disable_giga_lite tp ;;;
      do page <- rtl8125_phy_restart_nway page;
      ret (page, auto_nego)
  end.
End Code.
