(* ===== verification/HwSpec.v ===== *)
(** Properties of the control sequences of Hw.v. *)
From S2P Require Import Prelude Mmio Channel ChannelSpec Chip SwVars Eeprom Hw.

(** ** Byte registers *)

(** The configuration registers Config0 to Config5 are write-protected unless Cfg9346
    has both bits of the unlock pattern. *)
Definition config_reg (a : Z) : bool := (0x51 <=? a) && (a <=? 0x56).
Definition unlocked (R : Z -> Z) : Prop := R Cfg9346 .& Cfg9346_EEM_MASK = Cfg9346_Unlock.
Definition writable (R : Z -> Z) (a : Z) : bool := negb (config_reg a) || (R Cfg9346 .& Cfg9346_EEM_MASK =? Cfg9346_Unlock).

(** A register in which only the bits [imp] are storage: the others keep their value. *)
Definition merge (imp old v : Z) : Z := (v .& imp) .| (old .&~ imp).

(** Byte registers: a write that is not refused by the lock changes the bits that the
    register has ([implemented]: some are reserved on some chips) and nothing else. The
    two bits of the lock exist. *)
Class ByteRegs (D : Type) `{M : !Mmio D} := {
  reg8 : D -> Z -> Z;
  implemented : Z -> Z;
  reg8_range : forall d a, 0 <= reg8 d a < 256;
  lock_bits_exist : implemented Cfg9346 .& Cfg9346_Unlock = Cfg9346_Unlock;
  byte_read : forall a d, let '(v, d') := RTL_R8 a d in v = reg8 d a /\ forall b, reg8 d' b = reg8 d b;
  byte_write : forall a v d, let d' := (RTL_W8 a v d).2 in
    forall b, reg8 d' b = if (b =? a) && writable (reg8 d) a then merge (implemented a) (reg8 d a) (u8 v) else reg8 d b;
}.

Lemma merge_set imp x m : merge imp x (x .| m) = x .| (m .& imp).
Proof.
  apply Z.bits_inj'. intros n Hn. unfold merge. rewrite !Z.lor_spec, !Z.land_spec, Z.ldiff_spec, !Z.lor_spec.
  destruct (Z.testbit x n), (Z.testbit m n), (Z.testbit imp n); done.
Qed.
Lemma merge_clear imp x m : merge imp x (x .&~ m) = x .&~ (m .& imp).
Proof.
  apply Z.bits_inj'. intros n Hn. unfold merge. rewrite !Z.lor_spec, !Z.land_spec, !Z.ldiff_spec, !Z.land_spec.
  destruct (Z.testbit x n), (Z.testbit m n), (Z.testbit imp n); done.
Qed.

Section Bytes.
Context {D : Type} `{M : !Mmio D} `{P : !ByteRegs D}.

Lemma update_spec (f : Z -> Z) a d :
  (forall v, 0 <= v < 256 -> 0 <= f v < 256) ->
  let d' := (bind (RTL_R8 a) (fun v => RTL_W8 a (f v)) d).2 in
  forall b, reg8 d' b = if (b =? a) && writable (reg8 d) a then merge (implemented a) (reg8 d a) (f (reg8 d a)) else reg8 d b.
Proof.
  intros Hf d' b. unfold d'. rewrite bind_run. pose proof (byte_read a d) as H.
  destruct (RTL_R8 a d) as [v d1]. destruct H as [-> H1]. cbn [fst snd]. rewrite byte_write. unfold writable. rewrite !H1.
  rewrite u8_small by apply Hf, reg8_range. done.
Qed.

Lemma set8_spec a m d : 0 <= m < 256 -> writable (reg8 d) a = true ->
  forall b, reg8 (set8 a m d).2 b = if b =? a then reg8 d a .| (m .& implemented a) else reg8 d b.
Proof.
  intros Hm Hw b. pose proof (update_spec (fun v => v .| m) a d) as H. cbv zeta in H. unfold set8. rewrite H.
  - by rewrite Hw, andb_true_r, merge_set.
  - intros v Hv. by apply (lor_bound _ _ 8).
Qed.

Lemma clr8_spec a m d : writable (reg8 d) a = true ->
  forall b, reg8 (clr8 a m d).2 b = if b =? a then reg8 d a .&~ (m .& implemented a) else reg8 d b.
Proof.
  intros Hw b. pose proof (update_spec (fun v => v .&~ m) a d) as H. cbv zeta in H. unfold clr8. rewrite H.
  - by rewrite Hw, andb_true_r, merge_clear.
  - intros v Hv. by apply (ldiff_bound _ _ 8).
Qed.

Lemma unlocked_writable R a : unlocked R -> writable R a = true.
Proof. intros H. unfold writable. rewrite H, Z.eqb_refl. apply orb_true_r. Qed.

(** The clock-request register of a variant. *)
Definition clkreq_reg (m : cfg) : Z :=
  match m with
  | CFG_METHOD_32 | CFG_METHOD_33 | CFG_METHOD_41 | CFG_METHOD_42 => INT_CFG0_8125
  | _ => Config2
  end.
Definition clkreq_bit (m : cfg) : Z :=
  match m with
  | CFG_METHOD_32 | CFG_METHOD_33 | CFG_METHOD_41 | CFG_METHOD_42 => BIT 3
  | _ => BIT 7
  end.

(** Set or clear bits. *)
Definition upd (enable : bool) (x m : Z) : Z := if enable then x .| m else x .&~ m.

(** What switching [enable] makes of a register, as far as it has the bit. *)
Definition switched (enable : bool) (R : Z -> Z) (a m : Z) : Z := upd enable (R a) (m .& implemented a).

Lemma switch_spec (enable : bool) a k d : 0 <= k < 8 -> writable (reg8 d) a = true ->
  forall b, reg8 ((if enable then set8 else clr8) a (BIT k) d).2 b = if b =? a then switched enable (reg8 d) a (BIT k) else reg8 d b.
Proof.
  intros Hk Hw b. assert (0 <= BIT k < 256).
  { unfold BIT. split; [lia|]. change 256 with (2 ^ 8). apply Z.pow_lt_mono_r; lia. }
  unfold switched, upd. destruct enable; [by rewrite set8_spec|by rewrite clr8_spec].
Qed.

Lemma aspm_bits_spec m enable d b : unlocked (reg8 d) ->
  reg8 (aspm_bits m enable d).2 b =
  if b =? Config5 then switched enable (reg8 d) Config5 (BIT 0)
  else if b =? clkreq_reg m then switched enable (reg8 d) (clkreq_reg m) (clkreq_bit m) else reg8 d b.
Proof.
  intros Hu. assert (H : forall r k, 0 <= k < 8 -> r <> Config5 -> r <> Cfg9346 -> reg8 (bind ((if enable then set8 else clr8) r (BIT k))
      (fun _ => (if enable then set8 else clr8) Config5 (BIT 0)) d).2 b =
    if b =? Config5 then switched enable (reg8 d) Config5 (BIT 0)
    else if b =? r then switched enable (reg8 d) r (BIT k) else reg8 d b).
  { intros r k Hk Hr Hc. rewrite bind_run.
    pose proof (switch_spec enable r k d Hk (unlocked_writable _ r Hu)) as H1. set (d1 := _.2) in *.
    assert (Hu1 : unlocked (reg8 d1)) by (unfold unlocked; rewrite H1, (proj2 (Z.eqb_neq Cfg9346 r)) by congruence; exact Hu).
    rewrite (switch_spec enable Config5 0 d1 ltac:(lia) (unlocked_writable _ _ Hu1)). unfold switched. rewrite !H1.
    destruct (b =? Config5); [|done]. by rewrite (proj2 (Z.eqb_neq Config5 r)) by congruence. }
  destruct m; apply H; (lia || done).
Qed.

Lemma unlock_spec d : let d' := (rtl8125_enable_cfg9346_write d).2 in
  unlocked (reg8 d') /\ forall b, b <> Cfg9346 -> reg8 d' b = reg8 d b.
Proof.
  cbv zeta. pose proof (set8_spec Cfg9346 Cfg9346_Unlock d ltac:(done) eq_refl) as H. split.
  - unfold unlocked, rtl8125_enable_cfg9346_write. rewrite H, Z.eqb_refl. rewrite (Z.land_comm Cfg9346_Unlock), lock_bits_exist.
    change Cfg9346_EEM_MASK with Cfg9346_Unlock. apply Z.bits_inj'. intros n Hn. rewrite Z.land_spec, Z.lor_spec.
    by destruct (Z.testbit (reg8 d Cfg9346) n), (Z.testbit Cfg9346_Unlock n).
  - intros b Hb. unfold rtl8125_enable_cfg9346_write. by rewrite H, (proj2 (Z.eqb_neq _ _) Hb).
Qed.

Lemma lock_bits c : ((c .| Cfg9346_Unlock) .&~ Cfg9346_Unlock) = c .&~ Cfg9346_Unlock.
Proof.
  apply Z.bits_inj'. intros n Hn. rewrite !Z.ldiff_spec, Z.lor_spec.
  by destruct (Z.testbit c n), (Z.testbit Cfg9346_Unlock n).
Qed.

Lemma aspm_lock_regs m enable d b :
  reg8 (rtl8125_enable_aspm_clkreq_lock m enable d).2 b =
  if b =? Cfg9346 then
    (if reg8 d Cfg9346 .& Cfg9346_EEM_MASK =? Cfg9346_Unlock then reg8 d Cfg9346 else reg8 d Cfg9346 .&~ Cfg9346_Unlock)
  else if b =? Config5 then switched enable (reg8 d) Config5 (BIT 0)
  else if b =? clkreq_reg m then switched enable (reg8 d) (clkreq_reg m) (clkreq_bit m) else reg8 d b.
Proof.
  unfold rtl8125_enable_aspm_clkreq_lock. rewrite bind_run. pose proof (byte_read Cfg9346 d) as H.
  destruct (RTL_R8 Cfg9346 d) as [c d0]. destruct H as [-> H0]. cbn [fst snd]. cbv zeta. rewrite !bind_run.
  destruct (reg8 d Cfg9346 .& Cfg9346_EEM_MASK =? Cfg9346_Unlock) eqn:E; cbn [negb]; unfold ret; cbn [fst snd].
  - rewrite aspm_bits_spec by (unfold unlocked; rewrite H0; by apply Z.eqb_eq). unfold switched. rewrite !H0.
    destruct (b =? Cfg9346) eqn:Eb; [|done]. apply Z.eqb_eq in Eb as ->. by destruct m.
  - destruct (unlock_spec d0) as [U K]. pose proof (set8_spec Cfg9346 Cfg9346_Unlock d0 ltac:(done) eq_refl Cfg9346) as S.
    rewrite Z.eqb_refl, (Z.land_comm Cfg9346_Unlock), lock_bits_exist, H0 in S.
    change (set8 Cfg9346 Cfg9346_Unlock d0) with (rtl8125_enable_cfg9346_write d0) in S.
    set (d1 := (rtl8125_enable_cfg9346_write d0).2) in *. unfold rtl8125_disable_cfg9346_write.
    rewrite clr8_spec by reflexivity. rewrite !aspm_bits_spec by done.
    rewrite (Z.land_comm Cfg9346_Unlock), lock_bits_exist. unfold switched.
    destruct (b =? Cfg9346) eqn:Eb.
    + destruct m; cbn [Z.eqb Pos.eqb Cfg9346 Config5 clkreq_reg Config2 INT_CFG0_8125]; rewrite S; apply lock_bits.
    + apply Z.eqb_neq in Eb. rewrite !K, !H0 by (done || by destruct m). done.
Qed.
End Bytes.

(** Switching ASPM clock requests ([rtl8125_enable_aspm_clkreq_lock])
    changes exactly the enable bits of the variant's clock-request register and
    of Config5, as far as the chip has them, although Config2 and Config5 are
    write-protected, and gives the configuration lock back as it found it: an
    unlocked register stays unlocked, a locked one is locked again. *)
Theorem aspm_clkreq_lock_exact {D} `{M : !Mmio D} `{P : !ByteRegs D} m enable (d : D) :
  let d' := (rtl8125_enable_aspm_clkreq_lock m enable d).2 in
  (forall b, b <> Cfg9346 -> b <> Config5 -> b <> clkreq_reg m -> reg8 d' b = reg8 d b) /\
  reg8 d' Config5 = upd enable (reg8 d Config5) (BIT 0 .& implemented Config5) /\
  reg8 d' (clkreq_reg m) = upd enable (reg8 d (clkreq_reg m)) (clkreq_bit m .& implemented (clkreq_reg m)) /\
  (reg8 d Cfg9346 .& Cfg9346_EEM_MASK = 0 \/ reg8 d Cfg9346 .& Cfg9346_EEM_MASK = Cfg9346_Unlock ->
   reg8 d' Cfg9346 = reg8 d Cfg9346).
Proof.
  cbv zeta. split; [|split; [|split]].
  - intros b H1 H2 H3. rewrite aspm_lock_regs. by rewrite !(proj2 (Z.eqb_neq _ _)).
  - by rewrite aspm_lock_regs.
  - rewrite aspm_lock_regs. by destruct m.
  - intros H. rewrite aspm_lock_regs. cbn [Z.eqb]. rewrite Z.eqb_refl. destruct H as [H|H]; [|by rewrite H].
    rewrite H. change (0 =? Cfg9346_Unlock) with false. cbv iota.
    apply Z.bits_inj'. intros n Hn. rewrite Z.ldiff_spec.
    apply (f_equal (fun z => Z.testbit z n)) in H. rewrite Z.land_spec, Z.bits_0 in H.
    change Cfg9346_EEM_MASK with Cfg9346_Unlock in H. by destruct (Z.testbit (reg8 d Cfg9346) n), (Z.testbit Cfg9346_Unlock n).
Qed.

(** the link test never takes its escape for a device that has
    disappeared: the status is read as 16 bits and compared with UINT_MAX, so
    an all-ones read counts as link up. *)
Theorem link_ok_all_ones {D} `{M : !Mmio D} (d : D) :
  let '(v, d') := R16 PHYstatus d in
  rtl8125_xmii_link_ok d = ((if has (u16 v) LinkStatus then 1 else 0), d') /\
  (u16 v = 0xffff -> (rtl8125_xmii_link_ok d).1 = 1).
Proof.
  assert (H : forall v d', R16 PHYstatus d = (v, d') ->
    rtl8125_xmii_link_ok d = ((if has (u16 v) LinkStatus then 1 else 0), d')).
  { intros v d' E. unfold rtl8125_xmii_link_ok, RTL_R16, bind. rewrite E. unfold ret.
    rewrite (proj2 (Z.eqb_neq (u16 v) 0xffffffff)); [done|]. pose proof (u16_range v). lia. }
  destruct (R16 PHYstatus d) as [v d'] eqn:E. rewrite (H v d' eq_refl). split; [done|]. cbn [fst]. by intros ->.
Qed.

(** ** The MAC and PHY windows side by side *)

(** Using one window leaves the registers behind the other alone. *)
Class OcpFrame (D : Type) `{M : !Mmio D} (maxlat : nat) `{PM : !OnePort D MACOCP 0} `{PP : !OnePort D PHYOCP maxlat} := {
  frame_write : forall v d, let d' := (RTL_W32 PHYOCP v d).2 in
    space MACOCP d' = space MACOCP d /\ lat MACOCP d' = lat MACOCP d;
  frame_read : forall d, let d' := (RTL_R32 PHYOCP d).2 in
    space MACOCP d' = space MACOCP d /\ lat MACOCP d' = lat MACOCP d;
  frame_delay : forall n d, let d' := (delay_us n d).2 in
    space MACOCP d' = space MACOCP d /\ lat MACOCP d' = lat MACOCP d;
}.

Section Eee.
Context {D : Type} `{M : !Mmio D} {maxlat : nat} `{PM : !OnePort D MACOCP 0} `{PP : !OnePort D PHYOCP maxlat}
  `{F : !OcpFrame D maxlat}.

Definition mac_same (d d' : D) : Prop := space MACOCP d' = space MACOCP d /\ lat MACOCP d' = lat MACOCP d.

(** Programs that touch only the PHY window. *)
Definition phy_only {A} (p : prog D A) : Prop := forall d, mac_same d (p d).2.

Lemma phy_only_ret {A} (a : A) : phy_only (ret a).
Proof. done. Qed.

Lemma phy_only_bind {A B} (p : prog D A) (k : A -> prog D B) :
  phy_only p -> (forall a, phy_only (k a)) -> phy_only (bind p k).
Proof.
  intros Hp Hk d. rewrite bind_run. destruct (Hp d) as [H1 H2]. destruct (Hk (p d).1 (p d).2) as [H3 H4].
  split; congruence.
Qed.

Lemma phy_only_poll n us p : phy_only p -> phy_only (poll n us p).
Proof.
  intros Hp. induction n as [|n IH]; [apply phy_only_ret|]. cbn [poll].
  apply phy_only_bind; [exact (frame_delay us)|intros _]. apply phy_only_bind; [done|].
  intros [|]; [apply phy_only_ret|exact IH].
Qed.

Lemma phy_only_read a : phy_only (mdio_real_direct_read_phy_ocp a).
Proof.
  unfold mdio_real_direct_read_phy_ocp. apply phy_only_bind; [exact (frame_write _)|intros _].
  apply phy_only_bind; [|intros _].
  - apply phy_only_poll, phy_only_bind; [exact frame_read|intros; apply phy_only_ret].
  - apply phy_only_bind; [exact frame_read|intros; apply phy_only_ret].
Qed.

Lemma phy_only_write a v : phy_only (mdio_real_direct_write_phy_ocp a v).
Proof.
  unfold mdio_real_direct_write_phy_ocp. apply phy_only_bind; [exact (frame_write _)|intros _].
  apply phy_only_bind; [|intros; apply phy_only_ret].
  apply phy_only_poll, phy_only_bind; [exact frame_read|intros; apply phy_only_ret].
Qed.

Lemma phy_only_rmw tp a c m : phy_only (ClearAndSetEthPhyOcpBit tp a c m).
Proof.
  unfold ClearAndSetEthPhyOcpBit, mdio_direct_read_phy_ocp, mdio_direct_write_phy_ocp.
  apply phy_only_bind; [apply phy_only_read|intros v].
  destruct (rtk_enable_diag tp); [apply phy_only_ret|apply phy_only_write].
Qed.

Lemma phy_only_common tp : phy_only (eee_common tp).
Proof.
  unfold eee_common, ClearEthPhyOcpBit.
  repeat (apply phy_only_bind; [apply phy_only_rmw|intros _]). apply phy_only_rmw.
Qed.

Lemma phy_only_patch n want : phy_only (patch_wait n want).
Proof.
  induction n as [|n IH]; [apply phy_only_ret|]. cbn [patch_wait].
  apply phy_only_bind; [apply phy_only_read|intros v]. apply phy_only_bind; [exact (frame_delay _)|intros _].
  destruct (Bool.eqb _ want); [apply phy_only_ret|exact IH].
Qed.

(** ** The EEE switch *)

(** The MAC register with the EEE enable bits. *)
Definition EEE_MAC : Z := 0xE040.

Definition eee_mac_on (d : D) : bool := mac_reg d EEE_MAC .& 3 =? 3.
Definition eee_mac_off (d : D) : bool := mac_reg d EEE_MAC .& 3 =? 0.

(** Programs that leave the EEE switch of the MAC alone. *)
Definition keeps_eee {A} (p : prog D A) : Prop :=
  forall d, mac_idle d -> mac_idle (p d).2 /\ mac_reg (p d).2 EEE_MAC = mac_reg d EEE_MAC.

Lemma keeps_ret {A} (a : A) : keeps_eee (ret a).
Proof. done. Qed.

Lemma keeps_bind {A B} (p : prog D A) (k : A -> prog D B) :
  keeps_eee p -> (forall a, keeps_eee (k a)) -> keeps_eee (bind p k).
Proof.
  intros Hp Hk d Hi. rewrite bind_run. destruct (Hp d Hi) as [I1 E1].
  destruct (Hk (p d).1 _ I1) as [I2 E2]. split; [exact I2|congruence].
Qed.

Lemma keeps_phy {A} (p : prog D A) : phy_only p -> keeps_eee p.
Proof.
  intros Hp d Hi. destruct (Hp d) as [W L]. split; [unfold mac_idle in *; congruence|].
  unfold mac_reg. by rewrite W.
Qed.

Lemma keeps_mac a c m : 0 <= a < 65536 -> 0 <= m < 65536 -> (EEE_MAC / 2 =? a / 2) = false ->
  keeps_eee (rtl8125_clear_set_mac_ocp_bit a c m).
Proof.
  intros Ha Hm He d Hi. destruct (mac_rmw_spec a c m d Hi Ha Hm) as [I1 S1].
  split; [exact I1|]. specialize (S1 EEE_MAC). by rewrite He in S1.
Qed.

Lemma eee_switch {A} c m (p : prog D A) d : mac_idle d -> 0 <= m < 65536 -> keeps_eee p ->
  let d' := (bind (rtl8125_clear_set_mac_ocp_bit EEE_MAC c m) (fun _ => p) d).2 in
  mac_idle d' /\ mac_reg d' EEE_MAC = rmw (mac_reg d EEE_MAC) c m.
Proof.
  intros Hi Hm Hp. cbv zeta. rewrite bind_run.
  destruct (mac_rmw_spec EEE_MAC c m d Hi ltac:(unfold EEE_MAC; lia) Hm) as [I1 S1].
  destruct (Hp _ I1) as [I2 E2]. split; [exact I2|].
  specialize (S1 EEE_MAC). rewrite Z.eqb_refl in S1. exact (eq_trans E2 S1).
Qed.

Lemma set3 x : (rmw x 0 3) .& 3 = 3.
Proof.
  unfold rmw. apply Z.bits_inj'. intros n Hn. rewrite Z.land_spec, Z.lor_spec.
  destruct (Z.testbit 3 n); by rewrite ?orb_true_r, ?andb_false_r.
Qed.

Lemma clear3 x : (rmw x 3 0) .& 3 = 0.
Proof.
  unfold rmw. rewrite Z.lor_0_r. apply Z.bits_inj'. intros n Hn. rewrite Z.land_spec, Z.ldiff_spec, Z.bits_0.
  destruct (Z.testbit 3 n); by rewrite ?andb_false_r.
Qed.

Lemma eee_turned_on {A} (p : prog D A) d : mac_idle d -> keeps_eee p ->
  let d' := (bind (rtl8125_set_mac_ocp_bit EEE_MAC 3) (fun _ => p) d).2 in mac_idle d' /\ eee_mac_on d' = true.
Proof.
  intros Hi Hp. destruct (eee_switch 0 3 p d Hi ltac:(lia) Hp) as [I E]. split; [exact I|].
  unfold eee_mac_on. unfold rtl8125_set_mac_ocp_bit. rewrite E. by rewrite set3.
Qed.

Lemma eee_turned_off {A} (p : prog D A) d : mac_idle d -> keeps_eee p ->
  let d' := (bind (rtl8125_clear_mac_ocp_bit EEE_MAC 3) (fun _ => p) d).2 in mac_idle d' /\ eee_mac_off d' = true.
Proof.
  intros Hi Hp. destruct (eee_switch 3 0 p d Hi ltac:(lia) Hp) as [I E]. split; [exact I|].
  unfold eee_mac_off. unfold rtl8125_clear_mac_ocp_bit. rewrite E. by rewrite clear3.
Qed.

(** The tails of the two functions. *)
Ltac keep_step := first
  [ apply keeps_ret
  | apply keeps_phy; first [apply phy_only_rmw|apply phy_only_common|apply phy_only_read|apply phy_only_patch]
  | apply keeps_mac; [lia|by vm_compute|reflexivity] ].
Ltac keeps := repeat (apply keeps_bind; [keep_step|intros _]); apply keeps_ret.

(** A device that is not managed out of band: the mutex calls do nothing. *)
Lemma no_dash_lock tp : s_DASH (sw tp) = false ->
  @rtl8125_oob_mutex_lock D M (chan tp) = ret tt /\ @rtl8125_oob_mutex_unlock D M (chan tp) = ret tt.
Proof.
  intros H. unfold rtl8125_oob_mutex_lock, rtl8125_oob_mutex_unlock. change (DASH (chan tp)) with (s_DASH (sw tp)).
  rewrite H. by destruct (negb (0 <? HwSuppDashVer (chan tp))).
Qed.

Lemma keeps_adv_eee tp : s_DASH (sw tp) = false -> keeps_eee (rtl8125_disable_adv_eee tp).
Proof.
  intros H. destruct (no_dash_lock tp H) as [L U]. unfold rtl8125_disable_adv_eee. rewrite L, U.
  apply keeps_bind; [destruct (_ <? _); keep_step|intros _].
  apply keeps_bind; [|intros _; destruct (_ <? _); keep_step].
  unfold disable_adv_eee_regs, rtl8125_set_phy_mcu_patch_request, rtl8125_clear_phy_mcu_patch_request.
  apply keeps_bind; [|intros lock].
  - destruct (mcfg (tid tp)); try keep_step; (apply keeps_bind; [keep_step|intros; apply keeps_ret]).
  - apply keeps_bind; [|intros _; repeat (apply keeps_bind; [keep_step|intros _])];
      destruct lock; try keep_step;
      (apply keeps_bind; [apply keeps_bind; [keep_step|intros; keep_step]|intros; keep_step]).
Qed.

Definition is_8126a (m : cfg) : bool :=
  match m with CFG_METHOD_31 | CFG_METHOD_32 | CFG_METHOD_33 => true | _ => false end.

Lemma enable_regs_on tp cap1 cap2 d : mcfg (tid tp) <> CFG_METHOD_DEFAULT -> mac_idle d ->
  let d' := (enable_eee_regs tp cap1 cap2 d).2 in mac_idle d' /\ eee_mac_on d' = true.
Proof.
  intros Hm Hi. unfold enable_eee_regs.
  destruct (mcfg (tid tp)); try done; apply (eee_turned_on _ d Hi); keeps.
Qed.

Lemma disable_regs_off tp d : mcfg (tid tp) <> CFG_METHOD_DEFAULT -> is_8126a (mcfg (tid tp)) = false -> mac_idle d ->
  let d' := (disable_eee_regs tp d).2 in mac_idle d' /\ eee_mac_off d' = true.
Proof.
  intros Hm Ha Hi. unfold disable_eee_regs.
  destruct (mcfg (tid tp)); try done; apply (eee_turned_off _ d Hi); keeps.
Qed.

Lemma enable_ret tp cap1 cap2 d : mcfg (tid tp) <> CFG_METHOD_DEFAULT -> (enable_eee_regs tp cap1 cap2 d).1 = 0.
Proof. intros Hm. unfold enable_eee_regs. destruct (mcfg (tid tp)); try done; by rewrite !bind_run. Qed.

Lemma disable_ret tp d : mcfg (tid tp) <> CFG_METHOD_DEFAULT ->
  (disable_eee_regs tp d).1 = if is_8126a (mcfg (tid tp)) then - EOPNOTSUPP else 0.
Proof. intros Hm. unfold disable_eee_regs. destruct (mcfg (tid tp)); try done; by rewrite !bind_run. Qed.

(** The advanced-EEE tail of both functions. *)
Lemma with_adv (p : prog D Z) tp d : s_DASH (sw tp) = false -> mac_idle (p d).2 ->
  let q := bind p (fun r => bind (rtl8125_disable_adv_eee tp) (fun _ => ret r)) in
  (q d).1 = (p d).1 /\ mac_idle (q d).2 /\ mac_reg (q d).2 EEE_MAC = mac_reg (p d).2 EEE_MAC.
Proof.
  intros Hd Hi. cbv zeta. rewrite !bind_run. unfold ret. cbn [fst snd].
  split; [done|]. by apply keeps_adv_eee.
Qed.

Lemma enable_eee_on tp cap1 cap2 d : mcfg (tid tp) <> CFG_METHOD_DEFAULT -> s_DASH (sw tp) = false -> mac_idle d ->
  let '(r, d') := rtl8125_enable_eee tp cap1 cap2 d in r = 0 /\ mac_idle d' /\ eee_mac_on d' = true.
Proof.
  intros Hm Hd Hi. destruct (enable_regs_on tp cap1 cap2 d Hm Hi) as [I E].
  destruct (with_adv (enable_eee_regs tp cap1 cap2) tp d Hd I) as (R&I2&E2).
  rewrite enable_ret in R by done. unfold rtl8125_enable_eee, eee_mac_on in *.
  destruct (bind _ _ d) as [r d']. cbn [fst snd] in *. by rewrite E2.
Qed.

Lemma disable_eee_effect tp d : mcfg (tid tp) <> CFG_METHOD_DEFAULT -> s_DASH (sw tp) = false -> mac_idle d ->
  let '(r, d') := rtl8125_disable_eee tp d in
  if is_8126a (mcfg (tid tp)) then r = - EOPNOTSUPP /\ mac_reg d' EEE_MAC = mac_reg d EEE_MAC
  else r = 0 /\ eee_mac_off d' = true.
Proof.
  intros Hm Hd Hi. assert (I : mac_idle (disable_eee_regs tp d).2 /\
    if is_8126a (mcfg (tid tp)) then (disable_eee_regs tp d).2 = d else eee_mac_off (disable_eee_regs tp d).2 = true).
  { destruct (is_8126a (mcfg (tid tp))) eqn:Ha; [|by apply disable_regs_off].
    replace (disable_eee_regs tp d) with (- EOPNOTSUPP, d); [done|].
    unfold disable_eee_regs. by destruct (mcfg (tid tp)). }
  destruct I as [I E]. destruct (with_adv (disable_eee_regs tp) tp d Hd I) as (R&I2&E2).
  rewrite disable_ret in R by done. unfold rtl8125_disable_eee, eee_mac_off in *.
  destruct (bind _ _ d) as [r d']. cbn [fst snd] in *.
  destruct (is_8126a (mcfg (tid tp))); rewrite E2; [by rewrite E|done].
Qed.
End Eee.

(** Turning Energy Efficient Ethernet on ([rtl8125_enable_eee]) sets both
    MAC enable bits on every known variant, and turning it off again
    ([rtl8125_disable_eee]) clears them on every variant except the RTL8126A
    steppings: for those the second function has no case, so it returns
    -EOPNOTSUPP and EEE stays on. *)
Theorem eee_disable_skips_8126a {D} `{M : !Mmio D} {maxlat : nat} `{PM : !OnePort D MACOCP 0}
    `{PP : !OnePort D PHYOCP maxlat} `{F : !OcpFrame D maxlat} tp cap1 cap2 (d : D) :
  mcfg (tid tp) <> CFG_METHOD_DEFAULT -> s_DASH (sw tp) = false -> mac_idle d ->
  let '(r1, d1) := rtl8125_enable_eee tp cap1 cap2 d in
  r1 = 0 /\ eee_mac_on d1 = true /\
  let '(r2, d2) := rtl8125_disable_eee tp d1 in
  if is_8126a (mcfg (tid tp)) then r2 = - EOPNOTSUPP /\ eee_mac_on d2 = true else r2 = 0 /\ eee_mac_off d2 = true.
Proof.
  intros Hm Hd Hi. pose proof (enable_eee_on tp cap1 cap2 d Hm Hd Hi) as H1.
  destruct (rtl8125_enable_eee tp cap1 cap2 d) as [r1 d1]. destruct H1 as (R1&I1&E1).
  split; [exact R1|split; [exact E1|]]. pose proof (disable_eee_effect tp d1 Hm Hd I1) as H2.
  destruct (rtl8125_disable_eee tp d1) as [r2 d2]. unfold eee_mac_on in *.
  destruct (is_8126a (mcfg (tid tp))); destruct H2 as [R2 E2]; [by rewrite E2|done].
Qed.

(** ** A device to run on: byte registers, both OCP windows, 16-bit registers that read all ones *)
Module HwSim.
Import PhySim.

Record dev := Dev { bytes : Z -> Z; mac : dev1; phy : dev1 }.

Definition read32 (a : Z) (d : dev) : Z * dev :=
  if a =? PHYOCP then let '(v, p) := read1 PHYOCP PHYOCP (phy d) in (v, Dev (bytes d) (mac d) p)
  else if a =? MACOCP then let '(v, p) := read1 MACOCP MACOCP (mac d) in (v, Dev (bytes d) p (phy d))
  else (0, d).

Definition write32 (a v : Z) (d : dev) : dev :=
  if a =? PHYOCP then Dev (bytes d) (mac d) (write1 lag PHYOCP PHYOCP v (phy d))
  else if a =? MACOCP then Dev (bytes d) (write1 0 MACOCP MACOCP v (mac d)) (phy d)
  else d.

#[export] Instance hw_mmio : Mmio dev := {|
  R8 := fun a d => (bytes d a, d); R16 := fun _ d => (0xffff, d); R32 := read32;
  W8 := fun a v d => Dev (fun b => if (b =? a) && writable (fun c => u8 (bytes d c)) a then v else bytes d b) (mac d) (phy d);
  W16 := fun _ _ d => d;
  W32 := write32; udelay := fun _ d => d |}.

(** All bits are storage. *)
Lemma merge_all old v : 0 <= old < 256 -> 0 <= v < 256 -> merge 0xff old v = v.
Proof.
  intros Ho Hv. unfold merge. apply Z.bits_inj'. intros n Hn. rewrite Z.lor_spec, Z.land_spec, Z.ldiff_spec.
  destruct (Z_lt_ge_dec n 8) as [H|H].
  - change 0xff with (Z.ones 8). rewrite Z.ones_spec_low by lia. by rewrite andb_true_r, andb_false_r, orb_false_r.
  - by rewrite (testbit_high v 8), (testbit_high old 8) by lia.
Qed.

#[export] Program Instance hw_bytes : ByteRegs dev := {| reg8 := fun d a => u8 (bytes d a); implemented := fun _ => 0xff |}.
Next Obligation. intros d a. apply u8_range. Qed.
Next Obligation. done. Qed.
Next Obligation. done. Qed.
Next Obligation.
  intros a v d d' b. cbn. destruct (Z.eqb_spec b a) as [->|]; [|done]. cbn [andb].
  destruct (writable _ a); [|done]. rewrite merge_all by apply u8_range. apply u8_small, u8_range.
Qed.

#[export] Program Instance hw_phy : OnePort dev PHYOCP lag := {|
  space := fun d => space1 (phy d); sel := fun d => sel1 (phy d); rd := fun d => rd1 (phy d);
  lat := fun d => lat1 (phy d) |}.
Next Obligation. intros cmd d _. apply (write1_data lag PHYOCP cmd (phy d)). Qed.
Next Obligation. intros cmd d _. apply (write1_select lag PHYOCP cmd (phy d)). Qed.
Next Obligation.
  intros d. pose proof (read1_status PHYOCP (phy d)) as H. unfold RTL_R32. cbn [R32 hw_mmio]. unfold read32.
  rewrite Z.eqb_refl. destruct (read1 PHYOCP PHYOCP (phy d)) as [v p]. exact H.
Qed.
Next Obligation. done. Qed.

#[export] Program Instance hw_mac : OnePort dev MACOCP 0 := {|
  space := fun d => space1 (mac d); sel := fun d => sel1 (mac d); rd := fun d => rd1 (mac d);
  lat := fun d => lat1 (mac d) |}.
Next Obligation. intros cmd d _. apply (write1_data 0 MACOCP cmd (mac d)). Qed.
Next Obligation. intros cmd d _. apply (write1_select 0 MACOCP cmd (mac d)). Qed.
Next Obligation.
  intros d. pose proof (read1_status MACOCP (mac d)) as H. unfold RTL_R32. cbn [R32 hw_mmio]. unfold read32.
  change (MACOCP =? PHYOCP) with false. rewrite Z.eqb_refl.
  destruct (read1 MACOCP MACOCP (mac d)) as [v p]. exact H.
Qed.
Next Obligation. done. Qed.

#[export] Program Instance hw_frame : OcpFrame dev lag.
Next Obligation. done. Qed.
Next Obligation.
  intros d. unfold RTL_R32. cbn [R32 hw_mmio]. unfold read32. rewrite Z.eqb_refl.
  by destruct (read1 PHYOCP PHYOCP (phy d)).
Qed.
Next Obligation. done. Qed.

Definition fresh : dev := Dev (fun _ => 0) fresh1 fresh1.

(** An RTL8126A. *)
Definition tp_8126a : tpctx := mkTp (mkId CFG_METHOD_31 0 false rcr_27) sw_zero false.

Lemma aspm_clkreq_lock_exact_witness :
  let d' := (rtl8125_enable_aspm_clkreq_lock CFG_METHOD_42 true fresh).2 in
  reg8 d' Config5 = 1 /\ reg8 d' INT_CFG0_8125 = 8 /\ reg8 d' Cfg9346 = 0 /\ reg8 d' Config2 = 0.
Proof.
  destruct (aspm_clkreq_lock_exact CFG_METHOD_42 true fresh) as (H1&H2&H3&H4). cbv zeta.
  split; [exact H2|split; [exact H3|split]].
  - rewrite H4; [reflexivity|left; reflexivity].
  - rewrite H1; [reflexivity|discriminate|discriminate|discriminate].
Defined.

Lemma link_ok_all_ones_witness : (rtl8125_xmii_link_ok fresh).1 = 1.
Proof. exact (proj2 (link_ok_all_ones fresh) eq_refl). Defined.

Lemma eee_disable_skips_8126a_witness :
  let '(r1, d1) := rtl8125_enable_eee tp_8126a 6 1 fresh in
  r1 = 0 /\ eee_mac_on d1 = true /\
  let '(r2, d2) := rtl8125_disable_eee tp_8126a d1 in r2 = - EOPNOTSUPP /\ eee_mac_on d2 = true.
Proof.
  pose proof (eee_disable_skips_8126a tp_8126a 6 1 fresh ltac:(discriminate) eq_refl eq_refl) as H.
  destruct (rtl8125_enable_eee tp_8126a 6 1 fresh) as [r1 d1]. destruct H as (R1&E1&H).
  split; [exact R1|split; [exact E1|]]. destruct (rtl8125_disable_eee tp_8126a d1) as [r2 d2]. exact H.
Defined.
End HwSim.
