(* ===== verification/McuTables.v ===== *)
(** The MAC microcontroller patches of rtl812xx.cpp, word for word as the arrays
    of the rtl8125_set_mac_mcu functions. *)
From Stdlib Require Import Ascii String.
From S2P Require Import Prelude.
#[global] Open Scope Z_scope.

(** Four hexadecimal digits (upper case) are a word. *)
Definition hex_digit (c : ascii) : Z :=
  let n := Z.of_nat (nat_of_ascii c) in if n <? 58 then n - 48 else n - 55.

Fixpoint hex_words (s : string) : list Z :=
  match s with
  | String a (String b (String c (String d r))) =>
      (((hex_digit a * 16 + hex_digit b) * 16 + hex_digit c) * 16 + hex_digit d) :: hex_words r
  | _ => []
  end.

(** The array of the 8125a_2 function, 213 words. *)
Definition mcu_patch_code_8125a_2 : list Z :=
  hex_words (String.concat EmptyString [
    "E008E01EE02EE054E057E059E0C2E0CB999649D1F00549D4F10A49D8F108C00F7100209C249CC0099900E004C0061900"%string;
    "9900C602BE005A48E0C20004E10AC60F73C449B3F10673C2C608B406C609FF80C605B406C605FF8005440568E906CDE8"%string;
    "C724C6249EE21E019EE076E049E0F1FE76E6486D48689EE41E039EE076E049E0F1FEC6159EE21E019EE076E049E0F1FE"%string;
    "76E6486F9EE41E039EE076E049E0F1FE7196C702BF005A44EB0E007000C31BC0C602BE000E26C602BE000EBA1501F02A"%string;
    "1500F15DC66175C849D5F00A49D6F00849D7F00649D8F00475D249D9F150C55377A075C8485548564857485848DA48DB"%string;
    "49FEF002485A49FFF002485B9DC875D248599DD2C64375C049D4F03349D0F137E030C63A75C849D5F00E49D6F00C49D7"%string;
    "F00A49D8F00875D249D9F005C62E75C049D7F125C52877A0C62775C8485548564857485848DA48DB49FEF002485A49FF"%string;
    "F002485B9DC875D248599DD2C61675C048579DC0C61375C049DAF00349D0F107C60BC50E48D99DC048599DC0C608C702"%string;
    "BF003AE0E860B400B5D4E908E86C1200C409678048F18F80C404C602BE0010AAC010EA7CC602BE000000"%string
  ]).

(** The array of the 8125b_2 function, 95 words. *)
Definition mcu_patch_code_8125b_2 : list Z :=
  hex_words (String.concat EmptyString [
    "E008E013E01EE02FE035E04FE053E055740A484648479C0AC60774C048C69CC0C602BE0013F0E05472CA482648279ACA"%string;
    "C60772C048A69AC0C602BE00081CE054C60F74C449CCF109C60C74CA48C79CCAC60974C048469CC0C602BE002494E092"%string;
    "E0C0E054742048C09C207444C602BE0012DC733A21B525BC1304F1111B121D2A31683ADA31AB1A009AC01300F1FB7620"%string;
    "236E276F1A3C22A141B59EE276E4486F9EE4C602BE004A26733A49BBC602BE0047A2C602BE000000C602BE000000"%string
  ]).

(** The array of the 8125bp_1 function, 122 words. *)
Definition mcu_patch_code_8125bp_1 : list Z :=
  hex_words (String.concat EmptyString [
    "E010E014E027E04AE04DE050E052E054E056E058E05AE05CE05EE060E062E0641BC846EBC302BB000F14C211400AF00A"%string;
    "C20F400AF00773A4C20C400AF10248B09B201B009BA0C602BE004364E6E0E6E2C01CB4061000F016C61F400EF012218E"%string;
    "25BE1300F0077340C618400EF10248B08320B40024021000F00373428322B000E00773229B4273209B4003000300B006"%string;
    "C302BB00413EE6E0C01C49D1C602BE003F9449D1C602BE004030C602BE003FDAC102B900401AC102B9000000C002B800"%string;
    "0000C602BE000000C602BE000000C602BE000000C602BE000000C602BE000000C602BE000000C602BE00000069360A18"%string;
    "0C020D21"%string
  ]).

(** The array of the 8125bp_2 function, 124 words. *)
Definition mcu_patch_code_8125bp_2 : list Z :=
  hex_words (String.concat EmptyString [
    "E010E033E046E04AE04DE050E054E056E058E05AE05CE05EE060E062E064E066B4061000F016C61F400EF012218E25BE"%string;
    "1300F0077340C618400EF10248B08320B40024021000F00373428322B000E00773229B4273209B4003000300B006C302"%string;
    "BB004168E6E0C01CC211400AF00AC20F400AF00773A4C20C400AF10248B09B201B009BA0C602BE004392E6E0E6E2C01C"%string;
    "41669CF6C002B800143C49D1C602BE003FC449D1C602BE00405AC104C202BA0022E6D116C602BE000000C102B9000000"%string;
    "C002B8000000C602BE000000C602BE000000C602BE000000C602BE000000C602BE000000C602BE000000C602BE000000"%string;
    "69360119030E0B18"%string
  ]).

(** The array of the 8125d_1 function, 768 words. *)
Definition mcu_patch_code_8125d_1 : list Z :=
  hex_words (String.concat EmptyString [
    "E010E014E018E01AE01CE01EE020E022E024E026E028E02AE02CE02EE030E03241669CF6C002B80014A4C104C202BA00"%string;
    "2378D116C602BE000000C602BE000000C602BE000000C602BE000000C602BE000000C602BE000000C602BE000000C602"%string;
    "BE000000C602BE000000C602BE000000C602BE000000C602BE000000C602BE000000C602BE0000000000000000000000"%string;
    "000000000000000000000000000000000000000000000000000000000000000000000000000000000000000000000000"%string;
    "000000000000000000000000000000000000000000000000000000000000000000000000000000000000000000000000"%string;
    "000000000000000000000000000000000000000000000000000000000000000000000000000000000000000000000000"%string;
    "000000000000000000000000000000000000000000000000000000000000000000000000000000000000000000000000"%string;
    "000000000000000000000000000000000000000000000000000000000000000000000000000000000000000000000000"%string;
    "000000000000000000000000000000000000000000000000000000000000000000000000000000000000000000000000"%string;
    "000000000000000000000000000000000000000000000000000000000000000000000000000000000000000000000000"%string;
    "000000000000000000000000000000000000000000000000000000000000000000000000000000000000000000000000"%string;
    "000000000000000000000000000000000000000000000000000000000000000000000000000000000000000000000000"%string;
    "000000000000000000000000000000000000000000000000000000000000000000000000000000000000000000000000"%string;
    "000000000000000000000000000000000000000000000000000000000000000000000000000000000000000000000000"%string;
    "000000000000000000000000000000000000000000000000000000000000000000000000000000000000000000000000"%string;
    "000000000000000000000000000000000000000000000000000000000000000000000000000000000000000000000000"%string;
    "000000000000000000000000000000000000000000000000000000000000000000000000000000000000000000000000"%string;
    "000000000000000000000000000000000000000000000000000000000000000000000000000000000000000000000000"%string;
    "000000000000000000000000000000000000000000000000000000000000000000000000000000000000000000000000"%string;
    "000000000000000000000000000000000000000000000000000000000000000000000000000000000000000000000000"%string;
    "000000000000000000000000000000000000000000000000000000000000000000000000000000000000000000000000"%string;
    "000000000000000000000000000000000000000000000000000000000000000000000000000000000000000000000000"%string;
    "000000000000000000000000000000000000000000000000000000000000000000000000000000000000000000000000"%string;
    "000000000000000000000000000000000000000000000000000000000000000000000000000000000000000000000000"%string;
    "000000000000000000000000000000000000000000000000000000000000000000000000000000000000000000000000"%string;
    "000000000000000000000000000000000000000000000000000000000000000000000000000000000000000000000000"%string;
    "000000000000000000000000000000000000000000000000000000000000000000000000000000000000000000000000"%string;
    "000000000000000000000000000000000000000000000000000000000000000000000000000000000000000000000000"%string;
    "000000000000000000000000000000000000000000000000000000000000000000000000000000000000000000000000"%string;
    "000000000000000000000000000000000000000000000000000000000000000000000000000000000000000000000000"%string;
    "000000000000000000000000000000000000000000000000000000000000000000000000000000000000000000000000"%string;
    "0000000000000000000000000000000000000000000000000000000000000000000000000000000069380A19030E0B2B"%string
  ]).

(** The array of the 8125d_2 function, 768 words. *)
Definition mcu_patch_code_8125d_2 : list Z :=
  hex_words (String.concat EmptyString [
    "E010E014E016E018E01AE01CE01EE020E022E024E026E028E02AE02CE02EE030C104C202BA002384D116C602BE000000"%string;
    "C602BE000000C602BE000000C602BE000000C602BE000000C602BE000000C602BE000000C602BE000000C602BE000000"%string;
    "C602BE000000C602BE000000C602BE000000C602BE000000C602BE000000C602BE000000000000000000000000000000"%string;
    "000000000000000000000000000000000000000000000000000000000000000000000000000000000000000000000000"%string;
    "000000000000000000000000000000000000000000000000000000000000000000000000000000000000000000000000"%string;
    "000000000000000000000000000000000000000000000000000000000000000000000000000000000000000000000000"%string;
    "000000000000000000000000000000000000000000000000000000000000000000000000000000000000000000000000"%string;
    "000000000000000000000000000000000000000000000000000000000000000000000000000000000000000000000000"%string;
    "000000000000000000000000000000000000000000000000000000000000000000000000000000000000000000000000"%string;
    "000000000000000000000000000000000000000000000000000000000000000000000000000000000000000000000000"%string;
    "000000000000000000000000000000000000000000000000000000000000000000000000000000000000000000000000"%string;
    "000000000000000000000000000000000000000000000000000000000000000000000000000000000000000000000000"%string;
    "000000000000000000000000000000000000000000000000000000000000000000000000000000000000000000000000"%string;
    "000000000000000000000000000000000000000000000000000000000000000000000000000000000000000000000000"%string;
    "000000000000000000000000000000000000000000000000000000000000000000000000000000000000000000000000"%string;
    "000000000000000000000000000000000000000000000000000000000000000000000000000000000000000000000000"%string;
    "000000000000000000000000000000000000000000000000000000000000000000000000000000000000000000000000"%string;
    "000000000000000000000000000000000000000000000000000000000000000000000000000000000000000000000000"%string;
    "000000000000000000000000000000000000000000000000000000000000000000000000000000000000000000000000"%string;
    "000000000000000000000000000000000000000000000000000000000000000000000000000000000000000000000000"%string;
    "000000000000000000000000000000000000000000000000000000000000000000000000000000000000000000000000"%string;
    "000000000000000000000000000000000000000000000000000000000000000000000000000000000000000000000000"%string;
    "000000000000000000000000000000000000000000000000000000000000000000000000000000000000000000000000"%string;
    "000000000000000000000000000000000000000000000000000000000000000000000000000000000000000000000000"%string;
    "000000000000000000000000000000000000000000000000000000000000000000000000000000000000000000000000"%string;
    "000000000000000000000000000000000000000000000000000000000000000000000000000000000000000000000000"%string;
    "000000000000000000000000000000000000000000000000000000000000000000000000000000000000000000000000"%string;
    "000000000000000000000000000000000000000000000000000000000000000000000000000000000000000000000000"%string;
    "000000000000000000000000000000000000000000000000000000000000000000000000000000000000000000000000"%string;
    "000000000000000000000000000000000000000000000000000000000000000000000000000000000000000000000000"%string;
    "000000000000000000000000000000000000000000000000000000000000000000000000000000000000000000000000"%string;
    "0000000000000000000000000000000000000000000000000000000000000000000000000000000069380A19030E0B2F"%string
  ]).

(** The array of the 8125cp_1 function, 70 words. *)
Definition mcu_patch_code_8125cp_1 : list Z :=
  hex_words (String.concat EmptyString [
    "E010E014E016E018E01AE01CE01EE020E022E024E026E028E02AE02CE02EE030C104C202BA002438D116C602BE000000"%string;
    "C602BE000000C602BE000000C602BE000000C602BE000000C602BE000000C602BE000000C602BE000000C602BE000000"%string;
    "C602BE000000C602BE000000C602BE000000C602BE000000C602BE000000C602BE00000070230019031A0E20"%string
  ]).

(** The array of the 8126a_1 function, 71 words. *)
Definition mcu_patch_code_8126a_1 : list Z :=
  hex_words (String.concat EmptyString [
    "E010E019E01BE01DE01FE021E023E025E027E029E02BE02DE02FE031E033E03548C09C667446484048C148C29C46C402"%string;
    "BC000AD6C602BE000000C602BE000000C602BE000000C602BE000000C602BE000000C602BE000000C602BE000000C602"%string;
    "BE000000C602BE000000C602BE000000C602BE000000C602BE000000C602BE000000C602BE000000C602BE000000"%string
  ]).

(** The array of the 8126a_2 function, 217 words. *)
Definition mcu_patch_code_8126a_2 : list Z :=
  hex_words (String.concat EmptyString [
    "E010E02CE04EE0A4E0A8E0ABE0AEE0B1E0B5E0B7E0B9E0BBE0BDE0BFE0C1E0C3C716C6169EE0C61665C01500F009C714"%string;
    "66E041B58EE0C61175C048589DC0C707C6089EE0C608C502BD000100E86CE000A000B404B430C070E926C2FE400AF11A"%string;
    "63A41A0049B0F002482049B1F002482149B2F002482249B3F0024823C411638048B08B80632041DA8B20638048308B80"%string;
    "E00373A49B20C302BB004A18C070E022C05471024992F149489399021B1FC74E72E0252148A50B011C4F9C0021211D01"%string;
    "41AA25219DE048569DE01CCFE83948D69DE071024996F1FE481499021CFF0C011400F00C71024996F0FB71024990F0FE"%string;
    "1C1FE82671024992F00448139902E01D1300F10448179902E018489499024995F00B121FF0F3131EF0034998F0EF0201"%string;
    "48189902E7C91200F0E94998F0021B010A0148989902E7C0C00AC606BE000C011400F1FEFF802362D456D404E4004166"%string;
    "9CF6C002B80014A649D1C602BE00416049D1C602BE0041E649D1C602BE004282C104C202BA00234CD116C602BE000000"%string;
    "C602BE000000C602BE000000C602BE000000C602BE000000C602BE000000C602BE000000C602BE00000068470019041C"%string;
    "1322"%string
  ]).

(** The array of the 8126a_3 function, 339 words. *)
Definition mcu_patch_code_8126a_3 : list Z :=
  hex_words (String.concat EmptyString [
    "E00AE026E048E04CE04FE052E055E0ABE0F8E141C716C6169EE0C61665C01500F009C71466E041B58EE0C61175C04858"%string;
    "9DC0C707C6089EE0C608C502BD000100E86CE000A000B404B430C070E926C2FE400AF11A63A41A0049B0F002482049B1"%string;
    "F002482149B2F002482249B3F0024823C411638048B08B80632041DA8B20638048308B80E00373A49B20C302BB0055E2"%string;
    "C070E02241669CF6C602BE0014A649D1C602BE00417849D1C602BE0041FE49D1C602BE00429AC74B76E2C54A402EF034"%string;
    "76E0402EF006C503C403BC00C0BC0AAE76F01601F023C7411E049EE01E409EE4C63D9EE8C73D76E048639EE0C73A76E0"%string;
    "48EA48EB9EE0C7361E019EE2C72D76E0486F9EE0C72D76E048E39EE0C7281E0E9EE0C71D1E019EE4E00D1E009EF01E05"%string;
    "C7159EE0E00A1E009EE2C61475CC48D29DCC1E04C70B9EE0B000B001B002B003B004B005B006B007FFC0E428D3C0BEEF"%string;
    "5B4ADC46E0CCE84EC0A20100C010E85AE812C0B4C5F474A0C6F34026F10774A2C6EF4026F107C6EDBE00753AC602BE00"%string;
    "5A3A752049DEF102E7F9C6A167C6752022D226DD1500F002E7F1753226D505300D6CC42D308D75404025F11E75424025"%string;
    "F11B75444025F118C42375464025F11475484025F111754A4025F10EC5C0C4C09CA2C6C075CC48529DCCC6B81D7D9DC2"%string;
    "1D019DC0E7C9C40B75464025F1FC75484025F1F9754A4025F1F6E7C0FFFFEEEEC2A67340C2A54013F013C2AC73404835"%string;
    "9B40C240735848B748B29B58734648B748B29B46734048B748B29B40E012C29A734048B59B40C22E7358483748329B58"%string;
    "7346483748329B467340483748329B40C283734049BFF010C21B73441300F1041B00C2179B401B01C2139B44C213734C"%string;
    "48B79B4CE008C20C1B009B44C20B734C48379B4CC204C302BB002384E092D3C0E428DC46C104C202BA00234CD1166847"%string;
    "0119041C1134"%string
  ]).

(** The array of the 8127a_tc function, 440 words. *)
Definition mcu_patch_code_8127a_tc : list Z :=
  hex_words (String.concat EmptyString [
    "E010E019E01BE01DE029E02CE0E1E192E194E196E198E19AE19CE19EE1A0E1A2C008710048979900C005C602BE003D8E"%string;
    "D428D400C602BE000000C502BD00000048C3484748C18CF874F874F874F848428CF81E10C502BD0014BA1E10C502BD00"%string;
    "14EEC64376C049E1F13FC140772049E0F0031B00E00A49E2F0031B04E00649E4F0031B08E0021B0C21B81A0E44DAE893"%string;
    "481CE884E00149E0F0031B00E00A49E2F0031B04E00649E4F0031B08E0021B0C21B81A1244DAE87F481FE870E00149E0"%string;
    "F0031B00E00A49E2F0031B04E00649E4F0031B08E0021B0C21B81A1C44DAE86B481FE85CE004E04FDD98D45049E0F003"%string;
    "1B00E00A49E2F0031B04E00649E4F0031B08E0021B0C21B81A0E44DAE854489E481FE844E0011908E83E49E0F0031B00"%string;
    "E00A49E2F0031B04E00649E4F0031B08E0021B0C21B81A8A44DAE83D4813E82E49F9F1064838E8374813E828E00149E0"%string;
    "F0031B00E00A49E2F0031B04E00649E4F0031B08E0021B0C21B81A8444DAE82348904811E81349F9F1064838E81C4890"%string;
    "4811E80CC2077440C602BE0014CC0FFEDE20E092C3FDE802FF80C0FB720249AEF1FE990044D34413482F9A02720249AE"%string;
    "F1FEFF80C0EE720249AEF1FE44D3441348AF9A02720249AEF1FE7100FF80B401B402B404B407C61F76C049E1F164C11C"%string;
    "77201906E88A1B0C21B81A4044DAE8954810E886190CE8811B0821B81A2644DAE88C48904891E87C49F9F10748984899"%string;
    "E877E003DD98D4501908E86F49E0F0031B00E00A49E2F0031B04E00649E2F0031B08E0021B0C21B81A5C44DAE86E4897"%string;
    "48984819481AE85C49F9F1094838E865489748984819481AE853E001190AE84D1B00E85B44E14838E85844E91908E845"%string;
    "49E0F0031B00E00A49E2F0031B04E00649E4F0031B08E0021B0C21B81A8644DAE84444CCE83549F9F1084838E83E44CD"%string;
    "E82FE003E021FFC0190AE8271B004839E834249A1C0044E11909E81F49E0F0031B00E00A49E2F0031B04E00649E4F003"%string;
    "1B08E0021B0C21B81A1A44DAE81EC5E4414D418CE80DB007B004B002B001C602BE0014B20FFEDE20C3FEE802FF80C0FC"%string;
    "720249AEF1FE990044D34413482F9A02720249AEF1FEFF80C0EF720249AEF1FE44D3441348AF9A02720249AEF1FE7100"%string;
    "FF80C502BD000000C502BD000000C502BD000000C302BB000000C602BE000000C102B9000000C102B9000000C602BE00"%string;
    "0000C602BE000000133200180C05140D"%string
  ]).

(** The array of the 8127a_1 function, 319 words. *)
Definition mcu_patch_code_8127a_1 : list Z :=
  hex_words (String.concat EmptyString [
    "E010E023E036E049E05CE075E0B1E117E11BE11DE11FE121E123E125E127E1297020B405B404C50F74A0C50E4025F005"%string;
    "48504025F002E0024809B004B005C502BD001522D00600047760B405B404C50F74A0C50E4025F00548504025F002E002"%string;
    "4879B004B005C002B80041E2D00600047160B405B404C50F74A0C50E4025F00548504025F002E0024819B004B005C302"%string;
    "BB00508ED00600047720B405B404C50F74A0C50E4025F00548504025F002E0024879B004B005C102B90050F8D0060004"%string;
    "61A9B403B404C3137460C3124023F00548304023F002E0034997F003C00AE002C009B004B003C102B90034FCD0060004"%string;
    "02AF041FB407B406B405B404B403B402B401B40049D2F116C62F77C049F9F02049FAF11E49F2F102E01B48F29FC0C625"%string;
    "75C248529DC2C1227020480148029820E00FC61A77C049F2F10BC61877C049F2F00748F29FC0C61175C248D29DC2B000"%string;
    "B001B002B003B004B005B006B0079D6CC502BD000168E024C010D410D460B407B406B405B404B403B402B401B400C152"%string;
    "70204981F043C0507100B401C14C489E481D9900C24A734049B7F135C1449900C2457340C447401CF109734C1301F12B"%string;
    "C3439B40C33E9B40E022C63A77C048F448F548F948FA9FC0C231734448B49B44C22E7340483048B14832483C48BD48BE"%string;
    "48BF9B40C223C32A9B48C3279B46C3249B40C3219B42C31E9B40E005C113702048819820B001C0109900B000B001B002"%string;
    "B003B004B005B006B0072125C102B9001A6CD410C000E86CB600B800B40AE0245A005A8100735A8000420001C104C202"%string;
    "BA001A2EC896C302BB000000C002B8000000C002B8000000C502BD000000C102B9000000C102B9000000C602BE000000"%string;
    "C602BE00000069610019050C140C"%string
  ]).
