(* ===== verification/Mcu.v ===== *)
(** The MAC microcontroller patches of rtl812xx.cpp: switching the page of the
    patch RAM window, loading a patch word by word, the version stamp, the
    breakpoints, and rtl8125_hw_mac_mcu_config, which does it per variant; the
    PHY microcontroller loader rtl8125_set_phy_mcu_ram_code and its lock. *)
From S2P Require Import Prelude Mmio Channel Chip SwVars Hw McuTables.
Local Open Scope prog_scope.

(** The fields of rtl8125_private the loader changes. *)
Record mcust := mkMcu { hw_mcu_patch_code_ver : Z; bin_mcu_patch_code_ver : Z }.

Definition RTL8125_MAC_MCU_PAGE_SIZE : Z := 256.

(** [entry_cnt] is the length of the array. *)
Definition rtl8125_get_bin_mcu_patch_code_ver (entry : list Z) : Z :=
  if (length entry <? 4)%nat then 0
  else foldl (fun ver e => u64 (Z.shiftl ver 16) .| e) 0 (drop (length entry - 4) entry).

Section Code.
Context {D : Type} `{M : !Mmio D}.

(** The sixteen breakpoint registers. *)
Definition bp_regs : list Z := (fun k => 0xFC28 + 2 * Z.of_nat k) <$> seq 0 16.

Definition rtl8125_hw_disable_mac_mcu_bps (m : cfg) : prog D unit :=
  rtl8125_enable_aspm_clkreq_lock m false ;;;
  rtl8125_mac_ocp_write 0xFC48 0 ;;;
  mac_ocp_writes ((fun a => (a, 0)) <$> bp_regs) ;;;
  delay_us 3000 ;;;
  rtl8125_mac_ocp_write 0xFC26 0.

Definition rtl8125_switch_mac_mcu_ram_code_page (page : Z) : prog D unit :=
  let page := page .& (BIT 1 .| BIT 0) in
  do tmp <- rtl8125_mac_ocp_read 0xE446;
  rtl8125_mac_ocp_write 0xE446 ((tmp .&~ (BIT 1 .| BIT 0)) .| page).

(** [for (i = 0; i < 8; i += 2) { write(0xF9F8 + 6 - i, (u16)ver); ver >>= 16; }]:
    [n] rounds left, the next address is [a]; what is left of [ver]. *)
Fixpoint ver_write_loop (n : nat) (a ver : Z) : prog D Z :=
  match n with
  | O => ret ver
  | S n' => rtl8125_mac_ocp_write a (u16 ver) ;;; ver_write_loop n' (a - 2) (Z.shiftr ver 16)
  end.

Definition rtl8125_set_hw_mcu_patch_code_ver (st : mcust) (ver : Z) : prog D mcust :=
  rtl8125_switch_mac_mcu_ram_code_page 2 ;;;
  do ver <- ver_write_loop 4 (0xF9F8 + 6) ver;
  rtl8125_switch_mac_mcu_ram_code_page 0 ;;;
  ret (mkMcu ver (bin_mcu_patch_code_ver st)).

Fixpoint ver_read_loop (n : nat) (a ver : Z) : prog D Z :=
  match n with
  | O => ret ver
  | S n' => do v <- rtl8125_mac_ocp_read a; ver_read_loop n' (a + 2) (u64 (Z.shiftl ver 16) .| v)
  end.

Definition rtl8125_get_hw_mcu_patch_code_ver : prog D Z :=
  rtl8125_switch_mac_mcu_ram_code_page 2 ;;;
  do ver <- ver_read_loop 4 0xF9F8 0;
  rtl8125_switch_mac_mcu_ram_code_page 0 ;;; ret ver.

(** The words from index [i] on. *)
Fixpoint write_words (entry : list Z) (i : Z) : prog D unit :=
  match entry with
  | [] => ret tt
  | e :: r => rtl8125_mac_ocp_write (0xF800 + i * 2) e ;;; write_words r (i + 1)
  end.
Definition _rtl812x_write_mac_mcu_ram_code (entry : list Z) : prog D unit := write_words entry 0.

Fixpoint write_words_paged (entry : list Z) (i page_size : Z) : prog D unit :=
  match entry with
  | [] => ret tt
  | e :: r =>
      let offset := i mod page_size in
      (if offset =? 0 then rtl8125_switch_mac_mcu_ram_code_page (u16 (i / page_size)) else ret tt) ;;;
      rtl8125_mac_ocp_write (0xF800 + offset * 2) e ;;; write_words_paged r (i + 1) page_size
  end.
Definition _rtl812x_write_mac_mcu_ram_code_with_page (entry : list Z) (page_size : Z) : prog D unit :=
  if page_size =? 0 then ret tt else write_words_paged entry 0 page_size.

Definition rtl8125_write_mac_mcu_ram_code (tp : tpctx) (st : mcust) (entry : list Z) : prog D mcust :=
  if negb (0 <? HwSuppMacMcuVer (sw tp)) then ret st else
  if (length entry =? 0)%nat then ret st else
  (if 0 <? MacMcuPageSize (sw tp)
   then _rtl812x_write_mac_mcu_ram_code_with_page entry (MacMcuPageSize (sw tp))
   else _rtl812x_write_mac_mcu_ram_code entry) ;;;
  if 0 <? bin_mcu_patch_code_ver st
  then rtl8125_set_hw_mcu_patch_code_ver st (bin_mcu_patch_code_ver st) else ret st.

(** ** The patch of each variant *)

(** The breakpoints: address and value, and the enable mask. *)
Definition set_bps (bps : list (Z * Z)) (mask : Z) : prog D unit :=
  rtl8125_mac_ocp_write 0xFC26 0x8000 ;;; mac_ocp_writes bps ;;; rtl8125_mac_ocp_write 0xFC48 mask.

(** The functions that write the words themselves. *)
Definition plain_patch (m : cfg) (code : list Z) (bps : list (Z * Z)) (mask : Z) : prog D unit :=
  rtl8125_hw_disable_mac_mcu_bps m ;;; write_words code 0 ;;; set_bps bps mask.

(** The functions that compare the version stamp first. *)
Definition stamped_patch (tp : tpctx) (st : mcust) (code : list Z) (bps : list (Z * Z)) (mask : Z) : prog D mcust :=
  let st := mkMcu (hw_mcu_patch_code_ver st) (rtl8125_get_bin_mcu_patch_code_ver code) in
  do st <- (if hw_mcu_patch_code_ver st =? bin_mcu_patch_code_ver st then ret st
            else rtl8125_write_mac_mcu_ram_code tp st code);
  set_bps bps mask ;;; ret st.
End Code.

Definition bps_8125a_2 := [(0xFC2A, 0x0540); (0xFC2E, 0x0E24); (0xFC30, 0x0EB8); (0xFC32, 0x3A5C); (0xFC34, 0x10A8)].
Definition bps_8125b_2 := [(0xFC28, 0x13E6); (0xFC2A, 0x0812); (0xFC2C, 0x248C); (0xFC2E, 0x12DA); (0xFC30, 0x4A20);
                           (0xFC32, 0x47A0)].
Definition bps_8125bp_1 := [(0xFC28, 0x0f10); (0xFC2A, 0x435c); (0xFC2C, 0x4112); (0xFC2E, 0x3F92); (0xFC30, 0x402E);
                            (0xFC32, 0x3FD6); (0xFC34, 0x4018)].
Definition bps_8125bp_2 := [(0xFC28, 0x413C); (0xFC2A, 0x438A); (0xFC2C, 0x143A); (0xFC2E, 0x3FC2); (0xFC30, 0x4058);
                            (0xFC32, 0x22E4)].
Definition bps_8125d_1 := [(0xFC28, 0x14A2); (0xFC2A, 0x2376)].
Definition bps_8125d_2 := [(0xFC28, 0x2382)].
Definition bps_8125cp_1 := [(0xFC28, 0x2436)].
Definition bps_8126a_1 := [(0xFC28, 0x0AAA)].
Definition bps_8126a_2 := [(0xFC2C, 0x2360); (0xFC2E, 0x14A4); (0xFC30, 0x415E); (0xFC32, 0x41E4); (0xFC34, 0x4280);
                           (0xFC36, 0x234A)].
Definition bps_8126a_3 := [(0xFC2C, 0x14A4); (0xFC2E, 0x4176); (0xFC30, 0x41FC); (0xFC32, 0x4298); (0xFC3A, 0x234A)].
Definition bps_8127a_tc := [(0xFC2E, 0x14B8); (0xFC30, 0x14EC)].
Definition bps_8127a_1 := [(0xFC28, 0x1520); (0xFC2A, 0x41E0); (0xFC2C, 0x508C); (0xFC2E, 0x50F6); (0xFC30, 0x34FA);
                           (0xFC32, 0x0166); (0xFC34, 0x1A6A); (0xFC36, 0x1A2C)].

Section Config.
Context {D : Type} `{M : !Mmio D}.

Definition rtl8125_set_mac_mcu_8125a_2 (tp : tpctx) (st : mcust) : prog D mcust :=
  plain_patch (mcfg (tid tp)) mcu_patch_code_8125a_2 bps_8125a_2 0x007A ;;; ret st.
Definition rtl8125_set_mac_mcu_8125b_2 (tp : tpctx) (st : mcust) : prog D mcust :=
  plain_patch (mcfg (tid tp)) mcu_patch_code_8125b_2 bps_8125b_2 0x003F ;;; ret st.
Definition rtl8125_set_mac_mcu_8125bp_1 (tp : tpctx) (st : mcust) : prog D mcust :=
  stamped_patch tp st mcu_patch_code_8125bp_1 bps_8125bp_1 0x007F.
Definition rtl8125_set_mac_mcu_8125bp_2 (tp : tpctx) (st : mcust) : prog D mcust :=
  stamped_patch tp st mcu_patch_code_8125bp_2 bps_8125bp_2 0x003F.
Definition rtl8125_set_mac_mcu_8125d_1 (tp : tpctx) (st : mcust) : prog D mcust :=
  stamped_patch tp st mcu_patch_code_8125d_1 bps_8125d_1 0x0003.
Definition rtl8125_set_mac_mcu_8125d_2 (tp : tpctx) (st : mcust) : prog D mcust :=
  stamped_patch tp st mcu_patch_code_8125d_2 bps_8125d_2 0x0001.
Definition rtl8125_set_mac_mcu_8125cp_1 (tp : tpctx) (st : mcust) : prog D mcust :=
  stamped_patch tp st mcu_patch_code_8125cp_1 bps_8125cp_1 0x0001.
(** Loads without a look at the stamp. *)
Definition rtl8126_set_mac_mcu_8126a_1 (tp : tpctx) (st : mcust) : prog D mcust :=
  do st <- rtl8125_write_mac_mcu_ram_code tp st mcu_patch_code_8126a_1;
  set_bps bps_8126a_1 0x0001 ;;; ret st.
Definition rtl8126_set_mac_mcu_8126a_2 (tp : tpctx) (st : mcust) : prog D mcust :=
  stamped_patch tp st mcu_patch_code_8126a_2 bps_8126a_2 0x00FC.
Definition rtl8126_set_mac_mcu_8126a_3 (tp : tpctx) (st : mcust) : prog D mcust :=
  stamped_patch tp st mcu_patch_code_8126a_3 bps_8126a_3 0x023C.
Definition rtl8127_set_mac_mcu_8127a_tc (tp : tpctx) (st : mcust) : prog D mcust :=
  stamped_patch tp st mcu_patch_code_8127a_tc bps_8127a_tc 0x0018.
Definition rtl8127_set_mac_mcu_8127a_1 (tp : tpctx) (st : mcust) : prog D mcust :=
  stamped_patch tp st mcu_patch_code_8127a_1 bps_8127a_1 0x00FF.

Definition rtl8125_hw_mac_mcu_config (tp : tpctx) (st : mcust) : prog D mcust :=
  if NotWrMcuPatchCode (sw tp) then ret st else
  rtl8125_hw_disable_mac_mcu_bps (mcfg (tid tp)) ;;;
  do hw <- rtl8125_get_hw_mcu_patch_code_ver;
  let st := mkMcu hw (bin_mcu_patch_code_ver st) in
  match mcfg (tid tp) with
  | CFG_METHOD_3 | CFG_METHOD_6 => rtl8125_set_mac_mcu_8125a_2 tp st
  | CFG_METHOD_5 | CFG_METHOD_7 => rtl8125_set_mac_mcu_8125b_2 tp st
  | CFG_METHOD_8 => rtl8125_set_mac_mcu_8125bp_1 tp st
  | CFG_METHOD_9 => rtl8125_set_mac_mcu_8125bp_2 tp st
  | CFG_METHOD_10 => rtl8125_set_mac_mcu_8125d_1 tp st
  | CFG_METHOD_11 | CFG_METHOD_13 => rtl8125_set_mac_mcu_8125d_2 tp st
  | CFG_METHOD_12 => rtl8125_set_mac_mcu_8125cp_1 tp st
  | CFG_METHOD_31 => rtl8126_set_mac_mcu_8126a_1 tp st
  | CFG_METHOD_32 => rtl8126_set_mac_mcu_8126a_2 tp st
  | CFG_METHOD_33 => rtl8126_set_mac_mcu_8126a_3 tp st
  | CFG_METHOD_41 => rtl8127_set_mac_mcu_8127a_tc tp st
  | CFG_METHOD_42 => rtl8127_set_mac_mcu_8127a_1 tp st
  | _ => ret st
  end.

(** ** The PHY microcontroller *)

(** Pairs of address and value up to the end or to the pair FFFF FFFF. *)
Fixpoint phy_ram_loop (fuel : nat) (tp : chancfg) (code : list Z) : prog D unit :=
  match fuel with
  | O => ret tt
  | S n =>
      match code with
      | addr :: val :: r =>
          if (addr =? 0xFFFF) && (val =? 0xFFFF) then ret tt
          else mdio_direct_write_phy_ocp tp addr val ;;; phy_ram_loop n tp r
      | _ => ret tt
      end
  end.

(** An array of odd length is not loaded at all. *)
Definition rtl8125_set_phy_mcu_ram_code (tp : chancfg) (ramcode : list Z) : prog D unit :=
  if Nat.odd (length ramcode) then ret tt else phy_ram_loop (length ramcode) tp ramcode.

Definition rtl8125_write_hw_phy_mcu_code_ver (tp : tpctx) : prog D (option Z) :=
  match mcfg (tid tp) with
  | CFG_METHOD_2 | CFG_METHOD_3 | CFG_METHOD_4 | CFG_METHOD_5 | CFG_METHOD_41 | CFG_METHOD_42 =>
      mdio_direct_write_phy_ocp (chan tp) 0xA436 0x801E ;;;
      mdio_direct_write_phy_ocp (chan tp) 0xA438 (sw_ram_code_ver (sw tp)) ;;;
      ret (Some (sw_ram_code_ver (sw tp)))
  | _ => ret None
  end.

Definition patch_key (m : cfg) : option Z :=
  match m with
  | CFG_METHOD_2 => Some 0x8600
  | CFG_METHOD_3 => Some 0x8601
  | CFG_METHOD_4 => Some 0x3700
  | CFG_METHOD_5 => Some 0x3701
  | _ => None
  end.

Definition rtl8125_acquire_phy_mcu_patch_key_lock (tp : tpctx) : prog D unit :=
  match patch_key (mcfg (tid tp)) with
  | None => ret tt
  | Some k =>
      mdio_direct_write_phy_ocp (chan tp) 0xA436 0x8024 ;;;
      mdio_direct_write_phy_ocp (chan tp) 0xA438 k ;;;
      mdio_direct_write_phy_ocp (chan tp) 0xA436 0xB82E ;;;
      mdio_direct_write_phy_ocp (chan tp) 0xA438 0x0001
  end.

Definition rtl8125_release_phy_mcu_patch_key_lock (tp : tpctx) : prog D unit :=
  match mcfg (tid tp) with
  | CFG_METHOD_2 | CFG_METHOD_3 | CFG_METHOD_4 | CFG_METHOD_5 =>
      mdio_direct_write_phy_ocp (chan tp) 0xA436 0 ;;;
      mdio_direct_write_phy_ocp (chan tp) 0xA438 0 ;;;
      ClearEthPhyOcpBit (chan tp) 0xB82E (BIT 0) ;;;
      mdio_direct_write_phy_ocp (chan tp) 0xA436 0x8024 ;;;
      mdio_direct_write_phy_ocp (chan tp) 0xA438 0
  | _ => ret tt
  end.

Definition rtl8125_wait_phy_mcu_patch_request_ready : prog D bool := patch_wait 1000 true.
End Config.
