(* ===== verification/McuSpec.v ===== *)
(** What the loaders of Mcu.v leave in the patch RAM of the MAC
    microcontroller, and the properties. *)
From S2P Require Import Prelude Mmio Channel ChannelSpec Chip SwVars Hw McuTables Mcu.

(** ** The patch RAM

    A window of 256 words of the MAC OCP space shows the page the low bits of
    E446 select; the other addresses are control registers. *)

Definition in_window (a : Z) : bool := (0xF800 <=? a) && (a <? 0xFA00).
Definition PAGE_REG : Z := 0xE446.

(** An even 16-bit address. *)
Definition word_addr (a : Z) : Prop := 0 <= a < 65536 /\ Z.even a = true.

Class McuRam (D : Type) `{M : !Mmio D} := {
  win : D -> Z -> Z -> Z;      (* page, address *)
  creg : D -> Z -> Z;
  creg_range : forall d a, 0 <= creg d a < 65536;
  mcu_write : forall a v d, word_addr a -> 0 <= v < 65536 ->
    let d' := (rtl8125_mac_ocp_write a v d).2 in
    (forall p b, win d' p b =
       if in_window a && (p =? creg d PAGE_REG .& 3) && (b =? a) then v else win d p b) /\
    (forall b, creg d' b = if negb (in_window a) && (b =? a) then v else creg d b);
  mcu_read : forall a d, word_addr a ->
    let '(v, d') := rtl8125_mac_ocp_read a d in
    v = (if in_window a then win d (creg d PAGE_REG .& 3) a else creg d a) /\
    (forall p b, win d' p b = win d p b) /\ (forall b, creg d' b = creg d b);
  mcu_r8 : forall a d, let d' := (RTL_R8 a d).2 in
    (forall p b, win d' p b = win d p b) /\ (forall b, creg d' b = creg d b);
  mcu_w8 : forall a v d, let d' := (RTL_W8 a v d).2 in
    (forall p b, win d' p b = win d p b) /\ (forall b, creg d' b = creg d b);
  mcu_delay : forall n d, let d' := (delay_us n d).2 in
    (forall p b, win d' p b = win d p b) /\ (forall b, creg d' b = creg d b);
}.

(** The two parts as a value, and one write to it. *)
Record ram := mkRam { W : Z -> Z -> Z; C : Z -> Z }.

Definition mw (a v : Z) (s : ram) : ram :=
  if in_window a
  then mkRam (fun p b => if (p =? C s PAGE_REG .& 3) && (b =? a) then v else W s p b) (C s)
  else mkRam (W s) (fun b => if b =? a then v else C s b).

Definition mws (l : list (Z * Z)) (s : ram) : ram := foldl (fun s av => mw av.1 av.2 s) s l.

Definition switch (p : Z) (s : ram) : ram := mw PAGE_REG ((C s PAGE_REG .&~ 3) .| (p .& 3)) s.

(** A write that the port laws cover. *)
Definition good_write (av : Z * Z) : Prop := word_addr av.1 /\ 0 <= av.2 < 65536.

Lemma W_mw_reg a v s p b : in_window a = false -> W (mw a v s) p b = W s p b.
Proof. intros H. unfold mw. by rewrite H. Qed.

Lemma C_mw_reg a v s b : in_window a = false -> C (mw a v s) b = if b =? a then v else C s b.
Proof. intros H. unfold mw. by rewrite H. Qed.

Lemma C_mw_win a v s b : in_window a = true -> C (mw a v s) b = C s b.
Proof. intros H. unfold mw. by rewrite H. Qed.

Lemma W_mw_win a v s p b : in_window a = true ->
  W (mw a v s) p b = if (p =? C s PAGE_REG .& 3) && (b =? a) then v else W s p b.
Proof. intros H. unfold mw. by rewrite H. Qed.

Lemma W_switch q s p b : W (switch q s) p b = W s p b.
Proof. done. Qed.

Lemma C_switch q s b : b <> PAGE_REG -> C (switch q s) b = C s b.
Proof. intros H. unfold switch. rewrite C_mw_reg by done. by rewrite (proj2 (Z.eqb_neq _ _) H). Qed.

Lemma page_switch q s : 0 <= q < 4 -> C (switch q s) PAGE_REG .& 3 = q.
Proof.
  intros Hq. unfold switch. rewrite C_mw_reg, Z.eqb_refl by done.
  rewrite Z.land_lor_distr_l. replace ((C s PAGE_REG .&~ 3) .& 3) with 0.
  - rewrite Z.lor_0_l, !(land_mask _ 3 2) by done. change (2 ^ 2) with 4. lia.
  - symmetry. apply Z.bits_inj'. intros n Hn. autorewrite with rtl_bits. by destruct (Z.testbit 3 n); rewrite ?andb_false_r.
Qed.

(** Writes to control registers: the last value wins. *)
Definition last_value (b : Z) (l : list (Z * Z)) (old : Z) : Z :=
  foldl (fun acc av => if b =? av.1 then av.2 else acc) old l.

Lemma mws_regs l : forall s, Forall (fun av => in_window av.1 = false) l ->
  (forall p b, W (mws l s) p b = W s p b) /\ forall b, C (mws l s) b = last_value b l (C s b).
Proof.
  induction l as [|av l IH]; intros s H; [done|]. inversion H as [|? ? Ha Hl]; subst.
  destruct (IH (mw av.1 av.2 s) Hl) as [HW HC]. split.
  - intros p b. cbn [mws foldl]. fold (mws l (mw av.1 av.2 s)). rewrite HW. by apply W_mw_reg.
  - intros b. cbn [mws foldl last_value]. fold (mws l (mw av.1 av.2 s)). rewrite HC, C_mw_reg by done. done.
Qed.

(** ** Programs on the RAM *)
Section Rep.
Context {D : Type} `{M : !Mmio D} `{P : !McuRam D}.

Definition rep (d : D) (s : ram) : Prop := (forall p b, win d p b = W s p b) /\ (forall b, creg d b = C s b).

Definition view (d : D) : ram := mkRam (win d) (creg d).

Lemma rep_view d : rep d (view d).
Proof. done. Qed.

Lemma rep_write a v d s : word_addr a -> 0 <= v < 65536 -> rep d s ->
  rep (rtl8125_mac_ocp_write a v d).2 (mw a v s).
Proof.
  intros Ha Hv [HW HC]. destruct (mcu_write a v d Ha Hv) as [H1 H2].
  split; [intros p b; rewrite H1|intros b; rewrite H2]; unfold mw; destruct (in_window a); cbn [W C andb negb];
    by rewrite ?HW, ?HC.
Qed.

Lemma rep_read a d s : word_addr a -> rep d s ->
  let '(v, d') := rtl8125_mac_ocp_read a d in
  v = (if in_window a then W s (C s PAGE_REG .& 3) a else C s a) /\ rep d' s.
Proof.
  intros Ha [HW HC]. pose proof (mcu_read a d Ha) as H. destruct (rtl8125_mac_ocp_read a d) as [v d'].
  destruct H as (->&H1&H2). rewrite HW, !HC. split; [done|]. split; [intros p b|intros b]; congruence.
Qed.

Lemma rep_range d s b : rep d s -> 0 <= C s b < 65536.
Proof. intros [_ HC]. rewrite <- HC. apply creg_range. Qed.

(** Programs that leave the RAM alone. *)
Definition inert {A} (p : prog D A) : Prop := forall d s, rep d s -> rep (p d).2 s.

Lemma inert_same {A} (p : prog D A) :
  (forall d, (forall q b, win (p d).2 q b = win d q b) /\ (forall b, creg (p d).2 b = creg d b)) -> inert p.
Proof. intros H d s [HW HC]. destruct (H d) as [H1 H2]. split; [intros q b|intros b]; congruence. Qed.

Lemma inert_bind {A B} (p : prog D A) (k : A -> prog D B) : inert p -> (forall a, inert (k a)) -> inert (bind p k).
Proof. intros Hp Hk d s H. rewrite bind_run. apply Hk, Hp, H. Qed.

Lemma inert_ret {A} (a : A) : inert (ret a).
Proof. by intros d s H. Qed.

Lemma inert_bits a m : inert (set8 a m) /\ inert (clr8 a m).
Proof.
  split; (apply inert_bind; [apply inert_same; intros d; apply mcu_r8|
    intros v; apply inert_same; intros d; apply mcu_w8]).
Qed.

Lemma inert_aspm m e : inert (rtl8125_enable_aspm_clkreq_lock m e).
Proof.
  unfold rtl8125_enable_aspm_clkreq_lock. apply inert_bind; [apply inert_same; intros d; apply mcu_r8|intros c].
  apply inert_bind; [|intros _; apply inert_bind; [|intros _]].
  - destruct (negb _); [apply inert_bits|apply inert_ret].
  - unfold aspm_bits. destruct m, e; (apply inert_bind; [apply inert_bits|intros _; apply inert_bits]).
  - destruct (negb _); [apply inert_bits|apply inert_ret].
Qed.

Lemma rep_writes l : forall d s, Forall good_write l -> rep d s -> rep (mac_ocp_writes l d).2 (mws l s).
Proof.
  induction l as [|[a v] l IH]; intros d s H Hr; [exact Hr|]. inversion H as [|? ? [Ha Hv] Hl]; subst.
  cbn [mac_ocp_writes]. rewrite bind_run. apply IH; [done|]. by apply rep_write.
Qed.

Lemma rep_switch p d s : rep d s -> rep (rtl8125_switch_mac_mcu_ram_code_page p d).2 (switch p s).
Proof.
  intros Hr. unfold rtl8125_switch_mac_mcu_ram_code_page. cbv zeta. rewrite bind_run.
  assert (HA : word_addr PAGE_REG) by (by vm_compute).
  pose proof (rep_read PAGE_REG d s HA Hr) as H. change 0xE446 with PAGE_REG.
  destruct (rtl8125_mac_ocp_read PAGE_REG d) as [v d']. destruct H as [-> Hr']. cbn [fst snd].
  change (in_window PAGE_REG) with false. cbv iota. apply rep_write; [done| |done].
  pose proof (rep_range d s PAGE_REG Hr). change (BIT 1 .| BIT 0) with 3.
  apply (lor_bound _ _ 16); [lia|apply (ldiff_bound _ _ 16); lia|apply (land_bound _ _ 16); lia].
Qed.
End Rep.

(** ** Loading

    [sw]: the page is switched at every page boundary. *)

Definition slot_addr (i : Z) : Z := 0xF800 + (i mod 256) * 2.

Fixpoint load (sw : bool) (l : list Z) (i : Z) (s : ram) : ram :=
  match l with
  | [] => s
  | e :: r => load sw r (i + 1) (mw (slot_addr i) e (if sw && (i mod 256 =? 0) then switch (i / 256) s else s))
  end.

Lemma slot_addr_ok i : word_addr (slot_addr i) /\ in_window (slot_addr i) = true.
Proof.
  unfold word_addr, in_window, slot_addr. split; [split; [lia|]|].
  - rewrite Z.even_add, Z.even_mul. by rewrite orb_true_r.
  - apply andb_true_intro. split; [apply Z.leb_le|apply Z.ltb_lt]; lia.
Qed.

Lemma slot_inj i j : i / 256 = j / 256 -> slot_addr i = slot_addr j -> i = j.
Proof. unfold slot_addr. lia. Qed.

Lemma load_spec sw l : forall i s, 0 <= i -> i + Z.of_nat (length l) <= 1024 ->
  (sw = false -> i + Z.of_nat (length l) <= 256) ->
  l = [] \/ (sw = true /\ i mod 256 = 0) \/ C s PAGE_REG .& 3 = i / 256 ->
  (forall j e, l !! j = Some e -> W (load sw l i s) ((i + Z.of_nat j) / 256) (slot_addr (i + Z.of_nat j)) = e) /\
  (forall p b, (forall j, (j < length l)%nat -> ~ (p = (i + Z.of_nat j) / 256 /\ b = slot_addr (i + Z.of_nat j))) ->
     W (load sw l i s) p b = W s p b) /\
  (forall b, b <> PAGE_REG -> C (load sw l i s) b = C s b).
Proof.
  induction l as [|e l IH]; intros i s Hi Hl Hs Hp; [done|]. cbn [length] in Hl, Hs. cbn [load].
  set (s0 := if sw && (i mod 256 =? 0) then switch (i / 256) s else s).
  destruct (slot_addr_ok i) as [_ Hw].
  assert (P0 : C s0 PAGE_REG .& 3 = i / 256).
  { unfold s0. destruct Hp as [?|[[-> Hm]|Hp]]; [done| |].
    - rewrite Hm. apply page_switch. lia.
    - destruct (sw && _); [apply page_switch; lia|exact Hp]. }
  assert (W0 : forall p b, W s0 p b = W s p b) by (intros; unfold s0; by destruct (sw && _)).
  assert (C0 : forall b, b <> PAGE_REG -> C s0 b = C s b)
    by (intros b Hb; unfold s0; destruct (sw && _); [by apply C_switch|done]).
  destruct (IH (i + 1) (mw (slot_addr i) e s0)) as (A&B&E); [lia|lia|intros H; specialize (Hs H); lia| |].
  { rewrite C_mw_win, P0 by done. destruct (decide ((i + 1) mod 256 = 0)) as [Hz|Hz]; [|right; right; lia].
    destruct sw; [right; by left|]. specialize (Hs eq_refl). destruct l; [by left|cbn [length] in Hs; lia]. }
  split; [|split].
  - intros [|j] e' Hj.
    + injection Hj as <-. rewrite Z.add_0_r, B.
      * rewrite W_mw_win, P0, !Z.eqb_refl by done. done.
      * intros j Hj [H1 H2]. pose proof (slot_inj i (i + 1 + Z.of_nat j) H1 H2). lia.
    + replace (i + Z.of_nat (S j)) with (i + 1 + Z.of_nat j) by lia. by apply A.
  - intros p b Hb. rewrite B.
    + rewrite W_mw_win, P0, W0 by done. destruct ((p =? i / 256) && (b =? slot_addr i)) eqn:Eq; [|done].
      bool_props. exfalso. apply (Hb 0%nat); [cbn [length]; lia|]. by rewrite Z.add_0_r.
    + intros j Hj [H1 H2]. apply (Hb (S j)); [cbn [length]; lia|]. by replace (i + Z.of_nat (S j)) with (i + 1 + Z.of_nat j) by lia.
  - intros b Hb. by rewrite E, C_mw_win, C0.
Qed.

(** ** The version stamp *)

Definition join4 (l : list Z) : Z := foldl (fun ver v => u64 (Z.shiftl ver 16) .| v) 0 l.

Definition stamp_addr (k : Z) : Z := 0xF9F8 + 2 * k.

(** The stamp in page 2. *)
Definition stamp (s : ram) : Z := join4 [W s 2 (stamp_addr 0); W s 2 (stamp_addr 1); W s 2 (stamp_addr 2); W s 2 (stamp_addr 3)].

Definition stamp_words (ver : Z) : list (Z * Z) :=
  [(stamp_addr 3, u16 ver); (stamp_addr 2, u16 (Z.shiftr ver 16)); (stamp_addr 1, u16 (Z.shiftr ver 32));
   (stamp_addr 0, u16 (Z.shiftr ver 48))].

Lemma join_step v w : 0 <= v -> 0 <= w < 65536 -> v * 65536 < 2 ^ 64 -> u64 (Z.shiftl v 16) .| w = v * 65536 + w.
Proof.
  intros Hv Hw Hb. rewrite Z.shiftl_mul_pow2, u64_small by lia. by rewrite lor_add_shift by lia.
Qed.

Lemma join_words a b c e : 0 <= a < 65536 -> 0 <= b < 65536 -> 0 <= c < 65536 -> 0 <= e < 65536 ->
  join4 [a; b; c; e] = ((a * 65536 + b) * 65536 + c) * 65536 + e.
Proof.
  intros. unfold join4. cbn [foldl].
  rewrite (join_step 0 a), (join_step _ b), (join_step _ c), (join_step _ e) by lia. lia.
Qed.

Lemma join_split ver : 0 <= ver < 2 ^ 64 ->
  join4 [u16 (Z.shiftr ver 48); u16 (Z.shiftr ver 32); u16 (Z.shiftr ver 16); u16 ver] = ver.
Proof.
  intros H. rewrite join_words by apply u16_range. rewrite !Z.shiftr_div_pow2 by lia. unfold u16.
  change (2 ^ 48) with (65536 * (65536 * 65536)). change (2 ^ 32) with (65536 * 65536). change (2 ^ 16) with 65536.
  rewrite <- !Z.div_div by lia. set (x := ver / 65536). set (y := x / 65536). set (z := y / 65536).
  assert (0 <= z < 65536) by (unfold z, y, x; lia). lia.
Qed.

Definition put_stamp (ver : Z) (s : ram) : ram := switch 0 (mws (stamp_words ver) (switch 2 s)).

Lemma put_stamp_spec ver s :
  (forall p b, W (put_stamp ver s) p b = if p =? 2 then last_value b (stamp_words ver) (W s p b) else W s p b) /\
  (forall b, b <> PAGE_REG -> C (put_stamp ver s) b = C s b) /\ C (put_stamp ver s) PAGE_REG .& 3 = 0.
Proof.
  unfold put_stamp. split; [|split].
  - intros p b. rewrite W_switch. cbn [mws foldl stamp_words last_value fst snd].
    rewrite !W_mw_win, !C_mw_win, page_switch, W_switch by done. by destruct (p =? 2).
  - intros b Hb. rewrite C_switch by done. cbn [mws foldl stamp_words fst snd]. by rewrite !C_mw_win, C_switch by done.
  - by apply page_switch.
Qed.

Lemma stamp_put ver s : 0 <= ver < 2 ^ 64 -> stamp (put_stamp ver s) = ver.
Proof.
  intros Hv. unfold stamp. destruct (put_stamp_spec ver s) as [HW _]. rewrite !HW, !Z.eqb_refl.
  by apply join_split.
Qed.

(** ** The loaders refine these functions *)

Definition is_word (e : Z) : Prop := 0 <= e < 65536.

Definition DISABLE : list (Z * Z) := (0xFC48, 0) :: ((fun a => (a, 0)) <$> bp_regs) ++ [(0xFC26, 0)].

Definition BPS (bps : list (Z * Z)) (mask : Z) : list (Z * Z) := (0xFC26, 0x8000) :: bps ++ [(0xFC48, mask)].

Lemma mws_app l1 l2 s : mws (l1 ++ l2) s = mws l2 (mws l1 s).
Proof. apply foldl_app. Qed.

Lemma mws_cons av l s : mws (av :: l) s = mws l (mw av.1 av.2 s).
Proof. done. Qed.

Section Loaders.
Context {D : Type} `{M : !Mmio D} `{P : !McuRam D}.

Lemma rep_paged l : forall i d s, Forall is_word l -> 0 <= i -> i + Z.of_nat (length l) <= 1024 -> rep d s ->
  rep (write_words_paged l i 256 d).2 (load true l i s).
Proof.
  induction l as [|e l IH]; intros i d s Hw Hi Hl Hr; [exact Hr|]. cbn [length] in Hl.
  inversion Hw as [|? ? He Hw']; subst. cbn [write_words_paged load]. cbv zeta. rewrite !bind_run.
  apply IH; [done|lia|lia|]. apply rep_write; [apply slot_addr_ok|done|].
  cbn [andb]. destruct (i mod 256 =? 0); [|exact Hr]. rewrite u16_small by lia. by apply rep_switch.
Qed.

Lemma rep_plain l : forall i d s, Forall is_word l -> 0 <= i -> i + Z.of_nat (length l) <= 256 -> rep d s ->
  rep (write_words l i d).2 (load false l i s).
Proof.
  induction l as [|e l IH]; intros i d s Hw Hi Hl Hr; [exact Hr|]. cbn [length] in Hl.
  inversion Hw as [|? ? He Hw']; subst. cbn [write_words load andb]. rewrite !bind_run.
  apply IH; [done|lia|lia|]. unfold slot_addr. rewrite Z.mod_small by lia. apply rep_write; [|done|done].
  pose proof (slot_addr_ok i) as [H _]. unfold slot_addr in H. by rewrite Z.mod_small in H by lia.
Qed.

Lemma rep_disable m d s : rep d s -> rep (rtl8125_hw_disable_mac_mcu_bps m d).2 (mws DISABLE s).
Proof.
  intros Hr. unfold rtl8125_hw_disable_mac_mcu_bps, DISABLE. rewrite mws_cons, mws_app. rewrite !bind_run.
  apply (rep_write 0xFC26 0); [by vm_compute|lia|]. apply (inert_same (delay_us 3000)); [apply mcu_delay|].
  apply rep_writes; [|apply rep_write; [by vm_compute|by vm_compute|by apply inert_aspm]].
  apply Forall_fmap, Forall_forall. intros a Ha. apply list_elem_of_fmap in Ha as (k&->&Hk).
  apply elem_of_seq in Hk. split; [split; [cbn [fst]; lia|]|cbn [snd]; lia].
  cbn [fst]. by rewrite Z.even_add_mul_2.
Qed.

Lemma rep_bps bps mask d s : Forall good_write bps -> 0 <= mask < 65536 -> rep d s ->
  rep (set_bps bps mask d).2 (mws (BPS bps mask) s).
Proof.
  intros Hb Hm Hr. unfold set_bps, BPS. rewrite mws_cons, mws_app. rewrite !bind_run.
  apply (rep_write 0xFC48 mask); [by vm_compute|done|]. apply rep_writes; [done|].
  by apply (rep_write 0xFC26 0x8000); [by vm_compute|lia|].
Qed.

Lemma rep_set_stamp st ver d s : 0 <= ver < 2 ^ 64 -> rep d s ->
  let '(st', d') := rtl8125_set_hw_mcu_patch_code_ver st ver d in
  st' = mkMcu 0 (bin_mcu_patch_code_ver st) /\ rep d' (put_stamp ver s).
Proof.
  intros Hv Hr. unfold rtl8125_set_hw_mcu_patch_code_ver. rewrite !bind_run. cbn [ver_write_loop].
  rewrite !bind_run. unfold ret. cbn [fst snd]. rewrite !Z.shiftr_shiftr by lia.
  split; [f_equal; rewrite Z.shiftr_div_pow2 by lia; apply Z.div_small; lia|].
  apply rep_switch. cbn [stamp_words mws foldl fst snd].
  repeat (apply rep_write; [by vm_compute|apply u16_range|]). by apply rep_switch.
Qed.

Lemma rep_ver_read n : forall a ver d s, rep d s -> C s PAGE_REG .& 3 = 2 -> Z.even a = true ->
  0xF800 <= a -> a + 2 * Z.of_nat n <= 0xFA00 ->
  let '(v, d') := ver_read_loop n a ver d in
  v = foldl (fun ver w => u64 (Z.shiftl ver 16) .| w) ver ((fun k => W s 2 (a + 2 * Z.of_nat k)) <$> seq 0 n) /\
  rep d' s.
Proof.
  induction n as [|n IH]; intros a ver d s Hr Hp He H1 H2; [done|]. cbn [ver_read_loop]. rewrite bind_run.
  assert (Ha : word_addr a) by (split; [lia|done]). pose proof (rep_read a d s Ha Hr) as H.
  destruct (rtl8125_mac_ocp_read a d) as [v d']. destruct H as [-> Hr']. cbn [fst snd].
  assert (in_window a = true) as -> by (apply andb_true_intro; split; [apply Z.leb_le|apply Z.ltb_lt]; lia).
  rewrite Hp. specialize (IH (a + 2) (u64 (Z.shiftl ver 16) .| W s 2 a) d' s Hr' Hp).
  destruct (ver_read_loop n (a + 2) _ d') as [r d2]. destruct IH as [-> H]; [by rewrite Z.even_add, He|lia|lia|].
  split; [|exact H]. cbn [seq]. rewrite fmap_cons. cbn [foldl]. rewrite Z.mul_0_r, Z.add_0_r.
  f_equal. rewrite <- fmap_S_seq, <- list_fmap_compose. apply list_fmap_ext. intros i k _. cbn. f_equal. lia.
Qed.

Lemma rep_get_stamp d s : rep d s ->
  let '(v, d') := rtl8125_get_hw_mcu_patch_code_ver d in v = stamp s /\ rep d' (switch 0 (switch 2 s)).
Proof.
  intros Hr. unfold rtl8125_get_hw_mcu_patch_code_ver. rewrite !bind_run.
  pose proof (rep_switch 2 d s Hr) as H0. set (d0 := (rtl8125_switch_mac_mcu_ram_code_page 2 d).2) in *.
  pose proof (rep_ver_read 4 0xF9F8 0 d0 _ H0 (page_switch 2 s ltac:(lia)) eq_refl ltac:(lia) ltac:(lia)) as H.
  destruct (ver_read_loop 4 0xF9F8 0 d0) as [v d1]. destruct H as [-> H1]. unfold ret. cbn [fst snd].
  split; [done|]. by apply rep_switch.
Qed.
End Loaders.

(** ** The patches as data *)

Record patch := mkPatch { p_code : list Z; p_bps : list (Z * Z); p_mask : Z; p_paged : bool; p_stamped : bool }.

Definition patch_of (m : cfg) : option patch :=
  match m with
  | CFG_METHOD_3 | CFG_METHOD_6 => Some (mkPatch mcu_patch_code_8125a_2 bps_8125a_2 0x007A false false)
  | CFG_METHOD_5 | CFG_METHOD_7 => Some (mkPatch mcu_patch_code_8125b_2 bps_8125b_2 0x003F false false)
  | CFG_METHOD_8 => Some (mkPatch mcu_patch_code_8125bp_1 bps_8125bp_1 0x007F true true)
  | CFG_METHOD_9 => Some (mkPatch mcu_patch_code_8125bp_2 bps_8125bp_2 0x003F true true)
  | CFG_METHOD_10 => Some (mkPatch mcu_patch_code_8125d_1 bps_8125d_1 0x0003 true true)
  | CFG_METHOD_11 | CFG_METHOD_13 => Some (mkPatch mcu_patch_code_8125d_2 bps_8125d_2 0x0001 true true)
  | CFG_METHOD_12 => Some (mkPatch mcu_patch_code_8125cp_1 bps_8125cp_1 0x0001 true true)
  | CFG_METHOD_31 => Some (mkPatch mcu_patch_code_8126a_1 bps_8126a_1 0x0001 true false)
  | CFG_METHOD_32 => Some (mkPatch mcu_patch_code_8126a_2 bps_8126a_2 0x00FC true true)
  | CFG_METHOD_33 => Some (mkPatch mcu_patch_code_8126a_3 bps_8126a_3 0x023C true true)
  | CFG_METHOD_41 => Some (mkPatch mcu_patch_code_8127a_tc bps_8127a_tc 0x0018 true true)
  | CFG_METHOD_42 => Some (mkPatch mcu_patch_code_8127a_1 bps_8127a_1 0x00FF true true)
  | _ => None
  end.

Definition p_ver (P : patch) : Z := rtl8125_get_bin_mcu_patch_code_ver (p_code P).

Definition bp_addr (k : Z) : Z := 0xFC28 + 2 * k.

(** The words of the array that fall on the stamp are the stamp. *)
Definition stamp_word (P : patch) (k : nat) : Z := u16 (Z.shiftr (p_ver P) (16 * (3 - Z.of_nat k))).
Definition stamp_agrees (P : patch) (k : nat) : bool :=
  match p_code P !! (764 + k)%nat with None => true | Some e => e =? stamp_word P k end.

Definition word_b (e : Z) : bool := (0 <=? e) && (e <? 65536).
Definition bp_b (av : Z * Z) : bool := existsb (fun k => av.1 =? bp_addr (Z.of_nat k)) (seq 0 16) && word_b av.2.

(** Every breakpoint with an address is enabled, and no other. *)
Definition bp_enabled (P : patch) (k : nat) : bool :=
  Bool.eqb (Z.testbit (p_mask P) (Z.of_nat k)) (existsb (fun av => av.1 =? bp_addr (Z.of_nat k)) (p_bps P)).

Definition patch_ok (P : patch) : bool :=
  forallb word_b (p_code P) && forallb bp_b (p_bps P) && word_b (p_mask P) &&
  (0 <? length (p_code P))%nat && (length (p_code P) <=? 1024)%nat &&
  (p_paged P || (length (p_code P) <=? 256)%nat) && (p_paged P || negb (p_stamped P)) &&
  (negb (p_stamped P) || ((0 <? p_ver P) && forallb (stamp_agrees P) (seq 0 4))) &&
  forallb (bp_enabled P) (seq 0 16).

Lemma patches_ok m P : patch_of m = Some P -> patch_ok P = true.
Proof. intros H. destruct m; try discriminate H; injection H as <-; vm_compute; reflexivity. Qed.

Lemma word_b_ok e : word_b e = true -> is_word e.
Proof. intros H. unfold word_b in H. bool_props. by split. Qed.

Lemma words_ok l : forallb word_b l = true -> Forall is_word l.
Proof. intros H. apply Forall_forall. intros e He. apply word_b_ok. by apply (proj1 (forallb_forall _ _) H), list_elem_of_In. Qed.

Lemma bps_ok l : forallb bp_b l = true -> Forall good_write l /\ Forall (fun av => 0xFC28 <= av.1 < 0xFC48) l.
Proof.
  intros H. assert (B : forall av, av ∈ l -> exists k, (k < 16)%nat /\ av.1 = bp_addr (Z.of_nat k) /\ is_word av.2).
  { intros av Hav. apply list_elem_of_In in Hav. apply (proj1 (forallb_forall _ _) H) in Hav.
    unfold bp_b in Hav. apply andb_prop in Hav as [Ha Hv]. apply existsb_exists in Ha as (k&Hk&He).
    apply in_seq in Hk. exists k. split; [lia|]. split; [by apply Z.eqb_eq|by apply word_b_ok]. }
  split; apply Forall_forall; intros av Hav; destruct (B av Hav) as (k&Hk&Ha&Hv); unfold bp_addr in Ha.
  - split; [|exact Hv]. rewrite Ha. split; [lia|]. by rewrite Z.even_add_mul_2.
  - rewrite Ha. lia.
Qed.

Lemma bps_window l : Forall (fun av : Z * Z => 0xFC28 <= av.1 < 0xFC48) l -> Forall (fun av => in_window av.1 = false) l.
Proof. intros H. eapply Forall_impl; [exact H|]. intros av Ha. unfold in_window. cbn in Ha. apply andb_false_intro2, Z.ltb_ge. lia. Qed.

Lemma last_value_other b l o : Forall (fun av : Z * Z => 0xFC28 <= av.1 < 0xFC48) l -> ~ 0xFC28 <= b < 0xFC48 ->
  last_value b l o = o.
Proof.
  revert o. induction l as [|av l IH]; intros o H Hb; [done|]. inversion H; subst. unfold last_value. cbn [foldl].
  rewrite (proj2 (Z.eqb_neq b av.1)) by (intros ->; done). by apply IH.
Qed.

Lemma last_value_BPS b bps mask o :
  last_value b (BPS bps mask) o =
  if b =? 0xFC48 then mask else last_value b bps (if b =? 0xFC26 then 0x8000 else o).
Proof. unfold BPS, last_value. cbn [foldl fst snd]. by rewrite foldl_app. Qed.

(** ** What the configuration leaves *)

Definition prepared (s : ram) : ram := switch 0 (switch 2 (mws DISABLE s)).

Definition loaded (P : patch) (s : ram) : ram :=
  if p_paged P then
    let r := load true (p_code P) 0 s in if p_stamped P then put_stamp (p_ver P) r else r
  else load false (p_code P) 0 (mws DISABLE s).

(** The stamp is the patch's: the RAM is left alone. *)
Definition skips (P : patch) (s : ram) : bool := p_stamped P && (stamp s =? p_ver P).

Definition config_state (P : patch) (s : ram) : ram :=
  mws (BPS (p_bps P) (p_mask P)) (if skips P s then prepared s else loaded P (prepared s)).

Lemma disable_window : Forall (fun av => in_window av.1 = false) DISABLE.
Proof. repeat constructor. Qed.

Lemma prepared_W s p b : W (prepared s) p b = W s p b.
Proof. unfold prepared. rewrite !W_switch. apply (mws_regs DISABLE s disable_window). Qed.

Lemma prepared_page s : C (prepared s) PAGE_REG .& 3 = 0.
Proof. by apply page_switch. Qed.

Lemma stamp_ext s s' : (forall b, W s 2 b = W s' 2 b) -> stamp s = stamp s'.
Proof. intros H. unfold stamp. by rewrite !H. Qed.

(** The control registers of the breakpoints before the patch's own. *)
Definition cleared (s : ram) : Prop := forall k, 0 <= k < 16 -> C s (bp_addr k) = 0.

Lemma disable_clears s : cleared (mws DISABLE s).
Proof.
  intros k Hk. rewrite (proj2 (mws_regs DISABLE s disable_window)).
  assert (exists n, (n < 16)%nat /\ k = Z.of_nat n) as (n&Hn&->) by (exists (Z.to_nat k); lia).
  do 16 (destruct n as [|n]; [reflexivity|]). lia.
Qed.

Lemma prepared_cleared s : cleared (prepared s).
Proof. intros k Hk. unfold prepared. rewrite !C_switch by (unfold bp_addr, PAGE_REG; lia). by apply disable_clears. Qed.

Section Pure.
Context (P : patch) (HP : patch_ok P = true).

Lemma patch_facts :
  Forall is_word (p_code P) /\ Forall good_write (p_bps P) /\ Forall (fun av => 0xFC28 <= av.1 < 0xFC48) (p_bps P) /\
  is_word (p_mask P) /\ 0 < Z.of_nat (length (p_code P)) <= 1024 /\
  (p_paged P = false -> Z.of_nat (length (p_code P)) <= 256 /\ p_stamped P = false) /\
  (p_stamped P = true -> 0 < p_ver P /\ forall k, (k < 4)%nat -> stamp_agrees P k = true) /\
  forall k, (k < 16)%nat -> bp_enabled P k = true.
Proof.
  unfold patch_ok in HP. rewrite !andb_true_iff in HP.
  destruct HP as ((((((((Hc&Hb)&Hm)&L0)&L1)&L2)&L3)&Hs)&He). apply Nat.ltb_lt in L0. apply Nat.leb_le in L1.
  destruct (bps_ok _ Hb) as [B1 B2].
  split_and!; [by apply words_ok|done|done|by apply word_b_ok|lia|lia| | |].
  - intros E. rewrite E in *. cbn [orb] in *. apply Nat.leb_le in L2. split; [lia|by apply negb_true_iff].
  - intros E. rewrite E in *. cbn [negb orb] in *. bool_props. split; [done|]. intros k Hk.
    match goal with H : forallb (stamp_agrees P) _ = true |- _ => apply (proj1 (forallb_forall _ _) H), in_seq end. lia.
  - intros k Hk. apply (proj1 (forallb_forall _ _) He), in_seq. lia.
Qed.

Lemma stamp_lookup k e : (k < 4)%nat -> p_stamped P = true -> p_code P !! (764 + k)%nat = Some e -> e = stamp_word P k.
Proof.
  intros Hk Hs He. destruct patch_facts as (_&_&_&_&_&_&HS&_). destruct (HS Hs) as [_ Ha]. specialize (Ha k Hk).
  unfold stamp_agrees in Ha. rewrite He in Ha. by apply Z.eqb_eq.
Qed.

(** Stamping a loaded patch does not damage it. *)
Lemma stamp_keeps r j e : p_stamped P = true -> p_code P !! j = Some e ->
  W r (Z.of_nat j / 256) (slot_addr (Z.of_nat j)) = e ->
  W (put_stamp (p_ver P) r) (Z.of_nat j / 256) (slot_addr (Z.of_nat j)) = e.
Proof.
  intros Hs He Hr. rewrite (proj1 (put_stamp_spec _ r)).
  destruct (Z.of_nat j / 256 =? 2) eqn:Ep; [|exact Hr]. apply Z.eqb_eq in Ep. rewrite Hr.
  assert (A : forall k, (k < 4)%nat -> slot_addr (Z.of_nat j) = stamp_addr (Z.of_nat k) -> e = stamp_word P k).
  { intros k Hk H. apply stamp_lookup; [done|done|]. unfold slot_addr, stamp_addr in H.
    by replace (764 + k)%nat with j by lia. }
  cbn [stamp_words last_value foldl fst snd].
  destruct (slot_addr _ =? stamp_addr 0) eqn:E0; [apply Z.eqb_eq in E0; symmetry; exact (A 0%nat ltac:(lia) E0)|].
  destruct (slot_addr _ =? stamp_addr 1) eqn:E1; [apply Z.eqb_eq in E1; symmetry; exact (A 1%nat ltac:(lia) E1)|].
  destruct (slot_addr _ =? stamp_addr 2) eqn:E2; [apply Z.eqb_eq in E2; symmetry; exact (A 2%nat ltac:(lia) E2)|].
  destruct (slot_addr _ =? stamp_addr 3) eqn:E3; [apply Z.eqb_eq in E3; symmetry; exact (A 3%nat ltac:(lia) E3)|done].
Qed.

Lemma loaded_words s : C s PAGE_REG .& 3 = 0 -> forall j e, p_code P !! j = Some e ->
  W (loaded P s) (Z.of_nat j / 256) (slot_addr (Z.of_nat j)) = e.
Proof.
  intros Hp j e He. destruct patch_facts as (_&_&_&_&HL&HN&_&_). unfold loaded. destruct (p_paged P).
  - destruct (load_spec true (p_code P) 0 s) as (A&_); [lia|lia|done|right; by left|].
    specialize (A j e He). rewrite Z.add_0_l in A. destruct (p_stamped P) eqn:Es; [by apply stamp_keeps|exact A].
  - destruct (HN eq_refl) as [HL2 _].
    destruct (load_spec false (p_code P) 0 (mws DISABLE s)) as (A&_); [lia|lia|lia| |].
    + right; right. by rewrite (proj2 (mws_regs DISABLE s disable_window)).
    + specialize (A j e He). by rewrite Z.add_0_l in A.
Qed.

Lemma loaded_cleared s : cleared s -> cleared (loaded P s).
Proof.
  intros Hc k Hk. assert (bp_addr k <> PAGE_REG) as Hn by (unfold bp_addr, PAGE_REG; lia).
  destruct patch_facts as (_&_&_&_&HL&HN&_&_). unfold loaded. destruct (p_paged P).
  - destruct (load_spec true (p_code P) 0 s) as (_&_&A); [lia|lia|done|right; by left|].
    destruct (p_stamped P); [rewrite (proj1 (proj2 (put_stamp_spec _ _))) by done|]; rewrite A by done; by apply Hc.
  - destruct (HN eq_refl) as [HL2 _]. pose proof (disable_clears s k Hk) as Hd. revert Hd.
    generalize (mws DISABLE s). intros t Hd.
    assert (Hg : forall l i u, 0 <= i -> C (load false l i u) (bp_addr k) = C u (bp_addr k)).
    { induction l as [|x l IH]; intros i u Hi; [done|]. cbn [load andb]. rewrite IH by lia. apply C_mw_win, slot_addr_ok. }
    by rewrite Hg.
Qed.

Lemma ver_range : 0 <= p_ver P < 2 ^ 64.
Proof.
  destruct patch_facts as (Hw&_). unfold p_ver, rtl8125_get_bin_mcu_patch_code_ver.
  destruct (_ <? _)%nat; [lia|].
  assert (A : forall l v, Forall is_word l -> 0 <= v < 2 ^ 64 ->
    0 <= foldl (fun ver e => u64 (Z.shiftl ver 16) .| e) v l < 2 ^ 64).
  { induction l as [|e l IH]; intros v Hl Hv; [done|]. inversion Hl; subst. cbn [foldl]. apply IH; [done|].
    apply (lor_bound _ _ 64); [lia|apply u64_range|]. unfold is_word in *. lia. }
  apply A; [by apply Forall_drop|lia].
Qed.

Lemma config_state_spec s :
  let s' := config_state P s in
  (skips P s = true -> forall p b, W s' p b = W s p b) /\
  (skips P s = false -> forall j e, p_code P !! j = Some e -> W s' (Z.of_nat j / 256) (slot_addr (Z.of_nat j)) = e) /\
  (p_stamped P = true -> stamp s' = p_ver P) /\
  C s' 0xFC26 = 0x8000 /\ C s' 0xFC48 = p_mask P /\
  forall k, 0 <= k < 16 -> C s' (bp_addr k) = last_value (bp_addr k) (p_bps P) 0.
Proof.
  cbv zeta. unfold config_state. set (x := if skips P s then prepared s else loaded P (prepared s)).
  destruct patch_facts as (_&_&HB&_&_&HN&_&_).
  assert (HW : Forall (fun av => in_window av.1 = false) (BPS (p_bps P) (p_mask P))).
  { constructor; [done|]. apply Forall_app. split; [by apply bps_window|by repeat constructor]. }
  destruct (mws_regs _ x HW) as [MW MC].
  split; [|split; [|split; [|split; [|split]]]].
  - intros E p b. rewrite MW. unfold x. rewrite E. apply prepared_W.
  - intros E j e He. rewrite MW. unfold x. rewrite E. apply loaded_words; [apply prepared_page|done].
  - intros Es. rewrite (stamp_ext _ x) by (intros; apply MW). unfold x, skips. rewrite Es. cbn [andb].
    destruct (stamp s =? p_ver P) eqn:E.
    + apply Z.eqb_eq in E. rewrite <- E. apply stamp_ext. intros b. apply prepared_W.
    + unfold loaded. destruct (p_paged P); [|by destruct (HN eq_refl); congruence]. rewrite Es.
      apply stamp_put, ver_range.
  - rewrite MC, last_value_BPS. change (0xFC26 =? 0xFC48) with false. rewrite Z.eqb_refl. cbv iota.
    apply last_value_other; [done|lia].
  - by rewrite MC, last_value_BPS, Z.eqb_refl.
  - intros k Hk. rewrite MC, last_value_BPS.
    rewrite (proj2 (Z.eqb_neq (bp_addr k) 0xFC48)), (proj2 (Z.eqb_neq (bp_addr k) 0xFC26)) by (unfold bp_addr; lia).
    f_equal. unfold x. destruct (skips P s); [by apply prepared_cleared|].
    apply loaded_cleared; [apply prepared_cleared|done].
Qed.
End Pure.

Section Config.
Context {D : Type} `{M : !Mmio D} `{MR : !McuRam D}.

(** The loader is usable, as rtl8125_init_software_variable sets it up. *)
Definition mcu_ready (tp : tpctx) : Prop :=
  NotWrMcuPatchCode (sw tp) = false /\ 0 < HwSuppMacMcuVer (sw tp) /\ MacMcuPageSize (sw tp) = RTL8125_MAC_MCU_PAGE_SIZE.

Lemma rep_write_ram tp st code d s : mcu_ready tp -> Forall is_word code -> 0 < Z.of_nat (length code) <= 1024 ->
  0 <= bin_mcu_patch_code_ver st < 2 ^ 64 -> rep d s ->
  rep (rtl8125_write_mac_mcu_ram_code tp st code d).2
      (let r := load true code 0 s in
       if 0 <? bin_mcu_patch_code_ver st then put_stamp (bin_mcu_patch_code_ver st) r else r).
Proof.
  intros (_&Hv&Hp) Hw Hl Hb Hr. unfold rtl8125_write_mac_mcu_ram_code. rewrite Hp.
  rewrite (proj2 (Z.ltb_lt 0 _) Hv), (proj2 (Nat.eqb_neq _ 0)) by lia. cbn [negb].
  change (0 <? RTL8125_MAC_MCU_PAGE_SIZE) with true. unfold _rtl812x_write_mac_mcu_ram_code_with_page.
  change (RTL8125_MAC_MCU_PAGE_SIZE =? 0) with false. cbv iota. rewrite bind_run.
  pose proof (rep_paged code 0 d s Hw ltac:(lia) ltac:(lia) Hr) as H. unfold RTL8125_MAC_MCU_PAGE_SIZE.
  set (d1 := (write_words_paged code 0 256 d).2) in *. destruct (0 <? bin_mcu_patch_code_ver st); [|exact H].
  pose proof (rep_set_stamp st (bin_mcu_patch_code_ver st) d1 _ Hb H) as H2.
  destruct (rtl8125_set_hw_mcu_patch_code_ver st _ d1). by destruct H2.
Qed.

Lemma rep_stamped tp st P d s : mcu_ready tp -> patch_ok P = true -> p_stamped P = true -> p_paged P = true ->
  hw_mcu_patch_code_ver st = stamp s -> rep d s ->
  rep (stamped_patch tp st (p_code P) (p_bps P) (p_mask P) d).2
      (mws (BPS (p_bps P) (p_mask P)) (if skips P s then s else loaded P s)).
Proof.
  intros Ht HP Hs Hg Hh Hr. destruct (patch_facts P HP) as (Hw&Hb&_&Hm&Hl&_&HS&_). destruct (HS Hs) as [Hpos _].
  unfold stamped_patch. cbv zeta. cbn [hw_mcu_patch_code_ver bin_mcu_patch_code_ver]. rewrite !bind_run. unfold ret.
  cbn [snd]. fold (p_ver P). rewrite Hh. apply rep_bps; [done|done|]. unfold skips, loaded. rewrite Hs, Hg. cbn [andb].
  destruct (stamp s =? p_ver P); [exact Hr|].
  pose proof (rep_write_ram tp (mkMcu (stamp s) (p_ver P)) (p_code P) d s Ht Hw Hl (ver_range P HP) Hr) as H.
  cbn [bin_mcu_patch_code_ver] in H. rewrite (proj2 (Z.ltb_lt 0 _) Hpos) in H. exact H.
Qed.

Lemma rep_plain_patch m P d s : patch_ok P = true -> p_paged P = false -> rep d s ->
  rep (plain_patch m (p_code P) (p_bps P) (p_mask P) d).2 (mws (BPS (p_bps P) (p_mask P)) (loaded P s)).
Proof.
  intros HP Hg Hr. destruct (patch_facts P HP) as (Hw&Hb&_&Hm&_&HN&_). destruct (HN Hg) as [Hl _].
  unfold plain_patch. rewrite !bind_run. apply rep_bps; [done|done|]. unfold loaded. rewrite Hg.
  apply rep_plain; [done|lia|lia|]. by apply rep_disable.
Qed.

Lemma rep_unstamped tp v P d s : mcu_ready tp -> patch_ok P = true -> p_stamped P = false -> p_paged P = true -> rep d s ->
  rep (bind (rtl8125_write_mac_mcu_ram_code tp (mkMcu v 0) (p_code P))
         (fun st => bind (set_bps (p_bps P) (p_mask P)) (fun _ => ret st)) d).2
      (mws (BPS (p_bps P) (p_mask P)) (loaded P s)).
Proof.
  intros Ht Hok Hs Hg Hr. destruct (patch_facts P Hok) as (Hw&Hb&_&Hm&Hl&_).
  rewrite !bind_run. unfold ret. cbn [snd]. apply rep_bps; [done|done|]. unfold loaded. rewrite Hg, Hs.
  exact (rep_write_ram tp (mkMcu v 0) (p_code P) d s Ht Hw Hl ltac:(cbn; lia) Hr).
Qed.

Lemma config_rep tp st P d : mcu_ready tp -> patch_of (mcfg (tid tp)) = Some P ->
  (p_stamped P = false -> bin_mcu_patch_code_ver st = 0) ->
  rep (rtl8125_hw_mac_mcu_config tp st d).2 (config_state P (view d)).
Proof.
  intros Ht HP Hb. pose proof (patches_ok _ _ HP) as Hok. unfold rtl8125_hw_mac_mcu_config.
  rewrite (proj1 Ht), !bind_run.
  pose proof (rep_disable (mcfg (tid tp)) d _ (rep_view d)) as H1.
  set (d1 := (rtl8125_hw_disable_mac_mcu_bps (mcfg (tid tp)) d).2) in *.
  pose proof (rep_get_stamp d1 _ H1) as H2. destruct (rtl8125_get_hw_mcu_patch_code_ver d1) as [v d2].
  destruct H2 as [-> H2]. fold (prepared (view d)) in H2. cbn [fst snd]. unfold config_state.
  assert (Hst : stamp (mws DISABLE (view d)) = stamp (prepared (view d))).
  { apply stamp_ext. intros b. unfold prepared. by rewrite !W_switch. }
  assert (Hsk : skips P (view d) = skips P (prepared (view d))).
  { unfold skips. by rewrite (stamp_ext (view d) (prepared (view d))) by (intros b; by rewrite prepared_W). }
  destruct (p_stamped P) eqn:Hs.
  - rewrite Hsk. pose proof (rep_stamped tp (mkMcu (stamp (mws DISABLE (view d))) (bin_mcu_patch_code_ver st)) P d2 (prepared (view d)) Ht Hok Hs) as H3.
    destruct (mcfg (tid tp)); try discriminate HP; injection HP as <-; try discriminate Hs;
      exact (H3 eq_refl Hst H2).
  - rewrite (Hb eq_refl). unfold skips. rewrite Hs. cbn [andb]. destruct (p_paged P) eqn:Hg.
    + pose proof (rep_unstamped tp (stamp (mws DISABLE (view d))) P d2 _ Ht Hok Hs Hg H2) as H3.
      destruct (mcfg (tid tp)); try discriminate HP; injection HP as <-; try discriminate Hs; try discriminate Hg.
      exact H3.
    + pose proof (rep_plain_patch (mcfg (tid tp)) P d2 _ Hok Hg H2) as H3.
      destruct (mcfg (tid tp)) eqn:Em; try discriminate HP; injection HP as <-; try discriminate Hs; try discriminate Hg;
        cbv iota; unfold rtl8125_set_mac_mcu_8125a_2, rtl8125_set_mac_mcu_8125b_2; rewrite Em, bind_run; exact H3.
Qed.

(** The variants without a stamp leave the version of the driver's patch at 0. *)
Lemma config_bin tp st P (d : D) : patch_of (mcfg (tid tp)) = Some P -> p_stamped P = false ->
  bin_mcu_patch_code_ver st = 0 -> bin_mcu_patch_code_ver (rtl8125_hw_mac_mcu_config tp st d).1 = 0.
Proof.
  intros HP Hs Hb. unfold rtl8125_hw_mac_mcu_config. destruct (NotWrMcuPatchCode (sw tp)); [done|]. rewrite !bind_run. cbn [fst snd].
  destruct (mcfg (tid tp)) eqn:Em; try discriminate HP; injection HP as <-; try discriminate Hs; cbv iota;
    unfold rtl8125_set_mac_mcu_8125a_2, rtl8125_set_mac_mcu_8125b_2, rtl8126_set_mac_mcu_8126a_1; rewrite ?bind_run; try exact Hb.
  cbn [ret fst]. unfold rtl8125_write_mac_mcu_ram_code. cbn [bin_mcu_patch_code_ver]. rewrite Hb. change (0 <? 0) with false.
  destruct (negb _); [done|]. destruct (_ =? _)%nat; [done|]. rewrite bind_run. done.
Qed.
End Config.

(** ** Properties *)

Definition stamp_of {D} `{M : !Mmio D} `{MR : !McuRam D} (d : D) : Z := stamp (view d).

(** The paged loader of the MAC microcontroller
    ([_rtl812x_write_mac_mcu_ram_code_with_page]) puts word [j] of a patch of up
    to four pages at word [j mod 256] of page [j / 256] and leaves every other
    word of the RAM and every control register but the page selector alone. *)
Theorem mac_mcu_load_exact {D} `{M : !Mmio D} `{MR : !McuRam D} (code : list Z) (d : D) :
  Forall is_word code -> Z.of_nat (length code) <= 1024 ->
  let d' := (_rtl812x_write_mac_mcu_ram_code_with_page code RTL8125_MAC_MCU_PAGE_SIZE d).2 in
  (forall j e, code !! j = Some e -> win d' (Z.of_nat j / 256) (slot_addr (Z.of_nat j)) = e) /\
  (forall p b, (forall j, (j < length code)%nat -> ~ (p = Z.of_nat j / 256 /\ b = slot_addr (Z.of_nat j))) ->
     win d' p b = win d p b) /\
  (forall b, b <> PAGE_REG -> creg d' b = creg d b).
Proof.
  intros Hw Hl. cbv zeta. destruct (load_spec true code 0 (view d)) as (A&B&E); [lia|lia|done|right; by left|].
  destruct (rep_paged code 0 d (view d) Hw ltac:(lia) ltac:(lia) (rep_view d)) as [HW HC].
  split; [|split].
  - intros j e He. specialize (A j e He). rewrite Z.add_0_l in A. exact (eq_trans (HW _ _) A).
  - intros p b Hb. refine (eq_trans (HW _ _) (B p b _)). intros j Hj. rewrite Z.add_0_l. by apply Hb.
  - intros b Hb. exact (eq_trans (HC _) (E b Hb)).
Qed.

(** C32: on every variant with a MAC microcontroller patch, with a loader that is set up
    as [rtl8125_init_software_variable] does (patching not forbidden, a loader version,
    pages of 256 words: [mcu_ready]), [rtl8125_hw_mac_mcu_config] puts the whole patch in
    the RAM, unless the variant is one of those with a version stamp and the stamp in the
    RAM already is the patch's: then it leaves the RAM as it was. On a variant with a stamp
    the stamp afterwards is the patch's (and writing it does not damage the patch), so the
    next run does not load again. The variants without one (CFG_METHOD_3, 5, 6, 7 and 31)
    load at every run; for CFG_METHOD_31 this assumes that the driver's copy of the version
    is 0, as it is from the start, and it stays so. In all cases the breakpoint registers
    hold the patch's addresses, the unused ones are zero, and a breakpoint is enabled
    exactly when its address was written. *)
Theorem mac_mcu_config_loads {D} `{M : !Mmio D} `{MR : !McuRam D} tp st P (d : D) :
  mcu_ready tp -> patch_of (mcfg (tid tp)) = Some P -> (p_stamped P = false -> bin_mcu_patch_code_ver st = 0) ->
  let '(st', d') := rtl8125_hw_mac_mcu_config tp st d in
  (if p_stamped P && (stamp_of d =? p_ver P) then forall p b, win d' p b = win d p b
   else forall j e, p_code P !! j = Some e -> win d' (Z.of_nat j / 256) (slot_addr (Z.of_nat j)) = e) /\
  (p_stamped P = true -> stamp_of d' = p_ver P) /\
  (p_stamped P = false <-> In (mcfg (tid tp)) [CFG_METHOD_3; CFG_METHOD_5; CFG_METHOD_6; CFG_METHOD_7; CFG_METHOD_31]) /\
  (p_stamped P = false -> bin_mcu_patch_code_ver st' = 0) /\
  creg d' 0xFC26 = 0x8000 /\
  forall k, 0 <= k < 16 -> creg d' (bp_addr k) = last_value (bp_addr k) (p_bps P) 0 /\
    Z.testbit (creg d' 0xFC48) k = existsb (fun av => av.1 =? bp_addr k) (p_bps P).
Proof.
  intros Ht HP Hb. pose proof (patches_ok _ _ HP) as Hok. destruct (config_rep tp st P d Ht HP Hb) as [HW HC].
  pose proof (config_bin tp st P d HP) as Hbin. destruct (rtl8125_hw_mac_mcu_config tp st d) as [st' d']. cbn [fst snd] in HW, HC, Hbin.
  destruct (config_state_spec P Hok (view d)) as (A&B&E&F1&F2&F3). split_and!.
  - fold (skips P (view d)). unfold stamp_of. destruct (skips P (view d)) eqn:Es; unfold skips in Es; rewrite Es.
    + intros p b. exact (eq_trans (HW p b) (A eq_refl p b)).
    + intros j e He. exact (eq_trans (HW _ _) (B eq_refl j e He)).
  - intros Hs. rewrite <- (E Hs). apply stamp_ext. intros b. apply HW.
  - clear - HP. destruct (mcfg (tid tp)); try discriminate HP; injection HP as <-; cbn; (split; [intros; try discriminate; tauto|]);
      intros H; repeat (destruct H as [H|H]; [try discriminate H; reflexivity|]); done.
  - intros Hs. apply Hbin; [done|]. by apply Hb.
  - exact (eq_trans (HC _) F1).
  - intros k Hk. rewrite !HC, F2. split; [by apply F3|].
    destruct (patch_facts P Hok) as (_&_&_&_&_&_&_&He). specialize (He (Z.to_nat k) ltac:(lia)).
    unfold bp_enabled in He. apply Bool.eqb_prop in He. by rewrite Z2Nat.id in He by lia.
Qed.

(** A version stamp written with [rtl8125_set_hw_mcu_patch_code_ver] is read
    back by [rtl8125_get_hw_mcu_patch_code_ver], in any of its 64 bits; but the
    copy the driver keeps ([tp->hw_mcu_patch_code_ver]) is always 0, since the
    loop has shifted the whole value out by the time it is stored. *)
Theorem mcu_version_roundtrip {D} `{M : !Mmio D} `{MR : !McuRam D} st ver (d : D) :
  0 <= ver < 2 ^ 64 ->
  let '(st', d1) := rtl8125_set_hw_mcu_patch_code_ver st ver d in
  (rtl8125_get_hw_mcu_patch_code_ver d1).1 = ver /\ hw_mcu_patch_code_ver st' = 0.
Proof.
  intros Hv. pose proof (rep_set_stamp st ver d (view d) Hv (rep_view d)) as H.
  destruct (rtl8125_set_hw_mcu_patch_code_ver st ver d) as [st' d1]. destruct H as [-> Hr]. split; [|done].
  pose proof (rep_get_stamp d1 _ Hr) as H2. destruct (rtl8125_get_hw_mcu_patch_code_ver d1) as [v d2].
  destruct H2 as [-> _]. by apply stamp_put.
Qed.

(** ** A device to run on: the RAM behind the MAC OCP window *)
Module McuSim.

Record dev := Dev { pages : Z -> Z -> Z; regs : Z -> Z; at_addr : Z }.

Definition put (a v : Z) (d : dev) : dev :=
  if in_window a
  then Dev (fun p b => if (p =? u16 (regs d PAGE_REG) .& 3) && (b =? a) then v else pages d p b) (regs d) (at_addr d)
  else Dev (pages d) (fun b => if b =? a then v else regs d b) (at_addr d).

Definition get (d : dev) : Z :=
  let a := at_addr d in if in_window a then pages d (u16 (regs d PAGE_REG) .& 3) a else u16 (regs d a).

Definition write32 (a v : Z) (d : dev) : dev :=
  if a =? MACOCP then
    if has v CFlag then put (2 * key1 v) (v .& 0xffff) d else Dev (pages d) (regs d) (2 * key1 v)
  else d.

#[export] Instance mcu_mmio : Mmio dev := {|
  R8 := fun _ d => (0, d); R16 := fun _ d => (0, d); R32 := fun a d => (if a =? MACOCP then get d else 0, d);
  W8 := fun _ _ d => d; W16 := fun _ _ d => d; W32 := write32; udelay := fun _ d => d |}.

(** The pages hold words. *)
Definition pages_of (d : dev) (p b : Z) : Z := u16 (pages d p b).

#[export] Program Instance mcu_ram : McuRam dev := {| win := pages_of; creg := fun d b => u16 (regs d b) |}.
Next Obligation. intros d a. apply u16_range. Qed.
Next Obligation.
  intros a v d [Ha He] Hv. unfold rtl8125_mac_ocp_write. cbv zeta. rewrite mac_write_cmd by done.
  destruct (cmd_fields 1 (a / 2) v) as (R&K&V&F); [lia..|]. set (cmd := _ + _) in *.
  unfold RTL_W32, act. cbn [snd W32 mcu_mmio]. unfold write32. rewrite Z.eqb_refl, u32_small, F, K, V by lia.
  change (1 =? 1) with true. cbv iota.
  assert (2 * (a / 2) = a) as -> by (apply Z.even_spec in He as [k ->]; lia).
  unfold put, pages_of. destruct (in_window a); cbn [pages regs negb andb].
  - split; [|done]. intros p b. destruct ((p =? _) && (b =? a)); [by apply u16_small|done].
  - split; [done|]. intros b. destruct (b =? a); [by apply u16_small|done].
Qed.
Next Obligation.
  intros a d [Ha He]. unfold rtl8125_mac_ocp_read. rewrite !bind_run. rewrite select_cmd by done.
  destruct (cmd_fields 0 (a / 2) 0) as (R&K&_&F); [lia..|]. set (cmd := _ + _) in *.
  unfold RTL_W32, RTL_R32, act, ret. cbn [fst snd W32 R32 mcu_mmio]. unfold write32.
  rewrite !Z.eqb_refl, (u32_small cmd), F, K by lia. change (0 =? 1) with false. cbv iota.
  assert (2 * (a / 2) = a) as -> by (apply Z.even_spec in He as [k ->]; lia).
  unfold get, pages_of. cbn [pages regs at_addr]. split; [|done]. destruct (in_window a); width_lia.
Qed.
Next Obligation. done. Qed.
Next Obligation. done. Qed.
Next Obligation. done. Qed.

Definition blank : dev := Dev (fun _ _ => 0) (fun _ => 0) 0.

Definition sw_mcu : swvars :=
  (rtl8125_init_software_variable (D := dev) false false (mkId CFG_METHOD_42 16 false rcr_27) sw_zero blank).1.
Definition tp_8127 : tpctx := mkTp (mkId CFG_METHOD_42 16 false rcr_27) sw_mcu false.

Lemma ready_8127 : mcu_ready tp_8127.
Proof. vm_compute. by repeat split. Qed.

Lemma mac_mcu_load_exact_witness :
  let d' := (_rtl812x_write_mac_mcu_ram_code_with_page mcu_patch_code_8125d_1 RTL8125_MAC_MCU_PAGE_SIZE blank).2 in
  (forall j e, mcu_patch_code_8125d_1 !! j = Some e -> win d' (Z.of_nat j / 256) (slot_addr (Z.of_nat j)) = e) /\
  (forall p b, (forall j, (j < length mcu_patch_code_8125d_1)%nat ->
                  ~ (p = Z.of_nat j / 256 /\ b = slot_addr (Z.of_nat j))) -> win d' p b = win blank p b) /\
  (forall b, b <> PAGE_REG -> creg d' b = creg blank b).
Proof.
  assert (Hw : Forall is_word mcu_patch_code_8125d_1) by (apply words_ok; vm_compute; reflexivity).
  assert (Hl : Z.of_nat (length mcu_patch_code_8125d_1) <= 1024) by (vm_compute; discriminate).
  exact (mac_mcu_load_exact mcu_patch_code_8125d_1 blank Hw Hl).
Defined.

Lemma mac_mcu_config_loads_witness :
  let P := mkPatch mcu_patch_code_8127a_1 bps_8127a_1 0x00FF true true in
  let d' := (rtl8125_hw_mac_mcu_config tp_8127 (mkMcu 0 0) blank).2 in
  (if p_stamped P && (stamp_of blank =? p_ver P) then forall p b, win d' p b = win blank p b
   else forall j e, p_code P !! j = Some e -> win d' (Z.of_nat j / 256) (slot_addr (Z.of_nat j)) = e) /\
  stamp_of d' = p_ver P.
Proof.
  intros P d'. pose proof (mac_mcu_config_loads tp_8127 (mkMcu 0 0) P blank ready_8127 eq_refl (fun _ => eq_refl)) as H.
  unfold d'. destruct (rtl8125_hw_mac_mcu_config tp_8127 (mkMcu 0 0) blank) as [st' d1]. destruct H as (H1&H2&_).
  split; [exact H1|exact (H2 eq_refl)].
Defined.

Lemma mcu_version_roundtrip_witness :
  let '(st', d1) := rtl8125_set_hw_mcu_patch_code_ver (mkMcu 0 0) 0x6938 blank in
  (rtl8125_get_hw_mcu_patch_code_ver d1).1 = 0x6938 /\ hw_mcu_patch_code_ver st' = 0.
Proof. exact (mcu_version_roundtrip (mkMcu 0 0) 0x6938 blank ltac:(lia)). Defined.
End McuSim.
