(* ===== verification/WolSpec.v ===== *)
(** Wake-on-LAN: what rtl8125_set_hw_wol leaves in the configuration registers
    and the MAC OCP space, and what rtl8125_get_hw_wol reads back. *)
From S2P Require Import Prelude Mmio Channel ChannelSpec Chip SwVars Eeprom Hw HwSpec.

(** Byte registers and the MAC OCP window do not disturb each other. *)
Class ByteMac (D : Type) `{M : !Mmio D} `{B : !ByteRegs D} `{PM : !OnePort D MACOCP 0} := {
  bm_read : forall a d, let d' := (RTL_R8 a d).2 in space MACOCP d' = space MACOCP d /\ lat MACOCP d' = lat MACOCP d;
  bm_write : forall a v d, let d' := (RTL_W8 a v d).2 in
    space MACOCP d' = space MACOCP d /\ lat MACOCP d' = lat MACOCP d;
  mb_read : forall d b, reg8 (RTL_R32 MACOCP d).2 b = reg8 d b;
  mb_write : forall v d b, reg8 (RTL_W32 MACOCP v d).2 b = reg8 d b;
}.

Section Wol.
Context {D : Type} `{M : !Mmio D} `{B : !ByteRegs D} `{PM : !OnePort D MACOCP 0} `{F : !ByteMac D}.

(** The byte registers are [R] and the MAC OCP registers [Mc]. *)
Definition holds (d : D) (R Mc : Z -> Z) : Prop :=
  mac_idle d /\ (forall b, reg8 d b = R b) /\ (forall a, mac_reg d a = Mc a).

Definition put (R : Z -> Z) (a v : Z) : Z -> Z := fun b => if b =? a then v else R b.
Definition put16 (R : Z -> Z) (a v : Z) : Z -> Z := fun b => if b / 2 =? a / 2 then v else R b.

Lemma holds_range d R Mc b : holds d R Mc -> 0 <= R b < 256.
Proof. intros (_&H&_). rewrite <- H. apply reg8_range. Qed.

Lemma holds_r8 a d R Mc : holds d R Mc -> (RTL_R8 a d).1 = R a /\ holds (RTL_R8 a d).2 R Mc.
Proof.
  intros (Hi&HR&HM). pose proof (byte_read a d) as H. destruct (bm_read a d) as [S L].
  destruct (RTL_R8 a d) as [v d']. destruct H as [-> H1]. cbn [fst snd] in *.
  split; [apply HR|]. split; [unfold mac_idle in *; congruence|]. split.
  - intros b. by rewrite H1.
  - intros b. unfold mac_reg in *. rewrite S. apply HM.
Qed.

(** A write that the lock lets through. *)
Lemma holds_w8 a v d R Mc : 0 <= v < 256 -> writable R a = true -> holds d R Mc ->
  holds (RTL_W8 a v d).2 (put R a (merge (implemented a) (R a) v)) Mc.
Proof.
  intros Hv Hw (Hi&HR&HM). destruct (bm_write a v d) as [S L]. split; [unfold mac_idle in *; congruence|]. split.
  - intros b. rewrite byte_write. unfold writable in *. rewrite !HR, Hw, andb_true_r, u8_small by done. done.
  - intros b. unfold mac_reg in *. rewrite S. apply HM.
Qed.

Lemma holds_set8 a m d R Mc : 0 <= m < 256 -> writable R a = true -> holds d R Mc ->
  holds (set8 a m d).2 (put R a (R a .| (m .& implemented a))) Mc.
Proof.
  intros Hm Hw H. unfold set8. rewrite bind_run. destruct (holds_r8 a d R Mc H) as [-> H1]. rewrite <- merge_set.
  apply holds_w8; [|done|done]. pose proof (holds_range _ _ _ a H). apply (lor_bound _ _ 8); lia.
Qed.

Lemma holds_clr8 a m d R Mc : writable R a = true -> holds d R Mc ->
  holds (clr8 a m d).2 (put R a (R a .&~ (m .& implemented a))) Mc.
Proof.
  intros Hw H. unfold clr8. rewrite bind_run. destruct (holds_r8 a d R Mc H) as [-> H1]. rewrite <- merge_clear.
  apply holds_w8; [|done|done]. pose proof (holds_range _ _ _ a H). apply (ldiff_bound _ _ 8); lia.
Qed.

Lemma unlocked_put R a v : a <> Cfg9346 -> unlocked R -> unlocked (put R a v).
Proof. intros Ha H. unfold unlocked, put. by rewrite (proj2 (Z.eqb_neq Cfg9346 a)) by congruence. Qed.

Lemma mac_read_bytes a d b : reg8 (rtl8125_mac_ocp_read a d).2 b = reg8 d b.
Proof. unfold rtl8125_mac_ocp_read. rewrite !bind_run. unfold ret. cbn [snd]. by rewrite mb_read, mb_write. Qed.

Lemma mac_rmw_bytes a c m d b : reg8 (rtl8125_clear_set_mac_ocp_bit a c m d).2 b = reg8 d b.
Proof.
  unfold rtl8125_clear_set_mac_ocp_bit. rewrite bind_run. unfold rtl8125_mac_ocp_write. cbv zeta.
  rewrite mb_write. apply mac_read_bytes.
Qed.

Lemma holds_mac_read a d R Mc : 0 <= a < 65536 -> holds d R Mc ->
  (rtl8125_mac_ocp_read a d).1 = Mc a /\ holds (rtl8125_mac_ocp_read a d).2 R Mc.
Proof.
  intros Ha (Hi&HR&HM). pose proof (mac_read_spec a d Hi Ha) as H. pose proof (mac_read_bytes a d) as HB.
  destruct (rtl8125_mac_ocp_read a d) as [v d']. destruct H as (I&->&_&S). cbn [fst snd] in *.
  split; [apply HM|]. split; [done|]. split; intros b; [by rewrite HB|by rewrite S].
Qed.

Lemma holds_rmw a c m d R Mc : 0 <= a < 65536 -> 0 <= m < 65536 -> holds d R Mc ->
  holds (rtl8125_clear_set_mac_ocp_bit a c m d).2 R (put16 Mc a (rmw (Mc a) c m)).
Proof.
  intros Ha Hm (Hi&HR&HM). destruct (mac_rmw_spec a c m d Hi Ha Hm) as [I S]. split; [exact I|]. split.
  - intros b. by rewrite mac_rmw_bytes.
  - intros b. unfold put16. rewrite <- !HM. apply S.
Qed.

(** One row of the table. *)
Definition wol_row (wolopts opt mask v : Z) : Z :=
  if has wolopts opt then (v .&~ mask) .| mask else v .&~ mask.

(** What a row leaves in its register. *)
Definition wol_step (wolopts : Z) (R : Z -> Z) (row : Z * Z * Z) : Z -> Z :=
  let '(opt, reg, mask) := row in put R reg (merge (implemented reg) (R reg) (wol_row wolopts opt mask (R reg))).

Lemma holds_wol_loop wolopts l : forall d R Mc, Forall (fun r => 0 <= r.2 < 256 /\ r.1.2 <> Cfg9346) l -> unlocked R ->
  holds d R Mc -> holds (wol_loop l wolopts d).2 (foldl (wol_step wolopts) R l) Mc.
Proof.
  induction l as [|[[opt reg] mask] l IH]; intros d R Mc Hl Hu H; [exact H|]. inversion Hl as [|? ? [Hm Hr] Hl']; subst.
  cbn [fst snd] in Hm, Hr.
  cbn [wol_loop foldl]. rewrite bind_run. destruct (holds_r8 reg d R Mc H) as [-> H1]. cbv zeta. rewrite bind_run.
  apply IH; [done|by apply unlocked_put|]. fold (wol_row wolopts opt mask (R reg)).
  apply holds_w8; [|by apply unlocked_writable|done].
  pose proof (holds_range _ _ _ reg H). unfold wol_row.
  assert (0 <= R reg .&~ mask < 2 ^ 8) by (apply (ldiff_bound _ _ 8); lia).
  destruct (has wolopts opt); [apply (lor_bound _ _ 8); lia|lia].
Qed.

Lemma bit_pow k j : 0 <= k -> Z.testbit (BIT k) j = (j =? k).
Proof.
  intros Hk. unfold BIT. destruct (Z.eqb_spec j k) as [->|Hn]; [by apply Z.pow2_bits_true|].
  by apply Z.pow2_bits_false.
Qed.

Lemma has_lor x k j : 0 <= k -> 0 <= j -> has (x .| BIT k) (BIT j) = has x (BIT j) || (j =? k).
Proof. intros Hk Hj. rewrite !has_bit by done. by rewrite Z.lor_spec, bit_pow. Qed.

Lemma has_ldiff x k j : 0 <= k -> 0 <= j -> has (x .&~ BIT k) (BIT j) = has x (BIT j) && negb (j =? k).
Proof. intros Hk Hj. rewrite !has_bit by done. by rewrite Z.ldiff_spec, bit_pow. Qed.

Lemma wol_row_bit o opt k v j : 0 <= k -> 0 <= j ->
  has (wol_row o opt (BIT k) v) (BIT j) = if j =? k then has o opt else has v (BIT j).
Proof.
  intros Hk Hj. unfold wol_row. destruct (has o opt); rewrite ?has_lor, has_ldiff by done; destruct (j =? k);
    by rewrite ?andb_true_r, ?andb_false_r, ?orb_false_r, ?orb_true_r.
Qed.

Lemma has_land x y k : 0 <= k -> has (x .& y) (BIT k) = has x (BIT k) && has y (BIT k).
Proof. intros Hk. rewrite !has_bit by done. apply Z.land_spec. Qed.

(** A row sets the bit of its option if the register has it, and no other. *)
Lemma merge_row_bit imp o opt k v j : 0 <= k -> 0 <= j ->
  has (merge imp v (wol_row o opt (BIT k) v)) (BIT j) =
    if (j =? k) && has imp (BIT k) then has o opt else has v (BIT j).
Proof.
  intros Hk Hj. rewrite (has_bit (merge _ _ _)) by done. unfold merge. rewrite Z.lor_spec, Z.land_spec, Z.ldiff_spec.
  rewrite <- !has_bit by done. rewrite wol_row_bit by done. destruct (Z.eqb_spec j k) as [->|]; cbn [andb].
  - destruct (has imp (BIT k)); by rewrite ?andb_true_r, ?andb_false_r, ?orb_false_r.
  - destruct (has imp (BIT j)); by rewrite ?andb_true_r, ?andb_false_r, ?orb_false_r.
Qed.

(** The chip has the three bits of Config5. *)
Definition wake_bits_exist : Prop :=
  has (implemented Config5) UWF = true /\ has (implemented Config5) BWF = true /\ has (implemented Config5) MWF = true.

(** The link-change option as far as Config3 has the bit; [old]: Config3 before. *)
Definition phy_kept (o old : Z) : bool := if has (implemented Config3) LinkUp then has o WAKE_PHY else has old LinkUp.

(** The registers rtl8125_get_hw_wol reads, for the options [o]. *)
Definition wol_regs (ver o old : Z) (R Mc : Z -> Z) : Prop :=
  has (R Config3) LinkUp = phy_kept o old /\ has (R Config5) UWF = has o WAKE_UCAST /\
  has (R Config5) BWF = has o WAKE_BCAST /\ has (R Config5) MWF = has o WAKE_MCAST /\
  (ver = WAKEUP_MAGIC_PACKET_V3 -> has (Mc 0xC0B6) (BIT 0) = has o WAKE_MAGIC).

Lemma holds_magic ver o d R Mc : holds d R Mc ->
  exists Mc', holds ((if has o WAKE_MAGIC then rtl8125_enable_magic_packet ver else rtl8125_disable_magic_packet ver) d).2 R Mc' /\
    (ver = WAKEUP_MAGIC_PACKET_V3 -> has (Mc' 0xC0B6) (BIT 0) = has o WAKE_MAGIC).
Proof.
  intros H. unfold rtl8125_enable_magic_packet, rtl8125_disable_magic_packet.
  destruct (ver =? WAKEUP_MAGIC_PACKET_V3) eqn:E.
  - apply Z.eqb_eq in E. destruct (has o WAKE_MAGIC);
      (eexists; split; [apply (holds_rmw 0xC0B6); [lia|by vm_compute|exact H]|intros _]);
      unfold put16; rewrite Z.eqb_refl; unfold rmw.
    + by rewrite has_lor by lia; rewrite orb_true_r.
    + rewrite Z.lor_0_r, has_ldiff by lia. by rewrite andb_false_r.
  - apply Z.eqb_neq in E. exists Mc. split; [by destruct (has o WAKE_MAGIC)|done].
Qed.

(** The link-change part leaves everything else of the wake registers alone. *)
Lemma holds_linkchg o d R Mc : unlocked R -> holds d R Mc ->
  exists Mc', holds ((if has o WAKE_PHY then rtl8125_enable_linkchg_wakeup else rtl8125_disable_linkchg_wakeup) d).2
    (put R Config3 (if has o WAKE_PHY then R Config3 .| (LinkUp .& implemented Config3)
                    else R Config3 .&~ (LinkUp .& implemented Config3))) Mc' /\
    Mc' 0xC0B6 = Mc 0xC0B6.
Proof.
  intros Hu H. pose proof (unlocked_writable R Config3 Hu) as Hw. destruct (has o WAKE_PHY).
  - unfold rtl8125_enable_linkchg_wakeup. rewrite bind_run. eexists. split.
    + apply (holds_rmw 0xE0C6); [lia|by vm_compute|]. apply holds_set8; [by vm_compute|exact Hw|exact H].
    + done.
  - unfold rtl8125_disable_linkchg_wakeup. rewrite !bind_run.
    pose proof (holds_clr8 Config3 LinkUp d R Mc Hw H) as H1. set (d1 := (clr8 Config3 LinkUp d).2) in *.
    destruct (holds_mac_read 0xE0C6 d1 _ Mc ltac:(lia) H1) as [-> H2]. destruct (has (Mc 0xE0C6) (BIT 0)).
    + exists Mc. split; [exact H2|done].
    + eexists. split; [apply (holds_rmw 0xE0C6); [lia|by vm_compute|exact H2]|done].
Qed.

Lemma linkchg_bit (w : bool) x imp k : 0 <= k ->
  has (if w then x .| (BIT k .& imp) else x .&~ (BIT k .& imp)) (BIT k) = if has imp (BIT k) then w else has x (BIT k).
Proof.
  intros Hk. rewrite !has_bit by done.
  destruct w; rewrite ?Z.lor_spec, ?Z.ldiff_spec, Z.land_spec, bit_pow, Z.eqb_refl by done;
    destruct (Z.testbit imp k), (Z.testbit x k); done.
Qed.

(** The rows of the table on unlocked registers. *)
Lemma wol_rows_bits o R : wake_bits_exist -> let R' := foldl (wol_step o) R wol_cfg in
  has (R' Config5) UWF = has o WAKE_UCAST /\ has (R' Config5) BWF = has o WAKE_BCAST /\ has (R' Config5) MWF = has o WAKE_MCAST /\
  has (R' Config3) LinkUp = phy_kept o (R Config3) /\ forall b, b <> Config3 -> b <> Config5 -> R' b = R b.
Proof.
  intros (U&Bw&Mw) R'. unfold phy_kept.
  assert (E5 : forall j, 0 <= j -> has (R' Config5) (BIT j) =
    if (j =? 1) && has (implemented Config5) (BIT 1) then has o WAKE_ANY
    else if (j =? 5) && has (implemented Config5) (BIT 5) then has o WAKE_MCAST
    else if (j =? 6) && has (implemented Config5) (BIT 6) then has o WAKE_BCAST
    else if (j =? 4) && has (implemented Config5) (BIT 4) then has o WAKE_UCAST else has (R Config5) (BIT j)).
  { intros j Hj. unfold R', wol_cfg. cbn [foldl wol_step]. unfold put. cbn [Config3 Config5 Z.eqb Pos.eqb].
    unfold LanWake, MWF, BWF, UWF. rewrite !merge_row_bit by lia. done. }
  unfold UWF, BWF, MWF in *. rewrite !E5 by lia. rewrite U, Bw, Mw. cbn [Z.eqb Pos.eqb andb]. split_and!; try done.
  - unfold R', wol_cfg. cbn [foldl wol_step]. unfold put. cbn [Config3 Config5 Z.eqb Pos.eqb]. unfold LinkUp.
    rewrite merge_row_bit by lia. rewrite Z.eqb_refl. done.
  - intros b H3 H5. unfold R', wol_cfg. cbn [foldl wol_step]. unfold put. by rewrite !(proj2 (Z.eqb_neq b _)).
Qed.

Lemma set_wol_spec ver o d : wake_bits_exist -> mac_idle d ->
  exists R Mc, holds (rtl8125_set_hw_wol ver o d).2 R Mc /\ wol_regs ver o (reg8 d Config3) R Mc /\
    R Config1 = reg8 d Config1 /\ R Cfg9346 .& Cfg9346_Unlock = 0.
Proof.
  intros Hx Hi. assert (H : holds d (reg8 d) (mac_reg d)) by done. unfold rtl8125_set_hw_wol. rewrite !bind_run.
  destruct (holds_magic ver o d _ _ H) as (Mc1&H1&K1). set (d1 := (_ d).2) in *.
  destruct (unlock_spec d1) as [U1 E1].
  pose proof (holds_set8 Cfg9346 Cfg9346_Unlock _ _ _ ltac:(by vm_compute) eq_refl H1) as H2.
  change (set8 Cfg9346 Cfg9346_Unlock d1) with (rtl8125_enable_cfg9346_write d1) in H2.
  set (R2 := put (reg8 d) Cfg9346 _) in *. assert (U2 : unlocked R2) by (unfold unlocked; rewrite <- (proj1 (proj2 H2)); exact U1).
  pose proof (holds_wol_loop o wol_cfg _ _ _ ltac:(by repeat constructor) U2 H2) as H3.
  destruct (wol_rows_bits o R2 Hx) as (B1&B2&B3&B4&B5). set (R3 := foldl (wol_step o) R2 wol_cfg) in *.
  assert (U3 : unlocked R3) by (unfold unlocked; rewrite B5 by done; exact U2).
  destruct (holds_linkchg o _ _ _ U3 H3) as (Mc2&H4&K2).
  pose proof (holds_clr8 Cfg9346 Cfg9346_Unlock _ _ _ eq_refl H4) as H5.
  eexists _, Mc2. split; [exact H5|]. clear H1 H2 H3 H4 H5. unfold wol_regs.
  set (R4 := put R3 Config3 _). set (R5 := put R4 Cfg9346 _).
  assert (E5 : R5 Config5 = R3 Config5) by done. assert (E3 : R5 Config3 = R4 Config3) by done.
  rewrite E5, E3, K2. split_and!; [|done|done|done|exact K1| |].
  - unfold R4, put. rewrite Z.eqb_refl. unfold LinkUp. rewrite linkchg_bit by lia. fold LinkUp. rewrite B4. unfold phy_kept.
    by destruct (has (implemented Config3) LinkUp).
  - unfold R5, R4, put. cbn [Config1 Config3 Cfg9346 Z.eqb Pos.eqb]. rewrite B5 by done. done.
  - unfold R5, put. rewrite Z.eqb_refl. rewrite (Z.land_comm Cfg9346_Unlock), lock_bits_exist. apply Z.land_ldiff.
Qed.

(** The options a chip can keep. *)
Definition wol_kept (ver : Z) : Z :=
  if ver =? WAKEUP_MAGIC_PACKET_V3 then WAKE_ANY else WAKE_PHY .| WAKE_UCAST .| WAKE_BCAST .| WAKE_MCAST.

Definition opt_bit (o w : Z) : Z := if has o w then w else 0.

Lemma or_opt (b : bool) x w : (if b then x .| w else x) = x .| (if b then w else 0).
Proof. destruct b; [done|by rewrite Z.lor_0_r]. Qed.

Lemma opt_bit_land o k : 0 <= k -> opt_bit o (BIT k) = o .& BIT k.
Proof.
  intros Hk. unfold opt_bit. apply Z.bits_inj'. intros n Hn. rewrite Z.land_spec, has_bit, bit_pow by done.
  destruct (Z.testbit o k) eqn:E.
  - rewrite bit_pow by done. destruct (Z.eqb_spec n k) as [->|]; [by rewrite E|by rewrite andb_false_r].
  - rewrite Z.bits_0. destruct (Z.eqb_spec n k) as [->|]; [by rewrite E|by rewrite andb_false_r].
Qed.

Lemma get_wol_spec ver o old d R Mc : holds d R Mc -> wol_regs ver o old R Mc -> has (R Config1) PMEnable = true ->
  (rtl8125_get_hw_wol ver d).1 =
    (if phy_kept o old then WAKE_PHY else 0) .| (o .& (wol_kept ver .&~ WAKE_PHY)).
Proof.
  intros H (K1&K2&K3&K4&K5) Hp. unfold rtl8125_get_hw_wol. rewrite bind_run.
  destruct (holds_r8 Config1 d R Mc H) as [-> H1]. rewrite Hp. cbn [negb]. rewrite bind_run.
  destruct (holds_r8 Config3 _ R Mc H1) as [-> H2]. cbv zeta. rewrite K1, bind_run.
  set (d2 := (RTL_R8 Config3 _).2) in *. set (ph := if phy_kept o old then WAKE_PHY else 0).
  set (q := (if ver =? WAKEUP_MAGIC_PACKET_V3 then _ else _) : prog D Z).
  assert (Q : holds (q d2).2 R Mc /\
    (q d2).1 = ph .| (if ver =? WAKEUP_MAGIC_PACKET_V3 then opt_bit o WAKE_MAGIC else 0)).
  { unfold q. destruct (ver =? WAKEUP_MAGIC_PACKET_V3) eqn:E.
    - apply Z.eqb_eq in E. rewrite bind_run. destruct (holds_mac_read 0xC0B6 d2 R Mc ltac:(lia) H2) as [-> H3].
      split; [exact H3|]. unfold ret. cbn [fst]. by rewrite (K5 E), or_opt.
    - split; [exact H2|]. by rewrite Z.lor_0_r. }
  destruct Q as [H3 ->]. rewrite bind_run. destruct (holds_r8 Config5 _ R Mc H3) as [-> _]. unfold ret. cbn [fst].
  rewrite K2, K3, K4, !or_opt. fold (opt_bit o WAKE_UCAST) (opt_bit o WAKE_BCAST) (opt_bit o WAKE_MCAST).
  rewrite <- !Z.lor_assoc. f_equal. clear ph q H2 H3.
  unfold WAKE_UCAST, WAKE_BCAST, WAKE_MCAST, WAKE_MAGIC. rewrite !opt_bit_land by lia.
  unfold wol_kept. destruct (ver =? WAKEUP_MAGIC_PACKET_V3); rewrite ?Z.lor_0_l, <- !Z.land_lor_distr_r; reflexivity.
Qed.
End Wol.

(** C40: the wake-up events programmed with [rtl8125_set_hw_wol] are the ones
    [rtl8125_get_hw_wol] reports (unicast, broadcast, multicast, and magic packets where
    the chip has them; link change if Config3 has that bit), whether the configuration
    registers were locked before or not: they are write-protected, the function unlocks
    them and leaves them locked. The chip is taken to have the three bits of Config5 and
    power management enabled. On a chip whose link-change bit is reserved, as on the
    RTL8125B, the report has link change according to what that bit reads, whatever was
    programmed. *)
Theorem wol_set_get_roundtrip {D} `{M : !Mmio D} `{B : !ByteRegs D} `{PM : !OnePort D MACOCP 0} `{F : !ByteMac D}
    ver opts (d : D) :
  wake_bits_exist -> mac_idle d -> has (reg8 d Config1) PMEnable = true ->
  let d' := (rtl8125_set_hw_wol ver opts d).2 in
  (has (implemented Config3) LinkUp = true -> (rtl8125_get_hw_wol ver d').1 = opts .& wol_kept ver) /\
  (has (implemented Config3) LinkUp = false ->
     (rtl8125_get_hw_wol ver d').1 = (if has (reg8 d Config3) LinkUp then WAKE_PHY else 0) .| (opts .& (wol_kept ver .&~ WAKE_PHY))) /\
  reg8 d' Cfg9346 .& Cfg9346_Unlock = 0.
Proof.
  intros Hx Hi Hp. destruct (set_wol_spec ver opts d Hx Hi) as (R&Mc&H&K&K1&K2). cbv zeta.
  assert (Hp' : has (R Config1) PMEnable = true) by (by rewrite K1).
  rewrite (get_wol_spec ver opts _ _ R Mc H K Hp'). unfold phy_kept. split_and!.
  - intros ->. fold (opt_bit opts WAKE_PHY). change WAKE_PHY with (BIT 0) at 1. rewrite opt_bit_land by lia.
    rewrite <- Z.land_lor_distr_r. f_equal. unfold wol_kept. by destruct (ver =? _).
  - by intros ->.
  - destruct H as (_&HR&_). by rewrite HR.
Qed.

Module WolSim.
Import PhySim HwSim.

#[export] Program Instance hw_bytemac : ByteMac dev.
Next Obligation. done. Qed.
Next Obligation. done. Qed.
Next Obligation.
  intros d b. unfold RTL_R32. cbn [R32 hw_mmio]. unfold read32. change (MACOCP =? PHYOCP) with false. rewrite Z.eqb_refl.
  by destruct (read1 MACOCP MACOCP (mac d)).
Qed.
Next Obligation. done. Qed.

(** Power management is on; the configuration registers are locked. *)
Definition pm_on : dev := Dev (fun _ => 1) fresh1 fresh1.

Lemma wol_set_get_roundtrip_witness :
  let d' := (rtl8125_set_hw_wol WAKEUP_MAGIC_PACKET_V3 (WAKE_MAGIC .| WAKE_PHY) pm_on).2 in
  (rtl8125_get_hw_wol WAKEUP_MAGIC_PACKET_V3 d').1 = (WAKE_MAGIC .| WAKE_PHY) .& wol_kept WAKEUP_MAGIC_PACKET_V3 /\
  reg8 d' Cfg9346 .& Cfg9346_Unlock = 0.
Proof.
  destruct (wol_set_get_roundtrip WAKEUP_MAGIC_PACKET_V3 (WAKE_MAGIC .| WAKE_PHY) pm_on) as (H1&_&H2);
    [by repeat split|reflexivity|reflexivity|]. split; [exact (H1 eq_refl)|exact H2].
Defined.
End WolSim.
