(* ===== verification/RxFilter.v ===== *)
(** The receive filter: the Ethernet CRC, the multicast hash and the receive
    mode (RTL8127Driver.cpp, lines 1783 to 1851, and applyRxMode of
    RTL8127Hw.cpp), and the same operations of the kernel extension
    (RTL812xLucy.cpp, lines 898 to 988 and 2061 to 2075). *)
From S2P Require Import Prelude Mmio Chip SwVars Hw.
From S2P Require Import Eeprom.
Local Open Scope prog_scope.

Definition MAR0 : Z := 0x08.
Definition MAR1 : Z := 0x0C.

(** Bit numbers of [stateFlags]. *)
Definition __LINK_UP : Z := 1.
Definition __PROMISC : Z := 2.
Definition __M_CAST : Z := 3.
Definition __POLL_MODE : Z := 4.

Definition test_bit (nr x : Z) : bool := Z.testbit x nr.
Definition set_bit (nr x : Z) : Z := x .| BIT nr.
Definition clear_bit (nr x : Z) : Z := x .&~ BIT nr.

Inductive IOReturn := kIOReturnSuccess | kIOReturnUnsupported | kIOReturnBadArgument.

#[export] Instance IOReturn_eq_dec : EqDecision IOReturn.
Proof. solve_decision. Defined.

(** ** The CRC *)

Definition poly : Z := 0x04c11db7.

(** One bit: the body of the inner loop. *)
Definition crc_bit (crc : Z) (bit : bool) : Z :=
  u32 (Z.shiftl crc 1) .^ (if xorb (s32 crc <? 0) bit then poly else 0).

(** [for (bit = 0; bit < 8; bit++, octet >>= 1)] with [n] rounds left. *)
Fixpoint crc_octet (n : nat) (octet crc : Z) : Z :=
  match n with O => crc | S n' => crc_octet n' (Z.shiftr octet 1) (crc_bit crc (has octet 1)) end.

(** The array is as long as the [length] passed with it. *)
Definition etherCrc (data : list Z) : Z := foldl (fun crc octet => crc_octet 8 octet crc) 0xffffffff data.

(** ** The hash filter *)

(** ether_addr_t: six octets. *)
Definition ether_addr := list Z.

Definition hash_of (a : ether_addr) : Z := Z.shiftr (etherCrc a) 26.

Definition byte_of (x k : Z) : Z := u8 (Z.shiftr x (8 * k)).

Definition OSSwapInt64 (x : Z) : Z :=
  byte_of x 7 .| Z.shiftl (byte_of x 6) 8 .| Z.shiftl (byte_of x 5) 16 .| Z.shiftl (byte_of x 4) 24 .|
  Z.shiftl (byte_of x 3) 32 .| Z.shiftl (byte_of x 2) 40 .| Z.shiftl (byte_of x 1) 48 .| Z.shiftl (byte_of x 0) 56.

(** The members of RTL8127Hw the filter lives in. *)
Record rxf := mkRxf { stateFlags : Z; multicastFilter : Z }.

(** The loop over the list. *)
Definition filter_of_list (l : list ether_addr) : Z :=
  foldl (fun filter a => filter .| u64 (Z.shiftl 1 (hash_of a .& 0x3f))) 0 l.

Definition ALL64 : Z := 0xffffffffffffffff.

Section Code.
Context {D : Type} `{M : !Mmio D}.

(** The receive mode and the two words of the filter. *)
Definition rx_mode (f : rxf) : Z * Z * Z :=
  if test_bit __PROMISC (stateFlags f) then
    (AcceptBroadcast .| AcceptMulticast .| AcceptMyPhys .| AcceptAllPhys, 0xffffffff, 0xffffffff)
  else if test_bit __M_CAST (stateFlags f) then
    (AcceptBroadcast .| AcceptMulticast .| AcceptMyPhys, u32 (multicastFilter f), u32 (Z.shiftr (multicastFilter f) 32))
  else (AcceptBroadcast .| AcceptMyPhys, 0, 0).

(** [rxMode |= rtl8125_rx_config | (RxConfig & mask)] and the three writes. *)
Definition write_rx_mode (id : identified) (mode : Z * Z * Z) : prog D unit :=
  let '(rxMode, mc0, mc1) := mode in
  do v <- RTL_R32 RxConfig;
  RTL_W32 RxConfig (rxMode .| (rtl8125_rx_config id .| (v .& RxConfigMask (info (chipset id))))) ;;;
  RTL_W32 MAR0 mc0 ;;;
  RTL_W32 MAR1 mc1.

Definition applyRxMode (id : identified) (f : rxf) : prog D unit := write_rx_mode id (rx_mode f).

Definition setPromiscuousModeEnable (id : identified) (enable : bool) (f : rxf) : prog D (IOReturn * rxf) :=
  let f := mkRxf ((if enable then set_bit else clear_bit) __PROMISC (stateFlags f)) (multicastFilter f) in
  applyRxMode id f ;;; ret (kIOReturnSuccess, f).

Definition setAllMulticastModeEnable (id : identified) (enable : bool) (f : rxf) : prog D (IOReturn * rxf) :=
  let f := mkRxf ((if enable then set_bit else clear_bit) __M_CAST (stateFlags f)) (if enable then ALL64 else 0) in
  applyRxMode id f ;;; ret (kIOReturnSuccess, f).

(** [addresses] is [None] for a null pointer; otherwise it holds [count]
    addresses at least. *)
Definition setMulticastAddresses (id : identified) (addresses : option (list ether_addr)) (count : Z) (f : rxf)
    : prog D (IOReturn * rxf) :=
  let filter :=
    match addresses with
    | Some l => if 32 <? count then ALL64 else OSSwapInt64 (filter_of_list (take (Z.to_nat count) l))
    | None => ALL64
    end in
  let f := mkRxf ((if count =? 0 then clear_bit else set_bit) __M_CAST (stateFlags f)) filter in
  applyRxMode id f ;;; ret (kIOReturnSuccess, f).
End Code.

(** ** The kernel extension *)
Module Kext.

(** [int crc]: the shift is on a signed value. *)
Definition crc_bit_s (crc : Z) (bit : bool) : Z :=
  s32 (u32 (Z.shiftl crc 1) .^ (if xorb (crc <? 0) bit then poly else 0)).

Fixpoint crc_octet_s (n : nat) (octet crc : Z) : Z :=
  match n with O => crc | S n' => crc_octet_s n' (Z.shiftr octet 1) (crc_bit_s crc (has octet 1)) end.

Definition ether_crc (data : list Z) : Z := u32 (foldl (fun crc octet => crc_octet_s 8 octet crc) (-1) data).

Definition kMCFilterLimit : Z := 32.

(** [1 << n] on [int]: undefined from 31 on, hence the [option]. *)
Definition list_filter (l : list ether_addr) : option Z :=
  foldl (fun filter a => x ← filter; m ← shl_int (Z.shiftr (ether_crc a) 26 .& 0x3f); Some (x .| m)) (Some 0) l.

Section Code.
Context {D : Type} `{M : !Mmio D}.

Definition setPromiscuousMode (id : identified) (active : bool) (f : rxf) : prog D (IOReturn * rxf) :=
  write_rx_mode id
    (if active then (AcceptBroadcast .| AcceptMulticast .| AcceptMyPhys .| AcceptAllPhys, 0xffffffff, 0xffffffff)
     else (AcceptBroadcast .| AcceptMulticast .| AcceptMyPhys,
           u32 (multicastFilter f), u32 (Z.shiftr (multicastFilter f) 32))) ;;;
  ret (kIOReturnSuccess, mkRxf ((if active then set_bit else clear_bit) __PROMISC (stateFlags f)) (multicastFilter f)).

Definition setMulticastMode (id : identified) (active : bool) (f : rxf) : prog D (IOReturn * rxf) :=
  write_rx_mode id
    (if active then (AcceptBroadcast .| AcceptMulticast .| AcceptMyPhys,
                     u32 (multicastFilter f), u32 (Z.shiftr (multicastFilter f) 32))
     else (AcceptBroadcast .| AcceptMyPhys, 0, 0)) ;;;
  ret (kIOReturnSuccess, mkRxf ((if active then set_bit else clear_bit) __M_CAST (stateFlags f)) (multicastFilter f)).

(** [None]: undefined behaviour. *)
Definition setMulticastList (addrs : list ether_addr) (count : Z) (f : rxf) : option (prog D (IOReturn * rxf)) :=
  x ← (if count <=? kMCFilterLimit then OSSwapInt64 <$> list_filter (take (Z.to_nat count) addrs) else Some ALL64);
  Some (RTL_W32 MAR0 (u32 x) ;;; RTL_W32 MAR1 (u32 (Z.shiftr x 32)) ;;;
        ret (kIOReturnSuccess, mkRxf (stateFlags f) x)).
End Code.
End Kext.
