(* ===== verification/RxFilterSpec.v ===== *)
(** What the receive filter does: the CRC is a polynomial remainder, the hash
    table holds the listed groups, and the registers accept what the stack asked
    for after any sequence of requests. *)
From S2P Require Import Prelude Mmio Chip SwVars Eeprom Hw RxFilter.

(** ** Polynomials over GF(2), as bit patterns *)

(** The generator: x^32 + x^26 + ... + 1. *)
Definition G : Z := 0x104c11db7.

(** The product of the polynomial with coefficients [q] (constant term first)
    and [g]. *)
Definition clmul (q : list bool) (g : Z) : Z :=
  foldr (fun b acc => (if b : bool then g else 0) .^ Z.shiftl acc 1) 0 q.

(** [r] is the remainder of [a] modulo [G]. *)
Definition poly_rem (a r : Z) : Prop := 0 <= r < 2 ^ 32 /\ exists q, a = r .^ clmul q G.

Lemma lxor_swap a b c : (a .^ b) .^ c = (a .^ c) .^ b.
Proof. by rewrite !Z.lxor_assoc, (Z.lxor_comm b c). Qed.

Fixpoint xor_lists (p q : list bool) : list bool :=
  match p, q with
  | [], _ => q
  | _, [] => p
  | b :: p', c :: q' => xorb b c :: xor_lists p' q'
  end.

Lemma clmul_xor g p : forall q, clmul (xor_lists p q) g = clmul p g .^ clmul q g.
Proof.
  induction p as [|b p IH]; intros [|c q]; [done|done|by cbn; rewrite Z.lxor_0_r|].
  cbn [xor_lists clmul foldr]. fold (clmul (xor_lists p q) g) (clmul p g) (clmul q g). rewrite IH, Z.shiftl_lxor.
  apply Z.bits_inj'. intros n Hn. rewrite !Z.lxor_spec.
  destruct b, c; cbn [xorb]; rewrite ?Z.bits_0;
    repeat match goal with |- context [Z.testbit ?x n] => destruct (Z.testbit x n) end; reflexivity.
Qed.

(** A non-zero multiple of the generator has degree 32 or more. *)
Lemma clmul_degree q : clmul q G = 0 \/ 2 ^ 32 <= clmul q G.
Proof.
  induction q as [|b q IH]; [by left|]. cbn [clmul foldr]. fold (clmul q G).
  destruct IH as [-> | IH]; [rewrite Z.shiftl_0_l, Z.lxor_0_r; destruct b; [right|left]; by vm_compute|]. right.
  set (c := clmul q G) in *. assert (Hg : 0 <= (if b then G else 0) < 2 ^ 33) by (by destruct b).
  set (g := if b then G else 0) in *. assert (Hl : 32 <= Z.log2 c) by (apply Z.log2_le_pow2; lia).
  assert (Hc : Z.testbit (g .^ Z.shiftl c 1) (Z.log2 c + 1) = true).
  { rewrite Z.lxor_spec, (testbit_high g 33) by lia. rewrite Z.shiftl_spec by lia.
    replace (Z.log2 c + 1 - 1) with (Z.log2 c) by lia. by rewrite Z.bit_log2 by lia. }
  assert (Hp : 0 <= g .^ Z.shiftl c 1) by (apply Z.lxor_nonneg; rewrite Z.shiftl_nonneg; lia).
  destruct (Z.lt_ge_cases (g .^ Z.shiftl c 1) (2 ^ 32)) as [Hlt|]; [|done].
  rewrite (testbit_high _ 32) in Hc by lia. done.
Qed.

(** A dividend has one remainder. *)
Lemma poly_rem_unique a r1 r2 : poly_rem a r1 -> poly_rem a r2 -> r1 = r2.
Proof.
  intros (H1&q1&->) (H2&q2&E). apply Z.lxor_eq.
  assert (K : r1 .^ r2 = clmul (xor_lists q1 q2) G).
  { rewrite clmul_xor. apply Z.bits_inj'. intros n Hn. apply (f_equal (fun z => Z.testbit z n)) in E. revert E.
    rewrite !Z.lxor_spec. repeat match goal with |- context [Z.testbit ?x n] => destruct (Z.testbit x n) end; done. }
  destruct (clmul_degree (xor_lists q1 q2)) as [Z0|Z1]; [congruence|]. rewrite <- K in Z1.
  pose proof (lxor_bound r1 r2 32 ltac:(lia) H1 H2). lia.
Qed.

(** ** The CRC *)

(** The bits of the message in transmission order: each octet from its least
    significant bit. *)
Definition octet_bits (o : Z) : list bool := Z.testbit o <$> [0; 1; 2; 3; 4; 5; 6; 7].
Definition message_bits (data : list Z) : list bool := data ≫= octet_bits.
Definition bits_value (l : list bool) : Z := foldl (fun v b => 2 * v + Z.b2z b) 0 l.

(** The message followed by 32 zero bits, its first 32 bits inverted. *)
Definition dividend (l : list bool) : Z :=
  Z.shiftl 0xffffffff (Z.of_nat (length l)) .^ Z.shiftl (bits_value l) 32.

Lemma crc_octet_bits crc o : crc_octet 8 o crc = foldl crc_bit crc (octet_bits o).
Proof.
  cbn [crc_octet octet_bits fmap list_fmap foldl]. rewrite !Z.shiftr_shiftr by lia.
  assert (H : forall x, has x 1 = Z.testbit x 0) by (intros x; apply (has_bit x 0); lia).
  rewrite !H, !Z.shiftr_spec by lia. reflexivity.
Qed.

Lemma etherCrc_bits data : etherCrc data = foldl crc_bit 0xffffffff (message_bits data).
Proof.
  unfold etherCrc. generalize 0xffffffff as crc. induction data as [|o data IH]; intros crc; [done|].
  cbn [foldl]. rewrite IH, crc_octet_bits. unfold message_bits. cbn [mbind list_bind]. by rewrite foldl_app.
Qed.

Lemma crc_sign crc : 0 <= crc < 2 ^ 32 -> (s32 crc <? 0) = Z.testbit crc 31.
Proof.
  intros H. destruct (Z.testbit crc 31) eqn:E.
  - apply Z.ltb_lt. rewrite Z.testbit_true in E by lia. unfold s32. lia.
  - apply Z.ltb_ge. rewrite Z.testbit_false in E by lia. unfold s32. lia.
Qed.

Lemma u32_bits x n : 0 <= n -> Z.testbit (u32 x) n = (n <? 32) && Z.testbit x n.
Proof.
  intros Hn. unfold u32. change 4294967296 with (2 ^ 32). destruct (Z.ltb_spec n 32).
  - by rewrite Z.mod_pow2_bits_low by lia.
  - by rewrite Z.mod_pow2_bits_high by lia.
Qed.

(** One bit of the message: shift, and subtract the generator when the bit that
    leaves the register differs from the message bit. *)
Lemma crc_bit_poly crc b : 0 <= crc < 2 ^ 32 ->
  crc_bit crc b = (Z.shiftl crc 1 .^ (if b then 2 ^ 32 else 0)) .^ (if xorb (Z.testbit crc 31) b then G else 0).
Proof.
  intros H. unfold crc_bit. rewrite crc_sign by done. apply Z.bits_inj'. intros n Hn.
  rewrite !Z.lxor_spec, u32_bits by done.
  assert (E : forall c : bool, Z.testbit (if c then G else 0) n = xorb (Z.testbit (if c then poly else 0) n) (c && (n =? 32))).
  { intros []; [|by rewrite Z.bits_0]. change G with (poly .^ 2 ^ 32). rewrite Z.lxor_spec. f_equal.
    destruct (Z.eqb_spec n 32) as [->|Hne]; [done|]. by apply Z.pow2_bits_false. }
  assert (B : Z.testbit (if b then 2 ^ 32 else 0) n = b && (n =? 32)).
  { destruct b; [|by rewrite Z.bits_0]. destruct (Z.eqb_spec n 32) as [->|Hne]; [done|]. by apply Z.pow2_bits_false. }
  rewrite E, B, Z.shiftl_spec by done.
  destruct (Z.ltb_spec n 32) as [Hl|Hl].
  - rewrite (proj2 (Z.eqb_neq n 32)) by lia. rewrite !andb_false_r, !xorb_false_r. done.
  - destruct (Z.eqb_spec n 32) as [->|Hne].
    + change (32 - 1) with 31. destruct (Z.testbit crc 31), b; vm_compute; reflexivity.
    + rewrite (testbit_high crc 32 (n - 1)) by lia. by rewrite !andb_false_r, !xorb_false_r, xorb_false_l.
Qed.

Lemma crc_bit_range crc b : 0 <= crc_bit crc b < 2 ^ 32.
Proof.
  unfold crc_bit. apply lxor_bound; [lia|pose proof (u32_range (Z.shiftl crc 1)); lia|].
  by destruct (xorb _ _).
Qed.

Lemma poly_rem_step a r b : poly_rem a r -> poly_rem (Z.shiftl a 1 .^ (if b : bool then 2 ^ 32 else 0)) (crc_bit r b).
Proof.
  intros (Hr&q&->). split; [apply crc_bit_range|]. exists (xorb (Z.testbit r 31) b :: q).
  cbn [clmul foldr]. fold (clmul q G). rewrite crc_bit_poly by done. rewrite Z.shiftl_lxor.
  apply Z.bits_inj'. intros n Hn. rewrite !Z.lxor_spec.
  repeat match goal with |- context [Z.testbit ?x n] => destruct (Z.testbit x n) end; done.
Qed.

Lemma bits_value_snoc l b : bits_value (l ++ [b]) = 2 * bits_value l + Z.b2z b.
Proof. unfold bits_value. by rewrite foldl_app. Qed.

Lemma dividend_snoc l b : dividend (l ++ [b]) = Z.shiftl (dividend l) 1 .^ (if b then 2 ^ 32 else 0).
Proof.
  unfold dividend. rewrite bits_value_snoc, length_app, Nat2Z.inj_add, Z.shiftl_lxor, !Z.shiftl_shiftl by lia.
  rewrite Z.lxor_assoc. f_equal. rewrite !Z.shiftl_mul_pow2 by lia.
  assert (H : Z.shiftl (bits_value l) 33 .& (if b then 2 ^ 32 else 0) = 0).
  { rewrite Z.shiftl_mul_pow2 by lia. apply land_shift_disjoint; [lia|]. by destruct b. }
  rewrite Z.shiftl_mul_pow2 in H by lia. rewrite <- Z.add_nocarry_lxor by exact H.
  destruct b; cbn [Z.b2z]; lia.
Qed.

Lemma crc_fold_rem l : poly_rem (dividend l) (foldl crc_bit 0xffffffff l).
Proof.
  induction l as [|b l IH] using rev_ind.
  - split; [by vm_compute|]. exists []. reflexivity.
  - rewrite foldl_app, dividend_snoc. by apply poly_rem_step.
Qed.

(** ** The signed CRC of the kernel extension *)

Lemma s32_u32 x : u32 (s32 x) = u32 x.
Proof. width_lia. Qed.

Lemma crc_bit_signed crc b : 0 <= crc < 2 ^ 32 -> Kext.crc_bit_s (s32 crc) b = s32 (crc_bit crc b).
Proof.
  intros H. unfold Kext.crc_bit_s, crc_bit. f_equal. f_equal. rewrite !Z.shiftl_mul_pow2 by lia. width_lia.
Qed.

Lemma crc_octet_signed n : forall o crc, 0 <= crc < 2 ^ 32 ->
  Kext.crc_octet_s n o (s32 crc) = s32 (crc_octet n o crc) /\ 0 <= crc_octet n o crc < 2 ^ 32.
Proof.
  induction n as [|n IH]; intros o crc H; [done|]. cbn [Kext.crc_octet_s crc_octet].
  rewrite crc_bit_signed by done. apply IH, crc_bit_range.
Qed.

Lemma ether_crc_same data : Kext.ether_crc data = etherCrc data.
Proof.
  unfold Kext.ether_crc, etherCrc. change (-1) with (s32 0xffffffff).
  assert (H : forall crc, 0 <= crc < 2 ^ 32 ->
    u32 (foldl (fun crc octet => Kext.crc_octet_s 8 octet crc) (s32 crc) data) =
    foldl (fun crc octet => crc_octet 8 octet crc) crc data).
  { induction data as [|o data IH]; intros crc Hc; [cbn [foldl]; rewrite s32_u32; apply u32_small; lia|].
    cbn [foldl]. destruct (crc_octet_signed 8 o crc Hc) as [-> Hr]. by apply IH. }
  by apply H.
Qed.

(** C22: both drivers' CRC routines compute the Ethernet CRC: for any frame of
    octets, [etherCrc] is the remainder, modulo the CRC-32 generator over GF(2),
    of the message in transmission order (least significant bit of each octet
    first) followed by 32 zeros and with its first 32 bits inverted; it is the
    only such remainder, and the kernel extension's routine on signed integers
    gives the same value. *)
Theorem ether_crc_is_remainder data :
  poly_rem (dividend (message_bits data)) (etherCrc data) /\
  (forall r, poly_rem (dividend (message_bits data)) r -> r = etherCrc data) /\
  Kext.ether_crc data = etherCrc data.
Proof.
  assert (H : poly_rem (dividend (message_bits data)) (etherCrc data)) by (rewrite etherCrc_bits; apply crc_fold_rem).
  split; [exact H|]. split; [|apply ether_crc_same]. intros r Hr. by eapply poly_rem_unique.
Qed.

(** ** The hash table *)

Lemma etherCrc_range data : 0 <= etherCrc data < 2 ^ 32.
Proof. rewrite etherCrc_bits. destruct (crc_fold_rem (message_bits data)) as [H _]. exact H. Qed.

Lemma hash_range a : 0 <= hash_of a < 64.
Proof.
  unfold hash_of. pose proof (etherCrc_range a). rewrite Z.shiftr_div_pow2 by lia.
  change (2 ^ 26) with 67108864. lia.
Qed.

Lemma hash_land a : hash_of a .& 0x3f = hash_of a.
Proof. rewrite (land_mask _ _ 6) by done. pose proof (hash_range a). apply Z.mod_small. lia. Qed.

Definition listed (l : list ether_addr) (h : Z) : bool := existsb (fun a => hash_of a =? h) l.

Lemma filter_bits l h : 0 <= h -> Z.testbit (filter_of_list l) h = listed l h.
Proof.
  intros Hh. unfold filter_of_list. induction l as [|a l IH] using rev_ind; [apply Z.bits_0|].
  rewrite foldl_app. cbn [foldl]. rewrite Z.lor_spec, IH, hash_land. unfold listed. rewrite existsb_app. f_equal.
  cbn [existsb]. rewrite orb_false_r. pose proof (hash_range a) as Hr.
  rewrite Z.shiftl_1_l, u64_small
    by (change 18446744073709551616 with (2 ^ 64); split; [lia|apply Z.pow_lt_mono_r; lia]).
  destruct (Z.eqb_spec (hash_of a) h) as [->|Hne]; [by apply Z.pow2_bits_true|].
  by apply Z.pow2_bits_false.
Qed.

(** The position of hash [h] in the table: bytes in reverse order. *)
Definition table_pos (h : Z) : Z := 8 * (7 - h / 8) + h mod 8.

Lemma swap_byte_bits x k j i : 0 <= i -> 0 <= k -> 0 <= j ->
  Z.testbit (Z.shiftl (byte_of x k) (8 * j)) i = (8 * j <=? i) && (i <? 8 * j + 8) && Z.testbit x (i - 8 * j + 8 * k).
Proof.
  intros Hi Hk Hj. unfold byte_of, u8. change 256 with (2 ^ 8). rewrite Z.shiftl_spec by done.
  destruct (Z.leb_spec (8 * j) i); [|by rewrite Z.testbit_neg_r by lia]. cbn [andb].
  destruct (Z.ltb_spec i (8 * j + 8)).
  - rewrite Z.mod_pow2_bits_low, Z.shiftr_spec by lia. done.
  - rewrite Z.mod_pow2_bits_high by lia. done.
Qed.

Lemma swap_bits x i : 0 <= i < 64 -> Z.testbit (OSSwapInt64 x) i = Z.testbit x (table_pos i).
Proof.
  intros Hi. change (OSSwapInt64 x) with
    (Z.shiftl (byte_of x 7) (8 * 0) .| Z.shiftl (byte_of x 6) (8 * 1) .| Z.shiftl (byte_of x 5) (8 * 2) .|
     Z.shiftl (byte_of x 4) (8 * 3) .| Z.shiftl (byte_of x 3) (8 * 4) .| Z.shiftl (byte_of x 2) (8 * 5) .|
     Z.shiftl (byte_of x 1) (8 * 6) .| Z.shiftl (byte_of x 0) (8 * 7)).
  rewrite !Z.lor_spec.
  rewrite !swap_byte_bits by lia.
  assert (Hc : exists j, 0 <= j < 8 /\ 8 * j <= i < 8 * j + 8) by (exists (i / 8); lia).
  destruct Hc as (j&Hj&Hij). unfold table_pos.
  assert (H : forall k k', 0 <= k < 8 -> k + k' = 7 ->
    (8 * k <=? i) && (i <? 8 * k + 8) && Z.testbit x (i - 8 * k + 8 * k') = (k =? j) && Z.testbit x (8 * (7 - i / 8) + i mod 8)).
  { intros k k' Hk Hs. destruct (Z.eqb_spec k j) as [->|Hne].
    - rewrite (proj2 (Z.leb_le _ _)), (proj2 (Z.ltb_lt _ _)) by lia. cbn [andb]. f_equal. lia.
    - destruct (Z.leb_spec (8 * k) i); [|done]. destruct (Z.ltb_spec i (8 * k + 8)); [lia|done]. }
  rewrite (H 0 7), (H 1 6), (H 2 5), (H 3 4), (H 4 3), (H 5 2), (H 6 1), (H 7 0) by lia.
  assert (j = 0 \/ j = 1 \/ j = 2 \/ j = 3 \/ j = 4 \/ j = 5 \/ j = 6 \/ j = 7) as E by lia.
  destruct E as [-> | [-> | [-> | [-> | [-> | [-> | [-> | ->]]]]]]]; cbn [Z.eqb Pos.eqb andb orb]; by rewrite ?orb_false_r.
Qed.

Lemma table_pos_inv h : 0 <= h < 64 -> 0 <= table_pos h < 64 /\ table_pos (table_pos h) = h.
Proof. unfold table_pos. lia. Qed.

(** The bit of hash [h] in MAR0 and MAR1. *)
Definition table_bit (mar0 mar1 h : Z) : bool :=
  if table_pos h <? 32 then Z.testbit mar0 (table_pos h) else Z.testbit mar1 (table_pos h - 32).

Lemma table_bit_words x h : 0 <= h < 64 -> table_bit (u32 x) (u32 (Z.shiftr x 32)) h = Z.testbit x (table_pos h).
Proof.
  intros Hh. destruct (table_pos_inv h Hh) as [Hp _]. unfold table_bit. destruct (Z.ltb_spec (table_pos h) 32).
  - rewrite u32_bits by lia. by rewrite (proj2 (Z.ltb_lt _ _)) by lia.
  - rewrite u32_bits, Z.shiftr_spec by lia. rewrite (proj2 (Z.ltb_lt _ _)) by lia.
    cbn [andb]. f_equal. lia.
Qed.

(** The programmed words hold exactly the hashes of the list. *)
Lemma table_of_list l h : 0 <= h < 64 ->
  let x := OSSwapInt64 (filter_of_list l) in table_bit (u32 x) (u32 (Z.shiftr x 32)) h = listed l h.
Proof.
  intros Hh x. unfold x. destruct (table_pos_inv h Hh) as [Hp Hi].
  rewrite table_bit_words, swap_bits, Hi, filter_bits by lia. done.
Qed.

Lemma table_all h : 0 <= h < 64 -> table_bit 0xffffffff 0xffffffff h = true.
Proof.
  intros Hh. destruct (table_pos_inv h Hh) as [Hp _]. unfold table_bit. change 0xffffffff with (Z.ones 32).
  destruct (Z.ltb_spec (table_pos h) 32); apply Z.ones_spec_low; lia.
Qed.

(** ** The registers *)

(** RxConfig, MAR0 and MAR1 keep what is written. *)
Definition filter_reg (a : Z) : bool := (a =? RxConfig) || (a =? MAR0) || (a =? MAR1).

Class FilterRegs (D : Type) `{M : !Mmio D} := {
  freg : D -> Z -> Z;
  freg_read : forall a d, filter_reg a = true -> let '(v, d') := RTL_R32 a d in v = freg d a /\ forall b, freg d' b = freg d b;
  freg_write : forall a v d b, filter_reg a = true -> freg (RTL_W32 a v d).2 b = if b =? a then u32 v else freg d b;
}.

(** What the chip does with a group address that is not the broadcast address. *)
Definition hw_accepts {D} `{M : !Mmio D} `{F : !FilterRegs D} (d : D) (a : ether_addr) : bool :=
  has (freg d RxConfig) AcceptAllPhys ||
  has (freg d RxConfig) AcceptMulticast && table_bit (freg d MAR0) (freg d MAR1) (hash_of a).

(** The receive configuration stored for the chip is the table's. *)
Definition rx_config_ok (id : identified) : Prop := rtl8125_rx_config id = RCR_Cfg (info (chipset id)).

Lemma table_no_accept c k : 0 <= k < 6 ->
  Z.testbit (RCR_Cfg (info c)) k = false /\ Z.testbit (RxConfigMask (info c)) k = false.
Proof.
  intros Hk. unfold info. set (dflt := mkInfo _ _ _ _ _ _).
  assert (H : Forall (fun i => forallb (fun k => negb (Z.testbit (RCR_Cfg i) k) && negb (Z.testbit (RxConfigMask i) k))
                [0; 1; 2; 3; 4; 5] = true) rtlChipInfo) by (by repeat (constructor; [vm_compute; reflexivity|])).
  destruct (nth_in_or_default (Z.to_nat c) rtlChipInfo dflt) as [Hin | ->]; [|by rewrite !Z.bits_0].
  rewrite List.Forall_forall in H. specialize (H _ Hin). rewrite forallb_forall in H.
  assert (In k [0; 1; 2; 3; 4; 5]) as Hk' by (cbn; lia). specialize (H k Hk'). bool_props. done.
Qed.

(** ** What the stack asks for *)

Inductive groups := NoGroups | AllGroups | Groups (l : list ether_addr).

(** Promiscuous mode, all-multicast mode and the list are asked for separately,
    and each holds until it is changed. *)
Record wanted := mkWanted { w_promisc : bool; w_all : bool; w_groups : groups }.

(** Does the list cover [a]? Groups with the hash of a listed one are let through
    for the stack to sort out. *)
Definition covered (g : groups) (a : ether_addr) : bool :=
  match g with NoGroups => false | AllGroups => true | Groups l => listed l (hash_of a) end.

(** Is a frame to group [a] to be received? *)
Definition wants (w : wanted) (a : ether_addr) : bool := w_promisc w || (w_all w || covered (w_groups w) a).

Inductive rx_request :=
| Promiscuous (enable : bool)
| AllMulticast (enable : bool)
| MulticastList (addresses : option (list ether_addr)) (count : Z).

(** A list that is too long or absent stands for all groups. *)
Definition asked_groups (a : option (list ether_addr)) (n : Z) : groups :=
  if n =? 0 then NoGroups else
  match a with Some l => if 32 <? n then AllGroups else Groups (take (Z.to_nat n) l) | None => AllGroups end.

Definition request (r : rx_request) (w : wanted) : wanted :=
  match r with
  | Promiscuous b => mkWanted b (w_all w) (w_groups w)
  | AllMulticast b => mkWanted (w_promisc w) b (w_groups w)
  | MulticastList a n => mkWanted (w_promisc w) (w_all w) (asked_groups a n)
  end.

(** The driver has one filter for the mode and the list, and the last request
    decides what is in it. It is in step with the stack when that request switched
    all-multicast mode on, or off while no list was installed, or installed a list
    outside that mode. *)
Definition in_step (r : rx_request) (w : wanted) (ok : bool) : bool :=
  match r with
  | Promiscuous _ => ok
  | AllMulticast b => b || match w_groups w with NoGroups => true | _ => false end
  | MulticastList _ _ => negb (w_all w)
  end.

Definition follow (x : wanted * bool) (r : rx_request) : wanted * bool := (request r x.1, in_step r x.1 x.2).

(** What the filter then lets through: out of step, nothing if all-multicast mode
    was switched off, the list alone if it was installed in that mode. *)
Definition filter_holds (w : wanted) (ok : bool) : groups :=
  if ok then (if w_all w then AllGroups else w_groups w) else (if w_all w then w_groups w else NoGroups).

Section Refine.
Context {D : Type} `{M : !Mmio D} `{F : !FilterRegs D}.

(** One request as the driver handles it. *)
Definition handle (id : identified) (r : rx_request) (f : rxf) : prog D (IOReturn * rxf) :=
  match r with
  | Promiscuous b => setPromiscuousModeEnable id b f
  | AllMulticast b => setAllMulticastModeEnable id b f
  | MulticastList a n => setMulticastAddresses id a n f
  end.

Fixpoint handle_all (id : identified) (rs : list rx_request) (f : rxf) (d : D) : rxf * D :=
  match rs with
  | [] => (f, d)
  | r :: rs' => let '((_, f'), d') := handle id r f d in handle_all id rs' f' d'
  end.

(** The driver's variables hold promiscuous mode and that filter. *)
Definition rx_vars (f : rxf) (w : wanted) (ok : bool) : Prop :=
  test_bit __PROMISC (stateFlags f) = w_promisc w /\
  match filter_holds w ok with
  | NoGroups => test_bit __M_CAST (stateFlags f) = false
  | AllGroups => test_bit __M_CAST (stateFlags f) = true /\ multicastFilter f = ALL64
  | Groups l => test_bit __M_CAST (stateFlags f) = true /\ multicastFilter f = OSSwapInt64 (filter_of_list l)
  end.

Lemma set_bit_test k j x : 0 <= j -> 0 <= k -> test_bit j (set_bit k x) = test_bit j x || (j =? k).
Proof. intros Hj Hk. unfold test_bit, set_bit, BIT. by rewrite Z.lor_spec, Z.pow2_bits_eqb, (Z.eqb_sym k). Qed.

Lemma clear_bit_test k j x : 0 <= j -> 0 <= k -> test_bit j (clear_bit k x) = test_bit j x && negb (j =? k).
Proof. intros Hj Hk. unfold test_bit, clear_bit, BIT. by rewrite Z.ldiff_spec, Z.pow2_bits_eqb, (Z.eqb_sym k). Qed.

Lemma upd_bit_test (b : bool) k j x : 0 <= j -> 0 <= k ->
  test_bit j ((if b then set_bit else clear_bit) k x) = if j =? k then b else test_bit j x.
Proof.
  intros Hj Hk. destruct b; [rewrite set_bit_test by done|rewrite clear_bit_test by done]; destruct (j =? k);
    by rewrite ?orb_true_r, ?orb_false_r, ?andb_false_r, ?andb_true_r.
Qed.

(** The three registers after a receive mode has been written. *)
Lemma write_rx_mode_regs id rxMode mc0 mc1 (d : D) :
  let d' := (write_rx_mode id (rxMode, mc0, mc1) d).2 in
  freg d' RxConfig = u32 (rxMode .| (rtl8125_rx_config id .| (freg d RxConfig .& RxConfigMask (info (chipset id))))) /\
  freg d' MAR0 = u32 mc0 /\ freg d' MAR1 = u32 mc1.
Proof.
  cbv zeta. unfold write_rx_mode. rewrite !bind_run. pose proof (freg_read RxConfig d eq_refl) as H.
  destruct (RTL_R32 RxConfig d) as [v d1]. destruct H as [-> _]. cbn [fst snd].
  rewrite !freg_write by done. done.
Qed.

Lemma accept_bit id rxMode v k : rx_config_ok id -> 0 <= k < 6 ->
  has (u32 (rxMode .| (rtl8125_rx_config id .| (v .& RxConfigMask (info (chipset id)))))) (BIT k) = Z.testbit rxMode k.
Proof.
  intros Hid Hk. rewrite has_bit by lia. rewrite u32_bits, (proj2 (Z.ltb_lt k 32)) by lia. cbn [andb].
  rewrite !Z.lor_spec, Z.land_spec, Hid. destruct (table_no_accept (chipset id) k Hk) as [-> ->].
  by rewrite andb_false_r, !orb_false_r.
Qed.

Lemma accept_all id rxMode v : rx_config_ok id ->
  has (u32 (rxMode .| (rtl8125_rx_config id .| (v .& RxConfigMask (info (chipset id)))))) AcceptAllPhys = Z.testbit rxMode 0.
Proof. intros Hid. by apply (accept_bit id rxMode v 0). Qed.

Lemma accept_multicast id rxMode v : rx_config_ok id ->
  has (u32 (rxMode .| (rtl8125_rx_config id .| (v .& RxConfigMask (info (chipset id)))))) AcceptMulticast = Z.testbit rxMode 2.
Proof. intros Hid. by apply (accept_bit id rxMode v 2). Qed.

(** What the chip accepts once a mode and a filter are written. *)
Lemma mode_accepts id mode x0 x1 (d : D) a : rx_config_ok id ->
  hw_accepts (write_rx_mode id (mode, x0, x1) d).2 a =
  Z.testbit mode 0 || Z.testbit mode 2 && table_bit (u32 x0) (u32 x1) (hash_of a).
Proof.
  intros Hid. unfold hw_accepts. destruct (write_rx_mode_regs id mode x0 x1 d) as (->&->&->).
  by rewrite accept_all, accept_multicast.
Qed.

Lemma apply_accepts id f w ok (d : D) a : rx_config_ok id -> rx_vars f w ok ->
  hw_accepts (applyRxMode id f d).2 a = w_promisc w || covered (filter_holds w ok) a.
Proof.
  intros Hid (Hp&Hg). unfold applyRxMode, rx_mode. rewrite Hp. pose proof (hash_range a) as Hh.
  destruct (w_promisc w); [by rewrite mode_accepts|].
  destruct (filter_holds w ok) as [| |l]; [by rewrite Hg, mode_accepts| |]; destruct Hg as [-> ->];
    rewrite mode_accepts, !(u32_small (u32 _)) by (done || apply u32_range).
  - by rewrite table_all.
  - by rewrite table_of_list.
Qed.

(** Every handler updates the variables and reprograms the chip. *)
Lemma handle_vars id r f w ok (d : D) : rx_vars f w ok ->
  exists f', rx_vars f' (request r w) (in_step r w ok) /\
    handle id r f d = ((kIOReturnSuccess, f'), (applyRxMode id f' d).2).
Proof.
  intros (Hp&Hg). destruct r as [b|b|a n]; cbn [handle request in_step]; unfold setPromiscuousModeEnable,
    setAllMulticastModeEnable, setMulticastAddresses; (eexists; split; [|rewrite bind_run; reflexivity]);
    unfold rx_vars; cbn [w_promisc w_groups stateFlags multicastFilter].
  - rewrite !upd_bit_test by done. done.
  - rewrite !upd_bit_test by done. split; [exact Hp|]. unfold filter_holds; cbn [w_all w_groups].
    destruct b; [done|]. by destruct (w_groups w).
  - assert (E : (if n =? 0 then clear_bit else set_bit) = if negb (n =? 0) then set_bit else clear_bit)
      by (by destruct (n =? 0)).
    rewrite E, !upd_bit_test by done. split; [exact Hp|].
    assert (Eh : filter_holds (mkWanted (w_promisc w) (w_all w) (asked_groups a n)) (negb (w_all w)) = asked_groups a n)
      by (unfold filter_holds; cbn; by destruct (w_all w)). rewrite Eh. unfold asked_groups.
    destruct (n =? 0); [done|]. destruct a as [l|]; [|done]. by destruct (32 <? n).
Qed.

Lemma handle_all_accepts id rs : forall f w ok (d : D), rx_config_ok id -> rx_vars f w ok ->
  (forall a, hw_accepts d a = w_promisc w || covered (filter_holds w ok) a) ->
  let '(f', d') := handle_all id rs f d in
  let '(w', ok') := foldl follow (w, ok) rs in
  forall a, hw_accepts d' a = w_promisc w' || covered (filter_holds w' ok') a.
Proof.
  induction rs as [|r rs IH]; intros f w ok d Hid Hv Ha; [done|]. cbn [handle_all foldl].
  destruct (handle_vars id r f w ok d Hv) as (f'&Hv'&->). apply IH; [done|done|].
  intros a. by apply apply_accepts.
Qed.
End Refine.

(** C12: the receive filter against the stack's requests. Promiscuous mode,
    all-multicast mode and the multicast list are three wishes that hold until
    changed. Once the receive mode has been applied, after any sequence of requests
    the chip receives a group address only when one of them wants it (a listed
    group, or one with the CRC hash of a listed group), and whenever one wants it
    as long as the driver is in step: then every listed group is received, all
    groups in promiscuous or all-multicast mode, none without a wish, and a list
    that is too long or absent opens the filter. The driver falls out of step in
    two cases, until the next multicast request: when all-multicast mode is
    switched off while a list is installed, it receives no group (the list is
    forgotten); when a list is installed in all-multicast mode, it receives the
    list only. *)
Theorem rx_filter_refines {D} `{M : !Mmio D} `{F : !FilterRegs D} id rs f w (d : D) :
  rx_config_ok id -> rx_vars f w true ->
  let '(_, d1) := applyRxMode id f d in
  let '(_, d') := handle_all id rs f d1 in
  let '(w', ok) := foldl follow (w, true) rs in
  (forall a, hw_accepts d' a = true -> wants w' a = true) /\
  (ok = true -> forall a, hw_accepts d' a = wants w' a) /\
  (ok = true -> forall l a, w_groups w' = Groups l -> In a l -> hw_accepts d' a = true) /\
  (ok = false -> forall a, hw_accepts d' a = w_promisc w' || (w_all w' && covered (w_groups w') a)).
Proof.
  intros Hid Hv. destruct (applyRxMode id f d) as [u d1] eqn:E.
  pose proof (handle_all_accepts id rs f w true d1 Hid Hv) as H.
  destruct (handle_all id rs f d1) as [f' d']. destruct (foldl follow (w, true) rs) as [w' ok].
  assert (Hacc : forall a, hw_accepts d' a = w_promisc w' || covered (filter_holds w' ok) a).
  { apply H. intros a. rewrite <- (apply_accepts id f w true d a Hid Hv). by rewrite E. }
  clear H. unfold wants, filter_holds in *. split_and!.
  - intros a. rewrite Hacc. destruct ok, (w_promisc w'), (w_all w'); done.
  - intros -> a. rewrite Hacc. by destruct (w_all w').
  - intros -> l a Hw Hin. rewrite Hacc. apply orb_true_iff. right. destruct (w_all w'); [done|]. rewrite Hw.
    apply existsb_exists. exists a. split; [done|apply Z.eqb_refl].
  - intros -> a. rewrite Hacc. by destruct (w_all w').
Qed.

(** Leaving all-multicast mode forgets the groups joined before: the list is not
    kept apart from the mode. *)
Theorem allmulticast_off_forgets_groups {D} `{M : !Mmio D} `{F : !FilterRegs D} id l f (d : D) a :
  rx_config_ok id -> test_bit __PROMISC (stateFlags f) = false ->
  let '(_, d') := handle_all id [MulticastList (Some l) (Z.of_nat (length l)); AllMulticast true; AllMulticast false] f d in
  hw_accepts d' a = false.
Proof.
  intros Hid Hp. cbn [handle_all handle].
  unfold setMulticastAddresses, setAllMulticastModeEnable. rewrite bind_run. unfold ret. rewrite bind_run.
  rewrite bind_run. cbn [fst snd].
  apply (apply_accepts id _ (mkWanted false false NoGroups) true); [done|]. split; cbn [w_promisc w_groups stateFlags].
  - rewrite clear_bit_test, set_bit_test by done. destruct (_ =? 0); [rewrite clear_bit_test by done|rewrite set_bit_test by done];
      by rewrite Hp.
  - cbn [filter_holds w_all w_groups stateFlags]. rewrite clear_bit_test by done. apply andb_false_r.
Qed.

(** ** The kernel extension *)

Lemma kext_list_snoc l a : Kext.list_filter (l ++ [a]) =
  (x ← Kext.list_filter l; m ← shl_int (hash_of a); Some (x .| m)).
Proof.
  unfold Kext.list_filter. rewrite foldl_app. cbn [foldl]. rewrite ether_crc_same. fold (hash_of a). by rewrite hash_land.
Qed.

Lemma shl_int_hash a : shl_int (hash_of a) = if hash_of a <? 31 then Some (u64 (Z.shiftl 1 (hash_of a))) else None.
Proof.
  unfold shl_int. pose proof (hash_range a). rewrite (proj2 (Z.leb_le 0 _)) by lia. cbn [andb].
  destruct (hash_of a <? 31); [|done]. f_equal. rewrite Z.shiftl_1_l. symmetry. apply u64_small.
  change 18446744073709551616 with (2 ^ 64). split; [lia|apply Z.pow_lt_mono_r; lia].
Qed.

Lemma kext_list_filter l :
  Kext.list_filter l = if forallb (fun a => hash_of a <? 31) l then Some (filter_of_list l) else None.
Proof.
  induction l as [|a l IH] using rev_ind; [done|]. rewrite kext_list_snoc, IH, forallb_app. cbn [forallb].
  rewrite andb_true_r, shl_int_hash. destruct (forallb _ l); [|done]. cbn [mbind option_bind andb].
  destruct (hash_of a <? 31); [|done]. cbn [mbind option_bind]. f_equal.
  unfold filter_of_list. rewrite foldl_app. cbn [foldl]. by rewrite hash_land.
Qed.

(** The kernel extension builds the same multicast filter as the DriverKit
    driver only for lists whose hashes are all below 31: it shifts the [int] 1,
    so any group with a higher hash (over half of the hash space, among them
    the IPv6 all-nodes group 33:33:00:00:00:01) makes the operation undefined,
    where the DriverKit driver, which shifts a 64-bit 1, records every group. *)
Theorem kext_multicast_list_undefined {D} `{M : !Mmio D} (l : list ether_addr) (f : rxf) :
  Z.of_nat (length l) <= Kext.kMCFilterLimit ->
  (Kext.setMulticastList (D := D) l (Z.of_nat (length l)) f = None <-> Exists (fun a => 31 <= hash_of a) l) /\
  (Forall (fun a => hash_of a < 31) l -> Kext.list_filter l = Some (filter_of_list l)) /\
  31 <= hash_of [0x33; 0x33; 0; 0; 0; 1].
Proof.
  intros Hl. split; [|split; [|by vm_compute]].
  - unfold Kext.setMulticastList. rewrite (proj2 (Z.leb_le _ _)) by done.
    rewrite Nat2Z.id, firstn_all, kext_list_filter. destruct (forallb (fun a => hash_of a <? 31) l) eqn:E; cbn.
    + split; [done|]. intros Hx. exfalso. rewrite List.Exists_exists in Hx. destruct Hx as (a&Hin&Ha).
      rewrite forallb_forall in E. specialize (E _ Hin). bool_props. lia.
    + split; [|done]. intros _. apply List.Exists_exists. apply Is_true_false in E.
      destruct (List.existsb (fun a => negb (hash_of a <? 31)) l) eqn:X.
      * apply existsb_exists in X as (a&Hin&Ha). exists a. split; [done|]. bool_props. lia.
      * exfalso. apply E. apply Is_true_true, forallb_forall. intros a Hin.
        destruct (hash_of a <? 31) eqn:Y; [done|]. enough (existsb (fun a => negb (hash_of a <? 31)) l = true) by congruence.
        apply existsb_exists. exists a. by rewrite Y.
  - intros Hf. rewrite kext_list_filter. assert (forallb (fun a => hash_of a <? 31) l = true) as ->; [|done].
    apply forallb_forall. intros a Hin. rewrite List.Forall_forall in Hf. apply Z.ltb_lt. auto.
Qed.

(** Changing the multicast mode of the kernel extension leaves promiscuous mode
    in the chip, though the flag stays: its handler does not look at the
    other mode. *)
Theorem kext_multicast_drops_promiscuous {D} `{M : !Mmio D} `{F : !FilterRegs D} id active f (d : D) :
  rx_config_ok id ->
  let '((_, f1), d1) := Kext.setPromiscuousMode id true f d in
  let '((_, f2), d2) := Kext.setMulticastMode id active f1 d1 in
  test_bit __PROMISC (stateFlags f2) = true /\ has (freg d2 RxConfig) AcceptAllPhys = false.
Proof.
  intros Hid. unfold Kext.setPromiscuousMode. rewrite bind_run. unfold ret at 1. unfold Kext.setMulticastMode.
  rewrite bind_run. unfold ret. cbn [stateFlags multicastFilter]. split.
  - destruct active; [rewrite set_bit_test by done|rewrite clear_bit_test by done]; by rewrite set_bit_test, orb_true_r by done.
  - set (d1 := (write_rx_mode _ _ d).2). destruct active.
    + destruct (write_rx_mode_regs id (AcceptBroadcast .| AcceptMulticast .| AcceptMyPhys)
        (u32 (multicastFilter f)) (u32 (Z.shiftr (multicastFilter f) 32)) d1) as (->&_&_). by rewrite accept_all.
    + destruct (write_rx_mode_regs id (AcceptBroadcast .| AcceptMyPhys) 0 0 d1) as (->&_&_). by rewrite accept_all.
Qed.

(** ** A register file *)
Module RegFile.

Definition dev := gmap Z Z.

#[export] Instance file_mmio : Mmio dev := {|
  R8 := fun a d => (aget 0 d a, d); R16 := fun a d => (aget 0 d a, d); R32 := fun a d => (aget 0 d a, d);
  W8 := fun a v d => <[a := v]> d; W16 := fun a v d => <[a := v]> d; W32 := fun a v d => <[a := v]> d;
  udelay := fun _ d => d |}.

#[export] Program Instance file_filter : FilterRegs dev := {| freg := fun d a => u32 (aget 0 d a) |}.
Next Obligation. done. Qed.
Next Obligation.
  intros a v d b _. cbn. destruct (Z.eqb_spec b a) as [->|Hne].
  - rewrite aget_insert_eq. apply u32_small, u32_range.
  - by rewrite aget_insert_ne by done.
Qed.

Definition id_8127 : identified := mkId CFG_METHOD_42 16 false rcr_27.
Definition mdns : ether_addr := [1; 0; 0x5e; 0; 0; 0xfb].
Definition all_nodes : ether_addr := [0x33; 0x33; 0; 0; 0; 1].

(** Two groups joined, in step. *)
Lemma rx_filter_refines_witness :
  let '(_, d1) := applyRxMode id_8127 (mkRxf 0 0) ∅ in
  let '(_, d') := handle_all id_8127 [MulticastList (Some [mdns; all_nodes]) 2] (mkRxf 0 0) d1 in
  hw_accepts d' mdns = true /\ hw_accepts d' [1; 0; 0x5e; 0; 0; 1] = false.
Proof.
  pose proof (rx_filter_refines id_8127 [MulticastList (Some [mdns; all_nodes]) 2] (mkRxf 0 0)
    (mkWanted false false NoGroups) (∅ : dev) eq_refl (conj eq_refl eq_refl)) as H.
  destruct (applyRxMode id_8127 (mkRxf 0 0) ∅) as [u d1].
  destruct (handle_all id_8127 [MulticastList (Some [mdns; all_nodes]) 2] (mkRxf 0 0) d1) as [f' d'].
  destruct H as (_&H&_). specialize (H eq_refl). rewrite !H. split; vm_compute; reflexivity.
Defined.

Lemma kext_multicast_list_undefined_witness :
  Kext.setMulticastList (D := dev) [mdns; all_nodes] 2 (mkRxf 0 0) = None /\
  Kext.list_filter [mdns] = Some (filter_of_list [mdns]).
Proof.
  split.
  - apply (proj1 (kext_multicast_list_undefined (D := dev) [mdns; all_nodes] (mkRxf 0 0) ltac:(by vm_compute))).
    apply Exists_cons_tl, Exists_cons_hd. by vm_compute.
  - apply (proj1 (proj2 (kext_multicast_list_undefined (D := dev) [mdns] (mkRxf 0 0) ltac:(by vm_compute)))).
    constructor; [by vm_compute|constructor].
Defined.
End RegFile.
