(* ===== verification/Power.v ===== *)
(** Power management of rtl812xx.cpp: the variables of rtl8125_private that
    change after set-up, PHY power and UPS resume, D0 speed-up, power-down with
    and without wake-up, the hand-over with the management firmware, and the
    bus parameters set at bring-up. *)
From S2P Require Import Prelude Mmio Channel Chip SwVars Eeprom Hw Mcu.
Local Open Scope prog_scope.

Definition TimeInt2 : Z := 0x8C.
Definition MAC0 : Z := 0x00.
Definition MAC4 : Z := 0x04.
Definition IB2SOC_SET : Z := 0x10.
Definition IB2SOC_DATA : Z := 0x14.
Definition IB2SOC_CMD : Z := 0x18.
Definition INT_MITI_V2_0_RX : Z := 0x0A00.
Definition INT_MITI_V2_0_TX : Z := 0x0A02.
Definition INT_MITI_V2_1_TX : Z := 0x0A0A.
Definition OOB_CMD_DRIVER_START : Z := 0x05.
Definition OOB_CMD_DRIVER_STOP : Z := 0x06.
Definition AcceppVlanPhys : Z := 0x8000.
(** The page of the DriverKit build (compat/IOKit/IOLib.h): 16 KB, as on Apple silicon. *)
Definition PAGE_SIZE : Z := 0x4000.

Definition D0_SPEED_UP_SPEED_DISABLE : Z := 0.
Definition D0_SPEED_UP_SPEED_1000 : Z := 1.
Definition D0_SPEED_UP_SPEED_2500 : Z := 2.
Definition D0_SPEED_UP_SPEED_5000 : Z := 3.
Definition D0_SPEED_UP_SPEED_10000 : Z := 4.

(** rtl8125_private: the fixed part ([ctx]) and what changes. *)
Record tpvars := mkTpv {
  ctx : tpctx;
  cur_page : Z;
  D0SpeedUpSpeed : Z;
  check_keep_link_speed : bool;
  resume_not_chg_speed : bool;
  aspm : Z;
  rms : Z;
  cp_cmd : Z;
  bios_setting : Z;
  eeprom : eeprom_kind * Z;
  mcu : mcust;
  partner : wolst;
  phy_auto_nego_reg : Z;
  phy_1000_ctrl_reg : Z;
  phy_2500_ctrl_reg : Z;
}.

Definition tp_mcfg (tp : tpvars) : cfg := mcfg (tid (ctx tp)).
Definition tp_chan (tp : tpvars) : chancfg := chan (ctx tp).
Definition tp_sw (tp : tpvars) : swvars := sw (ctx tp).

Definition set_page (p : Z) (t : tpvars) : tpvars :=
  mkTpv (ctx t) p (D0SpeedUpSpeed t) (check_keep_link_speed t) (resume_not_chg_speed t) (aspm t) (rms t) (cp_cmd t)
    (bios_setting t) (eeprom t) (mcu t) (partner t) (phy_auto_nego_reg t) (phy_1000_ctrl_reg t) (phy_2500_ctrl_reg t).
Definition set_ctx (c : tpctx) (t : tpvars) : tpvars :=
  mkTpv c (cur_page t) (D0SpeedUpSpeed t) (check_keep_link_speed t) (resume_not_chg_speed t) (aspm t) (rms t) (cp_cmd t)
    (bios_setting t) (eeprom t) (mcu t) (partner t) (phy_auto_nego_reg t) (phy_1000_ctrl_reg t) (phy_2500_ctrl_reg t).
Definition set_d0 (s : Z) (t : tpvars) : tpvars :=
  mkTpv (ctx t) (cur_page t) s (check_keep_link_speed t) (resume_not_chg_speed t) (aspm t) (rms t) (cp_cmd t)
    (bios_setting t) (eeprom t) (mcu t) (partner t) (phy_auto_nego_reg t) (phy_1000_ctrl_reg t) (phy_2500_ctrl_reg t).
Definition set_keep (b : bool) (t : tpvars) : tpvars :=
  mkTpv (ctx t) (cur_page t) (D0SpeedUpSpeed t) b (resume_not_chg_speed t) (aspm t) (rms t) (cp_cmd t)
    (bios_setting t) (eeprom t) (mcu t) (partner t) (phy_auto_nego_reg t) (phy_1000_ctrl_reg t) (phy_2500_ctrl_reg t).
Definition set_aspm (a : Z) (t : tpvars) : tpvars :=
  mkTpv (ctx t) (cur_page t) (D0SpeedUpSpeed t) (check_keep_link_speed t) (resume_not_chg_speed t) a (rms t) (cp_cmd t)
    (bios_setting t) (eeprom t) (mcu t) (partner t) (phy_auto_nego_reg t) (phy_1000_ctrl_reg t) (phy_2500_ctrl_reg t).
Definition set_rms (r : Z) (t : tpvars) : tpvars :=
  mkTpv (ctx t) (cur_page t) (D0SpeedUpSpeed t) (check_keep_link_speed t) (resume_not_chg_speed t) (aspm t) r (cp_cmd t)
    (bios_setting t) (eeprom t) (mcu t) (partner t) (phy_auto_nego_reg t) (phy_1000_ctrl_reg t) (phy_2500_ctrl_reg t).
Definition set_cp_cmd (c : Z) (t : tpvars) : tpvars :=
  mkTpv (ctx t) (cur_page t) (D0SpeedUpSpeed t) (check_keep_link_speed t) (resume_not_chg_speed t) (aspm t) (rms t) c
    (bios_setting t) (eeprom t) (mcu t) (partner t) (phy_auto_nego_reg t) (phy_1000_ctrl_reg t) (phy_2500_ctrl_reg t).
Definition set_bios (b : Z) (t : tpvars) : tpvars :=
  mkTpv (ctx t) (cur_page t) (D0SpeedUpSpeed t) (check_keep_link_speed t) (resume_not_chg_speed t) (aspm t) (rms t)
    (cp_cmd t) b (eeprom t) (mcu t) (partner t) (phy_auto_nego_reg t) (phy_1000_ctrl_reg t) (phy_2500_ctrl_reg t).
Definition set_eeprom (e : eeprom_kind * Z) (t : tpvars) : tpvars :=
  mkTpv (ctx t) (cur_page t) (D0SpeedUpSpeed t) (check_keep_link_speed t) (resume_not_chg_speed t) (aspm t) (rms t)
    (cp_cmd t) (bios_setting t) e (mcu t) (partner t) (phy_auto_nego_reg t) (phy_1000_ctrl_reg t) (phy_2500_ctrl_reg t).
Definition set_mcu (m : mcust) (t : tpvars) : tpvars :=
  mkTpv (ctx t) (cur_page t) (D0SpeedUpSpeed t) (check_keep_link_speed t) (resume_not_chg_speed t) (aspm t) (rms t)
    (cp_cmd t) (bios_setting t) (eeprom t) m (partner t) (phy_auto_nego_reg t) (phy_1000_ctrl_reg t) (phy_2500_ctrl_reg t).
Definition set_partner (w : wolst) (t : tpvars) : tpvars :=
  mkTpv (ctx t) (cur_page t) (D0SpeedUpSpeed t) (check_keep_link_speed t) (resume_not_chg_speed t) (aspm t) (rms t)
    (cp_cmd t) (bios_setting t) (eeprom t) (mcu t) w (phy_auto_nego_reg t) (phy_1000_ctrl_reg t) (phy_2500_ctrl_reg t).
Definition set_adv_regs (a g c : Z) (t : tpvars) : tpvars :=
  mkTpv (ctx t) (cur_page t) (D0SpeedUpSpeed t) (check_keep_link_speed t) (resume_not_chg_speed t) (aspm t) (rms t)
    (cp_cmd t) (bios_setting t) (eeprom t) (mcu t) (partner t) a g c.

(** Updates of the fields that change after rtl8125_init_software_variable. *)
Definition sw_set_ram_code (ver : Z) (written : bool) (s : swvars) : swvars :=
  mkSw (s_HwSuppDashVer s) (s_HwSuppOcpChannelVer s) (s_AllowAccessDashOcp s) (HwPkgDet s) (HwPcieSNOffset s)
    (s_DASH s) (DashFirmwareVersion s) (org_pci_offset_99 s) (org_pci_offset_180 s) (HwSuppMaxPhyLinkSpeed s)
    (HwFiberModeVer s) (HwSuppMagicPktVer s) (HwSuppEsdVer s) (BackupPhyFuseDout s) (TestPhyOcpReg s)
    (HwSuppD0SpeedUpVer s) (HwSuppCheckPhyDisableModeVer s) (HwSuppTxNoCloseVer s) (s_MaxTxDescPtrMask s)
    (RequireLSOPatch s) (sw_ram_code_ver s) (NotWrRamCodeToMicroP s) (NotWrMcuPatchCode s) ver written
    (RequirePhyMdiSwapPatch s) (HwSuppMacMcuVer s) (MacMcuPageSize s) (HwCloPtrReg s) (SwTailPtrReg s)
    (HwSuppIntMitiVer s) (Tcam s) (RequiredPfmPatch s) (HwSuppRxDescType s) (wol_opts s) (wol_enabled s)
    (link s) (eee s).
Definition sw_set_wol (opts : Z) (enabled : bool) (s : swvars) : swvars :=
  mkSw (s_HwSuppDashVer s) (s_HwSuppOcpChannelVer s) (s_AllowAccessDashOcp s) (HwPkgDet s) (HwPcieSNOffset s)
    (s_DASH s) (DashFirmwareVersion s) (org_pci_offset_99 s) (org_pci_offset_180 s) (HwSuppMaxPhyLinkSpeed s)
    (HwFiberModeVer s) (HwSuppMagicPktVer s) (HwSuppEsdVer s) (BackupPhyFuseDout s) (TestPhyOcpReg s)
    (HwSuppD0SpeedUpVer s) (HwSuppCheckPhyDisableModeVer s) (HwSuppTxNoCloseVer s) (s_MaxTxDescPtrMask s)
    (RequireLSOPatch s) (sw_ram_code_ver s) (NotWrRamCodeToMicroP s) (NotWrMcuPatchCode s) (hw_ram_code_ver s)
    (HwHasWrRamCodeToMicroP s) (RequirePhyMdiSwapPatch s) (HwSuppMacMcuVer s) (MacMcuPageSize s)
    (HwCloPtrReg s) (SwTailPtrReg s) (HwSuppIntMitiVer s) (Tcam s) (RequiredPfmPatch s) (HwSuppRxDescType s)
    opts enabled (link s) (eee s).
Definition sw_set_link (l : linkopt) (s : swvars) : swvars :=
  mkSw (s_HwSuppDashVer s) (s_HwSuppOcpChannelVer s) (s_AllowAccessDashOcp s) (HwPkgDet s) (HwPcieSNOffset s)
    (s_DASH s) (DashFirmwareVersion s) (org_pci_offset_99 s) (org_pci_offset_180 s) (HwSuppMaxPhyLinkSpeed s)
    (HwFiberModeVer s) (HwSuppMagicPktVer s) (HwSuppEsdVer s) (BackupPhyFuseDout s) (TestPhyOcpReg s)
    (HwSuppD0SpeedUpVer s) (HwSuppCheckPhyDisableModeVer s) (HwSuppTxNoCloseVer s) (s_MaxTxDescPtrMask s)
    (RequireLSOPatch s) (sw_ram_code_ver s) (NotWrRamCodeToMicroP s) (NotWrMcuPatchCode s) (hw_ram_code_ver s)
    (HwHasWrRamCodeToMicroP s) (RequirePhyMdiSwapPatch s) (HwSuppMacMcuVer s) (MacMcuPageSize s)
    (HwCloPtrReg s) (SwTailPtrReg s) (HwSuppIntMitiVer s) (Tcam s) (RequiredPfmPatch s) (HwSuppRxDescType s)
    (wol_opts s) (wol_enabled s) l (eee s).
Definition sw_set_eee (e : keee) (s : swvars) : swvars :=
  mkSw (s_HwSuppDashVer s) (s_HwSuppOcpChannelVer s) (s_AllowAccessDashOcp s) (HwPkgDet s) (HwPcieSNOffset s)
    (s_DASH s) (DashFirmwareVersion s) (org_pci_offset_99 s) (org_pci_offset_180 s) (HwSuppMaxPhyLinkSpeed s)
    (HwFiberModeVer s) (HwSuppMagicPktVer s) (HwSuppEsdVer s) (BackupPhyFuseDout s) (TestPhyOcpReg s)
    (HwSuppD0SpeedUpVer s) (HwSuppCheckPhyDisableModeVer s) (HwSuppTxNoCloseVer s) (s_MaxTxDescPtrMask s)
    (RequireLSOPatch s) (sw_ram_code_ver s) (NotWrRamCodeToMicroP s) (NotWrMcuPatchCode s) (hw_ram_code_ver s)
    (HwHasWrRamCodeToMicroP s) (RequirePhyMdiSwapPatch s) (HwSuppMacMcuVer s) (MacMcuPageSize s)
    (HwCloPtrReg s) (SwTailPtrReg s) (HwSuppIntMitiVer s) (Tcam s) (RequiredPfmPatch s) (HwSuppRxDescType s)
    (wol_opts s) (wol_enabled s) (link s) e.

Definition set_sw (s : swvars) (t : tpvars) : tpvars := set_ctx (mkTp (tid (ctx t)) s (diag (ctx t))) t.

Definition HW_SUPPORT_D0_SPEED_UP (tp : tpvars) : bool := 0 <? HwSuppD0SpeedUpVer (tp_sw tp).
Definition HW_DASH_SUPPORT_DASH (tp : tpvars) : bool := 0 <? s_HwSuppDashVer (tp_sw tp).
Definition HW_DASH_SUPPORT_CMAC (tp : tpvars) : bool :=
  (s_HwSuppDashVer (tp_sw tp) =? 2) || (s_HwSuppDashVer (tp_sw tp) =? 3).
Definition HW_DASH_SUPPORT_IPC2 (tp : tpvars) : bool := s_HwSuppDashVer (tp_sw tp) =? 4.

Section Code.
Context {D : Type} `{M : !Mmio D}.

Definition rtl8125_aspm_is_safe : prog D bool :=
  do v <- rtl8125_mac_ocp_read 0xc0b2; ret (has v 0xf).

(** ** PHY disable mode, timers and FIFOs *)

Definition rtl8125_is_gpio_low : prog D bool :=
  do v <- rtl8125_mac_ocp_read 0xDC04; ret (negb (has v (BIT 13))).

Definition rtl8125_is_phy_disable_mode_enabled : prog D bool := do v <- RTL_R8 0xF2; ret (has v (BIT 5)).

Definition rtl8125_enable_phy_disable_mode (tp : tpvars) : prog D unit :=
  if HwSuppCheckPhyDisableModeVer (tp_sw tp) =? 3 then set8 0xF2 (BIT 5) else ret tt.

Definition rtl8125_disable_phy_disable_mode (tp : tpvars) : prog D unit :=
  (if HwSuppCheckPhyDisableModeVer (tp_sw tp) =? 3 then clr8 0xF2 (BIT 5) else ret tt) ;;; delay_us 1000.

Definition rtl8125_hw_set_timer_int_8125 (tp : tpvars) (message_id timer_intmiti_val : Z) : prog D unit :=
  if HwSuppIntMitiVer (tp_sw tp) =? 4 then
    if message_id <? 16 then RTL_W8 (INT_MITI_V2_0_RX + 8 * message_id) timer_intmiti_val
    else if message_id =? 16 then RTL_W8 INT_MITI_V2_0_TX timer_intmiti_val
    else if message_id =? 18 then RTL_W8 INT_MITI_V2_1_TX timer_intmiti_val
    else ret tt
  else ret tt.

Definition rtl8125_xmii_reset_pending (tp : tpvars) : prog D (Z * tpvars) :=
  do page <- rtl8125_mdio_write (cur_page tp) 0x1f 0;
  do v <- rtl8125_mdio_read (tp_chan tp) page MII_BMCR;
  ret (v .& BMCR_RESET, set_page page tp).

(** [for (i = 0; i < n; i++) { udelay(100); if (ready) break; }] *)
Fixpoint ll_share_loop (n : nat) : prog D unit :=
  match n with
  | O => ret tt
  | S n' => delay_us 100 ;;; do v <- RTL_R16 0xD2; if has v (BIT 9) then ret tt else ll_share_loop n'
  end.
Definition rtl8125_wait_ll_share_fifo_ready : prog D unit := ll_share_loop 10.

(** ** D0 speed-up *)

Definition d0_speed_bits (s : Z) : Z :=
  if s =? D0_SPEED_UP_SPEED_2500 then BIT 7
  else if s =? D0_SPEED_UP_SPEED_5000 then BIT 8
  else if s =? D0_SPEED_UP_SPEED_10000 then BIT 7 .| BIT 8 else 0.

Definition is_fc_full (l : linkopt) : bool := match fcpause l with rtl8125_fc_full => true | _ => false end.

Definition rtl8125_enable_d0_speedup (tp : tpvars) : prog D unit :=
  let ver := HwSuppD0SpeedUpVer (tp_sw tp) in
  if negb (HW_SUPPORT_D0_SPEED_UP tp) then ret tt
  else if D0SpeedUpSpeed tp =? D0_SPEED_UP_SPEED_DISABLE then ret tt
  else
    (if (ver =? 1) || (ver =? 2) then
       rtl8125_clear_set_mac_ocp_bit 0xE10A (BIT 10 .| BIT 9 .| BIT 8 .| BIT 7) (d0_speed_bits (D0SpeedUpSpeed tp)) ;;;
       rtl8125_clear_set_mac_ocp_bit 0xE860
         (if ver =? 2 then BIT 15 .| BIT 14 .| BIT 13 else BIT 15 .| BIT 14)
         (if is_fc_full (link (tp_sw tp)) then (if ver =? 2 then BIT 15 .| BIT 14 .| BIT 13 else BIT 15 .| BIT 14) else 0)
     else ret tt) ;;;
    set8 0xD0 (BIT 3).

Definition rtl8125_disable_d0_speedup (tp : tpvars) : prog D unit :=
  if HW_SUPPORT_D0_SPEED_UP tp then clr8 0xD0 (BIT 3) else ret tt.

Definition rtl8125_set_d0_speedup_speed (tp : tpvars) : tpvars :=
  if negb (HW_SUPPORT_D0_SPEED_UP tp) then tp else
  let l := link (tp_sw tp) in
  set_d0 (if autoneg l =? AUTONEG_ENABLE then
            if speed l =? SPEED_10000 then D0_SPEED_UP_SPEED_10000
            else if speed l =? SPEED_5000 then D0_SPEED_UP_SPEED_5000
            else if speed l =? SPEED_2500 then D0_SPEED_UP_SPEED_2500
            else if speed l =? SPEED_1000 then D0_SPEED_UP_SPEED_1000
            else D0_SPEED_UP_SPEED_DISABLE
          else D0_SPEED_UP_SPEED_DISABLE) tp.

(** ** PHY power and UPS *)

(** [do { state = read & 7; mdelay(1); i++; } while (i < 100 && state != want)] *)
Fixpoint ups_loop (n : nat) (want : Z) : prog D unit :=
  match n with
  | O => ret tt
  | S n' => do v <- mdio_direct_read_phy_ocp 0xA420;
            delay_us 1000 ;;;
            if (v .& 7) =? want then ret tt else ups_loop n' want
  end.

Definition rtl8125_wait_phy_ups_resume (m : cfg) (PhyState : Z) : prog D unit :=
  match m with
  | CFG_METHOD_2 | CFG_METHOD_3 | CFG_METHOD_4 | CFG_METHOD_5 | CFG_METHOD_41 | CFG_METHOD_42 => ups_loop 100 PhyState
  | _ => ret tt
  end.

Definition rtl8125_phy_power_up (tp : tpvars) : prog D tpvars :=
  do off <- rtl8125_is_in_phy_disable_mode;
  if off then ret tp else
  do page <- rtl8125_mdio_write (cur_page tp) 0x1F 0;
  do page <- rtl8125_mdio_write page MII_BMCR BMCR_ANENABLE;
  rtl8125_wait_phy_ups_resume (tp_mcfg tp) 3 ;;; ret (set_page page tp).

Definition rtl8125_phy_power_down (tp : tpvars) : prog D tpvars :=
  do page <- rtl8125_mdio_write (cur_page tp) 0x1F 0;
  do page <- rtl8125_mdio_write page MII_BMCR (BMCR_ANENABLE .| BMCR_PDOWN);
  ret (set_page page tp).

Definition rtl8125_powerup_pll (tp : tpvars) : prog D tpvars :=
  set8 PMCH (BIT 7 .| BIT 6) ;;;
  if resume_not_chg_speed tp then ret tp else rtl8125_phy_power_up tp.

Definition has_ups_reg (m : cfg) : bool :=
  match m with CFG_METHOD_2 | CFG_METHOD_3 | CFG_METHOD_6 | CFG_METHOD_DEFAULT => false | _ => true end.

Definition rtl8125_clear_phy_ups_reg (tp : tpvars) : prog D unit :=
  (if has_ups_reg (tp_mcfg tp) then ClearEthPhyOcpBit (tp_chan tp) 0xA466 (BIT 0) else ret tt) ;;;
  ClearEthPhyOcpBit (tp_chan tp) 0xA468 (BIT 3 .| BIT 1).

Definition rtl8125_is_ups_resume : prog D Z := do v <- rtl8125_mac_ocp_read 0xD42C; ret (v .& BIT 8).
Definition rtl8125_clear_ups_resume_bit : prog D unit := rtl8125_clear_mac_ocp_bit 0xD42C (BIT 8).

(** ** Power-down *)

(** The link is left alone when it is up and wakes the machine, or after a
    resume that kept the speed. *)
Definition rtl8125_keep_wol_link_speed (tp : tpvars) (from_suspend : bool) : prog D bool :=
  if from_suspend then
    do up <- rtl8125_xmii_link_ok; ret (negb (up =? 0) && has (wol_opts (tp_sw tp)) WAKE_PHY)
  else ret (resume_not_chg_speed tp).

(** The branch for a machine that may be woken. *)
Definition powerdown_wol (tp : tpvars) : prog D tpvars :=
  let s := tp_sw tp in
  rtl8125_set_hw_wol (HwSuppMagicPktVer s) (wol_opts s) ;;;
  rtl8125_enable_cfg9346_write ;;; set8 Config2 PMSTS_En ;;; rtl8125_disable_cfg9346_write ;;;
  do keep <- rtl8125_keep_wol_link_speed tp (wol_enabled s);
  do tp <- (if keep then ret (set_keep true tp) else
              do tp <- (if D0SpeedUpSpeed tp =? D0_SPEED_UP_SPEED_DISABLE then ret tp
                        else rtl8125_enable_d0_speedup tp ;;; ret (set_keep true tp));
              do r <- rtl8125_set_wol_link_speed (ctx tp) (link s) (cur_page tp) (partner tp);
              let '(page, auto_nego) := r in
              (if RequiredPfmPatch s then rtl8125_set_pfm_patch (ctx tp) (has auto_nego (ADVERTISE_10HALF .| ADVERTISE_10FULL))
               else ret tt) ;;;
              ret (set_page page tp));
  do v <- RTL_R32 RxConfig;
  RTL_W32 RxConfig (v .| AcceptBroadcast .| AcceptMulticast .| AcceptMyPhys) ;;; ret tp.

Definition rtl8125_powerdown_pll (tp : tpvars) : prog D tpvars :=
  let tp := set_keep false tp in
  if wol_enabled (tp_sw tp) || s_DASH (tp_sw tp) then powerdown_wol tp else
  do tp <- rtl8125_phy_power_down tp;
  (if HwIcVerUnknown (tid (ctx tp)) then ret tt else clr8 PMCH (BIT 7)) ;;;
  clr8 0xF2 (BIT 6) ;;; ret tp.

Definition rtl8125_hw_d3_para (tp : tpvars) : prog D unit :=
  let m := tp_mcfg tp in
  RTL_W16 RxMaxSize PAGE_SIZE ;;;
  rtl8125_enable_force_clkreq false ;;;
  rtl8125_enable_aspm_clkreq_lock m false ;;;
  rtl8125_disable_exit_l1_mask ;;;
  rtl8125_set_pci_99_exit_driver_para (ctx tp) ;;;
  (match m with CFG_METHOD_2 | CFG_METHOD_3 | CFG_METHOD_6 => rtl8125_disable_ocp_phy_power_saving (ctx tp) | _ => ret tt end) ;;;
  rtl8125_disable_rxdvgate ;;;
  rtl8125_clear_mac_ocp_bit 0xEA84 (BIT 1 .| BIT 0) ;;;
  (match m with
   | CFG_METHOD_31 | CFG_METHOD_32 | CFG_METHOD_33 | CFG_METHOD_41 | CFG_METHOD_42 => ret tt
   | _ => rtl8125_set_reg_oobs_en_sel m false
   end) ;;;
  rtl8125_set_radm_fifo_prot m true.

(** ** Hand-over with the management firmware *)

Definition rtl8125_notify_dash_oob_cmac (tp : tpvars) (cmd : Z) : prog D unit :=
  if negb (HW_DASH_SUPPORT_CMAC tp) then ret tt else
  rtl8125_ocp_write (tp_chan tp) 0x180 4 cmd ;;;
  do val <- rtl8125_ocp_read (tp_chan tp) 0x30 4;
  rtl8125_ocp_write (tp_chan tp) 0x30 4 (val .| BIT 0).

Definition rtl8125_notify_dash_oob_ipc2 (tp : tpvars) (cmd : Z) : prog D unit :=
  if negb (HW_DASH_SUPPORT_IPC2 tp) then ret tt else
  rtl8125_ocp_write (tp_chan tp) IB2SOC_DATA 4 cmd ;;;
  rtl8125_ocp_write (tp_chan tp) IB2SOC_CMD 4 0x00 ;;;
  rtl8125_ocp_write (tp_chan tp) IB2SOC_SET 4 0x01.

Definition rtl8125_notify_dash_oob (tp : tpvars) (cmd : Z) : prog D unit :=
  if HW_DASH_SUPPORT_CMAC tp then rtl8125_notify_dash_oob_cmac tp cmd
  else if HW_DASH_SUPPORT_IPC2 tp then rtl8125_notify_dash_oob_ipc2 tp cmd
  else ret tt.

Fixpoint dash_ready_loop (n : nat) (tp : chancfg) : prog D Z :=
  match n with
  | O => ret 0
  | S n' => delay_us 10000 ;;;
            do v <- rtl8125_ocp_read tp 0x124 1;
            if has v (BIT 0) then ret 1 else dash_ready_loop n' tp
  end.

Definition rtl8125_wait_dash_fw_ready (tp : tpvars) : prog D Z :=
  if s_DASH (tp_sw tp) then dash_ready_loop 10 (tp_chan tp) else ret (-1).

Definition rtl8125_driver_start (tp : tpvars) : prog D unit :=
  if negb (s_AllowAccessDashOcp (tp_sw tp)) then ret tt else
  rtl8125_notify_dash_oob tp OOB_CMD_DRIVER_START ;;; rtl8125_wait_dash_fw_ready tp ;;; ret tt.

Definition rtl8125_driver_stop (tp : tpvars) : prog D unit :=
  if negb (s_AllowAccessDashOcp (tp_sw tp)) then ret tt else
  rtl8125_notify_dash_oob tp OOB_CMD_DRIVER_STOP ;;; rtl8125_wait_dash_fw_ready tp ;;; ret tt.

Definition rtl8125_enable_now_is_oob : prog D unit := set8 MCUCmd_reg Now_is_oob.
Definition rtl8125_disable_now_is_oob : prog D unit := clr8 MCUCmd_reg Now_is_oob.

(** Built without ENABLE_USE_FIRMWARE_FILE. *)
Definition rtl8125_exit_oob (tp : tpvars) : prog D unit :=
  rtl8125_disable_rx_packet_filter ;;;
  (if HW_DASH_SUPPORT_DASH tp then rtl8125_driver_start tp else ret tt) ;;;
  rtl8125_mac_ocp_write 0xC0BC 0x00FF ;;;
  rtl8125_nic_reset (tp_mcfg tp) ;;;
  rtl8125_disable_now_is_oob ;;;
  (do v <- rtl8125_mac_ocp_read 0xE8DE; rtl8125_mac_ocp_write 0xE8DE (v .&~ BIT 14)) ;;;
  rtl8125_wait_ll_share_fifo_ready ;;;
  rtl8125_mac_ocp_write 0xC0AA 0x07D0 ;;;
  rtl8125_mac_ocp_write 0xC0A6 0x01B5 ;;;
  rtl8125_mac_ocp_write 0xC01E 0x5555 ;;;
  rtl8125_wait_ll_share_fifo_ready ;;;
  do up <- rtl8125_is_ups_resume;
  if up =? 0 then ret tt else
  rtl8125_wait_phy_ups_resume (tp_mcfg tp) 2 ;;;
  rtl8125_clear_ups_resume_bit ;;;
  rtl8125_clear_phy_ups_reg tp.

(** ** Set-up shared by the drivers *)

(** CFG_METHOD_2 to CFG_METHOD_5, for rtl8125_hw_init. *)
Definition is_8125ab (m : cfg) : bool :=
  match m with CFG_METHOD_2 | CFG_METHOD_3 | CFG_METHOD_4 | CFG_METHOD_5 => true | _ => false end.

(** The end of rtl8125_hw_init and of rtl812xHwInit: the error mask and the
    wake-up settings. *)
Definition hw_init_tail (tp : tpvars) : prog D unit :=
  let ver := HwSuppMagicPktVer (tp_sw tp) in
  (do csi <- rtl8125_csi_read (tp_chan tp) 0x108; rtl8125_csi_write (tp_chan tp) 0x108 (csi .| BIT 20)) ;;;
  rtl8125_enable_cfg9346_write ;;; rtl8125_disable_linkchg_wakeup ;;; rtl8125_disable_cfg9346_write ;;;
  rtl8125_disable_magic_packet ver ;;;
  rtl8125_disable_d0_speedup tp ;;;
  rtl8125_enable_magic_packet ver.

Definition rtl8125_hw_init (tp : tpvars) : prog D tpvars :=
  (if is_8125ab (tp_mcfg tp) then
     rtl8125_enable_cfg9346_write ;;; clr8 Config5 (BIT 0) ;;; clr8 Config2 (BIT 7) ;;; rtl8125_disable_cfg9346_write ;;;
     clr8 0xF1 (BIT 7) ;;;
     (do v <- rtl8125_mac_ocp_read 0xD40A; rtl8125_mac_ocp_write 0xD40A (v .&~ BIT 4))
   else ret tt) ;;;
  do st <- rtl8125_hw_mac_mcu_config (ctx tp) (mcu tp);
  let tp := set_mcu st tp in
  (if is_8125ab (tp_mcfg tp) then rtl8125_disable_ocp_phy_power_saving (ctx tp) else ret tt) ;;;
  hw_init_tail tp ;;; ret tp.

Definition rtl8125_get_bios_setting (tp : tpvars) : prog D tpvars := do v <- RTL_R32 TimeInt2; ret (set_bios v tp).
Definition rtl8125_set_bios_setting (tp : tpvars) : prog D unit := RTL_W32 TimeInt2 (bios_setting tp).

(** The station address: six octets, low word first. *)
Definition rar_low (a : list Z) : Z :=
  nth 0 a 0 .| Z.shiftl (nth 1 a 0) 8 .| Z.shiftl (nth 2 a 0) 16 .| Z.shiftl (nth 3 a 0) 24.
Definition rar_high (a : list Z) : Z := nth 4 a 0 .| Z.shiftl (nth 5 a 0) 8.

Definition rtl8125_rar_set (addr : list Z) : prog D unit :=
  rtl8125_enable_cfg9346_write ;;;
  RTL_W32 MAC0 (rar_low addr) ;;;
  RTL_W32 MAC4 (rar_high addr) ;;;
  rtl8125_disable_cfg9346_write.

Definition rtl8125_get_l1off_cap_bits (m : cfg) : Z :=
  if has_ups_reg m then BIT 0 .| BIT 1 .| (BIT 2 .| BIT 3) else BIT 0 .| BIT 1.

Definition rtl8125_set_l1_l0s_entry_latency (tp : tpvars) : prog D unit :=
  do csi <- rtl8125_csi_read (tp_chan tp) 0x70c;
  rtl8125_csi_write (tp_chan tp) 0x70c ((csi .& 0xc0ffffff) .| u32 (Z.shiftl (0x27 .& 0x3f) 24)).

Definition rtl8126_disable_l1_timeout (tp : tpvars) : prog D unit :=
  do csi <- rtl8125_csi_read (tp_chan tp) 0x890;
  rtl8125_csi_write (tp_chan tp) 0x890 (csi .&~ BIT 0).

(** The chips with the VLAN acceptance bit in RxMaxSize. *)
Definition rms_vlan (m : cfg) : bool :=
  match m with
  | CFG_METHOD_8 | CFG_METHOD_9 | CFG_METHOD_10 | CFG_METHOD_11 | CFG_METHOD_12 | CFG_METHOD_13
  | CFG_METHOD_31 | CFG_METHOD_32 | CFG_METHOD_33 | CFG_METHOD_41 | CFG_METHOD_42 => true
  | _ => false
  end.

Definition rtl8125_set_rms (m : cfg) (rms : Z) : prog D unit :=
  RTL_W16 RxMaxSize (if rms_vlan m then u16 rms .| AcceppVlanPhys else u16 rms .&~ AcceppVlanPhys).
End Code.
