(* ===== verification/Fiber.v ===== *)
(** The SerDes of the RTL8127ATF (rtl8127_fiber.cpp): its command port, the set-up
    of a 1G or 10G fiber link and the reset that takes the link down; and the PCIe
    PHY set-up rtl8125_hw_ephy_config of rtl812xx.cpp. *)
From S2P Require Import Prelude Mmio Channel Chip SwVars Hw Power.
Local Open Scope prog_scope.

Definition R8127_SDS_8127_CMD : Z := 0x2348.
Definition R8127_SDS_8127_ADDR : Z := 0x234A.
Definition R8127_SDS_8127_DATA_IN : Z := 0x234C.
Definition R8127_SDS_8127_DATA_OUT : Z := 0x234E.
Definition R8127_SDS_8127_CMD_IN : Z := BIT 0.
Definition R8127_SDS_8127_WE_IN : Z := BIT 1.
Definition R8127_MAKE_SDS_8127_ADDR (index page reg : Z) : Z := Z.shiftl index 11 .| Z.shiftl page 5 .| reg.

Definition FIBER_MODE_NIC_ONLY : Z := 0.
Definition FIBER_MODE_RTL8127ATF : Z := 1.
Definition HW_FIBER_MODE_ENABLED (tp : tpvars) : bool := 0 <? HwFiberModeVer (tp_sw tp).

Definition EPHYAR_EXT_ADDR : Z := 0x0ffe.

Section Code.
Context {D : Type} `{M : !Mmio D}.

(** [do { if (busy) udelay(1); else return true; } while (++timeout < 100)] *)
Fixpoint sds_wait (n : nat) : prog D bool :=
  match n with
  | O => ret false
  | S n' => do v <- RTL_R16 R8127_SDS_8127_CMD;
            if has v R8127_SDS_8127_CMD_IN then delay_us 1 ;;; sds_wait n' else ret true
  end.
Definition rtl8127_wait_8127_sds_cmd_done : prog D bool := sds_wait 100.

Definition rtl8127_sds_phy_read_8127 (index page reg : Z) : prog D Z :=
  RTL_W16 R8127_SDS_8127_ADDR (R8127_MAKE_SDS_8127_ADDR index page reg) ;;;
  RTL_W16 R8127_SDS_8127_CMD R8127_SDS_8127_CMD_IN ;;;
  do ok <- rtl8127_wait_8127_sds_cmd_done;
  if ok then RTL_R16 R8127_SDS_8127_DATA_OUT else ret 0xffff.

Definition rtl8127_sds_phy_write_8127 (index page reg val : Z) : prog D unit :=
  RTL_W16 R8127_SDS_8127_DATA_IN val ;;;
  RTL_W16 R8127_SDS_8127_ADDR (R8127_MAKE_SDS_8127_ADDR index page reg) ;;;
  RTL_W16 R8127_SDS_8127_CMD (R8127_SDS_8127_CMD_IN .| R8127_SDS_8127_WE_IN) ;;;
  rtl8127_wait_8127_sds_cmd_done ;;; ret tt.

Definition rtl8127_clear_and_set_sds_phy_bit (index page addr clearmask setmask : Z) : prog D unit :=
  do val <- rtl8127_sds_phy_read_8127 index page addr;
  rtl8127_sds_phy_write_8127 index page addr ((val .&~ clearmask) .| setmask).

Definition rtl8127_clear_sds_phy_bit (index page addr mask : Z) : prog D unit :=
  rtl8127_clear_and_set_sds_phy_bit index page addr mask 0.
Definition rtl8127_set_sds_phy_bit (index page addr mask : Z) : prog D unit :=
  rtl8127_clear_and_set_sds_phy_bit index page addr 0 mask.

Definition rtl8127_sds_phy_reset_8127 : prog D unit :=
  clr8 0x2350 (BIT 0) ;;; delay_us 1 ;;;
  RTL_W16 0x233A 0x801F ;;; set8 0x2350 (BIT 0) ;;; delay_us 10.

Definition rtl8127_sds_phy_reset (tp : tpvars) : prog D unit :=
  if HwFiberModeVer (tp_sw tp) =? FIBER_MODE_RTL8127ATF then rtl8127_sds_phy_reset_8127 else ret tt.

(** The entry point of the DriverKit driver. *)
Definition rtl8127DextSdsPhyReset (tp : tpvars) : prog D unit := rtl8127_sds_phy_reset tp.

(** The common end of both speeds: the mode register 233E keeps four bits and
    gets [bit]; then the PHY side. *)
Definition sds_caps (tp : tpvars) (mode bit c466 : Z) : prog D unit :=
  let c := tp_chan tp in
  RTL_W16 0x233A mode ;;;
  (do v <- RTL_R16 0x233E; RTL_W16 0x233E (v .& (BIT 13 .| BIT 12 .| BIT 1 .| BIT 0) .| bit)) ;;;
  mdio_direct_write_phy_ocp c 0xC40A 0 ;;;
  mdio_direct_write_phy_ocp c 0xC466 c466 ;;;
  mdio_direct_write_phy_ocp c 0xC808 0 ;;;
  mdio_direct_write_phy_ocp c 0xC80A 0 ;;;
  ClearAndSetEthPhyOcpBit c 0xC804 0x000F 0x000C.

Definition rtl8127_set_sds_phy_caps_1g_8127 (tp : tpvars) : prog D unit :=
  rtl8127_set_sds_phy_bit 0 1 31 (BIT 3) ;;;
  rtl8127_clear_and_set_sds_phy_bit 0 2 0 (BIT 13 .| BIT 12 .| BIT 6) (BIT 12 .| BIT 6) ;;;
  sds_caps tp 0x8004 (BIT 1) 0x0.

Definition rtl8127_sds_phy_exit_1g_8127 (tp : tpvars) : prog D unit :=
  rtl8127_clear_sds_phy_bit 0 1 31 (BIT 3) ;;;
  rtl8127_clear_and_set_sds_phy_bit 0 2 0 (BIT 13 .| BIT 12 .| BIT 6) (BIT 6) ;;;
  rtl8127_sds_phy_reset tp.

Definition rtl8127_set_sds_phy_caps_10g_8127 (tp : tpvars) : prog D unit := sds_caps tp 0x801A (BIT 12) 0x3.

Definition rtl8127_set_sds_phy_caps_8127 (tp : tpvars) : prog D unit :=
  rtl8127_sds_phy_exit_1g_8127 tp ;;;
  let s := speed (link (tp_sw tp)) in
  if s =? SPEED_10000 then rtl8127_set_sds_phy_caps_10g_8127 tp
  else if s =? SPEED_1000 then rtl8127_set_sds_phy_caps_1g_8127 tp
  else ret tt.

Definition rtl8127_set_sds_phy_caps (tp : tpvars) : prog D unit :=
  if HwFiberModeVer (tp_sw tp) =? FIBER_MODE_RTL8127ATF then rtl8127_set_sds_phy_caps_8127 tp else ret tt.

Definition rtl8127_hw_sds_phy_config (tp : tpvars) : prog D unit := rtl8127_set_sds_phy_caps tp.

Definition rtl8127_hw_fiber_phy_config (tp : tpvars) : prog D unit :=
  if HwFiberModeVer (tp_sw tp) =? FIBER_MODE_RTL8127ATF then rtl8127_hw_sds_phy_config tp else ret tt.

(** ** The PCIe PHY *)

Definition rtl8127_set_ephy_ext_addr (addr : Z) : prog D unit := rtl8125_ephy_write EPHYAR_EXT_ADDR addr.

Definition rtl8127_check_ephy_ext_addr (addr : Z) : prog D Z :=
  rtl8127_set_ephy_ext_addr (Z.shiftr (u16 addr) 12) ;;; ret (addr .& 0xfff).

Definition rtl8127_ephy_write (addr data : Z) : prog D unit :=
  do a <- rtl8127_check_ephy_ext_addr addr; rtl8125_ephy_write a data.

Definition rtl8127_clear_ephy_ext_addr : prog D unit := rtl8127_set_ephy_ext_addr 0.

Fixpoint ephy_writes (w : Z -> Z -> prog D unit) (l : list (Z * Z)) : prog D unit :=
  match l with [] => ret tt | (a, v) :: r => w a v ;;; ephy_writes w r end.
End Code.

(** The extended addresses of rtl8127_hw_ephy_config_8127_1 and their values. *)
Definition ephy_8127_1 : list (Z * Z) :=
  [(0x8088, 0x0064); (0x8488, 0x0064); (0x8888, 0x0064); (0x8C88, 0x0064);
   (0x8188, 0x0064); (0x8588, 0x0064); (0x8988, 0x0064); (0x8D88, 0x0064);
   (0x808C, 0x09B0); (0x848C, 0x09B0); (0x888C, 0x0F90); (0x8C8C, 0x0F90);
   (0x818C, 0x09B0); (0x858C, 0x09B0); (0x898C, 0x0F90); (0x8D8C, 0x0F90);
   (0x808A, 0x09B8); (0x848A, 0x09B8); (0x888A, 0x0F98); (0x8C8A, 0x0F98);
   (0x818A, 0x09B8); (0x858A, 0x09B8); (0x898A, 0x0F98); (0x8D8A, 0x0F98);
   (0x9020, 0x0080); (0x9420, 0x0080); (0x9820, 0x0080); (0x9C20, 0x0080);
   (0x901E, 0x0190); (0x941E, 0x0190); (0x981E, 0x0140); (0x9C1E, 0x0140);
   (0x901C, 0x0190); (0x941C, 0x0190); (0x981C, 0x0140); (0x9C1C, 0x0140)].

(** The tables of rtl8125_hw_ephy_config. *)
Definition ephy_8125a_1 : list (Z * Z) :=
  [(0x01, 0xA812); (0x09, 0x520C); (0x04, 0xD000); (0x0D, 0xF702); (0x0A, 0x8653); (0x06, 0x001E);
   (0x08, 0x3595); (0x20, 0x9455); (0x21, 0x99FF); (0x02, 0x6046); (0x29, 0xFE00); (0x23, 0xAB62);
   (0x41, 0xA80C); (0x49, 0x520C); (0x44, 0xD000); (0x4D, 0xF702); (0x4A, 0x8653); (0x46, 0x001E);
   (0x48, 0x3595); (0x60, 0x9455); (0x61, 0x99FF); (0x42, 0x6046); (0x69, 0xFE00); (0x63, 0xAB62)].

Definition ephy_8125a_2 : list (Z * Z) :=
  [(0x04, 0xD000); (0x0A, 0x8653); (0x23, 0xAB66); (0x20, 0x9455); (0x21, 0x99FF); (0x29, 0xFE04);
   (0x44, 0xD000); (0x4A, 0x8653); (0x63, 0xAB66); (0x60, 0x9455); (0x61, 0x99FF); (0x69, 0xFE04)].

Definition ephy_8125b_1 : list (Z * Z) :=
  [(0x06, 0x001F); (0x0A, 0xB66B); (0x01, 0xA852); (0x24, 0x0008); (0x2F, 0x6052); (0x0D, 0xF716); (0x20, 0xD477);
   (0x21, 0x4477); (0x22, 0x0013); (0x23, 0xBB66); (0x0B, 0xA909); (0x29, 0xFF04); (0x1B, 0x1EA0);
   (0x46, 0x001F); (0x4A, 0xB66B); (0x41, 0xA84A); (0x64, 0x000C); (0x6F, 0x604A); (0x4D, 0xF716); (0x60, 0xD477);
   (0x61, 0x4477); (0x62, 0x0013); (0x63, 0xBB66); (0x4B, 0xA909); (0x69, 0xFF04); (0x5B, 0x1EA0)].

Definition ephy_8125b_2 : list (Z * Z) :=
  [(0x0B, 0xA908); (0x1E, 0x20EB); (0x22, 0x0023); (0x02, 0x60C2); (0x29, 0xFF00);
   (0x4B, 0xA908); (0x5E, 0x28EB); (0x62, 0x0023); (0x42, 0x60C2); (0x69, 0xFF00)].

Section Ephy.
Context {D : Type} `{M : !Mmio D}.

Definition rtl8127_hw_ephy_config_8127_1 : prog D unit :=
  ephy_writes rtl8127_ephy_write ephy_8127_1 ;;; rtl8127_clear_ephy_ext_addr.

(** The bit changes of the 8125A, once per lane group ([base] 0 and 0x40). *)
Definition ephy_8125a_bits (base : Z) : prog D unit :=
  ClearAndSetPCIePhyBit (0x2A + base) (BIT 14 .| BIT 13 .| BIT 12) (BIT 13 .| BIT 12) ;;;
  ClearPCIePhyBit (0x19 + base) (BIT 6) ;;;
  SetPCIePhyBit (0x1B + base) (BIT 11 .| BIT 10 .| BIT 9) ;;;
  ClearPCIePhyBit (0x1B + base) (BIT 14 .| BIT 13 .| BIT 12) ;;;
  rtl8125_ephy_write (0x02 + base) 0x6042 ;;;
  rtl8125_ephy_write (0x06 + base) 0x0014.

Definition rtl8125_hw_ephy_config (m : cfg) : prog D unit :=
  match m with
  | CFG_METHOD_2 => ephy_writes rtl8125_ephy_write ephy_8125a_1
  | CFG_METHOD_3 | CFG_METHOD_6 =>
      ephy_writes rtl8125_ephy_write ephy_8125a_2 ;;; ephy_8125a_bits 0 ;;; ephy_8125a_bits 0x40
  | CFG_METHOD_4 => ephy_writes rtl8125_ephy_write ephy_8125b_1
  | CFG_METHOD_5 | CFG_METHOD_7 => ephy_writes rtl8125_ephy_write ephy_8125b_2
  | CFG_METHOD_42 => rtl8127_hw_ephy_config_8127_1
  | _ => ret tt
  end.
End Ephy.
