(* ===== verification/Footprint.v ===== *)
(** Which registers a program accesses. A footprint says, for reads and writes,
    which addresses may be accessed; a program stays within it when it preserves
    every relation between devices that those accesses preserve. The tactic
    [footprint] proves it by following the program text. *)
From S2P Require Import Prelude Mmio Channel Chip SwVars Eeprom Hw Mcu Power Fiber.

(** [F true a]: may write register [a]; [F false a]: may read it. *)
Definition fprint := bool -> Z -> bool.

Section Footprint.
Context {D : Type} `{M : !Mmio D}.

(** Accesses of two and four bytes are aligned. *)
Definition aligned (n a : Z) : bool := a mod n =? 0.

(** A preorder on devices kept by the accesses of [F] and by waiting. *)
Record closed (F : fprint) (R : D -> D -> Prop) : Prop := {
  c_refl : forall d, R d d;
  c_trans : forall d1 d2 d3, R d1 d2 -> R d2 d3 -> R d1 d3;
  c_r8 : forall a d, F false a = true -> R d (RTL_R8 a d).2;
  c_r16 : forall a d, F false a = true -> R d (RTL_R16 a d).2;
  c_r32 : forall a d, F false a = true -> R d (RTL_R32 a d).2;
  c_w8 : forall a v d, F true a = true -> R d (RTL_W8 a v d).2;
  c_w16 : forall a v d, F true a = true -> aligned 2 a = true -> R d (RTL_W16 a v d).2;
  c_w32 : forall a v d, F true a = true -> aligned 4 a = true -> R d (RTL_W32 a v d).2;
  c_delay : forall n d, R d (delay_us n d).2;
}.

Definition within {A} (F : fprint) (p : prog D A) : Prop :=
  forall R, closed F R -> forall d, R d (p d).2.

Lemma within_ret {A} F (a : A) : within F (ret a).
Proof. intros R C d. apply (c_refl _ _ C). Qed.

Lemma within_bind {A B} F (p : prog D A) (k : A -> prog D B) :
  within F p -> (forall a, within F (k a)) -> within F (bind p k).
Proof.
  intros Hp Hk R C d. rewrite bind_run. exact (c_trans _ _ C _ _ _ (Hp R C d) (Hk _ R C _)).
Qed.

Lemma within_r8 F a : F false a = true -> within F (RTL_R8 a).
Proof. intros H R C d. by apply (c_r8 _ _ C). Qed.
Lemma within_r16 F a : F false a = true -> within F (RTL_R16 a).
Proof. intros H R C d. by apply (c_r16 _ _ C). Qed.
Lemma within_r32 F a : F false a = true -> within F (RTL_R32 a).
Proof. intros H R C d. by apply (c_r32 _ _ C). Qed.
Lemma within_w8 F a v : F true a = true -> within F (RTL_W8 a v).
Proof. intros H R C d. by apply (c_w8 _ _ C). Qed.
Lemma within_w16 F a v : F true a = true -> aligned 2 a = true -> within F (RTL_W16 a v).
Proof. intros H Ha R C d. by apply (c_w16 _ _ C). Qed.
Lemma within_w32 F a v : F true a = true -> aligned 4 a = true -> within F (RTL_W32 a v).
Proof. intros H Ha R C d. by apply (c_w32 _ _ C). Qed.
Lemma within_delay F n : within F (delay_us n).
Proof. intros R C d. apply (c_delay _ _ C). Qed.

Lemma within_mono {A} F G (p : prog D A) :
  (forall w a, F w a = true -> G w a = true) -> within F p -> within G p.
Proof.
  intros H Hp R C d. apply (Hp R). destruct C as [? ? r8 r16 r32 w8 w16 w32 ?]. split; auto.
Qed.

Lemma within_poll F n us p : within F p -> within F (poll n us p).
Proof.
  intros Hp. induction n as [|n IH]; [apply within_ret|]. cbn [poll].
  apply within_bind; [apply within_delay|intros _]. apply within_bind; [done|].
  intros [|]; [apply within_ret|exact IH].
Qed.
End Footprint.

Create HintDb footprint discriminated.
#[export] Hint Resolve within_ret within_bind within_delay within_poll : footprint.
#[export] Hint Resolve within_r8 within_r16 within_r32 within_w8 within_w16 within_w32 : footprint.

(** Follow the program: the leading construct decides. *)
Ltac footprint_step :=
  match goal with
  | |- forall _, _ => intro
  | |- within _ (ret _) => apply within_ret
  | |- within _ (bind _ _) => apply within_bind
  | |- within _ (delay_us _) => apply within_delay
  | |- within _ (RTL_R8 _) => apply within_r8
  | |- within _ (RTL_R16 _) => apply within_r16
  | |- within _ (RTL_R32 _) => apply within_r32
  | |- within _ (RTL_W8 _ _) => apply within_w8
  | |- within _ (RTL_W16 _ _) => apply within_w16
  | |- within _ (RTL_W32 _ _) => apply within_w32
  | |- within _ (poll _ _ _) => apply within_poll
  | |- within _ (let '(_, _) := ?x in _) => destruct x
  | |- within _ (if ?b then _ else _) => destruct b
  | |- within _ ((if ?b then _ else _) _ _) => destruct b
  | |- within _ ((if ?b then _ else _) _ _ _) => destruct b
  | |- within _ (match ?x with _ => _ end) => destruct x
  | |- within _ _ => progress cbv zeta
  | |- _ = true => first [assumption | reflexivity]
  end.
Ltac footprint := repeat (first [solve [auto 2 with footprint nocore] | footprint_step]).

(** The same, opening the definitions that have no lemma. *)
Ltac head_of t := lazymatch t with ?f _ => head_of f | _ => t end.
Ltac footprint_open := lazymatch goal with |- within _ ?p => let h := head_of p in unfold h end.
Ltac footprint_deep := repeat (first [solve [auto 2 with footprint nocore] | footprint_step | footprint_open]).

(** ** The channels *)

Section Channels.
Context {D : Type} `{M : !Mmio D} (F : fprint).

Definition allows (a : Z) : Prop := F false a = true /\ F true a = true.

Lemma within_set8 a m : allows a -> within (D := D) F (set8 a m).
Proof. intros [? ?]. unfold set8. footprint. Qed.
Lemma within_clr8 a m : allows a -> within (D := D) F (clr8 a m).
Proof. intros [? ?]. unfold clr8. footprint. Qed.

Lemma within_phy_read a : allows PHYOCP -> within (D := D) F (mdio_direct_read_phy_ocp a).
Proof. intros [? ?]. unfold mdio_direct_read_phy_ocp, mdio_real_direct_read_phy_ocp, flag_set. footprint. Qed.

Lemma within_phy_write tp a v : allows PHYOCP -> within (D := D) F (mdio_direct_write_phy_ocp tp a v).
Proof. intros [? ?]. unfold mdio_direct_write_phy_ocp, mdio_real_direct_write_phy_ocp, flag_clear. footprint. Qed.

Lemma within_phy_rmw tp a c m : allows PHYOCP -> within (D := D) F (ClearAndSetEthPhyOcpBit tp a c m).
Proof.
  intros H. unfold ClearAndSetEthPhyOcpBit.
  apply within_bind; [by apply within_phy_read|intros; by apply within_phy_write].
Qed.
Lemma within_phy_clear tp a m : allows PHYOCP -> within (D := D) F (ClearEthPhyOcpBit tp a m).
Proof. apply within_phy_rmw. Qed.
Lemma within_phy_set tp a m : allows PHYOCP -> within (D := D) F (SetEthPhyOcpBit tp a m).
Proof. apply within_phy_rmw. Qed.

Lemma within_mdio_write p r v : allows PHYOCP -> within (D := D) F (rtl8125_mdio_write p r v).
Proof.
  intros [? ?]. unfold rtl8125_mdio_write, mdio_real_write, rtl8125_mdio_real_write_phy_ocp,
    mdio_real_direct_write_phy_ocp, flag_clear. footprint.
Qed.
Lemma within_mdio_read tp p r : allows PHYOCP -> within (D := D) F (rtl8125_mdio_read tp p r).
Proof.
  intros [? ?]. unfold rtl8125_mdio_read, mdio_real_read, rtl8125_mdio_real_read_phy_ocp,
    mdio_real_direct_read_phy_ocp, flag_set. footprint.
Qed.

Lemma within_mac_read a : allows MACOCP -> within (D := D) F (rtl8125_mac_ocp_read a).
Proof. intros [? ?]. unfold rtl8125_mac_ocp_read. footprint. Qed.
Lemma within_mac_write a v : allows MACOCP -> within (D := D) F (rtl8125_mac_ocp_write a v).
Proof. intros [? ?]. unfold rtl8125_mac_ocp_write. footprint. Qed.
Lemma within_mac_rmw a c m : allows MACOCP -> within (D := D) F (rtl8125_clear_set_mac_ocp_bit a c m).
Proof.
  intros H. unfold rtl8125_clear_set_mac_ocp_bit.
  apply within_bind; [by apply within_mac_read|intros; by apply within_mac_write].
Qed.
Lemma within_mac_clear a m : allows MACOCP -> within (D := D) F (rtl8125_clear_mac_ocp_bit a m).
Proof. apply within_mac_rmw. Qed.
Lemma within_mac_set a m : allows MACOCP -> within (D := D) F (rtl8125_set_mac_ocp_bit a m).
Proof. apply within_mac_rmw. Qed.
Lemma within_mcu_rmw a c m : allows MACOCP -> within (D := D) F (ClearAndSetMcuAccessRegBit a c m).
Proof.
  intros H. unfold ClearAndSetMcuAccessRegBit.
  apply within_bind; [by apply within_mac_read|intros; by apply within_mac_write].
Qed.
Lemma within_mcu_clear a m : allows MACOCP -> within (D := D) F (ClearMcuAccessRegBit a m).
Proof. apply within_mcu_rmw. Qed.
Lemma within_mcu_set a m : allows MACOCP -> within (D := D) F (SetMcuAccessRegBit a m).
Proof. apply within_mcu_rmw. Qed.

Lemma within_eri_read_loop n : allows ERIAR -> F false ERIDR = true ->
  forall a len sh ty b v, within (D := D) F (eri_read_loop n a len sh ty b v).
Proof.
  intros [? ?] ?. induction n as [|n IH]; intros; cbn [eri_read_loop]; unfold flag_set; footprint; apply IH.
Qed.
Lemma within_eri_read a len ty b : allows ERIAR -> F false ERIDR = true ->
  within (D := D) F (rtl8125_eri_read_with_oob_base_address a len ty b).
Proof.
  intros. unfold rtl8125_eri_read_with_oob_base_address. footprint; by apply within_eri_read_loop.
Qed.
Lemma within_eri_write_loop n : allows ERIAR -> allows ERIDR ->
  forall a len sh v ty b, within (D := D) F (eri_write_loop n a len sh v ty b).
Proof.
  intros HA HD. pose proof HA as [? ?]. pose proof HD as [? ?].
  induction n as [|n IH]; intros; cbn [eri_write_loop]; unfold flag_clear; footprint;
    by apply within_eri_read.
Qed.
Lemma within_eri_write a len v ty b : allows ERIAR -> allows ERIDR ->
  within (D := D) F (rtl8125_eri_write_with_oob_base_address a len v ty b).
Proof.
  intros. unfold rtl8125_eri_write_with_oob_base_address. footprint; by apply within_eri_write_loop.
Qed.
Lemma within_ocp_read tp a len : allows ERIAR -> allows ERIDR -> within (D := D) F (rtl8125_ocp_read tp a len).
Proof. intros H [? ?]. unfold rtl8125_ocp_read. footprint. by apply within_eri_read. Qed.
Lemma within_ocp_write tp a len v : allows ERIAR -> allows ERIDR -> within (D := D) F (rtl8125_ocp_write tp a len v).
Proof. intros. unfold rtl8125_ocp_write. footprint. by apply within_eri_write. Qed.

Lemma within_mutex_inner n tp : allows ERIAR -> allows ERIDR -> forall r, within (D := D) F (mutex_inner n tp r).
Proof.
  intros. revert r. induction n as [|n IH]; intros r; cbn [mutex_inner]; footprint; by apply within_ocp_read.
Qed.
Lemma within_mutex_outer n tp : allows ERIAR -> allows ERIDR -> forall r, within (D := D) F (mutex_outer n tp r).
Proof.
  intros. revert r. induction n as [|n IH]; intros r; cbn [mutex_outer]; footprint;
    first [by apply within_ocp_read | by apply within_ocp_write | by apply within_mutex_inner | apply IH].
Qed.
Lemma within_mutex_lock tp : allows ERIAR -> allows ERIDR -> within (D := D) F (rtl8125_oob_mutex_lock tp).
Proof.
  intros. unfold rtl8125_oob_mutex_lock. footprint;
    first [by apply within_ocp_read | by apply within_ocp_write | by apply within_mutex_outer].
Qed.
Lemma within_mutex_unlock tp : allows ERIAR -> allows ERIDR -> within (D := D) F (rtl8125_oob_mutex_unlock tp).
Proof. intros. unfold rtl8125_oob_mutex_unlock. footprint; by apply within_ocp_write. Qed.

Lemma within_patch_wait n b : allows PHYOCP -> within (D := D) F (patch_wait n b).
Proof. intros. induction n as [|n IH]; cbn [patch_wait]; footprint; by apply within_phy_read. Qed.
End Channels.

#[export] Hint Resolve within_set8 within_clr8 within_phy_read within_phy_write within_phy_rmw within_phy_clear
  within_phy_set within_mdio_write within_mdio_read within_mac_read within_mac_write within_mac_rmw within_mac_clear
  within_mac_set within_mcu_rmw within_mcu_clear within_mcu_set within_ocp_read within_ocp_write within_mutex_lock
  within_mutex_unlock within_patch_wait : footprint.
#[export] Hint Extern 1 (allows _ _) => split; first [assumption | reflexivity] : footprint.
