(* ===== verification/FiberSpec.v ===== *)
(** What the SerDes port and the PCIe PHY set-up do to the registers behind
    them. *)
From S2P Require Import Prelude Mmio Channel ChannelSpec Chip SwVars Eeprom Hw HwSpec Mcu Power Fiber.

(** ** The PCIe PHY *)

Definition ephy_key (a : Z) : Z := a .& EPHYAR_Reg_Mask_v2.

Section Ephy.
Context {D : Type} `{M : !Mmio D}.

(** Only seven bits of an address reach the chip. *)
Lemma ephy_write_key a b v (d : D) : ephy_key a = ephy_key b -> rtl8125_ephy_write a v d = rtl8125_ephy_write b v d.
Proof. unfold ephy_key, rtl8125_ephy_write. intros H. by rewrite H. Qed.

Lemma ext_write_run a v (d : D) :
  rtl8127_ephy_write a v d = rtl8125_ephy_write (a .& 0xfff) v (rtl8125_ephy_write EPHYAR_EXT_ADDR (Z.shiftr (u16 a) 12) d).2.
Proof. unfold rtl8127_ephy_write, rtl8127_check_ephy_ext_addr, rtl8127_set_ephy_ext_addr. by rewrite !bind_run. Qed.

Lemma ephy_key_low a : ephy_key (a .& 0xfff) = ephy_key a.
Proof. unfold ephy_key. by rewrite <- Z.land_assoc. Qed.

Lemma ext_write_alias a b v (d : D) :
  Z.shiftr (u16 a) 12 = Z.shiftr (u16 b) 12 -> ephy_key a = ephy_key b ->
  rtl8127_ephy_write a v d = rtl8127_ephy_write b v d.
Proof. intros H1 H2. rewrite !ext_write_run, H1. apply ephy_write_key. by rewrite !ephy_key_low. Qed.

Context {maxlat : nat} `{P : !OnePort D EPHYAR maxlat}.
Hypothesis prompt : (maxlat < 10)%nat.

(** The registers after a list of writes: the last write to a key stays. *)
Definition ephy_put (R : Z -> Z) (w : Z * Z) : Z -> Z := fun k => if k =? ephy_key w.1 then w.2 else R k.

(** The writes one extended access makes. *)
Definition ext_pair (w : Z * Z) : list (Z * Z) := [(EPHYAR_EXT_ADDR, Z.shiftr (u16 w.1) 12); (w.1 .& 0xfff, w.2)].

Definition ephy_holds (d : D) (R : Z -> Z) : Prop := ephy_idle d /\ forall a, ephy_reg d a = R (ephy_key a).

Lemma ephy_write_holds a v d R : 0 <= v < 65536 -> ephy_holds d R ->
  ephy_holds (rtl8125_ephy_write a v d).2 (ephy_put R (a, v)).
Proof.
  intros Hv (Hi&HR). destruct (ephy_write_spec prompt a v d Hi Hv) as [I S]. split; [exact I|].
  intros b. rewrite S. unfold ephy_put. cbn [fst snd]. fold (ephy_key b) (ephy_key a). by rewrite HR.
Qed.

Lemma ext_writes_hold l : forall d R, Forall (fun w => 0 <= w.2 < 65536) l -> ephy_holds d R ->
  ephy_holds (ephy_writes rtl8127_ephy_write l d).2 (foldl ephy_put R (l ≫= ext_pair)).
Proof.
  induction l as [|[a v] l IH]; intros d R Hl H; [exact H|]. inversion Hl as [|? ? Hv Hl']; subst.
  cbn [ephy_writes]. rewrite bind_run. cbn [mbind list_bind]. rewrite foldl_app. apply IH; [done|].
  rewrite ext_write_run. cbn [ext_pair foldl fst snd]. apply ephy_write_holds; [exact Hv|].
  apply ephy_write_holds; [|done]. pose proof (u16_range a). rewrite Z.shiftr_div_pow2 by lia.
  change (2 ^ 12) with 4096. lia.
Qed.
End Ephy.

(** The registers the set-up of the RTL8127 leaves. *)
Definition ephy_8127_result (R : Z -> Z) (k : Z) : Z :=
  if k =? 0x7E then 0 else if k =? 0x08 then 0x0064 else if k =? 0x0C then 0x0F90 else if k =? 0x0A then 0x0F98
  else if k =? 0x20 then 0x0080 else if k =? 0x1E then 0x0140 else if k =? 0x1C then 0x0140 else R k.

Lemma ephy_8127_fold R k :
  foldl ephy_put R ((ephy_8127_1 ≫= ext_pair) ++ [(EPHYAR_EXT_ADDR, 0)]) k = ephy_8127_result R k.
Proof.
  match goal with |- foldl _ _ ?l _ = _ => let v := eval vm_compute in l in change l with v end.
  cbn [foldl]. unfold ephy_put. cbn [fst snd].
  repeat match goal with |- context [ephy_key ?c] => let v := eval vm_compute in (ephy_key c) in change (ephy_key c) with v end.
  unfold ephy_8127_result.
  destruct (k =? 126) eqn:E1; [done|]. destruct (k =? 8) eqn:E2; [by apply Z.eqb_eq in E2 as ->|].
  destruct (k =? 12) eqn:E3; [by apply Z.eqb_eq in E3 as ->|]. destruct (k =? 10) eqn:E4; [by apply Z.eqb_eq in E4 as ->|].
  destruct (k =? 32) eqn:E5; [by apply Z.eqb_eq in E5 as ->|]. destruct (k =? 30) eqn:E6; [by apply Z.eqb_eq in E6 as ->|].
  by destruct (k =? 28).
Qed.

(** The PCIe PHY set-up of the RTL8127 loses its extended addresses: the
    EPHY write keeps seven bits of an address, so accesses in the same bank whose
    addresses agree in the low seven bits are the same access on every
    device, and the 36 settings at 36 different addresses (which differ between
    lanes) come down to six registers, each left with its last value; the
    bank selector 0xFFE is register 0x7E. *)
Theorem ephy_8127_addresses_collapse {D} `{M : !Mmio D} {maxlat} `{P : !OnePort D EPHYAR maxlat} (d : D) :
  (maxlat < 10)%nat -> ephy_idle d ->
  (forall a b v (e : D), Z.shiftr (u16 a) 12 = Z.shiftr (u16 b) 12 -> ephy_key a = ephy_key b ->
     rtl8127_ephy_write a v e = rtl8127_ephy_write b v e) /\
  NoDup ephy_8127_1.*1 /\ length ephy_8127_1 = 36%nat /\
  let d' := (rtl8127_hw_ephy_config_8127_1 d).2 in
  forall a, ephy_reg d' a = ephy_8127_result (fun k => ephy_reg d k) (ephy_key a).
Proof.
  intros Hp Hi. split; [intros; by apply ext_write_alias|].
  split; [apply (bool_decide_unpack _); by vm_compute|]. split; [done|]. cbv zeta.
  unfold rtl8127_hw_ephy_config_8127_1, rtl8127_clear_ephy_ext_addr, rtl8127_set_ephy_ext_addr. rewrite bind_run.
  assert (H0 : ephy_holds d (fun k => ephy_reg d k)).
  { split; [done|]. intros a. unfold ephy_reg, ephy_key. by rewrite <- Z.land_assoc. }
  pose proof (ext_writes_hold Hp ephy_8127_1 d _ ltac:(by repeat constructor) H0) as H1.
  pose proof (ephy_write_holds Hp EPHYAR_EXT_ADDR 0 _ _ ltac:(lia) H1) as [_ H2].
  intros a. rewrite H2. rewrite <- ephy_8127_fold, foldl_app. reflexivity.
Qed.

(** ** The SerDes port *)

(** Address and data registers latch; a command runs for at most [maxlat] reads
    of the command register and then has its effect on the words [sds]. *)
Class SdsPort (D : Type) `{M : !Mmio D} (maxlat : nat) := {
  sds : D -> Z -> Z;
  sds_addr : D -> Z;
  sds_in : D -> Z;
  sds_out : D -> Z;
  sds_busy : D -> nat;
  sds_range : forall d a, 0 <= sds d a < 65536;
  sds_w_addr : forall v d, let d' := (RTL_W16 R8127_SDS_8127_ADDR v d).2 in
    sds_addr d' = u16 v /\ sds_in d' = sds_in d /\ sds_busy d' = sds_busy d /\ forall a, sds d' a = sds d a;
  sds_w_in : forall v d, let d' := (RTL_W16 R8127_SDS_8127_DATA_IN v d).2 in
    sds_in d' = u16 v /\ sds_addr d' = sds_addr d /\ sds_busy d' = sds_busy d /\ forall a, sds d' a = sds d a;
  sds_w_read : forall d, sds_busy d = O -> let d' := (RTL_W16 R8127_SDS_8127_CMD R8127_SDS_8127_CMD_IN d).2 in
    (sds_busy d' <= maxlat)%nat /\ sds_out d' = sds d (sds_addr d) /\ forall a, sds d' a = sds d a;
  sds_w_write : forall d, sds_busy d = O ->
    let d' := (RTL_W16 R8127_SDS_8127_CMD (R8127_SDS_8127_CMD_IN .| R8127_SDS_8127_WE_IN) d).2 in
    (sds_busy d' <= maxlat)%nat /\ forall a, sds d' a = if a =? sds_addr d then sds_in d else sds d a;
  sds_r_cmd : forall d, let '(v, d') := RTL_R16 R8127_SDS_8127_CMD d in
    has v R8127_SDS_8127_CMD_IN = negb (sds_busy d =? 0)%nat /\ sds_busy d' = pred (sds_busy d) /\
    sds_out d' = sds_out d /\ forall a, sds d' a = sds d a;
  sds_r_out : forall d, let '(v, d') := RTL_R16 R8127_SDS_8127_DATA_OUT d in
    v = sds_out d /\ sds_busy d' = sds_busy d /\ forall a, sds d' a = sds d a;
  sds_delay : forall n d, let d' := (delay_us n d).2 in
    sds_busy d' = sds_busy d /\ sds_out d' = sds_out d /\ forall a, sds d' a = sds d a;
}.

Section Sds.
Context {D : Type} `{M : !Mmio D} {maxlat : nat} `{P : !SdsPort D maxlat}.
Hypothesis prompt : (maxlat < 100)%nat.

(** The port is free and the words are [S]. *)
Definition sds_holds (d : D) (S : Z -> Z) : Prop := sds_busy d = O /\ forall a, sds d a = S a.

Lemma sds_wait_done n : forall d, (sds_busy d < n)%nat ->
  let '(ok, d') := sds_wait n d in
  ok = true /\ sds_busy d' = O /\ sds_out d' = sds_out d /\ forall a, sds d' a = sds d a.
Proof.
  induction n as [|n IH]; intros d Hn; [lia|]. cbn [sds_wait]. rewrite bind_run. pose proof (sds_r_cmd d) as H.
  destruct (RTL_R16 R8127_SDS_8127_CMD d) as [v d1]. cbn [fst snd]. destruct H as (->&B1&O1&S1).
  destruct (sds_busy d) as [|k] eqn:E; cbn [Nat.eqb negb]; [by repeat split; rewrite ?B1|].
  rewrite bind_run. destruct (sds_delay 1 d1) as (B2&O2&S2). set (d2 := (delay_us 1 d1).2) in *.
  specialize (IH d2 ltac:(rewrite B2, B1; cbn; lia)). destruct (sds_wait n d2) as [ok d3].
  destruct IH as (->&B3&O3&S3). split; [done|]. split; [done|]. split; [congruence|]. intros a. by rewrite S3, S2, S1.
Qed.

Lemma sds_read_spec i p r d S : sds_holds d S ->
  let '(v, d') := rtl8127_sds_phy_read_8127 i p r d in v = S (u16 (R8127_MAKE_SDS_8127_ADDR i p r)) /\ sds_holds d' S.
Proof.
  intros (Hb&HS). unfold rtl8127_sds_phy_read_8127. rewrite !bind_run.
  destruct (sds_w_addr (R8127_MAKE_SDS_8127_ADDR i p r) d) as (A1&_&B1&S1). set (d1 := (RTL_W16 _ _ d).2) in *.
  assert (E1 : sds_busy d1 = O) by congruence. destruct (sds_w_read d1 E1) as (B2&O2&S2). set (d2 := (RTL_W16 _ _ d1).2) in *.
  unfold rtl8127_wait_8127_sds_cmd_done. pose proof (sds_wait_done 100 d2 ltac:(lia)) as H.
  destruct (sds_wait 100 d2) as [ok d3]. destruct H as (->&B3&O3&S3). cbn [fst snd].
  pose proof (sds_r_out d3) as H. destruct (RTL_R16 R8127_SDS_8127_DATA_OUT d3) as [v d4]. destruct H as (->&B4&S4).
  split; [by rewrite O3, O2, A1, S1|]. split; [congruence|]. intros a. by rewrite S4, S3, S2, S1.
Qed.

Lemma sds_write_spec i p r v d S : 0 <= v < 65536 -> sds_holds d S ->
  sds_holds (rtl8127_sds_phy_write_8127 i p r v d).2
    (fun a => if a =? u16 (R8127_MAKE_SDS_8127_ADDR i p r) then v else S a).
Proof.
  intros Hv (Hb&HS). unfold rtl8127_sds_phy_write_8127. rewrite !bind_run.
  destruct (sds_w_in v d) as (I0&_&B0&S0). set (d0 := (RTL_W16 _ _ d).2) in *.
  destruct (sds_w_addr (R8127_MAKE_SDS_8127_ADDR i p r) d0) as (A1&I1&B1&S1). set (d1 := (RTL_W16 _ _ d0).2) in *.
  assert (E1 : sds_busy d1 = O) by congruence. destruct (sds_w_write d1 E1) as (B2&S2). set (d2 := (RTL_W16 _ _ d1).2) in *.
  unfold rtl8127_wait_8127_sds_cmd_done. pose proof (sds_wait_done 100 d2 ltac:(lia)) as H.
  destruct (sds_wait 100 d2) as [ok d3]. destruct H as (_&B3&_&S3). cbn [fst snd ret].
  split; [done|]. intros a. unfold ret. cbn [snd]. rewrite S3, S2, A1, I1, I0, S1, S0, HS.
  rewrite (u16_small v) by lia. done.
Qed.

Lemma sds_rmw_spec i p r c s d S : 0 <= s < 65536 -> sds_holds d S ->
  let k := u16 (R8127_MAKE_SDS_8127_ADDR i p r) in
  sds_holds (rtl8127_clear_and_set_sds_phy_bit i p r c s d).2 (fun a => if a =? k then rmw (S k) c s else S a).
Proof.
  intros Hs H. cbv zeta. unfold rtl8127_clear_and_set_sds_phy_bit. rewrite bind_run.
  pose proof (sds_read_spec i p r d S H) as H1. destruct (rtl8127_sds_phy_read_8127 i p r d) as [v d1].
  destruct H1 as [-> H1]. cbn [fst snd]. apply sds_write_spec; [|done].
  destruct H as [_ HS]. rewrite <- HS. pose proof (sds_range d (u16 (R8127_MAKE_SDS_8127_ADDR i p r))).
  apply (lor_bound _ _ 16); [lia| |lia]. apply (ldiff_bound _ _ 16); lia.
Qed.
End Sds.

(** The words of different registers are different. *)
Lemma sds_addr_inj i p r i' p' r' : 0 <= i < 32 -> 0 <= p < 64 -> 0 <= r < 32 -> 0 <= i' < 32 -> 0 <= p' < 64 -> 0 <= r' < 32 ->
  u16 (R8127_MAKE_SDS_8127_ADDR i p r) = u16 (R8127_MAKE_SDS_8127_ADDR i' p' r') -> i = i' /\ p = p' /\ r = r'.
Proof.
  assert (E : forall i p r, 0 <= i < 32 -> 0 <= p < 64 -> 0 <= r < 32 -> u16 (R8127_MAKE_SDS_8127_ADDR i p r) = i * 2048 + p * 32 + r).
  { clear. intros i p r Hi Hp Hr. unfold R8127_MAKE_SDS_8127_ADDR. rewrite !Z.shiftl_mul_pow2 by lia.
    rewrite (lor_add_shift i (p * 2 ^ 5) 11) by lia. change (2 ^ 11) with 2048. change (2 ^ 5) with 32.
    replace (i * 2048 + p * 32) with ((i * 64 + p) * 2 ^ 5) by lia. rewrite lor_add_shift by lia. change (2 ^ 5) with 32. width_lia. }
  intros Hi Hp Hr Hi' Hp' Hr'. rewrite !E by done. lia.
Qed.

(** C36: access to the SerDes registers of the RTL8127 is exact on a port that is free and
    answers a command within 100 polls: a read gives the word at that index, page and
    register and changes none; a read-modify-write ([rtl8127_clear_and_set_sds_phy_bit])
    clears and sets the bits of its two masks in that word and changes no other; a write
    replaces the word and no other; each leaves the port free; and no two registers
    (index below 32, page below 64, register below 32) share a word. *)
Theorem sds_access_exact {D} `{M : !Mmio D} {maxlat} `{P : !SdsPort D maxlat} i p r (d : D) :
  (maxlat < 100)%nat -> sds_busy d = O -> 0 <= i < 32 -> 0 <= p < 64 -> 0 <= r < 32 ->
  let k := u16 (R8127_MAKE_SDS_8127_ADDR i p r) in
  (let '(v, d') := rtl8127_sds_phy_read_8127 i p r d in
   v = sds d k /\ sds_busy d' = O /\ forall a, sds d' a = sds d a) /\
  (forall c s, 0 <= s < 65536 -> let d' := (rtl8127_clear_and_set_sds_phy_bit i p r c s d).2 in
   sds_busy d' = O /\ forall a, sds d' a = if a =? k then (sds d k .&~ c) .| s else sds d a) /\
  (forall v, 0 <= v < 65536 -> let d' := (rtl8127_sds_phy_write_8127 i p r v d).2 in
   sds_busy d' = O /\ forall a, sds d' a = if a =? k then v else sds d a) /\
  (forall i' p' r', 0 <= i' < 32 -> 0 <= p' < 64 -> 0 <= r' < 32 ->
   u16 (R8127_MAKE_SDS_8127_ADDR i' p' r') = k -> i' = i /\ p' = p /\ r' = r).
Proof.
  intros Hl Hb Hi Hp Hr k. assert (H : sds_holds d (sds d)) by done. split_and!.
  - pose proof (sds_read_spec Hl i p r d _ H) as G. destruct (rtl8127_sds_phy_read_8127 i p r d) as [v d'].
    destruct G as [-> [B S]]. done.
  - intros c s Hs. destruct (sds_rmw_spec Hl i p r c s d _ Hs H) as [B S]. by split.
  - intros v Hv. destruct (sds_write_spec Hl i p r v d _ Hv H) as [B S]. by split.
  - intros i' p' r' Hi' Hp' Hr'. by apply sds_addr_inj.
Qed.

(** On a port that stays busy a read gives 0xffff, which the read-modify-write takes for
    the word. *)
Theorem sds_dead_port {D} `{M : !Mmio D} i p r (d : D) :
  (forall e : D, has (RTL_R16 R8127_SDS_8127_CMD e).1 R8127_SDS_8127_CMD_IN = true) ->
  (rtl8127_sds_phy_read_8127 i p r d).1 = 0xffff /\
  forall c s, exists e, rtl8127_clear_and_set_sds_phy_bit i p r c s d = rtl8127_sds_phy_write_8127 i p r ((0xffff .&~ c) .| s) e.
Proof.
  intros H. assert (W : forall n (e : D), (sds_wait n e).1 = false).
  { induction n as [|n IH]; intros e; [done|]. cbn [sds_wait]. rewrite bind_run, H, bind_run. apply IH. }
  assert (E : (rtl8127_sds_phy_read_8127 i p r d).1 = 0xffff).
  { unfold rtl8127_sds_phy_read_8127. rewrite !bind_run. unfold rtl8127_wait_8127_sds_cmd_done. by rewrite W. }
  split; [done|]. intros c s. unfold rtl8127_clear_and_set_sds_phy_bit. rewrite bind_run, E. eauto.
Qed.

(** ** A SerDes that answers after [sds_lag] polls *)
Module SdsSim.

Definition sds_lag : nat := 5.
(** The words, the latches of the port, the other 16-bit registers, and the PHY words
    with the answer of the PHY channel. *)
Record dev := Dev { words : Z -> Z; addr : Z; din : Z; dout : Z; busy : nat; plain : gmap Z Z; phy : gmap Z Z; phy_out : Z }.

Definition put_sds (w : Z -> Z) (a i o : Z) (b : nat) (d : dev) : dev := Dev w a i o b (plain d) (phy d) (phy_out d).

Definition wr16 (a v : Z) (d : dev) : dev :=
  if a =? R8127_SDS_8127_ADDR then put_sds (words d) v (din d) (dout d) (busy d) d
  else if a =? R8127_SDS_8127_DATA_IN then put_sds (words d) (addr d) v (dout d) (busy d) d
  else if a =? R8127_SDS_8127_CMD then
    if has v R8127_SDS_8127_WE_IN
    then put_sds (fun k => if k =? addr d then din d else words d k) (addr d) (din d) (dout d) sds_lag d
    else put_sds (words d) (addr d) (din d) (u16 (words d (addr d))) sds_lag d
  else Dev (words d) (addr d) (din d) (dout d) (busy d) (<[a := v]> (plain d)) (phy d) (phy_out d).

Definition rd16 (a : Z) (d : dev) : Z * dev :=
  if a =? R8127_SDS_8127_CMD then
    (if (busy d =? 0)%nat then 0 else 1, put_sds (words d) (addr d) (din d) (dout d) (pred (busy d)) d)
  else if a =? R8127_SDS_8127_DATA_OUT then (dout d, d) else (aget 0 (plain d) a, d).

(** The PHY channel: address and data in one command word. *)
Definition wr32 (a v : Z) (d : dev) : dev :=
  if a =? PHYOCP then
    let reg := 2 * (Z.shiftr v 16 .& 0x7fff) in
    if has v OCPR_Write then Dev (words d) (addr d) (din d) (dout d) (busy d) (plain d) (<[reg := v .& 0xffff]> (phy d)) 0
    else Dev (words d) (addr d) (din d) (dout d) (busy d) (plain d) (phy d) (OCPR_Flag .| aget 0 (phy d) reg)
  else d.

#[export] Instance sds_mmio : Mmio dev := {|
  R8 := fun _ d => (0, d); R16 := rd16; R32 := fun _ d => (phy_out d, d);
  W8 := fun _ _ d => d; W16 := wr16; W32 := wr32; udelay := fun _ d => d |}.

#[export] Program Instance sds_port : SdsPort dev sds_lag := {|
  sds := fun d a => u16 (words d a); sds_addr := addr; sds_in := fun d => u16 (din d); sds_out := fun d => u16 (dout d);
  sds_busy := busy |}.
Next Obligation. intros. apply u16_range. Qed.
Next Obligation. done. Qed.
Next Obligation. intros v d. split; [|done]. apply u16_small, u16_range. Qed.
Next Obligation.
  intros d _. split; [apply Nat.le_refl|]. split; [|done]. apply u16_small, u16_range.
Qed.
Next Obligation.
  intros d _. split; [apply Nat.le_refl|]. intros a.
  transitivity (u16 (if a =? addr d then din d else words d a)); [reflexivity|]. cbn. by destruct (a =? addr d).
Qed.
Next Obligation. intros d. cbn. split; [by destruct (busy d)|done]. Qed.
Next Obligation. done. Qed.
Next Obligation. done. Qed.

Definition tp_fiber (s : Z) : tpvars :=
  let sw0 := sw_zero in
  mkTpv (mkTp (mkId CFG_METHOD_42 16 false rcr_27)
    (mkSw 0 0 false 0 0 false 0 0 0 10000 FIBER_MODE_RTL8127ATF 0 0 [] false 0 0 0 0 false 0 false false 0 false false 0 0 0 0 0
       (0, 0, 0, 0, 0) false 0 0 false (mkLink 1 s 1 0 rtl8125_fc_none) (eee sw_zero)) false)
    0 0 false false 0 0 0 0 (EEPROM_TYPE_NONE, 0) (mkMcu 0 0) (mkWolSt 0 0 0 0) 0 0 0.

Definition idle (w : Z) : dev := Dev (fun _ => w) 0 0 0 0 ∅ ∅ 0.

Lemma sds_access_exact_witness :
  let d' := (rtl8127_clear_and_set_sds_phy_bit 0 2 0 0x3040 0x1040 (idle 0xffff)).2 in
  sds d' 0x40 = 0xdfff /\ sds d' 0x3f = 0xffff.
Proof.
  destruct (sds_access_exact (P := sds_port) 0 2 0 (idle 0xffff)) as (_&H&_); [apply (Nat.ltb_lt sds_lag 100); reflexivity|reflexivity|lia|lia|lia|].
  destruct (H 0x3040 0x1040 ltac:(lia)) as [_ E]. cbv zeta. rewrite !E. split; vm_compute; reflexivity.
Defined.

(** What the set-up of a fiber link leaves on this device, whose SerDes words outlive
    the reset in the middle of it: the SerDes words page 1 register 31 and page 2 register
    0, the registers 233A and 233E and the PHY word C466. *)
Definition fiber_result (s w : Z) : list Z :=
  let d' := (rtl8127_hw_fiber_phy_config (tp_fiber s) (idle w)).2 in
  [sds d' 63; sds d' 64; aget 0 (plain d') 0x233A; aget 0 (plain d') 0x233E; aget 9 (phy d') 0xC466; aget 9 (phy d') 0xC804].

Theorem fiber_speeds :
  fiber_result SPEED_10000 0 = [0; 0x0040; 0x801A; 0x1000; 3; 0xC] /\
  fiber_result SPEED_10000 0xffff = [0xfff7; 0xcfff; 0x801A; 0x1000; 3; 0xC] /\
  fiber_result SPEED_1000 0 = [8; 0x1040; 0x8004; 0x0002; 0; 0xC] /\
  fiber_result SPEED_1000 0xffff = [0xffff; 0xdfff; 0x8004; 0x0002; 0; 0xC] /\
  fiber_result SPEED_2500 0xffff = [0xfff7; 0xcfff; 0x801F; 0; 9; 9].
Proof. vm_compute. split_and!; reflexivity. Qed.

End SdsSim.

(** ** An EPHY window *)
Module EphySim.
Import PhySim.

Definition ephy_mmio : Mmio dev1 := {|
  R8 := fun _ d => (0, d); R16 := fun _ d => (0, d); R32 := read1 EPHYAR;
  W8 := fun _ _ d => d; W16 := fun _ _ d => d; W32 := write1 lag EPHYAR; udelay := fun _ d => d |}.

Program Definition ephy_port : @OnePort dev1 ephy_mmio EPHYAR lag := {|
  space := space1; sel := sel1; rd := rd1; lat := lat1 |}.
Next Obligation. intros cmd d _. apply write1_data. Qed.
Next Obligation. intros cmd d _. apply write1_select. Qed.
Next Obligation.
  intros d. pose proof (read1_status EPHYAR d) as H. unfold RTL_R32. cbn [R32 ephy_mmio].
  destruct (read1 EPHYAR EPHYAR d) as [v d']. exact H.
Qed.
Next Obligation. done. Qed.

Lemma ephy_8127_addresses_collapse_witness :
  (forall v, @rtl8127_ephy_write _ ephy_mmio 0x8088 v fresh1 = @rtl8127_ephy_write _ ephy_mmio 0x8D88 v fresh1) /\
  @ephy_reg _ ephy_mmio lag ephy_port (@rtl8127_hw_ephy_config_8127_1 _ ephy_mmio fresh1).2 0x0C = 0x0F90.
Proof.
  destruct (@ephy_8127_addresses_collapse _ ephy_mmio lag ephy_port fresh1 ltac:(unfold lag; lia) eq_refl)
    as (H1&_&_&H2). split.
  - intros v. apply H1; reflexivity.
  - rewrite H2. reflexivity.
Defined.
End EphySim.
