(* ===== verification/PhyTables.v ===== *)
(** The code of the PHY microcontrollers of rtl812xx.cpp: the arrays
    phy_mcu_ram_code_*, word for word, and the writes of the two functions that
    spell their code out, as pairs of register and value. *)
From Stdlib Require Import Ascii String.
From S2P Require Import Prelude McuTables.
#[global] Open Scope Z_scope.

(** The writes of rtl8125_real_set_phy_mcu_8125a_1, 1616 words. *)
Definition phy_mcu_writes_8125a_1 : list Z :=
  hex_words (String.concat EmptyString [
    "A436A016A4380000A436A012A4380000A436A014A4381800A4388010A4381800A4388013A4381800A4388021A4381800A438802FA4381800A438803DA4381800"%string;
    "A4388042A4381800A4388051A4381800A4388051A438A088A4381800A4380A50A4388008A438D014A438D1A3A438D700A438401AA438D707A43840C2A43860A6"%string;
    "A438D700A4385F8BA4381800A4380A86A4381800A4380A6CA4388080A438D019A438D1A2A438D700A438401AA438D707A43840C4A43860A6A438D700A4385F8B"%string;
    "A4381800A4380A86A4381800A4380A84A438D503A4388970A4380C07A4380901A438D500A438CE01A438CF09A438D705A4384000A438CEFFA438AF0AA438D504"%string;
    "A4381800A4381213A4388401A438D500A4388580A4381800A4381253A438D064A438D181A438D704A4384018A438D504A438C50FA438D706A4382C59A438804D"%string;
    "A438C60FA438F002A438C605A438AE02A4381800A43810FDA436A026A438FFFFA436A024A438FFFFA436A022A43810F4A436A020A4381252A436A006A4381206"%string;
    "A436A004A4380A78A436A002A4380A60A436A000A4380A4FA436A008A4383F00A436A016A4380010A436A012A4380000A436A014A4381800A4388010A4381800"%string;
    "A4388066A4381800A438807CA4381800A4388089A4381800A438808EA4381800A43880A0A4381800A43880B2A4381800A43880C2A438D501A438CE01A438D700"%string;
    "A43862DBA438655CA438D73EA43860E9A438614AA43861ABA4380C0FA4380501A4381800A4380304A4380C0FA4380503A4381800A4380304A4380C0FA4380505"%string;
    "A4381800A4380304A4380C0FA4380509A4381800A4380304A438653CA438D73EA43860E9A438614AA43861ABA4380C0FA4380503A4381800A4380304A4380C0F"%string;
    "A4380502A4381800A4380304A4380C0FA4380506A4381800A4380304A4380C0FA438050AA4381800A4380304A438D73EA43860E9A438614AA43861ABA4380C0F"%string;
    "A4380505A4381800A4380304A4380C0FA4380506A4381800A4380304A4380C0FA4380504A4381800A4380304A4380C0FA438050CA4381800A4380304A438D73E"%string;
    "A43860E9A438614AA43861ABA4380C0FA4380509A4381800A4380304A4380C0FA438050AA4381800A4380304A4380C0FA438050CA4381800A4380304A4380C0F"%string;
    "A4380508A4381800A4380304A438D501A438CE01A438D73EA43860E9A438614AA43861ABA4380C0FA4380501A4381800A4380321A4380C0FA4380502A4381800"%string;
    "A4380321A4380C0FA4380504A4381800A4380321A4380C0FA4380508A4381800A4380321A4381000A4380346A438D501A438CE01A4388208A438609DA438A50F"%string;
    "A4381800A438001AA4380C0FA4380503A4381800A438001AA438607DA4381800A43800ABA4381800A43800ABA438D501A438CE01A438D700A43860FDA438A50F"%string;
    "A438CE00A438D500A438AA0FA4381800A438017BA4380C0FA4380503A438CE00A438D500A4380C0FA4380A05A4381800A438017BA438D501A438CE01A438D700"%string;
    "A43860FDA438A50FA438CE00A438D500A438AA0FA4381800A43801E0A4380C0FA4380503A438CE00A438D500A4380C0FA4380A05A4381800A43801E0A438D700"%string;
    "A43860FDA438A50FA438CE00A438D500A438AA0FA4381800A4380231A4380C0FA4380503A438CE00A438D500A4380C0FA4380A05A4381800A4380231A436A08E"%string;
    "A438FFFFA436A08CA4380221A436A08AA43801CEA436A088A4380169A436A086A43800A6A436A084A438000DA436A082A4380308A436A080A438029FA436A090"%string;
    "A438007FA436A016A4380020A436A012A4380000A436A014A4381800A4388010A4381800A4388017A4381800A438801BA4381800A4388029A4381800A4388054"%string;
    "A4381800A438805AA4381800A4388064A4381800A43880A7A4389430A4389480A438B408A438D120A438D057A4381800A438064BA438CB80A4389906A4381800"%string;
    "A4380567A438CB94A4388190A43882A0A438800AA4388406A4388010A438A740A4388DFFA4381000A43807E4A438A840A4380000A4381800A4380773A438CB91"%string;
    "A4380000A438D700A4384063A438D139A438F002A438D140A438D040A438B404A4380C0FA4380D00A4381000A43807DCA438A610A438A110A438A2A0A438A404"%string;
    "A438D704A4384045A438A180A438D704A438405DA438A720A4381000A4380742A4381000A43807ECA438D700A4385F74A4381000A4380742A438D702A4387FB6"%string;
    "A4388190A43882A0A4388404A4388610A4380C0FA4380D01A4381000A43807DCA4381800A438064BA4381000A43807C0A438D700A4385FA7A4381800A4380481"%string;
    "A4380000A43894BCA438870CA438A190A438A00AA438A280A438A404A4388220A4381800A438078EA438CB92A438A840A438D700A4384063A438D140A438F002"%string;
    "A438D150A438D040A438D703A43860A0A4386121A43861A2A4386223A438F02FA4380CF0A4380D10A4388010A438A740A438F00FA4380CF0A4380D20A4388010"%string;
    "A438A740A438F00AA4380CF0A4380D30A4388010A438A740A438F005A4380CF0A4380D40A4388010A438A740A4381000A43807E4A438A610A438A008A438D704"%string;
    "A4384046A438A002A438D704A438405DA438A720A4381000A4380742A4381000A43807F7A438D700A4385F74A4381000A4380742A438D702A4387FB5A438800A"%string;
    "A4380CF0A4380D00A4381000A43807E4A4388010A438A740A438D701A4383AD4A4380537A4388610A4388840A4381800A438064BA4388301A438800AA4388190"%string;
    "A43882A0A4388404A438A70CA4389402A438890CA4388840A4381800A438064BA436A10EA4380642A436A10CA4380686A436A10AA4380788A436A108A438047B"%string;
    "A436A106A438065CA436A104A4380769A436A102A4380565A436A100A43806F9A436A110A43800FFA436B87CA4388530A436B87EA438AF85A4383CAFA4388593"%string;
    "A438AF85A4389CAFA43885A5A438BF86A438D702A4385AFBA438E083A438FB0CA438020DA438021BA43810BFA43886D7A438025AA438B7BFA43886DAA438025A"%string;
    "A438FBE0A43883FCA4380C02A4380D02A4381B10A438BF86A438DA02A4385AB7A438BF86A438DD02A4385AFBA438E083A438FD0CA438020DA438021BA43810BF"%string;
    "A43886DDA438025AA438B7BFA43886E0A438025AA438FBE0A43883FEA4380C02A4380D02A4381B10A438BF86A438E002A4385AB7A438AF2FA438BD02A4382CAC"%string;
    "A4380286A43865AFA438212BA438022CA4386002A43886B6A438AF21A4380CD1A43803BFA4388710A438025AA438B7BFA438870DA438025AA438B7BFA4388719"%string;
    "A438025AA438B7BFA4388716A438025AA438B7BFA438871FA438025AA438B7BFA438871CA438025AA438B7BFA4388728A438025AA438B7BFA4388725A438025A"%string;
    "A438B7BFA4388707A438025AA438FBADA438281CA438D100A438BF87A4380A02A4385AB7A438BF87A4381302A4385AB7A438BF87A4382202A4385AB7A438BF87"%string;
    "A4382B02A4385AB7A438AE1AA438D101A438BF87A4380A02A4385AB7A438BF87A4381302A4385AB7A438BF87A4382202A4385AB7A438BF87A4382B02A4385AB7"%string;
    "A438D101A438BF87A4383402A4385AB7A438BF87A4383102A4385AB7A438BF87A4383D02A4385AB7A438BF87A4383A02A4385AB7A438BF87A4384302A4385AB7"%string;
    "A438BF87A4384002A4385AB7A438BF87A4384C02A4385AB7A438BF87A4384902A4385AB7A438D100A438BF87A4382E02A4385AB7A438BF87A4383702A4385AB7"%string;
    "A438BF87A4384602A4385AB7A438BF87A4384F02A4385AB7A438AF35A4387FF8A438FAEFA43869BFA43886E3A438025AA438FBBFA43886FBA438025AA438B7BF"%string;
    "A43886E6A438025AA438FBBFA43886FEA438025AA438B7BFA43886E9A438025AA438FBBFA4388701A438025AA438B7BFA43886ECA438025AA438FBBFA4388704"%string;
    "A438025AA438B7BFA43886EFA4380262A4387CBFA43886F2A4380262A4387CBFA43886F5A4380262A4387CBFA43886F8A4380262A4387CEFA43896FEA438FC04"%string;
    "A438F8FAA438EF69A438BF86A438EF02A4386273A438BF86A438F202A4386273A438BF86A438F502A4386273A438BF86A438F802A4386273A438EF96A438FEFC"%string;
    "A4380420A438B540A43853B5A4384086A438B540A438B9B5A43840C8A438B03AA438C8B0A438BAC8A438B13AA438C8B1A438BA77A438BD26A438FFBDA4382677"%string;
    "A438BD28A438FFBDA4382840A438BD26A438C8BDA4382640A438BD28A438C8BDA43828BBA438A430A43898B0A4381EBAA438B01EA438DCB0A4381E98A438B09E"%string;
    "A438BAB0A4389EDCA438B09EA43898B1A4381EBAA438B11EA438DCB1A4381E98A438B19EA438BAB1A4389EDCA438B19EA43811B0A4381E22A438B01EA43833B0"%string;
    "A4381E11A438B09EA43822B0A4389E33A438B09EA43811B1A4381E22A438B11EA43833B1A4381E11A438B19EA43822B1A4389E33A438B19EA436B85EA4382F71"%string;
    "A436B860A43820D9A436B862A4382109A436B864A43834E7A436B878A438000F"%string
  ]).

(** The writes of rtl8125_real_set_phy_mcu_8125a_2, 1100 words. *)
Definition phy_mcu_writes_8125a_2 : list Z :=
  hex_words (String.concat EmptyString [
    "A436A016A4380000A436A012A4380000A436A014A4381800A4388010A4381800A438808BA4381800A438808FA4381800A4388093A4381800A4388097A4381800"%string;
    "A438809DA4381800A43880A1A4381800A43880AAA438D718A438607BA43840DAA438F00EA43842DAA438F01EA438D718A438615BA4381000A4381456A4381000"%string;
    "A43814A4A4381000A43814BCA438D718A4385F2EA438F01CA4381000A4381456A4381000A43814A4A4381000A43814BCA438D718A4385F2EA438F024A4381000"%string;
    "A4381456A4381000A43814A4A4381000A43814BCA438D718A4385F2EA438F02CA4381000A4381456A4381000A43814A4A4381000A43814BCA438D718A4385F2E"%string;
    "A438F034A438D719A4384118A438D504A438AC11A438D501A438CE01A438A410A438CE00A438D500A4384779A438D504A438AC0FA438AE01A438D500A4381000"%string;
    "A4381444A438F034A438D719A4384118A438D504A438AC22A438D501A438CE01A438A420A438CE00A438D500A4384559A438D504A438AC0FA438AE01A438D500"%string;
    "A4381000A4381444A438F023A438D719A4384118A438D504A438AC44A438D501A438CE01A438A440A438CE00A438D500A4384339A438D504A438AC0FA438AE01"%string;
    "A438D500A4381000A4381444A438F012A438D719A4384118A438D504A438AC88A438D501A438CE01A438A480A438CE00A438D500A4384119A438D504A438AC0F"%string;
    "A438AE01A438D500A4381000A4381444A438F001A4381000A4381456A438D718A4385FACA438C48FA4381000A438141BA438D504A4388010A4381800A438121A"%string;
    "A438D0B4A438D1BBA4381800A4380898A438D0B4A438D1BBA4381800A4380A0EA438D064A438D18AA4381800A4380B7EA438401CA438D501A438A804A4388804"%string;
    "A4381800A438053BA438D500A438A301A4381800A4380648A438C520A438A201A438D701A438252DA4381646A438D708A4384006A4381800A4381646A4381800"%string;
    "A4380308A436A026A4380307A436A024A4381645A436A022A4380647A436A020A438053AA436A006A4380B7CA436A004A4380A0CA436A002A4380896A436A000"%string;
    "A43811A1A436A008A438FF00A436A016A4380010A436A012A4380000A436A014A4381800A4388010A4381800A4388015A4381800A438801AA4381800A438801A"%string;
    "A4381800A438801AA4381800A438801AA4381800A438801AA4381800A438801AA438AD02A4381000A43802D7A4381800A43800EDA4380C0FA4380509A438C100"%string;
    "A4381800A438008FA436A08EA438FFFFA436A08CA438FFFFA436A08AA438FFFFA436A088A438FFFFA436A086A438FFFFA436A084A438FFFFA436A082A438008D"%string;
    "A436A080A43800EBA436A090A4380103A436A016A4380020A436A012A4380000A436A014A4381800A4388010A4381800A4388014A4381800A4388018A4381800"%string;
    "A4388024A4381800A4388051A4381800A4388055A4381800A4388072A4381800A43880DCA4380000A4380000A4380000A438FFFDA4380000A4380000A4380000"%string;
    "A438FFFDA4388301A438800AA4388190A43882A0A4388404A438A70CA4389402A438890CA4388840A438A380A4381800A438066EA438CB91A438D700A4384063"%string;
    "A438D139A438F002A438D140A438D040A438B404A4380C0FA4380D00A4381000A43807E0A438A610A438A110A438A2A0A438A404A438D704A4384085A438A180"%string;
    "A438A404A4388280A438D704A438405DA438A720A4381000A4380743A4381000A43807F0A438D700A4385F74A4381000A4380743A438D702A4387FB6A4388190"%string;
    "A43882A0A4388404A4388610A4380000A4380C0FA4380D01A4381000A43807E0A4381800A438066EA438D158A438D04DA4381800A43803D4A43894BCA438870C"%string;
    "A4388380A438D10DA438D040A4381000A43807C4A438D700A4385FB4A438A190A438A00AA438A280A438A404A438A220A438D130A438D040A4381000A43807C4"%string;
    "A438D700A4385FB4A438BB80A438D1C4A438D074A438A301A438D704A438604BA438A90CA4381800A4380556A438CB92A438D700A4384063A438D116A438F002"%string;
    "A438D119A438D040A438D703A43860A0A4386241A43863E2A4386583A438F054A438D701A438611EA438D701A43840DAA4380CF0A4380D10A438A010A4388740"%string;
    "A438F02FA4380CF0A4380D50A4388010A438A740A438F02AA438D701A438611EA438D701A43840DAA4380CF0A4380D20A438A010A4388740A438F021A4380CF0"%string;
    "A4380D60A4388010A438A740A438F01CA438D701A438611EA438D701A43840DAA4380CF0A4380D30A438A010A4388740A438F013A4380CF0A4380D70A4388010"%string;
    "A438A740A438F00EA438D701A438611EA438D701A43840DAA4380CF0A4380D40A438A010A4388740A438F005A4380CF0A4380D80A4388010A438A740A4381000"%string;
    "A43807E8A438A610A438D704A438405DA438A720A438D700A4385FF4A438A008A438D704A4384046A438A002A4381000A4380743A4381000A43807FBA438D703"%string;
    "A4387F6FA4387F4EA4387F2DA4387F0CA438800AA4380CF0A4380D00A4381000A43807E8A4388010A438A740A4381000A4380743A438D702A4387FB5A438D701"%string;
    "A4383AD4A4380556A4388610A4381800A438066EA438D1F5A438D049A4381800A43801ECA436A10EA43801EAA436A10CA43806A9A436A10AA438078AA436A108"%string;
    "A43803D2A436A106A438067FA436A104A4380665A436A102A4380000A436A100A4380000A436A110A43800FCA436B87CA4388530A436B87EA438AF85A4383CAF"%string;
    "A4388545A438AF85A43845AFA4388545A438EE82A438F900A4380103A438AF03A438B7F8A438E0A6A43800E1A438A601A438EF01A43858F0A438A080A43837A1"%string;
    "A4388402A438AE16A438A185A43802AEA43811A1A4388702A438AE0CA438A188A43802AEA43807A1A4388902A438AE02A438AE1CA438E0B4A43862E1A438B463"%string;
    "A4386901A438E4B4A43862E5A438B463A438E0B4A43862E1A438B463A4386901A438E4B4A43862E5A438B463A438FC04A436B85EA43803B3A436B860A438FFFF"%string;
    "A436B862A438FFFFA436B864A438FFFFA436B878A4380001"%string
  ]).

(** The array, 4854 words. *)
Definition phy_mcu_ram_code_8125b_1 : list Z :=
  hex_words (String.concat EmptyString [
    "A4368024A4383700A436B82EA4380001B8200090A436A016A4380000A436A012A4380000A436A014A4381800A4388010A4381800A4388025A4381800A438803A"%string;
    "A4381800A4388044A4381800A4388083A4381800A438808DA4381800A438808DA4381800A438808DA438D712A4384077A438D71EA4384159A438D71EA4386099"%string;
    "A4387F44A4381800A4381A14A4389040A4389201A4381800A4381B1AA438D71EA4382425A4381A14A438D71FA4383CE5A4381AFBA4381800A4381B00A438D712"%string;
    "A4384077A438D71EA4384159A438D71EA43860B9A4382421A4381C17A4381800A4381A14A4389040A4381800A4381C2CA438D71EA4382425A4381A14A438D71F"%string;
    "A4383CE5A4381C0FA4381800A4381C13A438D702A438D501A4386072A4388401A438F002A438A401A4381000A438146EA4381800A4380B77A438D703A438665D"%string;
    "A438653EA438641FA438D700A43862C4A4386185A4386066A4381800A438165AA438C101A438CB00A4381000A4381945A438D700A4387FA6A4381800A438807D"%string;
    "A438C102A438CB00A4381000A4381945A438D700A4382569A4388058A4381800A438807DA438C104A438CB00A4381000A4381945A438D700A4387FA4A4381800"%string;
    "A438807DA438C120A438CB00A4381000A4381945A438D703A4387FBFA4381800A438807DA438C140A438CB00A4381000A4381945A438D703A4387FBEA4381800"%string;
    "A438807DA438C180A438CB00A4381000A4381945A438D703A4387FBDA438C100A438CB00A438D708A4386018A4381800A438165AA4381000A43814F6A438D014"%string;
    "A438D1E3A4381000A4381356A438D705A4385FBEA4381800A4381559A436A026A438FFFFA436A024A438FFFFA436A022A438FFFFA436A020A4381557A436A006"%string;
    "A4381677A436A004A4380B75A436A002A4381C17A436A000A4381B04A436A008A4381F00A436A016A4380020A436A012A4380000A436A014A4381800A4388010"%string;
    "A4381800A438817FA4381800A43882ABA4381800A43883F8A4381800A4388444A4381800A4388454A4381800A4388459A4381800A4388465A438CB11A438A50C"%string;
    "A4388310A438D701A4384076A4380C03A4380903A438D700A4386083A4380C1FA4380D00A438F003A4380C1FA4380D00A4381000A4380A7DA4381000A4380A4D"%string;
    "A438CB12A4381000A4380A5EA438D71FA4385F84A438D102A438D040A4381000A4380A5EA438D700A4385FB4A438D701A43860F3A438D413A4381000A4380A37"%string;
    "A438D410A4381000A4380A37A438CB13A438A108A4381000A4380A42A4388108A438A00AA438A910A438A780A438D14AA438D048A4381000A4380A5EA438D701"%string;
    "A4386255A438D700A4385F74A4386326A438D702A4385F07A438800AA438A004A4381000A4380A42A4388004A438A001A4381000A4380A42A4388001A4380C03"%string;
    "A4380902A438FFE2A4381000A4380A5EA438D71FA4385FABA438BA08A4381000A4380A5EA438D71FA4387F8BA4389A08A438800AA438D702A4386535A438D40D"%string;
    "A4381000A4380A37A438CB14A438A004A4381000A4380A42A4388004A438A001A4381000A4380A42A4388001A438A00AA438A780A438D14AA438D048A4381000"%string;
    "A4380A5EA438D700A4385FB4A4386206A438D702A4385F47A438800AA438A004A4381000A4380A42A4388004A438A001A4381000A4380A42A4388001A4380C03"%string;
    "A4380902A4381800A4388064A438800AA438D40EA4381000A4380A37A438B920A4381000A4380A5EA438D71FA4385FACA4389920A4381000A4380A5EA438D71F"%string;
    "A4387F8CA438D701A4386073A438D701A4384216A438A004A4381000A4380A42A4388004A438A001A4381000A4380A42A4388001A438D120A438D040A4381000"%string;
    "A4380A5EA438D700A4385FB4A4388504A438CB21A438A301A4381000A4380A5EA438D700A4385F9FA4388301A438D704A43840E0A438D196A438D04DA4381000"%string;
    "A4380A5EA438D700A4385FB4A438CB22A4381000A4380A6DA4380C03A4381502A438A640A4389503A4388910A4388720A438D700A4386083A4380C1FA4380D01"%string;
    "A438F003A4380C1FA4380D01A4381000A4380A7DA4380C1FA4380F14A438CB23A4388FC0A4381000A4380A25A438AF40A4381000A4380A25A4380CC0A4380F80"%string;
    "A4381000A4380A25A438AFC0A4381000A4380A25A4381000A4380A5EA438D701A4385DEEA438CB24A4388F1FA4381000A4380A5EA438D701A4387F6EA438A111"%string;
    "A438A215A438A401A4388404A438A720A438CB25A4380C03A4381502A4388640A4389503A4381000A4380B43A4381000A4380B86A4381000A4380A5EA438B920"%string;
    "A4381000A4380A5EA438D71FA4385FACA4389920A4381000A4380A5EA438D71FA4387F8CA438CB26A4381000A4380A5EA438D71FA4385F82A4388111A4388205"%string;
    "A4388404A438CB27A438D404A4381000A4380A37A438D700A4386083A4380C1FA4380D02A438F003A4380C1FA4380D02A4381000A4380A7DA438A710A438A104"%string;
    "A4381000A4380A42A4388104A438A001A4381000A4380A42A4388001A438A120A438AA0FA4388110A438A284A438A404A438A00AA438D193A438D046A4381000"%string;
    "A4380A5EA438D700A4385FB4A438CB28A438A110A4381000A4380A5EA438D700A4385FA8A4388110A4388284A438A404A438800AA4388710A438B804A4381000"%string;
    "A4380A5EA438D71FA4387F82A4389804A438CB29A4381000A4380A5EA438D71FA4385F85A438A710A438B820A4381000A4380A5EA438D71FA4387F65A4389820"%string;
    "A438CB2AA438A190A438A284A438A404A438A00AA438D13DA438D04AA4381000A4380A5EA438D700A4383444A4388149A438A220A438D1A0A438D040A4381000"%string;
    "A4380A5EA438D700A4383444A4388151A438D702A4385F51A438CB2FA438A302A4381000A4380A5EA438D708A4385F63A438D411A4381000A4380A37A4388302"%string;
    "A438D409A4381000A4380A37A438B920A4381000A4380A5EA438D71FA4385FACA4389920A4381000A4380A5EA438D71FA4387F8CA4381000A4380A5EA438D71F"%string;
    "A4385FA3A4388190A43882A4A4388404A438800AA438B808A4381000A4380A5EA438D71FA4387FA3A4389808A4381800A4380433A438CB15A438A508A438D700"%string;
    "A4386083A4380C1FA4380D01A438F003A4380C1FA4380D01A4381000A4380A7DA4381000A4380A4DA438A301A4381000A4380A5EA438D700A4385F9FA4388301"%string;
    "A438D704A43840E0A438D115A438D04FA4381000A4380A5EA438D700A4385FB4A438D413A4381000A4380A37A438CB16A4381000A4380A6DA4380C03A4381502"%string;
    "A438A640A4389503A4388720A438D17AA438D04CA4380C1FA4380F14A438CB17A4388FC0A4381000A4380A25A438AF40A4381000A4380A25A4380CC0A4380F80"%string;
    "A4381000A4380A25A438AFC0A4381000A4380A25A4381000A4380A5EA438D701A43861CEA438D700A4385DB4A438CB18A4380C03A4381502A4388640A4389503"%string;
    "A438A720A4381000A4380B43A4381000A4380A5EA438FFD6A4388F1FA4381000A4380A5EA438D701A4387F8EA438A131A438AA0FA438A2D5A438A407A438A720"%string;
    "A4388310A438A308A4388308A438CB19A4380C03A4381502A4388640A4389503A4381000A4380B43A4381000A4380B86A4381000A4380A5EA438B920A4381000"%string;
    "A4380A5EA438D71FA4385FACA4389920A4381000A4380A5EA438D71FA4387F8CA438CB1AA4381000A4380A5EA438D71FA4385F82A4388111A43882C5A438A404"%string;
    "A4388402A438B804A4381000A4380A5EA438D71FA4387F82A4389804A438CB1BA4381000A4380A5EA438D71FA4385F85A438A710A438B820A4381000A4380A5E"%string;
    "A438D71FA4387F65A4389820A438CB1CA438D700A4386083A4380C1FA4380D02A438F003A4380C1FA4380D02A4381000A4380A7DA438A110A438A284A438A404"%string;
    "A4388402A4381000A4380A5EA438D700A4385FA8A438CB1DA438A180A438A402A4381000A4380A5EA438D700A4385FA8A438A220A438D1F5A438D049A4381000"%string;
    "A4380A5EA438D700A4383444A4388221A438D702A4385F51A438B920A4381000A4380A5EA438D71FA4385FACA4389920A4381000A4380A5EA438D71FA4387F8C"%string;
    "A4381000A4380A5EA438D71FA4385FA3A438A504A438D700A4386083A4380C1FA4380D00A438F003A4380C1FA4380D00A4381000A4380A7DA438A00AA4388190"%string;
    "A43882A4A4388402A438A404A438B808A4381000A4380A5EA438D71FA4387FA3A4389808A438CB2BA438CB2CA4381000A4380A5EA438D71FA4385F84A438D14A"%string;
    "A438D048A438A780A438CB2DA4381000A4380A5EA438D700A4385F94A4386208A438D702A4385F27A438800AA438A004A4381000A4380A42A4388004A438A001"%string;
    "A4381000A4380A42A4388001A4380C03A4380902A438A00AA438FFE9A438CB2EA438D700A4386083A4380C1FA4380D02A438F003A4380C1FA4380D02A4381000"%string;
    "A4380A7DA438A190A438A284A438A406A4381000A4380A5EA438D700A4385FA8A438A220A438D1A0A438D040A4381000A4380A5EA438D700A4383444A438827D"%string;
    "A438D702A4385F51A438CB2FA438A302A4381000A4380A5EA438D708A4385F63A438D411A4381000A4380A37A4388302A438D409A4381000A4380A37A438B920"%string;
    "A4381000A4380A5EA438D71FA4385FACA4389920A4381000A4380A5EA438D71FA4387F8CA4381000A4380A5EA438D71FA4385FA3A4388190A43882A4A4388406"%string;
    "A438800AA438B808A4381000A4380A5EA438D71FA4387FA3A4389808A4381800A4380433A438CB30A4388380A438CB31A4381000A4380A5EA438D71FA4385F86"%string;
    "A4389308A438B204A438B301A4381000A4380A5EA438D701A4385FA2A438B302A4389204A438CB32A438D408A4381000A4380A37A438D141A438D043A4381000"%string;
    "A4380A5EA438D700A4385FB4A438D704A4384CCCA438D700A4384C81A438D702A438609EA438D1E5A438D04DA438F003A438D1E5A438D04DA4381000A4380A5E"%string;
    "A438D700A4385FB4A438D700A4386083A4380C1FA4380D01A438F003A4380C1FA4380D01A4381000A4380A7DA4388710A438A108A4381000A4380A42A4388108"%string;
    "A438A203A4388120A4388A0FA438A111A4388204A438A140A4381000A4380A42A4388140A438D17AA438D04BA4381000A4380A5EA438D700A4385FB4A438A204"%string;
    "A4381000A4380A5EA438D700A4385FA7A438B920A4381000A4380A5EA438D71FA4385FACA4389920A4381000A4380A5EA438D71FA4387F8CA438D404A4381000"%string;
    "A4380A37A438D700A4386083A4380C1FA4380D02A438F003A4380C1FA4380D02A4381000A4380A7DA438A710A4388101A4388201A438A104A4381000A4380A42"%string;
    "A4388104A438A120A438AA0FA4388110A438A284A438A404A438A00AA438D193A438D047A4381000A4380A5EA438D700A4385FB4A438A110A4381000A4380A5E"%string;
    "A438D700A4385FA8A438A180A438D13DA438D04AA4381000A4380A5EA438D700A4385FB4A438F024A438A710A438A00AA4388190A4388204A438A280A438A404"%string;
    "A4381000A4380A5EA438D700A4385FA7A4388710A438B920A4381000A4380A5EA438D71FA4385FACA4389920A4381000A4380A5EA438D71FA4387F8CA438800A"%string;
    "A4388190A4388284A4388406A438D700A4384121A438D701A43860F3A438D1E5A438D04DA4381000A4380A5EA438D700A4385FB4A4388710A438A00AA4388190"%string;
    "A4388204A438A280A438A404A438B920A4381000A4380A5EA438D71FA4385FACA4389920A4381000A4380A5EA438D71FA4387F8CA438CB33A4381000A4380A5E"%string;
    "A438D71FA4385F85A438A710A438B820A4381000A4380A5EA438D71FA4387F65A4389820A438CB34A438A00AA438A190A438A284A438A404A4381000A4380A5E"%string;
    "A438D700A4385FA9A438D701A4386853A438D700A4386083A4380C1FA4380D00A438F003A4380C1FA4380D00A4381000A4380A7DA4388190A4388284A438CB35"%string;
    "A438D407A4381000A4380A37A4388110A4388204A438A280A438A00AA438D704A4384215A438A304A4381000A4380A5EA438D700A4385FB8A438D1C3A438D043"%string;
    "A4381000A4380A5EA438D700A4385FB4A4388304A438D700A4384109A438F01EA438CB36A438D412A4381000A4380A37A438D700A4386309A438D702A43842C7"%string;
    "A438800AA4388180A4388280A4388404A438A004A4381000A4380A42A4388004A438A001A4381000A4380A42A4388001A4380C03A4380902A438A00AA438D14A"%string;
    "A438D048A4381000A4380A5EA438D700A4385FB4A438D700A4386083A4380C1FA4380D02A438F003A4380C1FA4380D02A4381000A4380A7DA438CC55A438CB37"%string;
    "A438A00AA438A190A438A2A4A438A404A438D700A4386041A438A402A438D13DA438D04AA4381000A4380A5EA438D700A4385FB4A4381000A4380A5EA438D700"%string;
    "A4385FA9A438D702A4385F71A438CB38A4388224A438A288A4388180A438A110A438A404A438800AA438D700A4386041A4388402A438D415A4381000A4380A37"%string;
    "A438D13DA438D04AA4381000A4380A5EA438D700A4385FB4A438CB39A438A00AA438A190A438A2A0A438A404A438D700A4386041A438A402A438D17AA438D047"%string;
    "A4381000A4380A5EA438D700A4385FB4A4381800A4380560A438A111A4380000A4380000A4380000A4380000A438D3F5A438D219A4381000A4380C31A438D708"%string;
    "A4385FA5A438A215A438D30EA438D21AA4381000A4380C31A438D708A43863E9A438D708A4385F65A438D708A4387F36A438A004A4381000A4380C35A4388004"%string;
    "A438A001A4381000A4380C35A4388001A438D708A4384098A438D102A4389401A438F003A438D103A438B401A4381000A4380C27A438A108A4381000A4380C35"%string;
    "A4388108A4388110A4388294A438A202A4381800A4380BDBA438D39CA438D210A4381000A4380C31A438D708A4385FA5A438D39CA438D210A4381000A4380C31"%string;
    "A438D708A4385FA5A4381000A4380C31A438D708A43829B5A438840EA438D708A4385F4AA4380C1FA4381014A4381000A4380C31A438D709A4387FA4A438901F"%string;
    "A4381800A4380C23A438CB43A438A508A438D701A4383699A438844AA438A504A438A190A438A2A0A438A404A438A00AA438D700A4382109A43805EAA438A402"%string;
    "A4381800A43805EAA438CB90A4380CF0A4380CA0A4381800A43806DBA438D1FFA438D052A438A508A4388718A438A00AA438A190A438A2A0A438A404A4380CF0"%string;
    "A4380C50A4381800A43809EFA4381000A4380A5EA438D704A4382E70A43806DAA438D700A4385F55A438A90CA4381800A4380645A436A10EA4380644A436A10C"%string;
    "A43809E9A436A10AA43806DAA436A108A43805E1A436A106A4380BE4A436A104A4380435A436A102A4380141A436A100A438026DA436A110A43800FFA436B87C"%string;
    "A43885FEA436B87EA438AF86A43816AFA4388699A438AF86A438E5AFA43886F9A438AF87A4387AAFA438883AA438AF88A43858AFA4388B6CA438D48BA4387C02"%string;
    "A4388644A4382C00A438503CA438FFD6A438AC27A43818E1A43882FEA438AD28A4380CD4A4388B84A4380286A438442CA438003CA438AC27A43806EEA4388299"%string;
    "A43801AEA43804EEA4388299A43800AFA43823DCA438F9FAA438CEFAA438FBEFA43879FBA438C4BFA4388B76A438026CA4386DACA4382804A438D203A438AE02"%string;
    "A438D201A438BDD8A43819D9A438EF94A438026CA4386D78A43803EFA438648AA4380002A438BDD8A43819D9A438EF94A438026CA4386D78A43803EFA4387402"%string;
    "A43872CDA438AC50A43802EFA438643AA438019FA438E4EFA4384678A43803ACA4382002A438AE02A438D0FFA438FFEFA43897FFA438FEC6A438FEFDA438041F"%string;
    "A438771FA438221CA438450DA438481FA43800ACA4387F04A4381A94A438AE08A4381A94A438AC7FA43803D7A4380100A438EF46A4380D48A4381F00A4381C45"%string;
    "A438EF69A438EF57A438EF74A4380272A438E8A7A438FFFFA4380D1AA438941BA438979EA438072DA4380100A4381A64A438EF76A438EF97A4380D98A438D400"%string;
    "A438FF1DA438941AA43889CFA4381A75A438AF74A438F9BFA4388B79A438026CA4386DA1A4380005A438E180A438A0AEA43803E1A43880A1A438AF26A4389AAC"%string;
    "A438284DA438E08FA438FFEFA43810C0A438E08FA438FE10A4381B08A438A000A43804C8A438AF40A43867C8A438BF8BA4388C02A4386C4EA438C4BFA4388B8F"%string;
    "A438026CA4386DEFA43874E0A438830CA438AD20A4380302A43874ACA438CCEFA438971BA43876ADA4385F02A438AE13A438EF69A438EF30A4381B32A438C4EF"%string;
    "A43846E4A4388FFBA438E58FA438FCE7A4388FFDA438CC10A43811AEA438B8D1A43800A1A4381F03A438AF40A4384FBFA4388B8CA438026CA4384EC4A438BF8B"%string;
    "A4388F02A4386C6DA438EF74A438E083A4380CADA4382003A4380274A438ACCCA438EF97A4381B76A438AD5FA43802AEA43804EFA43869EFA4383111A438AED1"%string;
    "A4380287A43880AFA4382293A438F8F9A438FAFBA438EF59A438E080A43813ADA438252FA438BF88A4382802A4386C6DA438EF64A4381F44A438E18FA438B91B"%string;
    "A43864ADA4384F1DA438D688A4382BD7A438882EA4380274A43873ADA4385008A438BF88A4383102A438737CA438AE03A4380287A438D0BFA438882BA4380273"%string;
    "A43873E0A438824CA438F621A438E482A4384CBFA4388834A4380273A4387CEFA43895FFA438FEFDA438FC04A438F8F9A438FAFBA438EF79A438BF88A4381F02"%string;
    "A438737CA4381F22A438AC32A43831EFA43812BFA4388822A438026CA4384ED6A4388FBAA4381F33A438AC3CA4381EEFA43813BFA4388837A438026CA4384EEF"%string;
    "A43896D8A43819D9A438BF88A4382502A4386C4EA438BF88A4382502A4386C4EA4381616A43813AEA438DF12A438AECCA438BF88A4381F02A4387373A438EF97"%string;
    "A438FFFEA438FDFCA4380466A438AC88A43854ACA43888F0A438AC8AA43892ACA438BADDA438AC6CA438EEACA4386CFFA438AD02A43899ACA4380030A438AC88"%string;
    "A438D4C3A4385000A4380000A4380000A4380000A4380000A4380000A4380000A4380000A4380000A43800B4A438ECEEA4388298A43800AFA4381412A438F8BF"%string;
    "A4388B5DA438026CA4386D58A43803E1A4388FB8A4382901A438E58FA438B8A0A4380049A438EF47A438E483A43802E5A4388303A438BFC2A4385F1AA43895F7"%string;
    "A43805EEA438FFD2A43800D8A438F605A4381F11A438EF60A438BF8BA4383002A4386C4EA438BF8BA4383302A4386C6DA438F728A438BF8BA4383302A4386C4E"%string;
    "A438F628A438BF8BA4383302A4386C4EA4380C64A438EF46A438BF8BA4386002A4386C4EA4380289A4389902A4383920A438AF89A43896A0A4380149A438EF47"%string;
    "A438E483A43804E5A4388305A438BFC2A4385F1AA43895F7A43805EEA438FFD2A43800D8A438F605A4381F11A438EF60A438BF8BA4383002A4386C4EA438BF8B"%string;
    "A4383302A4386C6DA438F729A438BF8BA4383302A4386C4EA438F629A438BF8BA4383302A4386C4EA4380C64A438EF46A438BF8BA4386302A4386C4EA4380289"%string;
    "A4389902A4383920A438AF89A43896A0A4380249A438EF47A438E483A43806E5A4388307A438BFC2A4385F1AA43895F7A43805EEA438FFD2A43800D8A438F605"%string;
    "A4381F11A438EF60A438BF8BA4383002A4386C4EA438BF8BA4383302A4386C6DA438F72AA438BF8BA4383302A4386C4EA438F62AA438BF8BA4383302A4386C4E"%string;
    "A4380C64A438EF46A438BF8BA4386602A4386C4EA4380289A4389902A4383920A438AF89A43896EFA43847E4A4388308A438E583A43809BFA438C25FA4381A95"%string;
    "A438F705A438EEFFA438D200A438D8F6A438051FA43811EFA43860BFA4388B30A438026CA4384EBFA4388B33A438026CA4386DF7A4382BBFA4388B33A438026C"%string;
    "A4384EF6A4382BBFA4388B33A438026CA4384E0CA43864EFA43846BFA4388B69A438026CA4384E02A4388999A4380239A43820AFA4388996A438AF39A4381EF8"%string;
    "A438F9FAA438E08FA438B838A43802ADA4382702A438AE03A438AF8BA438201FA43866EFA43865BFA438C21FA4381A96A438F705A438EEFFA438D200A438DAF6"%string;
    "A43805BFA438C22FA4381A96A438F705A438EEFFA438D200A438DBF6A43805EFA438021FA438110DA43842BFA4388B3CA438026CA4384EEFA438021BA438031F"%string;
    "A438110DA43842BFA4388B36A438026CA4384EEFA438021AA438031FA438110DA43842BFA4388B39A438026CA4384EBFA438C23FA4381A96A438F705A438EEFF"%string;
    "A438D200A438DAF6A43805BFA438C24FA4381A96A438F705A438EEFFA438D200A438DBF6A43805EFA438021FA438110DA43842BFA4388B45A438026CA4384EEF"%string;
    "A438021BA438031FA438110DA43842BFA4388B3FA438026CA4384EEFA438021AA438031FA438110DA43842BFA4388B42A438026CA4384EEFA43856D0A438201F"%string;
    "A43811BFA4388B4EA438026CA4384EBFA4388B48A438026CA4384EBFA4388B4BA438026CA4384EE1A4388578A438EF03A438480AA4382805A438EF20A4381B01"%string;
    "A438AD27A4383F1FA43844E0A4388560A438E185A43861BFA4388B51A438026CA4384EE0A4388566A438E185A43867BFA4388B54A438026CA4384EE0A438856C"%string;
    "A438E185A4386DBFA4388B57A438026CA4384EE0A4388572A438E185A43873BFA4388B5AA438026CA4384EE1A4388FB8A4385900A438F728A438E58FA438B8AF"%string;
    "A4388B2CA438E185A438791BA43821ADA438373EA4381F44A438E085A43862E1A4388563A438BF8BA4385102A4386C4EA438E085A43868E1A4388569A438BF8B"%string;
    "A4385402A4386C4EA438E085A4386EE1A438856FA438BF8BA4385702A4386C4EA438E085A43874E1A4388575A438BF8BA4385A02A4386C4EA438E18FA438B859"%string;
    "A43800F7A43828E5A4388FB8A438AE4AA4381F44A438E085A43864E1A4388565A438BF8BA4385102A4386C4EA438E085A4386AE1A438856BA438BF8BA4385402"%string;
    "A4386C4EA438E085A43870E1A4388571A438BF8BA4385702A4386C4EA438E085A43876E1A4388577A438BF8BA4385A02A4386C4EA438E18FA438B859A43800F7"%string;
    "A43828E5A4388FB8A438AE0CA438E18FA438B839A43804ACA4382F04A438EE8FA438B800A438FEFDA438FC04A438F0ACA4388EFCA438AC8CA438F0ACA438FAF0"%string;
    "A438ACF8A438F0ACA438F6F0A438AD00A438F0ACA438FEF0A438ACFCA438F0ACA438F4F0A438ACF2A438F0ACA438F0F0A438ACB0A438F0ACA438AEF0A438ACAC"%string;
    "A438F0ACA438AAF0A438ACEEA438F0B0A43824F0A438B0A4A438F0B1A43824F0A438B1A4A438EE8FA438B800A438D400A43800AFA4383976A43866ACA438EABB"%string;
    "A438A430A4386E50A4386E53A4386E56A4386E59A4386E5CA4386E5FA4386E62A4386E65A438D9ACA43870F0A438AC6AA436B85EA43823B7A436B860A43874DB"%string;
    "A436B862A438268CA436B864A4383FE5A436B886A4382250A436B888A438140EA436B88AA4383696A436B88CA4383973A436B838A43800FFB8200010A4368464"%string;
    "A438AF84A4387CAFA4388485A438AF85A43813AFA438851EA438AF85A438B9AFA4388684A438AF87A43801AFA4388701A438AC38A43803AFA43838BBA438AF38"%string;
    "A438C302A4384618A438BF85A4380A02A43854B7A438BF85A4381002A43854C0A438D400A4380FBFA4388507A438024FA43848BFA4388504A438024FA4386759"%string;
    "A438F0A1A4383008A438BF85A4380D02A43854C0A438AE06A438BF85A4380D02A43854B7A438BF85A4380402A4384F67A438A183A43802AEA43815A1A4388502"%string;
    "A438AE10A43859F0A438A180A43816BFA4388501A438024FA43867A1A438381BA438AE0BA438E18FA438FFBFA43884FEA438024FA43848AEA43817BFA43884FE"%string;
    "A4380254A438B7BFA43884FBA4380254A438B7AEA43809A1A4385006A438BF84A438FB02A43854C0A438AF04A4384700A438AD34A438FDADA4380670A438AE14"%string;
    "A438F0A6A43800B8A438BD32A43830BDA43830AAA438BD2CA438CCBDA4382CA1A4380705A438EC80A438AF40A438F7AFA43840F5A438D101A438BF85A438A402"%string;
    "A4384F48A438BF85A438A702A43854C0A438D10FA438BF85A438AA02A4384F48A438024DA4386ABFA43885ADA438024FA43867BFA4388FF7A438DDBFA43885B0"%string;
    "A438024FA43867BFA4388FF8A438DDBFA43885B3A438024FA43867BFA4388FF9A438DDBFA43885B6A438024FA43867BFA4388FFAA438DDD1A43800BFA43885AA"%string;
    "A438024FA4384802A4384D6AA438BF85A438AD02A4384F67A438BF8FA438FBDDA438BF85A438B002A4384F67A438BF8FA438FCDDA438BF85A438B302A4384F67"%string;
    "A438BF8FA438FDDDA438BF85A438B602A4384F67A438BF8FA438FEDDA438BF85A438A702A43854B7A438BF85A438A102A43854B7A438AF3CA4382066A438B800"%string;
    "A438B8BDA43830EEA438BD2CA438B8BDA4387040A438BD86A438C8BDA4388640A438BD88A438C8BDA4388802A4381929A438A202A43802AEA43803A2A438032E"%string;
    "A438D10FA438BF85A438AA02A4384F48A438E18FA438F7BFA43885ADA438024FA43848E1A4388FF8A438BF85A438B002A4384F48A438E18FA438F9BFA43885B3"%string;
    "A438024FA43848E1A4388FFAA438BF85A438B602A4384F48A438AE2CA438D100A438BF85A438AA02A4384F48A438E18FA438FBBFA43885ADA438024FA43848E1"%string;
    "A4388FFCA438BF85A438B002A4384F48A438E18FA438FDBFA43885B3A438024FA43848E1A4388FFEA438BF85A438B602A4384F48A438BF86A4387E02A4384F67"%string;
    "A438A100A43802AEA43825A1A438041DA438E18FA438F1BFA4388675A438024FA43848E1A4388FF2A438BF86A4387802A4384F48A438E18FA438F3BFA438867B"%string;
    "A438024FA43848AEA43829A1A438070BA438AE24A438BF86A4388102A4384F67A438AD28A4381BE1A4388FF4A438BF86A4387502A4384F48A438E18FA438F5BF"%string;
    "A4388678A438024FA43848E1A4388FF6A438BF86A4387B02A4384F48A438AF09A4388420A438BC32A43820BCA4383E76A438BC08A438FDA6A4381A00A438B64E"%string;
    "A438D101A438BF85A438A402A4384F48A438BF85A438A702A43854C0A438D10FA438BF85A438AA02A4384F48A438024DA4386ABFA43885ADA438024FA43867BF"%string;
    "A4388FF7A438DDBFA43885B0A438024FA43867BFA4388FF8A438DDBFA43885B3A438024FA43867BFA4388FF9A438DDBFA43885B6A438024FA43867BFA4388FFA"%string;
    "A438DDD1A43800BFA43885AAA438024FA4384802A4384D6AA438BF85A438AD02A4384F67A438BF8FA438FBDDA438BF85A438B002A4384F67A438BF8FA438FCDD"%string;
    "A438BF85A438B302A4384F67A438BF8FA438FDDDA438BF85A438B602A4384F67A438BF8FA438FEDDA438BF85A438A702A43854B7A438AF00A4388800A436B818"%string;
    "A43838B8A436B81AA4380444A436B81CA43840EEA436B81EA4383C1AA436B850A4380981A436B852A4380085A436B878A438FFFFA436B884A438FFFFA436B832"%string;
    "A438003FA4360000A4380000A436B82EA4380000A4368024A4380000B8200000A436801EA4380021FFFFFFFF"%string
  ]).

(** The array, 1920 words. *)
Definition phy_mcu_ram_code_8125b_2 : list Z :=
  hex_words (String.concat EmptyString [
    "A4368024A4383701A436B82EA4380001B8200090A436A016A4380000A436A012A4380000A436A014A4381800A4388010A4381800A438801AA4381800A4388024"%string;
    "A4381800A438802FA4381800A4388051A4381800A4388057A4381800A4388063A4381800A4388068A438D093A438D1C4A4381000A438135CA438D704A4385FBC"%string;
    "A438D504A438C9F1A4381800A4380FC9A438BB50A438D505A438A202A438D504A4388C0FA438D500A4381000A4381519A4381800A4381548A4382F70A438802A"%string;
    "A4382F73A438156AA4381800A438155CA438D505A438A202A438D500A4381800A4381551A438C0C1A438C0C0A438D05AA438D1BAA438D701A4382529A438022A"%string;
    "A438D0A7A438D1B9A438A208A4381000A438080EA438D701A438408BA4381000A4380A65A438F003A4381000A4380A6BA438D701A4381000A4380920A4381000"%string;
    "A4380915A4381000A4380909A438228FA4388038A4389801A438D71EA4385D61A438D701A4381800A438022AA4382005A438091AA4383BD9A4380919A4381800"%string;
    "A4380916A4381000A43814C5A438D703A4383181A4388061A43860ADA4381000A438135CA438D703A4385FBAA4381800A4380CC7A438D096A438D1A9A438D503"%string;
    "A4381800A4380C94A438A802A438A301A438A801A438C004A438D710A4384000A4381800A4381E79A436A026A4381E78A436A024A4380C93A436A022A4380CC5"%string;
    "A436A020A4380915A436A006A438020AA436A004A438155BA436A002A4381542A436A000A4380FC7A436A008A438FF00A436A016A4380010A436A012A4380000"%string;
    "A436A014A4381800A4388010A4381800A438801DA4381800A438802CA4381800A438802CA4381800A438802CA4381800A438802CA4381800A438802CA4381800"%string;
    "A438802CA438D700A4386090A43860D1A438C95CA438F007A43860B1A438C95AA438F004A438C956A438F002A438C94EA4381800A43800CDA438D700A4386090"%string;
    "A43860D1A438C95CA438F007A43860B1A438C95AA438F004A438C956A438F002A438C94EA4381000A438022AA4381800A4380132A436A08EA438FFFFA436A08C"%string;
    "A438FFFFA436A08AA438FFFFA436A088A438FFFFA436A086A438FFFFA436A084A438FFFFA436A082A438012FA436A080A43800CCA436A090A4380103A436A016"%string;
    "A4380020A436A012A4380000A436A014A4381800A4388010A4381800A4388020A4381800A438802AA4381800A4388035A4381800A438803CA4381800A438803C"%string;
    "A4381800A438803CA4381800A438803CA438D107A438D042A438A404A4381000A43809DFA438D700A4385FB4A4388280A438D700A4386065A438D125A438F002"%string;
    "A438D12BA438D040A4381800A438077FA4380CF0A4380C50A438D104A438D040A4381000A4380AA8A438D700A4385FB4A4381800A4380A2EA438CB9BA438D110"%string;
    "A438D040A4381000A4380B7BA4381000A43809DFA438D700A4385FB4A4381800A438081BA4381000A43809DFA438D704A4387FB8A438A718A4381800A438074E"%string;
    "A436A10EA438FFFFA436A10CA438FFFFA436A10AA438FFFFA436A108A438FFFFA436A106A438074DA436A104A4380818A436A102A4380A2CA436A100A438077E"%string;
    "A436A110A438000FA436B87CA4388625A436B87EA438AF86A4383DAFA4388689A438AF88A43869AFA4388887A438AF88A4389CAFA438889CA438AF88A4389CAF"%string;
    "A438889CA438BF86A43849D7A4380040A4380277A4387DAFA4382727A4380000A4387205A4380000A4387208A4380000A43871F3A4380000A43871F6A4380000"%string;
    "A4387229A4380000A438722CA4380000A4387217A4380000A438721AA4380000A438721DA4380000A4387211A4380000A4387220A4380000A4387214A4380000"%string;
    "A438722FA4380000A4387223A4380000A4387232A4380000A4387226A438F8F9A438FAE0A43885B3A4383802A438AD27A43802AEA43803AFA4388830A4381F66"%string;
    "A438EF65A438BFC2A4381F1AA43896F7A43805EEA438FFD2A43800DAA438F605A438BFC2A4382F1AA43896F7A43805EEA438FFD2A43800DBA438F605A438EF02"%string;
    "A4381F11A4380D42A438BF88A4384202A4386E7DA438EF02A4381B03A4381F11A4380D42A438BF88A4384502A4386E7DA438EF02A4381A03A4381F11A4380D42"%string;
    "A438BF88A4384802A4386E7DA438BFC2A4383F1AA43896F7A43805EEA438FFD2A43800DAA438F605A438BFC2A4384F1AA43896F7A43805EEA438FFD2A43800DB"%string;
    "A438F605A438EF02A4381F11A4380D42A438BF88A4384B02A4386E7DA438EF02A4381B03A4381F11A4380D42A438BF88A4384E02A4386E7DA438EF02A4381A03"%string;
    "A4381F11A4380D42A438BF88A4385102A4386E7DA438EF56A438D020A4381F11A438BF88A4385402A4386E7DA438BF88A4385702A4386E7DA438BF88A4385A02"%string;
    "A4386E7DA438E185A438A0EFA4380348A4380A28A43805EFA438201BA43801ADA4382735A4381F44A438E085A43888E1A4388589A438BF88A4385D02A4386E7D"%string;
    "A438E085A4388EE1A438858FA438BF88A4386002A4386E7DA438E085A43894E1A4388595A438BF88A4386302A4386E7DA438E085A4389AE1A438859BA438BF88"%string;
    "A4386602A4386E7DA438AF88A4383CBFA438883FA438026EA4389CADA4382835A4381F44A438E08FA438F8E1A4388FF9A438BF88A4385D02A4386E7DA438E08F"%string;
    "A438FAE1A4388FFBA438BF88A4386002A4386E7DA438E08FA438FCE1A4388FFDA438BF88A4386302A4386E7DA438E08FA438FEE1A4388FFFA438BF88A4386602"%string;
    "A4386E7DA438AF88A4383CE1A43885A1A4381B21A438AD37A438341FA43844E0A438858AA438E185A4388BBFA438885DA438026EA4387DE0A4388590A438E185"%string;
    "A43891BFA4388860A438026EA4387DE0A4388596A438E185A43897BFA4388863A438026EA4387DE0A438859CA438E185A4389DBFA4388866A438026EA4387DAE"%string;
    "A438401FA43844E0A438858CA438E185A4388DBFA438885DA438026EA4387DE0A4388592A438E185A43893BFA4388860A438026EA4387DE0A4388598A438E185"%string;
    "A43899BFA4388863A438026EA4387DE0A438859EA438E185A4389FBFA4388866A438026EA4387DAEA4380CE1A43885B3A4383904A438AC2FA43804EEA43885B3"%string;
    "A43800AFA43839D9A43822ACA438EAF0A438ACF6A438F0ACA438FAF0A438ACF8A438F0ACA438FCF0A438AD00A438F0ACA438FEF0A438ACF0A438F0ACA438F4F0"%string;
    "A438ACF2A438F0ACA438B0F0A438ACAEA438F0ACA438ACF0A438ACAAA438A100A4380CE1A4388FF7A438BF88A4388402A4386E7DA438AF26A438E9E1A4388FF6"%string;
    "A438BF88A4388402A4386E7DA438AF26A438F520A438AC86A438BF88A4383F02A4386E9CA438AD28A43803AFA4383324A438AD38A43803AFA43832E6A438AF32"%string;
    "A438FB00A436B87CA4388FF6A436B87EA4380705A436B87CA4388FF8A436B87EA43819CCA436B87CA4388FFAA436B87EA43828E3A436B87CA4388FFCA436B87E"%string;
    "A4381047A436B87CA4388FFEA436B87EA4380A45A436B85EA438271EA436B860A4383846A436B862A43826E6A436B864A43832E3A436B886A438FFFFA436B888"%string;
    "A438FFFFA436B88AA438FFFFA436B88CA438FFFFA436B838A438000FB8200010A436846EA438AF84A43886AFA4388690A438AF86A438A4AFA43886A4A438AF86"%string;
    "A438A4AFA43886A4A438AF86A438A4AFA43886A4A438EE82A4385F00A4380284A43890AFA4380441A438F8E0A4388FF3A438A000A4380502A43884A4A438AE06"%string;
    "A438A001A4380302A43884C8A438FC04A438F8F9A438EF59A438E080A43815ADA4382702A438AE03A438AF84A438C3BFA43853CAA4380252A438C8ADA4382807"%string;
    "A4380285A4382CEEA4388FF3A43801EFA43895FDA438FC04A438F8F9A438FAEFA43869BFA43853CAA4380252A438C8ACA4382822A438D480A43800BFA4388684"%string;
    "A4380252A438A9BFA4388687A4380252A438A9BFA438868AA4380252A438A9BFA438868DA4380252A438A9EEA4388FF3A43800AFA4388526A438E08FA438F4E1"%string;
    "A4388FF5A438E28FA438F6E3A4388FF7A4381B45A438AC27A4380EEEA4388FF4A43800EEA4388FF5A4380002A438852CA438AF85A43826E0A4388FF4A438E18F"%string;
    "A438F52CA4380001A438E48FA438F4E5A4388FF5A438EF96A438FEFDA438FC04A438F8F9A438EF59A438BF53A4382202A43852C8A438A18BA43802AEA43803AF"%string;
    "A43885DAA438BF57A4387202A43852C8A438E48FA438F8E5A4388FF9A438BF57A4387502A43852C8A438E48FA438FAE5A4388FFBA438BF57A4387802A43852C8"%string;
    "A438E48FA438FCE5A4388FFDA438BF57A4387B02A43852C8A438E48FA438FEE5A4388FFFA438BF57A4386C02A43852C8A438A102A43813EEA4388FFCA43880EE"%string;
    "A4388FFDA43800EEA4388FFEA43880EEA4388FFFA43800AFA4388599A438A101A4380CBFA438534CA4380252A438C8A1A4380303A438AF85A43877BFA4385322"%string;
    "A4380252A438C8A1A4388B02A438AE03A438AF86A43864E0A4388FF8A438E18FA438F9BFA4388684A4380252A438A9E0A4388FFAA438E18FA438FBBFA4388687"%string;
    "A4380252A438A9E0A4388FFCA438E18FA438FDBFA438868AA4380252A438A9E0A4388FFEA438E18FA438FFBFA438868DA4380252A438A9AFA438867FA438BF53"%string;
    "A4382202A43852C8A438A144A4383CBFA438547BA4380252A438C8E4A4388FF8A438E58FA438F9BFA438547EA4380252A438C8E4A4388FFAA438E58FA438FBBF"%string;
    "A4385481A4380252A438C8E4A4388FFCA438E58FA438FDBFA4385484A4380252A438C8E4A4388FFEA438E58FA438FFBFA4385322A4380252A438C8A1A4384448"%string;
    "A438AF85A438A7BFA4385322A4380252A438C8A1A438313CA438BF54A4387B02A43852C8A438E48FA438F8E5A4388FF9A438BF54A4387E02A43852C8A438E48F"%string;
    "A438FAE5A4388FFBA438BF54A4388102A43852C8A438E48FA438FCE5A4388FFDA438BF54A4388402A43852C8A438E48FA438FEE5A4388FFFA438BF53A4382202"%string;
    "A43852C8A438A131A43803AFA43885A7A438D480A43800BFA4388684A4380252A438A9BFA4388687A4380252A438A9BFA438868AA4380252A438A9BFA438868D"%string;
    "A4380252A438A9EFA43895FDA438FC04A438F0D1A4382AF0A438D12CA438F0D1A43844F0A438D146A438BF86A438A102A43852C8A438BF86A438A102A43852C8"%string;
    "A438D101A438AF06A438A570A438CE42A436B818A438043DA436B81AA43806A3A436B81CA438FFFFA436B81EA438FFFFA436B850A438FFFFA436B852A438FFFF"%string;
    "A436B878A438FFFFA436B884A438FFFFA436B832A4380003A4360000A4380000A436B82EA4380000A4368024A4380000B8200000A436801EA4380019FFFFFFFF"%string
  ]).

(** The array, 398 words. *)
Definition phy_mcu_ram_code_8125bp_1_1 : list Z :=
  hex_words (String.concat EmptyString [
    "A4368024A4383600A436B82EA4380001B8200090A436A016A4380000A436A012A4380000A436A014A4381800A4388010A4381800A4388014A4381800A4388018"%string;
    "A4381800A438801CA4381800A4388020A4381800A4388024A4381800A4388028A4381800A4388028A438DB20A438D501A4381800A438034CA438DB10A438D501"%string;
    "A4381800A438032CA4388620A438A480A4381800A4381CFEA438BF40A438D703A4381800A4380CE9A4389C10A4389F40A4381800A438137AA4389F20A4389F40"%string;
    "A4381800A43816C4A436A026A438FFFFA436A024A438FFFFA436A022A43816C3A436A020A4381379A436A006A4380CE8A436A004A4381CFDA436A002A438032B"%string;
    "A436A000A438034BA436A008A4383F00A436A016A4380020A436A012A4380000A436A014A4381800A4388010A4381800A4388018A4381800A4388021A4381800"%string;
    "A438802BA4381800A4388055A4381800A438805AA4381800A438805EA4381800A4388062A4380000A4380000A438CB11A438D1B9A438D05BA4380000A4381800"%string;
    "A4380284A4380000A4380000A438D700A4385FB4A4385F95A4380000A4380000A4381800A43802B7A4380000A4380000A438CB21A4381000A4380B34A438D71F"%string;
    "A4385F5EA4380000A4381800A4380322A438D700A438D113A438D040A4381000A4380A57A438D700A4385FB4A438D700A4386065A438D122A438F002A438D122"%string;
    "A438D040A4381000A4380B53A438A008A438D704A4384052A438A002A438D704A4384054A438A740A4381000A4380A57A438D700A4385FB4A438CB9BA438D110"%string;
    "A438D040A4381000A4380C01A4381000A4380A57A438D700A4385FB4A438801AA4381000A4380A57A438D704A4387FB9A4381800A438088DA438CB62A438D700"%string;
    "A4388880A4381800A43806CBA438BE02A4380000A4381800A438002CA438BE04A4380000A4381800A438002CA438BE08A4380000A4381800A438002CA436A10E"%string;
    "A438802AA436A10CA4388026A436A10AA4388022A436A108A43806CAA436A106A438086FA436A104A4380321A436A102A43802B5A436A100A4380283A436A110"%string;
    "A438001FB8200010B82E0000A4368024A4380000B8200000FFFFFFFF"%string
  ]).

(** The array, 80 words. *)
Definition phy_mcu_ram_code_8125bp_1_2 : list Z :=
  hex_words (String.concat EmptyString [
    "B8920000B88EC201B8902C01B890CD02B8900602B8905502B890B903B8903303B890C204B8906605B8901F05B890EE06B890D207B890CC08B890DA09B890FF0B"%string;
    "B890380CB89087F3B88EC27FB8902B66B8906666B8906666B8906666B8906666B8906666B8906666B8906666B89066C2B88EC26FB890751DB8901D1FB8902022"%string;
    "B8902325B8902627B8902829B8902929B8902A2AB8902B66B8200000FFFFFFFF"%string
  ]).

(** The array, 4808 words. *)
Definition phy_mcu_ram_code_8125d_1_1 : list Z :=
  hex_words (String.concat EmptyString [
    "A4368023A4383800A436B82EA4380001B8200090A436A016A4380000A436A012A4380000A436A014A4381800A4388010A4381800A4388018A4381800A4388021"%string;
    "A4381800A4388029A4381800A4388031A4381800A4388035A4381800A438819CA4381800A43881E9A438D711A4386081A4388904A4381800A4382021A438A904"%string;
    "A4381800A4382021A438D75FA4384083A438D503A438A908A43887F0A4381000A43817E0A4381800A43813C3A438D707A4382005A4388027A438D75EA4381800"%string;
    "A4381434A4381800A43814A5A438C504A438CE20A438CF01A438D70AA4384005A438CF02A4381800A4381C50A438A980A438D500A4381800A43814F3A438D75E"%string;
    "A43867B1A438D504A438D71EA43865BBA43863DAA43861F9A4380CF0A4380C10A438D505A4380C0FA4380808A438D501A438CE01A4380CF0A4380470A4380CF0"%string;
    "A4380430A4380CF0A4380410A438F02AA4380CF0A4380C20A438D505A4380C0FA4380804A438D501A438CE01A4380CF0A4380470A4380CF0A4380430A4380CF0"%string;
    "A4380420A438F01CA4380CF0A4380C40A438D505A4380C0FA4380802A438D501A438CE01A4380CF0A4380470A4380CF0A4380450A4380CF0A4380440A438F00E"%string;
    "A4380CF0A4380C80A438D505A4380C0FA4380801A438D501A438CE01A4380CF0A43804B0A4380CF0A4380490A4380CF0A4380480A438D501A438CE00A438D500"%string;
    "A438C48EA4381000A4381A41A438D718A4385FAFA438D504A4388E01A4388C0FA438D500A4381000A43817E0A438D504A438D718A4384074A4386195A438F005"%string;
    "A43860F5A4380C03A4380D00A438F009A4380C03A4380D01A438F006A4380C03A4380D02A438F003A4380C03A4380D03A438D500A438D706A4382529A438809C"%string;
    "A438D718A438607BA43840DAA438F00FA438431AA438F021A438D718A438617BA4381000A4381A41A4381000A4381AD1A438D718A438608EA438D73EA4385F34"%string;
    "A438F020A438F053A4381000A4381A41A4381000A4381AD1A438D718A438608EA438D73EA4385F34A438F023A438F067A4381000A4381A41A4381000A4381AD1"%string;
    "A438D718A438608EA438D73EA4385F34A438F026A438F07BA4381000A4381A41A4381000A4381AD1A438D718A438608EA438D73EA4385F34A438F029A438F08F"%string;
    "A4381000A4388173A4381000A4381A41A438D73EA4387FB4A4381000A4388188A4381000A4381A41A438D718A4385FAEA438F028A4381000A4388173A4381000"%string;
    "A4381A41A438D73EA4387FB4A4381000A4388188A4381000A4381A41A438D718A4385FAEA438F039A4381000A4388173A4381000A4381A41A438D73EA4387FB4"%string;
    "A4381000A4388188A4381000A4381A41A438D718A4385FAEA438F04AA4381000A4388173A4381000A4381A41A438D73EA4387FB4A4381000A4388188A4381000"%string;
    "A4381A41A438D718A4385FAEA438F05BA438D719A4384119A438D504A438AC01A438AE01A438D500A4381000A4381A2FA438F00AA438D719A4384118A438D504"%string;
    "A438AC11A438D501A438CE01A438A410A438CE00A438D500A4381000A4381A41A438D718A4385FB0A438D505A438D719A4384079A438A80FA438F05DA4384B98"%string;
    "A438A808A438F05AA438D719A4384119A438D504A438AC02A438AE01A438D500A4381000A4381A2FA438F00AA438D719A4384118A438D504A438AC22A438D501"%string;
    "A438CE01A438A420A438CE00A438D500A4381000A4381A41A438D718A4385FB0A438D505A438D719A4384079A438A80FA438F03FA43847D8A438A804A438F03C"%string;
    "A438D719A4384119A438D504A438AC04A438AE01A438D500A4381000A4381A2FA438F00AA438D719A4384118A438D504A438AC44A438D501A438CE01A438A440"%string;
    "A438CE00A438D500A4381000A4381A41A438D718A4385FB0A438D505A438D719A4384079A438A80FA438F021A4384418A438A802A438F01EA438D719A4384119"%string;
    "A438D504A438AC08A438AE01A438D500A4381000A4381A2FA438F00AA438D719A4384118A438D504A438AC88A438D501A438CE01A438A480A438CE00A438D500"%string;
    "A4381000A4381A41A438D718A4385FB0A438D505A438D719A4384079A438A80FA438F003A4384058A438A801A4381800A43816EDA438D73EA438D505A4383088"%string;
    "A438817AA4386193A4386132A43860D1A4383298A4388185A438F00AA438A808A438F008A438A804A438F006A438A802A438F004A438A801A438F002A438A80F"%string;
    "A438D500A4380800A438D505A438D75EA4386211A438D71EA438619BA438611AA4386099A4380C0FA4380808A438F009A4380C0FA4380804A438F006A4380C0F"%string;
    "A4380802A438F003A4380C0FA4380801A438D500A4380800A438D500A438C48DA438D504A4388D03A438D701A4384045A438AD02A438D504A438D706A4382529"%string;
    "A43881ADA438D718A438607BA43840DAA438F013A438441AA438F02DA438D718A43861FBA438BB01A438D75EA4386171A4380CF0A4380C10A438D501A438CE01"%string;
    "A4380CF0A4380410A438CE00A438D505A4380C0FA4380808A438F02AA438BB02A438D75EA4386171A4380CF0A4380C20A438D501A438CE01A4380CF0A4380420"%string;
    "A438CE00A438D505A4380C0FA4380804A438F01CA438BB04A438D75EA4386171A4380CF0A4380C40A438D501A438CE01A4380CF0A4380440A438CE00A438D505"%string;
    "A4380C0FA4380802A438F00EA438BB08A438D75EA4386171A4380CF0A4380C80A438D501A438CE01A4380CF0A4380480A438CE00A438D505A4380C0FA4380801"%string;
    "A438D500A4381800A4381616A436A026A438FFFFA436A024A43815D8A436A022A438161FA436A020A43814F2A436A006A4381C4FA436A004A4381433A436A002"%string;
    "A43813C1A436A000A4382020A436A008A4387F00A436A016A4380000A436A012A43807F8A436A014A438D04DA4388904A438813CA438A13DA438CC01A4380000"%string;
    "A4380000A4380000A436A152A4381384A436A154A4381FA8A436A156A438218BA436A158A43821B8A436A15AA438021CA436A15CA4383FFFA436A15EA4383FFF"%string;
    "A436A160A4383FFFA436A150A438001FA436A016A4380010A436A012A4380000A436A014A4381800A4388010A4381800A4388013A4381800A438803AA4381800"%string;
    "A4388045A4381800A4388049A4381800A438804DA4381800A4388059A4381800A438805DA438C2FFA4381800A4380042A4381000A43802E5A4381000A43802B4"%string;
    "A438D701A43840E3A438D700A4385F6CA4381000A4388021A4381800A4380073A4381800A4380084A438D701A4384061A438BA0FA438F004A4384060A4381000"%string;
    "A438802AA438BA10A4380800A438D700A43860BBA438611CA4380C0FA4381A01A438F00AA43860FCA4380C0FA4381A02A438F006A4380C0FA4381A04A438F003"%string;
    "A4380C0FA4381A08A4380800A4380C0FA4380504A438AD02A4381000A43802C0A438D700A4385FACA4381000A4388021A4381800A4380139A4389A1FA4388BF0"%string;
    "A4381800A43802DFA4389A1FA4389910A4381800A43802D7A438AD02A4388D01A4389A1FA4389910A4389860A438CB00A438D501A438CE01A43885F0A438D500"%string;
    "A4381800A438015CA4388580A4388D02A4381800A438018FA4380C0FA4380503A438AD02A4381800A43800DDA436A08EA43800DBA436A08CA438018EA436A08A"%string;
    "A438015AA436A088A43802D6A436A086A43802DEA436A084A4380137A436A082A4380071A436A080A4380041A436A090A43800FFA436A016A4380020A436A012"%string;
    "A4381FF8A436A014A438001CA438CE15A438D105A438A410A4388320A438FFD7A4380000A4380000A436A164A4380260A436A166A4380ADDA436A168A43805CC"%string;
    "A436A16AA43805C5A436A16CA4380429A436A16EA43807B6A436A170A4380259A436A172A4383FFFA436A162A438003FA436A016A4380020A436A012A4380000"%string;
    "A436A014A4381800A4388010A4381800A4388023A4381800A438814CA4381800A4388156A4381800A438815EA4381800A4388210A4381800A4388221A4381800"%string;
    "A438822FA438A801A4389308A438B201A438B301A438D701A4384000A438D2FFA438B302A438D200A438B201A438B309A438D701A4384000A438D2FFA438B302"%string;
    "A438D200A438A800A4381800A4380031A438D700A4384543A438D71FA43840FEA438D1B7A438D049A4381000A438109EA438D700A4385FBBA438A220A4388501"%string;
    "A4380C03A4381502A4380C70A4380B00A4380C07A4380604A4389503A438A510A438CE49A4381000A43810BEA4388520A438A520A438A501A438D105A438D047"%string;
    "A4381000A438109EA438D707A4386087A438D700A4385F7BA438FFE9A4381000A438109EA4388501A438D707A4385E08A4388530A438BA20A438F00CA438D700"%string;
    "A4384098A438D1EFA438D047A438F003A438D1DBA438D040A4381000A438109EA438D700A4385FBBA4388980A438D702A4386126A438D704A4384063A438D702"%string;
    "A4386060A438D702A4386077A4388410A438F002A438A410A438CE02A4381000A43810BEA438CD81A438D412A4381000A4381069A438CD82A438D40EA4381000"%string;
    "A4381069A438CD83A4381000A438109EA438D71FA4385FB4A438D702A4386C26A438D704A4384063A438D702A4386060A438D702A4386B77A438A340A4380C06"%string;
    "A4380102A438CE01A4381000A43810BEA438A240A438A902A438A204A438A280A438A364A438AB02A4388380A438A00AA438CD8DA4381000A438109EA438D706"%string;
    "A4385FB5A438B920A4381000A438109EA438D71FA4387FB4A4389920A4381000A438109EA438D71FA4386065A4387C74A438FFFBA438B820A4381000A438109E"%string;
    "A438D71FA4387FA5A4389820A438A410A4388902A438A120A438A380A438CE02A4381000A43810BEA4388280A438A324A438AB02A438A00AA4388118A438863F"%string;
    "A43887FBA438CD8EA438D193A438D047A4381000A438109EA4381000A43810A3A438D700A4385F7BA438A280A4381000A438109EA4381000A43810A3A438D706"%string;
    "A4385F78A438A210A438D700A4386083A438D101A438D047A438F003A438D160A438D04BA4381000A438109EA4381000A43810A3A438D700A4385F7BA4381000"%string;
    "A438109EA4381000A43810A3A438D706A4385F79A4388120A438BB20A438F04CA438A00AA438A340A4380C06A4380102A438A240A438A290A438A324A438AB02"%string;
    "A438D13EA438D05AA438D13EA438D06BA438CD84A4381000A438109EA438D706A4386079A438D700A4385F5CA438CD8AA4381000A438109EA438D706A4386079"%string;
    "A438D700A4385F5DA438CD8BA4381000A438109EA438CD8CA438D700A4386050A438AB04A438D700A4384083A438D160A438D04BA438F003A438D193A438D047"%string;
    "A4381000A438109EA438D700A4385FBBA4381000A438109EA4388410A438D71FA4385F94A438B920A4381000A438109EA438D71FA4387FB4A4389920A4381000"%string;
    "A438109EA438D71FA4386105A4386054A438FFFBA4381000A438109EA438D706A4385FB9A438FFF0A438A410A438B820A438CD85A4381000A438109EA438D71F"%string;
    "A4387FA5A4389820A438BB20A438D105A438D042A4381000A438109EA438D706A4385FBBA4385F85A438D700A4385F5BA438D700A4386090A438D700A4384043"%string;
    "A438AA20A438CD86A438D700A4386083A438D1C7A438D045A438F003A438D17AA438D04BA4381000A438109EA438D700A4385FBBA4380C18A4380108A4380C3F"%string;
    "A4380609A4380CFBA4380729A438A308A4388320A438D105A438D042A4381000A438109EA438D700A4385FBBA4381800A43808F7A4381000A438109EA4381000"%string;
    "A43810A3A438D700A438607BA438D700A4385F2BA4381800A4380A81A438D700A43840BDA438D707A4384065A4381800A4381121A4381800A4381124A4380C03"%string;
    "A4381502A4388F80A4389503A438D705A438641DA438D704A43862B2A438D702A4384116A438CE15A4381000A43810BEA4380C03A4381502A4388F40A4389503"%string;
    "A438A00AA438D704A4384247A438D700A4383691A4388183A4380C03A4381502A438A570A4389503A438F00AA4380C03A4381502A438AF40A4389503A438800A"%string;
    "A4380C03A4381502A4388570A4389503A4381000A438109EA4381000A4381108A438CD64A438D704A4383398A4388203A438D71FA438620EA438D704A4386096"%string;
    "A438D705A4386051A438F004A438D705A438605DA438F008A438D706A438609DA438D705A438405FA438F003A438D700A43858FBA4380C03A4381502A438C7AA"%string;
    "A4389503A438D71FA4386D2EA438D704A4386096A438D705A4386051A438F005A438D705A438607DA4381800A4380CC7A438D706A43860BDA438D705A438407F"%string;
    "A4381800A4380E42A438D702A43840A4A4380C03A4381502A4388E20A4389503A438D702A43840A5A4380C03A4381502A4388E40A4389503A438D705A438659D"%string;
    "A438D704A43862B2A438D702A4384116A438CE15A4381000A43810BEA4380C03A4381502A4388F40A4389503A438A00AA438D704A4384247A438D700A4383691"%string;
    "A43881DEA4380C03A4381502A438A570A4389503A438F00AA4380C03A4381502A438AF40A4389503A438800AA4380C03A4381502A4388570A4389503A438D706"%string;
    "A43860E4A4380C03A4381502A4380CF0A43807A0A4389503A438F005A4380C03A4381502A43887F0A4389503A4381000A438109EA4381000A4381108A438CD61"%string;
    "A438D704A4383398A4388203A438D704A4386096A438D705A4386051A438F005A438D705A438607DA4381800A4380CC7A438D71FA43861CEA438D706A438767D"%string;
    "A438D705A438563FA4381800A4380E42A438800AA4380C03A4381502A438AE40A4389503A4381800A4380C47A4380C03A4381502A438AF80A4389503A4381800"%string;
    "A4380B5FA438607CA4381800A438027AA4380C03A4381502A438AE01A4389503A4381000A438109EA438D702A4385FA3A4380C03A4381502A4388E01A4389503"%string;
    "A4381800A438027DA4381000A43810BEA438D702A43840A5A4380C03A4381502A4388E40A4389503A438D73EA4386065A4381800A4380CEAA4381800A4380CF4"%string;
    "A438D701A4386FD1A438D71FA4386EEEA438D707A4384D0FA438D73EA4384CC5A438D705A4384C99A438D704A4386C57A438D702A4386C11A4380C03A4381502"%string;
    "A4388C20A438A608A4389503A438A201A438A804A438D704A43840A7A4380C03A4381502A438A620A4389503A4380C03A4381502A438AC40A4389503A438800A"%string;
    "A4388290A4388306A4388B02A4380C03A4381502A4388570A4389503A438CE00A4381000A43810BEA438CD99A4381000A438109EA4381000A43810CCA438D701"%string;
    "A43869F1A438D71FA438690EA438D73EA4385EE6A4380C03A4381502A43887F0A4389503A438CE46A4381000A43810BEA438A00AA438D704A43840A7A4380C03"%string;
    "A4381502A438A570A4389503A438CD9AA438D700A4386078A438D700A438609AA438D109A438D074A438F003A438D109A438D075A4381000A438109EA4381000"%string;
    "A43810CCA438D701A43865B1A438D71FA43864CEA438D700A4385EFEA438CE00A4381000A43810BEA4380C03A4381502A4388608A4388C40A4389503A4388201"%string;
    "A438800AA4388290A4388306A4388B02A4380C03A4381502A438C7AAA4388570A4388D08A4389503A438CD9BA4381800A4380C8BA4381000A438109EA438D705"%string;
    "A43861D9A438D704A4384193A438800AA4380C03A4381502A438AE40A4389503A4381800A4380C47A4381800A4380DF8A4381800A4388339A4380800A4380C03"%string;
    "A4381502A4388D08A4388F02A4388C40A4389503A4388201A438A804A438D704A43840A7A4380C03A4381502A438A620A4389503A438800AA4388290A4388306"%string;
    "A4388B02A4388010A4380C03A4381502A4388570A4389503A438AA03A4380C03A4381502A438AC20A438A608A4389503A438CE00A4381000A43810BEA438CD95"%string;
    "A4381000A438109EA438D701A4387B91A438D71FA4387AAEA438D701A4387AB0A438D704A4387EF3A438D701A4385EB3A43884B0A4380C03A4381502A438A608"%string;
    "A438C700A4389503A438CE54A4381000A43810BEA438A290A438A304A438AB02A438D700A4386050A438AB04A4380C38A4380608A438AA0BA4380C03A4381502"%string;
    "A4388D01A4380C03A4381502A438AE40A4389503A438D702A43840A4A4380C03A4381502A4388E20A4389503A4380C03A4381502A4388C20A4389503A438D700"%string;
    "A4386078A438D700A438609AA438D109A438D074A438F003A438D109A438D075A438D704A43862B2A438D702A4384116A438CE54A4381000A43810BEA4380C03"%string;
    "A4381502A4388F40A4389503A438A00AA438D704A4384247A438D700A4383691A4388326A4380C03A4381502A438A570A4389503A438F00AA4380C03A4381502"%string;
    "A438AF40A4389503A438800AA4380C03A4381502A4388570A4389503A4381000A438109EA438D704A43860F3A438D71FA438618EA438D700A4385B5EA4381800"%string;
    "A4380DEBA438800AA4380C03A4381502A438AE40A4389503A4381800A4380C47A4381800A4380DF8A4380C03A4381502A4388608A4389503A4381800A4380E2B"%string;
    "A436A10EA4380D14A436A10CA4380CE8A436A10AA4380279A436A108A4380B19A436A106A438111FA436A104A4380A7BA436A102A4380BA3A436A100A4380022"%string;
    "A436A110A43800FFA436B87CA438859BA436B87EA438AF85A438B3AFA438863BA438AF86A4384CAFA4388688A438AF86A438CEAFA4388744A438AF87A43868AF"%string;
    "A4388781A438BF5EA4387202A4385F7EA438AC28A43868E1A43884E6A438AD28A43809BFA4385E75A438025FA4387EACA4382D59A438E18FA438EBADA4382809"%string;
    "A438BF5EA4387502A4385F7EA438AC2EA43850E1A43884E6A438AC28A43808BFA438873EA438025FA4383CAEA43806BFA438873EA438025FA43833BFA4388741"%string;
    "A438025FA43833EEA4388FEAA43802E1A43884E4A438AD28A43814E1A4388FE8A438AD28A43817E1A43884E5A43811E5A43884E5A438A10CA43804EEA43884E5"%string;
    "A4380002A4384977A438EE84A438DC03A438AE1DA438E18FA438E811A438E58FA438E8AEA43814BFA438873EA438025FA4383CBFA4388741A438025FA4383CEE"%string;
    "A4388FEAA43801EEA43884E4A43800AFA43850C1A4381F00A438BF5AA4386102A4385F5FA438BF5AA4385E02A4385F3CA438AF45A4387BE0A4388012A438AD23"%string;
    "A438141FA438001FA43822D1A43800BFA4383FCFA4380261A4383412A438A204A438F6EEA4388317A43800E0A4388012A438AD24A438141FA438001FA43822D1"%string;
    "A43800BFA4383FD7A4380261A4383412A438A204A438F6EEA4388317A43800EFA43896FEA438FDFCA438AF42A4389802A43856ECA438F70BA438AC13A4380FBF"%string;
    "A4385E75A438025FA4387EACA438280CA438E2FFA438CFADA43832EEA4380257A43805AFA43800A4A4380286A438AAAEA438EFF8A438F9EFA4385902A4381FE1"%string;
    "A438BF59A4384D02A4385F3CA438AC13A43809BFA4385E75A438025FA4387EA1A43800F4A438BF59A4384D02A4385F33A438EF95A438FDFCA43804BFA4385E72"%string;
    "A438025FA4387EACA438284AA438E184A438E6ADA4382809A438BF5EA4387502A4385F7EA438AC2DA4383BE1A4388FEBA438AD28A43809BFA4385E75A438025F"%string;
    "A4387EACA4382E32A438E184A438E6ACA4382808A438BF87A4383E02A4385F3CA438AE06A438BF87A4383E02A4385F33A438BF87A4384102A4385F33A438EE8F"%string;
    "A438EA04A438BF5EA4384E02A4385F7EA438AD28A4381F02A4384B12A438AE1AA438BF87A4383E02A4385F3CA438BF87A4384102A4385F3CA438EE8FA438EA03"%string;
    "A438BF5EA4382A02A4385F33A438EE84A438E701A438AF4AA4387444A438AC0EA43855ACA4380EBFA4385E75A438025FA4387EADA4382D0BA438BF5EA43836E1"%string;
    "A4388FE9A438025FA4385FAEA43809BFA4385E36A438E184A438E102A4385F5FA438EE8FA438E800A438AF49A438CDBFA438595CA438025FA4387EA1A4380203"%string;
    "A438AF87A43879D1A43800AFA438877CA438E181A438941FA43800AFA4383FF7A438AC4EA43806ACA4384003A438AF24A43897AFA4382467A436B85EA4385082"%string;
    "A436B860A4384575A436B862A438425FA436B864A4380096A436B886A4384A44A436B888A43849C4A436B88AA4383FF2A436B88CA438245CA436B838A43800FF"%string;
    "B8200010A436843DA438AF84A438A6AFA4388540A438AF85A438AEAFA43885B5A438AF87A4387DAFA4388784A438AF87A43887AFA43887E5A4380066A4380A03"%string;
    "A4386607A4382666A4381C00A438660DA4380166A4381004A4386616A4380566A4381F06A4386A5DA4382766A4381900A4386625A4382466A4382820A438662B"%string;
    "A4382466A4384600A438664CA4380166A4384902A4388861A4380388A4385E05A438886DA4380588A4387005A4388873A4380588A4387605A4388879A4380588"%string;
    "A4387C05A438887FA4380588A4388205A4388885A4380588A438881EA43813ADA4382841A438BF64A438F102A4386B9DA438AD28A43803AFA43815FCA438BF65"%string;
    "A438CB02A4386B9DA4380D11A438F62FA438EF31A438D202A438BF88A4386402A4386B52A438E082A438020DA43801F6A438271BA43803AAA4380182A438E082"%string;
    "A438010DA43801F6A438271BA43803AAA4380782A438BF88A4386402A4386B5BA438AF15A438F9BFA43865CBA438026BA4389D0DA43811F6A4382FEFA43831E0"%string;
    "A4388FF7A4380D01A438F627A4381B03A438AA20A438E18FA438F4D0A43800BFA4386587A438026BA4387EE1A4388FF5A438BF65A4388A02A4386B7EA438E18F"%string;
    "A438F6BFA4386584A438026BA4387EAFA43815FCA438E18FA438F1D0A43800BFA4386587A438026BA4387EE1A4388FF2A438BF65A4388A02A4386B7EA438E18F"%string;
    "A438F3BFA4386584A438AF15A438FCD1A43807BFA43865CEA438026BA4387ED1A4380CBFA43865D1A438026BA4387ED1A43803BFA438885EA438026BA4387ED1"%string;
    "A43805BFA4388867A438026BA4387ED1A43807BFA438886AA438026BA4387EBFA4386A6CA438026BA4385B02A43862B5A438BF6AA4380002A4386B5BA438BF64"%string;
    "A4384E02A4386B9DA438AC28A4380BBFA4386412A438026BA4389DA1A4380502A438AEECA438D104A438BF65A438CE02A4386B7EA438D104A438BF65A438D102"%string;
    "A4386B7EA438D102A438BF88A4386702A4386B7EA438D104A438BF88A4386A02A4386B7EA438AF62A43872F6A4380AF6A43809AFA43834E3A4380285A438BE02"%string;
    "A438106CA438AF10A4386BF8A438FAEFA43869E0A438804CA438AC25A43817E0A4388040A438AD25A4381A02A43885EDA438E080A43840ACA4382511A438BF87"%string;
    "A4386502A4386B5BA438AE09A4380287A4382402A438875AA4380287A4384FEFA43896FEA438FC04A438F8E0A4388019A438AD20A43811E0A4388FE3A438AC20"%string;
    "A4380502A438860AA438AE03A4380286A4387802A43886C1A4380287A4384FFCA43804F8A438F9EFA43879FBA438BF87A4386802A4386B9DA4385C20A438000D"%string;
    "A4384DA1A4380151A438BF87A4386802A4386B9DA4385C07A438FFE3A4388FE4A4381B31A4389F41A4380D48A438E38FA438E51BA438319FA43838BFA438876B"%string;
    "A438026BA4389D5CA43807FFA438E38FA438E61BA438319FA438280DA43848E3A4388FE7A4381B31A4389F1FA438BF87A4386E02A4386B9DA4385C07A438FFE3"%string;
    "A4388FE8A4381B31A4389F0FA4380D48A438E38FA438E91BA438319FA43806EEA4388FE3A43801AEA43804EEA4388FE3A43800FFA438EF97A438FDFCA43804F8"%string;
    "A438F9EFA43879FBA438BF87A4386802A4386B9DA4385C20A438000DA4384DA1A4380020A438BF87A4386802A4386B9DA4385C06A438000DA43849E3A4388FEA"%string;
    "A4381B31A4389F0EA438BF87A4387102A4386B5BA438BF87A4387702A4386B5BA438AE0CA438BF87A4387102A4386B52A438BF87A4387702A4386B52A438EE8F"%string;
    "A438E300A438FFEFA43897FDA438FC04A438F8F9A438EF79A438FBBFA4388768A438026BA4389D5CA4382000A4380D4DA438A101A4384ABFA4388768A438026B"%string;
    "A4389D5CA43807FFA438E38FA438EB1BA438319FA4383A0DA43848E3A4388FECA4381B31A4389F31A438BF87A4386B02A4386B9DA438E38FA438ED1BA438319F"%string;
    "A438240DA43848E3A4388FEEA4381B31A4389F1BA438BF87A4386E02A4386B9DA438E38FA438EF1BA438319FA4380EBFA4388774A438026BA4385BBFA438877A"%string;
    "A438026BA4385BAEA43800FFA438EF97A438FDFCA43804F8A438EF79A438FBE0A4388019A438AD20A4381CEEA4388FE3A43800BFA4388771A438026BA43852BF"%string;
    "A4388777A438026BA43852BFA4388774A438026BA43852BFA438877AA438026BA43852FFA438EF97A438FC04A438F8E0A4388040A438F625A438E480A43840FC"%string;
    "A43804F8A438E080A4384CF6A43825E4A438804CA438FC04A43855A4A438BAF0A438A64AA438F0A6A4384CF0A438A64EA43866A4A438B655A438A4B6A43800AC"%string;
    "A4380E66A438AC0EA438EE80A4384C3AA438AF07A438D0AFA43826D0A438A201A4380EBFA438663DA438026BA43852BFA4386643A438026BA43852AEA43811BF"%string;
    "A4386643A438026BA4385BD4A4380054A438B4FEA438BF66A4383D02A4386B5BA438D300A438020DA438F6A2A4380405A438E081A43847AEA43803E0A4388148"%string;
    "A438AC23A43802AEA4380268A438F01AA43810ADA4382F04A438D100A438AE05A438AD2CA43802D1A4380F1FA43800A2A4380407A4383908A438AD2FA43802D1"%string;
    "A4380002A4380E1CA4382B01A438AD3AA438C9AFA4380DEEA438A000A4382702A4381BEBA438E18FA438E1ACA4382819A438EE8FA438E101A4381F44A438BF65"%string;
    "A4389302A4386B9DA438E58FA438E21FA43844D1A43802BFA4386593A438026BA4387EE0A43882B1A438AE49A438A001A4380502A4381C4DA438AE41A438A002"%string;
    "A4380502A4381C90A438AE39A438A003A4380502A4381C9DA438AE31A438A004A4380502A4381CBCA438AE29A438A005A4381E02A4381CC9A438E080A438DFAC"%string;
    "A4382013A438AC21A43810ACA438220DA438E18FA438E2BFA4386593A438026BA4387EEEA4388FE1A43800AEA43808A0A4380605A438021DA43807AEA43800E0"%string;
    "A43882B1A438AF1BA438E910A438BF4AA43899BFA4384A00A438A86AA438FDADA4385ECAA438AD5EA43888BDA4382C99A438BD2CA43833BDA4383222A438BD32"%string;
    "A43811BDA4383200A438BD32A43877BDA4383266A438BD32A43855BDA4383244A438BD32A436B818A43815C5A436B81AA4386255A436B81CA43834E1A436B81E"%string;
    "A4381068A436B850A43807CCA436B852A43826CAA436B878A4380DBFA436B884A4381BB1A436B832A43800FFA4360000A4380000B82E0000A4368023A4380000"%string;
    "A436801EA4380031B8200000FFFFFFFF"%string
  ]).

(** The array, 252 words. *)
Definition phy_mcu_ram_code_8125d_1_2 : list Z :=
  hex_words (String.concat EmptyString [
    "B8920000B88EC28FB890252DB88EC290B890C924B88EC291B890C92EB88EC292B890F626B88EC293B890F630B88EC294B890A328B88EC295B890A332B88EC296"%string;
    "B890D72BB88EC297B890D735B88EC298B8908A2EB88EC299B8908A38B88EC29AB890BE32B88EC29BB890BE3CB88EC29CB8907436B88EC29DB8907440B88EC29E"%string;
    "B890AD3BB88EC29FB890AD45B88EC2A0B8906640B88EC2A1B890664AB88EC2A2B890A646B88EC2A3B890A650B88EC2A4B890624CB88EC2A5B8906256B88EC2A6"%string;
    "B890A453B88EC2A7B890A45DB88EC2A8B890665AB88EC2A9B8906664B88EC2AAB890AC62B88EC2ABB890AC6CB88EC2ACB890746AB88EC2ADB8907474B88EC2AE"%string;
    "B890BCFAB88EC2AFB890BCFDB88EC2B0B89079FFB88EC2B1B8907901B88EC2B2B890F703B88EC2B3B890F706B88EC2B4B8907408B88EC2B5B890740AB88EC2B6"%string;
    "B890F10CB88EC2B7B890F10FB88EC2B8B8906F10B88EC2B9B8906F13B88EC2BAB890EC15B88EC2BBB890EC18B88EC2BCB8906A1AB88EC2BDB8906A1CB88EC2BE"%string;
    "B890E71EB88EC2BFB890E721B88EC2C0B8906424B88EC2C1B8906425B88EC2C2B890E228B88EC2C3B890E22AB88EC2C4B8905F2BB88EC2C5B8905F2EB88EC2C6"%string;
    "B890DC31B88EC2C7B890DC33B88EC2C8B8902035B88EC2C9B8902036B88EC2CAB8909F3AB88EC2CBB8909F3AB88EC2CCB8904430FFFFFFFF"%string
  ]).

(** The array, 1428 words. *)
Definition phy_mcu_ram_code_8125d_1_3 : list Z :=
  hex_words (String.concat EmptyString [
    "A436ACCAA4380104A436ACCCA4388000A436ACCEA438FFFFA436ACD0A4380FFFA436ACCEA438FD47A436ACD0A4380FFFA436ACCEA438FFFFA436ACD0A43807FF"%string;
    "A436ACCEA438E56FA436ACD0A43801C0A436ACCEA438FFFFA436ACD0A43807FFA436ACCEA438ED97A436ACD0A43801C8A436ACCEA438FFFFA436ACD0A43807FF"%string;
    "A436ACCEA438F5BFA436ACD0A43801D0A436ACCEA438FB07A436ACD0A43807FFA436ACCEA438FB0FA436ACD0A43801D8A436ACCEA438A087A436ACD0A4380180"%string;
    "A436ACCEA438A00FA436ACD0A4380108A436ACCEA438A807A436ACD0A4380100A436ACCEA438A88FA436ACD0A4380188A436ACCEA438B027A436ACD0A4380120"%string;
    "A436ACCEA438B02FA436ACD0A4380128A436ACCEA438B847A436ACD0A4380140A436ACCEA438B84FA436ACD0A4380148A436ACCEA438FB17A436ACD0A43807FF"%string;
    "A436ACCEA438FB1FA436ACD0A43807FFA436ACCEA438A017A436ACD0A4380110A436ACCEA438A01FA436ACD0A4380118A436ACCEA438A837A436ACD0A4380130"%string;
    "A436ACCEA438A83FA436ACD0A4380138A436ACCEA438B097A436ACD0A4380190A436ACCEA438B05FA436ACD0A4380158A436ACCEA438B857A436ACD0A4380150"%string;
    "A436ACCEA438B89FA436ACD0A4380198A436ACCEA438FB27A436ACD0A43807FFA436ACCEA438FB2FA436ACD0A43807FFA436ACCEA4388087A436ACD0A4380180"%string;
    "A436ACCEA438800FA436ACD0A4380108A436ACCEA4388807A436ACD0A4380100A436ACCEA438888FA436ACD0A4380188A436ACCEA4389027A436ACD0A4380120"%string;
    "A436ACCEA438902FA436ACD0A4380128A436ACCEA4389847A436ACD0A4380140A436ACCEA438984FA436ACD0A4380148A436ACCEA438A0A7A436ACD0A43801A0"%string;
    "A436ACCEA438A8AFA436ACD0A43801A8A436ACCEA438A067A436ACD0A4380161A436ACCEA438A86FA436ACD0A4380169A436ACCEA438FB37A436ACD0A43807FF"%string;
    "A436ACCEA438FB3FA436ACD0A43807FFA436ACCEA4388017A436ACD0A4380110A436ACCEA438801FA436ACD0A4380118A436ACCEA4388837A436ACD0A4380130"%string;
    "A436ACCEA438883FA436ACD0A4380138A436ACCEA4389097A436ACD0A4380190A436ACCEA438905FA436ACD0A4380158A436ACCEA4389857A436ACD0A4380150"%string;
    "A436ACCEA438989FA436ACD0A4380198A436ACCEA438B0B7A436ACD0A43801B0A436ACCEA438B8BFA436ACD0A43801B8A436ACCEA438B077A436ACD0A4380171"%string;
    "A436ACCEA438B87FA436ACD0A4380179A436ACCEA438FB47A436ACD0A43807FFA436ACCEA438FB4FA436ACD0A43807FFA436ACCEA4386087A436ACD0A4380180"%string;
    "A436ACCEA438600FA436ACD0A4380108A436ACCEA4386807A436ACD0A4380100A436ACCEA438688FA436ACD0A4380188A436ACCEA4387027A436ACD0A4380120"%string;
    "A436ACCEA438702FA436ACD0A4380128A436ACCEA4387847A436ACD0A4380140A436ACCEA438784FA436ACD0A4380148A436ACCEA43880A7A436ACD0A43801A0"%string;
    "A436ACCEA43888AFA436ACD0A43801A8A436ACCEA4388067A436ACD0A4380161A436ACCEA438886FA436ACD0A4380169A436ACCEA438FB57A436ACD0A43807FF"%string;
    "A436ACCEA438FB5FA436ACD0A43807FFA436ACCEA4386017A436ACD0A4380110A436ACCEA438601FA436ACD0A4380118A436ACCEA4386837A436ACD0A4380130"%string;
    "A436ACCEA438683FA436ACD0A4380138A436ACCEA4387097A436ACD0A4380190A436ACCEA438705FA436ACD0A4380158A436ACCEA4387857A436ACD0A4380150"%string;
    "A436ACCEA438789FA436ACD0A4380198A436ACCEA43890B7A436ACD0A43801B0A436ACCEA43898BFA436ACD0A43801B8A436ACCEA4389077A436ACD0A4380171"%string;
    "A436ACCEA438987FA436ACD0A4380179A436ACCEA438FB67A436ACD0A43807FFA436ACCEA438FB6FA436ACD0A43807FFA436ACCEA4384087A436ACD0A4380180"%string;
    "A436ACCEA438400FA436ACD0A4380108A436ACCEA4384807A436ACD0A4380100A436ACCEA438488FA436ACD0A4380188A436ACCEA4385027A436ACD0A4380120"%string;
    "A436ACCEA438502FA436ACD0A4380128A436ACCEA4385847A436ACD0A4380140A436ACCEA438584FA436ACD0A4380148A436ACCEA43860A7A436ACD0A43801A0"%string;
    "A436ACCEA43868AFA436ACD0A43801A8A436ACCEA4386067A436ACD0A4380161A436ACCEA438686FA436ACD0A4380169A436ACCEA438FB77A436ACD0A43807FF"%string;
    "A436ACCEA438FB7FA436ACD0A43807FFA436ACCEA4384017A436ACD0A4380110A436ACCEA438401FA436ACD0A4380118A436ACCEA4384837A436ACD0A4380130"%string;
    "A436ACCEA438483FA436ACD0A4380138A436ACCEA4385097A436ACD0A4380190A436ACCEA438505FA436ACD0A4380158A436ACCEA4385857A436ACD0A4380150"%string;
    "A436ACCEA438589FA436ACD0A4380198A436ACCEA43870B7A436ACD0A43801B0A436ACCEA43878BFA436ACD0A43801B8A436ACCEA4387077A436ACD0A4380171"%string;
    "A436ACCEA438787FA436ACD0A4380179A436ACCEA438FB87A436ACD0A43807FFA436ACCEA438FB8FA436ACD0A43807FFA436ACCEA43840A7A436ACD0A43801A0"%string;
    "A436ACCEA43848AFA436ACD0A43801A8A436ACCEA4384067A436ACD0A4380161A436ACCEA438486FA436ACD0A4380169A436ACCEA438FB97A436ACD0A43807FF"%string;
    "A436ACCEA438FB9FA436ACD0A43807FFA436ACCEA43850B7A436ACD0A43801B0A436ACCEA43858BFA436ACD0A43801B8A436ACCEA4385077A436ACD0A4380171"%string;
    "A436ACCEA438587FA436ACD0A4380179A436ACCEA438FBA7A436ACD0A43807FFA436ACCEA438FBAFA436ACD0A43807FFA436ACCEA4382067A436ACD0A4380161"%string;
    "A436ACCEA438286FA436ACD0A4380169A436ACCEA438FBB7A436ACD0A43807FFA436ACCEA438FBBFA436ACD0A43807FFA436ACCEA4383077A436ACD0A4380171"%string;
    "A436ACCEA438387FA436ACD0A4380179A436ACCEA438FFF9A436ACD0A43817FFA436ACCEA438FFF9A436ACD0A43817FFA436ACCEA438FFFFA436ACD0A4380FFF"%string;
    "A436ACCEA438FFF8A436ACD0A4380FFFA436ACCEA438FFFFA436ACD0A43807FFA436ACCEA438FFFFA436ACD0A43807FFA436ACCEA438FFFFA436ACD0A43807FF"%string;
    "A436ACCEA438FFFFA436ACD0A43807FFA436ACCEA438FFFFA436ACD0A43807FFA436ACCEA438FFFFA436ACD0A43807FFA436ACCEA438FFFFA436ACD0A43807FF"%string;
    "A436ACCEA438FFFFA436ACD0A43807FFA436ACCEA438FFFFA436ACD0A43807FFA436ACCEA438FFFFA436ACD0A43807FFA436ACCEA438FB47A436ACD0A43807FF"%string;
    "A436ACCEA438FB4FA436ACD0A43807FFA436ACCEA4386087A436ACD0A4380180A436ACCEA438600FA436ACD0A4380108A436ACCEA4386807A436ACD0A4380100"%string;
    "A436ACCEA438688FA436ACD0A4380188A436ACCEA4387027A436ACD0A4380120A436ACCEA438702FA436ACD0A4380128A436ACCEA4387847A436ACD0A4380140"%string;
    "A436ACCEA438784FA436ACD0A4380148A436ACCEA43880A7A436ACD0A43801A0A436ACCEA43888AFA436ACD0A43801A8A436ACCEA4388067A436ACD0A4380161"%string;
    "A436ACCEA438886FA436ACD0A4380169A436ACCEA438FB57A436ACD0A43807FFA436ACCEA438FB5FA436ACD0A43807FFA436ACCEA4386017A436ACD0A4380110"%string;
    "A436ACCEA438601FA436ACD0A4380118A436ACCEA4386837A436ACD0A4380130A436ACCEA438683FA436ACD0A4380138A436ACCEA4387097A436ACD0A4380190"%string;
    "A436ACCEA438705FA436ACD0A4380158A436ACCEA4387857A436ACD0A4380150A436ACCEA438789FA436ACD0A4380198A436ACCEA43890B7A436ACD0A43801B0"%string;
    "A436ACCEA43898BFA436ACD0A43801B8A436ACCEA4389077A436ACD0A4381171A436ACCEA438987FA436ACD0A4381179A436ACCAA4380004A436ACC6A4380008"%string;
    "A436ACC8A438C000A436ACC6A4380015A436ACC8A438C043A436ACC8A4380000B8200000FFFFFFFF"%string
  ]).

(** The array, 94 words. *)
Definition phy_mcu_ram_code_8125d_1_efuse : list Z :=
  hex_words (String.concat EmptyString [
    "B87C8014B87E90C0A4368023A4383800A436B82EA4380001B8200010A436843DA438AF84A43855AFA4388458A438AF84A43858AFA4388458A438AF84A43858AF"%string;
    "A4388458A438AF84A43858AFA4388458A438AF26A438D000A436B818A43826CAA436B81AA438FFFFA436B81CA438FFFFA436B81EA438FFFFA436B850A438FFFF"%string;
    "A436B852A438FFFFA436B878A438FFFFA436B884A438FFFFA436B832A4380001A4360000A4380000B82E0000A4368023A4380000B8200000FFFFFFFF"%string
  ]).

(** The array, 2540 words. *)
Definition phy_mcu_ram_code_8125d_2_1 : list Z :=
  hex_words (String.concat EmptyString [
    "A4368023A4383801A436B82EA4380001B8200090A436A016A4380000A436A012A4380000A436A014A4381800A4388010A4381800A438808EA4381800A43880D6"%string;
    "A4381800A43881E2A4381800A43881E2A4381800A43881E2A4381800A43881E2A4381800A43881E2A438D500A438C48DA438D504A4388D03A438D701A4384045"%string;
    "A438AD02A438D504A438D706A4382529A4388021A438D718A438607BA43840DAA438F019A438459AA438F03FA438D718A43862BBA438BB01A438D75EA4386231"%string;
    "A4380CF0A4380C10A438D501A438CE01A438D70CA4386147A4388480A4388440A4388420A438A410A438CE00A438D505A4380C0FA4380808A438F002A438A4F0"%string;
    "A438F03CA438BB02A438D75EA4386231A4380CF0A4380C20A438D501A438CE01A438D70CA4386147A4388480A4388440A438A420A4388410A438CE00A438D505"%string;
    "A4380C0FA4380804A438F002A438A4F0A438F028A438BB04A438D75EA4386231A4380CF0A4380C40A438D501A438CE01A438D70CA4386147A4388480A438A440"%string;
    "A4388420A4388410A438CE00A438D505A4380C0FA4380802A438F002A438A4F0A438F014A438BB08A438D75EA4386231A4380CF0A4380C80A438D501A438CE01"%string;
    "A438D70CA4386147A438A480A4388440A4388420A4388410A438CE00A438D505A4380C0FA4380801A438F002A438A4F0A438CE00A438D500A4381000A4381A8A"%string;
    "A4381000A4381829A438D73EA4386074A438D718A4385F2DA4381000A43881B7A4381000A4381A8AA4381000A4381829A438D73EA4387F74A4381000A43881CE"%string;
    "A4381000A4381A8AA4381000A4381829A438D718A4385F6DA4381800A4381660A438D75EA43868B1A438D504A438D71EA438667BA438645AA4386239A4380CF0"%string;
    "A4380C10A438D505A4380C0FA4380808A438D501A438CE01A438D70CA43860C7A4388480A4388440A4388420A438A410A438F032A438A4F0A438F030A4380CF0"%string;
    "A4380C20A438D505A4380C0FA4380804A438D501A438CE01A438D70CA43860C7A4388480A4388440A438A420A4388410A438F022A438A4F0A438F020A4380CF0"%string;
    "A4380C40A438D505A4380C0FA4380802A438D501A438CE01A438D70CA43860C7A4388480A438A440A4388420A4388410A438F012A438A4F0A438F010A4380CF0"%string;
    "A4380C80A438D505A4380C0FA4380801A438D501A438CE01A438D70CA43860C7A438A480A4388440A4388420A4388410A438F002A438A4F0A4381800A438168C"%string;
    "A438D500A438D706A4382529A43880E0A438D718A438607BA43840DAA438F00FA438431AA438F021A438D718A438617BA4381000A4381A8AA4381000A4381B1A"%string;
    "A438D718A438608EA438D73EA4385F34A438F020A438F053A4381000A4381A8AA4381000A4381B1AA438D718A438608EA438D73EA4385F34A438F023A438F067"%string;
    "A4381000A4381A8AA4381000A4381B1AA438D718A438608EA438D73EA4385F34A438F026A438F07BA4381000A4381A8AA4381000A4381B1AA438D718A438608E"%string;
    "A438D73EA4385F34A438F029A438F08FA4381000A43881B7A4381000A4381A8AA438D73EA4387FB4A4381000A43881CEA4381000A4381A8AA438D718A4385FAE"%string;
    "A438F028A4381000A43881B7A4381000A4381A8AA438D73EA4387FB4A4381000A43881CEA4381000A4381A8AA438D718A4385FAEA438F039A4381000A43881B7"%string;
    "A4381000A4381A8AA438D73EA4387FB4A4381000A43881CEA4381000A4381A8AA438D718A4385FAEA438F04AA4381000A43881B7A4381000A4381A8AA438D73E"%string;
    "A4387FB4A4381000A43881CEA4381000A4381A8AA438D718A4385FAEA438F05BA438D719A4384119A438D504A438AC01A438AE01A438D500A4381000A4381A78"%string;
    "A438F00AA438D719A4384118A438D504A438AC11A438D501A438CE01A438A410A438CE00A438D500A4381000A4381A8AA438D718A4385FB0A438D505A438D719"%string;
    "A4384079A438A80FA438F05DA4384B98A438A808A438F05AA438D719A4384119A438D504A438AC02A438AE01A438D500A4381000A4381A78A438F00AA438D719"%string;
    "A4384118A438D504A438AC22A438D501A438CE01A438A420A438CE00A438D500A4381000A4381A8AA438D718A4385FB0A438D505A438D719A4384079A438A80F"%string;
    "A438F03FA43847D8A438A804A438F03CA438D719A4384119A438D504A438AC04A438AE01A438D500A4381000A4381A78A438F00AA438D719A4384118A438D504"%string;
    "A438AC44A438D501A438CE01A438A440A438CE00A438D500A4381000A4381A8AA438D718A4385FB0A438D505A438D719A4384079A438A80FA438F021A4384418"%string;
    "A438A802A438F01EA438D719A4384119A438D504A438AC08A438AE01A438D500A4381000A4381A78A438F00AA438D719A4384118A438D504A438AC88A438D501"%string;
    "A438CE01A438A480A438CE00A438D500A4381000A4381A8AA438D718A4385FB0A438D505A438D719A4384079A438A80FA438F003A4384058A438A801A4381800"%string;
    "A4381736A438D73EA438D505A4383088A43881C0A43861D3A4386172A4386111A43860B0A438F00DA4383298A43881CBA438F00AA438A808A438F008A438A804"%string;
    "A438F006A438A802A438F004A438A801A438F002A438A80FA438D500A4380800A438D505A438D75EA4386211A438D71EA438619BA438611AA4386099A4380C0F"%string;
    "A4380808A438F009A4380C0FA4380804A438F006A4380C0FA4380802A438F003A4380C0FA4380801A438D500A4380800A436A026A438FFFFA436A024A438FFFF"%string;
    "A436A022A438FFFFA436A020A438FFFFA436A006A438FFFFA436A004A43816ABA436A002A4381663A436A000A4381608A436A008A4380700A436A016A4380000"%string;
    "A436A012A43807F8A436A014A438CC01A43820F6A4380000A4380000A4380000A4380000A4380000A4380000A436A152A438021CA436A154A4382100A436A156"%string;
    "A4383FFFA436A158A4383FFFA436A15AA4383FFFA436A15CA4383FFFA436A15EA4383FFFA436A160A4383FFFA436A150A4380003A436A016A4380010A436A012"%string;
    "A4380000A436A014A4381800A4388010A4381800A4388014A4381800A438803DA4381800A438804AA4381800A438804EA4381800A4388052A4381800A4388092"%string;
    "A4381800A43880A0A438C2FFA4389A40A4381800A4380042A4381000A43802E5A438BA20A4381000A43802B4A438D701A4384103A438D700A4385F6CA4381000"%string;
    "A4388024A4389A20A4381800A4380073A4381800A4380084A438D701A4384061A438BA0FA438F004A4384060A4381000A438802DA438BA10A4380800A438D700"%string;
    "A43860BBA438611CA4380C0FA4381A01A438F00AA43860FCA4380C0FA4381A02A438F006A4380C0FA4381A04A438F003A4380C0FA4381A08A4380800A4380C0F"%string;
    "A4380504A438AD02A438D73EA43840F6A4381000A43802C0A438D700A4385FACA4381000A4388024A4381800A4380139A4389A3FA4388BF0A4381800A43802DF"%string;
    "A4389A3FA4389910A4381800A43802D7A438AD02A4388D01A4389A7FA4389910A4389860A438CB00A438D501A438CE01A43885F0A438D500A4380C0FA4380505"%string;
    "A438B820A438C000A438C100A438C628A438C700A438C801A438C91EA438C001A4384019A438C6F8A438C702A438C809A438C940A438C002A4384019A4381000"%string;
    "A43802CCA438D700A4385FA7A438C010A4381000A43802CCA438D700A4385FA0A438C020A4381000A43802CCA438D700A4385FA1A4380C0FA4380506A438B840"%string;
    "A438C6CAA438C701A438C809A438C900A438C001A4384019A438C6B8A438C700A438C800A438C900A438C008A4384019A4381000A43802CCA438D700A4385FA5"%string;
    "A4388580A4388D02A4381800A438018FA4381000A43802CCA438D700A4386124A438D73EA4385F75A438D700A4385F2CA4381000A4388024A4389A20A438FFF5"%string;
    "A4381800A43800B8A4380C0FA4380503A438AD02A43868C8A4381000A43802C0A438D700A4386848A438604DA438FFFBA438D73EA4386082A4381000A43802A1"%string;
    "A4388A0FA4381000A43802C0A438D700A4385FAEA4381000A43802DEA4381000A43802C0A438D700A4385FAFA4388D01A4388B0FA4381000A43802C0A438D700"%string;
    "A4382A58A43880C5A4382A5BA43880CDA4382B53A43880D9A438FFF7A4381000A438022AA4381000A43802E5A438BA40A4381000A43802FDA438F018A4381000"%string;
    "A438022AA4381000A43802E5A438BA40A4381000A43802C0A438D700A4385FAAA4381000A43802FDA438F00CA4381000A438022AA4381000A43802FDA4381000"%string;
    "A43802C0A438D700A4385FABA4381000A43802E5A438BA40A4381000A43802C0A438D700A4386088A438FFFCA4381800A4380120A4381800A4380122A436A08E"%string;
    "A43800DBA436A08CA43800B4A436A08AA438015AA436A088A43802D6A436A086A43802DEA436A084A4380137A436A082A4380071A436A080A4380041A436A090"%string;
    "A43800FFA436A016A4380020A436A012A4380000A436A014A4381800A4388010A4381800A438801DA4381800A438808AA4381800A43880A5A4381800A43880B8"%string;
    "A4381800A4388108A4381800A438810FA4381800A438811BA4388980A438D702A4386126A438D704A4384063A438D702A4386060A438D702A4386077A4381800"%string;
    "A4380C29A4381800A4380C2BA4381000A438115AA438D71FA4385FB4A438D702A4386C46A438D704A4384063A438D702A4386060A438D702A4386B97A438A340"%string;
    "A4380C06A4380102A438CE01A4381000A438117AA438A240A438A902A438A204A438A280A438A364A438AB02A4388380A438A00AA438CD8DA4381000A438115A"%string;
    "A438D706A4385FB5A438B920A4381000A438115AA438D71FA4387FB4A4389920A4381000A438115AA438D71FA4386065A4387C74A438FFFBA438B820A4381000"%string;
    "A438115AA438D71FA4387FA5A4389820A438A410A4388902A438A120A438A380A438CE02A4381000A438117AA4388280A438A324A438AB02A438A00AA4388118"%string;
    "A438863FA43887FBA438CD8EA438D193A438D047A4381000A438115AA4381000A438115FA438D700A4385F7BA438A280A4381000A438115AA4381000A438115F"%string;
    "A438D706A4385F78A438A210A438D700A4386083A438D101A438D047A438F003A438D160A438D04BA4381000A438115AA4381000A438115FA438D700A4385F7B"%string;
    "A4381000A438115AA4381000A438115FA438D706A4385F79A4388120A438BB20A4381800A4380C8BA4380C03A4381502A4388F80A4389503A4381800A4380C3C"%string;
    "A4380C03A4381502A438A608A4389503A4380C03A4381502A4388F80A4389503A438D704A4386192A438D702A4384116A438CE04A4381000A438117AA4380C03"%string;
    "A4381502A4388F40A4389503A4381800A4380B3DA4380C03A4381502A438AF40A4389503A4381800A4380B48A438D704A4386192A438D702A4384116A438CE04"%string;
    "A4381000A438117AA4380C03A4381502A4388F40A4389503A4381800A4381269A4380C03A4381502A438AF40A4389503A4381800A4381274A4380C03A4381502"%string;
    "A438A608A438C700A4389503A438CE54A4381000A438117AA438A290A438A304A438AB02A438D700A4386050A438AB04A4380C38A4380608A438AA0BA438D702"%string;
    "A4380C03A4381502A4388D01A438AE40A4384044A4388E20A4389503A4380C03A4381502A4388C20A4389503A438D700A4386078A438D700A438609AA438D109"%string;
    "A438D074A438F003A438D109A438D075A4381000A438115AA438D704A4386252A438D702A4384116A438CE54A4381000A438117AA4380C03A4381502A4388F40"%string;
    "A4389503A438A00AA438D704A43841E7A4380C03A4381502A438A570A4389503A438F00AA4380C03A4381502A438AF40A4389503A438800AA4380C03A4381502"%string;
    "A4388570A4389503A438D704A43860F3A438D71FA43860EEA438D700A4385BBEA4381800A4380E71A4381800A4380E7CA4381800A4380E7EA4380C03A4381502"%string;
    "A438AF80A4389503A438CD62A4381800A4380BD2A438800AA4388530A4380C03A4381502A4388D10A4389503A438D700A4386050A438AA20A4388306A4381800"%string;
    "A4380CB6A438D105A438D040A4381000A4380D8FA438D700A4385FBBA4380C03A4381502A4388608A4389503A4381000A4380D8FA438D704A4387FB6A4380C03"%string;
    "A4381502A43887F0A4389503A438CE88A4381000A438117AA4380C03A4381502A438A608A4389503A438D73EA43860A5A438D705A4384071A4381800A4380D65"%string;
    "A4381800A4380D6FA436A10EA4380D58A436A10CA4380CB5A436A10AA4380BD1A436A108A4380E37A436A106A4381267A436A104A4380B3BA436A102A4380C38"%string;
    "A436A100A4380C24A436A110A43800FFA436A016A4380020A436A012A4381FF8A436A014A4380000A4380000A4380000A4380000A4380000A4380000A4380000"%string;
    "A4380000A436A164A4380CEBA436A166A4380E73A436A168A4380DEBA436A16AA4383FFFA436A16CA4383FFFA436A16EA4383FFFA436A170A4383FFFA436A172"%string;
    "A4383FFFA436A162A4380007A436B87CA43885BFA436B87EA438AF85A438D7AFA43885FBA438AF86A43810AFA4388638A438AF86A43847AFA4388647A438AF86"%string;
    "A43847AFA4388647A438BF85A438F802A438627FA438BF61A438C702A438627FA438AE0CA438BF85A438F802A4386276A438BF61A438C702A4386276A438EE85"%string;
    "A4384200A438AF1BA4382333A438A484A438BF86A4380A02A438627FA438BF86A4380D02A438627FA438AF1BA4388422A438A484A43866ACA4380EF8A438FBEF"%string;
    "A43879FBA438E080A43816ADA438230FA438EE85A4384200A4381F44A438BF86A43830D7A4380008A4380264A438A3FFA438EF97A438FFFCA4380485A438F861"%string;
    "A438C786A4380A86A4380DE1A4388FEBA438E583A43820E1A4388FEAA438E583A43821AFA43841A7A436B85EA4381B05A436B860A4381B78A436B862A4381A08"%string;
    "A436B864A438419FA436B886A438FFFFA436B888A438FFFFA436B88AA438FFFFA436B88CA438FFFFA436B838A438000FB8200010A4360000A4380000B82E0000"%string;
    "A4368023A4380000A436801EA4380013B8200000FFFFFFFF"%string
  ]).

(** The array, 1100 words. *)
Definition phy_mcu_ram_code_8125d_2_2 : list Z :=
  hex_words (String.concat EmptyString [
    "A436ACCAA4380104A436ACCCA4388000A436ACCEA438FFFFA436ACD0A4380FFFA436ACCEA438FD47A436ACD0A4380FFFA436ACCEA438FFFFA436ACD0A43807FF"%string;
    "A436ACCEA438E56FA436ACD0A43801C0A436ACCEA438FFFFA436ACD0A43807FFA436ACCEA438ED97A436ACD0A43801C8A436ACCEA438FFFFA436ACD0A43807FF"%string;
    "A436ACCEA438F5BFA436ACD0A43801D0A436ACCEA438FB07A436ACD0A43807FFA436ACCEA438FB0FA436ACD0A43801D8A436ACCEA438A087A436ACD0A4380180"%string;
    "A436ACCEA438A00FA436ACD0A4380108A436ACCEA438A807A436ACD0A4380100A436ACCEA438A88FA436ACD0A4380188A436ACCEA438B027A436ACD0A4380120"%string;
    "A436ACCEA438B02FA436ACD0A4380128A436ACCEA438B847A436ACD0A4380140A436ACCEA438B84FA436ACD0A4380148A436ACCEA438FB17A436ACD0A43807FF"%string;
    "A436ACCEA438FB1FA436ACD0A43807FFA436ACCEA438A017A436ACD0A4380110A436ACCEA438A01FA436ACD0A4380118A436ACCEA438A837A436ACD0A4380130"%string;
    "A436ACCEA438A83FA436ACD0A4380138A436ACCEA438B097A436ACD0A4380190A436ACCEA438B05FA436ACD0A4380158A436ACCEA438B857A436ACD0A4380150"%string;
    "A436ACCEA438B89FA436ACD0A4380198A436ACCEA438FB27A436ACD0A43807FFA436ACCEA438FB2FA436ACD0A43807FFA436ACCEA4388087A436ACD0A4380180"%string;
    "A436ACCEA438800FA436ACD0A4380108A436ACCEA4388807A436ACD0A4380100A436ACCEA438888FA436ACD0A4380188A436ACCEA4389027A436ACD0A4380120"%string;
    "A436ACCEA438902FA436ACD0A4380128A436ACCEA4389847A436ACD0A4380140A436ACCEA438984FA436ACD0A4380148A436ACCEA438A0A7A436ACD0A43801A0"%string;
    "A436ACCEA438A8AFA436ACD0A43801A8A436ACCEA438A067A436ACD0A4380161A436ACCEA438A86FA436ACD0A4380169A436ACCEA438FB37A436ACD0A43807FF"%string;
    "A436ACCEA438FB3FA436ACD0A43807FFA436ACCEA4388017A436ACD0A4380110A436ACCEA438801FA436ACD0A4380118A436ACCEA4388837A436ACD0A4380130"%string;
    "A436ACCEA438883FA436ACD0A4380138A436ACCEA4389097A436ACD0A4380190A436ACCEA438905FA436ACD0A4380158A436ACCEA4389857A436ACD0A4380150"%string;
    "A436ACCEA438989FA436ACD0A4380198A436ACCEA438B0B7A436ACD0A43801B0A436ACCEA438B8BFA436ACD0A43801B8A436ACCEA438B077A436ACD0A4380171"%string;
    "A436ACCEA438B87FA436ACD0A4380179A436ACCEA438FB47A436ACD0A43807FFA436ACCEA438FB4FA436ACD0A43807FFA436ACCEA4386087A436ACD0A4380180"%string;
    "A436ACCEA438600FA436ACD0A4380108A436ACCEA4386807A436ACD0A4380100A436ACCEA438688FA436ACD0A4380188A436ACCEA4387027A436ACD0A4380120"%string;
    "A436ACCEA438702FA436ACD0A4380128A436ACCEA4387847A436ACD0A4380140A436ACCEA438784FA436ACD0A4380148A436ACCEA43880A7A436ACD0A43801A0"%string;
    "A436ACCEA43888AFA436ACD0A43801A8A436ACCEA4388067A436ACD0A4380161A436ACCEA438886FA436ACD0A4380169A436ACCEA438FB57A436ACD0A43807FF"%string;
    "A436ACCEA438FB5FA436ACD0A43807FFA436ACCEA4386017A436ACD0A4380110A436ACCEA438601FA436ACD0A4380118A436ACCEA4386837A436ACD0A4380130"%string;
    "A436ACCEA438683FA436ACD0A4380138A436ACCEA4387097A436ACD0A4380190A436ACCEA438705FA436ACD0A4380158A436ACCEA4387857A436ACD0A4380150"%string;
    "A436ACCEA438789FA436ACD0A4380198A436ACCEA43890B7A436ACD0A43801B0A436ACCEA43898BFA436ACD0A43801B8A436ACCEA4389077A436ACD0A4380171"%string;
    "A436ACCEA438987FA436ACD0A4380179A436ACCEA438FB67A436ACD0A43807FFA436ACCEA438FB6FA436ACD0A43807FFA436ACCEA4384087A436ACD0A4380180"%string;
    "A436ACCEA438400FA436ACD0A4380108A436ACCEA4384807A436ACD0A4380100A436ACCEA438488FA436ACD0A4380188A436ACCEA4385027A436ACD0A4380120"%string;
    "A436ACCEA438502FA436ACD0A4380128A436ACCEA4385847A436ACD0A4380140A436ACCEA438584FA436ACD0A4380148A436ACCEA43860A7A436ACD0A43801A0"%string;
    "A436ACCEA43868AFA436ACD0A43801A8A436ACCEA4386067A436ACD0A4380161A436ACCEA438686FA436ACD0A4380169A436ACCEA438FB77A436ACD0A43807FF"%string;
    "A436ACCEA438FB7FA436ACD0A43807FFA436ACCEA4384017A436ACD0A4380110A436ACCEA438401FA436ACD0A4380118A436ACCEA4384837A436ACD0A4380130"%string;
    "A436ACCEA438483FA436ACD0A4380138A436ACCEA4385097A436ACD0A4380190A436ACCEA438505FA436ACD0A4380158A436ACCEA4385857A436ACD0A4380150"%string;
    "A436ACCEA438589FA436ACD0A4380198A436ACCEA43870B7A436ACD0A43801B0A436ACCEA43878BFA436ACD0A43801B8A436ACCEA4387077A436ACD0A4380171"%string;
    "A436ACCEA438787FA436ACD0A4380179A436ACCEA438FB87A436ACD0A43807FFA436ACCEA438FB8FA436ACD0A43807FFA436ACCEA43840A7A436ACD0A43801A0"%string;
    "A436ACCEA43848AFA436ACD0A43801A8A436ACCEA4384067A436ACD0A4380161A436ACCEA438486FA436ACD0A4380169A436ACCEA438FB97A436ACD0A43807FF"%string;
    "A436ACCEA438FB9FA436ACD0A43807FFA436ACCEA43850B7A436ACD0A43801B0A436ACCEA43858BFA436ACD0A43801B8A436ACCEA4385077A436ACD0A4380171"%string;
    "A436ACCEA438587FA436ACD0A4380179A436ACCEA438FBA7A436ACD0A43807FFA436ACCEA438FBAFA436ACD0A43807FFA436ACCEA4382067A436ACD0A4380161"%string;
    "A436ACCEA438286FA436ACD0A4380169A436ACCEA438FBB7A436ACD0A43807FFA436ACCEA438FBBFA436ACD0A43807FFA436ACCEA4383077A436ACD0A4380171"%string;
    "A436ACCEA438387FA436ACD0A4380179A436ACCEA438FFF9A436ACD0A43817FFA436ACCEA438FFF9A436ACD0A43817FFA436ACCAA4380004A436ACC6A4380008"%string;
    "A436ACC8A438C000A436ACC8A4380000B8200000FFFFFFFF"%string
  ]).

(** The array, 344 words. *)
Definition phy_mcu_ram_code_8125cp_1_1 : list Z :=
  hex_words (String.concat EmptyString [
    "A4368023A4382300A436B82EA4380001B8200090A436A016A4380000A436A012A43807F8A436A014A438CC01A4382166A4380000A4380000A4380000A4380000"%string;
    "A4380000A4380000A436A152A438021CA436A154A4382170A436A156A4383FFFA436A158A4383FFFA436A15AA4383FFFA436A15CA4383FFFA436A15EA4383FFF"%string;
    "A436A160A4383FFFA436A150A4380003A436A016A4380020A436A012A4380000A436A014A4381800A4388010A4381800A438801BA4381800A438802BA4381800"%string;
    "A4388031A4381800A4388037A4381800A4388037A4381800A4388037A4381800A4388037A438800AA4388530A4380C03A4381502A4388D10A4389503A438D700"%string;
    "A4386050A438AA20A4381800A4380D53A438D707A43840F6A4388901A438D704A4386091A4388306A4388B02A4388290A4381000A4380E4DA4381000A4381277"%string;
    "A438D704A4387E77A4381800A4380DC5A438D700A4384063A4381800A4380D15A4381800A4380D18A438D700A4386063A4381800A4380CA6A4381800A4380CA7"%string;
    "A436A10EA438FFFFA436A10CA438FFFFA436A10AA438FFFFA436A108A438FFFFA436A106A4380CA2A436A104A4380D13A436A102A4380DBFA436A100A4380D52"%string;
    "A436A110A438000FA436B87CA43885BDA436B87EA438AF85A438D5AFA43885FBA438AF85A438FBAFA43885FBA438AF85A438FBAFA43885FBA438AF85A438FBAF"%string;
    "A43885FBA438AC28A4380BD4A4380294A438BF85A438F802A43861C2A438AE09A438D414A43850BFA43885F8A4380261A438C2BFA43860DEA4380261A438E1BF"%string;
    "A43880CFA438AF24A438E8F0A438AC52A436B85EA43824E5A436B860A438FFFFA436B862A438FFFFA436B864A438FFFFA436B886A438FFFFA436B888A438FFFF"%string;
    "A436B88AA438FFFFA436B88CA438FFFFA436B838A4380001B8200010B82E0000A4368023A4380000B8200000FFFFFFFF"%string
  ]).

(** The array, 3754 words. *)
Definition phy_mcu_ram_code_8126a_1_1 : list Z :=
  hex_words (String.concat EmptyString [
    "A4368023A4384900A436B82EA4380001BFBAE000BF1AC1B9BFA810F0BFB00210BFB4E7E4B8200090A436A016A4380000A436A012A4380000A436A014A4381800"%string;
    "A4388010A4381800A4388062A4381800A4388069A4381800A43880E2A4381800A43880EBA4381800A43880F5A4381800A438811BA4381800A4388120A438D500"%string;
    "A438D049A438D1B9A438A208A4388208A438D503A438A104A4380C07A4380902A438D500A438BC10A438C484A438D503A438CC02A438CD0DA438AF01A438D500"%string;
    "A438D703A4384531A438BD08A4381000A43816BBA438D75EA4385FB3A438D503A438D04DA438D1C7A4380CF0A4380E10A438D704A4385FFCA438D04DA438D1C7"%string;
    "A4380CF0A4380E20A438D704A4385FFCA438D04DA438D1C7A4380CF0A4380E40A438D704A4385FFCA438D04DA438D1C7A4380CF0A4380E80A438D704A4385FFC"%string;
    "A438D07BA438D1C5A4388EF0A438D704A4385FFCA4389D08A4381000A43816BBA438D75EA4387FB3A4381000A43816BBA438D75EA4385FADA4381000A438181F"%string;
    "A438D703A4383181A4388059A43860ADA4381000A43816BBA438D703A4385FBBA4381000A43816BBA438D719A4387FA8A438D500A438D049A438D1B9A4381800"%string;
    "A4380F0BA438D500A438D07BA438D1B5A438D0F6A438D1C5A4381800A4381049A438D707A4384121A438D706A43840FAA438D099A438D1C6A4381000A43816BB"%string;
    "A438D704A4385FBCA438BC80A438C489A438D503A438CC08A438CD46A438AF01A438D500A4381000A4380903A4381000A43816BBA438D75EA4385F6DA4381000"%string;
    "A438181FA438D504A438A210A438D500A4381000A43816BBA438D719A4385FBCA438D504A4388210A438D503A438C6D0A438A521A438CD49A438AF01A438D504"%string;
    "A438A220A438D500A4381000A43816BBA438D75EA4385FADA4381000A438181FA438D503A438A704A4380C07A4380904A438D504A438A102A438D500A4381000"%string;
    "A43816BBA438D718A4385FABA438D503A438C6F0A438A521A438D505A438A404A438D500A438D701A4386085A438D504A438C9F1A438F003A438D504A438C9F0"%string;
    "A438D503A438CD4AA438AF01A438D500A438D504A438A802A438D500A4381000A43816BBA438D707A4385FB1A438D707A4385F10A438D505A438A402A438D503"%string;
    "A438D707A43841A1A438D706A43860BAA43860FCA4380C07A4380204A438F009A4380C07A4380202A438F006A4380C07A4380206A438F003A4380C07A4380202"%string;
    "A438D500A438D703A4383181A43880E0A438616DA438D701A4386065A4381800A4381229A4381000A43816BBA438D707A4386061A438D704A4385F7CA4381800"%string;
    "A438124AA438D504A4388C0FA438D505A438A20EA438D500A4381000A4381871A4381800A4381899A438D70BA43860B0A438D05AA438D19AA4381800A4381AEF"%string;
    "A438D0EFA438D19AA4381800A4381AEFA4381000A4381D09A438D708A4383399A4381B63A438D709A4385F5DA438D70BA4386130A438D70DA4386163A438D709"%string;
    "A438430BA438D71EA43862C2A438B401A438F014A438C901A4381000A438810EA438F010A438C902A4381000A438810EA438F00CA438CE04A438CF01A438D70A"%string;
    "A4385FE2A438CE04A438CF02A438C900A438D70AA4384057A438B401A4380800A4381800A4381B5DA438A480A438A2B0A438A806A4381800A438225CA438A7E8"%string;
    "A438AC08A4381800A4381A4EA436A026A4381A4DA436A024A438225AA436A022A4381B53A436A020A4381AEDA436A006A4381892A436A004A43811A4A436A002"%string;
    "A438103CA436A000A4380EA6A436A008A438FF00A436A016A4380000A436A012A4380FF8A436A014A4380000A438D098A438C483A438C483A4380000A4380000"%string;
    "A4380000A4380000A436A152A4383FFFA436A154A4380413A436A156A4381A32A436A158A4381CC0A436A15AA4383FFFA436A15CA4383FFFA436A15EA4383FFF"%string;
    "A436A160A4383FFFA436A150A438000EA436A016A4380020A436A012A4380000A436A014A4381800A4388010A4381800A4388021A4381800A4388037A4381800"%string;
    "A438803FA4381800A4388084A4381800A43880C5A4381800A43880CCA4381800A43880D5A438A00AA438A280A438A404A4380000A4380000A4380000A4380000"%string;
    "A4380000A4380000A4380000A4380000A4380000A4380000A4380000A4380000A4381800A438099BA4381000A4381021A438D700A4385FABA438A208A4388204"%string;
    "A438CB38A438AA40A4380000A4380000A4380000A4380000A4380000A4380000A4380000A4380000A4380000A4380000A4380000A4380000A4381800A4380B2A"%string;
    "A43882A0A4388404A438A110A438D706A4384041A438A180A4381800A4380E7FA4388190A438CB93A4381000A4380EF4A438D704A4387FB8A438A008A438D706"%string;
    "A4384040A438A002A438D705A4384079A4381000A43810ADA4380C03A4381502A43885F0A4389503A438D705A43840D9A438D70CA4386083A4380C1FA4380D09"%string;
    "A438F003A4380C1FA4380D0AA4380CC0A4380D80A4381000A438104FA4381000A4380EF4A4388020A438D705A43840D9A438D704A438609FA438D70CA4386043"%string;
    "A4388504A438CB94A4381000A4380EF4A438D706A4387FA2A438800AA4380C03A4381502A4380CF0A43805A0A4389503A438D705A43840B9A4380C1FA4380D00"%string;
    "A4388DC0A438F005A438A190A4380C1FA4380D17A4388DC0A4381000A438104FA438D705A43839CCA4380C7DA4381800A4380E67A438CB96A4380C03A4381502"%string;
    "A438AB05A438AC04A438AC08A4389503A4380C1FA4380D00A4388DC0A4381000A438104FA4381000A4381021A438D706A4382215A4388099A4380C03A4381502"%string;
    "A438AE02A4389503A438D706A4386451A438D71FA4382E70A4380F00A438D706A4383290A43880BEA438D704A4382E70A4388090A438D706A438339CA4388090"%string;
    "A4388718A4388910A4380C03A4381502A438C500A4389503A4380C1FA4380D17A4388DC0A4381000A438104FA4380C03A4381502A4388C04A4389503A438A00A"%string;
    "A438A190A438A280A438A404A4381800A4380F35A4381800A4380F07A4380C03A4381502A4388C08A4388C04A4389503A4381800A4380F02A4381000A4381021"%string;
    "A438D700A4385FB4A438AA10A4381800A4380C6BA43882A0A4388406A4380C03A4381502A438AC04A4388602A4389503A4381800A4380E09A4380000A4380000"%string;
    "A4380000A4380000A4380000A4380000A4380000A4380000A4380000A4380000A4380000A4380000A4388308A4380C03A4381502A438C555A4389503A438A728"%string;
    "A4388440A4380C03A4380901A4388801A438D700A4384040A438A801A438D701A4384052A438A810A438D701A4384054A438A820A438D701A4384057A438A640"%string;
    "A438D704A4384046A438A840A438D706A43840B5A4380C03A4381502A438AE20A4389503A438D401A4381000A4380FCFA4381000A4380FDAA4381000A4381008"%string;
    "A4381000A4380FE3A438CC00A43880C0A4388103A43883E0A438D71EA4382318A43801AEA438D704A43840BCA4380C03A4381502A4388302A4389503A438B801"%string;
    "A438D706A4382B59A43807F8A438D700A4382109A43804ABA438A508A438CB15A438D70CA438430CA4381000A43810CAA4380C03A4381502A438A108A4389503"%string;
    "A4380C03A4381502A4380C1FA4380F13A4389503A4381000A4381021A438D70CA4385FB3A4380C03A4381502A4388F1FA4389503A4381000A4381021A438D70C"%string;
    "A4387F33A4380C03A4381502A4380C0FA4380D00A4380C70A4380B00A438AB08A4389503A438D704A4383CF1A43801F9A4380C1FA4380D11A438F003A4380C1F"%string;
    "A4380D0DA4380CC0A4380D40A4381000A438104FA4380C03A4381502A438AB80A4389503A4381000A4381021A438A940A438D700A4385F99A4380C03A4381502"%string;
    "A4388B80A4389503A4388940A438D700A4385BBFA4380C03A4381502A4388B08A4389503A438BA20A438D704A4384100A438D115A438D04FA438F001A4381000"%string;
    "A4381021A438D700A4385FB4A4380C03A4381502A4380C0FA4380D00A4380C70A4380B10A438AB08A4389503A438D704A4383CF1A4388178A4380C1FA4380D11"%string;
    "A438F003A4380C1FA4380D0DA4380CC0A4380D40A4381000A438104FA4380C03A4381502A438AB80A4389503A4381000A4381021A438D706A4385FADA438D407"%string;
    "A4381000A4380FCFA4380C03A4381502A4388B88A4389503A4381000A4381021A438D702A4387FA4A438D706A43861BFA4380C03A4381502A4380C30A4380110"%string;
    "A438A304A4389503A438D199A438D04BA4381000A4381021A438D700A4385FB4A438D704A4383CF1A43881A5A4380C1FA4380D02A438F003A4380C1FA4380D01"%string;
    "A4380CC0A4380D40A438A420A4388720A4381000A438104FA4381000A4380FDAA438D70CA43841ACA4380C03A4381502A4388108A4389503A4380CC0A4380040"%string;
    "A4380C03A4380102A4380CE0A43803E0A438CCCEA438F008A4380CC0A4380040A4380C03A4380100A4380CE0A4380380A438CC9CA4381000A438103FA4380C03"%string;
    "A4381502A438A640A4389503A438CB16A438D706A4386129A438D70CA438608CA438D17AA438D04AA438F006A438D17AA438D04BA438F003A438D13DA438D04B"%string;
    "A4380C1FA4380F14A438CB17A4388FC0A4381000A4380FBDA438AF40A4381000A4380FBDA4380CC0A4380F80A4381000A4380FBDA438AFC0A4381000A4380FBD"%string;
    "A4381000A4381021A438D701A438652EA438D700A4385DB4A4380C03A4381502A4388640A438A702A4389503A438A720A4381000A4380FDAA438A108A4381000"%string;
    "A4380FECA4388108A4381000A4380FE3A438A202A438A308A4380000A4380000A4380000A4380000A4380000A4380000A4380000A4380000A4380000A4380000"%string;
    "A4380000A4380000A4388308A438CB18A4381000A43810C2A4381000A4381021A438D70CA4382C60A43802BDA438FF58A4388F1FA4381000A4381021A438D701"%string;
    "A4387F8EA4381000A4380FE3A438A130A438AA2FA438A2D5A438A407A438A720A4388310A438A308A4380000A4380000A4380000A4380000A4380000A4380000"%string;
    "A4380000A4380000A4380000A4380000A4380000A4380000A4388308A4381800A43802D2A436A10EA438017FA436A10CA4380E04A436A10AA4380C67A436A108"%string;
    "A4380F13A436A106A4380EB1A436A104A4380E79A436A102A4380B23A436A100A4380908A436A110A43800FFA436B87CA4388AD8A436B87EA438AF8AA438F0AF"%string;
    "A4388AF9A438AF8DA438DAAFA4388E1CA438AF8FA43803AFA4388F06A438AF8FA43806AFA4388F06A4380265A438A002A4388D78A438AF23A43847A1A4380D06"%string;
    "A438028BA43805AFA438225AA438AF22A43866F8A438E08AA43833A0A4380005A438028BA43821AEA4380EA0A4380105A438028BA438B3AEA43806A0A4380203"%string;
    "A438028CA4389DFCA43804F8A438FBFAA438EF69A438E080A43813ADA438267EA438D067A438E48AA43834E4A4388A36A438E48AA43838E4A4388A3AA438D0AE"%string;
    "A438E48AA43835E4A4388A37A438E48AA43839E4A4388A3BA438D000A438E48AA4383CE4A4388A3DA438E48AA4383EE4A4388A3FA438E48AA43840E4A4388A41"%string;
    "A438E48AA43842E4A4388A43A438E48AA43844D0A43802E4A4388A45A438D00AA438E48AA43846D0A43816E4A4388A47A438D01EA438E48AA43848D1A43802BF"%string;
    "A4388DCEA438026BA438D0D1A4380ABFA4388DD1A438026BA438D0D1A43816BFA4388DD4A438026BA438D0D1A4381EBFA4388DD7A438026BA438D002A43873AB"%string;
    "A438EF47A438E585A4385DE4A438855CA438EE8AA4383301A438AE03A4380224A43895EFA43896FEA438FFFCA43804F8A438F9FAA438CEFAA438EF69A438FB02"%string;
    "A4388DABA438AD50A4382EE1A4388A44A438A104A4382BEEA4388A33A43802E1A4388A45A438BF8DA438CE02A4386BD0A438E18AA43846BFA4388DD1A438026B"%string;
    "A438D0E1A4388A47A438BF8DA438D402A4386BD0A438E18AA43848BFA4388DD7A438026BA438D0AFA4388C94A438D200A438BE00A4380002A4388CA5A43812A2"%string;
    "A43804F6A438E18AA43844A1A4380020A438D129A438BF8DA438CE02A4386BD0A438D121A438BF8DA438D102A4386BD0A438D125A438BF8DA438D402A4386BD0"%string;
    "A438BF8DA438D702A4386BD0A438AE44A438A101A4381ED1A43831BFA4388DCEA438026BA438D0BFA4388DD1A438026BA438D0D1A4382DBFA4388DD4A438026B"%string;
    "A438D0BFA4388DD7A438026BA438D0AEA43823A1A4380220A438D139A438BF8DA438CE02A4386BD0A438BF8DA438D102A4386BD0A438D13DA438BF8DA438D402"%string;
    "A4386BD0A438D135A438BF8DA438D702A4386BD0A438AE00A438E18AA4384411A438E58AA43844D0A43800E4A4388A3CA438E48AA4383DE4A4388A3EA438E48A"%string;
    "A4383FE4A4388A40A438E48AA43841E4A4388A42A438E48AA4384302A43873ABA438EF47A438E585A4385DE4A438855CA438FFEFA43896FEA438C6FEA438FDFC"%string;
    "A4380402A4382495A438EE8AA4383300A43804F8A438F9FAA438FBEFA43879FBA438CFFBA438D300A438A200A43809BFA4388DC2A438026BA438EFAFA4388CDA"%string;
    "A438A201A43809BFA4388DC5A438026BA438EFAFA4388CDAA438A202A43809BFA4388DC8A438026BA438EFAFA4388CDAA438BF8DA438CB02A4386BEFA438EF64"%string;
    "A438BF8AA4383C1AA438921AA43892D8A43819D9A438EF74A4380273A43893EFA43847BFA4388A3CA4381A92A4381A92A438DC19A438DDD1A4380011A438A1FF"%string;
    "A438FC13A438A310A438AF02A4388D0EA438FFC7A438FFEFA43897FFA438FEFDA438FC04A438F8FAA438FBEFA43879FBA438CFFBA438BF8AA4383C1AA438921A"%string;
    "A43892D8A43819D9A438EF64A438BF8AA438341AA438921AA43892D8A43819D9A438EF74A4380273A43878A2A4380005A438BE8DA438CEAEA43813A2A4380105"%string;
    "A438BE8DA438D1AEA4380BA2A4380205A438BE8DA438D4AEA43803BEA4388DD7A438AD50A43817BFA4388A45A4381A92A4380702A4386BEFA43807DDA438EF46"%string;
    "A438BF8AA438341AA438921AA43892DCA43819DDA438FFC7A438FFEFA43897FFA438FEFCA43804EEA4388A33A43800EEA4388A32A4380404A438F8FAA438EF69"%string;
    "A438E080A43813ADA4382624A438D102A438BF8DA438CE02A4386BD0A438D10AA438BF8DA438D102A4386BD0A438D116A438BF8DA438D402A4386BD0A438D11E"%string;
    "A438BF8DA438D702A4386BD0A438EE8AA4383300A438EF96A438FEFCA43804F8A438FAE0A438855CA438E185A4385DEFA43864D0A43800E1A4388A32A438EF74"%string;
    "A4380273A438C6FEA438FC04A438F0B2A43802F0A438B282A438F0B3A43802F0A438B382A43850ACA438D450A438ACD6A438B6ACA438D4B6A438ACD6A438BF8E"%string;
    "A4380D02A4386BD0A438D0FFA438D1FEA438BF8EA4381002A4386BD0A438D004A438D14DA438BF8EA4381302A4386BD0A438D0FCA438D1C6A438BF8EA4381602"%string;
    "A4386BD0A438D009A438D146A438BF8EA4381902A4386BD0A438EF13A438AF2DA438BDF0A438AC1CA438F0ACA4382AF0A438AC2CA438F0ACA4382EF0A438AC30"%string;
    "A438BF8EA438F102A4386BEFA438AC28A43870BFA4388EEBA438026BA438EFACA4382867A438BF8EA438EE02A4386BEFA438AD28A4385BBFA4388FF2A438D8BF"%string;
    "A4388FF3A438D9BFA4388EF4A438026BA438D0BFA4388FF0A438D8BFA4388FF1A438D9BFA4388EF7A438026BA438D0BFA4388FEEA438D8BFA4388FEFA438D9BF"%string;
    "A4388EFAA438026BA438D0BFA4388FECA438D8BFA4388FEDA438D9BFA4388EFDA438026BA438D0BFA4388FEAA438D8BFA4388FEBA438D9BFA4388F00A438026B"%string;
    "A438D0BFA4388FE8A438D8BFA4388FE9A438D9BFA4388E0DA438026BA438D01FA43800E1A43886EEA4381B64A438AF3DA4387ABFA4388FFEA438D8BFA4388FFF"%string;
    "A438D9BFA4388EF4A438026BA438D0BFA4388FFCA438D8BFA4388FFDA438D9BFA4388EF7A438026BA438D0BFA4388FFAA438D8BFA4388FFBA438D9BFA4388EFA"%string;
    "A438026BA438D0BFA4388FF8A438D8BFA4388FF9A438D9BFA4388EFDA438026BA438D0BFA4388FF6A438D8BFA4388FF7A438D9BFA4388F00A438026BA438D0BF"%string;
    "A4388FF4A438D8BFA4388FF5A438D9BFA4388E0DA438026BA438D0AEA438A766A438AC5CA438BBACA4385C99A438AC5CA438F0ACA43826F0A438AC24A438F0AC"%string;
    "A43822F0A438AC20A438F0ACA4381EAFA43844F8A436B85EA4382344A436B860A4382254A436B862A4382DB5A436B864A4383D6CA436B886A43844EDA436B888"%string;
    "A438FFFFA436B88AA438FFFFA436B88CA438FFFFA436B838A438001FB8200010A43687ADA438AF87A438C5AFA43887E4A438AF8AA4383DAFA4388A62A438AF8A"%string;
    "A43862AFA4388A62A438AF8AA43862AFA4388A62A4382810A4380D01A438E484A438BF29A438100DA43811E5A43884C0A4382A10A4380D21A438E684A438C12B"%string;
    "A438100DA43831E7A43884C2A438AF3FA4387CF8A438E080A4384CACA438222CA438E080A43840ADA4382232A438BF8AA4382502A4386752A438AD29A4380502"%string;
    "A4388827A438AE0DA438AD28A4380502A4388961A438AE05A4380214A43804AEA43800E0A4388040A438AC22A4381102A43813E1A438AE0CA4380288A4387C02"%string;
    "A4388A10A4380214A4382502A4381404A438FCAFA43813C6A438F8F8A438CCF9A438FAEFA43869FBA438E080A43818ADA438223BA438BF8AA4382B02A4386752"%string;
    "A438AD28A43832BFA4388A28A438026FA43817EEA4388FF3A43800BFA4386854A4380267A43852ADA438281FA438BF68A4385D02A4386752A438AD28A43816E0"%string;
    "A4388FF4A438E18FA438F502A4388891A438AD50A4380ABFA4388A28A438026FA43820EEA4388FF3A4380102A4381404A438FFEFA43896FEA438FDC4A438FCFC"%string;
    "A43804F8A438F9EFA43859E0A4388018A438AD22A43806BFA4388A28A438026FA43817EFA43895FDA438FC04A438F8F9A438F9EFA43859FAA438FACEA438E48F"%string;
    "A438FEE5A4388FFFA438BF6EA4381B02A4386F20A438BF6EA4381802A4386F17A438D102A438BF6EA4381202A4386733A438BF6EA4381502A4386F17A438BE00"%string;
    "A43800CCA438BF69A438CB02A4386733A438BF69A438CE02A4386F17A438BF69A438CE02A4386F20A438BF69A438D102A4386752A438AD28A438F70CA43881BF"%string;
    "A4388FF6A4381A98A438EF59A438BF69A438D402A4386752A438EF95A438DC19A438DD0DA4388118A438A800A43804C9A438BF69A438CE02A4386F17A438E08F"%string;
    "A438FCE1A4388FFDA438EF74A438E08FA438FAE1A4388FFBA438EF64A438026EA43857ADA4385008A438E08FA438FCE1A4388FFDA438AE06A438E08FA438FAE1"%string;
    "A4388FFBA438E28FA438F8E3A4388FF9A438EF75A438E28FA438F6E3A4388FF7A438EF65A438026EA43857ADA4385008A438E28FA438F8E3A4388FF9A438AE06"%string;
    "A438E28FA438F6E3A4388FF7A4381B45A438AD27A43805D7A4380000A438AE0DA438EF74A438E08FA438FEE1A4388FFFA438EF64A438026EA43857C6A438FEFE"%string;
    "A438EF95A438FDFDA438FC04A438F8F9A438FAEFA43869FBA438E080A43818ACA4382103A438AF8AA43806BFA4388A2BA438AC21A43803AFA4388A06A438BF8A"%string;
    "A4382802A4386F17A438EE8FA438EE00A438EE8FA438ED00A438BF8AA4382E02A4386752A438AD28A43803AFA4388A06A438E28FA438EFE3A4388FF0A438BF68"%string;
    "A4385102A4386752A438AC28A43811E2A4388FF1A438E38FA438F2BFA4386848A4380267A43852ACA4382802A438AE53A438BF68A4385A02A4386752A438AD28"%string;
    "A4380AEFA4384502A4388891A438AC50A43838AEA43840BFA4388A31A4380267A43852EFA43831BFA4388A34A4380267A438520CA438311EA43831BFA4388A37"%string;
    "A4380267A438520CA438311EA43831BFA4388A3AA4380267A438520CA438311EA43831E7A4388FEEA438A30CA43802AEA43808A3A4380E02A438AE03A438A30D"%string;
    "A4380AEEA4388FEDA43801BFA4388A28A438026FA4382002A4381404A438FFEFA43896FEA438FDFCA43804F8A438FAEFA43869E0A4388018A438AD21A43806BF"%string;
    "A4388A28A438026FA43817EFA43896FEA438FC04A438F8A4A438B677A438A4B6A43822A4A4384222A438A668A43800B2A4383E00A438B2BEA43800B3A4383E00"%string;
    "A438B3BEA438D10FA438BF8AA4385C02A4386733A438BF8AA4385F02A4386733A438BF8AA4385C02A4386F17A438BF8AA4385F02A4386F17A4381F00A438AF3D"%string;
    "A4380C30A438A85AA438FCADA4380E00A436B818A4383F31A436B81AA43813A4A436B81CA4383D0AA436B81EA438FFFFA436B850A438FFFFA436B852A438FFFF"%string;
    "A436B878A438FFFFA436B884A438FFFFA436B832A4380007A43684CFA4380101A4660002A43686A7A4380000A4360000A4380000A436B82EA4380000A4368023"%string;
    "A4380000A436801EA4380023B8200000FFFFFFFF"%string
  ]).

(** The array, 278 words. *)
Definition phy_mcu_ram_code_8126a_1_2 : list Z :=
  hex_words (String.concat EmptyString [
    "B87C8A32B87E0400B87C8376B87E0300CE006CAFB87C8301B87E1133B87C8105B87EA000B87C8148B87EA000A43681D8A4385865ACF8CCC0AC9052B0AD2C8000"%string;
    "B87C83E6B87E4A0EB87C83D2B87E0A0EB87C80A0B87EB8B6B87C805EB87EB8B6B87C8057B87E305AB87C8099B87E305AB87C8052B87E3333B87C8094B87E3333"%string;
    "B87C807FB87E7975B87C803DB87E7975B87C8036B87E305AB87C8078B87E305AB87C8031B87E3335B87C8073B87E3335A43681D8A4385865B87C867CB87E0617"%string;
    "AD940092B87C89B1B87E5050B87C86E0B87E809AB87C86E2B87EB34DB87C8FD2B87E004BB87C8691B87E007DB87E00AFB87E00E1B87E00FFB87C867FB87E0201"%string;
    "B87E0201B87E0201B87E0201B87E0201B87E0201B87C86DAB87ECDCDB87EE6CDB87ECDCDB87C8FE8B87E0368B87E033FB87E1046B87E147DB87E147DB87E147D"%string;
    "B87E0368B87E033FB87E1046B87E147DB87E147DB87E147DA43680DDA438F0ABA43680DFA438C009A43680E7A438401EA43680E1A438120AA43686F2A4385094"%string;
    "A4368701A4385094A43680F1A43830CCA43680F3A4380001A43680F5A438330BA43680F8A438CB76A4368105A438F0D3A4368107A4380002A4368109A438FF0B"%string;
    "A436810CA438C86DB87C8A32B87E0400A6F80000A6F80000A43681BCA4381300A8462410A86A0801A85C9680A436841DA4384A28A4368016A438BE05BF9C004A"%string;
    "BF9641FABF9ADC81A4368018A4380700A4368FF4A43801AEA4368FEFA4380172A43800DCC8420002FFFFFFFF"%string
  ]).

(** The array, 240 words. *)
Definition phy_mcu_ram_code_8126a_1_3 : list Z :=
  hex_words (String.concat EmptyString [
    "B8920000B88EC236B8901A1CB88EC238B8901C1CB8901C1CB8902D2DB8902D2DB8902D2AB8902A2AB8902A2AB8902A19B88EC272B8908484B8908484B89084B4"%string;
    "B890B4B4B890B4B4B890F8F8B890F8F8B890F8F8B88EC000B8900303B8900405B8900608B8900A0BB8900E11B8901519B8902028B8903503B8900304B8900405"%string;
    "B8900606B8900708B890090AB8900B0DB8900F11B8901315B890181AB8902029B8902F36B8903D43B8900101B8900102B8900202B8900303B8900405B8900607"%string;
    "B890090AB8900C0EB88EC038B8906AE1B8908E6BB890A767B89001EFB8905A63B8902B99B8907F5DB890361FB890A127B890B558B89011C3B8907D85B890BAC5"%string;
    "B890E691B8908F79B8903164B8903293B890B80DB890E2B7B8900D62B8904F85B890C919B89078F3B89077FFB890BD9EB89069D6B8906DA4B8900CC5B88EC1D2"%string;
    "B8902425B8902627B8902829B8902A2BB8902C2DB8902E2FB8903031B8903233B8902323B8902424B8902525B8902626B8902727B8902828B8902929B8902A2A"%string;
    "B8902B2CB8902C2DB8902D2EB8902E2FB8902F30B8901A1BB8901D1EB8901F20B8902123B8902425B8902628B890292AB8902B2CB8902E12B88EC09AB890D3D3"%string;
    "B890D3D3B890D3D3B890D3D3B890D3D3B890D3D3B890D3D3B890D3D3FFFFFFFF"%string
  ]).

(** The array, 13980 words. *)
Definition phy_mcu_ram_code_8126a_2_1 : list Z :=
  hex_words (String.concat EmptyString [
    "A4368023A4384700A436B82EA4380001B8200090A436A016A4380000A436A012A4380000A436A014A4381800A4388010A4381800A4388025A4381800A4388033"%string;
    "A4381800A4388037A4381800A438803CA4381800A4388044A4381800A4388054A4381800A4388059A438D504A438C9B5A438D500A438D707A4384070A4381800"%string;
    "A438107AA438D504A438C994A438D500A438D707A43860D0A438D701A438252DA4388023A4381800A4381064A4381800A438107AA4381800A4381052A438D504"%string;
    "A438C9D0A438D500A438D707A43860D0A438D701A438252DA4388031A4381800A4381171A4381800A4381187A4381800A438116AA438C0FFA438CAFFA4381800"%string;
    "A43800D6A438D504A438A001A438D704A4381800A438128BA438D707A4382005A4388042A438D75EA4381800A438137AA4381800A43813EDA43861D0A438D701"%string;
    "A43860A5A438D504A438C9B2A438D500A438F004A438D504A438C9B1A438D500A438D707A4386070A4381800A43810A8A4381800A43810BDA438D500A438C492"%string;
    "A438D501A4381800A43813C1A438A980A438D500A4381800A438143BA436A026A438143AA436A024A43813C0A436A022A43810BCA436A020A4381379A436A006"%string;
    "A438128AA436A004A43800D5A436A002A4381182A436A000A4381075A436A008A438FF00A436A016A4380010A436A012A4380000A436A014A4381800A4388010"%string;
    "A4381800A4388015A4381800A438801AA4381800A438801EA4381800A4388027A4381800A4388027A4381800A4388027A4381800A4388027A4380C0FA4380505"%string;
    "A438BA01A4381800A438015EA4380C0FA4380506A438BA02A4381800A438017CA4389910A4389A03A4381800A43802D4A4388580A438C090A4389A03A4381000"%string;
    "A43802C9A438D700A4385FA3A4381800A4380067A436A08EA438FFFFA436A08CA438FFFFA436A08AA438FFFFA436A088A438FFFFA436A086A438018CA436A084"%string;
    "A43802D3A436A082A438017AA436A080A438015CA436A090A438000FA436A016A4380020A436A012A4380000A436A014A4381800A4388010A4381800A4388023"%string;
    "A4381800A4388313A4381800A438831AA4381800A4388489A4381800A43886B9A4381800A43886C1A4381800A43887ADA4381000A438124EA4389308A438B201"%string;
    "A438B301A438D701A4385FE0A438D2FFA438B302A438D200A438B201A438B309A438D701A4385FE0A438D2FFA438B302A438D200A4381800A4380025A438D706"%string;
    "A4386069A438D700A4386421A438D70CA43843ABA438800AA4388190A4388204A438A280A4388406A4380C03A4381502A438A108A4389503A4380C03A4381502"%string;
    "A4380C1FA4380F19A4389503A4381000A4381175A438D70CA4385FB3A4380C03A4381502A4388F1FA4389503A4381000A4381175A438D70CA4387F33A4381000"%string;
    "A43811BDA4381800A43881AAA4388710A438D701A43833B1A4388051A438D701A43860B5A438D706A4386069A4381800A4388056A438A00AA438A280A438A404"%string;
    "A4381800A43880F3A438D173A438D04DA4381000A4381175A438D700A4385FB4A438D173A438D05DA438D10DA438D049A4381000A4381175A438D700A4385FB4"%string;
    "A438D700A43864F5A438D700A4385EE7A438B920A4381000A4381175A438D71FA4387FB4A4389920A438CB3CA4381000A4381175A438D71FA4387D94A4386045"%string;
    "A438FFFAA438B820A4381000A4381175A438D71FA4387FA5A4389820A438CB3DA4381000A4381175A438D700A43860B5A438D71FA4387BB4A43861B6A438FFF8"%string;
    "A438BB80A4381000A4381175A438D71FA4385FB4A4389B80A438D700A43860E7A438CB3FA4381800A4388094A438CB3EA4381800A438810FA4381800A43880F3"%string;
    "A4380C03A4381502A438AE04A4389503A4380000A4380000A4380C03A4381502A4388E04A4389503A438D706A43865FEA4380C1FA4380D04A4388DC0A4381000"%string;
    "A43811BDA438D70CA438414BA4380CC0A4380040A4380C03A4380102A4380CE0A43803E0A438CCCEA4381800A43880B7A4380CC0A4380040A4380C03A4380100"%string;
    "A4380CE0A4380380A438CC9CA4388710A4381000A4381118A438A104A4381000A438112AA4388104A438A202A438A140A4381000A438112AA4388140A4381000"%string;
    "A4381121A438AA0FA438A130A438AA2FA438A2D5A438A405A438A720A438A00AA4381800A43880F3A438D704A4383CF1A43880D5A4380C1FA4380D02A4381800"%string;
    "A43880D7A4380C1FA4380D01A4380CC0A4380D40A4381000A43811BDA4388710A4381000A4381118A438A108A4381000A438112AA4388108A438A203A4388A2F"%string;
    "A438A130A4388204A438A140A4381000A438112AA4388140A4381000A4381121A438D17AA438D04BA4381000A4381175A438D700A4385FB4A438A204A4381000"%string;
    "A4381175A438D700A4385FA7A438B920A4381000A4381175A438D71FA4387FB4A4389920A4381000A4381175A438D71FA4386125A4386054A438FFFBA4381000"%string;
    "A4381175A438D700A4385FA7A4381800A43880F7A438B820A4381000A4381175A438D71FA4387FA5A4389820A4389B01A438D402A4381000A438110DA438D701"%string;
    "A43833B1A438811CA438D701A43860B5A438D706A4386069A4381800A438811EA4381800A4388183A438D70CA43840ABA438800AA4388110A4388284A4388404"%string;
    "A438A710A4388120A4388241A4381000A4381118A438A104A4381000A438112AA4388104A4381000A4381121A438AA2FA438D70CA438438BA438A284A438D078"%string;
    "A438800AA4388110A438A284A4388404A4380C03A4381502A438A108A4389503A4380C03A4381502A4380C1FA4380F19A4389503A4381000A4381175A438D70C"%string;
    "A4385FB3A4380C03A4381502A4388F1FA4389503A4381000A4381175A438D70CA4387F33A4380C1FA4380D06A4388DC0A4381000A43811BDA4388110A438A284"%string;
    "A438A404A438A00AA438D70CA43840A1A4380C03A4381502A438AD10A4389503A438D70CA438414BA4380CC0A4380080A4380C03A4380102A4380CE0A4380340"%string;
    "A438CC52A4381800A438816BA43880C0A4388103A43883E0A4388CFFA438D193A438D047A4381000A4381175A4381000A4381193A438D700A4385F74A438A110"%string;
    "A4381000A4381175A4381000A4381193A438D700A4385F6AA438A180A438D1F5A438D049A4381000A4381175A4381000A4381193A438D700A4385F74A4388710"%string;
    "A438A00AA4388190A4388204A438A280A438A404A438BB80A4381000A4381175A438D71FA4385FB4A438B920A4389B80A4381000A4381175A438D71FA4387FB4"%string;
    "A4389920A4381000A4381175A438CB33A438D71FA4386105A4385F74A4381000A4381175A438D700A4385FA7A4381800A438818EA438A710A438B820A4381000"%string;
    "A4381175A438D71FA4387F65A4389820A4381800A43881F1A4380C1FA4380D04A4388DC0A4381000A43811BDA438A00AA4388280A438A710A438D103A438D04C"%string;
    "A4381000A4381175A438D700A4385FB4A4380C1FA4380D06A4388DC0A4381000A43811BDA4388710A438A190A438A204A4388280A438A404A4381000A4381175"%string;
    "A438D700A4385FA7A438A00AA438A110A438A284A438A404A438CB33A438D71FA4385F54A438B920A4381000A4381175A438D71FA4387FB4A4389920A4381000"%string;
    "A4381175A438D71FA4386145A4386074A4381800A43881D3A4381000A4381175A438D700A4385FA7A4381800A43881CDA438B820A4381000A4381175A438D71F"%string;
    "A4387FA5A438A710A4389820A438BB20A4389308A438B210A438B301A4381000A4381175A438D701A4385FA4A438B302A4389210A438A00AA438A190A438A284"%string;
    "A438A404A438CB34A438D701A43833B1A438823FA438D706A43860A9A438D1F5A438D049A4381800A4388201A438D13CA438D04AA4381000A4381175A4381000"%string;
    "A4381193A438D700A4385F74A438D700A4385F2BA4380C1FA4380D03A4388DC0A4381000A43811BDA4388190A4388204A438A280A438A00AA4380C03A4381502"%string;
    "A4388304A4389503A438CB35A438D70CA438414BA4388280A438800AA438D411A4381000A438110DA4381000A43811BDA438A280A438A00AA438D40AA438CB36"%string;
    "A4381000A438110DA438D706A438431BA438800AA4388180A4388280A4388404A438A004A4381000A438112AA4388004A438A001A4381000A438112AA4388001"%string;
    "A4380C03A4380902A438A00AA438D14AA438D048A4381000A4381175A4381000A4381193A438D700A4385F74A4380C1FA4380D06A4388DC0A4381000A43811BD"%string;
    "A438D70CA438414BA4380CC0A4380080A4380C03A4380101A4380CE0A43803A0A438CCB5A4381800A4388256A4380CC0A4380000A4380C03A4380101A4380CE0"%string;
    "A4380320A438CC21A4380C03A4381502A4380C30A4380120A438A304A4389503A438D70CA438674BA438D704A438471AA438A301A438800AA438A110A4388180"%string;
    "A438A204A43882A0A438A404A438AA40A4380C03A4381502A438AA01A4389503A438D178A438D049A4381000A4381175A4381000A4381193A438D700A4385F74"%string;
    "A4388301A438A00AA4388110A438A180A438A284A4388220A438A404A438D178A438D048A4381000A4381175A4381000A4381193A438D700A4385F74A438CB3A"%string;
    "A4388301A438A00AA438A190A438A280A4388224A438A404A438D700A4386041A438A402A438D178A438D049A4381000A4381175A4381000A4381193A438D700"%string;
    "A4385F74A4381800A43882ABA438A00AA438A190A438A2A4A438A404A438D700A4386041A438A402A438CB37A438D706A43860A9A438D13DA438D04AA4381800"%string;
    "A43882A7A438D13CA438D04BA4381000A4381175A438D700A4385FB4A4381000A4381175A4381000A4381193A438D700A4385F6BA4380C1FA4380D07A4388DC0"%string;
    "A4381000A43811BDA438D40DA4381000A438110DA438A208A4388204A438AA40A438CB38A438D706A4386129A438D70CA438608BA438D17AA438D047A438F006"%string;
    "A438D13DA438D04BA438F003A438D196A438D04BA4381000A4381175A4381000A4381193A438D700A4385F74A438D704A43835ACA4388311A4380CC0A4380000"%string;
    "A4380C03A4380101A4380CE0A4380320A438CC21A4380C1FA4380D03A4388DC0A4381000A43811BDA4380CC0A4380000A4380C07A4380C07A4380C03A4381502"%string;
    "A438A280A4388780A4380C60A4380700A4389503A438D704A438409CA438D110A438D04DA438F003A438D110A438D04DA438CB4AA4381000A4381175A438D700"%string;
    "A4385FB4A4380C03A4381502A438A240A438A180A438A201A438A780A4389503A438D114A438D04AA4380000A4380000A4380000A4380000A4380000A4380000"%string;
    "A4380000A4380000A4380000A4380000A4380000A4380000A438CB4BA4381000A4381175A438D700A4385FB4A4381800A4380BC3A4381800A4380BC3A4381000"%string;
    "A438110DA438D419A4381000A438110DA4381800A43801AEA4388110A438A180A4388280A438A404A438A00AA4388402A438CB42A438D706A4383DE9A438837A"%string;
    "A438D704A43835ACA4388380A4381000A4381175A438D700A4385FABA4380C1FA4380D06A4388DC0A4381000A43811BDA438D418A4381000A438110DA4380C1F"%string;
    "A4380D03A4388DC0A4381000A43811BDA4380C03A4381502A438A780A438A20EA4389503A438D704A438409CA438D114A438D04DA438F003A438D114A438D04D"%string;
    "A4380C03A4381502A438A003A4389503A438CB4CA4381000A4381175A438D700A4385FB4A4380C03A4381502A4380C60A4380720A438A220A4389503A438CB4D"%string;
    "A438D704A438409CA438D128A438D04FA438F003A438D128A438D04FA4381000A4381175A438D700A4385FB4A4380C03A4381502A4380C60A4380740A438A210"%string;
    "A4389503A438D704A438409CA438D114A438D04EA438F003A438D114A438D04EA438CB4EA4381000A4381175A438D700A4385FB4A4380C1FA4380D06A4388DC0"%string;
    "A4381000A43811BDA4380CC0A4380000A4380C07A4380C01A438D704A43840B5A4380C03A4381502A438A23CA4389503A438B920A4381000A4381175A438D71F"%string;
    "A4387FB4A4388710A4389920A4381000A4381175A438D71FA4386105A4386054A438FFFBA4381000A4381175A438D700A4385FA7A438FFEFA438A710A438B820"%string;
    "A4381000A4381175A438D71FA4387FA5A4389820A438A00AA4380C03A4381502A438A103A4389503A438BB20A438D706A43860DDA4380C1FA4380D07A4388DC0"%string;
    "A4381000A43811BDA4380C03A4381502A4380C30A4380120A438A304A4389503A438A190A438A2A0A438A404A438A00AA438A604A438D700A4386041A438A402"%string;
    "A438CB43A438D17AA438D048A4381000A4381175A4381000A4381193A438D700A4385F74A438609DA438D417A4381000A438110DA4381000A4381175A4381000"%string;
    "A4381193A438D700A4385F7AA438D704A4385F36A438D706A4386089A438D40CA4381000A438110DA438AA40A438BB10A438CB50A4381000A4381175A4381000"%string;
    "A4381193A438D71FA4385F75A4388190A43882A0A4388402A438A404A438800AA4388718A4389B10A4389B20A4381000A4381175A438D71FA4387FB5A438CB51"%string;
    "A4381000A4381175A438D71FA4385F94A438D706A4386089A438D141A438D043A438F003A438D141A438D044A4381000A4381175A438D700A4385FB4A438D700"%string;
    "A43860E5A438D704A43860BEA438D706A43829B1A43883FBA438F002A438A880A438A00AA438A190A4388220A438A280A438A404A438A620A4380C03A4381502"%string;
    "A438C5AAA4389503A438D700A4386061A438A402A438A480A438CB52A4381000A4381175A438D700A4385FBAA438D704A4385F76A438B920A438CB53A4381000"%string;
    "A4381175A438D71FA4387FB4A4389920A438A00AA438A190A438A280A4388220A438A404A438B580A438D700A43840A1A4380C03A4381502A438A602A4389503"%string;
    "A4380C03A4381502A438A310A4389503A438CB60A438D1C8A438D045A4381000A4381175A438D700A4385FB4A438AA10A438D70CA4382833A4388434A438F003"%string;
    "A4381000A4381238A438D70CA43840A6A4380C03A4381502A438A140A4389503A438D70CA43840A3A4380C03A4381502A438AC20A4389503A438A90CA438AA80"%string;
    "A4380C1FA4380D07A4388DC0A4381000A43811BDA438A00AA438A190A438A280A4388220A438A404A438B580A4380C03A4381502A438C500A4389503A43883E0"%string;
    "A438D700A43840C1A4380C03A4381502A438A602A4389503A4388E01A438D14AA438D058A438D70CA4384063A4381000A43811F2A438CB62A4381000A4381175"%string;
    "A438D704A4382E70A4388479A438D71FA438626EA438D704A4383868A438847DA438D70CA4382F18A4388483A438D700A4385DB5A4380C03A4381502A438C5AA"%string;
    "A4389503A4380CE0A4380320A4381800A4380D6FA4381800A4380F15A4381800A4380DAEA4380C03A4381502A438C5AAA4389503A4381800A4380FC9A4380C03"%string;
    "A4381502A438C5AAA4389503A4381800A4380D84A4381000A43816E5A438D70CA4385FA4A438A706A438D70CA438408BA438A701A438A502A438A880A4388801"%string;
    "A4388E01A438CA50A4381000A438852EA438CA51A438D70EA4382210A438852CA438D70CA4384084A438D705A4385EFDA438F007A4381000A43816E9A438D70C"%string;
    "A4385CA2A4381800A43815B2A438D70CA438605AA4389A10A4388E40A4388404A4381000A438174EA4388E80A438CA62A438D705A4383084A438850EA438BA10"%string;
    "A4380000A4380000A4381000A4388608A4380C03A4380100A438D702A4384638A438D1C4A438D044A4381000A43816E5A4381000A438170FA438D70CA4385F7C"%string;
    "A4388108A4380C1FA4380907A4388940A4381000A4381702A438A0C4A4388610A4388030A4388706A4380C07A4380B06A4388410A438A980A438A702A438D1C4"%string;
    "A438D045A4381000A43816E5A4381000A438170FA438D70CA4385F7CA4380C07A4380B06A438A030A438A610A438D700A4386041A438A501A438A108A438D1C4"%string;
    "A438D045A438CA63A4381000A43816E5A4381000A438170FA438D70CA4385F7CA438D702A4386078A4389920A438F003A438B920A438A880A4389A10A4381000"%string;
    "A43816E5A4381000A438170FA438D71FA4385F73A438F011A438D70CA438409BA4389920A4389A10A438FFF5A43880FEA4388610A4388501A4388980A4388702"%string;
    "A438A410A438A940A43881C0A438AE80A4381800A43884B3A4388804A438A704A4388788A438FF80A438BB08A4380C1FA4380907A4388940A4381000A4381702"%string;
    "A4388701A4388502A438A0F4A438A610A438D700A4386061A438A002A438A501A4388706A4388410A438A980A438CA64A438D110A438D040A4381000A43816E5"%string;
    "A4381000A438170FA438D70CA4385F7CA4388804A438A706A4381800A438848DA4381800A4381384A438D705A438405FA438F036A438D705A4386234A438D70C"%string;
    "A43841C6A438D70DA438419DA438D70DA438417EA438D704A4386127A4382951A4388543A438D70CA4384083A438D70CA4382E81A4388543A438F0C5A43880FE"%string;
    "A4388610A4388501A4388704A4380C30A4380410A438A701A438AC02A438A502A4388980A438CA60A438A004A438D70CA4386065A4381800A4388554A4388004"%string;
    "A438A804A4380C0FA4380602A4380C70A4380730A438A708A438D704A438609CA4380C1FA4380912A438F003A4380C1FA438090EA438A940A4381000A4381702"%string;
    "A438A780A438F0A2A438D704A43863EBA438D705A43843B1A438D702A438339CA4388607A4388788A4388704A4380C1FA4380907A4388940A4381000A4381702"%string;
    "A4388410A438A0F4A438A610A438D700A4386061A438A002A438A501A438A706A4388804A438A980A438D70CA4386085A4388701A4388502A4388C02A438A701"%string;
    "A438A502A438F082A438D70CA43860C5A438D702A4386053A438F07DA4381800A4388604A438D70DA4384D1BA438BA10A438AE40A4380CFCA43803B4A4380CFC"%string;
    "A43805B4A438D1C4A438D044A4381000A43816E5A4381000A438170FA438D70CA4385F7CA4388706A4388280A438ACE0A438A680A438A240A4381000A43816E5"%string;
    "A4381000A438170FA438D702A4385F79A4388240A438D702A4386898A438D702A4384957A4381800A43885F6A438A1C0A4380C3FA4380220A4380CFCA438030C"%string;
    "A4380CFCA438050CA4388108A4388640A438A120A438A640A4380C03A4380101A438A110A438D1C4A438D044A438CA84A4381000A43816E5A4381000A438170F"%string;
    "A438D70CA4385F7CA438D702A43860FCA4388210A4380CE0A4380320A4380CE0A4380520A438F002A438A210A438D1C4A438D043A4381000A43816E5A4381000"%string;
    "A438170FA438D70CA4385F7CA4388233A4380CFCA438036CA4380CFCA438056CA438D1C4A438D044A438CA85A4381000A43816E5A4381000A438170FA438D70C"%string;
    "A4385F7CA438A680A438A240A4381000A43816E5A4381000A438170FA438D702A4385F79A4388240A4380CFCA4380390A4380CFCA4380590A438D702A4386058"%string;
    "A438F002A438FEC7A43881C0A4388880A4388706A438CA61A438D1C4A438D054A4381000A43816E5A4381000A438170FA438D70CA4385F7DA438A706A438F004"%string;
    "A4388788A438A404A4388702A4380800A4388443A4388303A4388280A4389920A4388CE0A4388004A438A1C0A438D70EA438404AA438A280A438D702A4383BD0"%string;
    "A4388618A4380C3FA4380223A438F003A4380C3FA4380220A4380CFCA4380308A4380CFCA4380508A4388108A4388640A438A120A438A640A438D702A4386077"%string;
    "A4388103A438F003A4380C03A4380101A438A110A438D702A4386077A438A108A438F006A438D704A4386077A4388108A438F002A438A108A438D193A438D045"%string;
    "A438CA82A4381000A43816E5A438D70EA438606AA4381000A438170FA438D70CA4385F3CA438D702A43860FCA4388210A4380CE0A4380320A4380CE0A4380520"%string;
    "A438F002A438A210A438D1C4A438D043A4381000A43816E5A438D70EA438606AA4381000A438170FA438D70CA4385F3CA438D702A4383BD0A4388656A4380C3F"%string;
    "A438020CA438F002A438823FA4380CFCA438034CA4380CFCA438054CA438D1C4A438D044A4381000A43816E5A438D70EA438606AA4381000A438170FA438D70C"%string;
    "A4385F3CA438820CA438A360A438A560A438D1C4A438D043A438CA83A4381000A43816E5A438D70EA438606AA4381000A438170FA438D70CA4385F3CA438D70E"%string;
    "A438406AA4388680A438F002A438A680A438A240A4380C0FA4380604A4380C70A4380750A438A708A438D704A438609CA4380C1FA4380914A438F003A4380C1F"%string;
    "A4380910A438A940A4381000A4381702A438A780A4381000A43816E5A438D70EA438606AA4381000A438170FA438D702A438399CA4388689A4388240A4388788"%string;
    "A438D702A43863F8A438D705A438643CA438A402A438F012A4388402A438D705A438611BA438A401A438A302A438D702A438417DA438A440A438A280A438F008"%string;
    "A4388401A4388302A438D70CA4386060A438A301A438F002A4388301A438D70CA4384080A438D70EA438604AA438FF5FA438D705A4383CDDA43886B8A438FF5B"%string;
    "A4380CFCA4380390A4380CFCA4380590A4380800A4380C1FA4380D00A4388DC0A4381000A43811BDA438A504A4381800A4380FD3A438D70DA438407DA438A710"%string;
    "A438F002A438A710A4389580A4380C03A4381502A438A304A4389503A4380C1FA4380D07A4388DC0A4381000A43811BDA438CB81A438D70CA4384882A438D706"%string;
    "A438407AA438D70CA4384807A438D706A438405AA4388910A438A210A438D704A438611CA4380CC0A4380080A4380C03A4380101A4380CE0A43803A0A438CCB5"%string;
    "A4380CC0A4380080A4380C03A4380102A4380CE0A4380340A438CC52A438D706A43842BAA4380C03A4381502A4380C1FA4380F1CA4389503A4381000A4381175"%string;
    "A438D70CA4385FB3A4380C03A4381502A4388F1FA4389503A4381000A4381175A438D70CA4387F33A4388190A4388204A438F016A4380C03A4381502A4380C1F"%string;
    "A4380F1BA4389503A4381000A4381175A438D70CA4385FB3A4380C03A4381502A4388F1FA4389503A4381000A4381175A438D70CA4387F33A438D70CA4386047"%string;
    "A438F002A438F00CA438D403A438CB82A4381000A438110DA438D40AA4381000A438110DA438D70CA4384247A4381000A4381225A4388A40A4381000A4381118"%string;
    "A438A104A4381000A438112AA4388104A4381000A4381121A4380C03A4381502A438A704A4389503A438CB88A438F012A438A210A438A00AA438AA40A4381000"%string;
    "A4381118A438A104A4381000A438112AA4388104A4381000A4381121A438A190A438A284A438A404A4388A10A4388A80A438CB84A438D13EA438D05AA438D13E"%string;
    "A438D06BA4381000A4381175A438D700A4383559A438874BA438FFFBA438D700A438604BA438CB8AA4381000A4381175A438D700A4383659A4388754A438FFFB"%string;
    "A438D700A438606BA438CB8BA4385EEBA438D700A4386041A438A402A438CB8CA438D706A438609AA438D1F5A438D048A438F003A438D160A438D04BA4381000"%string;
    "A4381175A438D700A4385FB4A438CB8DA4388710A438D71FA4385FD4A438B920A4381000A4381175A438D71FA4387FB4A4389920A4381000A4381175A438D71F"%string;
    "A4386105A4386054A438FFFBA4381000A4381175A438D700A4385FABA438FFF0A438A710A438B820A4381000A4381175A438D71FA4387FA5A4389820A438D114"%string;
    "A438D040A4381000A4381175A438D700A4385FBAA438D704A4385F76A438D700A4385F34A438D700A4386081A438D706A438405AA438A480A438CB86A438D706"%string;
    "A438609AA438D1C8A438D045A438F003A438D17AA438D04BA4381000A4381175A438D700A4385FB4A4380CC0A4380000A4380C03A4380101A4380CE0A4380320"%string;
    "A438CC29A438A208A4388204A438D114A438D040A438D700A4385FF4A4381800A4380BC3A438A00AA4389308A438B210A438B301A4381000A4381175A438D701"%string;
    "A4385FA4A438B302A4389210A438800AA4381800A4380573A436A10EA4380572A436A10CA4380E47A436A10AA4380FD2A436A108A4381503A436A106A4380C0D"%string;
    "A436A104A43801ACA436A102A4380956A436A100A438001CA436A110A43800FFA436A016A4380020A436A012A4381FF8A436A014A4380000A43885F0A438A2A0"%string;
    "A4388880A4380D00A438C500A438800AA438AE01A436A164A4381013A436A166A4381014A436A168A4380F98A436A16AA4380DCAA436A16CA438109BA436A16E"%string;
    "A43810A2A436A170A4380F33A436A172A4380F6EA436A162A43800FFA436B87CA4388A45A436B87EA438AF8AA4385DAFA4388A63A438AF8AA4386CAFA4388A78"%string;
    "A438AF8AA43887AFA4388A90A438AF8AA43896AFA4388ACFA438028AA438ECAFA438211FA4380265A438CB02A4388FB4A438AF21A4386FA1A4381903A438028F"%string;
    "A4383D02A4382261A438AF21A4382EADA4382109A438E08FA438FFACA4382503A438AF4BA438EEAFA4384BEBA438AD35A43803AFA438421BA438AF42A4385CE1"%string;
    "A4388652A438AF49A438DCEFA43831E1A4388FFDA438AC28A4382EBFA4386DDAA4380274A43895ADA4382825A438E28FA438E4EFA438131BA43812ACA4382F10"%string;
    "A438EF31A4381F44A438EF13A438BF6CA438CF02A4387476A4381A12A438AE08A438BF6CA438CF02A438744AA438EF13A438AF08A43866AFA438085CA438E18F"%string;
    "A438E3ADA4382706A438E58FA438E9AFA4384091A438E08FA438E1ACA4382002A438AE03A438E18FA438E2E5A4388FE9A438AF3FA438E5F8A438E08FA438E7A0"%string;
    "A4380005A438028BA4380DAEA43813A0A4380105A438028BA43896AEA4380BA0A4380205A438028BA438C2AEA4380302A4388C18A438FC04A438F8FAA438EF69"%string;
    "A438FAFBA438E080A43815ADA4382343A438E08FA438FDACA438203DA438E08FA438E9A0A4380002A438AE35A438EE8FA438E800A438028CA438C8BFA4388FEB"%string;
    "A438D819A438D9EFA43864BFA4388FEFA438D819A438D9EFA4387402A43873A4A438AD50A43818EEA4388FFFA4380102A4388E1BA4380273A438D7EFA43847E5"%string;
    "A43885A6A438E485A438A5EEA4388FE7A43801AEA43833BFA4388F87A4380274A4384ABFA4388F8DA4380274A4384ABFA4388F93A4380274A4384ABFA4388F99"%string;
    "A4380274A4384ABFA4388F84A4380274A43853BFA4388F8AA4380274A43853BFA4388F90A4380274A43853BFA4388F96A4380274A4385302A4382261A438FFFE"%string;
    "A438EF96A438FEFCA43804F8A438FAFBA438E085A438A5E1A43885A6A438EF64A438D000A438E18FA438EAEFA4387402A43873F2A438AD50A43810E0A4388FE8"%string;
    "A438AC24A43806EEA4388FE7A43802AEA43804EEA4388FE7A43803FFA438FEFCA43804F8A438F9FAA438EF69A438FB02A4388CC8A438BF8FA438EBD8A43819D9"%string;
    "A438BF8FA438F3E2A4388FE8A438EF32A4384B02A4381A93A438DC19A438DD12A438E68FA438E8E3A4388FE9A4381B23A438AD37A43807E0A4388FFFA4384802"%string;
    "A438AE09A438EE8FA438E810A4381F00A438E48FA438FEE4A4388FFFA438028EA4381B02A43873D7A438EF47A438E585A438A6E4A43885A5A438EE8FA438E701"%string;
    "A438FFEFA43896FEA438FDFCA43804F8A438F9FAA438EF69A438FAFBA438028CA438C8BFA4388FEBA438D819A438D9EFA43864BFA4388FEFA438D819A438D9EF"%string;
    "A4387402A43873A4A438AD50A43827BFA4388FEDA438D819A438D9EFA43864BFA4388FF1A438D819A438D9EFA4387402A43873A4A438AD50A43811E2A4388FE8"%string;
    "A438E38FA438E9EFA4380258A4380F1BA43803ACA4382744A438AE09A438E08FA438FEE4A4388FFFA438028EA4381B02A4382261A438EE8FA438E700A438BF8F"%string;
    "A4388702A438744AA438BF8FA4388D02A438744AA438BF8FA4389302A438744AA438BF8FA4389902A438744AA438BF8FA4388402A4387453A438BF8FA4388A02"%string;
    "A4387453A438BF8FA4389002A4387453A438BF8FA4389602A4387453A438AE1FA43812E6A4388FE8A438E08FA438FFE4A4388FFEA438028DA4383E02A4388E1B"%string;
    "A4380273A438D7EFA43847E5A43885A6A438E485A438A5EEA4388FE7A43801FFA438FEEFA43896FEA438FDFCA43804F8A438F9FAA438EF69A438FAFBA4381F22"%string;
    "A438EE8FA438EB00A438EE8FA438EC00A438EE8FA438ED00A438EE8FA438EE00A4381F33A438EE8FA438E500A438EE8FA438E600A438BF53A4387D02A4387662"%string;
    "A438EF64A438BF8FA438E5D8A43819D9A438EF74A4380273A438BFEFA43847DDA43889DCA438D1FFA438B1FEA43813ADA4383BE0A4380D73A438BF8FA438EDD8"%string;
    "A43819D9A438EF64A438EF47A4380273A438A4ADA4385003A438DD89A438DCEFA43864BFA4388FEBA438D819A438D91AA43846DDA43889DCA43812ADA43832B0"%string;
    "A4380D42A438DC19A438DDFFA438FEEFA43896FEA438FDFCA43804F8A438F9FAA438EF69A438FAFBA4381F22A438D6FFA438FFEFA43803BFA4388FF3A438EF32"%string;
    "A4384B02A4381A93A438EF30A438D819A438D9EFA4387402A43873A4A438AC50A43804EFA43832EFA43864E0A4388FE9A43812EFA438121BA43810ACA4382FD9"%string;
    "A438EF03A438BF8FA438F348A438021AA43890ECA438FF19A438ECFFA438D001A438AE03A4380C01A43883A3A43800FAA438E18FA438FF1EA43810E5A4388FFF"%string;
    "A438FFFEA438EF96A438FEFDA438FC04A438725AA438725DA4387260A4387263A43871FAA43871FDA4387200A4387203A4388F4BA4388F4EA4388F51A4388F54"%string;
    "A4388F57A4388F5AA4388F5DA4388F60A438722AA438722DA4387230A4387233A438721EA4387221A4387224A4387227A4387212A4387215A4387218A438721B"%string;
    "A438724EA4387251A4387254A4387257A4387242A4387245A4387248A438724BA4387236A4387239A438723CA438723FA4388F84A4388F8AA4388F90A4388F96"%string;
    "A4388F9CA4388FA2A4388FA8A4388FAEA4388F87A4388F8DA4388F93A4388F99A4388F9FA4388FA5A4388FABA4388FB1A4388F63A4388F66A4388F69A4388F6C"%string;
    "A4388F6FA4388F72A4388F75A4388F78A4388F7BA438F8F9A438FAEFA43869FAA438FBE2A4388FFFA438AD30A43806D1A43800D3A43800AEA43804D1A43801D3"%string;
    "A4380FBFA4388D99A438D700A4380802A4387677A438EF13A438BF8DA438A1D7A4380008A4380276A43877ADA4383106A438D100A438D300A438AE04A438D101"%string;
    "A438D30FA438BF8DA438A9D7A4380008A4380276A43877EFA43813BFA4388DB1A438D700A4380802A4387677A438AD32A43806D1A43800D3A43800AEA43804D1"%string;
    "A43801D3A43803BFA4388DB9A438D700A4381802A4387677A438EF13A438BF8DA438D1D7A4380018A4380276A43877ADA4383304A438D101A438AE02A438D100"%string;
    "A438D300A438BF8DA438E9D7A4380010A4380276A43877EFA43813BFA4388DF9A438D700A4381002A4387677A4381F33A438E38FA438FDACA4383803A438AF8F"%string;
    "A43835ADA4383405A438E18FA438FBAEA43802D1A43800BFA4388E09A438D700A4381202A4387677A438AD35A43806D1A43801D3A43804AEA43804D1A43800D3"%string;
    "A43800BFA4386F8AA4380274A43876BFA4386BD0A4380274A438951AA43813BFA4386BD0A4380274A43876BFA4386D2CA4380274A43895ACA438280BA438BF6D"%string;
    "A4382F02A4387495A438AC28A43802AEA4380BADA4383504A438D101A438AE0DA438D10FA438AE09A438AD35A43804D1A43805AEA43802D1A4380FBFA4388F7E"%string;
    "A4380274A43876E3A4388FFCA438AC38A43805ADA4383618A438AE08A438BF71A4389D02A438744AA438AE0EA438D102A438BF8FA4388102A4387476A438BF71"%string;
    "A4389D02A4387476A438FFFEA438EF96A438FEFDA438FC04A438F91FA43833E3A4388FFDA438AD38A4380302A4388E1BA438FD04A43855B0A4382055A438B0A0"%string;
    "A43855B1A4382055A438B1A0A438FCB0A43822FCA438B0A2A438FCB1A43822FCA438B1A2A438FDADA438DACAA438ADDAA43897ADA438DA64A438ADDAA43820AD"%string;
    "A438DAFDA438ADDCA438CAADA438DC97A438ADDCA43864ADA438DCA7A438BF1EA43820BCA4383299A438ADFEA43885ADA438FE44A438ADFEA43830ADA438FEFF"%string;
    "A438AE00A438EBAEA43800AAA438AE00A43896AEA43800DDA438AD94A438CCADA4389499A438AD94A43888ADA43894FFA438AD94A438EEADA43894BBA438AD94"%string;
    "A438AAADA43894F9A438E28FA438FFEEA4388FFFA43800E3A4388FFDA438EE8FA438FD01A438EE8FA438FC01A438028EA4381BE6A4388FFFA438E78FA438FDEE"%string;
    "A4388FFCA43800EEA4388FE7A43800FDA4380400A436B85EA438211CA436B860A438216CA436B862A438212BA436B864A4384BE8A436B886A4384209A436B888"%string;
    "A43849DAA436B88AA438085AA436B88CA4383FDFA436B838A43800FFB8200010A4660003A4368528A4380000A43685F8A438AF86A43810AFA4388622A438AF86"%string;
    "A4384AAFA4388658A438AF86A43864AFA4388685A438AF86A438C4AFA43886CFA438A104A4380CE0A4388394A438AD20A43803AFA4382B67A438AF2AA438F0AF"%string;
    "A4382B8DA438BF6BA4387202A43872DCA438A106A43819E1A4388164A438BF6DA4385B02A43872BDA4380D13A438BF6DA4385802A43872BDA4380D13A438BF6D"%string;
    "A4386A02A43872BDA4380275A43812AFA438380DA4380D55A4385D07A438FFBFA4388B09A4380272A43891AFA4383EE2A438023DA438FFBFA4388B09A4380272"%string;
    "A4389AAFA43841A6A4380223A43824F8A438FAEFA43869BFA4386B9CA4380272A438DCE0A4388F7AA4381F01A4389E06A438E58FA4387A02A4387550A438EF96"%string;
    "A438FEFCA438AF06A4388702A4381CACA438F8F9A438FAEFA43869FBA438D78FA43897AEA43800BFA4386D4FA4380272A43891D3A43800A3A4381202A438AE1B"%string;
    "A438BF6DA43852EFA4381302A43872BDA438EF97A438D9BFA4386D55A4380272A438BD17A43813AEA438E6BFA4386D4FA4380272A4389AFFA438EF96A438FEFD"%string;
    "A438FCAFA4381C05A4380000A438021BA438F202A4388700A438AF1BA43873ADA4382003A4380206A4386EADA4382108A438E280A43851F7A43830E6A4388051"%string;
    "A438E180A438421EA43810E5A4388042A438E0FFA438EEE1A4388043A4381E10A438E580A43843E0A438FFEFA438AD20A43804EEA438804FA4381EAFA4380661"%string;
    "A438F8FAA438EF69A438E080A4384FACA4382417A438E080A43844ADA438241AA4380287A4382FE0A4388044A438AC24A43811BFA4388B0CA4380272A4389AAE"%string;
    "A4380902A43888C8A438028AA4389502A4388A8AA438EF96A438FEFCA43804F8A438E08FA43896A0A4380005A4380288A4386CAEA43838A0A4380105A4380287"%string;
    "A43875AEA43830A0A4380205A4380287A438B3AEA43828A0A4380305A4380287A438C9AEA43820A0A4380405A4380287A438D6AEA43818A0A4380505A4380288"%string;
    "A4381AAEA43810A0A4380605A4380288A43827AEA43808A0A4380705A4380288A43848AEA43800FCA43804F8A438FAEFA43869E0A4388018A438AD25A4382C02"%string;
    "A4388A67A438E184A4385DE5A4388F92A438E58FA43893E5A4388F94A438E58FA4389502A43888E6A438E184A438F759A4380FE5A4388F7BA438E58FA4387CE5"%string;
    "A4388F7DA438E58FA4387EEEA4388F96A43802AEA4380302A4388A8AA438EF96A438FEFCA43804F9A4380289A43819ACA4383009A438EE8FA4389603A4380288"%string;
    "A4388EAEA43804EEA4388F96A43804FDA43804FBA4380288A43855ADA4385004A438EE8FA4389602A438FF04A438F902A4388943A438E28FA438920CA438245A"%string;
    "A438F0E3A43884F7A4385BF0A4381B23A4389E0FA438028AA43852EEA4388F96A4380502A438888EA4380287A438FFAEA43804EEA4388F96A43806FDA43804F8"%string;
    "A438F9FAA438EF69A438FA1FA43844D2A43804BFA4388F7FA438DC19A438DD19A438829FA438F9FEA438EF96A438FEFDA438FC04A438FB02A4388855A438AD50"%string;
    "A43804EEA4388F96A43804FFA43804F8A438F9FAA438EF69A4380289A43819ACA4383009A438EE8FA4389607A4380288A4388EAEA4380702A4388A8AA438EE8F"%string;
    "A4389601A438EF96A438FEFDA438FC04A438FB02A4388855A438AD50A43804EEA4388F96A43806FFA43804F8A438FAE0A4388457A438E184A43858EFA43864E1"%string;
    "A4388F90A438D000A438EF74A4380271A438FFFEA438FC04A438F8FAA438EF69A438EE8FA4389601A438EE8FA4389004A438EE8FA4388F40A438BF8BA4380F02"%string;
    "A43872DCA438E584A4385DEEA4388F91A43877EFA43896FEA438FC04A438F8FAA438FBEFA43869E1A4388F92A438BF8BA4380F02A43872BDA438E18FA43893BF"%string;
    "A4388B12A4380272A438BDE1A4388F94A438BF8BA4381502A43872BDA438E18FA43895BFA4388B18A4380272A438BD02A43871E4A438EF47A438E484A43857E5"%string;
    "A4388458A438EF96A438FFFEA438FC04A438F8E0A4388018A438AD25A43815EEA4388F96A43800D0A43808E4A4388F92A438E48FA43893E4A4388F94A438E48F"%string;
    "A4389502A438888EA438FC04A438F9E2A438845DA438E38FA438910DA438345BA4380F1AA43832ACA4383C09A4380C34A4385BF0A438E784A438F7AEA43804EE"%string;
    "A43884F7A438F0E3A4388F91A4385B0FA4381B23A438AC37A4380AE3A43884F7A4381E32A438E784A438F7AEA43800FDA43804F8A438FAEFA43869FAA438FBD2"%string;
    "A43801D3A43804D6A4388F92A438D78FA4387BEFA43897D9A438EF96A438D81BA438109EA4380480A438DCD2A4380016A4381783A4389FEDA438FFFEA438EF96"%string;
    "A438FEFCA43804F8A438F9FAA438FBEFA43879FBA438CFFBA438D200A438BE00A43800EFA4381229A43840D0A438041CA438081AA43810BFA4388B27A4380272"%string;
    "A438BD02A43889EEA438BF8FA4387FEFA4381249A438021AA43891D8A43819D9A438EF74A4380271A438CCEFA43847DDA43889DCA43818A8A4380002A438D202"%string;
    "A4388990A43812A2A43804C8A438FFC7A438FFEFA43897FFA438FEFDA438FC04A438F8F9A438FAFBA438EF79A438FBBFA4388F7FA438EF12A4384902A4381A91"%string;
    "A438D819A438D9EFA43864BFA4388F87A438EF12A4384902A4381A91A438D819A438D9EFA4387489A4380271A438B1ADA438502CA438EF46A438DC19A438DDA2"%string;
    "A4380006A438BF8BA4380F02A43872DCA438A201A43806BFA4388B12A4380272A438DCA2A4380206A438BF8BA4381502A43872DCA438BF8BA4381802A43872DC"%string;
    "A438BF8FA4387B1AA43892DDA438FFEFA43897FFA438FEFDA438FC04A438F9F8A438FBEFA43879FBA438028AA438A0BFA4388B1BA4380272A4389A16A438BF8B"%string;
    "A4381E02A43872DCA438AC28A43802AEA438F4D6A4380000A438BF8BA4381B02A4387291A438AE03A438028AA4388AD2A43800D7A4380000A438E18FA4388F1B"%string;
    "A43812A1A4380004A438EF67A438AE1DA438EF12A438BF8BA4382102A43872BDA43812BFA4388B24A4380272A438DCEFA43864ADA4384F04A4387EFFA438FF16"%string;
    "A4380271A438CCAEA438D7BFA4388B2DA4380272A43891FFA438EF97A438FFFCA438FD04A438F8FAA438EF69A438D104A438BF8FA43892D8A43810DCA4381981"%string;
    "A4389FF9A438EF96A438FEFCA43804F8A438FBFAA438EF69A438BF8FA43887D0A43808D1A438FF02A4388A7CA438EF96A438FEFFA438FC04A438F8FAA438EF69"%string;
    "A438DD19A438809FA438FBEFA43896FEA438FC04A438F8E0A4388044A438F624A438E480A43844FCA43804F8A438E080A4384FF6A43824E4A438804FA438FC04"%string;
    "A438F8FAA438FBEFA43879FBA438BF8BA4382A02A4387291A438BF8BA4383302A4387291A438D68BA4382DD7A4388B30A4380116A438AD50A4380CBFA4388B2A"%string;
    "A4380272A4389ABFA4388B33A4380272A4389AFFA438EF97A438FFFEA438FC04A438F8F9A438FAEFA43849F8A438CCF8A438EF96A4380272A4389A1FA43822C7"%string;
    "A438BD02A43872DCA438AC28A43816ACA4383008A4380271A438E4EFA4386712A438AEEEA438D700A4380202A43871FFA438AC50A43805AEA438E3D7A4380000"%string;
    "A438FCC4A438FCEFA43894FEA438FDFCA43804CCA438C010A43844ACA4380030A438BCE0A43874BCA438E0B8A438BCE0A438FCBCA438E011A438ACB4A438DDAC"%string;
    "A438B6FAA438ACB4A438F0ACA438BA92A438ACB4A438FFACA4385600A438ACB4A438CCACA438B6FFA438B034A436B818A4382AE4A436B81AA438380AA436B81C"%string;
    "A4383EDDA436B81EA43841A3A436B850A4380684A436B852A4381C02A436B878A4381B70A436B884A4380633A436B832A43800FFA436ACFCA4380100A436ACFE"%string;
    "A4388000A436AD00A43827FFA436AD02A4383C67A436AD04A438FFFEA436AD06A438FFFFA436AD08A438000FA436AD00A43847FFA436AD02A4383E67A436AD04"%string;
    "A438FFFEA436AD06A438FFFFA436AD08A438000FA436AD00A43867FFA436AD02A4383067A436AD04A438FFFEA436AD06A438FFFFA436AD08A438000FA436AD00"%string;
    "A43887FFA436AD02A4383267A436AD04A438FFFEA436AD06A438FFFFA436AD08A438000FA436AD00A438A7FFA436AD02A4383467A436AD04A438FFFEA436AD06"%string;
    "A438FFFFA436AD08A438000FA436AD00A438CFFFA436AD02A4383667A436AD04A438FFFEA436AD06A438FFFFA436AD08A438000FA436AD00A438EFFFA436AD02"%string;
    "A4383867A436AD04A438FFFEA436AD06A438FFFFA436AD08A438000FA436AD00A4380FFFA436AD02A4383A67A436AD04A438FFFEA436AD06A438FFFFA436AD08"%string;
    "A438000FA436AD00A4382FFFA436AD02A4383CE7A436AD04A438FFFEA436AD06A438FFFFA436AD08A4380007A436AD00A4384FFFA436AD02A4383EE7A436AD04"%string;
    "A438FFFEA436AD06A438FFFFA436AD08A4380007A436AD00A4386FFFA436AD02A43830E7A436AD04A438FFFEA436AD06A438FFFFA436AD08A4380007A436AD00"%string;
    "A4388FFFA436AD02A43832E7A436AD04A438FFFEA436AD06A438FFFFA436AD08A4380007A436AD00A438AFFFA436AD02A43834E7A436AD04A4381008A436AD06"%string;
    "A438FFF4A436AD08A4380007A436AD00A438FFFFA436AD02A43836FFA436AD04A4381048A436AD06A438FFF5A436AD08A4380007A436AD00A438FFFFA436AD02"%string;
    "A43838FFA436AD04A4381088A436AD06A438FFF6A436AD08A4380007A436AD00A438FFFFA436AD02A4383AFFA436AD04A43810C8A436AD06A438F417A436AD08"%string;
    "A4380007A436AD00A438FFFFA436AD02A438FFFFA436AD04A4381109A436AD06A438F434A436AD08A4380007A436AD00A4380207A436AD02A438FFE2A436AD04"%string;
    "A4381149A436AD06A4380455A436AD08A4380002A436AD00A4382227A436AD02A438FFE2A436AD04A4381189A436AD06A4381476A436AD08A4380002A436AD00"%string;
    "A4384247A436AD02A438FFE2A436AD04A43811C9A436AD06A4382517A436AD08A4380002A436AD00A4386267A436AD02A438FFE2A436AD04A4381209A436AD06"%string;
    "A4383534A436AD08A4380002A436AD00A4380007A436AD02A438FFE0A436AD04A4381249A436AD06A4380555A436AD08A4380002A436AD00A4382027A436AD02"%string;
    "A438FFE0A436AD04A4381289A436AD06A4381576A436AD08A4380002A436AD00A4384047A436AD02A438FFE0A436AD04A43812C9A436AD06A4382517A436AD08"%string;
    "A4380002A436AD00A4386067A436AD02A438FFE0A436AD04A4381309A436AD06A4383534A436AD08A4380002A436AD00A4388087A436AD02A438FFE0A436AD04"%string;
    "A4381349A436AD06A4380555A436AD08A4380002A436AD00A438A0A7A436AD02A438FFE0A436AD04A4381389A436AD06A4381576A436AD08A4380002A436AD00"%string;
    "A438C0C7A436AD02A438FFE0A436AD04A43813C9A436AD06A4382517A436AD08A4380002A436AD00A438E0E7A436AD02A438FFE0A436AD04A438140BA436AD06"%string;
    "A4383534A436AD08A4380002A436AD00A4380107A436AD02A438FFE1A436AD04A438144BA436AD06A4380555A436AD08A4380002A436AD00A4382127A436AD02"%string;
    "A438FFE1A436AD04A438148BA436AD06A4381576A436AD08A4380002A436AD00A4384147A436AD02A438FFE1A436AD04A43814CBA436AD06A4382417A436AD08"%string;
    "A4380002A436AD00A4386167A436AD02A438FFE1A436AD04A4385109A436AD06A4383434A436AD08A4380002A436AD00A4388287A436AD02A438FFE2A436AD04"%string;
    "A4385149A436AD06A4380455A436AD08A4380002A436AD00A438A2A7A436AD02A438FFE2A436AD04A4385189A436AD06A4381476A436AD08A4380002A436AD00"%string;
    "A438C2C7A436AD02A438FFE2A436AD04A43851C9A436AD06A4382417A436AD08A4380002A436AD00A438E2E7A436AD02A438FFE2A436AD04A4385009A436AD06"%string;
    "A4383434A436AD08A4380002A436AD00A4380A0FA436AD02A438FFE2A436AD04A4385049A436AD06A4380455A436AD08A4380002A436AD00A4382A2FA436AD02"%string;
    "A438FFE2A436AD04A4385089A436AD06A4381476A436AD08A4380002A436AD00A4384A4FA436AD02A438FFE2A436AD04A43850C9A436AD06A4382517A436AD08"%string;
    "A4380002A436AD00A4386A6FA436AD02A438FFE2A436AD04A4385209A436AD06A4383534A436AD08A4380002A436AD00A438080FA436AD02A438FFE0A436AD04"%string;
    "A4385249A436AD06A4380555A436AD08A4380002A436AD00A438282FA436AD02A438FFE0A436AD04A4385289A436AD06A4381576A436AD08A4380002A436AD00"%string;
    "A438484FA436AD02A438FFE0A436AD04A43852C9A436AD06A4382517A436AD08A4380002A436AD00A438686FA436AD02A438FFE0A436AD04A4385309A436AD06"%string;
    "A4383534A436AD08A4380002A436AD00A438888FA436AD02A438FFE0A436AD04A4385349A436AD06A4380555A436AD08A4380002A436AD00A438A8AFA436AD02"%string;
    "A438FFE0A436AD04A4385389A436AD06A4381576A436AD08A4380002A436AD00A438C8CFA436AD02A438FFE0A436AD04A43853C9A436AD06A4382517A436AD08"%string;
    "A4380002A436AD00A438E8EFA436AD02A438FFE0A436AD04A438550BA436AD06A4383534A436AD08A4380002A436AD00A438090FA436AD02A438FFE1A436AD04"%string;
    "A438554BA436AD06A4380555A436AD08A4380002A436AD00A438292FA436AD02A438FFE1A436AD04A438558BA436AD06A4381576A436AD08A4380002A436AD00"%string;
    "A438494FA436AD02A438FFE1A436AD04A43855CBA436AD06A4382417A436AD08A4380002A436AD00A438696FA436AD02A438FFE1A436AD04A4389209A436AD06"%string;
    "A4383434A436AD08A4380002A436AD00A4388A8FA436AD02A438FFE2A436AD04A4389249A436AD06A4380455A436AD08A4380002A436AD00A438AAAFA436AD02"%string;
    "A438FFE2A436AD04A4389289A436AD06A4381476A436AD08A4380002A436AD00A438CACFA436AD02A438FFE2A436AD04A43892C9A436AD06A4382417A436AD08"%string;
    "A4380002A436AD00A438EAEFA436AD02A438FFE2A436AD04A4389009A436AD06A4383434A436AD08A4380002A436AD00A4381217A436AD02A438FFE2A436AD04"%string;
    "A4389049A436AD06A4380455A436AD08A4380002A436AD00A4383237A436AD02A438FFE2A436AD04A4389089A436AD06A4381476A436AD08A4380002A436AD00"%string;
    "A4385257A436AD02A438FFE2A436AD04A43890C9A436AD06A4382517A436AD08A4380002A436AD00A4387277A436AD02A438FFE2A436AD04A4389109A436AD06"%string;
    "A4383534A436AD08A4380002A436AD00A4381017A436AD02A438FFE0A436AD04A4389149A436AD06A4380555A436AD08A4380002A436AD00A4383037A436AD02"%string;
    "A438FFE0A436AD04A4389189A436AD06A4381576A436AD08A4380002A436AD00A4385057A436AD02A438FFE0A436AD04A43891C9A436AD06A4382517A436AD08"%string;
    "A4380002A436AD00A4387077A436AD02A438FFE0A436AD04A4389309A436AD06A4383534A436AD08A4380002A436AD00A4389097A436AD02A438FFE0A436AD04"%string;
    "A4389349A436AD06A4380555A436AD08A4380002A436AD00A438B0B7A436AD02A438FFE0A436AD04A4389389A436AD06A4381576A436AD08A4380002A436AD00"%string;
    "A438D0D7A436AD02A438FFE0A436AD04A43893C9A436AD06A4382517A436AD08A4380002A436AD00A438F0F7A436AD02A438FFE0A436AD04A438960BA436AD06"%string;
    "A4383534A436AD08A4380002A436AD00A4381117A436AD02A438FFE1A436AD04A438964BA436AD06A4380555A436AD08A4380002A436AD00A4383137A436AD02"%string;
    "A438FFE1A436AD04A438968BA436AD06A4381576A436AD08A4380002A436AD00A4385157A436AD02A438FFE1A436AD04A43896CBA436AD06A4382417A436AD08"%string;
    "A4380002A436AD00A4387177A436AD02A438FFE1A436AD04A438D309A436AD06A4383434A436AD08A4380002A436AD00A4389297A436AD02A438FFE2A436AD04"%string;
    "A438D349A436AD06A4380455A436AD08A4380002A436AD00A438B2B7A436AD02A438FFE2A436AD04A438D389A436AD06A4381476A436AD08A4380002A436AD00"%string;
    "A438D2D7A436AD02A438FFE2A436AD04A438D3C9A436AD06A4382417A436AD08A4380002A436AD00A438F2F7A436AD02A438FFE2A436AD04A438D009A436AD06"%string;
    "A4383434A436AD08A4380002A436AD00A4381A1FA436AD02A438FFE2A436AD04A438D049A436AD06A4380455A436AD08A4380002A436AD00A4383A3FA436AD02"%string;
    "A438FFE2A436AD04A438D089A436AD06A4381476A436AD08A4380002A436AD00A4385A5FA436AD02A438FFE2A436AD04A438D0C9A436AD06A4382517A436AD08"%string;
    "A4380002A436AD00A4387A7FA436AD02A438FFE2A436AD04A438D109A436AD06A4383534A436AD08A4380002A436AD00A438181FA436AD02A438FFE0A436AD04"%string;
    "A438D149A436AD06A4380555A436AD08A4380002A436AD00A438383FA436AD02A438FFE0A436AD04A438D189A436AD06A4381576A436AD08A4380002A436AD00"%string;
    "A438585FA436AD02A438FFE0A436AD04A438D1C9A436AD06A4382517A436AD08A4380002A436AD00A438787FA436AD02A438FFE0A436AD04A438D209A436AD06"%string;
    "A4383534A436AD08A4380002A436AD00A438989FA436AD02A438FFE0A436AD04A438D249A436AD06A4380555A436AD08A4380002A436AD00A438B8BFA436AD02"%string;
    "A438FFE0A436AD04A438D289A436AD06A4381576A436AD08A4380002A436AD00A438D8DFA436AD02A438FFE0A436AD04A438D2C9A436AD06A4382517A436AD08"%string;
    "A4380002A436AD00A438F8FFA436AD02A438FFE0A436AD04A438D70BA436AD06A4383534A436AD08A4380002A436AD00A438191FA436AD02A438FFE1A436AD04"%string;
    "A438D74BA436AD06A4380555A436AD08A4380002A436AD00A438393FA436AD02A438FFE1A436AD04A438D78BA436AD06A4381576A436AD08A4380002A436AD00"%string;
    "A438595FA436AD02A438FFE1A436AD04A438D7CBA436AD06A4382417A436AD08A4380002A436AD00A438797FA436AD02A438FFE1A436AD04A438000DA436AD06"%string;
    "A4383434A436AD08A4380002A436AD00A4389A9FA436AD02A438FFE2A436AD04A438004DA436AD06A4380455A436AD08A4380002A436AD00A438BABFA436AD02"%string;
    "A438FFE2A436AD04A438008DA436AD06A4381476A436AD08A4380002A436AD00A438DADFA436AD02A438FFE2A436AD04A43800CDA436AD06A4382C17A436AD08"%string;
    "A4380002A436AD00A438FAF8A436AD02A438FFE2A436AD04A438400DA436AD06A4383C34A436AD08A4380002A436AD00A4388187A436AD02A438FFE1A436AD04"%string;
    "A438404DA436AD06A4380C55A436AD08A4380002A436AD00A438A1A7A436AD02A438FFE1A436AD04A438408DA436AD06A4381C76A436AD08A4380002A436AD00"%string;
    "A438C1C7A436AD02A438FFE1A436AD04A43840CDA436AD06A4382C97A436AD08A4380002A436AD00A438E1E7A436AD02A438FFE1A436AD04A438800DA436AD06"%string;
    "A4383CB4A436AD08A4380002A436AD00A438898FA436AD02A438FFE1A436AD04A438804DA436AD06A4380CD5A436AD08A4380002A436AD00A438A9AFA436AD02"%string;
    "A438FFE1A436AD04A438808DA436AD06A4381CF6A436AD08A4380002A436AD00A438C9CFA436AD02A438FFE1A436AD04A43880CDA436AD06A4382D17A436AD08"%string;
    "A4380002A436AD00A438E9EFA436AD02A438FFE1A436AD04A438C00DA436AD06A4383D34A436AD08A4380002A436AD00A4389197A436AD02A438FFE1A436AD04"%string;
    "A438C04DA436AD06A4380D55A436AD08A4380002A436AD00A438B1B7A436AD02A438FFE1A436AD04A438C08DA436AD06A4381D76A436AD08A4380002A436AD00"%string;
    "A438D1D7A436AD02A438FFE1A436AD04A438C0CDA436AD06A4382D97A436AD08A4380002A436AD00A438F1F7A436AD02A438FFE1A436AD04A438FFFFA436AD06"%string;
    "A4383DBFA436AD08A4380002A436AD00A438999FA436AD02A438FFE1A436AD04A438FFFFA436AD06A4380DDFA436AD08A4380002A436AD00A438B9BFA436AD02"%string;
    "A438FFE1A436AD04A438FFFFA436AD06A4381DFFA436AD08A4380002A436AD00A438D9DFA436AD02A438FFE1A436AD04A438FFFFA436AD06A4382FFFA436AD08"%string;
    "A4380002A436AD00A438F9FFA436AD02A438FFE1A436AD04A438FFFFA436AD06A4383FFFA436AD08A4380002A436AD00A438D7FFA436AD02A438FFE7A436AD04"%string;
    "A438FFFFA436AD06A438FFFFA436AD08A4380007A436AD00A438F7FFA436AD02A438FFE7A436AD04A438FFFFA436AD06A438FFFFA436AD08A4380007A436AD00"%string;
    "A43817FFA436AD02A438FFE7A436AD04A438FFFFA436AD06A438FFFFA436AD08A4380007A436AD00A43837FFA436AD02A4383D67A436AD04A438FFFEA436AD06"%string;
    "A438FFFFA436AD08A4380007A436AD00A43857FFA436AD02A4383F67A436AD04A438FFFEA436AD06A438FFFFA436AD08A4380007A436AD00A43877FFA436AD02"%string;
    "A4383167A436AD04A438FFFEA436AD06A438FFFFA436AD08A4380007A436AD00A43897FFA436AD02A4383367A436AD04A438FFFEA436AD06A438FFFFA436AD08"%string;
    "A4380007A436AD00A438B7FFA436AD02A4383567A436AD04A438FFFEA436AD06A438FFFFA436AD08A4380007A436AD00A438DFFFA436AD02A4383767A436AD04"%string;
    "A438FFFEA436AD06A438FFFFA436AD08A4380007A436AD00A438FFFFA436AD02A4383967A436AD04A438FFFEA436AD06A438FFFFA436AD08A4380007A436AD00"%string;
    "A4381FFFA436AD02A4383B67A436AD04A438FFFEA436AD06A438FFFFA436AD08A4380007A436AD00A4383FFFA436AD02A4383DE7A436AD04A438FFFEA436AD06"%string;
    "A438FFFFA436AD08A4380007A436AD00A4385FFFA436AD02A4383FE7A436AD04A438FFFEA436AD06A438FFFFA436AD08A4380007A436AD00A4387FFFA436AD02"%string;
    "A43831E7A436AD04A438FFFEA436AD06A438FFFFA436AD08A4380007A436AD00A4389FFFA436AD02A43833E7A436AD04A438FFFEA436AD06A438FFFFA436AD08"%string;
    "A4380007A436AD00A438BFFFA436AD02A43835E7A436AD04A438FFFEA436AD06A438FFFFA436AD08A4380007A436AD00A43807FFA436AD02A43837E6A436AD04"%string;
    "A438FFFEA436AD06A438FFFFA436AD08A4380007A436AD00A43827FFA436AD02A43839E6A436AD04A438FFFEA436AD06A438FFFFA436AD08A4380007A436AD00"%string;
    "A43847FFA436AD02A4383BE6A436AD04A438FFFEA436AD06A438FFFFA436AD08A4380007A436AD00A43867FFA436AD02A4382066A436AD04A438FFFEA436AD06"%string;
    "A438FFFFA436AD08A4380007A436AD00A43807FFA436AD02A4382264A436AD04A438FFFEA436AD06A438FFFFA436AD08A4380007A436AD00A43827FFA436AD02"%string;
    "A4382464A436AD04A438FFFEA436AD06A438FFFFA436AD08A4380007A436AD00A43847FFA436AD02A4382664A436AD04A438FFFEA436AD06A438FFFFA436AD08"%string;
    "A4380007A436AD00A43867FFA436AD02A4380064A436AD04A438FFFEA436AD06A438FFFFA436AD08A4380007A436AD00A43887FFA436AD02A4380264A436AD04"%string;
    "A438FFFEA436AD06A438FFFFA436AD08A4380007A436AD00A438A7FFA436AD02A4380464A436AD04A438FFFEA436AD06A438FFFFA436AD08A4380007A436AD00"%string;
    "A438C7FFA436AD02A4380664A436AD04A438FFFEA436AD06A438FFFFA436AD08A4380007A436AD00A438E7FFA436AD02A4380864A436AD04A438FFFEA436AD06"%string;
    "A438FFFFA436AD08A4380007A436AD00A43807FFA436AD02A4380A65A436AD04A438FFFEA436AD06A438FFFFA436AD08A4380007A436AD00A43827FFA436AD02"%string;
    "A4380C65A436AD04A438FFFEA436AD06A438FFFFA436AD08A4380007A436AD00A43847FFA436AD02A4380E65A436AD04A438FFFEA436AD06A438FFFFA436AD08"%string;
    "A4380007A436AD00A43867FFA436AD02A4381065A436AD04A438FFFEA436AD06A438FFFFA436AD08A4380007A436AD00A43887FFA436AD02A4381266A436AD04"%string;
    "A438FFFEA436AD06A438FFFFA436AD08A4380007A436AD00A438A7FFA436AD02A4381466A436AD04A438FFFEA436AD06A438FFFFA436AD08A4380007A436AD00"%string;
    "A438C7FFA436AD02A4381666A436AD04A438FFFEA436AD06A438FFFFA436AD08A4380007A436AD00A438E7FFA436AD02A4382866A436AD04A438FFFEA436AD06"%string;
    "A438FFFFA436AD08A4380007A436AD00A4380FFFA436AD02A4382A66A436AD04A438FFFEA436AD06A438FFFFA436AD08A4380007A436AD00A4382FFFA436AD02"%string;
    "A4382C66A436AD04A438FFFEA436AD06A438FFFFA436AD08A4380007A436AD00A4384FFFA436AD02A4382E66A436AD04A438FFFEA436AD06A438FFFFA436AD08"%string;
    "A4380007A436AD00A4386FFFA436AD02A43820E6A436AD04A438FFFEA436AD06A438FFFFA436AD08A4380007A436AD00A4380FFFA436AD02A43822E4A436AD04"%string;
    "A438FFFEA436AD06A438FFFFA436AD08A4380007A436AD00A4382FFFA436AD02A43824E4A436AD04A438FFFEA436AD06A438FFFFA436AD08A4380007A436AD00"%string;
    "A4384FFFA436AD02A43826E4A436AD04A438FFFEA436AD06A438FFFFA436AD08A4380007A436AD00A4386FFFA436AD02A43800E4A436AD04A438FFFEA436AD06"%string;
    "A438FFFFA436AD08A4380007A436AD00A4388FFFA436AD02A43802E4A436AD04A438FFFEA436AD06A438FFFFA436AD08A4380007A436AD00A438AFFFA436AD02"%string;
    "A43804E4A436AD04A438FFFEA436AD06A438FFFFA436AD08A4380007A436AD00A438CFFFA436AD02A43806E4A436AD04A438FFFEA436AD06A438FFFFA436AD08"%string;
    "A4380007A436AD00A438EFFFA436AD02A43808E4A436AD04A438FFFEA436AD06A438FFFFA436AD08A4380007A436AD00A4380FFFA436AD02A4380AE5A436AD04"%string;
    "A438FFFEA436AD06A438FFFFA436AD08A4380007A436AD00A4382FFFA436AD02A4380CE5A436AD04A438FFFEA436AD06A438FFFFA436AD08A4380007A436AD00"%string;
    "A4384FFFA436AD02A4380EE5A436AD04A438FFFEA436AD06A438FFFFA436AD08A4380007A436AD00A4386FFFA436AD02A43810E5A436AD04A438FFFEA436AD06"%string;
    "A438FFFFA436AD08A4380007A436AD00A4388FFFA436AD02A43812E6A436AD04A438FFFEA436AD06A438FFFFA436AD08A4380007A436AD00A438AFFFA436AD02"%string;
    "A43814E6A436AD04A438FFFEA436AD06A438FFFFA436AD08A4380007A436AD00A438CFFFA436AD02A43816E6A436AD04A438FFFEA436AD06A438FFFFA436AD08"%string;
    "A4380007A436AD00A438EFFFA436AD02A43828E6A436AD04A438FFFEA436AD06A438FFFFA436AD08A4380007A436AD00A43817FFA436AD02A4382AE6A436AD04"%string;
    "A438FFFEA436AD06A438FFFFA436AD08A4380007A436AD00A43837FFA436AD02A4382CE6A436AD04A438FFFEA436AD06A438FFFFA436AD08A4380007A436AD00"%string;
    "A43857FFA436AD02A4382EE6A436AD04A438FFFEA436AD06A438FFFFA436AD08A4380007A436AD00A43877FFA436AD02A4382166A436AD04A438FFFEA436AD06"%string;
    "A438FFFFA436AD08A4380007A436AD00A43817FFA436AD02A4382364A436AD04A438FFFEA436AD06A438FFFFA436AD08A4380007A436AD00A43837FFA436AD02"%string;
    "A4382564A436AD04A438FFFEA436AD06A438FFFFA436AD08A4380007A436AD00A43857FFA436AD02A4382764A436AD04A438FFFEA436AD06A438FFFFA436AD08"%string;
    "A4380007A436AD00A43877FFA436AD02A4380164A436AD04A438FFFEA436AD06A438FFFFA436AD08A4380007A436AD00A43897FFA436AD02A4380364A436AD04"%string;
    "A438FFFEA436AD06A438FFFFA436AD08A4380007A436AD00A438B7FFA436AD02A4380564A436AD04A438FFFEA436AD06A438FFFFA436AD08A4380007A436AD00"%string;
    "A438D7FFA436AD02A4380764A436AD04A438FFFEA436AD06A438FFFFA436AD08A4380007A436AD00A438F7FFA436AD02A4380964A436AD04A438FFFEA436AD06"%string;
    "A438FFFFA436AD08A4380007A436AD00A43817FFA436AD02A4380B65A436AD04A438FFFEA436AD06A438FFFFA436AD08A4380007A436AD00A43837FFA436AD02"%string;
    "A4380D65A436AD04A438FFFEA436AD06A438FFFFA436AD08A4380007A436AD00A43857FFA436AD02A4380F65A436AD04A438FFFEA436AD06A438FFFFA436AD08"%string;
    "A4380007A436AD00A43877FFA436AD02A4381165A436AD04A438FFFEA436AD06A438FFFFA436AD08A4380007A436AD00A43897FFA436AD02A4381366A436AD04"%string;
    "A438FFFEA436AD06A438FFFFA436AD08A4380007A436AD00A438B7FFA436AD02A4381566A436AD04A438FFFEA436AD06A438FFFFA436AD08A4380007A436AD00"%string;
    "A438D7FFA436AD02A4381766A436AD04A438FFFEA436AD06A438FFFFA436AD08A4380007A436AD00A438F7FFA436AD02A4382966A436AD04A438FFFEA436AD06"%string;
    "A438FFFFA436AD08A4380007A436AD00A4381FFFA436AD02A4382B66A436AD04A438FFFEA436AD06A438FFFFA436AD08A4380007A436AD00A4383FFFA436AD02"%string;
    "A4382D66A436AD04A438FFFEA436AD06A438FFFFA436AD08A4380007A436AD00A4385FFFA436AD02A4382F66A436AD04A438FFFEA436AD06A438FFFFA436AD08"%string;
    "A4380007A436AD00A4387FFFA436AD02A43821E6A436AD04A438FFFEA436AD06A438FFFFA436AD08A4380007A436AD00A4381FFFA436AD02A43823E4A436AD04"%string;
    "A438FFFEA436AD06A438FFFFA436AD08A4380007A436AD00A4383FFFA436AD02A43825E4A436AD04A438FFFEA436AD06A438FFFFA436AD08A4380007A436AD00"%string;
    "A4385FFFA436AD02A43827E4A436AD04A438FFFEA436AD06A438FFFFA436AD08A4380007A436AD00A4387FFFA436AD02A43801E4A436AD04A438FFFEA436AD06"%string;
    "A438FFFFA436AD08A4380007A436AD00A4389FFFA436AD02A43803E4A436AD04A438FFFEA436AD06A438FFFFA436AD08A4380007A436AD00A438BFFFA436AD02"%string;
    "A43805E4A436AD04A438FFFEA436AD06A438FFFFA436AD08A4380007A436AD00A438DFFFA436AD02A43807E4A436AD04A438FFFEA436AD06A438FFFFA436AD08"%string;
    "A4380007A436AD00A438FFFFA436AD02A43809E4A436AD04A438FFFEA436AD06A438FFFFA436AD08A4380007A436AD00A4381FFFA436AD02A4380BE5A436AD04"%string;
    "A438FFFEA436AD06A438FFFFA436AD08A4380007A436AD00A4383FFFA436AD02A4380DE5A436AD04A438FFFEA436AD06A438FFFFA436AD08A4380007A436AD00"%string;
    "A4385FFFA436AD02A4380FE5A436AD04A438FFFEA436AD06A438FFFFA436AD08A4380007A436AD00A4387FFFA436AD02A43811E5A436AD04A438FFFEA436AD06"%string;
    "A438FFFFA436AD08A4380007A436AD00A4389FFFA436AD02A43813E6A436AD04A438FFFEA436AD06A438FFFFA436AD08A4380007A436AD00A438BFFFA436AD02"%string;
    "A43815E6A436AD04A438FFFEA436AD06A438FFFFA436AD08A4380007A436AD00A438DFFFA436AD02A43817E6A436AD04A438FFFEA436AD06A438FFFFA436AD08"%string;
    "A4380007A436AD00A438FFFFA436AD02A43829E6A436AD04A438FFFEA436AD06A438FFFFA436AD08A4380007A436AD00A43887FFA436AD02A4382BE5A436AD04"%string;
    "A438FFFEA436AD06A438FFFFA436AD08A4380007A436AD00A438A7FFA436AD02A4382DE5A436AD04A438FFFEA436AD06A438FFFFA436AD08A4380007A436AD00"%string;
    "A438C7FFA436AD02A4382FE5A436AD04A438FFFEA436AD06A438FFFFA436AD08A4380007A436AD00A438E7FFA436AD02A4381865A436AD04A438FFFEA436AD06"%string;
    "A438FFFFA436AD08A4380007A436AD00A4388FFFA436AD02A4381A65A436AD04A438FFFEA436AD06A438FFFFA436AD08A4380007A436AD00A438AFFFA436AD02"%string;
    "A4381C65A436AD04A438FFFEA436AD06A438FFFFA436AD08A4380007A436AD00A438CFFFA436AD02A4381E65A436AD04A438FFFEA436AD06A438FFFFA436AD08"%string;
    "A4380007A436AD00A438EFFFA436AD02A43818E5A436AD04A438FFFEA436AD06A438FFFFA436AD08A4380007A436AD00A43897FFA436AD02A4381AE5A436AD04"%string;
    "A438FFFEA436AD06A438FFFFA436AD08A4380007A436AD00A438B7FFA436AD02A4381CE5A436AD04A438FFFEA436AD06A438FFFFA436AD08A4380007A436AD00"%string;
    "A438D7FFA436AD02A4381EE5A436AD04A438FFFEA436AD06A438FFFFA436AD08A4380007A436AD00A438F7FFA436AD02A4381965A436AD04A438FFFEA436AD06"%string;
    "A438FFFFA436AD08A4380007A436AD00A4389FFFA436AD02A4381B65A436AD04A438FFFEA436AD06A438FFFFA436AD08A4380007A436AD00A438BFFFA436AD02"%string;
    "A4381D65A436AD04A438FFFEA436AD06A438FFFFA436AD08A4380007A436AD00A438DFFFA436AD02A4381F65A436AD04A438FFFEA436AD06A438FFFFA436AD08"%string;
    "A4380007A436AD00A438FFFFA436AD02A43819E5A436AD04A438FFFEA436AD06A438FFFFA436AD08A4380007A436AD00A43807FFA436AD02A4381B9CA436AD04"%string;
    "A438FFFEA436AD06A438FFFFA436AD08A4380007A436AD00A43827FFA436AD02A4381D9CA436AD04A438FFFEA436AD06A438FFFFA436AD08A4380007A436AD00"%string;
    "A4380FFFA436AD02A4381F9CA436AD04A438FFFEA436AD06A438FFFFA436AD08A4380007A436AD00A4382FFFA436AD02A438589CA436AD04A438FFFEA436AD06"%string;
    "A438FFFFA436AD08A4380007A436AD00A43817FFA436AD02A4385C9CA436AD04A438FFFEA436AD06A438FFFFA436AD08A4380007A436AD00A43837FFA436AD02"%string;
    "A438599CA436AD04A438FFFEA436AD06A438FFFFA436AD08A4380007A436AD00A4381FFFA436AD02A4385D9CA436AD04A438FFFEA436AD06A438FFFFA436AD08"%string;
    "A4380007A436AD00A4383FFFA436AD02A4385A9CA436AD04A438100EA436AD06A438FFF6A436AD08A4380007A436AD00A438FFFFA436AD02A4385EFFA436AD04"%string;
    "A438104EA436AD06A438FFF7A436AD08A4380007A436AD00A438FFFFA436AD02A4385BFFA436AD04A438110EA436AD06A438FFF6A436AD08A4380007A436AD00"%string;
    "A438FFFFA436AD02A4385FFFA436AD04A438114EA436AD06A438F817A436AD08A4380007A436AD00A438FFFFA436AD02A438FFFFA436AD04A438120FA436AD06"%string;
    "A438F836A436AD08A4380007A436AD00A438C3C7A436AD02A438FFE3A436AD04A438124FA436AD06A4380997A436AD08A4380004A436AD00A438E3E7A436AD02"%string;
    "A438FFE3A436AD04A438130FA436AD06A43819B6A436AD08A4380004A436AD00A4380307A436AD02A438FFE3A436AD04A438134FA436AD06A4384917A436AD08"%string;
    "A4380004A436AD00A4382327A436AD02A438FFE3A436AD04A438510FA436AD06A4385936A436AD08A4380004A436AD00A4384347A436AD02A438FFE3A436AD04"%string;
    "A438514FA436AD06A4380997A436AD08A4380004A436AD00A4386367A436AD02A438FFE3A436AD04A438500FA436AD06A43819B6A436AD08A4380004A436AD00"%string;
    "A4388387A436AD02A438FFE3A436AD04A438504FA436AD06A4384817A436AD08A4380004A436AD00A438A3A7A436AD02A438FFE3A436AD04A438520FA436AD06"%string;
    "A4385836A436AD08A4380004A436AD00A438CBCFA436AD02A438FFE3A436AD04A438524FA436AD06A4380997A436AD08A4380004A436AD00A438EBEFA436AD02"%string;
    "A438FFE3A436AD04A438530FA436AD06A43819B6A436AD08A4380004A436AD00A4380B0FA436AD02A438FFE3A436AD04A438534FA436AD06A4384917A436AD08"%string;
    "A4380004A436AD00A4382B2FA436AD02A438FFE3A436AD04A438920FA436AD06A4385936A436AD08A4380004A436AD00A4384B4FA436AD02A438FFE3A436AD04"%string;
    "A438924FA436AD06A4380997A436AD08A4380004A436AD00A4386B6FA436AD02A438FFE3A436AD04A438900FA436AD06A43819B6A436AD08A4380004A436AD00"%string;
    "A4388B8FA436AD02A438FFE3A436AD04A438904FA436AD06A4384817A436AD08A4380004A436AD00A438ABAFA436AD02A438FFE3A436AD04A438910FA436AD06"%string;
    "A4385836A436AD08A4380004A436AD00A438D3D7A436AD02A438FFE3A436AD04A438914FA436AD06A4380997A436AD08A4380004A436AD00A438F3F7A436AD02"%string;
    "A438FFE3A436AD04A438930FA436AD06A43819B6A436AD08A4380004A436AD00A4381317A436AD02A438FFE3A436AD04A438934FA436AD06A4384917A436AD08"%string;
    "A4380004A436AD00A4383337A436AD02A438FFE3A436AD04A438D30FA436AD06A4385936A436AD08A4380004A436AD00A4385357A436AD02A438FFE3A436AD04"%string;
    "A438D34FA436AD06A4380997A436AD08A4380004A436AD00A4387377A436AD02A438FFE3A436AD04A438D00FA436AD06A43819B6A436AD08A4380004A436AD00"%string;
    "A4389397A436AD02A438FFE3A436AD04A438D04FA436AD06A4384817A436AD08A4380004A436AD00A438B3B7A436AD02A438FFE3A436AD04A438D10FA436AD06"%string;
    "A4385836A436AD08A4380004A436AD00A438DBDFA436AD02A438FFE3A436AD04A438D14FA436AD06A4380997A436AD08A4380004A436AD00A438FBFFA436AD02"%string;
    "A438FFE3A436AD04A438D20FA436AD06A43819B6A436AD08A4380004A436AD00A4381B1FA436AD02A438FFE3A436AD04A438D24FA436AD06A4384917A436AD08"%string;
    "A4380004A436AD00A4383B3FA436AD02A438FFE3A436AD04A438FFFFA436AD06A438593FA436AD08A4380004A436AD00A4385B5FA436AD02A438FFE3A436AD04"%string;
    "A438FFFFA436AD06A438099FA436AD08A4380004A436AD00A4387B7FA436AD02A438FFE3A436AD04A438FFFFA436AD06A43819BFA436AD08A4380004A436AD00"%string;
    "A4389B9FA436AD02A438FFE3A436AD04A438FFFFA436AD06A4384FFFA436AD08A4380004A436AD00A438BBBFA436AD02A438FFE3A436AD04A438FFFFA436AD06"%string;
    "A4385FFFA436AD08A4380004A436AD00A43807FFA436AD02A438FFA4A436AD04A438FFFFA436AD06A438FFFFA436AD08A4380007A436AD00A43827FFA436AD02"%string;
    "A438FFA4A436AD04A438FFFFA436AD06A438FFFFA436AD08A4380007A436AD00A43847FFA436AD02A438FFA4A436AD04A438FFFFA436AD06A438FFFFA436AD08"%string;
    "A4380007A436AD00A43867FFA436AD02A43858A4A436AD04A438FFFEA436AD06A438FFFFA436AD08A4380007A436AD00A4380FFFA436AD02A4385CA4A436AD04"%string;
    "A438FFFEA436AD06A438FFFFA436AD08A4380007A436AD00A4382FFFA436AD02A43850A4A436AD04A438FFFEA436AD06A438FFFFA436AD08A4380007A436AD00"%string;
    "A4384FFFA436AD02A43854A4A436AD04A438FFFEA436AD06A438FFFFA436AD08A4380007A436AD00A4386FFFA436AD02A43859A4A436AD04A438FFFEA436AD06"%string;
    "A438FFFFA436AD08A4380007A436AD00A43817FFA436AD02A4385DA4A436AD04A438FFFEA436AD06A438FFFFA436AD08A4380007A436AD00A43837FFA436AD02"%string;
    "A43851A4A436AD04A438FFFEA436AD06A438FFFFA436AD08A4380007A436AD00A43857FFA436AD02A43855A4A436AD04A438FFFEA436AD06A438FFFFA436AD08"%string;
    "A4380007A436AD00A43877FFA436AD02A4385AA4A436AD04A438FFFEA436AD06A438FFFFA436AD08A4380007A436AD00A4381FFFA436AD02A4385EA4A436AD04"%string;
    "A438FFFEA436AD06A438FFFFA436AD08A4380007A436AD00A4383FFFA436AD02A43852A4A436AD04A438FFFEA436AD06A438FFFFA436AD08A4380007A436AD00"%string;
    "A4385FFFA436AD02A43856A4A436AD04A438FFFEA436AD06A438FFFFA436AD08A4380007A436AD00A4387FFFA436AD02A4385BA4A436AD04A4382A06A436AD06"%string;
    "A438FFF6A436AD08A4380007A436AD00A438FFFFA436AD02A4385FFFA436AD04A4382B06A436AD06A438FFF7A436AD08A4380007A436AD00A438FFFFA436AD02"%string;
    "A43853FFA436AD04A4382A06A436AD06A438FFF4A436AD08A4380007A436AD00A438FFFFA436AD02A43857FFA436AD04A4382B06A436AD06A438F615A436AD08"%string;
    "A4380007A436AD00A438FFFFA436AD02A438FFFFA436AD04A438FFFFA436AD06A438F63FA436AD08A4380007A436AD00A438FFFFA436AD02A438FFFFA436AD04"%string;
    "A438FFFFA436AD06A438069FA436AD08A4380003A436AD00A438FFFFA436AD02A438FFFFA436AD04A438FFFFA436AD06A43816BFA436AD08A4380003A436AD00"%string;
    "A438FFFFA436AD02A438FFFFA436AD04A438FFFFA436AD06A4384FFFA436AD08A4380003A436AD00A438FFFFA436AD02A438D0FFA436AD04A4386A46A436AD06"%string;
    "A4385FF6A436AD08A4380003A436AD00A438FFFFA436AD02A438D4FFA436AD04A4386B46A436AD06A438FFF7A436AD08A4380007A436AD00A438FFFFA436AD02"%string;
    "A438D8FFA436AD04A4386A46A436AD06A438FFF4A436AD08A4380007A436AD00A438FFFFA436AD02A438DCFFA436AD04A4386B46A436AD06A438F615A436AD08"%string;
    "A4380007A436AD00A438FFFFA436AD02A438FFFFA436AD04A438FFFFA436AD06A438F63FA436AD08A4380007A436AD00A438FFFFA436AD02A438FFFFA436AD04"%string;
    "A438FFFFA436AD06A438069FA436AD08A4380003A436AD00A438FFFFA436AD02A438FFFFA436AD04A438FFFFA436AD06A43816BFA436AD08A4380003A436AD00"%string;
    "A438FFFFA436AD02A438FFFFA436AD04A438FFFFA436AD06A4384FFFA436AD08A4380003A436AD00A438FFFFA436AD02A438D1FFA436AD04A438AA86A436AD06"%string;
    "A4385FF6A436AD08A4380003A436AD00A438FFFFA436AD02A438D5FFA436AD04A438AB86A436AD06A438FFF7A436AD08A4380007A436AD00A438FFFFA436AD02"%string;
    "A438D9FFA436AD04A438AA86A436AD06A438FFF4A436AD08A4380007A436AD00A438FFFFA436AD02A438DDFFA436AD04A438AB86A436AD06A438F615A436AD08"%string;
    "A4380007A436AD00A438FFFFA436AD02A438FFFFA436AD04A438FFFFA436AD06A438F63FA436AD08A4380007A436AD00A438FFFFA436AD02A438FFFFA436AD04"%string;
    "A438FFFFA436AD06A438069FA436AD08A4380003A436AD00A438FFFFA436AD02A438FFFFA436AD04A438FFFFA436AD06A43816BFA436AD08A4380003A436AD00"%string;
    "A438FFFFA436AD02A438FFFFA436AD04A438FFFFA436AD06A4384FFFA436AD08A4380003A436AD00A438FFFFA436AD02A438D2FFA436AD04A438EAC6A436AD06"%string;
    "A4385FF6A436AD08A4380003A436AD00A438FFFFA436AD02A438D6FFA436AD04A438EBC6A436AD06A438FFF7A436AD08A4380007A436AD00A438FFFFA436AD02"%string;
    "A438DAFFA436AD04A438EAC6A436AD06A438FFF4A436AD08A4380007A436AD00A438FFFFA436AD02A438DEFFA436AD04A438EBC6A436AD06A438F615A436AD08"%string;
    "A4380007A436AD00A438FFFFA436AD02A438FFFFA436AD04A438FFFFA436AD06A438F63FA436AD08A4380017A436AD00A438FFFFA436AD02A438FFFFA436AD04"%string;
    "A438FFFFA436AD06A438069FA436AD08A4380013A436AD00A438FFFFA436AD02A438FFFFA436AD04A438FFFFA436AD06A43816BFA436AD08A4380013A436AD00"%string;
    "A438FFFFA436AD02A438FFFFA436AD04A438FFFFA436AD06A4384FFFA436AD08A4380013A436AD00A438FFFAA436AD02A438D3FFA436AD04A438FFFEA436AD06"%string;
    "A4385FFFA436AD08A4380013A436AD00A438C7FFA436AD02A438D7E7A436AD04A438FFFEA436AD06A438FFFFA436AD08A4380017A436AD00A438E7FFA436AD02"%string;
    "A438DBE7A436AD04A438FFFEA436AD06A438FFFFA436AD08A4380017A436AD00A43807FFA436AD02A438DFE7A436AD04A438FFFEA436AD06A438FFFFA436AD08"%string;
    "A4380017A436ACFCA4380000A436ACCCA4382000A436ACCEA4386000A436ACCCA4382001A436ACCEA4386008A436ACCCA4382002A436ACCEA4386010A436ACCC"%string;
    "A4382003A436ACCEA4386020A436ACCCA4382004A436ACCEA4386060A436ACCCA4382005A436ACCEA43860A0A436ACCCA4382006A436ACCEA43860E0A436ACCC"%string;
    "A4382007A436ACCEA4386128A436ACCCA4382008A436ACCEA4386178A436ACCCA4382009A436ACCEA43861A8A436ACCCA438200AA436ACCEA43861F0A436ACCC"%string;
    "A438200BA436ACCEA4386248A436ACCCA438200CA436ACCEA4386258A436ACCCA438200DA436ACCEA4386268A436ACCCA438200EA436ACCEA4386270A436ACCC"%string;
    "A438200FA436ACCEA4386274A436ACCCA4382010A436ACCEA438627CA436ACCCA4382011A436ACCEA4386284A436ACCCA4382012A436ACCEA4386294A436ACCC"%string;
    "A4382013A436ACCEA438629CA436ACCCA4382014A436ACCEA43862ACA436ACCCA4382015A436ACCEA43862BCA436ACCCA4382016A436ACCEA43862C4A436ACCC"%string;
    "A4382017A436ACCEA4387000A436ACCCA4382018A436ACCEA4386000A436ACCCA4382019A436ACCEA4386000A436ACCCA438201AA436ACCEA4386000A436ACCC"%string;
    "A438201BA436ACCEA4386000A436ACCCA438201CA436ACCEA4386000A436ACCCA438201DA436ACCEA4386000A436ACCCA438201EA436ACCEA4386000A436ACCC"%string;
    "A438201FA436ACCEA4386000A436ACCEA4380000A4360000A4380000B82E0000A4368023A4380000A436801EA4380027B8200000FFFFFFFF"%string
  ]).

(** The array, 370 words. *)
Definition phy_mcu_ram_code_8126a_2_3 : list Z :=
  hex_words (String.concat EmptyString [
    "B8920000B88EC15CB8900303B8900506B8900807B890090BB8900E12B8901617B8901C24B8902B37B8900203B8900304B8900504B8900506B8900708B890090A"%string;
    "B8900B0EB8901013B8901519B8901D22B890282EB890363EB890474BB88EC196B8903F5EB890F834B8906C01B890A67FB890A06CB890043BB8906190B89088DB"%string;
    "B8909ECDB8904DBCB8906E0EB8909F2DB8902C18B8905E8CB8905BFEB890183CB89023C9B8903E84B8903C20B890CC56B8903480B8900040B88EC00FB8903502"%string;
    "B8900203B8900303B8900404B8900506B8900607B890080AB8900B0DB8900E10B8901114B890171BB8901F22B8902832B8900101B8900101B8900202B8900303"%string;
    "B8900404B8900506B8900709B8900A0DB88EC047B890365FB890BE10B89084E4B89060E9B890A86AB890F1E3B890F73FB8905C02B8909547B890C30CB890B064"%string;
    "B890079AB8901E23B8901B5DB89092E7B8904BAFB8902386B89001B6B8906F82B890DC1CB8908C92B88EC110B8900C7FB8901014B890231DB8902023B8902628"%string;
    "B8902A2DB8902D2CB8902C2EB890320DB88EC186B8900306B8900804B8900406B8900707B8900709B8900B0FB890161DB890202AB8903F5EB88EC1C1B8900040"%string;
    "B8905920B89088CDB8901CA1B8903D20B8903AE4B8906A43B89030AFB890DD16B88EC283B8901611B890161CB8902127B8902C32B890373DB8904247B8904D52"%string;
    "B890585AB8900004B890080CB8901014B890181BB8901F23B890272BB8902F33B890363AB8903E42B890464AB8904D51B8905559B8905D65B890E769B890EB56"%string;
    "B890C04BB890D502B8902FB1B89033B5B89037F8B890BB98B8907450B8904C48B89012DCB890DCDCB890934AB8903E33B890E496B890724EB8902B07B890E4C0"%string;
    "B8909C79B8905512B88EC212B8902020B8902020B8902020B8902020B8902020B8902019B88EC24DB8908400B8900000B8900000B8900000B8900000B8900000"%string;
    "B88EC2D3B8905524B8902526B8902728B88EC2E3B8903323B8902324B8902425FFFFFFFF"%string
  ]).

(** The array, 4900 words. *)
Definition phy_mcu_ram_code_8126a_3_1 : list Z :=
  hex_words (String.concat EmptyString [
    "A4368023A4384701A436B82EA4380001B8200090A436A016A4380000A436A012A4380000A436A014A4381800A4388010A4381800A438801AA4381800A438802A"%string;
    "A4381800A4388032A4381800A438803AA4381800A438803EA4381800A4388044A4381800A438804BA438D504A438C9B5A438D500A438D707A4384070A4381800"%string;
    "A4381082A438D504A4381800A438107AA43861D0A438D701A43860A5A438D504A438C9B2A438D500A438F004A438D504A438C9B1A438D500A438D707A4386070"%string;
    "A4381800A43810B0A4381800A43810C5A438D707A4382005A4388030A438D75EA4381800A438138CA4381800A43813FFA438C504A438CE20A438CF01A438D70A"%string;
    "A4384005A438CF02A4381800A4381B99A438A980A438D500A4381800A438144DA438907FA43891A3A4389306A438B118A4381800A4382147A438907FA4389209"%string;
    "A43891A3A4389306A438B118A4381800A438203CA438D707A4384121A438D706A43840FCA438D70AA43840B5A438D028A438D1C1A4381800A4388057A438D07B"%string;
    "A438D1C5A438D503A438A108A438D505A4388103A438D504A438A002A438A302A438D707A4384061A438D503A4388B01A438D500A438C48AA438D503A438CC09"%string;
    "A438CD58A438AF01A438D500A438BE10A4381000A4381739A438D719A438606CA438D704A438645CA438D75EA438604DA438FFF8A4389E10A4381000A4381739"%string;
    "A438D719A438606CA438D704A438631CA438D75EA438404DA438FFF8A438D504A438AA18A438A001A438A1E0A438D500A4381000A4381739A438D719A4387FAC"%string;
    "A438D504A438A001A438D500A4381000A4381739A438D704A4385F5CA438D719A4383AAFA4388091A438F016A438D707A4386121A4381000A43816D8A438D503"%string;
    "A438CD59A438AF01A438D500A4381800A4380DDCA438D503A4388040A438D500A4381000A43816D8A438D503A438CD5AA438AF01A438D500A4381800A4380DBF"%string;
    "A438D504A438A008A438A204A438D500A4381000A4381739A438D701A4385FA0A438D503A438A082A438D500A438D71EA4384097A438D078A438D1AAA438F003"%string;
    "A438D078A438D1AAA438D707A43840C1A438D706A438409CA438D70AA4384055A438F010A438D706A4386065A438CC89A438F002A438CC8BA4381000A4380B7B"%string;
    "A438D705A4382AD0A43880CAA438F003A4381000A4380B81A4381000A4380B87A4381000A4380C53A4381800A43812D7A436A026A438125DA436A024A4382033"%string;
    "A436A022A438213FA436A020A438144CA436A006A4381B98A436A004A438138BA436A002A43810C4A436A000A4381079A436A008A438FF00A436A016A4380000"%string;
    "A436A012A4380FF8A436A014A438D04DA4380000A4380000A4380000A4380000A4380000A4380000A4380000A436A152A43812DCA436A154A4383FFFA436A156"%string;
    "A4383FFFA436A158A4383FFFA436A15AA4383FFFA436A15CA4383FFFA436A15EA4383FFFA436A160A4383FFFA436A150A4380001A436A016A4380020A436A012"%string;
    "A4380000A436A014A4381800A4388010A4381800A438801AA4381800A4388022A4381800A4388233A4381800A4388332A4381800A438855FA4381800A4388619"%string;
    "A4381800A43886AFA438D706A43860A9A438D700A43860A1A4381800A4380962A4381800A4380962A4381800A4380982A438800AA4380C1FA4380D00A4388DC0"%string;
    "A4381000A43812B5A4381800A4380F99A438D702A4386201A438D702A43840A0A438D70DA438419DA4381800A438802CA438D701A438611AA4388710A4380C03"%string;
    "A4381502A4388280A4388780A4389503A438F002A438A710A4389580A4380C03A4381502A438A304A4389503A4380C1FA4380D07A4388DC0A4381000A43812B5"%string;
    "A438CB81A438D70CA43848E2A438D706A438407AA438D70CA4384867A438D706A438405AA4388910A438A210A438D704A438611CA4380CC0A4380080A4380C03"%string;
    "A4380101A4380CE0A43803A0A438CCB5A4380CC0A4380080A4380C03A4380102A4380CE0A4380340A438CC52A438D706A43842DAA4380C03A4381502A4380C1F"%string;
    "A4380F1CA4389503A4381000A438126BA438D70CA4385FB3A4380C03A4381502A4388F1FA4389503A4381000A438126BA438D70CA4387F33A4388190A4388204"%string;
    "A4381800A4388087A4380C03A4381502A4380C1FA4380F1BA4389503A4381000A438126BA438D70CA4385FB3A4380C03A4381502A4388F1FA4389503A4381000"%string;
    "A438126BA438D70CA4387F33A438D70CA4386067A4381800A4388087A4381800A4388092A438D403A4381000A4381203A438CB82A438D40AA4381000A4381203"%string;
    "A438D70CA4384267A4381000A438131DA4388A40A4381000A438120EA438A104A4381000A4381220A4388104A4381000A4381217A4380C03A4381502A438A704"%string;
    "A4389503A438CB88A4381800A43881B7A438D702A4386161A438D702A43840A0A438D70DA43840FDA4381800A43880B0A438D701A438607AA4381800A43880B0"%string;
    "A4381800A43881A6A438A210A4388A10A438D706A438643EA4380C1FA4380D04A4388DC0A4381000A43812B5A4380CC0A4380040A4380C03A4380102A4380CE0"%string;
    "A43803E0A438CCCEA438A00AA438A280A438D110A438D04CA438CBA0A4381000A438126BA438D700A4385FB4A4388710A438AA0FA438A130A438AA2FA438A2D5"%string;
    "A438A405A438A720A438A00AA438CBA1A4381800A43880FAA438D704A4383CF1A43880DBA4380C1FA4380D02A4381800A43880DDA4380C1FA4380D01A4380CC0"%string;
    "A4380D40A4381000A43812B5A4388710A4381000A438120EA438A108A4381000A4381220A4388108A438A203A4388A2FA438A130A4388204A438A140A4381000"%string;
    "A4381220A4388140A4381000A4381217A438CBA2A438D17AA438D04BA4381000A438126BA438D700A4385FB4A438A204A4381000A438126BA438D700A4385FA7"%string;
    "A438B920A4381000A438126BA438D71FA4387FB4A4389920A4381000A438126BA438D71FA4386145A4386074A4381800A4388104A4381000A438126BA438D700"%string;
    "A4385FA7A4381800A43880FEA438B820A4381000A438126BA438D71FA4387FA5A4389820A4389B01A438D402A4381000A4381203A438D701A43833B1A4388124"%string;
    "A438D701A43860B5A438D706A4386069A4381800A4388126A4381800A4388196A438D70CA43840ABA438800AA4388110A4388284A4388404A438A710A4388120"%string;
    "A4388241A4381000A438120EA438A104A4381000A4381220A4388104A4381000A4381217A438AA2FA438CBA3A438D70CA438438BA438A284A438D078A438800A"%string;
    "A4388110A438A284A4388404A4380C03A4381502A438A108A4389503A4380C03A4381502A4380C1FA4380F19A4389503A4381000A438126BA438D70CA4385FB3"%string;
    "A4380C03A4381502A4388F1FA4389503A4381000A438126BA438D70CA4387F33A4380C1FA4380D07A4388DC0A4381000A43812B5A4388110A438A284A438A404"%string;
    "A438A00AA438CBA4A438D70CA43840A1A4380C03A4381502A438AD10A4389503A438D70CA438414BA4380CC0A4380080A4380C03A4380102A4380CE0A4380340"%string;
    "A438CC52A4381800A4388175A43880C0A4388103A43883E0A4388CFFA43860BAA438D110A438D041A4381800A438817CA438D193A438D047A4381000A438126B"%string;
    "A438D700A4385FB4A438A110A438CBA5A4381000A438126BA438D700A4385FAAA438A180A438D700A4386041A438A402A438CBA6A43860BAA438D1F5A438D045"%string;
    "A4381800A4388192A438D1F5A438D049A4381000A438126BA438D700A4385FB4A4388710A438A00AA438A190A438A204A438A280A438A404A438CBA7A438BB80"%string;
    "A4381000A438126BA438D71FA4385FB4A438B920A4389B80A4381800A43881E5A438A210A438A00AA438AA40A4381000A438120EA438A104A4381000A4381220"%string;
    "A4388104A4381000A4381217A438A190A438A284A438A404A4388A10A4388A80A438CB84A438D13EA438D05AA438D13EA438D06BA4381000A438126BA438D700"%string;
    "A4383559A43881C2A4381800A43881BBA438D700A438604BA438CB8AA4381000A438126BA438D700A4383659A43881CCA4381800A43881C5A438D700A438606B"%string;
    "A438CB8BA4385ECBA438D700A4386041A438A402A438CB8CA438D706A43860BAA438D179A438D049A4381800A43881DCA438D160A438D04BA4381000A438126B"%string;
    "A438D700A4385FB4A438CB8DA4388710A438D71FA4385FD4A438B920A4381000A438126BA438D71FA4387FB4A4389920A4381000A438126BA438D71FA4386145"%string;
    "A4386074A4381800A43881EAA4381000A438126BA438D700A4385FABA4381800A43881E4A438A710A438B820A4381000A438126BA438D71FA4387FA5A4389820"%string;
    "A438D114A438D040A4381000A438126BA438D700A4385FBAA438D704A4385F76A438D700A4385F34A438D700A4386081A438D706A438405AA438A480A438CB86"%string;
    "A438D706A43860FAA438D700A43860E1A438D1C8A438D045A4381800A4388218A438D17AA438D04BA4381000A438126BA438D700A4385FB4A4380CC0A4380000"%string;
    "A4380C03A4380101A4380CE0A4380320A438CC29A438A208A4388204A438D704A43840F5A4380C03A4381502A438A280A4388780A4389503A4388E04A438D114"%string;
    "A438D040A438D700A4385FF4A4381800A4380C3EA438D706A438609DA438D417A4381000A4381203A4381000A438126BA4381000A4381289A438D700A4385F7A"%string;
    "A438D704A4385F36A438D706A4386089A438D40CA4381000A4381203A438AA40A438BB10A438CB50A4380C03A4381502A438A310A4389503A438CB5FA4381000"%string;
    "A438126BA4381000A4381289A438D71FA4385F75A4388190A43882A0A4388402A438A404A438800AA4388718A4389B10A4389B20A4381000A438126BA438D71F"%string;
    "A4387FB5A438CB51A4381000A438126BA438D71FA4385F94A438D706A43861A9A438D702A43840A1A438D706A4384079A438D706A438609DA438D141A438D043"%string;
    "A438F006A438D101A438D040A438F003A438D141A438D044A4381000A438126BA438D700A4385FB4A438D700A43860E5A438D704A43860BEA438D706A43829B1"%string;
    "A4388280A438F002A438A880A438A00AA438A190A4388220A438A280A438A404A438A620A4380C03A4381502A438C5AAA4389503A438D700A4386061A438A402"%string;
    "A438A480A438CB52A4381000A438126BA438D700A4385FBAA438D704A4385F76A438B920A438CB53A4381000A438126BA438D71FA4387FB4A4389920A438A00A"%string;
    "A438A190A438A280A4388220A438A404A438B580A438D700A43840A1A4380C03A4381502A438A602A4389503A4380C03A4381502A438A310A4389503A438CB60"%string;
    "A438D101A438D040A4381000A438126BA438D700A4385FB4A438AA10A438D70CA4382833A43882B9A438F003A4381000A4381330A438D70CA43840A6A4380C03"%string;
    "A4381502A438A140A4389503A438D70CA43840A3A4380C03A4381502A438AC20A4389503A438A90CA438AA80A4380C1FA4380D07A4388DC0A4381000A43812B5"%string;
    "A438A00AA438A190A438A280A4388220A438A404A438B580A4380C03A4381502A438C500A4389503A43883E0A4388E01A438D700A43840A1A4380C03A4381502"%string;
    "A438A602A4389503A438D14AA438D058A4381000A43812D7A438D70CA4384063A4381000A43812EAA438CB6FA4381000A438126BA438D704A4382E70A4388327"%string;
    "A438D71FA438676EA438D704A4383868A4388302A438D706A43861C2A438D70CA4382F18A4388308A438D700A4385D35A4380C03A4381502A438C5AAA4389503"%string;
    "A4380CE0A4380320A4381800A438830EA4380C03A4381502A438C5AAA4389503A4381800A438832EA4380C03A4381502A438C5AAA4389503A4381800A4388330"%string;
    "A4381000A43812D7A438AE02A438D70CA4384063A4381000A43812EAA438CB61A4381000A438126BA438D704A4382E70A4388327A438D704A4383868A438832E"%string;
    "A438D706A43861E2A438D71FA438612EA438D70CA4382F18A4388330A4381800A438830EA4388E02A4381800A4380F99A438AE04A4388310A4381800A4380E31"%string;
    "A4381800A43885ACA4381800A4380E07A4381000A43817BEA438D70CA4385FA4A438A706A438D70CA438404BA438A880A4388801A4388E01A438CA50A4381000"%string;
    "A43883D5A438CA51A438D70EA4382210A43883D3A438D70CA4384084A438D705A4385EFDA438F007A4381000A43817C2A438D70CA4385CE2A4381800A4381692"%string;
    "A438D70CA438605AA4389A10A4388E40A4388404A4381000A4381827A4388E80A438CA62A438D705A4383084A43883B5A438BA10A4380000A4380000A4381000"%string;
    "A43884AEA4380C03A4380100A438D702A4384638A438D1C4A438D044A4381000A43817BEA4381000A43817E8A438D70CA4385F7CA4388108A4380C1FA4380907"%string;
    "A4388940A4381000A43817DBA438A0C4A4388610A4388030A4388706A4380C07A4380B06A4388410A438A980A438A702A438D1C4A438D045A4381000A43817BE"%string;
    "A4381000A43817E8A438D70CA4385F7CA4380C07A4380B06A438A030A438A610A438D700A4386041A438A501A438A108A438D1C4A438D045A438CA63A4381000"%string;
    "A43817BEA4381000A43817E8A438D70CA4385F7CA438D702A4386078A4389920A438F003A438B920A438A880A4389A10A4381000A43817BEA4381000A43817E8"%string;
    "A438D71FA4385F73A438F011A438D70CA438409BA4389920A4389A10A438FFF5A43880FEA4388610A4388501A4388980A4388702A438A410A438A940A43881C0"%string;
    "A438AE80A4381800A438835AA4388804A438A704A4388788A438FF82A438BB08A4380C1FA4380907A4388940A4381000A43817DBA4388701A4388502A438A0F4"%string;
    "A438A610A438D700A4386061A438A002A438A501A4388706A4388410A438A980A438CA64A438D110A438D040A4381000A43817BEA4381000A43817E8A438D70C"%string;
    "A4385F7CA4388804A438A706A4381800A4388336A4381800A438147CA438D705A438405FA438F037A438D701A4384259A438D705A4386234A438D70CA43841C6"%string;
    "A438D70DA438419DA438D70DA438417EA438D704A4386127A4382951A43883ECA438D70CA4384083A438D70CA4382E81A43883ECA438F0C2A43880FEA4388610"%string;
    "A4388501A4388704A4380C30A4380410A438AC02A438A502A4388980A438CA60A438A004A438D70CA4386065A4381800A43883FCA4388004A438A804A4380C0F"%string;
    "A4380602A4380C70A4380730A438A708A438D704A438609CA4380C1FA4380912A438F003A4380C1FA438090EA438A940A4381000A43817DBA438A780A438F0A0"%string;
    "A438D704A43863ABA438D705A4384371A438D702A438339CA43884ADA4388788A4388704A4380C1FA4380907A4388940A4381000A43817DBA4388410A438A0F4"%string;
    "A438A610A438D700A4386061A438A002A438A501A438A706A4388804A438A980A438D70CA4386085A4388701A4388502A4388C02A438F082A438D70CA43860C5"%string;
    "A438D702A4386053A438F07DA4381800A43884AAA438D70DA4384D1BA438BA10A438AE40A4380CFCA43803B4A4380CFCA43805B4A438D1C4A438D044A4381000"%string;
    "A43817BEA4381000A43817E8A438D70CA4385F7CA4388706A4388280A438ACE0A438A680A438A240A4381000A43817BEA4381000A43817E8A438D702A4385F79"%string;
    "A4388240A438D702A4386898A438D702A4384957A4381800A438849CA438A1C0A4380C3FA4380220A4380CFCA438030CA4380CFCA438050CA4388108A4388640"%string;
    "A438A120A438A640A4380C03A4380101A438A110A438D1C4A438D044A438CA84A4381000A43817BEA4381000A43817E8A438D70CA4385F7CA438D702A43860FC"%string;
    "A4388210A4380CE0A4380320A4380CE0A4380520A438F002A438A210A438D1C4A438D043A4381000A43817BEA4381000A43817E8A438D70CA4385F7CA4388233"%string;
    "A4380CFCA438036CA4380CFCA438056CA438D1C4A438D044A438CA85A4381000A43817BEA4381000A43817E8A438D70CA4385F7CA438A680A438A240A4381000"%string;
    "A43817BEA4381000A43817E8A438D702A4385F79A4388240A4380CFCA4380390A4380CFCA4380590A438D702A4386058A438F002A438FEC8A43881C0A4388880"%string;
    "A4388706A438CA61A438D1C4A438D054A4381000A43817BEA4381000A43817E8A438D70CA4385F7DA438A706A438F004A4388788A438A404A4388702A4380800"%string;
    "A4388443A4388303A4388280A4389920A4388CE0A4388004A438A1C0A438D70EA438404AA438A280A438D702A4383BD0A43884BEA4380C3FA4380223A438F003"%string;
    "A4380C3FA4380220A4380CFCA4380308A4380CFCA4380508A4388108A4388640A438A120A438A640A438D702A4386077A4388103A438F003A4380C03A4380101"%string;
    "A438A110A438D702A4386077A438A108A438F006A438D704A4386077A4388108A438F002A438A108A438D193A438D045A438CA82A4381000A43817BEA438D70E"%string;
    "A438606AA4381000A43817E8A438D70CA4385F3CA438D702A43860FCA4388210A4380CE0A4380320A4380CE0A4380520A438F002A438A210A438D1C4A438D043"%string;
    "A4381000A43817BEA438D70EA438606AA4381000A43817E8A438D70CA4385F3CA438D702A4383BD0A43884FCA4380C3FA438020CA438F002A438823FA4380CFC"%string;
    "A438034CA4380CFCA438054CA438D1C4A438D044A4381000A43817BEA438D70EA438606AA4381000A43817E8A438D70CA4385F3CA438820CA438A360A438A560"%string;
    "A438D1C4A438D043A438CA83A4381000A43817BEA438D70EA438606AA4381000A43817E8A438D70CA4385F3CA438D70EA438406AA4388680A438F002A438A680"%string;
    "A438A240A4380C0FA4380604A4380C70A4380750A438A708A438D704A438609CA4380C1FA4380914A438F003A4380C1FA4380910A438A940A4381000A43817DB"%string;
    "A438A780A4381000A43817BEA438D70EA438606AA4381000A43817E8A438D702A438399CA438852FA4388240A4388788A438D702A43863F8A438D705A438643C"%string;
    "A438A402A438F012A4388402A438D705A438611BA438A401A438A302A438D702A438417DA438A440A438A280A438F008A4388401A4388302A438D70CA4386060"%string;
    "A438A301A438F002A4388301A438D70CA4384080A438D70EA438604AA438FF5FA438D705A4383CDDA438855EA438FF5BA4380CFCA4380390A4380CFCA4380590"%string;
    "A4380800A438D704A43860F9A438D704A4386958A438D706A4386902A4381800A4381001A438A220A438A404A438D704A4384054A438A740A438A504A438D704"%string;
    "A43840B5A4380C03A4381502A438A003A4389503A4388190A438CB91A4381000A43810AFA438D704A4387FB9A4388220A4388404A438A280A438A110A438D706"%string;
    "A4384041A438A180A4381000A438130CA4380C03A4381502A438850FA4389503A4380C1FA4380D08A4380CC0A4380D80A4381000A43812B5A4381000A43810AF"%string;
    "A438D704A438615FA438D70CA4386103A4388504A438D704A43840B5A4380C03A4381502A4388003A4389503A438CB92A4381000A43810AFA438D706A4387FA3"%string;
    "A4388280A4388190A4380C03A4381502A4380C0FA438050AA4389503A4380C1FA4380D00A4388DC0A4381000A43812B5A4381800A4381001A4380C1FA4380D00"%string;
    "A4388DC0A4381000A43812B5A438800AA438D705A43840B9A438D70CA4386063A438A020A438F003A438D705A4388020A438A504A438D704A43840B5A4380C03"%string;
    "A4381502A438A003A4389503A438D704A4384054A438A740A4388190A438CB93A438D700A4386063A438D704A438609CA438D14BA438D040A438F003A438D120"%string;
    "A438D040A4381000A43810AFA438D700A4385FB4A438A008A438D706A4384040A438A002A438D705A4384079A4381000A4381313A4380C03A4381502A43885F0"%string;
    "A4389503A438D705A43840D9A438D70CA4386083A4380C1FA4380D09A438F003A4380C1FA4380D0AA4380CC0A4380D80A4381000A43812B5A4381000A43810AF"%string;
    "A4388020A438D705A4384199A438D704A438615FA438D70CA4386103A4388504A438D704A43840B5A4380C03A4381502A4388003A4389503A438CB94A4381000"%string;
    "A43810AFA438D706A4387FA2A438800AA4380C03A4381502A43885F0A4389503A438D705A43840B9A4380C1FA4380D00A4388DC0A438F005A4380C1FA4380D07"%string;
    "A4388DC0A438A190A4381000A43812B5A438D705A43839CCA4388617A4381800A4381001A4381800A43882C7A438CB13A438D706A4386089A438D1B8A438D04A"%string;
    "A438F003A438D11CA438D04BA4381000A438126BA438D701A43867D5A438D700A4385F74A438D70CA438610CA4381000A438126BA438D700A4386846A438D706"%string;
    "A438647BA438FFFAA4381000A4381330A4380C03A4381502A4380C1FA4380F16A4389503A4381000A438126BA438D70CA4385FB3A4380C03A4381502A4388F1F"%string;
    "A4389503A4381000A438126BA438D70CA4387F33A4381000A43812B5A4380C07A4380C02A4380CC0A4380080A438D14AA438D048A4381000A438126BA438D700"%string;
    "A4385FB4A4381800A4388629A438800AA4381000A438120EA438A004A4381000A4381220A4388004A438A001A4381000A4381220A4388001A4381000A4381217"%string;
    "A4380C03A4380902A4381800A43804EDA4381000A438126BA438D71FA4385FABA438BA08A4381000A438126BA438D71FA4387F8BA4389A08A4381800A4380581"%string;
    "A438800AA438D702A4386555A4381000A438120EA438A004A4381000A4381220A4388004A438A001A4381000A4381220A4388001A4381000A4381217A438A00A"%string;
    "A438A780A438CB14A438D1B8A438D04AA4381000A438126BA438D700A4385FB4A4386286A438D706A4385F5BA438800AA4381000A438120EA438A004A4381000"%string;
    "A4381220A4388004A438A001A4381000A4381220A4388001A4381000A4381217A4380C03A4380902A4381800A4388671A438A00AA4389308A438B210A438B301"%string;
    "A4381000A438126BA438D701A4385FA4A438B302A4389210A438D409A4381000A4381203A438D103A438D04CA4381000A438126BA438D700A4385FB4A4381800"%string;
    "A4380581A438D70CA43860B3A4381800A43886B3A4381800A438001AA4381800A43812CBA436A10EA43812CFA436A10CA43804F8A436A10AA4381003A436A108"%string;
    "A43815FBA436A106A4380D2BA436A104A4380ECBA436A102A4381119A436A100A4380960A436A110A43800FFA436A016A4380020A436A012A4381FF8A436A014"%string;
    "A438A704A43882C7A4380000A4380000A4380000A4380000A4380000A4380000A436A164A438119FA436A166A43811A1A436A168A4383FFFA436A16AA4383FFF"%string;
    "A436A16CA4383FFFA436A16EA4383FFFA436A170A4383FFFA436A172A4383FFFA436A162A4380003A436B87CA4388A63A436B87EA438AF8AA4387BAFA4388AB6"%string;
    "A438AF8AA438D6AFA4388AE4A438AF8AA438F2AFA4388B01A438AF8BA4380AAFA4388B10A438AD35A43827BFA4387308A438027BA43807ACA438280DA438BF73"%string;
    "A4380B02A4387B07A438AC28A43804D0A43805AEA43802D0A43801D1A43801D3A43804EEA4388640A43800EEA4388641A43800AFA4386AA6A438D100A438D300"%string;
    "A438EE86A4384001A438EE86A4384124A438D00FA438AF6AA438A6BFA438739EA438027BA43807ADA438280BA438E18FA438FDADA4382805A438E08FA438FEAE"%string;
    "A43803E0A4388FFFA438E489A438E7E0A43889E7A438AF67A4389FA0A4389402A438AE03A438A0B5A43803AFA4380D89A438AF0DA438AFA0A4389402A438AE03"%string;
    "A438A0B5A43803AFA4380C64A438AF0CA438CCE0A43886A5A438AD25A4380602A4386BA4A4380265A4384FAFA4386E9AA438AC24A43803AFA4386BB4A438AF6B"%string;
    "A438B602A4387AE8A438AF6CA438A100A436B85EA4386A7FA436B860A438679CA436B862A4380D86A436B864A4380C61A436B886A4386E7CA436B888A4386BAE"%string;
    "A436B88AA4386C9BA436B88CA438FFFFA436B838A438007FB8200010A4368629A438AF86A43841AFA4388644A438AF88A4380CAFA4388813A438AF88A4384BAF"%string;
    "A438884BA438AF88A4384BAFA438884BA438AF1DA4388A02A438864DA4380210A43864AFA4381063A438F8FAA438EF69A438E080A4384CACA4382517A438E080"%string;
    "A43840ADA438251AA4380286A4387CE0A4388040A438AC25A43811BFA43887F4A4380277A438F6AEA4380902A43887B3A4380287A438E902A43887DEA438EF96"%string;
    "A438FEFCA43804F8A438E080A43818ADA4382611A438E08FA4389CACA4382005A4380286A43899AEA4380302A4388707A4380287A4385002A43887DEA438FC04"%string;
    "A438F8F9A438EF79A438FBBFA43887F7A4380278A438385CA4382000A4380D4DA438A101A43851BFA43887F7A4380278A438385CA43807FFA438E38FA4389D1B"%string;
    "A438319FA438410DA43848E3A4388F9EA4381B31A4389F38A438BF87A438FA02A4387838A4385C07A438FFE3A4388F9FA4381B31A4389F28A4380D48A438E38F"%string;
    "A438A01BA438319FA4381FBFA43887FDA4380278A438385CA43807FFA438E38FA438A11BA438319FA4380F0DA43848E3A4388FA2A4381B31A4389F06A438EE8F"%string;
    "A4389C01A438AE04A438EE8FA4389C00A438FFEFA43897FDA438FC04A438F8F9A438EF79A438FBBFA43887F7A4380278A438385CA4382000A4380D4DA438A100"%string;
    "A43820BFA43887F7A4380278A438385CA4380600A4380D49A438E38FA438A31BA438319FA4380EBFA4388800A4380277A438F6BFA4388806A4380277A438F6AE"%string;
    "A4380CBFA4388800A4380277A438EDBFA4388806A4380277A438EDEEA4388F9CA43800FFA438EF97A438FDFCA43804F8A438F9EFA43879FBA438BF87A438F702"%string;
    "A4387838A4385C20A438000DA4384DA1A438014AA438BF87A438F702A4387838A4385C07A438FFE3A4388FA4A4381B31A4389F3AA4380D48A438E38FA438A51B"%string;
    "A438319FA43831BFA43887FAA4380278A43838E3A4388FA6A4381B31A4389F24A4380D48A438E38FA438A71BA438319FA4381BBFA43887FDA4380278A43838E3"%string;
    "A4388FA8A4381B31A4389F0EA438BF88A4380302A43877F6A438BF88A4380902A43877F6A438AE00A438FFEFA43897FDA438FC04A438F8EFA43879FBA438E080"%string;
    "A43818ADA438261CA438EE8FA4389C00A438BF88A4380002A43877EDA438BF88A4380602A43877EDA438BF88A4380302A43877EDA438BF88A4380902A43877ED"%string;
    "A438FFEFA43897FCA43804F8A438E080A43840F6A43825E4A4388040A438FC04A438F8E0A438804CA438F625A438E480A4384CFCA4380455A438A4BAA438F0A6"%string;
    "A4384AF0A438A64CA438F0A6A4384E66A438A4B6A43855A4A438B600A438AC56A43811ACA43856EEA438804CA4383AAFA4380627A438BF88A4384802A43877ED"%string;
    "A438D203A438E083A4388A0DA43801F6A438271BA43803AAA4380182A438E083A438890DA43801F6A438271BA43803AAA4380182A438E083A438880DA43801F6"%string;
    "A438271BA43803AAA4380782A438BF88A4384802A43877F6A438AF16A4381500A438A86AA436B818A4381D84A436B81AA4381060A436B81CA4380623A436B81E"%string;
    "A43815EFA436B850A438FFFFA436B852A438FFFFA436B878A438FFFFA436B884A438FFFFA436B832A438000FA4360000A4380000B82E0000A4368023A4380000"%string;
    "B8200000FFFFFFFF"%string
  ]).

(** The array, 19186 words. *)
Definition phy_mcu_ram_code_8127a_tc_1 : list Z :=
  hex_words (String.concat EmptyString [
    "A4368023A4383200A436B82EA4380001BF8E1410BF8E1410BF90C20EBF9EBFFCBFAA1924BFB40B1EBFB63740BFB8460EBFBE000DBF8A3FF7BF9A0007BF1E01FF"%string;
    "BF1E01FFBF1E01FFBF2E454DBC10D50CBC10950CBC10D50CBC10550CBDDEEF00BD32F000BD2C0800BDC804B0BDC80CB0BD920003BD948000BD96000FBD960000"%string;
    "BD920016BD941000BD96000FBD960000BD920016BD941200BD96000FBD960000BD920000BD941F1FBD96000FBD960000BD920001BD941F00BD96000FBD960000"%string;
    "BD920003BD940000BD96000FBD960000BD920016BD940000BD96000FBD960000BD920000BD940000BD96000FBD960000BDC808B0BDC800B0BD320000BD2C0000"%string;
    "BC10750CBC10650CBC10750CBC10550CB8200090A436A016A4380000A436A012A4380000A436A014A4381800A4388010A4381800A438809BA4381800A4388145"%string;
    "A4381800A4388197A4381800A43881D4A4381800A4388214A4381800A4388226A4381800A4388232A438D707A4384141A438D70AA4384115A438D705A43840DA"%string;
    "A438B808A438D028A438D1C1A4381800A438801EA4389808A438D07BA438D1C5A438BE10A438D503A438A108A438D505A4388103A438D504A438A002A438A302"%string;
    "A438D707A4384061A438D503A4388B01A438D500A438C48AA438D503A438CC09A438CD58A438AF01A438D500A4381000A4381764A438D719A438606CA438D704"%string;
    "A438645CA438D75EA438604DA438FFF8A4389E10A4381000A4381764A438D719A438606CA438D704A438631CA438D75EA438404DA438FFF8A438D504A438AA18"%string;
    "A438A001A438A1E0A438D500A4381000A4381764A438D719A4387FACA438D504A438A001A438D500A4381000A4381764A438D704A4385F5CA438D719A4383AAF"%string;
    "A4388058A438F016A438D707A4386121A4381000A43816F8A438D503A438CD59A438AF01A438D500A4381800A4380E49A438D503A4388040A438D500A4381000"%string;
    "A43816F8A438D503A438CD5AA438AF01A438D500A4381800A4380E2FA438D504A438A008A438A204A438D500A4381000A4381764A438D701A4385FA0A438D503"%string;
    "A438A082A438D500A438D71EA4384097A438D078A438D1AAA438F003A438D078A438D1AAA438D707A4384081A438D70AA4384055A438F014A438D706A4386065"%string;
    "A438CC89A438F002A438CC8BA4381000A4380BB2A438D705A4382AD0A438808FA438F003A4381000A4380BB8A4381000A4380BBEA438607AA4389C01A438F002"%string;
    "A438BC01A4381000A4380CC9A4381800A438132FA4389A10A4389D02A438D706A438629AA43861BBA438D707A43860D7A438D70AA4386196A438D0E5A438D1E7"%string;
    "A438F012A438D70AA4385F55A438D060A438D1E8A438F00DA438D056A438D1E8A438F00AA438D043A438D1E8A438F007A438609BA438D078A438D1E9A438F003"%string;
    "A438D07FA438D1E9A438D503A438AB01A438D500A438D706A4386139A438D503A4386065A438A7F0A438F003A4380CF0A4380750A4388908A438F004A438D503"%string;
    "A438A908A43887F0A438D503A438A040A438D500A438D705A438407BA4381000A4381AC8A438D503A4380C07A4380902A438A008A438D500A4389D80A438C48C"%string;
    "A438D73EA4386000A438D706A438419BA438D503A4380C87A4380981A438D500A438D073A438D1B7A438C490A4381000A4381764A438D704A4385FBBA438D503"%string;
    "A438D706A438607AA438617CA438F013A438D70BA43840B4A438D706A4386309A4386348A438F025A438D706A4386408A438F022A438D70BA43840B4A438D706"%string;
    "A4386429A4386468A438F028A438D706A4386468A438F025A438D70BA43867D4A438D706A4386488A4386589A4382C69A4388135A43866ABA438F037A438C320"%string;
    "A438C420A438F03CA438D707A4386077A438C310A438F004A438D70AA4385FB5A438C340A438C410A438F033A438C340A438C420A438F030A438C340A438C440"%string;
    "A438F02DA438C304A438C408A438F02AA438C302A438C404A438F027A438C308A438C408A438F024A438C308A438C410A438F021A438D707A4386077A438C304"%string;
    "A438F004A438D70AA4385FB5A438C308A438C408A438F018A438D707A4386077A438C308A438F004A438D70AA4385FB5A438C310A438C410A438F00FA438C304"%string;
    "A438C408A438F00CA438C302A438C404A438F009A438D707A4386077A438C308A438F004A438D70AA4385FB5A438C310A438C410A4381800A43814E7A438D07B"%string;
    "A438D1C5A438D503A438A028A4388970A438880FA4380C0FA4380909A43887F0A438C600A438A521A438D501A438CE01A438A202A438A201A4388201A438CE00"%string;
    "A438D500A438D706A4384425A438D503A438AB80A438D500A4381000A4380C1DA438D501A438CE01A438AAC0A438D00DA438D1A2A438D700A438401AA438A60C"%string;
    "A438D010A438D1A2A438D700A438401AA438A70CA438D09EA438D1A2A438D700A438401AA438CE00A438D500A438D505A438AB01A438D500A4381000A4380C30"%string;
    "A438D505A4388B01A438D500A438BC02A438C482A438D503A438CC01A438CD0CA438AF01A438D500A438D75EA4384000A438D706A4384245A4381000A4380C1D"%string;
    "A438D501A438CE01A4388AC0A438860CA438870CA438CE00A438D500A438D505A438AB01A438D500A4381000A4380C30A438D505A4388B01A438D500A4381800"%string;
    "A4380E74A438D707A43843CFA4381000A4380C1DA438D501A438CE01A438AAC0A438D00DA438D1A2A438D700A438401AA438A60CA438D010A438D1A2A438D700"%string;
    "A438401AA438A70CA438D09EA438D1A2A438D700A438401AA438CE00A438D500A438D505A438AB01A438D500A4381000A4380C30A438D505A4388B01A438D500"%string;
    "A438D501A438CE00A438AB10A438BB10A4389C02A438D75EA4386000A438D707A438424FA4381000A4380C1DA438D501A438CE01A4388AC0A438860CA438870C"%string;
    "A438CE00A438D500A438D505A438AB01A438D500A4381000A4380C30A438D505A4388B01A438D500A4389808A4389C01A4381800A438172AA438D707A43843CF"%string;
    "A4381000A4380C1DA438D501A438CE01A438AAC0A438D00DA438D1A2A438D700A438401AA438A60CA438D010A438D1A2A438D700A438401AA438A70CA438D09E"%string;
    "A438D1A2A438D700A438401AA438CE00A438D500A438D505A438AB01A438D500A4381000A4380C30A438D505A4388B01A438D500A4381000A4381A6BA4389808"%string;
    "A4389C01A438D707A438424FA4381000A4380C1DA438D501A438CE01A4388AC0A438860CA438870CA438CE00A438D500A438D505A438AB01A438D500A4381000"%string;
    "A4380C30A438D505A4388B01A438D500A438D503A4388B80A438D500A4381000A4381AA5A438D503A438CDA3A438AF01A4381800A438181CA438D700A43841F6"%string;
    "A438D703A43841A3A4381000A4380C1DA438D501A438A580A438A701A438D500A438D014A438D1C3A438D703A438401CA4381000A4380C30A4381800A438069B"%string;
    "A438BA10A438D70CA4384107A438D702A43840D0A438D504A438A110A438D500A4381800A4381447A4381800A4381420A438D70CA43860A6A438D501A438CE01"%string;
    "A438840FA438CE00A438D503A4388008A438D500A4381800A4381360A436A026A4381359A436A024A438141FA436A022A438068FA436A020A4381815A436A006"%string;
    "A4381723A436A004A4380E59A436A002A4381452A436A000A43812BBA436A008A438FF00A436A016A4380010A436A012A4380000A436A014A4381800A4388010"%string;
    "A4381800A4388010A4381800A4388019A4381800A4388019A4381800A4388019A4381800A4388019A4381800A4388019A4381800A4388019A438D700A4382A59"%string;
    "A4380101A4382841A4380122A4382D69A43800E6A4381800A43800E0A436A08EA4380000A436A08CA4380000A436A08AA4380000A436A088A4380000A436A086"%string;
    "A4380000A436A084A4380000A436A082A43800E2A436A080A4380000A436A090A4380002A436A016A4380020A436A012A4380000A436A014A4381800A4388010"%string;
    "A4381800A4389DFBA4381800A4389E02A4381800A4389E02A4381800A4389E02A4381800A4389E02A4381800A4389E02A4381800A4389E02A438D71FA438626D"%string;
    "A438D71EA4384103A438A70CA438B801A438BA04A438D71FA4386001A4381800A438001CA438B801A438D704A4382211A4389D54A438D700A4382739A438837A"%string;
    "A4381800A438814BA438CD70A438B801A438A708A438D700A43860D7A4386073A438CE02A438F004A438CE01A438F002A438CE01A4381000A4389BDEA4380C03"%string;
    "A4381502A4380CCFA4380B04A438CC22A438CD01A438A702A4389503A438A501A4381000A4389BC9A438D701A4385FBDA4388501A4381000A4389C02A438A610"%string;
    "A438D17AA438D04AA438CD71A438A501A4381000A4389BC9A438D701A4385FBDA4388501A438D707A43861CFA438A502A4381000A4389BC9A438D702A4385FBE"%string;
    "A4380C03A4381502A4388380A4389503A438D403A4381000A4389BBFA4388502A438A340A4381000A4389C52A438A108A4381000A4389BE6A4388108A4381000"%string;
    "A4389C5BA438A304A438A440A438A8C0A438A2FCA438A120A4380CA0A4380480A4380C03A4381502A438A370A4389503A438CD72A438D1F5A438D057A438D1C4"%string;
    "A438D066A438D1C4A438D077A4381000A4389BC9A438D700A438607CA438613DA438FFFBA438A310A4381000A4389BC9A438D700A4385FBDA438A607A438F007"%string;
    "A438A607A4381000A4389BC9A438D700A4385FBCA438A310A4381000A4389BC9A438D700A4385FBBA4388840A4380C03A4381502A4380CF8A4380D48A4388320"%string;
    "A438A180A4389503A438D1C4A438D055A4381000A4389BC9A438D700A4385FBBA438D706A4386227A438D700A4385F3AA43888C0A43882FCA4388120A4388350"%string;
    "A43884A0A4388607A438A510A4380C03A4381502A4388DF8A4388370A4388180A4389503A438FF96A4388510A438A508A4388508A438CD73A4381000A4389BC9"%string;
    "A438D71FA4385FB4A438B920A4381000A4389BC9A438D71FA4387FB4A4389920A4381000A4389BC9A438D71FA4386065A4385F94A438FFDFA438B820A4381000"%string;
    "A4389BC9A438D71FA4387FA5A4389820A4388120A4381000A4389C52A438A108A4381000A4389BE6A4388108A4381000A4389C5BA438A304A4388880A4388480"%string;
    "A4388606A438CD74A4380C03A4381502A4388B0FA4388C3FA4389503A438A810A438A120A438A310A438A4A0A438A606A438D700A43837CDA43880E5A4380C03"%string;
    "A4381502A4388310A4389503A438D700A43837C9A43880F0A43833A9A43880EDA438D17AA438D04CA438F006A438D199A438D04CA438F003A438D1D6A438D04C"%string;
    "A4381000A4389BC9A438D700A4385FBAA438D706A4385F69A438D700A43860D7A4386073A438CE05A438F004A438CE04A438F002A438CE04A4381000A4389BDE"%string;
    "A4380C03A4381502A4380C0FA4380B02A4380C38A4380C10A4389503A438A180A438A680A438CD75A438D199A438D04BA438D13BA438D055A4381000A4389BC9"%string;
    "A438D700A4385FBBA438A302A4381000A4389BC9A438D700A4385FBAA438D706A4385F6AA438BB50A438CD76A4381000A4389BC9A438D71FA4385FB5A4389B10"%string;
    "A4381000A4389BC9A438D71FA4387FB5A438A120A4380C12A4380310A4388480A4380C84A4380604A438CD77A438D1A0A438D04BA4381000A4389BC9A438D700"%string;
    "A4385FBAA438D706A438422AA438A1A0A438A312A438A480A438A684A438CD78A438D148A438D048A4381000A4389BC9A438D700A4385FBAA438CD79A4381000"%string;
    "A4389BC9A438D706A4387F8AA4389B40A438CD7FA438D71FA4387FE1A4381800A438001CA438A708A438D700A43860CFA43860F1A4386113A4386135A4386157"%string;
    "A438F00BA438CE02A438F00AA438CE02A438F008A438CE01A438F006A438CE01A438F004A438CE01A438F002A438CE01A4381000A4389BDEA4380C03A4381502"%string;
    "A4380CCFA4380B04A438CC22A438CD01A438A702A4389503A438CD15A438A501A4381000A4389BC9A438D701A4385FBDA4388501A438BA20A438D701A4384154"%string;
    "A438D115A438D04FA4381000A4389C02A4381000A4389BC9A438D700A4385FBAA438F003A4381000A4389C02A438A610A438D17AA438D04AA438CD16A438A501"%string;
    "A4381000A4389BC9A438D701A4385FBDA4388501A438D707A43861CFA438A502A4381000A4389BC9A438D702A4385FBEA4380C03A4381502A4388380A4389503"%string;
    "A438D403A4381000A4389BBFA4388502A438A340A4381000A4389C52A438A108A4381000A4389BE6A4388108A4381000A4389C5BA438A304A438A440A438A8C0"%string;
    "A438D705A43840D3A438D707A4384082A4380CFCA43802BCA438F002A438A2FCA438A120A4380CA0A4380480A4380C03A4381502A438A370A4389503A438CD17"%string;
    "A438D1F5A438D057A438D1C4A438D066A438D1C4A438D077A4381000A4389BC9A438D700A438607CA438613DA438FFFBA438A310A4381000A4389BC9A438D700"%string;
    "A4385FBDA438A607A438F007A438A607A4381000A4389BC9A438D700A4385FBCA438A310A4381000A4389BC9A438D700A4385FBBA4388840A4380C03A4381502"%string;
    "A4380CF8A4380D48A4388320A438A180A4389503A438D1C4A438D055A4381000A4389BC9A438D700A4385FBBA438D706A4386227A438D700A4385F3AA43888C0"%string;
    "A43882FCA4388120A4388350A43884A0A4388607A438A510A4380C03A4381502A4388DF8A4388370A4388180A4389503A438FF8FA4388510A438A508A4388508"%string;
    "A438CD18A4381000A4389BC9A438D71FA4385FB4A438B920A4381000A4389BC9A438D71FA4387FB4A4389920A4389A20A4381000A4389BC9A438D71FA4386065"%string;
    "A4385F94A438FFDEA438B820A4381000A4389BC9A438D71FA4387FA5A4389820A4388120A4381000A4389C52A438A108A4381000A4389BE6A4388108A4381000"%string;
    "A4389C5BA438A304A4388880A4388480A4388606A438CD19A438D705A43840D3A438D707A4384082A4388310A4381000A4389C0CA4380C03A4381502A4388B0F"%string;
    "A4388C3FA4389503A438A810A438A120A438D705A43840B3A438D707A4384062A4388310A438F002A438A310A438A4A0A438A606A438D700A43837CDA4388236"%string;
    "A4380C03A4381502A4388310A4389503A438D700A43837C9A4388241A43833A9A438823EA438D17AA438D04CA438F006A438D199A438D04CA438F003A438D1D6"%string;
    "A438D04CA4381000A4389BC9A4381000A4389C36A438D700A4385F7AA438D706A4385F29A438D700A43860CFA43860F1A4386113A4386135A4386157A438F00B"%string;
    "A438CE05A438F00AA438CE05A438F008A438CE04A438F006A438CE04A438F004A438CE04A438F002A438CE04A4381000A4389BDEA4380C03A4381502A4380C0F"%string;
    "A4380B02A4380C38A4380C10A4389503A438A180A438A680A438CD1AA438D199A438D04BA438D13BA438D055A4381000A4389BC9A4381000A4389C36A438D700"%string;
    "A4385F7BA438A302A4381000A4389BC9A4381000A4389C36A438D700A4385F7AA438D706A4385F2AA438BB10A438CD1BA4381000A4389BC9A4381000A4389C36"%string;
    "A438D71FA4385F75A438A704A438D700A43860CFA43860F1A4386113A4386135A4386157A438F00BA438CE03A438F00AA438CE03A438F008A438CE03A438F006"%string;
    "A438CE03A438F004A438CE03A438F002A438CE03A4381000A4389BDEA438A00AA43881A0A4388312A4388480A438A686A4380C03A4381502A438A340A4389503"%string;
    "A4389B10A4381000A4389BC9A438D71FA4387FB5A438CD2AA4381000A4389BC9A438D71FA4385FA4A438D17BA438D04AA438A980A4381000A4389BC9A438D700"%string;
    "A4385FBAA438D706A4385F68A438800AA4388604A4380C03A4381502A4388801A4389503A438D40CA4381000A4389BBFA4380C03A4381502A4388380A4389503"%string;
    "A438D417A4381000A4389BBFA438A00AA438A604A438D700A43839B9A43882E4A438D707A438432FA438D700A438608FA43860B1A43860D3A43860F5A438CE08"%string;
    "A438F007A438CE08A438F005A438CE08A438F003A438CE08A438F001A4381000A4389BDEA438A1A0A438A302A438A480A438D707A438409FA4384062A4388310"%string;
    "A438F002A438A310A438D17BA438D049A4381000A4389BC9A438D700A4385FBAA438D706A4385F68A438D700A43837CDA4388302A438800AA4388604A4380C03"%string;
    "A4381502A4388380A4389503A438D417A4381000A4389BBFA438A00AA438A604A438D17BA438D049A4381000A4389BC9A438D700A4385FBAA438D706A4385F68"%string;
    "A438D700A43860CFA43860F1A4386113A4386135A4386157A438F00BA438CE08A438F00AA438CE08A438F008A438CE08A438F006A438CE08A438F004A438CE08"%string;
    "A438F002A438CE08A4381000A4389BDEA438A1A0A438D707A43840DFA43840A2A4380CFCA43802BCA4388310A438F004A4380CFCA43802FCA438A310A438A302"%string;
    "A438A480A438A686A4380C03A4381502A438A340A4389503A438CD2BA438D199A438D04AA4381000A4389BC9A438D700A4385FBAA438D706A4385F68A4380C03"%string;
    "A4381502A4380C07A4380D02A4389503A438CD2CA438D199A438D04BA4381000A4389BC9A438D700A4385FBAA438D706A4385F6AA438800AA43881A0A4388312"%string;
    "A4388604A4380C03A4381502A4388380A4389503A438D417A4381000A4389BBFA438A00AA438A1A0A438D707A438409FA4384062A4388310A438F002A438A310"%string;
    "A438A302A438A604A438D409A4381000A4389BBFA4381000A4389BC9A438D71FA4385FB4A438B920A438CD2DA4381000A4389BC9A438D71FA4387FB4A4389920"%string;
    "A438BB10A438CD2EA4381000A4389BC9A438D71FA4385FB5A438800AA43881A0A4388312A4388480A4380C86A4380680A4380C03A4381502A4388340A438A140"%string;
    "A4389503A4389B10A4381000A4389BC9A438D71FA4387FB5A4381800A4388740A438A70CA4388510A438D700A43860CFA43860F1A4386113A4386135A4386157"%string;
    "A438F00BA438CE03A438F00AA438CE03A438F008A438CE03A438F006A438CE03A438F004A438CE03A438F002A438CE03A4381000A4389BDEA4380C03A4381502"%string;
    "A4380CCFA4380B04A438CC21A438CD10A4389503A438D700A438406DA4380CC0A4380080A438D198A438D07FA438CD11A4381000A4389BC9A438D71FA4385FA4"%string;
    "A438D102A438D040A438CD12A4381000A4389BC9A438D700A4385FBAA4381000A4389C02A438A340A4381000A4389C52A438A110A4381000A4389BE6A4388110"%string;
    "A4381000A4389C5BA438A304A438A224A438A00AA438A802A438A980A4380C03A4381502A438A370A4389503A438CD13A438D700A4382469A43883DBA438634B"%string;
    "A43839B9A43883C5A438F017A438D17AA438D049A4381000A4389BC9A438D700A4385FBAA438D706A4385F64A4380C03A4381502A4380C07A4380D02A4389503"%string;
    "A438CD14A438D17AA438D049A4381000A4389BC9A438D700A4385FBAA438D706A4385F65A438800AA4380C03A4381502A4388340A438D700A43837CDA43883E3"%string;
    "A438A180A4389503A438D700A4382469A4388409A438D700A43865EBA438D700A4386609A438D705A4386051A438F009A438CE08A4381000A4389BDEA438A00A"%string;
    "A4381000A4389BC9A438D705A4387FB1A438D700A43839B9A43883FAA438F01EA4380C03A4381502A438A801A4389503A438D40CA4381000A4389BBFA4380C03"%string;
    "A4381502A4388380A4389503A438D417A4381000A4389BBFA438F00FA438D700A43839B9A438840DA438F00EA4380C03A4381502A438A801A4389503A438D40C"%string;
    "A4381000A4389BBFA438D700A4386044A438F004A438D407A4381000A4389BBFA438A508A4388508A4380C03A4381502A4388D07A4389503A438A00AA4380C03"%string;
    "A4381502A438A340A4389503A438D704A4386091A438D17AA438D04AA438F003A438D1C4A438D045A4381000A4389BC9A438D700A4386A8BA438D700A4385F7A"%string;
    "A438D706A4385F24A4380C03A4381502A4380C07A4380D02A4389503A438D704A4386091A438D17AA438D04AA438F003A438D1C4A438D045A4381000A4389BC9"%string;
    "A438D700A4385FBAA438D706A4385F65A438800AA4380C03A4381502A4388340A438A180A4389503A438D700A4382D49A438848DA43837C9A4388459A4380C03"%string;
    "A4381502A4388380A4389503A438D417A4381000A4389BBFA438F023A4380C03A4381502A4388380A4389503A438D417A4381000A4389BBFA4380C03A4381502"%string;
    "A4388D07A4389503A438A00AA438D17AA438D049A4381000A4389BC9A438D700A4385FBAA438D706A4385F64A4380C03A4381502A4380C07A4380D02A4389503"%string;
    "A438D17AA438D049A4381000A4389BC9A438D700A4385FBAA438D706A4385F65A438800AA4380C03A4381502A4388380A4389503A438D417A4381000A4389BBF"%string;
    "A438F00BA4381000A4389BC9A438D71FA4385FABA438BA08A4381000A4389BC9A438D71FA4387F8BA4389A08A438A00AA4380C03A4381502A438A340A4389503"%string;
    "A4381000A4389BC9A438D71FA4385FB4A438800AA4380C03A4381502A4388340A438A180A4389503A438B920A4381000A4389BC9A438D71FA4387FB4A4389920"%string;
    "A438D700A438296DA43884BCA4381000A4389C52A438A004A4381000A4389BE6A4388004A438A001A4381000A4389BE6A4388001A438A020A4381000A4389BE6"%string;
    "A4388020A4381000A4389C5BA438D120A438D040A4381000A4389BC9A438D700A4385FBAA4388704A438CD21A4381000A4389BC9A438D71FA4385FADA438A501"%string;
    "A4381000A4389BC9A438D701A4385FBDA4388501A438BA20A438D700A4382969A43884D5A438D700A438612BA438D701A43840F4A438D196A438D04DA4381000"%string;
    "A4389BC9A438D700A4385FBAA4388802A438CD22A438D17AA438D05AA438A501A4381000A4389BC9A438D701A4385FBDA4388501A438A502A4381000A4389BC9"%string;
    "A438D702A4385FBEA4380C03A4381502A4388380A4389503A438D403A4381000A4389BBFA4388502A4380C03A4381502A4388801A4389503A438D40CA4381000"%string;
    "A4389BBFA438D707A438428FA438D700A43860CFA43860F1A4386113A4386135A4386157A438F00BA438CE06A438F01DA438CE06A438F01BA438CE06A438F019"%string;
    "A438CE06A438F017A438CE06A438F015A438CE06A438F013A438D700A43860CFA43860F1A4386113A4386135A4386157A438F00BA438CE02A438F00AA438CE02"%string;
    "A438F008A438CE01A438F006A438CE01A438F004A438CE01A438F002A438CE01A4381000A4389BDEA438A340A4381000A4389C52A438A110A4381000A4389BE6"%string;
    "A4388110A4381000A4389C5BA438A304A438A440A438A8C0A438D707A43840CFA4380C03A4381502A4388D07A4389503A438A00AA438A120A438A310A4380CA0"%string;
    "A4380480A438D700A4382969A438853BA43860A4A438D704A438407DA438A308A438F002A4388308A4380C03A4381502A4380C60A4380340A4389503A438CD23"%string;
    "A438D162A438D048A4381000A4389BC9A438D700A4385FBAA4388840A438D1C4A438D045A4381000A4389BC9A438D700A4385FBAA438D706A4386327A438D700"%string;
    "A4385F3BA43888C0A438800AA4388120A4388358A4388308A43884A0A4380C03A4381502A4388360A4389503A438D707A4382F7DA43884D7A438D17AA438D05A"%string;
    "A438A501A4381000A4389BC9A438D701A4385FBDA4388501A438FF8BA4381000A4389BC9A438D71FA4385FB4A438B920A438CD24A4381000A4389BC9A438D71F"%string;
    "A4387FB4A4389920A4389A20A4381000A4389BC9A438D71FA4386065A4385F94A438FFD9A438B820A4381000A4389BC9A438D71FA4387FA5A4389820A438800A"%string;
    "A4388120A4381000A4389C52A438A108A4381000A4389BE6A4388108A4381000A4389C5BA438D700A4382969A4388598A4386144A438D704A43860BDA438D707"%string;
    "A438417FA4384140A438F006A43882FCA438A201A438F007A438A2FCA438F005A4380CFCA43802BCA438F002A438A2FCA438A304A4388880A4380CC0A4380440"%string;
    "A438CD25A438D700A4382969A43885B7A4386224A438D704A438605DA438F004A438D704A438613BA438F00BA438D700A4382969A43885B7A43860EBA438D707"%string;
    "A43840BFA4384080A4388310A4381000A4389C0CA438D700A43860CFA43860F1A4386113A4386135A4386157A438F00BA438CE06A438F00AA438CE06A438F008"%string;
    "A438CE06A438F006A438CE06A438F004A438CE06A438F002A438CE06A4381000A4389BDEA4380C03A4381502A4388C07A4380C07A4380D03A438D700A4382969"%string;
    "A43885D9A43860C4A438D704A438409DA4388B0FA4388C38A438F003A438AB07A438AC38A4380C07A4380D03A4389503A438A810A438A00AA438A120A438D700"%string;
    "A4382969A43885E7A4386064A438D704A438607DA438A4A0A438A605A438D17AA438D049A438D700A4382969A43885F9A4386164A438D704A438413DA438A00A"%string;
    "A438A120A438D704A438407BA4388310A438F002A438A310A438A403A4381000A4389BC9A4381000A4389C36A438D700A438409AA438D706A4384046A438F014"%string;
    "A438D704A4386055A438FFF5A4381000A4389C52A438800AA4388120A4388310A438A380A4381000A4389BC9A4381000A4389C36A438D705A4385F77A4388380"%string;
    "A4381000A4389C5BA438FFDDA4380C03A4381502A4388B0FA4388C38A4388D38A4389503A438CD26A438D704A4386291A438D700A4382969A438862EA43837C9"%string;
    "A438862BA43833A9A4388628A438D18AA438D04BA438F00CA438D17AA438D04BA438F009A438D1C6A438D04BA438F006A438D1B7A438D04AA438F003A438D1C4"%string;
    "A438D046A438D700A4382969A4388641A4386164A438D704A438413DA438A00AA438A120A438D704A438407BA4388310A438F002A438A310A438A403A4381000"%string;
    "A4389BC9A4381000A4389C36A438D700A438409AA438D706A4384048A438F014A438D704A4386055A438FFF5A4381000A4389C52A438800AA4388120A4388310"%string;
    "A438A380A4381000A4389BC9A4381000A4389C36A438D705A4385F77A4388380A4381000A4389C5BA438FFDDA4380C03A4381502A4380C07A4380D01A4389503"%string;
    "A438D700A43860CFA43860F1A4386113A4386135A4386157A438F00BA438CE08A438F00AA438CE08A438F008A438CE08A438F006A438CE08A438F004A438CE08"%string;
    "A438F002A438CE08A4381000A4389BDEA438A180A438CD27A438D704A43861F1A438D700A43837C9A4388685A43833A9A4388682A438D17AA438D04AA438F009"%string;
    "A438D1B7A438D049A438F006A438D17AA438D04AA438F003A438D128A438D044A438D13BA438D055A438D700A4382969A438869AA4386164A438D704A438413D"%string;
    "A438A00AA438A1A0A438D704A438407BA4388310A438F002A438A310A438A403A4381000A4389BC9A4381000A4389C36A438D700A438405BA438F014A438D704"%string;
    "A4386055A438FFF7A4381000A4389C52A438800AA43881A0A4388310A438A380A4381000A4389BC9A4381000A4389C36A438D705A4385F77A4388380A4381000"%string;
    "A4389C5BA438FFDFA438A302A438D700A4382969A43886C4A4386184A438D704A438415DA438A00AA438A1A0A438D704A438407BA4388310A438F002A438A310"%string;
    "A438A302A438A403A4381000A4389BC9A4381000A4389C36A438D700A438409AA438D706A4384048A438F014A438D704A4386055A438FFF5A4381000A4389C52"%string;
    "A438800AA43881A0A4388312A438A380A4381000A4389BC9A4381000A4389C36A438D705A4385F77A4388380A4381000A4389C5BA438FFDCA4380C03A4381502"%string;
    "A4380C0FA4380B02A4380C38A4380C10A4389503A438CD28A438D704A43861F1A438D700A43837C9A43886F5A43833A9A43886F2A438D199A438D04AA438F009"%string;
    "A438D17AA438D04AA438F006A438D199A438D04AA438F003A438D128A438D044A438D700A4382969A4388709A4386184A438D704A438415DA438A00AA438A1A0"%string;
    "A438D704A438407BA4388310A438F002A438A310A438A302A438A403A4381000A4389BC9A4381000A4389C36A438D700A438409AA438D706A438404AA438F014"%string;
    "A438D704A4386055A438FFF5A4381000A4389C52A438800AA43881A0A4388312A438A380A4381000A4389BC9A4381000A4389C36A438D705A4385F77A4388380"%string;
    "A4381000A4389C5BA438FFDCA4388403A438D409A4381000A4389BBFA438BB10A438CD29A4381000A4389BC9A4381000A4389C36A438D71FA4385F75A438800A"%string;
    "A43881A0A4388312A4388480A4388604A4380C03A4381502A4388340A438A140A4389503A4389B10A4381000A4389BC9A438D71FA4387FB5A438CD30A438AA80"%string;
    "A438D704A4382319A4389D9AA438D700A43840BDA4380C03A4381502A438AF01A4389503A4381000A4389BC9A438D71FA4385FB4A438D700A4382969A4388798"%string;
    "A438D700A438273DA4388794A438D700A43837C9A438876AA43833A9A4388762A438D702A4386099A438D1B7A438D05CA438F013A438D1B7A438D05CA438F010"%string;
    "A438D702A4386099A438D1B7A438D05CA438F00BA438D1B7A438D05CA438F008A438D702A4386099A438D199A438D05DA438F003A438D199A438D05DA438D700"%string;
    "A43837C9A4388786A43833A9A438877EA438D702A4386099A438D1BFA438D06DA438F013A438D1DEA438D06DA438F010A438D702A4386099A438D1BFA438D06D"%string;
    "A438F00BA438D1BFA438D06DA438F008A438D702A4386099A438D199A438D06EA438F003A438D199A438D06EA438D703A43860D0A4381000A4389C20A438D41A"%string;
    "A4381000A4389BBFA438D408A4381000A4389BBFA438CD31A438D700A4382FA9A438879FA43833C9A43887A2A4386117A438F00AA438D141A438D043A438F009"%string;
    "A438D121A438D043A438F006A438D122A438D042A438F003A438D181A438D043A4381000A4389BC9A438D700A4385FBAA438D700A4382969A4388817A438D700"%string;
    "A4386CABA438D700A4386D47A438800AA43881A0A4388312A4388480A4380C86A4380680A4380C03A4381502A4388702A4389503A438D407A4381000A4389BBF"%string;
    "A438D703A43860D0A4381000A4389C20A438D41AA4381000A4389BBFA4380C03A4381502A4388380A4389503A438D406A4381000A4389BBFA438CD39A438D404"%string;
    "A4381000A4389BBFA438D700A43860CFA43860F1A4386113A4386135A4386157A438F00BA438CE03A438F00AA438CE03A438F008A438CE03A438F006A438CE03"%string;
    "A438F004A438CE03A438F002A438CE03A4381000A4389BDEA4380C03A4381502A4380C07A4380C01A4388D07A4389503A438A810A438A00AA438A302A4380CA0"%string;
    "A4380480A438A684A4381000A4389BC9A438D706A4385FA7A438B920A4381000A4389BC9A438D71FA4387FB4A4388810A4389920A4381000A4389BC9A438D71F"%string;
    "A43860E5A4385F94A4381000A4389BC9A438D706A4385FA7A438FFF0A438B820A438A810A4381000A4389BC9A438D71FA4387FA5A4389820A4381000A4389BC9"%string;
    "A4381000A4389C36A438D706A4385F69A438F010A4380C03A4381502A438AE80A4389503A438D700A4382B6DA43888C0A4380C03A4381502A4388380A4389503"%string;
    "A438D406A4381000A4389BBFA438CD32A438D701A4386191A438A504A438CD3AA4381000A4389BC9A438D700A4386067A4381000A4389C36A438D701A4385F3A"%string;
    "A4388504A438D700A4382739A43888B6A438D707A4386061A4381800A43888A8A438D193A438D047A4381000A4389BC9A4381000A4389C36A438D700A4385F7A"%string;
    "A438D706A4385F29A438D700A43860CFA43860F1A4386113A4386135A4386157A438F00BA438CE06A438F00AA438CE06A438F008A438CE06A438F006A438CE06"%string;
    "A438F004A438CE06A438F002A438CE06A4381000A4389BDEA4380C03A4381502A4380C0FA4380B01A4380C3FA4380C08A4389503A438D707A438409FA4384062"%string;
    "A4388310A438F002A438A310A438A120A438A420A438D193A438D048A4381000A4389BC9A4381000A4389C36A438D700A4385F7AA438D706A4385F29A438D700"%string;
    "A43860CFA43860F1A4386113A4386135A4386157A438F00BA438CE03A438F00AA438CE03A438F008A438CE03A438F006A438CE03A438F004A438CE03A438F002"%string;
    "A438CE03A4381000A4389BDEA4380C03A4381502A4380C07A4380C01A4389503A4388420A438800AA4388120A4388312A4388480A4388604A438D419A4381000"%string;
    "A4389BBFA438D702A4384080A438BB20A4381800A4388C32A438A00AA438A302A438A480A438A604A438D193A438D047A4381000A4389BC9A4381000A4389C36"%string;
    "A438D700A4385F7AA438D706A4385F29A4381800A438888BA438800AA4388302A4388480A4388604A438D405A4381000A4389BBFA438BB20A438A00AA438A302"%string;
    "A438A480A438A604A4381800A4388C32A438D405A4381000A4389BBFA438D404A4381000A4389BBFA438D700A4382B69A43888C0A438F06DA438D700A43860CF"%string;
    "A43860F1A4386113A4386135A4386157A438F00BA438CE03A438F00AA438CE03A438F008A438CE03A438F006A438CE03A438F004A438CE03A438F002A438CE03"%string;
    "A4381000A4389BDEA4380C03A4381502A4380C07A4380C01A4380C3FA4380D08A4389503A438A810A438A00AA438A302A4380CA0A4380480A438D700A4382969"%string;
    "A43888E8A43860A4A438D704A438407DA4388604A438F002A438A604A4380C03A4381502A438A340A438D700A43837CDA43888F0A4388310A4389503A4381000"%string;
    "A4389BC9A438D706A4385FA7A438B920A4381000A4389BC9A438D71FA4387FB4A4388810A4389920A4381000A4389BC9A438D71FA43860E5A4385F94A4381000"%string;
    "A4389BC9A438D706A4385FA7A438FFF0A438B820A438A810A4381000A4389BC9A438D71FA4387FA5A4389820A438D700A4382D59A4388C32A4380C03A4381502"%string;
    "A4388C07A4389503A438A120A438D700A4382969A438891FA43860E4A438D704A43840BDA438D704A438407BA4388310A438F002A438A310A438D700A4382969"%string;
    "A4388928A43860A4A438D704A438407DA438A202A438F002A4388202A438A420A4381800A4388D48A4388810A4381000A4389BC9A438D700A4385FBBA438D17A"%string;
    "A438D05AA438D700A43860CFA43860F1A4386113A4386135A4386157A438F00BA438CE06A438F00AA438CE06A438F008A438CE06A438F006A438CE06A438F004"%string;
    "A438CE06A438F002A438CE06A4381000A4389BDEA4380C03A4381502A4380C0FA4380B04A4380C3FA4380C21A4388D07A4389503A438A340A4381000A4389C52"%string;
    "A438A110A4381000A4389BE6A4388110A4381000A4389C5BA438A304A438A440A438A8C0A4388810A438A00AA438A120A438A310A438D704A438405DA438A308"%string;
    "A4380CFCA4380224A4380CA0A4380480A4380C03A4381502A438A340A438D700A43837CDA438896DA4388310A4389503A438D162A438D048A4381000A4389BC9"%string;
    "A438D700A4385FBAA4388840A438D1C4A438D045A4381000A4389BC9A438D700A4385FBAA438D706A4386127A438D700A4385F3BA43888C0A438800AA4388120"%string;
    "A4388350A43884A0A438FFADA438B920A438CD33A4381000A4389BC9A438D71FA4387FB4A4389920A4381000A4389BC9A438D71FA4386065A4385F94A438FFEE"%string;
    "A438B820A4381000A4389BC9A438D71FA4387FA5A4389820A438800AA4388120A4381000A4389C52A438A108A4381000A4389BE6A4388108A4381000A4389C5B"%string;
    "A438D704A43860BDA438D707A438413FA4384100A438F004A4380CFDA4380201A438F005A4380CFCA43802BCA438F002A438A2FCA438A304A4388880A4380CC0"%string;
    "A4380440A438CD34A438D704A438407DA438405BA438F006A438D704A43860FDA438D707A43840BFA4384080A4388310A4381000A4389C0CA4380C03A4381502"%string;
    "A4388C07A438D704A438409DA4388B0FA4388C38A438F004A4380C0FA4380B07A438AC38A4380C38A4380D10A4389503A438A810A438A00AA438A120A438D704"%string;
    "A438607DA438A4A0A438A604A438D700A43837C9A43889DBA438D17AA438D049A438F003A438D19FA438D049A438D704A438413DA438A00AA438A120A438D704"%string;
    "A438407BA4388310A438F002A438A310A438A403A4381000A4389BC9A438D71FA4386A14A438D700A438409AA438D706A4384988A438F014A438D704A4386055"%string;
    "A438FFF5A4381000A4389C52A438800AA4388120A4388310A438A380A4381000A4389BC9A4381000A4389C36A438D705A4385F77A4388380A4381000A4389C5B"%string;
    "A438FFDDA4380C03A4381502A4388B0FA4388C38A4388D38A4389503A438D700A43837C9A4388A14A43833A9A4388A11A438D1F4A438D04BA438F006A438D1B7"%string;
    "A438D04BA438F003A438D1C6A438D04CA438D704A438413DA438A00AA438A120A438D704A438407BA4388310A438F002A438A310A438A403A4381000A4389BC9"%string;
    "A438D71FA43862F4A438D700A438405AA438F01AA438D704A4386055A438FFF7A4381000A4389C52A438800AA4388120A4388310A438A380A4381000A4389BC9"%string;
    "A4381000A4389C36A438D705A4385F77A4388380A4381000A4389C5BA438FFDFA4388403A4381000A4389BC9A438D700A438629CA438FFFBA4388403A4381000"%string;
    "A4389BC9A438D71FA4386096A438D700A438619CA438FFFAA438D706A4384128A438D702A43860B0A4380C03A4381502A438AE80A4389503A4381800A4388B62"%string;
    "A438D17AA438D05AA438D700A43860CFA43860F1A4386113A4386135A4386157A438F00BA438CE06A438F00AA438CE06A438F008A438CE06A438F006A438CE06"%string;
    "A438F004A438CE06A438F002A438CE06A4381000A4389BDEA4380C03A4381502A4380C0FA4380B04A4380C3FA4380C21A4388D07A4389503A438A340A4381000"%string;
    "A4389C52A438A110A4381000A4389BE6A4388110A4381000A4389C5BA438A304A438A440A438A8C0A4388810A438A00AA438A120A438A310A438D704A438405D"%string;
    "A438A308A4380CFCA4380224A4380CA0A4380480A4388604A438CD35A438D162A438D048A4381000A4389BC9A438D700A4385FBAA4388840A438D1C4A438D045"%string;
    "A4381000A4389BC9A438D700A4385FBAA438D706A4386127A438D700A4385F3BA43888C0A438800AA4388120A4388350A43884A0A438FFB3A438BB80A4381000"%string;
    "A4389BC9A438D71FA4385FB4A438B920A438CD36A4381000A4389BC9A438D71FA4387FB4A4389920A4389B80A4381000A4389BC9A438D71FA4386065A4385F94"%string;
    "A438FFE8A438B820A4381000A4389BC9A438D71FA4387FA5A4389820A438800AA4388120A4381000A4389C52A438A108A4381000A4389BE6A4388108A4381000"%string;
    "A4389C5BA438D704A43860BDA438D707A438413FA4384100A438F004A4380CFDA4380201A438F005A4380CFCA43802BCA438F002A438A2FCA438A304A4388880"%string;
    "A4380CC0A4380440A438CD37A438D704A438407DA438405BA438F006A438D704A43860FDA438D707A43840BFA4384080A4388310A4381000A4389C0CA4380C03"%string;
    "A4381502A4388C07A438D704A438409DA4388B0FA4388C38A438F004A4380C0FA4380B07A438AC38A4380C38A4380D10A4389503A438A810A438A00AA438A120"%string;
    "A438D704A438607DA438A4A0A438A604A438D700A43837C9A4388B01A43833A9A4388AFEA438D17AA438D048A438F006A438D17AA438D048A438F003A438D17A"%string;
    "A438D048A438D704A438413DA438A00AA438A120A438D704A438407BA4388310A438F002A438A310A438A403A4381000A4389BC9A4381000A4389C36A438D700"%string;
    "A438409AA438D706A4384048A438F014A438D704A4386055A438FFF5A4381000A4389C52A438800AA4388120A4388310A438A380A4381000A4389BC9A4381000"%string;
    "A4389C36A438D705A4385F77A4388380A4381000A4389C5BA438FFDDA4380C03A4381502A4388B0FA4388C38A4388D38A4389503A438D700A43837C9A4388B3A"%string;
    "A43833A9A4388B37A438D199A438D04BA438F006A438D17AA438D04AA438F003A438D189A438D04CA438D704A438413DA438A00AA438A120A438D704A438407B"%string;
    "A4388310A438F002A438A310A438A403A4381000A4389BC9A4381000A4389C36A438D700A438409AA438D706A4384048A438F014A438D704A4386055A438FFF5"%string;
    "A4381000A4389C52A438800AA4388120A4388310A438A380A4381000A4389BC9A4381000A4389C36A438D705A4385F77A4388380A4381000A4389C5BA438FFDD"%string;
    "A4380C03A4381502A4380C07A4380D01A4389503A438D700A43860CFA43860F1A4386113A4386135A4386157A438F00BA438CE08A438F00AA438CE08A438F008"%string;
    "A438CE08A438F006A438CE08A438F004A438CE08A438F002A438CE08A4381000A4389BDEA438A180A438CD38A438D700A43837C9A4388B92A43833A9A4388B8A"%string;
    "A438D702A4384098A438D17AA438D04AA438F013A438D100A438D049A438F010A438D702A4384098A438D1B7A438D049A438F00BA438D100A438D048A438F008"%string;
    "A438D702A4384098A438D17AA438D04BA438F003A438D199A438D04AA438D13BA438D055A438D704A438413DA438A00AA438A1A0A438D704A438407BA4388310"%string;
    "A438F002A438A310A438A403A4381000A4389BC9A4381000A4389C36A438D700A438405BA438F014A438D704A4386055A438FFF7A4381000A4389C52A438800A"%string;
    "A43881A0A4388310A438A380A4381000A4389BC9A4381000A4389C36A438D705A4385F77A4388380A4381000A4389C5BA438FFDFA438A302A438D704A438415D"%string;
    "A438A00AA438A1A0A438D704A438407BA4388310A438F002A438A310A438A302A438A403A4381000A4389BC9A4381000A4389C36A438D700A438409AA438D706"%string;
    "A4384048A438F014A438D704A4386055A438FFF5A4381000A4389C52A438800AA43881A0A4388312A438A380A4381000A4389BC9A4381000A4389C36A438D705"%string;
    "A4385F77A4388380A4381000A4389C5BA438FFDCA4380C03A4381502A4380C0FA4380B02A4380C38A4380C10A4389503A438D700A43837C9A4388C03A43833A9"%string;
    "A4388BFBA438D702A4384098A438D199A438D04AA438F013A438D100A438D04AA438F010A438D702A4384098A438D17AA438D04AA438F00BA438D100A438D048"%string;
    "A438F008A438D702A4384098A438D199A438D04BA438F003A438D16BA438D04BA438D704A438415DA438A00AA438A1A0A438D704A438407BA4388310A438F002"%string;
    "A438A310A438A302A438A403A4381000A4389BC9A4381000A4389C36A438D700A43840BAA438D706A438406AA4388403A438F014A438D704A4386055A438FFF4"%string;
    "A4381000A4389C52A438800AA43881A0A4388312A438A380A4381000A4389BC9A4381000A4389C36A438D705A4385F77A4388380A4381000A4389C5BA438FFDB"%string;
    "A43881A0A4388310A438A302A438A00AA438A480A4388420A438D700A4382969A4388C42A43860E4A438D700A43840A7A438D704A438407DA4388604A438F002"%string;
    "A438A604A438D700A43860C7A438A602A4380C03A4381502A438A702A4389503A4380C03A4381502A438A340A4389503A438D700A43860CFA43860F1A4386113"%string;
    "A4386135A4386157A438F00BA438CE03A438F00AA438CE03A438F008A438CE03A438F006A438CE03A438F004A438CE03A438F002A438CE03A4381000A4389BDE"%string;
    "A4380C03A4381502A4380C07A4380C01A4380C3FA4380D08A4389503A438D700A438646DA43837C9A4388C83A43833A9A4388C79A438D700A43840C7A438D702"%string;
    "A4386098A438D100A438D048A438F01AA438D17AA438D049A438F017A438D700A43840C7A438D702A4386098A438D100A438D049A438F010A438D17AA438D04C"%string;
    "A438F00DA438D700A43840C7A438D702A4386098A438D17AA438D04AA438F006A438D17AA438D04AA438F003A438D17AA438D048A4381000A4389BC9A4381000"%string;
    "A4389C36A438D700A4385F7AA438D706A4385F29A438D700A43860CFA43860F1A4386113A4386135A4386157A438F00BA438CE06A438F00AA438CE06A438F008"%string;
    "A438CE06A438F006A438CE06A438F004A438CE06A438F002A438CE06A4381000A4389BDEA4380C03A4381502A4380C0FA4380B01A4380C3FA4380C08A4389503"%string;
    "A438A120A438D700A4382969A4388CC7A4386224A438D700A4384147A438D704A438409DA438D704A438613BA438F00AA438D707A438411FA43840E0A438F004"%string;
    "A438D707A438409FA4384062A4388310A438F002A438A310A438D700A4382969A4388CD2A43860E4A438D700A43840A7A438D704A438407DA438A202A438F002"%string;
    "A4388202A438A420A438CD3BA438D700A43865ADA43843C7A438D700A43837C9A4388CEDA43833A9A4388CE5A438D702A4384098A438D199A438D04CA438F024"%string;
    "A438D1B7A438D04AA438F021A438D702A4384098A438D1C6A438D04CA438F01CA438D1B7A438D04AA438F019A438D702A4384098A438D199A438D04CA438F014"%string;
    "A438D17AA438D04CA438F011A438D700A43837C9A4388D00A43833A9A4388CFDA438D1E5A438D04CA438F009A438D191A438D04DA438F006A438D17AA438D04D"%string;
    "A438F003A438D16BA438D04CA4381000A4389BC9A4381000A4389C36A438D700A4385F7AA438D706A4385F2CA438D700A43840E7A4380C03A4381502A4380C07"%string;
    "A4380D01A4389503A438F006A4380C03A4381502A4380C07A4380D02A4389503A438CD3CA438D700A438644DA43843C7A438D700A43837C9A4388D33A43833A9"%string;
    "A4388D2BA438D702A4384098A438D17AA438D04AA438F019A438D17AA438D048A438F016A438D702A4384098A438D17AA438D04BA438F011A438D17AA438D048"%string;
    "A438F00EA438D702A4384098A438D17AA438D04AA438F009A438D17AA438D049A438F006A438D17AA438D04BA438F003A438D17AA438D048A4381000A4389BC9"%string;
    "A4381000A4389C36A438D700A4385F7AA438D706A4385F2DA438D700A43860CFA43860F1A4386113A4386135A4386157A438F00BA438CE08A438F00AA438CE08"%string;
    "A438F008A438CE08A438F006A438CE08A438F004A438CE08A438F002A438CE08A4381000A4389BDEA4380C03A4381502A4380C0FA4380B02A4380C38A4380C10"%string;
    "A4389503A438A180A438CD3DA438D700A4382969A4388D8AA43837C9A4388D80A43833A9A4388D76A438D700A43840C7A438D702A4386098A438D15CA438D04A"%string;
    "A438F01AA438D199A438D04BA438F017A438D700A43840C7A438D702A4386098A438D13EA438D04AA438F010A438D199A438D04BA438F00DA438D700A43840C7"%string;
    "A438D702A4386098A438D17AA438D04CA438F006A438D199A438D04CA438F003A438D17AA438D04BA438D700A43837C9A4388DA5A43833A9A4388D9BA438D700"%string;
    "A43840C7A438D702A4386098A438D100A438D050A438F017A438D17AA438D05AA438F014A438D700A43840C7A438D702A4386098A438D100A438D050A438F00D"%string;
    "A438D17AA438D05AA438F00AA438D700A43840C7A438D702A4386098A438D17AA438D05AA438F003A438D17AA438D05AA438D707A4383AD1A4388E73A438D705"%string;
    "A43836B1A4388DDDA438D700A4382969A4388DD5A43863C4A438D700A43840E7A438D704A43840BDA438D704A43860DCA43863FBA438F016A438D707A438429F"%string;
    "A438F001A4381000A4389BC9A4381000A4389C36A438D700A4385F7BA438D700A43840E7A438D704A43840BDA438D704A438407CA4381800A4388E73A438D706"%string;
    "A4382B59A4388E73A438F009A438AA20A4381000A4389BC9A4381000A4389C36A438D701A4385F72A4388A20A4381000A4389BC9A4381000A4389C36A438D700"%string;
    "A4385F7AA438D706A4385F2FA438D700A4384287A438D700A43860CFA43860F1A4386113A4386135A4386157A438F00BA438CE08A438F01EA438CE08A438F01C"%string;
    "A438CE08A438F01AA438CE08A438F018A438CE08A438F016A438CE08A438F014A438D700A43860CFA43860F1A4386113A4386135A4386157A438F00BA438CE08"%string;
    "A438F00BA438CE08A438F009A438CE08A438F007A438CE08A438F005A438CE08A438F003A438CE08A438F001A4381000A4389BDEA438D700A4382969A4388E23"%string;
    "A4386224A438D700A4384147A438D704A438409DA438D704A438417BA438F008A438D707A438411FA43840E0A438F004A438D707A438409FA4384062A4388320"%string;
    "A438F002A438A320A4388310A438CD3EA438D700A4382969A4388E4BA43837C9A4388E41A43833A9A4388E37A438D700A43840C7A438D702A4386098A438D15D"%string;
    "A438D04BA438F01AA438D17AA438D04BA438F017A438D700A43840C7A438D702A4386098A438D16BA438D04BA438F010A438D17AA438D04BA438F00DA438D700"%string;
    "A43840C7A438D702A4386098A438D17AA438D04BA438F006A438D17AA438D04BA438F003A438D1B7A438D04AA4381000A4389BC9A4381000A4389C36A438D700"%string;
    "A4385F7AA438D706A4385F2FA438D700A4382969A4388E6BA4386264A438D700A4384187A438D704A43840BDA438D704A43841BBA4381800A4388F25A438D707"%string;
    "A438413FA4384100A4381800A4388F25A438D707A438409FA4384060A4381800A4388F25A4381000A4389BC9A4381000A4389C36A438D701A4385F77A4381800"%string;
    "A4388F25A438D700A4384287A438D700A43860CFA43860F1A4386113A4386135A4386157A438F00BA438CE08A438F01EA438CE08A438F01CA438CE08A438F01A"%string;
    "A438CE08A438F018A438CE08A438F016A438CE08A438F014A438D700A43860CFA43860F1A4386113A4386135A4386157A438F00BA438CE08A438F00BA438CE08"%string;
    "A438F009A438CE08A438F007A438CE08A438F005A438CE08A438F003A438CE08A438F001A4381000A4389BDEA4380C03A4381502A438A102A438A802A4389503"%string;
    "A438AA02A438D700A43840E7A4380C03A4381502A4380C0FA4380B05A438AC38A4389503A438D700A43840C7A438D704A43860FDA438D707A43840A0A438F003"%string;
    "A438D707A4384042A438A308A438A310A438CD3FA438D700A43837C9A4388ED0A43833A9A4388EC6A438D700A43840C7A438D702A4386098A438D1D6A438D04A"%string;
    "A438F017A438D1D6A438D04AA438F014A438D700A43840C7A438D702A4386098A438D1D6A438D04AA438F00DA438D1D6A438D04AA438F00AA438D700A43840C7"%string;
    "A438D702A4386098A438D199A438D04AA438F003A438D199A438D04AA4381000A4389BC9A4381000A4389C36A438D700A4385F7AA4380C30A4380320A438D700"%string;
    "A43837C9A4388EFAA43833A9A4388EF0A438D700A43840C7A438D702A4386098A438D199A438D04AA438F017A438D17AA438D04BA438F014A438D700A43840C7"%string;
    "A438D702A4386098A438D199A438D04AA438F00DA438D17AA438D04BA438F00AA438D700A43840C7A438D702A4386098A438D17AA438D04BA438F003A438D17A"%string;
    "A438D04BA438D700A4384287A438D704A438425DA438D704A438421CA4381000A4389BC9A4381000A4389C36A438D701A4385F77A4381000A4389C16A4381000"%string;
    "A4389BC9A4381000A4389C36A438D700A4385F7AA438F009A4381000A4389BC9A4381000A4389C36A438D700A4385F7AA438D701A4385F37A4380C03A4381502"%string;
    "A4388102A4389503A4388A02A438CD40A4380C03A4381502A4388380A4389503A438D40AA4381000A4389BBFA438BB10A438CD41A4381000A4389BC9A4381000"%string;
    "A4389C36A438D71FA4385F75A438800AA43881A0A4388302A4388480A438D700A4386047A438A680A4388606A4380C03A4381502A4388340A438D700A4386060"%string;
    "A438A120A438A302A4389503A4388C40A4380C03A4381502A4388750A4388702A4389503A4389B30A4380C03A4381502A4388011A4389503A4381000A4389BC9"%string;
    "A438D71FA4387FB5A438CD42A4381000A4389BC9A438D71FA4385F94A438D700A4382969A4388F67A438D700A4386140A438D705A438611EA438D703A43840D0"%string;
    "A4381000A4389C20A438D41AA4381000A4389BBFA4388340A438A801A438D700A4382FA9A4388F70A43833C9A4388F73A4386117A438F00AA438D141A438D043"%string;
    "A438F009A438D121A438D043A438F006A438D122A438D042A438F003A438D181A438D043A438D700A43860CFA43860F1A4386113A4386135A4386157A438F00B"%string;
    "A438CE08A438F00AA438CE08A438F008A438CE08A438F006A438CE08A438F004A438CE08A438F002A438CE08A4381000A4389BDEA4381000A4389BC9A438D700"%string;
    "A4385FBAA438D705A438611EA4380C03A4381502A4380CCFA4380B02A4388CC7A4389503A438F008A4380C03A4381502A4380CCFA4380B46A4380CC7A4380C03"%string;
    "A4389503A438D700A43840E7A4380C03A4381502A4380C3FA4380D09A4389503A438F006A4380C03A4381502A4380C3FA4380D0AA4389503A438D705A438607E"%string;
    "A438A302A438F00BA4380C03A4381502A438A011A4389503A438D14FA438D043A4381000A4389BC9A438D700A4385FBAA438A810A4388240A438A00AA438A1A0"%string;
    "A438A480A438D700A43840A7A438D704A438407DA4388604A438F002A438A604A438D700A43860C7A438A682A4380C03A4381502A438A702A4389503A4380C03"%string;
    "A4381502A438A340A4389503A4381000A4389BC9A438D706A4385FA7A438B920A438CD43A4381000A4389BC9A438D71FA4387FB4A4388810A4389920A4381000"%string;
    "A4389BC9A438D71FA43860E5A4385F94A4381000A4389BC9A438D706A4385FA7A438FFEFA438B820A438A810A4381000A4389BC9A438D71FA4387FA5A4389820"%string;
    "A438BB20A438CD44A438D700A4384060A4381800A4389072A438D700A43837C9A4389003A43833A9A4389000A438D17AA438D047A438F006A438D17AA438D048"%string;
    "A438F003A438D17AA438D049A4381000A4389BC9A4381000A4389C36A438D700A4385F7AA438D706A4385F2FA438D700A4382D49A4389014A438D701A43860B0"%string;
    "A4381800A43890C4A4381800A438911BA4380C06A4380A06A4380CC0A4380CC0A4380C03A4381502A438A7A0A4389503A438CD45A438D700A43837C9A438902A"%string;
    "A43833A9A4389027A438D17AA438D047A438F006A438D17AA438D048A438F003A438D17AA438D049A4381000A4389BC9A4381000A4389C36A438D700A4385F7A"%string;
    "A438D706A4385F2FA4388C40A438D418A4381000A4389BBFA438AC40A438AA01A4381000A4389BC9A4381000A4389C36A438D706A4385F6FA438D700A43837C9"%string;
    "A438904BA43833A9A4389048A438D17AA438D047A438F006A438D17AA438D048A438F003A438D17AA438D049A4381000A4389BC9A4381000A4389C36A438D700"%string;
    "A4385F7AA438D706A4385F2FA438AB20A4380C03A4381502A438A750A4389503A438CD46A438D700A43837C9A4389066A43833A9A4389063A438D1B7A438D04D"%string;
    "A438F006A438D1B7A438D04DA438F003A438D1B7A438D04DA4381000A4389BC9A4381000A4389C36A438D700A4385F7AA438D706A4385F2FA4381800A43890C4"%string;
    "A438D701A4384830A438D700A43847E7A438D704A43847BDA438D704A438477CA4380C06A4380A06A4380CC0A4380CC0A438D700A43837C9A4389089A43833A9"%string;
    "A4389086A438D17AA438D047A438F006A438D17AA438D048A438F003A438D17AA438D049A4381000A4389BC9A4381000A4389C36A438D700A4385F7AA438D706"%string;
    "A4385F2FA4388C40A438D418A4381000A4389BBFA438AC40A438AA01A4381000A4389BC9A4381000A4389C36A438D706A4385F6FA438D700A43837C9A43890AA"%string;
    "A43833A9A43890A7A438D17AA438D047A438F006A438D17AA438D048A438F003A438D17AA438D049A4381000A4389BC9A4381000A4389C36A438D700A4385F7A"%string;
    "A438D706A4385F2FA438D701A43840F0A438AC40A4380C03A4381502A438A750A4389503A438AB20A438D1C4A438D046A4381000A4389BC9A4381000A4389C36"%string;
    "A438D700A4385F7AA438D706A438424FA4388C40A4380C03A4381502A4388750A4388380A4389503A438D417A4381000A4389BBFA438D701A43840D0A438AC40"%string;
    "A4380C03A4381502A438A750A4389503A438CD47A438D700A438686BA4386060A4381800A43890F3A438D700A43837C9A43890E7A43833A9A43890E4A438D15C"%string;
    "A438D04CA438F006A438D182A438D04CA438F003A438D191A438D04CA4381000A4389BC9A4381000A4389C36A438D700A4385F7AA438D706A4385F2FA4381800"%string;
    "A438911BA4380C03A4381502A4380CCFA4380B03A4388CC7A4389503A438D700A43860E7A4380C03A4381502A4380C3FA4380D1AA4389503A438F006A4380C03"%string;
    "A4381502A4380C3FA4380D19A4389503A438D700A43837C9A4389111A43833A9A438910EA438D19FA438D049A438F006A438D199A438D04AA438F003A438D199"%string;
    "A438D04BA4381000A4389BC9A4381000A4389C36A438D700A4385F7AA438D706A4385F2FA438D416A4381000A4389BBFA438BB10A438CD4FA438CD50A4381000"%string;
    "A4389BC9A4381000A4389C36A438D71FA4385F75A438800AA43881A0A4388302A4388480A438D700A4386047A438A682A438D700A43840A7A438D704A438407D"%string;
    "A4388604A438F002A438A604A4388818A4380C03A4381502A4388340A438A120A438A302A4389503A4388C40A4380C03A4381502A4388750A4389503A4389B30"%string;
    "A4380C03A4381502A4388011A4389503A4381000A4389BC9A438D71FA4387FB5A438D700A43860CFA43860F1A4386113A4386135A4386157A438F00BA438CE08"%string;
    "A438F00AA438CE08A438F008A438CE08A438F006A438CE08A438F004A438CE08A438F002A438CE08A4381000A4389BDEA438CD51A4381000A4389BC9A438D71F"%string;
    "A4385F94A438D71EA4386103A438D700A4382FA9A438916FA43833C9A4389172A4386177A43861B1A438D101A438D040A438F00CA438D141A438D043A438F009"%string;
    "A438D121A438D043A438F006A438D122A438D042A438F003A438D181A438D043A4381000A4389BC9A438D700A4385FBAA438D705A43860FEA4380C03A4381502"%string;
    "A4380CCFA4380B03A4388C07A4389503A4380C03A4381502A4388CC0A4389503A4388106A438D700A43860E7A4380C03A4381502A4380C3FA4380D1AA4389503"%string;
    "A438F006A4380C03A4381502A4380C3FA4380D19A4389503A438D700A4382F99A438919CA438A804A438D705A438607EA438A302A438F00BA4380C03A4381502"%string;
    "A438A017A4389503A438D14FA438D043A4381000A4389BC9A438D700A4385FBAA438A00AA438A1A0A438A480A438D700A43840A7A438D704A438407DA4388644"%string;
    "A438F003A4380C44A4380604A438D701A43840D0A438AC40A4380C03A4381502A438A750A4389503A438D700A4386047A438A682A4380C03A4381502A438A340"%string;
    "A438C5AAA4389503A438AB80A4381000A4389BC9A438D706A4385FAFA438B920A438CD52A4381000A4389BC9A438D71FA4387FB4A4389920A438A00AA438A1A0"%string;
    "A438D705A438605EA438A302A438A480A438D700A43840A7A438D704A438407DA4388644A438F003A4380C44A4380604A438A902A4388920A4380C03A4381502"%string;
    "A438A480A4389503A4381000A4389C2AA438D707A43840AEA4380C18A4380A08A4381000A4389C30A438CD60A438D101A438D040A4381000A4389BC9A438D700"%string;
    "A4385FBAA4380C03A4381502A438A230A4389503A438D703A43868D1A438CD62A4381000A4389A89A4381000A4389BC9A438D707A4384058A438A901A438D700"%string;
    "A43862DCA438D71FA438628EA438D704A4384067A4381800A43896ACA438D704A43840ABA438D705A438607FA4381800A438974BA438D704A438609FA438D705"%string;
    "A438405DA438F005A438D704A4385C96A438D75FA4385C40A4380C03A4381502A438C5AAA4389503A438D705A43860DEA4380C03A4381502A4380C38A4380D18"%string;
    "A4389503A438D702A4384357A4380C03A4381502A4388F80A4389503A438D700A43860CFA43860F1A4386113A4386135A4386157A438F00BA438CE08A438F00B"%string;
    "A438CE08A438F009A438CE08A438F007A438CE08A438F005A438CE08A438F003A438CE08A438F001A4381000A4389BDEA438CD61A4381000A4389A89A4381000"%string;
    "A4389BC9A438D707A4384058A438A901A438D71FA4382E71A438925EA438D704A4382739A43896ACA438D704A43840ABA438D705A438607FA4381800A438974B"%string;
    "A438D704A43860BFA438D705A438407DA4381800A43897DAA438D704A4385CB6A438D75FA4385C60A4381800A438997CA438AA10A4380C03A4381502A4388480"%string;
    "A4389503A4389904A438CD80A4381000A4389C99A438800AA43881A0A4388302A4388480A4388646A4381000A4389D44A438D707A438605DA4388320A4388C40"%string;
    "A4380C03A4381502A4388750A4388340A4388120A4388302A438A61CA4389503A438D701A4384050A438AB20A4388B80A4380C0CA4380808A438D702A4384191"%string;
    "A4381000A4389BC9A438D701A4385FA1A4380C03A4381502A4388F02A4389503A438D400A438B302A438D200A438B910A4381000A4389BC9A438D71FA4387FAE"%string;
    "A4389910A438D71FA438409EA438D1B8A438D049A438F012A438D700A4382FA9A43892A1A4386131A43833C9A43892A7A438D15DA438D040A438F009A438D193"%string;
    "A438D040A438F006A438D1DBA438D040A438F003A438D16FA438D040A4380C03A4381502A438A380A4389503A438D417A4381000A4389BBFA438D700A4384127"%string;
    "A4380C03A4381502A4388BC0A4388CC7A4380C3FA4380D08A4389503A438F007A4380C03A4381502A4388BC0A4388CC7A438CD48A4389503A4380C06A4380102"%string;
    "A4380C03A4381502A438C555A4389503A438CD81A4381000A4389BC9A438D700A4385FBAA438D707A43840FDA438D193A438D047A4381000A4389BC9A438D700"%string;
    "A4385FBAA438A810A4388902A438D707A438407BA4388801A438A340A438D71FA4383FFDA4389521A438CD82A438D704A438407FA4381800A4389390A4388810"%string;
    "A4380C03A4381502A438A204A438A108A4389503A438A604A438D131A438D046A4381000A4389BC9A438D700A4385FBAA438D707A4385F75A4380C03A4381502"%string;
    "A4388108A4389503A4380C07A4380B02A4380C03A4381502A4380C03A4380200A4389503A438D700A43860CFA43860F1A4386113A4386135A4386157A438F00B"%string;
    "A438CE0BA438F00AA438CE0BA438F008A438CE0AA438F006A438CE0AA438F004A438CE09A438F002A438CE09A4381000A4389BDEA438AB08A438CDC0A4381000"%string;
    "A4389BC9A438D704A4385FB7A4388B08A4380C03A4381502A4388204A438A380A4389503A438D414A438B308A438D202A438B302A438B301A438CDC1A4381000"%string;
    "A4389BC9A438D701A4385FA1A438D400A438B302A438D200A438D71FA4386060A438D704A4386074A4381800A4389390A4380C03A4381502A4380C91A4380080"%string;
    "A438A060A438A101A438A408A438A240A4389503A4380C03A4381502A4380C26A4380022A438A110A438A011A4389503A438D17AA438D046A4381000A4389BC9"%string;
    "A438D700A4385FBAA4380C03A4381502A4380C38A4380C18A4389503A438A318A438D131A438D046A4381000A4389BC9A438D700A4385FBAA4380C03A4381502"%string;
    "A4380C83A4380282A4389503A4380C07A4380B02A438D700A43860CFA43860F1A4386113A4386135A4386157A438F00BA438CE11A438F00AA438CE11A438F008"%string;
    "A438CE10A438F006A438CE10A438F004A438CE0FA438F002A438CE0FA4380C03A4381502A438A204A4389503A4381000A4389BDEA438AB08A4381000A4389BC9"%string;
    "A438D704A4383EBCA4389370A4380C03A4381502A4388284A4389503A4388B08A438D704A43861B9A438D705A438407CA4381800A438938EA4380C03A4381502"%string;
    "A438A402A4389503A4388310A438CDC3A4381800A4389337A4380C03A4381502A4388402A4389503A438CDC2A438F003A4381000A4389C99A4388320A438D705"%string;
    "A438429EA438D700A43860CFA43860F1A4386113A4386135A4386157A438F00BA438CE02A438F01DA438CE02A438F01BA438CE01A438F019A438CE01A438F017"%string;
    "A438CE01A438F015A438CE01A438F013A438D700A43860CFA43860F1A4386113A4386135A4386157A438F00BA438CE06A438F00AA438CE06A438F008A438CE06"%string;
    "A438F006A438CE06A438F004A438CE06A438F002A438CE06A4381000A4389BDEA438D705A43861BEA4380C03A4381502A4380C0FA4380B05A4380C38A4380C28"%string;
    "A4389503A438A810A438A00AA438A302A438A4A0A438F012A4380C03A4381502A4380C0FA4380B06A4380C3FA4380C1BA438D700A4386067A4380CC0A4380D80"%string;
    "A4389503A4388810A438800AA4388302A438A8C0A4388420A438A480A438D700A43840C7A438D704A438409DA4380CE3A4380203A438F003A4380CE0A43802A0"%string;
    "A438A120A438D700A4384187A438D704A43840DDA438D704A438617BA438D704A438613CA438F00AA438D707A438411FA43840E0A438F004A438D707A438409F"%string;
    "A4384062A4388310A438F002A438A318A438D700A43840A7A438D704A438407DA4388604A438F002A438A604A438D700A4386047A438A682A4381000A4389CC6"%string;
    "A4381000A4389BC9A438D706A4385FA7A4381000A4389BC9A438D71FA4385FB4A438B920A438CD83A4381000A4389BC9A438D71FA4387FB4A4388810A4389920"%string;
    "A4381000A4389BC9A438D71FA43860E5A4385F94A4381000A4389BC9A438D706A4385FA7A438FFEFA438B820A438A810A4381000A4389BC9A438D71FA4387FA5"%string;
    "A4389820A438BB20A438D705A438605EA438F018A438D700A43860CFA43860F1A4386113A4386135A4386157A438F00BA438CE06A438F00AA438CE06A438F008"%string;
    "A438CE06A438F006A438CE06A438F004A438CE06A438F002A438CE06A4381000A4389BDEA438A00AA438A420A43888C0A438D701A43840D0A438AC40A4380C03"%string;
    "A4381502A438A750A4389503A438D700A43837C9A4389450A43833A9A438944DA438D1B7A438D04BA438F006A438D1B7A438D04BA438F003A438D1B7A438D04B"%string;
    "A438D707A4383AD1A43894D8A438D700A43840C7A438D704A438409DA438D704A438465CA438F004A438D707A438605FA438F02EA438D700A43837C9A438946A"%string;
    "A43833A9A4389467A438D199A438D05AA438F006A438D199A438D05AA438F003A438D1D6A438D05AA438CD84A4381000A4389BC9A4381000A4389C36A438D700"%string;
    "A4385F7BA438D700A43842C7A438D704A438429DA438D704A438425CA4381000A4389BC9A4381000A4389C36A438D706A4385F6FA4388A04A4388B20A4380C03"%string;
    "A4381502A438A380A4389503A438D401A4381000A4389BBFA4381800A43894D8A438D706A43869ABA4381000A4389BC9A4381000A4389C36A438D700A4385F7A"%string;
    "A438D706A4385F2FA438D700A4384167A438D704A43840BDA438D704A438615BA4381800A43894A5A438D707A438411FA43840E0A438F004A438D707A438409F"%string;
    "A4384062A4388320A438F002A438A320A4388310A438CD85A438D700A43837C9A43894B3A43833A9A43894B0A438D1B7A438D04AA438F006A438D1B7A438D04A"%string;
    "A438F003A438D1B7A438D04AA4381000A4389BC9A4381000A4389C36A438D700A4385F7AA438D706A4385F2FA438D700A43841A7A438D704A43840DDA438D704"%string;
    "A438605BA438F00DA4381800A4388F25A438D707A438413FA4384100A4381800A4388F25A438D707A438409FA4384062A4381800A4388F25A4381000A4389BC9"%string;
    "A4381000A4389C36A438D701A4385F77A4381800A4388F25A438D705A438413EA4380C03A4381502A4380C0FA4380B03A4380C38A4380C00A438A104A4389503"%string;
    "A4380C03A4381502A438A102A4389503A438AA02A438A310A438CD86A438D700A43837C9A43894F4A43833A9A43894F1A438D1D6A438D04AA438F006A438D1D6"%string;
    "A438D04AA438F003A438D199A438D04AA4381000A4389BC9A4381000A4389C36A438D700A4385F7AA4380C30A4380320A438D700A43837C9A4389509A43833A9"%string;
    "A4389506A438D1B7A438D04AA438F006A438D1B7A438D04AA438F003A438D1B7A438D04AA4381000A4389BC9A4381000A4389C36A438D700A4385F7AA438D701"%string;
    "A4385F37A4380C03A4381502A4388102A4388104A4389503A438D701A43840B0A438AA02A438AC80A4381800A4388F25A4388A02A4381800A4388F25A4380C03"%string;
    "A4381502A438A708A4389503A438CD87A438D704A438615FA4388810A438D702A43840E6A438D17AA438D048A4381000A4389BC9A438D700A4385FBAA438D700"%string;
    "A43860CFA43860F1A4386113A4386135A4386157A438F00BA438CE06A438F00AA438CE06A438F008A438CE06A438F006A438CE06A438F004A438CE06A438F002"%string;
    "A438CE06A4381000A4389BDEA438D707A438413BA4380C03A4381502A4380C0FA4380B03A4380C38A4380C18A4389503A438F006A4380C03A4381502A4380C0F"%string;
    "A4380B07A4389503A438D700A43840C7A438D704A438409DA4380CE3A4380203A438F003A4380CE0A43802A0A438A120A438D707A438425BA438D700A4384167"%string;
    "A438D704A43840DDA438D704A438613BA438D704A43860FCA438F008A438D707A43840DFA438F003A438D707A438407FA4388310A438F002A438A318A438A00A"%string;
    "A438A302A438A4A0A438D700A43840A7A438D704A438407DA4388604A438F002A438A604A438D700A4386047A438A682A4381000A4389CC6A4381000A4389BC9"%string;
    "A438D706A4385FA7A4381000A4389BC9A438D71FA4385FB4A438B920A438CD88A4381000A4389BC9A438D71FA4387FB4A4388810A4389920A4381000A4389BC9"%string;
    "A438D71FA43860E5A4385F94A4381000A4389BC9A438D706A4385FA7A438FFEFA438B820A438A810A4381000A4389BC9A438D71FA4387FA5A4389820A438BB20"%string;
    "A438D701A43840D0A438AC40A4380C03A4381502A438A750A4389503A438D700A43837C9A43895BEA43833A9A43895B6A438D702A4384086A438D161A438D049"%string;
    "A438F00EA438D19EA438D049A438F00BA438D702A4384086A438D186A438D049A438F006A438D1C3A438D049A438F003A438D1CFA438D049A438CD89A4381000"%string;
    "A4389BC9A4381000A4389C36A438D700A4385F7AA438D706A4385F2FA438D707A43840FBA4388310A4380C03A4381502A4380C0FA4380B05A4389503A438CD8A"%string;
    "A438D707A438419BA438D700A43833ADA43895DFA438D189A438D045A4381000A4389BC9A4381000A4389C36A438D700A4385F7AA438CD8BA438D40AA4381000"%string;
    "A4389BBFA438BB10A438CD8CA4381000A4389BC9A4381000A4389C36A438D71FA4385F75A438800AA43881A0A4388302A4388480A438D700A4386047A438A680"%string;
    "A4388606A4380C03A4381502A4388340A4388750A4389503A4388C40A4389B30A4381000A4389BC9A438D71FA4387FB5A438CD8DA4381000A4389BC9A438D71F"%string;
    "A4385F94A4388340A4380C03A4381502A4388708A4389503A438A801A438D700A4382FA9A4389610A43833C9A4389613A4386117A438F00AA438D141A438D043"%string;
    "A438F009A438D121A438D043A438F006A438D122A438D042A438F003A438D181A438D043A438D700A43860CFA43860F1A4386113A4386135A4386157A438F00B"%string;
    "A438CE06A438F00AA438CE06A438F008A438CE06A438F006A438CE06A438F004A438CE06A438F002A438CE06A4381000A4389BDEA4381000A4389BC9A438D700"%string;
    "A4385FBAA4380C03A4381502A4380C0FA4380B02A4388CC7A4389503A438D700A43840E7A4380C03A4381502A4380C3FA4380D09A4389503A438F006A4380C03"%string;
    "A4381502A4380C3FA4380D08A4389503A438A810A438A00AA4380CA0A4380120A438A302A438A480A438D700A43840A7A438D704A438407DA4388604A438F002"%string;
    "A438A604A438D700A4386047A438A682A4380C03A4381502A438A340A4389503A4381000A4389BC9A438D706A4385FA7A438B920A438CD8EA4381000A4389BC9"%string;
    "A438D71FA4387FB4A4388810A4389920A4381000A4389BC9A438D71FA43860E5A4385F94A4381000A4389BC9A438D706A4385FA7A438FFEFA438B820A438A810"%string;
    "A4381000A4389BC9A438D71FA4387FA5A4389820A438BB20A438D701A43840D0A438AC40A4380C03A4381502A438A750A4389503A438D1C4A438D046A4381000"%string;
    "A4389BC9A4381000A4389C36A438D700A4385F7AA438D706A438422FA4388C40A4380C03A4381502A4388750A4388380A4389503A438D417A4381000A4389BBF"%string;
    "A438D701A43840D0A438AC40A4380C03A4381502A438A750A4389503A438D192A438D047A4381000A4389BC9A4381000A4389C36A438D700A4385F7AA438D706"%string;
    "A4385F2FA438D707A438409BA438D416A4381000A4389BBFA438BB10A438CD8FA4381800A4389120A4381000A4389C99A4388302A4388646A438D700A43860C7"%string;
    "A438A680A4380C03A4381502A4388702A4389503A4380C03A4381502A438A680A438850FA4389503A438D701A4384050A4388B20A4380C03A4381502A4380CCF"%string;
    "A4380BC8A4380CC7A4380C44A4389503A4380C06A4380102A438D700A43840E7A4380C03A4381502A4380C3FA4380D24A4389503A438F005A4380C03A4381502"%string;
    "A438CDE4A4389503A4381000A4389CDDA438CD90A4380C03A4381502A438A601A4389503A438D700A4382FA9A43896E1A43860D1A4386113A4386157A438D150"%string;
    "A438D040A438F009A438D1A0A438D040A438F006A438D128A438D040A438F003A438D114A438D040A4381000A43899A8A438D700A4385FBAA438D704A4387F6B"%string;
    "A438A81AA4380C03A4381502A4388603A4389503A4381000A4389D31A4381000A4389BDEA438800AA43881A0A4388480A4381000A43899A8A438D707A4384058"%string;
    "A438A901A438D704A4382B59A438974BA438D704A438604CA438FFF6A438D701A4386056A438A704A438A302A438D700A43840A7A438D704A438407DA4388604"%string;
    "A438F002A438A604A438D700A43860C7A438A602A4380C03A4381502A438A702A4389503A438D701A4384055A438A940A438D701A4384050A438AB20A438CD91"%string;
    "A4381000A4389CF4A4381000A43899A8A438D704A4387F6CA438A120A438D707A4384051A438A180A438A480A4388302A4388606A4380C03A4381502A4388702"%string;
    "A4389503A438D701A4386056A4388704A4381000A4389CF4A438CE93A4381000A4389BDEA438D701A4384050A4388B20A438CD92A4381000A43899A8A438D707"%string;
    "A4387FB7A43881A0A4388480A4381000A4389D31A4381000A4389BDEA4381800A43896FEA438D705A43840D9A438D701A4386056A438A704A438A010A438F002"%string;
    "A4388010A438D701A4384095A438D705A4384059A438A940A438D705A4386119A4380C06A4380102A4380C03A4381502A4380C07A4380D04A4389503A438D701"%string;
    "A4384050A438AB20A438CD93A4381000A43899A8A438D704A438464BA438D707A4385F78A4381000A4389D13A438800AA43881A0A438D700A4386117A4386093"%string;
    "A438D15EA438D040A438F006A438D132A438D040A438F003A438D119A438D040A4381000A4389D08A4381000A43899A8A438D73EA4386065A438D700A4385F3A"%string;
    "A4380C03A4381502A43885F0A4389503A438A008A438D707A4384052A438A002A4388010A438D705A4384099A438D701A4386056A4388704A4381000A4389BDE"%string;
    "A438D701A4384050A4388B20A438CD94A4381000A43899A8A438D707A4387FB8A4388010A438D705A4384099A438D701A4386056A4388704A438D705A4384099"%string;
    "A438D701A4384050A4388B20A438D705A43861F9A4388106A438D700A43860E7A4380C03A4381502A4380C07A4380D02A4389503A438F006A4380C03A4381502"%string;
    "A4380C07A4380D01A4389503A438800AA4380C03A4381502A4380CF0A43805A0A4389503A438D705A4384099A4381000A4389D31A438F014A438A1A0A438D700"%string;
    "A43860CFA43860F1A4386113A4386135A4386157A438F00BA438CE08A438F00AA438CE08A438F008A438CE08A438F006A438CE08A438F004A438CE08A438F002"%string;
    "A438CE08A4381000A4389BDEA438D705A43839CCA43891F3A4381800A43896FEA438D75EA43860F4A4389B08A4389920A4380C03A4381502A4388403A4389503"%string;
    "A4380C03A4381502A4388208A4388404A4389503A438CDA1A4381000A4389BC9A4381000A43899A0A4381000A43899A4A438D704A4385F37A4388B08A4380C03"%string;
    "A4381502A4388204A4389503A438D707A4386536A4380C07A4380B00A4380C03A4381502A4380C03A4380200A4389503A438D700A43860CFA43860F1A4386113"%string;
    "A4386135A4386157A438F00BA438CE0BA438F00AA438CE0BA438F008A438CE0AA438F006A438CE0AA438F004A438CE09A438F002A438CE09A4380C03A4381502"%string;
    "A438A204A4389503A4381000A4389BDEA438AB08A4381000A4389BC9A4381000A43899A0A4381000A43899A4A438D704A4385F37A4380C03A4381502A4388204"%string;
    "A4389503A4388B08A438D414A438D202A438B308A438B302A438B301A4380C03A4381502A438AF02A4389503A438CDAFA4381000A4389BC9A4381000A43899A0"%string;
    "A4381000A43899A4A438D701A4385F21A4380C03A4381502A4388F02A4389503A438D400A438B302A438D200A438D704A43867B4A4381000A4389CC6A438BB08"%string;
    "A4389A10A438D700A43860CFA43860F1A4386113A4386135A4386157A438F00BA438CE08A438F00AA438CE08A438F008A438CE08A438F006A438CE08A438F004"%string;
    "A438CE08A438F002A438CE08A4381000A4389BDEA438A00AA438A1A0A438A302A438A480A438D700A43840A7A438D704A438407DA4388644A438F003A4380C44"%string;
    "A4380604A438D700A4386047A438A682A4380C03A4381502A4388230A4388410A4389503A438D707A438404EA4388A10A438CDA9A438D110A438D040A4381000"%string;
    "A4389BC9A4381000A43899A0A4381000A43899A4A438D700A4385F3AA4381800A43891F3A438BA10A4380C03A4381502A4380C97A4380086A438A060A438A101"%string;
    "A438A408A438A240A4389503A438CDA2A4380C03A4381502A438A020A438A110A438A011A4389503A438D17AA438D046A438CDA3A4381000A4389BC9A4381000"%string;
    "A43899A0A4381000A43899A4A438D700A4385F3AA4380C03A4381502A4380C83A4380282A4389503A4380C07A4380B02A438D700A43860CFA43860F1A4386113"%string;
    "A4386135A4386157A438F00BA438CE11A438F00AA438CE11A438F008A438CE10A438F006A438CE10A438F004A438CE0FA438F002A438CE0FA4380C03A4381502"%string;
    "A438A204A4389503A4381000A4389BDEA438AB08A4381000A4389BC9A4381000A43899A0A4381000A43899A4A438D704A4383EBCA43898B7A4380C03A4381502"%string;
    "A4388284A4389503A4388B08A438CDA4A438D704A4386419A4383AD1A4389969A438D705A43860DCA4380C03A4381502A438A402A4389503A438F012A4380C03"%string;
    "A4381502A4388402A4389503A438D705A43860DBA4380C03A4381502A438A401A4389503A438F007A4380C03A4381502A4380C21A4380420A4389503A4389A10"%string;
    "A438D705A43834A4A4389886A4381800A4389969A4380C03A4381502A4380C10A4380010A4388410A438A250A4389503A438D700A43840A7A438D704A438407D"%string;
    "A4388644A438F003A4380C44A4380604A438D700A43840E7A4380C03A4381502A4380C38A4380D28A4389503A438F007A4380C03A4381502A4380CF8A4380D90"%string;
    "A4389503A438A682A438D1F1A438D046A438CDA5A4381000A4389BC9A4381000A43899A0A4381000A43899A4A438D704A43860EFA438D706A43840B1A438D700"%string;
    "A4385EBAA4381800A4389925A438D162A438D055A4381000A4389BC9A4381000A43899A0A4381000A43899A4A438D700A4385F3BA438D704A438692FA438D706"%string;
    "A43848F1A4381800A4389907A438D700A43860CFA43860F1A4386113A4386135A4386157A438F00BA438CE08A438F00AA438CE08A438F008A438CE08A438F006"%string;
    "A438CE08A438F004A438CE08A438F002A438CE08A4381000A4389BDEA438A00AA438D179A438D047A438CDA6A4381000A4389BC9A4381000A43899A0A4381000"%string;
    "A43899A4A438D704A43860EFA438D706A43840B1A438D700A4385EBAA4381800A438995BA438D162A438D055A4381000A4389BC9A4381000A43899A0A4381000"%string;
    "A43899A4A438D700A4385F3BA438D704A438626FA438D706A4384231A4381800A438993DA4380C03A4381502A4380CCFA4380B46A4380C07A4380C03A4389503"%string;
    "A438A1A0A438A480A438B920A4389A10A438CDA7A4381800A43891F3A4380C03A4381502A4388091A4388101A4388250A4380C28A4380420A438D700A4384087"%string;
    "A4380C38A4380D18A438F003A4380CF8A4380D58A4389503A4388106A438CDA8A4381800A43891F3A4380C03A4381502A4388090A4388101A4388248A4389503"%string;
    "A4381000A4389CB7A4381000A4389C90A4388106A4380C03A4381502A4380CCFA4380B03A4388C07A438D700A4384087A4380C38A4380D18A438F003A4380CF8"%string;
    "A4380D98A4388408A4389503A4389C01A438A1A0A438A302A438D707A438404EA4388A10A4381000A4389CC6A438CDABA4381800A438923EA438D71FA4382E71"%string;
    "A438925EA4380800A438D704A4382739A43896ACA4380800A438D71FA43862AEA438D706A4386400A4381000A4389BC9A438D705A43861D9A438D704A4384187"%string;
    "A4380C03A4381502A438A601A4389503A438800AA4381000A4389D31A4381000A4389BDEA4381800A43896ACA4380800A438CD99A438A70CA438881AA4388010"%string;
    "A4380C03A4381502A4388683A4389503A438D701A4384050A438AB20A4381800A438925EA4388010A438A704A4380C03A4381502A438A60CA438A603A4389503"%string;
    "A438800AA43881A0A4388302A4388480A4388604A4388602A4380C03A4381502A4388702A4389503A438D701A4384050A438AB20A438CD96A438A901A4381000"%string;
    "A4389BC9A438D706A4387CE0A438D706A4382109A4389A75A438D71FA4387AAEA438D704A4387EA7A438D706A4385E62A4380C03A4381502A4388F40A4389503"%string;
    "A4380C03A4381502A438A610A4389503A438A708A438881AA4380C03A4381502A4380CCFA4380B03A4388CC7A4389503A4388106A438D700A43860C7A4380C03"%string;
    "A4381502A438CD5AA4389503A438F006A4380C03A4381502A4380C3FA4380D19A4389503A438A00AA438A1A0A438A302A438A480A438D700A43840A7A438D704"%string;
    "A438407DA4388604A438F002A438A604A438D700A43860C7A438A602A4380C03A4381502A438A702A4389503A4380C03A4381502A4388680A4389503A4380C03"%string;
    "A4381502A438C500A4389503A4381000A4389BC9A438D71FA43872CEA438D704A4385F65A438D705A4384378A438D700A43860CFA43860F1A4386113A4386135"%string;
    "A4386157A438F00BA438CE1DA438F00BA438CE1DA438F009A438CE1DA438F007A438CE1DA438F005A438CE1CA438F003A438CE1CA438F001A4381000A4389BDE"%string;
    "A4380C03A4381502A4388640A4389503A438F01AA438D700A43860CFA43860F1A4386113A4386135A4386157A438F00BA438CE05A438F00BA438CE05A438F009"%string;
    "A438CE04A438F007A438CE04A438F005A438CE04A438F003A438CE04A438F001A4381000A4389BDEA4380C03A4381502A438A640A4389503A4380C03A4381502"%string;
    "A4388602A4388601A4389503A4388640A4381000A4389CC6A438D703A4386131A4380C03A4381502A438AF80A4380C38A4380D30A4389503A438D193A438D067"%string;
    "A438CD98A4381800A43891F3A4380C03A4381502A438A608A4389503A438A708A438D701A4386056A4388704A4381000A4389D31A4381000A4389BDEA438A81A"%string;
    "A4380C03A4381502A4388603A4389503A438CD97A4381800A43896FEA438D706A4384103A438D705A438407FA4381800A4389B77A438D105A438D056A438F03F"%string;
    "A438D705A4383FA7A4389A9AA438D705A438605AA438F092A4381800A4389B1EA438D704A4384146A438800AA4380C03A4381502A4380C07A4380D04A4389503"%string;
    "A4380C06A4380102A438F010A438A00AA4388106A438D700A43860E7A4380C03A4381502A4380C07A4380D02A4389503A438F006A4380C03A4381502A4380C07"%string;
    "A4380D01A4389503A438D705A43861D4A438D704A438609FA4386170A4382D71A4389AC3A438D702A43860D7A4380C03A4381502A4380CF0A43805A0A4389503"%string;
    "A438F0FCA4380C03A4381502A438A108A438A204A4389503A4381000A4389BC9A4381000A43899A0A4381000A43899A4A438D707A4385F35A4380C03A4381502"%string;
    "A438A410A4389503A438800AA43881A0A4388302A4388480A4388642A4381000A4389D44A4380C03A4381502A4388108A4389503A4388C40A4380C03A4381502"%string;
    "A4388750A4389503A438AA10A438D706A4384063A4388604A438F022A438A604A4380C03A4381502A4388220A4388301A4388420A4388108A4380C03A4380201"%string;
    "A4389503A4380C07A4380B01A438D700A43860CFA43860F1A4386113A4386135A4386157A438F00BA438CE0EA438F00AA438CE0EA438F008A438CE0DA438F006"%string;
    "A438CE0DA438F004A438CE0CA438F002A438CE0CA4381000A4389BDEA438AB08A438CDA0A438D706A4384043A438F0B1A438D705A438411EA438D162A438D045"%string;
    "A4380C03A4381502A438A008A4389503A438F0A8A4380C03A4381502A4388008A4389503A438D1C4A438D055A438F0A1A438D700A438605AA438F09EA4380C03"%string;
    "A4381502A4388008A4388210A438A210A4389503A438D162A438D055A438D704A438608FA438D706A4384051A438F04AA438D705A438415EA438D705A4386112"%string;
    "A4380C03A4381502A4380C06A4380002A438A110A438A305A4389503A438D705A43840DEA438D706A4386771A438D700A43860BBA438F07FA438D700A438661B"%string;
    "A438F07CA4380C03A4381502A4388090A4388101A4380CCFA4380B03A4388C07A438D700A4384087A4380C38A4380D18A438F003A4380CF8A4380D58A4388270"%string;
    "A4388408A4388301A4389503A4388106A4389C01A438D705A43840B5A4381000A4389CB7A438D601A438D628A4380C03A4381502A4388208A4389503A438CDAC"%string;
    "A438D1C4A438D054A4381000A4389BC9A4381000A43899A0A4381000A43899A4A438D700A4385F3BA4380C03A4381502A438A230A4389503A438F04EA4380C03"%string;
    "A4381502A438A404A4388230A4389503A438F048A438D700A43848DBA4380C03A4381502A4388204A4388410A4389503A4388B08A438D700A43860CFA43860F1"%string;
    "A4386113A4386135A4386157A438F00BA438CE08A438F00AA438CE08A438F008A438CE08A438F006A438CE08A438F004A438CE08A438F002A438CE08A4381000"%string;
    "A4389BDEA438A00AA438A1A0A438A480A438D705A438611EA438A302A4381000A4389CC6A438D707A438404EA4388A10A438F006A4388302A4380C03A4381502"%string;
    "A4388301A4389503A438D700A4386047A438A682A438D700A43840A7A438D704A438407DA4388644A438F003A4380C44A4380604A438D701A43840D0A438AC40"%string;
    "A4380C03A4381502A438A750A4389503A4380C03A4381502A438A220A4388210A438A210A438A620A4389503A438CDAAA4380800A438D202A438B309A4381000"%string;
    "A4389BC9A438D701A4385FA1A438D400A438B302A438D200A4380800A438D71FA4386261A438CDFFA438D705A43841D5A4380C03A4381502A4380C1FA4380E12"%string;
    "A4389503A438D70CA4385FF3A4380C03A4381502A4388E1FA4389503A438D70CA4387F73A4381800A438001CA4380800A438AB10A438D71FA438210CA438001C"%string;
    "A438D701A4385F98A4388B10A4380800A438D71FA438210CA438001CA438D701A4385F99A4380800A438A110A4381000A4389BE6A4388110A438A140A4381000"%string;
    "A4389BE6A4388140A438A004A4381000A4389BE6A4388004A438A001A4381000A4389BE6A4388001A438A020A4381000A4389BE6A4388020A438A101A4380800"%string;
    "A438D202A4380C09A4381301A4381000A4389BC9A438D701A4385FA1A438B302A438D200A4380800A438D204A4380C09A4381301A4381000A4389BC9A438D701"%string;
    "A4385FA2A438B302A438D200A4380800A438D208A4380C09A4381301A4381000A4389BC9A438D701A4385FA3A438B302A438D200A4380800A438D210A4380C09"%string;
    "A4381301A4381000A4389BC9A438D701A4385FA4A438B302A438D200A4380800A438AC01A4381000A4389BC9A438D707A4385FADA4380800A438AC04A4381000"%string;
    "A4389BC9A438D707A4385FABA4380800A438D71FA4384354A4388810A4381000A4389BC9A438D706A4385FA7A438B920A4381000A4389BC9A438D71FA4387FB4"%string;
    "A4389920A4381000A4389BC9A438D71FA4386085A438D71FA4387E34A438FFFAA438B820A438A810A4381000A4389BC9A438D71FA4387FA5A4389820A4380800"%string;
    "A4380C03A4381502A438A308A4389503A4381000A4389BC9A438D701A4385FB3A4380800A4380C03A4381502A4388308A4389503A4381000A4389BC9A438D701"%string;
    "A4387FB3A4380800A438C000A438C100A438C200A438C300A438C400A438C500A438C600A438C700A438C828A438C904A438CA00A438CB00A438CC00A438CE00"%string;
    "A438CF00A438D000A438D100A438D200A438D300A438D400A438D500A438D700A4380C03A4381502A438C000A438C100A438C200A438C300A438C400A438C500"%string;
    "A438C600A438A63CA438C700A438C800A438C900A438CA00A438CB00A438CC00A438CD00A438CE00A438CF00A4389503A438CD00A4380800A438D601A438D608"%string;
    "A438D610A438D618A438D620A438D628A438D630A438D638A4380800A4388B0FA4380C03A4381502A4388097A4388109A43882FFA438843FA4389503A4389920"%string;
    "A4389B08A4389A10A438D705A4384235A4380C03A4381502A4380C1FA4380E12A4388440A4389503A438D70CA4385FF3A4380C03A4381502A4388E1FA4389503"%string;
    "A438D70CA4387F73A438D601A438D628A4380800A4380C03A4381502A4380C1FA4380E12A4388440A4389503A438D70CA4385FF3A4380C03A4381502A4388E1F"%string;
    "A4389503A438D70CA4387F73A4380800A438D700A43837C9A4389CCFA4380C03A4381502A4380C70A4380350A4389503A438F00EA438D702A43840F9A4380C03"%string;
    "A4381502A4380C70A4380340A4389503A438F006A4380C03A4381502A4380C70A4380340A4389503A4380800A438D700A43837C9A4389CE6A4380C03A4381502"%string;
    "A4380C70A4380370A4389503A438F00EA438D702A43840F9A4380C03A4381502A4380C70A4380350A4389503A438F006A4380C03A4381502A4380C70A4380350"%string;
    "A4389503A4380800A4388910A438D704A43861A8A438D702A43860D6A4380C03A4381502A438AF40A4389503A438F00AA4380C03A4381502A4388F40A4389503"%string;
    "A438F005A4380C03A4381502A4388F40A4389503A4380800A4388910A438D705A4384059A438A910A438D704A4386068A4380000A438F002A4380000A4388910"%string;
    "A4380800A438D703A4386080A4386121A43861C2A4386263A438D707A4384070A438CE98A438F015A438CE94A438F013A438D707A4384070A438CE99A438F00F"%string;
    "A438CE95A438F00DA438D707A4384070A438CE9AA438F009A438CE96A438F007A438D707A4384070A438CE9BA438F003A438CE97A438F001A4380800A438D700"%string;
    "A43860CFA43860F1A4386113A4386135A4386157A438F00BA438CE00A438F00AA438CE00A438F008A438CE00A438F006A438CE00A438F004A438CE00A438F002"%string;
    "A438CE00A4380800A4380C03A4381502A4388702A4389503A438D101A438D040A438D700A4385FFAA4388680A438D700A43860A7A4380C03A4381502A438A702"%string;
    "A4389503A4380800A438CDFEA438A708A438A2FCA438BA20A438A980A4381000A4389BC9A438D71FA4385FB4A438B920A4381000A4389BC9A438D71FA4387FB4"%string;
    "A4389920A4380CA0A4380480A438D706A4385FE7A43884A0A4381000A4389BC9A438D71FA4385FB4A438B920A4381000A4389BC9A438D71FA4387FB4A4389920"%string;
    "A4381000A4389BC9A438D71FA4385FA5A438B820A4381000A4389BC9A438D71FA4387F85A4389820A438A810A438D700A43860CFA43860F1A4386113A4386135"%string;
    "A4386157A438F00BA438CE08A438F00AA438CE08A438F008A438CE08A438F006A438CE08A438F004A438CE08A438F002A438CE08A4381000A4389BDEA438A120"%string;
    "A438A4A0A438A980A4381000A4389BC9A438D706A4385FAFA4381800A4389DE8A438CDFDA438D700A43860CFA43860F1A4386113A4386135A4386157A438F00B"%string;
    "A438CE08A438F00AA438CE08A438F008A438CE08A438F006A438CE08A438F004A438CE08A438F002A438CE08A4381000A4389BDEA438A980A438A810A438A00A"%string;
    "A438A1A0A438A312A438A4A0A438A604A4380C03A4381502A438A340A4389503A4381000A4389BC9A438D706A4385FAFA4380C30A4380320A4381000A4389BC9"%string;
    "A438D704A4385FA4A438800AA43881A0A4388312A43884A0A4388604A4381000A4389BC9A438D71FA4385FB4A438B920A4381000A4389BC9A438D71FA4387FB4"%string;
    "A4389920A4388340A438A801A438A980A4388240A438A00AA438A1A0A438A302A438A4A0A438A604A438D1C8A438D045A438D700A4385FFAA438D706A4385FAF"%string;
    "A438D40AA4381000A4389BBFA438D416A4381000A4389BBFA438800AA43881A0A4388302A4388480A438A604A438A801A4388818A438BB10A4381000A4389BC9"%string;
    "A438D71FA4385FB5A4389B10A4381000A4389BC9A438D71FA4387FB5A4381800A438915EA4381000A4381C45A4381000A4389C64A438AC10A4381800A4380021"%string;
    "A436A10EA438FFFFA436A10CA438FFFFA436A10AA438FFFFA436A108A438FFFFA436A106A438FFFFA436A104A438FFFFA436A102A438001CA436A100A4380073"%string;
    "A436A110A4380003A436A016A4380020A436A012A4381FF8A436A014A438B904A438D18AA438D17AA4389C10A4380000A4380000A4380000A4380000A436A164"%string;
    "A4381CACA436A166A4380666A436A168A4380669A436A16AA438001FA436A16CA4383FFFA436A16EA4383FFFA436A170A4383FFFA436A172A4383FFFA436A162"%string;
    "A438000FA436B87CA4388A23A436B87EA438AF8AA4383BAFA4388A4CA438AF8AA4385CAFA4388A62A438AF8AA43868AFA4388A9EA438AF8BA4384DAFA4388BA8"%string;
    "A438E080A43815ADA4382505A438D101A438AF58A438CC02A4381E44A438AF59A43805EEA43888AFA4380102A4387EB6A438AD2AA43803AFA4385B41A438AF5B"%string;
    "A4384A02A4388C4CA438AF69A4384F02A4388D51A438AF65A438AF02A4387B73A438BF7AA438A302A4387B73A438BF8EA4385B02A4387B73A438BF8EA4385E02"%string;
    "A4387B73A438BF8EA4386102A4387B73A438BF7AA438A602A4387B73A438BF8EA4386402A4387B73A438BF8EA4386702A4387B73A438BF8EA4386A02A4387B73"%string;
    "A438AF64A438CFE0A438898AA438E189A4388BC4A438EF67A438E089A4388CE1A438898EA4381B01A438EF20A438AD27A43804C7A43878FFA438109EA438050D"%string;
    "A4388180A438AEF9A438AC37A43809CFA438027AA438CDACA4385030A438AE13A438E089A4388AE1A438898BA438EF74A438EF46A438CE02A4387ACDA438EF64"%string;
    "A438AC50A4381BE0A4388991A4383802A438AC27A43813EFA43846E4A438898AA438E589A4388B3BA43802E7A438898DA438E289A4388EE6A438898CA4381F44"%string;
    "A438E189A43868E2A438898EA4383A09A438EF32A438AD37A43806C6A438EF64A4387AFFA438129EA438050DA4386182A438AEF9A438AC3FA43804EFA43874AE"%string;
    "A43803EFA43876CEA438027AA438CDADA438501EA438E089A4389138A43802ACA4382709A438E089A4388F10A438E489A4388FAEA4380DE0A4388991A4382801"%string;
    "A438E189A438921EA43810E5A4388992A438E089A4389110A438E489A43891AFA43868C5A438CFFBA438EE89A4386700A438E389A438671FA43877D8A438A000"%string;
    "A4381213A438E789A43867D2A438031AA43892E1A4388966A4381B13A4389FEDA438AF8BA43887A0A438040BA438BCBFA4387AB2A438027DA4385ABDA438AC28"%string;
    "A438E0D8A4381F11A4380267A438C3D7A4380001A438AED5A438AD50A43802AEA43812E0A4388987A438AD20A43806EEA4388987A43800AEA43806EEA4388989"%string;
    "A43800AEA43806E0A438895CA438E489A43889FFA438AF6BA4383CD4A438000FA438BF79A4383202A4387B9FA438D400A43804BFA4385075A438D700A4380802"%string;
    "A4387DA0A438BF8EA4386D02A4387B73A438D402A43800BFA4388E70A438027BA4389FD4A438000FA438BF8EA4387302A4387B9FA438BF8EA4387302A4387B73"%string;
    "A438D41BA4383EBFA4388E6DA438027BA4389FD4A43800DCA438BF8EA4387002A4387B9FA438D400A4380FBFA4388E73A438027BA4389FBFA4388E73A438027B"%string;
    "A43873D4A4381BBEA438BF8EA4386D02A4387B9FA438D400A438DCBFA4388E70A438027BA4389FD4A438000FA438BF8EA4387302A4387B9FA438BF8EA4387302"%string;
    "A4387B73A438D700A43886B7A438FED4A438003EA438BF8EA4386D02A4387B9FA438D400A438DCBFA4388E70A438027BA4389FD4A438000FA438BF8EA4387302"%string;
    "A4387B9FA438BF8EA4387302A4387B73A438BF79A4383202A4387B73A438AF51A4384FF8A438F9FAA438CEFBA438EF79A438FBE0A4388967A438EF10A4384803"%string;
    "A438BF89A438721AA43890EFA43879BFA4388982A4381A91A438EC01A4380702A4387EB6A438AD29A43810E0A438898FA4383804A4389F06A438EF97A4381919"%string;
    "A438EC02A438AF8DA43848EFA43897ECA43804E0A438898FA438380CA4389E3DA438E089A4388D38A43803ACA438273DA438E089A4388D38A438039EA4383F07"%string;
    "A438EC03A43807E0A438898DA4383804A4389E53A43819ECA43802E0A438898DA4383807A438AC27A4386089A438EC03A438E089A4388D38A438079EA4385807"%string;
    "A438EC04A43807E0A438898DA4383808A4389E61A438AF8DA4384819A438EC03A43819ECA43802AEA4387819A438EC03A43807ECA4380207A438AE6FA438E089"%string;
    "A4385DA0A438010EA438E089A43892A0A4380308A4381F55A43807ECA4380307A438AE55A43807ECA4380207A438D103A438026BA43874AEA43850E0A438895D"%string;
    "A438A001A4380BE0A4388992A438AD21A43805D5A438010FA438AE39A438D102A438026BA43874AEA43838AEA43836E0A438895DA438A001A4381FE0A4388992"%string;
    "A438A003A438191FA4385507A438EC04A43807AEA43817E0A438895DA438A001A4380BE0A4388992A438AD21A43805D5A438010FA438AE06A438EF97A438EC00"%string;
    "A438AE0BA4380266A438A7AEA4380602A43866A7A43819ECA43802FFA438EF97A438FFC6A438FEFDA438FC04A438F8F9A438FAEFA43869FBA438CFD3A43800E7"%string;
    "A4388967A438BF89A4386E1AA43893BCA438DAADA438302DA438BF76A438111FA4384402A4387D66A4380266A438FCBFA4388982A438E189A43867A1A4380001"%string;
    "A438191FA43844D9A43881BFA4387AA0A438027DA43866BFA4387611A438D400A4380102A4387D66A438BDAEA43802AEA438C9DAA438AD31A43831BFA438761D"%string;
    "A4381F44A438027DA4386602A43866FCA438BF89A4388219A438E189A43867A1A4380202A438AE06A438A103A43802AEA4380119A4381F44A438D981A438BF7A"%string;
    "A438A302A4387D66A438BF76A4381DD4A4380001A438027DA43866BDA438DAADA438322CA438BF76A438291FA4384402A4387D66A4380266A438FCBFA4388982"%string;
    "A4381919A438E189A43867A1A4380302A438AE01A438191FA43844D9A43881BFA4387AA6A438027DA43866BFA4387629A438D400A4380102A4387D66A438028E"%string;
    "A4380F13A438E789A43867E0A4388966A4381B03A4389F8BA438C7FFA438EF96A438FEFDA438FC04A438F8F9A438FAEFA43869FBA438CFE3A4388967A438BF89"%string;
    "A4387E1AA43893BCA438DA6AA438009EA4382FBFA4387653A438E389A438671FA4384402A4387D66A4380267A4381ABDA4381F00A438D959A438010CA4381269"%string;
    "A43808A3A4380104A4386902A438AE02A4386901A438BF7AA438B202A4387D66A438D101A438BF76A4385302A4387D66A438C7FFA438EF96A438FEFDA438FC04"%string;
    "A43832B1A4384A32A438B24AA43832B3A4384A10A438B14AA43810B2A4384A10A438B34AA438F0BDA43894F0A438BD92A43874BDA4389600A436B85EA43858CA"%string;
    "A436B860A4385B3DA436B862A438694CA436B864A43865ACA436B886A43864CCA436B888A438683EA436B88AA4386AE6A436B88CA4385119A436B838A43800FF"%string;
    "B8200010A4640001A4368474A4380000A4368608A438AF86A43820AFA438865EA438AF86A438ACAFA43886B7A438AF88A438BDAFA43888D4A438AF88A438E3AF"%string;
    "A438893FA438BF8AA4381102A4387589A438BF8AA4381702A438756AA438BF8AA4381D02A438756AA438BF8AA4381402A4387589A438BF8AA4381A02A438756A"%string;
    "A438BF8AA4382002A438756AA438A200A43808BFA4386E23A4380275A4383EAEA4380CA2A4380609A438E08FA4387DADA4382003A438AF0FA438C9AFA4380FD5"%string;
    "A438E084A43868A0A4380005A4380264A438E6AEA4380BA0A4380105A4380265A438B4AEA4380302A4388677A438AF64A438E1F8A438F9E0A4388469A438E184"%string;
    "A4386A14A438E484A43869E5A438846AA438E283A438ADE3A43883AEA4381B45A4389F11A438EE84A4386900A438EE84A4386A00A438EE84A4386800A4380264"%string;
    "A438E6AEA43808E0A4388043A438F626A438E480A43843FDA438FC04A438E080A43843F6A43826E4A4388043A438AF65A438A8EEA4388468A4380202A43886C9"%string;
    "A438E080A43843F6A43826E4A4388043A438AF66A4380BF8A438F9EFA43859F9A438FAFBA438E18FA4387EA1A4380003A438AF88A43864BFA4386C43A4380275"%string;
    "A43889D0A438003CA438008AA438AD27A43803AFA43886FEA438EE8FA4387E00A438EE84A4386D0FA438D401A43828D6A4380010A4380288A4386CAFA4388864"%string;
    "A438EE84A4386D00A438D600A4388F02A438889BA438EE84A4386D01A438D600A438C002A438886CA438EE84A4386D01A438D600A4388F02A438889BA438EE84"%string;
    "A4386D02A438D600A438C002A438886CA438EE84A4386D02A438D600A4388F02A438889BA438EE84A4386D04A438D600A438C002A438886CA438EE84A4386D03"%string;
    "A438D600A4388F02A438889BA438EE84A4386D08A438D600A438C002A438886CA438EE84A4386D00A438D600A4389002A438889BA438EE84A4386D01A438D600"%string;
    "A438C102A438886CA438EE84A4386D01A438D600A4389002A438889BA438EE84A4386D02A438D600A438C102A438886CA438EE84A4386D02A438D600A4389002"%string;
    "A438889BA438EE84A4386D04A438D600A438C102A438886CA438EE84A4386D03A438D600A4389002A438889BA438EE84A4386D08A438D600A438C102A438886C"%string;
    "A438EE84A4386D00A438D600A4389102A438889BA438EE84A4386D01A438D600A438C202A438886CA438EE84A4386D01A438D600A4389102A438889BA438EE84"%string;
    "A4386D02A438D600A438C202A438886CA438EE84A4386D02A438D600A4389102A438889BA438EE84A4386D04A438D600A438C202A438886CA438EE84A4386D03"%string;
    "A438D600A4389102A438889BA438EE84A4386D08A438D600A438C202A438886CA438EE84A4386D0FA438D414A43800D6A438000DA4380288A4386CBFA4388A2C"%string;
    "A4380275A4383EBFA4388A2FA4380275A4383EBFA4388A32A4380275A4383EBFA4388A35A4380275A4383EBFA4388A38A4380275A4383ED4A438000FA438BF71"%string;
    "A4385C02A438756AA438BF71A4385F02A4387589A438EF31A438E783A4389FA3A4380FF2A438D400A43800BFA438715CA4380275A4386ABFA4388A2CA4380275"%string;
    "A43847BFA4388A2FA4380275A43847BFA4388A32A4380275A43847BFA4388A35A4380275A43847BFA4388A38A4380275A43847EEA438846DA4380FD4A4381000"%string;
    "A438D600A4380D02A438886CA438FFFEA438FDEFA43895FDA438FC04A438F8F9A438EF59A438F9FAA438EF44A438BF73A438BF02A438756AA438EF46A438BF73"%string;
    "A438C202A438756AA438E184A4386DBFA4388A29A4380275A4386AD4A4380000A438BF8AA4382902A438756AA438FEFDA438EF95A438FDFCA43804F9A438EF59"%string;
    "A438F9FAA438EF46A438BF73A438C202A438756AA438E184A4386DBFA4388A23A4380275A4386ABFA4388A26A4380275A43889FEA438FDEFA43895FDA43804E4"%string;
    "A4388044A438EE84A4386D0FA438D401A43820D6A4380010A4380288A4386CEEA4388F7EA43801AFA4386879A438EE84A4386900A438EE84A4386A00A438EE8F"%string;
    "A4387E00A438AF64A4388702A4386A2AA438E384A438F302A4386A4CA438AC28A43808E0A43884F6A438F722A438E484A438F602A4386AF9A438BF73A4384D02"%string;
    "A438753EA438BF73A4385002A438753EA438BF73A4385302A438753EA438BF73A4385602A438753EA438D500A4380002A4386B1DA438BF73A4384402A4387547"%string;
    "A438BF73A4384702A4387547A438BF73A4387702A438753EA438BF73A4384A02A4387547A438BF73A4385302A438753EA438BF73A4385602A4387547A438AF69"%string;
    "A4384D02A4388948A438021EA43840AFA4381E3FA438F8FAA438EF69A438E080A4384FACA4382417A438E080A43844ADA4382417A4380289A43874E0A4388044"%string;
    "A438AC24A4380EBFA4388A3BA4380275A43847AEA4380602A4388A06A4380289A438FBEFA43896FEA438FC04A438F8F9A438FAEFA43869FAA438FBD2A43800A2"%string;
    "A4380403A438AF89A438EABFA4386AF1A4380277A43824EFA438010DA43811D0A43800EFA438640CA43866EFA43812BFA4388A23A4380275A4386AD3A43801A3"%string;
    "A4384302A438AE44A4381F00A438EF13A438BF73A438C202A438756AA438BF8AA4383E02A4387589A438D100A4380D01A4380C01A4381A46A438BF73A438BF02"%string;
    "A438756AA4381F00A438EF13A438BF73A438C202A438756AA438D101A438EF02A43810B0A43802AEA4380449A43802AEA438F8BFA43873C5A4380275A4386ABF"%string;
    "A43873C5A4380275A4383E13A438AEB7A43812AFA438897DA438D500A4380102A4386B1DA4380289A438FBFFA438FEEFA43896FEA438FDFCA43804F8A438E080"%string;
    "A43844F6A43824E4A4388044A438FC04A438F8E0A438804FA438F624A438E480A4384FFCA4380455A438A6FEA43844A6A438FE66A438A4B6A43855A4A438B666"%string;
    "A438AC0EA43855ACA4380EFEA438BDA4A438F0BDA4389830A438BD96A438FFBDA438DEEEA438BDDEA438DDBDA438DEBBA438BDDEA438AABDA438DE44A438AC00"%string;
    "A438F0BDA4389A00A436B818A4380FB9A436B81AA43864C3A436B81CA43864F1A436B81EA4386607A436B850A4386876A436B852A438647FA436B878A43868E8"%string;
    "A436B884A4381E3CA436B832A43800DFB82E0000A4368023A4380000B8200000FFFFFFFF"%string
  ]).

(** The array, 3776 words. *)
Definition phy_mcu_ram_code_8127a_1 : list Z :=
  hex_words (String.concat EmptyString [
    "A4368023A4386100A436B82EA4380001B8200090A436A016A4380000A436A012A4380000A436A014A4381800A4388010A4381800A438801AA4381800A438801A"%string;
    "A4381800A438801AA4381800A438801AA4381800A438801AA4381800A438801AA4381800A438801AA438CE00A4382941A4388017A4382C59A4388017A4381800"%string;
    "A4380E11A4388AFFA4381800A4380E11A436A026A438FFFFA436A024A438FFFFA436A022A438FFFFA436A020A438FFFFA436A006A438FFFFA436A004A438FFFF"%string;
    "A436A002A438FFFFA436A000A4380E10A436A008A4380100A436A016A4380000A436A012A4380FF8A436A014A438219AA4380000A4380000A4380000A4380000"%string;
    "A4380000A4380000A4380000A436A152A43821A4A436A154A4383FFFA436A156A4383FFFA436A158A4383FFFA436A15AA4383FFFA436A15CA4383FFFA436A15E"%string;
    "A4383FFFA436A160A4383FFFA436A150A4380001A436A016A4380010A436A012A4380000A436A014A4381800A4388010A4381800A4388014A4381800A438801A"%string;
    "A4381800A438801EA4381800A4388026A4381800A438802EA4381800A4388036A4381800A438803AA438CE01A4388208A4381800A4380028A4381000A43802C5"%string;
    "A4381000A4380304A4381800A4380119A438CE01A4388208A4381800A438009EA438D501A438CE01A438A50FA4388208A438D500A438AA0FA4381800A438015B"%string;
    "A438D501A438CE01A438A50FA4388208A438D500A438AA0FA4381800A43801A9A438D501A438CE01A438A50FA4388208A438D500A438AA0FA4381800A43801F4"%string;
    "A4388208A438D500A4381800A43802A5A438A208A438D500A4381800A43802B8A436A08EA43802B7A436A08CA43802A4A436A08AA43801E7A436A088A438019C"%string;
    "A436A086A438014EA436A084A438009DA436A082A4380117A436A080A4380027A436A090A43800FFA436A016A4380020A436A012A4380000A436A014A4381800"%string;
    "A4388010A4381800A438801DA4381800A438803BA4381800A4388087A4381800A438808EA4381800A438809DA4381800A43880B7A4381800A43880C4A438D1BC"%string;
    "A438D040A4381000A4381CD2A438D700A4385FBAA438D700A438273DA438801BA4381800A43807D1A4381800A438080EA438D700A43837C9A4388032A43833A9"%string;
    "A438802AA438D705A4384084A438D1F4A438D048A438F013A438D1B7A438D04BA438F010A438D705A4384084A438D1F4A438D048A438F00BA438D1B7A438D04B"%string;
    "A438F008A438D705A4384084A438D1F4A438D048A438F003A438D1B7A438D04BA4381800A43814CCA438D700A4382B59A438803FA438F003A4381800A438118F"%string;
    "A4386060A4381800A4381167A438D700A43860C7A438D704A438609FA438D705A4384043A438F003A4381800A4381150A4380C03A4381502A4388702A4388011"%string;
    "A4389503A438800AA43881A0A4388302A4388480A4388686A438CDE0A438D1FFA438D049A4381000A4381CD2A438D700A4385FBAA438D705A438417EA4380C03"%string;
    "A4381502A438A011A4389503A438D1C8A438D045A4381000A4381CD2A438D700A4385FBAA4380C03A4381502A438A702A4389503A438A00AA438A1A0A438A480"%string;
    "A438A686A438D705A438605EA438A302A4389503A438D700A43837C9A4388083A43833A9A438807FA438D178A438D04BA4381800A438115DA438D1C8A438D04B"%string;
    "A4381800A438115DA438D1E6A438D04BA4381800A438115DA438D71FA4386080A438D704A4381800A4381BC0A4381800A4381BC4A4384134A438D115A438D04F"%string;
    "A4381000A4381D0BA4381000A43880ADA4381800A43801F2A4381000A4381D0BA4381000A43880ADA4381800A43801F9A4382969A43880A3A438D700A438606B"%string;
    "A438D701A43860B4A4381000A43880ADA4381800A4380551A438D196A438D04DA4381000A43880ADA4381800A438054DA438D208A4380C09A4381301A4381000"%string;
    "A4381CD2A438D701A4385FA3A438B302A438D200A4380800A438D705A4386064A4381800A438140AA4388810A438D199A438D04BA4381000A4381CD2A438D700"%string;
    "A4385FBAA4381800A438140AA4388910A438D704A43861A8A4388480A4388604A4388302A43881A0A438D703A4384112A4380C03A4381502A438A990A4389503"%string;
    "A438B904A438F002A4380000A4380800A436A10EA4381DE8A436A10CA4381352A436A10AA4380545A436A108A43801EDA436A106A4381BBFA436A104A438114B"%string;
    "A436A102A43814BFA436A100A43807CEA436A110A43800FFA436A016A4380020A436A012A4381FF8A436A014A438D1CEA4380000A4380000A4380000A4380000"%string;
    "A4380000A4380000A4380000A436A164A43807FCA436A166A438143DA436A168A4383FFFA436A16AA4383FFFA436A16CA4383FFFA436A16EA4383FFFA436A170"%string;
    "A4383FFFA436A172A4383FFFA436A162A4380003A436B87CA4388994A436B87EA438AF89A438ACAFA43889E4A438AF89A438ECAFA4388A04A438AF8AA4382EAF"%string;
    "A4388A4AA438AF8DA43831AFA4388DC6A4381F55A438E18FA438E3A1A4380007A438EE86A438E900A438AF4FA4389EADA438281BA438E18FA438FCEFA43871BF"%string;
    "A43874F6A438027EA438D2EFA438641CA438670DA43867EFA438461FA43800BFA43874F6A438027EA438DEE1A4388FE3A4380D11A438E58FA438E313A438AECA"%string;
    "A438028DA438D1D3A43801AFA43840D1A438BF7AA4386102A4387D44A438A100A43809E0A4388FFAA438E18FA438FBAFA438683DA438027FA438A9AFA438682C"%string;
    "A438BF8EA4384102A4387D44A438E58FA438ECBFA43874CCA438027DA43844E3A4388FEDA4380D31A438F63FA4380D11A438F62FA4381B13A438AD2FA43806BF"%string;
    "A4388E41A438027CA438F9D1A43801AFA4385974A438EE88A4388600A438E08FA438EBADA438200BA438E18FA438ECBFA4388E41A438027DA43825AEA43804EE"%string;
    "A4388FEBA43801AFA4385945A438AD28A4382CE0A4388FEAA438A000A4380502A4388AF0A438AE1EA438A001A4380502A4388B9FA438AE16A438A002A4380502"%string;
    "A4388C0FA438AE0EA438A003A4380502A4388C95A438AE06A438A004A4380302A4388D08A438AF63A4388902A4388A7FA438AF63A43881F8A438EF49A438F8E0"%string;
    "A4388015A438AD21A43819BFA4387BD8A438027CA438F9BFA4387BF3A438027DA43844BFA4387BF6A438027CA438F902A438638EA438EE8FA438EA00A438E080"%string;
    "A43816ADA438233DA438BF7BA438F302A4387D44A438BF7AA4389402A4387CF9A438BF8EA4384402A4387CF9A438BF7AA438A602A4387CF9A438BF7AA438A302"%string;
    "A4387CF9A438BF7AA438A902A4387CF9A438BF7AA438AC02A4387CF9A438BF8EA4384702A4387CF9A438BF8EA4384A02A4387CF9A4380263A4388EEEA4388FEA"%string;
    "A43800BFA4387C02A438027CA438F9FCA438EF94A438FC04A438F8F9A438FBEFA43879FBA438E080A43815ACA4382103A438AF8BA43870EEA4388888A43800EE"%string;
    "A438888AA43800EEA438888BA43800BFA4387BD8A438027DA43802BFA4386000A438D788A438881FA43844D4A438000CA4380273A4383B02A4387FA9A438AC28"%string;
    "A43805ACA438290DA438AE18A438E188A43898BFA4387BE1A438027DA43825AEA43818E1A4388898A4380D11A438BF7BA438E102A4387D25A438AE0BA438E188"%string;
    "A438980DA43812BFA4387BE1A438027DA43825BFA43888A0A438DA19A438DB19A438D819A438D91FA43877BFA43888B1A438DE19A438DF19A438DC19A438DD19"%string;
    "A43817A7A4380004A438F302A43863CDA438EE8FA438EA01A438E080A43816ADA4382319A438EE88A4388800A438EE88A4388A00A438EE88A4388B00A438BF8E"%string;
    "A4384402A4387D02A4380263A438CDEEA4388FEAA4380102A43870DEA438BF7CA4380202A4387D02A438FFEFA43897FFA438FDFCA43804F8A438F9FAA438EF69"%string;
    "A438FAE0A438888AA438E188A4388B14A438E488A4388AE5A438888BA438BF88A43894D8A43819D9A438EF64A438E088A4388AE1A438888BA4381B46A4389F30"%string;
    "A4381F44A438E488A4388AE5A438888BA438E080A43815ADA438211AA4380260A438ECE0A4388016A438AD23A4381602A4387C86A438EF47A438E48FA438E9E5"%string;
    "A4388FE8A438EE8FA438EA02A438AE0BA438028CA4382EAEA4380602A4388BFEA4380270A438DEFEA438EF96A438FEFDA438FC04A438F8E1A4388888A43811E5"%string;
    "A4388888A438AD2AA43804EEA4388888A43800FCA43804F8A438FAFBA438E08FA438E9E1A4388FE8A438EF64A4381F00A438E18FA438E6EFA4387402A4387CA1"%string;
    "A438AD50A4380302A4388C2EA438FFFEA438FC04A438F8FAA438EF69A438FBBFA4387BF3A438027DA43844ACA438284CA4380264A4381CBFA4388E47A438027D"%string;
    "A43802BFA4388E4AA438027DA43802D1A43843B1A438FEBFA4387AA6A438027CA438F9BFA4387AA3A438027CA438F9BFA4387AA9A438027CA438F9BFA4387AAC"%string;
    "A438027DA43802D1A43880E0A4388888A438100EA43811B0A438FCBFA4387A94A438027DA4382502A4387C86A438EF47A438E48FA438E9E5A4388FE8A438EE8F"%string;
    "A438EA03A438AE07A438EE8FA438EA01A4380270A438DEFFA438EF96A438FEFCA43804F8A438F9FAA438FBEFA43879FBA438BF7AA4389402A4387D44A438EF21"%string;
    "A438BF7AA438B802A4387D44A4381F21A4389E19A438E08FA438E9E1A4388FE8A438EF64A4381F00A438E18FA438E4EFA4387402A4387CA1A438AD50A4383DEE"%string;
    "A4388FE7A43801BFA4387A94A438027CA438F9BFA4387AA6A438027CA438F9BFA4387AA3A438027CA438F9BFA4387AA9A438027CA438F9BFA4387AACA438027D"%string;
    "A43802BFA4388E47A438027CA438F9BFA4388E4AA438027CA438F902A4387C86A438EF47A438E48FA438E9E5A4388FE8A438EE8FA438EA04A438FFEFA43897FF"%string;
    "A438FEFDA438FC04A438F8FAA438FBE0A4388FE9A438E18FA438E8EFA438641FA43800E1A4388FE5A438EF74A438027CA438A1ADA438500DA4380263A4388E02"%string;
    "A4388BFEA438EE8FA438EA01A4380270A438DEFFA438FEFCA43804E3A4388FD8A438E787A43875E4A4388FE1A438E58FA438E2BFA4388FD9A438EF32A4380C31"%string;
    "A4381A93A438DC19A438DD02A4387FA9A438AC2AA43818E0A4388FE1A438E18FA438E2EFA43874E1A4388775A4381F00A438EF64A438E18FA438D8E5A4388775"%string;
    "A438AF4DA43872BFA4387B3CA438EF32A4384B03A4381A93A438027DA43844EFA43864E1A4388FFFA4381F00A438EF74A4381B67A438AC4FA438CEE0A4388FFD"%string;
    "A438E18FA438FEEFA43864E0A4388FE1A438E18FA438E2EFA4387402A4387C53A438AC50A43802AEA438B6E1A4388775A4381F00A438EF64A438E18FA438FCEF"%string;
    "A438711CA438670DA43867EFA43846E5A4388775A438EF32A438D101A438A300A43802AEA438050CA4381183A438AEF6A438E08FA438E31EA43810E5A4388FE3"%string;
    "A438AE89A438E287A43875E6A4388FD8A4381F22A438AF4DA43842F8A438F9EFA43859FAA438FBBFA4388FEEA438027FA438A90DA4381149A438041AA43891D7"%string;
    "A4388DF3A438D68EA4382302A43872AAA438FFFEA438EF95A438FDFCA4380400A4387591A4380275A4384404A438758EA4382675A4384100A4388E26A438028E"%string;
    "A4382304A438759DA4382675A4384700A4388E32A438028EA4382F04A4388E2CA438268EA4382900A4388E3EA438028EA4383B04A4388E38A438268EA43835FE"%string;
    "A438AD96A438DCADA43896BAA438AD96A43898ADA4389676A438AD98A43854ADA4389876A438AE38A43854AEA43838FEA438AE3AA438DCAEA4383ABBA438BF14"%string;
    "A43899BDA438E0CCA438BDC8A438DDBDA438C800A436B85EA4384F9AA436B860A43840CFA436B862A4386829A436B864A4385972A436B886A4385941A436B888"%string;
    "A438636BA436B88AA4384D6BA436B88CA4384D40A436B838A43800FFB8200010A4368608A438AF86A438DAAFA438894CA438AF8AA438F8AFA4388BF3A438AF8B"%string;
    "A438F3AFA4388BF3A438AF8BA438F3AFA4388BF3A438006FA4384A03A4386F47A438266FA4385900A4386F4DA438016FA4385004A4386F56A438056FA4385F06"%string;
    "A4386F5CA4382774A4387800A4386F68A438246FA4386B20A4386F6EA438206FA4387410A4387469A4381074A4386C10A438746FA4381074A4387225A4388BFC"%string;
    "A438008CA4380802A4388C02A438038BA438FF04A4386EEDA438278CA4380520A43874DAA4382074A438DD20A43874E0A4380074A438E300A4386EF3A438006E"%string;
    "A438F600A4386EF9A438006EA438FC00A4386EFFA438006FA4380200A4386F05A438026FA4380802A4386F0BA438026FA4380E02A4386F11A438026FA4381402"%string;
    "A4386F17A438226FA4381A00A438723EA438016EA438ED24A4386F50A4380072A4384701A438724AA4380272A4384D23A4387250A4381074A4386910A438746C"%string;
    "A4381074A4386F00A4387472A438158CA4380B15A4388C0EA438158CA4381105A4388C14A438006FA4384A03A4386F47A438266FA4385900A438731FA4380273"%string;
    "A4382203A4388C08A438EE84A4387100A4380286A438ECE0A4388043A438F626A438E480A43843AFA4386611A438F8E0A4388012A438AC26A43803AFA43886FF"%string;
    "A4380287A4380102A4388906A4380289A43829FCA43804F8A438F9EFA43859F9A438FAEEA4388476A43800D6A438008FA4380266A43853EFA438643EA4381200"%string;
    "A438AC4FA43808E4A4388FE7A438E58FA438E8AEA43806E0A4388FE7A438E18FA438E8EEA4388476A43801D6A43800C0A4380266A43871EEA4388476A43800D6"%string;
    "A4380090A4380266A43853EFA438643EA4381200A438AC4FA43808E4A4388FE9A438E58FA438EAAEA43806E0A4388FE9A438E18FA438EAEEA4388476A43801D6"%string;
    "A43800C1A4380266A43871EEA4388476A43800D6A4380091A4380266A43853EFA438643EA4381200A438AC4FA43808E4A4388FEBA438E58FA438ECAEA43806E0"%string;
    "A4388FEBA438E18FA438ECEEA4388476A43801D6A43800C2A4380266A43871EEA4388476A43801D6A438008FA4380266A43853EFA438643EA4381200A438AC4F"%string;
    "A43808E4A4388FEDA438E58FA438EEAEA43806E0A4388FEDA438E18FA438EEEEA4388476A43802D6A43800C0A4380266A43871EEA4388476A43801D6A4380090"%string;
    "A4380266A43853EFA438643EA4381200A438AC4FA43808E4A4388FEFA438E58FA438F0AEA43806E0A4388FEFA438E18FA438F0EEA4388476A43802D6A43800C1"%string;
    "A4380266A43871EEA4388476A43801D6A4380091A4380266A43853EFA438643EA4381200A438AC4FA43808E4A4388FF1A438E58FA438F2AEA43806E0A4388FF1"%string;
    "A438E18FA438F2EEA4388476A43802D6A43800C2A4380266A43871EEA4388476A43802D6A438008FA4380266A43853EFA438643EA4381200A438AC4FA43808E4"%string;
    "A4388FF3A438E58FA438F4AEA43806E0A4388FF3A438E18FA438F4EEA4388476A43804D6A43800C0A4380266A43871EEA4388476A43802D6A4380090A4380266"%string;
    "A43853EFA438643EA4381200A438AC4FA43808E4A4388FF5A438E58FA438F6AEA43806E0A4388FF5A438E18FA438F6EEA4388476A43804D6A43800C1A4380266"%string;
    "A43871EEA4388476A43802D6A4380091A4380266A43853EFA438643EA4381200A438AC4FA43808E4A4388FF7A438E58FA438F8AEA43806E0A4388FF7A438E18F"%string;
    "A438F8EEA4388476A43804D6A43800C2A4380266A43871EEA4388476A43803D6A438008FA4380266A43853EFA438643EA4381200A438AC4FA43808E4A4388FF9"%string;
    "A438E58FA438FAAEA43806E0A4388FF9A438E18FA438FAEEA4388476A43808D6A43800C0A4380266A43871EEA4388476A43803D6A4380090A4380266A43853EF"%string;
    "A438643EA4381200A438AC4FA43808E4A4388FFBA438E58FA438FCAEA43806E0A4388FFBA438E18FA438FCEEA4388476A43808D6A43800C1A4380266A43871EE"%string;
    "A4388476A43803D6A4380091A4380266A43853EFA438643EA4381200A438AC4FA43808E4A4388FFDA438E58FA438FEAEA43806E0A4388FFDA438E18FA438FEEE"%string;
    "A4388476A43808D6A43800C2A4380266A43871FEA438FDEFA43895FDA438FC04A438F8F9A438FAD4A4380400A438D600A4380DD3A4380FE7A4388476A4380266"%string;
    "A43871D4A4381400A438D600A4380DD3A4380FE7A4388476A4380266A43871FEA438FDFCA43804F8A438F9FAA438D410A43800D6A438000DA438D30FA438E784"%string;
    "A4387602A4386671A438D400A43800D6A438000DA438D30FA438E784A4387602A4386671A438FEFDA438FC04A438E080A4384FACA4382317A438E080A43844AD"%string;
    "A438231AA4380289A43875E0A4388044A438AC23A43811BFA4386ECFA4380276A43874AEA4380902A4388ADBA438021FA438E702A4381FBBA438AF1FA43895F8"%string;
    "A438F9EFA43859F9A438FAFBA438E080A43812ACA4382303A438AF8AA438D0D4A4380120A438D600A43810D2A4380FE6A4388476A4380266A43871EEA438846F"%string;
    "A43800D4A438000FA438BF72A4389E02A4387697A4380275A438BEEFA43847E4A4388474A438E584A43875BFA438729BA4380276A438B6E5A438846FA438EF31"%string;
    "A438BF6EA4380602A43876B6A438EF64A438BF6EA4380902A43876B6A4381E64A438BF6EA4380F02A43876B6A4381E64A438AC40A43805A3A4380F0CA438AE26"%string;
    "A438A303A43802AEA43821A3A4380C02A438AE1CA438E084A43874E1A4388475A438EF64A438D000A438D196A438EF74A4380275A438D9ADA43850B7A438E083"%string;
    "A438ECF7A43823E4A43883ECA438BF72A4389E02A438766BA4380287A4380102A4388906A438EE83A438E800A438BF72A4386B02A438766BA438BF72A4386E02"%string;
    "A438766BA438BF72A4387102A438766BA438BF72A4387402A438766BA438BF72A4387702A438766BA438BF72A4387A02A438766BA438D400A4380FBFA4387295"%string;
    "A4380276A43897D7A4380400A438BF6EA4380602A43876B6A438EF64A438BF6EA4380902A43876B6A4381E64A438BF6EA4380F02A43876B6A4381E64A438AC40"%string;
    "A4380FBFA4387298A4380276A438B6E5A43883E8A438A10FA43828AFA4388A95A438BF8BA438F302A43876B6A438AC28A43802AEA4380BBFA4388BF9A4380276"%string;
    "A438B6E5A43883E8A438AE09A438BF8BA438F602A43876B6A438E583A438E8A1A4380303A438AF8AA43895B7A438AFE2A43883ECA438F735A438E683A438ECBF"%string;
    "A4387295A4380276A4386BBFA438726BA4380276A43874BFA438726EA4380276A43874BFA4387271A4380276A43874BFA4387274A4380276A43874BFA4387277"%string;
    "A4380276A43874BFA438727AA4380276A4387402A4388929A438D401A43828D6A4380010A438D20FA438E684A4387602A4386671A438021FA438BBFFA438FEFD"%string;
    "A438EF95A438FDFCA43804F8A438F9EFA43859F9A438E080A43812ADA438230CA438BF72A4389E02A438766BA438BF72A4389502A438766BA438FDEFA43895FD"%string;
    "A438FC04A438BF6EA4380602A43876B6A438EF64A438BF6EA4380902A43876B6A4381E64A438BF6EA4380F02A43876B6A4381E64A438AC40A4380EBFA4387298"%string;
    "A4380276A438B6E5A4388478A438A10FA43826AEA43847BFA4388BF3A4380276A438B6ACA4382802A438AE0BA438BF8BA438F902A43876B6A438E584A43878AE"%string;
    "A43809BFA4388BF6A4380276A438B6E5A4388478A438A103A43802AEA43823E0A4388474A438E184A43875EFA43864E0A43883FCA438E183A438FDEFA4387402"%string;
    "A43875D9A438AD50A4380AE0A43883ECA438F721A438E483A438ECAEA43803AFA43868E4A438BF72A4389502A438766BA438E083A438EBADA4382170A438BF73"%string;
    "A4387F02A438766BA438D700A43864BFA43873C4A4380276A438B6A4A4380000A43802AEA4380D87A438A700A43800EFA438E183A438ECF7A4382AE5A43883EC"%string;
    "A438BF73A438BE02A438766BA438BF73A438B802A438766BA438BF73A438C102A438766BA438BF73A438BB02A438766BA438E084A4389EE1A438849FA438BF72"%string;
    "A4387D02A4387697A438BF72A4388002A4387697A438BF72A4388302A4387697A438BF72A4388602A4387697A438BF72A4388902A4387674A438BF72A4388C02"%string;
    "A4387674A438BF72A4388F02A4387674A438BF72A4389202A4387674A438EE84A4387700A438E080A43844F6A43821E4A4388044A438AF68A438E411A438D1A4"%string;
    "A43810BCA4387432A438BC74A438BBBFA43814CCA438BFAAA43800BFA4389055A438BF06A43810BFA438B876A438BE02A43854BEA4380232A438BE02A43810BE"%string;
    "A4380200A4368FE7A4381200A4368FE9A4381200A4368FEBA4381200A4368FEDA4381200A4368FEFA4381200A4368FF1A4381200A4368FF3A4381200A4368FF5"%string;
    "A4381200A4368FF7A4381200A4368FF9A4381200A4368FFBA4381200A4368FFDA4381200A436B818A4386602A436B81AA4381F75A436B81CA43867EBA436B81E"%string;
    "A438FFFFA436B850A438FFFFA436B852A438FFFFA436B878A438FFFFA436B884A438FFFFA436B832A4380007B82E0000A4368023A4380000B8200000FFFFFFFF"%string
  ]).

(** The array, 132 words. *)
Definition phy_mcu_ram_code_8127a_2 : list Z :=
  hex_words (String.concat EmptyString [
    "B8920000B88EC07CB8900203B8900304B8900405B8900607B8900809B8900B0DB8900F11B8901418B8901B20B890252BB890343EB8904854B8906203B8900304"%string;
    "B8900506B890080AB8900C0EB8901216B8901B22B8902A34B890404FB8906171B8907884B8909097B8900203B8900406B890080BB8900E13B8901820B8902A39"%string;
    "B8904856B890E060B890E050B890D080B8908070B89070A0B8901000B89060D0B890B010B890E0B0B89080C0B890E000B8902020B8901020B890E090B89080C0"%string;
    "B8903020B89000E0B89040A0B890E020B8905060B890E0D0B890A000B8903030B8904070B890E0E0B890D080B890A010B890E040B89080B0B89050B0B8902090"%string;
    "B8200000FFFFFFFF"%string
  ]).
