(* ===== verification/PhyConfig.v ===== *)
(** The PHY set-up of rtl812xx.cpp: one register sequence per chip variant, the
    loading of the PHY microcontroller code and rtl8125_hw_phy_config. *)
From S2P Require Import Prelude Mmio Channel Chip SwVars Hw Mcu PhyTables Power Fiber.
Local Open Scope prog_scope.

Definition kIOPCILinkControlASPMBitsL0s : Z := 1.
Definition kIOPCILinkControlASPMBitsL1 : Z := 2.

(** HW_HAS_WRITE_PHY_MCU_RAM_CODE. *)
Definition has_ram_code (tp : tpvars) : bool := HwHasWrRamCodeToMicroP (tp_sw tp).

(** A write, or a clear-and-set, of a PHY OCP register. *)
Inductive phyop := W (addr value : Z) | CS (addr clearmask setmask : Z).

Section Code.
Context {D : Type} `{M : !Mmio D}.

Definition phy_op (c : chancfg) (o : phyop) : prog D unit :=
  match o with W a v => mdio_direct_write_phy_ocp c a v | CS a cl st => ClearAndSetEthPhyOcpBit c a cl st end.

Fixpoint phy_seq (c : chancfg) (l : list phyop) : prog D unit :=
  match l with [] => ret tt | o :: r => phy_op c o ;;; phy_seq c r end.

Definition rtl8125_enable_phy_aldps (c : chancfg) : prog D unit := SetEthPhyOcpBit c 0xA430 (BIT 2).

Definition rtl8125_tgphy_irq_mask_and_ack (m : cfg) (c : chancfg) : prog D unit :=
  match m with
  | CFG_METHOD_2 | CFG_METHOD_42 =>
      mdio_direct_write_phy_ocp c 0xA4D2 0 ;;; mdio_direct_read_phy_ocp 0xA4D4 ;;; ret tt
  | _ => ret tt
  end.

Definition rtl8125_hw_phy_config_8125a_1 (tp : tpvars) : prog D unit :=
  let c := tp_chan tp in
  phy_seq c [
    CS 0xAD40 0x03FF 0x84; CS 0xAD4E 0 (BIT 4); CS 0xAD16 0x03FF 0x0006; CS 0xAD32 0x003F 0x0006;
    CS 0xAC08 (BIT 12) 0; CS 0xAC08 (BIT 8) 0;
    CS 0xAC8A (BIT 15 .| BIT 14 .| BIT 13 .| BIT 12) (BIT 14 .| BIT 13 .| BIT 12);
    CS 0xAD18 0 (BIT 10); CS 0xAD1A 0 0x3FF; CS 0xAD1C 0 0x3FF; W 0xA436 0x80EA;
    CS 0xA438 0xFF00 0xC400; W 0xA436 0x80EB; CS 0xA438 0x0700 0x0300; W 0xA436 0x80F8;
    CS 0xA438 0xFF00 0x1C00; W 0xA436 0x80F1; CS 0xA438 0xFF00 0x3000; W 0xA436 0x80FE;
    CS 0xA438 0xFF00 0xA500; W 0xA436 0x8102; CS 0xA438 0xFF00 0x5000; W 0xA436 0x8105;
    CS 0xA438 0xFF00 0x3300; W 0xA436 0x8100; CS 0xA438 0xFF00 0x7000; W 0xA436 0x8104;
    CS 0xA438 0xFF00 0xF000; W 0xA436 0x8106; CS 0xA438 0xFF00 0x6500; W 0xA436 0x80DC;
    CS 0xA438 0xFF00 0xED00; W 0xA436 0x80DF; CS 0xA438 0 (BIT 8); W 0xA436 0x80E1;
    CS 0xA438 (BIT 8) 0; CS 0xBF06 0x003F 0x38; W 0xA436 0x819F; W 0xA438 0xD0B6; W 0xBC34 0x5555;
    CS 0xBF0A (BIT 11 .| BIT 10 .| BIT 9) (BIT 11 .| BIT 9); CS 0xA5C0 (BIT 10) 0;
    CS 0xA442 0 (BIT 11) ] ;;;
  (if has (aspm tp) kIOPCILinkControlASPMBitsL1 then
    (if has_ram_code tp then
      rtl8125_enable_phy_aldps c
     else ret tt)
   else ret tt).

Definition rtl8125_hw_phy_config_8125a_2 (tp : tpvars) : prog D unit :=
  let c := tp_chan tp in
  phy_seq c [
    CS 0xAD4E 0 (BIT 4); CS 0xAD16 0x03FF 0x03FF; CS 0xAD32 0x003F 0x0006; CS 0xAC08 (BIT 12) 0;
    CS 0xAC08 (BIT 8) 0; CS 0xACC0 (BIT 1 .| BIT 0) (BIT 1);
    CS 0xAD40 (BIT 7 .| BIT 6 .| BIT 5) (BIT 6); CS 0xAD40 (BIT 2 .| BIT 1 .| BIT 0) (BIT 2);
    CS 0xAC14 (BIT 7) 0; CS 0xAC80 (BIT 9 .| BIT 8) 0; CS 0xAC5E (BIT 2 .| BIT 1 .| BIT 0) (BIT 1);
    W 0xAD4C 0x00A8; W 0xAC5C 0x01FF; CS 0xAC8A (BIT 7 .| BIT 6 .| BIT 5 .| BIT 4) (BIT 5 .| BIT 4);
    W 0xB87C 0x8157; CS 0xB87E 0xFF00 0x0500; W 0xB87C 0x8159; CS 0xB87E 0xFF00 0x0700;
    W 0xB87C 0x80A2; W 0xB87E 0x0153; W 0xB87C 0x809C; W 0xB87E 0x0153; W 0xA436 0x81B3;
    W 0xA438 0x0043; W 0xA438 0x00A7; W 0xA438 0x00D6; W 0xA438 0x00EC; W 0xA438 0x00F6;
    W 0xA438 0x00FB; W 0xA438 0x00FD; W 0xA438 0x00FF; W 0xA438 0x00BB; W 0xA438 0x0058;
    W 0xA438 0x0029; W 0xA438 0x0013; W 0xA438 0x0009; W 0xA438 0x0004; W 0xA438 0x0002;
    W 0xA438 0x0000; W 0xA438 0x0000; W 0xA438 0x0000; W 0xA438 0x0000; W 0xA438 0x0000;
    W 0xA438 0x0000; W 0xA438 0x0000; W 0xA438 0x0000; W 0xA438 0x0000; W 0xA438 0x0000;
    W 0xA438 0x0000; W 0xA438 0x0000; W 0xA438 0x0000; W 0xA438 0x0000; W 0xA438 0x0000;
    W 0xA438 0x0000; W 0xA438 0x0000; W 0xA438 0x0000; W 0xA438 0x0000; W 0xA438 0x0000;
    W 0xA438 0x0000; W 0xA438 0x0000; W 0xA438 0x0000; W 0xA438 0x0000; W 0xA438 0x0000;
    W 0xA436 0x8257; W 0xA438 0x020F; W 0xA436 0x80EA; W 0xA438 0x7843 ] ;;;
  (rtl8125_set_phy_mcu_patch_request c ;;; ret tt) ;;;
  phy_seq c [
    CS 0xB896 (BIT 0) 0; CS 0xB892 0xFF00 0; W 0xB88E 0xC091; W 0xB890 0x6E12; W 0xB88E 0xC092;
    W 0xB890 0x1214; W 0xB88E 0xC094; W 0xB890 0x1516; W 0xB88E 0xC096; W 0xB890 0x171B;
    W 0xB88E 0xC098; W 0xB890 0x1B1C; W 0xB88E 0xC09A; W 0xB890 0x1F1F; W 0xB88E 0xC09C;
    W 0xB890 0x2021; W 0xB88E 0xC09E; W 0xB890 0x2224; W 0xB88E 0xC0A0; W 0xB890 0x2424;
    W 0xB88E 0xC0A2; W 0xB890 0x2424; W 0xB88E 0xC0A4; W 0xB890 0x2424; W 0xB88E 0xC018;
    W 0xB890 0x0AF2; W 0xB88E 0xC01A; W 0xB890 0x0D4A; W 0xB88E 0xC01C; W 0xB890 0x0F26;
    W 0xB88E 0xC01E; W 0xB890 0x118D; W 0xB88E 0xC020; W 0xB890 0x14F3; W 0xB88E 0xC022;
    W 0xB890 0x175A; W 0xB88E 0xC024; W 0xB890 0x19C0; W 0xB88E 0xC026; W 0xB890 0x1C26;
    W 0xB88E 0xC089; W 0xB890 0x6050; W 0xB88E 0xC08A; W 0xB890 0x5F6E; W 0xB88E 0xC08C;
    W 0xB890 0x6E6E; W 0xB88E 0xC08E; W 0xB890 0x6E6E; W 0xB88E 0xC090; W 0xB890 0x6E12;
    CS 0xB896 0 (BIT 0) ] ;;;
  (rtl8125_clear_phy_mcu_patch_request c ;;; ret tt) ;;;
  phy_seq c [
    CS 0xD068 0 (BIT 13); W 0xA436 0x81A2; CS 0xA438 0 (BIT 8); CS 0xB54C 0xFF00 0xDB00;
    CS 0xA454 (BIT 0) 0; CS 0xA5D4 0 (BIT 5); CS 0xAD4E (BIT 4) 0; CS 0xA86A (BIT 0) 0;
    CS 0xA442 0 (BIT 11) ] ;;;
  (if RequirePhyMdiSwapPatch (tp_sw tp) then
    phy_seq c [
      CS 0xD068 0x0007 0x0001; CS 0xD068 0x0018 0x0000 ] ;;;
    do adccal_offset_p0 <- mdio_direct_read_phy_ocp 0xD06A;
    let adccal_offset_p0 := adccal_offset_p0 .& 0x07FF in
    phy_seq c [
      CS 0xD068 0x0018 0x0008 ] ;;;
    do adccal_offset_p1 <- mdio_direct_read_phy_ocp 0xD06A;
    let adccal_offset_p1 := adccal_offset_p1 .& 0x07FF in
    phy_seq c [
      CS 0xD068 0x0018 0x0010 ] ;;;
    do adccal_offset_p2 <- mdio_direct_read_phy_ocp 0xD06A;
    let adccal_offset_p2 := adccal_offset_p2 .& 0x07FF in
    phy_seq c [
      CS 0xD068 0x0018 0x0018 ] ;;;
    do adccal_offset_p3 <- mdio_direct_read_phy_ocp 0xD06A;
    let adccal_offset_p3 := adccal_offset_p3 .& 0x07FF in
    phy_seq c [
      CS 0xD068 0x0018 0x0000; CS 0xD06A 0x07FF adccal_offset_p3; CS 0xD068 0x0018 0x0008;
      CS 0xD06A 0x07FF adccal_offset_p2; CS 0xD068 0x0018 0x0010; CS 0xD06A 0x07FF adccal_offset_p1;
      CS 0xD068 0x0018 0x0018; CS 0xD06A 0x07FF adccal_offset_p0 ] ;;;
    do rg_lpf_cap_xg_p0 <- mdio_direct_read_phy_ocp 0xBD5A;
    let rg_lpf_cap_xg_p0 := rg_lpf_cap_xg_p0 .& 0x001F in
    do rg_lpf_cap_xg_p1 <- mdio_direct_read_phy_ocp 0xBD5A;
    let rg_lpf_cap_xg_p1 := rg_lpf_cap_xg_p1 .& 0x1F00 in
    do rg_lpf_cap_xg_p2 <- mdio_direct_read_phy_ocp 0xBD5C;
    let rg_lpf_cap_xg_p2 := rg_lpf_cap_xg_p2 .& 0x001F in
    do rg_lpf_cap_xg_p3 <- mdio_direct_read_phy_ocp 0xBD5C;
    let rg_lpf_cap_xg_p3 := rg_lpf_cap_xg_p3 .& 0x1F00 in
    do rg_lpf_cap_p0 <- mdio_direct_read_phy_ocp 0xBC18;
    let rg_lpf_cap_p0 := rg_lpf_cap_p0 .& 0x001F in
    do rg_lpf_cap_p1 <- mdio_direct_read_phy_ocp 0xBC18;
    let rg_lpf_cap_p1 := rg_lpf_cap_p1 .& 0x1F00 in
    do rg_lpf_cap_p2 <- mdio_direct_read_phy_ocp 0xBC1A;
    let rg_lpf_cap_p2 := rg_lpf_cap_p2 .& 0x001F in
    do rg_lpf_cap_p3 <- mdio_direct_read_phy_ocp 0xBC1A;
    let rg_lpf_cap_p3 := rg_lpf_cap_p3 .& 0x1F00 in
    phy_seq c [
      CS 0xBD5A 0x001F (Z.shiftr rg_lpf_cap_xg_p3 8); CS 0xBD5A 0x1F00 (Z.shiftl rg_lpf_cap_xg_p2 8);
      CS 0xBD5C 0x001F (Z.shiftr rg_lpf_cap_xg_p1 8); CS 0xBD5C 0x1F00 (Z.shiftl rg_lpf_cap_xg_p0 8);
      CS 0xBC18 0x001F (Z.shiftr rg_lpf_cap_p3 8); CS 0xBC18 0x1F00 (Z.shiftl rg_lpf_cap_p2 8);
      CS 0xBC1A 0x001F (Z.shiftr rg_lpf_cap_p1 8); CS 0xBC1A 0x1F00 (Z.shiftl rg_lpf_cap_p0 8) ]
   else ret tt) ;;;
  (if has (aspm tp) kIOPCILinkControlASPMBitsL1 then
    (if has_ram_code tp then
      rtl8125_enable_phy_aldps c
     else ret tt)
   else ret tt).

Definition rtl8125_hw_phy_config_8125b_1 (tp : tpvars) : prog D unit :=
  let c := tp_chan tp in
  phy_seq c [
    CS 0xA442 0 (BIT 11); CS 0xBC08 0 (BIT 3 .| BIT 2) ] ;;;
  (if has_ram_code tp then
    phy_seq c [
      W 0xA436 0x8FFF; CS 0xA438 0xFF00 0x0400 ]
   else ret tt) ;;;
  phy_seq c [
    W 0xB87C 0x8560; W 0xB87E 0x19CC; W 0xB87C 0x8562; W 0xB87E 0x19CC; W 0xB87C 0x8564;
    W 0xB87E 0x19CC; W 0xB87C 0x8566; W 0xB87E 0x147D; W 0xB87C 0x8568; W 0xB87E 0x147D;
    W 0xB87C 0x856A; W 0xB87E 0x147D ] ;;;
  (if has_ram_code tp then
    phy_seq c [
      W 0xB87C 0x8FFE; W 0xB87E 0x0907 ]
   else ret tt) ;;;
  phy_seq c [
    CS 0xACDA 0xFF00 0xFF00; CS 0xACDE 0xF000 0xF000; W 0xB87C 0x80D6; W 0xB87E 0x2801;
    W 0xB87C 0x80F2; W 0xB87E 0x2801; W 0xB87C 0x80F4; W 0xB87E 0x6077; W 0xB506 0x01E7;
    W 0xAC8C 0x0FFC; W 0xAC46 0xB7B4; W 0xAC50 0x0FBC; W 0xAC3C 0x9240; W 0xAC4E 0x0DB4;
    W 0xACC6 0x0707; W 0xACC8 0xA0D3; W 0xAD08 0x0007; W 0xB87C 0x8013; W 0xB87E 0x0700;
    W 0xB87C 0x8FB9; W 0xB87E 0x2801; W 0xB87C 0x8FBA; W 0xB87E 0x0100; W 0xB87C 0x8FBC;
    W 0xB87E 0x1900; W 0xB87C 0x8FBE; W 0xB87E 0xE100; W 0xB87C 0x8FC0; W 0xB87E 0x0800;
    W 0xB87C 0x8FC2; W 0xB87E 0xE500; W 0xB87C 0x8FC4; W 0xB87E 0x0F00; W 0xB87C 0x8FC6;
    W 0xB87E 0xF100; W 0xB87C 0x8FC8; W 0xB87E 0x0400; W 0xB87C 0x8FCa; W 0xB87E 0xF300;
    W 0xB87C 0x8FCc; W 0xB87E 0xFD00; W 0xB87C 0x8FCe; W 0xB87E 0xFF00; W 0xB87C 0x8FD0;
    W 0xB87E 0xFB00; W 0xB87C 0x8FD2; W 0xB87E 0x0100; W 0xB87C 0x8FD4; W 0xB87E 0xF400;
    W 0xB87C 0x8FD6; W 0xB87E 0xFF00; W 0xB87C 0x8FD8; W 0xB87E 0xF600; W 0xB87C 0x813D;
    W 0xB87E 0x390E; W 0xB87C 0x814F; W 0xB87E 0x790E; W 0xB87C 0x80B0; W 0xB87E 0x0F31;
    CS 0xBF4C 0 (BIT 1); CS 0xBCCA 0 (BIT 9 .| BIT 8); W 0xB87C 0x8141; W 0xB87E 0x320E;
    W 0xB87C 0x8153; W 0xB87E 0x720E; CS 0xA432 (BIT 6) 0; W 0xB87C 0x8529; W 0xB87E 0x050E;
    W 0xA436 0x816C; W 0xA438 0xC4A0; W 0xA436 0x8170; W 0xA438 0xC4A0; W 0xA436 0x8174;
    W 0xA438 0x04A0; W 0xA436 0x8178; W 0xA438 0x04A0; W 0xA436 0x817C; W 0xA438 0x0719 ] ;;;
  (if has_ram_code tp then
    phy_seq c [
      W 0xA436 0x8FF4; W 0xA438 0x0400; W 0xA436 0x8FF1; W 0xA438 0x0404 ]
   else ret tt) ;;;
  phy_seq c [
    W 0xBF4A 0x001B; W 0xB87C 0x8033; W 0xB87E 0x7C13; W 0xB87C 0x8037; W 0xB87E 0x7C13;
    W 0xB87C 0x803B; W 0xB87E 0xFC32; W 0xB87C 0x803F; W 0xB87E 0x7C13; W 0xB87C 0x8043;
    W 0xB87E 0x7C13; W 0xB87C 0x8047; W 0xB87E 0x7C13; W 0xB87C 0x8145; W 0xB87E 0x370E;
    W 0xB87C 0x8157; W 0xB87E 0x770E; W 0xB87C 0x8169; W 0xB87E 0x0D0A; W 0xB87C 0x817B;
    W 0xB87E 0x1D0A; W 0xA436 0x8217; CS 0xA438 0xFF00 0x5000; W 0xA436 0x821A;
    CS 0xA438 0xFF00 0x5000; W 0xA436 0x80DA; W 0xA438 0x0403; W 0xA436 0x80DC;
    CS 0xA438 0xFF00 0x1000; W 0xA436 0x80B3; W 0xA438 0x0384; W 0xA436 0x80B7; W 0xA438 0x2007;
    W 0xA436 0x80BA; CS 0xA438 0xFF00 0x6C00; W 0xA436 0x80B5; W 0xA438 0xF009; W 0xA436 0x80BD;
    CS 0xA438 0xFF00 0x9F00; W 0xA436 0x80C7; W 0xA438 0xf083; W 0xA436 0x80DD; W 0xA438 0x03f0;
    W 0xA436 0x80DF; CS 0xA438 0xFF00 0x1000; W 0xA436 0x80CB; W 0xA438 0x2007; W 0xA436 0x80CE;
    CS 0xA438 0xFF00 0x6C00; W 0xA436 0x80C9; W 0xA438 0x8009; W 0xA436 0x80D1;
    CS 0xA438 0xFF00 0x8000; W 0xA436 0x80A3; W 0xA438 0x200A; W 0xA436 0x80A5; W 0xA438 0xF0AD;
    W 0xA436 0x809F; W 0xA438 0x6073; W 0xA436 0x80A1; W 0xA438 0x000B; W 0xA436 0x80A9;
    CS 0xA438 0xFF00 0xC000 ] ;;;
  (rtl8125_set_phy_mcu_patch_request c ;;; ret tt) ;;;
  phy_seq c [
    CS 0xB896 (BIT 0) 0; CS 0xB892 0xFF00 0; W 0xB88E 0xC23E; W 0xB890 0x0000; W 0xB88E 0xC240;
    W 0xB890 0x0103; W 0xB88E 0xC242; W 0xB890 0x0507; W 0xB88E 0xC244; W 0xB890 0x090B;
    W 0xB88E 0xC246; W 0xB890 0x0C0E; W 0xB88E 0xC248; W 0xB890 0x1012; W 0xB88E 0xC24A;
    W 0xB890 0x1416; CS 0xB896 0 (BIT 0) ] ;;;
  (rtl8125_clear_phy_mcu_patch_request c ;;; ret tt) ;;;
  phy_seq c [
    CS 0xA86A 0 (BIT 0); CS 0xA6F0 0 (BIT 0); W 0xBFA0 0xD70D; W 0xBFA2 0x4100; W 0xBFA4 0xE868;
    W 0xBFA6 0xDC59; W 0xB54C 0x3C18; CS 0xBFA4 (BIT 5) 0; W 0xA436 0x817D; CS 0xA438 0 (BIT 12) ] ;;;
  (if has (aspm tp) kIOPCILinkControlASPMBitsL1 then
    (if has_ram_code tp then
      rtl8125_enable_phy_aldps c
     else ret tt)
   else ret tt).

Definition rtl8125_hw_phy_config_8125b_2 (tp : tpvars) : prog D unit :=
  let c := tp_chan tp in
  phy_seq c [
    CS 0xA442 0 (BIT 11); CS 0xAC46 0x00F0 0x0090; CS 0xAD30 0x0003 0x0001; W 0xB87C 0x80F5;
    W 0xB87E 0x760E; W 0xB87C 0x8107; W 0xB87E 0x360E; W 0xB87C 0x8551;
    CS 0xB87E (BIT 15 .| BIT 14 .| BIT 13 .| BIT 12 .| BIT 11 .| BIT 10 .| BIT 9 .| BIT 8) (BIT 11);
    CS 0xbf00 0xE000 0xA000; CS 0xbf46 0x0F00 0x0300; W 0xa436 0x8044; W 0xa438 0x2417;
    W 0xa436 0x804A; W 0xa438 0x2417; W 0xa436 0x8050; W 0xa438 0x2417; W 0xa436 0x8056;
    W 0xa438 0x2417; W 0xa436 0x805C; W 0xa438 0x2417; W 0xa436 0x8062; W 0xa438 0x2417;
    W 0xa436 0x8068; W 0xa438 0x2417; W 0xa436 0x806E; W 0xa438 0x2417; W 0xa436 0x8074;
    W 0xa438 0x2417; W 0xa436 0x807A; W 0xa438 0x2417; CS 0xA4CA 0 (BIT 6);
    CS 0xBF84 (BIT 15 .| BIT 14 .| BIT 13) (BIT 15 .| BIT 13); W 0xA436 0x8170;
    CS 0xA438 (BIT 13 .| BIT 10 .| BIT 9 .| BIT 8) (BIT 15 .| BIT 14 .| BIT 12 .| BIT 11) ] ;;;
  (if has (aspm tp) kIOPCILinkControlASPMBitsL1 then
    (if has_ram_code tp then
      rtl8125_enable_phy_aldps c
     else ret tt)
   else ret tt).

Definition rtl8125_hw_phy_config_8125bp_1 (tp : tpvars) : prog D unit :=
  let c := tp_chan tp in
  phy_seq c [
    CS 0xA442 0 (BIT 11); CS 0xA80C (BIT 14) (BIT 15 .| BIT 11 .| BIT 10); W 0xA436 0x8010;
    CS 0xA438 (BIT 11) 0; W 0xB87C 0x8088; CS 0xB87E 0xFF00 0x9000; W 0xB87C 0x808F;
    CS 0xB87E 0xFF00 0x9000; W 0xA436 0x8174; CS 0xA438 (BIT 13) (BIT 12 .| BIT 11) ] ;;;
  (if has (aspm tp) kIOPCILinkControlASPMBitsL1 && has_ram_code tp then
    rtl8125_enable_phy_aldps c
   else ret tt).

Definition rtl8125_hw_phy_config_8125bp_2 (tp : tpvars) : prog D unit :=
  let c := tp_chan tp in
  phy_seq c [
    CS 0xA442 0 (BIT 11); W 0xA436 0x8010; CS 0xA438 (BIT 11) 0; W 0xB87C 0x8088;
    CS 0xB87E 0xFF00 0x9000; W 0xB87C 0x808F; CS 0xB87E 0xFF00 0x9000; W 0xA436 0x8174;
    CS 0xA438 (BIT 13) (BIT 12 .| BIT 11) ] ;;;
  (if has (aspm tp) kIOPCILinkControlASPMBitsL1 && has_ram_code tp then
    rtl8125_enable_phy_aldps c
   else ret tt).

Definition rtl8125_hw_phy_config_8125cp_1 (tp : tpvars) : prog D unit :=
  let c := tp_chan tp in
  rtl8125_tgphy_irq_mask_and_ack (tp_mcfg tp) c ;;;
  phy_seq c [
    CS 0xA442 0 (BIT 11); CS 0xad0e 0x007F 0x000B; CS 0xad78 0 (BIT 4); W 0xA436 0x81B8;
    W 0xA438 0x00B4; W 0xA436 0x81BA; W 0xA438 0x00E4; W 0xA436 0x81C5; W 0xA438 0x0104;
    W 0xA436 0x81D0; W 0xA438 0x054D ] ;;;
  (if has (aspm tp) kIOPCILinkControlASPMBitsL1 && has_ram_code tp then
    rtl8125_enable_phy_aldps c
   else ret tt).

Definition rtl8125_hw_phy_config_8125d_1 (tp : tpvars) : prog D unit :=
  let c := tp_chan tp in
  phy_seq c [
    CS 0xA442 0 (BIT 11) ] ;;;
  (rtl8125_set_phy_mcu_patch_request c ;;; ret tt) ;;;
  phy_seq c [
    CS 0xBF96 0 (BIT 15); CS 0xBF94 0x0007 0x0005; CS 0xBF8E 0x3C00 0x2800; CS 0xBCD8 0xC000 0x4000;
    CS 0xBCD8 0 (BIT 15 .| BIT 14); CS 0xBCD8 0xC000 0x4000; CS 0xBC80 0x001F 0x0004;
    CS 0xBC82 0 (BIT 15 .| BIT 14 .| BIT 13); CS 0xBC82 0 (BIT 12 .| BIT 11 .| BIT 10);
    CS 0xBC80 0x001F 0x0005; CS 0xBC82 0x00E0 0x0040; CS 0xBC82 0 (BIT 4 .| BIT 3 .| BIT 2);
    CS 0xBCD8 (BIT 15 .| BIT 14) 0; CS 0xBCD8 0xC000 0x8000; CS 0xBCD8 (BIT 15 .| BIT 14) 0;
    CS 0xBD70 (BIT 8) 0; CS 0xA466 0 (BIT 1); W 0xA436 0x836a; CS 0xA438 0xFF00 0 ] ;;;
  (rtl8125_clear_phy_mcu_patch_request c ;;; ret tt) ;;;
  phy_seq c [
    W 0xB87C 0x832C; CS 0xB87E 0xFF00 0x0500; CS 0xB106 0x0700 0x0100; CS 0xB206 0x0700 0x0200;
    CS 0xB306 0x0700 0x0300; W 0xB87C 0x80CB; CS 0xB87E 0xFF00 0x0300; W 0xBCF4 0x0000;
    W 0xBCF6 0x0000; W 0xBC12 0x0000; W 0xB87C 0x844d; CS 0xB87E 0xFF00 0x0200 ] ;;;
  (if has_ram_code tp then
    phy_seq c [
      W 0xB87C 0x8feb; CS 0xB87E 0xFF00 0x0100; W 0xB87C 0x8fe9; CS 0xB87E 0xFF00 0x0600 ]
   else ret tt) ;;;
  phy_seq c [
    CS 0xAC7E 0x01FC 0x00B4; W 0xB87C 0x8105; CS 0xB87E 0xFF00 0x7A00; W 0xB87C 0x8117;
    CS 0xB87E 0xFF00 0x3A00; W 0xB87C 0x8103; CS 0xB87E 0xFF00 0x7400; W 0xB87C 0x8115;
    CS 0xB87E 0xFF00 0x3400; CS 0xAD40 (BIT 5 .| BIT 4) 0; CS 0xAD66 0x000F 0x0007;
    CS 0xAD68 0xF000 0x8000; CS 0xAD68 0x0F00 0x0500; CS 0xAD68 0x000F 0x0002; CS 0xAD6A 0xF000 0x7000;
    W 0xAC50 0x01E8; W 0xA436 0x81FA; CS 0xA438 0xFF00 0x5400; CS 0xA864 0x00F0 0x00C0;
    CS 0xA42C 0x00FF 0x0002; W 0xA436 0x80E1; CS 0xA438 0xFF00 0x0F00; W 0xA436 0x80DE;
    CS 0xA438 0xF000 0x0700; CS 0xA846 0 (BIT 7); W 0xA436 0x80BA; W 0xA438 0x8A04; W 0xA436 0x80BD;
    CS 0xA438 0xFF00 0xCA00; W 0xA436 0x80B7; CS 0xA438 0xFF00 0xB300; W 0xA436 0x80CE;
    W 0xA438 0x8A04; W 0xA436 0x80D1; CS 0xA438 0xFF00 0xCA00; W 0xA436 0x80CB;
    CS 0xA438 0xFF00 0xBB00; W 0xA436 0x80A6; W 0xA438 0x4909; W 0xA436 0x80A8; W 0xA438 0x05B8;
    W 0xA436 0x8200; CS 0xA438 0xFF00 0x5800; W 0xA436 0x8FF1; W 0xA438 0x7078; W 0xA436 0x8FF3;
    W 0xA438 0x5D78; W 0xA436 0x8FF5; W 0xA438 0x7862; W 0xA436 0x8FF7; CS 0xA438 0xFF00 0x1400 ] ;;;
  (if has_ram_code tp then
    phy_seq c [
      W 0xA436 0x814C; W 0xA438 0x8455; W 0xA436 0x814E; W 0xA438 0x84A6; W 0xA436 0x8163;
      CS 0xA438 0xFF00 0x0600; W 0xA436 0x816A; CS 0xA438 0xFF00 0x0500; W 0xA436 0x8171;
      CS 0xA438 0xFF00 0x1f00 ]
   else ret tt) ;;;
  phy_seq c [
    CS 0xBC3A 0x000F 0x0006; W 0xA436 0x8064; CS 0xA438 (BIT 10 .| BIT 9 .| BIT 8) 0; W 0xA436 0x8067;
    CS 0xA438 (BIT 10 .| BIT 9 .| BIT 8) 0; W 0xA436 0x806A; CS 0xA438 (BIT 10 .| BIT 9 .| BIT 8) 0;
    W 0xA436 0x806D; CS 0xA438 (BIT 10 .| BIT 9 .| BIT 8) 0; W 0xA436 0x8070;
    CS 0xA438 (BIT 10 .| BIT 9 .| BIT 8) 0; W 0xA436 0x8073; CS 0xA438 (BIT 10 .| BIT 9 .| BIT 8) 0;
    W 0xA436 0x8076; CS 0xA438 (BIT 10 .| BIT 9 .| BIT 8) 0; W 0xA436 0x8079;
    CS 0xA438 (BIT 10 .| BIT 9 .| BIT 8) 0; W 0xA436 0x807C; CS 0xA438 (BIT 10 .| BIT 9 .| BIT 8) 0;
    W 0xA436 0x807F; CS 0xA438 (BIT 10 .| BIT 9 .| BIT 8) 0; CS 0xBFA0 0xFF70 0x5500; W 0xBFA2 0x9D00;
    W 0xA436 0x8165; CS 0xA438 0x0700 0x0200 ] ;;;
  (if has_ram_code tp then
    phy_seq c [
      W 0xA436 0x8019; CS 0xA438 0 (BIT 8); W 0xA436 0x8FE3; W 0xA438 0x0005; W 0xA438 0x0000;
      W 0xA438 0x00ED; W 0xA438 0x0502; W 0xA438 0x0B00; W 0xA438 0xD401; CS 0xA438 0xFF00 0x2900 ]
   else ret tt) ;;;
  phy_seq c [
    W 0xA436 0x8018; CS 0xA438 0xFF00 0x1700 ] ;;;
  (if has_ram_code tp then
    phy_seq c [
      W 0xA436 0x815B; CS 0xA438 0xFF00 0x1700 ]
   else ret tt) ;;;
  phy_seq c [
    CS 0xA4E0 (BIT 15) 0; CS 0xA5D4 (BIT 5) 0; CS 0xA654 (BIT 11) 0; CS 0xA430 0 (BIT 12 .| BIT 0);
    CS 0xA442 0 (BIT 7) ] ;;;
  (if has (aspm tp) kIOPCILinkControlASPMBitsL1 && has_ram_code tp then
    rtl8125_enable_phy_aldps c
   else ret tt).

Definition rtl8125_hw_phy_config_8125d_2 (tp : tpvars) : prog D unit :=
  let c := tp_chan tp in
  phy_seq c [
    CS 0xA442 0 (BIT 11) ] ;;;
  (rtl8125_set_phy_mcu_patch_request c ;;; ret tt) ;;;
  phy_seq c [
    CS 0xBCD8 0xC000 0x4000; CS 0xBCD8 0 (BIT 15 .| BIT 14); CS 0xBCD8 0xC000 0x4000;
    CS 0xBC80 0x001F 0x0004; CS 0xBC82 0 (BIT 15 .| BIT 14 .| BIT 13);
    CS 0xBC82 0 (BIT 12 .| BIT 11 .| BIT 10); CS 0xBC80 0x001F 0x0005; CS 0xBC82 0x00E0 0x0040;
    CS 0xBC82 0 (BIT 4 .| BIT 3 .| BIT 2); CS 0xBCD8 (BIT 15 .| BIT 14) 0; CS 0xBCD8 0xC000 0x8000;
    CS 0xBCD8 (BIT 15 .| BIT 14) 0 ] ;;;
  (rtl8125_clear_phy_mcu_patch_request c ;;; ret tt) ;;;
  phy_seq c [
    CS 0xAC7E 0x01FC 0x00B4; W 0xB87C 0x8105; CS 0xB87E 0xFF00 0x7A00; W 0xB87C 0x8117;
    CS 0xB87E 0xFF00 0x3A00; W 0xB87C 0x8103; CS 0xB87E 0xFF00 0x7400; W 0xB87C 0x8115;
    CS 0xB87E 0xFF00 0x3400; W 0xB87C 0x8FEB; CS 0xB87E 0xFF00 0x0500; W 0xB87C 0x8FEA;
    CS 0xB87E 0xFF00 0x0700; W 0xB87C 0x80D6; CS 0xB87E 0xFF00 0xEF00; CS 0xA5D4 (BIT 5) 0;
    CS 0xA654 (BIT 11) 0; CS 0xA448 (BIT 10) 0; CS 0xA586 (BIT 10) 0; CS 0xA430 0 (BIT 12 .| BIT 0);
    CS 0xA442 0 (BIT 7) ] ;;;
  (if has (aspm tp) kIOPCILinkControlASPMBitsL1 && has_ram_code tp then
    rtl8125_enable_phy_aldps c
   else ret tt).

Definition rtl8126_hw_phy_config_8126a_1 (tp : tpvars) : prog D unit :=
  let c := tp_chan tp in
  phy_seq c [
    CS 0xA442 0 (BIT 11) ] ;;;
  (if has (aspm tp) kIOPCILinkControlASPMBitsL1 && has_ram_code tp then
    rtl8125_enable_phy_aldps c
   else ret tt).

Definition rtl8126_hw_phy_config_8126a_2 (tp : tpvars) : prog D unit :=
  let c := tp_chan tp in
  phy_seq c [
    CS 0xA442 0 (BIT 11); W 0xA436 0x80BF; CS 0xA438 0xFF00 0xED00; W 0xA436 0x80CD;
    CS 0xA438 0xFF00 0x1000; W 0xA436 0x80D1; CS 0xA438 0xFF00 0xC800; W 0xA436 0x80D4;
    CS 0xA438 0xFF00 0xC800; W 0xA436 0x80E1; W 0xA438 0x10CC; W 0xA436 0x80E5; W 0xA438 0x4F0C;
    W 0xA436 0x8387; CS 0xA438 0xFF00 0x4700; CS 0xA80C (BIT 7 .| BIT 6) (BIT 7); CS 0xAC90 (BIT 4) 0;
    CS 0xAD2C (BIT 15) 0; W 0xB87C 0x8321; CS 0xB87E 0xFF00 0x1100; CS 0xACF8 0 (BIT 3 .| BIT 2);
    W 0xA436 0x8183; CS 0xA438 0xFF00 0x5900; CS 0xAD94 0 (BIT 5); CS 0xA654 (BIT 11) 0;
    CS 0xB648 0 (BIT 14); W 0xB87C 0x839E; CS 0xB87E 0xFF00 0x2F00; W 0xB87C 0x83F2;
    CS 0xB87E 0xFF00 0x0800; CS 0xADA0 0 (BIT 1); W 0xB87C 0x80F3; CS 0xB87E 0xFF00 0x9900;
    W 0xB87C 0x8126; CS 0xB87E 0xFF00 0xC100; W 0xB87C 0x893A; W 0xB87E 0x8080; W 0xB87C 0x8647;
    CS 0xB87E 0xFF00 0xE600; W 0xB87C 0x862C; CS 0xB87E 0xFF00 0x1200; W 0xB87C 0x864A;
    CS 0xB87E 0xFF00 0xE600; W 0xB87C 0x80A0; W 0xB87E 0xBCBC; W 0xB87C 0x805E; W 0xB87E 0xBCBC;
    W 0xB87C 0x8056; W 0xB87E 0x3077; W 0xB87C 0x8058; CS 0xB87E 0xFF00 0x5A00; W 0xB87C 0x8098;
    W 0xB87E 0x3077; W 0xB87C 0x809A; CS 0xB87E 0xFF00 0x5A00; W 0xB87C 0x8052; W 0xB87E 0x3733;
    W 0xB87C 0x8094; W 0xB87E 0x3733; W 0xB87C 0x807F; W 0xB87E 0x7C75; W 0xB87C 0x803D;
    W 0xB87E 0x7C75; W 0xB87C 0x8036; CS 0xB87E 0xFF00 0x3000; W 0xB87C 0x8078;
    CS 0xB87E 0xFF00 0x3000; W 0xB87C 0x8031; CS 0xB87E 0xFF00 0x3300; W 0xB87C 0x8073;
    CS 0xB87E 0xFF00 0x3300; CS 0xAE06 0xFC00 0x7C00; W 0xB87C 0x89D1; W 0xB87E 0x0004;
    W 0xA436 0x8FBD; CS 0xA438 0xFF00 0x0A00; W 0xA436 0x8FBE; W 0xA438 0x0D09; W 0xB87C 0x89CD;
    W 0xB87E 0x0F0F; W 0xB87C 0x89CF; W 0xB87E 0x0F0F; W 0xB87C 0x83A4; W 0xB87E 0x6600;
    W 0xB87C 0x83A6; W 0xB87E 0x6601; W 0xB87C 0x83C0; W 0xB87E 0x6600; W 0xB87C 0x83C2;
    W 0xB87E 0x6601; W 0xB87C 0x8414; W 0xB87E 0x6600; W 0xB87C 0x8416; W 0xB87E 0x6601;
    W 0xB87C 0x83F8; W 0xB87E 0x6600; W 0xB87C 0x83FA; W 0xB87E 0x6601 ] ;;;
  (rtl8125_set_phy_mcu_patch_request c ;;; ret tt) ;;;
  phy_seq c [
    CS 0xBD96 0x1F00 0x1000; CS 0xBF1C 0x0007 0x0007; CS 0xBFBE (BIT 15) 0; CS 0xBF40 0x0380 0x0280;
    CS 0xBF90 (BIT 7) (BIT 6 .| BIT 5); CS 0xBF90 (BIT 4) (BIT 3 .| BIT 2) ] ;;;
  (rtl8125_clear_phy_mcu_patch_request c ;;; ret tt) ;;;
  phy_seq c [
    W 0xA436 0x843B; CS 0xA438 0xFF00 0x2000; W 0xA436 0x843D; CS 0xA438 0xFF00 0x2000;
    CS 0xB516 0x7F 0; CS 0xBF80 (BIT 5 .| BIT 4) 0; W 0xA436 0x8188; W 0xA438 0x0044; W 0xA438 0x00A8;
    W 0xA438 0x00D6; W 0xA438 0x00EC; W 0xA438 0x00F6; W 0xA438 0x00FC; W 0xA438 0x00FE;
    W 0xA438 0x00FE; W 0xA438 0x00BC; W 0xA438 0x0058; W 0xA438 0x002A; W 0xB87C 0x8015;
    CS 0xB87E 0xFF00 0x0800; W 0xB87C 0x8FFD; CS 0xB87E 0xFF00 0x0000; W 0xB87C 0x8FFF;
    CS 0xB87E 0xFF00 0x7F00; W 0xB87C 0x8FFB; CS 0xB87E 0xFF00 0x0100; W 0xB87C 0x8FE9;
    W 0xB87E 0x0002; W 0xB87C 0x8FEF; W 0xB87E 0x00A5; W 0xB87C 0x8FF1; W 0xB87E 0x0106;
    W 0xB87C 0x8FE1; W 0xB87E 0x0102; W 0xB87C 0x8FE3; CS 0xB87E 0xFF00 0x0400; CS 0xA654 0 (BIT 11);
    CS 0xA65A (BIT 1 .| BIT 0) 0; W 0xAC3A 0x5851; CS 0xAC3C (BIT 15 .| BIT 14 .| BIT 12) (BIT 13);
    CS 0xAC42 (BIT 9) (BIT 8 .| BIT 7 .| BIT 6); CS 0xAC3E (BIT 15 .| BIT 14 .| BIT 13) 0;
    CS 0xAC42 (BIT 5 .| BIT 4 .| BIT 3) 0; CS 0xAC42 (BIT 1) (BIT 2 .| BIT 0); W 0xAC1A 0x00DB;
    W 0xADE4 0x01B5; CS 0xAD9C (BIT 11 .| BIT 10) 0; W 0xB87C 0x814B; CS 0xB87E 0xFF00 0x1100;
    W 0xB87C 0x814D; CS 0xB87E 0xFF00 0x1100; W 0xB87C 0x814F; CS 0xB87E 0xFF00 0x0B00;
    W 0xB87C 0x8142; CS 0xB87E 0xFF00 0x0100; W 0xB87C 0x8144; CS 0xB87E 0xFF00 0x0100;
    W 0xB87C 0x8150; CS 0xB87E 0xFF00 0x0100; W 0xB87C 0x8118; CS 0xB87E 0xFF00 0x0700;
    W 0xB87C 0x811A; CS 0xB87E 0xFF00 0x0700; W 0xB87C 0x811C; CS 0xB87E 0xFF00 0x0500;
    W 0xB87C 0x810F; CS 0xB87E 0xFF00 0x0100; W 0xB87C 0x8111; CS 0xB87E 0xFF00 0x0100;
    W 0xB87C 0x811D; CS 0xB87E 0xFF00 0x0100; CS 0xAC36 0 (BIT 12); CS 0xAD1C (BIT 8) 0;
    CS 0xADE8 0xFFC0 0x1400; W 0xB87C 0x864B; CS 0xB87E 0xFF00 0x9D00; W 0xA436 0x8F97;
    W 0xA438 0x003F; W 0xA438 0x3F02; W 0xA438 0x023C; W 0xA438 0x3B0A; W 0xA438 0x1C00;
    W 0xA438 0x0000; W 0xA438 0x0000; W 0xA438 0x0000; W 0xA438 0x0000; CS 0xAD9C 0 (BIT 5);
    W 0xB87C 0x8122; CS 0xB87E 0xFF00 0x0C00; W 0xB87C 0x82C8; W 0xB87E 0x03ED; W 0xB87E 0x03FF;
    W 0xB87E 0x0009; W 0xB87E 0x03FE; W 0xB87E 0x000B; W 0xB87E 0x0021; W 0xB87E 0x03F7;
    W 0xB87E 0x03B8; W 0xB87E 0x03E0; W 0xB87E 0x0049; W 0xB87E 0x0049; W 0xB87E 0x03E0;
    W 0xB87E 0x03B8; W 0xB87E 0x03F7; W 0xB87E 0x0021; W 0xB87E 0x000B; W 0xB87E 0x03FE;
    W 0xB87E 0x0009; W 0xB87E 0x03FF; W 0xB87E 0x03ED; W 0xB87C 0x80EF; CS 0xB87E 0xFF00 0x0C00;
    W 0xB87C 0x82A0; W 0xB87E 0x000E; W 0xB87E 0x03FE; W 0xB87E 0x03ED; W 0xB87E 0x0006;
    W 0xB87E 0x001A; W 0xB87E 0x03F1; W 0xB87E 0x03D8; W 0xB87E 0x0023; W 0xB87E 0x0054;
    W 0xB87E 0x0322; W 0xB87E 0x00DD; W 0xB87E 0x03AB; W 0xB87E 0x03DC; W 0xB87E 0x0027;
    W 0xB87E 0x000E; W 0xB87E 0x03E5; W 0xB87E 0x03F9; W 0xB87E 0x0012; W 0xB87E 0x0001;
    W 0xB87E 0x03F1; W 0xA436 0x8018; CS 0xA438 0 (BIT 13); W 0xB87C 0x8FE4; CS 0xB87E 0xFF00 0x0000;
    CS 0xB54C 0xFFC0 0x3700 ] ;;;
  (if has (aspm tp) kIOPCILinkControlASPMBitsL1 && has_ram_code tp then
    rtl8125_enable_phy_aldps c
   else ret tt).

Definition rtl8126_hw_phy_config_8126a_3 (tp : tpvars) : prog D unit :=
  let c := tp_chan tp in
  phy_seq c [
    CS 0xA442 0 (BIT 11); W 0xA436 0x8183; CS 0xA438 0xFF00 0x5900; CS 0xA654 0 (BIT 11);
    CS 0xB648 0 (BIT 14); CS 0xAD2C 0 (BIT 15); CS 0xAD94 0 (BIT 5); CS 0xADA0 0 (BIT 1);
    CS 0xAE06 (BIT 15 .| BIT 14 .| BIT 13 .| BIT 12 .| BIT 11 .| BIT 10) (BIT 14 .| BIT 13 .| BIT 12 .| BIT 11 .| BIT 10);
    W 0xB87C 0x8647; CS 0xB87E 0xFF00 0xE600; W 0xB87C 0x8036; CS 0xB87E 0xFF00 0x3000;
    W 0xB87C 0x8078; CS 0xB87E 0xFF00 0x3000; W 0xB87C 0x89E9; CS 0xB87E 0 0xFF00; W 0xB87C 0x8FFD;
    CS 0xB87E 0xFF00 0x0100; W 0xB87C 0x8FFE; CS 0xB87E 0xFF00 0x0200; W 0xB87C 0x8FFF;
    CS 0xB87E 0xFF00 0x0400; W 0xA436 0x8018; CS 0xA438 0xFF00 0x7700; W 0xA436 0x8F9C;
    W 0xA438 0x0005; W 0xA438 0x0000; W 0xA438 0x00ED; W 0xA438 0x0502; W 0xA438 0x0B00;
    W 0xA438 0xD401; W 0xA436 0x8FA8; CS 0xA438 0xFF00 0x2900; W 0xB87C 0x814B;
    CS 0xB87E 0xFF00 0x1100; W 0xB87C 0x814D; CS 0xB87E 0xFF00 0x1100; W 0xB87C 0x814F;
    CS 0xB87E 0xFF00 0x0B00; W 0xB87C 0x8142; CS 0xB87E 0xFF00 0x0100; W 0xB87C 0x8144;
    CS 0xB87E 0xFF00 0x0100; W 0xB87C 0x8150; CS 0xB87E 0xFF00 0x0100; W 0xB87C 0x8118;
    CS 0xB87E 0xFF00 0x0700; W 0xB87C 0x811A; CS 0xB87E 0xFF00 0x0700; W 0xB87C 0x811C;
    CS 0xB87E 0xFF00 0x0500; W 0xB87C 0x810F; CS 0xB87E 0xFF00 0x0100; W 0xB87C 0x8111;
    CS 0xB87E 0xFF00 0x0100; W 0xB87C 0x811D; CS 0xB87E 0xFF00 0x0100; CS 0xAD1C 0 (BIT 8);
    CS 0xADE8 (BIT 15 .| BIT 14 .| BIT 13 .| BIT 12 .| BIT 11 .| BIT 10 .| BIT 9 .| BIT 8 .| BIT 7 .| BIT 6) (BIT 12 .| BIT 10);
    W 0xB87C 0x864B; CS 0xB87E 0xFF00 0x9D00; W 0xB87C 0x862C; CS 0xB87E 0xFF00 0x1200;
    W 0xA436 0x8566; W 0xA438 0x003F; W 0xA438 0x3F02; W 0xA438 0x023C; W 0xA438 0x3B0A;
    W 0xA438 0x1C00; W 0xA438 0x0000; W 0xA438 0x0000; W 0xA438 0x0000; W 0xA438 0x0000;
    CS 0xAD9C 0 (BIT 5); W 0xB87C 0x8122; CS 0xB87E 0xFF00 0x0C00; W 0xB87C 0x82C8; W 0xB87E 0x03ED;
    W 0xB87E 0x03FF; W 0xB87E 0x0009; W 0xB87E 0x03FE; W 0xB87E 0x000B; W 0xB87E 0x0021;
    W 0xB87E 0x03F7; W 0xB87E 0x03B8; W 0xB87E 0x03E0; W 0xB87E 0x0049; W 0xB87E 0x0049;
    W 0xB87E 0x03E0; W 0xB87E 0x03B8; W 0xB87E 0x03F7; W 0xB87E 0x0021; W 0xB87E 0x000B;
    W 0xB87E 0x03FE; W 0xB87E 0x0009; W 0xB87E 0x03FF; W 0xB87E 0x03ED; W 0xB87C 0x80EF;
    CS 0xB87E 0xFF00 0x0C00; W 0xB87C 0x82A0; W 0xB87E 0x000E; W 0xB87E 0x03FE; W 0xB87E 0x03ED;
    W 0xB87E 0x0006; W 0xB87E 0x001A; W 0xB87E 0x03F1; W 0xB87E 0x03D8; W 0xB87E 0x0023;
    W 0xB87E 0x0054; W 0xB87E 0x0322; W 0xB87E 0x00DD; W 0xB87E 0x03AB; W 0xB87E 0x03DC;
    W 0xB87E 0x0027; W 0xB87E 0x000E; W 0xB87E 0x03E5; W 0xB87E 0x03F9; W 0xB87E 0x0012;
    W 0xB87E 0x0001; W 0xB87E 0x03F1; CS 0xA430 0 (BIT 1 .| BIT 0); CS 0xB54C 0xFFC0 0x3700;
    CS 0xB648 0 (BIT 6); W 0xB87C 0x8082; CS 0xB87E 0xFF00 0x5D00; W 0xB87C 0x807C;
    CS 0xB87E 0xFF00 0x5000; W 0xB87C 0x809D; CS 0xB87E 0xFF00 0x5000 ] ;;;
  (if has (aspm tp) kIOPCILinkControlASPMBitsL1 && has_ram_code tp then
    rtl8125_enable_phy_aldps c
   else ret tt).

Definition rtl8127_hw_phy_config_8127a_tc_1 (tp : tpvars) : prog D unit :=
  let c := tp_chan tp in
  phy_seq c [
    CS 0xA442 0 (BIT 11); W 0xa436 0x815E; CS 0xa438 0xFF00 0x8600; W 0xa436 0x8169;
    CS 0xa438 0xFF00 0x8600; W 0xa436 0x8174; CS 0xa438 0xFF00 0xA100; W 0xa436 0x83BF;
    CS 0xa438 0xFF00 0x5A00; W 0xa436 0x83C5; CS 0xa438 0xFF00 0x5A00; W 0xa436 0x83CB;
    CS 0xa438 0xFF00 0x8B00; W 0xB87C 0x8238; CS 0xB87E 0xC000 0x4000; W 0xB87C 0x823A;
    CS 0xB87E 0xFF00 0xA000; W 0xa436 0x8148; CS 0xa438 0xFF00 0x0100; W 0xA436 0x84AD;
    CS 0xA438 0xFF00 0x0C00; W 0xA436 0x84B2; CS 0xA438 0xFF00 0x0800; W 0xA436 0x84B7;
    CS 0xA438 0xFF00 0x1400; W 0xA436 0x84BC; W 0xA438 0x0040; W 0xA436 0x84C0; W 0xA438 0x00D6;
    W 0xA436 0x84BE; W 0xA438 0x00A0; W 0xA436 0x84AE; W 0xA438 0x0C0C; W 0xA436 0x84B0;
    W 0xA438 0x0C0C; W 0xBD7A 0xAAAA; W 0xBCE0 0x6666; W 0xB87C 0x85FC; W 0xB87E 0x0AAA;
    W 0xB87C 0x85FF; W 0xB87E 0x0AAA; CS 0xAC32 (BIT 3) 0; CS 0xAC32 (BIT 11) 0;
    CS 0xADDC 0x3FFF 0x2000; W 0xB87C 0x8111; CS 0xB87E 0x0F00 0x0F00; W 0xB87C 0x80E9;
    CS 0xB87E 0x0F00 0x0F00; CS 0xAEC4 0xFF00 0x4600; CS 0xAC56 0x0007 0x0005; W 0xB87C 0x825B;
    CS 0xB87E 0x0F00 0x0D00; W 0xB87C 0x8283; W 0xB87E 0x0334; W 0xB87C 0x8289;
    CS 0xB87E 0xFF00 0x5600; W 0xADB8 0x0190; CS 0xAE3A 0x00FF 0x0026; CS 0xAE4A 0x0FF0 0x0150;
    CS 0xAEC2 0 (BIT 12); W 0xAE22 0x0352; W 0xAEC0 0x00FA; W 0xB87C 0x8188; CS 0xB87E 0xFF00 0xF500;
    W 0xB87C 0x8203; CS 0xB87E 0xFF00 0xF500; W 0xB87C 0x827E; CS 0xB87E 0xFF00 0xF500;
    W 0xB87C 0x81CB; CS 0xB87E 0xFF00 0x1000; W 0xB87C 0x8246; CS 0xB87E 0xFF00 0x1000;
    W 0xB87C 0x818A; CS 0xB87E 0xFF00 0xF500; W 0xB87C 0x8205; CS 0xB87E 0xFF00 0xF500;
    W 0xB87C 0x8280; CS 0xB87E 0xFF00 0xF500; W 0xB87C 0x83DD; CS 0xB87E 0 (BIT 9); W 0xB87C 0x840B;
    CS 0xB87E 0 (BIT 9); W 0xA436 0x83BC; CS 0xA438 0 (BIT 10); W 0xA436 0x83BE; CS 0xA438 0 (BIT 10);
    W 0xA436 0x83C0; CS 0xA438 0x0700 0x0400; W 0xA436 0x83C2; CS 0xA438 0 (BIT 10); W 0xA436 0x83C4;
    CS 0xA438 0 (BIT 10); W 0xA436 0x83C6; CS 0xA438 0x0700 0x0400; W 0xA436 0x84C2; W 0xA438 0xFEFF;
    W 0xA436 0x84C4; W 0xA438 0x0003; W 0xA436 0x84C6; W 0xA438 0x0116; W 0xA436 0x84C8;
    CS 0xA438 0xFF00 0x6300; W 0xB87C 0x822A; W 0xB87E 0x4FFF; W 0xB87C 0x81AF; W 0xB87E 0x4067;
    W 0xB87C 0x8134; W 0xB87E 0x5069; W 0xB87C 0x822C; CS 0xB87E 0xFF00 0x1A00; W 0xB87C 0x81B1;
    CS 0xB87E 0xFF00 0x3A00; W 0xB87C 0x8136; CS 0xB87E 0xFF00 0x5000; W 0xB87C 0x810E;
    CS 0xB87E 0xF000 0x9000; W 0xB87C 0x8114; CS 0xB87E 0xF000 0x9000; CS 0xB63C (BIT 9) 0;
    W 0xB87C 0x80B4; W 0xB87E 0xB63B; W 0xB87C 0x80E4; CS 0xB87E 0x0F00 0x0700; W 0xB87C 0x80E5;
    CS 0xB87E 0xF000 0x7000; W 0xB87C 0x80EA; CS 0xB87E 0x0F00 0x0500; W 0xB87C 0x80EB;
    CS 0xB87E 0xF000 0x5000; W 0xB87C 0x8291; W 0xB87E 0x0416; W 0xB87C 0x8015; CS 0xB87E 0 (BIT 11);
    W 0xB87C 0x895E; W 0xB87E 0x01A0; W 0xB87C 0x8960; W 0xB87E 0x01A0; W 0xB87C 0x826B;
    W 0xB87E 0xF0AF; W 0xB87C 0x81F0; W 0xB87E 0xF0AF; W 0xB87C 0x8175; W 0xB87E 0xF0AF;
    W 0xB87C 0x826D; CS 0xB87E 0x0F00 0x0100; W 0xB87C 0x81F2; CS 0xB87E 0x0F00 0x0100;
    W 0xB87C 0x8177; CS 0xB87E 0x0F00 0x0100; CS 0xAC1C (BIT 8 .| BIT 7) 0;
    CS 0xAC1E (BIT 13 .| BIT 12) 0; W 0xAD96 0xAAFF; CS 0xAD98 0x00FF 0x00AA; CS 0xAE38 0x3FFF 0x2554;
    CS 0xAE3A 0xF000 0xA000; W 0xB87C 0x8932; CS 0xB87E 0x0F00 0x0900; W 0xB87C 0x892F;
    CS 0xB87E 0x0F00 0x0900; W 0xB87C 0x892C; CS 0xB87E 0x0F00 0x0900; W 0xB87C 0x85B6;
    CS 0xB87E 0 0xFF00; W 0xB87C 0x85B4; W 0xB87E 0xFFFF; W 0xB87C 0x8905; CS 0xB87E 0xFF00 0;
    W 0xB87C 0x8853; CS 0xB87E 0xFF00 0x2800; W 0xB87C 0x884B; CS 0xB87E 0xFF00 0x3F00;
    CS 0xBDE6 0x3FFF 0; CS 0xBDE8 0x3FFF 0; CS 0xBF0E 0x0003 0; W 0xA436 0x8156;
    CS 0xA438 0xFF00 0x1600; W 0xA436 0x80AB; CS 0xA438 0xFF00 0x7500; W 0xA436 0x80C3;
    W 0xA438 0x090D; W 0xA436 0x80C6; CS 0xA438 0xFF00 0xC600; W 0xA436 0x80BF;
    CS 0xA438 0xFF00 0x5500; W 0xA436 0x8096; CS 0xA438 0xFF00 0x4500; W 0xA436 0x809D;
    CS 0xA438 0xFF00 0x0200; W 0xA436 0x809B; W 0xA438 0xE50A; W 0xA436 0x8099; W 0xA438 0x9906;
    W 0xA436 0x831F; CS 0xA438 0xFF00 0x5000; CS 0xB648 0 (BIT 14); CS 0xA4E0 (BIT 15) 0;
    W 0xA436 0x849A; W 0xA438 0x0004; CS 0xAC1C 0x0C00 0; CS 0xA42C 0 (BIT 6); CS 0xACBA 0xFC00 0;
    W 0xB87C 0x8122; CS 0xB87E 0xF000 0xC000; W 0xB87C 0x8123; CS 0xB87E 0xF000 0xC000;
    W 0xB87C 0x80FA; CS 0xB87E 0xF000 0x2000; W 0xB87C 0x825B; CS 0xB87E 0xF000 0xB000;
    W 0xB87C 0x80D2; CS 0xB87E 0xF000 0xD000; W 0xB87C 0x80D3; CS 0xB87E 0xF000 0xD000;
    W 0xB87C 0x80C8; CS 0xB87E 0x0F00 0x0200; W 0xB87C 0x80CA; CS 0xB87E 0x0F00 0x0300;
    W 0xB87C 0x80E2; CS 0xB87E 0xFF00 0x2300; W 0xB87C 0x80A9; CS 0xB87E 0x0F00 0x0A00;
    W 0xB87C 0x80AA; CS 0xB87E 0xF000 0x5000; W 0xB87C 0x80AB; CS 0xB87E 0xF000 0xA000;
    W 0xB87C 0x805A; CS 0xB87E 0xF000 0x2000; W 0xB87C 0x8106; W 0xB87E 0x40CC; W 0xB87C 0x812C;
    W 0xB87E 0x40CC; W 0xB87C 0x8096; CS 0xB87E 0xFF00 0x7500; W 0xB87C 0x809C;
    CS 0xB87E 0xFF00 0x6300; W 0xB87C 0x859E; CS 0xB87E 0xFF00 0x1F00 ] ;;;
  (if has (aspm tp) kIOPCILinkControlASPMBitsL1 && has_ram_code tp then
    rtl8125_enable_phy_aldps c
   else ret tt).

Definition rtl8127_hw_phy_config_8127a_1 (tp : tpvars) : prog D unit :=
  let c := tp_chan tp in
  rtl8125_tgphy_irq_mask_and_ack (tp_mcfg tp) c ;;;
  phy_seq c [
    CS 0xA442 (BIT 11) 0; W 0xA436 0x8415; CS 0xA438 0xFF00 0x9300; W 0xA436 0x81A3;
    CS 0xA438 0xFF00 0x0F00; W 0xA436 0x81AE; CS 0xA438 0xFF00 0x0F00; W 0xA436 0x81B9;
    CS 0xA438 0xFF00 0xB900; W 0xB87C 0x83B0; CS 0xB87E 0x0E00 0; W 0xB87C 0x83C5; CS 0xB87E 0x0E00 0;
    W 0xB87C 0x83DA; CS 0xB87E 0x0E00 0; W 0xB87C 0x83EF; CS 0xB87E 0x0E00 0; CS 0xBF38 0x01F0 0x0160;
    CS 0xBF3A 0x001F 0x0014; CS 0xBF28 0x6000 0; CS 0xBF2C 0xC000 0; CS 0xBF28 0x1FFF 0x0187;
    CS 0xBF2A 0x003F 0x0003; W 0xA436 0x8173; W 0xA438 0x8620; W 0xA436 0x8175; W 0xA438 0x8671;
    W 0xA436 0x817C; CS 0xA438 0 (BIT 13); W 0xA436 0x8187; CS 0xA438 0 (BIT 13); W 0xA436 0x8192;
    CS 0xA438 0 (BIT 13); W 0xA436 0x819D; CS 0xA438 0 (BIT 13); W 0xA436 0x81A8; CS 0xA438 (BIT 13) 0;
    W 0xA436 0x81B3; CS 0xA438 (BIT 13) 0; W 0xA436 0x81BE; CS 0xA438 0 (BIT 13); W 0xA436 0x817D;
    CS 0xA438 0xFF00 0xA600; W 0xA436 0x8188; CS 0xA438 0xFF00 0xA600; W 0xA436 0x8193;
    CS 0xA438 0xFF00 0xA600; W 0xA436 0x819E; CS 0xA438 0xFF00 0xA600; W 0xA436 0x81A9;
    CS 0xA438 0xFF00 0x1400; W 0xA436 0x81B4; CS 0xA438 0xFF00 0x1400; W 0xA436 0x81BF;
    CS 0xA438 0xFF00 0xA600; CS 0xAEAA (BIT 5 .| BIT 3) 0; W 0xB87C 0x84F0; W 0xB87E 0x201C;
    W 0xB87C 0x84F2; W 0xB87E 0x3117; W 0xAEC6 0x0000; W 0xAE20 0xFFFF; W 0xAECE 0xFFFF;
    W 0xAED2 0xFFFF; W 0xAEC8 0x0000; CS 0xAED0 (BIT 0) 0; W 0xADB8 0x0150; W 0xB87C 0x8197;
    CS 0xB87E 0xFF00 0x5000; W 0xB87C 0x8231; CS 0xB87E 0xFF00 0x5000; W 0xB87C 0x82CB;
    CS 0xB87E 0xFF00 0x5000; W 0xB87C 0x82CD; CS 0xB87E 0xFF00 0x5700; W 0xB87C 0x8233;
    CS 0xB87E 0xFF00 0x5700; W 0xB87C 0x8199; CS 0xB87E 0xFF00 0x5700; W 0xB87C 0x815A;
    W 0xB87E 0x0150; W 0xB87C 0x81F4; W 0xB87E 0x0150; W 0xB87C 0x828E; W 0xB87E 0x0150;
    W 0xB87C 0x81B1; W 0xB87E 0x0000; W 0xB87C 0x824B; W 0xB87E 0x0000; W 0xB87C 0x82E5;
    W 0xB87E 0x0000; W 0xB87C 0x84F7; CS 0xB87E 0xFF00 0x2800; CS 0xAEC2 0 (BIT 12); W 0xB87C 0x81B3;
    CS 0xB87E 0xFF00 0xAD00; W 0xB87C 0x824D; CS 0xB87E 0xFF00 0xAD00; W 0xB87C 0x82E7;
    CS 0xB87E 0xFF00 0xAD00; CS 0xAE4E 0x000F 0x0001; W 0xB87C 0x82CE; CS 0xB87E 0xF000 0x4000;
    W 0xB87C 0x84AC; W 0xB87E 0x0000; W 0xB87C 0x84AE; W 0xB87E 0x0000; W 0xB87C 0x84B0;
    W 0xB87E 0xF818; W 0xB87C 0x84B2; CS 0xB87E 0xFF00 0x6000; W 0xB87C 0x8FFC; W 0xB87E 0x6008;
    W 0xB87C 0x8FFE; W 0xB87E 0xF450; W 0xB87C 0x8015; CS 0xB87E 0 (BIT 9); W 0xB87C 0x8016;
    CS 0xB87E (BIT 11) 0; W 0xB87C 0x8FE6; CS 0xB87E 0xFF00 0x0800; W 0xB87C 0x8FE4; W 0xB87E 0x2114;
    W 0xB87C 0x8647; W 0xB87E 0xA7B1; W 0xB87C 0x8649; W 0xB87E 0xBBCA; W 0xB87C 0x864B;
    CS 0xB87E 0xFF00 0xDC00; W 0xB87C 0x8154; CS 0xB87E 0xC000 0x4000; W 0xB87C 0x8158;
    CS 0xB87E 0xC000 0; W 0xB87C 0x826C; W 0xB87E 0xFFFF; W 0xB87C 0x826E; W 0xB87E 0xFFFF;
    W 0xB87C 0x8872; CS 0xB87E 0xFF00 0x0E00; W 0xA436 0x8012; CS 0xA438 0 (BIT 11); W 0xA436 0x8012;
    CS 0xA438 0 (BIT 14); CS 0xB576 0 (BIT 0); W 0xA436 0x834A; CS 0xA438 0xFF00 0x0700;
    W 0xB87C 0x8217; CS 0xB87E 0x3F00 0x2A00; W 0xA436 0x81B1; CS 0xA438 0xFF00 0x0B00;
    W 0xB87C 0x8FED; CS 0xB87E 0xFF00 0x4E00; W 0xB87C 0x88AC; CS 0xB87E 0xFF00 0x2300;
    CS 0xBF0C 0 0x3800; W 0xB87C 0x88DE; CS 0xB87E 0xFF00 0; W 0xB87C 0x80B4; W 0xB87E 0x5195;
    W 0xA436 0x8370; W 0xA438 0x8671; W 0xA436 0x8372; W 0xA438 0x86C8; W 0xA436 0x8401;
    W 0xA438 0x86C8; W 0xA436 0x8403; W 0xA438 0x86DA; W 0xA436 0x8406; CS 0xA438 0x1800 0x1000;
    W 0xA436 0x8408; CS 0xA438 0x1800 0x1000; W 0xA436 0x840A; CS 0xA438 0x1800 0x1000;
    W 0xA436 0x840C; CS 0xA438 0x1800 0x1000; W 0xA436 0x840E; CS 0xA438 0x1800 0x1000;
    W 0xA436 0x8410; CS 0xA438 0x1800 0x1000; W 0xA436 0x8412; CS 0xA438 0x1800 0x1000;
    W 0xA436 0x8414; CS 0xA438 0x1800 0x1000; W 0xA436 0x8416; CS 0xA438 0x1800 0x1000;
    W 0xA436 0x82BD; W 0xA438 0x1F40; CS 0xBFB4 0x07FF 0x0328; W 0xBFB6 0x3E14; W 0xA436 0x81C4;
    W 0xA438 0x003B; W 0xA438 0x0086; W 0xA438 0x00B7; W 0xA438 0x00DB; W 0xA438 0x00FE;
    W 0xA438 0x00FE; W 0xA438 0x00FE; W 0xA438 0x00FE; W 0xA438 0x00C3; W 0xA438 0x0078;
    W 0xA438 0x0047; W 0xA438 0x0023; W 0xB87C 0x88D7; W 0xB87E 0x01A0; W 0xB87C 0x88D9;
    W 0xB87E 0x01A0; W 0xB87C 0x8FFA; W 0xB87E 0x002A; W 0xB87C 0x8FEE; W 0xB87E 0xFFDF;
    W 0xB87C 0x8FF0; W 0xB87E 0xFFFF; W 0xB87C 0x8FF2; W 0xB87E 0x0A4A; W 0xB87C 0x8FF4;
    W 0xB87E 0xAA5A; W 0xB87C 0x8FF6; W 0xB87E 0x0A4A; W 0xB87C 0x8FF8; W 0xB87E 0xAA5A;
    W 0xB87C 0x88D5; CS 0xB87E 0xFF00 0x0200; W 0xA436 0x84BB; CS 0xA438 0xFF00 0x0A00;
    W 0xA436 0x84C0; CS 0xA438 0xFF00 0x1600; CS 0xA430 0 (BIT 1 .| BIT 0) ] ;;;
  (if has (aspm tp) kIOPCILinkControlASPMBitsL1 && has_ram_code tp then
    rtl8125_enable_phy_aldps c
   else ret tt).

End Code.

(** ** The PHY microcontroller *)

(** Pairs of register and value, as writes. *)
Fixpoint writes_of (l : list Z) : list phyop :=
  match l with a :: v :: r => W a v :: writes_of r | _ => [] end.

(** ** EEE advertisement as register bits (mdio.h, rtl812xx.h) *)

Definition MDIO_EEE_1000KX : Z := 0x0010.
Definition MDIO_EEE_10GKX4 : Z := 0x0020.
Definition MDIO_EEE_10GKR : Z := 0x0040.
Definition ADVERTISED_1000baseKX_Full : Z := BIT 17.
Definition ADVERTISED_10000baseKX4_Full : Z := BIT 18.
Definition ADVERTISED_10000baseKR_Full : Z := BIT 19.

Definition eee_pairs : list (Z * Z) :=
  [(ADVERTISED_100baseT_Full, MDIO_EEE_100TX); (ADVERTISED_1000baseT_Full, MDIO_EEE_1000T);
   (ADVERTISED_10000baseT_Full, MDIO_EEE_10GT); (ADVERTISED_1000baseKX_Full, MDIO_EEE_1000KX);
   (ADVERTISED_10000baseKX4_Full, MDIO_EEE_10GKX4); (ADVERTISED_10000baseKR_Full, MDIO_EEE_10GKR)].

Definition ethtool_adv_to_mmd_eee_adv_t (adv : Z) : Z :=
  foldl (fun reg '(mode, bit) => if has adv mode then reg .| bit else reg) 0 eee_pairs.

Definition mmd_eee_adv_to_ethtool_adv_t (eee_adv : Z) : Z :=
  foldl (fun adv '(mode, bit) => if has eee_adv bit then adv .| mode else adv) 0 eee_pairs.

Definition rtl8125_ethtool_adv_to_mmd_eee_adv_cap2_t (adv : Z) : Z :=
  if has adv ADVERTISED_2500baseX_Full then MDIO_EEE_2_5GT else 0.

Section Load.
Context {D : Type} `{M : !Mmio D}.
(** What is read from an EEE mask whose set-up was undefined ([eee_modes_undefined]). *)
Context (undef : Z).

Definition enable_eee (tp : tpvars) : prog D Z :=
  let adv := u32 (default undef (advertised (eee (tp_sw tp)))) in
  rtl8125_enable_eee (ctx tp) (ethtool_adv_to_mmd_eee_adv_t adv) (rtl8125_ethtool_adv_to_mmd_eee_adv_cap2_t adv).

(** A load between a patch request and its release. *)
Definition in_patch (c : chancfg) (p : prog D unit) : prog D unit :=
  rtl8125_set_phy_mcu_patch_request c ;;; p ;;; rtl8125_clear_phy_mcu_patch_request c ;;; ret tt.

(** rtl8125_real_set_phy_mcu_8125a_1 and _2: the code spelt out as writes. *)
Definition real_set_phy_mcu_8125a (tp : tpvars) (code : list Z) : prog D unit :=
  let c := tp_chan tp in
  rtl8125_acquire_phy_mcu_patch_key_lock (ctx tp) ;;;
  SetEthPhyOcpBit c 0xB820 (BIT 7) ;;;
  phy_seq c (writes_of code) ;;;
  ClearEthPhyOcpBit c 0xB820 (BIT 7) ;;;
  rtl8125_release_phy_mcu_patch_key_lock (ctx tp).

Definition load (tp : tpvars) (code : list Z) : prog D unit :=
  in_patch (tp_chan tp) (rtl8125_set_phy_mcu_ram_code (tp_chan tp) code).

Definition rtl8125_set_phy_mcu_8125a_1 (tp : tpvars) : prog D unit :=
  in_patch (tp_chan tp) (real_set_phy_mcu_8125a tp phy_mcu_writes_8125a_1).
Definition rtl8125_set_phy_mcu_8125a_2 (tp : tpvars) : prog D unit :=
  in_patch (tp_chan tp) (real_set_phy_mcu_8125a tp phy_mcu_writes_8125a_2).
Definition rtl8125_set_phy_mcu_8125b_1 (tp : tpvars) : prog D unit := load tp phy_mcu_ram_code_8125b_1.
Definition rtl8125_set_phy_mcu_8125b_2 (tp : tpvars) : prog D unit := load tp phy_mcu_ram_code_8125b_2.
Definition rtl8125_set_phy_mcu_8125bp_1 (tp : tpvars) : prog D unit :=
  load tp phy_mcu_ram_code_8125bp_1_1 ;;; load tp phy_mcu_ram_code_8125bp_1_2.
Definition rtl8125_set_phy_mcu_8125d_1 (tp : tpvars) : prog D unit :=
  load tp phy_mcu_ram_code_8125d_1_1 ;;; load tp phy_mcu_ram_code_8125d_1_2 ;;; load tp phy_mcu_ram_code_8125d_1_3.
Definition rtl8125_set_phy_mcu_8125d_1_efuse (tp : tpvars) : prog D unit :=
  rtl8125_set_phy_mcu_ram_code (tp_chan tp) phy_mcu_ram_code_8125d_1_efuse.
Definition rtl8125_set_phy_mcu_8125d_2 (tp : tpvars) : prog D unit :=
  load tp phy_mcu_ram_code_8125d_2_1 ;;; load tp phy_mcu_ram_code_8125d_2_2.
Definition rtl8125_set_phy_mcu_8125cp_1 (tp : tpvars) : prog D unit := load tp phy_mcu_ram_code_8125cp_1_1.
Definition rtl8126_set_phy_mcu_8126a_1 (tp : tpvars) : prog D unit :=
  load tp phy_mcu_ram_code_8126a_1_1 ;;; load tp phy_mcu_ram_code_8126a_1_2 ;;; load tp phy_mcu_ram_code_8126a_1_3.
Definition rtl8126_set_phy_mcu_8126a_2 (tp : tpvars) : prog D unit :=
  load tp phy_mcu_ram_code_8126a_2_1 ;;; load tp phy_mcu_ram_code_8126a_2_3.
Definition rtl8126_set_phy_mcu_8126a_3 (tp : tpvars) : prog D unit := load tp phy_mcu_ram_code_8126a_3_1.
Definition rtl8127_set_phy_mcu_8127a_tc (tp : tpvars) : prog D unit := load tp phy_mcu_ram_code_8127a_tc_1.
Definition rtl8127_set_phy_mcu_8127a_1 (tp : tpvars) : prog D unit :=
  load tp phy_mcu_ram_code_8127a_1 ;;; load tp phy_mcu_ram_code_8127a_2.

(** The switch of rtl8125_init_hw_phy_mcu. *)
Definition set_phy_mcu (tp : tpvars) : prog D unit :=
  match tp_mcfg tp with
  | CFG_METHOD_2 => rtl8125_set_phy_mcu_8125a_1 tp
  | CFG_METHOD_3 | CFG_METHOD_6 => rtl8125_set_phy_mcu_8125a_2 tp
  | CFG_METHOD_4 => rtl8125_set_phy_mcu_8125b_1 tp
  | CFG_METHOD_5 | CFG_METHOD_7 => rtl8125_set_phy_mcu_8125b_2 tp
  | CFG_METHOD_8 => rtl8125_set_phy_mcu_8125bp_1 tp
  | CFG_METHOD_9 => ret tt
  | CFG_METHOD_10 => rtl8125_set_phy_mcu_8125d_1 tp
  | CFG_METHOD_11 | CFG_METHOD_13 => rtl8125_set_phy_mcu_8125d_2 tp
  | CFG_METHOD_12 => rtl8125_set_phy_mcu_8125cp_1 tp
  | CFG_METHOD_31 => rtl8126_set_phy_mcu_8126a_1 tp
  | CFG_METHOD_32 => rtl8126_set_phy_mcu_8126a_2 tp
  | CFG_METHOD_33 => rtl8126_set_phy_mcu_8126a_3 tp
  | CFG_METHOD_41 => rtl8127_set_phy_mcu_8127a_tc tp
  | CFG_METHOD_42 => rtl8127_set_phy_mcu_8127a_1 tp
  | CFG_METHOD_DEFAULT => ret tt
  end.

Definition rtl8125_check_hw_phy_mcu_code_ver (tp : tpvars) : prog D (bool * tpvars) :=
  do ver <- rtl8125_get_hw_phy_mcu_code_ver (tp_chan tp);
  let same := ver =? sw_ram_code_ver (tp_sw tp) in
  ret (same, set_sw (sw_set_ram_code ver same (tp_sw tp)) tp).

(** The early returns: code is not to be written, or is there already. *)
Definition ram_code_present (tp : tpvars) : prog D (bool * tpvars) :=
  if NotWrRamCodeToMicroP (tp_sw tp) then ret (true, tp)
  else if cfg_num CFG_METHOD_31 <=? cfg_num (tp_mcfg tp) then rtl8125_check_hw_phy_mcu_code_ver tp
  else ret (has_ram_code tp, tp).

Definition rtl8125_init_hw_phy_mcu (tp : tpvars) : prog D tpvars :=
  do r <- ram_code_present tp;
  let '(present, tp) := r in
  if present : bool then ret tp else
  do off <- (if 0 <? HwSuppCheckPhyDisableModeVer (tp_sw tp) then rtl8125_is_in_phy_disable_mode else ret false);
  (if off : bool then rtl8125_disable_phy_disable_mode tp else ret tt) ;;;
  set_phy_mcu tp ;;;
  (if off then rtl8125_enable_phy_disable_mode tp else ret tt) ;;;
  do ver <- rtl8125_write_hw_phy_mcu_code_ver (ctx tp);
  do page <- rtl8125_mdio_write (cur_page tp) 0x1F 0;
  ret (set_page page (set_sw (sw_set_ram_code (default (hw_ram_code_ver (tp_sw tp)) ver) true (tp_sw tp)) tp)).

Definition rtl8125_set_hw_phy_before_init_phy_mcu (tp : tpvars) : prog D unit :=
  let c := tp_chan tp in
  match tp_mcfg tp with
  | CFG_METHOD_4 =>
      phy_seq c [W 0xBF86 0x9000; CS 0xC402 0 (BIT 10); CS 0xC402 (BIT 10) 0] ;;;
      mdio_direct_read_phy_ocp 0xBF86 ;;;
      phy_seq c [W 0xBD86 0x1010; W 0xBD88 0x1010; CS 0xBD4E (BIT 11 .| BIT 10) (BIT 11);
        CS 0xBF46 (BIT 11 .| BIT 10 .| BIT 9 .| BIT 8) (BIT 10 .| BIT 9 .| BIT 8)]
  | _ => ret tt
  end.

(** The switch of rtl8125_hw_phy_config. *)
Definition phy_config_regs (tp : tpvars) : prog D unit :=
  match tp_mcfg tp with
  | CFG_METHOD_2 => rtl8125_hw_phy_config_8125a_1 tp
  | CFG_METHOD_3 | CFG_METHOD_6 => rtl8125_hw_phy_config_8125a_2 tp
  | CFG_METHOD_4 => rtl8125_hw_phy_config_8125b_1 tp
  | CFG_METHOD_5 | CFG_METHOD_7 => rtl8125_hw_phy_config_8125b_2 tp
  | CFG_METHOD_8 => rtl8125_hw_phy_config_8125bp_1 tp
  | CFG_METHOD_9 => rtl8125_hw_phy_config_8125bp_2 tp
  | CFG_METHOD_10 => rtl8125_hw_phy_config_8125d_1 tp
  | CFG_METHOD_11 | CFG_METHOD_13 => rtl8125_hw_phy_config_8125d_2 tp
  | CFG_METHOD_12 => rtl8125_hw_phy_config_8125cp_1 tp
  | CFG_METHOD_31 => rtl8126_hw_phy_config_8126a_1 tp
  | CFG_METHOD_32 => rtl8126_hw_phy_config_8126a_2 tp
  | CFG_METHOD_33 => rtl8126_hw_phy_config_8126a_3 tp
  | CFG_METHOD_41 => rtl8127_hw_phy_config_8127a_tc_1 tp
  | CFG_METHOD_42 => rtl8127_hw_phy_config_8127a_1 tp
  | CFG_METHOD_DEFAULT => ret tt
  end.

(** [rtl_fw] is never set in this build: the code is the built-in one. *)
Definition rtl8125_hw_phy_config (tp : tpvars) : prog D tpvars :=
  if resume_not_chg_speed tp then ret tp else
  do page <- rtl8125_xmii_reset_enable (tp_chan tp) (cur_page tp);
  let tp := set_page page tp in
  (if cfg_num (tp_mcfg tp) <? cfg_num CFG_METHOD_31 then rtl8125_set_hw_phy_before_init_phy_mcu tp else ret tt) ;;;
  do tp <- rtl8125_init_hw_phy_mcu tp;
  phy_config_regs tp ;;;
  ClearEthPhyOcpBit (tp_chan tp) 0xA5B4 (BIT 15) ;;;
  rtl8127_hw_fiber_phy_config tp ;;;
  do page <- rtl8125_mdio_write (cur_page tp) 0x1F 0;
  let tp := set_page page tp in
  (if has_ram_code tp then
     (if eee_enabled (eee (tp_sw tp)) then enable_eee tp else rtl8125_disable_eee (ctx tp)) ;;; ret tt
   else ret tt) ;;;
  ret tp.
End Load.
