(* ===== verification/PhySpec.v ===== *)
(** The images of the PHY microcontroller: what the loader does with them, and
    the version each leaves in the PHY. *)
From S2P Require Import Prelude Mmio Channel Chip SwVars Hw McuTables Mcu PhyTables.
Local Open Scope prog_scope.

(** Every image handed to rtl8125_set_phy_mcu_ram_code. *)
Definition phy_images : list (list Z) := [
  phy_mcu_ram_code_8125b_1; phy_mcu_ram_code_8125b_2; phy_mcu_ram_code_8125bp_1_1; phy_mcu_ram_code_8125bp_1_2;
  phy_mcu_ram_code_8125d_1_1; phy_mcu_ram_code_8125d_1_2; phy_mcu_ram_code_8125d_1_3; phy_mcu_ram_code_8125d_1_efuse;
  phy_mcu_ram_code_8125d_2_1; phy_mcu_ram_code_8125d_2_2; phy_mcu_ram_code_8125cp_1_1;
  phy_mcu_ram_code_8126a_1_1; phy_mcu_ram_code_8126a_1_2; phy_mcu_ram_code_8126a_1_3;
  phy_mcu_ram_code_8126a_2_1; phy_mcu_ram_code_8126a_2_3; phy_mcu_ram_code_8126a_3_1;
  phy_mcu_ram_code_8127a_tc_1; phy_mcu_ram_code_8127a_1; phy_mcu_ram_code_8127a_2 ].

Definition flat (ps : list (Z * Z)) : list Z := ps ≫= fun p => [p.1; p.2].

Fixpoint pairs (l : list Z) : list (Z * Z) :=
  match l with a :: v :: r => (a, v) :: pairs r | _ => [] end.

(** The pairs before the first end mark. *)
Fixpoint before_end (ps : list (Z * Z)) : list (Z * Z) :=
  match ps with
  | [] => []
  | (a, v) :: r => if (a =? 0xFFFF) && (v =? 0xFFFF) then [] else (a, v) :: before_end r
  end.

Definition word16 (w : Z) : bool := (0 <=? w) && (w <? 65536).

(** An even number of 16-bit words; the end mark is the last pair and no other. *)
Definition image_ok (code : list Z) : bool :=
  forallb word16 code && bool_decide (code = flat (before_end (pairs code)) ++ [0xFFFF; 0xFFFF]).

Section Load.
Context {D : Type} `{M : !Mmio D}.

Fixpoint phy_writes (tp : chancfg) (ps : list (Z * Z)) : prog D unit :=
  match ps with [] => ret tt | (a, v) :: r => mdio_direct_write_phy_ocp tp a v ;;; phy_writes tp r end.

Lemma load_pairs tp ps tail d : forall fuel, (length ps < fuel)%nat ->
  Forall (fun p => p <> (0xFFFF, 0xFFFF)) ps ->
  phy_ram_loop fuel tp (flat ps ++ 0xFFFF :: 0xFFFF :: tail) d = phy_writes tp ps d.
Proof.
  revert d. induction ps as [|[a v] ps IH]; intros d [|n] Hn Hf; cbn [length] in Hn; try lia; [done|].
  inversion Hf as [|? ? Hne Hf']. subst. unfold flat. cbn [mbind list_bind app fst snd phy_ram_loop phy_writes].
  fold (flat ps). replace ((a =? 0xFFFF) && (v =? 0xFFFF)) with false.
  - rewrite !bind_run. apply IH; [lia|done].
  - symmetry. apply andb_false_iff. rewrite !Z.eqb_neq. destruct (Z.eq_dec a 0xFFFF) as [->|]; [|by left].
    right. by intros ->.
Qed.

Lemma before_end_clean ps : Forall (fun p => p <> (0xFFFF, 0xFFFF)) (before_end ps).
Proof.
  induction ps as [|[a v] ps IH]; cbn [before_end]; [done|]. case_match eqn:E; [done|]. constructor; [|done].
  intros [= -> ->]. discriminate.
Qed.

Lemma flat_length ps : length (flat ps) = (2 * length ps)%nat.
Proof. induction ps as [|p ps IH]; [done|]. unfold flat in *. cbn [mbind list_bind]. rewrite length_app, IH. cbn. lia. Qed.

Lemma load_image tp code d : image_ok code = true ->
  rtl8125_set_phy_mcu_ram_code tp code d = phy_writes tp (before_end (pairs code)) d.
Proof.
  intros H. apply andb_true_iff in H as [_ H]. apply bool_decide_eq_true in H.
  set (ps := before_end (pairs code)) in *. pose proof (before_end_clean (pairs code)) as Hc. fold ps in Hc. clearbody ps. subst code.
  unfold rtl8125_set_phy_mcu_ram_code. rewrite length_app, flat_length. cbn [length].
  replace (Nat.odd (2 * length ps + 2)) with false
    by (symmetry; rewrite <- Nat.negb_even; apply negb_false_iff, Nat.even_spec; exists (length ps + 1)%nat; lia).
  by apply load_pairs; [lia|].
Qed.
End Load.

Lemma phy_images_ok : forallb image_ok phy_images = true.
Proof. vm_compute. reflexivity. Qed.

(** ** Versions *)

(** The last version written to PHY parameter 801E: a data write right after the
    parameter was selected. *)
Fixpoint stamp (last : option Z) (ps : list (Z * Z)) : option Z :=
  match ps with
  | (a, v) :: (((a', v') :: _) as r) =>
      stamp (if (a =? 0xA436) && (v =? 0x801E) && (a' =? 0xA438) then Some v' else last) r
  | _ => last
  end.

(** The images loaded for the chips whose version is compared on every enable
    and not written by the driver. *)
Definition images_8126 (m : cfg) : list (list Z) :=
  match m with
  | CFG_METHOD_31 => [phy_mcu_ram_code_8126a_1_1; phy_mcu_ram_code_8126a_1_2; phy_mcu_ram_code_8126a_1_3]
  | CFG_METHOD_32 => [phy_mcu_ram_code_8126a_2_1; phy_mcu_ram_code_8126a_2_3]
  | CFG_METHOD_33 => [phy_mcu_ram_code_8126a_3_1]
  | _ => []
  end.
Definition stamp_of (m : cfg) : option Z := stamp None (images_8126 m ≫= fun code => before_end (pairs code)).

(** Every shipped PHY image is loaded completely: it is an even number of
    16-bit words with the end mark as its last pair and no other, so the loader
    writes its pairs to the PHY in order, all of them, and nothing else. *)
Theorem phy_images_load_exactly {D} `{M : !Mmio D} tp code (d : D) :
  In code phy_images ->
  exists ps, code = flat ps ++ [0xFFFF; 0xFFFF] /\ Forall (fun w => 0 <= w < 65536) code /\
    rtl8125_set_phy_mcu_ram_code tp code d = phy_writes tp ps d.
Proof.
  intros Hin. pose proof (proj1 (forallb_forall _ _) phy_images_ok code Hin) as H. exists (before_end (pairs code)).
  split; [|split; [|by apply load_image]].
  - apply andb_true_iff in H as [_ H]. by apply bool_decide_eq_true in H.
  - apply andb_true_iff in H as [H _]. apply List.Forall_forall. intros w Hw.
    pose proof (proj1 (forallb_forall _ _) H w Hw) as Hw'. unfold word16 in Hw'. bool_props. lia.
Qed.

Lemma phy_images_load_exactly_witness :
  exists ps, phy_mcu_ram_code_8127a_2 = flat ps ++ [0xFFFF; 0xFFFF] /\
    Forall (fun w => 0 <= w < 65536) phy_mcu_ram_code_8127a_2 /\
    rtl8125_set_phy_mcu_ram_code (mkChanCfg false false 0 0 false false) phy_mcu_ram_code_8127a_2 tt =
    phy_writes (mkChanCfg false false 0 0 false false) ps tt.
Proof.
  apply (phy_images_load_exactly (mkChanCfg false false 0 0 false false) phy_mcu_ram_code_8127a_2 tt).
  do 19 right. left. reflexivity.
Defined.

(** The RTL8126A rev. 1 image leaves the version the driver compares with on the
    next enable; the rev. 2 image leaves another one and the rev. 3 image none,
    and the driver writes none for them, so their patches are loaded again every
    time. *)
Theorem phy_version_stamps :
  (forall D (M : Mmio D) tp (d : D), images_8126 (mcfg (tid tp)) <> [] ->
     rtl8125_write_hw_phy_mcu_code_ver tp d = (None, d)) /\
  stamp_of CFG_METHOD_31 = Some (sw_ram_code_ver_of CFG_METHOD_31 0) /\
  stamp_of CFG_METHOD_32 <> Some (sw_ram_code_ver_of CFG_METHOD_32 0) /\
  stamp_of CFG_METHOD_33 = None.
Proof.
  split; [|vm_compute; split; [reflexivity|split; [discriminate|reflexivity]]].
  intros D M tp d H. unfold rtl8125_write_hw_phy_mcu_code_ver. by destruct (mcfg (tid tp)).
Qed.
