(* ===== verification/BringUp.v ===== *)
(** The hardware layer of the DriverKit driver (RTL8127Hw.cpp): identification
    and set-up (rtl812xInit), enabling and disabling the chip, the
    configuration written on every link change (rtl812xHwConfig), the PHY medium,
    the station address and the PCI Express settings. *)
From S2P Require Import Prelude Mmio Channel Chip SwVars Eeprom Hw Mcu Power Fiber PhyConfig RxFilter.
Local Open Scope prog_scope.

Definition CounterAddrLow : Z := 0x10.
Definition CounterAddrHigh : Z := 0x14.
Definition TxDescStartAddrLow : Z := 0x20.
Definition TxDescStartAddrHigh : Z := 0x24.
Definition TCTR0_8125 : Z := 0x48.
Definition TDFNR : Z := 0x57.
Definition CPlusCmd : Z := 0xE0.
Definition RxDescAddrLow : Z := 0xE4.
Definition RxDescAddrHigh : Z := 0xE8.
Definition BACKUP_ADDR0_8125 : Z := 0x19E0.
Definition BACKUP_ADDR1_8125 : Z := 0x19E4.
Definition RSS_CTRL_8125 : Z := 0x4500.
Definition Q_NUM_CTRL_8125 : Z := 0x4800.
Definition EEE_TXIDLE_TIMER_8125 : Z := 0x6048.
Definition CounterReset : Z := 0x1.
Definition CounterDump : Z := 0x8.
Definition TX_DMA_BURST_unlimited : Z := 7.
Definition TxDMAShift : Z := 8.
Definition InterFrameGap : Z := 3.
Definition TxInterFrameGapShift : Z := 24.
Definition RxChkSum : Z := BIT 5.
Definition EnableRxDescV4_0 : Z := BIT 1.
(** EnableBist, Macdbgo_oe, Force_halfdup, Force_rxflow_en, Force_txflow_en,
    Cxpl_dbg_sel, ASF and Macdbgo_sel. *)
Definition cp_cmd_clear : Z :=
  BIT 15 .| BIT 14 .| BIT 12 .| BIT 11 .| BIT 10 .| BIT 9 .| BIT 8 .| 0x001C.
Definition SYSErr : Z := 0x8000.
Definition PCSTimeout : Z := 0x4000.
Definition RxFIFOOver : Z := 0x0040.
Definition LinkChg : Z := 0x0020.
Definition RxDescUnavail : Z := 0x0010.
Definition TxOK : Z := 0x0004.
Definition RxOK : Z := 0x0001.
Definition _1000bpsL : Z := 0x80000.
Definition _10000bpsF : Z := 0x4000.
Definition _10000bpsL : Z := 0x2000.
Definition _5000bpsF : Z := 0x1000.
Definition _5000bpsL : Z := 0x800.
Definition _2500bpsF : Z := 0x400.
Definition _2500bpsL : Z := 0x200.
Definition _1000bpsF : Z := 0x10.
Definition _100bps : Z := 0x08.
Definition _10bps : Z := 0x04.
Definition FullDup : Z := 0x01.
Definition kNumTxDesc : Z := 1024.
Definition kNumRxDesc : Z := 1024.
Definition ETH_ZLEN : Z := 60.
Definition ETH_HLEN : Z := 14.
Definition VLAN_ETH_HLEN : Z := 18.
Definition ETH_FCS_LEN : Z := 4.
Definition ETH_DATA_LEN : Z := 1500.

(** PCI configuration space, reached through PCIDriverKit. *)
Class PciConfig (D : Type) := {
  extendedConfigRead8 : Z -> D -> Z * D;
  extendedConfigRead16 : Z -> D -> Z * D;
  extendedConfigRead32 : Z -> D -> Z * D;
  extendedConfigWrite8 : Z -> Z -> D -> D;
  extendedConfigWrite16 : Z -> Z -> D -> D;
}.

Record intrs := mkIntrs { intrMask : Z; intrMaskRxTx : Z; intrMaskTimer : Z; intrMaskPoll : Z }.

Record ringpos := mkRingpos {
  txTailPtr0 : Z; txClosePtr0 : Z; txNextDescIndex : Z; txDirtyDescIndex : Z; txNumFreeDesc : Z; rxNextDescIndex : Z;
}.

Record macs := mkMacs { currMacAddr : list Z; origMacAddr : list Z; fallBackMacAddr : list Z }.

(** class RTL8127Hw; [device] is the PCI device id. *)
Record hwst := mkHw {
  linuxData : tpvars;
  device : Z;
  mtu : Z;
  pcieCapOffset : Z;
  irq : intrs;
  statPhyAddr : Z;
  txPhyAddr : Z;
  rxPhyAddr : Z;
  rings : ringpos;
  filter : rxf;
  wolCapable : bool;
  hasSensor : bool;
  addrs : macs;
}.

Definition set_tp (t : tpvars) (h : hwst) : hwst :=
  mkHw t (device h) (mtu h) (pcieCapOffset h) (irq h) (statPhyAddr h) (txPhyAddr h) (rxPhyAddr h) (rings h) (filter h)
    (wolCapable h) (hasSensor h) (addrs h).
Definition set_mtu (m : Z) (h : hwst) : hwst :=
  mkHw (linuxData h) (device h) m (pcieCapOffset h) (irq h) (statPhyAddr h) (txPhyAddr h) (rxPhyAddr h) (rings h)
    (filter h) (wolCapable h) (hasSensor h) (addrs h).
Definition set_irq (i : intrs) (h : hwst) : hwst :=
  mkHw (linuxData h) (device h) (mtu h) (pcieCapOffset h) i (statPhyAddr h) (txPhyAddr h) (rxPhyAddr h) (rings h)
    (filter h) (wolCapable h) (hasSensor h) (addrs h).
Definition set_rings (r : ringpos) (h : hwst) : hwst :=
  mkHw (linuxData h) (device h) (mtu h) (pcieCapOffset h) (irq h) (statPhyAddr h) (txPhyAddr h) (rxPhyAddr h) r
    (filter h) (wolCapable h) (hasSensor h) (addrs h).
Definition set_filter (f : rxf) (h : hwst) : hwst :=
  mkHw (linuxData h) (device h) (mtu h) (pcieCapOffset h) (irq h) (statPhyAddr h) (txPhyAddr h) (rxPhyAddr h) (rings h)
    f (wolCapable h) (hasSensor h) (addrs h).
Definition set_caps (w s : bool) (h : hwst) : hwst :=
  mkHw (linuxData h) (device h) (mtu h) (pcieCapOffset h) (irq h) (statPhyAddr h) (txPhyAddr h) (rxPhyAddr h) (rings h)
    (filter h) w s (addrs h).
Definition set_addrs (a : macs) (h : hwst) : hwst :=
  mkHw (linuxData h) (device h) (mtu h) (pcieCapOffset h) (irq h) (statPhyAddr h) (txPhyAddr h) (rxPhyAddr h) (rings h)
    (filter h) (wolCapable h) (hasSensor h) a.

Definition set_intrMask (m : Z) (h : hwst) : hwst :=
  set_irq (mkIntrs m (intrMaskRxTx (irq h)) (intrMaskTimer (irq h)) (intrMaskPoll (irq h))) h.
Definition set_flags (f : Z) (h : hwst) : hwst := set_filter (mkRxf f (multicastFilter (filter h))) h.

(** ** Random bytes and the station address *)

(** One round of the xorshift generator over [gRandSeed]. *)
Definition xorshift (s : Z) : Z :=
  let s := s .^ u32 (Z.shiftl s 13) in
  let s := s .^ Z.shiftr s 17 in
  s .^ u32 (Z.shiftl s 5).

Fixpoint random_buf (len : nat) (seed : Z) : list Z * Z :=
  match len with
  | O => ([], seed)
  | S n => let seed := xorshift seed in let '(l, seed') := random_buf n seed in (u8 seed :: l, seed')
  end.

Definition is_multicast_ether_addr (a : list Z) : bool := has (nth 0 a 0) 1.
Definition is_zero_ether_addr (a : list Z) : bool := forallb (fun o => o =? 0) a.
Definition is_valid_ether_addr (a : list Z) : bool := negb (is_multicast_ether_addr a) && negb (is_zero_ether_addr a).

(** The bytes of a word in memory, least significant first. *)
Definition le_bytes (n : nat) (v : Z) : list Z := (fun k => u8 (Z.shiftr v (8 * Z.of_nat k))) <$> seq 0 n.

(** The choice of initMacAddr and the new seed. *)
Definition choose_mac (current fallback orig : list Z) (seed : Z) : list Z * Z :=
  if is_valid_ether_addr current then (current, seed)
  else if is_valid_ether_addr fallback then (fallback, seed)
  else if is_valid_ether_addr orig then (orig, seed)
  else
    let '(l, seed') := random_buf 6 seed in
    match l with b :: r => (((b .& 0xfe) .| 0x02) :: r, seed') | [] => (l, seed') end.

Section Code.
Context {D : Type} `{M : !Mmio D} `{Pc : !PciConfig D}.
Context (undef : Z).

Fixpoint read_bytes (n : nat) (a : Z) : prog D (list Z) :=
  match n with
  | O => ret []
  | S n' => do b <- RTL_R8 a; do r <- read_bytes n' (a + 1); ret (b :: r)
  end.

Definition initMacAddr (h : hwst) (seed : Z) : prog D (hwst * Z) :=
  do macAddr <- read_bytes 6 MAC0;
  do lo <- RTL_R32 BACKUP_ADDR0_8125;
  do hi <- RTL_R16 BACKUP_ADDR1_8125;
  let orig := le_bytes 4 lo ++ le_bytes 2 hi in
  let '(a, seed) := choose_mac macAddr (fallBackMacAddr (addrs h)) orig seed in
  rtl8125_rar_set a ;;;
  ret (set_addrs (mkMacs a orig (fallBackMacAddr (addrs h))) h, seed).

(** ** PCI Express *)

Definition cfg8 (a : Z) : prog D Z := fun d => let '(v, d') := extendedConfigRead8 a d in (u8 v, d').
Definition cfg16 (a : Z) : prog D Z := fun d => let '(v, d') := extendedConfigRead16 a d in (u16 v, d').
Definition cfg32 (a : Z) : prog D Z := fun d => let '(v, d') := extendedConfigRead32 a d in (u32 v, d').
Definition wcfg8 (a v : Z) : prog D unit := act (extendedConfigWrite8 a (u8 v)).
Definition wcfg16 (a v : Z) : prog D unit := act (extendedConfigWrite16 a (u16 v)).

Definition kIOPCIELinkCapability : Z := 0x0c.
Definition kIOPCIELinkCapASPMCompl : Z := 0x00400000.
Definition kIOPCIELinkCapL0sSup : Z := 0x00000400.
Definition kIOPCIELinkCapL1Sup : Z := 0x00000800.

Definition aspm_state (cap : Z) (allowL0s allowL1 : bool) : Z :=
  if has cap kIOPCIELinkCapASPMCompl then
    (if has cap kIOPCIELinkCapL0sSup && allowL0s then kIOPCILinkControlASPMBitsL0s else 0) .|
    (if has cap kIOPCIELinkCapL1Sup && allowL1 then kIOPCILinkControlASPMBitsL1 else 0)
  else 0.

Definition setupASPM (h : hwst) (allowL0s allowL1 : bool) : prog D unit :=
  let cap := pcieCapOffset h in
  if cap =? 0 then ret tt else
  do pcieLinkCap <- cfg32 (cap + kIOPCIELinkCapability);
  do lnkCtl <- cfg16 (cap + 0x10);
  wcfg16 (cap + 0x10) ((lnkCtl .&~ 3) .| (aspm_state pcieLinkCap allowL0s allowL1 .& 3)).

Definition rtl812xSetMrrs (setting : Z) : prog D unit :=
  do devctl <- cfg8 0x79; wcfg8 0x79 ((devctl .&~ 0x70) .| setting).

(** ** rtl812xHwInit *)

Definition rtl812xHwInit (tp : tpvars) : prog D tpvars :=
  let m := tp_mcfg tp in
  rtl8125_enable_aspm_clkreq_lock m false ;;;
  rtl8125_enable_force_clkreq false ;;;
  rtl8125_set_reg_oobs_en_sel m true ;;;
  (do v <- rtl8125_mac_ocp_read 0xD40A; rtl8125_mac_ocp_write 0xD40A (v .&~ BIT 4)) ;;;
  do st <- rtl8125_hw_mac_mcu_config (ctx tp) (mcu tp);
  let tp := set_mcu st tp in
  (match m with CFG_METHOD_2 | CFG_METHOD_3 | CFG_METHOD_6 => rtl8125_disable_ocp_phy_power_saving (ctx tp) | _ => ret tt end) ;;;
  hw_init_tail tp ;;; ret tp.

(** ** rtl812xHwConfig *)

Definition is_8127 (m : cfg) : bool := match m with CFG_METHOD_41 | CFG_METHOD_42 => true | _ => false end.
Definition is_8126 (m : cfg) : bool := match m with CFG_METHOD_31 | CFG_METHOD_32 | CFG_METHOD_33 => true | _ => false end.
(** CFG_METHOD_32, 33, 41 and 42. *)
Definition is_new (m : cfg) : bool :=
  match m with CFG_METHOD_32 | CFG_METHOD_33 | CFG_METHOD_41 | CFG_METHOD_42 => true | _ => false end.

(** [mac_ocp_data = read(a); data = (data & ~c) | s; write(a, data)] *)
Definition mac_update (a c s : Z) : prog D unit :=
  do v <- rtl8125_mac_ocp_read a; rtl8125_mac_ocp_write a ((v .&~ c) .| s).

(** The ring positions of a chip that starts over. *)
Definition rings_reset : ringpos := mkRingpos 0 0 0 0 kNumTxDesc 0.

(** Lines 641 to 710: reset, unlock, counters, ring addresses, transmit
    configuration and bus settings. *)
Definition hw_config_rings (h : hwst) : prog D unit :=
  let tp := linuxData h in
  let m := tp_mcfg tp in
  rtl8125_disable_rx_packet_filter ;;;
  rtl8125_nic_reset m ;;;
  set8 Cfg9346 Cfg9346_Unlock ;;;
  rtl8125_enable_force_clkreq false ;;;
  rtl8125_enable_aspm_clkreq_lock m false ;;;
  (if is_8125ab m then clr8 Config3 (BIT 1) else ret tt) ;;;
  RTL_W16 EEE_TXIDLE_TIMER_8125 (tx_lpi_timer (eee (tp_sw tp))) ;;;
  (do v <- rtl8125_mac_ocp_read 0xC0B6; rtl8125_mac_ocp_write 0xC0B6 (v .& BIT 0)) ;;;
  RTL_W32 CounterAddrHigh (Z.shiftr (statPhyAddr h) 32) ;;;
  RTL_W32 CounterAddrLow (statPhyAddr h .& 0xffffffff) ;;;
  rtl8125_set_mac_ocp_bit 0xEA84 (BIT 1 .| BIT 0) ;;;
  RTL_W32 TxDescStartAddrLow (txPhyAddr h .& 0xffffffff) ;;;
  RTL_W32 TxDescStartAddrHigh (Z.shiftr (txPhyAddr h) 32) ;;;
  RTL_W32 RxDescAddrLow (rxPhyAddr h .& 0xffffffff) ;;;
  RTL_W32 RxDescAddrHigh (Z.shiftr (rxPhyAddr h) 32) ;;;
  RTL_W32 TxConfig (Z.shiftl TX_DMA_BURST_unlimited TxDMAShift .| Z.shiftl InterFrameGap TxInterFrameGapShift) ;;;
  (do v <- RTL_R32 TxConfig; RTL_W32 TxConfig (v .| BIT 6)) ;;;
  rtl8125_set_l1_l0s_entry_latency tp ;;;
  rtl812xSetMrrs 0x50 ;;;
  (if is_8127 m then rtl8126_disable_l1_timeout tp else ret tt).

(** The transmit arbitration field of E614. *)
Definition e614_bits (m : cfg) : Z * Z :=
  if is_8127 m then (BIT 11 .| BIT 10 .| BIT 9 .| BIT 8, Z.shiftl 15 8)
  else if is_8126 m then (BIT 10 .| BIT 9 .| BIT 8, 0x0400)
  else match m with
       | CFG_METHOD_4 | CFG_METHOD_5 => (BIT 10 .| BIT 9 .| BIT 8, 0x0200)
       | _ => (BIT 10 .| BIT 9 .| BIT 8, 0x0300)
       end.

(** Lines 712 to 812: queues, descriptor format (USE_NEW_TX_DESC is defined)
    and the MAC microcontroller. *)
Definition hw_config_queues (tp : tpvars) : prog D unit :=
  let m := tp_mcfg tp in
  (if (Tcam (tp_sw tp)).1.1.1.1 =? 1 then RTL_W16 0x382 0x221B else ret tt) ;;;
  RTL_W8 RSS_CTRL_8125 0 ;;;
  RTL_W16 Q_NUM_CTRL_8125 0 ;;;
  clr8 Config1 0x10 ;;;
  rtl8125_mac_ocp_write 0xC140 0xFFFF ;;;
  rtl8125_mac_ocp_write 0xC142 0xFFFF ;;;
  mac_update 0xEB58 (if is_new m then BIT 0 .| BIT 1 else BIT 0) (BIT 0) ;;;
  (if is_8127 m then set8 0x20E4 (BIT 2) else ret tt) ;;;
  (match m with
   | CFG_METHOD_42 => ClearMcuAccessRegBit 0xE00C (BIT 12) ;;; ClearMcuAccessRegBit 0xC0C2 (BIT 6)
   | _ => ret tt
   end) ;;;
  mac_update 0xE614 (e614_bits m).1 (e614_bits m).2 ;;;
  mac_update 0xE63E (BIT 11 .| BIT 10) 0 ;;;
  mac_update 0xE63E (BIT 5 .| BIT 4)
    (match m with CFG_METHOD_2 | CFG_METHOD_3 | CFG_METHOD_41 | CFG_METHOD_42 => Z.shiftl (0x02 .& 0x03) 4 | _ => 0 end) ;;;
  (do v <- rtl8125_mac_ocp_read 0xC0B4;
   let v := v .&~ BIT 0 in
   rtl8125_mac_ocp_write 0xC0B4 v ;;; rtl8125_mac_ocp_write 0xC0B4 (v .| BIT 0)) ;;;
  mac_update 0xC0B4 0 (BIT 3 .| BIT 2) ;;;
  mac_update 0xEB6A 0xFF (BIT 5 .| BIT 4 .| BIT 1 .| BIT 0) ;;;
  mac_update 0xEB50 (BIT 9 .| BIT 8 .| BIT 7 .| BIT 6 .| BIT 5) (BIT 6) ;;;
  mac_update 0xE056 (BIT 7 .| BIT 6 .| BIT 5 .| BIT 4) (if is_8127 m then 0 else BIT 4 .| BIT 5).

(** Lines 814 to 893. *)
Definition hw_config_mac (tp : tpvars) : prog D unit :=
  let m := tp_mcfg tp in
  RTL_W8 TDFNR 0x10 ;;;
  set8 0xD0 (BIT 7) ;;;
  mac_update 0xE040 (BIT 12) 0 ;;;
  mac_update 0xEA1C (BIT 1 .| BIT 0) (BIT 0) ;;;
  (if is_8127 m then
     rtl8125_mac_ocp_write 0xE0C0 0x4000 ;;;
     SetMcuAccessRegBit 0xE052 (BIT 6 .| BIT 5) ;;; ClearMcuAccessRegBit 0xE052 (BIT 3 .| BIT 7)
   else
     mac_update 0xE0C0 (BIT 14 .| BIT 11 .| BIT 10 .| BIT 9 .| BIT 8 .| BIT 3 .| BIT 2 .| BIT 1 .| BIT 0)
       (BIT 14 .| BIT 10 .| BIT 1 .| BIT 0) ;;;
     SetMcuAccessRegBit 0xE052 (BIT 6 .| BIT 5 .| BIT 3) ;;; ClearMcuAccessRegBit 0xE052 (BIT 7)) ;;;
  mac_update 0xD430 0xFFF (if is_8127 m then 0x45F else 0x47F) ;;;
  set8 0xD0 (BIT 6 .| BIT 7) ;;;
  (match m with CFG_METHOD_2 | CFG_METHOD_3 => set8 0xD3 (BIT 0) | _ => ret tt end) ;;;
  rtl8125_disable_eee_plus m ;;;
  mac_update 0xEA1C (if is_new m then BIT 2 .| (BIT 9 .| BIT 8) else BIT 2) 0 ;;;
  (if HwSuppRxDescType (tp_sw tp) =? 4 then clr8 0xd8 EnableRxDescV4_0 else ret tt) ;;;
  (if 0 <? (Tcam (tp_sw tp)).1.1.1.1 then
     SetMcuAccessRegBit 0xEB54 (BIT 0) ;;; delay_us 1 ;;; ClearMcuAccessRegBit 0xEB54 (BIT 0)
   else ret tt) ;;;
  (do v <- RTL_R16 0x1880; RTL_W16 0x1880 (v .&~ (BIT 4 .| BIT 5))) ;;;
  (if is_8127 m then mac_update 0xD40C 0xE038 0x8020 else ret tt) ;;;
  rtl8125_hw_clear_timer_int ;;;
  rtl8125_hw_clear_int_miti (HwSuppIntMitiVer (tp_sw tp)) ;;;
  rtl8125_enable_exit_l1_mask ;;;
  rtl8125_mac_ocp_write 0xE098 0xC302.

(** [for (timeout = 0; timeout < n; timeout++) { if (idle) break; mdelay(1); }] *)
Fixpoint wait_e00e (n : nat) : prog D unit :=
  match n with
  | O => ret tt
  | S n' => do v <- rtl8125_mac_ocp_read 0xE00E; if has v (BIT 13) then delay_us 1000 ;;; wait_e00e n' else ret tt
  end.

(** Lines 895 to 952. *)
Definition hw_config_tail (h : hwst) (tp : tpvars) : prog D unit :=
  let m := tp_mcfg tp in
  let l1 := has (aspm tp) kIOPCILinkControlASPMBitsL1 in
  (if l1 && has (org_pci_offset_99 (tp_sw tp)) (BIT 2 .| BIT 5 .| BIT 6)
   then rtl8125_init_pci_offset_99 (ctx tp) else rtl8125_disable_pci_offset_99 (tp_chan tp)) ;;;
  (if l1 && has (org_pci_offset_180 (tp_sw tp)) (rtl8125_get_l1off_cap_bits m)
   then rtl8125_init_pci_offset_180 else rtl8125_disable_pci_offset_180) ;;;
  (if RequiredPfmPatch (tp_sw tp) then rtl8125_set_pfm_patch (ctx tp) false else ret tt) ;;;
  RTL_W16 CPlusCmd (cp_cmd tp) ;;;
  wait_e00e 10 ;;;
  rtl8125_set_rms m (rms tp) ;;;
  rtl8125_disable_rxdvgate ;;;
  applyRxMode (tid (ctx tp)) (filter h) ;;;
  rtl8125_set_radm_fifo_prot m true ;;;
  rtl8125_enable_aspm_clkreq_lock m l1 ;;;
  clr8 Cfg9346 Cfg9346_Unlock ;;;
  RTL_W32 IMR0_8125 (intrMask (irq h)) ;;;
  delay_us 10.

Definition rtl812xHwConfig (h : hwst) : prog D hwst :=
  hw_config_rings h ;;;
  let h := set_rings rings_reset h in
  hw_config_queues (linuxData h) ;;;
  hw_config_mac (linuxData h) ;;;
  let tp := set_cp_cmd (cp_cmd (linuxData h) .&~ cp_cmd_clear) (linuxData h) in
  let h := set_tp tp h in
  hw_config_tail h tp ;;; ret h.

(** ** rtl812xSetPhyMedium *)

Definition giga_modes : Z := ADVERTISE_1000HALF .| ADVERTISE_1000FULL.
Definition multi_modes : Z := RTK_ADVERTISE_2500FULL .| RTK_ADVERTISE_5000FULL .| RTK_ADVERTISE_10000FULL.
Definition base_modes : Z :=
  ADVERTISE_10HALF .| ADVERTISE_10FULL .| ADVERTISE_100HALF .| ADVERTISE_100FULL .| ADVERTISE_PAUSE_CAP .| ADVERTISE_PAUSE_ASYM.

Definition bit_if (b : bool) (m : Z) : Z := if b then m else 0.

(** The advertised modes as register bits. *)
Definition adv_10_100 (adv : Z) (fc_full : bool) : Z :=
  bit_if (has adv ADVERTISED_10baseT_Half) ADVERTISE_10HALF .| bit_if (has adv ADVERTISED_10baseT_Full) ADVERTISE_10FULL .|
  bit_if (has adv ADVERTISED_100baseT_Half) ADVERTISE_100HALF .| bit_if (has adv ADVERTISED_100baseT_Full) ADVERTISE_100FULL .|
  bit_if fc_full (ADVERTISE_PAUSE_CAP .| ADVERTISE_PAUSE_ASYM).
Definition adv_1000 (adv : Z) : Z :=
  bit_if (has adv ADVERTISED_1000baseT_Half) ADVERTISE_1000HALF .| bit_if (has adv ADVERTISED_1000baseT_Full) ADVERTISE_1000FULL.
Definition adv_multi (max adv : Z) : Z :=
  bit_if (has adv ADVERTISED_2500baseX_Full) RTK_ADVERTISE_2500FULL .|
  bit_if ((5000 <=? max) && has adv RTK_ADVERTISED_5000baseX_Full) RTK_ADVERTISE_5000FULL .|
  bit_if ((10000 <=? max) && has adv ADVERTISED_10000baseT_Full) RTK_ADVERTISE_10000FULL.

(** An unknown speed stands for the fastest one. *)
Definition medium_speed (max speed : Z) : Z :=
  if rtl8125_is_speed_mode_valid speed then speed
  else if 10000 <=? max then SPEED_10000 else if 5000 <=? max then SPEED_5000 else if 2500 <=? max then SPEED_2500 else SPEED_1000.

(** The link options stored at the end. *)
Definition store_link (an sp du adv : Z) (tp : tpvars) : tpvars :=
  rtl8125_set_d0_speedup_speed
    (set_sw (sw_set_link (mkLink an sp du adv (fcpause (link (tp_sw tp)))) (tp_sw tp)) tp).

(** The copper branch with auto-negotiation. *)
Definition advertise (tp : tpvars) (giga_ctrl ctrl_2500 adv : Z) : prog D tpvars :=
  let c := tp_chan tp in
  do a <- rtl8125_mdio_read c (cur_page tp) MII_ADVERTISE;
  let auto_nego := (s32 a .&~ base_modes) .| adv_10_100 adv (is_fc_full (link (tp_sw tp))) in
  let giga_ctrl := giga_ctrl .| adv_1000 adv in
  let ctrl_2500 := ctrl_2500 .| adv_multi (HwSuppMaxPhyLinkSpeed (tp_sw tp)) adv in
  do page <- rtl8125_mdio_write (cur_page tp) 0x1f 0;
  do page <- rtl8125_mdio_write page MII_ADVERTISE (u16 auto_nego);
  do page <- rtl8125_mdio_write page MII_CTRL1000 (u16 giga_ctrl);
  mdio_direct_write_phy_ocp c 0xA5D4 (u16 ctrl_2500) ;;;
  do page <- rtl8125_phy_restart_nway page;
  ret (set_page page (set_adv_regs auto_nego giga_ctrl ctrl_2500 tp)).

Definition rtl812xSetPhyMedium (tp : tpvars) (an sp du adv : Z) : prog D tpvars :=
  let max := HwSuppMaxPhyLinkSpeed (tp_sw tp) in
  let known := rtl8125_is_speed_mode_valid sp in
  let sp := medium_speed max sp in
  let du := if known then du else DUPLEX_FULL in
  let adv := if known then adv else adv .| advertising (link (tp_sw tp)) in
  (if eee_enabled (eee (tp_sw tp)) && (an =? AUTONEG_ENABLE) && negb (HW_FIBER_MODE_ENABLED tp)
   then enable_eee undef tp else rtl8125_disable_eee (ctx tp)) ;;;
  rtl8125_disable_giga_lite (ctx tp) ;;;
  if HW_FIBER_MODE_ENABLED tp then
    let tp := store_link an (if sp =? SPEED_1000 then sp else SPEED_10000) DUPLEX_FULL adv tp in
    rtl8127_hw_fiber_phy_config tp ;;; ret tp
  else
    do g <- rtl8125_mdio_read (tp_chan tp) (cur_page tp) MII_CTRL1000;
    do x <- mdio_direct_read_phy_ocp 0xA5D4;
    let giga_ctrl := s32 g .&~ giga_modes in
    let ctrl_2500 := x .&~ multi_modes in
    if an =? AUTONEG_ENABLE then
      do tp <- advertise tp giga_ctrl ctrl_2500 adv;
      ret (store_link an sp du adv tp)
    else if (sp =? SPEED_10) || (sp =? SPEED_100) then
      do page <- rtl8125_phy_setup_force_mode (cur_page tp) sp du;
      ret (store_link an sp du adv (set_page page tp))
    else ret tp.

(** The medium as last stored. *)
Definition set_stored_medium (tp : tpvars) : prog D tpvars :=
  let l := link (tp_sw tp) in rtl812xSetPhyMedium tp (autoneg l) (speed l) (duplex l) (advertising l).

(** ** Link changes *)

Definition has_eee_plus_up (m : cfg) : bool :=
  match m with CFG_METHOD_10 | CFG_METHOD_11 | CFG_METHOD_13 | CFG_METHOD_DEFAULT => false | _ => true end.
Definition has_eee_plus_down (m : cfg) : bool := has_eee_plus_up m && negb (is_8126 m).

Definition rtl812xLinkOnPatch (h : hwst) : prog D hwst :=
  do h <- rtl812xHwConfig h;
  let tp := linuxData h in
  let m := tp_mcfg tp in
  do status <- RTL_R32 PHYstatus;
  (match m with
   | CFG_METHOD_2 =>
       do v <- RTL_R32 TxConfig;
       RTL_W32 TxConfig (if has status FullDup then (v .| (BIT 24 .| BIT 25)) .&~ BIT 19
                         else (v .| BIT 25) .&~ (BIT 19 .| BIT 24))
   | _ => ret tt
   end) ;;;
  (if has_eee_plus_up m && has status _10bps then rtl8125_enable_eee_plus m ;;; ret tt else ret tt) ;;;
  rtl8125_set_radm_fifo_prot m (has status (_1000bpsL .| _2500bpsL .| _10bps .| _100bps .| _1000bpsF)) ;;;
  (if RequiredPfmPatch (tp_sw tp) then rtl8125_set_pfm_patch (ctx tp) (has status _10bps) else ret tt) ;;;
  do aner <- rtl8125_mdio_read (tp_chan tp) (cur_page tp) MII_EXPANSION;
  do anlpar <- rtl8125_mdio_read (tp_chan tp) (cur_page tp) MII_LPA;
  do gbsr <- rtl8125_mdio_read (tp_chan tp) (cur_page tp) MII_STAT1000;
  do st2500 <- mdio_direct_read_phy_ocp 0xA5D6;
  ret (set_tp (set_partner (mkWolSt (u16 aner) (u16 anlpar) (u16 gbsr) (u16 st2500)) tp) h).

Definition rtl812xLinkDownPatch (tp : tpvars) : prog D tpvars :=
  let m := tp_mcfg tp in
  (if has_eee_plus_down m then rtl8125_disable_eee_plus m ;;; ret tt else ret tt) ;;;
  (if RequiredPfmPatch (tp_sw tp) then rtl8125_set_pfm_patch (ctx tp) true else ret tt) ;;;
  rtl8125_hw_reset m ;;;
  ret (set_partner (mkWolSt 0 0 0 0) tp).

(** The negotiated EEE state: enabled and active. *)
Definition rtl812xGetEEEMode (tp : tpvars) : prog D (bool * bool) :=
  do val <- mdio_direct_read_phy_ocp 0xA5D0;
  let adv := mmd_eee_adv_to_ethtool_adv_t (u16 val) in
  do val <- mdio_direct_read_phy_ocp 0xA6D4;
  let adv := if has val (BIT 0) then adv .| ADVERTISED_2500baseX_Full else adv in
  do val <- mdio_direct_read_phy_ocp 0xA5D2;
  let lp := mmd_eee_adv_to_ethtool_adv_t (u16 val) in
  do val <- mdio_direct_read_phy_ocp 0xA6D0;
  let lp := if has val (BIT 0) then lp .| ADVERTISED_2500baseX_Full else lp in
  do val <- rtl8125_mac_ocp_read 0xE040;
  ret (has val (BIT 1 .| BIT 0), negb (u32 (default undef (supported (eee (tp_sw tp)))) .& (adv .& lp) =? 0)).

(** ** Set-up and the enable and disable sequences *)

Definition has_sensor (m : cfg) : bool :=
  match m with
  | CFG_METHOD_2 | CFG_METHOD_3 | CFG_METHOD_6 | CFG_METHOD_41 | CFG_METHOD_42 | CFG_METHOD_DEFAULT => false
  | _ => true
  end.

(** The EEE block of rtl812xInit: the modes are set up, then EEE is turned off. *)
Definition init_eee_off (m : cfg) (max : Z) (e : keee) : keee :=
  if bool_decide (m = CFG_METHOD_DEFAULT) then e else
  let sup := linkmode_set_bit ETHTOOL_LINK_MODE_1000baseT_Full_BIT
               (linkmode_set_bit ETHTOOL_LINK_MODE_100baseT_Full_BIT (supported e)) in
  let adv := linkmode_set_bit ETHTOOL_LINK_MODE_1000baseT_Full_BIT
               (linkmode_set_bit ETHTOOL_LINK_MODE_100baseT_Full_BIT (advertised e)) in
  let new := cfg_num CFG_METHOD_3 <? cfg_num m in
  let with_bit b n x := if new && (b <=? max) then linkmode_set_bit n x else x in
  let sup := with_bit 5000 ETHTOOL_LINK_MODE_5000baseT_Full_BIT (with_bit 2500 ETHTOOL_LINK_MODE_2500baseT_Full_BIT sup) in
  let adv := with_bit 5000 ETHTOOL_LINK_MODE_5000baseT_Full_BIT (with_bit 2500 ETHTOOL_LINK_MODE_2500baseT_Full_BIT adv) in
  mkEee false sup adv false (ETH_DATA_LEN + ETH_HLEN + 0x20).

Definition intr_masks : intrs :=
  let rxtx := SYSErr .| LinkChg .| RxDescUnavail .| TxOK .| RxOK in
  mkIntrs rxtx rxtx (SYSErr .| LinkChg .| RxDescUnavail .| PCSTimeout .| RxOK) (SYSErr .| LinkChg).

(** The variables of rtl812xInit, once the chip is known: [s] are the software
    variables and [opts] the wake-up options read from the chip. *)
Definition init_vars (h : hwst) (tp : tpvars) (s : swvars) (opts : Z) : hwst :=
  let m := tp_mcfg tp in
  let lpi := mtu h + ETH_HLEN + 0x20 in
  let e := eee s in
  let e := mkEee (eee_enabled e) (supported e) (advertised e) (tx_lpi_enabled e) lpi in
  let l := rtl8125_set_link_option (HwSuppMaxPhyLinkSpeed s) AUTONEG_ENABLE (HwSuppMaxPhyLinkSpeed s) DUPLEX_FULL rtl8125_fc_none in
  let s := sw_set_eee (init_eee_off m (HwSuppMaxPhyLinkSpeed s) e) (sw_set_link l (sw_set_wol opts (negb (opts =? 0)) s)) in
  set_caps (negb (opts =? 0)) (has_sensor m)
    (set_tp (set_rms (u16 (mtu h + VLAN_ETH_HLEN + ETH_FCS_LEN)) (set_sw s tp)) h).

(** [false]: unknown chip. [seed] is the state of the random generator. *)
Definition rtl812xInit (h : hwst) (seed : Z) : prog D (bool * hwst * Z) :=
  let tp := linuxData h in
  do r <- rtl812xIdentifyChip (device h) (chipset (tid (ctx tp)));
  let '(id, ok) := r in
  let tp := set_ctx (mkTp id (sw (ctx tp)) (diag (ctx tp))) tp in
  if negb ok then ret (false, set_tp tp h, seed) else
  do tp <- rtl8125_get_bios_setting tp;
  do safe <- rtl8125_aspm_is_safe;
  let tp := if safe : bool then tp else set_aspm (aspm tp .&~ kIOPCILinkControlASPMBitsL1) tp in
  let l1 := has (aspm tp) kIOPCILinkControlASPMBitsL1 in
  setupASPM h (has (aspm tp) kIOPCILinkControlASPMBitsL0s) l1 ;;;
  do s <- rtl8125_init_software_variable (diag (ctx tp)) l1 id (sw (ctx tp));
  do opts <- rtl8125_get_hw_wol (HwSuppMagicPktVer s);
  let h := init_vars h tp s opts in
  rtl8125_exit_oob (linuxData h) ;;;
  do tp <- rtl812xHwInit (linuxData h);
  rtl8125_nic_reset (tp_mcfg tp) ;;;
  do e <- rtl8125_eeprom_type (negb (bool_decide (tp_mcfg tp = CFG_METHOD_DEFAULT)));
  (match e.1 with EEPROM_TYPE_93C46 | EEPROM_TYPE_93C56 => rtl8125_set_eeprom_sel_low | EEPROM_TYPE_NONE => ret tt end) ;;;
  do r <- initMacAddr (set_tp (set_eeprom e tp) h) seed;
  let '(h, seed) := r in
  do v <- RTL_R16 CPlusCmd;
  let id := mkId (mcfg id) (chipset id) (HwIcVerUnknown id) (RCR_Cfg (info (chipset id))) in
  let tp := linuxData h in
  let tp := set_ctx (mkTp id (sw (ctx tp)) (diag (ctx tp))) (set_cp_cmd (v .| RxChkSum) tp) in
  let h := set_tp tp (set_irq intr_masks h) in
  RTL_W32 CounterAddrHigh (Z.shiftr (statPhyAddr h) 32) ;;;
  RTL_W32 CounterAddrLow (statPhyAddr h .& 0xffffffff .| CounterReset) ;;;
  rtl8125_disable_rxdvgate ;;;
  ret (true, h, seed).

Definition rtl812xEnable (h : hwst) : prog D hwst :=
  let h := set_flags (clear_bit __POLL_MODE (stateFlags (filter h))) (set_intrMask (intrMaskRxTx (irq h)) h) in
  rtl8125_exit_oob (linuxData h) ;;;
  do tp <- rtl812xHwInit (linuxData h);
  rtl8125_hw_reset (tp_mcfg tp) ;;;
  do tp <- rtl8125_powerup_pll tp;
  rtl8125_hw_ephy_config (tp_mcfg tp) ;;;
  do tp <- rtl8125_hw_phy_config undef tp;
  do h <- rtl812xHwConfig (set_tp tp h);
  do tp <- set_stored_medium (linuxData h);
  ret (set_tp tp h).

Definition rtl812xDisable (h : hwst) : prog D hwst :=
  let tp := linuxData h in
  rtl8127DextSdsPhyReset tp ;;;
  rtl8125_irq_mask_and_ack ;;;
  rtl8125_hw_reset (tp_mcfg tp) ;;;
  rtl8125_hw_d3_para tp ;;;
  do tp <- rtl8125_powerdown_pll tp;
  (if HW_DASH_SUPPORT_DASH tp then rtl8125_driver_stop tp else ret tt) ;;;
  ret (set_flags (clear_bit __LINK_UP (stateFlags (filter h))) (set_tp tp h)).
End Code.
