(* ===== verification/Driver.v ===== *)
(** The DriverKit driver around the hardware layer (RTL8127Driver.cpp): the parts
    of Start that find the chip and describe it, the interface requests, the
    link state machine (updateLinkStatus), the interrupt handler and the
    statistics timer. The rings of [TxRing] and [RxRing] and the hardware layer
    of [BringUp] are composed here: they share the ring positions of class
    RTL8127Hw. *)
From S2P Require Import Prelude Fifo Frame TxRing RxRing.
From S2P Require Import Mmio Channel Chip SwVars Eeprom Hw Mcu Power Fiber PhyConfig RxFilter BringUp.
Local Open Scope prog_scope.

(** ** Media words *)

(** The media of IOUserNetworkMedia the driver names; any other word is
    [EthernetOther]. *)
Inductive medium :=
| EthernetAuto | Ethernet10GBaseSR | Ethernet10GBaseT | Ethernet5000BaseT | Ethernet2500BaseT
| Ethernet1000BaseSX | Ethernet1000BaseT | Ethernet100BaseTX | Ethernet10BaseT | EthernetOther (w : Z).
Inductive duplex_option := NoOption | OptionFullDuplex | OptionHalfDuplex.
Record MediaWord := mkMedia { base : medium; dopt : duplex_option }.

#[export] Instance medium_eq_dec : EqDecision medium.
Proof. solve_decision. Defined.
#[export] Instance duplex_option_eq_dec : EqDecision duplex_option.
Proof. solve_decision. Defined.
#[export] Instance MediaWord_eq_dec : EqDecision MediaWord.
Proof. solve_decision. Defined.

Definition plain (m : medium) : MediaWord := mkMedia m NoOption.

(** The media list of Start. *)
Definition media_list (fiber : bool) (maxSpeed : Z) : list MediaWord :=
  plain EthernetAuto ::
  if fiber then [plain Ethernet10GBaseSR; plain Ethernet1000BaseSX]
  else
    (if SPEED_10000 <=? maxSpeed then [plain Ethernet10GBaseT] else []) ++
    (if SPEED_5000 <=? maxSpeed then [plain Ethernet5000BaseT] else []) ++
    (if SPEED_2500 <=? maxSpeed then [plain Ethernet2500BaseT] else []) ++
    [plain Ethernet1000BaseT; plain Ethernet100BaseTX; plain Ethernet10BaseT].

Definition getInitialMedia : MediaWord := plain EthernetAuto.

(** The speed handleChosenMedia derives from the word. *)
Definition chosen_speed (m : MediaWord) : Z :=
  match dopt m with
  | NoOption =>
      match base m with
      | Ethernet10GBaseSR | Ethernet10GBaseT => SPEED_10000
      | Ethernet1000BaseSX | Ethernet1000BaseT => SPEED_1000
      | Ethernet5000BaseT => SPEED_5000
      | Ethernet2500BaseT => SPEED_2500
      | _ => SPEED_10000
      end
  | _ => SPEED_10000
  end.

Definition link_reported (status : Z) : bool := negb (status =? 0xffffffff) && has status LinkStatus.

(** The medium updateLinkStatus reports for a PHYstatus word. *)
Definition link_media (fiber : bool) (status : Z) : MediaWord :=
  mkMedia
    (if has status _10000bpsF then if fiber then Ethernet10GBaseSR else Ethernet10GBaseT
     else if has status (_5000bpsF .| _10000bpsL) then Ethernet5000BaseT
     else if has status (_2500bpsF .| _5000bpsL) then Ethernet2500BaseT
     else if has status (_1000bpsF .| _2500bpsL .| _1000bpsL) then if fiber then Ethernet1000BaseSX else Ethernet1000BaseT
     else if has status _100bps then Ethernet100BaseTX
     else Ethernet10BaseT)
    (if has status FullDup then OptionFullDuplex else OptionHalfDuplex).

(** ** State *)

Record isrcounts := mkIsr { isrCount : Z; isrRx : Z; isrTx : Z; isrTimer : Z; isrLink : Z; lastIsrStatus : Z }.
Record stallst := mkStall { rxStallIsrSample : Z; rxStallDeliveredSample : Z; rxStallRecoveries : Z; linkGlitches : Z }.

(** Calls into the framework that are not packets. *)
Inductive call :=
| CallReportLinkStatus (active : bool) (m : MediaWord)
| CallRequestRxDequeue
| CallEnableQueues (enable : bool)
| CallPurgeTx.

(** RTL8127Driver_IVars. [linkUp], [mtu] and [tsoEnabled] are in the
    configuration of the transmit state, as the data path reads them there; the
    ring positions of [nic] are those of [tx] and [rx]. *)
Record driver {Q : Type -> Type} := mkDrv {
  nic : hwst;
  tx : txstate Q;
  rx : rxstate Q;
  interfaceEnabled : bool;
  fiberMode : bool;
  mediaArray : list MediaWord;
  currentMedia : MediaWord;
  isr : isrcounts;
  stall : stallst;
  tallyPending : bool;
  calls : list call;
}.
Arguments driver : clear implicits.

Section State.
Context {Q : Type -> Type}.
Implicit Types s : driver Q.

Definition set_nic (h : hwst) s : driver Q :=
  mkDrv Q h (tx s) (rx s) (interfaceEnabled s) (fiberMode s) (mediaArray s) (currentMedia s) (isr s) (stall s)
    (tallyPending s) (calls s).
Definition set_tx (t : txstate Q) s : driver Q :=
  mkDrv Q (nic s) t (rx s) (interfaceEnabled s) (fiberMode s) (mediaArray s) (currentMedia s) (isr s) (stall s)
    (tallyPending s) (calls s).
Definition set_rx (r : rxstate Q) s : driver Q :=
  mkDrv Q (nic s) (tx s) r (interfaceEnabled s) (fiberMode s) (mediaArray s) (currentMedia s) (isr s) (stall s)
    (tallyPending s) (calls s).
Definition set_enabled (b : bool) s : driver Q :=
  mkDrv Q (nic s) (tx s) (rx s) b (fiberMode s) (mediaArray s) (currentMedia s) (isr s) (stall s)
    (tallyPending s) (calls s).
Definition set_media (m : MediaWord) s : driver Q :=
  mkDrv Q (nic s) (tx s) (rx s) (interfaceEnabled s) (fiberMode s) (mediaArray s) m (isr s) (stall s)
    (tallyPending s) (calls s).
Definition set_isr (i : isrcounts) s : driver Q :=
  mkDrv Q (nic s) (tx s) (rx s) (interfaceEnabled s) (fiberMode s) (mediaArray s) (currentMedia s) i (stall s)
    (tallyPending s) (calls s).
Definition set_stall (x : stallst) s : driver Q :=
  mkDrv Q (nic s) (tx s) (rx s) (interfaceEnabled s) (fiberMode s) (mediaArray s) (currentMedia s) (isr s) x
    (tallyPending s) (calls s).
Definition set_tally (b : bool) s : driver Q :=
  mkDrv Q (nic s) (tx s) (rx s) (interfaceEnabled s) (fiberMode s) (mediaArray s) (currentMedia s) (isr s) (stall s)
    b (calls s).
Definition add_call (c : call) s : driver Q :=
  mkDrv Q (nic s) (tx s) (rx s) (interfaceEnabled s) (fiberMode s) (mediaArray s) (currentMedia s) (isr s) (stall s)
    (tallyPending s) (calls s ++ [c]).

Definition with_cfg (c : txcfg) (t : txstate Q) : txstate Q :=
  mkTx Q c (TxRing.hw t) (sl t) (txDoneFifo t) (ram t) (status t) (cnt t) (events t) (accepted t) (returned t) (freed t).

Definition linkUp_of s : bool := linkUp (TxRing.cfg (tx s)).
Definition mtu_of s : Z := TxRing.mtu (TxRing.cfg (tx s)).
Definition tso_of s : bool := tsoEnabled (TxRing.cfg (tx s)).

Definition set_linkUp (b : bool) s : driver Q :=
  let c := TxRing.cfg (tx s) in
  set_tx (with_cfg (mkCfg b (tsoEnabled c) (TxRing.mtu c) (MaxTxDescPtrMask c)) (tx s)) s.
Definition set_ivar_mtu (m : Z) s : driver Q :=
  let c := TxRing.cfg (tx s) in
  set_tx (with_cfg (mkCfg (linkUp c) (tsoEnabled c) m (MaxTxDescPtrMask c)) (tx s)) s.
Definition set_tso (b : bool) s : driver Q :=
  let c := TxRing.cfg (tx s) in
  set_tx (with_cfg (mkCfg (linkUp c) b (TxRing.mtu c) (MaxTxDescPtrMask c)) (tx s)) s.

(** The ring positions, as the hardware layer sees them. *)
Definition positions (t : txstate Q) (r : rxstate Q) : ringpos :=
  let h := TxRing.hw t in
  mkRingpos (TxRing.txTailPtr0 h) (TxRing.txClosePtr0 h) (TxRing.txNextDescIndex h) (TxRing.txDirtyDescIndex h)
    (TxRing.txNumFreeDesc h) (RxRing.rxNextDescIndex r).

(** The state after the hardware layer has left [h]. *)
Definition load_nic (h : hwst) s : driver Q :=
  let p := rings h in
  let c := TxRing.cfg (tx s) in
  let t := with_cfg (mkCfg (linkUp c) (tsoEnabled c) (TxRing.mtu c) (s_MaxTxDescPtrMask (tp_sw (linuxData h))))
             (with_hw (tx s) (TxRing.mkHw (BringUp.txTailPtr0 p) (BringUp.txClosePtr0 p) (BringUp.txNextDescIndex p)
                                (BringUp.txDirtyDescIndex p) (BringUp.txNumFreeDesc p))) in
  set_rx (setNext (rx s) (BringUp.rxNextDescIndex p)) (set_tx t (set_nic h s)).

Definition set_link_flag (b : bool) s : driver Q :=
  let h := nic s in set_nic (set_flags ((if b then set_bit else clear_bit) __LINK_UP (stateFlags (BringUp.filter h))) h) s.
Definition set_drv_intrMask (m : Z) s : driver Q := set_nic (set_intrMask m (nic s)) s.

(** [requestDequeue] on the four transmit queues. *)
Definition request_tx s : driver Q := set_tx (foldl (fun t q => with_event t (EvRequestDequeue q)) (tx s) [0; 1; 2; 3]) s.

(** The counters of InterruptOccurred. *)
Definition count_isr (status : Z) (i : isrcounts) : isrcounts :=
  let inc (m c : Z) := if has status m then u64 (c + 1) else c in
  mkIsr (u64 (isrCount i + 1)) (inc (RxOK .| RxDescUnavail) (isrRx i)) (inc TxOK (isrTx i))
    (inc PCSTimeout (isrTimer i)) (inc LinkChg (isrLink i)) status.
End State.

(** ** Constants of the data path and the framework *)
Definition kMaxMtu : Z := 9000.
Definition kTxBufferSize : Z := 32768.
Definition kTsoMaxPacket : Z := kTxBufferSize - 256.

(** The assist bits of NetworkingDriverKit. *)
Record assist_bits := mkAssists { aTxIP : Z; aTxTCP : Z; aTxUDP : Z; aRx : Z; aTSO4 : Z; aTSO6 : Z }.

(** The first probe of a BAR (MemoryRead32 of PCIDriverKit). *)
Class PciBars (D : Type) := { MemoryRead32 : Z -> Z -> D -> Z * D }.

Section Code.
Context {Q : Type -> Type} `{BQ : !BoundedQueue Q}.
Context {D : Type} `{M : !Mmio D} `{Pc : !PciConfig D} `{Pb : !PciBars D}.
Context (undef : Z).
Implicit Types s : driver Q.

(** ** Finding the chip *)

Definition kIOPCIConfigurationOffsetCapabilitiesPtr : Z := 0x34.

(** [while (capPtr && guard++ < 16)]; [None]: no PCI Express capability. *)
Fixpoint find_pcie_cap (guard : nat) (capPtr : Z) : prog D (option Z) :=
  match guard with
  | O => ret None
  | S n =>
      if capPtr =? 0 then ret None else
      do capId <- cfg8 capPtr;
      if capId =? 0x10 then ret (Some capPtr)
      else do next <- cfg8 (capPtr + 1); find_pcie_cap n next
  end.

Definition pcie_cap : prog D Z :=
  do capPtr <- cfg8 kIOPCIConfigurationOffsetCapabilitiesPtr;
  do r <- find_pcie_cap 16 capPtr;
  ret (default 0 r).

(** The BARs from [bar] on; [None]: none answers with a plausible TxConfig. *)
Fixpoint probe_bars (n : nat) (bar : Z) : prog D (option Z) :=
  match n with
  | O => ret None
  | S n' =>
      do txConfig <- (fun d => let '(v, d') := MemoryRead32 bar 0x40 d in (u32 v, d'));
      if negb (txConfig =? 0) && negb (txConfig =? 0xFFFFFFFF) then ret (Some bar) else probe_bars n' (bar + 1)
  end.

Definition fiber_probe (tp : tpvars) : prog D bool :=
  match tp_mcfg tp with
  | CFG_METHOD_41 | CFG_METHOD_42 => do v <- rtl8125_mac_ocp_read 0xD006; ret (v .& 0xFF =? 0x07)
  | _ => ret false
  end.

(** ** Calls of the hardware layer and the rings *)

Definition hw_call (p : hwst -> prog D hwst) s : prog D (driver Q) :=
  do h <- p (set_rings (positions (tx s) (rx s)) (nic s)); ret (load_nic h s).

Definition tp_call (p : tpvars -> prog D tpvars) s : prog D (driver Q) :=
  do tp <- p (linuxData (nic s)); ret (set_nic (set_tp tp (nic s)) s).

(** txRingReclaim reads the close pointer unless it aborts. *)
Definition reclaim (abort : bool) s : prog D (driver Q) :=
  do clo <- (if abort then ret 0 else rtl812xGetHwCloPtr (tp_sw (linuxData (nic s))));
  ret (set_tx (txRingReclaim abort clo (tx s)) s).

(** ** updateLinkStatus *)

(** The link is there: the MAC is set up again and the data path restarted;
    a new link or a new medium is reported. *)
Definition link_on (status : Z) s : prog D (driver Q) :=
  let media := link_media (fiberMode s) status in
  do s <- hw_call rtl812xLinkOnPatch s;
  RTL_W8 ChipCmd (CmdTxEnb .| CmdRxEnb) ;;;
  let s := set_link_flag true s in
  if negb (linkUp_of s) || bool_decide (media <> currentMedia s) then
    ret (add_call CallRequestRxDequeue
           (request_tx (add_call (CallReportLinkStatus true media) (set_media media (set_linkUp true s)))))
  else ret s.

(** [txInflightBytes = 0] and the ring positions of a fresh ring. *)
Definition tx_restart (t : txstate Q) : txstate Q :=
  mkTx Q (TxRing.cfg t) (TxRing.mkHw 0 0 0 0 TxRing.kNumTxDesc)
    (mkSlots (txRing (sl t)) (txPkt (sl t)) (txPktQueue (sl t)) (txPktLen (sl t)) 0)
    (txDoneFifo t) (ram t) (status t) (cnt t) (events t) (accepted t) (returned t) (freed t).

(** The link is gone for good. *)
Definition link_off s : prog D (driver Q) :=
  let s := set_link_flag false (set_linkUp false s) in
  do s <- tp_call rtl812xLinkDownPatch s;
  do s <- reclaim true s;
  let s := set_rx (rxRingRearm (rx s)) (set_tx (tx_restart (tx s)) s) in
  let s := add_call (CallReportLinkStatus false (currentMedia s)) s in
  tp_call (set_stored_medium undef) s.

Definition updateLinkStatus s : prog D (driver Q) :=
  do status <- RTL_R32 PHYstatus;
  if link_reported status then link_on status s
  else if linkUp_of s then
    delay_us 20000 ;;;
    do status <- RTL_R32 PHYstatus;
    if link_reported status then
      let x := stall s in
      ret (set_stall (mkStall (rxStallIsrSample x) (rxStallDeliveredSample x) (rxStallRecoveries x)
                        (u64 (linkGlitches x + 1))) s)
    else link_off s
  else ret s.

(** ** InterruptOccurred *)

(** The rings and the choice between interrupts and the completion timer. *)
Definition isr_rings (status : Z) s : prog D (driver Q) :=
  let s := if has status (RxOK .| RxDescUnavail) then set_rx (rxRingService (rx s)) s else s in
  do s <- (if has status (TxOK .| RxOK .| PCSTimeout) then reclaim false s else ret s);
  if has status (TxOK .| RxOK) then
    RTL_W32 TIMER_INT0_8125 0x5000 ;;;
    RTL_W32 TCTR0_8125 0x5000 ;;;
    ret (set_drv_intrMask (intrMaskTimer (irq (nic s))) s)
  else if has status PCSTimeout then
    RTL_W32 TIMER_INT0_8125 0 ;;;
    ret (set_drv_intrMask (intrMaskRxTx (irq (nic s))) s)
  else ret s.

Definition InterruptOccurred s : prog D (driver Q) :=
  do status <- RTL_R32 ISR0_8125;
  if (status =? 0xFFFFFFFF) || (status =? 0) then ret s else
  RTL_W32 IMR0_8125 0 ;;;
  RTL_W32 ISR0_8125 (status .&~ RxFIFOOver) ;;;
  let s := set_isr (count_isr status (isr s)) s in
  do s <- (if interfaceEnabled s then isr_rings status s else ret s);
  do s <- (if has status LinkChg && interfaceEnabled s then
             do s <- updateLinkStatus s;
             RTL_W32 TIMER_INT0_8125 0 ;;;
             ret (set_drv_intrMask (intrMaskRxTx (irq (nic s))) s)
           else ret s);
  RTL_W32 IMR0_8125 (intrMask (irq (nic s))) ;;;
  ret s.

(** ** StatsTimerOccurred *)

(** More than 5000 receive interrupts since the last tick and not one packet. *)
Definition rx_stalled s : bool :=
  linkUp_of s && (5000 <? u64 (isrRx (isr s) - rxStallIsrSample (stall s))) &&
  (rxDelivered (rx s) =? rxStallDeliveredSample (stall s)).

Definition tick_stall s : prog D (driver Q) :=
  do s <- (if rx_stalled s then
             let x := stall s in
             let s := set_stall (mkStall (rxStallIsrSample x) (rxStallDeliveredSample x) (u64 (rxStallRecoveries x + 1))
                                   (linkGlitches x)) s in
             RTL_W8 ChipCmd CmdTxEnb ;;;
             let s := set_rx (rxRingRearm (rx s)) s in
             RTL_W8 ChipCmd (CmdTxEnb .| CmdRxEnb) ;;;
             ret (add_call CallRequestRxDequeue s)
           else ret s);
  ret (set_stall (mkStall (isrRx (isr s)) (rxDelivered (rx s)) (rxStallRecoveries (stall s)) (linkGlitches (stall s))) s).

(** The dump of the chip's counters, asked for one tick and logged the next. *)
Definition tick_tally s : prog D (driver Q) :=
  do s <- (if tallyPending s then
             do v <- RTL_R32 CounterAddrLow; ret (if has v CounterDump then s else set_tally false s)
           else ret s);
  if tallyPending s then ret s else
  let a := statPhyAddr (nic s) in
  RTL_W32 CounterAddrHigh (Z.shiftr a 32) ;;;
  RTL_W32 CounterAddrLow (a .& 0xffffffff) ;;;
  RTL_W32 CounterAddrLow (a .& 0xffffffff .| CounterDump) ;;;
  ret (set_tally true s).

(** Degrees from the ten sensor bits. *)
Definition temperature (tsRaw : Z) : Z :=
  if tsRaw <=? 512 then tsRaw / 2 else - ((512 - (tsRaw - 512)) / 2).

Definition sample_depths s : driver Q :=
  set_tx (foldl (fun t q => with_cnt t (cmax (TxDoneSampledMax q) (bq_depth (doneq t q)) (cnt t))) (tx s) [0; 1; 2; 3]) s.

(** The temperature is returned because it is only logged; registers that are
    read for the log alone are left out. *)
Definition StatsTimerOccurred s : prog D (driver Q * option Z) :=
  if interfaceEnabled s then
    do s <- tick_stall s;
    do s <- tick_tally s;
    let s := sample_depths s in
    do v <- mdio_direct_read_phy_ocp 0xBD84;
    ret (s, Some (temperature (v .& 0x3ff)))
  else ret (s, None).

(** ** The interface requests *)

Definition interface_on s : prog D (driver Q) :=
  do s <- hw_call (rtl812xEnable undef) s;
  let s := add_call (CallEnableQueues true) s in
  let s := add_call CallRequestRxDequeue (set_rx (rxRingRefill (rx s)).1 s) in
  let s := set_enabled true s in
  RTL_W8 ChipCmd (CmdTxEnb .| CmdRxEnb) ;;;
  RTL_W32 IMR0_8125 (intrMask (irq (nic s))) ;;;
  do s <- updateLinkStatus s;
  ret (request_tx s).

Definition interface_off s : prog D (driver Q) :=
  let s := set_linkUp false (set_enabled false s) in
  do s <- hw_call rtl812xDisable s;
  do s <- reclaim true s;
  let s := add_call (CallEnableQueues false) (add_call CallPurgeTx s) in
  let s := set_rx (rxRelease (rx s)) s in
  ret (add_call (CallReportLinkStatus false (currentMedia s)) s).

Definition setInterfaceEnable (enable : bool) s : prog D (IOReturn * driver Q) :=
  do s <- (if enable then interface_on s else interface_off s); ret (kIOReturnSuccess, s).

(** The result and the count written back; [capacity] is the count passed in
    with an array. [None]: no count. *)
Definition getSupportedMediaArray (has_array : bool) (count : option Z) s : IOReturn * list MediaWord * Z :=
  match count with
  | None => (kIOReturnBadArgument, [], 0)
  | Some c =>
      let n := Z.of_nat (length (mediaArray s)) in
      if has_array then
        let limit := if c =? 0 then n else c in
        let k := if limit <? n then limit else n in
        (kIOReturnSuccess, take (Z.to_nat k) (mediaArray s), k)
      else (kIOReturnSuccess, [], n)
  end.

Definition handleChosenMedia (chosenMedia : MediaWord) s : prog D (IOReturn * driver Q) :=
  let s := set_media chosenMedia s in
  do s <- (if interfaceEnabled s then
             tp_call (fun tp => rtl812xSetPhyMedium undef tp AUTONEG_ENABLE (chosen_speed chosenMedia) DUPLEX_FULL
                                  (advertising (link (tp_sw tp)))) s
           else ret s);
  ret (kIOReturnSuccess, s).

(** The frame sizes derived from the MTU; [rms] has 16 bits. *)
Definition set_frame_sizes (m : Z) (tp : tpvars) : tpvars :=
  let e := eee (tp_sw tp) in
  set_sw (sw_set_eee (mkEee (eee_enabled e) (supported e) (advertised e) (tx_lpi_enabled e) (u32 (m + ETH_HLEN + 0x20)))
            (tp_sw tp))
    (set_rms (u16 (m + VLAN_ETH_HLEN + ETH_FCS_LEN)) tp).

Definition setMaxTransferUnit (m : Z) s : prog D (IOReturn * driver Q) :=
  if (m <? ETH_ZLEN) || (kMaxMtu <? m) then ret (kIOReturnUnsupported, s) else
  let s := set_ivar_mtu m s in
  let s := set_nic (set_mtu m (nic s)) s in
  let s := set_nic (set_tp (set_frame_sizes m (linuxData (nic s))) (nic s)) s in
  (if interfaceEnabled s then RTL_W16 RxMaxSize (rms (linuxData (nic s))) else ret tt) ;;;
  ret (kIOReturnSuccess, s).

Definition getMaxTransferUnit : Z := kMaxMtu.

Definition getHardwareAssists (b : assist_bits) s : Z :=
  let assists := aTxIP b .| aTxTCP b .| aTxUDP b .| aRx b in
  if tso_of s then assists .| (aTSO4 b .| aTSO6 b) else assists.

Definition setHardwareAssists (b : assist_bits) (hardwareAssists hardwareAssistsMask : Z) s : IOReturn * driver Q :=
  let tso := aTSO4 b .| aTSO6 b in
  (kIOReturnSuccess,
   if has hardwareAssistsMask tso then set_tso (negb (hardwareAssists .& tso =? 0)) s else s).

Definition getTSOOptions (options : bool) : IOReturn * option (Z * Z) :=
  if options then (kIOReturnSuccess, Some (kTsoMaxPacket, kTsoMaxPacket)) else (kIOReturnBadArgument, None).

Definition getHardwareAddress (addr : bool) s : IOReturn * option (list Z) :=
  if addr then (kIOReturnSuccess, Some (currMacAddr (addrs (nic s)))) else (kIOReturnBadArgument, None).

(** The receive filter lives in the hardware object. *)
Definition filter_call (p : identified -> rxf -> prog D (IOReturn * rxf)) s : prog D (IOReturn * driver Q) :=
  do r <- p (tid (ctx (linuxData (nic s)))) (BringUp.filter (nic s));
  ret (r.1, set_nic (set_filter r.2 (nic s)) s).

(** ** Requests and events *)

Inductive event :=
| EvSetInterfaceEnable (enable : bool)
| EvInterrupt
| EvStatsTimer
| EvSetMtu (m : Z)
| EvChosenMedia (m : MediaWord)
| EvPromiscuous (enable : bool)
| EvAllMulticast (enable : bool)
| EvMulticastAddresses (addresses : option (list ether_addr)) (count : Z)
| EvHardwareAssists (b : assist_bits) (assists mask : Z).

Definition on_event (e : event) s : prog D (IOReturn * driver Q) :=
  match e with
  | EvSetInterfaceEnable b => setInterfaceEnable b s
  | EvInterrupt => do s <- InterruptOccurred s; ret (kIOReturnSuccess, s)
  | EvStatsTimer => do r <- StatsTimerOccurred s; ret (kIOReturnSuccess, r.1)
  | EvSetMtu m => setMaxTransferUnit m s
  | EvChosenMedia m => handleChosenMedia m s
  | EvPromiscuous b => filter_call (fun id => setPromiscuousModeEnable id b) s
  | EvAllMulticast b => filter_call (fun id => setAllMulticastModeEnable id b) s
  | EvMulticastAddresses l n => filter_call (fun id => setMulticastAddresses id l n) s
  | EvHardwareAssists b a k => ret (setHardwareAssists b a k s)
  end.

Fixpoint on_events (es : list event) s : prog D (driver Q) :=
  match es with
  | [] => ret s
  | e :: es' => do r <- on_event e s; on_events es' r.2
  end.

(** ** The SelectMediaType family: the same requests under their older names *)

Definition SetWakeOnMagicPacketEnable : IOReturn := kIOReturnUnsupported.
Definition GetMaxTransferUnit (p : bool) : IOReturn * option Z :=
  if p then (kIOReturnSuccess, Some kMaxMtu) else (kIOReturnBadArgument, None).
Definition GetHardwareAssists (b : assist_bits) (p : bool) s : IOReturn * option Z :=
  if p then (kIOReturnSuccess, Some (getHardwareAssists b s)) else (kIOReturnBadArgument, None).

(** ** Start, from the open device to the interface it registers

    [dma] are the addresses of the three DMA buffers; [None]: an allocation
    fails, after the chip is set up. *)

(** IONewZero and init: everything zero but the MTU and TSO. *)
Definition hw_new (device : Z) (fallback : list Z) (tp : tpvars) : hwst :=
  BringUp.mkHw tp device 1500 0 (mkIntrs 0 0 0 0) 0 0 0 (mkRingpos 0 0 0 0 0 0) (mkRxf 0 0) false false
    (mkMacs [] [] fallback).

Definition with_dma (dma : Z * Z * Z) (h : hwst) : hwst :=
  BringUp.mkHw (linuxData h) (device h) (BringUp.mtu h) (pcieCapOffset h) (irq h) dma.2 dma.1.1 dma.1.2 (rings h)
    (BringUp.filter h) (wolCapable h) (hasSensor h) (addrs h).
Definition with_cap (c : Z) (h : hwst) : hwst :=
  BringUp.mkHw (linuxData h) (device h) (BringUp.mtu h) c (irq h) (statPhyAddr h) (txPhyAddr h) (rxPhyAddr h) (rings h)
    (BringUp.filter h) (wolCapable h) (hasSensor h) (addrs h).

Definition fresh_driver (h : hwst) (fiber : bool) (m : mem) (pool : list rxpkt) : driver Q :=
  let mask := s_MaxTxDescPtrMask (tp_sw (linuxData h)) in
  let p := rings h in
  mkDrv Q h
    (mkTx Q (mkCfg false true 1500 mask)
       (TxRing.mkHw (BringUp.txTailPtr0 p) (BringUp.txClosePtr0 p) (BringUp.txNextDescIndex p)
          (BringUp.txDirtyDescIndex p) (BringUp.txNumFreeDesc p))
       (mkSlots ∅ ∅ ∅ ∅ 0) ∅ m ∅ (fun _ => 0) [] [] [] [])
    (mkRx Q (BringUp.rxNextDescIndex p) ∅ ∅ bq_empty bq_empty pool ∅ 0 0 0 0 [])
    false fiber (media_list fiber (HwSuppMaxPhyLinkSpeed (tp_sw (linuxData h)))) getInitialMedia
    (mkIsr 0 0 0 0 0 0) (mkStall 0 0 0 0) false [].

(** Memory space and bus mastering, then the identity, the capability, the BAR,
    the chip, the fiber mode and the media. *)
Definition Start (tp : tpvars) (fallback : list Z) (dma : option (Z * Z * Z)) (m : mem) (pool : list rxpkt) (seed : Z)
    : prog D (option (driver Q) * Z) :=
  do cmd <- cfg16 0x04;
  wcfg16 0x04 (cmd .| (0x0004 .| 0x0002)) ;;;
  cfg16 0x00 ;;;
  do device <- cfg16 0x02;
  cfg16 0x2C ;;; cfg16 0x2E ;;;
  do cap <- pcie_cap;
  do bar <- probe_bars 6 0;
  match bar with
  | None => ret (None, seed)
  | Some _ =>
      do r <- rtl812xInit (with_cap cap (hw_new device fallback tp)) seed;
      let '(ok, h, seed) := r in
      if negb ok then ret (None, seed) else
      do fiber <- fiber_probe (linuxData h);
      ret (match dma with Some a => Some (fresh_driver (with_dma a h) fiber m pool) | None => None end, seed)
  end.
End Code.
