(* ===== verification/DriverSpec.v ===== *)
(** The driver as a whole: what holds after any sequence of interface requests,
    interrupts and timer ticks. *)
From S2P Require Import Prelude Fifo Frame TxRing RxRing.
From S2P Require Import Mmio Channel Chip SwVars Eeprom Hw Mcu Power Fiber PhyConfig RxFilter BringUp Driver Footprint RxFilterSpec.

(** ** Results of programs, whatever the device does *)

Section Results.
Context {D : Type}.

Definition rets {A} (P : A -> Prop) (p : prog D A) : Prop := forall d, P (p d).1.

Lemma rets_ret {A} (P : A -> Prop) a : P a -> rets P (ret a).
Proof. by intros H d. Qed.
Lemma rets_bind {A B} (P : A -> Prop) (R : B -> Prop) (p : prog D A) k :
  rets P p -> (forall a, P a -> rets R (k a)) -> rets R (bind p k).
Proof. intros Hp Hk d. rewrite bind_run. exact (Hk _ (Hp d) _). Qed.
Lemma rets_seq {A B} (R : B -> Prop) (p : prog D A) k : (forall a, rets R (k a)) -> rets R (bind p k).
Proof. intros Hk d. rewrite bind_run. apply Hk. Qed.
Lemma rets_weaken {A} (P R : A -> Prop) (p : prog D A) : rets P p -> (forall a, P a -> R a) -> rets R p.
Proof. intros Hp H d. apply H, Hp. Qed.
End Results.

(** ** What the hardware layer leaves alone *)

(** Chip identity, receive size, descriptor mask, speed limit and fiber mode. *)
Record tp_kept (t t' : tpvars) : Prop := {
  k_tid : tid (ctx t') = tid (ctx t);
  k_rms : rms t' = rms t;
  k_mask : s_MaxTxDescPtrMask (tp_sw t') = s_MaxTxDescPtrMask (tp_sw t);
  k_speed : HwSuppMaxPhyLinkSpeed (tp_sw t') = HwSuppMaxPhyLinkSpeed (tp_sw t);
  k_fiber : HwFiberModeVer (tp_sw t') = HwFiberModeVer (tp_sw t);
}.

#[export] Instance tp_kept_preorder : PreOrder tp_kept.
Proof.
  split; [by intros t|]. intros t1 t2 t3 [] []. split; congruence.
Qed.

Lemma kept_upd t t1 t2 : tp_kept t t1 -> tp_kept t1 t2 -> tp_kept t t2.
Proof. apply transitivity. Qed.

Create HintDb kept discriminated.

(** Follow a program that returns the variables: sub-programs with a lemma in
    [kept] are used, the others do not matter. *)
Ltac kept_leaf :=
  lazymatch goal with |- tp_kept ?t _ =>
    first [assumption | solve [split; reflexivity]
          | match goal with H : tp_kept t ?t1 |- _ => solve [apply (kept_upd t t1); [exact H|split; reflexivity]] end]
  end.
#[export] Hint Extern 1 (tp_kept _ _) => kept_leaf : kept.
Ltac kept_step :=
  match goal with
  | |- forall _, _ => intro
  | |- rets _ (ret _) => apply rets_ret
  | |- rets (tp_kept _) (let '(_, _) := ?x in _) => destruct x
  | |- rets (tp_kept _) (if ?b then _ else _) => destruct b
  | |- rets (tp_kept _) (match ?x with _ => _ end) => destruct x
  | |- rets (tp_kept ?t) (bind (A := tpvars) _ _) => apply (rets_bind (tp_kept t))
  | |- rets _ (bind _ _) => apply rets_seq
  | |- rets _ _ => progress cbv zeta
  end.
Ltac kept := repeat (first [solve [auto with kept nocore] | kept_leaf | kept_step]).

Section Kept.
Context {D : Type} `{M : !Mmio D} `{Pc : !PciConfig D} (undef : Z) (t0 : tpvars).
Implicit Types t : tpvars.
Local Abbreviation keeps p := (rets (D := D) (tp_kept t0) p).

Lemma kept_power_up t : tp_kept t0 t -> keeps (rtl8125_phy_power_up t).
Proof. intros. unfold rtl8125_phy_power_up. kept. Qed.
Lemma kept_power_down t : tp_kept t0 t -> keeps (rtl8125_phy_power_down t).
Proof. intros. unfold rtl8125_phy_power_down. kept. Qed.
Lemma kept_powerup_pll t : tp_kept t0 t -> keeps (rtl8125_powerup_pll t).
Proof. intros. unfold rtl8125_powerup_pll. kept. by apply kept_power_up. Qed.
Lemma kept_powerdown_pll t : tp_kept t0 t -> keeps (rtl8125_powerdown_pll t).
Proof.
  intros. unfold rtl8125_powerdown_pll, powerdown_wol. kept. apply kept_power_down. kept.
Qed.
Lemma kept_phy_mcu t : tp_kept t0 t -> keeps (rtl8125_init_hw_phy_mcu t).
Proof.
  intros. unfold rtl8125_init_hw_phy_mcu.
  apply (rets_bind (fun r : bool * tpvars => tp_kept t0 r.2)).
  - unfold ram_code_present, rtl8125_check_hw_phy_mcu_code_ver. repeat case_match; try (by apply rets_ret).
    apply rets_seq. intros. apply rets_ret. cbn [snd]. kept.
  - intros [present t1]. cbn [snd]. kept.
Qed.
Lemma kept_phy_config t : tp_kept t0 t -> keeps (rtl8125_hw_phy_config undef t).
Proof. intros. unfold rtl8125_hw_phy_config. kept; apply kept_phy_mcu; kept. Qed.
Lemma kept_store_link t an sp du adv : tp_kept t0 t -> tp_kept t0 (store_link an sp du adv t).
Proof. intros H. unfold store_link, rtl8125_set_d0_speedup_speed. by case_match; kept_leaf. Qed.
Lemma kept_advertise t g x adv : tp_kept t0 t -> keeps (advertise t g x adv).
Proof. intros. unfold advertise. kept. Qed.
Lemma kept_medium t an sp du adv : tp_kept t0 t -> keeps (rtl812xSetPhyMedium undef t an sp du adv).
Proof.
  intros. unfold rtl812xSetPhyMedium. kept; try apply kept_store_link; try (by apply kept_advertise); kept.
Qed.
Lemma kept_stored_medium t : tp_kept t0 t -> keeps (set_stored_medium undef t).
Proof. apply kept_medium. Qed.
Lemma kept_hw_init t : tp_kept t0 t -> keeps (rtl812xHwInit t).
Proof. intros. unfold rtl812xHwInit. kept. Qed.
Lemma kept_link_down t : tp_kept t0 t -> keeps (rtl812xLinkDownPatch t).
Proof. intros. unfold rtl812xLinkDownPatch. kept. Qed.
End Kept.

#[export] Hint Resolve kept_powerup_pll kept_powerdown_pll kept_phy_config kept_medium kept_stored_medium kept_hw_init
  kept_link_down : kept.

(** The hardware object: everything but the variables, the ring positions, the
    current interrupt mask and the state flags stays. *)
Record hw_kept (h h' : hwst) : Prop := {
  h_tp : tp_kept (linuxData h) (linuxData h');
  h_mtu : BringUp.mtu h' = BringUp.mtu h;
  h_rxtx : intrMaskRxTx (irq h') = intrMaskRxTx (irq h);
  h_timer : intrMaskTimer (irq h') = intrMaskTimer (irq h);
  h_mfilter : multicastFilter (BringUp.filter h') = multicastFilter (BringUp.filter h);
  h_addrs : addrs h' = addrs h;
  h_stat : statPhyAddr h' = statPhyAddr h;
}.

Section HwKept.
Context {D : Type} `{M : !Mmio D} `{Pc : !PciConfig D} (undef : Z).

Lemma hw_config_result (h : hwst) :
  rets (D := D) (fun h' => h' = set_tp (set_cp_cmd (cp_cmd (linuxData h) .&~ cp_cmd_clear) (linuxData h)) (set_rings rings_reset h))
    (rtl812xHwConfig h).
Proof. unfold rtl812xHwConfig. repeat (apply rets_seq; intros ?). by apply rets_ret. Qed.

Definition link_on_result (h h' : hwst) : Prop :=
  hw_kept h h' /\ rings h' = rings_reset /\ intrMask (irq h') = intrMask (irq h) /\ BringUp.filter h' = BringUp.filter h.

Lemma hw_link_on h : rets (D := D) (link_on_result h) (rtl812xLinkOnPatch h).
Proof.
  unfold rtl812xLinkOnPatch. apply (rets_bind _ _ _ _ (hw_config_result h)). intros ? ->.
  cbv zeta. repeat (apply rets_seq; intros ?). apply rets_ret. by repeat split.
Qed.

Definition enable_result (h h' : hwst) : Prop :=
  hw_kept h h' /\ rings h' = rings_reset /\ intrMask (irq h') = intrMaskRxTx (irq h) /\
  stateFlags (BringUp.filter h') = clear_bit __POLL_MODE (stateFlags (BringUp.filter h)).

Lemma hw_enable h : rets (D := D) (enable_result h) (rtl812xEnable undef h).
Proof.
  unfold rtl812xEnable. cbv zeta. apply rets_seq. intros _.
  eapply (rets_bind (tp_kept (linuxData h))); [kept|]. intros t1 H1. apply rets_seq. intros _.
  eapply (rets_bind (tp_kept (linuxData h))); [kept|]. intros t2 H2. apply rets_seq. intros _.
  eapply (rets_bind (tp_kept (linuxData h))); [kept|]. intros t3 H3.
  eapply (rets_bind _ _ _ _ (hw_config_result _)). intros ? ->. cbn [linuxData set_tp].
  eapply (rets_bind (tp_kept (linuxData h))); [kept|]. intros t4 H4. apply rets_ret.
  split; [split; [exact H4|done..]|done].
Qed.

Definition disable_result (h h' : hwst) : Prop :=
  hw_kept h h' /\ rings h' = rings h /\ intrMask (irq h') = intrMask (irq h) /\
  stateFlags (BringUp.filter h') = clear_bit __LINK_UP (stateFlags (BringUp.filter h)).

Lemma hw_disable h : rets (D := D) (disable_result h) (rtl812xDisable h).
Proof.
  unfold rtl812xDisable. cbv zeta. do 4 (apply rets_seq; intros ?).
  eapply (rets_bind (tp_kept (linuxData h))); [kept|]. intros t1 H1. apply rets_seq. intros _. apply rets_ret.
  split; [split; [exact H1|done..]|done].
Qed.
End HwKept.

(** ** The control state of the driver *)

(** The last link state reported to the framework. *)
Definition last_report (l : list call) : bool :=
  foldl (fun r c => match c with CallReportLinkStatus b _ => b | _ => r end) false l.

Lemma last_report_snoc l c :
  last_report (l ++ [c]) = match c with CallReportLinkStatus b _ => b | _ => last_report l end.
Proof. unfold last_report. rewrite foldl_app. by destruct c. Qed.

Section Control.
Context {Q : Type -> Type} `{BQ : !BoundedQueue Q}.
Implicit Types s : driver Q.

(** [rep] is the last state reported. *)
Record drv_ok (rep : bool) s : Prop := {
  i_link : linkUp_of s = true -> interfaceEnabled s = true;
  i_flag : test_bit __LINK_UP (stateFlags (BringUp.filter (nic s))) = linkUp_of s;
  i_report : last_report (calls s) = rep;
  i_mtu : ETH_ZLEN <= mtu_of s <= kMaxMtu;
  i_hwmtu : BringUp.mtu (nic s) = mtu_of s;
  i_rms : rms (linuxData (nic s)) = mtu_of s + VLAN_ETH_HLEN + ETH_FCS_LEN;
  i_mask : MaxTxDescPtrMask (TxRing.cfg (tx s)) = s_MaxTxDescPtrMask (tp_sw (linuxData (nic s)));
  i_rxtx : intrMaskRxTx (irq (nic s)) = intrMaskRxTx intr_masks;
  i_timer : intrMaskTimer (irq (nic s)) = intrMaskTimer intr_masks;
  i_cur : intrMask (irq (nic s)) = intrMaskRxTx intr_masks \/ intrMask (irq (nic s)) = intrMaskTimer intr_masks;
}.

Definition drv_inv s : Prop := drv_ok (linkUp_of s) s.

(** The parts of the state the invariant does not see. *)
Lemma inv_same rep s s' :
  drv_ok rep s -> nic s' = nic s -> TxRing.cfg (tx s') = TxRing.cfg (tx s) -> interfaceEnabled s' = interfaceEnabled s ->
  last_report (calls s') = last_report (calls s) -> drv_ok rep s'.
Proof.
  intros [] En Et Ee Ec. unfold linkUp_of, mtu_of in *.
  split; unfold linkUp_of, mtu_of; rewrite ?En, ?Et, ?Ee, ?Ec; assumption.
Qed.

Lemma reclaim_slot_cfg a (t : txstate Q) : TxRing.cfg (txReclaimSlot a t) = TxRing.cfg t.
Proof. unfold txReclaimSlot, complete. destruct (_ !! _); [|done]. by destruct (bq_push _ _). Qed.

Lemma reclaim_loop_cfg n a : forall (t : txstate Q) did, TxRing.cfg (txReclaimLoop n a t did).1 = TxRing.cfg t.
Proof. induction n as [|n IH]; intros t did; [done|]. cbn [txReclaimLoop]. by rewrite IH, reclaim_slot_cfg. Qed.

Lemma notify_cfg a did (t : txstate Q) i : TxRing.cfg (notify a did t i) = TxRing.cfg t.
Proof. unfold notify. by repeat case_match. Qed.

Lemma reclaim_cfg a clo (t : txstate Q) : TxRing.cfg (txRingReclaim a clo t) = TxRing.cfg t.
Proof.
  unfold txRingReclaim. pose proof (reclaim_loop_cfg (Z.to_nat (numDone a clo t)) a (reclaimBegin a clo t) (fun _ => false)) as H.
  destruct (txReclaimLoop _ _ _ _) as [t1 did]. cbn [fst] in H.
  assert (E : TxRing.cfg (reclaimPublish a (numDone a clo t) t1) = TxRing.cfg t)
    by (unfold reclaimPublish; case_match; exact H).
  case_match; [|exact E]. cbn [foldl]. by rewrite !notify_cfg.
Qed.
End Control.

(** *** Every handler keeps the invariant *)

Section Preserved.
Context {Q : Type -> Type} `{BQ : !BoundedQueue Q}.
Context {D : Type} `{M : !Mmio D} `{Pc : !PciConfig D} (undef : Z).
Implicit Types s : driver Q.
Local Abbreviation good p := (rets (D := D) drv_inv p).

Ltac inv_simpl :=
  unfold drv_inv, linkUp_of, mtu_of, tp_sw in *;
  cbn -[test_bit set_bit clear_bit intr_masks last_report kMaxMtu u16] in *.
Ltac inv_fields := inv_simpl; split; inv_simpl;
  rewrite ?last_report_snoc; try done; try congruence.

(** A call of the hardware layer that keeps flags and masks. *)
Lemma inv_tp_call rep p s : rets (tp_kept (linuxData (nic s))) (p (linuxData (nic s))) -> drv_ok rep s ->
  rets (D := D) (fun s' => drv_ok rep s' /\ linkUp_of s' = linkUp_of s) (tp_call p s).
Proof.
  intros Hp []. unfold tp_call. apply (rets_bind _ _ _ _ Hp). intros t []. apply rets_ret. split; [|done]. inv_fields.
Qed.

Lemma rets_hw_call (P : hwst -> Prop) p s : rets P (p (set_rings (positions (tx s) (rx s)) (nic s))) ->
  rets (D := D) (fun s' => exists h, P h /\ s' = load_nic h s) (hw_call p s).
Proof. intros Hp. apply (rets_bind _ _ _ _ Hp). intros h Hh. apply rets_ret. by exists h. Qed.

Lemma inv_reclaim rep a s : drv_ok rep s ->
  rets (D := D) (fun s' => drv_ok rep s' /\ linkUp_of s' = linkUp_of s /\ interfaceEnabled s' = interfaceEnabled s) (reclaim a s).
Proof.
  intros H. unfold reclaim. apply rets_seq. intros clo. apply rets_ret. split.
  - apply (inv_same rep s); [done|done|apply reclaim_cfg|done|done].
  - unfold linkUp_of. cbn. by rewrite reclaim_cfg.
Qed.

Lemma inv_link_on status s : drv_inv s -> interfaceEnabled s = true -> good (link_on status s).
Proof.
  intros [] He. unfold link_on. cbv zeta.
  apply (rets_bind _ _ _ _ (rets_hw_call _ _ s (hw_link_on _))). intros s1 (h&([Ht Em Er Et _ _ _]&_&Ei&Ef)&->).
  destruct Ht as [_ Erms _ _ _]. apply rets_seq. intros _. case_match.
  - apply rets_ret. inv_fields. by rewrite Ef, set_bit_test, orb_true_r by done.
  - apply rets_ret. apply orb_false_iff in H as [H _]. apply negb_false_iff in H. inv_fields.
    rewrite Ef, set_bit_test, orb_true_r by done. by rewrite H.
Qed.

Lemma inv_link_off s : drv_inv s -> good (link_off undef s).
Proof.
  intros H. unfold link_off. cbv zeta.
  assert (H0 : drv_ok (linkUp_of s) (set_link_flag false (set_linkUp false s))).
  { destruct H. inv_fields. by rewrite clear_bit_test, andb_false_r by done. }
  eapply rets_bind; [apply inv_tp_call, H0; kept|]. intros s1 [H1 L1].
  eapply rets_bind; [apply inv_reclaim, H1|]. intros s2 (H2&L2&_). rewrite L1 in L2.
  assert (H3 : drv_ok false (add_call (CallReportLinkStatus false (currentMedia s2))
                (set_rx (rxRingRearm (rx s2)) (set_tx (tx_restart (tx s2)) s2)))).
  { destruct H2. inv_fields. }
  eapply rets_weaken; [apply inv_tp_call, H3; kept|]. intros s4 [H4 L4]. unfold drv_inv. rewrite L4.
  replace (linkUp_of _) with false by (symmetry; exact L2). exact H4.
Qed.

Lemma inv_update s : drv_inv s -> interfaceEnabled s = true -> good (updateLinkStatus undef s).
Proof.
  intros H He. unfold updateLinkStatus. apply rets_seq. intros st. case_match; [by apply inv_link_on|].
  case_match; [|by apply rets_ret]. apply rets_seq. intros _. apply rets_seq. intros st2.
  case_match; [|by apply inv_link_off]. apply rets_ret. by apply (inv_same _ s).
Qed.

(** Setting the mask to one of the two. *)
Lemma inv_mask rep s m : drv_ok rep s -> m = intrMaskRxTx (irq (nic s)) \/ m = intrMaskTimer (irq (nic s)) ->
  drv_ok rep (set_drv_intrMask m s).
Proof. intros [] Hm. inv_fields. Qed.

Lemma inv_isr_rings status s : drv_inv s ->
  rets (D := D) (fun s' => drv_inv s' /\ interfaceEnabled s' = interfaceEnabled s) (isr_rings status s).
Proof.
  intros H. unfold isr_rings. cbv zeta.
  set (s1 := if has status (RxOK .| RxDescUnavail) then _ else _).
  assert (H1 : drv_inv s1 /\ interfaceEnabled s1 = interfaceEnabled s)
    by (unfold s1; case_match; [split; [by apply (inv_same _ s)|done]|done]).
  destruct H1 as [H1 E1]. clearbody s1.
  apply (rets_bind (fun s2 => drv_inv s2 /\ interfaceEnabled s2 = interfaceEnabled s)).
  - case_match; [|by apply rets_ret]. eapply rets_weaken; [apply inv_reclaim, H1|].
    intros s2 (H2&L2&E2). unfold drv_inv. rewrite L2, E2. done.
  - intros s2 [H2 E2]. repeat case_match; repeat (apply rets_seq; intros _); apply rets_ret; split; try done;
      apply inv_mask; auto.
Qed.

Lemma inv_interrupt s : drv_inv s -> good (InterruptOccurred undef s).
Proof.
  intros H. unfold InterruptOccurred. apply rets_seq. intros st. case_match; [by apply rets_ret|].
  apply rets_seq. intros _. apply rets_seq. intros _. cbv zeta.
  set (s1 := set_isr _ s). assert (H1 : drv_inv s1) by (by apply (inv_same _ s)). clearbody s1.
  apply (rets_bind (fun s2 => drv_inv s2 /\ interfaceEnabled s2 = interfaceEnabled s1)).
  { case_match eqn:E; [rewrite <- E; by apply inv_isr_rings|by apply rets_ret]. }
  intros s2 [H2 E2]. apply (rets_bind drv_inv).
  - case_match; [|by apply rets_ret]. apply andb_true_iff in H3 as [_ H3].
    apply (rets_bind _ _ _ _ (inv_update s2 H2 H3)). intros s3 H4.
    apply rets_seq. intros _. apply rets_ret. apply inv_mask; auto.
  - intros s3 H3. apply rets_seq. intros _. by apply rets_ret.
Qed.

Lemma inv_tick s : drv_inv s -> rets (D := D) (fun r => drv_inv r.1) (StatsTimerOccurred s).
Proof.
  intros H. unfold StatsTimerOccurred. case_match; [|by apply rets_ret].
  apply (rets_bind drv_inv).
  { unfold tick_stall. apply (rets_bind drv_inv).
    - case_match; [|by apply rets_ret]. repeat (apply rets_seq; intros _). apply rets_ret.
      apply (inv_same _ s); try done. cbn. by rewrite last_report_snoc.
    - intros s1 H1. apply rets_ret. by apply (inv_same _ s1). }
  intros s1 H1. apply (rets_bind drv_inv).
  { unfold tick_tally. apply (rets_bind drv_inv).
    - case_match; [|by apply rets_ret]. apply rets_seq. intros v. apply rets_ret. case_match; [done|].
      by apply (inv_same _ s1).
    - intros s2 H2. case_match; [by apply rets_ret|]. cbv zeta. repeat (apply rets_seq; intros _). apply rets_ret.
      by apply (inv_same _ s2). }
  intros s2 H2. cbv zeta. apply rets_seq. intros v. apply rets_ret. cbn [fst]. by apply (inv_same _ s2).
Qed.

Lemma inv_on s : drv_inv s -> good (interface_on undef s).
Proof.
  intros []. unfold interface_on.
  apply (rets_bind _ _ _ _ (rets_hw_call _ _ s (hw_enable undef _))). intros s1 (h&([Ht Em Er Et _ _ _]&_&Ei&Ef)&->).
  destruct Ht as [_ Erms _ _ _]. cbv zeta. apply rets_seq. intros _. apply rets_seq. intros _.
  eapply rets_bind.
  - apply inv_update; [|done]. inv_fields; [by rewrite Ef, clear_bit_test, andb_true_r by done|left; congruence].
  - intros s2 H2. apply rets_ret. by apply (inv_same _ s2).
Qed.

Lemma inv_off s : drv_inv s -> good (interface_off s).
Proof.
  intros []. unfold interface_off. cbv zeta.
  apply (rets_bind _ _ _ _ (rets_hw_call _ _ _ (hw_disable _))). intros s1 (h&([Ht Em Er Et _ _ _]&_&Ei&Ef)&->).
  destruct Ht as [_ Erms _ _ _].
  eapply rets_bind.
  { apply (inv_reclaim (last_report (calls s))). inv_fields. by rewrite Ef, clear_bit_test, andb_false_r by done. }
  intros s2 (H2&L2&E2). cbv zeta. apply rets_ret. unfold drv_inv.
  change (linkUp_of (add_call _ _)) with (linkUp_of s2). rewrite L2. destruct H2. inv_fields.
Qed.

Lemma inv_set_mtu m s : drv_inv s -> rets (D := D) (fun r => drv_inv r.2) (setMaxTransferUnit m s).
Proof.
  intros H. unfold setMaxTransferUnit. case_match eqn:E; [by apply rets_ret|].
  apply orb_false_iff in E as [E1 E2]. apply Z.ltb_ge in E1, E2. cbv zeta. apply rets_seq. intros _. apply rets_ret.
  unfold ETH_ZLEN, kMaxMtu in *. destruct H. inv_fields.
  unfold VLAN_ETH_HLEN, ETH_FCS_LEN. rewrite u16_small by lia. lia.
Qed.

Lemma inv_media m s : drv_inv s -> rets (D := D) (fun r => drv_inv r.2) (handleChosenMedia undef m s).
Proof.
  intros H. unfold handleChosenMedia. cbv zeta.
  assert (H1 : drv_inv (set_media m s)) by (by apply (inv_same _ s)).
  apply (rets_bind drv_inv); [|intros s1 Hs; by apply rets_ret].
  case_match; [|by apply rets_ret]. eapply rets_weaken; [apply inv_tp_call, H1; kept|].
  intros s1 [H2 L2]. unfold drv_inv. by rewrite L2.
Qed.

(** A filter request changes no flag but its own. *)
Lemma inv_filter p s : drv_inv s ->
  (forall id f, rets (D := D) (fun r => test_bit __LINK_UP (stateFlags r.2) = test_bit __LINK_UP (stateFlags f)) (p id f)) ->
  rets (fun r => drv_inv r.2) (filter_call p s).
Proof.
  intros [] Hp. unfold filter_call. apply (rets_bind _ _ _ _ (Hp _ _)). intros r Hr. apply rets_ret. cbn [snd]. inv_fields.
Qed.

Lemma inv_event e s : drv_inv s -> rets (D := D) (fun r => drv_inv r.2) (on_event undef e s).
Proof.
  intros H. destruct e; cbn [on_event].
  - unfold setInterfaceEnable. apply (rets_bind drv_inv); [|intros; by apply rets_ret].
    destruct enable; [by apply inv_on|by apply inv_off].
  - apply (rets_bind drv_inv); [by apply inv_interrupt|intros; by apply rets_ret].
  - apply (rets_bind _ _ _ _ (inv_tick s H)). intros; by apply rets_ret.
  - by apply inv_set_mtu.
  - by apply inv_media.
  - apply inv_filter; [done|]. intros id f. unfold setPromiscuousModeEnable. cbv zeta. apply rets_seq. intros _.
    apply rets_ret. cbn [snd stateFlags]. by rewrite upd_bit_test.
  - apply inv_filter; [done|]. intros id f. unfold setAllMulticastModeEnable. cbv zeta. apply rets_seq. intros _.
    apply rets_ret. cbn [snd stateFlags]. by rewrite upd_bit_test.
  - apply inv_filter; [done|]. intros id f. unfold setMulticastAddresses. cbv zeta. apply rets_seq. intros _.
    apply rets_ret. cbn [snd stateFlags]. case_match; [rewrite clear_bit_test by done; apply andb_true_r|].
    rewrite set_bit_test by done. apply orb_false_r.
  - apply rets_ret. cbn [snd setHardwareAssists]. case_match; [|done]. destruct H. inv_fields.
Qed.

Lemma inv_events es : forall s, drv_inv s -> good (on_events undef es s).
Proof.
  induction es as [|e es IH]; intros s H; [by apply rets_ret|]. cbn [on_events].
  apply (rets_bind _ _ _ _ (inv_event e s H)). intros r Hr. by apply IH.
Qed.
End Preserved.

(** *** Start establishes it *)

Section Started.
Context {Q : Type -> Type} `{BQ : !BoundedQueue Q}.
Context {D : Type} `{M : !Mmio D} `{Pc : !PciConfig D} `{Pb : !PciBars D} (undef : Z).

Lemma init_result h seed :
  rets (D := D) (fun r => r.1.1 = true -> irq r.1.2 = intr_masks /\ BringUp.mtu r.1.2 = BringUp.mtu h /\
    BringUp.filter r.1.2 = BringUp.filter h /\
    rms (linuxData r.1.2) = u16 (BringUp.mtu h + VLAN_ETH_HLEN + ETH_FCS_LEN)) (rtl812xInit h seed).
Proof.
  unfold rtl812xInit. cbv zeta. apply rets_seq. intros [id ok]. destruct ok; [|by apply rets_ret]. cbn [negb].
  do 6 (apply rets_seq; intros ?).
  set (h1 := init_vars _ _ _ _).
  assert (E : BringUp.mtu h1 = BringUp.mtu h /\ BringUp.filter h1 = BringUp.filter h /\
    rms (linuxData h1) = u16 (BringUp.mtu h + VLAN_ETH_HLEN + ETH_FCS_LEN)) by done.
  clearbody h1. destruct E as (E1&E2&E3).
  eapply (rets_bind (tp_kept (linuxData h1))); [kept|]. intros t1 [_ Hr _ _ _].
  do 3 (apply rets_seq; intros ?).
  eapply (rets_bind (fun r => exists a, r.1 = set_addrs a _)).
  { unfold initMacAddr. do 3 (apply rets_seq; intros ?). case_match. apply rets_seq. intros _. apply rets_ret. by eexists. }
  intros [h2 sd] [x Hx]. cbn [fst] in Hx. subst h2. do 4 (apply rets_seq; intros ?). apply rets_ret. cbn.
  intros _. by rewrite Hr.
Qed.

Lemma start_inv tp fb dma m pool seed :
  rets (D := D) (fun r => match r.1 with Some s => drv_inv (Q := Q) s | None => True end) (Start tp fb dma m pool seed).
Proof.
  unfold Start. do 8 (apply rets_seq; intros ?). case_match; [|by apply rets_ret].
  apply (rets_bind _ _ _ _ (init_result _ _)). intros [[ok h] sd] Hi. cbn [fst snd] in Hi.
  destruct ok; [|by apply rets_ret]. destruct (Hi eq_refl) as (E1&E2&E3&E4). cbn [negb].
  apply rets_seq. intros fiber. apply rets_ret. cbn [fst]. destruct dma; [|done].
  unfold drv_inv, linkUp_of, mtu_of.
  split; unfold linkUp_of, mtu_of; cbn -[test_bit intr_masks last_report]; rewrite ?E1, ?E2, ?E3, ?E4; try done. by left.
Qed.

(** The interface starts out disabled. *)
Lemma start_off tp fb dma m pool seed :
  rets (D := D) (fun r => match r.1 with Some s => interfaceEnabled (Q := Q) s = false | None => True end)
    (Start tp fb dma m pool seed).
Proof.
  unfold Start. do 8 (apply rets_seq; intros ?). case_match; [|by apply rets_ret].
  apply rets_seq. intros [[ok h] sd]. destruct ok; [|by apply rets_ret]. cbn [negb].
  apply rets_seq. intros fiber. apply rets_ret. by destruct dma.
Qed.
End Started.

(** ** Properties *)

(** C3: once Start has succeeded, and after any sequence of interface requests,
    interrupts and timer ticks, on a chip that may answer anything: the link is
    up only on an enabled interface, the flag the hardware layer reads and the
    last state reported to the framework agree with it, the MTU is between 60
    and 9000 in both places that keep it, the receive size programmed from it is
    the MTU plus VLAN header and FCS and fits a receive buffer, and the
    descriptor mask of the data path is the chip's. *)
Theorem driver_control_state {Q} `{BQ : !BoundedQueue Q} {D} `{M : !Mmio D} `{Pc : !PciConfig D} `{Pb : !PciBars D}
    undef tp fb dma m pool seed es (d : D) (s : driver Q) :
  (Start tp fb dma m pool seed d).1.1 = Some s ->
  let s' := (on_events undef es s (Start (Q := Q) tp fb dma m pool seed d).2).1 in
  (linkUp_of s' = true -> interfaceEnabled s' = true) /\
  test_bit __LINK_UP (stateFlags (BringUp.filter (nic s'))) = linkUp_of s' /\
  last_report (calls s') = linkUp_of s' /\
  (ETH_ZLEN <= mtu_of s' <= kMaxMtu /\ BringUp.mtu (nic s') = mtu_of s' /\
   rms (linuxData (nic s')) = mtu_of s' + VLAN_ETH_HLEN + ETH_FCS_LEN /\ rms (linuxData (nic s')) < kRxBufferSize) /\
  MaxTxDescPtrMask (TxRing.cfg (tx s')) = s_MaxTxDescPtrMask (tp_sw (linuxData (nic s'))).
Proof.
  intros Hs s'. pose proof (start_inv (Q := Q) tp fb dma m pool seed d) as H. cbv beta in H. rewrite Hs in H.
  pose proof (inv_events undef es s H (Start (Q := Q) tp fb dma m pool seed d).2) as Hi.
  change (drv_inv s') in Hi. clearbody s'. destruct Hi.
  unfold kRxBufferSize, kMaxMtu, VLAN_ETH_HLEN, ETH_FCS_LEN in *. repeat split; try done; lia.
Qed.

(** ** A chip that answers with what was written *)
Module DriverSim.
Import RegFile.

(** An RTL8127A by its device id; no capability list. *)
#[export] Instance sim_pci : PciConfig dev := {|
  extendedConfigRead8 := fun _ d => (0, d);
  extendedConfigRead16 := fun a d => (if a =? 2 then 0x8127 else 0, d);
  extendedConfigRead32 := fun _ d => (0, d);
  extendedConfigWrite8 := fun _ _ d => d; extendedConfigWrite16 := fun _ _ d => d |}.
#[export] Instance sim_bars : PciBars dev := {| MemoryRead32 := fun bar a d => (if bar =? 2 then aget 0 d a else 0, d) |}.

Definition chip : dev := {[ TxConfig := 0x6C900000 ]}.
Definition tp0 : tpvars :=
  mkTpv (mkTp (mkId CFG_METHOD_DEFAULT 0 false 0) sw_zero false) 0 0 false false 0 0 0 0 (EEPROM_TYPE_NONE, 0)
    (mkMcu 0 0) (mkWolSt 0 0 0 0) 0 0 0.
Definition started : prog dev (option (driver fifo) * Z) :=
  Start tp0 [0; 0; 0; 0; 0; 0] (Some (0x10000, 0x20000, 0x30000)) ∅ [] 0x8127cafe.

Lemma driver_control_state_witness : exists s, (started chip).1.1 = Some s /\
  forall es, let s' := (on_events 0 es s (started chip).2).1 in linkUp_of s' = true -> interfaceEnabled s' = true.
Proof.
  assert (H : (match (started chip).1.1 with Some _ => true | None => false end) = true) by (vm_compute; reflexivity).
  destruct ((started chip).1.1) as [s|] eqn:E; [|discriminate]. exists s. split; [reflexivity|]. intros es.
  apply (driver_control_state 0 tp0 [0; 0; 0; 0; 0; 0] (Some (0x10000, 0x20000, 0x30000)) ∅ [] 0x8127cafe es chip s E).
Defined.
End DriverSim.
