(* ===== verification/IrqSpec.v ===== *)
(** Interrupts of the driver: whatever the sequence of requests, interrupts and
    ticks, an enabled interface has its interrupts unmasked, and a masked
    transmit interrupt has the completion timer running in its place. *)
From S2P Require Import Prelude Fifo Frame TxRing RxRing.
From S2P Require Import Mmio Channel Chip SwVars Eeprom Hw Mcu Power Fiber PhyConfig RxFilter BringUp Driver Footprint.
From S2P Require Import RxFilterSpec DriverSpec.

(** ** Two registers that keep what is written *)

Definition in_reg (r a : Z) : bool := a / 4 =? r / 4.
Definition irq_reg (a : Z) : bool := in_reg IMR0_8125 a || in_reg TIMER_INT0_8125 a.

(** The interrupt mask and the reload value of timer 0: changed by 32-bit writes
    at their address, and by nothing else the driver does. *)
Class IrqRegs (D : Type) `{M : !Mmio D} `{Pc : !PciConfig D} := {
  imr : D -> Z;
  tmr : D -> Z;
  irq_kept (d d' : D) : Prop := imr d' = imr d /\ tmr d' = tmr d;
  irq_r8 : forall a d, irq_kept d (RTL_R8 a d).2;
  irq_r16 : forall a d, irq_kept d (RTL_R16 a d).2;
  irq_r32 : forall a d, irq_kept d (RTL_R32 a d).2;
  irq_w8 : forall a v d, irq_reg a = false -> irq_kept d (RTL_W8 a v d).2;
  irq_w16 : forall a v d, irq_reg a = false -> aligned 2 a = true -> irq_kept d (RTL_W16 a v d).2;
  irq_w32 : forall a v d, irq_reg a = false -> aligned 4 a = true -> irq_kept d (RTL_W32 a v d).2;
  irq_imr : forall v d, let d' := (RTL_W32 IMR0_8125 v d).2 in imr d' = u32 v /\ tmr d' = tmr d;
  irq_tmr : forall v d, let d' := (RTL_W32 TIMER_INT0_8125 v d).2 in imr d' = imr d /\ tmr d' = u32 v;
  irq_delay : forall n d, irq_kept d (delay_us n d).2;
  irq_cfg8 : forall a d, irq_kept d (cfg8 a d).2;
  irq_wcfg8 : forall a v d, irq_kept d (wcfg8 a v d).2;
}.

(** Everything but the two registers. *)
Definition off_irq : fprint := fun w a => if w then negb (irq_reg a) else true.

Section Kept.
Context {D : Type} `{M : !Mmio D} `{Pc : !PciConfig D} `{I : !IrqRegs D}.

Lemma irq_closed : closed off_irq (irq_kept (D := D)).
Proof.
  split.
  - by intros d.
  - intros d1 d2 d3 [] []. split; congruence.
  - intros. apply irq_r8.
  - intros. apply irq_r16.
  - intros. apply irq_r32.
  - intros a v d H. apply irq_w8. by apply negb_true_iff.
  - intros a v d H. apply irq_w16. by apply negb_true_iff.
  - intros a v d H. apply irq_w32. by apply negb_true_iff.
  - apply irq_delay.
Qed.

Lemma irq_within {A} (p : prog D A) d : within off_irq p -> irq_kept d (p d).2.
Proof. intros H. apply H, irq_closed. Qed.

Lemma irq_kept_trans (d1 d2 d3 : D) : irq_kept d1 d2 -> irq_kept d2 d3 -> irq_kept d1 d3.
Proof. intros [] []. split; congruence. Qed.
End Kept.

(** ** Programs that stay away from them *)

Section Within.
Context {D : Type} `{M : !Mmio D} (undef : Z).
Local Abbreviation away p := (within (D := D) off_irq p).

Lemma away_disable_mode : away rtl8125_is_in_phy_disable_mode.
Proof. footprint_deep. Qed.
Lemma away_disable_eee tp : away (rtl8125_disable_eee tp).
Proof. footprint_deep. Qed.
Lemma away_enable_eee tp : away (enable_eee undef tp).
Proof. footprint_deep. Qed.
Lemma away_giga_lite tp : away (rtl8125_disable_giga_lite tp).
Proof. footprint_deep. Qed.
Lemma away_sds_wait n : away (sds_wait n).
Proof. induction n as [|n IH]; cbn [sds_wait]; footprint. Qed.
Hint Resolve away_sds_wait : footprint.
Lemma away_fiber tp : away (rtl8127_hw_fiber_phy_config tp).
Proof. footprint_deep. Qed.
Hint Resolve away_disable_mode away_disable_eee away_enable_eee away_giga_lite away_fiber : footprint.
Lemma away_medium tp an sp du adv : away (rtl812xSetPhyMedium undef tp an sp du adv).
Proof. footprint_deep. Qed.
Lemma away_rx_mode id f : away (applyRxMode id f).
Proof. footprint_deep. Qed.
Lemma away_pfm tp b : away (rtl8125_set_pfm_patch tp b).
Proof. footprint_deep. Qed.
Lemma away_eee_plus m b : away (eee_plus m b).
Proof. footprint_deep. Qed.
Lemma away_radm m b : away (rtl8125_set_radm_fifo_prot m b).
Proof. footprint_deep. Qed.
End Within.

(** ** Results and registers together *)

Section Yields.
Context {D : Type} `{M : !Mmio D} `{Pc : !PciConfig D} `{I : !IrqRegs D}.

Definition yields {A} (P : D -> Prop) (p : prog D A) (R : A -> D -> Prop) : Prop := forall d, P d -> R (p d).1 (p d).2.

Lemma yields_ret {A} (P : D -> Prop) (a : A) R : (forall d, P d -> R a d) -> yields P (ret a) R.
Proof. intros H d Hd. by apply H. Qed.
Lemma yields_bind {A B} P (S : A -> D -> Prop) (R : B -> D -> Prop) p k :
  yields P p S -> (forall a, yields (S a) (k a) R) -> yields P (bind p k) R.
Proof. intros Hp Hk d Hd. rewrite bind_run. apply Hk, Hp, Hd. Qed.

(** The mask register holds [m] and the timer [t]; [None]: unknown. *)
Definition regs (m t : option Z) (d : D) : Prop :=
  (match m with Some m => imr d = m | None => True end) /\ (match t with Some t => tmr d = t | None => True end).

Lemma regs_kept m t d d' : irq_kept d d' -> regs m t d -> regs m t d'.
Proof. intros [E1 E2] [H1 H2]. split; [destruct m|destruct t]; congruence. Qed.
Lemma regs_any m t d : regs m t d -> regs None None d.
Proof. by intros. Qed.

Lemma yields_away {A} (R : A -> Prop) m t (p : prog D A) :
  within off_irq p -> rets R p -> yields (regs m t) p (fun a d => R a /\ regs m t d).
Proof. intros Hw Hr d Hd. split; [apply Hr|]. eapply regs_kept; [by apply irq_within|done]. Qed.

Lemma yields_any {A} (R : A -> Prop) (P : D -> Prop) (p : prog D A) :
  rets R p -> yields P p (fun a d => R a /\ regs None None d).
Proof. intros Hr d _. split; [apply Hr|done]. Qed.

Lemma yields_imr P t v : (forall d, P d -> regs None t d) ->
  yields P (RTL_W32 IMR0_8125 v) (fun _ d => regs (Some (u32 v)) t d).
Proof. intros H d Hd. destruct (irq_imr v d) as [E1 E2]. destruct (H d Hd) as [_ Ht]. split; [done|]. destruct t; congruence. Qed.
Lemma yields_tmr P m v : (forall d, P d -> regs m None d) ->
  yields P (RTL_W32 TIMER_INT0_8125 v) (fun _ d => regs m (Some (u32 v)) d).
Proof. intros H d Hd. destruct (irq_tmr v d) as [E1 E2]. destruct (H d Hd) as [Hm _]. split; [|done]. destruct m; congruence. Qed.

(** ** Programs that end by unmasking *)

Definition unmasks {A} (m : Z) (p : prog D A) : Prop := forall d, imr (p d).2 = u32 m.

Lemma unmasks_seq {A B} m (p : prog D A) (k : A -> prog D B) : (forall a, unmasks m (k a)) -> unmasks m (bind p k).
Proof. intros H d. rewrite bind_run. apply H. Qed.
Lemma unmasks_then {A B} m (p : prog D A) (k : A -> prog D B) :
  unmasks m p -> (forall a, within off_irq (k a)) -> unmasks m (bind p k).
Proof. intros Hp Hk d. rewrite bind_run. destruct (irq_within (k (p d).1) (p d).2 (Hk _)) as [-> _]. apply Hp. Qed.
Lemma unmasks_imr m : unmasks m (RTL_W32 IMR0_8125 m).
Proof. intros d. by destruct (irq_imr m d). Qed.

Lemma hw_config_unmasks h : unmasks (intrMask (irq h)) (rtl812xHwConfig h).
Proof.
  unfold rtl812xHwConfig. do 3 (apply unmasks_seq; intros _). cbv zeta. apply unmasks_then; [|intros; apply within_ret].
  unfold hw_config_tail. cbv zeta. do 11 (apply unmasks_seq; intros _).
  apply unmasks_then; [apply unmasks_imr|]. intros _. apply within_delay.
Qed.

Lemma link_on_unmasks h : unmasks (intrMask (irq h)) (rtl812xLinkOnPatch h).
Proof.
  unfold rtl812xLinkOnPatch. apply unmasks_then; [apply hw_config_unmasks|]. intros h1. cbv zeta.
  pose proof away_eee_plus. pose proof away_radm. pose proof away_pfm.
  unfold rtl8125_enable_eee_plus. footprint; auto.
Qed.
End Yields.

(** ** The invariant *)

Section Events.
Context {Q : Type -> Type} `{BQ : !BoundedQueue Q}.
Context {D : Type} `{M : !Mmio D} `{Pc : !PciConfig D} `{I : !IrqRegs D} (undef : Z).
Implicit Types s : driver Q.

Definition mask_of s : Z := intrMask (irq (nic s)).
(** What the timer must hold. *)
Definition needs_timer s : option Z := if has (mask_of s) TxOK then None else Some 0x5000.
Definition irq_ok s (d : D) : Prop := interfaceEnabled s = true -> regs (Some (mask_of s)) (needs_timer s) d.

Lemma mask_u32 s : drv_inv s -> u32 (mask_of s) = mask_of s.
Proof. intros []. unfold mask_of. by destruct i_cur as [-> | ->]. Qed.

Lemma needs_none s : mask_of s = intrMaskRxTx intr_masks -> needs_timer s = None.
Proof. unfold needs_timer. by intros ->. Qed.
Lemma needs_some s : mask_of s = intrMaskTimer intr_masks -> needs_timer s = Some 0x5000.
Proof. unfold needs_timer. by intros ->. Qed.

(** A handler that stays away from the registers and keeps mask and switch. *)
Lemma irq_quiet s (p : prog D (IOReturn * driver Q)) :
  within off_irq p -> rets (fun r => mask_of r.2 = mask_of s /\ interfaceEnabled r.2 = interfaceEnabled s) p ->
  yields (irq_ok s) p (fun r d => irq_ok r.2 d /\ interfaceEnabled r.2 = interfaceEnabled s).
Proof.
  intros Hw Hr d Hd. destruct (Hr d) as [E1 E2]. split; [|done]. intros He. unfold irq_ok, needs_timer in *. rewrite E1.
  eapply regs_kept; [by apply irq_within|]. apply Hd. congruence.
Qed.

(** Results of the link handlers. *)
Lemma link_on_mask status s :
  rets (D := D) (fun s' => mask_of s' = mask_of s /\ interfaceEnabled s' = interfaceEnabled s) (link_on status s).
Proof.
  unfold link_on. cbv zeta. apply (rets_bind _ _ _ _ (rets_hw_call _ _ s (hw_link_on _))).
  intros s1 (h&(_&_&Ei&_)&->). apply rets_seq. intros _. case_match; by apply rets_ret.
Qed.

Lemma tp_call_same p s :
  rets (D := D) (fun s' => mask_of s' = mask_of s /\ interfaceEnabled s' = interfaceEnabled s) (tp_call p s).
Proof. unfold tp_call. apply rets_seq. intros t. by apply rets_ret. Qed.

Lemma reclaim_same a s :
  rets (D := D) (fun s' => mask_of s' = mask_of s /\ interfaceEnabled s' = interfaceEnabled s /\ nic s' = nic s) (reclaim a s).
Proof. unfold reclaim. apply rets_seq. intros t. by apply rets_ret. Qed.

Lemma update_same s :
  rets (D := D) (fun s' => interfaceEnabled s' = interfaceEnabled s) (updateLinkStatus undef s).
Proof.
  unfold updateLinkStatus. apply rets_seq. intros st. case_match.
  { eapply rets_weaken; [apply link_on_mask|]. by intros ? []. }
  case_match; [|by apply rets_ret]. apply rets_seq. intros _. apply rets_seq. intros st2. case_match; [by apply rets_ret|].
  unfold link_off. cbv zeta. eapply rets_bind; [apply tp_call_same|]. intros s1 [_ E1].
  eapply rets_bind; [apply reclaim_same|]. intros s2 (_&E2&_).
  eapply rets_weaken; [apply tp_call_same|]. intros s3 [_ E3]. cbn in *. congruence.
Qed.

(** Switching on, with the link down. *)
Lemma link_on_unmasked status s : unmasks (mask_of s) (link_on status s).
Proof.
  unfold link_on, hw_call. cbv zeta. apply unmasks_then.
  - apply unmasks_then; [exact (link_on_unmasks _)|]. intros. apply within_ret.
  - intros s1. footprint.
Qed.

Lemma update_from_down s : drv_inv s -> linkUp_of s = false -> mask_of s = intrMaskRxTx intr_masks ->
  yields (regs (Some (mask_of s)) None) (updateLinkStatus undef s)
    (fun s' d => mask_of s' = mask_of s /\ interfaceEnabled s' = interfaceEnabled s /\ regs (Some (mask_of s)) None d).
Proof.
  intros Hi Hl Hm. unfold updateLinkStatus.
  eapply yields_bind; [apply (yields_away (fun _ => True)); [by footprint|done]|]. intros st.
  rewrite Hl. case_match; [|apply yields_ret; tauto].
  intros d _. destruct (link_on_mask st s d) as [E1 E2]. split; [done|]. split; [done|]. split; [|done].
  by rewrite (link_on_unmasked st s d), mask_u32.
Qed.
Lemma on_irq s : drv_inv s -> linkUp_of s = false ->
  yields (fun _ => True) (interface_on undef s) (fun s' d => irq_ok s' d /\ interfaceEnabled s' = true).
Proof.
  intros Hi Hl. unfold interface_on.
  eapply yields_bind.
  { apply (yields_any (fun s1 => drv_inv s1 /\ linkUp_of s1 = false /\ mask_of s1 = intrMaskRxTx intr_masks)).
    eapply rets_weaken; [apply (rets_hw_call _ _ s (hw_enable undef _))|].
    intros s1 (h&([Ht Em Er Et _ _ _]&_&Ei&Ef)&->). destruct Ht as [_ Erms _ _ _]. destruct Hi.
    split; [|split; [exact Hl|unfold mask_of; cbn in *; congruence]].
    unfold drv_inv, linkUp_of, mtu_of, tp_sw in *.
    split; unfold linkUp_of, mtu_of, tp_sw in *; cbn -[test_bit clear_bit intr_masks last_report kMaxMtu] in *;
      try done; try congruence; [by rewrite Ef, clear_bit_test, andb_true_r by done|left; congruence]. }
  intros s1. cbv zeta.
  set (s2 := set_enabled true _).
  intros d ((H1&L1&M1)&_).
  assert (H2 : drv_inv s2 /\ linkUp_of s2 = false /\ mask_of s2 = intrMaskRxTx intr_masks /\ interfaceEnabled s2 = true).
  { split; [|done]. destruct H1. unfold drv_inv, linkUp_of, mtu_of, tp_sw in *.
    split; unfold linkUp_of, mtu_of, tp_sw; cbn -[test_bit intr_masks last_report kMaxMtu]; rewrite ?last_report_snoc; done. }
  clearbody s2. destruct H2 as (H2&L2&M2&E2). rewrite !bind_run. cbn [fst snd ret].
  set (d1 := (RTL_W32 IMR0_8125 _ _).2).
  assert (Hd : regs (Some (mask_of s2)) None d1).
  { split; [|done]. unfold d1. rewrite (unmasks_imr _ _). by apply mask_u32. }
  destruct (update_from_down s2 H2 L2 M2 d1 Hd) as (E3&E4&R). split; [|by rewrite <- E2, <- E4].
  intros _. unfold ret. cbn [fst snd]. set (s3 := (updateLinkStatus undef s2 d1).1) in *.
  replace (mask_of (request_tx s3)) with (mask_of s2) by (by rewrite <- E3).
  rewrite (needs_none (request_tx s3)); [exact R|]. rewrite <- M2, <- E3. done.
Qed.

Lemma off_irq_event s : rets (D := D) (fun s' => interfaceEnabled s' = false) (interface_off s).
Proof.
  unfold interface_off. cbv zeta. eapply rets_bind; [apply (rets_hw_call _ _ _ (hw_disable _))|]. intros s1 (h&_&->).
  eapply rets_bind; [apply reclaim_same|]. intros s2 (_&E2&_). apply rets_ret. exact E2.
Qed.

(** The ring part of the interrupt handler leaves the timer as the new mask
    wants it. *)
Lemma rings_timer status s : drv_inv s ->
  yields (regs None (needs_timer s)) (isr_rings status s) (fun s' d => regs None (needs_timer s') d).
Proof.
  intros []. unfold isr_rings. cbv zeta. set (s1 := if has status (RxOK .| RxDescUnavail) then _ else _).
  assert (N1 : nic s1 = nic s) by (unfold s1; by case_match). clearbody s1.
  eapply (yields_bind _ (fun s2 d => nic s2 = nic s /\ regs None (needs_timer s) d)).
  { case_match; [|by apply yields_ret]. intros d Hd.
    split; [destruct (reclaim_same false s1 d) as (_&_&->); exact N1|].
    eapply regs_kept; [|exact Hd]. apply irq_within. unfold reclaim, rtl812xGetHwCloPtr. footprint. }
  intros s2 d [N2 Hd]. case_match; [|case_match].
  - rewrite !bind_run. unfold ret. cbn [fst snd]. rewrite needs_some by (unfold mask_of; cbn; by rewrite N2).
    eapply regs_kept; [apply irq_w32; reflexivity|]. by apply (yields_tmr (fun _ => True) None).
  - rewrite !bind_run. unfold ret. cbn [fst snd]. rewrite needs_none by (unfold mask_of; cbn; by rewrite N2). done.
  - unfold ret, needs_timer, mask_of in *. cbn [fst snd]. by rewrite N2.
Qed.

(** The handler as a whole. *)
Lemma interrupt_irq s : drv_inv s ->
  yields (irq_ok s) (InterruptOccurred undef s) (fun s' d => irq_ok s' d /\ interfaceEnabled s' = interfaceEnabled s).
Proof.
  intros Hi. unfold InterruptOccurred. intros d Hd. rewrite bind_run.
  set (st := (RTL_R32 ISR0_8125 d).1). set (d0 := (RTL_R32 ISR0_8125 d).2).
  assert (K0 : irq_kept d d0) by apply irq_r32. clearbody st d0.
  case_match; [split; [|done]; intros He; eapply regs_kept; [exact K0|by apply Hd]|].
  rewrite bind_run. set (d1 := (RTL_W32 IMR0_8125 0 d0).2). rewrite bind_run.
  set (d2 := (RTL_W32 ISR0_8125 _ d1).2). set (s1 := set_isr _ s).
  assert (H1 : drv_inv s1) by (by apply (inv_same _ s)).
  assert (T2 : interfaceEnabled s1 = true -> regs None (needs_timer s1) d2).
  { intros He. apply (regs_kept _ _ d1); [apply irq_w32; reflexivity|]. split; [done|].
    apply (yields_imr _ (needs_timer s) 0 (fun _ H => H) d0). eapply regs_kept; [exact K0|].
    destruct (Hd He) as [_ Ht]. by split. }
  change (interfaceEnabled s) with (interfaceEnabled s1). clearbody s1 d2.
  rewrite bind_run. set (r := (if interfaceEnabled s1 then isr_rings st s1 else ret s1) d2).
  assert (H2 : drv_inv r.1 /\ interfaceEnabled r.1 = interfaceEnabled s1 /\
               (interfaceEnabled s1 = true -> regs None (needs_timer r.1) r.2)).
  { unfold r. destruct (interfaceEnabled s1) eqn:E; [|done]. destruct (inv_isr_rings st s1 H1 d2) as [? Ee].
    split; [done|]. split; [by rewrite Ee|]. intros _. by apply rings_timer, T2. }
  clearbody r. destruct r as [s2 d3]. cbn [fst snd] in *. destruct H2 as (H2&E2&T3). rewrite bind_run.
  destruct (has st LinkChg && interfaceEnabled s2) eqn:EL.
  - apply andb_true_iff in EL as [_ EL]. rewrite !bind_run. unfold ret. cbn [fst snd].
    pose proof (inv_update undef s2 H2 EL d3) as H4. pose proof (update_same s2 d3) as E4.
    set (s4 := (updateLinkStatus undef s2 d3).1) in *. split; [|cbn; congruence]. intros _.
    rewrite needs_none by apply H4. split; [|done]. rewrite (unmasks_imr _ _). apply mask_u32. apply inv_mask; [done|by left].
  - unfold ret. cbn [fst snd]. rewrite bind_run. cbn [fst snd]. split; [|done]. intros He.
    assert (Ht : regs (Some (u32 (mask_of s2))) (needs_timer s2) (RTL_W32 IMR0_8125 (mask_of s2) d3).2)
      by (apply (yields_imr (regs None (needs_timer s2))); [done|apply T3; congruence]).
    rewrite mask_u32 in Ht by done. exact Ht.
Qed.

(** *** The quiet handlers *)

Lemma tick_irq s : yields (irq_ok s) (StatsTimerOccurred s)
  (fun r d => irq_ok r.1 d /\ interfaceEnabled r.1 = interfaceEnabled s).
Proof.
  intros d Hd.
  assert (Hw : within off_irq (StatsTimerOccurred (D := D) s)).
  { unfold StatsTimerOccurred, tick_stall, tick_tally. footprint. }
  assert (Hr : rets (D := D) (fun r => nic r.1 = nic s /\ interfaceEnabled r.1 = interfaceEnabled s) (StatsTimerOccurred s)).
  { unfold StatsTimerOccurred. case_match; [|by apply rets_ret].
    apply (rets_bind (fun s1 => nic s1 = nic s /\ interfaceEnabled s1 = interfaceEnabled s)).
    - unfold tick_stall. apply (rets_bind (fun s1 => nic s1 = nic s /\ interfaceEnabled s1 = interfaceEnabled s));
        [|intros s1 E1; by apply rets_ret]. case_match; repeat (apply rets_seq; intros _); cbv zeta; by apply rets_ret.
    - intros s1 E1. apply (rets_bind (fun s2 => nic s2 = nic s /\ interfaceEnabled s2 = interfaceEnabled s)).
      + unfold tick_tally. apply (rets_bind (fun s1 => nic s1 = nic s /\ interfaceEnabled s1 = interfaceEnabled s)).
        * destruct (tallyPending s1); [|by apply rets_ret]. apply rets_seq. intros v. apply rets_ret. by destruct (has v CounterDump).
        * intros s2 E2. destruct (tallyPending s2); cbv zeta; repeat (apply rets_seq; intros _); by apply rets_ret.
      + intros s2 E2. cbv zeta. apply rets_seq. intros v. apply rets_ret.
        exact (conj (proj1 E2) (eq_trans (proj2 E2) H)). }
  destruct (Hr d) as [E1 E2]. split; [|done]. intros He. unfold needs_timer, mask_of in *. rewrite E1.
  eapply regs_kept; [by apply irq_within|]. apply Hd. congruence.
Qed.

Lemma filter_quiet p s : (forall id f, within off_irq (p id f)) ->
  yields (irq_ok s) (filter_call p s) (fun r d => irq_ok r.2 d /\ interfaceEnabled r.2 = interfaceEnabled s).
Proof.
  intros Hp. apply irq_quiet.
  - unfold filter_call. apply within_bind; [apply Hp|intros; apply within_ret].
  - unfold filter_call. apply rets_seq. intros r. by apply rets_ret.
Qed.

Lemma event_irq e s : drv_inv s -> (e = EvSetInterfaceEnable true -> interfaceEnabled s = false) ->
  yields (irq_ok s) (on_event undef e s) (fun r d => irq_ok r.2 d /\
    interfaceEnabled r.2 = match e with EvSetInterfaceEnable b => b | _ => interfaceEnabled s end).
Proof.
  intros Hi He. pose proof away_rx_mode as AR. destruct e; cbn [on_event].
  - unfold setInterfaceEnable. intros d Hd. rewrite bind_run. unfold ret. cbn [fst snd]. destruct enable.
    + apply on_irq; [done| |done]. specialize (He eq_refl). destruct Hi as [Hl]. destruct (linkUp_of s); [|done].
      specialize (Hl eq_refl). congruence.
    + pose proof (off_irq_event s d) as E. split; [|done]. intros E'. congruence.
  - intros d Hd. rewrite bind_run. exact (interrupt_irq s Hi d Hd).
  - intros d Hd. rewrite bind_run. exact (tick_irq s d Hd).
  - apply irq_quiet; unfold setMaxTransferUnit.
    + footprint.
    + case_match; [by apply rets_ret|]. cbv zeta. apply rets_seq. intros _. by apply rets_ret.
  - apply irq_quiet; unfold handleChosenMedia; cbv zeta.
    + pose proof away_medium. unfold tp_call. footprint.
    + apply (rets_bind (fun s1 => mask_of s1 = mask_of s /\ interfaceEnabled s1 = interfaceEnabled s));
        [|intros; by apply rets_ret]. case_match; [|by apply rets_ret]. eapply rets_weaken; [apply tp_call_same|]. done.
  - apply filter_quiet. intros. unfold setPromiscuousModeEnable. footprint.
  - apply filter_quiet. intros. unfold setAllMulticastModeEnable. footprint.
  - apply filter_quiet. intros. unfold setMulticastAddresses. footprint.
  - intros d Hd. unfold ret. cbn [fst snd setHardwareAssists]. by case_match.
Qed.

(** The interface is switched on only when it is off. *)
Fixpoint alternates (on : bool) (es : list event) : bool :=
  match es with
  | [] => true
  | EvSetInterfaceEnable b :: r => negb (on && b) && alternates b r
  | _ :: r => alternates on r
  end.

Lemma events_irq es : forall s, drv_inv s -> alternates (interfaceEnabled s) es = true ->
  yields (irq_ok s) (on_events undef es s) irq_ok.
Proof.
  induction es as [|e es IH]; intros s Hi Ha d Hd; [exact Hd|]. cbn [on_events]. rewrite bind_run.
  pose proof (inv_event undef e s Hi d) as Hi'.
  assert (He : e = EvSetInterfaceEnable true -> interfaceEnabled s = false).
  { intros ->. cbn in Ha. apply andb_true_iff in Ha as [Ha _]. by destruct (interfaceEnabled s). }
  destruct (event_irq e s Hi He d Hd) as [Hd' E]. apply IH; [done| |done]. rewrite E.
  destruct e; try exact Ha. cbn in Ha. by apply andb_true_iff in Ha as [_ Ha].
Qed.
End Events.

(** ** Properties *)

(** C4: on a chip whose interrupt mask and timer registers keep what is written
    (and otherwise behaves in any way), after any sequence of requests,
    interrupts and ticks in which the interface is not switched on twice in a
    row, an enabled interface has the mask the driver thinks it has, link and
    receive interrupts are unmasked in it, and so are transmit completions,
    unless the completion timer is running and its interrupt is unmasked: no
    completion waits for an interrupt that cannot come. *)
Theorem interrupts_never_lost {Q} `{BQ : !BoundedQueue Q} {D} `{M : !Mmio D} `{Pc : !PciConfig D} `{Pb : !PciBars D}
    `{I : !IrqRegs D} undef tp fb dma m pool seed es (d : D) (s : driver Q) :
  (Start tp fb dma m pool seed d).1.1 = Some s -> alternates false es = true ->
  let '(s', d') := on_events undef es s (Start (Q := Q) tp fb dma m pool seed d).2 in
  interfaceEnabled s' = true ->
  imr d' = intrMask (irq (nic s')) /\ has (imr d') LinkChg = true /\ has (imr d') RxOK = true /\
  (has (imr d') TxOK = true \/ (has (imr d') PCSTimeout = true /\ tmr d' = 0x5000)).
Proof.
  intros Hs Ha. pose proof (start_inv (Q := Q) tp fb dma m pool seed d) as H. cbv beta in H. rewrite Hs in H.
  pose proof (start_off (Q := Q) tp fb dma m pool seed d) as Hoff. cbv beta in Hoff. rewrite Hs in Hoff.
  set (d1 := (Start tp fb dma m pool seed d).2). rewrite <- Hoff in Ha.
  assert (H0 : irq_ok s d1) by (intros He; congruence).
  pose proof (events_irq undef es s H Ha d1 H0) as K. pose proof (inv_events undef es s H d1) as Hi.
  destruct (on_events undef es s d1) as [s' d']. cbn [fst snd] in *. intros He. destruct (K He) as [Em Et].
  rewrite Em. split; [done|]. unfold mask_of, needs_timer, mask_of in *. destruct Hi.
  destruct i_cur as [E|E]; rewrite E in *; (split; [done|]); (split; [done|]); [by left|by right].
Qed.

(** *** Tearing the link down masks everything *)

Section Masked.
Context {Q : Type -> Type} `{BQ : !BoundedQueue Q}.
Context {D : Type} `{M : !Mmio D} `{Pc : !PciConfig D} `{I : !IrqRegs D} (undef : Z).
Implicit Types s : driver Q.

Lemma hw_reset_masks m : unmasks (D := D) 0 (rtl8125_hw_reset m).
Proof.
  unfold rtl8125_hw_reset. intros d. rewrite bind_run. set (d1 := (rtl8125_irq_mask_and_ack d).2).
  assert (E1 : imr d1 = 0).
  { unfold d1, rtl8125_irq_mask_and_ack. rewrite !bind_run. cbn [fst snd].
    match goal with |- imr (RTL_W32 _ ?v ?x).2 = _ => destruct (irq_w32 ISR0_8125 v x eq_refl eq_refl) as [-> _] end.
    match goal with |- imr (RTL_R32 _ ?x).2 = _ => destruct (irq_r32 ISR0_8125 x) as [-> _] end.
    by destruct (irq_imr 0 d) as [-> _]. }
  rewrite bind_run. set (d2 := (rtl8125_hw_clear_timer_int d1).2).
  assert (E2 : imr d2 = 0).
  { unfold d2, rtl8125_hw_clear_timer_int. rewrite bind_run.
    set (p := (_ ;;; _)%prog). destruct (irq_within p (RTL_W32 TIMER_INT0_8125 0 d1).2 ltac:(unfold p; footprint)) as [-> _].
    destruct (irq_tmr 0 d1) as [-> _]. exact E1. }
  destruct (irq_within (rtl8125_nic_reset m) d2 ltac:(footprint_deep)) as [-> _]. exact E2.
Qed.

Lemma link_off_masks s : unmasks (D := D) 0 (link_off undef s).
Proof.
  unfold link_off. cbv zeta. pose proof (away_medium (D := D)). apply unmasks_then.
  - unfold tp_call, rtl812xLinkDownPatch. apply unmasks_then; [|intros; apply within_ret].
    apply unmasks_seq. intros _. apply unmasks_seq. intros _. apply unmasks_then; [apply hw_reset_masks|].
    intros. apply within_ret.
  - intros s1. unfold reclaim, tp_call, set_stored_medium. footprint.
Qed.

Lemma link_on_up status s : rets (D := D) (fun s' => linkUp_of s' = true) (link_on status s).
Proof.
  unfold link_on. cbv zeta. apply rets_seq. intros s1. apply rets_seq. intros _. case_match; apply rets_ret; [done|].
  apply orb_false_iff in H as [H _]. by apply negb_false_iff in H.
Qed.

Lemma update_from_up s : linkUp_of s = true ->
  yields (fun _ => True) (updateLinkStatus undef s) (fun s' d => linkUp_of s' = false -> imr d = 0).
Proof.
  intros Hl d _. unfold updateLinkStatus. rewrite bind_run, Hl. case_match.
  { intros E. pose proof (link_on_up (RTL_R32 PHYstatus d).1 s (RTL_R32 PHYstatus d).2) as Hu. cbv beta in Hu. congruence. }
  rewrite !bind_run. case_match; [intros E; change (linkUp_of s = false) in E; congruence|]. intros _. apply link_off_masks.
Qed.
End Masked.

(** Switched on a second time with the link up and the cable gone, the driver
    tears the link down after it has unmasked the interrupts, and the reset in
    there masks them all: the interface is on and deaf. *)
Theorem second_enable_masks_interrupts {Q} `{BQ : !BoundedQueue Q} {D} `{M : !Mmio D} `{Pc : !PciConfig D}
    `{I : !IrqRegs D} undef (s : driver Q) (d : D) :
  drv_inv s -> linkUp_of s = true ->
  let '(s', d') := interface_on undef s d in
  linkUp_of s' = false -> interfaceEnabled s' = true /\ imr d' = 0.
Proof.
  intros Hi Hl. unfold interface_on. rewrite bind_run.
  destruct (rets_hw_call _ _ s (hw_enable undef _) d) as (h&_&E). rewrite E.
  set (d1 := (hw_call _ s d).2). cbv zeta. rewrite !bind_run. unfold ret. cbn [fst snd].
  set (s2 := set_enabled true _). assert (L2 : linkUp_of s2 = true) by exact Hl.
  assert (E2 : interfaceEnabled s2 = true) by done. pose proof (update_same undef s2) as Hs. clearbody s2. intros Hd. split.
  - etransitivity; [apply Hs|exact E2].
  - revert Hd. by apply (update_from_up undef s2 L2).
Qed.

Module IrqSim.
Import RegFile DriverSim.

Lemma off_reg a b : irq_reg a = false -> b = IMR0_8125 \/ b = TIMER_INT0_8125 -> a <> b.
Proof. by intros H [-> | ->] ->. Qed.

#[export] Program Instance sim_irq : IrqRegs dev := {|
  imr := fun d => u32 (aget 0 d IMR0_8125); tmr := fun d => u32 (aget 0 d TIMER_INT0_8125) |}.
Next Obligation. done. Qed.
Next Obligation. done. Qed.
Next Obligation. done. Qed.
Next Obligation. intros a v d H. split; cbn; rewrite aget_insert_ne; auto using off_reg, not_eq_sym. Qed.
Next Obligation. intros a v d H _. split; cbn; rewrite aget_insert_ne; auto using off_reg, not_eq_sym. Qed.
Next Obligation. intros a v d H _. split; cbn; rewrite aget_insert_ne; auto using off_reg, not_eq_sym. Qed.
Next Obligation.
  intros v d. cbn. rewrite aget_insert_eq, aget_insert_ne by done. split; [apply u32_small, u32_range|done].
Qed.
Next Obligation.
  intros v d. cbn. rewrite aget_insert_eq, aget_insert_ne by done. split; [done|apply u32_small, u32_range].
Qed.
Next Obligation. done. Qed.
Next Obligation. done. Qed.
Next Obligation. done. Qed.

Lemma interrupts_never_lost_witness : exists s, (started chip).1.1 = Some s /\
  let '(s', d') := on_events 0 [EvSetInterfaceEnable true; EvInterrupt; EvStatsTimer] s (started chip).2 in
  interfaceEnabled s' = true -> imr d' = intrMask (irq (nic s')).
Proof.
  assert (H : (match (started chip).1.1 with Some _ => true | None => false end) = true) by (vm_compute; reflexivity).
  destruct ((started chip).1.1) as [s|] eqn:E; [|discriminate]. exists s. split; [reflexivity|].
  pose proof (interrupts_never_lost 0 tp0 [0; 0; 0; 0; 0; 0] (Some (0x10000, 0x20000, 0x30000)) ∅ [] 0x8127cafe
    [EvSetInterfaceEnable true; EvInterrupt; EvStatsTimer] chip s E eq_refl) as K.
  unfold started. destruct (on_events _ _ _ _) as [s' d']. intros He. apply K, He.
Defined.
End IrqSim.
