(* ===== verification/RequestSpec.v ===== *)
(** What the interface requests do: the station address, the MTU and the
    medium. *)
From S2P Require Import Prelude Fifo Frame TxRing RxRing.
From S2P Require Import Mmio Channel Chip SwVars Eeprom Hw Mcu Power Fiber PhyConfig RxFilter BringUp Driver.
From S2P Require Import RxFilterSpec DriverSpec.
Local Open Scope prog_scope.

(** ** The station address *)

(** The address registers keep their bytes; the configuration lock is
    elsewhere. *)
Definition addr_byte (a : Z) : bool := ((0 <=? a) && (a <? 8)) || ((BACKUP_ADDR0_8125 <=? a) && (a <? BACKUP_ADDR0_8125 + 6)).

Class AddrRegs (D : Type) `{M : !Mmio D} := {
  oct : D -> Z -> Z;
  oct_range : forall d a, 0 <= oct d a < 256;
  oct_r8 : forall a d, let '(v, d') := RTL_R8 a d in (forall b, oct d' b = oct d b) /\ (addr_byte a = true -> v = oct d a);
  oct_r32 : forall d, let '(v, d') := RTL_R32 BACKUP_ADDR0_8125 d in
    (forall b, oct d' b = oct d b) /\ 0 <= v < 2 ^ 32 /\ forall k, 0 <= k < 4 -> u8 (Z.shiftr v (8 * k)) = oct d (BACKUP_ADDR0_8125 + k);
  oct_r16 : forall d, let '(v, d') := RTL_R16 BACKUP_ADDR1_8125 d in
    (forall b, oct d' b = oct d b) /\ forall k, 0 <= k < 2 -> u8 (Z.shiftr v (8 * k)) = oct d (BACKUP_ADDR1_8125 + k);
  oct_w32 : forall a v d b, a = MAC0 \/ a = MAC4 ->
    oct (RTL_W32 a v d).2 b = if (a <=? b) && (b <? a + 4) then u8 (Z.shiftr v (8 * (b - a))) else oct d b;
  oct_lock : forall v d b, b <> Cfg9346 -> oct (RTL_W8 Cfg9346 v d).2 b = oct d b;
}.

(** Six octets. *)
Definition mac_ok (a : list Z) : Prop := length a = 6%nat /\ Forall (fun o => 0 <= o < 256) a.

Lemma mac_six a : mac_ok a -> exists a0 a1 a2 a3 a4 a5, a = [a0; a1; a2; a3; a4; a5] /\
  0 <= a0 < 256 /\ 0 <= a1 < 256 /\ 0 <= a2 < 256 /\ 0 <= a3 < 256 /\ 0 <= a4 < 256 /\ 0 <= a5 < 256.
Proof.
  intros [Hl Hf]. destruct a as [|a0 [|a1 [|a2 [|a3 [|a4 [|a5 [|? ?]]]]]]]; try discriminate.
  rewrite !Forall_cons in Hf. exists a0, a1, a2, a3, a4, a5. tauto.
Qed.

Lemma random_buf_ok n : forall seed, let l := (random_buf n seed).1 in length l = n /\ Forall (fun o => 0 <= o < 256) l.
Proof.
  induction n as [|n IH]; intros seed; [done|]. cbn [random_buf]. specialize (IH (xorshift seed)).
  destruct (random_buf n (xorshift seed)) as [l s']. cbn [fst] in *. destruct IH as [<- IH].
  split; [done|]. constructor; [apply u8_range|done].
Qed.

(** The random octet with the two bits fixed: local, not multicast. *)
Lemma local_octet b : 0 <= b < 256 -> let o := (b .& 0xfe) .| 0x02 in 0 <= o < 256 /\ has o 1 = false /\ o <> 0.
Proof.
  intros Hb o. assert (E : Forall (fun b => let o := (b .& 0xfe) .| 0x02 in 0 <= o < 256 /\ has o 1 = false /\ o <> 0)
    (Z.of_nat <$> seq 0 256)) by (vm_compute; repeat constructor; discriminate).
  rewrite Forall_forall in E. apply E. apply list_elem_of_fmap. exists (Z.to_nat b). rewrite elem_of_seq. lia.
Qed.

Lemma random_local seed :
  nth 0 (let '(l, seed') := random_buf 6 seed in
         match l with b :: r => (((b .& 0xfe) .| 0x02) :: r, seed') | [] => (l, seed') end).1 0 .& 0x03 = 0x02.
Proof.
  cbn [random_buf]. cbn [fst nth]. rewrite Z.land_lor_distr_l, <- Z.land_assoc.
  change (0xfe .& 0x03) with 0x02. change (0x02 .& 0x03) with 0x02.
  apply Z.bits_inj'. intros n Hn. rewrite Z.lor_spec, Z.land_spec. by destruct (Z.testbit 2 n); rewrite ?andb_false_r, ?orb_true_r.
Qed.

Lemma choose_mac_ok cur fb orig seed : mac_ok cur -> mac_ok fb -> mac_ok orig ->
  let a := (choose_mac cur fb orig seed).1 in mac_ok a /\ is_valid_ether_addr a = true.
Proof.
  intros Hc Hf Ho. unfold choose_mac. destruct (is_valid_ether_addr cur) eqn:E1; [done|].
  destruct (is_valid_ether_addr fb) eqn:E2; [done|]. destruct (is_valid_ether_addr orig) eqn:E3; [done|].
  pose proof (random_buf_ok 6 seed) as H. destruct (random_buf 6 seed) as [l s']. cbn [fst] in H.
  destruct l as [|b r]; [by destruct H|]. cbn [fst]. destruct H as [Hl Hr]. inversion Hr as [|? ? Hb Hr']. subst.
  destruct (local_octet b Hb) as (Ho1&Hm&Hn). split.
  - split; [done|]. by constructor.
  - unfold is_valid_ether_addr, is_multicast_ether_addr, is_zero_ether_addr. cbn [nth forallb].
    rewrite Hm. by rewrite (proj2 (Z.eqb_neq _ 0) Hn).
Qed.

Lemma lor_shl x y n : 0 <= n -> 0 <= x < 2 ^ n -> x .| Z.shiftl y n = x + y * 2 ^ n.
Proof. intros Hn Hx. rewrite Z.shiftl_mul_pow2, Z.lor_comm, lor_add_shift by done. lia. Qed.

(** Evaluate powers of two and indices at a known position. *)
Ltac at_position :=
  repeat match goal with
  | |- context [2 ^ ?e] => let v := eval vm_compute in (2 ^ e) in progress change (2 ^ e) with v
  | |- context [Z.to_nat ?e] => let v := eval vm_compute in (Z.to_nat e) in progress change (Z.to_nat e) with v
  end; cbn [nth].

(** Byte [k] of the two words is octet [k] of the address. *)
Lemma rar_bytes a k : mac_ok a -> 0 <= k < 6 ->
  u8 (if k <? 4 then Z.shiftr (rar_low a) (8 * k) else Z.shiftr (rar_high a) (8 * (k - 4))) = nth (Z.to_nat k) a 0.
Proof.
  intros Ha Hk. apply mac_six in Ha as (a0&a1&a2&a3&a4&a5&->&?&?&?&?&?&?).
  assert (Lo : rar_low [a0; a1; a2; a3; a4; a5] = a0 + 256 * a1 + 65536 * a2 + 16777216 * a3).
  { unfold rar_low. cbn [nth]. rewrite (lor_shl a0 a1 8) by lia.
    rewrite (lor_shl _ a2 16) by lia. rewrite (lor_shl _ a3 24) by lia. lia. }
  assert (Hi : rar_high [a0; a1; a2; a3; a4; a5] = a4 + 256 * a5).
  { unfold rar_high. cbn [nth]. rewrite (lor_shl a4 a5 8) by lia. lia. }
  rewrite Lo, Hi. unfold u8. destruct (Z.ltb_spec k 4); rewrite Z.shiftr_div_pow2 by lia.
  - assert (E : k = 0 \/ k = 1 \/ k = 2 \/ k = 3) by lia. destruct E as [-> | [-> | [-> | ->]]]; at_position; lia.
  - assert (E : k = 4 \/ k = 5) by lia. destruct E as [-> | ->]; at_position; lia.
Qed.

Section Station.
Context {D : Type} `{M : !Mmio D} `{A : !AddrRegs D}.

Lemma lock_oct (f : Z -> Z) d b : b <> Cfg9346 -> oct ((do v <- RTL_R8 Cfg9346; RTL_W8 Cfg9346 (f v)) d).2 b = oct d b.
Proof.
  intros Hb. rewrite bind_run, oct_lock by done. pose proof (oct_r8 Cfg9346 d) as H. destruct (RTL_R8 Cfg9346 d) as [v d']. apply H.
Qed.

Lemma rar_set_oct a d b : mac_ok a -> b <> Cfg9346 ->
  oct (rtl8125_rar_set a d).2 b = if (0 <=? b) && (b <? 6) then nth (Z.to_nat b) a 0
                                  else if (6 <=? b) && (b <? 8) then 0 else oct d b.
Proof.
  intros Ha Hb. unfold rtl8125_rar_set, rtl8125_enable_cfg9346_write, rtl8125_disable_cfg9346_write, set8, clr8.
  rewrite bind_run. set (d1 := (_ d).2). rewrite bind_run, bind_run.
  rewrite (lock_oct (fun v => v .&~ Cfg9346_Unlock)), oct_w32, oct_w32 by auto.
  assert (E1 : oct d1 b = oct d b) by (by apply (lock_oct (fun v => v .| Cfg9346_Unlock))). rewrite E1.
  unfold MAC0, MAC4. destruct (Z.leb_spec 0 b) as [H0|H0]; cbn [andb].
  - destruct (Z.ltb_spec b 6) as [H6|H6].
    + pose proof (rar_bytes a b Ha ltac:(lia)) as Hk. destruct (Z.ltb_spec b 4) as [H4|H4].
      * rewrite (proj2 (Z.leb_gt 4 b)) by lia. cbn [andb]. rewrite (proj2 (Z.ltb_lt b (0 + 4))) by lia.
        by rewrite Z.sub_0_r.
      * rewrite (proj2 (Z.leb_le 4 b)), (proj2 (Z.ltb_lt b (4 + 4))) by lia. exact Hk.
    + rewrite (proj2 (Z.leb_le 6 b)), (proj2 (Z.leb_le 4 b)) by lia. cbn [andb]. destruct (Z.ltb_spec b 8) as [H8|H8].
      * rewrite (proj2 (Z.ltb_lt b (4 + 4))) by lia. cbn [andb].
        assert (Hr : 0 <= rar_high a < 65536).
        { apply mac_six in Ha as (a0&a1&a2&a3&a4&a5&->&?&?&?&?&?&?). unfold rar_high. cbn [nth].
          rewrite (lor_shl a4 a5 8) by lia. lia. }
        assert (E : b = 6 \/ b = 7) by lia. unfold u8. rewrite Z.shiftr_div_pow2 by lia.
        destruct E as [-> | ->]; at_position; lia.
      * rewrite (proj2 (Z.ltb_ge b (4 + 4))) by lia. by rewrite (proj2 (Z.ltb_ge b (0 + 4))) by lia.
  - rewrite (proj2 (Z.leb_gt 4 b)), (proj2 (Z.leb_gt 6 b)) by lia. done.
Qed.

(** The six registers, in order. *)
Definition octets (a : Z) (d : D) : list Z := (fun k => oct d (a + Z.of_nat k)) <$> seq 0 6.

Lemma octets_ok a d : mac_ok (octets a d).
Proof. split; [done|]. unfold octets. apply Forall_fmap, Forall_true. intros. apply oct_range. Qed.

Lemma read_bytes_oct n : forall a d, 0 <= a -> a + Z.of_nat n <= 8 ->
  let '(l, d') := read_bytes n a d in l = ((fun k => oct d (a + Z.of_nat k)) <$> seq 0 n) /\ forall b, oct d' b = oct d b.
Proof.
  induction n as [|n IH]; intros a d Ha Hn; [done|]. cbn [read_bytes]. rewrite bind_run.
  pose proof (oct_r8 a d) as H. destruct (RTL_R8 a d) as [v d1]. cbn [fst snd]. destruct H as [H1 Hv].
  rewrite bind_run. specialize (IH (a + 1) d1 ltac:(lia) ltac:(lia)). destruct (read_bytes n (a + 1) d1) as [l d2].
  destruct IH as [-> H2]. cbn [fst snd ret]. split; [|intros b; by rewrite H2].
  rewrite Hv by (unfold addr_byte; apply orb_true_iff; left; apply andb_true_iff; lia).
  cbn [seq fmap list_fmap]. f_equal; [f_equal; lia|]. rewrite <- fmap_S_seq, <- list_fmap_compose.
  apply list_fmap_ext. intros i k _. cbn. rewrite H1. f_equal. lia.
Qed.

(** The three addresses the chip and the configuration hold. *)
Definition backup (d : D) : list Z := octets BACKUP_ADDR0_8125 d.

Lemma backup_read d lo hi d1 d2 : RTL_R32 BACKUP_ADDR0_8125 d = (lo, d1) -> RTL_R16 BACKUP_ADDR1_8125 d1 = (hi, d2) ->
  le_bytes 4 lo ++ le_bytes 2 hi = backup d /\ forall b, oct d2 b = oct d b.
Proof.
  intros E1 E2. pose proof (oct_r32 d) as H. rewrite E1 in H. destruct H as (H1&_&Hl).
  pose proof (oct_r16 d1) as H. rewrite E2 in H. destruct H as (H2&Hh). split; [|intros b; by rewrite H2].
  unfold le_bytes, backup, octets. cbn [fmap list_fmap seq app].
  rewrite (Hl (Z.of_nat 0)), (Hl (Z.of_nat 1)), (Hl (Z.of_nat 2)), (Hl (Z.of_nat 3)) by lia.
  rewrite (Hh (Z.of_nat 0)), (Hh (Z.of_nat 1)), !H1 by lia. done.
Qed.

(** What initMacAddr computes, in one equation. *)
Lemma init_mac_run h seed d :
  let c := choose_mac (octets MAC0 d) (fallBackMacAddr (addrs h)) (backup d) seed in
  exists d1, (forall b, oct d1 b = oct d b) /\
  initMacAddr h seed d =
    ((set_addrs (mkMacs c.1 (backup d) (fallBackMacAddr (addrs h))) h, c.2), (rtl8125_rar_set c.1 d1).2).
Proof.
  cbv zeta. unfold initMacAddr. rewrite bind_run. pose proof (read_bytes_oct 6 MAC0 d ltac:(done) ltac:(by cbn)) as H.
  destruct (read_bytes 6 MAC0 d) as [cur d1]. destruct H as [-> H1]. cbn [fst snd]. rewrite bind_run.
  destruct (RTL_R32 BACKUP_ADDR0_8125 d1) as [lo d2] eqn:E2. cbn [fst snd]. rewrite bind_run.
  destruct (RTL_R16 BACKUP_ADDR1_8125 d2) as [hi d3] eqn:E3. cbn [fst snd].
  destruct (backup_read d1 lo hi d2 d3 E2 E3) as [Eb H3]. rewrite Eb.
  assert (Ebk : backup d1 = backup d) by (unfold backup, octets; apply list_fmap_ext; intros; apply H1). rewrite Ebk.
  exists d3. split; [intros b; by rewrite H3, H1|]. unfold octets.
  destruct (choose_mac _ _ _ _) as [a sd]. rewrite bind_run. done.
Qed.
End Station.

(** C26: initMacAddr always ends with a usable station address: six octets, not
    multicast and not zero, the same in the object and in the chip's registers.
    It is the address already in the registers when that is valid, otherwise the
    configured one, otherwise the backup of the chip, otherwise a random local
    one; nothing else of the object changes, and a second run keeps the address,
    whatever the state of the random generator. *)
Theorem station_address_valid {D} `{M : !Mmio D} `{A : !AddrRegs D} h seed (d : D) :
  mac_ok (fallBackMacAddr (addrs h)) ->
  let '((h', _), d') := initMacAddr h seed d in
  let a := currMacAddr (addrs h') in
  (mac_ok a /\ is_valid_ether_addr a = true) /\
  octets MAC0 d' = a /\
  match find is_valid_ether_addr [octets MAC0 d; fallBackMacAddr (addrs h); backup d] with
  | Some l => a = l
  | None => nth 0 a 0 .& 0x03 = 0x02
  end /\
  (exists m, h' = set_addrs m h) /\
  (forall seed', currMacAddr (addrs (initMacAddr h' seed' d').1.1) = a).
Proof.
  intros Hf. destruct (init_mac_run h seed d) as (d1&H1&->).
  pose proof (choose_mac_ok (octets MAC0 d) _ (backup d) seed (octets_ok _ d) Hf (octets_ok _ d)) as [Ho Hv].
  set (c := choose_mac _ _ _ _) in *. cbn [addrs set_addrs currMacAddr].
  assert (Er : octets MAC0 (rtl8125_rar_set c.1 d1).2 = c.1).
  { destruct (mac_six _ Ho) as (a0&a1&a2&a3&a4&a5&Ec&_). unfold octets. cbn [fmap list_fmap seq].
    rewrite !rar_set_oct by done. rewrite Ec. reflexivity. }
  split; [done|]. split; [exact Er|]. split; [|split].
  - unfold c, choose_mac. cbn [find]. destruct (is_valid_ether_addr (octets MAC0 d)); [done|].
    destruct (is_valid_ether_addr (fallBackMacAddr (addrs h))); [done|].
    destruct (is_valid_ether_addr (backup d)); [done|]. apply random_local.
  - by eexists.
  - intros seed'. destruct (init_mac_run (set_addrs (mkMacs c.1 (backup d) (fallBackMacAddr (addrs h))) h) seed'
      (rtl8125_rar_set c.1 d1).2) as (d2&H2&->). cbn [fst addrs set_addrs currMacAddr].
    rewrite Er. unfold choose_mac. by rewrite Hv.
Qed.

(** ** The MTU *)

Lemma vlan_bit n : 0 <= n < 32768 -> has n AcceppVlanPhys = false /\ has (n .| AcceppVlanPhys) AcceppVlanPhys = true.
Proof.
  intros Hn. unfold AcceppVlanPhys. change 0x8000 with (BIT 15). rewrite !has_bit by lia. rewrite Z.lor_spec.
  split; [|by rewrite orb_true_r]. apply (testbit_high n 15); lia.
Qed.

Lemma ldiff_clear n : has n AcceppVlanPhys = false -> n .&~ AcceppVlanPhys = n.
Proof.
  unfold AcceppVlanPhys. change 0x8000 with (BIT 15). rewrite has_bit by lia. intros Hb. apply Z.bits_inj'. intros i Hi.
  unfold BIT. rewrite Z.ldiff_spec, Z.pow2_bits_eqb by lia. destruct (Z.eqb_spec 15 i) as [<-|]; [by rewrite Hb|apply andb_true_r].
Qed.

(** C29: setMaxTransferUnit refuses an MTU below 60 or above 9000 and then changes
    neither the driver nor the chip. It accepts every other value: the MTU is
    kept in both places, the receive size becomes the MTU plus 22, which fits a
    receive buffer, and one register is written if the interface is enabled,
    none otherwise. That write leaves out the VLAN bit which the configuration on
    a link change puts into the same register on the chips that have it. *)
Theorem mtu_request {Q} {D} `{M : !Mmio D} m (s : driver Q) (d : D) :
  ((m < ETH_ZLEN \/ kMaxMtu < m) -> setMaxTransferUnit m s d = ((kIOReturnUnsupported, s), d)) /\
  (ETH_ZLEN <= m <= kMaxMtu ->
   let '((r, s'), d') := setMaxTransferUnit m s d in
   let size := m + VLAN_ETH_HLEN + ETH_FCS_LEN in
   let mcfg := tp_mcfg (linuxData (nic s')) in
   r = kIOReturnSuccess /\ mtu_of s' = m /\ BringUp.mtu (nic s') = m /\ rms (linuxData (nic s')) = size /\
   size < kRxBufferSize /\ (rx s', interfaceEnabled s', calls s') = (rx s, interfaceEnabled s, calls s) /\
   d' = (if interfaceEnabled s then (RTL_W16 RxMaxSize size d).2 else d) /\
   (forall d0 : D, rtl8125_set_rms mcfg (rms (linuxData (nic s'))) d0 =
      RTL_W16 RxMaxSize (if rms_vlan mcfg then size .| AcceppVlanPhys else size) d0) /\
   has size AcceppVlanPhys = false /\ has (size .| AcceppVlanPhys) AcceppVlanPhys = true).
Proof.
  unfold setMaxTransferUnit, ETH_ZLEN, kMaxMtu. split.
  - intros H. assert (E : (m <? 60) || (9000 <? m) = true) by (apply orb_true_iff; rewrite !Z.ltb_lt; lia). by rewrite E.
  - intros H. assert (E : (m <? 60) || (9000 <? m) = false) by (apply orb_false_iff; rewrite !Z.ltb_ge; lia). rewrite E.
    assert (Es : u16 (m + VLAN_ETH_HLEN + ETH_FCS_LEN) = m + VLAN_ETH_HLEN + ETH_FCS_LEN)
      by (apply u16_small; unfold VLAN_ETH_HLEN, ETH_FCS_LEN; lia).
    cbv zeta. rewrite bind_run. unfold ret.
    assert (Hr : rms (set_frame_sizes m (linuxData (set_mtu m (nic s)))) = m + VLAN_ETH_HLEN + ETH_FCS_LEN) by exact Es.
    pose proof (vlan_bit (m + VLAN_ETH_HLEN + ETH_FCS_LEN) ltac:(unfold VLAN_ETH_HLEN, ETH_FCS_LEN; lia)) as [V1 V2].
    split; [done|]. split; [done|]. split; [done|]. split; [exact Es|].
    split; [unfold kRxBufferSize, VLAN_ETH_HLEN, ETH_FCS_LEN; lia|]. split; [done|]. split; [|split; [|done]].
    + cbn -[RTL_W16 u16]. rewrite Es. by destruct (interfaceEnabled s).
    + intros d0. unfold rtl8125_set_rms. cbn -[RTL_W16 AcceppVlanPhys rms_vlan u16]. rewrite !Es.
      destruct (rms_vlan _); [done|]. f_equal. by apply ldiff_clear.
Qed.

(** ** The medium *)

Section Medium.
Context {D : Type} `{M : !Mmio D} (undef : Z).

(** The copper branch for a known speed: the registers do not depend on it. *)
Definition copper_registers (tp : tpvars) (adv : Z) : prog D tpvars :=
  (if eee_enabled (eee (tp_sw tp)) then enable_eee undef tp else rtl8125_disable_eee (ctx tp)) ;;;
  rtl8125_disable_giga_lite (ctx tp) ;;;
  do g <- rtl8125_mdio_read (tp_chan tp) (cur_page tp) MII_CTRL1000;
  do x <- mdio_direct_read_phy_ocp 0xA5D4;
  advertise tp (s32 g .&~ giga_modes) (x .&~ multi_modes) adv.

Lemma copper_medium tp sp du adv d : HW_FIBER_MODE_ENABLED tp = false -> rtl8125_is_speed_mode_valid sp = true ->
  rtl812xSetPhyMedium undef tp AUTONEG_ENABLE sp du adv d =
  (store_link AUTONEG_ENABLE sp du adv (copper_registers tp adv d).1, (copper_registers tp adv d).2).
Proof.
  intros Hf Hs. unfold rtl812xSetPhyMedium, copper_registers, medium_speed. rewrite Hf, Hs, !andb_true_r.
  cbn [AUTONEG_ENABLE Z.eqb Pos.eqb]. rewrite !bind_run. cbn [fst snd ret]. done.
Qed.

Lemma chosen_speed_valid m : rtl8125_is_speed_mode_valid (chosen_speed m) = true.
Proof. destruct m as [[] []]; reflexivity. Qed.
End Medium.

(** On copper the medium the user selects does not reach the chip: for any
    two media words, 10BASE-T and 10GBASE-T included, handleChosenMedia leaves
    the chip in the same state and the advertised modes as they were; all it
    records is the word and the speed. *)
Theorem media_choice_ignored_on_copper {Q} {D} `{M : !Mmio D} undef m1 m2 (s : driver Q) (d : D) :
  HW_FIBER_MODE_ENABLED (linuxData (nic s)) = false ->
  let '((_, s1), d1) := handleChosenMedia undef m1 s d in
  let '((_, s2), d2) := handleChosenMedia undef m2 s d in
  d1 = d2 /\ currentMedia s1 = m1 /\
  advertising (link (tp_sw (linuxData (nic s1)))) = advertising (link (tp_sw (linuxData (nic s)))) /\
  (interfaceEnabled s = true -> speed (link (tp_sw (linuxData (nic s1)))) = chosen_speed m1).
Proof.
  intros Hf. unfold handleChosenMedia. cbv zeta. rewrite !bind_run. unfold ret.
  change (interfaceEnabled (set_media m1 s)) with (interfaceEnabled s).
  change (interfaceEnabled (set_media m2 s)) with (interfaceEnabled s).
  destruct (interfaceEnabled s); [|done]. unfold tp_call. rewrite !bind_run. unfold ret. cbn [fst snd].
  rewrite !copper_medium by (try done; apply chosen_speed_valid).
  split; [done|]. split; [done|]. cbn [nic set_nic linuxData set_tp fst snd].
  unfold store_link, rtl8125_set_d0_speedup_speed. by case_match.
Qed.

(** ** Witnesses *)
Module ByteFile.

Abbreviation dev := (gmap Z Z).
Definition rd8 (d : dev) (a : Z) : Z := aget 0 d a.
Definition wr (n : nat) (a v : Z) (d : dev) : dev :=
  foldl (fun d k => <[a + Z.of_nat k := u8 (Z.shiftr v (8 * Z.of_nat k))]> d) d (seq 0 n).

#[export] Instance byte_mmio : Mmio dev := {|
  R8 := fun a d => (rd8 d a, d);
  R16 := fun a d => (u8 (rd8 d a) + 256 * u8 (rd8 d (a + 1)), d);
  R32 := fun a d => (u8 (rd8 d a) + 256 * u8 (rd8 d (a + 1)) + 65536 * u8 (rd8 d (a + 2)) + 16777216 * u8 (rd8 d (a + 3)), d);
  W8 := wr 1; W16 := wr 2; W32 := wr 4; udelay := fun _ d => d |}.

Lemma wr4 a v d b : u8 (rd8 (wr 4 a v d) b) = if (a <=? b) && (b <? a + 4) then u8 (Z.shiftr v (8 * (b - a))) else u8 (rd8 d b).
Proof.
  unfold wr, rd8. cbn [seq foldl]. change (Z.of_nat 0) with 0. change (Z.of_nat 1) with 1.
  change (Z.of_nat 2) with 2. change (Z.of_nat 3) with 3. rewrite Z.add_0_r.
  assert (Hu : forall x, u8 (u8 x) = u8 x) by (intros; apply u8_small, u8_range).
  destruct (Z.leb_spec a b); cbn [andb].
  - destruct (Z.ltb_spec b (a + 4)).
    + assert (E : b = a + 3 \/ b = a + 2 \/ b = a + 1 \/ b = a) by lia.
      destruct E as [-> | [-> | [-> | ->]]]; repeat (rewrite aget_insert_ne by lia); rewrite aget_insert_eq, Hu;
        do 2 f_equal; lia.
    + by repeat (rewrite aget_insert_ne by lia).
  - by repeat (rewrite aget_insert_ne by lia).
Qed.

#[export] Program Instance byte_addr : AddrRegs dev := {| oct := fun d a => u8 (rd8 d a) |}.
Next Obligation. intros d a. apply u8_range. Qed.
Next Obligation. done. Qed.
Next Obligation.
  intros d. cbn -[Z.mul]. set (b0 := u8 (rd8 d _)). set (b1 := u8 (rd8 d _)). set (b2 := u8 (rd8 d _)). set (b3 := u8 (rd8 d _)).
  assert (H : 0 <= b0 < 256 /\ 0 <= b1 < 256 /\ 0 <= b2 < 256 /\ 0 <= b3 < 256) by (repeat split; apply u8_range).
  split; [done|]. rewrite u32_small by lia. split; [lia|]. intros k Hk. unfold u8 at 1. rewrite Z.shiftr_div_pow2 by lia.
  assert (E : k = 0 \/ k = 1 \/ k = 2 \/ k = 3) by lia.
  destruct E as [-> | [-> | [-> | ->]]]; at_position; match goal with |- _ = ?r => first
    [change r with b0 | change r with b1 | change r with b2 | change r with b3] end; lia.
Qed.
Next Obligation.
  intros d. cbn -[Z.mul]. set (b0 := u8 (rd8 d _)). set (b1 := u8 (rd8 d _)).
  assert (H : 0 <= b0 < 256 /\ 0 <= b1 < 256) by (repeat split; apply u8_range).
  split; [done|]. rewrite u16_small by lia. intros k Hk. unfold u8 at 1. rewrite Z.shiftr_div_pow2 by lia.
  assert (E : k = 0 \/ k = 1) by lia. destruct E as [-> | ->]; at_position;
    match goal with |- _ = ?r => first [change r with b0 | change r with b1] end; lia.
Qed.
Next Obligation.
  intros a v d b Ha. cbn -[Z.mul wr]. rewrite wr4. case_match; [|done]. apply andb_true_iff in H as [H1 H2].
  apply Z.leb_le in H1. apply Z.ltb_lt in H2. unfold u8, u32. rewrite !Z.shiftr_div_pow2 by lia.
  assert (E : b - a = 0 \/ b - a = 1 \/ b - a = 2 \/ b - a = 3) by lia.
  destruct E as [-> | [-> | [-> | ->]]]; at_position; lia.
Qed.
Next Obligation. intros v d b Hb. cbn. unfold rd8. rewrite aget_insert_ne; [done|]. exact (not_eq_sym Hb). Qed.

Definition tp_for (id : identified) : tpvars :=
  mkTpv (mkTp id sw_zero false) 0 0 false false 0 0 0 0 (EEPROM_TYPE_NONE, 0) (mkMcu 0 0) (mkWolSt 0 0 0 0) 0 0 0.
Definition nic0 : hwst := hw_new 0x8127 [0x02; 0x11; 0x22; 0x33; 0x44; 0x55] (tp_for (mkId CFG_METHOD_42 16 false rcr_27)).
Definition drv0 : driver fifo := set_enabled true (fresh_driver nic0 false ∅ []).

Lemma station_address_valid_witness :
  let '((h', _), d') := initMacAddr nic0 1 (∅ : dev) in
  currMacAddr (addrs h') = [0x02; 0x11; 0x22; 0x33; 0x44; 0x55] /\ octets MAC0 d' = currMacAddr (addrs h').
Proof.
  assert (Hf : mac_ok (fallBackMacAddr (addrs nic0))) by (split; [reflexivity|repeat constructor; discriminate]).
  pose proof (station_address_valid nic0 1 (∅ : dev) Hf) as H.
  destruct (initMacAddr nic0 1 (∅ : dev)) as [[h' sd] d']. destruct H as (_&H1&H2&_). split; [|exact H1].
  vm_compute in H2. exact H2.
Defined.

Lemma media_choice_ignored_on_copper_witness :
  (handleChosenMedia 0 (plain Ethernet10BaseT) drv0 (∅ : dev)).2 = (handleChosenMedia 0 (plain Ethernet10GBaseT) drv0 (∅ : dev)).2.
Proof.
  pose proof (media_choice_ignored_on_copper 0 (plain Ethernet10BaseT) (plain Ethernet10GBaseT) drv0 (∅ : dev) eq_refl) as H.
  destruct (handleChosenMedia 0 (plain Ethernet10BaseT) drv0 ∅) as [[r1 s1] d1].
  destruct (handleChosenMedia 0 (plain Ethernet10GBaseT) drv0 ∅) as [[r2 s2] d2]. apply H.
Defined.

Lemma mtu_request_witness :
  setMaxTransferUnit 59 drv0 (∅ : dev) = ((kIOReturnUnsupported, drv0), ∅) /\
  (setMaxTransferUnit 9000 drv0 (∅ : dev)).1.1 = kIOReturnSuccess.
Proof.
  split.
  - apply (proj1 (mtu_request 59 drv0 (∅ : dev))). left. reflexivity.
  - pose proof (proj2 (mtu_request 9000 drv0 (∅ : dev)) ltac:(split; discriminate)) as H.
    destruct (setMaxTransferUnit 9000 drv0 (∅ : dev)) as [[r s'] d']. apply H.
Defined.
End ByteFile.
