(* ===== verification/KextPool.v ===== *)
(** * The receive packet pool of the kernel extension

    RTL8125LucyRxPool: two linked lists of spare mbufs (with and without a
    cluster), taken from at the head when the kernel's allocator fails and
    refilled at the tail by a thread call. The two sides run without a lock;
    [pool_step] interleaves them at every access to shared memory. The mbuf calls
    of the kernel are the class [MbufKpi]. *)
From S2P Require Import Prelude.

(** ** The kernel's mbufs

    An mbuf is a positive address, 0 is NULL. [mbuf_allocpacket] asks for one
    chunk; [None] is an error. [mbuf_rewind m] is
    [mbuf_setdata(m, mbuf_datastart(m), 0)]. [mbuf_live]: allocated. *)
Inductive mbuf_how := MBUF_WAITOK | MBUF_DONTWAIT.

Class Mbufs (K : Type) := {
  mbuf_nextpkt : Z -> K -> Z;
  mbuf_setnextpkt : Z -> Z -> K -> K;
  mbuf_allocpacket : mbuf_how -> Z -> K -> option Z * K;
  mbuf_rewind : Z -> K -> K;
  mbuf_freem_list : Z -> K -> K;
  mbuf_copy_pkthdr : Z -> Z -> K -> K;
  mbuf_pkthdr_setheader : Z -> Z -> K -> K;
  mbuf_bcopy : Z -> Z -> Z -> K -> K;
  mbuf_live : Z -> K -> bool;
}.

(** The mbufs [l] linked by their nextpkt fields from [h] on. *)
Fixpoint chain {K} `{!Mbufs K} (k : K) (h : Z) (l : list Z) : Prop :=
  match l with
  | [] => h = 0
  | m :: l' => h = m /\ m <> 0 /\ chain k (mbuf_nextpkt m k) l'
  end.

(** [k'] has the same allocation state and link of [m] as [k]. *)
Definition same_mbuf {K} `{!Mbufs K} (k k' : K) (m : Z) : Prop :=
  mbuf_live m k' = mbuf_live m k /\ mbuf_nextpkt m k' = mbuf_nextpkt m k.

(** The documented behaviour the pool relies on. *)
Class MbufKpi (K : Type) `{B : !Mbufs K} := {
  nextpkt_set m m' x k : mbuf_nextpkt m (mbuf_setnextpkt m' x k) = if m =? m' then x else mbuf_nextpkt m k;
  live_setnextpkt m m' x k : mbuf_live m (mbuf_setnextpkt m' x k) = mbuf_live m k;
  alloc_some how n k m k' : mbuf_allocpacket how n k = (Some m, k') ->
    m <> 0 /\ mbuf_live m k = false /\ mbuf_live m k' = true /\ mbuf_nextpkt m k' = 0 /\
    forall m', m' <> m -> same_mbuf k k' m';
  alloc_none how n k k' m : mbuf_allocpacket how n k = (None, k') -> same_mbuf k k' m;
  rewind_same m k m' : same_mbuf k (mbuf_rewind m k) m';
  freem_list_chain k h l m : chain k h l -> NoDup l -> Forall (fun m => mbuf_live m k = true) l ->
    if bool_decide (m ∈ l) then mbuf_live m (mbuf_freem_list h k) = false else same_mbuf k (mbuf_freem_list h k) m;
  copy_pkthdr_same a b k m : same_mbuf k (mbuf_copy_pkthdr a b k) m;
  setheader_same a b k m : same_mbuf k (mbuf_pkthdr_setheader a b k) m;
  bcopy_same a b n k m : same_mbuf k (mbuf_bcopy a b n k) m;
}.

(** ** The pool *)

(** The lists of mbufs without ([Small]) and with ([Cluster]) a page. *)
Inductive buf := Small | Cluster.
#[export] Instance buf_eq_dec : EqDecision buf.
Proof. solve_decision. Defined.

Record side := mkSide { pktHead : Z; pktTail : Z; pktNum : Z; capacity : Z; refillTresh : Z }.

(** [refillEntered]: the thread call is pending. *)
Record pool := mkPool {
  mSide : side;
  cSide : side;
  maxCopySize : Z;
  refillScheduled : bool;
  refillEntered : bool;
}.

(** The page of the Intel build; with it the rings and buffers of the kernel extension
    are modelled. On Apple silicon a page has 16 KB: [KextRxMap] takes the size as a
    parameter and says what the descriptors then hold. *)
Definition PAGE_SIZE : Z := 4096.

Definition side_of (b : buf) (p : pool) : side := match b with Small => mSide p | Cluster => cSide p end.
Definition set_side (b : buf) (s : side) (p : pool) : pool :=
  match b with
  | Small => mkPool s (cSide p) (maxCopySize p) (refillScheduled p) (refillEntered p)
  | Cluster => mkPool (mSide p) s (maxCopySize p) (refillScheduled p) (refillEntered p)
  end.
Definition set_head (h : Z) (s : side) : side := mkSide h (pktTail s) (pktNum s) (capacity s) (refillTresh s).
Definition set_tail (t : Z) (s : side) : side := mkSide (pktHead s) t (pktNum s) (capacity s) (refillTresh s).
Definition set_num (n : Z) (s : side) : side := mkSide (pktHead s) (pktTail s) (s32 n) (capacity s) (refillTresh s).

(** [refillScheduled = true; thread_call_enter_delayed(refillCE, ...)]. *)
Definition schedule (p : pool) : pool := mkPool (mSide p) (cSide p) (maxCopySize p) true true.
Definition set_scheduled (b : bool) (p : pool) : pool :=
  mkPool (mSide p) (cSide p) (maxCopySize p) b (refillEntered p).

Section Code.
Context {K : Type} `{B : !Mbufs K}.

(** The comparison of a signed count with an unsigned limit. *)
Definition below (n limit : Z) : bool := u32 n <? limit.

(** The size asked for and the list that backs it up. *)
Definition buf_of (p : pool) (size : Z) : buf := if maxCopySize p <? size then Cluster else Small.
Definition size_of (b : buf) (p : pool) : Z := match b with Small => maxCopySize p | Cluster => PAGE_SIZE end.

(** The packet at the head, unless it is the last one. *)
Definition pool_take (b : buf) (p : pool) (k : K) : option Z * pool * K :=
  let s := side_of b p in
  if 1 <? pktNum s then
    let s := set_num (pktNum s - 1) s in
    let m := pktHead s in
    let s := set_head (mbuf_nextpkt m k) s in
    let k := mbuf_setnextpkt m 0 k in
    let p := set_side b s p in
    (Some m, if below (pktNum s) (refillTresh s) && negb (refillScheduled p) then schedule p else p, k)
  else (None, p, k).

Definition getPacket (size : Z) (how : mbuf_how) (p : pool) (k : K) : option Z * pool * K :=
  let b := buf_of p size in
  match mbuf_allocpacket how (size_of b p) k with
  | (Some m, k) => (Some m, p, mbuf_rewind m k)
  | (None, k) => pool_take b p k
  end.

(** [while (num < capacity)]: at most [n] rounds; false: an allocation failed. *)
Fixpoint refill_loop (n : nat) (b : buf) (p : pool) (k : K) : bool * pool * K :=
  match n with
  | O => (true, p, k)
  | S n' =>
      let s := side_of b p in
      if below (pktNum s) (capacity s) then
        match mbuf_allocpacket MBUF_DONTWAIT (size_of b p) k with
        | (Some m, k) =>
            let k := mbuf_rewind m k in
            let k := mbuf_setnextpkt (pktTail s) m k in
            refill_loop n' b (set_side b (set_num (pktNum s + 1) (set_tail m s)) p) k
        | (None, k) => (false, p, k)
        end
      else (true, p, k)
  end.

Definition refill_side (b : buf) (p : pool) (k : K) : bool * pool * K :=
  let s := side_of b p in refill_loop (Z.to_nat (capacity s - pktNum s)) b p k.

Definition refillPool (p : pool) (k : K) : pool * K :=
  let '(ok, p, k) := refill_side Small p k in
  let '(_, p, k) := if ok then refill_side Cluster p k else (false, p, k) in
  (set_scheduled false p, k).

(** ** Creation and release *)

(** The body of the loops of initWithCapacity. *)
Fixpoint init_loop (n : nat) (b : buf) (p : pool) (k : K) : bool * pool * K :=
  match n with
  | O => (true, p, k)
  | S n' =>
      match mbuf_allocpacket MBUF_WAITOK (size_of b p) k with
      | (Some m, k) =>
          let s := side_of b p in
          let '(s, k) :=
            if pktHead s =? 0 then (mkSide m m 1 (capacity s) (refillTresh s), k)
            else (set_num (pktNum s + 1) (set_tail m s), mbuf_setnextpkt (pktTail s) m k) in
          init_loop n' b (set_side b s p) (mbuf_rewind m k)
      | (None, k) => (false, p, k)
      end
  end.

Definition release_side (b : buf) (p : pool) (k : K) : pool * K :=
  let s := side_of b p in
  if pktHead s =? 0 then (p, k)
  else (set_side b (mkSide 0 0 0 (capacity s) (refillTresh s)) p, mbuf_freem_list (pktHead s) k).

(** [call]: the thread call could be allocated; [mhlen]: mbuf_get_mhlen(). *)
Definition initWithCapacity (call : bool) (mhlen mbufCapacity clustCapacity : Z) (p : pool) (k : K) : bool * pool * K :=
  if (0 <? mbufCapacity) && (0 <? clustCapacity) then
    let fresh c := mkSide 0 0 0 c (c - Z.shiftr c 1) in
    let p := mkPool (fresh mbufCapacity) (fresh clustCapacity) mhlen false false in
    if negb call then (false, p, k) else
    let '(ok, p, k) := init_loop (Z.to_nat mbufCapacity) Small p k in
    if negb ok then let '(p, k) := release_side Small p k in (false, p, k) else
    let '(ok, p, k) := init_loop (Z.to_nat clustCapacity) Cluster p k in
    if negb ok then
      let '(p, k) := release_side Cluster p k in
      let '(p, k) := release_side Small p k in (false, p, k)
    else (true, p, k)
  else (false, p, k).

(** The thread call is cancelled and both lists are freed. *)
Definition free (p : pool) (k : K) : pool * K :=
  let p := mkPool (mSide p) (cSide p) (maxCopySize p) (refillScheduled p) false in
  let '(p, k) := release_side Cluster p k in release_side Small p k.

(** A new object, all zero; released when the initialisation fails. *)
Definition withCapacity (call : bool) (mhlen mbufCapacity clustCapacity : Z) (k : K) : option pool * K :=
  let none := mkSide 0 0 0 0 0 in
  let '(ok, p, k) := initWithCapacity call mhlen mbufCapacity clustCapacity (mkPool none none 0 false false) k in
  if ok then (Some p, k) else (None, (free p k).2).

(** ** Handing a received packet up

    The packet to pass on, the buffer for the ring, whether they were exchanged.
    [mp] is the buffer in the ring. *)
Definition replaceOrCopyPacket (mp len : Z) (p : pool) (k : K) : option Z * Z * bool * pool * K :=
  if maxCopySize p <? len then
    match getPacket len MBUF_DONTWAIT p k with
    | (Some n, p, k) => (Some mp, n, true, p, k)
    | (None, p, k) => (None, mp, true, p, k)
    end
  else
    match getPacket len MBUF_DONTWAIT p k with
    | (Some m, p, k) =>
        let k := mbuf_copy_pkthdr m mp k in
        let k := mbuf_pkthdr_setheader m 0 k in
        (Some m, mp, false, p, mbuf_bcopy mp m len k)
    | (None, p, k) => (None, mp, false, p, k)
    end.

End Code.
