(* ===== verification/KextPoolSpec.v ===== *)
(** * The receive pool: representation, whole calls, interleavings *)
From stdpp Require Import list.
From S2P Require Import Prelude KextPool.

(** ** Linked lists *)

Section Chains.
Context {K : Type} `{B : !Mbufs K} `{L : !MbufKpi K}.
Implicit Types (k : K) (l : list Z).

Lemma same_refl k m : same_mbuf k k m.
Proof. done. Qed.
Lemma same_trans k1 k2 k3 m : same_mbuf k1 k2 m -> same_mbuf k2 k3 m -> same_mbuf k1 k3 m.
Proof. intros [E1 E2] [E3 E4]. split; congruence. Qed.

Lemma chain_frame k k' l : forall h, Forall (same_mbuf k k') l -> chain k h l -> chain k' h l.
Proof.
  induction l as [|m l IH]; intros h Hs Hc; [done|]. apply Forall_cons in Hs as [[_ E] Hs].
  destruct Hc as (->&Hm&Hc). split; [done|]. split; [done|]. rewrite E. by apply IH.
Qed.

Lemma set_other k m m' x : m <> m' -> same_mbuf k (mbuf_setnextpkt m' x k) m.
Proof. intros H. split; [apply live_setnextpkt|]. rewrite nextpkt_set. by rewrite (proj2 (Z.eqb_neq _ _)). Qed.

Lemma chain_nonzero k l : forall h, chain k h l -> Forall (fun m => m <> 0) l.
Proof. induction l as [|m l IH]; intros h H; [constructor|]. destruct H as (_&Hm&H). constructor; eauto. Qed.

Lemma chain_head k h m l : chain k h (m :: l) -> h = m /\ chain k (mbuf_nextpkt m k) l.
Proof. intros (->&_&H). done. Qed.

(** Linking [m] behind the last element [t]. *)
Lemma chain_link k m l : forall h t, chain k h (l ++ [t]) -> NoDup (l ++ [t]) -> m ∉ l ++ [t] -> m <> 0 ->
  mbuf_nextpkt m k = 0 -> chain (mbuf_setnextpkt t m k) h ((l ++ [t]) ++ [m]).
Proof.
  induction l as [|a l IH]; intros h t Hc Hd Hn Hm H0.
  - destruct Hc as (->&Ht&_). cbn. rewrite !nextpkt_set, Z.eqb_refl. split; [done|]. split; [done|].
    split; [done|]. split; [done|]. destruct (m =? t) eqn:E; [|done]. apply Z.eqb_eq in E. set_solver.
  - cbn [app chain] in *. destruct Hc as (->&Ha&Hc). apply NoDup_cons in Hd as [Hna Hd].
    rewrite nextpkt_set, (proj2 (Z.eqb_neq a t)) by set_solver. split; [done|]. split; [done|]. apply IH; set_solver.
Qed.
End Chains.

(** ** What a side of the pool represents *)

Section Rep.
Context {K : Type} `{B : !Mbufs K} `{L : !MbufKpi K}.

(** The side holds the packets [l], [extra] more than its count says. *)
Definition side_rep (k : K) (s : side) (l : list Z) (extra : Z) : Prop :=
  chain k (pktHead s) l /\ last l = Some (pktTail s) /\ Z.of_nat (length l) = pktNum s + extra /\
  1 <= pktNum s <= capacity s /\ capacity s < 2147483648.

(** Both lists, nothing twice and everything allocated. *)
Definition pool_rep (k : K) (p : pool) (lm lc : list Z) : Prop :=
  side_rep k (mSide p) lm 0 /\ side_rep k (cSide p) lc 0 /\ NoDup (lm ++ lc) /\
  Forall (fun m => mbuf_live m k = true) (lm ++ lc).

Lemma side_frame k k' s l e : Forall (same_mbuf k k') l -> side_rep k s l e -> side_rep k' s l e.
Proof. intros Hs (Hc&H). split; [by eapply chain_frame|done]. Qed.

Lemma side_nonempty k s l e : side_rep k s l e -> 0 <= e -> exists l', l = l' ++ [pktTail s].
Proof. intros (_&Hl&_) _. apply last_Some in Hl as [l' ->]. by exists l'. Qed.

(** Taking the head when two packets are left. *)
Lemma side_pop k s m l e : side_rep k s (m :: l) e -> l <> [] ->
  pktHead s = m /\ side_rep k (set_head (mbuf_nextpkt m k) s) l (e - 1).
Proof.
  intros (Hc&Hl&Hn&Hb) Hne. apply chain_head in Hc as [<- Hc]. split; [done|]. split; [done|].
  split; [by destruct l|]. cbn in *. split; [lia|done].
Qed.

Lemma side_num k s l e n : side_rep k s l e -> 1 <= n <= capacity s ->
  side_rep k (set_num n s) l (e + pktNum s - n).
Proof.
  intros (Hc&Hl&Hn&Hb&Hcap) H. assert (E : s32 n = n) by width_lia.
  unfold set_num, side_rep. cbn. rewrite E. split_and!; try done; lia.
Qed.

(** Linking [m] behind the tail. *)
Lemma side_link k s l e m : side_rep k s l e -> NoDup l -> m ∉ l -> m <> 0 -> mbuf_nextpkt m k = 0 ->
  side_rep (mbuf_setnextpkt (pktTail s) m k) (set_tail m s) (l ++ [m]) (e + 1).
Proof.
  intros (Hc&Hl&Hn&Hb) Hd Hm H0 Hx. apply last_Some in Hl as [l' ->]. unfold side_rep; cbn.
  split; [by apply chain_link|]. split; [by rewrite last_snoc|]. rewrite length_app. cbn. lia.
Qed.
End Rep.

(** ** Getter and refill thread, cut at every shared access *)

Section Interleaving.
Context {K : Type} `{B : !Mbufs K} `{L : !MbufKpi K}.

(** Where the receive path is inside getPacket, after the allocator failed:
    [GTest] before the test of the count, [GDec] before the decrement, [GPop]
    before it reads the link of the head, [GClear] before it clears that link,
    [GSched] before the test of the threshold, [GArm] before it schedules. *)
Inductive getter :=
| GIdle
| GTest (b : buf)
| GDec (b : buf)
| GPop (b : buf)
| GClear (b : buf) (m : Z)
| GSched (b : buf) (m : Z)
| GArm (m : Z).

(** Where refillPool is. [RLink] holds a new packet, [RCount] has linked it. *)
Inductive refiller :=
| RIdle
| RTest (b : buf)
| RAlloc (b : buf)
| RLink (b : buf) (m : Z)
| RCount (b : buf)
| REnd.

(** [added] and [taken]: the packets linked into and taken from each list. *)
Record sys := mkSys {
  s_pool : pool;
  s_k : K;
  s_get : getter;
  s_ref : refiller;
  added : list (buf * Z);
  taken : list (buf * Z);
}.

Definition of_buf (b : buf) (h : list (buf * Z)) : list Z := (filter (fun x => x.1 = b) h).*2.
Definition inside (b : buf) (s : sys) : list Z := drop (length (of_buf b (taken s))) (of_buf b (added s)).
Definition getter_has (g : getter) : list Z :=
  match g with GClear _ m | GSched _ m | GArm m => [m] | _ => [] end.
Definition refiller_has (r : refiller) : list Z := match r with RLink _ m => [m] | _ => [] end.

(** Every mbuf the pool or a call in progress holds. *)
Definition owned (s : sys) : list Z :=
  inside Small s ++ inside Cluster s ++ getter_has (s_get s) ++ refiller_has (s_ref s).

Inductive get_step : pool -> K -> getter -> pool -> K -> getter -> list (buf * Z) -> Prop :=
| g_alloc p k m k' how size : mbuf_allocpacket how (size_of (buf_of p size) p) k = (Some m, k') ->
    get_step p k GIdle p (mbuf_rewind m k') GIdle []
| g_fail p k k' how size : mbuf_allocpacket how (size_of (buf_of p size) p) k = (None, k') ->
    get_step p k GIdle p k' (GTest (buf_of p size)) []
| g_none p k b : pktNum (side_of b p) <= 1 -> get_step p k (GTest b) p k GIdle []
| g_some p k b : 1 < pktNum (side_of b p) -> get_step p k (GTest b) p k (GDec b) []
| g_dec p k b : let s := side_of b p in
    get_step p k (GDec b) (set_side b (set_num (pktNum s - 1) s) p) k (GPop b) []
| g_pop p k b : let s := side_of b p in let m := pktHead s in
    get_step p k (GPop b) (set_side b (set_head (mbuf_nextpkt m k) s) p) k (GClear b m) [(b, m)]
| g_clear p k b m : get_step p k (GClear b m) p (mbuf_setnextpkt m 0 k) (GSched b m) []
| g_enough p k b m : let s := side_of b p in below (pktNum s) (refillTresh s) && negb (refillScheduled p) = false ->
    get_step p k (GSched b m) p k GIdle []
| g_low p k b m : let s := side_of b p in below (pktNum s) (refillTresh s) && negb (refillScheduled p) = true ->
    get_step p k (GSched b m) p k (GArm m) []
| g_arm p k m : get_step p k (GArm m) (schedule p) k GIdle [].

Inductive refill_step : pool -> K -> refiller -> pool -> K -> refiller -> list (buf * Z) -> Prop :=
| r_start p k : refillEntered p = true ->
    refill_step p k RIdle (mkPool (mSide p) (cSide p) (maxCopySize p) (refillScheduled p) false) k (RTest Small) []
| r_more p k b : let s := side_of b p in below (pktNum s) (capacity s) = true ->
    refill_step p k (RTest b) p k (RAlloc b) []
| r_full p k b : let s := side_of b p in below (pktNum s) (capacity s) = false ->
    refill_step p k (RTest b) p k (match b with Small => RTest Cluster | Cluster => REnd end) []
| r_alloc p k b m k' : mbuf_allocpacket MBUF_DONTWAIT (size_of b p) k = (Some m, k') ->
    refill_step p k (RAlloc b) p (mbuf_rewind m k') (RLink b m) []
| r_fail p k b k' : mbuf_allocpacket MBUF_DONTWAIT (size_of b p) k = (None, k') ->
    refill_step p k (RAlloc b) p k' REnd []
| r_link p k b m : let s := side_of b p in
    refill_step p k (RLink b m) (set_side b (set_tail m s) p) (mbuf_setnextpkt (pktTail s) m k) (RCount b) [(b, m)]
| r_count p k b : let s := side_of b p in
    refill_step p k (RCount b) (set_side b (set_num (pktNum s + 1) s) p) k (RTest b) []
| r_end p k : refill_step p k REnd (set_scheduled false p) k RIdle [].

(** The rest of the kernel may do anything to mbufs the pool does not hold. *)
Inductive pool_step : sys -> sys -> Prop :=
| ps_get p k g r a t p' k' g' out : get_step p k g p' k' g' out ->
    pool_step (mkSys p k g r a t) (mkSys p' k' g' r a (t ++ out))
| ps_refill p k g r a t p' k' r' new : refill_step p k r p' k' r' new ->
    pool_step (mkSys p k g r a t) (mkSys p' k' g r' (a ++ new) t)
| ps_kernel p k g r a t k' : Forall (same_mbuf k k') (owned (mkSys p k g r a t)) ->
    pool_step (mkSys p k g r a t) (mkSys p k' g r a t).

(** An initialised pool, nobody inside it. *)
Definition pool_ready (p : pool) (k : K) (lm lc : list Z) : sys :=
  mkSys p k GIdle RIdle (((fun m => (Small, m)) <$> lm) ++ ((fun m => (Cluster, m)) <$> lc)) [].

(** ** The invariant *)

Definition extra (b : buf) (g : getter) (r : refiller) : Z :=
  (match g with GPop b' => if decide (b = b') then 1 else 0 | _ => 0 end) +
  (match r with RCount b' => if decide (b = b') then 1 else 0 | _ => 0 end).

Definition own (lf : buf -> list Z) (g : getter) (r : refiller) : list Z :=
  lf Small ++ lf Cluster ++ getter_has g ++ refiller_has r.

Definition getter_ok (p : pool) (k : K) (g : getter) : Prop :=
  match g with
  | GDec b => 2 <= pktNum (side_of b p)
  | GSched _ m => mbuf_nextpkt m k = 0
  | GArm m => mbuf_nextpkt m k = 0 /\ refillScheduled p = false
  | _ => True
  end.

Definition refiller_ok (p : pool) (k : K) (r : refiller) : Prop :=
  match r with
  | RAlloc b | RCount b => pktNum (side_of b p) < capacity (side_of b p)
  | RLink b m => pktNum (side_of b p) < capacity (side_of b p) /\ m <> 0 /\ mbuf_nextpkt m k = 0
  | _ => True
  end.

(** At most one refill is pending or running, and only while it is marked. *)
Definition one_refill (p : pool) (r : refiller) : Prop :=
  (refillEntered p = true -> refillScheduled p = true /\ r = RIdle) /\ (r <> RIdle -> refillScheduled p = true).

Definition core (p : pool) (k : K) (g : getter) (r : refiller) (lf : buf -> list Z) : Prop :=
  (forall b, side_rep k (side_of b p) (lf b) (extra b g r)) /\
  NoDup (own lf g r) /\ Forall (fun m => mbuf_live m k = true) (own lf g r) /\
  getter_ok p k g /\ refiller_ok p k r /\ one_refill p r.

Lemma own_side lf g r b m : m ∈ lf b -> m ∈ own lf g r.
Proof. unfold own. rewrite !elem_of_app. destruct b; auto. Qed.

(** The kernel's part: nothing owned changes. *)
Lemma core_frame p k k' g r lf : Forall (same_mbuf k k') (own lf g r) -> core p k g r lf -> core p k' g r lf.
Proof.
  intros Hf (Hs&Hd&Hl&Hg&Hr&Ho). rewrite Forall_forall in Hf, Hl. split; [|split; [done|split; [|split; [|split; [|done]]]]].
  - intros b. eapply side_frame; [|apply Hs]. apply Forall_forall. intros m Hm. apply Hf. by eapply own_side.
  - apply Forall_forall. intros m Hm. destruct (Hf m Hm) as [-> _]. auto.
  - assert (H : forall m, m ∈ getter_has g -> mbuf_nextpkt m k' = mbuf_nextpkt m k).
    { intros m Hm. apply Hf. unfold own. rewrite !elem_of_app. auto. }
    destruct g; try done; cbn in *; rewrite H; set_solver.
  - destruct r as [| | |b m| |]; try done. destruct Hr as (?&?&Hm). split; [done|]. split; [done|].
    rewrite <- Hm. apply Hf. unfold own. rewrite !elem_of_app. set_solver.
Qed.

Lemma alloc_frame p k k' g r lf how n m : mbuf_allocpacket how n k = (Some m, k') -> core p k g r lf ->
  m <> 0 /\ mbuf_live m (mbuf_rewind m k') = true /\ mbuf_nextpkt m (mbuf_rewind m k') = 0 /\ (m ∉ own lf g r) /\
  core p (mbuf_rewind m k') g r lf.
Proof.
  intros Ha Hc. apply alloc_some in Ha as (H0&Hn&Hl&Hx&Hs). destruct (rewind_same m k' m) as [E1 E2].
  assert (Hm : m ∉ own lf g r).
  { intros Hin. destruct Hc as (_&_&Hlive&_). rewrite Forall_forall in Hlive. specialize (Hlive _ Hin). congruence. }
  split_and!; [done|congruence|congruence|done|]. eapply core_frame; [|done]. apply Forall_forall. intros x Hx'.
  eapply same_trans; [apply Hs; intros ->; done|apply rewind_same].
Qed.

Lemma side_of_set b b' x p : side_of b (set_side b' x p) = if decide (b = b') then x else side_of b p.
Proof. by destruct b, b'. Qed.

Lemma one_refill_set b x p r : one_refill (set_side b x p) r <-> one_refill p r.
Proof. by destruct b. Qed.

Lemma one_refill_busy p r r' : r <> RIdle -> r' <> RIdle -> one_refill p r -> one_refill p r'.
Proof. intros Hr Hr' [H1 H2]. split; [intros He; by destruct (H1 He)|auto]. Qed.

Lemma sub_unique (P : Z -> Prop) l l' : l' ⊆+ l -> NoDup l -> Forall P l -> NoDup l' /\ Forall P l'.
Proof.
  intros [r Hp]%submseteq_Permutation Hd Hf. rewrite Hp in Hd, Hf. apply NoDup_app in Hd as [? _].
  by apply Forall_app in Hf as [? _].
Qed.

(** A step that only moves the getter between places with the same packets. *)
Lemma core_getter p k g g' r lf : core p k g r lf -> (forall b, extra b g' r = extra b g r) ->
  getter_has g' ⊆+ getter_has g -> getter_ok p k g' -> core p k g' r lf.
Proof.
  intros (Hs&Hd&Hl&_&Hr&Ho) He Hsub Hg.
  assert (Hown : own lf g' r ⊆+ own lf g r) by (by apply submseteq_skips_l, submseteq_skips_l, submseteq_skips_r).
  destruct (sub_unique _ _ _ Hown Hd Hl). split; [intros b; rewrite He; apply Hs|done].
Qed.

Lemma core_refiller p k g r r' lf : core p k g r lf -> (forall b, extra b g r' = extra b g r) ->
  refiller_has r' ⊆+ refiller_has r -> refiller_ok p k r' -> one_refill p r' -> core p k g r' lf.
Proof.
  intros (Hs&Hd&Hl&Hg&_&_) He Hsub Hr Ho.
  assert (Hown : own lf g r' ⊆+ own lf g r) by (by apply submseteq_skips_l, submseteq_skips_l, submseteq_skips_l).
  destruct (sub_unique _ _ _ Hown Hd Hl). split; [intros b; rewrite He; apply Hs|done].
Qed.

(** Changing the count of one list together with what is owed to it. *)
Lemma core_count p k g g' r r' lf b n : core p k g r lf ->
  (forall b', extra b' g' r' = extra b' g r + if decide (b' = b) then pktNum (side_of b p) - n else 0) ->
  1 <= n <= capacity (side_of b p) ->
  let p' := set_side b (set_num n (side_of b p)) p in
  getter_has g' = getter_has g -> refiller_has r' = refiller_has r ->
  getter_ok p' k g' -> refiller_ok p' k r' -> one_refill p' r' -> core p' k g' r' lf.
Proof.
  intros (Hs&Hd&Hl&_) He Hn p' Eg Er Hg Hr Ho. split; [|unfold own; rewrite Eg, Er; done].
  intros b'. rewrite He. unfold p'. rewrite side_of_set. destruct (decide (b' = b)) as [->|].
  - eapply eq_rect; [apply side_num; [apply Hs|done]|lia].
  - rewrite Z.add_0_r. apply Hs.
Qed.

(** The head of a list leaves it and becomes the getter's. *)
Lemma core_pop p k r lf b : core p k (GPop b) r lf ->
  let m := pktHead (side_of b p) in
  let p' := set_side b (set_head (mbuf_nextpkt m k) (side_of b p)) p in
  exists l, lf b = m :: l /\ core p' k (GClear b m) r (fun b' => if decide (b' = b) then l else lf b').
Proof.
  intros (Hs&Hd&Hl&_&Hr&Ho) m p'. destruct (lf b) as [|m0 l] eqn:El.
  { pose proof (Hs b) as (_&Hlast&_). rewrite El in Hlast. done. }
  assert (Hne : l <> []).
  { intros ->. pose proof (Hs b) as (_&_&Hn&Hb&_). rewrite El in Hn. unfold extra in Hn. cbn in Hn.
    rewrite decide_True in Hn by done. destruct r; try lia. destruct (decide (b = b0)); lia. }
  pose proof (Hs b) as Hsb. rewrite El in Hsb. destruct (side_pop k _ _ _ _ Hsb Hne) as [Em Hp].
  assert (m = m0) as -> by done. exists l. split; [done|].
  assert (Hperm : own (fun b' => if decide (b' = b) then l else lf b') (GClear b m0) r ≡ₚ own lf (GPop b) r).
  { unfold own. cbn [getter_has]. destruct b; cbn; rewrite El; cbn; [|]; solve_Permutation. }
  split; [|rewrite Hperm; split; [done|split; [done|split; [done|split]]]].
  - intros b'. unfold p'. rewrite side_of_set. destruct (decide (b' = b)) as [->|Hb].
    + eapply eq_rect; [exact Hp|]. unfold extra. rewrite decide_True by done. lia.
    + replace (extra b' (GClear b m0) r) with (extra b' (GPop b) r) by (unfold extra; rewrite (decide_False (P := b' = b)) by done; done).
      apply Hs.
  - unfold p'. destruct r as [|b1|b1|b1 m1|b1|]; try done; cbn in *; rewrite side_of_set; by destruct (decide (b1 = b)) as [->|].
  - by apply one_refill_set.
Qed.

(** Clearing the link of the packet just taken touches no list. *)
Lemma core_clear p k r lf b m : core p k (GClear b m) r lf -> core p (mbuf_setnextpkt m 0 k) (GSched b m) r lf.
Proof.
  intros H. pose proof H as (Hs&Hd&Hl&_&Hr&Ho).
  assert (Hm : forall x, x ∈ lf Small ++ lf Cluster ++ refiller_has r -> x <> m).
  { intros x Hx ->. unfold own in Hd. cbn [getter_has] in Hd.
    assert (Hp : lf Small ++ lf Cluster ++ [m] ++ refiller_has r ≡ₚ m :: lf Small ++ lf Cluster ++ refiller_has r) by solve_Permutation.
    rewrite Hp in Hd. apply NoDup_cons in Hd as [? _]. done. }
  split; [|split; [exact Hd|split; [|split; [|split; [|done]]]]].
  - intros b'. eapply side_frame; [|apply (Hs b')]. apply Forall_forall. intros x Hx. apply set_other, Hm.
    rewrite !elem_of_app. destruct b'; auto.
  - eapply Forall_impl; [exact Hl|]. intros x Hx. by rewrite live_setnextpkt.
  - cbn. by rewrite nextpkt_set, Z.eqb_refl.
  - destruct r as [| | |b1 m1| |]; try done. destruct Hr as (?&?&Hx). split; [done|]. split; [done|]. rewrite nextpkt_set.
    rewrite (proj2 (Z.eqb_neq m1 m)); [done|]. apply Hm. rewrite !elem_of_app. set_solver.
Qed.

Lemma get_core p k g r p' k' g' out lf : get_step p k g p' k' g' out -> core p k g r lf ->
  exists lf', core p' k' g' r lf' /\ forall b, lf b = of_buf b out ++ lf' b.
Proof.
  intros Hstep Hc. destruct Hstep as [p k m k' how size Ha|p k k' how size Ha|p k b Hn|p k b Hn|p k b s|p k b s m
    |p k b m|p k b m s Ht|p k b m s Ht|p k m]; try (exists lf; split; [|done]).
  - by destruct (alloc_frame _ _ _ _ _ _ _ _ _ Ha Hc) as (_&_&_&_&?).
  - apply core_getter with GIdle; [|done|done|done]. eapply core_frame; [|done].
    apply Forall_forall. intros. by eapply alloc_none.
  - by apply core_getter with (GTest b).
  - apply core_getter with (GTest b); [done|done|done|]. cbn. lia.
  - subst s. pose proof Hc as (Hs&_&_&Hg&Hr&Ho). destruct (Hs b) as (_&_&_&Hb&Hcap). cbn in Hg.
    assert (E : s32 (pktNum (side_of b p) - 1) = pktNum (side_of b p) - 1) by width_lia.
    apply core_count with (GDec b) r; [done| |lia|done|done|done| |by apply one_refill_set].
    + intros b'. unfold extra. destruct (decide (b' = b)); lia.
    + destruct r as [|b1|b1|b1 m1|b1|]; try done; cbn in *; rewrite side_of_set; destruct (decide (b1 = b)) as [->|]; try done;
        cbn; rewrite E; [lia|split; [lia|apply Hr]|lia].
  - destruct (core_pop p k r lf b Hc) as (l&El&Hc'). eexists. split; [exact Hc'|].
    intros b'. cbv beta. unfold of_buf. destruct (decide (b' = b)) as [->|Hb].
    + rewrite filter_cons_True by done. cbn. by rewrite El.
    + rewrite filter_cons_False by (cbn; congruence). done.
  - by apply core_clear.
  - apply core_getter with (GSched b m); [done|done|apply submseteq_nil_l|done].
  - apply core_getter with (GSched b m); [done|done|done|]. pose proof Hc as (_&_&_&Hg&_). cbn in *.
    apply andb_true_iff in Ht as [_ Ht]. by apply negb_true_iff in Ht.
  - pose proof Hc as (_&_&_&[_ Hf]&_&[Ho1 Ho2]).
    assert (Hr : r = RIdle) by (destruct r; try done; rewrite Ho2 in Hf; done).
    assert (Hc2 : core p k GIdle r lf) by (apply core_getter with (GArm m); [done|done|cbn; apply submseteq_nil_l|done]).
    subst r. destruct Hc2 as (A&A1&A2&A3&A4&_). split; [intros b; by destruct b; [apply (A Small)|apply (A Cluster)]|].
    repeat (split; [done|]). by split.
Qed.

Lemma core_link p k g lf b m : core p k g (RLink b m) lf -> let s := side_of b p in
  core (set_side b (set_tail m s) p) (mbuf_setnextpkt (pktTail s) m k) g (RCount b)
    (fun b' => if decide (b' = b) then lf b ++ [m] else lf b').
Proof.
  intros H s. pose proof H as (Hs&Hd&Hl&Hg&(Hcap&Hm0&Hx)&Ho). unfold own in Hd, Hl. cbn [refiller_has] in Hd, Hl.
  destruct (side_nonempty k s (lf b) (extra b g (RLink b m)) (Hs b)) as [l0 El]; [unfold extra; destruct g; try done; by destruct (decide _)|].
  assert (Ht : pktTail s ∈ lf b) by (rewrite El; set_solver).
  assert (Hdis : forall x, x ∈ getter_has g -> x <> pktTail s).
  { intros x Hxg ->. rewrite !NoDup_app in Hd. destruct b; set_solver. }
  assert (Hother : forall b', b' <> b -> pktTail s ∉ lf b').
  { intros b' Hb Hin. rewrite !NoDup_app in Hd. destruct b, b'; try done; set_solver. }
  assert (Hperm : own (fun b' => if decide (b' = b) then lf b ++ [m] else lf b') g (RCount b) ≡ₚ own lf g (RLink b m)).
  { unfold own. cbn [refiller_has]. rewrite app_nil_r. destruct b; cbn; solve_Permutation. }
  split; [|rewrite Hperm; split; [done|split; [|split; [|split; [|by apply one_refill_set, (one_refill_busy p (RLink b m))]]]]].
  - intros b'. rewrite side_of_set. destruct (decide (b' = b)) as [->|Hb].
    + replace (extra b g (RCount b)) with (extra b g (RLink b m) + 1) by (unfold extra; rewrite (decide_True (P := b = b)) by done; lia).
      apply side_link; [apply Hs| | |done|done]; rewrite !NoDup_app in Hd; destruct b; set_solver.
    + replace (extra b' g (RCount b)) with (extra b' g (RLink b m)) by (unfold extra; rewrite (decide_False (P := b' = b)) by done; done).
      eapply side_frame; [|apply Hs]. apply Forall_forall. intros x Hin. apply set_other. intros ->. by eapply Hother.
  - eapply Forall_impl; [exact Hl|]. intros x ?. by rewrite live_setnextpkt.
  - destruct g as [|b1|b1|b1|b1 m1|b1 m1|m1]; try done; cbn in *; rewrite ?nextpkt_set, ?side_of_set.
    + by destruct (decide (b1 = b)) as [->|].
    + rewrite (proj2 (Z.eqb_neq _ _)); [done|]. apply Hdis. set_solver.
    + rewrite (proj2 (Z.eqb_neq _ _)); [by destruct b|]. apply Hdis. set_solver.
  - cbn. rewrite side_of_set, decide_True by done. done.
Qed.

Lemma refill_core p k g r p' k' r' new lf : refill_step p k r p' k' r' new -> core p k g r lf ->
  exists lf', core p' k' g r' lf' /\ forall b, lf' b = lf b ++ of_buf b new.
Proof.
  intros Hstep Hc. destruct Hstep as [p k He|p k b s Ht|p k b s Ht|p k b m k' Ha|p k b k' Ha|p k b m s|p k b s|p k];
    try (exists lf; split; [|intros; symmetry; apply app_nil_r]); pose proof Hc as (Hs&Hd&Hl&Hg&Hr&Ho1&Ho2).
  - destruct (Ho1 He) as [E _]. split; [intros b; by destruct b; [apply (Hs Small)|apply (Hs Cluster)]|].
    do 2 (split; [done|]). split; [by destruct g as [|[]|[]|[]|[]|[]|]|]. done.
  - apply core_refiller with (RTest b); [done|done|done| |by split; [intros He; by destruct (Ho1 He)|intros _; apply Ho2]].
    cbn. unfold below in Ht. apply Z.ltb_lt in Ht. destruct (Hs b) as (_&_&_&?&?). subst s. rewrite u32_small in Ht; lia.
  - apply core_refiller with (RTest b); [done|by destruct b|by destruct b|by destruct b|].
    split; [intros He; by destruct (Ho1 He)|intros _; by apply Ho2].
  - destruct (alloc_frame _ _ _ _ _ _ _ _ _ Ha Hc) as (Hm&Hv&Hx&Hn&Hs'&Hd'&Hl'&Hg'&Hr'&_).
    assert (Hp : own lf g (RLink b m) ≡ₚ m :: own lf g (RAlloc b)) by (unfold own; cbn [refiller_has]; solve_Permutation).
    split; [done|]. rewrite Hp. split; [by constructor|]. split; [by constructor|]. split; [done|]. split; [done|].
    split; [intros He; by destruct (Ho1 He)|intros _; by apply Ho2].
  - apply core_refiller with (RAlloc b); [|done|done|done|split; [intros He; by destruct (Ho1 He)|intros _; by apply Ho2]].
    eapply core_frame; [|done]. apply Forall_forall. intros. by eapply alloc_none.
  - eexists. split; [by apply core_link|]. intros b'. cbv beta. unfold of_buf. destruct (decide (b' = b)) as [->|Hb].
    + by rewrite filter_cons_True.
    + rewrite filter_cons_False by (cbn; congruence). symmetry. apply app_nil_r.
  - subst s. destruct (Hs b) as (_&_&_&Hb&Hcap). cbn in Hr.
    assert (E : s32 (pktNum (side_of b p) + 1) = pktNum (side_of b p) + 1) by width_lia.
    apply core_count with g (RCount b); [done| |lia|done|done| |done|].
    + intros b'. unfold extra. destruct (decide (b' = b)); lia.
    + destruct g as [|b1|b1|b1|b1 m1|b1 m1|m1]; try done; cbn in *; [rewrite side_of_set|by destruct b].
      destruct (decide (b1 = b)) as [->|]; [cbn; rewrite E; lia|done].
    + apply one_refill_set. split; [intros He; by destruct (Ho1 He)|intros _; by apply Ho2].
  - assert (Hc2 : core p k g RIdle lf) by (apply core_refiller with REnd; [done..|]; split; [intros He; by destruct (Ho1 He)|done]).
    destruct Hc2 as (A&A1&A2&_). split; [intros b; by destruct b; [apply (A Small)|apply (A Cluster)]|].
    do 2 (split; [done|]). split; [destruct g as [|[]|[]|[]|[]|[]|]; try done; by destruct Hg|]. split; [done|].
    split; [intros He; destruct (Ho1 He) as [_ [=]]|done].
Qed.

(** The invariant of all interleavings. *)
Definition pool_inv (s : sys) : Prop :=
  exists lf, core (s_pool s) (s_k s) (s_get s) (s_ref s) lf /\
    forall b, of_buf b (added s) = of_buf b (taken s) ++ lf b.

Lemma inside_lf s lf b : of_buf b (added s) = of_buf b (taken s) ++ lf b -> inside b s = lf b.
Proof. intros E. unfold inside. rewrite E. apply drop_app_length. Qed.

Lemma of_buf_app b h1 h2 : of_buf b (h1 ++ h2) = of_buf b h1 ++ of_buf b h2.
Proof. unfold of_buf. by rewrite filter_app, fmap_app. Qed.

Lemma pool_step_inv s s' : pool_inv s -> pool_step s s' -> pool_inv s'.
Proof.
  intros (lf&Hc&Hh) Hs. destruct Hs as [p k g r a t p' k' g' out H|p k g r a t p' k' r' new H|p k g r a t k' H]; cbn in Hc, Hh.
  - destruct (get_core _ _ _ _ _ _ _ _ _ H Hc) as (lf'&Hc'&E). exists lf'. split; [done|]. intros b. cbn [added taken].
    rewrite of_buf_app, <- app_assoc, <- E. apply Hh.
  - destruct (refill_core _ _ _ _ _ _ _ _ _ H Hc) as (lf'&Hc'&E). exists lf'. split; [done|]. intros b. cbn [added taken].
    rewrite of_buf_app, E, app_assoc. f_equal. apply Hh.
  - exists lf. split; [|done]. apply core_frame with k; [|done]. unfold owned in H. unfold own.
    by rewrite <- !(inside_lf (mkSys p k g r a t) lf) by apply Hh.
Qed.

Lemma pool_ready_inv p k lm lc : pool_rep k p lm lc -> refillEntered p = false -> pool_inv (pool_ready p k lm lc).
Proof.
  intros (Hm&Hc&Hd&Hl) He. exists (fun b => match b with Small => lm | Cluster => lc end).
  assert (F : forall b l, of_buf b ((fun m => (b, m)) <$> l) = l).
  { intros b l. unfold of_buf. induction l as [|x l IH]; [done|]. cbn. rewrite decide_True by done. cbn. by f_equal. }
  assert (G : forall b b' l, b' <> b -> of_buf b ((fun m => (b', m)) <$> l) = []).
  { intros b b' l Hb. unfold of_buf. induction l as [|x l IH]; [done|]. cbn. by rewrite decide_False. }
  split.
  - cbn. unfold core, own. rewrite !app_nil_r. split_and!; try done; [by intros []|].
    split; [by rewrite He|done].
  - intros b. cbn [pool_ready added taken]. rewrite of_buf_app. destruct b; [rewrite F, G by done|rewrite F, G by done; done].
    by rewrite app_nil_r.
Qed.
End Interleaving.

(** ** initWithCapacity *)

Section Init.
Context {K : Type} `{B : !Mbufs K} `{L : !MbufKpi K}.

(** A list under construction. *)
Definition part (k : K) (s : side) (l : list Z) : Prop :=
  capacity s < 2147483648 /\ match l with [] => pktHead s = 0 | _ => side_rep k s l 0 end.

(** One round of the loop: a new packet goes to the end. *)
Lemma part_add k s l m : part k s l -> NoDup l -> m ∉ l -> m <> 0 -> mbuf_nextpkt m k = 0 ->
  Z.of_nat (length l) < capacity s ->
  let '(s', k') :=
    if pktHead s =? 0 then (mkSide m m 1 (capacity s) (refillTresh s), k)
    else (set_num (pktNum s + 1) (set_tail m s), mbuf_setnextpkt (pktTail s) m k) in
  part k' s' (l ++ [m]) /\ capacity s' = capacity s /\
  (forall x, x ∉ l -> same_mbuf k k' x) /\ forall x, mbuf_live x k' = mbuf_live x k.
Proof.
  intros [Hcap Hp] Hd Hm H0 Hx Hlen. destruct l as [|a l].
  - rewrite Hp. cbn [Z.eqb]. split; [|done]. split; [done|]. cbn. unfold side_rep; cbn in *. split_and!; try done; lia.
  - pose proof Hp as ((Ha&Ha0&_)&Hl&Hn&Hb&_). rewrite Ha, (proj2 (Z.eqb_neq _ _)) by done.
    split; [|split; [done|split; [|intros; apply live_setnextpkt]]].
    + split; [done|]. cbn [app]. pose proof (side_link k s (a :: l) 0 m Hp Hd Hm H0 Hx) as H.
pose proof (side_num _ _ _ _ (pktNum s + 1) H ltac:(cbn [length set_tail capacity] in *; lia)) as H2.
      eapply eq_rect; [exact H2|]. cbn. lia.
    + intros x Hin. apply set_other. intros ->. apply Hin. apply last_Some in Hl as [l' ->]. set_solver.
Qed.

Lemma init_loop_rep n b o : forall p k p' k' l, init_loop n b p k = (true, p', k') ->
  part k (side_of b p) l -> NoDup (l ++ o) -> Forall (fun m => mbuf_live m k = true) (l ++ o) ->
  Z.of_nat (length l + n) <= capacity (side_of b p) ->
  exists l', part k' (side_of b p') l' /\ length l' = (length l + n)%nat /\ NoDup (l' ++ o) /\
    Forall (fun m => mbuf_live m k' = true) (l' ++ o) /\ Forall (same_mbuf k k') o /\
    (forall b', b' <> b -> side_of b' p' = side_of b' p) /\
    (refillScheduled p', refillEntered p') = (refillScheduled p, refillEntered p).
Proof.
  induction n as [|n IH]; intros p k p' k' l Hi Hp Hd Hl Hn; cbn [init_loop] in Hi.
  { simplify_eq. exists l. rewrite Nat.add_0_r. split_and!; try done. by apply Forall_true. }
  destruct (mbuf_allocpacket _ _ k) as [[m|] k1] eqn:Ha; [|done]. apply alloc_some in Ha as (H0&Hnl&Hlv&Hx&Hs).
  assert (Hm : m ∉ l ++ o) by (intros Hin; rewrite Forall_forall in Hl; specialize (Hl _ Hin); congruence).
  assert (Hp1 : part k1 (side_of b p) l).
  { destruct Hp as [? Hp]. split; [done|]. destruct l; [done|]. eapply side_frame; [|done]. apply Forall_forall. set_solver. }
  pose proof (part_add k1 (side_of b p) l m Hp1 (proj1 (proj1 (NoDup_app _ _) Hd)) ltac:(set_solver) H0 Hx ltac:(lia)) as Hadd.
  destruct (if pktHead (side_of b p) =? 0 then _ else _) as [s2 k2]. destruct Hadd as (Hp2&Hcap&Hfr&Hlv2).
  set (k3 := mbuf_rewind m k2) in *. assert (Hs3 : forall x, same_mbuf k2 k3 x) by (intros; apply rewind_same).
  assert (Hlive : Forall (fun x => mbuf_live x k3 = true) ((l ++ [m]) ++ o)).
  { apply Forall_forall. intros x Hin. destruct (Hs3 x) as [-> _]. rewrite Hlv2. destruct (decide (x = m)) as [->|Hne]; [done|].
    destruct (Hs x Hne) as [-> _]. rewrite Forall_forall in Hl. apply Hl. set_solver. }
  destruct (IH _ k3 p' k' (l ++ [m]) Hi) as (l'&A1&A2&A3&A4&A5&A6&A7).
  - rewrite side_of_set, decide_True by done. destruct Hp2 as [? Hp2]. split; [done|]. destruct (l ++ [m]) eqn:E; [done|].
    eapply side_frame; [|done]. by apply Forall_true.
  - assert (Hp' : (l ++ [m]) ++ o ≡ₚ m :: l ++ o) by solve_Permutation. rewrite Hp'. by constructor.
  - done.
  - rewrite side_of_set, decide_True, Hcap, length_app by done. cbn. lia.
  - exists l'. rewrite length_app in A2. cbn in A2. split_and!; try done; [lia| | |].
    + rewrite Forall_forall in A5 |- *. intros x Hin. eapply same_trans; [|by apply A5]. eapply same_trans; [|apply Hs3].
      eapply same_trans; [apply Hs; set_solver|apply Hfr]. rewrite NoDup_app in Hd. set_solver.
    + intros b' Hb. rewrite A6 by done. rewrite side_of_set. by rewrite decide_False.
    + rewrite A7. by destruct b.
Qed.

Lemma init_rep mhlen mc cc p0 p k k' : initWithCapacity true mhlen mc cc p0 k = (true, p, k') ->
  mc < 2147483648 -> cc < 2147483648 ->
  exists lm lc, pool_rep k' p lm lc /\ Z.of_nat (length lm) = mc /\ Z.of_nat (length lc) = cc /\
    refillScheduled p = false /\ refillEntered p = false.
Proof.
  unfold initWithCapacity. intros Hi Hmc Hcc. destruct (0 <? mc) eqn:E1; [|done]. destruct (0 <? cc) eqn:E2; [|done]. bool_props.
  cbn [andb negb] in Hi. set (p1 := mkPool _ _ _ _ _) in Hi.
  destruct (init_loop (Z.to_nat mc) Small p1 k) as [[[] p2] k2] eqn:Ea; [|destruct (release_side Small p2 k2); done].
  destruct (init_loop (Z.to_nat cc) Cluster p2 k2) as [[[] p3] k3] eqn:Eb;
    [|cbn [negb] in Hi; destruct (release_side Cluster p3 k3) as [p4 k4]; destruct (release_side Small p4 k4); done].
  cbn [negb] in Hi. simplify_eq.
  destruct (init_loop_rep _ Small [] _ _ _ _ [] Ea) as (lm&A1&A2&A3&A4&_&A6&A7); [done|apply NoDup_nil_2|apply Forall_nil_2|cbn; lia|].
  rewrite !app_nil_r in A3, A4.
  destruct (init_loop_rep _ Cluster lm _ _ _ _ [] Eb) as (lc&B1&B2&B3&B4&B5&B6&B7); try done.
  { rewrite (A6 Cluster) by done. done. }
  { rewrite (A6 Cluster) by done. cbn. lia. }
  cbn in A2, B2. exists lm, lc. assert (Hp : lm ++ lc ≡ₚ lc ++ lm) by solve_Permutation.
  destruct A1 as [_ A1], B1 as [_ B1]. destruct lm as [|m lm]; [cbn in A2; lia|]. destruct lc as [|c lc]; [cbn in B2; lia|].
  split; [|split; [lia|split; [lia|]]]; [|by rewrite A7 in B7; injection B7; intros -> ->].
  split; [|split; [done|rewrite Hp; done]]. change (mSide p) with (side_of Small p). rewrite (B6 Small) by done.
  by eapply side_frame.
Qed.
End Init.

(** ** Whole calls are sequences of steps *)

Section Runs.
Context {K : Type} `{B : !Mbufs K}.

Lemma set_set b x y p : set_side b x (set_side b y p) = set_side b x p.
Proof. by destruct b. Qed.

Ltac get_next c := eapply star_step; [apply ps_get; c|]; rewrite ?app_nil_r.
Ltac refill_next c := eapply star_step; [apply ps_refill; c|]; rewrite ?app_nil_r.

(** getPacket, run without interruption, is the getter's steps; what it returns
    from the pool is what the steps record as taken. *)
Lemma getPacket_run size how p (k : K) r a t :
  let '(o, p', k') := getPacket size how p k in
  exists out, star pool_step (mkSys p k GIdle r a t) (mkSys p' k' GIdle r a (t ++ out)) /\
    (out = [] \/ exists m, o = Some m /\ out = [(buf_of p size, m)]).
Proof.
  unfold getPacket. destruct (mbuf_allocpacket _ _ k) as [[m|] k1] eqn:Ha.
  { exists []. split; [|by left]. get_next ltac:(eapply (g_alloc p k m k1 how size); exact Ha). apply star_refl. }
  unfold pool_take. set (b := buf_of p size) in *. destruct (Z.ltb_spec 1 (pktNum (side_of b p))) as [H1|H1].
  - set (m := pktHead _). set (q := set_side b _ p).
    assert (Ep : set_side b (set_head (mbuf_nextpkt m k1) (side_of b (set_side b (set_num (pktNum (side_of b p) - 1) (side_of b p)) p)))
                   (set_side b (set_num (pktNum (side_of b p) - 1) (side_of b p)) p) = q)
      by (rewrite set_set, side_of_set, decide_True by done; done).
    assert (Em : pktHead (side_of b (set_side b (set_num (pktNum (side_of b p) - 1) (side_of b p)) p)) = m)
      by (rewrite side_of_set, decide_True by done; done).
    exists [(b, m)]. split; [|right; by exists m].
    get_next ltac:(eapply (g_fail p k k1 how size); exact Ha). get_next ltac:(apply g_some; exact H1). get_next ltac:(apply g_dec).
    eapply star_step; [apply ps_get, g_pop|]. cbv zeta. fold b. rewrite Em, Ep. get_next ltac:(apply g_clear).
    assert (Es : side_of b q = set_head (mbuf_nextpkt m k1) (set_num (pktNum (side_of b p) - 1) (side_of b p)))
      by (unfold q; rewrite side_of_set, decide_True by done; done). rewrite <- Es.
    destruct (below (pktNum (side_of b q)) (refillTresh (side_of b q)) && negb (refillScheduled q)) eqn:Et.
    + get_next ltac:(apply g_low; exact Et). get_next ltac:(apply g_arm). apply star_refl.
    + get_next ltac:(apply g_enough; exact Et). apply star_refl.
  - exists []. split; [|by left].
    get_next ltac:(eapply (g_fail p k k1 how size); exact Ha). get_next ltac:(apply g_none; exact H1). apply star_refl.
Qed.

Lemma refill_loop_run n b : forall p (k : K) g a t,
  (Z.to_nat (capacity (side_of b p) - pktNum (side_of b p)) <= n)%nat -> 0 <= pktNum (side_of b p) < 2147483648 ->
  capacity (side_of b p) < 2147483648 ->
  let '(ok, p', k') := refill_loop n b p k in
  exists new, star pool_step (mkSys p k g (RTest b) a t)
    (mkSys p' k' g (if ok then match b with Small => RTest Cluster | Cluster => REnd end else REnd) (a ++ new) t) /\
    forall b', b' <> b -> side_of b' p' = side_of b' p.
Proof.
  induction n as [|n IH]; intros p k g a t Hn H0 Hc; cbn [refill_loop].
  - exists []. split; [|done]. refill_next ltac:(apply r_full). 2: apply star_refl. unfold below. rewrite u32_small by lia. lia.
  - destruct (below _ _) eqn:Et.
    + destruct (mbuf_allocpacket _ _ k) as [[m|] k1] eqn:Ha.
      * assert (Hlt : pktNum (side_of b p) < capacity (side_of b p)) by (unfold below in Et; rewrite u32_small in Et by lia; lia).
        set (q := set_side b (set_num _ _) p). specialize (IH q (mbuf_setnextpkt (pktTail (side_of b p)) m (mbuf_rewind m k1)) g (a ++ [(b, m)]) t).
        assert (Es : side_of b q = set_num (pktNum (side_of b p) + 1) (set_tail m (side_of b p)))
          by (unfold q; rewrite side_of_set, decide_True by done; done). rewrite Es in IH. cbn [set_num set_tail pktNum capacity] in IH.
        assert (E32 : s32 (pktNum (side_of b p) + 1) = pktNum (side_of b p) + 1) by width_lia. rewrite E32 in IH.
        specialize (IH ltac:(lia) ltac:(lia) Hc). destruct (refill_loop n b q _) as [[ok p'] k'].
        destruct IH as (new&Hs&Ho). exists ((b, m) :: new). split.
        2: { intros b' Hb. rewrite Ho by done. unfold q. by rewrite side_of_set, decide_False. }
        refill_next ltac:(apply r_more; exact Et). refill_next ltac:(apply r_alloc; exact Ha).
        eapply star_step; [apply ps_refill, r_link|]. refill_next ltac:(apply r_count). cbv zeta.
        rewrite side_of_set, decide_True, set_set by done. cbn [pktNum set_tail].
        replace (a ++ (b, m) :: new) with ((a ++ [(b, m)]) ++ new) by (by rewrite <- app_assoc). exact Hs.
      * exists []. split; [|done]. refill_next ltac:(apply r_more; exact Et). refill_next ltac:(apply r_fail; exact Ha). apply star_refl.
    + exists []. split; [|done]. refill_next ltac:(apply r_full; exact Et). apply star_refl.
Qed.

(** refillPool, run without interruption, is the refill thread's steps. *)
Lemma refillPool_run p (k : K) g a t :
  (forall b, 0 <= pktNum (side_of b p) < 2147483648 /\ capacity (side_of b p) < 2147483648) ->
  let '(p', k') := refillPool p k in
  exists new, star pool_step (mkSys p k g (RTest Small) a t) (mkSys p' k' g RIdle (a ++ new) t).
Proof.
  intros Hb. unfold refillPool, refill_side.
  pose proof (refill_loop_run _ Small p k g a t (Nat.le_refl _) (proj1 (Hb Small)) (proj2 (Hb Small))) as H1.
  destruct (refill_loop _ Small p k) as [[[] p1] k1]; destruct H1 as (new&H1&Ho).
  - pose proof (refill_loop_run _ Cluster p1 k1 g (a ++ new) t (Nat.le_refl _)) as H2. rewrite (Ho Cluster) in * by done.
    specialize (H2 (proj1 (Hb Cluster)) (proj2 (Hb Cluster))).
    destruct (refill_loop _ Cluster p1 k1) as [[ok p2] k2]; destruct H2 as (new2&H2&_).
    exists (new ++ new2). rewrite app_assoc. eapply star_trans; [exact H1|]. eapply star_trans; [exact H2|].
    assert (E : (if ok then REnd else REnd) = REnd) by (by destruct ok). rewrite E.
    refill_next ltac:(apply r_end). apply star_refl.
  - exists new. eapply star_trans; [exact H1|]. refill_next ltac:(apply r_end). apply star_refl.
Qed.
End Runs.

(** ** Properties *)

(** C10: the receive pool of the kernel extension needs no lock. Once it is
    initialised, whatever the interleaving of getPacket, the refill thread and
    the rest of the kernel (which may do anything to mbufs the pool does not
    hold): each list, followed from its head, is exactly the packets linked in
    and not yet taken out, in order, it ends at its tail and is never empty; no
    mbuf is held twice and every one is allocated; a packet about to be returned
    is unlinked; the counts are exact when nobody is inside, and a second refill
    is never started while one is pending or running. *)
Theorem rx_pool_safe {K} `{B : !Mbufs K} `{L : !MbufKpi K} mhlen mc cc p0 p (k k' : K) :
  initWithCapacity true mhlen mc cc p0 k = (true, p, k') -> mc < 2147483648 -> cc < 2147483648 ->
  exists lm lc, Z.of_nat (length lm) = mc /\ Z.of_nat (length lc) = cc /\
  forall s, star pool_step (pool_ready p k' lm lc) s ->
    (forall b, let sd := side_of b (s_pool s) in
       of_buf b (added s) = of_buf b (taken s) ++ inside b s /\
       chain (s_k s) (pktHead sd) (inside b s) /\ last (inside b s) = Some (pktTail sd) /\
       1 <= pktNum sd <= capacity sd /\
       (s_get s = GIdle -> s_ref s = RIdle -> pktNum sd = Z.of_nat (length (inside b s)))) /\
    NoDup (owned s) /\ Forall (fun m => mbuf_live m (s_k s) = true) (owned s) /\
    (forall b m, s_get s = GSched b m -> mbuf_nextpkt m (s_k s) = 0) /\
    (forall m, s_get s = GArm m -> s_ref s = RIdle /\ refillEntered (s_pool s) = false).
Proof.
  intros Hi Hm Hc. destruct (init_rep _ _ _ _ _ _ _ Hi Hm Hc) as (lm&lc&Hr&El&Ec&_&He). exists lm, lc. do 2 (split; [done|]).
  intros s Hs. pose proof (pool_ready_inv p k' lm lc Hr He) as H0.
  destruct (star_invariant pool_step pool_inv pool_step_inv _ _ Hs H0) as (lf&(Hsd&Hd&Hl&Hg&Hrf&Ho1&Ho2)&Hh).
  assert (Eo : owned s = own lf (s_get s) (s_ref s)) by (unfold owned, own; by rewrite !(inside_lf s lf) by done).
  split; [|rewrite Eo; split; [done|split; [done|split]]].
  - intros b sd. rewrite (inside_lf s lf) by done. destruct (Hsd b) as (A1&A2&A3&A4&_). split; [done|]. split; [done|].
    split; [done|]. split; [done|]. intros Eg Er. rewrite Eg, Er in A3. change (extra b GIdle RIdle) with 0 in A3. unfold sd. lia.
  - intros b m E. by rewrite E in Hg.
  - intros m E. rewrite E in Hg. destruct Hg as [_ Hf]. split; [destruct (s_ref s); try done; by rewrite Ho2 in Hf|].
    destruct (refillEntered (s_pool s)); [|done]. destruct (Ho1 eq_refl). congruence.
Qed.

(** ** A kernel with a limited supply of mbufs *)
Module MbufSim.

Record kern := mkKern { k_next : gmap Z Z; k_live : gset Z; k_left : nat }.

Definition k_get (m : Z) (k : kern) : Z := default 0 (k_next k !! m).

Fixpoint walk (n : nat) (k : kern) (h : Z) : list Z :=
  match n with
  | O => []
  | S n' => if h =? 0 then [] else h :: walk n' k (k_get h k)
  end.

Definition k_alloc (k : kern) : option Z * kern :=
  match k_left k with
  | O => (None, k)
  | S n => let m := fresh ({[0]} ∪ k_live k) in
           (Some m, mkKern (delete m (k_next k)) ({[m]} ∪ k_live k) n)
  end.

#[export] Instance kern_mbufs : Mbufs kern := {|
  mbuf_nextpkt := k_get;
  mbuf_setnextpkt m x k := mkKern (<[m := x]> (k_next k)) (k_live k) (k_left k);
  mbuf_allocpacket _ _ k := k_alloc k;
  mbuf_rewind _ k := k;
  mbuf_freem_list h k := mkKern (k_next k) (k_live k ∖ list_to_set (walk (size (k_live k)) k h)) (k_left k);
  mbuf_copy_pkthdr _ _ k := k;
  mbuf_pkthdr_setheader _ _ k := k;
  mbuf_bcopy _ _ _ k := k;
  mbuf_live m k := bool_decide (m ∈ k_live k);
|}.

Lemma walk_chain k l : forall n h, chain k h l -> (length l <= n)%nat -> walk n k h = l.
Proof.
  induction l as [|m l IH]; intros n h Hc Hn.
  - cbn in Hc. subst h. by destruct n.
  - destruct Hc as (->&Hm&Hc). destruct n as [|n]; [cbn in Hn; lia|]. cbn. rewrite (proj2 (Z.eqb_neq _ _)) by done.
    f_equal. apply IH; [done|cbn in Hn; lia].
Qed.

#[export] Instance kern_kpi : MbufKpi kern.
Proof.
  split; try done.
  - intros m m' x k. cbn. unfold k_get. cbn. destruct (Z.eqb_spec m m') as [->|]; [by rewrite lookup_insert_eq|by rewrite lookup_insert_ne].
  - intros how n k m k' H. cbn in H. unfold k_alloc in H. destruct (k_left k); [done|]. simplify_eq.
    pose proof (is_fresh ({[0]} ∪ k_live k)) as Hf. set (m := fresh _) in *. cbn. unfold same_mbuf; cbn. unfold k_get; cbn.
    split_and!; [set_solver|apply bool_decide_eq_false; set_solver|apply bool_decide_eq_true; set_solver|by rewrite lookup_delete_eq|].
    intros m' Hne. split; [apply bool_decide_ext; set_solver|by rewrite lookup_delete_ne].
  - intros how n k k' m H. cbn in H. unfold k_alloc in H. destruct (k_left k); by simplify_eq.
  - intros k h l m Hc Hd Hl. cbn. assert (Hs : (length l <= size (k_live k))%nat).
    { rewrite <- (size_list_to_set (C := gset Z) l Hd). apply subseteq_size. rewrite Forall_forall in Hl.
      intros x Hx%elem_of_list_to_set. specialize (Hl _ Hx). cbn in Hl. by apply bool_decide_eq_true in Hl. }
    case_bool_decide as Hm; unfold same_mbuf; cbn; rewrite (walk_chain k l _ h Hc Hs).
    + apply bool_decide_eq_false. set_solver.
    + split; [apply bool_decide_ext; set_solver|done].
Qed.

Definition blank : pool := mkPool (mkSide 0 0 0 0 0) (mkSide 0 0 0 0 0) 0 false false.
Definition started : bool * pool * kern := initWithCapacity true 160 2 3 blank (mkKern ∅ ∅ 5).

(** Two small and three large packets; with nothing left to allocate, a large
    request takes the first of the large ones. *)
Lemma rx_pool_safe_witness :
  exists lm lc, Z.of_nat (length lm) = 2 /\ Z.of_nat (length lc) = 3 /\
  forall s, star pool_step (pool_ready started.1.2 started.2 lm lc) s ->
    NoDup (owned s) /\ forall b, chain (s_k s) (pktHead (side_of b (s_pool s))) (inside b s).
Proof.
  destruct (rx_pool_safe 160 2 3 blank started.1.2 (mkKern ∅ ∅ 5) started.2) as (lm&lc&E1&E2&H);
    [vm_compute; reflexivity|lia|lia|].
  exists lm, lc. split; [exact E1|]. split; [exact E2|]. intros s Hs. destruct (H s Hs) as (A&B&_).
  split; [exact B|]. intros b. apply A.
Defined.

Example take_from_pool :
  (getPacket 1500 MBUF_DONTWAIT started.1.2 started.2).1.1 = Some (pktHead (cSide started.1.2)).
Proof. vm_compute. reflexivity. Qed.
End MbufSim.
