(* ===== verification/KextTx.v ===== *)
(** * The transmit path of the kernel extension

    outputStart, txInterrupt and the transmit part of clearRxTxRings
    (RTL812xLucy.cpp, RTL812xLucySetup.cpp), with the mapping of packets for the
    IOMMU (RTL812xLucyVTD.cpp). A packet takes one descriptor per segment; its
    mbuf is kept with the last one. *)
From S2P Require Import Prelude Frame Checksum TxOffload KextPool.

Definition kMaxSegs : Z := 32.
Definition kNumTxDesc : Z := 1024.
Definition kTxLastDesc : Z := kNumTxDesc - 1.
Definition kTxDescMask : Z := kNumTxDesc - 1.
Definition kNumTxMemDesc : Z := kNumTxDesc / 2.
Definition kTxMemDescMask : Z := kNumTxMemDesc - 1.
Definition kTxQueueWakeTreshhold : Z := kNumTxDesc / 10.
Definition TxVlanTag : Z := BIT 17.

(** ** Data *)

(** What the kernel answers about an outgoing mbuf chain: its first mbuf, the
    length of the packet and of the first mbuf, where the data of the first and
    the second mbuf are, the requested offloads, the VLAN tag, and the data
    ranges of the whole chain. *)
Record mpkt := mkMpkt {
  mp_mbuf : Z;
  mp_pktlen : Z;
  mp_len : Z;
  mp_data : Z;
  mp_next_data : Z;
  mp_tso_fails : bool;
  mp_tso4 : bool;
  mp_tso6 : bool;
  mp_mss : Z;
  mp_tcp4 : bool;
  mp_tcp6 : bool;
  mp_udp4 : bool;
  mp_udp6 : bool;
  mp_ip : bool;
  mp_vlan : option Z;
  mp_frags : list (Z * Z);
}.

(** struct RtlTxDesc. *)
Record kdesc := mkKdesc { d_opts1 : Z; d_opts2 : Z; d_addr : Z }.

(** struct rtlTxMapInfo: positions, the 16-bit count, the memory descriptors
    marked active, and those [txMemIO] holds at all (they are made at first use and
    kept). [memPanic]: a NULL entry of [txMemIO] has been dereferenced; the machine
    stops there, and what the state holds afterwards means nothing. *)
Record mapst := mkMap {
  txNextMem2Use : Z; txNextMem2Free : Z; txNumFreeMem : Z; memActive : gset Z; memMade : gset Z; memPanic : bool }.

(** What the framework answers when a packet is mapped: no memory descriptor
    could be made or initialised; it could not be prepared or given to the DMA
    command; or the device addresses of the pages up to the first one that could
    not be translated. *)
Inductive dma_answer := NoDescriptor | NotPrepared | Segments (pas : list Z).

(** [txMbufArray]: absent is NULL. [freed]: packets given back, in order. *)
Record ktx := mkKtx {
  k_useVTD : bool;
  k_mtu : Z;
  k_ptrMask : Z;
  k_ram : mem;
  k_next : Z;
  k_dirty : Z;
  k_tail : Z;
  k_close : Z;
  k_free : Z;
  k_descs : gmap Z kdesc;
  k_mbufs : gmap Z Z;
  k_done : Z;
  k_map : mapst;
  k_freed : list Z;
  k_signals : Z;
}.

Definition with_map (ms : mapst) (s : ktx) : ktx :=
  mkKtx (k_useVTD s) (k_mtu s) (k_ptrMask s) (k_ram s) (k_next s) (k_dirty s) (k_tail s) (k_close s) (k_free s)
    (k_descs s) (k_mbufs s) (k_done s) ms (k_freed s) (k_signals s).
Definition with_ram (m : mem) (s : ktx) : ktx :=
  mkKtx (k_useVTD s) (k_mtu s) (k_ptrMask s) m (k_next s) (k_dirty s) (k_tail s) (k_close s) (k_free s)
    (k_descs s) (k_mbufs s) (k_done s) (k_map s) (k_freed s) (k_signals s).
Definition freePacket (m : Z) (s : ktx) : ktx :=
  mkKtx (k_useVTD s) (k_mtu s) (k_ptrMask s) (k_ram s) (k_next s) (k_dirty s) (k_tail s) (k_close s) (k_free s)
    (k_descs s) (k_mbufs s) (k_done s) (k_map s) (k_freed s ++ [m]) (k_signals s).

(** ** Offloads *)

(** The IP header: in the second mbuf when the first holds the Ethernet header
    only. The rewriting of the headers is that of the DriverKit driver, whose
    functions take the address of the frame. *)
Definition ip_of (p : mpkt) : Z := if mp_len p =? 14 then mp_next_data p else mp_data p + 14.
Definition mss_of (p : mpkt) : Z := if MSS_MAX <? mp_mss p then MSS_MAX else mp_mss p.

Definition v6_offset : Z := Z.shiftl ((kMacHdrLen + kIPv6HdrLen) .& TCPHO_MAX) TCPHO_SHIFT.

(** Memory after the header work, command word and option word; [None]: an
    access outside the packet. *)
Definition kext_offload (mtu : Z) (m : mem) (p : mpkt) : option (mem * Z * Z) :=
  let giant := mtu <? u32 (mp_pktlen p - kMacHdrLen) in
  let opts2 := Z.shiftl (mss_of p .& MSSMask) MSSShift_8125 in
  if mp_tso4 p then
    if giant then
      '(m', tcpOff) ← prepareTSO4 m (ip_of p - kMacHdrLen);
      Some (m', GiantSendv4 .| Z.shiftl tcpOff GTTCPHO_SHIFT, opts2)
    else Some (m, 0, TxIPCS_C .| TxTCPCS_C)
  else if mp_tso6 p then
    if giant then
      '(m', tcpOff) ← prepareTSO6 m (ip_of p - kMacHdrLen);
      Some (m', GiantSendv6 .| Z.shiftl tcpOff GTTCPHO_SHIFT, opts2)
    else Some (m, 0, TxTCPCS_C .| TxIPV6F_C .| v6_offset)
  else Some (m, 0,
    if mp_tcp4 p then TxIPCS_C .| TxTCPCS_C
    else if mp_tcp6 p then TxTCPCS_C .| TxIPV6F_C .| v6_offset
    else if mp_udp4 p then TxIPCS_C .| TxUDPCS_C
    else if mp_udp6 p then TxUDPCS_C .| TxIPV6F_C .| v6_offset
    else if mp_ip p then TxIPCS_C else 0).

Definition OSSwapInt16 (x : Z) : Z := bswap16 x.
Definition vlan_word (p : mpkt) : Z :=
  match mp_vlan p with Some tag => OSSwapInt16 tag .| TxVlanTag | None => 0 end.

(** ** Segments *)

Definition trunc_page (x : Z) : Z := x - x mod PAGE_SIZE.
Definition next_page (x : Z) : Z := trunc_page (x + PAGE_SIZE).

(** One mbuf's data cut at page boundaries; a piece has at least one byte, so
    [len] rounds are enough. *)
Fixpoint split_pages (fuel : nat) (d len : Z) : list (Z * Z) :=
  match fuel with
  | O => []
  | S f =>
      if len =? 0 then [] else
      let l := Z.min len PAGE_SIZE in
      let l := Z.min (next_page d) (d + l) - d in
      (d, l) :: split_pages f (d + l) (len - l)
  end.

(** The virtual ranges of a packet; [None]: more than [maxSegs]. *)
Definition src_ranges (maxSegs : Z) (p : mpkt) : option (list (Z * Z)) :=
  let pieces := mp_frags p ≫= fun r => split_pages (Z.to_nat r.2) r.1 r.2 in
  match mp_frags p with
  | [(d, len)] =>
      if trunc_page d =? trunc_page (d + len - 1) then Some [(d, len)]
      else if Z.of_nat (length pieces) <=? maxSegs then Some pieces else None
  | _ => if Z.of_nat (length pieces) <=? maxSegs then Some pieces else None
  end.

Definition set_memory (ms : mapst) (use : Z) (n : Z) (a made : gset Z) : mapst :=
  mkMap use (txNextMem2Free ms) n a made (memPanic ms).

Section Code.
(** The framework: [cursor] is getPhysicalSegmentsWithCoalesce; [dma n rs] maps
    the pages of the ranges [rs] with memory descriptor [n]. *)
Context (cursor : mpkt -> list (Z * Z)) (dma : Z -> list (Z * Z) -> dma_answer).

(** The number of segments and the segment array. *)
Definition txMapPacket (p : mpkt) (vec : list (Z * Z)) (ms : mapst) : Z * list (Z * Z) * mapst :=
  match src_ranges kMaxSegs p with
  | None => (0, vec, ms)
  | Some rs =>
      let n := Z.of_nat (length rs) in
      if 1 <? txNumFreeMem ms then
        let saveMem := txNextMem2Use ms in
        let use := u16 (saveMem + 1) .& kTxMemDescMask in
        match dma saveMem ((fun r => (trunc_page r.1, PAGE_SIZE)) <$> rs) with
        | NoDescriptor => (0, vec, ms)
        | NotPrepared => (0, vec, set_memory ms saveMem (txNumFreeMem ms) (memActive ms) ({[saveMem]} ∪ memMade ms))
        | Segments pas =>
            let a := {[saveMem]} ∪ memActive ms in
            let made := {[saveMem]} ∪ memMade ms in
            let vec := zip_with (fun pa r => (pa + r.1 mod PAGE_SIZE, r.2)) pas rs ++ drop (length pas) vec in
            if (length pas =? length rs)%nat then (n, vec, set_memory ms use (s16 (txNumFreeMem ms - 1)) a made)
            else (0, vec, set_memory ms saveMem (txNumFreeMem ms) a made)
        end
      else (n, vec, ms)
  end.

(** [md->complete()] on [txMemIO[txNextMem2Free]], which nobody has tested. *)
Definition txUnmapPacket (ms : mapst) : mapst :=
  mkMap (txNextMem2Use ms) (u16 (txNextMem2Free ms + 1) .& kTxMemDescMask) (s16 (txNumFreeMem ms + 1))
    (memActive ms ∖ {[txNextMem2Free ms]}) (memMade ms)
    (memPanic ms || negb (bool_decide (txNextMem2Free ms ∈ memMade ms))).

(** ** outputStart *)

(** The first word of segment [i] of [n] at ring slot [index]. *)
Definition seg_opts1 (i n index len cmd : Z) : Z :=
  let o := u32 len .| cmd in
  let o := o .| (if i =? 0 then FirstFrag else DescOwn) in
  let o := if i =? n - 1 then o .| LastFrag else o in
  if index =? kTxLastDesc then o .| RingEnd else o.

(** The loop over the segments from [i] on. *)
Fixpoint fill_segs (segs : list (Z * Z)) (i n index cmd opts2 m : Z) (ds : gmap Z kdesc) (mb : gmap Z Z)
    : gmap Z kdesc * gmap Z Z :=
  match segs with
  | [] => (ds, mb)
  | (a, len) :: segs' =>
      fill_segs segs' (i + 1) n (u32 (index + 1) .& kTxDescMask) cmd opts2 m
        (<[index := mkKdesc (seg_opts1 i n index len cmd) opts2 a]> ds)
        (if i =? n - 1 then <[index := m]> mb else delete index mb)
  end.

(** [firstDesc->opts1 |= DescOwn]. *)
Definition own_first (index : Z) (ds : gmap Z kdesc) : gmap Z kdesc :=
  alter (fun d => mkKdesc (d_opts1 d .| DescOwn) (d_opts2 d) (d_addr d)) index ds.

Definition post_packet (p : mpkt) (segs : list (Z * Z)) (cmd opts2 : Z) (s : ktx) : ktx :=
  let n := Z.of_nat (length segs) in
  let index := k_next s in
  let '(ds, mb) := fill_segs segs 0 n index cmd (opts2 .| vlan_word p) (mp_mbuf p) (k_descs s) (k_mbufs s) in
  mkKtx (k_useVTD s) (k_mtu s) (k_ptrMask s) (k_ram s) (u32 (index + n) .& kTxDescMask) (k_dirty s)
    (u32 (k_tail s + n)) (k_close s) (s32 (k_free s - n)) (own_first index ds) mb (k_done s) (k_map s) (k_freed s) (k_signals s).

(** The segments and the segment array of the packet: mapped or from the cursor. *)
Definition segments (p : mpkt) (vec : list (Z * Z)) (s : ktx) : list (Z * Z) * list (Z * Z) * ktx :=
  if k_useVTD s then
    let '(n, vec, ms) := txMapPacket p vec (k_map s) in
    (take (Z.to_nat n) vec, vec, with_map ms s)
  else (cursor p, vec, s).

(** One packet; the segment array lives on the stack of the call. *)
Definition send_one (p : mpkt) (vec : list (Z * Z)) (s : ktx) : option (list (Z * Z) * ktx) :=
  if mp_tso_fails p then Some (vec, freePacket (mp_mbuf p) s) else
  '(m, cmd, opts2) ← kext_offload (k_mtu s) (k_ram s) p;
  let '(segs, vec, s) := segments p vec (with_ram m s) in
  match segs with
  | [] => Some (vec, freePacket (mp_mbuf p) s)
  | _ => Some (vec, post_packet p segs cmd opts2 s)
  end.

(** [while (free > kMaxSegs + 3 && dequeue)]: the packets left in the queue. *)
Fixpoint send_loop (q : list mpkt) (vec : list (Z * Z)) (s : ktx) : option (list mpkt * list (Z * Z) * ktx) :=
  match q with
  | [] => Some ([], vec, s)
  | p :: q' =>
      if kMaxSegs + 3 <? k_free s then '(vec, s) ← send_one p vec s; send_loop q' vec s
      else Some (q, vec, s)
  end.

(** [running]: enabled and link up; [stack]: what the segment array holds at
    entry. The result, the packets left, and the value of the doorbell. *)
Definition outputStart (running : bool) (q : list mpkt) (stack : list (Z * Z)) (s : ktx)
    : option (bool * list mpkt * option Z * ktx) :=
  if running then
    '(q, vec, s) ← send_loop q stack s;
    Some (kMaxSegs + 3 <? k_free s, q, Some (k_tail s), s)
  else Some (false, q, None, s).

(** ** txInterrupt *)

Definition reclaim_slot (s : ktx) : ktx :=
  let s := match k_mbufs s !! k_dirty s with
           | Some m => freePacket m (if k_useVTD s then with_map (txUnmapPacket (k_map s)) s else s)
           | None => s
           end in
  mkKtx (k_useVTD s) (k_mtu s) (k_ptrMask s) (k_ram s) (k_next s) (u32 (k_dirty s + 1) .& kTxDescMask) (k_tail s) (k_close s)
    (s32 (k_free s + 1)) (k_descs s) (delete (k_dirty s) (k_mbufs s)) (u64 (k_done s + 1)) (k_map s) (k_freed s) (k_signals s).

(** The descriptors closed since the last look at the close pointer. *)
Definition num_done (nextClosePtr : Z) (s : ktx) : Z := u32 (nextClosePtr - k_close s) .& k_ptrMask s.
Definition set_close (nextClosePtr : Z) (s : ktx) : ktx :=
  mkKtx (k_useVTD s) (k_mtu s) (k_ptrMask s) (k_ram s) (k_next s) (k_dirty s) (k_tail s) nextClosePtr (k_free s)
    (k_descs s) (k_mbufs s) (k_done s) (k_map s) (k_freed s) (k_signals s).
Definition signalOutputThread (s : ktx) : ktx :=
  mkKtx (k_useVTD s) (k_mtu s) (k_ptrMask s) (k_ram s) (k_next s) (k_dirty s) (k_tail s) (k_close s) (k_free s)
    (k_descs s) (k_mbufs s) (k_done s) (k_map s) (k_freed s) (k_signals s + 1).

Definition txInterrupt (nextClosePtr : Z) (s : ktx) : ktx :=
  let oldDirtyIndex := k_dirty s in
  let numDone := num_done nextClosePtr s in
  let s := Nat.iter (Z.to_nat numDone) reclaim_slot (set_close nextClosePtr s) in
  if negb (oldDirtyIndex =? k_dirty s) && (kTxQueueWakeTreshhold <? k_free s) then signalOutputThread s else s.

(** ** clearRxTxRings, the transmit part *)

Definition clear_slot (s : ktx) (i : Z) : ktx :=
  let ds := alter (fun d => mkKdesc (if i =? kTxLastDesc then RingEnd else 0) (d_opts2 d) (d_addr d)) i (k_descs s) in
  let s := match k_mbufs s !! i with Some m => freePacket m s | None => s end in
  mkKtx (k_useVTD s) (k_mtu s) (k_ptrMask s) (k_ram s) (k_next s) (k_dirty s) (k_tail s) (k_close s) (k_free s)
    ds (delete i (k_mbufs s)) (k_done s) (k_map s) (k_freed s) (k_signals s).

Definition reset_positions (s : ktx) : ktx :=
  mkKtx (k_useVTD s) (k_mtu s) (k_ptrMask s) (k_ram s) 0 0 0 0 kNumTxDesc
    (k_descs s) (k_mbufs s) (k_done s) (k_map s) (k_freed s) (k_signals s).

Definition clear_map (s : ktx) : ktx := if k_useVTD s then with_map (mkMap 0 0 kNumTxMemDesc ∅ (memMade (k_map s)) (memPanic (k_map s))) s else s.

Definition clearTxRing (s : ktx) : ktx := reset_positions (foldl clear_slot (clear_map s) (seqZ 0 kNumTxDesc)).

(** setupTxResources and setupTxMap: an empty ring. *)
Definition setupTx (vtd : bool) (mtu mask : Z) (m : mem) : ktx :=
  mkKtx vtd mtu mask m 0 0 0 0 kNumTxDesc
    (list_to_map ((fun i => (i, mkKdesc (if i =? kTxLastDesc then RingEnd else 0) 0 0)) <$> seqZ 0 kNumTxDesc)) ∅ 0
    (mkMap 0 0 kNumTxMemDesc ∅ ∅ false) [] 0.
End Code.
