(* ===== verification/KextTxSpec.v ===== *)
(** * The transmit ring of the kernel extension: invariant, stale mappings *)
From S2P Require Import Prelude Frame Checksum TxOffload KextPool KextTx.

(** ** Slots *)

(** The slot [j] places after [a]. *)
Definition slot (a j : Z) : Z := (a + j) mod kNumTxDesc.

Lemma mask_slot x : u32 x .& kTxDescMask = x mod kNumTxDesc.
Proof.
  unfold kTxDescMask, kNumTxDesc. rewrite (land_mask _ _ 10) by done. change (2 ^ 10) with 1024. unfold u32.
  rewrite (Z.mod_mod_divide x 4294967296 1024); [done|]. by exists 4194304.
Qed.

Lemma slot_range a j : 0 <= slot a j < 1024.
Proof. unfold slot, kNumTxDesc. lia. Qed.

Lemma slot_slot a i j : slot (slot a i) j = slot a (i + j).
Proof. unfold slot, kNumTxDesc. lia. Qed.

Lemma kslot_inj a i j : 0 <= i < 1024 -> 0 <= j < 1024 -> slot a i = slot a j -> i = j.
Proof. unfold slot, kNumTxDesc. lia. Qed.

(** The slots from the dirty one on, filled by [used]: the mbuf of a packet is in
    its last slot. *)
Definition ring (s : ktx) (used : list (option Z)) : Prop :=
  0 <= k_dirty s < 1024 /\ Z.of_nat (length used) <= 1024 /\ k_free s = 1024 - Z.of_nat (length used) /\
  k_next s = slot (k_dirty s) (Z.of_nat (length used)) /\
  forall j, (j < 1024)%nat -> k_mbufs s !! slot (k_dirty s) (Z.of_nat j) = mjoin (used !! j).

(** The slots of one packet. *)
Definition packet_slots (n : nat) (m : Z) : list (option Z) := replicate (n - 1) None ++ [Some m].

(** ** Filling descriptors *)

Lemma fill_mbufs segs n cmd opts2 m : forall i index ds mb j,
  0 <= index < 1024 -> n = i + Z.of_nat (length segs) -> (length segs <= 1024)%nat -> (j < 1024)%nat ->
  (fill_segs segs i n index cmd opts2 m ds mb).2 !! slot index (Z.of_nat j) =
    if (j <? length segs)%nat then (if (S j =? length segs)%nat then Some m else None)
    else mb !! slot index (Z.of_nat j).
Proof.
  induction segs as [|[a len] segs IH]; intros i index ds mb j Hi Hn Hl Hj; cbn [fill_segs length]; [done|].
  cbn [length] in Hn, Hl. rewrite mask_slot. change ((index + 1) mod kNumTxDesc) with (slot index 1).
  assert (E0 : slot index (Z.of_nat 0) = index) by (unfold slot, kNumTxDesc; lia).
  destruct j as [|j].
  - assert (E : slot index (Z.of_nat 0) = slot (slot index 1) (Z.of_nat 1023)) by (rewrite slot_slot; unfold slot, kNumTxDesc; lia).
    rewrite E, IH by (lia || apply slot_range). rewrite <- E, E0. rewrite (proj2 (Nat.ltb_ge 1023 _)) by lia. cbn [Nat.ltb Nat.leb].
    destruct segs as [|sg segs]; cbn [length] in *.
    + rewrite (proj2 (Z.eqb_eq i (n - 1))) by lia. cbn. by rewrite lookup_insert_eq.
    + rewrite (proj2 (Z.eqb_neq i (n - 1))) by lia. cbn. by rewrite lookup_delete_eq.
  - assert (E : slot index (Z.of_nat (S j)) = slot (slot index 1) (Z.of_nat j)) by (rewrite slot_slot; f_equal; lia).
    rewrite E, IH by (lia || apply slot_range). rewrite <- E.
    change (S j <? S (length segs))%nat with (j <? length segs)%nat. change (S (S j) =? S (length segs))%nat with (S j =? length segs)%nat.
    assert (Hne : index <> slot index (Z.of_nat (S j))).
    { intros H. rewrite <- E0 in H at 1. apply kslot_inj in H; lia. }
    destruct (j <? length segs)%nat; [done|].
    destruct (i =? n - 1); [by rewrite lookup_insert_ne|by rewrite lookup_delete_ne].
Qed.

Lemma packet_slots_lookup n m j : (0 < n)%nat ->
  mjoin (packet_slots n m !! j) = if (S j =? n)%nat then Some m else None.
Proof.
  intros Hn. unfold packet_slots. destruct (Nat.eqb_spec (S j) n) as [E|E].
  - rewrite lookup_app_r by (rewrite length_replicate; lia). rewrite length_replicate.
    replace (j - (n - 1))%nat with 0%nat by lia. done.
  - destruct (Nat.lt_ge_cases j (n - 1)) as [H|H].
    + rewrite lookup_app_l by (rewrite length_replicate; lia). by rewrite lookup_replicate_2.
    + rewrite lookup_ge_None_2; [done|]. rewrite length_app, length_replicate. cbn. lia.
Qed.

Lemma packet_slots_length n m : (0 < n)%nat -> length (packet_slots n m) = n.
Proof. intros. unfold packet_slots. rewrite length_app, length_replicate. cbn. lia. Qed.

Lemma packet_slots_some n m : omap id (packet_slots n m) = [m].
Proof. unfold packet_slots. rewrite omap_app. induction (n - 1)%nat as [|k IH]; [done|]. cbn. exact IH. Qed.

(** A posted packet goes behind those in flight. *)
Lemma post_ring p segs cmd opts2 s used : ring s used -> segs <> [] -> Z.of_nat (length segs) <= k_free s ->
  ring (post_packet p segs cmd opts2 s) (used ++ packet_slots (length segs) (mp_mbuf p)).
Proof.
  intros (Hd&Hl&Hf&Hn&Hm) Hne Hfit. assert (H0 : (0 < length segs)%nat) by (destruct segs; [done|cbn; lia]).
  unfold post_packet. destruct (fill_segs _ _ _ _ _ _ _ _ _) as [ds mb] eqn:E. unfold ring; cbn.
  rewrite length_app, packet_slots_length by done. assert (E32 : s32 (k_free s - Z.of_nat (length segs)) = k_free s - Z.of_nat (length segs)) by width_lia.
  rewrite E32, mask_slot. split_and!; [lia..| |].
  - change ((k_next s + Z.of_nat (length segs)) mod kNumTxDesc) with (slot (k_next s) (Z.of_nat (length segs))).
    rewrite Hn, slot_slot. f_equal. lia.
  - intros j Hj. pose proof (f_equal snd E) as E2. cbn in E2. rewrite <- E2. clear E E2.
    set (off := if (length used <=? j)%nat then (j - length used)%nat else (1024 - length used + j)%nat).
    assert (Eoff : slot (k_dirty s) (Z.of_nat j) = slot (k_next s) (Z.of_nat off)).
    { rewrite Hn, slot_slot. unfold slot, kNumTxDesc, off. destruct (Nat.leb_spec (length used) j); lia. }
    rewrite Eoff, fill_mbufs; [|rewrite Hn; apply slot_range|lia|lia|unfold off; destruct (Nat.leb_spec (length used) j); lia].
    rewrite <- Eoff, Hm by done. unfold off. destruct (Nat.leb_spec (length used) j) as [Hj2|Hj2].
    + rewrite lookup_app_r, packet_slots_lookup by done. rewrite (lookup_ge_None_2 used) by done. cbn [mjoin option_join].
      destruct (Nat.eqb_spec (S (j - length used)) (length segs)) as [E|E].
      * by rewrite (proj2 (Nat.ltb_lt _ _)) by lia.
      * by destruct (_ <? _)%nat.
    + rewrite (proj2 (Nat.ltb_ge _ _)) by lia. by rewrite lookup_app_l.
Qed.

(** A completed slot is emptied and its packet freed. *)
Lemma reclaim_ring s o used : ring s (o :: used) ->
  ring (reclaim_slot s) used /\ k_freed (reclaim_slot s) = k_freed s ++ omap id [o].
Proof.
  intros (Hd&Hl&Hf&Hn&Hm). cbn [length] in *.
  assert (E0 : slot (k_dirty s) (Z.of_nat 0) = k_dirty s) by (unfold slot, kNumTxDesc; lia).
  pose proof (Hm 0%nat ltac:(lia)) as Ho. rewrite E0 in Ho. cbn in Ho.
  assert (Hd2 : (k_dirty s + 1) mod kNumTxDesc = slot (k_dirty s) 1) by done.
  assert (E32 : s32 (k_free s + 1) = k_free s + 1) by width_lia.
  assert (Hmb : forall j, (j < 1024)%nat ->
    delete (k_dirty s) (k_mbufs s) !! slot (slot (k_dirty s) 1) (Z.of_nat j) = mjoin (used !! j)).
  { intros j Hj. rewrite slot_slot. destruct (Nat.eq_dec j 1023%nat) as [->|Hj2].
    - replace (slot (k_dirty s) (1 + Z.of_nat 1023%nat)) with (k_dirty s) by (unfold slot, kNumTxDesc; lia).
      rewrite lookup_delete_eq. destruct (used !! 1023%nat) eqn:E; [|done]. apply lookup_lt_Some in E. lia.
    - rewrite lookup_delete_ne by (intros H; rewrite <- E0 in H at 1; apply kslot_inj in H; lia).
      replace (1 + Z.of_nat j) with (Z.of_nat (S j)) by lia. rewrite Hm by lia. done. }
  assert (Hnx : k_next s = slot (slot (k_dirty s) 1) (Z.of_nat (length used))) by (rewrite slot_slot, Hn; f_equal; lia).
  unfold reclaim_slot. rewrite Ho. destruct o as [m|]; [destruct (k_useVTD s)|]; unfold ring; cbn; rewrite mask_slot, Hd2, E32;
    rewrite ?app_nil_r; (split; [|done]); split_and!; try done; try lia; apply slot_range.
Qed.

(** The dirty slot, and a ring with nothing in flight. *)
Lemma ring_dirty s o used : ring s (o :: used) -> k_mbufs s !! k_dirty s = o.
Proof.
  intros (Hd&_&_&_&Hm). specialize (Hm 0%nat ltac:(lia)). cbn [lookup list_lookup mjoin option_join] in Hm.
  replace (slot (k_dirty s) (Z.of_nat 0)) with (k_dirty s) in Hm by (unfold slot, kNumTxDesc; lia). done.
Qed.
Lemma ring_empty s i : ring s [] -> 0 <= i < 1024 -> k_mbufs s !! i = None.
Proof.
  intros (Hd&_&_&_&Hm) Hi. specialize (Hm (Z.to_nat ((i - k_dirty s) mod 1024)) ltac:(lia)).
  replace (slot (k_dirty s) _) with i in Hm by (unfold slot, kNumTxDesc; lia). done.
Qed.

(** ** Clearing the ring *)

Lemma clear_slots ids : forall s, NoDup ids ->
  let s' := foldl clear_slot s ids in
  k_freed s' = k_freed s ++ omap (fun i => k_mbufs s !! i) ids /\
  (forall i, k_mbufs s' !! i = if bool_decide (i ∈ ids) then None else k_mbufs s !! i) /\
  k_ptrMask s' = k_ptrMask s /\ k_useVTD s' = k_useVTD s.
Proof.
  induction ids as [|i ids IH]; intros s Hd; cbn [foldl omap].
  { rewrite app_nil_r. done. }
  apply NoDup_cons in Hd as [Hi Hd]. specialize (IH (clear_slot s i) Hd). cbv zeta in *.
  destruct IH as (A1&A2&A3&A4). rewrite A1, A3, A4.
  assert (Em : k_mbufs (clear_slot s i) = delete i (k_mbufs s)) by (unfold clear_slot; by destruct (k_mbufs s !! i)).
  assert (Ef : k_freed (clear_slot s i) = k_freed s ++ omap id [k_mbufs s !! i])
    by (unfold clear_slot; destruct (k_mbufs s !! i); cbn; by rewrite ?app_nil_r).
  split_and!; [| |unfold clear_slot; by destruct (k_mbufs s !! i)..].
  - rewrite Ef, <- app_assoc. f_equal. assert (E : omap (fun j => k_mbufs (clear_slot s i) !! j) ids = omap (fun j => k_mbufs s !! j) ids).
    { clear -Hi Em. rewrite Em. induction ids as [|j ids IH]; [done|]. cbn. rewrite lookup_delete_ne by set_solver.
      rewrite IH by set_solver. done. }
    rewrite E. cbn. by destruct (k_mbufs s !! i).
  - intros j. rewrite A2, Em. destruct (decide (j = i)) as [->|Hne].
    + rewrite lookup_delete_eq, (bool_decide_true (i ∈ i :: ids)) by set_solver. by destruct (bool_decide _).
    + rewrite lookup_delete_ne by done. rewrite (bool_decide_ext (j ∈ i :: ids) (j ∈ ids)) by set_solver. done.
Qed.

Lemma slots_perm a : 0 <= a < 1024 -> slot a <$> (Z.of_nat <$> seq 0 1024) ≡ₚ seqZ 0 kNumTxDesc.
Proof.
  intros Ha. apply NoDup_Permutation.
  - apply NoDup_fmap_2_strong; [|apply NoDup_fmap_2; [intros ???; lia|apply NoDup_seq]].
    intros x y (i&->&Hi%elem_of_seq)%list_elem_of_fmap (j&->&Hj%elem_of_seq)%list_elem_of_fmap E. apply kslot_inj in E; lia.
  - apply NoDup_seqZ.
  - intros x. rewrite elem_of_seqZ, list_elem_of_fmap. unfold kNumTxDesc. split.
    + intros (y&->&_). pose proof (slot_range a y). lia.
    + intros Hx. exists (Z.of_nat (Z.to_nat ((x - a) mod 1024))). split; [unfold slot, kNumTxDesc; lia|].
      apply list_elem_of_fmap_2, elem_of_seq. lia.
Qed.

Lemma omap_lookup_seq (f : nat -> option Z) (used : list (option Z)) n :
  (forall j, (j < n)%nat -> f j = mjoin (used !! j)) -> (length used <= n)%nat -> omap f (seq 0 n) = omap id used.
Proof.
  intros Hf Hl. assert (H : forall k l, (forall j, f (k + j)%nat = mjoin (l !! j) \/ (n <= k + j)%nat) -> (k + length l <= n)%nat ->
    omap f (seq k (n - k)) = omap id l).
  { clear Hf Hl. intros k. remember (n - k)%nat as r eqn:Er. revert k Er. induction r as [|r IH]; intros k Er l Hf Hl.
    - destruct l; [done|cbn in Hl; lia].
    - cbn [seq omap list_omap]. destruct (Hf 0%nat) as [H0|]; [|lia]. rewrite Nat.add_0_r in H0. destruct l as [|o l].
      + cbn in H0. rewrite H0. apply (IH (S k)); [lia| |cbn; lia]. intros j. destruct (Hf (S j)) as [H|H]; [left|right; lia].
        replace (S k + j)%nat with (k + S j)%nat by lia. exact H.
      + cbn in H0. rewrite H0. cbn [omap list_omap id]. rewrite (IH (S k) ltac:(lia) l); [done| |cbn in Hl; lia].
        intros j. destruct (Hf (S j)) as [H|H]; [left|right; lia]. replace (S k + j)%nat with (k + S j)%nat by lia. exact H. }
  specialize (H 0%nat used). rewrite Nat.sub_0_r in H. apply H; [|lia]. intros j. destruct (Nat.lt_ge_cases j n); [left|right]; auto.
Qed.

Lemma omap_fmap_compose {A B C} (f : A -> B) (g : B -> option C) (l : list A) : omap g (f <$> l) = omap (fun x => g (f x)) l.
Proof. induction l as [|x l IH]; [done|]. cbn. by rewrite IH. Qed.

Lemma reset_ring s : (forall i, 0 <= i < 1024 -> k_mbufs s !! i = None) -> ring (reset_positions s) [].
Proof. intros H. unfold ring; cbn. split_and!; try done. intros j Hj. apply H, slot_range. Qed.

Lemma clear_ring s used : ring s used ->
  ring (clearTxRing s) [] /\ k_freed (clearTxRing s) ≡ₚ k_freed s ++ omap id used /\ k_ptrMask (clearTxRing s) = k_ptrMask s.
Proof.
  intros (Hd&Hl&_&_&Hm). unfold clearTxRing.
  assert (E0 : k_mbufs (clear_map s) = k_mbufs s /\ k_freed (clear_map s) = k_freed s /\ k_ptrMask (clear_map s) = k_ptrMask s)
    by (unfold clear_map; by destruct (k_useVTD s)).
  destruct E0 as (Em&Ef&Ep). pose proof (clear_slots (seqZ 0 kNumTxDesc) (clear_map s) (NoDup_seqZ _ _)) as (A1&A2&A3&_).
  revert A1 A2 A3. generalize (foldl clear_slot (clear_map s) (seqZ 0 kNumTxDesc)). intros s1 A1 A2 A3. split; [|split].
  - apply reset_ring. intros i Hi. rewrite A2, bool_decide_true; [done|]. by apply elem_of_seqZ.
  - change (k_freed (reset_positions s1)) with (k_freed s1). rewrite A1, Ef, Em. f_equiv. rewrite <- (slots_perm (k_dirty s) Hd).
    rewrite <- (omap_lookup_seq (fun j => k_mbufs s !! slot (k_dirty s) (Z.of_nat j)) used 1024) by (done || lia).
    by rewrite !omap_fmap_compose.
  - change (k_ptrMask (reset_positions s1)) with (k_ptrMask s1). congruence.
Qed.

(** ** One packet *)

(** The headers a giant send rewrites are in memory: IP and TCP headers of at
    most 78 (IPv4) or 60 bytes (IPv6). *)
Definition headers_mapped (m : mem) (p : mpkt) : Prop := mapped m (ip_of p) 78.

Lemma prepareTSO4_total m ip : mapped m ip 78 -> exists m' off, prepareTSO4 m (ip - kMacHdrLen) = Some (m', off).
Proof.
  intros Hm. unfold prepareTSO4, kMacHdrLen, IPPROTO_TCP. replace (ip - 14 + 14) with ip by lia.
  destruct (ld8_mapped m ip 78 0 Hm) as (hl&Hhl&Hr); [lia|]. rewrite Z.add_0_r in Hhl. rewrite Hhl. cbn [mbind option_bind].
  pose proof (nibble hl) as Hn. assert (E : Z.shiftl (hl .& 15) 2 = 4 * (hl .& 15)) by (rewrite Z.shiftl_mul_pow2 by lia; lia).
  rewrite E. destruct (csum_addrs_folds m 4 (ip + 12) 6 6) as (r&Hc&Hf); [|done|lia|].
  { eapply mapped_sub; [done|lia..]. }
  rewrite Hc. cbn [mbind option_bind]. rewrite (u16_small r) by apply Hf.
  destruct (st16_bswap m (ip + 4 * (hl .& 15) + 16) r) as (m'&Hst&_); [eapply mapped_sub; [done|lia..]|apply Hf|].
  rewrite Hst. cbn. eauto.
Qed.

Lemma prepareTSO6_total m ip : mapped m ip 78 -> exists m' off, prepareTSO6 m (ip - kMacHdrLen) = Some (m', off).
Proof.
  intros Hm. unfold prepareTSO6, kMacHdrLen, kIPv6HdrLen, IPPROTO_TCP. replace (ip - 14 + 14) with ip by lia.
  destruct (st16_bswap m (ip + 4) 0) as (m1&Hst&Hs&_); [eapply mapped_sub; [done|lia..]|done|].
  change (bswap16 0) with 0 in Hst. rewrite Hst. cbn [mbind option_bind].
  pose proof (same_except_mapped _ _ _ _ _ _ Hs Hm) as Hm1.
  destruct (csum_addrs_folds m1 16 (ip + 8) 6 6) as (r&Hc&Hf); [|done|lia|].
  { eapply mapped_sub; [done|lia..]. }
  rewrite Hc. cbn [mbind option_bind]. rewrite (u16_small r) by apply Hf.
  destruct (st16_bswap m1 (ip + 40 + 16) r) as (m'&Hst2&_); [eapply mapped_sub; [done|lia..]|apply Hf|].
  rewrite Hst2. cbn. eauto.
Qed.

Section Packets.
Context (cursor : mpkt -> list (Z * Z)) (dma : Z -> list (Z * Z) -> dma_answer).

Lemma send_one_total p vec s : headers_mapped (k_ram s) p -> is_Some (send_one cursor dma p vec s).
Proof.
  intros Hm. unfold send_one. destruct (mp_tso_fails p); [by eexists|].
  assert (H : exists r, kext_offload (k_mtu s) (k_ram s) p = Some r).
  { unfold kext_offload. destruct (prepareTSO4_total _ _ Hm) as (m4&o4&->), (prepareTSO6_total _ _ Hm) as (m6&o6&->).
    cbn [mbind option_bind]. destruct (mp_tso4 p), (mp_tso6 p), (k_mtu s <? u32 (mp_pktlen p - kMacHdrLen)); eauto. }
  destruct H as [[[m cmd] opts2] ->]. cbn [mbind option_bind]. destruct (segments _ _ _ _ _) as [[segs v] s']. destruct segs; by eexists.
Qed.

(** ** Every packet is in the ring or freed, once *)

Hypothesis cursor_bound : forall p, Z.of_nat (length (cursor p)) <= kMaxSegs.

Lemma src_ranges_bound p rs : src_ranges kMaxSegs p = Some rs -> Z.of_nat (length rs) <= kMaxSegs.
Proof.
  unfold src_ranges. set (pieces := mp_frags p ≫= _). destruct (mp_frags p) as [|[d len] [|f fs]].
  - destruct (_ <=? _) eqn:E; [|done]. intros [= <-]. lia.
  - destruct (_ =? _); [intros [= <-]; done|]. destruct (_ <=? _) eqn:E; [|done]. intros [= <-]. lia.
  - destruct (_ <=? _) eqn:E; [|done]. intros [= <-]. lia.
Qed.

Lemma map_bound p vec ms : (txMapPacket dma p vec ms).1.1 <= kMaxSegs.
Proof.
  unfold txMapPacket. destruct (src_ranges kMaxSegs p) as [rs|] eqn:E; [|done]. apply src_ranges_bound in E.
  destruct (1 <? _); [|done]. destruct (dma _ _) as [| |pas]; [done..|]. by destruct (_ =? _)%nat.
Qed.

Lemma segments_ok p vec s used : ring s used ->
  let '(segs, _, s') := segments cursor dma p vec s in
  Z.of_nat (length segs) <= kMaxSegs /\ ring s' used /\
  (k_freed s', k_ptrMask s', k_close s', k_tail s', k_free s') = (k_freed s, k_ptrMask s, k_close s, k_tail s, k_free s).
Proof.
  intros Hr. unfold segments. destruct (k_useVTD s); [|done].
  pose proof (map_bound p vec (k_map s)) as H. destruct (txMapPacket _ _ _ _) as [[n v] ms]. cbn in H.
  split; [rewrite length_take; unfold kMaxSegs in *; lia|done].
Qed.

Lemma send_ring p vec vec' s s' used : ring s used -> kMaxSegs + 3 < k_free s ->
  send_one cursor dma p vec s = Some (vec', s') ->
  exists new, ring s' (used ++ new) /\ k_freed s' ++ omap id new = k_freed s ++ [mp_mbuf p] /\
    Z.of_nat (length new) <= kMaxSegs /\ k_tail s' = (if (length new =? 0)%nat then k_tail s else u32 (k_tail s + Z.of_nat (length new))) /\
    (k_ptrMask s', k_close s') = (k_ptrMask s, k_close s).
Proof.
  intros Hr Hf Hs. unfold send_one in Hs. destruct (mp_tso_fails p).
  { simplify_eq. exists []. rewrite !app_nil_r. done. }
  destruct (kext_offload _ _ p) as [[[m cmd] opts2]|]; [|done]. cbn [mbind option_bind] in Hs.
  pose proof (segments_ok p vec (with_ram m s) used Hr) as H. destruct (segments _ _ _ _ _) as [[segs v] s1].
  destruct H as (Hn&Hr1&[= Ef Ep Ec Et Efr]). cbn [with_ram k_freed k_ptrMask k_close k_tail k_free] in Ef, Ep, Ec, Et, Efr.
  destruct segs as [|sg segs]; simplify_eq.
  - exists []. rewrite !app_nil_r. unfold freePacket; cbn. split_and!; try done; congruence.
  - set (n := length (sg :: segs)) in *. exists (packet_slots n (mp_mbuf p)).
    assert (Hlen : length (packet_slots n (mp_mbuf p)) = n) by (apply packet_slots_length; unfold n; cbn; lia).
    rewrite Hlen, packet_slots_some. split; [apply post_ring; [done|done|unfold kMaxSegs in *; fold n; lia]|].
    assert (Hp : exists ds mb, fill_segs (sg :: segs) 0 (Z.of_nat n) (k_next s1) cmd (opts2 .| vlan_word p) (mp_mbuf p) (k_descs s1) (k_mbufs s1) = (ds, mb))
      by (destruct (fill_segs _ _ _ _ _ _ _ _ _); eauto). destruct Hp as (ds&mb&Hp).
    unfold post_packet. fold n. rewrite Hp. cbn. split; [by rewrite Ef|]. split; [done|].
    split; [by rewrite Et|congruence].
Qed.
End Packets.

Lemma post_vtd p segs cmd opts2 s : k_useVTD (post_packet p segs cmd opts2 s) = k_useVTD s.
Proof. unfold post_packet. by destruct (fill_segs _ _ _ _ _ _ _ _ _). Qed.
Lemma post_map p segs cmd opts2 s : k_map (post_packet p segs cmd opts2 s) = k_map s.
Proof. unfold post_packet. by destruct (fill_segs _ _ _ _ _ _ _ _ _). Qed.
Lemma post_freed p segs cmd opts2 s : k_freed (post_packet p segs cmd opts2 s) = k_freed s.
Proof. unfold post_packet. by destruct (fill_segs _ _ _ _ _ _ _ _ _). Qed.

(** ** The mapping descriptors *)

(** A free mapping descriptor is left, and the packet has pages to map. *)
Definition map_room (p : mpkt) (ms : mapst) : bool :=
  (1 <? txNumFreeMem ms) && match src_ranges kMaxSegs p with Some [] => false | _ => true end.

(** [k] packets are mapped, with the [k] descriptors from [txNextMem2Free] on. *)
Definition map_ok (ms : mapst) (k : nat) : Prop :=
  memPanic ms = false /\ (k <= 511)%nat /\ txNumFreeMem ms = 512 - Z.of_nat k /\ 0 <= txNextMem2Free ms < 512 /\
  txNextMem2Use ms = (txNextMem2Free ms + Z.of_nat k) mod 512 /\
  forall j, (j < k)%nat -> (txNextMem2Free ms + Z.of_nat j) mod 512 ∈ memMade ms.

(** Without the IOMMU nothing is unmapped; with it, as long as every packet
    found a descriptor. *)
Definition map_inv (s : ktx) (g : bool) (k : nat) : Prop :=
  if k_useVTD s then g = true -> map_ok (k_map s) k else memPanic (k_map s) = false.

Lemma mem_mask x : u16 x .& kTxMemDescMask = x mod 512.
Proof.
  unfold kTxMemDescMask, kNumTxMemDesc, kNumTxDesc. rewrite (land_mask _ _ 9) by done. change (2 ^ 9) with 512.
  unfold u16. rewrite (Z.mod_mod_divide x 65536 512); [done|]. by exists 128.
Qed.

Lemma map_ok_made ms k use a (made : gset Z) : map_ok ms k -> use = txNextMem2Use ms ->
  map_ok (set_memory ms use (txNumFreeMem ms) a (made ∪ memMade ms)) k.
Proof. intros (A&B&C&D&E&F) ->. unfold map_ok, set_memory; cbn. split_and!; try done; try lia. set_solver. Qed.

Lemma map_ok_next ms k a : map_ok ms k -> 1 < txNumFreeMem ms ->
  map_ok (set_memory ms (u16 (txNextMem2Use ms + 1) .& kTxMemDescMask) (s16 (txNumFreeMem ms - 1)) a
            ({[txNextMem2Use ms]} ∪ memMade ms)) (S k).
Proof.
  intros (A&B&C&D&E&F) H1. unfold map_ok, set_memory; cbn [txNextMem2Use txNextMem2Free txNumFreeMem memMade memPanic].
  rewrite mem_mask. split_and!; try done; try lia; try width_lia.
  intros j Hj. destruct (Nat.eq_dec j k) as [->|]; [rewrite <- E; set_solver|].
  apply elem_of_union_r, F. lia.
Qed.

Lemma map_ok_unmap ms k : map_ok ms (S k) -> map_ok (txUnmapPacket ms) k.
Proof.
  intros (A&B&C&D&E&F). unfold map_ok, txUnmapPacket; cbn [txNextMem2Use txNextMem2Free txNumFreeMem memMade memPanic].
  rewrite mem_mask. pose proof (F 0%nat ltac:(lia)) as F0. rewrite Z.add_0_r, Z.mod_small in F0 by lia.
  rewrite A, (bool_decide_true _ F0). split_and!; try done; try lia; try width_lia.
  intros j Hj. specialize (F (S j) ltac:(lia)).
  replace (((txNextMem2Free ms + 1) mod 512 + Z.of_nat j) mod 512) with ((txNextMem2Free ms + Z.of_nat (S j)) mod 512) by lia.
  done.
Qed.

(** What mapping a packet does to the descriptors, and that it maps all of it or
    nothing. *)
Lemma map_packet_ok dma p vec ms k : map_ok ms k -> map_room p ms = true ->
  let '(n, vec', ms') := txMapPacket dma p vec ms in
  n = 0 /\ map_ok ms' k \/ 0 < n /\ vec' <> [] /\ map_ok ms' (S k).
Proof.
  intros Hm Hr. unfold map_room in Hr. apply andb_prop in Hr as [H1%Z.ltb_lt Hd]. unfold txMapPacket.
  destruct (src_ranges kMaxSegs p) as [rs|]; [|by left]. rewrite (proj2 (Z.ltb_lt _ _) H1).
  destruct (dma _ _) as [| |pas]; [by left|left; split; [done|by apply map_ok_made]|].
  destruct (Nat.eqb_spec (length pas) (length rs)) as [El|]; [|left; split; [done|by apply map_ok_made]].
  right. destruct rs as [|r rs]; [done|]. destruct pas as [|pa pas]; [done|]. split; [cbn; lia|].
  split; [done|]. by apply map_ok_next.
Qed.

Lemma send_map cursor dma p vec vec' s s' used new : send_one cursor dma p vec s = Some (vec', s') ->
  k_freed s' ++ omap id new = k_freed s ++ [mp_mbuf p] -> forall g, map_inv s g (length (omap id used)) ->
  map_inv s' (g && map_room p (k_map s)) (length (omap id (used ++ new))).
Proof.
  intros Hs Hfr g Hi. unfold send_one in Hs. rewrite omap_app, length_app.
  pose proof (f_equal length Hfr) as Hlen. rewrite !length_app in Hlen. cbn [length] in Hlen.
  destruct (mp_tso_fails p).
  { simplify_eq. cbn in Hlen. rewrite length_app in Hlen. cbn in Hlen. unfold map_inv in *. cbn [freePacket k_useVTD k_map].
    destruct (k_useVTD s); [|done]. intros Hg. replace (length (omap id new)) with 0%nat by lia. rewrite Nat.add_0_r.
    apply Hi. by apply andb_prop in Hg as [-> _]. }
  destruct (kext_offload _ _ p) as [[[m cmd] opts2]|]; [|done]. cbn [mbind option_bind] in Hs.
  unfold segments in Hs. cbn [with_ram k_useVTD k_map] in Hs. unfold map_inv in Hi. destruct (k_useVTD s) eqn:Ev.
  - pose proof (map_packet_ok dma p vec (k_map s)) as Hmp. destruct (txMapPacket dma p vec (k_map s)) as [[n v] ms].
    destruct (take (Z.to_nat n) v) as [|sg segs] eqn:Et; simplify_eq.
    all: unfold map_inv; rewrite ?post_vtd, ?post_map; cbn [with_map with_ram freePacket k_useVTD k_map]; rewrite Ev;
      intros [Hg Hroom]%andb_prop; rewrite ?post_freed in Hlen; cbn in Hlen; rewrite ?length_app in Hlen; cbn in Hlen;
      destruct (Hmp _ (Hi Hg) Hroom) as [[-> Hk]|(Hn&Hv&Hk)].
    + by replace (length (omap id used) + length (omap id new))%nat with (length (omap id used)) by lia.
    + destruct vec'; [done|]. by destruct (Z.to_nat n) eqn:En; [lia|].
    + done.
    + by replace (length (omap id used) + length (omap id new))%nat with (S (length (omap id used))) by lia.
  - destruct (cursor p); simplify_eq; unfold map_inv; rewrite ?post_vtd, ?post_map; cbn [with_ram freePacket k_useVTD k_map]; by rewrite Ev.
Qed.

Lemma reclaim_map s o used g : k_mbufs s !! k_dirty s = o -> map_inv s g (length (omap id (o :: used))) ->
  map_inv (reclaim_slot s) g (length (omap id used)).
Proof.
  intros Ho. unfold map_inv, reclaim_slot. rewrite Ho. destruct o as [m|]; [|done]. destruct (k_useVTD s) eqn:Ev.
  - cbn [freePacket with_map k_useVTD k_map]. rewrite Ev. intros H Hg. apply map_ok_unmap. exact (H Hg).
  - cbn [freePacket k_useVTD k_map]. by rewrite Ev.
Qed.

Lemma clear_map_inv s g k : map_inv s g k -> map_inv (clearTxRing s) g 0.
Proof.
  unfold map_inv, clearTxRing. pose proof (clear_slots (seqZ 0 kNumTxDesc) (clear_map s) (NoDup_seqZ _ _)) as (_&_&_&A4).
  assert (Hm : forall ids s, k_map (foldl clear_slot s ids) = k_map s).
  { induction ids as [|i ids IH]; intros t; [done|]. cbn [foldl]. rewrite IH. unfold clear_slot. by destruct (k_mbufs t !! i). }
  specialize (Hm (seqZ 0 kNumTxDesc) (clear_map s)). revert A4 Hm. generalize (foldl clear_slot (clear_map s) (seqZ 0 kNumTxDesc)).
  intros t A4 Hm. cbn [reset_positions k_useVTD k_map]. rewrite A4, Hm. unfold clear_map. destruct (k_useVTD s) eqn:Ev.
  - cbn [with_map k_useVTD k_map]. rewrite Ev. intros H Hg. destruct (H Hg) as (A&_). split_and!; try done; cbn; lia.
  - by rewrite Ev.
Qed.

(** ** Output thread, interrupt handler and chip, interleaved *)

Section Interleaving.
Context (cursor : mpkt -> list (Z * Z)) (dma : Z -> list (Z * Z) -> dma_answer) (w : Z).

(** [kx_pend]: slots the interrupt handler has still to take back;
    [kx_posted], [kx_reclaimed], [kx_closed]: descriptors posted, taken back and
    closed by the chip since the last reset; [kx_taken]: packets dequeued;
    [kx_mapped]: so far every packet with data to map has found a free mapping
    descriptor when it was sent. *)
Record ksys := mkKsys {
  kx_tx : ktx;
  kx_pend : nat;
  kx_posted : Z;
  kx_reclaimed : Z;
  kx_closed : Z;
  kx_taken : list Z;
  kx_mapped : bool;
}.

(** The output thread works packet by packet and the interrupt handler slot by
    slot; the close pointer of the chip has [w] bits. [ks_clear] is
    clearRxTxRings; [ks_link_on] is the reset of the positions when the link comes
    up (rtl812xHwConfig), here with no packet in the ring. *)
Inductive kstep : ksys -> ksys -> Prop :=
| ks_send p vec vec' s s' n t c h l g : kMaxSegs + 3 < k_free s -> send_one cursor dma p vec s = Some (vec', s') ->
    kstep (mkKsys s n t c h l g)
      (mkKsys s' n (t + (k_free s - k_free s')) c h (l ++ [mp_mbuf p]) (g && map_room p (k_map s)))
| ks_chip s n t c h h' l g : h <= h' <= t -> kstep (mkKsys s n t c h l g) (mkKsys s n t c h' l g)
| ks_interrupt s t c h l g : let clo := h mod 2 ^ w in
    kstep (mkKsys s 0 t c h l g) (mkKsys (set_close clo s) (Z.to_nat (num_done clo s)) t c h l g)
| ks_reclaim s n t c h l g :
    kstep (mkKsys s (S n) t c h l g) (mkKsys (reclaim_slot s) n t (c + 1) h l g)
| ks_clear s t c h l g : kstep (mkKsys s 0 t c h l g) (mkKsys (clearTxRing s) 0 0 0 0 l g)
| ks_link_on s t c h l g : k_free s = kNumTxDesc ->
    kstep (mkKsys s 0 t c h l g) (mkKsys (reset_positions s) 0 0 0 0 l g).

Definition kinv (x : ksys) : Prop :=
  exists used, ring (kx_tx x) used /\ k_ptrMask (kx_tx x) = 2 ^ w - 1 /\ 4 <= k_free (kx_tx x) /\
    kx_posted x - kx_reclaimed x = Z.of_nat (length used) /\
    0 <= kx_reclaimed x /\ kx_reclaimed x + Z.of_nat (kx_pend x) <= kx_closed x <= kx_posted x /\
    k_close (kx_tx x) = (kx_reclaimed x + Z.of_nat (kx_pend x)) mod 2 ^ w /\ k_tail (kx_tx x) = u32 (kx_posted x) /\
    kx_taken x ≡ₚ k_freed (kx_tx x) ++ omap id used /\
    map_inv (kx_tx x) (kx_mapped x) (length (omap id used)).

Hypothesis cursor_bound : forall p, Z.of_nat (length (cursor p)) <= kMaxSegs.
Hypothesis width : w = 16 \/ w = 31 \/ w = 32.

Lemma num_done_exact s c h : k_ptrMask s = 2 ^ w - 1 -> k_close s = c mod 2 ^ w -> 0 <= h - c <= 1024 ->
  num_done (h mod 2 ^ w) s = h - c.
Proof.
  intros Em Ec Hh. unfold num_done. rewrite Em, Ec, land_ones_mod by (destruct width as [->|[->| ->]]; lia).
  unfold u32. destruct width as [->|[->| ->]]; [change (2 ^ 16) with 65536|change (2 ^ 31) with 2147483648|change (2 ^ 32) with 4294967296]; lia.
Qed.

Lemma reclaim_fields s : k_ptrMask (reclaim_slot s) = k_ptrMask s /\ k_close (reclaim_slot s) = k_close s /\
  k_tail (reclaim_slot s) = k_tail s.
Proof. unfold reclaim_slot. destruct (k_mbufs s !! _); [destruct (k_useVTD s)|]; done. Qed.

Lemma kstep_inv x x' : kinv x -> kstep x x' -> kinv x'.
Proof.
  intros (used&Hr&Hm&H4&Hlen&H0&Hp&Hc&Ht&Hq&Hmi) Hs.
  destruct Hs as [p vec vec' s s' n t c h l g Hf Hs|s n t c h h' l g Hh|s t c h l g clo|s n t c h l g|s t c h l g|s t c h l g Hfr0]; cbn in *.
  - destruct (send_ring cursor dma cursor_bound p vec vec' s s' used Hr Hf Hs) as (new&Hr'&Hfr&Hn&Etl&Ef). injection Ef as E1 E2.
    assert (Hfree : k_free s - k_free s' = Z.of_nat (length new)).
    { destruct Hr as (_&_&-> &_), Hr' as (_&_&-> &_). rewrite length_app. lia. }
    exists (used ++ new). cbn. rewrite Hfree, length_app, E1, E2. split_and!; try done; try lia.
    + rewrite Etl. destruct (Nat.eqb_spec (length new) 0) as [->|]; [by rewrite Z.add_0_r|]. rewrite Ht. unfold u32. lia.
    + rewrite omap_app, Hq, (Permutation_app_comm (omap id used)), app_assoc, Hfr. solve_Permutation.
    + by eapply send_map.
  - exists used. cbn. split_and!; try done; lia.
  - exists used. cbn. assert (Hl : 0 <= h - c <= 1024) by (destruct Hr as (_&?&_); lia). rewrite Z.add_0_r in Hc.
    unfold clo. rewrite (num_done_exact s c h Hm Hc Hl). split_and!; try done; try lia. f_equal. lia.
  - destruct used as [|o used]; [cbn in Hlen; lia|]. destruct (reclaim_ring s o used Hr) as [Hr' Hfr].
    destruct (reclaim_fields s) as (E1&E2&E3). exists used.
    cbn [kx_tx kx_pend kx_posted kx_reclaimed kx_closed kx_taken kx_mapped]. rewrite E1, E2, E3, Hfr. cbn in Hlen.
    split_and!; try done; try lia.
    + destruct Hr as (_&_&?&_), Hr' as (_&_&-> &_). cbn [length] in *. lia.
    + rewrite Hc. f_equal. lia.
    + rewrite Hq. rewrite <- app_assoc. f_equiv. by destruct o.
    + eapply reclaim_map; [|exact Hmi]. by eapply ring_dirty.
  - destruct (clear_ring s used Hr) as (Hr'&Hfr&Em). apply clear_map_inv in Hmi.
    assert (E : k_free (clearTxRing s) = kNumTxDesc /\ k_close (clearTxRing s) = 0 /\ k_tail (clearTxRing s) = 0).
    { clear. unfold clearTxRing. generalize (foldl clear_slot (clear_map s) (seqZ 0 kNumTxDesc)). intros s1. by repeat split. }
    revert E Hr' Hfr Em Hmi. generalize (clearTxRing s). intros s' (E1&E2&E3) Hr' Hfr Em Hmi. exists []. cbn.
    rewrite Em, E1, E2, E3, app_nil_r. split_and!; try done. by rewrite Hfr.
  - assert (used = []) as ->.
    { destruct Hr as (_&_&Hf&_). unfold kNumTxDesc in Hfr0. destruct used; [done|cbn in Hf; lia]. }
    exists []. cbn. split_and!; try done. apply reset_ring. intros i Hi. by apply (ring_empty s).
Qed.

(** The ring as setupTxResources leaves it. *)
Definition kstart (vtd : bool) (mtu : Z) (m : mem) : ksys := mkKsys (setupTx vtd mtu (2 ^ w - 1) m) 0 0 0 0 [] true.

Lemma kstart_inv vtd mtu m : kinv (kstart vtd mtu m).
Proof.
  clear cursor_bound width cursor dma. exists []. unfold kstart, setupTx. generalize (list_to_map (M := gmap Z kdesc) ((fun i => (i, mkKdesc (if i =? kTxLastDesc then RingEnd else 0) 0 0)) <$> seqZ 0 kNumTxDesc)).
  intros ds. cbn. split_and!; try done. destruct vtd; cbn; [|done]. intros _. split_and!; try done; cbn; lia.
Qed.
End Interleaving.

(** ** Packets that fit one page, mapped by the IOMMU *)

Section Exhausted.
Context (cursor : mpkt -> list (Z * Z)) (dma : Z -> list (Z * Z) -> dma_answer).
Hypothesis maps : forall n rs, exists pas, dma n rs = Segments pas /\ length pas = length rs.

(** No giant send, one mbuf, one page. *)
Definition one_page (p : mpkt) : Prop :=
  mp_tso_fails p = false /\ mp_tso4 p = false /\ mp_tso6 p = false /\
  exists d len, mp_frags p = [(d, len)] /\ trunc_page d = trunc_page (d + len - 1).

(** After [i] such packets in a fresh ring; the segment array starts with what
    went into the last descriptor. *)
Definition sent (i : Z) (s : ktx) (vec : list (Z * Z)) : Prop :=
  k_useVTD s = true /\ k_next s = i /\ k_free s = 1024 - i /\ txNumFreeMem (k_map s) = 512 - i /\
  vec <> [] /\ (0 < i -> exists d, k_descs s !! (i - 1) = Some d /\ Some (d_addr d) = fst <$> head vec).

Lemma one_page_ranges p : one_page p -> exists r, src_ranges kMaxSegs p = Some [r].
Proof. intros (_&_&_&d&len&Ef&Ep). exists (d, len). unfold src_ranges. rewrite Ef. by rewrite (proj2 (Z.eqb_eq _ _)). Qed.

Lemma one_page_offload p m mtu : one_page p -> exists o, kext_offload mtu m p = Some (m, 0, o).
Proof. intros (_&E4&E6&_). unfold kext_offload. rewrite E4, E6. eauto. Qed.

(** Posting one segment. *)
Lemma post_one p a len cmd opts2 s : 0 <= k_next s < 1023 -> 1 <= k_free s <= 1024 ->
  let s' := post_packet p [(a, len)] cmd opts2 s in
  k_useVTD s' = k_useVTD s /\ k_next s' = k_next s + 1 /\ k_free s' = k_free s - 1 /\ k_map s' = k_map s /\
  (exists d, k_descs s' !! k_next s = Some d /\ d_addr d = a) /\
  (forall i, i <> k_next s -> k_descs s' !! i = k_descs s !! i) /\ k_mbufs s' !! k_next s = Some (mp_mbuf p).
Proof.
  intros Hn Hf. unfold post_packet. cbn -[s32]. rewrite mask_slot. unfold kNumTxDesc.
  assert (E : s32 (k_free s - 1) = k_free s - 1) by width_lia. split_and!; try done; try lia.
  - unfold own_first. rewrite lookup_alter_eq, lookup_insert_eq. cbn. eauto.
  - intros i Hi. unfold own_first. by rewrite lookup_alter_ne, lookup_insert_ne.
  - change (Z.of_nat 1 - 1) with 0. cbv iota. by rewrite lookup_insert_eq.
Qed.

Lemma sent_next p i s vec : one_page p -> 0 <= i < 511 -> sent i s vec ->
  exists vec' s', send_one cursor dma p vec s = Some (vec', s') /\ sent (i + 1) s' vec'.
Proof.
  intros Hp Hi (Hv&Hn&Hf&Hm&Hne&_). destruct (one_page_ranges p Hp) as [r Er].
  destruct (one_page_offload p (k_ram s) (k_mtu s) Hp) as [o Eo]. destruct Hp as (Et&_).
  unfold send_one. rewrite Et, Eo. cbn [mbind option_bind]. unfold segments, with_ram, with_map. cbn [k_useVTD k_map]. rewrite Hv.
  unfold txMapPacket. rewrite Er, Hm. rewrite (proj2 (Z.ltb_lt 1 (512 - i))) by lia.
  destruct (maps (txNextMem2Use (k_map s)) ((fun r => (trunc_page r.1, PAGE_SIZE)) <$> [r])) as (pas&Ed&El). rewrite Ed.
  destruct pas as [|pa [|]]; try done. cbn [length Nat.eqb zip_with app Z.of_nat Pos.of_succ_nat Z.to_nat Pos.to_nat Pos.iter_op Nat.add take].
  set (ms := set_memory _ _ _ _ _). set (s1 := mkKtx _ _ _ _ _ _ _ _ _ _ _ _ _ _ _).
  pose proof (post_one p (pa + r.1 mod PAGE_SIZE) r.2 0 o s1) as (A1&A2&A3&A4&(d&A5&A5')&_&_); [cbn; lia|cbn; lia|].
  exists ((pa + r.1 mod PAGE_SIZE, r.2) :: drop 1 vec), (post_packet p [(pa + r.1 mod PAGE_SIZE, r.2)] 0 o s1).
  split; [reflexivity|]. unfold sent. rewrite A1, A2, A3, A4. cbn [s1 k_useVTD k_next k_free k_map ms set_memory txNumFreeMem].
  split_and!; try done; try lia; [width_lia|]. intros _. exists d. replace (i + 1 - 1) with (k_next s1) by (cbn; lia). by rewrite A5, A5'.
Qed.

Lemma sent_many q rest : forall i s vec, Forall one_page q -> 0 <= i -> i + Z.of_nat (length q) <= 511 -> sent i s vec ->
  exists vec' s', send_loop cursor dma (q ++ rest) vec s = send_loop cursor dma rest vec' s' /\
    sent (i + Z.of_nat (length q)) s' vec'.
Proof.
  induction q as [|p q IH]; intros i s vec Hq Hi Hl Hs.
  - exists vec, s. split; [done|]. by rewrite Z.add_0_r.
  - apply Forall_cons in Hq as [Hp Hq]. cbn [length] in Hl. destruct (sent_next p i s vec Hp ltac:(lia) Hs) as (v1&s1&E1&Hs1).
    destruct (IH (i + 1) s1 v1 Hq ltac:(lia) ltac:(lia) Hs1) as (v2&s2&E2&Hs2). exists v2, s2. split.
    + cbn [app send_loop]. destruct Hs as (_&_&Hf&_). rewrite (proj2 (Z.ltb_lt _ _)) by (unfold kMaxSegs; lia). by rewrite E1.
    + cbn [length]. replace (i + Z.of_nat (S (length q))) with (i + 1 + Z.of_nat (length q)) by lia. exact Hs2.
Qed.

(** With one descriptor of the map left nothing is mapped. *)
Lemma sent_stale p s vec : one_page p -> sent 511 s vec ->
  exists s', send_one cursor dma p vec s = Some (vec, s') /\ k_mbufs s' !! 511 = Some (mp_mbuf p) /\
    exists d d', k_descs s' !! 510 = Some d /\ k_descs s' !! 511 = Some d' /\ d_addr d' = d_addr d /\ k_map s' = k_map s.
Proof.
  intros Hp (Hv&Hn&Hf&Hm&Hne&Hd). destruct (Hd ltac:(lia)) as (d&Hd1&Hd2). destruct (one_page_ranges p Hp) as [r Er].
  destruct (one_page_offload p (k_ram s) (k_mtu s) Hp) as [o Eo]. destruct Hp as (Et&_).
  unfold send_one. rewrite Et, Eo. cbn [mbind option_bind]. unfold segments, with_ram, with_map. cbn [k_useVTD k_map]. rewrite Hv.
  unfold txMapPacket. rewrite Er, Hm. change (1 <? 512 - 511) with false. destruct vec as [|[a len] vec]; [done|].
  cbn [length Z.of_nat Pos.of_succ_nat Z.to_nat Pos.to_nat Pos.iter_op Nat.add take]. set (s1 := mkKtx _ _ _ _ _ _ _ _ _ _ _ _ _ _ _).
  pose proof (post_one p a len 0 o s1) as (_&_&_&A4&(d'&A5&A5')&A6&A7); [cbn; lia|cbn; lia|].
  cbn in Hd2. injection Hd2 as Ea. assert (En : k_next s1 = 511) by exact Hn. rewrite En in A5, A6, A7.
  exists (post_packet p [(a, len)] 0 o s1). split; [reflexivity|]. split; [done|]. exists d, d'. split; [rewrite A6 by lia; exact Hd1|]. split; [done|]. split; [congruence|exact A4].
Qed.
End Exhausted.

(** ** Properties *)


(** C38: on a machine with an IOMMU the kernel extension can send the wrong memory:
    there are 512 mapping descriptors and it uses 511, but it does not look at the
    outcome when they run out. If 512 packets of one page each are queued, all
    mappings succeeding, the 512th is posted with the address of the 511th: its
    descriptor carries the device address of the packet before it, nothing is
    mapped for it, and its own mbuf is recorded as sent. *)
Theorem vtd_mapping_exhausted cursor dma mtu mask m stack q p :
  (forall n rs, exists pas, dma n rs = Segments pas /\ length pas = length rs) -> stack <> [] ->
  Forall one_page q -> length q = 511%nat -> one_page p ->
  exists vec s', send_loop cursor dma (q ++ [p]) stack (setupTx true mtu mask m) = Some ([], vec, s') /\
    txNumFreeMem (k_map s') = 1 /\ k_mbufs s' !! 511 = Some (mp_mbuf p) /\
    exists d d', k_descs s' !! 510 = Some d /\ k_descs s' !! 511 = Some d' /\ d_addr d' = d_addr d.
Proof.
  intros Hmaps Hst Hq Hlen Hp.
  assert (H0 : sent 0 (setupTx true mtu mask m) stack) by (unfold sent; split_and!; done || lia).
  revert H0. generalize (setupTx true mtu mask m). intros s0 H0.
  destruct (sent_many cursor dma Hmaps q [p] 0 s0 stack Hq ltac:(lia) ltac:(lia) H0) as (v1&s1&E1&Hs1).
  rewrite Hlen in Hs1. change (0 + Z.of_nat 511) with 511 in Hs1. pose proof Hs1 as (_&_&Hf&Hm&_).
  destruct (sent_stale cursor dma p s1 v1 Hp Hs1) as (s2&E2&Hmb&d&d'&Hd1&Hd2&Ha&Em). exists v1, s2. split_and!; [|by rewrite Em|done|eauto].
  rewrite E1. cbn [send_loop]. rewrite (proj2 (Z.ltb_lt _ _)) by (unfold kMaxSegs; lia). by rewrite E2.
Qed.

(** ** A cursor with one segment per mbuf and a mapper that always succeeds *)
Module TxSim.
Definition cursor1 (p : mpkt) : list (Z * Z) := take 32 (mp_frags p).
Definition dma1 (n : Z) (rs : list (Z * Z)) : dma_answer := Segments ((fun r => 0x100000 + r.1) <$> rs).

Definition pkt (m d : Z) : mpkt :=
  mkMpkt m 60 60 d 0 false false false 0 false false false false false None [(d, 60)].
Definition pkt2 (m : Z) : mpkt :=
  mkMpkt m 1500 14 0x1000 0x3000 false false false 0 true false false false false (Some 7) [(0x1000, 14); (0x3000, 1486)].

Lemma dma1_maps n rs : exists pas, dma1 n rs = Segments pas /\ length pas = length rs.
Proof. eexists. split; [reflexivity|]. apply length_fmap. Qed.

Lemma cursor1_bound p : Z.of_nat (length (cursor1 p)) <= kMaxSegs.
Proof. unfold cursor1. rewrite length_take. unfold kMaxSegs. lia. Qed.

(** A packet of two segments sent, closed by the chip and taken back. *)
Definition sent2 : ktx :=
  match send_one cursor1 dma1 (pkt2 5) [] (setupTx false 1500 65535 ∅) with Some (_, s) => s | None => setupTx false 1500 65535 ∅ end.


(** With the IOMMU, 512 packets of one page in flight and all of them closed by
    the chip: the last has no mapping, entry 511 of [txMemIO] was never filled, and
    txUnmapPacket calls complete() through it. *)
Theorem vtd_unmap_panics :
  match send_loop cursor1 dma1 (replicate 512 (pkt 5 0x1000)) [(0, 0)] (setupTx true 1500 65535 ∅) with
  | Some ([], _, s') => (memPanic (k_map (Nat.iter 511 reclaim_slot (set_close 512 s'))), memPanic (k_map (txInterrupt 512 s'))) = (false, true)
  | _ => False
  end.
Proof. vm_compute. reflexivity. Qed.

Lemma vtd_mapping_exhausted_witness :
  exists vec s', send_loop cursor1 dma1 (replicate 511 (pkt 5 0x1000) ++ [pkt 9 0x7000]) [(0, 0)] (setupTx true 1500 65535 ∅) =
      Some ([], vec, s') /\ k_mbufs s' !! 511 = Some 9 /\
    exists d d', k_descs s' !! 510 = Some d /\ k_descs s' !! 511 = Some d' /\ d_addr d' = d_addr d.
Proof.
  destruct (vtd_mapping_exhausted cursor1 dma1 1500 65535 ∅ [(0, 0)] (replicate 511 (pkt 5 0x1000)) (pkt 9 0x7000))
    as (vec&s'&A&_&B&C).
  - exact dma1_maps.
  - discriminate.
  - apply Forall_replicate. do 3 (split; [reflexivity|]). exists 0x1000, 60. split; reflexivity.
  - apply length_replicate.
  - do 3 (split; [reflexivity|]). exists 0x7000, 60. split; reflexivity.
  - exists vec, s'. split; [exact A|]. split; [exact B|exact C].
Defined.
End TxSim.
