(* ===== verification/KextRx.v ===== *)
(** * The receive path of the kernel extension

    rxInterrupt (RTL812xLucy.cpp), rxInterruptVTD and rxMapBuffers
    (RTL812xLucyVTD.cpp), discardPacketFragment and the receive part of
    clearRxTxRings (RTL812xLucySetup.cpp). A frame may fill several descriptors;
    its buffers are chained until the last one arrives. *)
From S2P Require Import Prelude TxOffload RxRing RxRingSpec KextPool KextTx.

Definition kNumRxDesc : Z := 1024.
Definition kRxLastDesc : Z := kNumRxDesc - 1.
Definition kRxDescMask : Z := kNumRxDesc - 1.
Definition kRxMemBaseShift : Z := 4.
Definition kNumRxMemDesc : Z := Z.shiftr kNumRxDesc kRxMemBaseShift.
Definition kRxMemBatchSize : Z := kNumRxDesc / kNumRxMemDesc.
Definition kRxMemDescMask : Z := kRxMemBatchSize - 1.
Definition kRxBufferSize : Z := PAGE_SIZE.
Definition kIOEthernetCRCSize : Z := 4.
Definition RxRWT : Z := BIT 22.
Definition RxRUNT : Z := BIT 20.
Definition RxCRC : Z := BIT 19.

(** What the receive path does to mbufs: an access, a release, a release of a
    chain, a packet passed to the stack with the length in its header. *)
Inductive mact := Touch (m : Z) | Free (m : Z) | FreeList (m : Z) | Input (m len : Z).

(** Lengths and successors of mbufs, and what was done to them. *)
Record heap := mkHeap { h_len : gmap Z Z; h_next : gmap Z Z; h_trace : list mact }.

(** [rxPacketHead], [rxPacketTail], [rxPacketSize]. *)
Record fragment := mkFrag { f_head : Z; f_tail : Z; f_size : Z }.

Record rxstats := mkStats { frameTooLongs : Z; fcsErrors : Z; resourceErrors : Z }.

(** The pool, as the receive path uses it. *)
Class RxBuffers (P : Type) := {
  replace_or_copy : Z -> Z -> P -> option Z * Z * bool * P;
  get_packet : Z -> mbuf_how -> P -> option Z * P;
}.

(** [r_bufs]: mbuf and device address of each slot (struct rtlRxBufferInfo). *)
Record krx {P : Type} := mkKrx {
  r_next : Z;
  r_mapNext : Z;
  r_descs : gmap Z kdesc;
  r_bufs : gmap Z (Z * Z);
  r_frag : fragment;
  r_heap : heap;
  r_pool : P;
  r_stats : rxstats;
}.
Arguments krx : clear implicits.

(** ** mbuf calls *)

Definition act (a : mact) (h : heap) : heap := mkHeap (h_len h) (h_next h) (h_trace h ++ [a]).
Definition mbuf_setlen (m n : Z) (h : heap) : heap := act (Touch m) (mkHeap (<[m := n]> (h_len h)) (h_next h) (h_trace h)).
Definition mbuf_setnext (m x : Z) (h : heap) : heap := act (Touch m) (mkHeap (h_len h) (<[m := x]> (h_next h)) (h_trace h)).
Definition mbuf_next (m : Z) (h : heap) : Z := default 0 (h_next h !! m).
Definition mbuf_len (m : Z) (h : heap) : Z := default 0 (h_len h !! m).
(** mbuf_adjustlen refuses to make a length negative. *)
Definition mbuf_adjustlen (m n : Z) (h : heap) : heap :=
  if mbuf_len m h + n <? 0 then act (Touch m) h
  else act (Touch m) (mkHeap (<[m := mbuf_len m h + n]> (h_len h)) (h_next h) (h_trace h)).
(** A packet from the allocator has no successor. *)
Definition fresh_packet (m : Z) (h : heap) : heap := mkHeap (<[m := 0]> (h_len h)) (<[m := 0]> (h_next h)) (h_trace h).

Section Code.
Context {P : Type} `{B : !RxBuffers P}.
(** The device address of an mbuf's data; whether a new packet has more than one
    mbuf; the mapping of a batch of buffers (the device addresses it got). *)
Context (phys : Z -> Z) (multi : Z -> bool) (rx_dma : Z -> list Z -> option (list Z)).
Implicit Types s : krx P.

Definition with_frag (f : fragment) s : krx P := mkKrx P (r_next s) (r_mapNext s) (r_descs s) (r_bufs s) f (r_heap s) (r_pool s) (r_stats s).
Definition with_heap (h : heap) s : krx P := mkKrx P (r_next s) (r_mapNext s) (r_descs s) (r_bufs s) (r_frag s) h (r_pool s) (r_stats s).
Definition with_pool (p : P) s : krx P := mkKrx P (r_next s) (r_mapNext s) (r_descs s) (r_bufs s) (r_frag s) (r_heap s) p (r_stats s).
Definition with_bufs (b : gmap Z (Z * Z)) s : krx P := mkKrx P (r_next s) (r_mapNext s) (r_descs s) b (r_frag s) (r_heap s) (r_pool s) (r_stats s).
Definition with_descs (d : gmap Z kdesc) s : krx P := mkKrx P (r_next s) (r_mapNext s) d (r_bufs s) (r_frag s) (r_heap s) (r_pool s) (r_stats s).
Definition with_stats (x : rxstats) s : krx P := mkKrx P (r_next s) (r_mapNext s) (r_descs s) (r_bufs s) (r_frag s) (r_heap s) (r_pool s) x.
Definition with_next (i : Z) s : krx P := mkKrx P i (r_mapNext s) (r_descs s) (r_bufs s) (r_frag s) (r_heap s) (r_pool s) (r_stats s).
Definition with_mapNext (i : Z) s : krx P := mkKrx P (r_next s) i (r_descs s) (r_bufs s) (r_frag s) (r_heap s) (r_pool s) (r_stats s).

Definition desc_at (i : Z) s : kdesc := default (mkKdesc 0 0 0) (r_descs s !! i).
Definition buf_at (i : Z) s : Z * Z := default (0, 0) (r_bufs s !! i).

Definition discardPacketFragment s : krx P :=
  let f := r_frag s in
  with_frag (mkFrag 0 0 0) (if f_head f =? 0 then s else with_heap (act (FreeList (f_head f)) (r_heap s)) s).

Definition count_resource s : krx P :=
  let x := r_stats s in with_stats (mkStats (frameTooLongs x) (fcsErrors x) (u32 (resourceErrors x + 1))) s.
Definition count_error (status1 : Z) s : krx P :=
  let x := r_stats s in
  with_stats (mkStats (if has status1 (RxRWT .| RxRUNT) then u32 (frameTooLongs x + 1) else frameTooLongs x)
                (if has status1 RxCRC then u32 (fcsErrors x + 1) else fcsErrors x) (resourceErrors x)) s.

(** A buffer in the middle of a frame. *)
Definition append_fragment (newPkt pktSize : Z) s : krx P :=
  let f := r_frag s in
  let h := mbuf_setlen newPkt pktSize (r_heap s) in
  if f_head f =? 0 then with_frag (mkFrag newPkt newPkt pktSize) (with_heap h s)
  else with_frag (mkFrag (f_head f) newPkt (s32 (f_size f + pktSize)))
         (with_heap (mbuf_setnext (f_tail f) newPkt (act (Touch newPkt) h)) s).

(** getChecksumResult touches the packet if there is a verdict. *)
Definition checksum (m status1 status2 : Z) (h : heap) : heap :=
  let '(ip, data) := getChecksumResult status1 status2 in if ip || data then act (Touch m) h else h.

(** The last buffer of a frame, without the frame check sequence. *)
Definition join_last (newPkt size : Z) (f : fragment) (h : heap) : fragment * heap :=
  if f_head f =? 0 then (mkFrag newPkt (f_tail f) size, mbuf_setlen newPkt (u64 size) h)
  else if 0 <? size then
    (mkFrag (f_head f) newPkt (s32 (f_size f + size)),
     mbuf_setnext (f_tail f) newPkt (act (Touch newPkt) (mbuf_setlen newPkt size h)))
  else (mkFrag (f_head f) (f_tail f) (s32 (f_size f + size)), mbuf_adjustlen (f_tail f) size (act (Free newPkt) h)).

(** Checksum verdict, VLAN tag, header length, enqueueInputPacket. *)
Definition pass_up (newPkt status1 status2 : Z) (f : fragment) (h : heap) : heap :=
  let h := checksum newPkt status1 status2 h in
  let h := if has status2 RxVlanTag then act (Touch (f_head f)) h else h in
  act (Input (f_head f) (f_size f)) (act (Touch (f_head f)) h).

Definition finish_packet (newPkt pktSize status1 status2 : Z) s : krx P :=
  let '(f, h) := join_last newPkt (pktSize - kIOEthernetCRCSize) (r_frag s) (r_heap s) in
  with_frag (mkFrag 0 0 0) (with_heap (pass_up newPkt status1 status2 f h) s).

(** The descriptor at [r_next]; true: a packet was passed up. *)
Definition handle_desc (vtd : bool) s : bool * krx P :=
  let i := r_next s in
  let d := desc_at i s in
  let status1 := d_opts1 d in
  if has status1 RxRES then (false, discardPacketFragment (count_error status1 s)) else
  let pktSize := status1 .& (if vtd then 0x1fff else 0x3fff) in
  match replace_or_copy (buf_at i s).1 pktSize (r_pool s) with
  | (None, _, _, p) => (false, discardPacketFragment (count_resource (with_pool p s)))
  | (Some newPkt, bufPkt, replaced, p) =>
      let s := with_heap (fresh_packet (if replaced then bufPkt else newPkt) (r_heap s)) (with_pool p s) in
      if replaced && multi bufPkt then
        let s := discardPacketFragment (count_resource s) in
        (false, with_heap (act (FreeList bufPkt) (r_heap s)) s)
      else
        let s := if replaced then with_bufs (<[i := (bufPkt, if vtd then 0 else phys bufPkt)]> (r_bufs s)) s else s in
        if has status1 LastFrag then (true, finish_packet newPkt pktSize status1 (d_opts2 d) s)
        else (false, append_fragment newPkt pktSize s)
  end.

(** The 64-bit first word of a receive descriptor: an [int] expression, so its
    sign is extended. *)
Definition rx_word1 (i : Z) : Z :=
  u64 (s32 (kRxBufferSize .| DescOwn .| (if i =? kRxLastDesc then RingEnd else 0))).
Definition rx_desc (i addr : Z) : kdesc := mkKdesc (u32 (rx_word1 i)) (Z.shiftr (rx_word1 i) 32) addr.

Definition rearm s : krx P :=
  let i := r_next s in
  with_next (u16 (i + 1) .& kRxDescMask) (with_descs (<[i := rx_desc i (buf_at i s).2]> (r_descs s)) s).

(** [while (!(own) && goodPkts < maxCount)]; [None]: out of fuel. The descriptors
    are in memory the chip writes: [chip k] is what it has done to them when round
    [k] looks at the ownership bit. *)
Fixpoint rx_loop (chip : nat -> krx P -> krx P) (fuel round : nat) (goodPkts maxCount : Z) s : option (Z * krx P) :=
  match fuel with
  | O => None
  | S n =>
      let s := chip round s in
      if has (d_opts1 (desc_at (r_next s) s)) DescOwn || (maxCount <=? goodPkts) then Some (goodPkts, s)
      else let '(good, s) := handle_desc false s in
           rx_loop chip n (S round) (if good then u32 (goodPkts + 1) else goodPkts) maxCount (rearm s)
  end.

Definition rxInterrupt (chip : nat -> krx P -> krx P) (fuel : nat) (maxCount : Z) s : option (Z * krx P) :=
  rx_loop chip fuel 0 0 maxCount s.

(** A chip that completes nothing while the handler runs. *)
Definition quiet (round : nat) s : krx P := s.

(** ** The variant for the IOMMU *)

Fixpoint arm_batch (i : Z) (pas : list Z) s : krx P :=
  match pas with
  | [] => s
  | pa :: pas' =>
      arm_batch (i + 1) pas'
        (with_descs (<[i := rx_desc i pa]> (r_descs s)) (with_bufs (<[i := ((buf_at i s).1, pa)]> (r_bufs s)) s))
  end.

(** One batch per round; a mapping that fails ends the loop. The address ranges
    ([rxMemRange]) are those of the slots' mbufs: whenever an mbuf is exchanged its
    address is set to 0, and the range is renewed here. *)
Fixpoint rxMapBuffers (index : Z) (count : nat) s : Z * krx P :=
  match count with
  | O => (index, s)
  | S n =>
      let slots := seqZ index kRxMemBatchSize in
      match rx_dma (Z.shiftr index kRxMemBaseShift) ((fun i => (buf_at i s).1) <$> slots) with
      | None => (index, s)
      | Some pas =>
          let s := arm_batch index pas s in
          if (length pas =? length slots)%nat then
            let next := (index + kRxMemBatchSize) .& kRxDescMask in
            rxMapBuffers next n (with_mapNext next s)
          else (index, s)
      end
  end.

Fixpoint rx_loop_vtd (fuel : nat) (goodPkts maxCount numMap : Z) s : option (Z * Z * krx P) :=
  match fuel with
  | O => None
  | S n =>
      if has (d_opts1 (desc_at (r_next s) s)) DescOwn || (maxCount <=? goodPkts) then Some (goodPkts, numMap, s)
      else
        let '(good, s) := handle_desc true s in
        let i := r_next s in
        let numMap := if i .& kRxMemDescMask =? kRxMemDescMask then u32 (numMap + 1) else numMap in
        rx_loop_vtd n (if good then u32 (goodPkts + 1) else goodPkts) maxCount numMap (with_next (u16 (i + 1) .& kRxDescMask) s)
  end.

Definition rxInterruptVTD (fuel : nat) (maxCount : Z) s : option (Z * krx P) :=
  match rx_loop_vtd fuel 0 maxCount 0 s with
  | Some (good, numMap, s) => Some (good, if numMap =? 0 then s else (rxMapBuffers (r_mapNext s) (Z.to_nat (u16 numMap)) s).2)
  | None => None
  end.

(** ** setupRxResources and clearRxTxRings, the receive part *)

(** The first word as these two write it, in two statements. *)
Definition setup_word1 (i : Z) : Z :=
  let word1 := u64 (s32 (kRxBufferSize .| DescOwn)) in if i =? kRxLastDesc then word1 .| RingEnd else word1.
Definition setup_desc (i addr : Z) : kdesc := mkKdesc (u32 (setup_word1 i)) (Z.shiftr (setup_word1 i) 32) addr.

(** bzero and the end mark. *)
Definition zero_descs : gmap Z kdesc :=
  <[kRxLastDesc := mkKdesc RingEnd 0 0]> (foldr (fun i => <[i := mkKdesc 0 0 0]>) ∅ (seqZ 0 kNumRxDesc)).

(** The loop over the slots, without the IOMMU; false: no packet. *)
Fixpoint fill_slots (l : list Z) s : bool * krx P :=
  match l with
  | [] => (true, s)
  | i :: l' =>
      match get_packet kRxBufferSize MBUF_WAITOK (r_pool s) with
      | (None, p) => (false, with_pool p s)
      | (Some m, p) =>
          let s := with_heap (fresh_packet m (r_heap s)) (with_pool p s) in
          fill_slots l' (with_descs (<[i := setup_desc i (phys m)]> (r_descs s)) (with_bufs (<[i := (m, phys m)]> (r_bufs s)) s))
      end
  end.

(** error_buf *)
Definition free_slots s : krx P :=
  foldl (fun s i =>
    if (buf_at i s).1 =? 0 then s
    else with_bufs (<[i := (0, 0)]> (r_bufs s)) (with_heap (act (FreeList (buf_at i s).1) (r_heap s)) s)) s (seqZ 0 kNumRxDesc).

(** From the descriptors on, with the pool that withCapacity made. *)
Definition setupRxResources (made : option P) s : bool * krx P :=
  let s := with_mapNext 0 (with_next 0 (with_bufs ∅ (with_descs zero_descs s))) in
  match made with
  | None => (false, s)
  | Some p =>
      let '(ok, s) := fill_slots (seqZ 0 kNumRxDesc) (with_pool p s) in
      if ok then (true, s) else (false, free_slots s)
  end.

Definition clearRxRing (vtd : bool) s : krx P :=
  let s := if vtd then (rxMapBuffers 0 (Z.to_nat kNumRxMemDesc) s).2 else s in
  let s := foldl (fun s i => with_descs (<[i := setup_desc i (buf_at i s).2]> (r_descs s)) s) s (seqZ 0 kNumRxDesc) in
  discardPacketFragment (with_mapNext 0 (with_next 0 s)).
End Code.

(** The pool behind that interface. *)
#[export] Instance pool_buffers {K} `{!Mbufs K} : RxBuffers (pool * K) := {|
  replace_or_copy mp len pk :=
    let '(m, b, r, p, k) := replaceOrCopyPacket mp len pk.1 pk.2 in (m, b, r, (p, k));
  get_packet size how pk := let '(m, p, k) := getPacket size how pk.1 pk.2 in (m, (p, k));
|}.
