(* ===== verification/KextRxSpec.v ===== *)
(** * The receive path of the kernel extension: frames, buffers, termination *)
From S2P Require Import Prelude TxOffload RxRing RxRingSpec KextPool KextPoolSpec KextTx KextTxSpec KextRx.

(** ** What the pool promises to the receive path

    [out p X]: the mbufs in [X] are in use outside the pool. A packet from the
    pool is none of them; it is the new buffer of the ring when the received one
    is passed up, and the copy that is passed up otherwise. *)
Class RxPool (P : Type) `{B : !RxBuffers P} := {
  out : P -> gset Z -> Prop;
  roc_some mp len p new b replaced p' X : replace_or_copy mp len p = (Some new, b, replaced, p') -> out p X -> mp ∈ X ->
    exists f, f <> 0 /\ (f ∉ X) /\ out p' ({[f]} ∪ X) /\ (new, b) = if replaced then (mp, f) else (f, mp);
  roc_none mp len p b replaced p' X : replace_or_copy mp len p = (None, b, replaced, p') -> out p X -> mp ∈ X -> out p' X;
  get_some size how p m p' X : get_packet size how p = (Some m, p') -> out p X -> m <> 0 /\ (m ∉ X) /\ out p' ({[m]} ∪ X);
}.

(** ** The pool of KextPool keeps that promise *)

Section Pool.
Context {K : Type} `{B : !Mbufs K} `{L : !MbufKpi K}.

Definition pool_out (pk : pool * K) (X : gset Z) : Prop :=
  exists lm lc, pool_rep pk.2 pk.1 lm lc /\ (forall m, m ∈ X -> mbuf_live m pk.2 = true /\ m ∉ lm ++ lc).

(** Both lists as a function of the kind. *)
Lemma pool_rep_frame k k' p lm lc : (forall m, m ∈ lm ++ lc -> same_mbuf k k' m) -> pool_rep k p lm lc -> pool_rep k' p lm lc.
Proof.
  intros Hs (Hm&Hc&Hd&Hl). split_and!; try done.
  - eapply side_frame; [|done]. apply Forall_forall. set_solver.
  - eapply side_frame; [|done]. apply Forall_forall. set_solver.
  - rewrite Forall_forall in Hl |- *. intros m Hin. destruct (Hs m Hin) as [-> _]. auto.
Qed.

Lemma take_rep b p k lm lc m p' k' : pool_rep k p lm lc -> pool_take b p k = (Some m, p', k') ->
  exists lm' lc', pool_rep k' p' lm' lc' /\ lm ++ lc ≡ₚ m :: lm' ++ lc' /\ mbuf_live m k' = true /\
    forall x, x <> m -> same_mbuf k k' x.
Proof.
  intros Hr Ht. unfold pool_take in Ht. destruct (1 <? pktNum (side_of b p)) eqn:E1; [|done]. bool_props.
  destruct Hr as (Hm&Hc&Hd&Hl). set (l := match b with Small => lm | Cluster => lc end).
  assert (Hs : side_rep k (side_of b p) l 0) by (unfold l; by destruct b).
  destruct l as [|m0 l0] eqn:El; [destruct Hs as (_&?&_); done|]. pose proof Hs as (_&_&Hn&Hb&Hcap). cbn [length] in Hn.
  destruct (side_pop k _ m0 l0 0 Hs) as [Hh Hs']; [intros ->; cbn in Hn; lia|].
  pose proof (side_num k _ l0 (0 - 1) (pktNum (side_of b p) - 1) Hs' ltac:(cbn; lia)) as Hs2. cbn [set_head pktNum] in Hs2.
  replace (0 - 1 + pktNum (side_of b p) - (pktNum (side_of b p) - 1)) with 0 in Hs2 by lia.
  assert (Em : Some (pktHead (side_of b p)) = Some m) by exact (f_equal (fun x => x.1.1) Ht).
  assert (Ek : mbuf_setnextpkt (pktHead (side_of b p)) 0 k = k') by exact (f_equal snd Ht).
  pose proof (f_equal (fun x => x.1.2) Ht) as Ep. cbn [fst snd] in Ep. rewrite Hh in Em, Ek. injection Em as <-.
  change (pktHead (set_num (pktNum (side_of b p) - 1) (side_of b p))) with (pktHead (side_of b p)) in Ep. rewrite Hh in Ep. clear Ht.
  set (lm' := match b with Small => l0 | Cluster => lm end). set (lc' := match b with Small => lc | Cluster => l0 end).
  assert (Hperm : lm ++ lc ≡ₚ m0 :: lm' ++ lc').
  { unfold lm', lc', l in *. destruct b; subst; cbn; [done|]. solve_Permutation. }
  assert (Hsame : forall x, x <> m0 -> same_mbuf k k' x) by (intros x Hx; subst k'; by apply set_other).
  rewrite Hperm in Hd, Hl. apply NoDup_cons in Hd as [Hni Hd]. apply Forall_cons in Hl as [Hl0 Hl].
  assert (Hfr : forall x, x ∈ lm' ++ lc' -> same_mbuf k k' x) by (intros x Hx; apply Hsame; intros ->; done).
  exists lm', lc'. split_and!; try done; [|subst k'; by rewrite live_setnextpkt].
  apply (pool_rep_frame k); [done|]. subst p'. split_and!; try done.
  - unfold lm'. destruct b; [|destruct (below _ _ && _); exact Hm].
    destruct (below _ _ && _); exact Hs2.
  - unfold lc'. destruct b; [destruct (below _ _ && _); exact Hc|]. destruct (below _ _ && _); exact Hs2.
Qed.

Lemma pool_out_frame p k k' X : (forall m, same_mbuf k k' m) -> pool_out (p, k) X -> pool_out (p, k') X.
Proof.
  intros Hs (lm&lc&Hr&Hx). exists lm, lc. cbn in *. split; [by apply (pool_rep_frame k)|].
  intros m Hm. destruct (Hs m) as [-> _]. auto.
Qed.

Lemma pool_rep_nonzero k p lm lc m : pool_rep k p lm lc -> m ∈ lm ++ lc -> m <> 0.
Proof.
  intros ((Hm&_)&(Hc&_)&_). apply chain_nonzero in Hm, Hc. rewrite Forall_forall in Hm, Hc. rewrite elem_of_app. intros [?|?]; auto.
Qed.

Lemma getPacket_out size how p k o p' k' X : getPacket size how p k = (o, p', k') -> pool_out (p, k) X ->
  match o with
  | Some m => m <> 0 /\ (m ∉ X) /\ pool_out (p', k') ({[m]} ∪ X)
  | None => pool_out (p', k') X
  end.
Proof.
  intros Hg Ho. unfold getPacket in Hg. destruct (mbuf_allocpacket _ _ k) as [[m|] k1] eqn:Ha.
  - simplify_eq. destruct Ho as (lm&lc&Hr&Hx). apply alloc_some in Ha as (H0&Hn&Hl&_&Hs). cbn in Hr, Hx.
    assert (Hlm : m ∉ lm ++ lc) by (intros Hin; destruct Hr as (_&_&_&Hv); rewrite Forall_forall in Hv; specialize (Hv _ Hin); congruence).
    assert (HX : m ∉ X) by (intros Hin; destruct (Hx _ Hin); congruence). split; [done|]. split; [done|].
    exists lm, lc. cbn. split.
    + apply (pool_rep_frame k); [|done]. intros x Hin. eapply same_trans; [apply Hs; intros ->; done|apply rewind_same].
    + intros x Hin. destruct (rewind_same m k1 x) as [-> _]. apply elem_of_union in Hin as [->%elem_of_singleton|Hin]; [done|].
      destruct (Hx _ Hin) as [Hv Hni]. split; [|done]. destruct (Hs x) as [-> _]; [intros ->; done|done].
  - assert (Ho1 : pool_out (p, k1) X) by (apply (pool_out_frame p k); [intros; by eapply alloc_none|done]).
    destruct o as [m|]; [|unfold pool_take in Hg; destruct (1 <? _); [done|]; by simplify_eq].
    destruct Ho1 as (lm&lc&Hr&Hx). cbn in Hr, Hx. destruct (take_rep _ _ _ _ _ _ _ _ Hr Hg) as (lm'&lc'&Hr'&Hp&Hv&Hs).
    assert (Hin : m ∈ lm ++ lc) by (rewrite Hp; set_solver). split; [exact (pool_rep_nonzero _ _ _ _ _ Hr Hin)|].
    assert (HX : m ∉ X) by (intros H; by destruct (Hx _ H)). split; [done|]. exists lm', lc'. cbn. split; [done|].
    assert (Hnm : m ∉ lm' ++ lc') by (destruct Hr as (_&_&Hd&_); rewrite Hp in Hd; by apply NoDup_cons in Hd as [? _]).
    intros x Hx'. apply elem_of_union in Hx' as [->%elem_of_singleton|Hx']; [done|]. destruct (Hx _ Hx') as [Hl Hni].
    destruct (Hs x) as [-> _]; [intros ->; done|]. split; [done|]. intros H. apply Hni. rewrite Hp. by constructor.
Qed.

#[export] Instance pool_rx_pool : RxPool (pool * K).
Proof.
  refine {| out := pool_out |}.
  - intros mp len [p k] new b replaced p' X Hr Ho Hm. cbn in Hr. unfold replaceOrCopyPacket in Hr.
    destruct (getPacket len MBUF_DONTWAIT p k) as [[o q] k1] eqn:Hg. pose proof (getPacket_out _ _ _ _ _ _ _ X Hg Ho) as H.
    destruct (maxCopySize p <? len), o as [f|]; try discriminate; injection Hr as <- <- <- <-; destruct H as (H0&HX&Ho');
      exists f; split_and!; try done.
    do 3 (eapply pool_out_frame; [intros x; first [apply bcopy_same|apply setheader_same|apply copy_pkthdr_same]|]). done.
  - intros mp len [p k] b replaced p' X Hr Ho Hm. cbn in Hr. unfold replaceOrCopyPacket in Hr.
    destruct (getPacket len MBUF_DONTWAIT p k) as [[o q] k1] eqn:Hg. pose proof (getPacket_out _ _ _ _ _ _ _ X Hg Ho) as H.
    destruct (maxCopySize p <? len), o as [f|]; by simplify_eq.
  - intros size how [p k] m p' X Hg Ho. cbn in Hg. destruct (getPacket size how p k) as [[o q] k1] eqn:E. injection Hg as -> <-.
    exact (getPacket_out _ _ _ _ _ _ _ X E Ho).
Defined.
End Pool.

(** ** Chains of buffers *)

Fixpoint linked (h : heap) (a : Z) (l : list Z) : Prop :=
  match l with
  | [] => a = 0
  | m :: l' => a = m /\ m <> 0 /\ linked h (mbuf_next m h) l'
  end.

Fixpoint total (h : heap) (l : list Z) : Z :=
  match l with [] => 0 | m :: l' => mbuf_len m h + total h l' end.

Lemma linked_frame h h' l : forall a, (forall m, m ∈ l -> mbuf_next m h' = mbuf_next m h) -> linked h a l -> linked h' a l.
Proof.
  induction l as [|m l IH]; intros a Hf Hl; [done|]. destruct Hl as (->&Hm&Hl). split; [done|]. split; [done|].
  rewrite Hf by set_solver. apply IH; [set_solver|done].
Qed.

Lemma linked_det h l : forall a l', linked h a l -> linked h a l' -> l = l'.
Proof.
  induction l as [|m l IH]; intros a [|m' l'] H H'; [done| | |]; cbn in H, H'; [naive_solver|naive_solver|].
  destruct H as (->&_&H), H' as (->&_&H'). f_equal. by apply (IH _ _ H).
Qed.

Lemma next_set m x y h : mbuf_next m (mbuf_setnext x y h) = if m =? x then y else mbuf_next m h.
Proof. unfold mbuf_next, mbuf_setnext; cbn. destruct (Z.eqb_spec m x) as [->|]; [by rewrite lookup_insert_eq|by rewrite lookup_insert_ne]. Qed.

Lemma len_set m x y h : mbuf_len m (mbuf_setlen x y h) = if m =? x then y else mbuf_len m h.
Proof. unfold mbuf_len, mbuf_setlen; cbn. destruct (Z.eqb_spec m x) as [->|]; [by rewrite lookup_insert_eq|by rewrite lookup_insert_ne]. Qed.

Lemma fresh_other m f h : m <> f -> mbuf_len m (fresh_packet f h) = mbuf_len m h /\ mbuf_next m (fresh_packet f h) = mbuf_next m h.
Proof. intros H. unfold mbuf_len, mbuf_next, fresh_packet; cbn. by rewrite !lookup_insert_ne. Qed.

Lemma fresh_next f h : mbuf_next f (fresh_packet f h) = 0.
Proof. unfold mbuf_next, fresh_packet; cbn. by rewrite lookup_insert_eq. Qed.

Lemma linked_snoc h x l : forall a t, linked h a (l ++ [t]) -> NoDup (l ++ [t]) -> x ∉ l ++ [t] -> x <> 0 -> mbuf_next x h = 0 ->
  linked (mbuf_setnext t x h) a ((l ++ [t]) ++ [x]).
Proof.
  induction l as [|b l IH]; intros a t Hl Hd Hx H0 Hn.
  - destruct Hl as (->&Ht&_). cbn. rewrite !next_set, Z.eqb_refl. rewrite (proj2 (Z.eqb_neq x t)) by set_solver. done.
  - cbn [app linked] in *. destruct Hl as (->&Hb&Hl). apply NoDup_cons in Hd as [Hnb Hd].
    rewrite next_set, (proj2 (Z.eqb_neq b t)) by set_solver. split; [done|]. split; [done|]. apply IH; set_solver.
Qed.

Lemma total_frame h h' l : (forall m, m ∈ l -> mbuf_len m h' = mbuf_len m h) -> total h' l = total h l.
Proof. induction l as [|m l IH]; intros H; [done|]. cbn. rewrite H by set_solver. rewrite IH by set_solver. done. Qed.

Lemma total_app h l l' : total h (l ++ l') = total h l + total h l'.
Proof. induction l as [|m l IH]; [done|]. cbn. rewrite IH. lia. Qed.

Lemma s32_add a b : s32 (s32 a + b) = s32 (a + b).
Proof. width_lia. Qed.

(** ** The invariant *)

Section Frames.
Context {P : Type} `{B : !RxBuffers P} `{RP : !RxPool P}.
Context (phys : Z -> Z) (multi : Z -> bool).
Implicit Types s : krx P.

Definition mb (i : Z) s : Z := (buf_at i s).1.
Definition in_ring (i : Z) : Prop := 0 <= i < 1024.

(** A completed descriptor that is not the last of its frame has at least the
    four bytes of a checksum in its buffer. *)
Definition status_ok (st : Z) : Prop := has st RxRES = false -> has st LastFrag = false -> 4 <= st .& 0x3fff.

(** Each slot has a buffer of its own, not in the fragment [pend], and its
    descriptor points at it. *)
Record slots_ok s (X : gset Z) (pend : list Z) : Prop := {
  so_next : in_ring (r_next s);
  so_slot i : in_ring i -> exists d, r_bufs s !! i = Some (mb i s, phys (mb i s)) /\ r_descs s !! i = Some d /\
    d_addr d = phys (mb i s) /\ (has (d_opts1 d) DescOwn = true \/ status_ok (d_opts1 d));
  so_mbuf i : in_ring i -> mb i s <> 0 /\ mb i s ∈ X /\ (mb i s ∉ pend) /\ mbuf_next (mb i s) (r_heap s) = 0;
  so_inj i j : in_ring i -> in_ring j -> mb i s = mb j s -> i = j;
  so_pend : NoDup pend /\ forall m, m ∈ pend -> m ∈ X;
}.

(** The fragment: its buffers in order, its size modulo 32 bits. *)
Definition frag_ok (f : fragment) (h : heap) (pend : list Z) : Prop :=
  linked h (f_head f) pend /\ (pend <> [] -> last pend = Some (f_tail f)) /\ f_size f = s32 (total h pend) /\
  forall m, m ∈ pend -> 4 <= mbuf_len m h.

(** [n] bytes of an unfinished frame wait in the fragment. *)
Definition rxinv (n : Z) s : Prop :=
  exists X pend, out (r_pool s) X /\ slots_ok s X pend /\ frag_ok (r_frag s) (r_heap s) pend /\ total (r_heap s) pend = n.

Lemma frag_empty h : frag_ok (mkFrag 0 0 0) h [].
Proof. split; [done|]. split; [done|]. split; [reflexivity|]. set_solver. Qed.

Lemma frag_frame f h h' pend : (forall m, m ∈ pend -> mbuf_next m h' = mbuf_next m h /\ mbuf_len m h' = mbuf_len m h) ->
  frag_ok f h pend -> frag_ok f h' pend.
Proof.
  intros Hs (Hl&Ht&Hz&H4). split; [eapply linked_frame; [|exact Hl]; intros m Hm; by apply Hs|]. split; [done|].
  split; [rewrite Hz, (total_frame h h'); [done|intros m Hm; by apply Hs]|]. intros m Hm. destruct (Hs m Hm) as [_ ->]. auto.
Qed.

(** The packets passed up, with the length in their header. *)
Definition ups (h : heap) : list (Z * Z) := omap (fun a => match a with Input m n => Some (m, n) | _ => None end) (h_trace h).

Lemma ups_act a h : ups (act a h) = ups h ++ match a with Input m n => [(m, n)] | _ => [] end.
Proof. unfold ups, act. cbn [h_trace]. rewrite omap_app. by destruct a. Qed.

Lemma ups_setlen m n h : ups (mbuf_setlen m n h) = ups h.
Proof. unfold mbuf_setlen. by rewrite ups_act, app_nil_r. Qed.

Lemma ups_setnext m n h : ups (mbuf_setnext m n h) = ups h.
Proof. unfold mbuf_setnext. by rewrite ups_act, app_nil_r. Qed.

Lemma pass_up_spec m st1 st2 f h : h_len (pass_up m st1 st2 f h) = h_len h /\ h_next (pass_up m st1 st2 f h) = h_next h /\
  ups (pass_up m st1 st2 f h) = ups h ++ [(f_head f, f_size f)].
Proof.
  unfold pass_up, checksum. destruct (getChecksumResult st1 st2) as [ip da].
  destruct (ip || da), (has st2 RxVlanTag); rewrite !ups_act, ?app_nil_r; done.
Qed.

Lemma adjust_spec t n h : 0 <= mbuf_len t h + n -> (forall m, mbuf_next m (mbuf_adjustlen t n h) = mbuf_next m h) /\
  forall m, mbuf_len m (mbuf_adjustlen t n h) = if m =? t then mbuf_len t h + n else mbuf_len m h.
Proof.
  intros H. unfold mbuf_adjustlen. rewrite (proj2 (Z.ltb_ge _ _)) by lia. split; [done|]. intros m. unfold mbuf_len; cbn.
  destruct (Z.eqb_spec m t) as [->|]; [by rewrite lookup_insert_eq|by rewrite lookup_insert_ne].
Qed.

Lemma total_last h h' l t n : NoDup (l ++ [t]) -> (forall m, mbuf_len m h' = if m =? t then mbuf_len t h + n else mbuf_len m h) ->
  total h' (l ++ [t]) = total h (l ++ [t]) + n.
Proof.
  intros Hd Hl. rewrite !total_app. cbn. rewrite Hl, Z.eqb_refl. rewrite (total_frame h h' l); [lia|].
  intros m Hm. rewrite Hl, (proj2 (Z.eqb_neq m t)); [done|]. rewrite NoDup_app in Hd. set_solver.
Qed.

(** Adding the last buffer [x] to the fragment [pend]. *)
Lemma join_last_spec x size f h pend : frag_ok f h pend -> NoDup pend -> x <> 0 -> (x ∉ pend) -> mbuf_next x h = 0 -> -4 <= size < 16384 ->
  let '(f', h') := join_last x size f h in
  exists l, linked h' (f_head f') l /\ NoDup l /\ l ⊆ pend ++ [x] /\ f_size f' = s32 (total h' l) /\
    (forall m, m ∉ pend ++ [x] -> mbuf_next m h' = mbuf_next m h) /\ f_size f' = s32 (total h pend + size) /\ ups h' = ups h.
Proof.
  intros (Hl&Ht&Hs&H4) Hd Hx Hn Hnx Hsz. unfold join_last. destruct pend as [|a pend].
  - cbn in Hl. rewrite Hl. cbn [Z.eqb]. exists [x]. cbn [f_head f_size linked total]. rewrite len_set, Z.eqb_refl. split_and!; try done.
    + apply NoDup_singleton.
    + width_lia.
    + width_lia.
    + apply ups_setlen.
  - assert (Hh : f_head f <> 0) by (destruct Hl as (->&?&_); done). rewrite (proj2 (Z.eqb_neq _ _)) by done.
    specialize (Ht ltac:(done)). apply last_Some in Ht as [l0 El]. rewrite El in *. destruct (0 <? size) eqn:Es; bool_props.
    + exists ((l0 ++ [f_tail f]) ++ [x]). cbn [f_head f_size]. split_and!; try done.
      * apply linked_snoc; try done. eapply linked_frame; [|exact Hl]. done.
      * apply NoDup_app. split_and!; [done|set_solver|apply NoDup_singleton].
      * set (h2 := mbuf_setnext _ _ _). assert (Hl2 : forall m, mbuf_len m h2 = if m =? x then size else mbuf_len m h) by (intros m; apply len_set).
        rewrite Hs, s32_add, (total_app h2 (l0 ++ [f_tail f]) [x]), (total_frame h h2); [cbn [total]; rewrite Hl2, Z.eqb_refl; f_equal; lia|].
        intros m Hm. rewrite Hl2, (proj2 (Z.eqb_neq m x)); [done|set_solver].
      * intros m Hm. rewrite next_set, (proj2 (Z.eqb_neq _ _)) by set_solver. done.
      * by rewrite Hs, s32_add.
      * by rewrite ups_setnext, ups_act, ups_setlen, app_nil_r.
    + assert (Hlen : 0 <= mbuf_len (f_tail f) (act (Free x) h) + size)
        by (change (mbuf_len (f_tail f) (act (Free x) h)) with (mbuf_len (f_tail f) h); specialize (H4 (f_tail f) ltac:(set_solver)); lia).
      destruct (adjust_spec (f_tail f) size (act (Free x) h) Hlen) as [A1 A2]. exists (l0 ++ [f_tail f]). cbn [f_head f_size]. split_and!; try done.
      * eapply linked_frame; [|exact Hl]. intros m _. apply A1.
      * set_solver.
      * rewrite Hs, s32_add. f_equal. symmetry. apply (total_last h); [done|exact A2].
      * by rewrite Hs, s32_add.
      * unfold mbuf_adjustlen. destruct (_ <? 0); rewrite ups_act, app_nil_r; [|change (ups (act (Free x) h) = ups h)]; by rewrite ups_act, app_nil_r.
Qed.

(** Adding a buffer in the middle of a frame. *)
Lemma append_spec x size s pend : frag_ok (r_frag s) (r_heap s) pend -> NoDup pend -> x <> 0 -> (x ∉ pend) ->
  mbuf_next x (r_heap s) = 0 -> 4 <= size < 16384 ->
  let s' := append_fragment x size s in
  frag_ok (r_frag s') (r_heap s') (pend ++ [x]) /\
  (forall m, m ∉ pend ++ [x] -> mbuf_next m (r_heap s') = mbuf_next m (r_heap s)) /\
  total (r_heap s') (pend ++ [x]) = total (r_heap s) pend + size /\ ups (r_heap s') = ups (r_heap s) /\
  (r_next s', r_descs s', r_bufs s', r_pool s') = (r_next s, r_descs s, r_bufs s, r_pool s).
Proof.
  intros (Hl&Ht&Hs&H4) Hd Hx Hn Hnx Hsz s'.
  assert (Hl2 : forall m, mbuf_len m (r_heap s') = if m =? x then size else mbuf_len m (r_heap s)).
  { intros m. unfold s', append_fragment. destruct (_ =? 0); apply len_set. }
  assert (Htot : total (r_heap s') (pend ++ [x]) = total (r_heap s) pend + size).
  { rewrite total_app, (total_frame (r_heap s)); [cbn [total]; rewrite Hl2, Z.eqb_refl; lia|].
    intros m Hm. rewrite Hl2, (proj2 (Z.eqb_neq m x)); [done|set_solver]. }
  assert (H4' : forall m, m ∈ pend ++ [x] -> 4 <= mbuf_len m (r_heap s')).
  { intros m Hm. rewrite Hl2. destruct (m =? x) eqn:E; [lia|]. apply H4. apply Z.eqb_neq in E. set_solver. }
  unfold frag_ok. rewrite Htot. unfold s', append_fragment. destruct pend as [|a pend].
  - cbn in Hl. rewrite Hl. cbn [Z.eqb]. cbn [r_frag with_frag f_head f_tail f_size r_heap with_heap app linked total].
    rewrite ups_setlen. split_and!; try done; [width_lia|]. unfold s', append_fragment in H4'. rewrite Hl in H4'. exact H4'.
  - assert (Hh : f_head (r_frag s) <> 0) by (destruct Hl as (->&?&_); done). unfold s', append_fragment in H4'.
    rewrite (proj2 (Z.eqb_neq _ _)) in H4' |- * by done.
    specialize (Ht ltac:(done)). apply last_Some in Ht as [l0 El]. rewrite El in *.
    cbn [r_frag with_frag f_head f_tail f_size r_heap with_heap] in H4' |- *. split_and!; try done.
    + apply linked_snoc; try done. eapply linked_frame; [|exact Hl]. done.
    + intros _. apply last_snoc.
    + by rewrite Hs, s32_add.
    + intros m Hm. rewrite next_set, (proj2 (Z.eqb_neq _ _)) by set_solver. done.
    + by rewrite ups_setnext, ups_act, ups_setlen, app_nil_r.
Qed.

Lemma rx_desc_owned i addr : has (d_opts1 (rx_desc i addr)) DescOwn = true.
Proof. unfold rx_desc, rx_word1. cbn [d_opts1]. by destruct (i =? kRxLastDesc). Qed.

Lemma next_in_ring i : in_ring (u16 (i + 1) .& kRxDescMask).
Proof. unfold in_ring, kRxDescMask, kNumRxDesc. rewrite (land_mask _ _ 10) by done. change (2 ^ 10) with 1024. lia. Qed.

(** The state after a descriptor has been handled and armed again; its buffer is
    the old one or the new packet [f]. *)
Lemma slots_rearm s s' X X' pend' pend f : slots_ok s X pend -> X ⊆ X' -> NoDup pend' -> (forall m, m ∈ pend' -> m ∈ X') ->
  (r_next s', r_descs s') = (r_next s, r_descs s) ->
  (r_bufs s' = r_bufs s \/
   r_bufs s' = <[r_next s := (f, phys f)]> (r_bufs s) /\ f <> 0 /\ (f ∉ X) /\ f ∈ X' /\ (f ∉ pend') /\ mbuf_next f (r_heap s') = 0) ->
  (forall j, in_ring j -> r_bufs s' = r_bufs s \/ j <> r_next s -> (mb j s ∉ pend') /\ mbuf_next (mb j s) (r_heap s') = 0) ->
  slots_ok (rearm s') X' pend'.
Proof.
  intros Hs HX Hd HpX [= En Ed] Hb Hp. pose proof (so_next _ _ _ Hs) as Hi.
  assert (Hbuf : forall j, in_ring j -> r_bufs s' !! j = Some (mb j s', phys (mb j s')) /\
    ((mb j s' = mb j s /\ (r_bufs s' = r_bufs s \/ j <> r_next s)) \/
     (j = r_next s /\ mb j s' = f /\ f <> 0 /\ (f ∉ X) /\ f ∈ X' /\ (f ∉ pend') /\ mbuf_next f (r_heap s') = 0))).
  { intros j Hj. destruct (so_slot _ _ _ Hs j Hj) as (d&E&_). unfold mb, buf_at in *.
    destruct Hb as [Hb|(Hb&Hf)]; rewrite Hb; [rewrite E; cbn; split; [done|left; auto]|].
    destruct (decide (j = r_next s)) as [->|Hne].
    - rewrite lookup_insert_eq. cbn. split; [done|]. right. done.
    - rewrite lookup_insert_ne by done. rewrite E. cbn. split; [done|]. left. auto. }
  assert (Emb : forall j, mb j (rearm s') = mb j s') by done.
  split.
  - apply next_in_ring.
  - intros j Hj. rewrite Emb. destruct (Hbuf j Hj) as [E Hm]. cbn [rearm with_next with_descs r_bufs r_descs]. rewrite En.
    destruct (decide (j = r_next s)) as [->|Hne].
    + rewrite lookup_insert_eq. eexists. split; [exact E|]. split; [reflexivity|]. split; [|left; apply rx_desc_owned].
      cbn. unfold buf_at. by rewrite E.
    + rewrite lookup_insert_ne by done. destruct Hm as [[Hm _]|[? _]]; [|done]. rewrite Ed, Hm.
      destruct (so_slot _ _ _ Hs j Hj) as (d&_&Hdd&Ha&Ho). exists d. rewrite Hm in E. done.
  - intros j Hj. rewrite Emb. change (r_heap (rearm s')) with (r_heap s').
    destruct (Hbuf j Hj) as [_ [[-> Hc]|(->&->&?&?&?&?&?)]]; [|done]. destruct (so_mbuf _ _ _ Hs j Hj) as (?&?&_).
    destruct (Hp j Hj Hc). split_and!; try done. set_solver.
  - intros a b Ha Hb' E. rewrite !Emb in E. destruct (Hbuf a Ha) as [_ [[Ea _]|(Ea&Eaf&_&Hna&_)]], (Hbuf b Hb') as [_ [[Eb _]|(Eb&Ebf&_&Hnb&_)]].
    + apply (so_inj _ _ _ Hs); [done|done|congruence].
    + destruct (so_mbuf _ _ _ Hs a Ha) as (_&HX'&_). rewrite <- Ea, E, Ebf in HX'. done.
    + destruct (so_mbuf _ _ _ Hs b Hb') as (_&HX'&_). rewrite <- Eb, <- E, Eaf in HX'. done.
    + congruence.
  - done.
Qed.

(** A frame is given up: the buffers stay where they are. *)
Lemma given_up s s0 X X' pend : slots_ok s X pend -> X ⊆ X' -> out (r_pool s0) X' ->
  r_next s0 = r_next s -> r_descs s0 = r_descs s -> r_bufs s0 = r_bufs s -> h_trace (r_heap s0) = h_trace (r_heap s) ->
  (forall m, m ∈ X -> mbuf_next m (r_heap s0) = mbuf_next m (r_heap s)) ->
  rxinv 0 (rearm (discardPacketFragment s0)) /\ ups (r_heap (discardPacketFragment s0)) = ups (r_heap s).
Proof.
  intros Hs HX Ho E1 E2 E3 E4 Hn. set (s' := discardPacketFragment s0).
  assert (E : r_next s' = r_next s0 /\ r_descs s' = r_descs s0 /\ r_bufs s' = r_bufs s0 /\ r_pool s' = r_pool s0 /\
    r_frag s' = mkFrag 0 0 0 /\ h_next (r_heap s') = h_next (r_heap s0) /\ ups (r_heap s') = ups (r_heap s0)).
  { unfold s', discardPacketFragment. destruct (f_head (r_frag s0) =? 0); split_and!; try done.
    cbn [r_heap with_frag with_heap]. by rewrite ups_act, app_nil_r. }
  destruct E as (F1&F2&F3&F4&F5&F6&F7). clearbody s'. split; [|rewrite F7; unfold ups; by rewrite E4].
  exists X', []. split; [change (out (r_pool s') X'); by rewrite F4|]. split.
  - apply (slots_rearm s s' X X' [] pend 0); try done; [apply NoDup_nil_2|set_solver|congruence|left; congruence|].
    intros j Hj _. destruct (so_mbuf _ _ _ Hs j Hj) as (_&HjX&_&E). split; [set_solver|].
    rewrite <- E, <- (Hn _ HjX). unfold mbuf_next. by rewrite F6.
  - change (r_frag (rearm s')) with (r_frag s'). rewrite F5. split; [apply frag_empty|done].
Qed.

(** A release written to the trace changes nothing. *)
Lemma rxinv_act a n s : rxinv n (rearm s) -> rxinv n (rearm (with_heap (act a (r_heap s)) s)).
Proof.
  intros (X&pend&Ho&[A1 A2 A3 A4 A5]&Hf&Ht). exists X, pend. split; [exact Ho|].
  split; [|split; [by apply (frag_frame _ (r_heap (rearm s)))|rewrite <- Ht; by apply total_frame]].
  split; [exact A1|exact A2|exact A3|exact A4|exact A5].
Qed.

Lemma size_range st : 0 <= st .& 0x3fff < 16384.
Proof. rewrite (land_mask _ _ 14) by done. change (2 ^ 14) with 16384. lia. Qed.

(** In [s2] the packet [new] has been taken out of slot [r_next s] of [s], or
    copied from it, and [f] is the packet that came from the pool. *)
Record taken_out s s2 (X : gset Z) (pend : list Z) (new f : Z) : Prop := {
  to_pool : f <> 0 /\ f ∉ X;
  to_new : new <> 0 /\ (new ∉ pend) /\ new ∈ {[f]} ∪ X /\ mbuf_next new (r_heap s2) = 0;
  to_gone i : in_ring i -> mb i s2 <> new;
  to_old j : in_ring j -> r_bufs s2 = r_bufs s \/ j <> r_next s -> mb j s <> new;
  to_same m : m ∈ X -> mbuf_next m (r_heap s2) = mbuf_next m (r_heap s) /\ mbuf_len m (r_heap s2) = mbuf_len m (r_heap s);
  to_bufs : r_bufs s2 = r_bufs s \/ r_bufs s2 = <[r_next s := (f, phys f)]> (r_bufs s);
  to_fresh : mbuf_next f (r_heap s2) = 0;
  to_next : r_next s2 = r_next s;
  to_descs : r_descs s2 = r_descs s;
  to_frag : r_frag s2 = r_frag s;
  to_trace : h_trace (r_heap s2) = h_trace (r_heap s);
}.

Definition swap (replaced : bool) (b new : Z) (p' : P) s : krx P :=
  let s1 := with_heap (fresh_packet (if replaced then b else new) (r_heap s)) (with_pool p' s) in
  if replaced then with_bufs (<[r_next s := (b, phys b)]> (r_bufs s1)) s1 else s1.

Lemma swap_taken s X pend b (replaced : bool) f p' new : slots_ok s X pend -> f <> 0 -> (f ∉ X) ->
  (new, b) = (if replaced then (mb (r_next s) s, f) else (f, mb (r_next s) s)) ->
  taken_out s (swap replaced b new p' s) X pend new f.
Proof.
  intros Hs Hf HfX Hn. pose proof (so_next _ _ _ Hs) as Hi. destruct (so_mbuf _ _ _ Hs _ Hi) as (H0&HmX&Hmp&Hm0).
  destruct (so_slot _ _ _ Hs _ Hi) as (d&Ebuf&_). destruct (so_pend _ _ _ Hs) as [_ HpX].
  assert (Hfr : forall m, m ∈ X -> mbuf_next m (fresh_packet f (r_heap s)) = mbuf_next m (r_heap s) /\
    mbuf_len m (fresh_packet f (r_heap s)) = mbuf_len m (r_heap s)).
  { intros m Hm. destruct (fresh_other m f (r_heap s)) as [? ?]; [intros ->; done|]. done. }
  unfold swap. destruct replaced; injection Hn as -> ->; split; try done; cbn [with_bufs with_heap with_pool r_heap r_bufs r_next].
  - split_and!; try done; [set_solver|]. by rewrite (proj1 (Hfr _ HmX)).
  - intros i Hri. unfold mb, buf_at. cbn [r_bufs with_bufs]. destruct (decide (i = r_next s)) as [->|Hne].
    + rewrite lookup_insert_eq. cbn. intros ->. done.
    + rewrite lookup_insert_ne by done. intros E. apply Hne. apply (so_inj _ _ _ Hs); [done|done|]. exact E.
  - intros j Hj [E|Hne] Ej; [|apply Hne; by apply (so_inj _ _ _ Hs)].
    apply HfX. assert (E2 : (<[r_next s := (f, phys f)]> (r_bufs s)) !! r_next s = r_bufs s !! r_next s) by (by rewrite E).
    rewrite lookup_insert_eq, Ebuf in E2. injection E2 as ->. done.
  - by right.
  - apply fresh_next.
  - split_and!; [done|auto|set_solver|apply fresh_next].
  - intros j Hj E. destruct (so_mbuf _ _ _ Hs j Hj) as (_&HX&_). change (mb j s = f) in E. rewrite E in HX. done.
  - intros j Hj _ E. destruct (so_mbuf _ _ _ Hs j Hj) as (_&HX&_). rewrite E in HX. done.
  - by left.
  - apply fresh_next.
Qed.

(** The ring after the packet went to the fragment or up. *)
Lemma slots_taken s s2 s3 X pend pend' new f : slots_ok s X pend -> taken_out s s2 X pend new f ->
  r_next s3 = r_next s2 -> r_descs s3 = r_descs s2 -> r_bufs s3 = r_bufs s2 ->
  pend' = [] \/ pend' = pend ++ [new] -> (forall m, m ∉ pend ++ [new] -> mbuf_next m (r_heap s3) = mbuf_next m (r_heap s2)) ->
  slots_ok (rearm s3) ({[f]} ∪ X) pend'.
Proof.
  intros Hs [[Hf0 HfX] (Hn0&Hnp&HnX&Hnn) Hgone Hold Hsame Hbufs Hff F1 F2 _ _] G1 G2 G3 Hp' Hnx.
  destruct (so_pend _ _ _ Hs) as [Hdp HpX]. pose proof (so_next _ _ _ Hs) as Hi.
  assert (Hnew : forall m, m ∈ pend' -> m ∈ pend \/ m = new) by (destruct Hp' as [->| ->]; set_solver).
  apply (slots_rearm s s3 X ({[f]} ∪ X) pend' pend f Hs); [set_solver| |set_solver|congruence| |].
  - destruct Hp' as [->| ->]; [apply NoDup_nil_2|]. apply NoDup_app. split_and!; [done|set_solver|apply NoDup_singleton].
  - rewrite G3. destruct Hbufs as [?|Hbufs]; [by left|right].
    assert (Hfn : f <> new) by (intros <-; apply (Hgone (r_next s) Hi); unfold mb, buf_at; by rewrite Hbufs, lookup_insert_eq).
    assert (Hfp : f ∉ pend) by (intros Hin; by apply HfX, HpX).
    split_and!; try done; [set_solver|intros Hin; destruct (Hnew _ Hin); done|]. rewrite Hnx by set_solver. done.
  - intros j Hj Hc. rewrite G3 in Hc. destruct (so_mbuf _ _ _ Hs j Hj) as (_&HjX&Hjp&Hj0). pose proof (Hold j Hj Hc) as Hjn.
    split; [intros Hin; destruct (Hnew _ Hin); done|]. rewrite Hnx by set_solver. rewrite (proj1 (Hsame _ HjX)). done.
Qed.

(** No buffer of the fragment is in the ring after the exchange. *)
Lemma taken_ring s s2 X pend new f x : slots_ok s X pend -> taken_out s s2 X pend new f -> x ∈ pend ++ [new] ->
  ~ exists i, in_ring i /\ mb i s2 = x.
Proof.
  intros Hs T Hin (i&Hri&Hxi). apply elem_of_app in Hin as [Hin| ->%list_elem_of_singleton]; [|by apply (to_gone _ _ _ _ _ _ T i)].
  destruct (so_mbuf _ _ _ Hs i Hri) as (_&HiX&Hip&_). destruct (so_pend _ _ _ Hs) as [_ HpX]. unfold mb, buf_at in Hxi, Hip.
  destruct (to_bufs _ _ _ _ _ _ T) as [Hb|Hb]; rewrite Hb in Hxi; [by subst x|].
  destruct (decide (i = r_next s)) as [->|Hne]; [|rewrite lookup_insert_ne in Hxi by done; by subst x].
  rewrite lookup_insert_eq in Hxi. cbn in Hxi. subst x. by apply (to_pool _ _ _ _ _ _ T), HpX.
Qed.

Definition in_slot s (m : Z) : Prop := exists i, in_ring i /\ mb i s = m.

(** One packet of [n] bytes went up: a chain of distinct buffers, none of them in
    the ring, whose lengths add up to the length in the header. *)
Definition delivered (n : Z) s s' : Prop :=
  exists m l, ups (r_heap s') = ups (r_heap s) ++ [(m, s32 n)] /\
    linked (r_heap s') m l /\ NoDup l /\ (forall x, x ∈ l -> ~ in_slot s' x) /\ s32 (total (r_heap s') l) = s32 n.

Lemma taken_frag s s2 X pend new f : slots_ok s X pend -> taken_out s s2 X pend new f -> frag_ok (r_frag s) (r_heap s) pend ->
  frag_ok (r_frag s2) (r_heap s2) pend /\ total (r_heap s2) pend = total (r_heap s) pend.
Proof.
  intros Hs T Hf. rewrite (to_frag _ _ _ _ _ _ T).
  assert (Hp : forall m, m ∈ pend -> mbuf_next m (r_heap s2) = mbuf_next m (r_heap s) /\ mbuf_len m (r_heap s2) = mbuf_len m (r_heap s))
    by (intros m Hm; apply (to_same _ _ _ _ _ _ T); by apply (so_pend _ _ _ Hs)).
  split; [by apply (frag_frame _ (r_heap s))|]. apply total_frame. intros m Hm. by apply Hp.
Qed.

Lemma finish_inv s s2 X pend new f pktSize st1 st2 : slots_ok s X pend -> taken_out s s2 X pend new f ->
  out (r_pool s2) ({[f]} ∪ X) -> frag_ok (r_frag s) (r_heap s) pend -> 0 <= pktSize < 16384 ->
  rxinv 0 (rearm (finish_packet new pktSize st1 st2 s2)) /\
  delivered (total (r_heap s) pend + pktSize - 4) s (finish_packet new pktSize st1 st2 s2).
Proof.
  intros Hs T Ho Hf Hz. destruct (taken_frag _ _ _ _ _ _ Hs T Hf) as [Hf2 Ht2]. destruct (to_new _ _ _ _ _ _ T) as (Hn0&Hnp&_&Hnn).
  assert (Hsz : -4 <= pktSize - kIOEthernetCRCSize < 16384) by (unfold kIOEthernetCRCSize; lia).
  pose proof (join_last_spec new _ _ _ pend Hf2 (proj1 (so_pend _ _ _ Hs)) Hn0 Hnp Hnn Hsz) as HJ. unfold finish_packet.
  destruct (join_last new _ (r_frag s2) (r_heap s2)) as [f' h']. destruct HJ as (l&Hl&Hd&Hsub&Hsize&Hnx&Hn&Hups).
  destruct (pass_up_spec new st1 st2 f' h') as (E1&E2&E3). set (s3 := with_frag _ _).
  rewrite Ht2 in Hn. unfold kIOEthernetCRCSize in Hn. rewrite Z.add_sub_assoc in Hn. split.
  - exists ({[f]} ∪ X), []. split; [done|]. split; [|split; [apply frag_empty|done]].
    apply (slots_taken s s2 s3 X pend [] new f Hs T); try done; [by left|]. intros m Hm. rewrite <- Hnx by done.
    unfold mbuf_next. cbn [s3 r_heap with_frag with_heap]. by rewrite E2.
  - exists (f_head f'), l. cbn [s3 r_heap with_frag with_heap]. split_and!; try done.
    + rewrite E3, Hups, Hn. unfold ups. by rewrite (to_trace _ _ _ _ _ _ T).
    + eapply linked_frame; [|exact Hl]. intros m _. unfold mbuf_next. by rewrite E2.
    + intros x Hx. apply (taken_ring s s2 X pend new f x Hs T). by apply Hsub.
    + rewrite <- Hn, Hsize. f_equal. apply total_frame. intros m _. unfold mbuf_len. by rewrite E1.
Qed.

Lemma append_inv s s2 X pend new f pktSize : slots_ok s X pend -> taken_out s s2 X pend new f ->
  out (r_pool s2) ({[f]} ∪ X) -> frag_ok (r_frag s) (r_heap s) pend -> 4 <= pktSize < 16384 ->
  rxinv (total (r_heap s) pend + pktSize) (rearm (append_fragment new pktSize s2)) /\
  ups (r_heap (append_fragment new pktSize s2)) = ups (r_heap s).
Proof.
  intros Hs T Ho Hf Hz. destruct (taken_frag _ _ _ _ _ _ Hs T Hf) as [Hf2 Ht2]. destruct (to_new _ _ _ _ _ _ T) as (Hn0&Hnp&_&Hnn).
  destruct (append_spec new pktSize s2 pend Hf2 (proj1 (so_pend _ _ _ Hs)) Hn0 Hnp Hnn Hz) as (Hf3&Hnx&Ht3&Hups&[= E1 E2 E3 E4]).
  split; [|rewrite Hups; unfold ups; by rewrite (to_trace _ _ _ _ _ _ T)].
  exists ({[f]} ∪ X), (pend ++ [new]). split; [change (out (r_pool (append_fragment new pktSize s2)) ({[f]} ∪ X)); by rewrite E4|].
  split; [|split; [exact Hf3|rewrite <- Ht2; exact Ht3]]. apply (slots_taken s s2 _ X pend _ new f Hs T); auto.
Qed.

Definition status s : Z := d_opts1 (desc_at (r_next s) s).

Lemma desc_status s X pend : slots_ok s X pend -> has (status s) DescOwn = false -> status_ok (status s).
Proof.
  intros Hs Hown. destruct (so_slot _ _ _ Hs _ (so_next _ _ _ Hs)) as (d&_&Ed&_&Ho).
  unfold status, desc_at in *. rewrite Ed in *. cbn [from_option id] in *. destruct Ho as [Ho|Ho]; [congruence|done].
Qed.

(** The chip reported an error, or there is no new packet, or it is not one mbuf. *)
Definition refused s : bool :=
  has (status s) RxRES ||
  match replace_or_copy (mb (r_next s) s) (status s .& 0x3fff) (r_pool s) with
  | (None, _, _, _) => true
  | (Some _, b, replaced, _) => replaced && multi b
  end.

(** A reference for the reassembly: the bytes of the unfinished frame after the
    descriptor, and the length of the packet that goes up. *)
Definition reassemble (n : Z) s : Z * option Z :=
  if refused s then (0, None)
  else if has (status s) LastFrag then (0, Some (n + (status s .& 0x3fff) - 4)) else (n + (status s .& 0x3fff), None).

(** Exactly the packet of the reference went up. *)
Definition handled (n : Z) s (good : bool) s' : Prop :=
  match (reassemble n s).2 with
  | Some len => good = true /\ delivered len s s'
  | None => good = false /\ ups (r_heap s') = ups (r_heap s)
  end.

Lemma handled_some n s good s' len : handled n s good s' -> (reassemble n s).2 = Some len -> delivered len s s'.
Proof. unfold handled. intros H E. rewrite E in H. apply H. Qed.

Definition outcome (n : Z) s (good : bool) s' : Prop := rxinv (reassemble n s).1 (rearm s') /\ handled n s good s'.

(** One descriptor. *)
Lemma handle_inv n s good s' : rxinv n s -> has (status s) DescOwn = false -> handle_desc phys multi false s = (good, s') -> outcome n s good s'.
Proof.
  intros (X&pend&Ho&Hs&Hf&<-) Hown Hh. pose proof (desc_status _ _ _ Hs Hown) as Hst. unfold handle_desc in Hh.
  unfold outcome, handled, reassemble, refused. unfold status in *.
  set (st := d_opts1 (desc_at (r_next s) s)) in *. clearbody st. destruct (has st RxRES) eqn:Eres.
  { injection Hh as <- <-. by destruct (given_up s (count_error st s) X X pend Hs) as [? ?]. }
  cbv zeta in Hh. cbn [orb]. change (buf_at (r_next s) s).1 with (mb (r_next s) s) in Hh.
  destruct (replace_or_copy _ _ _) as [[[o b] replaced] p'] eqn:Er.
  destruct (so_mbuf _ _ _ Hs _ (so_next _ _ _ Hs)) as (_&HmX&_). pose proof (size_range st) as Hz.
  destruct o as [new|].
  2: { injection Hh as <- <-. destruct (given_up s (count_resource (with_pool p' s)) X X pend Hs) as [? ?]; try done. by eapply roc_none. }
  destruct (roc_some _ _ _ _ _ _ _ X Er Ho HmX) as (f&Hf0&HfX&Ho'&En).
  pose proof (swap_taken s X pend b replaced f p' new Hs Hf0 HfX En) as T.
  destruct (replaced && multi b) eqn:Em.
  { injection Hh as <- <-. set (g := with_heap _ (with_pool p' s)).
    destruct (given_up s (count_resource g) X ({[f]} ∪ X) pend Hs) as [G1 G2]; try done; [set_solver| |].
    - intros m Hm. apply andb_true_iff in Em as [-> _]. injection En as -> ->. apply fresh_other. intros ->. done.
    - split; [exact (rxinv_act (FreeList b) _ _ G1)|]. split; [done|]. rewrite <- G2. cbn [r_heap with_heap]. rewrite ups_act. apply app_nil_r. }
  change (if replaced then with_bufs _ _ else _) with (swap replaced b new p' s) in Hh.
  assert (Ho2 : out (r_pool (swap replaced b new p' s)) ({[f]} ∪ X)) by (unfold swap; by destruct replaced).
  destruct (has st LastFrag) eqn:El; injection Hh as <- <-.
  - destruct (finish_inv s _ X pend new f (st .& 0x3fff) st (d_opts2 (desc_at (r_next s) s)) Hs T Ho2 Hf Hz). done.
  - destruct (append_inv s _ X pend new f (st .& 0x3fff) Hs T Ho2 Hf); [split; [by apply Hst|lia]|done].
Qed.

(** ** Setting up and clearing the ring *)

(** The slots below [j] have buffers, pairwise different. *)
Record filled (j : Z) s (X : gset Z) : Prop := {
  fi_slot i : 0 <= i < j -> r_bufs s !! i = Some (mb i s, phys (mb i s)) /\ r_descs s !! i = Some (setup_desc i (phys (mb i s)));
  fi_mbuf i : 0 <= i < j -> mb i s <> 0 /\ mb i s ∈ X /\ mbuf_next (mb i s) (r_heap s) = 0;
  fi_inj i i' : 0 <= i < j -> 0 <= i' < j -> mb i s = mb i' s -> i = i';
}.

Lemma setup_owned i addr : has (d_opts1 (setup_desc i addr)) DescOwn = true.
Proof. unfold setup_desc, setup_word1. cbn [d_opts1]. by destruct (i =? kRxLastDesc). Qed.

Lemma filled_ok s X : filled 1024 s X -> r_next s = 0 -> r_frag s = mkFrag 0 0 0 -> out (r_pool s) X -> rxinv 0 s.
Proof.
  intros [F1 F2 F3] Hn Hf Ho. exists X, []. split; [done|]. split; [|rewrite Hf; split; [apply frag_empty|done]]. split.
  - rewrite Hn. unfold in_ring. lia.
  - intros i Hi. destruct (F1 i Hi) as [? ?]. eexists. split; [done|]. split; [done|]. split; [done|]. left. apply setup_owned.
  - intros i Hi. destruct (F2 i Hi) as (?&?&?). split_and!; try done. set_solver.
  - exact F3.
  - split; [apply NoDup_nil_2|set_solver].
Qed.

Lemma fill_step j m p s X : filled j s X -> 0 <= j -> m <> 0 -> (m ∉ X) ->
  let s1 := with_heap (fresh_packet m (r_heap s)) (with_pool p s) in
  filled (j + 1) (with_descs (<[j := setup_desc j (phys m)]> (r_descs s1)) (with_bufs (<[j := (m, phys m)]> (r_bufs s1)) s1)) ({[m]} ∪ X).
Proof.
  intros [F1 F2 F3] Hj Hm HmX s1. set (s' := with_descs _ _).
  assert (Hmb : forall i, mb i s' = if i =? j then m else mb i s).
  { intros i. unfold mb, buf_at. cbn [s' s1 r_bufs with_descs with_bufs with_heap with_pool].
    destruct (Z.eqb_spec i j) as [->|]; [by rewrite lookup_insert_eq|by rewrite lookup_insert_ne]. }
  assert (Hlow : forall i, 0 <= i < j + 1 -> i = j \/ 0 <= i < j /\ mb i s <> m).
  { intros i Hi. destruct (decide (i = j)); [by left|]. right. split; [lia|]. intros <-. apply HmX, F2. lia. }
  split.
  - intros i Hi. rewrite Hmb. cbn [s' s1 r_bufs r_descs with_descs with_bufs with_heap with_pool].
    destruct (Hlow i Hi) as [->|[Hlt _]]; [by rewrite Z.eqb_refl, !lookup_insert_eq|].
    rewrite (proj2 (Z.eqb_neq i j)), !lookup_insert_ne by lia. by apply F1.
  - intros i Hi. rewrite Hmb. cbn [s' s1 r_heap with_descs with_bufs with_heap]. destruct (Hlow i Hi) as [->|[Hlt Hne]].
    + rewrite Z.eqb_refl. split; [done|]. split; [set_solver|apply fresh_next].
    + rewrite (proj2 (Z.eqb_neq i j)) by lia. destruct (F2 i Hlt) as (?&?&?).
      destruct (fresh_other (mb i s) m (r_heap s) Hne) as [_ ->]. split_and!; try done. set_solver.
  - intros i i' Hi Hi'. rewrite !Hmb. destruct (Hlow i Hi) as [->|[Hlt Hne]], (Hlow i' Hi') as [->|[Hlt' Hne']];
      rewrite ?Z.eqb_refl, ?(proj2 (Z.eqb_neq i j)), ?(proj2 (Z.eqb_neq i' j)) by lia;
      try congruence. by apply F3.
Qed.

Lemma fill_filled n : forall j s X s', filled j s X -> 0 <= j -> out (r_pool s) X -> fill_slots phys (seqZ j n) s = (true, s') ->
  0 <= n -> exists X', filled (j + n) s' X' /\ out (r_pool s') X' /\ r_next s' = r_next s /\ r_frag s' = r_frag s.
Proof.
  intros j s X s' Hfi Hj Ho Hr Hn. revert j s X Hfi Hj Ho Hr. pattern n. apply natlike_ind; [| |done]; clear n Hn.
  - intros j s X Hfi Hj Ho Hr. injection Hr as <-. exists X. by rewrite Z.add_0_r.
  - intros n Hn IH j s X Hfi Hj Ho Hr. rewrite seqZ_cons in Hr by lia. cbn [fill_slots] in Hr.
    destruct (get_packet _ _ _) as [[m|] p] eqn:Eg; [|done]. destruct (get_some _ _ _ _ _ X Eg Ho) as (Hm&HmX&Ho').
    replace (Z.pred (Z.succ n)) with n in Hr by lia. replace (Z.succ j) with (j + 1) in Hr by lia.
    destruct (IH _ _ _ (fill_step j m p s X Hfi Hj Hm HmX) ltac:(lia) Ho' Hr) as (X'&Hfi'&Ho2&E1&E2).
    exists X'. replace (j + Z.succ n) with (j + 1 + n) by lia. done.
Qed.

Lemma fill_all s s' X : out (r_pool s) X -> r_next s = 0 -> r_frag s = mkFrag 0 0 0 ->
  fill_slots phys (seqZ 0 kNumRxDesc) s = (true, s') -> rxinv 0 s'.
Proof.
  intros Ho Hn Hf E. assert (F0 : filled 0 s X) by (split; intros; lia).
  destruct (fill_filled kNumRxDesc 0 s X s' F0 ltac:(lia) Ho E) as (X'&Hfi&Ho'&En&Ef); [unfold kNumRxDesc; lia|].
  rewrite Hn in En. rewrite Hf in Ef. by apply (filled_ok _ X').
Qed.

Lemma setup_inv p s s' X : out p X -> r_frag s = mkFrag 0 0 0 -> setupRxResources phys (Some p) s = (true, s') -> rxinv 0 s'.
Proof.
  intros Ho Hf. unfold setupRxResources. cbv zeta.
  pose proof (fun s1 => fill_all (with_pool p (with_mapNext 0 (with_next 0 (with_bufs ∅ (with_descs zero_descs s))))) s1 X Ho eq_refl Hf) as H.
  destruct (fill_slots _ _ _) as [[] s1]; intros Hr; [|discriminate]. injection Hr as <-. by apply H.
Qed.

Lemma clear_descs l : forall s, NoDup l ->
  exists d, foldl (fun s i => with_descs (<[i := setup_desc i (buf_at i s).2]> (r_descs s)) s) s l = with_descs d s /\
    (forall i, i ∈ l -> d !! i = Some (setup_desc i (buf_at i s).2)) /\ forall i, i ∉ l -> d !! i = r_descs s !! i.
Proof.
  induction l as [|i l IH]; intros s Hd; cbn [foldl]; [exists (r_descs s); split; [by destruct s|set_solver]|].
  apply NoDup_cons in Hd as [Hi Hd]. set (s1 := with_descs _ _).
  destruct (IH s1 Hd) as (d&->&Hl&Hr). exists d. split; [done|]. split; intros x Hx.
  - apply elem_of_cons in Hx as [->|Hin]; [|exact (Hl x Hin)]. rewrite Hr by done. apply lookup_insert_eq.
  - apply not_elem_of_cons in Hx as [Hne Hni]. rewrite Hr by done. by apply lookup_insert_ne.
Qed.

Lemma clear_inv rx_dma n s : rxinv n s -> rxinv 0 (clearRxRing rx_dma false s).
Proof.
  intros (X&pend&Ho&Hs&Hf&_). unfold clearRxRing. destruct (clear_descs (seqZ 0 kNumRxDesc) s (NoDup_seqZ _ _)) as (d&->&Hd&_).
  set (s1 := with_mapNext 0 (with_next 0 (with_descs d s))).
  assert (E : r_bufs (discardPacketFragment s1) = r_bufs s /\ r_descs (discardPacketFragment s1) = d /\ r_pool (discardPacketFragment s1) = r_pool s /\
    r_next (discardPacketFragment s1) = 0 /\ r_frag (discardPacketFragment s1) = mkFrag 0 0 0 /\ h_next (r_heap (discardPacketFragment s1)) = h_next (r_heap s))
    by (unfold discardPacketFragment; by destruct (_ =? 0)).
  destruct E as (E1&E2&E3&E4&E5&E6). set (s2 := discardPacketFragment s1) in *. clearbody s2.
  assert (Emb : forall i, mb i s2 = mb i s) by (intros i; unfold mb, buf_at; by rewrite E1).
  apply (filled_ok _ X); try done; [|by rewrite E3]. split.
  - intros i Hi. destruct (so_slot _ _ _ Hs i Hi) as (d0&Hb&_). rewrite E1, E2, Emb. split; [done|].
    rewrite Hd by (apply elem_of_seqZ; unfold kNumRxDesc; lia). unfold buf_at. by rewrite Hb.
  - intros i Hi. destruct (so_mbuf _ _ _ Hs i Hi) as (?&?&_&Hn). rewrite Emb. split_and!; try done. unfold mbuf_next. rewrite E6. exact Hn.
  - intros i i' Hi Hi'. rewrite !Emb. by apply (so_inj _ _ _ Hs).
Qed.
End Frames.
