(* ===== verification/KextRxRun.v ===== *)
(** * The receive path of the kernel extension: runs

    The two cases in which the receive path does not do what it means to; then
    rxInterrupt against the chip, the network stack and the reset of the ring:
    the packets that go up, and that the interrupt handler returns. *)
From S2P Require Import Prelude TxOffload RxRing RxRingSpec KextPool KextPoolSpec KextTx KextTxSpec KextRx KextRxSpec.

Section Code.
Context {P : Type} `{B : !RxBuffers P}.
Context (phys : Z -> Z) (multi : Z -> bool).
Implicit Types s : krx P.

(** ** What a descriptor leaves alone *)

Lemma discard_keeps s : r_next (discardPacketFragment s) = r_next s /\ r_descs (discardPacketFragment s) = r_descs s.
Proof. unfold discardPacketFragment. by destruct (_ =? 0). Qed.

Lemma handle_keeps vtd s : r_next (handle_desc phys multi vtd s).2 = r_next s /\ r_descs (handle_desc phys multi vtd s).2 = r_descs s.
Proof.
  unfold handle_desc. cbv zeta. destruct (has _ RxRES); [apply (discard_keeps (count_error _ s))|].
  destruct (replace_or_copy _ _ _) as [[[[new|] b] replaced] p']; [|exact (discard_keeps (count_resource (with_pool p' s)))].
  set (s1 := with_heap _ (with_pool p' s)). destruct (replaced && multi b); [exact (discard_keeps (count_resource s1))|]. set (s2 := if replaced then _ else _).
  assert (E : r_next s2 = r_next s /\ r_descs s2 = r_descs s) by (unfold s2; by destruct replaced). clearbody s2.
  destruct (has _ LastFrag); cbn [snd].
  - unfold finish_packet. destruct (join_last _ _ _ _) as [f h]. exact E.
  - unfold append_fragment. destruct (_ =? 0); exact E.
Qed.

Lemma rearm_keeps vtd s : let s' := rearm (handle_desc phys multi vtd s).2 in
  r_next s' = u16 (r_next s + 1) .& kRxDescMask /\ has (d_opts1 (desc_at (r_next s) s')) DescOwn = true /\
  forall i, i <> r_next s -> desc_at i s' = desc_at i s.
Proof.
  cbv zeta. destruct (handle_keeps vtd s) as [E1 E2]. set (s1 := (handle_desc phys multi vtd s).2) in *. clearbody s1.
  unfold desc_at. cbn [rearm with_next with_descs r_next r_descs]. rewrite E1, E2. split; [done|]. split.
  - rewrite lookup_insert_eq. cbn [from_option id]. apply rx_desc_owned.
  - intros i Hi. by rewrite lookup_insert_ne.
Qed.

(** ** Where the receive path goes wrong *)

(** When the last descriptor of a frame of several has no more than the four
    bytes of the frame check sequence, its copy is released, and then used to
    store the checksum verdict. *)
Theorem kext_rx_touches_freed s new b p' : let st := status s in
  has st RxRES = false -> has st LastFrag = true -> st .& 0x3fff <= 4 -> f_head (r_frag s) <> 0 ->
  replace_or_copy (mb (r_next s) s) (st .& 0x3fff) (r_pool s) = (Some new, b, false, p') ->
  getChecksumResult st (d_opts2 (desc_at (r_next s) s)) <> (false, false) ->
  exists post, h_trace (r_heap (handle_desc phys multi false s).2) =
    h_trace (r_heap s) ++ [Free new; Touch (f_tail (r_frag s)); Touch new] ++ post.
Proof.
  cbv zeta. intros Hres Hlast Hsz Hhead Hroc Hck. unfold handle_desc. cbv zeta. fold (status s).
  rewrite Hres. unfold mb in Hroc. rewrite Hroc. cbn [andb]. rewrite Hlast. cbn [snd]. unfold finish_packet, join_last.
  cbn [r_frag with_heap with_pool r_heap]. rewrite (proj2 (Z.eqb_neq _ _)) by done.
  rewrite (proj2 (Z.ltb_ge 0 _)) by (unfold kIOEthernetCRCSize; lia). cbn [r_heap with_frag with_heap].
  unfold pass_up, checksum. destruct (getChecksumResult _ _) as [ip da].
  assert (Eck : ip || da = true) by (destruct ip, da; done). rewrite Eck. unfold mbuf_adjustlen.
  destruct (_ <? 0), (has _ RxVlanTag); cbn [act h_trace fresh_packet app]; rewrite <- !app_assoc; cbn [app]; eexists; reflexivity.
Qed.

(** With the IOMMU a descriptor is armed again only after the loop. When
    every descriptor of the ring reports an error the loop of rxInterruptVTD goes
    round the ring and never ends. *)
Theorem vtd_rx_error_spin fuel : forall goodPkts maxCount numMap s, in_ring (r_next s) -> goodPkts < maxCount ->
  (forall i, in_ring i -> has (d_opts1 (desc_at i s)) DescOwn = false /\ has (d_opts1 (desc_at i s)) RxRES = true) ->
  rx_loop_vtd phys multi fuel goodPkts maxCount numMap s = None.
Proof.
  induction fuel as [|fuel IH]; intros goodPkts maxCount numMap s Hr Hlt Hall; [done|]. cbn [rx_loop_vtd].
  destruct (Hall _ Hr) as [-> Hres]. rewrite (proj2 (Z.leb_gt _ _)) by done. cbn [orb]. destruct (handle_keeps true s) as [E1 E2].
  assert (Eg : (handle_desc phys multi true s).1 = false) by (unfold handle_desc; cbv zeta; by rewrite Hres).
  destruct (handle_desc phys multi true s) as [g s1]. cbn [fst snd] in *. subst g. rewrite E1.
  apply IH; [apply (next_in_ring phys multi)|done|]. intros i Hi. unfold desc_at. cbn [r_descs with_next]. rewrite E2. by apply Hall.
Qed.
End Code.

Section Runs.
Context {P : Type} `{B : !RxBuffers P} `{RP : !RxPool P}.
Context (phys : Z -> Z) (multi : Z -> bool) (rx_dma : Z -> list Z -> option (list Z)).
Implicit Types s : krx P.

(** ** The system *)

(** The mbufs of the receive path: those in the slots and in the fragment. *)
Definition holds s (m : Z) : Prop := in_slot s m \/ exists l, linked (r_heap s) (f_head (r_frag s)) l /\ m ∈ l.

(** The driver handles a descriptor that the chip has given back; the chip fills
    one; the ring is cleared; the stack and the refiller use the pool and the
    mbufs that are not the receive path's. The number counts the bytes of the
    unfinished frame. *)
Inductive rstep : krx P * Z -> krx P * Z -> Prop :=
| rs_driver s n good s' : has (status s) DescOwn = false -> handle_desc phys multi false s = (good, s') ->
    rstep (s, n) (rearm s', (reassemble multi n s).1)
| rs_chip s n i d d' : in_ring i -> r_descs s !! i = Some d -> has (d_opts1 d) DescOwn = true -> has (d_opts1 d') DescOwn = false ->
    status_ok (d_opts1 d') -> d_addr d' = d_addr d -> rstep (s, n) (with_descs (<[i := d']> (r_descs s)) s, n)
| rs_clear s n : rstep (s, n) (clearRxRing rx_dma false s, 0)
| rs_stack s n p' h' : (forall m, holds s m -> mbuf_next m h' = mbuf_next m (r_heap s) /\ mbuf_len m h' = mbuf_len m (r_heap s)) ->
    (forall X, out (r_pool s) X -> (forall m, holds s m -> m ∈ X) -> exists X', out p' X' /\ forall m, holds s m -> m ∈ X') ->
    rstep (s, n) (with_heap h' (with_pool p' s), n).

Lemma chip_inv s n i d d' : rxinv phys n s -> in_ring i -> r_descs s !! i = Some d -> status_ok (d_opts1 d') ->
  d_addr d' = d_addr d -> rxinv phys n (with_descs (<[i := d']> (r_descs s)) s).
Proof.
  intros (X&pend&Ho&[A1 A2 A3 A4 A5]&Hf) Hi Hd Hst Ha. exists X, pend. split; [done|]. split; [|done]. split; try done.
  intros j Hj. destruct (A2 j Hj) as (dj&Hb&Hdj&Haj&Hoj). cbn [r_descs with_descs].
  destruct (decide (j = i)) as [->|Hne]; [rewrite lookup_insert_eq|rewrite lookup_insert_ne by done; by exists dj].
  exists d'. split; [exact Hb|]. split; [done|]. rewrite Hd in Hdj. injection Hdj as <-. split; [by rewrite Ha|by right].
Qed.

Lemma stack_inv s n p' h' : rxinv phys n s ->
  (forall m, holds s m -> mbuf_next m h' = mbuf_next m (r_heap s) /\ mbuf_len m h' = mbuf_len m (r_heap s)) ->
  (forall X, out (r_pool s) X -> (forall m, holds s m -> m ∈ X) -> exists X', out p' X' /\ forall m, holds s m -> m ∈ X') ->
  rxinv phys n (with_heap h' (with_pool p' s)).
Proof.
  intros (X&pend&Ho&[A1 A2 A3 A4 [A5 A6]]&Hf&Ht) Hh Hp.
  assert (Hpend : forall m, m ∈ pend -> holds s m) by (intros m Hm; right; exists pend; split; [apply Hf|done]).
  assert (Hslot : forall i, in_ring i -> holds s (mb i s)) by (intros i Hi; left; by exists i).
  destruct (Hp X Ho) as (X'&Ho'&HX').
  { intros m [(i&Hi&<-)|(l&Hl&Hm)]; [by apply A3|]. apply A6. rewrite <- (linked_det _ _ _ _ Hl (proj1 Hf)). done. }
  exists X', pend. split; [done|]. split; [|split].
  - split; [exact A1|exact A2| |exact A4|split; [done|auto]]. intros i Hi. destruct (A3 i Hi) as (?&_&?&E).
    split; [done|]. split; [by apply HX', Hslot|]. split; [done|]. rewrite <- E. by apply Hh, Hslot.
  - apply (frag_frame _ (r_heap s)); [|done]. intros m Hm. by apply Hh, Hpend.
  - rewrite <- Ht. apply total_frame. intros m Hm. by apply Hh, Hpend.
Qed.

Lemma rstep_inv x y : rxinv phys x.2 x.1 -> rstep x y -> rxinv phys y.2 y.1.
Proof.
  intros Hi H. destruct H as [s n good s' Hown Hh|s n i d d' ? ? _ _ ? ?|s n|s n p' h' ? ?]; cbn [fst snd] in *.
  - by destruct (handle_inv phys multi n s good s' Hi Hown Hh).
  - by apply (chip_inv s n i d d').
  - by apply (clear_inv phys multi rx_dma n).
  - by apply stack_inv.
Qed.

(** C8: on a machine without an IOMMU (rxInterrupt; rxInterruptVTD is not
    covered), and for a chip that never reports a descriptor in the middle of a
    frame, without an error, with less than four bytes ([status_ok]): whatever the
    order in which the driver, the chip, the stack and a reset act after
    setupRxResources, every slot of the ring keeps a buffer of its own
    and a descriptor with the address of that buffer. Handling a descriptor does
    what the reference reassembly says: a frame goes up with its last descriptor
    as one packet, a chain of distinct buffers that are no longer in the ring,
    and the length in its header, to which the buffers' lengths add up, is the
    sum of the lengths in its descriptors less the four bytes of the frame check
    sequence; a descriptor in the middle of a frame, or refused, passes nothing up. *)
Theorem kext_rx_frames_exact p X s0 s1 s n : out p X -> r_frag s0 = mkFrag 0 0 0 ->
  setupRxResources phys (Some p) s0 = (true, s1) -> star rstep (s1, 0) (s, n) ->
  (forall i, in_ring i -> exists m d, r_bufs s !! i = Some (m, phys m) /\ m <> 0 /\ r_descs s !! i = Some d /\ d_addr d = phys m) /\
  (forall i j, in_ring i -> in_ring j -> mb i s = mb j s -> i = j) /\
  (forall good s', has (status s) DescOwn = false -> handle_desc phys multi false s = (good, s') -> handled multi n s good s').
Proof.
  intros Ho Hf Hset Hrun. pose proof (setup_inv phys multi p s0 s1 X Ho Hf Hset) as H0.
  pose proof (star_invariant rstep (fun x => rxinv phys x.2 x.1) rstep_inv _ _ Hrun H0) as Hi. cbn [fst snd] in Hi.
  pose proof Hi as (X'&pend&_&Hs&_). split; [|split].
  - intros i Hr. destruct (so_slot _ _ _ _ Hs i Hr) as (d&Hb&Hd&Ha&_). exists (mb i s), d. split_and!; try done.
    by apply (so_mbuf _ _ _ _ Hs).
  - exact (so_inj _ _ _ _ Hs).
  - intros good s' Hown Hh. by destruct (handle_inv phys multi n s good s' Hi Hown Hh).
Qed.

(** ** The loop returns *)

(** The chip completes [k] descriptors, as in [rs_chip]. *)
Inductive completes : nat -> krx P -> krx P -> Prop :=
| completes_none s : completes 0 s s
| completes_one k s i d d' s' : in_ring i -> r_descs s !! i = Some d -> has (d_opts1 d) DescOwn = true ->
    has (d_opts1 d') DescOwn = false -> status_ok (d_opts1 d') -> d_addr d' = d_addr d ->
    completes k (with_descs (<[i := d']> (r_descs s)) s) s' -> completes (S k) s s'.

(** The chip completes at most [c k] descriptors before round [k]. *)
Definition bounded_chip (chip : nat -> krx P -> krx P) (c : nat -> nat) : Prop :=
  forall k s, exists j, (j <= c k)%nat /\ completes j s (chip k s).

(** The descriptors of the ring that are the driver's. *)
Definition mine s (i : Z) : bool := negb (has (d_opts1 (desc_at i s)) DescOwn).
Definition count_mine s : nat := length (List.filter (mine s) (seqZ 0 1024)).

Lemma count_mine_flip s s' i : in_ring i -> (forall j, j <> i -> desc_at j s' = desc_at j s) ->
  mine s i = false -> mine s' i = true -> count_mine s' = S (count_mine s).
Proof.
  intros Hi Hj H0 H1. unfold count_mine. apply (filter_flip _ _ _ i); [apply NoDup_seqZ|by apply elem_of_seqZ| |done|done].
  intros j Hne. unfold mine. by rewrite Hj.
Qed.

Lemma completes_count k s s' : completes k s s' -> r_next s' = r_next s /\ count_mine s' = (count_mine s + k)%nat.
Proof.
  induction 1 as [s|k s i d d' s' Hi Hd Ho Hn _ _ _ [IH1 IH2]]; [split; [done|lia]|]. split; [exact IH1|]. rewrite IH2.
  rewrite (count_mine_flip s _ i Hi); [lia|..]; unfold mine, desc_at; cbn [r_descs with_descs].
  - intros j Hne. by rewrite lookup_insert_ne.
  - rewrite Hd. cbn. by rewrite Ho.
  - rewrite lookup_insert_eq. cbn. by rewrite Hn.
Qed.

Lemma completes_star k s s' n : completes k s s' -> star rstep (s, n) (s', n).
Proof. induction 1; [apply star_refl|]. eapply star_step; [by eapply rs_chip|done]. Qed.

Lemma rearm_count s : in_ring (r_next s) -> mine s (r_next s) = true ->
  count_mine s = S (count_mine (rearm (handle_desc phys multi false s).2)).
Proof.
  intros Hr Hm. destruct (rearm_keeps phys multi false s) as (_&E2&E3). set (s' := rearm _) in *. clearbody s'.
  apply (count_mine_flip s' s (r_next s)); [done| | |done]; [intros j Hj; by rewrite E3|unfold mine; by rewrite E2].
Qed.

Lemma rx_loop_returns chip c maxCount : bounded_chip chip c -> forall fuel R round good s n, in_ring (r_next s) ->
  (forall K, sum_list (c <$> seq round K) <= R)%nat -> (count_mine s + R < fuel)%nat ->
  exists good' s' n', rx_loop phys multi chip fuel round good maxCount s = Some (good', s') /\ star rstep (s, n) (s', n') /\
    (has (status s') DescOwn = true \/ maxCount <= good').
Proof.
  intros Hc. induction fuel as [|fuel IH]; intros R round good s n Hr HR Hf; [lia|].
  cbn [rx_loop]. cbv zeta. destruct (Hc round s) as (j&Hj&Hcs). destruct (completes_count _ _ _ Hcs) as [En Ec].
  pose proof (completes_star _ _ _ n Hcs) as Hst0. generalize dependent (chip round s). intros s1 Hcs En Ec Hst0.
  destruct (has (d_opts1 (desc_at (r_next s1) s1)) DescOwn) eqn:Eo.
  { exists good, s1, n. split; [done|]. split; [done|by left]. }
  cbn [orb]. destruct (maxCount <=? good) eqn:Em; bool_props.
  { exists good, s1, n. split; [done|]. split; [done|by right]. }
  rewrite <- En in Hr. pose proof (rearm_count s1 Hr ltac:(unfold mine; by rewrite Eo)) as Hcount.
  pose proof (proj1 (rearm_keeps phys multi false s1)) as Enext.
  destruct (handle_desc phys multi false s1) as [g s2] eqn:Eh. cbn [snd] in Hcount, Enext.
  assert (HR1 : (c round <= R)%nat) by (specialize (HR 1%nat); cbn in HR; lia).
  destruct (IH (R - c round)%nat (S round) (if g then u32 (good + 1) else good) (rearm s2) (reassemble multi n s1).1) as (good'&s'&n'&E&Hst&Hend).
  - rewrite Enext. apply (next_in_ring phys multi).
  - intros K. specialize (HR (S K)). cbn in HR. lia.
  - lia.
  - exists good', s', n'. split; [exact E|]. split; [|exact Hend]. eapply star_trans; [exact Hst0|].
    eapply star_step; [|exact Hst]. by apply (rs_driver s1 n g s2).
Qed.

Lemma count_mine_bound s : (count_mine s <= 1024)%nat.
Proof. unfold count_mine. etrans; [apply filter_length_le|]. rewrite length_seqZ. lia. Qed.

Lemma quiet_bounded : bounded_chip quiet (fun _ => 0%nat).
Proof. intros k s. exists 0%nat. split; [lia|apply completes_none]. Qed.

Lemma rx_interrupt_returns chip c N maxCount s n : in_ring (r_next s) -> bounded_chip chip c ->
  (forall K, sum_list (c <$> seq 0 K) <= N)%nat ->
  exists good s' n', rxInterrupt phys multi chip (1025 + N) maxCount s = Some (good, s') /\ star rstep (s, n) (s', n') /\
    (has (status s') DescOwn = true \/ maxCount <= good).
Proof.
  intros Hr Hc HN. pose proof (count_mine_bound s). apply (rx_loop_returns chip c maxCount Hc (1025 + N) N); [done|done|lia].
Qed.

Lemma rx_interrupt_quiet maxCount s n : in_ring (r_next s) ->
  exists good s' n', rxInterrupt phys multi quiet 1025 maxCount s = Some (good, s') /\ star rstep (s, n) (s', n') /\
    (has (status s') DescOwn = true \/ maxCount <= good).
Proof.
  intros Hr. apply (rx_interrupt_returns quiet (fun _ => 0%nat) 0 maxCount s n Hr quiet_bounded).
  intros K. generalize 0%nat at 2. induction K as [|K IH]; intros k; [done|]. cbn. apply IH.
Qed.

(** C23: rxInterrupt (no IOMMU) returns from every state of the ring, whatever the
    pool does, if the chip completes only finitely many descriptors while it runs:
    the chip may complete descriptors before each test of the ownership bit, those
    armed again in this very call included, and with at most [N] of them in all the
    loop ends within 1025 + [N] tests, at a descriptor that the chip owns or after
    [maxCount] packets; what it did is a sequence of the driver's and the chip's
    steps. The bound on the chip is needed: refused frames do not count towards
    [maxCount], and a chip that delivers them fast enough keeps the loop running
    ([rx_error_frames_spin]). *)
Theorem kext_rx_interrupt_returns chip c N maxCount s n : in_ring (r_next s) -> bounded_chip chip c ->
  (forall K, sum_list (c <$> seq 0 K) <= N)%nat ->
  exists good s' n', rxInterrupt phys multi chip (1025 + N) maxCount s = Some (good, s') /\ star rstep (s, n) (s', n') /\
    (has (status s') DescOwn = true \/ maxCount <= good).
Proof. apply rx_interrupt_returns. Qed.

(** The next descriptor is always there, with an error. *)
Definition error_chip (round : nat) s : krx P :=
  with_descs (<[r_next s := mkKdesc RxRES 0 (d_addr (desc_at (r_next s) s))]> (r_descs s)) s.

Theorem rx_error_frames_spin fuel : forall round goodPkts maxCount s, goodPkts < maxCount ->
  rx_loop phys multi error_chip fuel round goodPkts maxCount s = None.
Proof.
  induction fuel as [|fuel IH]; intros round goodPkts maxCount s Hlt; [done|]. cbn [rx_loop]. cbv zeta.
  assert (E : desc_at (r_next (error_chip round s)) (error_chip round s) = mkKdesc RxRES 0 (d_addr (desc_at (r_next s) s)))
    by (unfold desc_at at 1, error_chip; cbn [r_next r_descs with_descs]; by rewrite lookup_insert_eq).
  rewrite E, (proj2 (Z.leb_gt _ _)) by done. change (has _ DescOwn || false) with false. cbv iota.
  assert (Eg : (handle_desc phys multi false (error_chip round s)).1 = false)
    by (unfold handle_desc; cbv zeta; rewrite E; reflexivity).
  destruct (handle_desc phys multi false (error_chip round s)) as [g s1]. cbn [fst] in Eg. subst g. by apply IH.
Qed.

End Runs.

(** ** A pool that numbers its packets *)

Module RxSim.
Definition count_roc (mp len p : Z) : option Z * Z * bool * Z :=
  if 160 <? len then (Some mp, p + 1, true, p + 1) else (Some (p + 1), mp, false, p + 1).

#[export] Instance count_buffers : RxBuffers Z := {| replace_or_copy := count_roc; get_packet _ _ p := (Some (p + 1), p + 1) |}.

#[export] Instance count_pool : RxPool Z.
Proof.
  refine {| out p X := 0 <= p /\ forall m, m ∈ X -> m <= p |}.
  - intros mp len p new b replaced p' X H [Hp HX] Hm. exists (p + 1).
    assert (Hn : p + 1 ∉ X) by (intros Hin; specialize (HX _ Hin); lia).
    cbn in H. unfold count_roc in H. destruct (160 <? len); injection H as <- <- <- <-; split_and!; try done; try lia;
      intros m; rewrite elem_of_union, elem_of_singleton; intros [->|Hin]; try lia; specialize (HX _ Hin); lia.
  - intros mp len p b replaced p' X H. cbn in H. unfold count_roc in H. by destruct (160 <? len).
  - intros size how p m p' X H [Hp HX]. injection H as <- <-. split; [lia|]. split; [intros Hin; specialize (HX _ Hin); lia|].
    split; [lia|]. intros m. rewrite elem_of_union, elem_of_singleton. intros [->|Hin]; [lia|]. specialize (HX _ Hin). lia.
Defined.

Definition phys0 (m : Z) : Z := 0x100000 * m.
Definition multi0 (m : Z) : bool := false.
Definition dma0 (i : Z) (l : list Z) : option (list Z) := None.

Definition empty : krx Z := mkKrx Z 0 0 ∅ ∅ (mkFrag 0 0 0) (mkHeap ∅ ∅ []) 0 (mkStats 0 0 0).
Definition ready : krx Z := (setupRxResources phys0 (Some 0) empty).2.

(** The chip completes slot [i] with status [st]. *)
Definition complete (i st : Z) (s : krx Z) : krx Z :=
  with_descs (<[i := mkKdesc st 0 (d_addr (desc_at i s))]> (r_descs s)) s.

(** Two descriptors of one frame, 4096 and 1000 bytes. *)
Definition two : krx Z := complete 1 (LastFrag .| 1000) (complete 0 (FirstFrag .| 4096) ready).
Definition half : krx Z := rearm (handle_desc phys0 multi0 false two).2.

Lemma pair_fst {X Y} (x : X * Y) a : x.1 = a -> x = (a, x.2).
Proof. intros <-. by destruct x. Qed.

Lemma at_zero i : i = 0 -> in_ring i.
Proof. intros ->. split; lia. Qed.

Lemma ready_eq : setupRxResources phys0 (Some 0) empty = (true, ready).
Proof.
  assert (E : (setupRxResources phys0 (Some 0) empty).1 = true) by (vm_compute; reflexivity).
  exact (pair_fst (setupRxResources phys0 (Some 0) empty) true E).
Qed.

Lemma out0 : out 0 (∅ : gset Z).
Proof. split; [lia|set_solver]. Qed.

Lemma chip_step i st s n : in_ring i -> r_descs s !! i = Some (desc_at i s) -> has (d_opts1 (desc_at i s)) DescOwn = true ->
  has st DescOwn = false -> status_ok st -> rstep phys0 multi0 dma0 (s, n) (complete i st s, n).
Proof. intros. by eapply rs_chip. Qed.

Lemma driver_step s n g n' : has (status s) DescOwn = false -> (handle_desc phys0 multi0 false s).1 = g -> (reassemble multi0 n s).1 = n' ->
  rstep phys0 multi0 dma0 (s, n) (rearm (handle_desc phys0 multi0 false s).2, n').
Proof. intros Ho Hg <-. eapply rs_driver; [done|]. exact (pair_fst _ g Hg). Qed.

Lemma run_half : star (rstep phys0 multi0 dma0) (ready, 0) (half, 4096).
Proof.
  apply (star_step _ _ (complete 0 (FirstFrag .| 4096) ready, 0)).
  { apply chip_step; [unfold in_ring; lia|vm_compute; reflexivity|vm_compute; reflexivity|vm_compute; reflexivity|intros _ _; vm_compute; discriminate]. }
  apply (star_step _ _ (two, 0)).
  { apply chip_step; [unfold in_ring; lia|vm_compute; reflexivity|vm_compute; reflexivity|vm_compute; reflexivity|intros _; vm_compute; discriminate]. }
  apply (star_step _ _ (half, 4096)); [|apply star_refl]. apply (driver_step two 0 false 4096); vm_compute; reflexivity.
Qed.

(** The second descriptor ends the frame: one packet of 5092 bytes. *)
Lemma kext_rx_frames_exact_witness : delivered 5092 half (handle_desc phys0 multi0 false half).2.
Proof.
  pose proof (proj2 (proj2 (kext_rx_frames_exact phys0 multi0 dma0 0 ∅ empty ready half 4096 out0 eq_refl ready_eq run_half))
    true (handle_desc phys0 multi0 false half).2) as H.
  assert (E : (reassemble multi0 4096 half).2 = Some 5092) by (vm_compute; reflexivity).
  assert (Hown : has (status half) DescOwn = false) by (vm_compute; reflexivity).
  assert (Hg : (handle_desc phys0 multi0 false half).1 = true) by (vm_compute; reflexivity).
  exact (handled_some multi0 4096 half true _ 5092 (H Hown (pair_fst (handle_desc phys0 multi0 false half) true Hg)) E).
Defined.

(** While the first descriptor is handled the chip completes a third one, with an
    error. *)
Definition busy_chip (round : nat) (s : krx Z) : krx Z :=
  match r_descs s !! 2 with
  | Some d => if (round =? 1)%nat && has (d_opts1 d) DescOwn then complete 2 RxRES s else s
  | None => s
  end.
Definition busy_count (round : nat) : nat := if (round =? 1)%nat then 1 else 0.

Lemma busy_bounded : bounded_chip busy_chip busy_count.
Proof.
  intros k s. unfold busy_chip, busy_count. destruct (r_descs s !! 2) as [d|] eqn:Ed; [|exists 0%nat; split; [lia|apply completes_none]].
  destruct (k =? 1)%nat; [|exists 0%nat; split; [done|apply completes_none]]. cbn [andb].
  destruct (has (d_opts1 d) DescOwn) eqn:Eo; [|exists 0%nat; split; [lia|apply completes_none]].
  exists 1%nat. split; [done|]. eapply (completes_one 0 s 2 d); [split; lia|done|done| | | |apply completes_none]; cbn.
  - vm_compute. reflexivity.
  - intros H. vm_compute in H. discriminate.
  - unfold desc_at. by rewrite Ed.
Qed.

Lemma busy_total K : (sum_list (busy_count <$> seq 0 K) <= 1)%nat.
Proof.
  assert (H : forall k n, (2 <= k)%nat -> sum_list (busy_count <$> seq k n) = 0%nat).
  { intros k n. revert k. induction n as [|n IH]; intros k Hk; [done|]. cbn. rewrite IH by lia.
    unfold busy_count. by rewrite (proj2 (Nat.eqb_neq k 1)) by lia. }
  destruct K as [|[|K]]; cbn; [lia|lia|]. rewrite H by lia. lia.
Qed.

Lemma kext_rx_interrupt_returns_witness : in_ring (r_next two) /\
  exists good s', rxInterrupt phys0 multi0 busy_chip 1026 1024 two = Some (good, s') /\ (has (status s') DescOwn = true \/ 1024 <= good).
Proof.
  assert (E0 : r_next two = 0) by (vm_compute; reflexivity). pose proof (at_zero _ E0) as Hr. split; [exact Hr|].
  destruct (kext_rx_interrupt_returns phys0 multi0 dma0 busy_chip busy_count 1 1024 two 0 Hr busy_bounded busy_total) as (good&s'&n'&E&_&H).
  exists good, s'. split; [exact E|exact H].
Defined.

(** 4096 bytes, then three bytes of the frame check sequence. *)
Definition tail3 : krx Z := complete 1 (LastFrag .| RxTCPT .| 3) half.

Lemma kext_rx_touches_freed_witness :
  exists post, h_trace (r_heap (handle_desc phys0 multi0 false tail3).2) =
    h_trace (r_heap tail3) ++ [Free 1026; Touch (f_tail (r_frag tail3)); Touch 1026] ++ post.
Proof.
  apply (kext_rx_touches_freed phys0 multi0 tail3 1026 2 1026); vm_compute; try reflexivity; discriminate.
Defined.

Definition errors : krx Z :=
  with_descs (foldr (fun i => <[i := mkKdesc RxRES 0 0]>) ∅ (seqZ 0 1024)) empty.

Lemma vtd_rx_error_spin_witness : rx_loop_vtd phys0 multi0 5000%nat 0 1024 0 errors = None.
Proof.
  apply (vtd_rx_error_spin phys0 multi0 5000%nat 0 1024 0 errors); [apply at_zero; reflexivity|lia|].
  assert (H : forallb (fun i => negb (has (d_opts1 (desc_at i errors)) DescOwn) && has (d_opts1 (desc_at i errors)) RxRES) (seqZ 0 1024) = true)
    by (vm_compute; reflexivity).
  rewrite forallb_forall in H. intros i Hi. specialize (H i). rewrite <- list_elem_of_In, elem_of_seqZ in H. unfold in_ring in Hi.
  specialize (H ltac:(lia)). apply andb_true_iff in H as [H1 H2]. split; [by apply negb_true_iff|done].
Defined.
End RxSim.
