(* ===== verification/KextRxMap.v ===== *)
(** The receive ring of the kernel extension with the IOMMU: setupRxMap
    (RTL812xLucyVTD.cpp) and the branch of setupRxResources (RTL812xLucySetup.cpp) that
    calls it. What the maps allocate and release is in [KextRes]; here is what becomes of
    the ring. The size of a page, and with it of a receive buffer, is a parameter: 4 KB
    on Intel machines, 16 KB on Apple silicon. *)
From S2P Require Import Prelude TxOffload KextPool KextTx KextRx KextRxSpec KextRxRun.

Section Code.
Context {P : Type} `{B : !RxBuffers P}.
Context (PAGE_SIZE : Z).
(** What the kernel answers: whether the objects of a batch could be had and prepared, and
    the device address at an offset of a batch of buffers. *)
Context (prepared : Z -> bool) (gen64IOVMSegments : Z -> list Z -> Z -> option Z).
Implicit Types s : krx P.

(** The size of a receive buffer, and the descriptor of a slot: an [int] expression,
    so its sign is extended, and the end mark. *)
Definition buffer_size : Z := PAGE_SIZE.
Definition map_word1 (n : Z) : Z :=
  let word1 := u64 (s32 (buffer_size .| DescOwn)) in if n =? kRxLastDesc then word1 .| RingEnd else word1.
Definition map_desc (n pa : Z) : kdesc := mkKdesc (u32 (map_word1 n)) (Z.shiftr (map_word1 n) 32) pa.

Definition map_slot (n pa : Z) s : krx P :=
  with_descs (<[n := map_desc n pa]> (r_descs s)) (with_bufs (<[n := ((buf_at n s).1, pa)]> (r_bufs s)) s).

(** The slots of a batch, a page each. *)
Fixpoint map_batch (seg : Z -> option Z) (offset : Z) (l : list Z) s : bool * krx P :=
  match l with
  | [] => (true, s)
  | n :: l' =>
      match seg offset with
      | None => (false, s)
      | Some pa => map_batch seg (offset + PAGE_SIZE) l' (map_slot n pa s)
      end
  end.

Definition batch_slots (i : Z) : list Z := seqZ (i * kRxMemBatchSize) kRxMemBatchSize.
(** rxMemRange of the batch: the buffers of its slots. *)
Definition batch_ranges (i : Z) s : list Z := (fun n => (buf_at n s).1) <$> batch_slots i.

Fixpoint map_batches (l : list Z) s : bool * krx P :=
  match l with
  | [] => (true, s)
  | i :: l' =>
      if negb (prepared i) then (false, s) else
      match map_batch (gen64IOVMSegments i (batch_ranges i s)) 0 (batch_slots i) s with
      | (true, s) => map_batches l' s
      | (false, s) => (false, s)
      end
  end.

(** [mem]: rxMapMem could be allocated. *)
Definition setupRxMap (mem : bool) s : bool * krx P :=
  if negb mem then (false, s) else map_batches (seqZ 0 kNumRxMemDesc) s.

(** The loop over the slots, which only takes buffers from the pool. *)
Fixpoint take_buffers (l : list Z) s : bool * krx P :=
  match l with
  | [] => (true, s)
  | i :: l' =>
      match get_packet buffer_size MBUF_WAITOK (r_pool s) with
      | (None, p) => (false, with_pool p s)
      | (Some m, p) =>
          let s := with_heap (fresh_packet m (r_heap s)) (with_pool p s) in
          take_buffers l' (with_bufs (<[i := (m, (buf_at i s).2)]> (r_bufs s)) s)
      end
  end.

Definition setupRxResourcesVTD (mem : bool) (made : option P) s : bool * krx P :=
  let s := with_mapNext 0 (with_next 0 (with_bufs ∅ (with_descs zero_descs s))) in
  match made with
  | None => (false, s)
  | Some p =>
      let '(ok, s) := take_buffers (seqZ 0 kNumRxDesc) (with_pool p s) in
      if ok then setupRxMap mem s else (false, free_slots s)
  end.

(** ** Mapping keeps the buffers *)

Lemma mb_map_slot n pa s i : mb i (map_slot n pa s) = mb i s.
Proof.
  unfold mb, buf_at, map_slot. cbn [r_bufs with_descs with_bufs]. destruct (decide (i = n)) as [->|N]; [by rewrite lookup_insert_eq|].
  by rewrite lookup_insert_ne.
Qed.

(** Slot [n] is mapped at [pa]. *)
Definition mapped_at (n pa : Z) s : Prop := r_bufs s !! n = Some (mb n s, pa) /\ r_descs s !! n = Some (map_desc n pa).

(** What mapping the slots of [l] does, with the address of each. *)
Record maps (l : list Z) (addr : Z -> option Z) s s' : Prop := {
  ma_slot n : n ∈ l -> exists pa, addr n = Some pa /\ mapped_at n pa s';
  ma_rest n : n ∉ l -> r_bufs s' !! n = r_bufs s !! n /\ r_descs s' !! n = r_descs s !! n;
  ma_mbuf n : mb n s' = mb n s;
}.

Lemma maps_app l1 l2 addr s s1 s2 : (forall n, n ∈ l1 -> n ∉ l2) -> maps l1 addr s s1 -> maps l2 addr s1 s2 -> maps (l1 ++ l2) addr s s2.
Proof.
  intros D [A1 A2 A3] [B1 B2 B3]. split.
  - intros n Hn. destruct (decide (n ∈ l2)) as [I|I]; [by apply B1|]. apply elem_of_app in Hn as [Hn|Hn]; [|done].
    destruct (A1 n Hn) as (pa & E & M1 & M2). exists pa. split; [done|]. destruct (B2 n I) as [C1 C2]. unfold mapped_at. by rewrite C1, C2, B3.
  - intros n Hn. rewrite not_elem_of_app in Hn. destruct Hn as [N1 N2]. destruct (A2 n N1) as [<- <-]. by apply B2.
  - intros n. by rewrite B3.
Qed.

Lemma maps_one n pa addr s : addr n = Some pa -> maps [n] addr s (map_slot n pa s).
Proof.
  intros E. split.
  - intros i ->%list_elem_of_singleton. exists pa. split; [done|]. split; [|apply lookup_insert_eq].
    rewrite mb_map_slot. apply lookup_insert_eq.
  - intros i N. rewrite list_elem_of_singleton in N. split; cbn; by rewrite lookup_insert_ne.
  - intros i. apply mb_map_slot.
Qed.

Lemma map_batch_maps seg addr l : forall offset s s', NoDup l -> map_batch seg offset l s = (true, s') ->
  (forall k n, l !! k = Some n -> addr n = seg (offset + Z.of_nat k * PAGE_SIZE)) -> maps l addr s s'.
Proof.
  induction l as [|n l IH]; intros offset s s' ND E A; cbn [map_batch] in E.
  { injection E as <-. split; [set_solver|done|done]. }
  apply NoDup_cons in ND as [N ND]. destruct (seg offset) as [pa|] eqn:G; [|done].
  apply (maps_app [n] l addr s (map_slot n pa s) s'); [set_solver| |].
  - apply maps_one. rewrite (A 0%nat n eq_refl). by rewrite Z.mul_0_l, Z.add_0_r.
  - apply (IH _ _ _ ND E). intros k i Hk. rewrite (A (S k) i Hk). f_equal. lia.
Qed.

(** The address the mapper gives for slot [n]. *)
Definition slot_addr s (n : Z) : option Z :=
  gen64IOVMSegments (n / kRxMemBatchSize) (batch_ranges (n / kRxMemBatchSize) s) (n mod kRxMemBatchSize * PAGE_SIZE).

Lemma slot_addr_same s s' n : (forall i, mb i s' = mb i s) -> slot_addr s' n = slot_addr s n.
Proof.
  intros H. unfold slot_addr, batch_ranges. f_equal. apply list_fmap_ext. intros k i _. apply H.
Qed.

Lemma batch_of i k : 0 <= k < kRxMemBatchSize -> (i * kRxMemBatchSize + k) / kRxMemBatchSize = i /\ (i * kRxMemBatchSize + k) mod kRxMemBatchSize = k.
Proof.
  change kRxMemBatchSize with 16. intros Hk. split.
  - symmetry. by apply (Z.div_unique _ _ _ k); [left|lia].
  - symmetry. by apply (Z.mod_unique _ _ i); [left|lia].
Qed.

Lemma map_batches_maps n : 0 <= n -> forall i s s', 0 <= i -> map_batches (seqZ i n) s = (true, s') ->
  maps (seqZ (i * kRxMemBatchSize) (n * kRxMemBatchSize)) (slot_addr s) s s'.
Proof.
  intros Hn. pattern n. apply natlike_ind; [| |done]; clear n Hn.
  - intros i s s' Hi E. injection E as <-. split; [|done|done]. intros j. rewrite elem_of_seqZ. lia.
  - intros n Hn IH i s s' Hi E. rewrite seqZ_cons in E by lia. replace (Z.pred (Z.succ n)) with n in E by lia. cbn [map_batches] in E.
    destruct (negb (prepared i)); [done|]. destruct (map_batch _ _ _ _) as [[] s1] eqn:G; [|done].
    assert (M1 : maps (batch_slots i) (slot_addr s) s s1).
    { apply (map_batch_maps _ (slot_addr s) _ _ _ _ (NoDup_seqZ _ _) G). intros k j Hk. apply lookup_seqZ in Hk as [-> Hk].
      unfold slot_addr. destruct (batch_of i (Z.of_nat k) ltac:(lia)) as [-> ->]. by rewrite Z.add_0_l. }
    replace (Z.succ n * kRxMemBatchSize) with (kRxMemBatchSize + n * kRxMemBatchSize) by lia.
    change kRxMemBatchSize with 16 in *. rewrite seqZ_app by lia. apply (maps_app _ _ _ _ s1); [|exact M1|].
    + intros j. rewrite !elem_of_seqZ. lia.
    + specialize (IH (Z.succ i) s1 s' ltac:(lia) E). replace (Z.succ i * 16) with (i * 16 + 16) in IH by lia.
      destruct IH as [B1 B2 B3]. split; [|done|done]. intros j Hj. destruct (B1 j Hj) as (pa & Ea & M). exists pa. split; [|done].
      rewrite <- Ea. symmetry. apply slot_addr_same, M1.
Qed.

(** ** Taking the buffers *)

Context `{L : !RxPool P}.

(** The slots below [j] have buffers, pairwise different. *)
Record has_buffers (j : Z) s (X : gset Z) : Prop := {
  hb_mbuf i : 0 <= i < j -> mb i s <> 0 /\ mb i s ∈ X;
  hb_inj i i' : 0 <= i < j -> 0 <= i' < j -> mb i s = mb i' s -> i = i';
}.

Lemma take_step j m pa p s X : has_buffers j s X -> 0 <= j -> m <> 0 -> (m ∉ X) ->
  let s1 := with_heap (fresh_packet m (r_heap s)) (with_pool p s) in
  has_buffers (j + 1) (with_bufs (<[j := (m, pa)]> (r_bufs s1)) s1) ({[m]} ∪ X).
Proof.
  intros [F1 F2] Hj Hm HmX s1. set (s' := with_bufs _ _).
  assert (Hmb : forall i, mb i s' = if i =? j then m else mb i s).
  { intros i. unfold mb, buf_at. cbn [s' s1 r_bufs with_bufs with_heap with_pool].
    destruct (Z.eqb_spec i j) as [->|]; [by rewrite lookup_insert_eq|by rewrite lookup_insert_ne]. }
  assert (Hlow : forall i, 0 <= i < j + 1 -> i = j \/ 0 <= i < j /\ mb i s <> m).
  { intros i Hi. destruct (decide (i = j)); [by left|]. right. split; [lia|]. intros <-. apply HmX, F1. lia. }
  split.
  - intros i Hi. rewrite Hmb. destruct (Z.eqb_spec i j) as [->|N]; [split; [done|set_solver]|].
    destruct (F1 i ltac:(lia)). split; [done|set_solver].
  - intros i i' Hi Hi'. rewrite !Hmb. destruct (Hlow i Hi) as [->|[Hlt Hne]], (Hlow i' Hi') as [->|[Hlt' Hne']];
      rewrite ?Z.eqb_refl, ?(proj2 (Z.eqb_neq i j)), ?(proj2 (Z.eqb_neq i' j)) by lia; try congruence. by apply F2.
Qed.

Lemma take_has n : 0 <= n -> forall j s X s', has_buffers j s X -> 0 <= j -> out (r_pool s) X -> take_buffers (seqZ j n) s = (true, s') ->
  exists X', has_buffers (j + n) s' X'.
Proof.
  intros Hn. pattern n. apply natlike_ind; [| |done]; clear n Hn.
  - intros j s X s' H Hj Ho E. injection E as <-. exists X. by rewrite Z.add_0_r.
  - intros n Hn IH j s X s' H Hj Ho E. rewrite seqZ_cons in E by lia. cbn [take_buffers] in E.
    destruct (get_packet _ _ _) as [[m|] p] eqn:G; [|done]. destruct (get_some _ _ _ _ _ X G Ho) as (Hm & HmX & Ho').
    replace (Z.pred (Z.succ n)) with n in E by lia. replace (Z.succ j) with (j + 1) in E by lia.
    destruct (IH _ _ _ _ (take_step j m _ p s X H Hj Hm HmX) ltac:(lia) Ho' E) as (X' & H'). exists X'.
    by replace (j + Z.succ n) with (j + 1 + n) by lia.
Qed.

(** The descriptor with pages of 4 KB and of 16 KB. *)
Lemma map_desc_fields i pa : PAGE_SIZE = 4096 \/ PAGE_SIZE = 16384 ->
  has (d_opts1 (map_desc i pa)) DescOwn = true /\ has (d_opts1 (map_desc i pa)) RingEnd = (i =? kRxLastDesc) /\
  d_opts1 (map_desc i pa) .& 0x3fff = (if PAGE_SIZE =? 4096 then buffer_size else 0).
Proof.
  unfold map_desc, map_word1, buffer_size. cbn [d_opts1]. intros [-> | ->]; destruct (i =? kRxLastDesc); split_and!; reflexivity.
Qed.

(** C25: With the IOMMU setupRxResources succeeds only with a complete receive ring. If it
    does, whatever pool and mapper answered on the way, with pages of 4 KB or of 16 KB:
    every slot has a buffer, no two the same; its descriptor belongs to the chip and
    carries exactly the device address that the mapper gave for that page of that batch of
    buffers, and so does the driver's record of it; the last descriptor, and no other,
    ends the ring. With pages of 4 KB the 14-bit size field of the descriptor holds the
    size of a buffer; with pages of 16 KB, as on Apple silicon, the size does not fit and
    the field holds 0. *)
Theorem vtd_rx_setup (mem : bool) (p : P) s s' (X : gset Z) : PAGE_SIZE = 4096 \/ PAGE_SIZE = 16384 ->
  out p X -> setupRxResourcesVTD mem (Some p) s = (true, s') ->
  (forall i, 0 <= i < kNumRxDesc -> exists m pa d,
     r_bufs s' !! i = Some (m, pa) /\ m <> 0 /\ slot_addr s' i = Some pa /\ r_descs s' !! i = Some d /\ d_addr d = pa /\
     has (d_opts1 d) DescOwn = true /\ d_opts1 d .& 0x3fff = (if PAGE_SIZE =? 4096 then 4096 else 0) /\
     has (d_opts1 d) RingEnd = (i =? kRxLastDesc)) /\
  (forall i i', 0 <= i < kNumRxDesc -> 0 <= i' < kNumRxDesc -> mb i s' = mb i' s' -> i = i').
Proof.
  intros Hpg Ho. unfold setupRxResourcesVTD, setupRxMap. cbv zeta. set (s0 := with_pool p _).
  destruct (take_buffers (seqZ 0 kNumRxDesc) s0) as [[] s1] eqn:E; [|done]. destruct mem; [|done]. cbn [negb]. intros G.
  assert (F0 : has_buffers 0 s0 X) by (split; intros; lia).
  destruct (take_has kNumRxDesc ltac:(unfold kNumRxDesc; lia) 0 s0 X s1 F0 ltac:(lia) Ho E) as (X' & [F1 F2]).
  destruct (map_batches_maps kNumRxMemDesc ltac:(done) 0 s1 s' ltac:(lia) G) as [M1 _ M3]. split.
  - intros i Hi. destruct (M1 i) as (pa & Ea & Mb & Md); [apply elem_of_seqZ; exact Hi|]. exists (mb i s'), pa, (map_desc i pa).
    destruct (map_desc_fields i pa Hpg) as (D1 & D2 & D3).
    split_and!; [done|rewrite M3; by apply F1|by rewrite (slot_addr_same s1 s' i M3)|done|done|done| |done].
    rewrite D3. unfold buffer_size. by destruct Hpg as [-> | ->].
  - intros i i' Hi Hi' Em. rewrite !M3 in Em. by apply F2.
Qed.
End Code.

(** A mapper that gives every batch a range of its own, with the pool that counts. *)
Module MapSim.
Import KextRxRun.RxSim.

Definition mapper (i : Z) (l : list Z) (offset : Z) : option Z := Some (0x10000000 + 0x10000 * i + offset).
Definition ready_vtd : krx Z := (setupRxResourcesVTD 4096 (fun _ => true) mapper true (Some 0) empty).2.

Lemma vtd_rx_setup_witness :
  setupRxResourcesVTD 4096 (fun _ => true) mapper true (Some 0) empty = (true, ready_vtd) /\
  exists m pa d, r_bufs ready_vtd !! 17 = Some (m, pa) /\ m <> 0 /\ slot_addr 4096 mapper ready_vtd 17 = Some pa /\
    r_descs ready_vtd !! 17 = Some d /\ d_addr d = pa.
Proof.
  assert (E1 : (setupRxResourcesVTD 4096 (fun _ => true) mapper true (Some 0) empty).1 = true) by (vm_compute; reflexivity).
  assert (E : setupRxResourcesVTD 4096 (fun _ => true) mapper true (Some 0) empty = (true, ready_vtd)) by (exact (pair_fst _ true E1)).
  split; [exact E|]. destruct (vtd_rx_setup 4096 (fun _ => true) mapper true 0 empty ready_vtd ∅ (or_introl eq_refl) out0 E) as [H _].
  destruct (H 17 ltac:(unfold kNumRxDesc; lia)) as (m & pa & d & H1 & H2 & H3 & H4 & H5 & _).
  exists m, pa, d. split; [exact H1|]. split; [exact H2|]. split; [exact H3|]. split; [exact H4|exact H5].
Defined.

(** A mapper that fails at one page leaves the buffers where they are: setupRxMap gives
    its maps back and setupRxResources returns, without freeing one buffer. *)
Definition failing (i : Z) (l : list Z) (offset : Z) : option Z := if i =? 63 then None else mapper i l offset.
Theorem vtd_setup_failure_keeps :
  let r := setupRxResourcesVTD 4096 (fun _ => true) failing true (Some 0) empty in
  r.1 = false /\ mb 0 r.2 <> 0 /\ h_trace (r_heap r.2) = [].
Proof. vm_compute. split_and!; [done|congruence|done]. Qed.
End MapSim.
