(* ===== verification/KextHw.v ===== *)
(** The hardware layer of the kernel extension (RTL812xLucyHardware.cpp). It is
    the original of RTL8127Hw.cpp: identification, rtl812xHwInit, the register
    work of rtl812xHwConfig, the link-down patch, the EEE state and the ring
    pointers have the same text there and are shared with [BringUp]; what
    differs is written out here. *)
From S2P Require Import Prelude Mmio Channel Chip SwVars Eeprom Hw Mcu Power Fiber PhyConfig RxFilter BringUp.
Local Open Scope prog_scope.

(** ** The PCI device *)

Definition kIOPCIPMCapability : Z := 2.
Definition kIOPCIPMControl : Z := 4.
Definition kIOPCIELinkControl : Z := 16.
Definition kIOPCIConfigCommand : Z := 0x04.
Definition kIOPCICommandIOSpace : Z := 0x0001.
Definition kIOPCICommandMemorySpace : Z := 0x0002.
Definition kIOPCICommandBusMaster : Z := 0x0004.
Definition kPCIPMCPMESupportFromD3Cold : Z := 0x8000.
Definition kPCIPMCSPowerStateMask : Z := 0x0003.
Definition kPCIPMCSPowerStateD0 : Z := 0.
Definition kPCIPMCSPowerStateD3 : Z := 3.
Definition kPCIPMCSPMEEnable : Z := 0x0100.
Definition kPCIPMCSPMEStatus : Z := 0x8000.

(** The calls of IOPCIDevice that are not plain accesses: the offset of a
    capability, the ASPM state, the power state, the mapping of region 2. *)
Class PciDevice (D : Type) := {
  findPowerCapability : D -> option Z * D;
  findExpressCapability : D -> option Z * D;
  setASPMState : Z -> D -> D;
  enablePCIPowerManagement : Z -> D -> D;
  mapRegion2 : D -> bool * D;
}.

(** What initPCIConfigSpace finds. *)
Record pcidata := mkPci {
  p_vendor : Z; p_device : Z; p_subvendor : Z; p_subdevice : Z;
  p_wolCapable : bool; pciPMCtrlOffset : Z; p_pcieCap : Z; p_org_80 : Z; p_org_81 : Z;
}.

Section Code.
Context {D : Type} `{M : !Mmio D} `{Pc : !PciConfig D} `{Pd : !PciDevice D}.
Context (undef : Z).

Definition find_pm : prog D (option Z) := findPowerCapability.
Definition find_pcie : prog D (option Z) := findExpressCapability.

(** [false]: region 2 cannot be mapped. *)
Definition initPCIConfigSpace (p : pcidata) : prog D (bool * pcidata) :=
  do vendor <- cfg16 0x00;
  do device <- cfg16 0x02;
  do subvendor <- cfg16 0x2C;
  do subdevice <- cfg16 0x2E;
  do pm <- find_pm;
  do r <- (match pm with
           | Some off =>
               do pmCap <- cfg16 (off + kIOPCIPMCapability);
               ret (has pmCap kPCIPMCPMESupportFromD3Cold || p_wolCapable p, off + kIOPCIPMControl)
           | None => ret (p_wolCapable p, pciPMCtrlOffset p)
           end);
  act (enablePCIPowerManagement kPCIPMCSPowerStateD0) ;;;
  do cap <- find_pcie;
  (match cap with
   | Some off => cfg32 (off + kIOPCIELinkCapability) ;;; cfg16 (off + kIOPCIELinkControl) ;;; ret tt
   | None => ret tt
   end) ;;;
  do cmdReg <- cfg16 kIOPCIConfigCommand;
  wcfg16 kIOPCIConfigCommand (cmdReg .| (kIOPCICommandBusMaster .| kIOPCICommandMemorySpace .| kIOPCICommandIOSpace)) ;;;
  do mapped <- mapRegion2;
  let p := mkPci vendor device subvendor subdevice r.1 r.2 (default (p_pcieCap p) cap) (p_org_80 p) (p_org_81 p) in
  if negb mapped then ret (false, p) else
  do o80 <- cfg8 0x80;
  do o81 <- cfg8 0x81;
  ret (true, mkPci (p_vendor p) (p_device p) (p_subvendor p) (p_subdevice p) (p_wolCapable p) (pciPMCtrlOffset p)
               (p_pcieCap p) o80 o81).

Definition setupASPM (h : hwst) (allowL0s allowL1 : bool) : prog D unit :=
  let cap := pcieCapOffset h in
  if cap =? 0 then ret tt else
  do pcieLinkCap <- cfg32 (cap + kIOPCIELinkCapability);
  act (setASPMState (aspm_state pcieLinkCap allowL0s allowL1)).

(** The power management control word; the offset is kept in eight bits. *)
Definition setPowerStateWakeAction (pmCtrl : Z) : prog D unit :=
  if pmCtrl =? 0 then ret tt else
  let offset := u8 pmCtrl in
  do val16 <- cfg16 offset;
  wcfg16 offset ((val16 .&~ (kPCIPMCSPowerStateMask .| kPCIPMCSPMEStatus .| kPCIPMCSPMEEnable)) .| kPCIPMCSPowerStateD0).

Definition setPowerStateSleepAction (wol_enabled : bool) (pmCtrl : Z) : prog D unit :=
  if pmCtrl =? 0 then ret tt else
  let offset := u8 pmCtrl in
  do val16 <- cfg16 offset;
  wcfg16 offset ((val16 .&~ (kPCIPMCSPowerStateMask .| kPCIPMCSPMEStatus .| kPCIPMCSPMEEnable)) .|
    (if wol_enabled then kPCIPMCSPMEStatus .| kPCIPMCSPMEEnable .| kPCIPMCSPowerStateD3 else kPCIPMCSPowerStateD3)).

(** ** Set-up *)

(** The random bytes come from the kernel's random_buf. *)
Definition choose_mac (current fallback orig rnd : list Z) : list Z :=
  if is_valid_ether_addr current then current
  else if is_valid_ether_addr fallback then fallback
  else if is_valid_ether_addr orig then orig
  else match rnd with b :: r => ((b .& 0xfe) .| 0x02) :: r | [] => [] end.

Definition initMacAddr (rnd : list Z) (h : hwst) : prog D hwst :=
  do macAddr <- read_bytes 6 MAC0;
  do lo <- RTL_R32 BACKUP_ADDR0_8125;
  do hi <- RTL_R16 BACKUP_ADDR1_8125;
  let orig := le_bytes 4 lo ++ le_bytes 2 hi in
  let a := choose_mac macAddr (fallBackMacAddr (addrs h)) orig rnd in
  rtl8125_rar_set a ;;;
  ret (set_addrs (mkMacs a orig (fallBackMacAddr (addrs h))) h).

(** The EEE block of rtl812xInit; EEE stays on. *)
Definition init_eee (m : cfg) (max : Z) (e : keee) : keee :=
  if bool_decide (m = CFG_METHOD_DEFAULT) then e else
  let e' := init_eee_off m max e in
  mkEee true (supported e') (advertised e') true (tx_lpi_timer e').

Definition init_vars (h : hwst) (tp : tpvars) (s : swvars) (opts : Z) : hwst :=
  let m := tp_mcfg tp in
  let e := eee s in
  let e := mkEee (eee_enabled e) (supported e) (advertised e) (tx_lpi_enabled e) (u32 (mtu h + ETH_HLEN + 0x20)) in
  let l := rtl8125_set_link_option (HwSuppMaxPhyLinkSpeed s) AUTONEG_ENABLE (HwSuppMaxPhyLinkSpeed s) DUPLEX_FULL rtl8125_fc_none in
  let s := sw_set_eee (init_eee m (HwSuppMaxPhyLinkSpeed s) e) (sw_set_link l (sw_set_wol opts (negb (opts =? 0)) s)) in
  set_caps (negb (opts =? 0)) (has_sensor m)
    (set_tp (set_rms (u16 (mtu h + VLAN_ETH_HLEN + ETH_FCS_LEN)) (set_sw s tp)) h).

(** [false]: unknown chip. *)
Definition rtl812xInit (rnd : list Z) (h : hwst) : prog D (bool * hwst) :=
  let tp := linuxData h in
  do r <- rtl812xIdentifyChip (device h) (chipset (tid (ctx tp)));
  let '(id, ok) := r in
  let tp := set_ctx (mkTp id (sw (ctx tp)) (diag (ctx tp))) tp in
  if negb ok then ret (false, set_tp tp h) else
  do tp <- rtl8125_get_bios_setting tp;
  do safe <- rtl8125_aspm_is_safe;
  let tp := if safe : bool then tp else set_aspm (aspm tp .&~ kIOPCILinkControlASPMBitsL1) tp in
  let l1 := has (aspm tp) kIOPCILinkControlASPMBitsL1 in
  setupASPM h (has (aspm tp) kIOPCILinkControlASPMBitsL0s) l1 ;;;
  do s <- rtl8125_init_software_variable (diag (ctx tp)) l1 id (sw (ctx tp));
  do opts <- rtl8125_get_hw_wol (HwSuppMagicPktVer s);
  let h := init_vars h tp s opts in
  rtl8125_exit_oob (linuxData h) ;;;
  do tp <- rtl812xHwInit (linuxData h);
  rtl8125_nic_reset (tp_mcfg tp) ;;;
  do e <- rtl8125_eeprom_type (negb (bool_decide (tp_mcfg tp = CFG_METHOD_DEFAULT)));
  (match e.1 with EEPROM_TYPE_93C46 | EEPROM_TYPE_93C56 => rtl8125_set_eeprom_sel_low | EEPROM_TYPE_NONE => ret tt end) ;;;
  do h <- initMacAddr rnd (set_tp (set_eeprom e tp) h);
  do v <- RTL_R16 CPlusCmd;
  let id := mkId (mcfg id) (chipset id) (HwIcVerUnknown id) (RCR_Cfg (info (chipset id))) in
  let tp := linuxData h in
  let tp := set_ctx (mkTp id (sw (ctx tp)) (diag (ctx tp))) (set_cp_cmd (v .| RxChkSum) tp) in
  let h := set_tp tp (set_irq intr_masks h) in
  RTL_W32 CounterAddrHigh (Z.shiftr (statPhyAddr h) 32) ;;;
  RTL_W32 CounterAddrLow (statPhyAddr h .& 0xffffffff .| CounterReset) ;;;
  rtl8125_disable_rxdvgate ;;;
  ret (true, h).

(** ** rtl812xHwConfig

    The receive mode is set by setMulticastMode, from the multicast flag alone. *)
Definition hw_config_tail (h : hwst) (tp : tpvars) : prog D hwst :=
  let m := tp_mcfg tp in
  let l1 := has (aspm tp) kIOPCILinkControlASPMBitsL1 in
  (if l1 && has (org_pci_offset_99 (tp_sw tp)) (BIT 2 .| BIT 5 .| BIT 6)
   then rtl8125_init_pci_offset_99 (ctx tp) else rtl8125_disable_pci_offset_99 (tp_chan tp)) ;;;
  (if l1 && has (org_pci_offset_180 (tp_sw tp)) (rtl8125_get_l1off_cap_bits m)
   then rtl8125_init_pci_offset_180 else rtl8125_disable_pci_offset_180) ;;;
  (if RequiredPfmPatch (tp_sw tp) then rtl8125_set_pfm_patch (ctx tp) false else ret tt) ;;;
  RTL_W16 CPlusCmd (cp_cmd tp) ;;;
  wait_e00e 10 ;;;
  rtl8125_set_rms m (rms tp) ;;;
  rtl8125_disable_rxdvgate ;;;
  do f <- RxFilter.Kext.setMulticastMode (tid (ctx tp)) (test_bit __M_CAST (stateFlags (filter h))) (filter h);
  rtl8125_set_radm_fifo_prot m true ;;;
  rtl8125_enable_aspm_clkreq_lock m l1 ;;;
  clr8 Cfg9346 Cfg9346_Unlock ;;;
  RTL_W32 IMR0_8125 (intrMask (irq h)) ;;;
  delay_us 10 ;;;
  ret (set_filter f.2 h).

Definition rtl812xHwConfig (h : hwst) : prog D hwst :=
  hw_config_rings h ;;;
  let h := set_rings rings_reset h in
  hw_config_queues (linuxData h) ;;;
  hw_config_mac (linuxData h) ;;;
  let tp := set_cp_cmd (cp_cmd (linuxData h) .&~ cp_cmd_clear) (linuxData h) in
  hw_config_tail (set_tp tp h) tp.

(** ** rtl812xSetPhyMedium: EEE also for the fiber link *)
Definition rtl812xSetPhyMedium (tp : tpvars) (an sp du adv : Z) : prog D tpvars :=
  let max := HwSuppMaxPhyLinkSpeed (tp_sw tp) in
  let known := rtl8125_is_speed_mode_valid sp in
  let sp := medium_speed max sp in
  let du := if known then du else DUPLEX_FULL in
  let adv := if known then adv else adv .| advertising (link (tp_sw tp)) in
  (if eee_enabled (eee (tp_sw tp)) && (an =? AUTONEG_ENABLE) then enable_eee undef tp else rtl8125_disable_eee (ctx tp)) ;;;
  rtl8125_disable_giga_lite (ctx tp) ;;;
  if HW_FIBER_MODE_ENABLED tp then
    let tp := store_link an (if sp =? SPEED_1000 then sp else SPEED_10000) DUPLEX_FULL adv tp in
    rtl8127_hw_fiber_phy_config tp ;;; ret tp
  else
    do g <- rtl8125_mdio_read (tp_chan tp) (cur_page tp) MII_CTRL1000;
    do x <- mdio_direct_read_phy_ocp 0xA5D4;
    let giga_ctrl := s32 g .&~ giga_modes in
    let ctrl_2500 := x .&~ multi_modes in
    if an =? AUTONEG_ENABLE then
      do tp <- advertise tp giga_ctrl ctrl_2500 adv;
      ret (store_link an sp du adv tp)
    else if (sp =? SPEED_10) || (sp =? SPEED_100) then
      do page <- rtl8125_phy_setup_force_mode (cur_page tp) sp du;
      ret (store_link an sp du adv (set_page page tp))
    else ret tp.

Definition set_stored_medium (tp : tpvars) : prog D tpvars :=
  let l := link (tp_sw tp) in rtl812xSetPhyMedium tp (autoneg l) (speed l) (duplex l) (advertising l).

(** ** Link changes *)

Definition rtl812xLinkOnPatch (h : hwst) : prog D hwst :=
  do h <- rtl812xHwConfig h;
  let tp := linuxData h in
  let m := tp_mcfg tp in
  do status <- RTL_R32 PHYstatus;
  (match m with
   | CFG_METHOD_2 =>
       do v <- RTL_R32 TxConfig;
       RTL_W32 TxConfig (if has status FullDup then (v .| (BIT 24 .| BIT 25)) .&~ BIT 19
                         else (v .| BIT 25) .&~ (BIT 19 .| BIT 24))
   | _ => ret tt
   end) ;;;
  (if has_eee_plus_up m && has status _10bps then rtl8125_enable_eee_plus m ;;; ret tt else ret tt) ;;;
  rtl8125_set_radm_fifo_prot m (has status (_1000bpsL .| _2500bpsL .| _10bps .| _100bps .| _1000bpsF)) ;;;
  (if RequiredPfmPatch (tp_sw tp) then rtl8125_set_pfm_patch (ctx tp) (has status _10bps) else ret tt) ;;;
  do aner <- rtl8125_mdio_read (tp_chan tp) (cur_page tp) MII_EXPANSION;
  do anlpar <- rtl8125_mdio_read (tp_chan tp) (cur_page tp) MII_LPA;
  do gbsr <- rtl8125_mdio_read (tp_chan tp) (cur_page tp) MII_STAT1000;
  do st2500 <- mdio_direct_read_phy_ocp 0xA5D6;
  ret (set_tp (set_partner (mkWolSt (u16 aner) (u16 anlpar) (u16 gbsr) (u16 st2500)) tp) h).

(** ** Enabling and disabling, the part that is on the chip *)

Definition enable_chip (h : hwst) : prog D hwst :=
  let h := set_flags (clear_bit __POLL_MODE (stateFlags (filter h))) (set_intrMask (intrMaskRxTx (irq h)) h) in
  rtl8125_exit_oob (linuxData h) ;;;
  do tp <- rtl812xHwInit (linuxData h);
  rtl8125_hw_reset (tp_mcfg tp) ;;;
  do tp <- rtl8125_powerup_pll tp;
  rtl8125_hw_ephy_config (tp_mcfg tp) ;;;
  do tp <- rtl8125_hw_phy_config undef tp;
  do h <- rtl812xHwConfig (set_tp tp h);
  do tp <- set_stored_medium (linuxData h);
  ret (set_tp tp h).

(** ** The temperature sensor: ten bits, in half degrees, above 512 negative *)

Definition sensor_value (ts_digout : Z) : Z :=
  let ts := ts_digout .& 0x3ff in
  if ts <=? 512 then ts / 2 else (512 - (ts - 512)) / 2.

Definition readThermalSensor : prog D Z :=
  do ts_digout <- mdio_direct_read_phy_ocp 0xBD84; ret (sensor_value ts_digout).
End Code.
