(* ===== verification/KextMedia.v ===== *)
(** The tables and parameters of the kernel extension (RTL812xLucySetup.cpp,
    RTL812xLucy.cpp): the medium table, the media a chip publishes, the medium
    reported for a link, the configuration values, the polling parameters and
    the counters. *)
From S2P Require Import Prelude Mmio Channel Chip SwVars Eeprom Hw Mcu Power Fiber PhyConfig RxFilter BringUp KextHw.
Local Open Scope prog_scope.

(** ** The medium table *)

Inductive ethernet := KAuto | K10BaseT | K100BaseTX | K1000BaseT | K2500BaseT | K5000BaseT | K10GBaseT.

(** The flags IFM_FDX (half duplex otherwise), IFM_FLOW and IFM_EEE. *)
Record mtype := mkType { t_base : ethernet; t_fdx : bool; t_flow : bool; t_eee : bool }.

(** struct rtlMediumTable. *)
Record medium_row := mkRow {
  m_type : mtype; m_spd : Z; m_idx : Z; m_speed : Z; m_duplex : Z; m_fc : rtl8125_fc_mode; m_eee : bool; m_adv : Z;
}.

Definition MIDX_AUTO : Z := 0.
Definition MIDX_10HD : Z := 1.
Definition MIDX_10FD : Z := 2.
Definition MIDX_100HD : Z := 3.
Definition MIDX_100FD : Z := 4.
Definition MIDX_100FDFC : Z := 5.
Definition MIDX_100FD_EEE : Z := 6.
Definition MIDX_100FDFC_EEE : Z := 7.
Definition MIDX_1000FD : Z := 8.
Definition MIDX_1000FDFC : Z := 9.
Definition MIDX_1000FD_EEE : Z := 10.
Definition MIDX_1000FDFC_EEE : Z := 11.
Definition MIDX_2500FD : Z := 12.
Definition MIDX_2500FDFC : Z := 13.
Definition MIDX_2500FD_EEE : Z := 14.
Definition MIDX_2500FDFC_EEE : Z := 15.
Definition MIDX_5000FD : Z := 16.
Definition MIDX_5000FDFC : Z := 17.
Definition MIDX_5000FD_EEE : Z := 18.
Definition MIDX_5000FDFC_EEE : Z := 19.
Definition MIDX_10000FD : Z := 20.
Definition MIDX_10000FDFC : Z := 21.
Definition MIDX_10000FD_EEE : Z := 22.
Definition MIDX_10000FDFC_EEE : Z := 23.
Definition MIDX_COUNT : Z := 24.

Definition MBit : Z := 1000000.
Definition ADV_ALL : Z :=
  ADVERTISED_10baseT_Half .| ADVERTISED_10baseT_Full .| ADVERTISED_100baseT_Half .| ADVERTISED_100baseT_Full .|
  ADVERTISED_1000baseT_Full.

(** The four rows of a speed: plain, flow control, EEE, both. *)
Definition full_rows (b : ethernet) (idx speed adv : Z) : list medium_row :=
  [mkRow (mkType b true false false) (speed * MBit) idx speed DUPLEX_FULL rtl8125_fc_none false adv;
   mkRow (mkType b true true false) (speed * MBit) (idx + 1) speed DUPLEX_FULL rtl8125_fc_full false adv;
   mkRow (mkType b true false true) (speed * MBit) (idx + 2) speed DUPLEX_FULL rtl8125_fc_none true adv;
   mkRow (mkType b true true true) (speed * MBit) (idx + 3) speed DUPLEX_FULL rtl8125_fc_full true adv].

(** [auto]: what the row of MIDX_AUTO advertises. *)
Definition mediumArray (auto : Z) : list medium_row :=
  [mkRow (mkType KAuto false false false) 0 MIDX_AUTO 0 DUPLEX_FULL rtl8125_fc_none false auto;
   mkRow (mkType K10BaseT false false false) (10 * MBit) MIDX_10HD SPEED_10 DUPLEX_HALF rtl8125_fc_none false ADVERTISED_10baseT_Half;
   mkRow (mkType K10BaseT true false false) (10 * MBit) MIDX_10FD SPEED_10 DUPLEX_FULL rtl8125_fc_none false ADVERTISED_10baseT_Full;
   mkRow (mkType K100BaseTX false false false) (100 * MBit) MIDX_100HD SPEED_100 DUPLEX_HALF rtl8125_fc_none false ADVERTISED_100baseT_Half] ++
  full_rows K100BaseTX MIDX_100FD SPEED_100 ADVERTISED_100baseT_Full ++
  full_rows K1000BaseT MIDX_1000FD SPEED_1000 ADVERTISED_1000baseT_Full ++
  full_rows K2500BaseT MIDX_2500FD SPEED_2500 ADVERTISED_2500baseX_Full ++
  full_rows K5000BaseT MIDX_5000FD SPEED_5000 RTK_ADVERTISED_5000baseX_Full ++
  full_rows K10GBaseT MIDX_10000FD SPEED_10000 0.

Definition row_at (auto i : Z) : option medium_row := if i <? 0 then None else mediumArray auto !! Z.to_nat i.

(** setupMediumDict: what MIDX_AUTO advertises, and the number of media that are
    published (the first ones of the table). *)
Definition auto_adv (max : Z) : Z :=
  ADV_ALL .|
  (if 10000 <=? max then ADVERTISED_2500baseX_Full .| RTK_ADVERTISED_5000baseX_Full .| ADVERTISED_10000baseT_Full
   else if 5000 <=? max then ADVERTISED_2500baseX_Full .| RTK_ADVERTISED_5000baseX_Full
   else if 2500 <=? max then ADVERTISED_2500baseX_Full else 0).

Definition medium_limit (m : cfg) (max : Z) : Z :=
  if 10000 <=? max then MIDX_COUNT
  else if 5000 <=? max then MIDX_10000FD
  else if 2500 <=? max then if cfg_num m <? cfg_num CFG_METHOD_4 then MIDX_2500FD_EEE else MIDX_5000FD
  else MIDX_2500FD.

(** The loop over the media: [created], a medium object could be made; [added],
    the dictionary took it. Whether the loop came to its end, and [result]. *)
Fixpoint add_media (created added : Z -> bool) (l : list Z) (result : bool) : bool * bool :=
  match l with
  | [] => (true, result)
  | i :: l' =>
      if created i then if added i then add_media created added l' true else (false, false)
      else (false, result)
  end.

(** [published]: the family took the dictionary, which could be allocated. The
    result and the number of entries of [mediumTable]. *)
Definition setupMediumDict (created added : Z -> bool) (published : bool) (m : cfg) (max : Z) : bool * Z :=
  let limit := medium_limit m max in
  let '(all, result) := add_media created added (seqZ 0 limit) false in
  if all then if published then (true, limit) else (false, 0) else (result, 0).

Definition rtl812xMedium2Adv (r : medium_row) (tp : tpvars) : tpvars :=
  let s := tp_sw tp in
  let e := eee s in
  set_sw (sw_set_eee (mkEee (m_eee r) (supported e) (advertised e) (tx_lpi_enabled e) (tx_lpi_timer e))
            (sw_set_link (mkLink (autoneg (link s)) (m_speed r) (m_duplex r) (m_adv r) (m_fc r)) s)) tp.

(** ** The link *)

(** rtl812xCheckLinkStatus: speed, duplex and flow control of a PHYstatus word. *)
Definition TxFlowCtrl : Z := 0x40.
Definition RxFlowCtrl : Z := 0x20.
Definition full_if (b : bool) : Z := if b then DUPLEX_FULL else DUPLEX_HALF.

Definition status_fc (status : Z) : rtl8125_fc_mode :=
  if has status (TxFlowCtrl .| RxFlowCtrl) then rtl8125_fc_full else rtl8125_fc_none.
Definition status_speed (status : Z) : Z * Z :=
  if has status _10000bpsF then (SPEED_10000, DUPLEX_FULL)
  else if has status (_5000bpsF .| _10000bpsL) then (SPEED_5000, DUPLEX_FULL)
  else if has status (_2500bpsF .| _5000bpsL) then (SPEED_2500, DUPLEX_FULL)
  else if has status (_1000bpsF .| _2500bpsL .| _1000bpsL) then (SPEED_1000, DUPLEX_FULL)
  else if has status _100bps then (SPEED_100, full_if (has status FullDup))
  else (SPEED_10, full_if (has status FullDup)).

(** setLinkUp: the medium index and the speed it reports. *)
Definition fc_eee_index (i : Z) (fc_full eee : bool) : Z := i + (if eee then 2 else 0) + (if fc_full then 1 else 0).

Definition link_medium (l : linkopt) (eee : bool) : Z :=
  let fc := is_fc_full l in
  let spd := speed l in
  if spd =? SPEED_10000 then fc_eee_index MIDX_10000FD fc eee
  else if spd =? SPEED_5000 then fc_eee_index MIDX_5000FD fc eee
  else if spd =? SPEED_2500 then fc_eee_index MIDX_2500FD fc eee
  else if spd =? SPEED_1000 then fc_eee_index MIDX_1000FD fc eee
  else if spd =? SPEED_100 then
    if duplex l =? DUPLEX_FULL then fc_eee_index MIDX_100FD fc eee else MIDX_100HD
  else if duplex l =? DUPLEX_FULL then MIDX_10FD else MIDX_10HD.

Definition medium_bits (l : linkopt) : Z :=
  let spd := speed l in
  if spd =? SPEED_10000 then 10000 * MBit else if spd =? SPEED_5000 then 5000 * MBit
  else if spd =? SPEED_2500 then 2500 * MBit else if spd =? SPEED_1000 then 1000 * MBit
  else if spd =? SPEED_100 then 100 * MBit else 10 * MBit.

(** ** Configuration values *)

(** The "Driver Parameters" dictionary; an entry may be missing. *)
Record paramdict := mkParams {
  d_tso4 : option bool; d_tso6 : option bool; d_l0s : option bool; d_l1 : option bool;
  d_poll10G : option Z; d_poll5G : option Z; d_poll2G : option Z;
}.

(** Microseconds between [lo] and [hi], as nanoseconds. *)
Definition clamp_poll (lo hi default : Z) (v : option Z) : Z :=
  match v with
  | Some interval => if hi <? u32 interval then hi * 1000 else if u32 interval <? lo then lo * 1000 else u32 interval * 1000
  | None => default
  end.

Record kparams := mkKp { enableTSO4 : bool; enableTSO6 : bool; pollTime10G : Z; pollTime5G : Z; pollTime2G : Z }.

(** The values and the ASPM bits; [None]: no dictionary. *)
Definition getParams (d : option paramdict) : kparams * Z :=
  match d with
  | Some p =>
      (mkKp (default false (d_tso4 p)) (default false (d_tso6 p))
         (clamp_poll 25 120 100000 (d_poll10G p)) (clamp_poll 100 200 120000 (d_poll5G p)) (clamp_poll 100 200 120000 (d_poll2G p)),
       (if default false (d_l0s p) then kIOPCILinkControlASPMBitsL0s else 0) .|
       (if default false (d_l1 p) then kIOPCILinkControlASPMBitsL1 else 0))
  | None => (mkKp false false 100000 120000 160000, 0)
  end.

(** IONetworkPacketPollingParameters. *)
Record pollparms := mkPoll {
  lowThresholdPackets : Z; highThresholdPackets : Z; lowThresholdBytes : Z; highThresholdBytes : Z; pollIntervalTime : Z;
}.

Definition poll_parameters (spd mtu : Z) (p : kparams) : pollparms :=
  if spd =? SPEED_10 then mkPoll 2 8 0x400 0x1800 1000000
  else
    mkPoll 10 40 0x1000 0x10000
      (if spd =? SPEED_10000 then pollTime5G p / 2
       else if spd =? SPEED_5000 then if mtu <? 4076 then pollTime5G p else pollTime5G p + 10000
       else if spd =? SPEED_2500 then pollTime2G p
       else if spd =? SPEED_1000 then 170000 else 1000000).

(** ** Counters *)

(** The fields of RtlStatData, the dump the chip writes. *)
Inductive statf :=
| txPackets | rxPackets | txErrors | rxErrors | rxMissed | alignErrors | txOneCollision | txMultiCollision
| rxUnicast | rxBroadcast | rxMulticast | txAborted | txUnderun | txOctets | rxOctets | rxMulticast64
| txUnicast64 | txBroadcast64 | txMulticast64 | txPauseOn | txPauseOff | txPauseAll | txDeferred | txLateCollision
| txAllCollision | txAborted32 | alignErrors32 | rxFrame2Long | rxRunt | rxPauseOn | rxPauseOff | rxPauseAll
| rxUnknownOpcode | rxMacError | txUnderrun32 | rxMacMissed | rxTcamDropped | tdu | rdu.

(** The layout: every field with its size in bytes, in order. *)
Definition stat_fields : list (statf * nat) :=
  [(txPackets, 8%nat); (rxPackets, 8%nat); (txErrors, 8%nat); (rxErrors, 4%nat); (rxMissed, 2%nat); (alignErrors, 2%nat);
   (txOneCollision, 4%nat); (txMultiCollision, 4%nat); (rxUnicast, 8%nat); (rxBroadcast, 8%nat); (rxMulticast, 4%nat);
   (txAborted, 2%nat); (txUnderun, 2%nat); (txOctets, 8%nat); (rxOctets, 8%nat); (rxMulticast64, 8%nat);
   (txUnicast64, 8%nat); (txBroadcast64, 8%nat); (txMulticast64, 8%nat); (txPauseOn, 4%nat); (txPauseOff, 4%nat);
   (txPauseAll, 4%nat); (txDeferred, 4%nat); (txLateCollision, 4%nat); (txAllCollision, 4%nat); (txAborted32, 4%nat);
   (alignErrors32, 4%nat); (rxFrame2Long, 4%nat); (rxRunt, 4%nat); (rxPauseOn, 4%nat); (rxPauseOff, 4%nat);
   (rxPauseAll, 4%nat); (rxUnknownOpcode, 4%nat); (rxMacError, 4%nat); (txUnderrun32, 4%nat); (rxMacMissed, 4%nat);
   (rxTcamDropped, 4%nat); (tdu, 4%nat); (rdu, 4%nat)].

#[export] Instance statf_eq_dec : EqDecision statf.
Proof. solve_decision. Defined.

(** Offset and size of a field. *)
Fixpoint field_at (f : statf) (l : list (statf * nat)) (off : nat) : option (nat * nat) :=
  match l with
  | [] => None
  | (g, n) :: l' => if decide (f = g) then Some (off, n) else field_at f l' (off + n)%nat
  end.

(** A field of the structure in memory: its bytes, least significant first. *)
Fixpoint le_value (bs : list Z) : Z := match bs with [] => 0 | b :: bs' => b + 256 * le_value bs' end.
Definition stat_field (bytes : list Z) (f : statf) : Z :=
  match field_at f stat_fields 0 with
  | Some (off, n) => le_value (take n (drop off bytes))
  | None => 0
  end.

Definition stat_size (f : statf) : nat := match field_at f stat_fields 0 with Some (_, n) => n | None => 0%nat end.

(** On a little-endian host the value stays as it is, in the width of the call. *)
Definition OSSwapLittleToHostInt16 (x : Z) : Z := u16 x.
Definition OSSwapLittleToHostInt32 (x : Z) : Z := u32 x.
Definition OSSwapLittleToHostInt64 (x : Z) : Z := u64 x.

(** [hwStats->f = v]: the field takes what fits. *)
Definition set_stat (f : statf) (v : Z) (hwStats : statf -> Z) : statf -> Z :=
  fun g => if decide (g = f) then v mod 256 ^ Z.of_nat (stat_size f) else hwStats g.

(** [statData], [hwStats]: [None] for a null pointer; the result is what the
    structure behind [hwStats] holds afterwards. *)
Definition getHwStatistics (statData : option (list Z)) (hwStats : option (statf -> Z)) : option (statf -> Z) :=
  match statData, hwStats with
  | Some bytes, Some hwStats =>
      let statData := stat_field bytes in
      let hwStats := set_stat txPackets (OSSwapLittleToHostInt64 (statData txPackets)) hwStats in
      let hwStats := set_stat rxPackets (OSSwapLittleToHostInt64 (statData rxPackets)) hwStats in
      let hwStats := set_stat txErrors (OSSwapLittleToHostInt64 (statData txErrors)) hwStats in
      let hwStats := set_stat rxErrors (OSSwapLittleToHostInt32 (statData rxErrors)) hwStats in
      let hwStats := set_stat rxMissed (OSSwapLittleToHostInt16 (statData rxMissed)) hwStats in
      let hwStats := set_stat alignErrors (OSSwapLittleToHostInt16 (statData alignErrors)) hwStats in
      let hwStats := set_stat txOneCollision (OSSwapLittleToHostInt32 (statData txOneCollision)) hwStats in
      let hwStats := set_stat txMultiCollision (OSSwapLittleToHostInt32 (statData txMultiCollision)) hwStats in
      let hwStats := set_stat rxUnicast (OSSwapLittleToHostInt64 (statData rxUnicast)) hwStats in
      let hwStats := set_stat rxBroadcast (OSSwapLittleToHostInt64 (statData rxBroadcast)) hwStats in
      let hwStats := set_stat rxMulticast (OSSwapLittleToHostInt32 (statData rxMulticast)) hwStats in
      let hwStats := set_stat txAborted (OSSwapLittleToHostInt16 (statData txAborted)) hwStats in
      let hwStats := set_stat txUnderun (OSSwapLittleToHostInt16 (statData txUnderun)) hwStats in
      let hwStats := set_stat txOctets (OSSwapLittleToHostInt64 (statData txOctets)) hwStats in
      let hwStats := set_stat rxOctets (OSSwapLittleToHostInt64 (statData rxOctets)) hwStats in
      let hwStats := set_stat rxMulticast64 (OSSwapLittleToHostInt64 (statData rxMulticast64)) hwStats in
      let hwStats := set_stat txUnicast64 (OSSwapLittleToHostInt64 (statData txUnicast64)) hwStats in
      let hwStats := set_stat txBroadcast64 (OSSwapLittleToHostInt64 (statData txBroadcast64)) hwStats in
      let hwStats := set_stat txMulticast64 (OSSwapLittleToHostInt64 (statData txMulticast64)) hwStats in
      let hwStats := set_stat txPauseOn (OSSwapLittleToHostInt32 (statData txPauseOn)) hwStats in
      let hwStats := set_stat txPauseOff (OSSwapLittleToHostInt32 (statData txPauseOff)) hwStats in
      let hwStats := set_stat txPauseAll (OSSwapLittleToHostInt32 (statData txPauseAll)) hwStats in
      let hwStats := set_stat txDeferred (OSSwapLittleToHostInt32 (statData txDeferred)) hwStats in
      let hwStats := set_stat txLateCollision (OSSwapLittleToHostInt32 (statData txLateCollision)) hwStats in
      let hwStats := set_stat txAllCollision (OSSwapLittleToHostInt32 (statData txAllCollision)) hwStats in
      let hwStats := set_stat txAborted32 (OSSwapLittleToHostInt32 (statData txAborted32)) hwStats in
      let hwStats := set_stat alignErrors32 (OSSwapLittleToHostInt32 (statData alignErrors32)) hwStats in
      let hwStats := set_stat rxFrame2Long (OSSwapLittleToHostInt32 (statData rxFrame2Long)) hwStats in
      let hwStats := set_stat rxRunt (OSSwapLittleToHostInt32 (statData rxRunt)) hwStats in
      let hwStats := set_stat rxPauseOn (OSSwapLittleToHostInt32 (statData rxPauseOn)) hwStats in
      let hwStats := set_stat rxPauseOff (OSSwapLittleToHostInt32 (statData rxPauseOff)) hwStats in
      let hwStats := set_stat rxPauseAll (OSSwapLittleToHostInt32 (statData rxPauseAll)) hwStats in
      let hwStats := set_stat rxUnknownOpcode (OSSwapLittleToHostInt32 (statData rxUnknownOpcode)) hwStats in
      let hwStats := set_stat rxMacError (OSSwapLittleToHostInt32 (statData rxMacError)) hwStats in
      let hwStats := set_stat txUnderrun32 (OSSwapLittleToHostInt32 (statData txUnderrun32)) hwStats in
      let hwStats := set_stat rxMacMissed (OSSwapLittleToHostInt32 (statData rxMacMissed)) hwStats in
      let hwStats := set_stat rxTcamDropped (OSSwapLittleToHostInt32 (statData rxTcamDropped)) hwStats in
      let hwStats := set_stat tdu (OSSwapLittleToHostInt32 (statData tdu)) hwStats in
      let hwStats := set_stat rdu (OSSwapLittleToHostInt32 (statData rdu)) hwStats in
      Some hwStats
  | _, _ => hwStats
  end.

(** The counters of IONetworkStats and IOEthernetStats the driver keeps. *)
Record netstats := mkNs {
  inputPackets : Z; inputErrors : Z; outputPackets : Z; outputErrors : Z; collisions : Z;
  singleCollisionFrames : Z; multipleCollisionFrames : Z; st_alignmentErrors : Z; missedFrames : Z;
  underruns : Z; frameTooShorts : Z; overruns : Z; st_resourceErrors : Z;
}.

(** [ready]: the dump bit of CounterAddrLow is clear. *)
Definition update_stats (ready : bool) (bytes : list Z) (ns : netstats) : netstats :=
  if ready then
    let v := stat_field bytes in
    mkNs (v rxPackets .& 0xffffffff) (v rxErrors) (v txPackets .& 0xffffffff) (u32 (v txErrors))
      (u32 (v txOneCollision + v txMultiCollision)) (v txOneCollision) (v txMultiCollision) (v alignErrors) (v rxMissed)
      (v txUnderun) (v rxRunt) (v rxMacMissed) (v rxMacError)
  else ns.

Section Code.
Context {D : Type} `{M : !Mmio D}.

Definition rtl812xDumpTallyCounter (statPhyAddr : Z) : prog D unit :=
  RTL_W32 CounterAddrHigh (Z.shiftr statPhyAddr 32) ;;;
  let cmd := statPhyAddr .& 0xffffffff in
  RTL_W32 CounterAddrLow cmd ;;;
  RTL_W32 CounterAddrLow (cmd .| CounterDump).

Definition statUpdateThread (bytes : list Z) (ns : netstats) : prog D netstats :=
  do v <- RTL_R32 CounterAddrLow; ret (update_stats (negb (has v CounterDump)) bytes ns).

(** ** The user client *)

Definition kInvalidTemp : Z := 0xffff.
Definition kUCMethodGetTemp : Z := 0.
Definition kUCMethodGetStats : Z := 1.

Definition getTemperature (hasSensor : bool) : prog D Z := if hasSensor then readThermalSensor else ret kInvalidTemp.

(** The scalar written back and whether the method is supported. *)
Definition getTemp (hasSensor : bool) : prog D (Z * bool) :=
  do temp <- getTemperature hasSensor; ret (temp, negb (temp =? kInvalidTemp)).

Inductive ucresult := UcUnsupported | UcTemp (temp : Z) | UcStats (s : statf -> Z).

(** externalMethod: two selectors. [output]: what the structure for the answer holds
    before the call. *)
Definition externalMethod (selector : Z) (hasSensor : bool) (statData : option (list Z)) (output : statf -> Z) : prog D ucresult :=
  if selector =? kUCMethodGetTemp then
    do r <- getTemp hasSensor; ret (if r.2 : bool then UcTemp r.1 else UcUnsupported)
  else if selector =? kUCMethodGetStats then ret (UcStats (default output (getHwStatistics statData (Some output))))
  else ret UcUnsupported.
End Code.
