(* ===== verification/KextMediaSpec.v ===== *)
(** The tables and counters of the kernel extension: the medium reported for a
    link, what a selected medium advertises, the statistics dump, the
    temperature sensor and the power management word. *)
From S2P Require Import Prelude Mmio Channel Chip SwVars Eeprom Hw Mcu Power Fiber PhyConfig RxFilter BringUp KextHw KextMedia.

(** ** The medium of a link *)

(** The link options rtl812xCheckLinkStatus stores for a status word. *)
Definition link_of (status an adv : Z) : linkopt :=
  mkLink an (status_speed status).1 (status_speed status).2 adv (status_fc status).

(** A link that can have flow control and EEE in the table. *)
Definition full_link (l : linkopt) : bool := (SPEED_100 <=? speed l) && (duplex l =? DUPLEX_FULL).

Definition row_matches (l : linkopt) (e : bool) (r : medium_row) : Prop :=
  m_speed r = speed l /\ m_duplex r = duplex l /\ m_spd r = medium_bits l /\
  (if full_link l then m_fc r = fcpause l /\ m_eee r = e else m_fc r = rtl8125_fc_none /\ m_eee r = false).

Lemma status_speeds status : In (status_speed status)
  [(SPEED_10000, DUPLEX_FULL); (SPEED_5000, DUPLEX_FULL); (SPEED_2500, DUPLEX_FULL); (SPEED_1000, DUPLEX_FULL);
   (SPEED_100, DUPLEX_FULL); (SPEED_100, DUPLEX_HALF); (SPEED_10, DUPLEX_FULL); (SPEED_10, DUPLEX_HALF)].
Proof. unfold status_speed, full_if. repeat case_match; cbn; tauto. Qed.

Lemma status_fcs status : status_fc status = rtl8125_fc_full \/ status_fc status = rtl8125_fc_none.
Proof. unfold status_fc. case_match; tauto. Qed.

(** The medium is one of the table's, at its own index. *)
Lemma link_row auto an adv fc e sd : In sd
  [(SPEED_10000, DUPLEX_FULL); (SPEED_5000, DUPLEX_FULL); (SPEED_2500, DUPLEX_FULL); (SPEED_1000, DUPLEX_FULL);
   (SPEED_100, DUPLEX_FULL); (SPEED_100, DUPLEX_HALF); (SPEED_10, DUPLEX_FULL); (SPEED_10, DUPLEX_HALF)] ->
  fc = rtl8125_fc_full \/ fc = rtl8125_fc_none ->
  let l := mkLink an sd.1 sd.2 adv fc in
  exists r, row_at auto (link_medium l e) = Some r /\ row_matches l e r /\ m_idx r = link_medium l e.
Proof.
  intros Hs Hf. cbn in Hs. destruct Hf as [->| ->], e; repeat (destruct Hs as [<-|Hs]); try done; by eexists.
Qed.

(** Its place among the published ones. *)
Lemma link_published an adv fc e m max sd : In sd
  [(SPEED_10000, DUPLEX_FULL); (SPEED_5000, DUPLEX_FULL); (SPEED_2500, DUPLEX_FULL); (SPEED_1000, DUPLEX_FULL);
   (SPEED_100, DUPLEX_FULL); (SPEED_100, DUPLEX_HALF); (SPEED_10, DUPLEX_FULL); (SPEED_10, DUPLEX_HALF)] ->
  fc = rtl8125_fc_full \/ fc = rtl8125_fc_none -> sd.1 <= max ->
  link_medium (mkLink an sd.1 sd.2 adv fc) e < medium_limit m max <->
  ~ (cfg_num m < cfg_num CFG_METHOD_4 /\ max < 5000 /\ sd.1 = SPEED_2500 /\ e = true).
Proof.
  intros Hs Hf Hmax. cbn in Hs. unfold medium_limit.
  destruct Hf as [->| ->], e; repeat (destruct Hs as [<-|Hs]); try done; cbn [fst] in Hmax;
    destruct (10000 <=? max) eqn:E1, (5000 <=? max) eqn:E2, (2500 <=? max) eqn:E3, (cfg_num m <? cfg_num CFG_METHOD_4) eqn:E4; bool_props;
    cbn [fst snd]; vm_compute link_medium; unfold SPEED_10000, SPEED_5000, SPEED_2500, SPEED_1000, MIDX_COUNT, MIDX_10000FD, MIDX_2500FD_EEE,
      MIDX_5000FD, MIDX_2500FD in *; split; intros; try lia; intros (?&?&?&?); try done; lia.
Qed.

(** C28: For every status word of the PHY, setLinkUp reports the medium of the table
    with the speed and duplex of the link, and with its flow control and EEE when it is
    full duplex at 100 Mbit/s or more. The medium is one of those published for a
    chip of that speed, except on the chips before CFG_METHOD_4 at 2.5 Gbit/s
    with EEE active: there the family gets no medium. *)
Theorem kext_link_medium auto status an adv e m max : let l := link_of status an adv in
  (exists r, row_at auto (link_medium l e) = Some r /\ row_matches l e r /\ m_idx r = link_medium l e) /\
  (speed l <= max -> (link_medium l e < medium_limit m max <->
     ~ (cfg_num m < cfg_num CFG_METHOD_4 /\ max < 5000 /\ speed l = SPEED_2500 /\ e = true))).
Proof.
  cbv zeta. pose proof (status_speeds status) as Hs. pose proof (status_fcs status) as Hf. unfold link_of.
  split; [by apply link_row|]. intros Hmax. by apply link_published.
Qed.

(** 1000 Mbit/s with flow control, on a chip for 2.5 Gbit/s. *)
Lemma kext_link_medium_witness : link_medium (link_of (_1000bpsF .| TxFlowCtrl) AUTONEG_ENABLE 0) true < medium_limit CFG_METHOD_9 2500.
Proof.
  apply (proj2 (kext_link_medium 0 (_1000bpsF .| TxFlowCtrl) AUTONEG_ENABLE 0 true CFG_METHOD_9 2500)); [vm_compute; discriminate|].
  intros (_&_&H&_). vm_compute in H. discriminate.
Defined.

(** ** What a selected medium advertises *)

(** The bits of MII_ADVERTISE, MII_CTRL1000 and the 2.5G register for one mode. *)
Definition mode_bits (spd dup : Z) : Z * Z * Z :=
  if spd =? SPEED_10 then (if dup =? DUPLEX_FULL then ADVERTISE_10FULL else ADVERTISE_10HALF, 0, 0)
  else if spd =? SPEED_100 then (if dup =? DUPLEX_FULL then ADVERTISE_100FULL else ADVERTISE_100HALF, 0, 0)
  else if spd =? SPEED_1000 then (0, ADVERTISE_1000FULL, 0)
  else if spd =? SPEED_2500 then (0, 0, RTK_ADVERTISE_2500FULL)
  else if spd =? SPEED_5000 then (0, 0, RTK_ADVERTISE_5000FULL)
  else (0, 0, RTK_ADVERTISE_10000FULL).

(** What rtl812xSetPhyMedium puts there for the medium, without the pause bits. *)
Definition advertised_bits (max : Z) (r : medium_row) : Z * Z * Z :=
  (adv_10_100 (m_adv r) false, adv_1000 (m_adv r), adv_multi max (m_adv r)).

(** Selecting a medium of the table advertises its mode and no other, except for
    the four media of 10 Gbit/s: with them a copper port advertises nothing. *)
Theorem kext_medium_advertises auto i r max : 0 < i -> row_at auto i = Some r -> m_speed r <= max ->
  advertised_bits max r = if m_speed r =? SPEED_10000 then (0, 0, 0) else mode_bits (m_speed r) (m_duplex r).
Proof.
  intros Hi Hr Hmax. unfold row_at in Hr. rewrite (proj2 (Z.ltb_ge _ _)) in Hr by lia.
  assert (Hin : r ∈ tail (mediumArray auto)).
  { destruct (Z.to_nat i) as [|k] eqn:E; [lia|]. cbn [mediumArray app] in *. by apply list_elem_of_lookup_2 with k. }
  unfold advertised_bits. apply list_elem_of_In in Hin. cbn in Hin.
  repeat (destruct Hin as [<-|Hin]; [cbn in Hmax; unfold adv_multi; destruct (5000 <=? max) eqn:E5, (10000 <=? max);
    first [vm_compute; reflexivity|bool_props; unfold SPEED_5000 in *; lia]|]).
  done.
Qed.

(** ** The statistics dump *)

(** Where the chip puts each counter in its dump, and in how many bytes. *)
Definition chip_place (f : statf) : nat * nat :=
  (match f with
  | txPackets => (0, 8) | rxPackets => (8, 8) | txErrors => (16, 8) | rxErrors => (24, 4)
  | rxMissed => (28, 2) | alignErrors => (30, 2) | txOneCollision => (32, 4) | txMultiCollision => (36, 4)
  | rxUnicast => (40, 8) | rxBroadcast => (48, 8) | rxMulticast => (56, 4) | txAborted => (60, 2)
  | txUnderun => (62, 2) | txOctets => (64, 8) | rxOctets => (72, 8) | rxMulticast64 => (80, 8)
  | txUnicast64 => (88, 8) | txBroadcast64 => (96, 8) | txMulticast64 => (104, 8) | txPauseOn => (112, 4)
  | txPauseOff => (116, 4) | txPauseAll => (120, 4) | txDeferred => (124, 4) | txLateCollision => (128, 4)
  | txAllCollision => (132, 4) | txAborted32 => (136, 4) | alignErrors32 => (140, 4)
  | rxFrame2Long => (144, 4) | rxRunt => (148, 4) | rxPauseOn => (152, 4) | rxPauseOff => (156, 4)
  | rxPauseAll => (160, 4) | rxUnknownOpcode => (164, 4) | rxMacError => (168, 4)
  | txUnderrun32 => (172, 4) | rxMacMissed => (176, 4) | rxTcamDropped => (180, 4) | tdu => (184, 4)
  | rdu => (188, 4)
  end)%nat.

(** The buffer holds the dump of the counters [v], each least significant byte
    first at its place. *)
Definition chip_dump (v : statf -> Z) (bytes : list Z) : Prop :=
  forall f, take (chip_place f).2 (drop (chip_place f).1 bytes) = le_bytes (chip_place f).2 (v f).

(** The counter as far as its field holds it. *)
Definition counted (v : statf -> Z) (f : statf) : Z := v f mod 256 ^ Z.of_nat (chip_place f).2.

Lemma le_bytes_S n v : le_bytes (S n) v = u8 v :: le_bytes n (v / 256).
Proof.
  unfold le_bytes. cbn [seq fmap list_fmap]. f_equal.
  rewrite <- seq_shift, <- list_fmap_compose. apply list_fmap_ext. intros i k _. cbn [compose]. f_equal.
  rewrite !Z.shiftr_div_pow2 by lia. replace (8 * Z.of_nat (S k)) with (8 + 8 * Z.of_nat k) by lia.
  rewrite Z.pow_add_r by lia. by rewrite <- Z.div_div by lia.
Qed.

Lemma le_bytes_length n v : length (le_bytes n v) = n.
Proof. unfold le_bytes. by rewrite length_fmap, length_seq. Qed.

Lemma le_value_bytes n : forall v, le_value (le_bytes n v) = v mod 256 ^ Z.of_nat n.
Proof.
  induction n as [|n IH]; intros v; [cbn; by rewrite Z.mod_1_r|]. rewrite le_bytes_S. cbn [le_value]. rewrite IH.
  rewrite Nat2Z.inj_succ, Z.pow_succ_r by lia. rewrite Z.rem_mul_r by lia. unfold u8. done.
Qed.

(** The structure puts the fields where the chip does. *)
Lemma struct_place f : field_at f stat_fields 0 = Some (chip_place f).
Proof. by destruct f. Qed.
Lemma struct_size f : stat_size f = (chip_place f).2.
Proof. unfold stat_size. rewrite struct_place. by destruct (chip_place f). Qed.

Lemma stat_field_dump v bytes f : chip_dump v bytes -> stat_field bytes f = counted v f.
Proof.
  intros H. unfold stat_field, counted. rewrite struct_place. specialize (H f). destruct (chip_place f) as [off n].
  cbn [fst snd] in *. rewrite H. apply le_value_bytes.
Qed.

Lemma counted_idem v f : counted v f mod 256 ^ Z.of_nat (chip_place f).2 = counted v f.
Proof. apply Z.mod_mod, Z.pow_nonzero; lia. Qed.

(** What getHwStatistics leaves in a field: the counter of that name. *)
Lemma hw_statistics_field v bytes out : chip_dump v bytes ->
  exists get, getHwStatistics (Some bytes) (Some out) = Some get /\ forall f, get f = counted v f.
Proof.
  intros H. eexists. split; [reflexivity|]. pose proof (fun f => stat_field_dump v bytes f H) as E.
  intros f. destruct f; cbv -[stat_field counted Z.modulo u16 u32 u64]; rewrite E; unfold counted; cbn [chip_place snd];
    change (256 ^ Z.of_nat 8) with 18446744073709551616; change (256 ^ Z.of_nat 4) with 4294967296;
    change (256 ^ Z.of_nat 2) with 65536; unfold u16, u32, u64; rewrite !Z.mod_mod by done; reflexivity.
Qed.

(** GetHwStatistics reads back every counter of the chip's dump in the width of its
    field, whatever the structure held before. *)
Theorem stat_dump_roundtrip v bytes out f : chip_dump v bytes ->
  exists get, getHwStatistics (Some bytes) (Some out) = Some get /\ get f = v f mod 256 ^ Z.of_nat (chip_place f).2.
Proof. intros H. destruct (hw_statistics_field v bytes out H) as (get&E&G). exists get. split; [done|apply G]. Qed.

(** ** The temperature sensor *)

(** The sensor counts half degrees in ten bits, in two's complement; the value
    given to user space has lost its sign. *)
Theorem sensor_sign_lost t : -512 < t <= 512 -> sensor_value (t mod 1024) = Z.abs t / 2.
Proof.
  intros Ht. unfold sensor_value. change 0x3ff with (Z.ones 10). rewrite !Z.land_ones by lia. change (2 ^ 10) with 1024.
  cbv zeta. rewrite Z.mod_mod by lia. destruct (t mod 1024 <=? 512) eqn:E; bool_props; f_equal; lia.
Qed.

(** ** The medium dictionary *)

(** When a medium object after the first cannot be made, setupMediumDict has
    cleared the table and still returns the result of the one before. *)
Theorem medium_dict_hides_failure added published m max : added 0 = true ->
  setupMediumDict (fun i => i <? 1) added published m max = (true, 0).
Proof.
  intros H0. unfold setupMediumDict. cbv zeta. assert (Hl : 2 <= medium_limit m max) by (unfold medium_limit; repeat case_match; done).
  rewrite (seqZ_cons 0) by lia. rewrite (seqZ_cons (Z.succ 0)) by lia. cbn [add_media]. by rewrite H0.
Qed.
