(* ===== verification/KextCtl.v ===== *)
(** The kernel extension around its rings and its hardware layer
    (RTL812xLucy.cpp, interruptOccurredVTD of RTL812xLucyVTD.cpp, and rtl812xEnable,
    rtl812xDisable, rtl812xRestart of RTL812xLucyHardware.cpp): start, enabling and
    disabling, the link state machine, the interrupt handlers, input polling, the
    watchdog, the packet size, power and address requests. *)
From S2P Require Import Prelude Mmio Channel Chip SwVars Eeprom Hw Mcu Power Fiber PhyConfig RxFilter BringUp.
From S2P Require Import TxOffload KextPool KextTx KextRx KextHw KextMedia.
Local Open Scope prog_scope.

Definition __ENABLED : Z := 0.
Definition __POLLING : Z := 5.
Definition kMaxMtu : Z := 9000.
Definition kMaxPacketSize : Z := kMaxMtu + ETH_HLEN + 4 + ETH_FCS_LEN.
Definition kTxDeadlockTreshhold : Z := 6.
Definition kTxCheckTreshhold : Z := kTxDeadlockTreshhold - 1.
Definition kPowerStateOff : Z := 0.
Definition kPowerStateOn : Z := 1.
Definition kIOMessageSystemWillPowerOff : Z := 0xe0000250.
Definition kIOMessageSystemWillRestart : Z := 0xe0000310.
Definition IFNET_TSO_IPV4 : Z := 0x00200000.
Definition IFNET_TSO_IPV6 : Z := 0x00400000.

(** ** State *)

(** Calls into the network family: link status with medium and speed, polling
    parameters, offload flags, the current medium, delivery of the queued
    packets, the delayed statistics call. *)
Inductive fcall :=
| SetLinkStatus (active : bool) (medium : option Z) (spd : Z)
| SetPolling (p : pollparms)
| SetOffload (flags : Z)
| SetCurrentMedium (i : Z)
| FlushInput
| StatCall.

(** The output thread, the watchdog timer, the interrupt source, the PCI device. *)
Record fwst := mkFw { outThread : bool; timerOn : bool; irqOn : bool; pciOpen : bool; ifOffload : Z; f_calls : list fcall }.

Record watch := mkWatch {
  deadlockWarn : Z; txDescDoneLast : Z; w_timeouts : Z; w_resets : Z; w_rxInterrupts : Z; w_txInterrupts : Z;
}.

(** Set at start: parameters, number of published media, what MIDX_AUTO
    advertises, the offset of the power management control word. *)
Record setup := mkSetup { s_params : kparams; s_published : Z; s_auto : Z; s_pmCtrl : Z }.

(** class RTL8125. The ring positions are those of [tx] and [rx]; [mtu] is in
    [nic] and in [tx]. [poller]: pollInputPackets is at work, for so many packets. *)
Record kdrv {P : Type} := mkKdrv {
  nic : hwst; tx : ktx; rx : krx P; eee_active : bool; wd : watch; fw : fwst; conf : setup; powerState : Z; poller : option Z;
}.
Arguments kdrv : clear implicits.

Section State.
Context {P : Type}.
Implicit Types s : kdrv P.

Definition put_nic (h : hwst) s : kdrv P := mkKdrv P h (tx s) (rx s) (eee_active s) (wd s) (fw s) (conf s) (powerState s) (poller s).
Definition put_tx (t : ktx) s : kdrv P := mkKdrv P (nic s) t (rx s) (eee_active s) (wd s) (fw s) (conf s) (powerState s) (poller s).
Definition put_rx (r : krx P) s : kdrv P := mkKdrv P (nic s) (tx s) r (eee_active s) (wd s) (fw s) (conf s) (powerState s) (poller s).
Definition put_eee (b : bool) s : kdrv P := mkKdrv P (nic s) (tx s) (rx s) b (wd s) (fw s) (conf s) (powerState s) (poller s).
Definition put_wd (w : watch) s : kdrv P := mkKdrv P (nic s) (tx s) (rx s) (eee_active s) w (fw s) (conf s) (powerState s) (poller s).
Definition put_fw (f : fwst) s : kdrv P := mkKdrv P (nic s) (tx s) (rx s) (eee_active s) (wd s) f (conf s) (powerState s) (poller s).
Definition put_power (p : Z) s : kdrv P := mkKdrv P (nic s) (tx s) (rx s) (eee_active s) (wd s) (fw s) (conf s) p (poller s).
Definition put_poller (o : option Z) s : kdrv P := mkKdrv P (nic s) (tx s) (rx s) (eee_active s) (wd s) (fw s) (conf s) (powerState s) o.

Definition put_tp (t : tpvars) s : kdrv P := put_nic (set_tp t (nic s)) s.
Definition put_filter (f : rxf) s : kdrv P := put_nic (set_filter f (nic s)) s.
Definition put_mask (m : Z) s : kdrv P := put_nic (set_intrMask m (nic s)) s.
Definition flags_of s : Z := stateFlags (BringUp.filter (nic s)).
Definition flag (b : Z) s : bool := test_bit b (flags_of s).
Definition put_flags (x : Z) s : kdrv P := put_nic (set_flags x (nic s)) s.
Definition raise (b : Z) s : kdrv P := put_flags (set_bit b (flags_of s)) s.
Definition lower (b : Z) s : kdrv P := put_flags (clear_bit b (flags_of s)) s.

Definition call (c : fcall) s : kdrv P :=
  let f := fw s in put_fw (mkFw (outThread f) (timerOn f) (irqOn f) (pciOpen f) (ifOffload f) (f_calls f ++ [c])) s.
Definition put_output (b : bool) s : kdrv P :=
  let f := fw s in put_fw (mkFw b (timerOn f) (irqOn f) (pciOpen f) (ifOffload f) (f_calls f)) s.
Definition put_timer (b : bool) s : kdrv P :=
  let f := fw s in put_fw (mkFw (outThread f) b (irqOn f) (pciOpen f) (ifOffload f) (f_calls f)) s.
Definition put_irqOn (b : bool) s : kdrv P :=
  let f := fw s in put_fw (mkFw (outThread f) (timerOn f) b (pciOpen f) (ifOffload f) (f_calls f)) s.
Definition put_pci (b : bool) s : kdrv P :=
  let f := fw s in put_fw (mkFw (outThread f) (timerOn f) (irqOn f) b (ifOffload f) (f_calls f)) s.
Definition put_offload (x : Z) s : kdrv P :=
  let f := fw s in call (SetOffload x) (put_fw (mkFw (outThread f) (timerOn f) (irqOn f) (pciOpen f) x (f_calls f)) s).

Definition put_warn (n : Z) s : kdrv P :=
  let w := wd s in put_wd (mkWatch n (txDescDoneLast w) (w_timeouts w) (w_resets w) (w_rxInterrupts w) (w_txInterrupts w)) s.
Definition put_last (n : Z) s : kdrv P :=
  let w := wd s in put_wd (mkWatch (deadlockWarn w) n (w_timeouts w) (w_resets w) (w_rxInterrupts w) (w_txInterrupts w)) s.
Definition count_timeout s : kdrv P :=
  let w := wd s in put_wd (mkWatch (deadlockWarn w) (txDescDoneLast w) (u32 (w_timeouts w + 1)) (w_resets w) (w_rxInterrupts w) (w_txInterrupts w)) s.
Definition count_reset s : kdrv P :=
  let w := wd s in put_wd (mkWatch (deadlockWarn w) (txDescDoneLast w) (w_timeouts w) (u32 (w_resets w + 1)) (w_rxInterrupts w) (w_txInterrupts w)) s.
Definition count_rx s : kdrv P :=
  let w := wd s in put_wd (mkWatch (deadlockWarn w) (txDescDoneLast w) (w_timeouts w) (w_resets w) (u32 (w_rxInterrupts w + 1)) (w_txInterrupts w)) s.
Definition count_tx s : kdrv P :=
  let w := wd s in put_wd (mkWatch (deadlockWarn w) (txDescDoneLast w) (w_timeouts w) (w_resets w) (w_rxInterrupts w) (u32 (w_txInterrupts w + 1))) s.

(** txDescDoneCount and the mtu are read by the transmit path. *)
Definition with_done (n : Z) (t : ktx) : ktx :=
  mkKtx (k_useVTD t) (k_mtu t) (k_ptrMask t) (k_ram t) (k_next t) (k_dirty t) (k_tail t) (k_close t) (k_free t)
    (k_descs t) (k_mbufs t) n (k_map t) (k_freed t) (k_signals t).
Definition with_mtu (m : Z) (t : ktx) : ktx :=
  mkKtx (k_useVTD t) m (k_ptrMask t) (k_ram t) (k_next t) (k_dirty t) (k_tail t) (k_close t) (k_free t)
    (k_descs t) (k_mbufs t) (k_done t) (k_map t) (k_freed t) (k_signals t).

Definition drop_fragment s : kdrv P := put_rx (with_frag (mkFrag 0 0 0) (rx s)) s.

(** mediumTable[i]; NULL unless published. *)
Definition medium_at (i : Z) s : option Z := if i <? s_published (conf s) then Some i else None.
End State.

Section Code.
Context {D : Type} `{M : !Mmio D} `{Pc : !PciConfig D} `{Pd : !PciDevice D}.
Context {P : Type} `{B : !RxBuffers P}.
Context (undef : Z).
(** The framework below the rings; see [KextTx] and [KextRx]. [vtd_fuel]: the
    rounds rxInterruptVTD is given. *)
Context (cursor : mpkt -> list (Z * Z)) (dma : Z -> list (Z * Z) -> dma_answer).
Context (phys : Z -> Z) (multi : Z -> bool) (rx_dma : Z -> list Z -> option (list Z)) (vtd_fuel : nat).
Implicit Types s : kdrv P.

Definition useAppleVTD s : bool := k_useVTD (tx s).

(** ** The rings *)

Definition clearRxTxRings s : kdrv P :=
  put_warn 0 (put_rx (clearRxRing rx_dma (useAppleVTD s) (rx s)) (put_tx (clearTxRing (tx s)) s)).

(** The ring positions rtl812xHwConfig resets; the slots stay as they are. *)
Definition config_rings s : kdrv P := put_rx (with_next 0 (rx s)) (put_tx (reset_positions (tx s)) s).

Definition tx_interrupt s : prog D (kdrv P) :=
  do clo <- rtl812xGetHwCloPtr (tp_sw (linuxData (nic s)));
  ret (put_tx (txInterrupt clo (tx s)) s).

(** rxInterrupt or rxInterruptVTD; [None]: it does not return. The chip completes
    descriptors between the handlers, not while this one runs: without the IOMMU
    1025 rounds are then enough ([kext_rx_interrupt_returns] has the loop with a
    chip that goes on). *)
Definition receive (maxCount : Z) s : option (Z * kdrv P) :=
  match (if useAppleVTD s then rxInterruptVTD phys multi rx_dma vtd_fuel maxCount (rx s)
         else rxInterrupt phys multi quiet 1025 maxCount (rx s)) with
  | Some (n, r) => Some (n, put_rx r s)
  | None => None
  end.

(** Doorbell included; [None]: an access outside a packet. *)
Definition output_start (q : list mpkt) (stack : list (Z * Z)) s : prog D (option (bool * list mpkt * kdrv P)) :=
  match KextTx.outputStart cursor dma (flag __ENABLED s && flag __LINK_UP s) q stack (tx s) with
  | Some (ok, q, bell, t) =>
      (match bell with Some tail => rtl812xDoorbell (tp_sw (linuxData (nic s))) tail | None => ret tt end) ;;;
      ret (Some (ok, q, put_tx t s))
  | None => ret None
  end.

(** ** The chip *)

Definition rtl812xEnable s : prog D (kdrv P) :=
  let s := call (SetLinkStatus false None 0) s in
  do h <- enable_chip undef (nic s);
  ret (config_rings (put_nic h s)).

Definition rtl812xDisable s : prog D (kdrv P) :=
  let tp := linuxData (nic s) in
  rtl8125_irq_mask_and_ack ;;;
  rtl8125_hw_reset (tp_mcfg tp) ;;;
  let s := clearRxTxRings s in
  rtl8125_hw_d3_para tp ;;;
  do tp <- rtl8125_powerdown_pll tp;
  (if HW_DASH_SUPPORT_DASH tp then rtl8125_driver_stop tp else ret tt) ;;;
  let s := put_tp tp s in
  ret (if flag __LINK_UP s then call (SetLinkStatus false None 0) (lower __LINK_UP s) else s).

Definition rtl812xRestart s : prog D (kdrv P) :=
  let s := call (SetLinkStatus false None 0) (lower __LINK_UP (put_output false s)) in
  rtl8125_nic_reset (tp_mcfg (linuxData (nic s))) ;;;
  rtl812xEnable (clearRxTxRings s).

Definition rtl812xSetOffloadFeatures (active : bool) s : kdrv P :=
  let p := s_params (conf s) in
  let mask := (if enableTSO4 p then IFNET_TSO_IPV4 else 0) .| (if enableTSO6 p then IFNET_TSO_IPV6 else 0) in
  put_offload (if active then ifOffload (fw s) .| mask else ifOffload (fw s) .&~ mask) s.

(** ** The link *)

Definition setLinkUp s : prog D (kdrv P) :=
  let l := link (tp_sw (linuxData (nic s))) in
  let s := drop_fragment s in
  RTL_W8 ChipCmd (CmdTxEnb .| CmdRxEnb) ;;;
  let s := raise __LINK_UP s in
  let s := call (SetLinkStatus true (medium_at (link_medium l (eee_active s)) s) (medium_bits l)) s in
  let s := call (SetPolling (poll_parameters (speed l) (mtu (nic s)) (s_params (conf s)))) s in
  ret (put_output true s).

Definition setLinkDown s : prog D (kdrv P) :=
  let s := lower __POLL_MODE (lower __LINK_UP (put_output false (put_warn 0 s))) in
  let s := call (SetLinkStatus false None 0) s in
  do tp <- rtl812xLinkDownPatch (linuxData (nic s));
  let s := clearRxTxRings (put_tp tp s) in
  let s := put_mask (intrMaskRxTx (irq (nic s))) s in
  RTL_W32 IMR0_8125 (intrMask (irq (nic s))) ;;;
  do tp <- set_stored_medium undef (linuxData (nic s));
  ret (put_tp tp s).

(** What the link has settled on. *)
Definition negotiated (status : Z) (enabled : bool) (tp : tpvars) : tpvars :=
  let w := tp_sw tp in
  let e := eee w in
  let '(spd, dup) := status_speed status in
  set_sw (sw_set_eee (mkEee enabled (supported e) (advertised e) (tx_lpi_enabled e) (tx_lpi_timer e))
            (sw_set_link (mkLink (autoneg (link w)) spd dup (advertising (link w)) (status_fc status)) w)) tp.

Definition rtl812xCheckLinkStatus s : prog D (kdrv P) :=
  do status <- RTL_R32 PHYstatus;
  if (status =? 0xffffffff) || negb (has status LinkStatus) then
    do tp <- rtl812xLinkDownPatch (linuxData (nic s));
    do s <- setLinkDown (put_timer false (put_tp tp s));
    ret (clearRxTxRings s)
  else
    do e <- rtl812xGetEEEMode undef (linuxData (nic s));
    let s := put_eee e.2 (put_tp (negotiated status e.1 (linuxData (nic s))) s) in
    do h <- rtl812xLinkOnPatch (nic s);
    do s <- setLinkUp (config_rings (put_nic h s));
    ret (put_timer true s).

Definition selectMedium (medium : option Z) s : prog D (kdrv P) :=
  match medium with
  | Some i =>
      let tp := linuxData (nic s) in
      let tp := match row_at (s_auto (conf s)) i with Some r => rtl812xMedium2Adv r tp | None => tp end in
      setLinkDown (call (SetCurrentMedium i) (put_tp tp s))
  | None => ret s
  end.

(** ** Enabling and disabling *)

(** [present]: there is a PCI device; [selected]: the medium the family has
    selected. The result is true for kIOReturnSuccess. *)
Definition enable (present : bool) (selected : option Z) s : prog D (bool * kdrv P) :=
  if flag __ENABLED s then ret (true, s)
  else if negb present || pciOpen (fw s) then ret (false, s)
  else
    let s := put_pci true s in
    do s <- selectMedium (match selected with Some i => Some i | None => medium_at MIDX_AUTO s end) s;
    do s <- rtl812xEnable s;
    let s := drop_fragment (put_irqOn true s) in
    let s := put_warn 0 (put_last 0 (put_tx (with_done 0 (tx s)) s)) in
    ret (true, lower __POLL_MODE (raise __ENABLED s)).

(** The wait for a poller is over when this starts: it has gone, or 50us have passed. *)
Definition disable s : prog D (kdrv P) :=
  if negb (flag __ENABLED s) then ret s else
  let s := put_output false s in
  let s := lower __POLLING (lower __POLL_MODE (lower __LINK_UP (lower __ENABLED s))) in
  let s := put_timer false s in
  let s := put_irqOn false (put_last 0 (put_tx (with_done 0 (tx s)) s)) in
  do s <- rtl812xDisable s;
  ret (put_pci false (clearRxTxRings s)).

(** ** Interrupts *)

Definition serve_rings (status : Z) s : prog D (option (kdrv P)) :=
  let s := raise __POLLING s in
  match (if has status (RxOK .| RxDescUnavail) then
           match receive kNumRxDesc s with
           | Some (packets, s) => Some (count_rx (if packets =? 0 then s else call FlushInput s))
           | None => None
           end
         else Some s) with
  | None => ret None
  | Some s =>
      do s <- (if has status (TxOK .| RxOK .| PCSTimeout) then
                 do s <- tx_interrupt s; ret (if has status TxOK then count_tx s else s)
               else ret s);
      do s <- (if has status (TxOK .| RxOK) then
                 RTL_W32 TIMER_INT0_8125 0x5000 ;;; RTL_W32 TCTR0_8125 0x5000 ;;; ret (put_mask (intrMaskTimer (irq (nic s))) s)
               else if has status PCSTimeout then
                 RTL_W32 TIMER_INT0_8125 0x0000 ;;; ret (put_mask (intrMaskRxTx (irq (nic s))) s)
               else ret s);
      ret (Some (lower __POLLING s))
  end.

Definition link_change (status : Z) s : prog D (kdrv P) :=
  if has status LinkChg then
    do s <- rtl812xCheckLinkStatus s;
    RTL_W32 TIMER_INT0_8125 0x000 ;;; ret (put_mask (intrMaskRxTx (irq (nic s))) s)
  else ret s.

(** interruptOccurred; interruptOccurredVTD has the same text, but for the call
    of the receive path. [None]: it does not return. *)
Definition interruptOccurred s : prog D (option (kdrv P)) :=
  do status <- RTL_R32 ISR0_8125;
  if (status =? 0xFFFFFFFF) || (status =? 0) then RTL_W32 IMR0_8125 (intrMask (irq (nic s))) ;;; ret (Some s)
  else
    RTL_W32 IMR0_8125 0x0000 ;;;
    RTL_W32 ISR0_8125 (status .&~ RxFIFOOver) ;;;
    do o <- (if flag __POLL_MODE s || flag __POLLING s then ret (Some s) else serve_rings status s);
    match o with
    | Some s =>
        do s <- link_change status s;
        RTL_W32 IMR0_8125 (intrMask (irq (nic s))) ;;; ret (Some s)
    | None => ret None
    end.

(** ** Input polling *)

Definition setInputPacketPollingEnable (enabled : bool) s : prog D (kdrv P) :=
  if flag __ENABLED s then
    let s := if enabled then put_mask (intrMaskPoll (irq (nic s))) (raise __POLL_MODE s)
             else put_mask (intrMaskRxTx (irq (nic s))) (lower __POLL_MODE s) in
    RTL_W32 IMR0_8125 (intrMask (irq (nic s))) ;;; ret s
  else ret s.

(** pollInputPackets runs on a thread of its own: the test of the flags, and the work. *)
Definition poll_begin (maxCount : Z) s : kdrv P :=
  if flag __POLL_MODE s && negb (flag __POLLING s) then put_poller (Some maxCount) (raise __POLLING s) else s.

Definition poll_work (maxCount : Z) s : prog D (option (kdrv P)) :=
  match receive maxCount s with
  | Some (_, s) => do s <- tx_interrupt s; ret (Some (put_poller None (lower __POLLING s)))
  | None => ret None
  end.

Definition pollInputPackets (maxCount : Z) s : prog D (option (kdrv P)) :=
  let s := poll_begin maxCount s in
  match poller s with Some n => poll_work n s | None => ret (Some s) end.

(** ** The watchdog *)

(** The registers read are those of the messages. *)
Definition txHangCheck s : prog D (bool * kdrv P) :=
  if (k_done (tx s) =? txDescDoneLast (wd s)) && (k_free (tx s) <? KextTx.kNumTxDesc) then
    let s := put_warn (u32 (deadlockWarn (wd s) + 1)) s in
    if deadlockWarn (wd s) =? kTxCheckTreshhold then
      do s <- tx_interrupt (count_timeout s); ret (false, s)
    else if kTxDeadlockTreshhold <=? deadlockWarn (wd s) then
      RTL_R32 ISR0_8125 ;;; RTL_R32 IMR0_8125 ;;;
      do s <- rtl812xRestart (count_reset s);
      ret (true, s)
    else ret (false, s)
  else ret (false, put_warn 0 s).

(** The timer has fired, so it is no longer set. *)
Definition timerActionRTL8125 s : prog D (kdrv P) :=
  let s := put_timer false s in
  do s <- (if flag __LINK_UP s then
             rtl812xDumpTallyCounter (statPhyAddr (nic s)) ;;;
             do r <- txHangCheck (call StatCall s);
             let '(deadlock, s) := r in
             ret (if deadlock : bool then s else put_timer true s)
           else ret s);
  ret (put_last (k_done (tx s)) s).

(** ** Requests *)

Definition set_lpi (n : Z) (tp : tpvars) : tpvars :=
  let w := tp_sw tp in
  let e := eee w in
  set_sw (sw_set_eee (mkEee (eee_enabled e) (supported e) (advertised e) (tx_lpi_enabled e) n) w) tp.

Definition setMaxPacketSize (maxSize : Z) s : prog D (bool * kdrv P) :=
  if maxSize <=? kMaxPacketSize then
    let m := u32 (maxSize - VLAN_ETH_HLEN) in
    let s := put_tx (with_mtu m (tx s)) (put_nic (set_mtu m (nic s)) s) in
    let s := put_tp (set_rms (u16 (m + VLAN_ETH_HLEN + ETH_FCS_LEN)) (linuxData (nic s))) s in
    let s := rtl812xSetOffloadFeatures (m <=? MSS_MAX) s in
    do s <- setLinkDown s;
    let s := put_timer false s in
    let s := put_tp (set_lpi (u32 (m + ETH_HLEN + 0x20)) (linuxData (nic s))) s in
    do s <- rtl812xRestart s;
    ret (true, s)
  else ret (false, s).

Definition getMaxPacketSize : Z := kMaxPacketSize.

Definition setWakeOnMagicPacket (active : bool) s : bool * kdrv P :=
  let tp := linuxData (nic s) in
  if negb (wol_opts (tp_sw tp) =? 0) && wolCapable (nic s) then
    (true, put_tp (set_sw (sw_set_wol (wol_opts (tp_sw tp)) active (tp_sw tp)) tp) s)
  else (false, s).

Definition setHardwareAddress (addr : option (list Z)) s : prog D (bool * kdrv P) :=
  match addr with
  | Some a =>
      rtl8125_rar_set a ;;;
      ret (true, put_nic (set_addrs (mkMacs a (origMacAddr (addrs (nic s))) (fallBackMacAddr (addrs (nic s)))) (nic s)) s)
  | None => ret (false, s)
  end.

Definition setPowerState (ordinal : Z) s : prog D (kdrv P) :=
  if ordinal =? powerState s then ret s
  else
    (if ordinal =? kPowerStateOff
     then setPowerStateSleepAction (wol_enabled (tp_sw (linuxData (nic s)))) (s_pmCtrl (conf s))
     else setPowerStateWakeAction (s_pmCtrl (conf s))) ;;;
    ret (put_power ordinal s).

Definition systemWillShutdown (specifier : Z) s : prog D (kdrv P) :=
  if has specifier (kIOMessageSystemWillPowerOff .| kIOMessageSystemWillRestart) then
    do s <- disable s;
    rtl8125_rar_set (origMacAddr (addrs (nic s))) ;;;
    rtl8125_set_bios_setting (linuxData (nic s)) ;;;
    ret s
  else ret s.

(** ** start *)

(** What the calls of start into the kernel answer. *)
Record startenv := mkEnv {
  e_super : bool; e_provider : bool; e_open : bool; e_created : Z -> bool; e_added : Z -> bool; e_published : bool; e_gate : bool;
  e_tx : bool; e_rx : bool; e_stat : bool; e_sources : bool; e_attach : bool;
}.

Inductive resource := Device | MediumDict | CommandGate | TxResources | RxResources | StatResources.

Definition pci_into (p : pcidata) (h : hwst) : hwst :=
  mkHw (linuxData h) (p_device p) (mtu h) (p_pcieCap p) (irq h) (statPhyAddr h) (txPhyAddr h) (rxPhyAddr h) (rings h)
    (BringUp.filter h) (p_wolCapable p) (hasSensor h) (addrs h).

Definition clear_rx_mode (h : hwst) : hwst :=
  set_filter (mkRxf (clear_bit __PROMISC (clear_bit __M_CAST (stateFlags (BringUp.filter h)))) 0) h.

(** The result, the resources kept, and the chip's variables with the settings.
    The fallback address of getParams is in [h]. *)
Definition start (e : startenv) (params : option paramdict) (rnd : list Z) (p : pcidata) (h : hwst)
    : prog D (bool * list resource * (hwst * setup)) :=
  let '(kp, l) := getParams params in
  let conf0 := mkSetup kp 0 ADV_ALL 0 in
  let result := e_super e in
  if negb result then ret (result, [], (h, conf0)) else
  let h := clear_rx_mode h in
  if negb (e_provider e) then ret (result, [], (h, conf0))
  else if negb (e_open e) then ret (result, [], (h, conf0))
  else
  let h := set_tp (set_aspm l (linuxData h)) h in
  do r <- initPCIConfigSpace p;
  let '(mapped, p) := r in
  let h := pci_into p h in
  if negb mapped then ret (result, [], (h, conf0)) else
  do r <- KextHw.rtl812xInit rnd h;
  let '(ok, h) := r in
  if negb ok then ret (result, [], (h, conf0)) else
  let max := HwSuppMaxPhyLinkSpeed (tp_sw (linuxData h)) in
  let '(made, n) := setupMediumDict (e_created e) (e_added e) (e_published e) (tp_mcfg (linuxData h)) max in
  let c := mkSetup kp n (auto_adv max) (pciPMCtrlOffset p) in
  if negb made then ret (result, [], (h, c))
  else if negb (e_gate e) then ret (result, [], (h, c))
  else if negb (e_tx e) then ret (result, [], (h, c))
  else if negb (e_rx e) then ret (result, [], (h, c))
  else if negb (e_stat e) then ret (result, [], (h, c))
  else if negb (e_sources e) then ret (result, [], (h, c))
  else
    let result := e_attach e in
    if negb result then ret (result, [], (h, c))
    else ret (true, [Device; MediumDict; CommandGate; TxResources; RxResources; StatResources], (h, c)).

(** setPromiscuousMode and setMulticastMode of [RxFilter], on the driver. *)
Definition set_promiscuous (active : bool) s : prog D (kdrv P) :=
  do r <- RxFilter.Kext.setPromiscuousMode (tid (ctx (linuxData (nic s)))) active (BringUp.filter (nic s)); ret (put_filter r.2 s).
Definition set_multicast (active : bool) s : prog D (kdrv P) :=
  do r <- RxFilter.Kext.setMulticastMode (tid (ctx (linuxData (nic s)))) active (BringUp.filter (nic s)); ret (put_filter r.2 s).
End Code.
