(* ===== verification/KextCtlSpec.v ===== *)
(** The kernel extension as a whole: a small abstract machine of the control
    state, and that every handler of [KextCtl] does a step of it, whatever the
    chip answers; what follows for enabling, link, timer, interrupt mask and the
    receive ring after any sequence of events. *)
From S2P Require Import Prelude Mmio Channel Chip SwVars Eeprom Hw Mcu Power Fiber PhyConfig RxFilter BringUp.
From S2P Require Import TxOffload KextPool KextTx KextRx KextHw KextMedia KextCtl.
From S2P Require Import RxFilterSpec DriverSpec KextPoolSpec KextTxSpec KextRxSpec KextRxRun.

(** ** What the rings leave alone *)

(** The mtu, the pointer mask and the mapping mode. *)
Definition tx_same (t t' : ktx) : Prop := k_mtu t' = k_mtu t /\ k_ptrMask t' = k_ptrMask t /\ k_useVTD t' = k_useVTD t.

#[export] Instance tx_same_preorder : PreOrder tx_same.
Proof. split; [by intros t|]. intros t1 t2 t3 (?&?&?) (?&?&?). repeat split; congruence. Qed.

Lemma same_free m t : tx_same t (freePacket m t).
Proof. done. Qed.
Lemma same_reclaim t : tx_same t (reclaim_slot t).
Proof. unfold reclaim_slot. case_match; [case_match|]; done. Qed.
Lemma same_reclaims n t : tx_same t (Nat.iter n reclaim_slot t).
Proof. induction n as [|n IH]; [done|]. cbn [Nat.iter nat_rect]. etrans; [exact IH|apply same_reclaim]. Qed.
Lemma same_interrupt c t : tx_same t (txInterrupt c t).
Proof.
  unfold txInterrupt. cbv zeta. pose proof (same_reclaims (Z.to_nat (num_done c t)) (set_close c t)) as H.
  case_match; exact H.
Qed.
Lemma same_clear_slot t i : tx_same t (clear_slot t i).
Proof. unfold clear_slot. case_match; done. Qed.
Lemma same_clear_slots l : forall t, tx_same t (foldl clear_slot t l).
Proof. induction l as [|i l IH]; intros t; [done|]. cbn [foldl]. etrans; [apply same_clear_slot|apply IH]. Qed.
Lemma same_clear t : tx_same t (clearTxRing t).
Proof.
  unfold clearTxRing. generalize (seqZ 0 KextTx.kNumTxDesc). intros l.
  assert (H : tx_same t (clear_map t)) by (unfold clear_map; by case_match).
  etrans; [exact H|]. exact (same_clear_slots l (clear_map t)).
Qed.
Lemma clear_is_reset t : exists x, clearTxRing t = reset_positions x.
Proof. exists (foldl clear_slot (clear_map t) (seqZ 0 KextTx.kNumTxDesc)). reflexivity. Qed.
Lemma clear_again t : reset_positions (clearTxRing t) = clearTxRing t.
Proof. by destruct (clear_is_reset t) as [x ->]. Qed.
Lemma interrupt_nothing t : txInterrupt (k_close t) t = t.
Proof.
  unfold txInterrupt, num_done. rewrite Z.sub_diag. cbv zeta. rewrite Z.land_0_l. cbn [Z.to_nat Nat.iter nat_rect].
  cbn [set_close k_dirty]. rewrite Z.eqb_refl. cbn [negb andb]. by destruct t.
Qed.
Lemma same_send_one cursor dma p vec t r : send_one cursor dma p vec t = Some r -> tx_same t r.2.
Proof.
  unfold send_one. destruct (mp_tso_fails p); [by intros [= <-]|]. intros H. apply bind_Some in H as ([[m cmd] opts2]&_&H).
  assert (E : tx_same t (segments cursor dma p vec (with_ram m t)).2)
    by (unfold segments; destruct (k_useVTD _); [destruct (txMapPacket _ _ _ _) as [[??]?]|]; done).
  destruct (segments cursor dma p vec (with_ram m t)) as [[segs vec'] t']. cbn [snd] in E. destruct segs as [|g segs].
  - by injection H as <-.
  - injection H as <-. cbn [snd]. etrans; [exact E|]. unfold post_packet. by destruct (fill_segs _ _ _ _ _ _ _ _ _).
Qed.
Lemma same_send cursor dma q : forall vec t r, send_loop cursor dma q vec t = Some r -> tx_same t r.2.
Proof.
  induction q as [|p q IH]; intros vec t r H; cbn [send_loop] in H; [by injection H as <-|].
  case_match; [|by injection H as <-]. apply bind_Some in H as ([vec' t']&H1&H2). apply same_send_one in H1. etrans; [exact H1|by eapply IH].
Qed.
Lemma same_output cursor dma run q stack t ok q' bell t' :
  KextTx.outputStart cursor dma run q stack t = Some (ok, q', bell, t') -> tx_same t t'.
Proof.
  unfold KextTx.outputStart. destruct run; [|by intros [= _ _ _ <-]]. intros H. apply bind_Some in H as ([[q1 vec1] t1]&H1&H2).
  injection H2 as _ _ _ <-. by apply same_send in H1.
Qed.

(** The receive ring keeps its invariant when the position returns to the start,
    and when the unfinished frame is forgotten. *)
Section Rings.
Context {P : Type} `{B : !RxBuffers P} `{RP : !RxPool P} (phys : Z -> Z).
Implicit Types r : krx P.

Lemma rx_restart n r : rxinv phys n r -> rxinv phys n (with_next 0 r).
Proof. intros (X&pend&Ho&[]&Hf). exists X, pend. split; [done|]. split; [|done]. split; try done. Qed.

Lemma rx_forget n r : rxinv phys n r -> rxinv phys 0 (with_frag (mkFrag 0 0 0) r).
Proof.
  intros (X&pend&Ho&[A1 A2 A3 A4 A5]&Hf). exists X, []. split; [done|]. split; [|split; [apply frag_empty|done]].
  split; try done; [|by split; [apply NoDup_nil_2|intros m ?%elem_of_nil]]. intros i Hi. destruct (A3 i Hi) as (?&?&_&?).
  split_and!; try done. by intros ?%elem_of_nil.
Qed.
End Rings.

#[local] Opaque clearTxRing clearRxRing.

(** ** What the hardware layer leaves alone *)

Section HwKept.
Context {D : Type} `{M : !Mmio D} `{Pc : !PciConfig D} (undef : Z) (t0 : tpvars).
Local Abbreviation keeps p := (rets (D := D) (tp_kept t0) p).

Lemma kx_kept_medium t an sp du adv : tp_kept t0 t -> keeps (KextHw.rtl812xSetPhyMedium undef t an sp du adv).
Proof. intros. unfold KextHw.rtl812xSetPhyMedium. kept; try apply kept_store_link; try (by apply kept_advertise); kept. Qed.
Lemma kx_kept_stored t : tp_kept t0 t -> keeps (KextHw.set_stored_medium undef t).
Proof. apply kx_kept_medium. Qed.
Lemma kx_kept_phy_config t : tp_kept t0 t -> keeps (rtl8125_hw_phy_config undef t).
Proof. apply kept_phy_config. Qed.
End HwKept.
#[export] Hint Resolve kx_kept_stored : kept.

(** The bits of two flag words. *)
Definition same_bits (x y : Z) : Prop := forall b, 0 <= b -> test_bit b y = test_bit b x.

(** The hardware object but for ring positions, variables and flags. *)
Record kx_kept (h h' : hwst) : Prop := {
  x_tp : tp_kept (linuxData h) (linuxData h');
  x_mtu : BringUp.mtu h' = BringUp.mtu h;
  x_rxtx : intrMaskRxTx (irq h') = intrMaskRxTx (irq h);
  x_timer : intrMaskTimer (irq h') = intrMaskTimer (irq h);
  x_poll : intrMaskPoll (irq h') = intrMaskPoll (irq h);
}.

#[export] Instance kx_kept_preorder : PreOrder kx_kept.
Proof.
  split; [by intros h; split|]. intros h1 h2 h3 [] []. split; [by etrans|congruence..].
Qed.

(** The object, its flags, and its interrupt mask. *)
Definition quiet (h h' : hwst) : Prop :=
  kx_kept h h' /\ intrMask (irq h') = intrMask (irq h) /\ same_bits (stateFlags (BringUp.filter h)) (stateFlags (BringUp.filter h')).

Section Hw.
Context {D : Type} `{M : !Mmio D} `{Pc : !PciConfig D} (undef : Z).

Lemma multicast_same id b f : b = test_bit __M_CAST (stateFlags f) ->
  rets (D := D) (fun r => same_bits (stateFlags f) (stateFlags r.2)) (RxFilter.Kext.setMulticastMode id b f).
Proof.
  intros ->. unfold RxFilter.Kext.setMulticastMode. apply rets_seq. intros _. apply rets_ret. intros b Hb. cbn [snd stateFlags].
  destruct (test_bit __M_CAST (stateFlags f)) eqn:E; [rewrite set_bit_test by done|rewrite clear_bit_test by done];
    destruct (decide (b = __M_CAST)) as [->|Hne]; rewrite ?E; try done; (rewrite (proj2 (Z.eqb_neq _ _)) by done);
    by rewrite ?orb_false_r, ?andb_true_r.
Qed.

Lemma kx_config h : rets (D := D) (quiet h) (KextHw.rtl812xHwConfig h).
Proof.
  unfold KextHw.rtl812xHwConfig. apply rets_seq. intros _. cbv zeta. apply rets_seq. intros _. apply rets_seq. intros _.
  unfold KextHw.hw_config_tail. cbv zeta. do 7 (apply rets_seq; intros _).
  eapply rets_bind; [by apply multicast_same|]. intros f Hf. do 5 (apply rets_seq; intros _). apply rets_ret.
  split; [by repeat split|]. split; [done|exact Hf].
Qed.

Lemma kx_link_on h : rets (D := D) (quiet h) (KextHw.rtl812xLinkOnPatch h).
Proof.
  unfold KextHw.rtl812xLinkOnPatch. apply (rets_bind _ _ _ _ (kx_config h)). intros h1 H.
  cbv zeta. repeat (apply rets_seq; intros ?). apply rets_ret. destruct H as ([Ht]&?&?). split; [|done]. split; try done.
  etrans; [exact Ht|]. split; reflexivity.
Qed.

(** rtl812xEnable unmasks the interrupts and leaves polling. *)
Definition enabled_hw (h h' : hwst) : Prop :=
  kx_kept h h' /\ intrMask (irq h') = intrMaskRxTx (irq h) /\ same_bits (clear_bit __POLL_MODE (stateFlags (BringUp.filter h))) (stateFlags (BringUp.filter h')).

Lemma kx_enable h : rets (D := D) (enabled_hw h) (enable_chip undef h).
Proof.
  unfold enable_chip. cbv zeta. apply rets_seq. intros _.
  eapply (rets_bind (tp_kept (linuxData h))); [kept|]. intros t1 H1. apply rets_seq. intros _.
  eapply (rets_bind (tp_kept (linuxData h))); [kept|]. intros t2 H2. apply rets_seq. intros _.
  eapply (rets_bind (tp_kept (linuxData h))); [kept|]. intros t3 H3.
  eapply (rets_bind _ _ _ _ (kx_config _)). intros h1 ([Ht]&Hm&Hf). cbn [linuxData set_tp] in *.
  assert (H4 : tp_kept (linuxData h) (linuxData h1)) by (by etrans).
  eapply (rets_bind (tp_kept (linuxData h))); [kept|]. intros t4 H5. apply rets_ret.
  split; [by split|]. split; [exact Hm|exact Hf].
Qed.
End Hw.

(** ** The abstract machine *)

Inductive masksel := MRxTx | MTimer | MPoll.

Record view := mkView {
  v_enabled : bool; v_link : bool; v_pollMode : bool; v_polling : bool;
  v_output : bool; v_timer : bool; v_irq : bool; v_pci : bool; v_warn : Z; v_mask : masksel; v_poller : bool;
}.

Definition down (v : view) : view :=
  mkView (v_enabled v) false false (v_polling v) false (v_timer v) (v_irq v) (v_pci v) 0 MRxTx (v_poller v).
Definition up (v : view) : view :=
  mkView (v_enabled v) true (v_pollMode v) (v_polling v) true true (v_irq v) (v_pci v) (v_warn v) (v_mask v) (v_poller v).
Definition with_timer (b : bool) (v : view) : view :=
  mkView (v_enabled v) (v_link v) (v_pollMode v) (v_polling v) (v_output v) b (v_irq v) (v_pci v) (v_warn v) (v_mask v) (v_poller v).
Definition with_mask (m : masksel) (v : view) : view :=
  mkView (v_enabled v) (v_link v) (v_pollMode v) (v_polling v) (v_output v) (v_timer v) (v_irq v) (v_pci v) (v_warn v) m (v_poller v).
Definition with_warn (n : Z) (v : view) : view :=
  mkView (v_enabled v) (v_link v) (v_pollMode v) (v_polling v) (v_output v) (v_timer v) (v_irq v) (v_pci v) n (v_mask v) (v_poller v).
Definition with_polling (b p : bool) (v : view) : view :=
  mkView (v_enabled v) (v_link v) (v_pollMode v) b (v_output v) (v_timer v) (v_irq v) (v_pci v) (v_warn v) (v_mask v) p.
Definition switched_on (v : view) : view :=
  mkView true false false (v_polling v) false (v_timer v) true true 0 MRxTx (v_poller v).
Definition switched_off (v : view) : view :=
  mkView false false false false false false false false 0 (v_mask v) (v_poller v).
Definition poll_mode (b : bool) (v : view) : view :=
  mkView (v_enabled v) (v_link v) b (v_polling v) (v_output v) (v_timer v) (v_irq v) (v_pci v) (v_warn v)
    (if b then MPoll else MRxTx) (v_poller v).

(** Enabling and disabling; a new medium or packet size; the interrupt, in its
    two parts; the timer, with the watchdog; input polling. *)
Inductive served (v : view) : view -> Prop :=
| sv_same : served v v
| sv_mask m : m <> MPoll -> v_pollMode v = false -> v_polling v = false -> served v (with_mask m v).

Inductive linked_up (v : view) : view -> Prop :=
| lk_same : linked_up v v
| lk_down : linked_up v (down (with_timer false v))
| lk_up : linked_up v (with_mask MRxTx (up v)).

Inductive watched (v : view) : view -> Prop :=
| wt_idle : v_link v = false -> watched v (with_timer false v)
| wt_progress : v_link v = true -> watched v (with_warn 0 (with_timer true v))
| wt_stuck : v_link v = true -> v_warn v < 5 -> watched v (with_warn (v_warn v + 1) (with_timer true v))
| wt_reset : v_link v = true -> v_warn v = 5 -> watched v (down (with_timer false v)).

Inductive astep (v : view) : view -> Prop :=
| a_none : astep v v
| a_enable : v_enabled v = false -> v_pci v = false -> astep v (switched_on v)
| a_disable : v_enabled v = true -> astep v (switched_off v)
| a_medium : astep v (down v)
| a_size : astep v (down (with_timer false v))
| a_irq v1 v2 : v_irq v = true -> served v v1 -> linked_up v1 v2 -> astep v v2
| a_timer v' : v_timer v = true -> watched v v' -> astep v v'
| a_poll_mode b : v_enabled v = true -> astep v (poll_mode b v)
| a_poll_begin : v_pollMode v = true -> v_polling v = false -> astep v (with_polling true true v)
| a_poll_end : v_poller v = true -> astep v (with_polling false false v).

(** What holds of it: interrupt source and PCI device follow the enabled flag, the
    output thread the link flag; the link is up, and input polled, only when
    enabled; the watchdog runs while the link is up and has at most five
    warnings; the polling flag belongs to a poller; outside of polling the
    receive interrupts are unmasked. *)
Record view_ok (v : view) : Prop := {
  ok_irq : v_irq v = v_enabled v;
  ok_pci : v_pci v = v_enabled v;
  ok_link : v_link v = true -> v_enabled v = true;
  ok_poll : v_pollMode v = true -> v_enabled v = true;
  ok_output : v_output v = v_link v;
  ok_timer : v_link v = true -> v_timer v = true;
  ok_warn : 0 <= v_warn v <= 5;
  ok_polling : v_polling v = true -> v_poller v = true;
  ok_mask : v_enabled v = true -> v_pollMode v = false -> v_mask v <> MPoll;
}.

Lemma served_ok v v' : view_ok v -> served v v' -> view_ok v'.
Proof. by intros [] []; split. Qed.
Lemma linked_ok v v' : view_ok v -> v_irq v = true -> linked_up v v' -> view_ok v'.
Proof. intros [] Hi []; split; cbn; try done; try congruence; lia. Qed.
Lemma watched_ok v v' : view_ok v -> watched v v' -> view_ok v'.
Proof. intros [] []; split; cbn; try done; try congruence; lia. Qed.

Lemma astep_ok v v' : view_ok v -> astep v v' -> view_ok v'.
Proof.
  intros H Ha. destruct Ha as [|He Hp|He| | |v1 v2 Hi Hs Hl|v' _ Hw|b He|Hm Hp|Hp].
  7: by eapply watched_ok.
  6: { eapply linked_ok; [by eapply served_ok| |done]. by destruct Hs. }
  all: destruct H; split; cbn; try done; try congruence; try lia; try (by destruct b).
Qed.

(** ** The driver against the machine *)

Definition mask_of (m : masksel) (i : intrs) : Z :=
  match m with MRxTx => intrMaskRxTx i | MTimer => intrMaskTimer i | MPoll => intrMaskPoll i end.

Lemma land_zero x : Z.land x 0 = 0.
Proof. apply Z.land_0_r. Qed.

Section Control.
Context {P : Type} `{B : !RxBuffers P} `{RP : !RxPool P}.
Context {D : Type} `{M : !Mmio D} `{Pc : !PciConfig D} .
Context (phys : Z -> Z) (multi : Z -> bool) (rx_dma : Z -> list Z -> option (list Z)) (vtd_fuel : nat).
Implicit Types s : kdrv P.

(** What no handler changes: both copies of the mtu and the receive size agree,
    the interrupt masks are those of rtl812xInit, the transmit pointers have the
    mask of the chip, and without the IOMMU the receive ring is intact. *)
Record based s : Prop := {
  b_mtu : k_mtu (tx s) = BringUp.mtu (nic s);
  b_rms : rms (linuxData (nic s)) = u16 (BringUp.mtu (nic s) + VLAN_ETH_HLEN + ETH_FCS_LEN);
  b_ptr : k_ptrMask (tx s) = s_MaxTxDescPtrMask (tp_sw (linuxData (nic s)));
  b_rxtx : intrMaskRxTx (irq (nic s)) = intrMaskRxTx intr_masks;
  b_timer : intrMaskTimer (irq (nic s)) = intrMaskTimer intr_masks;
  b_poll : intrMaskPoll (irq (nic s)) = intrMaskPoll intr_masks;
  b_pub : 0 < s_published (conf s);
  b_rx : k_useVTD (tx s) = false -> exists n, rxinv phys n (rx s);
}.

Record ctl (v : view) s : Prop := {
  c_enabled : flag __ENABLED s = v_enabled v;
  c_link : flag __LINK_UP s = v_link v;
  c_pollMode : flag __POLL_MODE s = v_pollMode v;
  c_polling : flag __POLLING s = v_polling v;
  c_output : outThread (fw s) = v_output v;
  c_timer : timerOn (fw s) = v_timer v;
  c_irq : irqOn (fw s) = v_irq v;
  c_pci : pciOpen (fw s) = v_pci v;
  c_warn : deadlockWarn (wd s) = v_warn v;
  c_mask : intrMask (irq (nic s)) = mask_of (v_mask v) intr_masks;
  c_poller : bool_decide (poller s <> None) = v_poller v;
  c_based : based s;
}.

Lemma ctl_eq v v' s : ctl v s -> v = v' -> ctl v' s.
Proof. by intros H <-. Qed.

Lemma flag_raise b c s : 0 <= b -> 0 <= c -> flag b (raise c s) = flag b s || (b =? c).
Proof. intros. unfold flag, raise. by apply set_bit_test. Qed.
Lemma flag_lower b c s : 0 <= b -> 0 <= c -> flag b (lower c s) = flag b s && negb (b =? c).
Proof. intros. unfold flag, lower. by apply clear_bit_test. Qed.

(** Raising or lowering a flag changes nothing else. *)
Lemma based_flags x s : based s -> based (put_flags x s).
Proof. by intros []. Qed.

Lemma ctl_tp t v s : tp_kept (linuxData (nic s)) t -> ctl v s -> ctl v (put_tp t s).
Proof.
  intros Ht []. split; try assumption. destruct c_based0. split; try assumption; unfold put_tp; cbn.
  - by rewrite (k_rms _ _ Ht).
  - by rewrite (k_mask _ _ Ht).
Qed.

Lemma ctl_nic h v s m : kx_kept (nic s) h -> intrMask (irq h) = mask_of m intr_masks ->
  same_bits (flags_of s) (stateFlags (BringUp.filter h)) -> ctl v s -> ctl (with_mask m v) (put_nic h s).
Proof.
  intros [Ht E1 E2 E3 E4] Em Hb [].
  split; unfold flag, flags_of; cbn [put_nic nic with_mask v_enabled v_link v_pollMode v_polling]; rewrite ?Hb by done; try assumption.
  destruct c_based0. split; cbn [put_nic nic tx rx conf]; rewrite ?E1, ?E2, ?E3, ?E4, ?(k_rms _ _ Ht), ?(k_mask _ _ Ht); assumption.
Qed.

Lemma ctl_tx t v s : tx_same (tx s) t -> ctl v s -> ctl v (put_tx t s).
Proof.
  intros (E1&E2&E3) []. split; try assumption. destruct c_based0. split; cbn [put_tx tx nic rx conf]; rewrite ?E1, ?E2, ?E3; assumption.
Qed.
Lemma ctl_rx r v s : (k_useVTD (tx s) = false -> exists n, rxinv phys n r) -> ctl v s -> ctl v (put_rx r s).
Proof. intros Hr []. split; try assumption. destruct c_based0. split; try assumption. Qed.

(** Updates of one field, and flags that are raised or lowered. *)
Local Ltac field := intros []; split; cbn [with_timer with_warn with_mask with_polling v_enabled v_link v_pollMode v_polling
  v_output v_timer v_irq v_pci v_warn v_mask v_poller]; try assumption; try reflexivity;
  match goal with H : based _ |- _ => destruct H; split; assumption end.

Lemma ctl_call c v s : ctl v s -> ctl v (call c s).
Proof. field. Qed.
Lemma ctl_last n v s : ctl v s -> ctl v (put_last n s).
Proof. field. Qed.
Lemma ctl_eee b v s : ctl v s -> ctl v (put_eee b s).
Proof. field. Qed.
Lemma ctl_power n v s : ctl v s -> ctl v (put_power n s).
Proof. field. Qed.
Lemma ctl_warn n v s : ctl v s -> ctl (with_warn n v) (put_warn n s).
Proof. field. Qed.
Lemma ctl_timer b v s : ctl v s -> ctl (with_timer b v) (put_timer b s).
Proof. field. Qed.
Lemma ctl_count_rx v s : ctl v s -> ctl v (count_rx s).
Proof. field. Qed.
Lemma ctl_count_tx v s : ctl v s -> ctl v (count_tx s).
Proof. field. Qed.
Lemma ctl_count_timeout v s : ctl v s -> ctl v (count_timeout s).
Proof. field. Qed.
Lemma ctl_count_reset v s : ctl v s -> ctl v (count_reset s).
Proof. field. Qed.
Lemma ctl_mask m v s : ctl v s -> ctl (with_mask m v) (put_mask (mask_of m (irq (nic s))) s).
Proof.
  intros [? ? ? ? ? ? ? ? ? ? ? Hb]. destruct Hb. split; try assumption; [|by split].
  unfold put_mask. cbn [nic irq set_intrMask put_nic set_irq intrMask with_mask v_mask]. by destruct m.
Qed.

Lemma ctl_clear v s : ctl v s -> ctl (with_warn 0 v) (clearRxTxRings rx_dma s).
Proof.
  intros H. apply ctl_warn, ctl_rx; [|apply ctl_tx; [apply same_clear|exact H]].
  cbn [put_tx tx]. destruct (same_clear (tx s)) as (_&_&->). intros E. destruct (b_rx _ (c_based _ _ H) E) as [n Hn].
  exists 0. unfold useAppleVTD. rewrite E. by apply (clear_inv phys multi rx_dma n).
Qed.

Lemma ctl_config v s : ctl v s -> ctl v (config_rings s).
Proof.
  intros H. apply ctl_rx; [|by apply ctl_tx]. intros E. destruct (b_rx _ (c_based _ _ H) E) as [n Hn].
  exists n. by apply rx_restart.
Qed.

Lemma ctl_drop v s : ctl v s -> ctl v (drop_fragment s).
Proof.
  intros H. apply ctl_rx; [|done]. intros E. destruct (b_rx _ (c_based _ _ H) E) as [n Hn]. exists 0. by eapply rx_forget.
Qed.

Lemma ctl_tx_interrupt v s : ctl v s -> rets (D := D) (ctl v) (tx_interrupt s).
Proof. intros H. unfold tx_interrupt. apply rets_seq. intros c. apply rets_ret, ctl_tx; [apply same_interrupt|done]. Qed.

Lemma ctl_receive max v s n s' : ctl v s -> receive phys multi rx_dma vtd_fuel max s = Some (n, s') -> ctl v s'.
Proof.
  intros H. unfold receive. destruct (useAppleVTD s) eqn:E.
  - destruct (rxInterruptVTD _ _ _ _ _ _) as [[k r]|]; [|done]. intros [= <- <-]. apply ctl_rx; [|done].
    unfold useAppleVTD in E. congruence.
  - destruct (b_rx _ (c_based _ _ H) E) as [k Hk].
    assert (Hr : in_ring (r_next (rx s))) by (destruct Hk as (?&?&_&[]&_); done).
    destruct (rx_interrupt_quiet phys multi rx_dma max (rx s) k Hr) as (g&r&k'&Er&Hst&_). rewrite Er. intros [= <- <-]. apply ctl_rx; [|done]. intros _. exists k'.
    exact (star_invariant (rstep phys multi rx_dma) (fun x => rxinv phys x.2 x.1) (rstep_inv phys multi rx_dma) _ _ Hst Hk).
Qed.

Definition with_flag (f : Z) (b : bool) (v : view) : view :=
  mkView (if __ENABLED =? f then b else v_enabled v) (if __LINK_UP =? f then b else v_link v)
    (if __POLL_MODE =? f then b else v_pollMode v) (if __POLLING =? f then b else v_polling v)
    (v_output v) (v_timer v) (v_irq v) (v_pci v) (v_warn v) (v_mask v) (v_poller v).

Lemma or_sel (x b : bool) : x || b = if b then true else x.
Proof. by destruct x, b. Qed.
Lemma and_sel (x b : bool) : x && negb b = if b then false else x.
Proof. by destruct x, b. Qed.

Lemma ctl_raise f v s : 0 <= f -> ctl v s -> ctl (with_flag f true v) (raise f s).
Proof.
  intros Hf []. split; rewrite ?flag_raise by done; cbn [with_flag v_enabled v_link v_pollMode v_polling]; rewrite ?or_sel;
    try assumption; try (case_match; [done|assumption]). by apply based_flags.
Qed.
Lemma ctl_lower f v s : 0 <= f -> ctl v s -> ctl (with_flag f false v) (lower f s).
Proof.
  intros Hf []. split; rewrite ?flag_lower by done; cbn [with_flag v_enabled v_link v_pollMode v_polling]; rewrite ?and_sel;
    try assumption; try (case_match; [done|assumption]). by apply based_flags.
Qed.

(** The framework's switches. *)
Definition with_fw (out irq pci : bool) (v : view) : view :=
  mkView (v_enabled v) (v_link v) (v_pollMode v) (v_polling v) out (v_timer v) irq pci (v_warn v) (v_mask v) (v_poller v).
Lemma ctl_output b v s : ctl v s -> ctl (with_fw b (v_irq v) (v_pci v) v) (put_output b s).
Proof. field. Qed.
Lemma ctl_irqOn b v s : ctl v s -> ctl (with_fw (v_output v) b (v_pci v) v) (put_irqOn b s).
Proof. field. Qed.
Lemma ctl_pci b v s : ctl v s -> ctl (with_fw (v_output v) (v_irq v) b v) (put_pci b s).
Proof. field. Qed.
Lemma ctl_offload x v s : ctl v s -> ctl v (put_offload x s).
Proof. intros H. unfold put_offload. apply ctl_call. revert H. field. Qed.
Lemma ctl_done n v s : ctl v s -> ctl v (put_tx (with_done n (tx s)) s).
Proof. intros H. by apply ctl_tx. Qed.

End Control.

Create HintDb ctl discriminated.
#[export] Hint Constants Opaque : ctl.
#[export] Hint Resolve ctl_call ctl_last ctl_eee ctl_power ctl_warn ctl_timer ctl_count_rx ctl_count_tx ctl_count_timeout
  ctl_count_reset ctl_mask ctl_clear ctl_config ctl_drop ctl_output ctl_irqOn ctl_pci ctl_offload ctl_done : ctl.
#[export] Hint Extern 2 (ctl _ _ (raise _ _)) => apply ctl_raise; [done|] : ctl.
#[export] Hint Extern 2 (ctl _ _ (lower _ _)) => apply ctl_lower; [done|] : ctl.

(** Follow the updates of a state, then compare the views. *)
Ltac ctl_steps := eapply ctl_eq; [eauto 20 with ctl|].

(** ** Every handler does a step of the machine *)

Section Handlers.
Context {P : Type} `{B : !RxBuffers P} `{RP : !RxPool P}.
Context {D : Type} `{M : !Mmio D} `{Pc : !PciConfig D} `{Pd : !PciDevice D} (undef : Z).
Context (phys : Z -> Z) (multi : Z -> bool) (rx_dma : Z -> list Z -> option (list Z)) (vtd_fuel : nat).
Implicit Types s : kdrv P.
Local Abbreviation to v p := (rets (D := D) (ctl phys v) p).

Local Ltac views v := by destruct v.

Lemma ctl_enable_chip v s : ctl phys v s -> to (with_flag __POLL_MODE false (with_mask MRxTx v)) (rtl812xEnable undef s).
Proof.
  intros H. unfold rtl812xEnable. cbv zeta. set (s1 := call _ s). assert (H1 : ctl phys v s1) by (by apply ctl_call). clearbody s1.
  apply (rets_bind _ _ _ _ (kx_enable undef (nic s1))). intros h (Hk&Hm&Hb). apply rets_ret, ctl_config.
  pose proof (ctl_lower phys __POLL_MODE _ _ ltac:(done) H1) as H2.
  eapply ctl_eq; [eapply (ctl_nic phys h _ (lower __POLL_MODE s1) MRxTx); [|  |exact Hb|exact H2]|views v].
  - by destruct Hk.
  - rewrite Hm. apply (b_rxtx _ _ (c_based _ _ _ H1)).
Qed.

Lemma ctl_restart v s : ctl phys v s -> to (down v) (rtl812xRestart undef rx_dma s).
Proof.
  intros H. unfold rtl812xRestart. cbv zeta. apply rets_seq. intros _.
  eapply rets_weaken; [apply ctl_enable_chip; eauto 20 with ctl|]. intros s' H'. eapply ctl_eq; [exact H'|views v].
Qed.

Lemma ctl_link_down v s : ctl phys v s -> to (down v) (setLinkDown undef rx_dma s).
Proof.
  intros H. unfold setLinkDown. cbv zeta. set (s1 := call _ _).
  assert (H1 : ctl phys (with_mask (v_mask v) (down v)) s1) by (unfold s1; ctl_steps; views v). clearbody s1.
  eapply (rets_bind (tp_kept (linuxData (nic s1)))); [kept|]. intros t Ht. apply rets_seq. intros _.
  set (s2 := clearRxTxRings rx_dma (put_tp t s1)).
  assert (H2 : ctl phys (with_mask (v_mask v) (down v)) s2)
    by (eapply ctl_eq; [apply (ctl_clear phys multi); by apply ctl_tp|views v]). clearbody s2.
  pose proof (ctl_mask phys MRxTx _ _ H2) as H3. cbn [mask_of] in H3. set (s3 := put_mask _ s2) in *. clearbody s3.
  eapply (rets_bind (tp_kept (linuxData (nic s3)))); [apply kx_kept_stored; reflexivity|]. intros t' Ht'. apply rets_ret.
  eapply ctl_eq; [by apply ctl_tp|views v].
Qed.

Lemma ctl_link_up v s : ctl phys v s -> to (with_flag __LINK_UP true (with_fw true (v_irq v) (v_pci v) v)) (setLinkUp s).
Proof.
  intros H. unfold setLinkUp. cbv zeta. apply rets_seq. intros _. apply rets_ret. ctl_steps. views v.
Qed.

Lemma ctl_check v s : ctl phys v s ->
  rets (D := D) (fun s' => ctl phys (down (with_timer false v)) s' \/ ctl phys (up v) s') (rtl812xCheckLinkStatus undef rx_dma s).
Proof.
  intros H. unfold rtl812xCheckLinkStatus. apply rets_seq. intros st. case_match.
  - eapply (rets_bind (tp_kept (linuxData (nic s)))); [kept|]. intros t Ht.
    eapply rets_bind; [apply ctl_link_down, ctl_timer, ctl_tp; [exact Ht|exact H]|].
    intros s1 H1. apply rets_ret. left. ctl_steps. views v.
  - apply rets_seq. intros e. cbv zeta. set (s1 := put_eee _ _).
    assert (H1 : ctl phys v s1).
    { apply ctl_eee, ctl_tp; [|done]. unfold negotiated. destruct (status_speed st). split; reflexivity. }
    clearbody s1. apply (rets_bind _ _ _ _ (kx_link_on (nic s1))). intros h (Hk&Hm&Hb).
    eapply rets_bind; [apply ctl_link_up, ctl_config; eapply ctl_nic; [exact Hk| |exact Hb|exact H1]|].
    { rewrite Hm. apply (c_mask _ _ _ H1). }
    intros s2 H2. apply rets_ret. right. ctl_steps. views v.
Qed.

Lemma ctl_select v s i : ctl phys v s -> to (down v) (selectMedium undef rx_dma (Some i) s).
Proof.
  intros H. cbn [selectMedium]. cbv zeta. apply ctl_link_down, ctl_call, ctl_tp; [|done].
  case_match; [|reflexivity]. split; reflexivity.
Qed.

Lemma medium_auto v s : ctl phys v s -> medium_at MIDX_AUTO s = Some MIDX_AUTO.
Proof. intros H. unfold medium_at, MIDX_AUTO. by rewrite (proj2 (Z.ltb_lt _ _) (b_pub _ _ (c_based _ _ _ H))). Qed.

Lemma ctl_enable v s present sel : ctl phys v s ->
  rets (D := D) (fun r => exists v', astep v v' /\ ctl phys v' r.2) (enable undef rx_dma present sel s).
Proof.
  intros H. unfold enable. destruct (flag __ENABLED s) eqn:E; [apply rets_ret; by exists v; split; [constructor|]|].
  destruct (negb present || pciOpen (fw s)) eqn:E2; [apply rets_ret; by exists v; split; [constructor|]|].
  apply orb_false_iff in E2 as [_ E2]. cbv zeta. set (s1 := put_pci true s).
  assert (H1 : ctl phys (with_fw (v_output v) (v_irq v) true v) s1) by (by apply ctl_pci).
  assert (Ei : exists i, (match sel with Some i => Some i | None => medium_at MIDX_AUTO s1 end) = Some i)
    by (destruct sel; [by eexists|eexists; by eapply medium_auto]).
  destruct Ei as [i ->]. clearbody s1. apply (rets_bind _ _ _ _ (ctl_select _ s1 i H1)). intros s2 H2.
  apply (rets_bind _ _ _ _ (ctl_enable_chip _ s2 H2)). intros s3 H3. apply rets_ret. exists (switched_on v). cbn [snd].
  rewrite (c_enabled _ _ _ H) in E. rewrite (c_pci _ _ _ H) in E2. split; [by constructor|]. ctl_steps. views v.
Qed.
Lemma ctl_disable v s : ctl phys v s ->
  rets (D := D) (fun s' => exists v', astep v v' /\ ctl phys v' s') (disable rx_dma s).
Proof.
  intros H. unfold disable. destruct (flag __ENABLED s) eqn:E; cbn [negb]; [|apply rets_ret; exists v; by split; [constructor|]].
  cbv zeta. set (s1 := put_irqOn _ _).
  assert (H1 : ctl phys (with_warn (v_warn v) (with_fw false false (v_pci v) (switched_off v))) s1) by (unfold s1; ctl_steps; views v).
  clearbody s1. unfold rtl812xDisable. cbv zeta. rewrite (c_enabled _ _ _ H) in E.
  eapply (rets_bind (ctl phys (with_fw false false (v_pci v) (switched_off v)))).
  - do 3 (apply rets_seq; intros _). eapply (rets_bind (tp_kept (linuxData (nic s1)))); [kept|]. intros t Ht.
    apply rets_seq. intros _. apply rets_ret. set (s2 := put_tp t _).
    assert (H2 : ctl phys (with_fw false false (v_pci v) (switched_off v)) s2)
      by (apply ctl_tp; [exact Ht|]; ctl_steps; views v).
    clearbody s2. by rewrite (c_link _ _ _ H2).
  - intros s2 H2. apply rets_ret. exists (switched_off v). split; [by constructor|]. ctl_steps. views v.
Qed.

(** *** Interrupts *)

Definition some_ctl (v : view) (o : option (kdrv P)) : Prop := match o with Some s => ctl phys v s | None => True end.
Definition opt_ctl (R : view -> Prop) (o : option (kdrv P)) : Prop :=
  match o with Some s => exists v, R v /\ ctl phys v s | None => True end.

Lemma ctl_serve st v s : ctl phys v s -> v_pollMode v = false -> v_polling v = false ->
  rets (D := D) (opt_ctl (served v)) (serve_rings phys multi rx_dma vtd_fuel st s).
Proof.
  intros H Hm Hp. unfold serve_rings. cbv zeta. pose proof (ctl_raise phys __POLLING v s ltac:(done) H) as H1.
  set (v1 := with_flag _ _ _) in *. set (s1 := raise _ s) in *. clearbody s1.
  set (o := if has st _ then _ else _). assert (Ho : some_ctl v1 o).
  { unfold o. destruct (has st (RxOK .| RxDescUnavail)); [|exact H1].
    destruct (receive phys multi rx_dma vtd_fuel kNumRxDesc s1) as [[k s2]|] eqn:E; [|done].
    pose proof (ctl_receive phys multi rx_dma vtd_fuel _ _ _ _ _ H1 E) as H2. cbn [some_ctl]. apply ctl_count_rx.
    case_match; [exact H2|by apply ctl_call]. }
  destruct o as [s2|]; [|by apply rets_ret]. cbn [some_ctl] in Ho. clear H1.
  eapply (rets_bind (ctl phys v1)).
  { destruct (has st (TxOK .| RxOK .| PCSTimeout)); [|by apply rets_ret].
    apply (rets_bind _ _ _ _ (ctl_tx_interrupt phys _ _ Ho)). intros s3 H3. apply rets_ret. case_match; [by apply ctl_count_tx|done]. }
  intros s3 H3. eapply (rets_bind (opt_ctl (fun w => w = v1 \/ exists m, m <> MPoll /\ w = with_mask m v1) ∘ Some)).
  { destruct (has st (TxOK .| RxOK)); [|destruct (has st PCSTimeout)]; repeat (apply rets_seq; intros _); apply rets_ret.
    - exists (with_mask MTimer v1). split; [right; by exists MTimer|]. exact (ctl_mask phys MTimer _ _ H3).
    - exists (with_mask MRxTx v1). split; [right; by exists MRxTx|]. exact (ctl_mask phys MRxTx _ _ H3).
    - exists v1. split; [by left|done]. }
  intros s4 (w&Hw&H4). apply rets_ret. cbn [opt_ctl].
  destruct Hw as [->|(m&Hm'&->)]; [exists v|exists (with_mask m v)]; (split; [by constructor|]); ctl_steps; destruct v; cbn in Hp; by subst.
Qed.

Lemma ctl_link_change st v s : ctl phys v s ->
  rets (D := D) (fun s' => exists v', linked_up v v' /\ ctl phys v' s') (link_change undef rx_dma st s).
Proof.
  intros H. unfold link_change. destruct (has st LinkChg); [|apply rets_ret; exists v; by split; [constructor|]].
  apply (rets_bind _ _ _ _ (ctl_check _ _ H)). intros s1 H1. apply rets_seq. intros _. apply rets_ret.
  destruct H1 as [H1|H1]; pose proof (ctl_mask phys MRxTx _ _ H1) as H2; eexists; (split; [|exact H2]); [apply lk_down|apply lk_up].
Qed.

Lemma ctl_interrupt v s : ctl phys v s -> v_irq v = true ->
  rets (D := D) (opt_ctl (astep v)) (interruptOccurred undef phys multi rx_dma vtd_fuel s).
Proof.
  intros H Hi. unfold interruptOccurred. apply rets_seq. intros st. case_match.
  { apply rets_seq. intros _. apply rets_ret. exists v. by split; [constructor|]. }
  apply rets_seq. intros _. apply rets_seq. intros _. rewrite (c_pollMode _ _ _ H), (c_polling _ _ _ H).
  eapply (rets_bind (opt_ctl (served v))).
  { destruct (v_pollMode v || v_polling v) eqn:E; [apply rets_ret; exists v; by split; [constructor|]|].
    apply orb_false_iff in E as [??]. by apply ctl_serve. }
  intros [s1|] H1; [|by apply rets_ret]. destruct H1 as (v1&Hs&H1).
  apply (rets_bind _ _ _ _ (ctl_link_change st v1 s1 H1)). intros s2 (v2&Hl&H2). apply rets_seq. intros _. apply rets_ret.
  exists v2. split; [by eapply a_irq|done].
Qed.

(** *** Polling and the watchdog *)

Lemma ctl_polling_enable b v s : ctl phys v s ->
  rets (D := D) (fun s' => exists v', astep v v' /\ ctl phys v' s') (setInputPacketPollingEnable b s).
Proof.
  intros H. unfold setInputPacketPollingEnable. destruct (flag __ENABLED s) eqn:E; [|apply rets_ret; exists v; by split; [constructor|]].
  rewrite (c_enabled _ _ _ H) in E. cbv zeta. apply rets_seq. intros _. apply rets_ret. exists (poll_mode b v). split; [by constructor|].
  destruct b.
  - pose proof (ctl_mask phys MPoll _ _ (ctl_raise phys __POLL_MODE _ _ ltac:(done) H)) as H1. eapply ctl_eq; [exact H1|views v].
  - pose proof (ctl_mask phys MRxTx _ _ (ctl_lower phys __POLL_MODE _ _ ltac:(done) H)) as H1. eapply ctl_eq; [exact H1|views v].
Qed.

Lemma ctl_poller o v s : ctl phys v s -> ctl phys (with_polling (v_polling v) (bool_decide (o <> None)) v) (put_poller o s).
Proof. intros []. split; try assumption; try reflexivity. destruct c_based0. by split. Qed.

Lemma ctl_poll_begin n v s : ctl phys v s -> exists v', astep v v' /\ ctl phys v' (poll_begin n s).
Proof.
  intros H. unfold poll_begin. destruct (flag __POLL_MODE s && negb (flag __POLLING s)) eqn:E; [|exists v; by split; [constructor|]].
  apply andb_true_iff in E as [E1 E2]. apply negb_true_iff in E2. rewrite (c_pollMode _ _ _ H) in E1. rewrite (c_polling _ _ _ H) in E2.
  exists (with_polling true true v). split; [by constructor|].
  eapply ctl_eq; [apply ctl_poller, ctl_raise; [done|exact H]|]. by rewrite bool_decide_true.
Qed.

Lemma ctl_poll_work n k v s : ctl phys v s -> poller s = Some k ->
  rets (D := D) (opt_ctl (astep v)) (poll_work phys multi rx_dma vtd_fuel n s).
Proof.
  intros H Hp. unfold poll_work. destruct (receive phys multi rx_dma vtd_fuel n s) as [[g s1]|] eqn:E; [|by apply rets_ret].
  pose proof (ctl_receive phys multi rx_dma vtd_fuel _ _ _ _ _ H E) as H1.
  apply (rets_bind _ _ _ _ (ctl_tx_interrupt phys _ _ H1)). intros s2 H2. apply rets_ret. exists (with_polling false false v).
  split; [constructor; by rewrite <- (c_poller _ _ _ H), Hp|].
  eapply ctl_eq; [apply ctl_poller, ctl_lower; [done|exact H2]|]. by rewrite bool_decide_false by (intros []; done).
Qed.

(** The watchdog: progress, a warning, or a reset with the sixth. *)
Definition hang_result (v : view) (r : bool * kdrv P) : Prop :=
  exists v', watched v v' /\ ctl phys v' (if r.1 then r.2 else put_timer true r.2).

Lemma ctl_hang v s : ctl phys (with_timer false v) s -> v_link v = true -> 0 <= v_warn v <= 5 ->
  rets (D := D) (hang_result v) (txHangCheck undef rx_dma s).
Proof.
  intros H El Hw. unfold txHangCheck. cbv zeta. pose proof (c_warn _ _ _ H) as Ew. cbn [with_timer v_warn] in Ew. case_match.
  2: { apply rets_ret. eexists. split; [by apply wt_progress|]. cbn [fst snd]. ctl_steps. views v. }
  rewrite Ew, u32_small by lia. pose proof (ctl_warn phys (v_warn v + 1) _ _ H) as H3. set (s3 := put_warn _ s) in *.
  assert (Ew3 : deadlockWarn (wd s3) = v_warn v + 1) by reflexivity. rewrite Ew3. clearbody s3.
  assert (Hstuck : forall s4, v_warn v < 5 -> ctl phys (with_warn (v_warn v + 1) (with_timer false v)) s4 -> hang_result v (false, s4)).
  { intros s4 Hlt H4. eexists. split; [by apply wt_stuck|]. cbn [fst snd]. ctl_steps. views v. }
  unfold kTxCheckTreshhold, kTxDeadlockTreshhold. destruct (v_warn v + 1 =? 6 - 1) eqn:E5; bool_props.
  { apply (rets_bind _ _ _ _ (ctl_tx_interrupt phys _ _ (ctl_count_timeout phys _ _ H3))). intros s4 H4. apply rets_ret, Hstuck; [lia|done]. }
  destruct (6 <=? v_warn v + 1) eqn:E6; bool_props.
  - apply rets_seq. intros _. apply rets_seq. intros _.
    apply (rets_bind _ _ _ _ (ctl_restart _ _ (ctl_count_reset phys _ _ H3))). intros s4 H4. apply rets_ret.
    eexists. split; [apply wt_reset; [done|lia]|exact H4].
  - apply rets_ret, Hstuck; [lia|done].
Qed.

Lemma ctl_tick v s : ctl phys v s -> view_ok v -> v_timer v = true ->
  rets (D := D) (fun s' => exists v', astep v v' /\ ctl phys v' s') (timerActionRTL8125 undef rx_dma s).
Proof.
  intros H Hok Ht. unfold timerActionRTL8125. cbv zeta. pose proof (ctl_timer phys false v s H) as H1.
  set (s1 := put_timer false s) in *. clearbody s1.
  apply (rets_bind (fun s' => exists v', watched v v' /\ ctl phys v' s')).
  2: { intros s2 (v'&Hw&H2). apply rets_ret. exists v'. split; [by apply a_timer|by apply ctl_last]. }
  rewrite (c_link _ _ _ H1). cbn [with_timer v_link]. destruct (v_link v) eqn:El.
  2: { apply rets_ret. exists (with_timer false v). split; [by constructor|done]. }
  apply rets_seq. intros _. eapply rets_bind.
  - apply ctl_hang; [by apply ctl_call|done|apply ok_warn, Hok].
  - intros [b s2] Hr. by apply rets_ret.
Qed.

(** *** Requests *)

Lemma ctl_size_vars m v s : ctl phys v s -> 0 <= m ->
  let s' := put_tx (with_mtu m (tx s)) (put_nic (set_mtu m (nic s)) s) in
  ctl phys v (put_tp (set_rms (u16 (m + VLAN_ETH_HLEN + ETH_FCS_LEN)) (linuxData (nic s'))) s').
Proof. intros [] Hm. cbv zeta. split; try assumption. destruct c_based0. by split. Qed.

Lemma ctl_set_size n v s : ctl phys v s ->
  rets (D := D) (fun r => exists v', astep v v' /\ ctl phys v' r.2) (setMaxPacketSize undef rx_dma n s).
Proof.
  intros H. unfold setMaxPacketSize. case_match; [|apply rets_ret; exists v; by split; [constructor|]]. cbv zeta.
  set (m := u32 (n - VLAN_ETH_HLEN)). pose proof (ctl_size_vars m v s H ltac:(unfold m, u32; lia)) as H1. cbv zeta in H1.
  set (s1 := put_tp (set_rms _ _) _) in *. clearbody s1.
  apply (rets_bind _ _ _ _ (ctl_link_down _ _ (ctl_offload phys _ _ _ H1))). intros s2 H2.
  eapply rets_bind; [apply ctl_restart, ctl_tp, ctl_timer; [|exact H2]; split; reflexivity|].
  intros s3 H3. apply rets_ret. eexists. split; [apply a_size|]. eapply ctl_eq; [exact H3|views v].
Qed.

Lemma ctl_wol b v s : ctl phys v s -> ctl phys v (setWakeOnMagicPacket b s).2.
Proof. intros H. unfold setWakeOnMagicPacket. case_match; [|done]. apply ctl_tp; [split; reflexivity|done]. Qed.

Lemma ctl_address a v s : ctl phys v s -> rets (D := D) (fun r => ctl phys v r.2) (setHardwareAddress a s).
Proof.
  intros H. destruct a as [a|]; cbn [setHardwareAddress]; [|by apply rets_ret]. apply rets_seq. intros _. apply rets_ret. cbn [snd].
  destruct H as [? ? ? ? ? ? ? ? ? ? ? []]. by split.
Qed.

Lemma ctl_power_state n v s : ctl phys v s -> to v (setPowerState n s).
Proof. intros H. unfold setPowerState. case_match; [by apply rets_ret|]. apply rets_seq. intros _. by apply rets_ret, ctl_power. Qed.

Lemma ctl_shutdown n v s : ctl phys v s ->
  rets (D := D) (fun s' => exists v', astep v v' /\ ctl phys v' s') (systemWillShutdown rx_dma n s).
Proof.
  intros H. unfold systemWillShutdown. case_match; [|apply rets_ret; exists v; by split; [constructor|]].
  apply (rets_bind _ _ _ _ (ctl_disable _ _ H)). intros s1 H1. do 2 (apply rets_seq; intros _). by apply rets_ret.
Qed.

Lemma ctl_filter f v s : (forall b, b <> __M_CAST -> b <> __PROMISC -> 0 <= b -> test_bit b (stateFlags f) = flag b s) ->
  ctl phys v s -> ctl phys v (put_filter f s).
Proof.
  intros Hf []. split; try assumption; try (etrans; [apply Hf; done|assumption]). destruct c_based0. by split.
Qed.

Lemma ctl_output_start cursor dma q stack v s : ctl phys v s ->
  rets (D := D) (fun o => match o with Some r => ctl phys v r.2 | None => True end) (output_start cursor dma q stack s).
Proof.
  intros H. unfold output_start. destruct (KextTx.outputStart _ _ _ _ _ _) as [[[[ok q'] bell] t]|] eqn:E; [|by apply rets_ret].
  apply rets_seq. intros _. apply rets_ret. cbn [snd]. apply ctl_tx; [by eapply same_output|done].
Qed.
End Handlers.
