(* ===== verification/KextCtlRun.v ===== *)
(** The kernel extension: runs. The events the driver sees, what holds after any
    sequence of them once start has succeeded, the watchdog, the packet size, and
    the places where the driver loses packets or reports a success it did not have. *)
From S2P Require Import Prelude Mmio Channel Chip SwVars Eeprom Hw Mcu Power Fiber PhyConfig RxFilter BringUp.
From S2P Require Import Frame TxOffload KextPool KextTx KextRx KextHw KextMedia KextCtl.
From S2P Require Import RxFilterSpec DriverSpec KextPoolSpec KextTxSpec KextRxSpec KextRxRun KextCtlSpec.

#[local] Opaque clearTxRing clearRxRing.

(** ** Events *)

(** Requests of the network family, the interrupt, the timer, the poller's two
    steps, the output thread. *)
Inductive kevent :=
| EvEnable (selected : option Z)
| EvDisable
| EvMedium (i : Z)
| EvInterrupt
| EvTimer
| EvPollMode (enabled : bool)
| EvPollBegin (maxCount : Z)
| EvPollWork
| EvOutput (q : list mpkt) (stack : list (Z * Z))
| EvPacketSize (maxSize : Z)
| EvWakeOn (active : bool)
| EvAddress (addr : option (list Z))
| EvPower (ordinal : Z)
| EvShutdown (specifier : Z)
| EvPromiscuous (active : bool)
| EvMulticast (active : bool).

Section Runs.
Context {P : Type} `{B : !RxBuffers P} `{RP : !RxPool P}.
Context {D : Type} `{M : !Mmio D} `{Pc : !PciConfig D} `{Pd : !PciDevice D} (undef : Z).
Context (cursor : mpkt -> list (Z * Z)) (dma : Z -> list (Z * Z) -> dma_answer).
Context (phys : Z -> Z) (multi : Z -> bool) (rx_dma : Z -> list Z -> option (list Z)) (vtd_fuel : nat).
Implicit Types s : kdrv P.

(** The interrupt comes while its source is enabled, the timer when it is set. *)
Definition may_happen (e : kevent) s : Prop :=
  match e with
  | EvInterrupt => irqOn (fw s) = true
  | EvTimer => timerOn (fw s) = true
  | EvPollWork => poller s <> None
  | _ => True
  end.

Definition always (p : prog D (kdrv P)) : prog D (option (kdrv P)) := bind p (fun s => ret (Some s)).
Definition second {A} (p : prog D (A * kdrv P)) : prog D (option (kdrv P)) := bind p (fun r => ret (Some r.2)).

(** [None]: the handler does not return. *)
Definition on_event (e : kevent) s : prog D (option (kdrv P)) :=
  match e with
  | EvEnable sel => second (enable undef rx_dma true sel s)
  | EvDisable => always (disable rx_dma s)
  | EvMedium i => always (selectMedium undef rx_dma (Some i) s)
  | EvInterrupt => interruptOccurred undef phys multi rx_dma vtd_fuel s
  | EvTimer => always (timerActionRTL8125 undef rx_dma s)
  | EvPollMode b => always (setInputPacketPollingEnable b s)
  | EvPollBegin n => ret (Some (poll_begin n s))
  | EvPollWork => match poller s with Some n => poll_work phys multi rx_dma vtd_fuel n s | None => ret (Some s) end
  | EvOutput q stack => bind (output_start cursor dma q stack s) (fun o => ret (snd <$> o))
  | EvPacketSize n => second (setMaxPacketSize undef rx_dma n s)
  | EvWakeOn b => ret (Some (setWakeOnMagicPacket b s).2)
  | EvAddress a => second (setHardwareAddress a s)
  | EvPower n => always (setPowerState n s)
  | EvShutdown n => always (systemWillShutdown rx_dma n s)
  | EvPromiscuous b => always (set_promiscuous b s)
  | EvMulticast b => always (set_multicast b s)
  end.

(** What the chip and the network stack do to the receive ring meanwhile. *)
Inductive rx_env : krx P -> krx P -> Prop :=
| env_chip r i d d' : in_ring i -> r_descs r !! i = Some d -> has (d_opts1 d) DescOwn = true -> has (d_opts1 d') DescOwn = false ->
    status_ok (d_opts1 d') -> d_addr d' = d_addr d -> rx_env r (with_descs (<[i := d']> (r_descs r)) r)
| env_stack r p' h' : (forall m, holds r m -> mbuf_next m h' = mbuf_next m (r_heap r) /\ mbuf_len m h' = mbuf_len m (r_heap r)) ->
    (forall X, out (r_pool r) X -> (forall m, holds r m -> m ∈ X) -> exists X', out p' X' /\ forall m, holds r m -> m ∈ X') ->
    rx_env r (with_heap h' (with_pool p' r)).

(** The chip may be in any state when the driver is called. *)
Inductive kstep : kdrv P -> kdrv P -> Prop :=
| ks_event e s s' d : may_happen e s -> (on_event e s d).1 = Some s' -> kstep s s'
| ks_env s r : rx_env (rx s) r -> kstep s (put_rx r s).

Lemma env_inv n r r' : rxinv phys n r -> rx_env r r' -> rxinv phys n r'.
Proof.
  intros H He. destruct He as [r i d d' ? ? _ _ ? ?|r p' h' ? ?]; [by apply (chip_inv phys r n i d d')|by apply stack_inv].
Qed.

(** ** Every event is a step of the machine *)

Definition stepped (v : view) (o : option (kdrv P)) : Prop := opt_ctl phys (astep v) o.

Lemma stepped_always v p : rets (fun s' => exists v', astep v v' /\ ctl phys v' s') p -> rets (stepped v) (always p).
Proof. intros H. unfold always. apply (rets_bind _ _ _ _ H). intros s H'. by apply rets_ret. Qed.
Lemma stepped_second {A} v (p : prog D (A * kdrv P)) :
  rets (fun r => exists v', astep v v' /\ ctl phys v' r.2) p -> rets (stepped v) (second p).
Proof. intros H. unfold second. apply (rets_bind _ _ _ _ H). intros s H'. by apply rets_ret. Qed.
Lemma stays v s : ctl phys v s -> exists v', astep v v' /\ ctl phys v' s.
Proof. intros H. exists v. split; [constructor|done]. Qed.

(** A filter request changes no flag but its own. *)
Definition own_flags (x y : Z) : Prop := forall b, b <> __M_CAST -> b <> __PROMISC -> 0 <= b -> test_bit b y = test_bit b x.

Lemma filter_flags_promisc id b f :
  rets (D := D) (fun r => own_flags (stateFlags f) (stateFlags r.2)) (RxFilter.Kext.setPromiscuousMode id b f).
Proof.
  unfold RxFilter.Kext.setPromiscuousMode. apply rets_seq. intros _. apply rets_ret. intros c Hm Hp Hc. cbn [snd stateFlags].
  rewrite upd_bit_test by done. by rewrite (proj2 (Z.eqb_neq _ _)) by done.
Qed.
Lemma filter_flags_multi id b f :
  rets (D := D) (fun r => own_flags (stateFlags f) (stateFlags r.2)) (RxFilter.Kext.setMulticastMode id b f).
Proof.
  unfold RxFilter.Kext.setMulticastMode. apply rets_seq. intros _. apply rets_ret. intros c Hm Hp Hc. cbn [snd stateFlags].
  rewrite upd_bit_test by done. by rewrite (proj2 (Z.eqb_neq _ _)) by done.
Qed.

Lemma event_stepped e v s : ctl phys v s -> view_ok v -> may_happen e s -> rets (D := D) (stepped v) (on_event e s).
Proof.
  intros H Hok Hm. destruct e; cbn [on_event may_happen] in *.
  - by apply stepped_second, (ctl_enable undef phys multi).
  - by apply stepped_always, (ctl_disable phys multi).
  - apply stepped_always. eapply rets_weaken; [by apply (ctl_select undef phys multi)|]. intros s' H'. exists (down v). split; [constructor|done].
  - apply ctl_interrupt; [done|]. by rewrite <- (c_irq _ _ _ H).
  - apply stepped_always, (ctl_tick undef phys multi); [done..|]. by rewrite <- (c_timer _ _ _ H).
  - by apply stepped_always, ctl_polling_enable.
  - apply rets_ret. by apply ctl_poll_begin.
  - destruct (poller s) as [n|] eqn:E; [by eapply ctl_poll_work|apply rets_ret, stays, H].
  - apply (rets_bind _ _ _ _ (ctl_output_start phys cursor dma q stack v s H)). intros [r|] Hr; apply rets_ret; [by apply stays|done].
  - by apply stepped_second, (ctl_set_size undef phys multi).
  - apply rets_ret. by apply stays, ctl_wol.
  - apply stepped_second. eapply rets_weaken; [by apply ctl_address|]. intros r Hr. by apply stays.
  - apply stepped_always. eapply rets_weaken; [by apply ctl_power_state|]. intros r Hr. by apply stays.
  - by apply stepped_always, (ctl_shutdown phys multi).
  - apply stepped_always. unfold set_promiscuous. apply (rets_bind _ _ _ _ (filter_flags_promisc _ _ _)). intros r Hr.
    apply rets_ret. by apply stays, ctl_filter.
  - apply stepped_always. unfold set_multicast. apply (rets_bind _ _ _ _ (filter_flags_multi _ _ _)). intros r Hr.
    apply rets_ret. by apply stays, ctl_filter.
Qed.

(** The driver's run is a run of the machine. *)
Lemma kstep_refines v s s' : ctl phys v s -> view_ok v -> kstep s s' -> exists v', astep v v' /\ ctl phys v' s'.
Proof.
  intros H Hok Hs. destruct Hs as [e s s' d Hm E|s r He].
  - pose proof (event_stepped e v s H Hok Hm d) as Hst. cbv beta in Hst. rewrite E in Hst. exact Hst.
  - apply stays, ctl_rx; [|done]. intros Ev. destruct (b_rx _ _ (c_based _ _ _ H) Ev) as [n Hn]. exists n. by eapply env_inv.
Qed.

Lemma run_refines s0 s : star kstep s0 s -> forall v0, ctl phys v0 s0 -> view_ok v0 ->
  exists v, star astep v0 v /\ ctl phys v s /\ view_ok v.
Proof.
  induction 1 as [s|s1 s2 s3 Hs _ IH]; intros v0 H Hok; [exists v0; by split; [apply star_refl|]|].
  destruct (kstep_refines v0 s1 s2 H Hok Hs) as (v1&Ha&H1). destruct (IH v1 H1 (astep_ok _ _ Hok Ha)) as (v&Hst&H2&H3).
  exists v. split; [by eapply star_step|done].
Qed.
End Runs.

(** ** start *)

Section Started.
Context {D : Type} `{M : !Mmio D} `{Pc : !PciConfig D} `{Pd : !PciDevice D}.

(** The object after rtl812xInit, for an interface with mtu [m] and filter [f]. *)
Definition initialised (m : Z) (f : rxf) (h : hwst) : Prop :=
  irq h = intr_masks /\ BringUp.mtu h = m /\ BringUp.filter h = f /\ rms (linuxData h) = u16 (m + VLAN_ETH_HLEN + ETH_FCS_LEN).

Lemma kx_init_result rnd h :
  rets (D := D) (fun r => r.1 = true -> initialised (BringUp.mtu h) (BringUp.filter h) r.2) (KextHw.rtl812xInit rnd h).
Proof.
  unfold KextHw.rtl812xInit. cbv zeta. apply rets_seq. intros [id ok]. destruct ok; [|by apply rets_ret]. cbn [negb].
  do 6 (apply rets_seq; intros ?). set (h1 := KextHw.init_vars _ _ _ _).
  assert (E : BringUp.mtu h1 = BringUp.mtu h /\ BringUp.filter h1 = BringUp.filter h /\
    rms (linuxData h1) = u16 (BringUp.mtu h + VLAN_ETH_HLEN + ETH_FCS_LEN)) by done.
  clearbody h1. destruct E as (E1&E2&E3).
  eapply (rets_bind (tp_kept (linuxData h1))); [kept|]. intros t1 [_ Hr _ _ _].
  do 3 (apply rets_seq; intros ?).
  eapply (rets_bind (fun h' => exists a, h' = set_addrs a _)).
  { unfold KextHw.initMacAddr. do 3 (apply rets_seq; intros ?). apply rets_seq. intros _. apply rets_ret. by eexists. }
  intros h2 [x Hx]. subst h2. do 4 (apply rets_seq; intros ?). apply rets_ret. intros _. split; [done|]. split; [exact E1|].
  split; [exact E2|]. cbn. by rewrite Hr.
Qed.

Lemma medium_limit_pos m max : 0 < medium_limit m max.
Proof. unfold medium_limit. repeat case_match; done. Qed.

(** What start leaves when it has set up everything. *)
Definition started (h : hwst) (r : bool * list resource * (hwst * setup)) : Prop :=
  r.1.2 <> [] -> initialised (BringUp.mtu h) (BringUp.filter (clear_rx_mode h)) r.2.1 /\ 0 < s_published r.2.2.

Lemma add_all created added l : forall r, (forall i, created i = true) -> (add_media created added l r).1 = false -> (add_media created added l r).2 = false.
Proof.
  induction l as [|i l IH]; intros r Hc; cbn [add_media]; [done|]. rewrite Hc. destruct (added i); [by apply IH|done].
Qed.

Lemma start_started e params rnd p h : (forall i, e_created e i = true) -> rets (D := D) (started h) (start e params rnd p h).
Proof.
  intros Hc. unfold start. destruct (getParams params) as [kp l]. cbv zeta. destruct (e_super e); cbn [negb]; [|by apply rets_ret].
  destruct (e_provider e); cbn [negb]; [|by apply rets_ret]. destruct (e_open e); cbn [negb]; [|by apply rets_ret].
  apply rets_seq. intros [mapped p']. destruct mapped; cbn [negb]; [|by apply rets_ret].
  apply (rets_bind _ _ _ _ (kx_init_result _ _)). intros [ok h'] Hi. destruct ok; cbn [negb]; [|by apply rets_ret].
  specialize (Hi eq_refl). cbn [snd] in Hi. unfold setupMediumDict. cbv zeta.
  set (ids := seqZ 0 _). pose proof (add_all (e_created e) (e_added e) ids false Hc) as Ha. destruct (add_media _ _ ids false) as [[|] b].
  2: { cbn [fst snd] in Ha. rewrite (Ha eq_refl). by apply rets_ret. }
  destruct (e_published e); cbn [negb]; [|by apply rets_ret].
  destruct (e_gate e), (e_tx e), (e_rx e), (e_stat e), (e_sources e), (e_attach e); cbn [negb]; apply rets_ret; intros Hne; try done.
  split; [exact Hi|]. cbn [snd s_published]. apply medium_limit_pos.
Qed.

(** Start reports success when it has failed: the result is that of the
    superclass until the interface is attached, so whenever a step before fails
    (no device, no chip, no memory, no interrupt) it returns true, with
    everything it had allocated released. *)
Theorem kext_start_reports_success e params rnd p h : e_super e = true ->
  e_provider e && e_open e && e_gate e && e_tx e && e_rx e && e_stat e && e_sources e = false ->
  rets (D := D) (fun r => r.1 = (true, [])) (start e params rnd p h).
Proof.
  intros Hs Hf. unfold start. destruct (getParams params) as [kp l]. cbv zeta. rewrite Hs. cbn [negb].
  destruct (e_provider e); cbn [negb]; [|by apply rets_ret]. destruct (e_open e); cbn [negb]; [|by apply rets_ret].
  apply rets_seq. intros [mapped p']. destruct mapped; cbn [negb]; [|by apply rets_ret].
  apply rets_seq. intros [ok h']. destruct ok; cbn [negb]; [|by apply rets_ret].
  destruct (setupMediumDict _ _ _ _ _) as [made n]. destruct made; cbn [negb]; [|by apply rets_ret].
  destruct (e_gate e), (e_tx e), (e_rx e), (e_stat e), (e_sources e); cbn [negb]; try (by apply rets_ret). done.
Qed.
End Started.

(** ** After start *)

Section Control.
Context {P : Type} `{B : !RxBuffers P} `{RP : !RxPool P}.
Context {D : Type} `{M : !Mmio D} `{Pc : !PciConfig D} `{Pd : !PciDevice D} (undef : Z).
Context (cursor : mpkt -> list (Z * Z)) (dma : Z -> list (Z * Z) -> dma_answer).
Context (phys : Z -> Z) (multi : Z -> bool) (rx_dma : Z -> list Z -> option (list Z)) (vtd_fuel : nat).
Implicit Types s : kdrv P.

(** The driver once start has returned: rings set up, nothing enabled. *)
Definition boot (vtd : bool) (m : mem) (r : krx P) (h : hwst) (c : setup) (offload : Z) : kdrv P :=
  mkKdrv P h (setupTx vtd (BringUp.mtu h) (s_MaxTxDescPtrMask (tp_sw (linuxData h))) m) r false (mkWatch 0 0 0 0 0 0)
    (mkFw false false false false offload []) c kPowerStateOn None.

Definition idle : view := mkView false false false false false false false false 0 MRxTx false.

Lemma idle_ok : view_ok idle.
Proof. by split. Qed.

Lemma boot_ctl vtd m r h0 h c off : stateFlags (BringUp.filter h0) = 0 ->
  initialised (BringUp.mtu h0) (BringUp.filter (clear_rx_mode h0)) h -> 0 < s_published c ->
  (vtd = false -> exists n, rxinv phys n r) -> ctl phys idle (boot vtd m r h c off).
Proof.
  intros Hf (E1&E2&E3&E4) Hc Hr.
  assert (Hfl : forall b, 0 <= b -> flag b (boot vtd m r h c off) = false).
  { intros b Hb. unfold flag, flags_of. cbn [boot nic]. rewrite E3. cbn [clear_rx_mode set_filter BringUp.filter stateFlags].
    rewrite !clear_bit_test, Hf by done. unfold test_bit. by rewrite Z.testbit_0_l. }
  split; try (apply Hfl; done); try reflexivity.
  - cbn [boot nic]. by rewrite E1.
  - split; cbn [boot nic tx rx conf setupTx k_mtu k_ptrMask k_useVTD]; rewrite ?E1, ?E2, ?E4; done.
Qed.

(** C5: Once start has set the driver up, whatever the chip answers and whatever the
    order of requests, interrupts, ticks, polls and packets, as long as the
    handlers return: the control state runs the abstract machine. So the
    interrupt source is on and the PCI device open exactly while the interface is
    enabled; the output thread runs exactly while the link is up, and then the
    interface is enabled and the watchdog set, with at most five warnings; the
    polling flag is up only while a poller works; an enabled interface that is
    not polled has its receive interrupts unmasked; the receive size is the mtu
    with VLAN header and FCS, in sixteen bits; and without the IOMMU every slot of the
    receive ring has a buffer of its own. *)
Theorem kext_control_state e params rnd p h0 (d : D) res h c vtd m r off s :
  (forall i, e_created e i = true) -> (start e params rnd p h0 d).1 = (true, res, (h, c)) -> res <> [] -> stateFlags (BringUp.filter h0) = 0 ->
  (vtd = false -> exists n, rxinv phys n r) ->
  star (kstep (D := D) undef cursor dma phys multi rx_dma vtd_fuel) (boot vtd m r h c off) s ->
  (exists v, star astep idle v /\ ctl phys v s) /\
  irqOn (fw s) = flag __ENABLED s /\ pciOpen (fw s) = flag __ENABLED s /\
  outThread (fw s) = flag __LINK_UP s /\
  (flag __LINK_UP s = true -> flag __ENABLED s = true /\ timerOn (fw s) = true) /\
  0 <= deadlockWarn (wd s) <= 5 /\
  (flag __POLLING s = true -> poller s <> None) /\
  (flag __ENABLED s = true -> flag __POLL_MODE s = false -> has (intrMask (irq (nic s))) RxOK = true) /\
  (k_mtu (tx s) = BringUp.mtu (nic s) /\ rms (linuxData (nic s)) = u16 (BringUp.mtu (nic s) + VLAN_ETH_HLEN + ETH_FCS_LEN)) /\
  (k_useVTD (tx s) = false -> forall i j, in_ring i -> in_ring j -> mb i (rx s) <> 0 /\ (mb i (rx s) = mb j (rx s) -> i = j)).
Proof.
  intros Hcr Hst Hres Hf Hr Hrun. pose proof (start_started (D := D) e params rnd p h0 Hcr d) as Hs. cbv beta in Hs. rewrite Hst in Hs.
  destruct (Hs Hres) as [Hi Hp]. cbn [fst snd] in Hi, Hp.
  destruct (run_refines undef cursor dma phys multi rx_dma vtd_fuel _ _ Hrun idle (boot_ctl vtd m r h0 h c off Hf Hi Hp Hr) idle_ok)
    as (v&Hv&Hc&[O1 O2 O3 _ O5 O6 O7 O8 O9]).
  split; [by exists v|]. destruct Hc as [Hen Hlk Hpm Hpo Hou Hti Hir Hpc Hwa Hma Hpl [Hmtu Hrms _ _ _ _ _ Hrx]].
  rewrite Hen, Hlk, Hpm, Hpo, Hou, Hti, Hir, Hpc, Hwa, Hma. split; [done|]. split; [done|]. split; [done|].
  split; [by auto|]. split; [done|]. split.
  { intros E. specialize (O8 E). rewrite <- Hpl in O8. by apply bool_decide_eq_true in O8. }
  split; [intros Ee Ep; specialize (O9 Ee Ep); by destruct (v_mask v)|]. split; [done|].
  intros Ev i j Hi' Hj. destruct (Hrx Ev) as (n&X&pend&_&Hsl&_). split; [by apply (so_mbuf _ _ _ _ Hsl)|by apply (so_inj _ _ _ _ Hsl)].
Qed.
End Control.

(** ** The watchdog *)

Section Watchdog.
Context {P : Type} `{B : !RxBuffers P}.
Context {D : Type} `{M : !Mmio D} `{Pc : !PciConfig D} (undef : Z) (rx_dma : Z -> list Z -> option (list Z)).
Implicit Types s : kdrv P.

Fixpoint ticks (n : nat) s : prog D (kdrv P) :=
  match n with O => ret s | S n' => bind (ticks n' s) (timerActionRTL8125 undef rx_dma) end.

(** What a reset does to the rings and to the watchdog. *)
Definition restarted s s' : Prop :=
  tx s' = clearTxRing (tx s) /\ w_resets (wd s') = w_resets (wd s) /\ deadlockWarn (wd s') = 0 /\
  flag __LINK_UP s' = false /\ timerOn (fw s') = timerOn (fw s) /\ outThread (fw s') = false.

Lemma restart_result s : rets (D := D) (restarted s) (rtl812xRestart undef rx_dma s).
Proof.
  unfold rtl812xRestart. cbv zeta. apply rets_seq. intros _. unfold rtl812xEnable. cbv zeta.
  set (s1 := clearRxTxRings rx_dma _).
  assert (E : tx s1 = clearTxRing (tx s) /\ w_resets (wd s1) = w_resets (wd s) /\ deadlockWarn (wd s1) = 0 /\
    timerOn (fw s1) = timerOn (fw s) /\ outThread (fw s1) = false) by done.
  assert (El : flag __LINK_UP s1 = false) 
    by (change (flag __LINK_UP s1) with (flag __LINK_UP (lower __LINK_UP (put_output false s))); by rewrite flag_lower, andb_false_r by done).
  clearbody s1. destruct E as (E1&E2&E3&E4&E5). apply (rets_bind _ _ _ _ (kx_enable undef _)). intros h (_&_&Hb). apply rets_ret.
  split; [cbn [config_rings put_rx put_tx tx call put_nic put_fw]; by rewrite E1, clear_again|].
  split; [exact E2|]. split; [exact E3|]. split; [|by split].
  unfold flag, flags_of. cbn [config_rings put_rx put_tx nic put_nic]. rewrite Hb by done. cbn [call put_fw nic].
  rewrite clear_bit_test by done. unfold flag, flags_of in El. by rewrite El.
Qed.

Context (h : hwst) (t : ktx) (resets : Z).
Hypothesis Hclo : forall d : D, (rtl812xGetHwCloPtr (tp_sw (linuxData h)) d).1 = k_close t.
Hypothesis Hlink : test_bit __LINK_UP (stateFlags (BringUp.filter h)) = true.
Hypothesis Hbusy : k_free t < KextTx.kNumTxDesc.

(** [n] ticks in which nothing was sent. *)
Definition stuck (n : Z) s : Prop :=
  nic s = h /\ tx s = t /\ deadlockWarn (wd s) = n /\ txDescDoneLast (wd s) = k_done t /\ w_resets (wd s) = resets.

Lemma stuck_interrupt n s : stuck n s -> rets (D := D) (stuck n) (tx_interrupt s).
Proof.
  intros (E1&E2&E3&E4&E5) d. unfold tx_interrupt. rewrite bind_run, E1, Hclo, E2, interrupt_nothing. by repeat split.
Qed.

Lemma stuck_hang n s : stuck n s -> 0 <= n < 5 ->
  rets (D := D) (fun r => r.1 = false /\ stuck (n + 1) r.2) (txHangCheck undef rx_dma s).
Proof.
  intros Hs Hn. unfold txHangCheck. cbv zeta. pose proof Hs as (E1&E2&E3&E4&E5).
  rewrite E2, E4, Z.eqb_refl, (proj2 (Z.ltb_lt _ _) Hbusy), E3, u32_small by lia. cbn [andb].
  assert (H1 : stuck (n + 1) (put_warn (n + 1) s)) by (by repeat split). set (s1 := put_warn _ s) in *.
  assert (Ew : deadlockWarn (wd s1) = n + 1) by done. rewrite Ew. clearbody s1.
  unfold kTxCheckTreshhold, kTxDeadlockTreshhold. destruct (n + 1 =? 6 - 1) eqn:E; bool_props.
  - assert (H2 : stuck (n + 1) (count_timeout s1)) by (destruct H1 as (?&?&?&?&?); by repeat split).
    apply (rets_bind _ _ _ _ (stuck_interrupt _ _ H2)). intros s2 H3. by apply rets_ret.
  - rewrite (proj2 (Z.leb_gt _ _)) by lia. by apply rets_ret.
Qed.

Lemma stuck_tick n s : stuck n s -> 0 <= n < 5 ->
  rets (D := D) (fun s' => stuck (n + 1) s' /\ timerOn (fw s') = true) (timerActionRTL8125 undef rx_dma s).
Proof.
  intros Hs Hn. unfold timerActionRTL8125. cbv zeta. pose proof Hs as (E1&E2&E3&E4&E5).
  assert (El : flag __LINK_UP (put_timer false s) = true) by (unfold flag, flags_of; cbn [put_timer put_fw nic]; by rewrite E1).
  rewrite El. apply (rets_bind (fun s' => stuck (n + 1) s' /\ timerOn (fw s') = true)).
  - apply rets_seq. intros _. eapply rets_bind; [apply (stuck_hang n); [by repeat split|done]|].
    intros [b s1] [Eb H1]. cbn [fst snd] in Eb, H1. subst b. apply rets_ret. split; [|done]. destruct H1 as (?&?&?&?&?). by repeat split.
  - intros s1 [(A1&A2&A3&A4&A5) Ht]. apply rets_ret. split; [|done]. repeat split; cbn; congruence.
Qed.

Lemma stuck_ticks n : forall s, stuck 0 s -> (n <= 5)%nat ->
  rets (D := D) (fun s' => stuck (Z.of_nat n) s' /\ (n <> 0%nat -> timerOn (fw s') = true)) (ticks n s).
Proof.
  induction n as [|n IH]; intros s Hs Hn; [by apply rets_ret|]. cbn [ticks].
  apply (rets_bind _ _ _ _ (IH s Hs ltac:(lia))). intros s1 [H1 _].
  eapply rets_weaken; [apply (stuck_tick _ _ H1); lia|]. intros s2 [H2 Ht]. split; [|done].
  by replace (Z.of_nat (S n)) with (Z.of_nat n + 1) by lia.
Qed.

Lemma sixth_tick s used : stuck 5 s -> ring t used ->
  rets (D := D) (fun s' => flag __LINK_UP s' = false /\ outThread (fw s') = false /\ timerOn (fw s') = false /\
    w_resets (wd s') = u32 (resets + 1) /\ deadlockWarn (wd s') = 0 /\ ring (tx s') [] /\ k_freed (tx s') ≡ₚ k_freed t ++ omap id used)
    (timerActionRTL8125 undef rx_dma s).
Proof.
  intros Hs Hr. unfold timerActionRTL8125. cbv zeta. pose proof Hs as (E1&E2&E3&E4&E5).
  assert (El : flag __LINK_UP (put_timer false s) = true) by (unfold flag, flags_of; cbn [put_timer put_fw nic]; by rewrite E1).
  rewrite El. set (s1 := call StatCall (put_timer false s)). set (s2 := count_reset (put_warn 6 s1)).
  apply (rets_bind (restarted s2)).
  - apply rets_seq. intros _. eapply (rets_bind (fun r => r.1 = true /\ restarted s2 r.2)).
    + unfold txHangCheck. cbv zeta. cbn [s1 call put_timer put_fw tx wd fw nic]. rewrite E2, E4, Z.eqb_refl, (proj2 (Z.ltb_lt _ _) Hbusy), E3.
      cbn [andb]. change (u32 (5 + 1)) with 6. cbn [put_warn put_wd wd deadlockWarn]. cbn [Z.eqb kTxCheckTreshhold kTxDeadlockTreshhold].
      do 2 (apply rets_seq; intros _). apply (rets_bind _ _ _ _ (restart_result s2)). intros s3 H3. by apply rets_ret.
    + intros [b s3] [Eb H3]. cbn [fst snd] in Eb, H3. subst b. by apply rets_ret.
  - intros s3 (A1&A2&A3&A4&A5&A6). apply rets_ret. destruct (clear_ring t used Hr) as (C1&C2&_).
    assert (Et : tx s3 = clearTxRing t) by (rewrite A1; cbn; by rewrite E2).
    split; [exact A4|]. split; [exact A6|]. split; [exact A5|]. split; [cbn; rewrite A2; cbn; by rewrite E5|]. split; [exact A3|].
    cbn [put_last put_wd tx]. rewrite Et. by split.
Qed.
End Watchdog.

Section Properties.
Context {P : Type} `{B : !RxBuffers P}.
Context {D : Type} `{M : !Mmio D} `{Pc : !PciConfig D} (undef : Z) (rx_dma : Z -> list Z -> option (list Z)).
Implicit Types s : kdrv P.

(** C11: A transmitter that is stuck is reset with the sixth tick of the watchdog. While
    packets wait in the ring and the chip closes no descriptor, the first five
    ticks change neither the ring nor the link; the sixth resets the chip once,
    gives back every packet in the ring and leaves the ring empty, the link down
    and the watchdog off until the link is up again. A tick after progress, or
    with an empty ring, starts the count anew. *)
Theorem kext_watchdog s used :
  (forall d : D, (rtl812xGetHwCloPtr (tp_sw (linuxData (nic s))) d).1 = k_close (tx s)) -> flag __LINK_UP s = true ->
  ring (tx s) used -> used <> [] -> txDescDoneLast (wd s) = k_done (tx s) -> deadlockWarn (wd s) = 0 ->
  (forall n, (0 < n <= 5)%nat -> rets (D := D) (fun s' => flag __LINK_UP s' = true /\ tx s' = tx s /\ deadlockWarn (wd s') = Z.of_nat n /\
     timerOn (fw s') = true) (ticks undef rx_dma n s)) /\
  rets (D := D) (fun s' => flag __LINK_UP s' = false /\ outThread (fw s') = false /\ timerOn (fw s') = false /\
    w_resets (wd s') = u32 (w_resets (wd s) + 1) /\ deadlockWarn (wd s') = 0 /\ ring (tx s') [] /\
    k_freed (tx s') ≡ₚ k_freed (tx s) ++ omap id used) (ticks undef rx_dma 6 s) /\
  (forall s1, flag __LINK_UP s1 = true -> k_done (tx s1) <> txDescDoneLast (wd s1) \/ k_free (tx s1) = KextTx.kNumTxDesc ->
     rets (D := D) (fun s' => deadlockWarn (wd s') = 0 /\ tx s' = tx s1) (timerActionRTL8125 undef rx_dma s1)).
Proof.
  intros Hclo Hl Hr Hne Hlast Hw.
  assert (Hbusy : k_free (tx s) < KextTx.kNumTxDesc).
  { destruct Hr as (_&_&->&_). destruct used; [done|]. unfold KextTx.kNumTxDesc. cbn [length]. lia. }
  assert (H0 : stuck (nic s) (tx s) (w_resets (wd s)) 0 s) by (by repeat split).
  pose proof (fun n => stuck_ticks undef rx_dma (nic s) (tx s) (w_resets (wd s)) Hclo Hl Hbusy n s H0) as Hn.
  split; [|split].
  - intros n Hn5. eapply rets_weaken; [apply Hn; lia|]. intros s' [(E1&E2&E3&_) Ht].
    split; [unfold flag, flags_of; by rewrite E1|]. split; [done|]. split; [done|]. apply Ht. lia.
  - cbn [ticks]. apply (rets_bind _ _ _ _ (Hn 5%nat ltac:(lia))). intros s5 [H5 _].
    by apply (sixth_tick undef rx_dma (nic s) (tx s) (w_resets (wd s)) Hl Hbusy).
  - intros s1 Hl1 Hp. unfold timerActionRTL8125. cbv zeta.
    change (flag __LINK_UP (put_timer false s1)) with (flag __LINK_UP s1). rewrite Hl1.
    eapply (rets_bind (fun s' => deadlockWarn (wd s') = 0 /\ tx s' = tx s1)); [|intros s2 H2; by apply rets_ret].
    apply rets_seq. intros _. unfold txHangCheck. cbn [call put_timer put_fw tx wd].
    assert (E : (k_done (tx s1) =? txDescDoneLast (wd s1)) && (k_free (tx s1) <? KextTx.kNumTxDesc) = false).
    { destruct Hp as [Hp| ->]; [by rewrite (proj2 (Z.eqb_neq _ _) Hp)|]. by rewrite Z.ltb_irrefl, andb_false_r. }
    rewrite E. intros d. rewrite bind_run. done.
Qed.

(** A link-up interrupt while the link is up loses packets. The link-on path sets
    the positions of the transmit ring back without giving up what is in its
    slots, and forgets the receive fragment without releasing it; the next packet
    sent overwrites the mbuf of its slot. *)
Theorem kext_link_on_leaks s (d : D) : let st := (RTL_R32 PHYstatus d).1 in
  st <> 0xffffffff -> has st LinkStatus = true ->
  let s' := (rtl812xCheckLinkStatus undef rx_dma s d).1 in
  k_mbufs (tx s') = k_mbufs (tx s) /\ k_freed (tx s') = k_freed (tx s) /\ k_free (tx s') = KextTx.kNumTxDesc /\
  r_frag (rx s') = mkFrag 0 0 0 /\ h_trace (r_heap (rx s')) = h_trace (r_heap (rx s)) /\
  forall p seg cmd opts2, let t := post_packet p [seg] cmd opts2 (tx s') in
    k_mbufs t = <[0 := mp_mbuf p]> (k_mbufs (tx s)) /\ k_freed t = k_freed (tx s).
Proof.
  cbv zeta. intros H1 H2.
  assert (E : tx (rtl812xCheckLinkStatus undef rx_dma s d).1 = reset_positions (tx s) /\
    rx (rtl812xCheckLinkStatus undef rx_dma s d).1 = with_frag (mkFrag 0 0 0) (with_next 0 (rx s))).
  { unfold rtl812xCheckLinkStatus. rewrite bind_run, (proj2 (Z.eqb_neq _ _) H1), H2. cbn [negb orb].
    repeat (rewrite bind_run; cbv zeta). unfold setLinkUp. cbv zeta. repeat rewrite bind_run. done. }
  destruct E as [-> ->]. split_and!; try done. intros p [a len] cmd opts2. by split.
Qed.

(** disable clears the link flag before rtl812xDisable looks at it: the family is
    not told that the link is gone. *)
Theorem kext_disable_silent s : rets (D := D) (fun s' => f_calls (fw s') = f_calls (fw s)) (disable rx_dma s).
Proof.
  unfold disable. destruct (flag __ENABLED s); cbn [negb]; [|by apply rets_ret]. cbv zeta. set (s1 := put_irqOn _ _).
  assert (E : f_calls (fw s1) = f_calls (fw s)) by done.
  assert (El : flag __LINK_UP s1 = false).
  { change (flag __LINK_UP s1) with (flag __LINK_UP (lower __POLLING (lower __POLL_MODE (lower __LINK_UP (lower __ENABLED (put_output false s)))))).
    rewrite !flag_lower by done. by rewrite !andb_false_r. }
  clearbody s1. eapply (rets_bind (fun s' => f_calls (fw s') = f_calls (fw s))); [|intros s2 H2; by apply rets_ret].
  unfold rtl812xDisable. cbv zeta. repeat (apply rets_seq; intros ?). apply rets_ret.
  match goal with |- context [if flag __LINK_UP ?x then _ else _] => change (flag __LINK_UP x) with (flag __LINK_UP s1) end.
  rewrite El. exact E.
Qed.

(** A link change that finds the link up unmasks the receive interrupts and
    leaves the driver in polling mode. *)
Theorem kext_poll_mask_lost st s (d : D) : has st LinkChg = true -> flag __POLL_MODE s = true ->
  (RTL_R32 PHYstatus d).1 <> 0xffffffff -> has (RTL_R32 PHYstatus d).1 LinkStatus = true ->
  let s' := (link_change undef rx_dma st s d).1 in
  flag __POLL_MODE s' = true /\ intrMask (irq (nic s')) = intrMaskRxTx (irq (nic s)).
Proof.
  intros Hl Hp H1 H2. cbv zeta. unfold link_change. rewrite Hl. unfold rtl812xCheckLinkStatus.
  rewrite !bind_run, (proj2 (Z.eqb_neq _ _) H1), H2. cbn [negb orb]. rewrite bind_run. cbv zeta. rewrite bind_run.
  set (s1 := put_eee _ _). set (d1 := (rtl812xGetEEEMode _ _ _).2). clearbody d1.
  assert (E : flag __POLL_MODE s1 = true /\ intrMaskRxTx (irq (nic s1)) = intrMaskRxTx (irq (nic s))) by done. clearbody s1.
  destruct E as [Ef Er]. destruct (kx_link_on (nic s1) d1) as (Hk&_&Hb). set (h := (KextHw.rtl812xLinkOnPatch (nic s1) d1).1) in *.
  clearbody h. unfold setLinkUp. cbv zeta. rewrite !bind_run.
  split; [|exact (eq_trans (x_rxtx _ _ Hk) Er)].
  match goal with |- flag _ ?x = _ => change (flag __POLL_MODE x) with (flag __POLL_MODE (raise __LINK_UP (put_nic h s1))) end.
  rewrite flag_raise by done. rewrite orb_false_r. unfold flag, flags_of. cbn [put_nic nic]. by rewrite Hb.
Qed.

(** *** The packet size *)

Definition nic_kept s s' : Prop := kx_kept (nic s) (nic s') /\ k_mtu (tx s') = k_mtu (tx s).

Lemma clear_mtu t : k_mtu (clearTxRing t) = k_mtu t.
Proof. by destruct (same_clear t) as (->&_). Qed.

Lemma link_down_nic s : rets (D := D) (nic_kept s) (setLinkDown undef rx_dma s).
Proof.
  unfold setLinkDown. cbv zeta. set (s1 := call _ _). assert (E : nic_kept s s1) by (split; [by split|done]). clearbody s1.
  eapply (rets_bind (tp_kept (linuxData (nic s1)))); [kept|]. intros t Ht. apply rets_seq. intros _.
  eapply (rets_bind (tp_kept (linuxData (nic s1)))); [apply kx_kept_stored; exact Ht|]. intros t' Ht'. apply rets_ret.
  destruct E as [[E1 E2 E3 E4 E5] E6]. split.
  - split; try done. by etrans.
  - cbn [put_tp put_nic put_mask clearRxTxRings put_warn put_wd put_rx put_tx tx]. by rewrite clear_mtu.
Qed.

Lemma clear_rings_nic s s1 : nic_kept s s1 -> nic_kept s (clearRxTxRings rx_dma s1).
Proof.
  intros [E1 E2]. split; [exact E1|]. rewrite <- E2. unfold clearRxTxRings. cbn [put_warn put_wd put_rx put_tx tx]. apply clear_mtu.
Qed.

Lemma enable_nic s s1 : nic_kept s s1 -> rets (D := D) (nic_kept s) (rtl812xEnable undef s1).
Proof.
  intros [E Em]. unfold rtl812xEnable. cbv zeta. apply (rets_bind _ _ _ _ (kx_enable undef _)). intros h (Hk&_&_). apply rets_ret.
  split; [by etrans|exact Em].
Qed.

Lemma restart_nic s : rets (D := D) (nic_kept s) (rtl812xRestart undef rx_dma s).
Proof.
  unfold rtl812xRestart. cbv zeta. apply rets_seq. intros _. apply enable_nic, clear_rings_nic. split; [by split|done].
Qed.

(** C31: setMaxPacketSize refuses more than 9022 bytes and then changes nothing. It
    accepts every size from there down, also one below the 18 bytes of the
    Ethernet header with a VLAN tag: the mtu is then close to 2^32. From 18 on the
    mtu is the size less 18, in the copy the data path reads too, and the
    receive size is the packet size with the frame check sequence, so at the
    limit the mtu is 9004, not 9000. *)
Theorem kext_packet_size n s : 0 <= n < 2 ^ 32 ->
  (kMaxPacketSize < n -> setMaxPacketSize undef rx_dma n s = ret (D := D) (false, s)) /\
  (n <= kMaxPacketSize -> rets (D := D) (fun r => r.1 = true /\
     BringUp.mtu (nic r.2) = (if n <? 18 then 2 ^ 32 + n - 18 else n - 18) /\ k_mtu (tx r.2) = BringUp.mtu (nic r.2) /\
     (18 <= n -> rms (linuxData (nic r.2)) = n + ETH_FCS_LEN)) (setMaxPacketSize undef rx_dma n s)).
Proof.
  intros Hn. unfold setMaxPacketSize. split; intros H.
  { by rewrite (proj2 (Z.leb_gt _ _)). }
  rewrite (proj2 (Z.leb_le _ _)) by done. cbv zeta. set (m := u32 (n - VLAN_ETH_HLEN)). set (s1 := rtl812xSetOffloadFeatures _ _).
  assert (Em : m = if n <? 18 then 2 ^ 32 + n - 18 else n - 18).
  { unfold m, VLAN_ETH_HLEN, u32, kMaxPacketSize, kMaxMtu, ETH_HLEN, ETH_FCS_LEN in *. destruct (n <? 18) eqn:E; bool_props; lia. }
  assert (E1 : BringUp.mtu (nic s1) = m /\ k_mtu (tx s1) = m /\ rms (linuxData (nic s1)) = u16 (m + VLAN_ETH_HLEN + ETH_FCS_LEN)) by done.
  clearbody s1. destruct E1 as (E1&E2&E3).
  apply (rets_bind _ _ _ _ (link_down_nic s1)). intros s2 [[[_ Hr2 _ _ _] Hm2 _ _ _] Hk2].
  apply (rets_bind _ _ _ _ (restart_nic _)). intros s3 [[[_ Hr3 _ _ _] Hm3 _ _ _] Hk3]. apply rets_ret. cbn [fst snd].
  assert (Er : rms (linuxData (nic s3)) = u16 (m + VLAN_ETH_HLEN + ETH_FCS_LEN)) by (rewrite Hr3; cbn; rewrite Hr2; exact E3).
  assert (Et : BringUp.mtu (nic s3) = m) by (rewrite Hm3; cbn; rewrite Hm2; exact E1).
  split; [done|]. split; [by rewrite Et|]. split; [rewrite Hk3, Et; cbn; by rewrite Hk2|].
  intros H18. rewrite Er, Em, (proj2 (Z.ltb_ge _ _)) by lia.
  unfold VLAN_ETH_HLEN, ETH_FCS_LEN, kMaxPacketSize, kMaxMtu, ETH_HLEN, ETH_FCS_LEN in *. rewrite u16_small by lia. lia.
Qed.
End Properties.

(** ** A simulated machine *)
Module KextSim.
Import RegFile DriverSim RxSim TxSim.

(** Every capability is found at 0x70 and region 2 is mapped. *)
#[export] Instance sim_pcidev : PciDevice dev := {|
  findPowerCapability := fun d => (Some 0x70, d); findExpressCapability := fun d => (Some 0x70, d);
  setASPMState := fun _ d => d; enablePCIPowerManagement := fun _ d => d; mapRegion2 := fun d => (true, d) |}.
#[export] Instance unit_pci : PciConfig unit := {|
  extendedConfigRead8 := fun _ d => (0, d); extendedConfigRead16 := fun _ d => (0, d); extendedConfigRead32 := fun _ d => (0, d);
  extendedConfigWrite8 := fun _ _ d => d; extendedConfigWrite16 := fun _ _ d => d |}.

Definition env (sources : bool) : startenv := mkEnv true true true (fun _ => true) (fun _ => true) true true true true true sources true.
Definition nic0 : hwst :=
  mkHw tp0 0x8127 1500 0 (mkIntrs 0 0 0 0) 0 0 0 rings_reset (mkRxf 0 0) false false (mkMacs [] [] [0; 0; 0; 0; 0; 0]).
Definition pci0 : pcidata := mkPci 0 0 0 0 false 0 0 0 0.
Definition rnd0 : list Z := [2; 4; 6; 8; 10; 12].

(** No interrupt source. *)
Lemma kext_start_reports_success_witness : (start (env false) None rnd0 pci0 nic0 chip).1.1 = (true, []).
Proof. apply (kext_start_reports_success (env false) None rnd0 pci0 nic0); reflexivity. Defined.

Definition begun : bool * list resource * (hwst * setup) := (start (env true) None rnd0 pci0 nic0 chip).1.
Local Abbreviation driver0 := (boot false ∅ ready begun.2.1 begun.2.2 0).
Local Abbreviation enabled0 := ((enable 0 dma0 true None driver0 chip).1.2).

Lemma begun_ok : begun.1.1 = true /\ begun.1.2 <> [].
Proof. split; vm_compute; [reflexivity|discriminate]. Qed.

Lemma ready_inv : exists n, rxinv phys0 n ready.
Proof. exists 0. exact (setup_inv phys0 multi0 0 empty ready ∅ out0 eq_refl ready_eq). Qed.

Lemma pair3 {A B C E} (x : A * B * (C * E)) : x = (x.1.1, x.1.2, (x.2.1, x.2.2)).
Proof. by destruct x as [[a b] [c e]]. Qed.
Lemma begun_eq : begun = (true, begun.1.2, (begun.2.1, begun.2.2)).
Proof. rewrite <- (proj1 begun_ok). apply pair3. Qed.

Lemma second_run {A D} (p : prog D (A * kdrv Z)) d : (second p d).1 = Some (p d).1.2.
Proof. unfold second. by rewrite bind_run. Qed.

Lemma run_enable s (d : dev) : star (kstep (D := dev) 0 cursor1 dma1 phys0 multi0 dma0 0) s (enable 0 dma0 true None s d).1.2.
Proof.
  eapply star_step; [|apply star_refl]. apply (ks_event 0 cursor1 dma1 phys0 multi0 dma0 0 (EvEnable None) _ _ d I).
  cbn [on_event]. apply second_run.
Qed.

Lemma kext_control_state_witness : flag __ENABLED enabled0 = true /\ irqOn (fw enabled0) = flag __ENABLED enabled0.
Proof.
  split; [vm_compute; reflexivity|].
  destruct (kext_control_state (D := dev) 0 cursor1 dma1 phys0 multi0 dma0 0 (env true) None rnd0 pci0 nic0 chip begun.1.2 begun.2.1 begun.2.2
    false ∅ ready 0 enabled0 (fun _ => eq_refl) begun_eq (proj2 begun_ok) eq_refl (fun _ => ready_inv) (run_enable driver0 chip)) as (_&H&_). exact H.
Defined.

(** A device every register of which reads as [d]. *)
Definition const_mmio : Mmio Z := {|
  R8 := fun _ d => (d, d); R16 := fun _ d => (d, d); R32 := fun _ d => (d, d); W8 := fun _ _ d => d; W16 := fun _ _ d => d;
  W32 := fun _ _ d => d; udelay := fun _ d => d |}.
Definition const_pci : PciConfig Z := {|
  extendedConfigRead8 := fun _ d => (d, d); extendedConfigRead16 := fun _ d => (d, d); extendedConfigRead32 := fun _ d => (d, d);
  extendedConfigWrite8 := fun _ _ d => d; extendedConfigWrite16 := fun _ _ d => d |}.

(** Link up, a packet of two segments in the ring. *)
Definition nic_up : hwst := set_flags (BIT __ENABLED .| BIT __LINK_UP) nic0.
Definition busy : kdrv Z :=
  mkKdrv Z nic_up sent2 RxSim.empty false (mkWatch 0 0 0 0 0 0) (mkFw true true true true 0 []) (mkSetup (getParams None).1 24 ADV_ALL 0)
    kPowerStateOn None.

Lemma ring_sent2 : ring sent2 [None; Some 5].
Proof.
  assert (Em : k_mbufs sent2 = {[1 := 5]}) by (vm_compute; reflexivity).
  split; [vm_compute; done|]. split; [done|]. split; [vm_compute; reflexivity|]. split; [vm_compute; reflexivity|].
  assert (Ed : k_dirty sent2 = 0) by (vm_compute; reflexivity). intros j Hj. rewrite Em, Ed.
  destruct j as [|[|j]]; [reflexivity|reflexivity|]. cbn [lookup list_lookup]. rewrite lookup_singleton_ne; [done|].
  unfold slot, KextTx.kNumTxDesc. lia.
Qed.

Lemma kext_watchdog_witness :
  flag __LINK_UP (ticks (D := unit) 0 dma0 6 busy tt).1 = false /\ k_freed (tx (ticks (D := unit) 0 dma0 6 busy tt).1) ≡ₚ [5].
Proof.
  destruct (kext_watchdog (D := unit) 0 dma0 busy [None; Some 5]) as (_&H&_).
  - intros d. reflexivity.
  - reflexivity.
  - exact ring_sent2.
  - discriminate.
  - vm_compute. reflexivity.
  - reflexivity.
  - destruct (H tt) as (H1&_&_&_&_&_&H7). assert (E : k_freed (tx busy) = []) by (vm_compute; reflexivity).
    split; [exact H1|]. rewrite E in H7. exact H7.
Defined.

(** 1000 Mbit/s, link up. *)
Lemma kext_link_on_leaks_witness : let s' := (@rtl812xCheckLinkStatus Z const_mmio const_pci Z 0 dma0 busy 0x12).1 in
  k_mbufs (tx s') = k_mbufs sent2 /\ k_freed (tx s') = k_freed sent2.
Proof.
  destruct (@kext_link_on_leaks Z Z const_mmio const_pci 0 dma0 busy 0x12) as (H1&H2&_); [vm_compute; discriminate|reflexivity|].
  split; [exact H1|exact H2].
Defined.

Lemma kext_packet_size_witness : BringUp.mtu (nic (setMaxPacketSize (D := unit) 0 dma0 9022 busy tt).1.2) = 9004 /\
  BringUp.mtu (nic (setMaxPacketSize (D := unit) 0 dma0 14 busy tt).1.2) = 4294967292.
Proof.
  split; [destruct (kext_packet_size (D := unit) 0 dma0 9022 busy ltac:(lia)) as [_ H]|
          destruct (kext_packet_size (D := unit) 0 dma0 14 busy ltac:(lia)) as [_ H]];
    specialize (H ltac:(vm_compute; discriminate) tt) as (_&H&_); exact H.
Defined.
End KextSim.
