(* ===== verification/Owner.v ===== *)
(** Who owns what: the members of a driver object that own something are pointers
    that are null, live or dangling. Releasing twice, or through a null pointer, is
    recorded. Shared by [KextRes] and [DextRes], which give the resources. *)
From S2P Require Import Prelude.

Inductive ptr := Null | Live | Dangling.

#[export] Instance ptr_eq_dec : EqDecision ptr.
Proof. solve_decision. Defined.

Record rst (R : Type) := mkRst { ptr_of : R -> ptr; faults : list R }.
Arguments mkRst {R} _ _.
Arguments ptr_of {R} _ _.
Arguments faults {R} _.

Section Owner.
Context {R : Type} `{EqDecision R}.
Implicit Types (r x : R) (s : rst R).

Definition nothing : rst R := mkRst (fun _ => Null) [].

Definition set_ptr r (p : ptr) s : rst R := mkRst (fun x => if decide (x = r) then p else ptr_of s x) (faults s).
Definition alloc r s : rst R := set_ptr r Live s.
Definition nullify r s : rst R := set_ptr r Null s.

(** x->release(), IOFree(x), thread_call_free(x): the pointer stays as it is. *)
Definition release r s : rst R :=
  match ptr_of s r with Live => set_ptr r Dangling s | _ => mkRst (ptr_of s) (faults s ++ [r]) end.
(** if (x) { x->release(); x = NULL; } *)
Definition RELEASE r s : rst R :=
  match ptr_of s r with Null => s | _ => nullify r (release r s) end.
(** A local pointer that is handed to a member. *)
Definition move r x s : rst R := set_ptr r Null (set_ptr x (ptr_of s r) s).
(** Using an object: it must be live. *)
Definition use r s : rst R := match ptr_of s r with Live => s | _ => mkRst (ptr_of s) (faults s ++ [r]) end.

Definition RELEASES (l : list R) s : rst R := foldl (flip RELEASE) s l.
Definition uses (l : list R) s : rst R := foldl (flip use) s l.

(** ** States that hold the same pointers *)

#[export] Instance rst_equiv : Equiv (rst R) := fun s s' => (forall r, ptr_of s r = ptr_of s' r) /\ faults s = faults s'.

#[export] Instance rst_equivalence : Equivalence (≡@{rst R}).
Proof.
  split.
  - by intros s.
  - intros s s' [H1 H2]. by split; [intros r; rewrite H1|].
  - intros a b c [H1 H2] [H3 H4]. by split; [intros r; rewrite H1|rewrite H2].
Qed.

#[export] Instance set_ptr_proper r p : Proper ((≡) ==> (≡)) (set_ptr r p).
Proof. intros s s' [H1 H2]. split; [|done]. intros x. cbn. by case_decide. Qed.

#[export] Instance release_proper r : Proper ((≡) ==> (≡)) (release r).
Proof.
  intros s s' H. unfold release. pose proof H as [H1 H2]. rewrite H1.
  destruct (ptr_of s' r); [split; [done|cbn; by rewrite H2]| |split; [done|cbn; by rewrite H2]].
  by apply set_ptr_proper.
Qed.

#[export] Instance nullify_proper r : Proper ((≡) ==> (≡)) (nullify r).
Proof. solve_proper. Qed.
#[export] Instance alloc_proper r : Proper ((≡) ==> (≡)) (alloc r).
Proof. solve_proper. Qed.

#[export] Instance RELEASE_proper r : Proper ((≡) ==> (≡)) (RELEASE r).
Proof.
  intros s s' H. unfold RELEASE. rewrite (proj1 H r).
  destruct (ptr_of s' r); [done|by rewrite H..].
Qed.

(** ** Pointers that are null or live *)

Lemma ptr_set_same r p s : ptr_of (set_ptr r p s) r = p.
Proof. cbn. by rewrite decide_True. Qed.
Lemma ptr_set_other r x p s : x <> r -> ptr_of (set_ptr r p s) x = ptr_of s x.
Proof. intros. cbn. by rewrite decide_False. Qed.

(** No pointer dangles. *)
Definition sane s : Prop := forall r, ptr_of s r <> Dangling.

Lemma sane_nothing : sane nothing.
Proof. done. Qed.

Lemma sane_set r p s : p <> Dangling -> sane s -> sane (set_ptr r p s).
Proof. intros Hp H x. cbn. case_decide; [done|apply H]. Qed.

Lemma sane_alloc r s : sane s -> sane (alloc r s).
Proof. by apply sane_set. Qed.

Lemma sane_move r x s : sane s -> sane (move r x s).
Proof. intros H. apply sane_set; [done|]. apply sane_set; [apply H|done]. Qed.

Lemma RELEASE_null r s : sane s -> RELEASE r s ≡ nullify r s.
Proof.
  intros H. unfold RELEASE, release. pose proof (H r). destruct (ptr_of s r) eqn:E; [|split; [|done]|done].
  - split; [|done]. intros x. cbn. by case_decide; subst.
  - intros x. cbn. by repeat case_decide.
Qed.

Lemma sane_RELEASE r s : sane s -> sane (RELEASE r s).
Proof. intros H x. rewrite (proj1 (RELEASE_null r s H) x). by apply sane_set. Qed.

Lemma ptr_RELEASE r x s : sane s -> ptr_of (RELEASE r s) x = if decide (x = r) then Null else ptr_of s x.
Proof. intros H. by rewrite (proj1 (RELEASE_null r s H) x). Qed.

Lemma faults_RELEASE r s : sane s -> faults (RELEASE r s) = faults s.
Proof. intros H. exact (proj2 (RELEASE_null r s H)). Qed.

Lemma sane_RELEASES l s : sane s -> sane (RELEASES l s).
Proof. revert s. induction l as [|r l IH]; intros s H; [done|]. apply IH. by apply sane_RELEASE. Qed.

Lemma ptr_RELEASES l x s : sane s -> ptr_of (RELEASES l s) x = if decide (x ∈ l) then Null else ptr_of s x.
Proof.
  revert s. induction l as [|r l IH]; intros s H; [done|]. cbn [RELEASES foldl flip].
  etransitivity; [apply (IH (RELEASE r s)); by apply sane_RELEASE|]. rewrite (ptr_RELEASE r x s H).
  repeat case_decide; set_solver.
Qed.

Lemma faults_RELEASES l s : sane s -> faults (RELEASES l s) = faults s.
Proof.
  revert s. induction l as [|r l IH]; intros s H; [done|]. cbn [RELEASES foldl flip].
  etransitivity; [apply (IH (RELEASE r s)); by apply sane_RELEASE|]. by apply faults_RELEASE.
Qed.

Lemma uses_live l s : Forall (fun r => ptr_of s r = Live) l -> uses l s = s.
Proof. intros H. induction H as [|r l Hr _ IH]; [done|]. cbn. unfold use. by rewrite Hr. Qed.
End Owner.

Create HintDb owner.
#[export] Hint Resolve sane_nothing sane_alloc sane_move sane_RELEASE sane_RELEASES : owner.
