(* ===== verification/KextRes.v ===== *)
(** The resources of the kernel extension: what start, stop and free, the set-up
    functions and their error labels (RTL812xLucy.cpp, RTL812xLucySetup.cpp,
    RTL812xLucyVTD.cpp) allocate and release, whichever call of the kernel fails.
    The members of class RTL8125 that own something are the pointers of [Owner]. *)
From S2P Require Import Prelude Owner.

(** [LostNetif] is no member: it stands for the reference to the interface object
    that is left when stop sets [netif] to NULL. *)
Inductive res :=
| WorkLoop | PciDevice | PciOpen | Mapper | BaseMap | MediumDict | CommandGate
| TxBufArrayMem | TxBufDesc | TxDescDmaCmd | TxMbufCursor | TxMapMem
| RxBufArrayMem | RxBufDesc | RxDescDmaCmd | RxPool | RxMbufs | RxMapMem
| StatCall | StatBufDesc | StatDescDmaCmd
| TxQueue | InterruptSource | TimerSource | Netif | LostNetif.

#[export] Instance res_eq_dec : EqDecision res.
Proof. solve_decision. Defined.

Notation rst := (Owner.rst res).

(** The calls that can fail: creating an object, prepare, setMemoryDescriptor,
    gen64IOVMSegments, the objects of a map, publishing, chip and PCI set-up. *)
Inductive callid :=
| Create (r : res) | Prepare (r : res) | SetMemory (r : res) | GenSegments (r : res) | FillMap (r : res)
| SuperStart | IsPci | Open | InitChip | Publish | Attach.

(** [ok c]: the call succeeds; [media]: the loop over the media stops early, with
    this value of result. *)
Record kernel := mkKernel { ok : callid -> bool; media : option bool; vtd : bool }.

Section Code.
Context (k : kernel).

(** ** Transmit *)

Definition freeTxMap (s : rst) : rst := RELEASE TxMapMem s.

Definition setupTxMap (s : rst) : bool * rst :=
  if ok k (Create TxMapMem) then
    let s := alloc TxMapMem s in
    if ok k (FillMap TxMapMem) then (true, s) else (false, freeTxMap s)
  else (false, s).

Definition tx_error_buff (s : rst) : bool * rst := (false, nullify TxBufArrayMem (release TxBufArrayMem s)).
Definition tx_error_prep (s : rst) : bool * rst := tx_error_buff (RELEASE TxBufDesc s).
Definition tx_error_set_desc (s : rst) : bool * rst := tx_error_prep (RELEASE TxDescDmaCmd s).

Definition setupTxResources (s : rst) : bool * rst :=
  if negb (ok k (Create TxBufArrayMem)) then (false, s) else
  let s := alloc TxBufArrayMem s in
  if negb (ok k (Create TxBufDesc)) then tx_error_buff s else
  let s := alloc TxBufDesc s in
  if negb (ok k (Prepare TxBufDesc)) then tx_error_prep s else
  if negb (ok k (Create TxDescDmaCmd)) then tx_error_prep s else
  let s := alloc TxDescDmaCmd s in
  if negb (ok k (SetMemory TxDescDmaCmd)) then tx_error_set_desc s else
  if negb (ok k (GenSegments TxDescDmaCmd)) then tx_error_set_desc s else
  if vtd k then
    let '(result, s) := setupTxMap s in if result : bool then (true, s) else tx_error_set_desc s
  else if negb (ok k (Create TxMbufCursor)) then tx_error_set_desc s
  else (true, alloc TxMbufCursor s).

Definition freeTxResources (s : rst) : rst :=
  RELEASE TxBufArrayMem (RELEASE TxDescDmaCmd (RELEASE TxBufDesc (if vtd k then freeTxMap s else RELEASE TxMbufCursor s))).

(** ** Receive *)

Definition freeRxMap (s : rst) : rst := RELEASE RxMapMem s.

Definition setupRxMap (s : rst) : bool * rst :=
  if ok k (Create RxMapMem) then
    let s := alloc RxMapMem s in
    if ok k (FillMap RxMapMem) then (true, s) else (false, freeRxMap s)
  else (false, s).

Definition rx_error_buff (s : rst) : bool * rst := (false, nullify RxBufArrayMem (release RxBufArrayMem s)).
Definition rx_error_prep (s : rst) : bool * rst := rx_error_buff (RELEASE RxBufDesc s).
Definition rx_error_set_desc (s : rst) : bool * rst := rx_error_prep (RELEASE RxDescDmaCmd s).
Definition rx_error_buf (s : rst) : bool * rst := rx_error_set_desc (RELEASE RxPool (RELEASE RxMbufs s)).

Definition setupRxResources (s : rst) : bool * rst :=
  if negb (ok k (Create RxBufArrayMem)) then (false, s) else
  let s := alloc RxBufArrayMem s in
  if negb (ok k (Create RxBufDesc)) then rx_error_buff s else
  let s := alloc RxBufDesc s in
  if negb (ok k (Prepare RxBufDesc)) then rx_error_prep s else
  if negb (ok k (Create RxDescDmaCmd)) then rx_error_prep s else
  let s := alloc RxDescDmaCmd s in
  if negb (ok k (SetMemory RxDescDmaCmd)) then rx_error_set_desc s else
  if negb (ok k (GenSegments RxDescDmaCmd)) then rx_error_set_desc s else
  if negb (ok k (Create RxPool)) then rx_error_set_desc s else
  let s := alloc RxMbufs (alloc RxPool s) in
  if negb (ok k (Create RxMbufs)) then rx_error_buf s else
  if vtd k then setupRxMap s else (true, s).

Definition freeRxResources (s : rst) : rst :=
  let s := if vtd k then freeRxMap s else s in
  let s := RELEASE RxPool (RELEASE RxBufDesc (RELEASE RxDescDmaCmd s)) in
  match ptr_of s RxBufArrayMem with Null => s | _ => RELEASE RxBufArrayMem (RELEASE RxMbufs s) end.

(** ** Statistics *)

Definition stat_error_mem (s : rst) : bool * rst := (false, release StatCall s).
Definition stat_error_prep (s : rst) : bool * rst := stat_error_mem (RELEASE StatBufDesc s).
Definition stat_error_set_desc (s : rst) : bool * rst := stat_error_prep (RELEASE StatDescDmaCmd s).

Definition setupStatResources (s : rst) : bool * rst :=
  if negb (ok k (Create StatCall)) then (false, s) else
  let s := alloc StatCall s in
  if negb (ok k (Create StatBufDesc)) then stat_error_mem s else
  let s := alloc StatBufDesc s in
  if negb (ok k (Prepare StatBufDesc)) then stat_error_prep s else
  if negb (ok k (Create StatDescDmaCmd)) then stat_error_prep s else
  let s := alloc StatDescDmaCmd s in
  if negb (ok k (SetMemory StatDescDmaCmd)) then stat_error_set_desc s else
  if negb (ok k (GenSegments StatDescDmaCmd)) then stat_error_set_desc s else (true, s).

Definition freeStatResources (s : rst) : rst := RELEASE StatDescDmaCmd (RELEASE StatBufDesc (RELEASE StatCall s)).

(** ** Media and event sources *)

Definition error_med (result : bool) (s : rst) : bool * rst := (result, release MediumDict s).

Definition setupMediumDict (s : rst) : bool * rst :=
  let made := ok k (Create MediumDict) in
  let s := if made then alloc MediumDict s else s in
  match (if made then media k else None) with
  | Some result => error_med result s
  | None => if ok k Publish then (true, s) else error_med false s
  end.

Definition error1 (s : rst) : bool * rst := (false, nullify TxQueue (release TxQueue s)).

Definition initEventSources (s : rst) : bool * rst :=
  if negb (ok k (Create TxQueue)) then (false, s) else
  let s := alloc TxQueue s in
  if negb (ok k (Create InterruptSource)) then error1 s else
  let s := alloc InterruptSource s in
  if negb (ok k (Create TimerSource)) then error1 (RELEASE InterruptSource s) else
  (true, alloc TimerSource s).

(** ** start, stop, free *)

Definition error_open (result : bool) (s : rst) : bool * rst := (result, nullify PciDevice (release PciDevice s)).
Definition error_cfg (result : bool) (s : rst) : bool * rst := error_open result (RELEASE PciOpen s).
Definition error_gate (result : bool) (s : rst) : bool * rst := error_cfg result (RELEASE MediumDict s).
Definition error_dma1 (result : bool) (s : rst) : bool * rst := error_gate result (RELEASE CommandGate s).
Definition error_dma2 (result : bool) (s : rst) : bool * rst := error_dma1 result (freeTxResources s).
Definition error_dma3 (result : bool) (s : rst) : bool * rst := error_dma2 result (freeRxResources s).
Definition error_src (result : bool) (s : rst) : bool * rst := error_dma3 result (freeStatResources s).

(** start from getCommandGate on. *)
Definition start_rings (result : bool) (s : rst) : bool * rst :=
  if negb (ok k (Create CommandGate)) then error_gate result s else
  let s := alloc CommandGate s in
  let '(made, s) := setupTxResources s in
  if negb made then error_dma1 result s else
  let '(made, s) := setupRxResources s in
  if negb made then error_dma2 result s else
  let '(made, s) := setupStatResources s in
  if negb made then error_dma3 result s else
  let '(made, s) := initEventSources s in
  if negb made then error_src result s else
  let result := ok k Attach in
  if negb result then error_src result s else
  (true, RELEASE PciOpen (alloc Netif s)).

(** The superclass calls createWorkLoop, and can fail before or after it does. *)
Definition start (s : rst) : bool * rst :=
  let created := ok k (Create WorkLoop) in
  let s := if created then alloc WorkLoop s else s in
  let result := created && ok k SuperStart in
  if negb result then (result, s) else
  if negb (ok k IsPci) then (result, s) else
  let s := alloc PciDevice s in
  if negb (ok k Open) then error_open result s else
  let s := alloc PciOpen s in
  let s := if ok k (Create Mapper) then alloc Mapper s else s in
  if negb (ok k (Create BaseMap)) then error_cfg result s else
  let s := alloc BaseMap s in
  if negb (ok k InitChip) then error_cfg result s else
  let '(made, s) := setupMediumDict s in
  if negb made then error_cfg result s else
  start_rings result s.

Definition event_sources (s : rst) : rst :=
  match ptr_of s WorkLoop with
  | Null => s
  | _ => nullify WorkLoop (release WorkLoop (RELEASE TimerSource (RELEASE InterruptSource s)))
  end.

(** detachInterface terminates the interface; its caller is to release the object
    afterwards, and stop sets the pointer to NULL instead. *)
Definition detach_netif (s : rst) : rst :=
  match ptr_of s Netif with Null => s | _ => move Netif LostNetif s end.

Definition stop (s : rst) : rst :=
  let s := event_sources (detach_netif s) in
  let s := RELEASE MediumDict (RELEASE TxQueue (RELEASE CommandGate s)) in
  let s := freeTxResources (freeRxResources (freeStatResources s)) in
  RELEASE PciDevice (RELEASE BaseMap s).

Definition free (s : rst) : rst :=
  let s := event_sources s in
  let s := RELEASE MediumDict (RELEASE TxQueue (RELEASE CommandGate s)) in
  let s := RELEASE PciDevice (RELEASE BaseMap s) in
  freeStatResources (freeRxResources (freeTxResources s)).

Definition init : rst := nothing.

(** An object whose start returned true is stopped before it is freed. *)
Definition life : rst :=
  let '(result, s) := start init in free (if result : bool then stop s else s).
End Code.

(** ** What is released *)

Definition all_res : list res :=
  [WorkLoop; PciDevice; PciOpen; Mapper; BaseMap; MediumDict; CommandGate;
   TxBufArrayMem; TxBufDesc; TxDescDmaCmd; TxMbufCursor; TxMapMem;
   RxBufArrayMem; RxBufDesc; RxDescDmaCmd; RxPool; RxMbufs; RxMapMem;
   StatCall; StatBufDesc; StatDescDmaCmd; TxQueue; InterruptSource; TimerSource; Netif; LostNetif].

Lemma all_res_complete r : r ∈ all_res.
Proof. unfold all_res. destruct r; set_solver. Qed.

Definition live (s : rst) : list res := filter (fun r => ptr_of s r = Live) all_res.

(** What is left at the end: at most the mapper and the lost interface object, and
    no release of a released object other than the two. *)
Definition released (s : rst) : bool :=
  bool_decide (live s ⊆ [Mapper; LostNetif]) && bool_decide (faults s ⊆ [MediumDict; StatCall]).
Definition faultless (s : rst) : bool := bool_decide (faults s = []).

(** *** States that hold the same pointers *)

#[export] Instance freeTxResources_proper k : Proper ((≡) ==> (≡)) (freeTxResources k).
Proof. intros s s' H. unfold freeTxResources, freeTxMap. by destruct (vtd k); rewrite H. Qed.

#[export] Instance freeRxResources_proper k : Proper ((≡) ==> (≡)) (freeRxResources k).
Proof.
  intros s s' H. unfold freeRxResources, freeRxMap. cbv zeta.
  set (f := fun s => RELEASE RxPool (RELEASE RxBufDesc (RELEASE RxDescDmaCmd (if vtd k then RELEASE RxMapMem s else s)))).
  assert (f s ≡ f s') as E by (unfold f; destruct (vtd k); by rewrite H).
  change (match ptr_of (f s) RxBufArrayMem with Null => f s | _ => RELEASE RxBufArrayMem (RELEASE RxMbufs (f s)) end ≡
    match ptr_of (f s') RxBufArrayMem with Null => f s' | _ => RELEASE RxBufArrayMem (RELEASE RxMbufs (f s')) end).
  rewrite (proj1 E). destruct (ptr_of (f s') RxBufArrayMem); by rewrite E.
Qed.

#[export] Instance freeStatResources_proper : Proper ((≡) ==> (≡)) freeStatResources.
Proof. solve_proper. Qed.

#[export] Instance event_sources_proper : Proper ((≡) ==> (≡)) event_sources.
Proof. intros s s' H. unfold event_sources. rewrite (proj1 H). destruct (ptr_of s' WorkLoop); by rewrite H. Qed.

#[export] Instance detach_netif_proper : Proper ((≡) ==> (≡)) detach_netif.
Proof.
  intros s s' H. unfold detach_netif, move. rewrite (proj1 H Netif).
  destruct (ptr_of s' Netif); [done|by rewrite H..].
Qed.

#[export] Instance stop_proper k : Proper ((≡) ==> (≡)) (stop k).
Proof. intros s s' H. unfold stop. cbv zeta. by rewrite H. Qed.
#[export] Instance free_proper k : Proper ((≡) ==> (≡)) (free k).
Proof. intros s s' H. unfold free. cbv zeta. by rewrite H. Qed.

Lemma live_equiv s s' : s ≡ s' -> live s = live s'.
Proof. intros [H _]. unfold live. apply list_filter_iff. intros r. by rewrite H. Qed.

#[export] Instance released_proper : Proper ((≡) ==> eq) released.
Proof. intros s s' H. unfold released. by rewrite (live_equiv s s' H), (proj2 H). Qed.
#[export] Instance faultless_proper : Proper ((≡) ==> eq) faultless.
Proof. intros s s' H. unfold faultless. by rewrite (proj2 H). Qed.

(** *** What each set-up leaves *)

Definition nulls (G : list res) (s : rst) : Prop := forall r, r ∈ G -> ptr_of s r = Null.

#[export] Instance nulls_proper G : Proper ((≡) ==> iff) (nulls G).
Proof. intros s s' [H _]. unfold nulls. by setoid_rewrite H. Qed.

Definition TxG : list res := [TxBufArrayMem; TxBufDesc; TxDescDmaCmd; TxMbufCursor; TxMapMem].
Definition RxG : list res := [RxBufArrayMem; RxBufDesc; RxDescDmaCmd; RxPool; RxMbufs; RxMapMem].
Definition StatG : list res := [StatCall; StatBufDesc; StatDescDmaCmd].
Definition EvG : list res := [TxQueue; InterruptSource; TimerSource].

Definition tx_owned (v : bool) (s : rst) : rst :=
  alloc (if v then TxMapMem else TxMbufCursor) (alloc TxDescDmaCmd (alloc TxBufDesc (alloc TxBufArrayMem s))).
Definition rx_base (s : rst) : rst :=
  alloc RxMbufs (alloc RxPool (alloc RxDescDmaCmd (alloc RxBufDesc (alloc RxBufArrayMem s)))).
Definition rx_owned (v : bool) (s : rst) : rst := if v then alloc RxMapMem (rx_base s) else rx_base s.
Definition stat_owned (s : rst) : rst := alloc StatDescDmaCmd (alloc StatBufDesc (alloc StatCall s)).
Definition ev_owned (s : rst) : rst := alloc TimerSource (alloc InterruptSource (alloc TxQueue s)).

#[export] Instance tx_owned_proper v : Proper ((≡) ==> (≡)) (tx_owned v).
Proof. solve_proper. Qed.
#[export] Instance rx_base_proper : Proper ((≡) ==> (≡)) rx_base.
Proof. solve_proper. Qed.
#[export] Instance rx_owned_proper v : Proper ((≡) ==> (≡)) (rx_owned v).
Proof. intros s s' E. unfold rx_owned. destruct v; by rewrite E. Qed.
#[export] Instance stat_owned_proper : Proper ((≡) ==> (≡)) stat_owned.
Proof. solve_proper. Qed.
#[export] Instance ev_owned_proper : Proper ((≡) ==> (≡)) ev_owned.
Proof. solve_proper. Qed.

(** Compares two states pointer by pointer, given which are null. *)
Ltac same_pointers N :=
  split; [intros []; vm_compute; first [reflexivity | symmetry; apply N; vm_compute; set_solver] | reflexivity].

Lemma setupTx_spec k s : nulls TxG s ->
  exists s', (setupTxResources k s = (true, s') /\ s' ≡ tx_owned (vtd k) s) \/ (setupTxResources k s = (false, s') /\ s' ≡ s).
Proof.
  intros N. unfold setupTxResources, setupTxMap. destruct (vtd k); repeat case_match;
    simplify_eq; eexists; (left; split; [reflexivity|same_pointers N]) || (right; split; [reflexivity|same_pointers N]).
Qed.

Lemma setupRx_spec k s : nulls RxG s ->
  exists s', (setupRxResources k s = (true, s') /\ s' ≡ rx_owned (vtd k) s) \/
    (setupRxResources k s = (false, s') /\ (s' ≡ s \/ s' ≡ rx_base s)).
Proof.
  intros N. unfold setupRxResources, setupRxMap. destruct (vtd k); repeat case_match;
    simplify_eq; eexists; first
    [ left; split; [reflexivity|same_pointers N] | right; split; [reflexivity|left; same_pointers N]
    | right; split; [reflexivity|right; same_pointers N]].
Qed.

Definition stat_ok (k : kernel) : bool :=
  ok k (Create StatBufDesc) && ok k (Prepare StatBufDesc) && ok k (Create StatDescDmaCmd) &&
  ok k (SetMemory StatDescDmaCmd) && ok k (GenSegments StatDescDmaCmd).

Lemma setupStat_spec k s : nulls StatG s ->
  exists s', (setupStatResources k s = (true, s') /\ s' ≡ stat_owned s) \/
    (setupStatResources k s = (false, s') /\ (s' ≡ s \/ (stat_ok k = false /\ s' ≡ set_ptr StatCall Dangling s))).
Proof.
  intros N. unfold setupStatResources, stat_ok. repeat case_match;
    simplify_eq; eexists; first
    [ left; split; [reflexivity|same_pointers N] | right; split; [reflexivity|left; same_pointers N]
    | right; split; [reflexivity|right; split; [|same_pointers N]]];
    repeat match goal with H : negb _ = true |- _ => apply negb_true_iff in H; rewrite H end; by rewrite ?andb_false_r.
Qed.

Lemma initEvent_spec k s : nulls EvG s ->
  exists s', (initEventSources k s = (true, s') /\ s' ≡ ev_owned s) \/ (initEventSources k s = (false, s') /\ s' ≡ s).
Proof.
  intros N. unfold initEventSources. repeat case_match; simplify_eq; eexists;
    (left; split; [reflexivity|same_pointers N]) || (right; split; [reflexivity|same_pointers N]).
Qed.

Definition dict_owned (k : kernel) (s : rst) : rst := if ok k (Create MediumDict) then alloc MediumDict s else s.

(** error_med releases a live dictionary, or calls release on a null pointer. *)
Lemma setupMedium_spec k s : ptr_of s MediumDict = Null ->
  exists b s', setupMediumDict k s = (b, s') /\
    (b = true /\ s' ≡ dict_owned k s \/
     (media k = None /\ ok k Publish = true -> False) /\ s' ≡ release MediumDict (dict_owned k s)).
Proof.
  intros N. unfold setupMediumDict, error_med, dict_owned.
  destruct (ok k (Create MediumDict)), (media k) as [b|]; try destruct (ok k Publish);
    do 2 eexists; (split; [reflexivity|]); first [by left | right; split; [naive_solver|done]].
Qed.

(** *** Runs *)

(** What start returns, and a state with the same pointers that the calls up to
    there leave. *)
(** No call fails among those whose error labels leave a pointer behind. *)
Definition no_stale (k : kernel) : Prop := media k = None /\ ok k Publish = true /\ stat_ok k = true.

Definition willing (v : bool) : kernel := mkKernel (fun _ => true) None v.

(** Releasing asks the kernel nothing. *)
Lemma freeTx_willing k s : freeTxResources k s = freeTxResources (willing (vtd k)) s.
Proof. reflexivity. Qed.
Lemma freeRx_willing k s : freeRxResources k s = freeRxResources (willing (vtd k)) s.
Proof. reflexivity. Qed.
Lemma free_willing k s : free k s = free (willing (vtd k)) s.
Proof. unfold free. cbv zeta. by rewrite freeTx_willing, freeRx_willing. Qed.
Lemma stop_willing k s : stop k s = stop (willing (vtd k)) s.
Proof. unfold stop. cbv zeta. by rewrite freeTx_willing, freeRx_willing. Qed.

Definition finish (v b : bool) (s : rst) : rst := free (willing v) (if b then stop (willing v) s else s).

Lemma life_finish k : life k = finish (vtd k) (start k init).1 (start k init).2.
Proof.
  unfold life, finish. destruct (start k init) as [b s]. rewrite free_willing. cbn [fst snd].
  destruct b; [by rewrite stop_willing|done].
Qed.

#[export] Instance finish_proper v b : Proper ((≡) ==> (≡)) (finish v b).
Proof. intros s s' E. unfold finish. destruct b; by rewrite E. Qed.

Definition is_live (r : res) (s : rst) : bool := bool_decide (ptr_of s r = Live).

#[export] Instance is_live_proper r : Proper ((≡) ==> eq) (is_live r).
Proof. intros s s' [H _]. unfold is_live. by rewrite H. Qed.

(** The end of a run that start left with result [b] and state [s]: all is released,
    but the interface object if there is one, and only once if [N] holds. *)
Definition ends_well (N : Prop) (v b : bool) (s : rst) : Prop :=
  (released (finish v b s) && Bool.eqb (is_live LostNetif (finish v b s)) (is_live Netif s) = true) /\
  (N -> faultless (finish v b s) = true).

#[export] Instance ends_well_proper N v b : Proper ((≡) ==> iff) (ends_well N v b).
Proof. intros s s' E. unfold ends_well. by rewrite E. Qed.

Lemma nulls_here G s : forallb (fun r => bool_decide (ptr_of s r = Null)) G = true -> nulls G s.
Proof. intros H r Hr. rewrite forallb_forall in H. eapply bool_decide_eq_true_1, H. by apply list_elem_of_In. Qed.

(** Replaces a state by the one its set-up is known to leave. *)
Ltac known := repeat match goal with E : ?s' ≡ _ |- context [?s'] => is_var s'; rewrite E; clear E end.

(** Ends a run at a state whose pointers are all known. *)
Ltac at_end k :=
  unfold error_src, error_dma3, error_dma2, error_dma1, error_gate, error_cfg, error_open; cbn [fst snd negb];
  rewrite ?(freeTx_willing k), ?(freeRx_willing k); known;
  generalize (vtd k); intros []; (split; [vm_compute; reflexivity|]); intros; first [vm_compute; reflexivity | exfalso; unfold no_stale in *; naive_solver congruence].

Ltac all_null k := known; apply nulls_here; destruct (vtd k); vm_compute; reflexivity.

(** One set-up function of start: [spec] says what it leaves. *)
Ltac set_up k spec s :=
  let s' := fresh "s" in let E := fresh "E" in
  destruct (spec k s) as [s' [[-> E]|[-> E]]]; [all_null k|cbn [negb]|cbn [negb]].

(** The state in which start reaches the command gate: with a mapper or not, with a
    medium dictionary or not, and with that pointer stale or not. *)
Definition ready (mapped dict stale : bool) : rst :=
  let s := alloc PciOpen (alloc PciDevice (alloc WorkLoop init)) in
  let s := alloc BaseMap (if mapped then alloc Mapper s else s) in
  let s := if dict then alloc MediumDict s else s in
  if stale then release MediumDict s else s.

Lemma rings_end_well k mapped dict stale s :
  s ≡ ready mapped dict stale -> (stale = true -> ~ no_stale k) ->
  ends_well (no_stale k) (vtd k) (start_rings k true s).1 (start_rings k true s).2.
Proof.
  intros E F. unfold start_rings. cbv zeta.
  destruct mapped, dict, stale;
  (destruct (ok k (Create CommandGate)); cbn [negb]; [|at_end k]);
  (set_up k setupTx_spec (alloc CommandGate s); [|at_end k]);
  (set_up k setupRx_spec s0; [|destruct E1; at_end k]);
  (set_up k setupStat_spec s1; [|destruct E2 as [?|[??]]; at_end k]);
  (set_up k initEvent_spec s2; [|at_end k]);
  destruct (ok k Attach); cbn [negb]; at_end k.
Qed.

Lemma life_ends_well k : ends_well (no_stale k) (vtd k) (start k init).1 (start k init).2.
Proof.
  unfold start. cbv zeta.
  destruct (ok k (Create WorkLoop)); cbn [andb]; [|at_end k].
  destruct (ok k SuperStart); cbn [negb]; [|at_end k].
  destruct (ok k IsPci); cbn [negb]; [|at_end k].
  destruct (ok k Open); cbn [negb]; [|at_end k].
  destruct (ok k (Create BaseMap)); cbn [negb]; [|destruct (ok k (Create Mapper)); at_end k].
  destruct (ok k InitChip); cbn [negb]; [|destruct (ok k (Create Mapper)); at_end k].
  match goal with |- context [setupMediumDict k ?s0] => destruct (setupMedium_spec k s0) as (b & s & -> & HM) end.
  { destruct (ok k (Create Mapper)); vm_compute; reflexivity. }
  unfold dict_owned in HM.
  destruct HM as [[-> E]|[F E]]; cbn [negb].
  - by apply (rings_end_well k (ok k (Create Mapper)) (ok k (Create MediumDict)) false).
  - destruct b; cbn [negb].
    + apply (rings_end_well k (ok k (Create Mapper)) (ok k (Create MediumDict)) true); [done|]. unfold no_stale. naive_solver.
    + unfold no_stale. destruct (ok k (Create Mapper)), (ok k (Create MediumDict)); at_end k.
Qed.

(** C17: Whatever calls of the kernel fail during start, once the driver is stopped and
    freed it holds nothing but the mapper of the device and, exactly when start attached
    an interface, the reference to the interface object, which stop forgets without
    releasing it as detachInterface asks; the only objects released twice, or through a
    null pointer, are the medium dictionary and the thread call of the statistics, and
    neither is unless adding or publishing a medium, or setting up the statistics buffer,
    failed. *)
Theorem kext_resources_released (k : kernel) :
  (forall r, ptr_of (life k) r = Live -> r = Mapper \/ r = LostNetif) /\
  (ptr_of (life k) LostNetif = Live <-> ptr_of (start k init).2 Netif = Live) /\
  (forall r, r ∈ faults (life k) -> r = MediumDict \/ r = StatCall) /\
  (no_stale k -> faults (life k) = []).
Proof.
  pose proof (life_ends_well k) as [R F]. rewrite <- life_finish in *.
  apply andb_true_iff in R as [R A%Bool.eqb_prop].
  unfold released in R. apply andb_true_iff in R as [L S%bool_decide_eq_true]. apply bool_decide_eq_true in L.
  split_and!.
  - intros r Hr. assert (r ∈ [Mapper; LostNetif]); [|set_solver].
    apply L. unfold live. apply list_elem_of_filter. split; [done|apply all_res_complete].
  - unfold is_live in A. split; intros H; eapply bool_decide_eq_true_1; [rewrite <- A|rewrite A]; by apply bool_decide_eq_true_2.
  - intros r Hr%S. set_solver.
  - intros N. exact (bool_decide_eq_true_1 _ (F N)).
Qed.

(** A kernel in which one call fails. *)
Definition call_eqb (a b : callid) : bool :=
  match a, b with
  | Create r, Create r' | Prepare r, Prepare r' | SetMemory r, SetMemory r' | GenSegments r, GenSegments r' | FillMap r, FillMap r' => bool_decide (r = r')
  | SuperStart, SuperStart | IsPci, IsPci | Open, Open | InitChip, InitChip | Publish, Publish | Attach, Attach => true
  | _, _ => false
  end.
Definition failing (c : callid) (v : bool) : kernel := mkKernel (fun i => negb (call_eqb i c)) None v.

(** The transmit map could not be filled: all the same, all is released. *)
Lemma kext_resources_released_witness :
  no_stale (failing (FillMap TxMapMem) true) /\ (start (failing (FillMap TxMapMem) true) init).1 = true /\
  faults (life (failing (FillMap TxMapMem) true)) = [] /\ ptr_of (life (failing (FillMap TxMapMem) true)) TxBufDesc <> Live.
Proof.
  assert (no_stale (failing (FillMap TxMapMem) true)) as N by (split_and!; reflexivity).
  destruct (kext_resources_released (failing (FillMap TxMapMem) true)) as (L & _ & _ & F).
  split; [exact N|]. split; [vm_compute; reflexivity|]. split; [exact (F N)|]. intros H. destruct (L TxBufDesc H); discriminate.
Defined.

(** What a single failing call makes the driver release twice. *)
Definition stale_of (c : callid) : list res :=
  match c with
  | Publish => [MediumDict]
  | Create StatBufDesc | Prepare StatBufDesc | Create StatDescDmaCmd | SetMemory StatDescDmaCmd | GenSegments StatDescDmaCmd => [StatCall]
  | _ => []
  end.

(** When exactly one call fails, the driver releases nothing twice, except the medium
    dictionary that could not be published and the thread call of a statistics buffer
    that could not be set up: each pointer is kept after the release and released again
    by stop. *)
Theorem kext_double_release (c : callid) (v : bool) : faults (life (failing c v)) = stale_of c.
Proof. destruct c as [r|r|r|r|r| | | | | | ]; try destruct r; destruct v; vm_compute; reflexivity. Qed.

(** The mapper of the device is never released. *)
Theorem kext_mapper_kept v : ptr_of (life (willing v)) Mapper = Live.
Proof. destruct v; vm_compute; reflexivity. Qed.
