(* ===== verification/DextRes.v ===== *)
(** The resources of the DriverKit driver: init, free, the allocation of DMA memory,
    and Start and Stop of RTL8127Driver.cpp, whichever call of the framework fails.
    Stop gives its work to the completions of two cancelled sources, so it is a step
    system: its own thread, the handlers and completions on the work queue. *)
From S2P Require Import Prelude Owner.

(** The buffers of allocDmaBuffer. *)
Inductive dmabuf := TxRing | RxRing | Stat.

#[export] Instance dmabuf_eq_dec : EqDecision dmabuf.
Proof. solve_decision. Defined.

(** The service classes of the transmit queues. *)
Inductive svc := BE | BK | VI | VO.
#[export] Instance svc_eq_dec : EqDecision svc.
Proof. solve_decision. Defined.
Definition kTxServiceClasses : list svc := [BE; BK; VI; VO].

(** The members of RTL8127Driver_IVars that own something ([RingMd] and [RingDma] are
    txRingMd, txRingDma and so on; [TxPkts] and [RxPkts] the packets the rings hold),
    the IVars themselves, and the locals of allocDmaBuffer and Stop. *)
Inductive res :=
| IVars | Hw | Opened | BarMd | BarMap | RingMd (b : dmabuf) | RingDma (b : dmabuf)
| WorkQueue | IntSource | IntAction | StatsTimer | StatsAction
| TxPool | RxPool | TxLock | TxSubQueue (i : svc) | TxCompQueue (i : svc) | RxSubQueue | RxCompQueue
| TxPkts | RxPkts | LocalMd | LocalCmd | LocalTimer | LocalSrc.

#[export] Instance res_eq_dec : EqDecision res.
Proof. solve_decision. Defined.

Notation rst := (Owner.rst res).

(** The calls that can fail. *)
Inductive callid :=
| SuperInit | New (r : res) | SuperStart | IsPci | OpenPci | FindBar | CopyMemory | MapBar | InitChip
| CreateMd (b : dmabuf) | CreateCmd (b : dmabuf) | PrepareForDMA (b : dmabuf)
| CreateQueue | ConfigureInterrupts | CreateSource | CreateIntAction | CreateTimer | CreateTimerAction
| CreatePool (r : res) | LockAlloc | WithPool (r : res) | Register.

(** A piece of Start: it goes on, or it goes to fail. *)
Definition act : Type := rst -> rst + rst.
Definition andthen (a b : act) : act := fun s => match a s with inl s' => inl s' | inr s' => b s' end.
Declare Scope act_scope.
Notation "a ;;> b" := (andthen a b) (at level 60, right associativity) : act_scope.
#[local] Open Scope act_scope.

Section Code.
Context (ok : callid -> bool).

Definition init (s : rst) : bool * rst :=
  if negb (ok SuperInit) then (false, s) else
  if negb (ok (New IVars)) then (false, s) else
  let s := alloc IVars s in
  if negb (ok (New Hw)) then (false, s) else (true, alloc Hw s).

Definition free (s : rst) : rst :=
  let s := match ptr_of s IVars with Null => s | _ => RELEASES [WorkQueue; Hw] s end in
  RELEASE IVars s.

Definition check (c : callid) : act := fun s => if ok c then inr s else inl s.
Definition create (c : callid) (r : res) : act := fun s => if ok c then inr (alloc r s) else inl s.

(** md and cmd are locals until both members are set. *)
Definition allocDmaBuffer (b : dmabuf) : act := fun s =>
  if negb (ok (CreateMd b)) then inl s else
  let s := alloc LocalMd s in
  if negb (ok (CreateCmd b)) then inl (RELEASE LocalMd s) else
  let s := alloc LocalCmd s in
  if negb (ok (PrepareForDMA b)) then inl (RELEASE LocalMd (RELEASE LocalCmd s)) else
  inr (move LocalCmd (RingDma b) (move LocalMd (RingMd b) s)).

Definition freeDmaBuffer (b : dmabuf) (s : rst) : rst := RELEASE (RingMd b) (RELEASE (RingDma b) s).

(** The timer is optional: Start goes on without it. *)
Definition start_timer : act := fun s =>
  if ok CreateTimer then
    let s := alloc StatsTimer s in
    inr (if ok CreateTimerAction then alloc StatsAction s else s)
  else inr s.

(** Both objects are created before either is checked. *)
Definition create_pair (a b : res) : act := fun s =>
  let s := if ok (WithPool a) then alloc a s else s in
  let s := if ok (WithPool b) then alloc b s else s in
  if ok (WithPool a) && ok (WithPool b) then inr s else inl s.

Fixpoint tx_queues (l : list svc) : act :=
  match l with
  | [] => inr
  | i :: l => create_pair (TxSubQueue i) (TxCompQueue i) ;;> tx_queues l
  end.

Definition start_body : act :=
  check IsPci ;;> create OpenPci Opened ;;> check FindBar ;;> create CopyMemory BarMd ;;> create MapBar BarMap ;;>
  check InitChip ;;> allocDmaBuffer TxRing ;;> allocDmaBuffer RxRing ;;> allocDmaBuffer Stat ;;>
  create CreateQueue WorkQueue ;;> check ConfigureInterrupts ;;> create CreateSource IntSource ;;>
  create CreateIntAction IntAction ;;> start_timer ;;>
  create (CreatePool TxPool) TxPool ;;> create (CreatePool RxPool) RxPool ;;> create LockAlloc TxLock ;;>
  tx_queues kTxServiceClasses ;;> create_pair RxSubQueue RxCompQueue ;;> check Register.

Definition fail (s : rst) : rst := RELEASE Opened s.

Definition Start (s : rst) : bool * rst :=
  if negb (ok SuperStart) then (false, s) else
  match start_body s with inr s => (true, s) | inl s => (false, fail s) end.

(** The block of Stop, without the call of the superclass at its end. *)
Definition finish (s : rst) : rst :=
  let s := RELEASES [StatsAction; IntAction] s in
  let s := freeDmaBuffer Stat (freeDmaBuffer RxRing (freeDmaBuffer TxRing s)) in
  let s := RELEASES [BarMap; BarMd] s in
  let s := match ptr_of s RxPool with Null => s | _ => RELEASE RxPkts s end in
  let s := match ptr_of s TxPool with Null => s | _ => RELEASE TxPkts s end in
  let s := foldl (fun s i => RELEASES [TxSubQueue i; TxCompQueue i] s) s kTxServiceClasses in
  RELEASES [RxSubQueue; RxCompQueue; TxPool; RxPool; TxLock; Opened] s.
End Code.

(** ** Stop *)

Inductive cancel := Idle | Asked | Completed.
(** Where the thread that calls Stop is, and what the work queue is doing: the timer
    handler tests iv->statsTimer, and then calls through it. *)
Inductive stoppc := SEnter | STimer | SSrc | SReturned.
Inductive wqpc := WqIdle | WqTested | WqWake.

#[export] Instance stoppc_eq_dec : EqDecision stoppc.
Proof. solve_decision. Defined.
#[export] Instance cancel_eq_dec : EqDecision cancel.
Proof. solve_decision. Defined.

(** [interface]: interfaceEnabled; [timer] and [src]: the locals are not null. *)
Record tear := mkTear {
  own : rst; interface : bool; pc : stoppc; wq : wqpc; timer : bool; src : bool;
  timer_cancel : cancel; src_cancel : cancel; pending : Z; finished : nat;
}.

Definition put_own (s : rst) (t : tear) : tear :=
  mkTear s (interface t) (pc t) (wq t) (timer t) (src t) (timer_cancel t) (src_cancel t) (pending t) (finished t).
Definition put_pc (p : stoppc) (t : tear) : tear :=
  mkTear (own t) (interface t) p (wq t) (timer t) (src t) (timer_cancel t) (src_cancel t) (pending t) (finished t).
Definition put_wq (w : wqpc) (t : tear) : tear :=
  mkTear (own t) (interface t) (pc t) w (timer t) (src t) (timer_cancel t) (src_cancel t) (pending t) (finished t).
Definition put_locals (a b : bool) (n : Z) (t : tear) : tear :=
  mkTear (own t) (interface t) (pc t) (wq t) a b (timer_cancel t) (src_cancel t) n (finished t).
Definition put_timer_cancel (c : cancel) (t : tear) : tear :=
  mkTear (own t) (interface t) (pc t) (wq t) (timer t) (src t) c (src_cancel t) (pending t) (finished t).
Definition put_src_cancel (c : cancel) (t : tear) : tear :=
  mkTear (own t) (interface t) (pc t) (wq t) (timer t) (src t) (timer_cancel t) c (pending t) (finished t).
Definition run_finish (t : tear) : tear :=
  mkTear (finish (own t)) (interface t) (pc t) (wq t) (timer t) (src t) (timer_cancel t) (src_cancel t) (pending t) (S (finished t)).

(** x->release() on a variable that goes out of scope. *)
Definition drop (r : res) (s : rst) : rst := nullify r (release r s).

(** What the two handlers touch: the registers and the hardware object, and with the
    interface enabled the rings, the counters, the pools and the queues. *)
Definition handler_uses (enabled : bool) : list res :=
  [IVars; Hw; BarMap] ++
  if enabled then
    [RingMd TxRing; RingMd RxRing; RingMd Stat; TxPool; RxPool; TxLock; RxSubQueue; RxCompQueue] ++
    flat_map (fun i => [TxSubQueue i; TxCompQueue i]) kTxServiceClasses
  else [].

Definition is_null (r : res) (s : rst) : bool := bool_decide (ptr_of s r = Null).

(** Stop reads and clears the two members, and then asks each source to cancel. *)
Definition stop_step (t : tear) : option tear :=
  match pc t with
  | SEnter =>
      let a := negb (is_null StatsTimer (own t)) in
      let b := negb (is_null IntSource (own t)) in
      let t := put_own (move IntSource LocalSrc (move StatsTimer LocalTimer (own t))) t in
      let t := put_locals a b ((if a then 1 else 0) + (if b then 1 else 0)) t in
      Some (if pending t =? 0 then put_pc SReturned (run_finish t) else put_pc STimer t)
  | STimer =>
      Some (put_pc SSrc (if timer t then put_timer_cancel Asked (put_own (use LocalTimer (own t)) t) else t))
  | SSrc =>
      Some (put_pc SReturned (if src t then put_src_cancel Asked (put_own (use LocalSrc (own t)) t) else t))
  | SReturned => None
  end.

(** __atomic_sub_fetch(&pending, 1) == 0: the last completion finishes. *)
Definition completed (t : tear) : tear :=
  let t := put_locals (timer t) (src t) (pending t - 1) t in
  if pending t =? 0 then run_finish t else t.

Inductive event := EvStop | EvInterrupt | EvTimer | EvTest | EvWake | EvTimerCancelled | EvSrcCancelled.

(** A source exists until its completion has run; until then its handler may run. *)
Definition source_alive (member loc : res) (t : tear) : bool := negb (is_null member (own t)) || negb (is_null loc (own t)).

(** [None]: the event cannot happen. The work queue does one thing at a time. *)
Definition step (e : event) (t : tear) : option tear :=
  match e, wq t with
  | EvStop, _ => stop_step t
  | EvInterrupt, WqIdle =>
      if source_alive IntSource LocalSrc t then Some (put_own (uses (handler_uses (interface t)) (own t)) t) else None
  | EvTimer, WqIdle =>
      if source_alive StatsTimer LocalTimer t
      then Some (put_wq WqTested (put_own (uses (handler_uses (interface t)) (own t)) t)) else None
  | EvTest, WqTested => Some (put_wq (if is_null StatsTimer (own t) then WqIdle else WqWake) t)
  | EvWake, WqWake => Some (put_wq WqIdle (put_own (use StatsTimer (own t)) t))
  | EvTimerCancelled, WqIdle =>
      if decide (timer_cancel t = Asked)
      then Some (completed (put_timer_cancel Completed (put_own (drop LocalTimer (own t)) t))) else None
  | EvSrcCancelled, WqIdle =>
      if decide (src_cancel t = Asked)
      then Some (completed (put_src_cancel Completed (put_own (drop LocalSrc (own t)) t))) else None
  | _, _ => None
  end.

Fixpoint run (es : list event) (t : tear) : option tear :=
  match es with [] => Some t | e :: es => match step e t with Some t' => run es t' | None => None end end.

(** The driver when Stop is called: Start has returned, and if it succeeded the
    interface may be enabled, with packets in the rings. *)
Definition at_stop (ok : callid -> bool) (enabled : bool) : tear :=
  let '(started, s) := Start ok (init ok nothing).2 in
  let on := started && enabled in
  mkTear (if on then alloc TxPkts (alloc RxPkts s) else s) on SEnter WqIdle false false Idle Idle 0 0.
