(* ===== verification/DextResSpec.v ===== *)
(** What Start leaves and how Stop ends: a small Hoare logic for the pieces of Start,
    the invariant of the teardown, and the theorems on all its interleavings. *)
From S2P Require Import Prelude Owner DextRes.
#[local] Open Scope act_scope.

(** Membership of a given resource in a given list, decided. *)
Ltac ground := apply (bool_decide_eq_true_1 _); vm_compute; reflexivity.
(** One case per element. *)
Ltac each_of H := repeat (apply elem_of_cons in H as [->|H]); try (by apply not_elem_of_nil in H).

(** ** Start *)

(** Locals of the functions, and packets, of which Start holds none. *)
Definition scratch : list res := [LocalMd; LocalCmd; LocalTimer; LocalSrc; TxPkts; RxPkts].

Record base (s : rst) : Prop := {
  base_sane : sane s;
  base_faults : faults s = [];
  base_scratch : forall r, r ∈ scratch -> ptr_of s r = Null;
  base_ivars : ptr_of s IVars = Live /\ ptr_of s Hw = Live;
}.

(** No source can call a handler. *)
Definition quiet (s : rst) : Prop := ptr_of s IntSource = Null /\ ptr_of s StatsTimer = Null.

(** Between two pieces of Start: the objects in [l] exist, and there is no source
    before the registers are mapped. *)
Definition owns (l : list res) (s : rst) : Prop :=
  base s /\ (forall r, r ∈ l -> ptr_of s r = Live) /\ (quiet s \/ BarMap ∈ l).
(** Where Start has gone to fail. *)
Definition given_up (s : rst) : Prop := base s /\ (quiet s \/ ptr_of s BarMap = Live).

Definition triple (l : list res) (a : act) (l' : list res) : Prop :=
  forall s, owns l s -> match a s with inr s' => owns l' s' | inl s' => given_up s' end.

Lemma owns_given_up l s : owns l s -> given_up s.
Proof. intros (B & L & [Q|M]); (split; [done|]); [by left|right; by apply L]. Qed.

Lemma base_equiv s s' : s ≡ s' -> base s -> base s'.
Proof.
  intros [E1 E2] [B1 B2 B3 B4]. split.
  - intros r. rewrite <- E1. apply B1.
  - by rewrite <- E2.
  - intros r Hr. rewrite <- E1. by apply B3.
  - by rewrite <- !E1.
Qed.

Lemma owns_equiv l s s' : s ≡ s' -> owns l s -> owns l s'.
Proof.
  intros E (B & L & Q). pose proof E as [E1 _]. split; [by eapply base_equiv|]. unfold quiet in *. rewrite <- !E1.
  split; [intros r Hr; rewrite <- E1; by apply L|done].
Qed.

Lemma given_up_equiv s s' : s ≡ s' -> given_up s -> given_up s'.
Proof. intros E (B & Q). pose proof E as [E1 _]. split; [by eapply base_equiv|]. unfold quiet in *. by rewrite <- !E1. Qed.

Lemma fail_given_up s : given_up s -> given_up (fail s).
Proof.
  intros (B & Q). unfold fail. pose proof (RELEASE_null Opened s (base_sane _ B)) as E.
  eapply given_up_equiv; [symmetry; exact E|]. destruct B as [B1 B2 B3 B4]. split; [split|done].
  - by apply sane_set.
  - done.
  - intros r Hr. unfold nullify. destruct (decide (r = Opened)) as [->|N]; [by rewrite ptr_set_same|].
    rewrite ptr_set_other by done. by apply B3.
  - done.
Qed.

Lemma triple_seq l m n a b : triple l a m -> triple m b n -> triple l (a ;;> b) n.
Proof. intros Ha Hb s H. unfold andthen. specialize (Ha s H). destruct (a s) as [s'|s']; [done|]. by apply Hb. Qed.

Lemma base_alloc r s : r ∉ scratch -> base s -> base (alloc r s).
Proof.
  intros Hr [B1 B2 B3 B4]. split; [by apply sane_alloc|done| |].
  - intros x Hx. unfold alloc. rewrite ptr_set_other; [by apply B3|]. by intros ->.
  - unfold alloc. cbn. destruct B4. split; by case_decide.
Qed.

Lemma owns_alloc l r s : r ∉ scratch -> (r = IntSource \/ r = StatsTimer -> BarMap ∈ l) -> owns l s -> owns (r :: l) (alloc r s).
Proof.
  intros Hr HB (B & L & Q). split; [by apply base_alloc|]. split.
  - intros x [->|Hx]%elem_of_cons; unfold alloc; [by rewrite ptr_set_same|].
    destruct (decide (x = r)) as [->|N]; [by rewrite ptr_set_same|]. rewrite ptr_set_other by done. by apply L.
  - destruct (decide (r = IntSource \/ r = StatsTimer)) as [D|N]; [right; set_solver|].
    destruct Q as [[Q1 Q2]|Q]; [left|right; set_solver].
    split; unfold alloc; rewrite ptr_set_other; try done; naive_solver.
Qed.

Lemma owns_weaken l l' s : l' ⊆ l -> (BarMap ∈ l -> BarMap ∈ l') -> owns l s -> owns l' s.
Proof. intros Hs HB (B & L & Q). split; [done|]. split; [intros r Hr; apply L; by apply Hs|naive_solver]. Qed.

Section Triples.
Context (ok : callid -> bool).

Lemma triple_check l c : triple l (check ok c) l.
Proof. intros s H. unfold check. destruct (ok c); [done|by eapply owns_given_up]. Qed.

Lemma triple_create l c r : r ∉ scratch -> (r = IntSource \/ r = StatsTimer -> BarMap ∈ l) -> triple l (create ok c r) (r :: l).
Proof. intros Hr HB s H. unfold create. destruct (ok c); [by apply owns_alloc|by eapply owns_given_up]. Qed.

Lemma triple_timer l : BarMap ∈ l -> triple l (start_timer ok) l.
Proof.
  intros HB s H. unfold start_timer. destruct (ok CreateTimer); [|done].
  assert (owns (StatsTimer :: l) (alloc StatsTimer s)) as H1 by (apply owns_alloc; [set_solver|done|done]).
  destruct (ok CreateTimerAction).
  - eapply (owns_weaken (StatsAction :: StatsTimer :: l)); [set_solver|done|]. apply owns_alloc; [set_solver|set_solver|done].
  - eapply owns_weaken; [|done|done]. set_solver.
Qed.

Lemma triple_pair l a b : a ∉ scratch -> b ∉ scratch -> BarMap ∈ l -> triple l (create_pair ok a b) (b :: a :: l).
Proof.
  intros Ha Hb HB s H. unfold create_pair. cbv zeta.
  pose proof (owns_alloc l a s Ha (fun _ => HB) H) as H1.
  pose proof (owns_alloc l b s Hb (fun _ => HB) H) as H2.
  destruct (ok (WithPool a)), (ok (WithPool b)); cbn [andb].
  - apply owns_alloc; [done|set_solver|done].
  - by eapply owns_given_up.
  - by eapply owns_given_up.
  - by eapply owns_given_up.
Qed.

(** allocDmaBuffer leaves no local behind. *)
Lemma alloc_dma b s : ptr_of s LocalMd = Null -> ptr_of s LocalCmd = Null ->
  match allocDmaBuffer ok b s with inr s' => s' ≡ alloc (RingDma b) (alloc (RingMd b) s) | inl s' => s' ≡ s end.
Proof.
  intros N1 N2. unfold allocDmaBuffer.
  destruct (ok (CreateMd b)); cbn [negb]; [|done].
  destruct (ok (CreateCmd b)); cbn [negb].
  - destruct (ok (PrepareForDMA b)); cbn [negb]; (split; [|done]); intros []; destruct b; cbn; rewrite ?N1, ?N2; try done; by repeat case_decide.
  - split; [|done]. intros []; cbn; rewrite ?N1; by repeat case_decide.
Qed.

Lemma triple_dma l b : triple l (allocDmaBuffer ok b) (RingDma b :: RingMd b :: l).
Proof.
  intros s H. pose proof (alloc_dma b s) as E. destruct (allocDmaBuffer ok b s) as [s'|s'].
  - eapply given_up_equiv; [|by eapply owns_given_up]. symmetry. apply E; apply H; set_solver.
  - eapply owns_equiv; [symmetry; apply E; apply H; set_solver|].
    apply owns_alloc; [set_solver|naive_solver|]. apply owns_alloc; [set_solver|naive_solver|done].
Qed.

Fixpoint queue_list (q : list svc) (l : list res) : list res :=
  match q with [] => l | i :: q => queue_list q (TxCompQueue i :: TxSubQueue i :: l) end.

Lemma triple_queues q l : BarMap ∈ l -> triple l (tx_queues ok q) (queue_list q l).
Proof.
  revert l. induction q as [|i q IH]; intros l H; cbn [tx_queues queue_list]; [by intros s|].
  eapply triple_seq; [apply triple_pair; [set_solver|set_solver|done]|]. apply IH. set_solver.
Qed.

(** What exists when Start succeeds. *)
Definition started : list res :=
  RxCompQueue :: RxSubQueue :: queue_list kTxServiceClasses
    [TxLock; RxPool; TxPool; IntAction; IntSource; WorkQueue; RingDma Stat; RingMd Stat; RingDma RxRing; RingMd RxRing;
     RingDma TxRing; RingMd TxRing; BarMap; BarMd; Opened].

Lemma triple_start : triple [] (start_body ok) started.
Proof.
  unfold start_body.
  repeat (eapply triple_seq;
    [first [apply triple_check | apply triple_create; [ground|first [by intros [?|?] | intros _; ground]] | apply triple_dma
           | apply triple_timer; ground | apply triple_queues; ground | apply triple_pair; ground]|]).
  apply triple_check.
Qed.

Lemma Start_leaves s : owns [] s ->
  let '(b, s') := Start ok s in if b : bool then owns started s' else given_up s'.
Proof.
  intros H. unfold Start. destruct (ok SuperStart); cbn [negb]; [|by eapply owns_given_up].
  pose proof (triple_start s H) as T. destruct (start_body ok s); [|done]. by apply fail_given_up.
Qed.

Lemma init_owns : (init ok nothing).1 = true -> owns [] (init ok nothing).2.
Proof.
  unfold init. destruct (ok SuperInit), (ok (New IVars)), (ok (New Hw)); cbn [negb fst]; try discriminate. intros _.
  split; [|split; [set_solver|by left]].
  split; [by repeat apply sane_alloc|done|intros r Hr; by each_of Hr|done].
Qed.
End Triples.

(** ** The end of Stop *)

Definition finish_first : list res :=
  [StatsAction; IntAction; RingDma TxRing; RingMd TxRing; RingDma RxRing; RingMd RxRing; RingDma Stat; RingMd Stat; BarMap; BarMd].
Definition finish_last : list res :=
  [TxSubQueue BE; TxCompQueue BE; TxSubQueue BK; TxCompQueue BK; TxSubQueue VI; TxCompQueue VI; TxSubQueue VO; TxCompQueue VO;
   RxSubQueue; RxCompQueue; TxPool; RxPool; TxLock; Opened].
Definition finish_list : list res := finish_first ++ [RxPkts; TxPkts] ++ finish_last.

(** Packets are in the rings only while their pool exists. *)
Definition pooled (s : rst) : Prop :=
  (ptr_of s RxPool = Null -> ptr_of s RxPkts = Null) /\ (ptr_of s TxPool = Null -> ptr_of s TxPkts = Null).

(** Freeing the packets of a ring, if it has a pool. *)
Lemma free_packets (pool pkts : res) (s : rst) : sane s -> (ptr_of s pool = Null -> ptr_of s pkts = Null) ->
  match ptr_of s pool with Null => s | _ => RELEASE pkts s end ≡ RELEASE pkts s.
Proof. intros S H. destruct (ptr_of s pool); [|done|done]. unfold RELEASE. by rewrite H. Qed.

#[export] Instance RELEASES_proper (l : list res) : Proper ((≡) ==> (≡)) (RELEASES l).
Proof. induction l as [|r l IH]; intros s s' E; [done|]. apply IH. cbn. by rewrite E. Qed.

Lemma RELEASES_app (l m : list res) (s : rst) : RELEASES (l ++ m) s = RELEASES m (RELEASES l s).
Proof. apply foldl_app. Qed.

Lemma freeDmaBuffer_releases b s : freeDmaBuffer b s = RELEASES [RingDma b; RingMd b] s.
Proof. reflexivity. Qed.

Lemma finish_releases s : sane s -> pooled s -> finish s ≡ RELEASES finish_list s.
Proof.
  intros S [P1 P2]. unfold finish. cbv zeta. rewrite !freeDmaBuffer_releases, <- !RELEASES_app.
  cbn [foldl kTxServiceClasses]. rewrite <- !RELEASES_app.
  change (RELEASES finish_list s) with (RELEASES (finish_first ++ [RxPkts; TxPkts] ++ finish_last) s).
  rewrite !(RELEASES_app finish_first), (RELEASES_app [RxPkts; TxPkts]).
  match goal with |- context [RELEASES ?l s] => change l with finish_first end.
  set (s1 := RELEASES finish_first s).
  assert (sane s1) as S1 by (by apply sane_RELEASES).
  assert (forall r, r ∉ finish_first -> ptr_of s1 r = ptr_of s r) as K.
  { intros r Hr. unfold s1. rewrite ptr_RELEASES by done. by rewrite decide_False. }
  assert (match ptr_of s1 RxPool with Null => s1 | _ => RELEASE RxPkts s1 end ≡ RELEASE RxPkts s1) as E.
  { apply free_packets; [done|]. rewrite !K by ground. done. }
  assert (forall s2, s2 ≡ RELEASE RxPkts s1 ->
    match ptr_of s2 TxPool with Null => s2 | _ => RELEASE TxPkts s2 end ≡ RELEASE TxPkts (RELEASE RxPkts s1)) as F.
  { intros s2 E2. etransitivity; [|by apply RELEASE_proper]. apply free_packets.
    - intros r. rewrite (proj1 E2 r). by apply sane_RELEASE.
    - rewrite !(proj1 E2), !(ptr_RELEASE RxPkts _ s1 S1). repeat case_decide; try done. rewrite !K by ground. done. }
  apply RELEASES_proper, F, E.
Qed.

Lemma finish_spec s : sane s -> pooled s ->
  sane (finish s) /\ faults (finish s) = faults s /\
  forall r, ptr_of (finish s) r = if decide (r ∈ finish_list) then Null else ptr_of s r.
Proof.
  intros S P. pose proof (finish_releases s S P) as [E1 E2]. split_and!.
  - intros r. rewrite E1. by apply sane_RELEASES.
  - rewrite E2. by apply faults_RELEASES.
  - intros r. rewrite E1. by apply ptr_RELEASES.
Qed.

(** ** The teardown *)

Definition alive (c : cancel) : bool := match c with Completed => false | _ => true end.
Definition b2z (b : bool) : Z := if b then 1 else 0.

(** Before Stop has read the members. *)
Definition before (t : tear) : Prop :=
  ptr_of (own t) LocalTimer = Null /\ ptr_of (own t) LocalSrc = Null /\ timer_cancel t = Idle /\ src_cancel t = Idle /\
  finished t = 0%nat /\ (wq t <> WqIdle -> ptr_of (own t) StatsTimer = Live).

(** What Stop has asked for, given where it is. *)
Definition asked (t : tear) : Prop :=
  match pc t with
  | SEnter => False
  | STimer => timer_cancel t = Idle /\ src_cancel t = Idle
  | SSrc => src_cancel t = Idle /\ (timer t = true -> timer_cancel t <> Idle)
  | SReturned => (timer t = true -> timer_cancel t <> Idle) /\ (src t = true -> src_cancel t <> Idle)
  end.

(** Afterwards: a source that Stop found is held by a local until its completion has
    run, pending counts the sources that are left, and the block runs with the last. *)
Definition after (t : tear) : Prop :=
  asked t /\
  (timer_cancel t <> Idle -> timer t = true) /\ (src_cancel t <> Idle -> src t = true) /\
  ptr_of (own t) StatsTimer = Null /\ ptr_of (own t) IntSource = Null /\
  ptr_of (own t) LocalTimer = (if timer t && alive (timer_cancel t) then Live else Null) /\
  ptr_of (own t) LocalSrc = (if src t && alive (src_cancel t) then Live else Null) /\
  pending t = b2z (timer t && alive (timer_cancel t)) + b2z (src t && alive (src_cancel t)) /\
  finished t = (if pending t =? 0 then 1%nat else 0%nat) /\
  (wq t <> WqIdle -> timer t && alive (timer_cancel t) = true).

Definition no_source (s : rst) : Prop := forall r, r ∈ [IntSource; StatsTimer; LocalTimer; LocalSrc] -> ptr_of s r = Null.

(** The objects of handlers exist while a source does; the rest is gone after the
    block has run. *)
Definition held (t : tear) : Prop :=
  if decide (finished t = 0%nat)
  then no_source (own t) \/ forall r, r ∈ handler_uses (interface t) -> ptr_of (own t) r = Live
  else forall r, r ∈ finish_list -> ptr_of (own t) r = Null.

(** What holds of the pointers at any time. *)
Record pointers (s : rst) : Prop := {
  po_sane : sane s;
  po_faults : forall r, r ∈ faults s -> r = StatsTimer;
  po_pooled : pooled s;
  po_scratch : ptr_of s LocalMd = Null /\ ptr_of s LocalCmd = Null /\ ptr_of s IVars = Live;
}.

Record tear_inv (t : tear) : Prop := {
  ti_pointers : pointers (own t);
  ti_phase : pc t = SEnter /\ before t \/ after t;
  ti_held : held t;
}.

Definition sources : list res := [IntSource; StatsTimer; LocalTimer; LocalSrc].

(** Changing only the pointers to the sources. *)
Lemma pointers_sources s s' :
  pointers s -> sane s' -> (forall r, r ∉ sources -> ptr_of s' r = ptr_of s r) ->
  (forall r, r ∈ faults s' -> r ∈ faults s \/ r = StatsTimer) -> pointers s'.
Proof.
  intros [P1 P2 P3 P4] S E F. unfold sources in E. split; [done| | |].
  - intros r [Hr|Hr]%F; [by apply P2|done].
  - unfold pooled. by rewrite !E by ground.
  - by rewrite !E by ground.
Qed.

Lemma pointers_finish s : pointers s -> pointers (finish s).
Proof.
  intros [P1 P2 P3 P4]. destruct (finish_spec s P1 P3) as (S & F & E). split; [done|by rewrite F| |].
  - split; intros _; rewrite E; by rewrite decide_True by ground.
  - rewrite !E, !decide_False by ground. done.
Qed.

Lemma finish_keeps s r : pointers s -> r ∉ finish_list -> ptr_of (finish s) r = ptr_of s r.
Proof. intros P Hr. destruct (finish_spec s (po_sane _ P) (po_pooled _ P)) as (_ & _ & E). by rewrite E, decide_False. Qed.

Lemma finish_clears s r : pointers s -> r ∈ finish_list -> ptr_of (finish s) r = Null.
Proof. intros P Hr. destruct (finish_spec s (po_sane _ P) (po_pooled _ P)) as (_ & _ & E). by rewrite E, decide_True. Qed.

Lemma sources_kept r : r ∈ sources -> r ∉ finish_list.
Proof. intros H. each_of H; ground. Qed.

Lemma handlers_kept b r : r ∈ handler_uses b -> r ∉ sources.
Proof. intros Hr H. revert Hr. change (r ∉ handler_uses b). each_of H; destruct b; ground. Qed.

(** Handlers find what they use. *)
Lemma handler_unchanged t : tear_inv t -> ~ no_source (own t) -> uses (handler_uses (interface t)) (own t) = own t.
Proof.
  intros I N. apply uses_live, Forall_forall. intros r Hr.
  destruct I as [_ P H]. unfold held in H. case_decide as D.
  - destruct H as [H|H]; [done|]. by apply H.
  - exfalso. apply N. destruct P as [[_ (_ & _ & _ & _ & P & _)]|(_ & _ & _ & P1 & P2 & P3 & P4 & P5 & P6 & _)]; [done|].
    destruct (Z.eqb_spec (pending t) 0); [|done].
    destruct (timer t && _), (src t && _); unfold b2z in P5; try lia; intros x Hx; by each_of Hx.
Qed.

(** ** Each step *)

Lemma put_own_same t : put_own (own t) t = t.
Proof. by destruct t. Qed.

Lemma drop_live (r : res) (s : rst) : sane s -> ptr_of s r = Live ->
  sane (drop r s) /\ faults (drop r s) = faults s /\ forall x, ptr_of (drop r s) x = if decide (x = r) then Null else ptr_of s x.
Proof.
  intros S H. unfold drop, release. rewrite H. split; [|split; [done|]].
  - intros x. cbn. repeat case_decide; by try apply S.
  - intros x. cbn. by repeat case_decide.
Qed.

Lemma source_alive_not_quiet m l t : m ∈ sources -> l ∈ sources -> source_alive m l t = true -> ~ no_source (own t).
Proof.
  intros Hm Hl A N. unfold source_alive, is_null in A. rewrite !bool_decide_eq_true_2 in A; [done|by apply N..].
Qed.

Lemma tear_inv_interrupt t t' : tear_inv t -> step EvInterrupt t = Some t' -> t' = t.
Proof.
  intros I. unfold step. destruct (wq t); [|done|done]. destruct (source_alive _ _ t) eqn:A; [|done]. intros <-%(inj Some).
  rewrite handler_unchanged; [apply put_own_same|done|]. eapply source_alive_not_quiet; [| |exact A]; ground.
Qed.

Lemma inv_timer t t' : tear_inv t -> step EvTimer t = Some t' -> tear_inv t'.
Proof.
  intros I. unfold step. destruct (wq t) eqn:W; [|done|done]. destruct (source_alive _ _ t) eqn:A; [|done]. intros <-%(inj Some).
  rewrite handler_unchanged, put_own_same; [|done|eapply source_alive_not_quiet; [| |exact A]; ground].
  destruct I as [P Ph H]. split; [done| |done]. unfold source_alive, is_null in A. destruct Ph as [[E B]|B].
  - left. split; [done|]. destruct B as (B1 & B2 & B3 & B4 & B5 & _). split_and!; try done. intros _. cbn [own put_wq].
    rewrite B1 in A. pose proof (po_sane _ P StatsTimer). destruct (ptr_of (own t) StatsTimer); [done|done|done].
  - right. destruct B as (C0 & C1 & C2 & C3 & C4 & C5 & C6 & C7 & C8 & _). split_and!; try done. intros _. cbn [timer timer_cancel put_wq].
    rewrite C3, C5 in A. by destruct (timer t && _).
Qed.

Lemma inv_test t t' : tear_inv t -> step EvTest t = Some t' -> tear_inv t'.
Proof.
  intros [P Ph H]. unfold step. destruct (wq t) eqn:W; [done| |done]. intros <-%(inj Some). split; [done| |done].
  destruct Ph as [[E (B1 & B2 & B3 & B4 & B5 & B6)]|(C0 & C1 & C2 & C3 & C4 & C5 & C6 & C7 & C8 & C9)]; [left|right].
  - split; [done|]. split_and!; try done. intros _. by apply B6; rewrite W.
  - split_and!; try done. intros _. by apply C9; rewrite W.
Qed.

Lemma inv_wake t t' : tear_inv t -> step EvWake t = Some t' -> tear_inv t'.
Proof.
  intros [P Ph H]. unfold step. destruct (wq t) eqn:W; [done|done|]. intros <-%(inj Some).
  assert (forall r, ptr_of (use StatsTimer (own t)) r = ptr_of (own t) r) as E.
  { intros r. unfold use. by destruct (ptr_of (own t) StatsTimer). }
  split; cbn [own put_wq put_own].
  - eapply pointers_sources; [done|intros r; rewrite E; apply P|intros r _; apply E|].
    intros r. unfold use. destruct (ptr_of (own t) StatsTimer); [|by left|]; cbn; intros [Hr|Hr]%elem_of_app; [by left|set_solver|by left|set_solver].
  - unfold before, after, asked in *. cbn [pc wq timer src timer_cancel src_cancel pending finished own put_wq put_own].
    rewrite !E. naive_solver.
  - unfold held, no_source in *. cbn [finished interface own put_wq put_own]. case_decide; by setoid_rewrite E.
Qed.

(** Held objects stay while only pointers to sources change, as long as one is left or none was. *)
Lemma held_sources t s' : held t -> finished t = 0%nat -> (forall r, r ∉ sources -> ptr_of s' r = ptr_of (own t) r) ->
  (no_source (own t) -> no_source s') -> no_source s' \/ forall r, r ∈ handler_uses (interface t) -> ptr_of s' r = Live.
Proof.
  intros H F E N. unfold held in H. rewrite decide_True in H by done. destruct H as [H|H]; [left; by apply N|right].
  intros r Hr. rewrite E by (by eapply handlers_kept). by apply H.
Qed.

(** The block, run when no source is left. *)
Lemma inv_finish t : pointers (own t) -> finished t = 0%nat -> pending t = 0 ->
  (asked t /\ (timer_cancel t <> Idle -> timer t = true) /\ (src_cancel t <> Idle -> src t = true) /\ wq t = WqIdle) ->
  no_source (own t) -> timer t && alive (timer_cancel t) = false -> src t && alive (src_cancel t) = false ->
  tear_inv (run_finish t).
Proof.
  intros P F0 N (A & B & C & W) Q T S. split; cbn [own run_finish].
  - by apply pointers_finish.
  - right. unfold after. cbn [asked pc wq timer src timer_cancel src_cancel pending finished own run_finish].
    rewrite T, S, N, F0, W. rewrite !finish_keeps by (done || ground). rewrite !Q by ground. by split_and!.
  - unfold held. cbn [finished own run_finish]. rewrite decide_False by lia. intros r Hr. by apply finish_clears.
Qed.

(** After a completion has released its source and before it counts itself. *)
Lemma inv_completed t :
  pointers (own t) -> asked t -> (timer_cancel t <> Idle -> timer t = true) -> (src_cancel t <> Idle -> src t = true) ->
  ptr_of (own t) StatsTimer = Null -> ptr_of (own t) IntSource = Null ->
  ptr_of (own t) LocalTimer = (if timer t && alive (timer_cancel t) then Live else Null) ->
  ptr_of (own t) LocalSrc = (if src t && alive (src_cancel t) then Live else Null) ->
  pending t - 1 = b2z (timer t && alive (timer_cancel t)) + b2z (src t && alive (src_cancel t)) ->
  finished t = 0%nat -> wq t = WqIdle -> (no_source (own t) \/ forall r, r ∈ handler_uses (interface t) -> ptr_of (own t) r = Live) ->
  tear_inv (completed t).
Proof.
  intros P A C1 C2 N1 N2 L1 L2 K F W H. unfold completed. cbn [pending put_locals].
  destruct (Z.eqb_spec (pending t - 1) 0) as [E|E].
  - rewrite K in E. destruct (timer t && alive (timer_cancel t)) eqn:T, (src t && alive (src_cancel t)) eqn:S; unfold b2z in E; try lia.
    apply inv_finish; try done. intros r Hr. by each_of Hr.
  - split; [done| |].
    + right. unfold after. cbn [asked pc wq timer src timer_cancel src_cancel pending finished own put_locals].
      rewrite (proj2 (Z.eqb_neq _ _) E), W. by split_and!.
    + unfold held. cbn [finished own interface put_locals]. by rewrite decide_True.
Qed.

(** A source that was found and has not completed: the block has not run. *)
Lemma unfinished t : after t -> timer t && alive (timer_cancel t) = true \/ src t && alive (src_cancel t) = true -> finished t = 0%nat.
Proof.
  intros (_ & _ & _ & _ & _ & _ & _ & K & F & _) D. rewrite F.
  destruct (Z.eqb_spec (pending t) 0) as [E|E]; [exfalso|done]. rewrite K in E.
  destruct (timer t && _), (src t && _), D; unfold b2z in E; try lia; done.
Qed.

(** Dropping one local. *)
Lemma drop_source t l : l ∈ sources -> pointers (own t) -> ptr_of (own t) l = Live -> held t -> finished t = 0%nat ->
  pointers (drop l (own t)) /\
  (no_source (drop l (own t)) \/ forall r, r ∈ handler_uses (interface t) -> ptr_of (drop l (own t)) r = Live) /\
  forall x, ptr_of (drop l (own t)) x = if decide (x = l) then Null else ptr_of (own t) x.
Proof.
  intros Hl P L H F. destruct (drop_live l (own t) (po_sane _ P) L) as (S & E & D).
  assert (forall r, r ∉ sources -> ptr_of (drop l (own t)) r = ptr_of (own t) r) as K.
  { intros r Hr. rewrite D, decide_False; [done|]. by intros ->. }
  split_and!; [|apply held_sources; try done|done].
  - eapply pointers_sources; [done|done|done|]. rewrite E. by left.
  - intros N r Hr. rewrite D. case_decide; [done|]. by apply N.
Qed.

Lemma inv_timer_cancelled t t' : tear_inv t -> step EvTimerCancelled t = Some t' -> tear_inv t'.
Proof.
  intros [P Ph H]. unfold step. destruct (wq t) eqn:W; [|done|done]. case_decide as C; [|done]. intros <-%(inj Some).
  destruct Ph as [[_ (_ & _ & B & _)]|Af]; [by rewrite B in C|].
  pose proof Af as (C0 & C1 & C2 & C3 & C4 & C5 & C6 & C7 & C8 & C9).
  assert (timer t = true) as T by (apply C1; by rewrite C).
  assert (finished t = 0%nat) as F by (apply unfinished; [done|left; by rewrite T, C]).
  rewrite T, C in C5. cbn in C5.
  destruct (drop_source t LocalTimer ltac:(ground) P C5 H F) as (P' & H' & D).
  apply inv_completed; cbn [own pc wq timer src timer_cancel src_cancel pending finished interface put_timer_cancel put_own];
    rewrite ?D, ?T, ?decide_False by done; rewrite ?decide_True by done; try done.
  - unfold asked in *. cbn [pc timer_cancel src_cancel timer src put_timer_cancel put_own]. rewrite C in C0. destruct (pc t); naive_solver.
  - rewrite C7, T, C. cbn. unfold b2z. lia.
Qed.

Lemma inv_src_cancelled t t' : tear_inv t -> step EvSrcCancelled t = Some t' -> tear_inv t'.
Proof.
  intros [P Ph H]. unfold step. destruct (wq t) eqn:W; [|done|done]. case_decide as C; [|done]. intros <-%(inj Some).
  destruct Ph as [[_ (_ & _ & _ & B & _)]|Af]; [by rewrite B in C|].
  pose proof Af as (C0 & C1 & C2 & C3 & C4 & C5 & C6 & C7 & C8 & C9).
  assert (src t = true) as T by (apply C2; by rewrite C).
  assert (finished t = 0%nat) as F by (apply unfinished; [done|right; by rewrite T, C]).
  rewrite T, C in C6. cbn in C6.
  destruct (drop_source t LocalSrc ltac:(ground) P C6 H F) as (P' & H' & D).
  apply inv_completed; cbn [own pc wq timer src timer_cancel src_cancel pending finished interface put_src_cancel put_own];
    rewrite ?D, ?T, ?decide_False by done; rewrite ?decide_True by done; try done.
  - unfold asked in *. cbn [pc timer_cancel src_cancel timer src put_src_cancel put_own]. rewrite C in C0. destruct (pc t); naive_solver.
  - rewrite C7, T, C. cbn. unfold b2z. lia.
Qed.

(** Stop takes the two members into its locals. *)
Definition taken (s : rst) : rst := move IntSource LocalSrc (move StatsTimer LocalTimer s).

Lemma taken_ptr s r : ptr_of (taken s) r =
  match r with
  | IntSource | StatsTimer => Null
  | LocalSrc => ptr_of s IntSource
  | LocalTimer => ptr_of s StatsTimer
  | _ => ptr_of s r
  end.
Proof. unfold taken, move. destruct r; cbn; try done; by repeat case_decide. Qed.

Lemma pointers_taken s : pointers s -> pointers (taken s).
Proof.
  intros P. eapply pointers_sources; [done| | |by left].
  - unfold taken. apply sane_move, sane_move, P.
  - intros r Hr. rewrite taken_ptr. destruct r; try done; exfalso; apply Hr; ground.
Qed.

Lemma is_null_live r s : sane s -> ptr_of s r = if negb (is_null r s) then Live else Null.
Proof. intros S. unfold is_null. pose proof (S r). destruct (ptr_of s r); [done|done|done]. Qed.

Lemma inv_enter t t' : tear_inv t -> pc t = SEnter -> stop_step t = Some t' -> tear_inv t'.
Proof.
  intros [P Ph H] E. unfold stop_step. rewrite E. cbv zeta. fold (taken (own t)). intros <-%(inj Some).
  destruct Ph as [[_ (B1 & B2 & B3 & B4 & B5 & B6)]|[A _]]; [|unfold asked in A; by rewrite E in A].
  pose proof (is_null_live StatsTimer _ (po_sane _ P)) as LT. pose proof (is_null_live IntSource _ (po_sane _ P)) as LS.
  pose proof (pointers_taken _ P) as P'.
  cbn [pending put_locals put_own].
  set (a := negb (is_null StatsTimer (own t))) in *. set (b := negb (is_null IntSource (own t))) in *.
  assert (no_source (own t) -> no_source (taken (own t))) as Q.
  { intros N r Hr. rewrite taken_ptr. each_of Hr; try done; by apply N; ground. }
  destruct (Z.eqb_spec ((if a then 1 else 0) + (if b then 1 else 0)) 0) as [K|K].
  - destruct a, b; try lia. apply (inv_finish (put_pc SReturned (put_locals false false 0 (put_own (taken (own t)) t)))); try done.
    + cbn. rewrite B3, B4. split_and!; try done. destruct (wq t); [done|..]; rewrite LT in B6; by specialize (B6 ltac:(done)).
    + apply Q. intros r Hr. by each_of Hr.
  - split; [done| |].
    + right. unfold after, asked. cbn [pc wq timer src timer_cancel src_cancel pending finished own put_pc put_locals put_own].
      rewrite B3, B4, !taken_ptr, LT, LS, !andb_true_r, (proj2 (Z.eqb_neq _ _) K).
      split_and!; try done. intros W. specialize (B6 W). rewrite LT in B6. by destruct a.
    + unfold held. cbn [finished own interface put_pc put_locals put_own]. rewrite decide_True by done.
      apply held_sources; [done|done| |done]. intros r Hr. rewrite taken_ptr. destruct r; try done; exfalso; apply Hr; ground.
Qed.

Lemma use_live (r : res) (s : rst) : ptr_of s r = Live -> use r s = s.
Proof. intros H. unfold use. by rewrite H. Qed.

Lemma inv_ask t t' : tear_inv t -> pc t <> SEnter -> stop_step t = Some t' -> tear_inv t'.
Proof.
  intros [P Ph H] NE. unfold stop_step.
  destruct Ph as [[E _]|(C0 & C1 & C2 & C3 & C4 & C5 & C6 & C7 & C8 & C9)]; [done|].
  unfold asked in C0. destruct (pc t) eqn:E; [done| | |done]; intros <-%(inj Some).
  - destruct C0 as [I1 I2]. rewrite I1 in *. rewrite I2 in *. destruct (timer t) eqn:T.
    + cbn in C5. rewrite (use_live _ _ C5), put_own_same. split; [done| |done].
      right. unfold after, asked. cbn. rewrite T, ?I2. by split_and!.
    + split; [done| |done]. right. unfold after, asked. cbn. rewrite T, ?I1, ?I2. by split_and!.
  - destruct C0 as [I2 I1]. rewrite I2 in *. destruct (src t) eqn:T.
    + cbn in C6. rewrite (use_live _ _ C6), put_own_same. split; [done| |done].
      right. unfold after, asked. cbn. rewrite T. by split_and!.
    + split; [done| |done]. right. unfold after, asked. cbn. rewrite T, ?I2. by split_and!.
Qed.

Lemma inv_step e t t' : tear_inv t -> step e t = Some t' -> tear_inv t'.
Proof.
  intros I S. destruct e.
  - destruct (decide (pc t = SEnter)) as [E|E].
    + by eapply inv_enter.
    + by eapply inv_ask.
  - by rewrite (tear_inv_interrupt t t' I S).
  - by eapply inv_timer.
  - by eapply inv_test.
  - by eapply inv_wake.
  - by eapply inv_timer_cancelled.
  - by eapply inv_src_cancelled.
Qed.

Lemma inv_run es t t' : tear_inv t -> run es t = Some t' -> tear_inv t'.
Proof.
  revert t. induction es as [|e es IH]; intros t I; cbn; [by intros [= <-]|].
  destruct (step e t) as [u|] eqn:S; [|done]. apply IH. by eapply inv_step.
Qed.

(** ** The driver when Stop is called *)

Lemma uses_started r : r ∈ handler_uses true -> r ∈ IVars :: Hw :: started.
Proof. intros H. cbn in H. each_of H; ground. Qed.

Lemma uses_idle r : r ∈ handler_uses false -> r ∈ [IVars; Hw; BarMap].
Proof. done. Qed.

Lemma pointers_base s : base s -> pointers s.
Proof.
  intros [B1 B2 B3 B4]. split; [done|rewrite B2; set_solver| |].
  - split; intros _; apply B3; ground.
  - split_and!; [apply B3; ground|apply B3; ground|apply B4].
Qed.

Lemma packets_ptr s r : r <> TxPkts -> r <> RxPkts -> ptr_of (alloc TxPkts (alloc RxPkts s)) r = ptr_of s r.
Proof. intros. unfold alloc. by rewrite !ptr_set_other. Qed.

Lemma pointers_packets s : base s -> ptr_of s TxPool = Live -> ptr_of s RxPool = Live -> pointers (alloc TxPkts (alloc RxPkts s)).
Proof.
  intros B L1 L2. destruct (pointers_base s B) as [P1 P2 P3 P4]. split.
  - by apply sane_alloc, sane_alloc.
  - done.
  - unfold pooled. rewrite !(packets_ptr s TxPool), !(packets_ptr s RxPool), L1, L2 by done. done.
  - by rewrite !packets_ptr by done.
Qed.

(** The invariant, before Stop. *)
Lemma inv_start s on : pointers s -> (forall r, r ∈ [LocalTimer; LocalSrc] -> ptr_of s r = Null) ->
  (no_source s \/ forall r, r ∈ handler_uses on -> ptr_of s r = Live) ->
  tear_inv (mkTear s on SEnter WqIdle false false Idle Idle 0 0).
Proof.
  intros P L H. split; [done| |done]. left. split; [done|]. split_and!; try done; cbn; apply L; ground.
Qed.

Lemma inv_at_stop ok enabled : (init ok nothing).1 = true -> tear_inv (at_stop ok enabled).
Proof.
  intros I. pose proof (Start_leaves ok _ (init_owns ok I)) as L. unfold at_stop.
  destruct (Start ok (init ok nothing).2) as [b s]. destruct b; cbn [andb]; [destruct enabled|].
  - destruct L as (B & L & _). apply inv_start.
    + apply pointers_packets; [done|apply L; ground..].
    + intros r Hr. each_of Hr; rewrite packets_ptr by done; apply B; ground.
    + right. intros r Hr%uses_started. destruct B as [_ _ _ [B1 B2]].
      apply elem_of_cons in Hr as [->|Hr]; [by rewrite packets_ptr|]. apply elem_of_cons in Hr as [->|Hr]; [by rewrite packets_ptr|].
      rewrite packets_ptr; [by apply L|intros ->; revert Hr; change (TxPkts ∉ started); ground|intros ->; revert Hr; change (RxPkts ∉ started); ground].
  - destruct L as (B & L & _). apply inv_start; [by apply pointers_base|intros r Hr; apply B; each_of Hr; ground|].
    right. intros r Hr. destruct B as [_ _ _ [B1 B2]]. each_of Hr; [done|done|apply L; ground].
  - destruct L as (B & Q). apply inv_start; [by apply pointers_base|intros r Hr; apply B; each_of Hr; ground|].
    destruct B as [_ _ B3 [B1 B2]]. destruct Q as [[Q1 Q2]|Q]; [left|right].
    + intros r Hr. each_of Hr; try done; apply B3; ground.
    + intros r Hr. by each_of Hr.
Qed.

(** ** Progress *)

(** Everything but the start of a handler. *)
Definition closing (e : event) : bool := match e with EvInterrupt | EvTimer => false | _ => true end.

Definition left_to_do (t : tear) : nat :=
  (match pc t with SEnter => 3 | STimer => 2 | SSrc => 1 | SReturned => 0 end +
   match wq t with WqIdle => 0 | WqWake => 1 | WqTested => 2 end +
   (if alive (timer_cancel t) then 1 else 0) + (if alive (src_cancel t) then 1 else 0))%nat.

Lemma left_bound t : (left_to_do t <= 7)%nat.
Proof. unfold left_to_do. destruct (pc t), (wq t), (alive (timer_cancel t)), (alive (src_cancel t)); lia. Qed.

Lemma completed_left t : left_to_do (completed t) = left_to_do t.
Proof. unfold completed. by destruct (_ =? 0). Qed.

Lemma closing_decreases e t t' : tear_inv t -> closing e = true -> step e t = Some t' -> (left_to_do t' < left_to_do t)%nat.
Proof.
  intros [_ Ph _] C S. destruct e; try discriminate C.
  - cbn in S. unfold stop_step in S. destruct (pc t) eqn:E; try done; apply (inj Some) in S as <-.
    + unfold left_to_do. cbv zeta. destruct (_ =? 0); cbn; rewrite E; lia.
    + assert (alive (timer_cancel t) = true) as A.
      { destruct Ph as [[E' _]|(A & _)]; [congruence|]. unfold asked in A. rewrite E in A. by destruct A as [-> _]. }
      unfold left_to_do. destruct (timer t); cbn; rewrite E, A; lia.
    + assert (alive (src_cancel t) = true) as A.
      { destruct Ph as [[E' _]|(A & _)]; [congruence|]. unfold asked in A. rewrite E in A. by destruct A as [-> _]. }
      unfold left_to_do. destruct (src t); cbn; rewrite E, A; lia.
  - unfold step in S. destruct (wq t) eqn:W; try done. apply (inj Some) in S as <-. unfold left_to_do. cbn. rewrite W. destruct (is_null _ _); lia.
  - unfold step in S. destruct (wq t) eqn:W; try done. apply (inj Some) in S as <-. unfold left_to_do. cbn. rewrite W. lia.
  - unfold step in S. destruct (wq t) eqn:W; try done. case_decide as D; [|done]. apply (inj Some) in S as <-.
    rewrite completed_left. unfold left_to_do. cbn. rewrite W, D. cbn. lia.
  - unfold step in S. destruct (wq t) eqn:W; try done. case_decide as D; [|done]. apply (inj Some) in S as <-.
    rewrite completed_left. unfold left_to_do. cbn. rewrite W, D. cbn. lia.
Qed.

Lemma closing_progress t : tear_inv t -> finished t = 0%nat -> exists e t', closing e = true /\ step e t = Some t'.
Proof.
  intros [_ Ph _] F. destruct (decide (pc t = SReturned)) as [E|E].
  - destruct Ph as [[E' _]|(A & C1 & C2 & _ & _ & _ & _ & K & F' & _)]; [congruence|].
    unfold asked in A. rewrite E in A. destruct A as [A1 A2]. rewrite F in F'.
    destruct (Z.eqb_spec (pending t) 0) as [Z|Z]; [done|].
    destruct (wq t) eqn:W; [|by exists EvTest; eexists; cbn; rewrite W|by exists EvWake; eexists; cbn; rewrite W].
    destruct (timer t && alive (timer_cancel t)) eqn:T.
    + exists EvTimerCancelled. eexists. split; [done|]. unfold step. rewrite W. rewrite decide_True; [done|].
      apply andb_true_iff in T as [T1 T2]. specialize (A1 T1). by destruct (timer_cancel t).
    + destruct (src t && alive (src_cancel t)) eqn:S; [|by rewrite K in Z].
      exists EvSrcCancelled. eexists. split; [done|]. unfold step. rewrite W. rewrite decide_True; [done|].
      apply andb_true_iff in S as [S1 S2]. specialize (A2 S1). by destruct (src_cancel t).
  - exists EvStop. cbn. unfold stop_step. destruct (pc t); [by eexists|by eexists|by eexists|done].
Qed.

Lemma closing_run_short es t t' : tear_inv t -> Forall (fun e => closing e = true) es -> run es t = Some t' -> (length es <= left_to_do t)%nat.
Proof.
  revert t. induction es as [|e es IH]; intros t I C R; [cbn; lia|]. apply Forall_cons_1 in C as [Ce C]. cbn in R |- *.
  destruct (step e t) as [u|] eqn:S; [|done]. pose proof (closing_decreases e t u I Ce S).
  pose proof (IH u (inv_step e t u I S) C R). lia.
Qed.

Lemma closing_finishes n t : tear_inv t -> (left_to_do t <= n)%nat -> finished t = 0%nat ->
  exists es t', Forall (fun e => closing e = true) es /\ run es t = Some t' /\ finished t' <> 0%nat.
Proof.
  revert t. induction n as [|n IH]; intros t I L F; destruct (closing_progress t I F) as (e & u & C & S);
    pose proof (closing_decreases e t u I C S); [lia|].
  destruct (decide (finished u = 0%nat)) as [F'|F'].
  - destruct (IH u (inv_step e t u I S) ltac:(lia) F') as (es & t' & C' & R & F''). exists (e :: es), t'.
    split_and!; [by constructor|cbn; by rewrite S|done].
  - exists [e], u. split_and!; [by constructor|cbn; by rewrite S|done].
Qed.

Lemma finished_once t : tear_inv t -> (finished t <= 1)%nat.
Proof.
  intros [_ Ph _]. destruct Ph as [[_ (_ & _ & _ & _ & -> & _)]|(_ & _ & _ & _ & _ & _ & _ & _ & -> & _)]; [lia|]. destruct (_ =? 0); lia.
Qed.

(** Once the block has run no source is left. *)
Lemma finished_quiet t : tear_inv t -> finished t <> 0%nat -> no_source (own t).
Proof.
  intros I F. destruct (ti_phase t I) as [[_ (_ & _ & _ & _ & P & _)]|(_ & _ & _ & P1 & P2 & P3 & P4 & P5 & P6 & _)]; [done|].
  destruct (Z.eqb_spec (pending t) 0); [|done].
  destruct (timer t && _), (src t && _); unfold b2z in P5; try lia; intros x Hx; by each_of Hx.
Qed.

(** After the block and free, nothing is left. *)
Lemma finished_free t : tear_inv t -> finished t <> 0%nat -> forall r, ptr_of (free (own t)) r = Null.
Proof.
  intros I F r. pose proof (finished_quiet t I F) as Q. destruct I as [[P1 P2 P3 (P4 & P5 & P6)] _ H]. unfold held in H. rewrite decide_False in H by done.
  assert (r ∉ [WorkQueue; Hw; IVars] -> ptr_of (own t) r = Null) as K.
  { intros Hr. destruct r as [ | | | | |[]|[]| | | | | | | | |[]|[]| | | | | | | | ]; try done;
      first [apply H; ground | apply Q; ground | exfalso; apply Hr; ground]. }
  unfold free. rewrite P6, ptr_RELEASE by (by apply sane_RELEASES). rewrite ptr_RELEASES by done.
  repeat case_decide; [done|done|]. apply K. set_solver.
Qed.

(** ** The theorems *)

(** C9: Stop of the DriverKit driver is safe under every interleaving. Whichever calls
    failed in Start (Start may have failed), and however the thread of Stop, the two
    handlers and the two completions interleave: no object is released twice or used
    after its release, except that the timer handler may call through a statsTimer that
    Stop has cleared; the block that frees everything runs at most once, and when it has
    run no handler can run any more and free leaves nothing behind. *)
Theorem dext_teardown_safe (ok : callid -> bool) (enabled : bool) (es : list event) (t : tear) :
  (init ok nothing).1 = true -> run es (at_stop ok enabled) = Some t ->
  (forall r, r ∈ faults (own t) -> r = StatsTimer) /\
  (finished t <= 1)%nat /\
  (finished t = 1%nat -> step EvInterrupt t = None /\ step EvTimer t = None /\ forall r, ptr_of (free (own t)) r = Null).
Proof.
  intros I R. pose proof (inv_run _ _ _ (inv_at_stop ok enabled I) R) as T. split_and!; [apply T|by apply finished_once|].
  intros F. pose proof (finished_quiet t T ltac:(lia)) as Q. split_and!; [| |by apply finished_free; [|lia]].
  - cbn. unfold source_alive, is_null. rewrite !Q by ground. by destruct (wq t).
  - cbn. unfold source_alive, is_null. rewrite !Q by ground. by destruct (wq t).
Qed.

(** C18: Stop of the DriverKit driver always completes. From any point of the teardown at
    which the block has not run yet there is something other than a new handler that can
    happen next; at most seven such things can happen in all; and so some of them, in
    some order, run the block. *)
Theorem dext_teardown_completes (ok : callid -> bool) (enabled : bool) (es : list event) (t : tear) :
  (init ok nothing).1 = true -> run es (at_stop ok enabled) = Some t ->
  (forall es' t', Forall (fun e => closing e = true) es' -> run es' t = Some t' -> (length es' <= 7)%nat) /\
  (finished t = 0%nat ->
    (exists e t', closing e = true /\ step e t = Some t') /\
    exists es' t', Forall (fun e => closing e = true) es' /\ run es' t = Some t' /\ finished t' = 1%nat).
Proof.
  intros I R. pose proof (inv_run _ _ _ (inv_at_stop ok enabled I) R) as T. split.
  - intros es' t' C R'. pose proof (closing_run_short es' t t' T C R'). pose proof (left_bound t). lia.
  - intros F. split; [by apply closing_progress|].
    destruct (closing_finishes 7 t T (left_bound t) F) as (es' & t' & C & R' & F'). exists es', t'. split_and!; try done.
    pose proof (finished_once t' (inv_run _ _ _ T R')). lia.
Qed.

(** Every call succeeds. *)
Definition willing : callid -> bool := fun _ => true.
(** Every call but one. *)
Definition refusing (r : res) : callid -> bool := fun c => match c with WithPool r' => bool_decide (r <> r') | _ => true end.

Definition orderly : list event := [EvInterrupt; EvTimer; EvStop; EvTest; EvStop; EvStop; EvSrcCancelled; EvTimerCancelled].

(** What is observed at the end of a run, if it can happen. *)
Definition seen {A : Type} (f : tear -> A) (es : list event) (t : tear) : option A := f <$> run es t.

Lemma seen_run {A : Type} (f : tear -> A) es t a : seen f es t = Some a -> exists t', run es t = Some t' /\ f t' = a.
Proof. unfold seen. destruct (run es t) as [t'|]; [|done]. intros [= <-]. by exists t'. Qed.

(** An orderly teardown with the interface enabled: nothing is misused, the block runs. *)
Lemma dext_teardown_safe_witness : exists t, run orderly (at_stop willing true) = Some t /\ finished t = 1%nat /\
  step EvInterrupt t = None /\ forall r, ptr_of (free (own t)) r = Null.
Proof.
  assert (seen finished orderly (at_stop willing true) = Some 1%nat) as F by (vm_compute; reflexivity).
  apply seen_run in F as (t & R & F).
  destruct (dext_teardown_safe willing true orderly t) as (_ & _ & H); [reflexivity|exact R|].
  exists t. destruct (H F) as (H1 & _ & H3). split; [exact R|]. split; [exact F|]. split; [exact H1|exact H3].
Defined.

(** In the middle of a teardown of a driver whose Start failed at a queue. *)
Lemma dext_teardown_completes_witness : exists t, run [EvStop; EvStop] (at_stop (refusing RxSubQueue) true) = Some t /\
  exists es' t', run es' t = Some t' /\ finished t' = 1%nat.
Proof.
  assert (seen finished [EvStop; EvStop] (at_stop (refusing RxSubQueue) true) = Some 0%nat) as F by (vm_compute; reflexivity).
  apply seen_run in F as (t & R & F).
  destruct (dext_teardown_completes (refusing RxSubQueue) true _ t ltac:(reflexivity) R) as (_ & H).
  destruct (H F) as (_ & es' & t' & _ & R' & F'). exists t. split; [exact R|]. exists es', t'. split; [exact R'|exact F'].
Defined.

(** The timer handler tests iv->statsTimer and then calls through it; Stop, on another
    queue, can clear the member in between, and the call goes through a null pointer. *)
Theorem dext_timer_race : exists es t, run es (at_stop willing true) = Some t /\ StatsTimer ∈ faults (own t).
Proof.
  exists [EvTimer; EvTest; EvStop; EvWake].
  assert (seen (fun t => faults (own t)) [EvTimer; EvTest; EvStop; EvWake] (at_stop willing true) = Some [StatsTimer]) as F by (vm_compute; reflexivity).
  apply seen_run in F as (t & R & F). exists t. split; [exact R|]. rewrite F. constructor.
Qed.

(** The failure label of Start closes the device and nothing else: what Start had
    created is still there, with the interrupt source enabled, and free does not
    release it. *)
Theorem dext_start_failure_keeps :
  (Start (refusing RxSubQueue) (init willing nothing).2).1 = false /\
  forall r, r ∈ [IntSource; StatsTimer; BarMap; BarMd; RingMd TxRing; RingDma TxRing; TxPool; RxPool; TxSubQueue BE; RxCompQueue] ->
    ptr_of (free (Start (refusing RxSubQueue) (init willing nothing).2).2) r = Live.
Proof. split; [vm_compute; reflexivity|]. intros r Hr. each_of Hr; vm_compute; reflexivity. Qed.
