(* ===== verification/KextClient.v ===== *)
(** The way from user space to the driver: newUserClient (RTL812xLucySetup.cpp), the
    life of RTL812xUserClient, and rtl812xtool (main.c) with its registry lookup, its
    connection and its printed text. What both sides hold is in [Owner]. *)
From stdpp Require Import strings pretty.
From S2P Require Import Prelude Mmio Owner KextMedia.
#[local] Open Scope Z_scope.
#[local] Open Scope prog_scope.

(** [Client], [Attached], [ProviderOpen]: the client object, its attachment to the
    driver and its open; [Rtl]: its member rtl812x. [Iter] to [StatsMem]: what the tool
    holds. *)
Inductive res := Client | Attached | ProviderOpen | Rtl | Iter | Service | Parent | ClassName | Connection | StatsMem.

#[export] Instance res_eq_dec : EqDecision res.
Proof. solve_decision. Defined.

Notation rst := (Owner.rst res).

(** x->release() on a variable that is not used again. *)
Definition drop (r : res) (s : rst) : rst := nullify r (release r s).

Inductive IOReturn := kIOReturnSuccess | kIOReturnError | kIOReturnNotPrivileged | kIOReturnUnsupported | Other (r : Z).

(** The numbers of IOReturn.h. *)
Definition ior_value (r : IOReturn) : Z :=
  match r with
  | kIOReturnSuccess => 0 | kIOReturnError => 0xe00002bc | kIOReturnNotPrivileged => 0xe00002c1
  | kIOReturnUnsupported => 0xe00002c7 | Other r => r
  end.

Definition kRTL812xMagicNumber : Z := 0x10ec8125.

(** The answers of the system: the kernel side and the registry. *)
Record system := mkSystem {
  privileged : bool; new_client : bool; init_client : bool; attach_client : bool; super_start : bool; open_provider : bool;
  super_newUserClient : IOReturn;
  services_match : bool; has_service : bool; has_parent : bool; class_matches : bool; malloc : bool;
}.

Section Code.
Context (y : system).

(** ** The client *)

(** A null [me] is written through when new fails. *)
Definition withTask (s : rst) : bool * rst :=
  let s := if new_client y then alloc Client s else s in
  if new_client y && negb (init_client y) then (false, RELEASE Client s)
  else (new_client y, use Client s).

Definition client_start (s : rst) : bool * rst :=
  if negb (super_start y) then (false, s) else
  if negb (open_provider y) then (false, s) else
  (true, alloc Rtl (alloc ProviderOpen s)).

Definition clientClose (s : rst) : IOReturn * rst :=
  (kIOReturnSuccess,
   match ptr_of s Rtl with
   | Null => s
   | _ =>
       let s := match ptr_of s ProviderOpen with Live => drop ProviderOpen s | _ => s end in
       nullify Rtl (drop Attached s)
   end).

Definition clientDied (s : rst) : IOReturn * rst := clientClose s.
Definition connectClient : IOReturn := kIOReturnSuccess.
Definition registerNotificationPort : IOReturn := kIOReturnUnsupported.

Definition error_attach (s : rst) : IOReturn * bool * rst := (kIOReturnError, false, drop Client s).
Definition error_start (s : rst) : IOReturn * bool * rst := error_attach (drop Attached s).

(** Result, whether the handler is set, and what is held. *)
Definition newUserClient (type : Z) (s : rst) : IOReturn * bool * rst :=
  if negb (type =? kRTL812xMagicNumber) then (super_newUserClient y, false, s) else
  if negb (privileged y) then (kIOReturnNotPrivileged, false, s) else
  let '(made, s) := withTask s in
  if negb made then (kIOReturnError, false, s) else
  if negb (attach_client y) then error_attach s else
  let s := alloc Attached s in
  let '(started, s) := client_start s in
  if negb started then error_start s else
  (kIOReturnSuccess, true, s).

(** Both methods go through rtl812x. *)
Inductive request := Method | Close | Died.

Definition serve (q : request) (s : rst) : rst :=
  match q with Method => use Rtl s | Close => (clientClose s).2 | Died => (clientDied s).2 end.
Definition serve_all (qs : list request) (s : rst) : rst := foldl (fun s q => serve q s) s qs.

(** ** The tool *)

(** The parent of the interface, if it is an instance of the driver. *)
Definition getInterfaceWithName (s : rst) : bool * rst :=
  if negb (services_match y) then (false, s) else
  let s := alloc Iter s in
  let '(found, s) :=
    if has_service y then
      let s := alloc Service s in
      let '(found, s) :=
        if has_parent y then
          let s := alloc ClassName (alloc Parent s) in
          let '(found, s) := if class_matches y then (true, s) else (false, nullify Parent (release Parent s)) in
          (found, drop ClassName s)
        else (false, s) in
      (found, drop Service s)
    else (false, s) in
  (found, drop Iter s).

(** IOServiceOpen makes the kernel call newUserClient; IOServiceClose calls
    clientClose and gives the client back. *)
Definition IOServiceOpen (s : rst) : IOReturn * rst :=
  let '(r, handler, s) := newUserClient kRTL812xMagicNumber s in
  (r, if handler : bool then alloc Connection s else s).
Definition IOServiceClose (s : rst) : rst := RELEASE Client ((clientClose (drop Connection s)).2).

(** printf of %u and %llu. *)
Definition decimal (v : Z) : string := pretty (Z.to_N v).

(** ** The text of the counters *)

Inductive conversion := PctU | PctLLU.

(** The format string, cut at its conversions; each is followed by a newline. *)
Definition stat_format : list (string * conversion) :=
  [("    txPackets: ", PctLLU);
   ("    rxPackets: ", PctLLU);
   ("    txErrors: ", PctLLU);
   ("    rxErrors: ", PctU);
   ("    rxMissed: ", PctU);
   ("    alignErrors: ", PctU);
   ("    txOneCollision: ", PctU);
   ("    txMultiCollision: ", PctU);
   ("    rxUnicast: ", PctLLU);
   ("    rxBroadcast: ", PctLLU);
   ("    rxMulticast: ", PctU);
   ("    txAborted: ", PctU);
   ("    txUnderun: ", PctU);
   ("    txOctets: ", PctLLU);
   ("    rxOctets: ", PctLLU);
   ("    rxMulticast64: ", PctLLU);
   ("    txUnicast64: ", PctLLU);
   ("    txBroadcast64: ", PctLLU);
   ("    txMulticast64: ", PctLLU);
   ("    txPauseOn: ", PctU);
   ("    txPauseOff: ", PctU);
   ("    txPauseAll: ", PctU);
   ("    txDeferred: ", PctU);
   ("    txLateCollision: ", PctU);
   ("    txAllCollision: ", PctU);
   ("    txAborted32: ", PctU);
   ("    alignErrors32: ", PctU);
   ("    rxFrame2Long: ", PctU);
   ("    rxRunt: ", PctU);
   ("    rxPauseOn: ", PctU);
   ("    rxPauseOff: ", PctU);
   ("    rxPauseAll: ", PctU);
   ("    rxUnknownOpcode: ", PctU);
   ("    rxMacError: ", PctU);
   ("    txUnderrun32: ", PctU);
   ("    rxMacMissed: ", PctU);
   ("    rxTcamDropped: ", PctU);
   ("    tdu: ", PctU);
   ("    rdu: ", PctU)].

(** An argument: a field, or a field cast to unsigned int. *)
Inductive argument := Arg (f : statf) | UnsignedInt (f : statf).

(** The arguments that follow the format string. *)
Definition stat_args : list argument :=
  [Arg txPackets; Arg rxPackets; Arg txErrors; UnsignedInt rxErrors; Arg rxMissed; Arg alignErrors;
   UnsignedInt txOneCollision; UnsignedInt txMultiCollision; Arg rxUnicast; Arg rxBroadcast;
   UnsignedInt rxMulticast; Arg txAborted; Arg txUnderun; Arg txOctets; Arg rxOctets; Arg rxMulticast64;
   Arg txUnicast64; Arg txBroadcast64; Arg txMulticast64; UnsignedInt txPauseOn; UnsignedInt txPauseOff;
   UnsignedInt txPauseAll; UnsignedInt txDeferred; UnsignedInt txLateCollision; UnsignedInt txAllCollision;
   UnsignedInt txAborted32; UnsignedInt alignErrors32; UnsignedInt rxFrame2Long; UnsignedInt rxRunt;
   UnsignedInt rxPauseOn; UnsignedInt rxPauseOff; UnsignedInt rxPauseAll; UnsignedInt rxUnknownOpcode;
   UnsignedInt rxMacError; UnsignedInt txUnderrun32; UnsignedInt rxMacMissed; UnsignedInt rxTcamDropped;
   UnsignedInt tdu; UnsignedInt rdu].

(** What is passed: size and value, after the promotion of the short fields. *)
Definition pass (stats : statf -> Z) (a : argument) : nat * Z :=
  match a with
  | Arg f => (Nat.max 4 (stat_size f), stats f mod 256 ^ Z.of_nat (stat_size f))
  | UnsignedInt f => (4%nat, u32 (stats f mod 256 ^ Z.of_nat (stat_size f)))
  end.

(** One conversion; [None]: it does not take an argument of that size. *)
Definition convert (c : conversion) (a : nat * Z) : option string :=
  if (a.1 =? match c with PctU => 4 | PctLLU => 8 end)%nat then Some (decimal a.2) else None.

(** The lines; [None]: the arguments do not fit the format, which is undefined. *)
Fixpoint printf (fmt : list (string * conversion)) (args : list (nat * Z)) : option (list string) :=
  match fmt, args with
  | [], [] => Some []
  | (text, c) :: fmt', a :: args' =>
      number ← convert c a; lines ← printf fmt' args'; Some ((text +:+ number)%string :: lines)
  | _, _ => None
  end.

(** [r]: what the kernel answered. *)
Definition get_temperature (devName : string) (r : ucresult) : list string :=
  match r with
  | UcTemp temp =>
      if negb (temp =? kInvalidTemp) then ["Temperature of device " +:+ devName +:+ ": " +:+ decimal temp +:+ "°C"]
      else ["Device " +:+ devName +:+ " has no thermal sensor."]
  | _ => ["Device " +:+ devName +:+ " has no thermal sensor."]
  end.

Definition get_statistics (devName : string) (r : ucresult) : list string :=
  match r with
  | UcStats stats => default [] (printf stat_format (pass stats <$> stat_args))
  | _ => ["Failed to get hw statistics of device " +:+ devName +:+ " with error " +:+ pretty (s32 (ior_value kIOReturnUnsupported)) +:+ "."]
  end.
End Code.

Inductive toolcmd := noCmd | getTempCmd | getStatsCmd.

(** One option letter of getopt; the last one decides. *)
Definition tool_option (cmd : toolcmd) (c : Z) : toolcmd :=
  if c =? 115 then getStatsCmd else if c =? 116 then getTempCmd else noCmd.

Definition usage : string := "Usage: sudo rtl812xtool [-t] [-s] interface".

Section Tool.
Context {D : Type} `{M : !Mmio D}.

(** get_statistics allocates its buffer; without one it prints nothing. [junk]: what
    the structure of the call holds until the driver fills it. *)
Definition run_stats (y : system) (junk : statf -> Z) (ifname : string) (hasSensor : bool) (statData : option (list Z)) (s : rst) :
    prog D (list string * rst) :=
  if malloc y then
    let s := alloc StatsMem s in
    do r <- externalMethod kUCMethodGetStats hasSensor statData junk;
    ret (get_statistics ifname r, drop StatsMem (use Rtl s))
  else ret ([], s).

Definition run_temp (ifname : string) (hasSensor : bool) (s : rst) : prog D (list string * rst) :=
  do r <- externalMethod kUCMethodGetTemp hasSensor None (fun _ => 0); ret (get_temperature ifname r, use Rtl s).

(** The lines printed and what is held at the end. [opts]: the letters getopt gives;
    [ifname]: the argument after them. *)
Definition main (y : system) (junk : statf -> Z) (opts : list Z) (ifname : option string) (hasSensor : bool) (statData : option (list Z)) :
    prog D (list string * rst) :=
  match foldl tool_option noCmd opts, ifname with
  | noCmd, _ | _, None => ret ([usage], nothing)
  | cmd, Some ifname =>
      let '(found, s) := getInterfaceWithName y nothing in
      if negb found then ret (["Device " +:+ ifname +:+ " is not a RTL812x."], s) else
      let '(result, s) := IOServiceOpen y s in
      match result with
      | kIOReturnSuccess =>
          do out <- (match cmd with
                     | getTempCmd => run_temp ifname hasSensor s
                     | _ => run_stats y junk ifname hasSensor statData s
                     end);
          ret (out.1, drop Parent (IOServiceClose out.2))
      | _ =>
          ret (["Open device " +:+ ifname +:+ " failed with error " +:+ pretty (s32 (ior_value result)) +:+ "."], drop Parent s)
      end
  end.
End Tool.
