(* ===== verification/KextClientSpec.v ===== *)
(** What a session with the driver leaves behind, and that the tool prints what the chip
    has counted. *)
From stdpp Require Import strings pretty.
From S2P Require Import Prelude Mmio Owner SwVars BringUp KextMedia KextMediaSpec KextClient.
#[local] Open Scope Z_scope.

(** ** Sessions *)

(** Nothing is held, apart from [l], and nothing was misused. *)
Definition holds (l : list res) (s : rst) : bool :=
  bool_decide (faults s = []) &&
  forallb (fun r => bool_decide (ptr_of s r = if decide (r ∈ l) then Live else Null))
    [Client; Attached; ProviderOpen; Rtl; Iter; Service; Parent; ClassName; Connection; StatsMem].

Lemma holds_spec l s : holds l s = true -> faults s = [] /\ forall r, ptr_of s r = if decide (r ∈ l) then Live else Null.
Proof.
  unfold holds. intros [F%bool_decide_eq_true H]%andb_true_iff. split; [done|]. intros r.
  rewrite forallb_forall in H. apply (bool_decide_eq_true_1 _), H. destruct r; cbn; tauto.
Qed.

(** A session that was opened: client, attachment, open and the back pointer. *)
Definition session : list res := [Client; Attached; ProviderOpen; Rtl].

Lemma newUserClient_holds y : new_client y = true ->
  let '(r, handler, s) := newUserClient y kRTL812xMagicNumber nothing in
  if handler : bool then r = kIOReturnSuccess /\ holds session s = true else r <> kIOReturnSuccess /\ holds [] s = true.
Proof.
  intros N. unfold newUserClient, withTask, client_start. cbn [negb Z.eqb Pos.eqb kRTL812xMagicNumber]. rewrite N. cbn [andb].
  destruct (privileged y); cbn [negb]; [|by split].
  destruct (init_client y); cbn [negb]; [|by split].
  destruct (attach_client y); cbn [negb]; [|by split].
  destruct (super_start y); cbn [negb]; [|by split].
  destruct (open_provider y); cbn [negb]; by split.
Qed.

(** Requests through an open client change nothing. *)
Lemma methods_same n s : ptr_of s Rtl = Live -> serve_all (replicate n Method) s = s.
Proof. intros H. induction n as [|n IH]; [done|]. cbn. unfold use. by rewrite H. Qed.

Definition closing (q : request) : bool := match q with Method => false | _ => true end.

(** Closing again does nothing. *)
Lemma closed_same qs s : ptr_of s Rtl = Null -> forallb closing qs = true -> serve_all qs s = s.
Proof.
  intros H. induction qs as [|q qs IH]; [done|]. cbn. intros [C1 C2]%andb_true_iff.
  assert (serve q s = s) as ->; [|by apply IH]. destruct q; [done|..]; cbn; unfold clientClose; by rewrite H.
Qed.

Lemma close_once q s : closing q = true -> faults s = [] -> (forall r, ptr_of s r = if decide (r ∈ session) then Live else Null) ->
  faults (serve q s) = [] /\ forall r, ptr_of (serve q s) r = if decide (r ∈ [Client]) then Live else Null.
Proof.
  intros C F H. assert (serve q s = (clientClose s).2) as -> by (by destruct q).
  assert (ptr_of s Rtl = Live /\ ptr_of s ProviderOpen = Live /\ ptr_of s Attached = Live) as (H1 & H2 & H3) by (by rewrite !H).
  unfold clientClose, drop, release. cbn [snd]. rewrite H1, H2. cbn. rewrite H3. cbn.
  destruct s as [p f]. cbn in F, H. split; [done|]. intros []; vm_compute; first [reflexivity | rewrite H; reflexivity].
Qed.

(** ** The tool *)

(** The counters in the text. *)
Lemma decimal_inj v w : 0 <= v -> 0 <= w -> decimal v = decimal w -> v = w.
Proof. intros Hv Hw E. unfold decimal in E. apply pretty_N_inj in E. lia. Qed.

Lemma append_inj_l (a b c : string) : (a +:+ b)%string = (a +:+ c)%string -> b = c.
Proof. apply (inj (String.append a)). Qed.

(** The name under which a counter is to appear. *)
Definition stat_name (f : statf) : string :=
  match f with
  | txPackets => "txPackets" | rxPackets => "rxPackets" | txErrors => "txErrors" | rxErrors => "rxErrors"
  | rxMissed => "rxMissed" | alignErrors => "alignErrors" | txOneCollision => "txOneCollision"
  | txMultiCollision => "txMultiCollision" | rxUnicast => "rxUnicast" | rxBroadcast => "rxBroadcast"
  | rxMulticast => "rxMulticast" | txAborted => "txAborted" | txUnderun => "txUnderun"
  | txOctets => "txOctets" | rxOctets => "rxOctets" | rxMulticast64 => "rxMulticast64"
  | txUnicast64 => "txUnicast64" | txBroadcast64 => "txBroadcast64" | txMulticast64 => "txMulticast64"
  | txPauseOn => "txPauseOn" | txPauseOff => "txPauseOff" | txPauseAll => "txPauseAll"
  | txDeferred => "txDeferred" | txLateCollision => "txLateCollision" | txAllCollision => "txAllCollision"
  | txAborted32 => "txAborted32" | alignErrors32 => "alignErrors32" | rxFrame2Long => "rxFrame2Long"
  | rxRunt => "rxRunt" | rxPauseOn => "rxPauseOn" | rxPauseOff => "rxPauseOff" | rxPauseAll => "rxPauseAll"
  | rxUnknownOpcode => "rxUnknownOpcode" | rxMacError => "rxMacError" | txUnderrun32 => "txUnderrun32"
  | rxMacMissed => "rxMacMissed" | rxTcamDropped => "rxTcamDropped" | tdu => "tdu" | rdu => "rdu"
  end.

(** All counters, as they follow each other in the dump. *)
Definition all_counters : list statf :=
  [txPackets; rxPackets; txErrors; rxErrors; rxMissed; alignErrors; txOneCollision; txMultiCollision;
   rxUnicast; rxBroadcast; rxMulticast; txAborted; txUnderun; txOctets; rxOctets; rxMulticast64;
   txUnicast64; txBroadcast64; txMulticast64; txPauseOn; txPauseOff; txPauseAll; txDeferred;
   txLateCollision; txAllCollision; txAborted32; alignErrors32; rxFrame2Long; rxRunt; rxPauseOn;
   rxPauseOff; rxPauseAll; rxUnknownOpcode; rxMacError; txUnderrun32; rxMacMissed; rxTcamDropped; tdu; rdu].

Lemma all_counters_complete f : f ∈ all_counters.
Proof. apply list_elem_of_In. destruct f; cbn; tauto. Qed.

Definition stat_line (get : statf -> Z) (f : statf) : string := "    " +:+ stat_name f +:+ ": " +:+ decimal (get f).

Lemma stat_line_inj get get' f : 0 <= get f -> 0 <= get' f -> stat_line get f = stat_line get' f -> get f = get' f.
Proof. unfold stat_line. intros H H' E. do 3 apply append_inj_l in E. by apply decimal_inj. Qed.

(** What format and arguments make of the structure: a line for each counter. *)
Lemma printf_lines get : (forall f, get f = counted get f) ->
  printf stat_format (pass get <$> stat_args) = Some (stat_line get <$> all_counters).
Proof.
  intros H. assert (U : forall f, (chip_place f).2 = 4%nat -> u32 (get f) = get f).
  { intros f E. rewrite (H f). unfold counted. rewrite E. apply u32_small. change (256 ^ Z.of_nat 4) with 4294967296. lia. }
  assert (P : forall a, pass get a = match a with
     | Arg f => (Nat.max 4 (chip_place f).2, get f)
     | UnsignedInt f => (4%nat, u32 (get f)) end).
  { intros []; cbn [pass]; rewrite struct_size; fold (counted get f); by rewrite <- H. }
  rewrite (list_fmap_ext _ _ _ (fun _ a _ => P a)).
  cbn [stat_args fmap list_fmap chip_place snd Nat.max].
  rewrite !U by reflexivity. reflexivity.
Qed.

Section Main.
Context {D : Type} `{M : !Mmio D}.

(** What the tool holds with a connection to the driver. *)
Definition connected : list res := Connection :: Parent :: session.

Lemma tool_found y : holds [Parent] (getInterfaceWithName y nothing).2 = true /\ (getInterfaceWithName y nothing).1 = true \/
  holds [] (getInterfaceWithName y nothing).2 = true /\ (getInterfaceWithName y nothing).1 = false.
Proof. unfold getInterfaceWithName. destruct (services_match y), (has_service y), (has_parent y), (class_matches y); vm_compute; auto. Qed.

Lemma tool_opened y : new_client y = true -> (getInterfaceWithName y nothing).1 = true ->
  let '(r, s) := IOServiceOpen y (getInterfaceWithName y nothing).2 in
  r = kIOReturnSuccess /\ s = alloc Connection (alloc Rtl (alloc ProviderOpen (alloc Attached (alloc Client (getInterfaceWithName y nothing).2)))) \/
  r <> kIOReturnSuccess /\ holds [] (drop Parent s) = true.
Proof.
  intros N. unfold getInterfaceWithName.
  destruct (services_match y), (has_service y), (has_parent y), (class_matches y); try discriminate. intros _.
  unfold IOServiceOpen, newUserClient, withTask, client_start. cbn [negb Z.eqb Pos.eqb kRTL812xMagicNumber]. rewrite N. cbn [andb].
  destruct (privileged y); cbn [negb]; [|by right].
  destruct (init_client y); cbn [negb]; [|by right].
  destruct (attach_client y); cbn [negb]; [|by right].
  destruct (super_start y); cbn [negb]; [|by right].
  destruct (open_provider y); cbn [negb]; [by left|by right].
Qed.

Lemma tool_closed y : (getInterfaceWithName y nothing).1 = true ->
  let s := alloc Connection (alloc Rtl (alloc ProviderOpen (alloc Attached (alloc Client (getInterfaceWithName y nothing).2)))) in
  holds [] (drop Parent (IOServiceClose (use Rtl s))) = true /\ holds [] (drop Parent (IOServiceClose s)) = true /\
  holds [] (drop Parent (IOServiceClose (drop StatsMem (use Rtl (alloc StatsMem s))))) = true.
Proof.
  unfold getInterfaceWithName. destruct (services_match y), (has_service y), (has_parent y), (class_matches y); try discriminate.
  intros _. vm_compute. auto.
Qed.

Lemma main_holds y junk opts ifname hasSensor statData (d : D) : new_client y = true ->
  holds [] (main y junk opts ifname hasSensor statData d).1.2 = true.
Proof.
  intros N. pose proof (tool_found y) as F. pose proof (tool_opened y N) as O. pose proof (tool_closed y) as C. unfold main.
  destruct (foldl tool_option noCmd opts), ifname as [ifname|]; try reflexivity;
    destruct (getInterfaceWithName y nothing) as [[] s]; cbn [fst snd negb] in *;
    try (by destruct F as [[? ?]|[? ?]]); specialize (O eq_refl); specialize (C eq_refl);
    destruct (IOServiceOpen y s) as [r s']; destruct O as [[-> ->]|[N' O]]; try (destruct r; done).
  - unfold run_temp, bind. destruct (externalMethod _ _ _ _ d) as [r d']. apply C.
  - unfold run_stats, bind. destruct (malloc y); [|apply C]. destruct (externalMethod _ _ _ _ d) as [r d']. apply C.
Qed.
End Main.

(** C24: A session with the driver, from the tool or any other program, leaves nothing
    behind, provided that the kernel can allocate the client object ([new_client]; when
    it cannot, newUserClient writes through a null pointer, [client_alloc_failure]); the
    other calls may fail or not. newUserClient, with the magic number, either succeeds
    with a client that is attached and has the driver open, or fails and holds nothing.
    Whatever methods are called before, the first of clientClose and clientDied closes
    the driver and detaches, and the others do nothing. And rtl812xtool, whatever its
    options and whatever else the system answers, ends with every registry object,
    connection and buffer given back, on both sides. *)
Theorem kext_client_session {D : Type} `{M : !Mmio D} (y : system) :
  new_client y = true ->
  (let '(r, handler, s) := newUserClient y kRTL812xMagicNumber nothing in
   (handler = true <-> r = kIOReturnSuccess) /\
   (handler = false -> faults s = [] /\ forall x, ptr_of s x = Null) /\
   (handler = true -> forall n q qs, closing q = true -> forallb closing qs = true ->
      let s' := serve_all (replicate n Method ++ q :: qs) s in
      faults s' = [] /\ forall x, ptr_of s' x = if decide (x = Client) then Live else Null)) /\
  (forall junk opts ifname hasSensor statData (d : D),
     let s := (main y junk opts ifname hasSensor statData d).1.2 in faults s = [] /\ forall x, ptr_of s x = Null).
Proof.
  intros N. split.
  - pose proof (newUserClient_holds y N) as H. destruct (newUserClient y kRTL812xMagicNumber nothing) as [[r []] s].
    + destruct H as [-> H]. apply holds_spec in H as [F H]. split_and!; [done|done|]. intros _ n q qs C Cs.
      unfold serve_all. rewrite foldl_app. fold (serve_all (replicate n Method) s). rewrite methods_same by (by rewrite H).
      destruct (close_once q s C F H) as [F' H']. cbn [foldl]. fold (serve_all qs (serve q s)).
      rewrite closed_same; [|by rewrite H'|done]. split; [done|]. intros x. rewrite H'. by destruct x.
    + destruct H as [R H]. apply holds_spec in H as [F H]. split_and!; [split; [done|by intros ->]|done|done].
  - intros junk opts ifname hasSensor statData d. cbv zeta.
    destruct (holds_spec [] _ (main_holds y junk opts ifname hasSensor statData d N)) as [F H]. split; [done|]. intros x. by rewrite H.
Qed.

(** ** What is printed *)

(** The tool is asked for the counters, on an interface of the driver, and everything
    it needs from the system is granted. *)
Definition grants (y : system) : bool :=
  services_match y && has_service y && has_parent y && class_matches y &&
  privileged y && new_client y && init_client y && attach_client y && super_start y && open_provider y && malloc y.

Lemma main_stats {D : Type} `{M : !Mmio D} y junk opts ifname hasSensor statData (d : D) :
  grants y = true -> foldl tool_option noCmd opts = getStatsCmd ->
  (main y junk opts (Some ifname) hasSensor statData d).1.1 =
    default [] (printf stat_format (pass (default junk (getHwStatistics statData (Some junk))) <$> stat_args)).
Proof.
  unfold grants. rewrite !andb_true_iff. intros G E. destruct_and! G.
  unfold main. rewrite E. unfold getInterfaceWithName, IOServiceOpen, newUserClient, withTask, client_start, run_stats.
  repeat match goal with H : _ y = true |- _ => rewrite H; clear H end. reflexivity.
Qed.

(** C27: rtl812xtool -s prints what the chip has counted, when the system grants the
    tool everything it asks for (an interface of the driver, root privileges, a client, an
    open, memory: [grants]) and the statistics buffer holds the dump of the chip with
    counters [v], each at its place in the dump, least significant byte first. Then the
    output has exactly one line for each of the 39 counters, in the order of the dump,
    with the name of that counter and its value in the width of its field, whatever the
    structure held before the driver filled it; and two outputs that agree in a line
    agree in that counter. *)
Theorem tool_prints_counters {D : Type} `{M : !Mmio D} (y : system) junk opts ifname hasSensor (d : D) (v : statf -> Z) bytes :
  grants y = true -> foldl tool_option noCmd opts = getStatsCmd -> chip_dump v bytes ->
  (main y junk opts (Some ifname) hasSensor (Some bytes) d).1.1 =
    stat_line (fun f => v f mod 256 ^ Z.of_nat (chip_place f).2) <$> all_counters /\
  (forall f, f ∈ all_counters) /\ NoDup all_counters /\
  (forall f (w w' : statf -> Z), 0 <= w f -> 0 <= w' f -> stat_line w f = stat_line w' f -> w f = w' f).
Proof.
  intros G E H. rewrite (main_stats y junk opts ifname hasSensor _ d G E).
  destruct (hw_statistics_field v bytes junk H) as (get&->&Hg). cbn [default from_option id].
  rewrite printf_lines by (intros f; rewrite Hg; unfold counted at 2; rewrite Hg; symmetry; apply counted_idem).
  cbn [default from_option id]. split_and!; [|exact all_counters_complete|by vm_compute; repeat constructor; set_solver|].
  - apply list_fmap_ext. intros _ f _. unfold stat_line. by rewrite Hg.
  - intros f w w' H1 H2. by apply stat_line_inj.
Qed.

(** Everything is granted. *)
Definition granting : system := mkSystem true true true true true true kIOReturnUnsupported true true true true true.

Lemma kext_client_session_witness :
  new_client granting = true /\
  (newUserClient granting kRTL812xMagicNumber nothing).1 = (kIOReturnSuccess, true) /\
  ptr_of (serve_all [Method; Method; Close; Died] (newUserClient granting kRTL812xMagicNumber nothing).2) ProviderOpen = Null.
Proof.
  split; [reflexivity|]. split; [reflexivity|].
  pose proof (proj1 (kext_client_session (D := unit) granting ltac:(reflexivity))) as H.
  exact (proj2 (proj2 (proj2 H) eq_refl 2%nat Close [Died] eq_refl eq_refl) ProviderOpen).
Defined.

(** Counters that differ from field to field, the largest beyond the width of its
    field. *)
Definition sample (f : statf) : Z := match f with txPackets => 18446744073709551615 | rxMissed => 65537 | rdu => 7 | _ => 0 end.

(** Its dump. *)
Definition sample_dump : list Z := all_counters ≫= fun f => le_bytes (chip_place f).2 (sample f).

Lemma sample_dumped : chip_dump sample sample_dump.
Proof. intros f. destruct f; vm_compute; reflexivity. Qed.

Lemma tool_prints_counters_witness :
  nth 0 (main granting (fun _ => 9) [104; 115] (Some "en5") true (Some sample_dump) tt).1.1 "" = "    txPackets: 18446744073709551615" /\
  nth 4 (main granting (fun _ => 9) [104; 115] (Some "en5") true (Some sample_dump) tt).1.1 "" = "    rxMissed: 1" /\
  nth 38 (main granting (fun _ => 9) [104; 115] (Some "en5") true (Some sample_dump) tt).1.1 "" = "    rdu: 7".
Proof.
  destruct (tool_prints_counters granting (fun _ => 9) [104; 115] "en5" true tt sample sample_dump) as [-> _];
    [reflexivity|reflexivity|exact sample_dumped|]. split; [|split]; vm_compute; reflexivity.
Defined.

(** ** Where it fails *)

(** withTask writes through the client it could not allocate. *)
Theorem client_alloc_failure y : privileged y = true -> new_client y = false ->
  Client ∈ faults (newUserClient y kRTL812xMagicNumber nothing).2.
Proof. intros P N. unfold newUserClient, withTask. cbn [negb Z.eqb Pos.eqb kRTL812xMagicNumber]. rewrite P, N. cbn. set_solver. Qed.

(** A method that is served after the client was closed, as by another thread, goes
    through the null pointer that clientClose left. *)
Theorem method_after_close : Rtl ∈ faults (serve_all [Close; Method] (newUserClient granting kRTL812xMagicNumber nothing).2).
Proof. vm_compute. constructor. Qed.

(** Without a statistics buffer getStats reports success all the same, and the tool
    prints what the structure of the call held. *)
Theorem tool_prints_junk {D : Type} `{M : !Mmio D} y junk opts ifname hasSensor (d : D) :
  grants y = true -> foldl tool_option noCmd opts = getStatsCmd -> (forall f, junk f = counted junk f) ->
  (main y junk opts (Some ifname) hasSensor None d).1.1 = stat_line junk <$> all_counters.
Proof.
  intros G E H. rewrite (main_stats y junk opts ifname hasSensor None d G E).
  change (default junk (getHwStatistics None (Some junk))) with junk. by rewrite printf_lines.
Qed.
