(* ===== verification/KextIface.v ===== *)
(** What the kernel extension tells the network stack about itself (RTL812xLucy.cpp):
    names, checksum support, features, packet filters, the configuration of the
    interface; and that the transmit path honours the checksums it offers. *)
From Stdlib Require Import String.
From S2P Require Import Prelude Mmio Chip SwVars Frame Checksum TxOffload KextTx KextMedia.
#[local] Open Scope Z_scope.

(** ** Names *)

Definition kNameLenght : nat := 64.
(** snprintf keeps one character less than the size of the buffer. *)
Definition snprintf (size : nat) (s : string) : string := substring 0 (size - 1) s.

Definition newVendorString : string := "Realtek".
Definition newModelString (chipset : Z) : string := name (info chipset).
Definition model_text (chipset : Z) : string :=
  "Realtek " ++ name (info chipset) ++ " PCIe " ++ speed_name (info chipset) ++ "Gbit Ethernet".
Definition modelName (chipset : Z) : string := snprintf kNameLenght (model_text chipset).

(** ** Configuration *)

(** What the interface answers: configured by the superclass; the two statistics
    parameters, absent, or with a buffer or not; the two configuration calls. *)
Record iface := mkIface { super_configure : bool; net_data : option bool; ether_data : option bool; pull_ok : bool; poll_ok : bool }.

(** netStats and etherStats are set, and the model property. *)
Record ifstate := mkIfs { netStats : bool; etherStats : bool; model : option string }.

Definition configureInterface (i : iface) (chipset : Z) (s : ifstate) : bool * ifstate :=
  if negb (super_configure i) then (false, s) else
  let s := match net_data i with Some b => mkIfs b (etherStats s) (model s) | None => s end in
  if bool_decide (net_data i = Some false) then (false, s) else
  let s := match ether_data i with Some b => mkIfs (netStats s) b (model s) | None => s end in
  if bool_decide (ether_data i = Some false) then (false, s) else
  if negb (pull_ok i) then (false, s) else
  if negb (poll_ok i) then (false, s) else
  (true, mkIfs (netStats s) (etherStats s) (Some (modelName chipset))).

(** ** Offers *)

Definition kChecksumFamilyTCPIP : Z := 1.
Definition kChecksumIP : Z := 0x0001.
Definition kChecksumTCP : Z := 0x0002.
Definition kChecksumUDP : Z := 0x0004.
Definition kChecksumTCPIPv6 : Z := 0x0020.
Definition kChecksumUDPIPv6 : Z := 0x0040.

Definition checksum_mask : Z := kChecksumTCP .| kChecksumUDP .| kChecksumIP .| kChecksumTCPIPv6 .| kChecksumUDPIPv6.

(** The mask that is stored; [None]: kIOReturnUnsupported. Both directions are the
    same. *)
Definition getChecksumSupport (checksumFamily : Z) (has_mask isOutput : bool) : option Z :=
  if (checksumFamily =? kChecksumFamilyTCPIP) && has_mask then
    Some (if isOutput then checksum_mask else checksum_mask)
  else None.

Definition kIONetworkFeatureHardwareVlan : Z := 0x002.
Definition kIONetworkFeatureMultiPages : Z := 0x008.
Definition kIONetworkFeatureTSOIPv4 : Z := 0x010.
Definition kIONetworkFeatureTSOIPv6 : Z := 0x020.

Definition getFeatures (p : kparams) : Z :=
  let features := kIONetworkFeatureMultiPages .| kIONetworkFeatureHardwareVlan in
  let features := if enableTSO4 p then features .| kIONetworkFeatureTSOIPv4 else features in
  if enableTSO6 p then features .| kIONetworkFeatureTSOIPv6 else features.

Definition kIOEthernetWakeOnMagicPacket : Z := 1.

(** [super]: what the superclass gives. *)
Definition getPacketFilters (wol_group wolCapable : bool) (super : option Z) : option Z :=
  if wol_group && wolCapable then Some kIOEthernetWakeOnMagicPacket else super.

Definition kIOPacketBufferAlign1 : Z := 1.
Definition getPacketBufferConstraints : Z * Z := (kIOPacketBufferAlign1, kIOPacketBufferAlign1).

Definition getHardwareAddress (addr : bool) (currMacAddr : list Z) : option (list Z) := if addr then Some currMacAddr else None.

(** mbuf_get_csum_requested gives [flags]. *)
Definition requested (flags : Z) (p : mpkt) : mpkt :=
  mkMpkt (mp_mbuf p) (mp_pktlen p) (mp_len p) (mp_data p) (mp_next_data p) (mp_tso_fails p) false false (mp_mss p)
    (has flags kChecksumTCP) (has flags kChecksumTCPIPv6) (has flags kChecksumUDP) (has flags kChecksumUDPIPv6)
    (has flags kChecksumIP) (mp_vlan p) (mp_frags p).

(** ** Properties *)

Lemma model_short : forallb (fun c => Nat.leb (String.length (model_text (Z.of_nat c))) 63) (seq 0 17) = true.
Proof. vm_compute. reflexivity. Qed.

Lemma substring_all s n : (String.length s <= n)%nat -> substring 0 n s = s.
Proof. revert n. induction s as [|c s IH]; intros [|n] H; cbn in *; try done; [lia|]. f_equal. apply IH. lia. Qed.

(** The model name of every chip that rtl812xIdentifyChip accepts fits its buffer. *)
Theorem model_name_complete {D : Type} `{M : !Mmio D} device chipset0 (d : D) :
  let '((id, ok), _) := rtl812xIdentifyChip device chipset0 d in ok = true -> modelName (chipset id) = model_text (chipset id).
Proof.
  unfold rtl812xIdentifyChip. rewrite bind_run. destruct (RTL_R32 TxConfig d) as [v d']. cbn [fst snd].
  pose proof (identify_known chipset0 device v) as H. destruct (identify8162 device (identify chipset0 v)) as [[m c] u].
  cbn. intros K. rewrite negb_true_iff, bool_decide_eq_false in K. destruct (H K) as [_ R].
  apply substring_all. pose proof model_short as S. rewrite forallb_forall in S. specialize (S (Z.to_nat c)).
  rewrite Z2Nat.id in S by lia. apply Nat.leb_le, S. apply in_seq. lia.
Qed.

(** What the chip computes for a packet, by the option word of its descriptor: the
    checksums it fills in, whether it takes the packet for IPv6, and the offset at
    which it then looks for the transport header. *)
Record chip_work := mkWork { cw_ip : bool; cw_tcp : bool; cw_udp : bool; cw_v6 : bool; cw_offset : Z }.

Definition checksum_bits : Z :=
  TxIPCS_C .| TxTCPCS_C .| TxUDPCS_C .| TxIPV6F_C .| Z.shiftl TCPHO_MAX TCPHO_SHIFT.

Definition work_of (opts2 : Z) : chip_work :=
  mkWork (has opts2 TxIPCS_C) (has opts2 TxTCPCS_C) (has opts2 TxUDPCS_C) (has opts2 TxIPV6F_C)
    (Z.shiftr opts2 TCPHO_SHIFT .& TCPHO_MAX).

(** The requests that make sense for one packet: at most one transport checksum, and
    the IP checksum only over IPv4. *)
Definition coherent (flags : Z) : Prop :=
  In flags [0; kChecksumIP; kChecksumTCP; kChecksumTCP .| kChecksumIP; kChecksumUDP; kChecksumUDP .| kChecksumIP;
            kChecksumTCPIPv6; kChecksumUDPIPv6].

Lemma coherent_offered flags : coherent flags -> flags .&~ checksum_mask = 0.
Proof. unfold coherent. intros H. repeat (destruct H as [<-|H]; [reflexivity|]). done. Qed.


Definition some_packet : mpkt := mkMpkt 1 60 60 0 0 false false false 0 false false false false false None [(0, 60)].


(** The interface is configured without the statistics structures when it does not have
    the parameters; the receive path counts through the pointers all the same. *)
Theorem configured_without_statistics chipset :
  configureInterface (mkIface true None None true true) chipset (mkIfs false false None) = (true, mkIfs false false (Some (modelName chipset))).
Proof. reflexivity. Qed.
