(* ===== verification/Compat.v ===== *)
(** The compatibility layer: the helpers of linux/linux.h that the shared sources use
    (flag words, waiting, the CRC of Linux), over the kernel's clock and over the shims of
    compat/IOKit/IOLib.h that stand in for it under DriverKit. *)
From S2P Require Import Prelude RxFilter RxFilterSpec.
#[local] Open Scope Z_scope.

(** ** Flag words *)

(** The atomics give the old value. *)
Definition OSBitOrAtomic (mask w : Z) : Z * Z := (w, w .| mask).
Definition OSBitAndAtomic (mask w : Z) : Z * Z := (w, w .& mask).
Definition OSIncrementAtomic (w : Z) : Z * Z := (w, s32 (w + 1)).
Definition OSDecrementAtomic (w : Z) : Z * Z := (w, s32 (w - 1)).

Definition test_mask (mask w : Z) : bool := mask .& w =? mask.
Definition set_mask (mask w : Z) : Z := (OSBitOrAtomic mask w).2.
Definition clear_mask (mask w : Z) : Z := (OSBitAndAtomic (u32 (Z.lnot mask)) w).2.
Definition test_and_set_bit (nr w : Z) : bool * Z :=
  let '(old, w') := OSBitOrAtomic (BIT nr) w in (has old (BIT nr), w').
Definition test_and_clear_bit (nr w : Z) : bool * Z :=
  let '(old, w') := OSBitAndAtomic (u32 (Z.lnot (BIT nr))) w in (has old (BIT nr), w').
Definition atomic_dec_and_test (w : Z) : bool * Z := let '(old, w') := OSDecrementAtomic w in (old =? 1, w').
Definition atomic_inc_and_test (w : Z) : bool * Z := let '(old, w') := OSIncrementAtomic w in (old =? -1, w').

(** A flag word has 32 bits. *)
Definition word (w : Z) : Prop := 0 <= w < 2 ^ 32.

Lemma testbit_BIT n i : 0 <= n -> 0 <= i -> Z.testbit (BIT n) i = bool_decide (i = n).
Proof.
  intros Hn Hi. unfold BIT. rewrite Z.pow2_bits_eqb by lia. case_bool_decide as E; [subst; apply Z.eqb_refl|].
  apply Z.eqb_neq. congruence.
Qed.

Lemma testbit_not32 m i : 0 <= i < 32 -> Z.testbit (u32 (Z.lnot m)) i = negb (Z.testbit m i).
Proof. intros Hi. unfold u32. change 4294967296 with (2 ^ 32). rewrite Z.mod_pow2_bits_low, Z.lnot_spec by lia. done. Qed.

Lemma word_high w i : word w -> 32 <= i -> Z.testbit w i = false.
Proof. intros H Hi. by apply (testbit_high w 32 i). Qed.

Lemma clear_mask_spec m w i : word w -> 0 <= i -> Z.testbit (clear_mask m w) i = Z.testbit w i && negb (Z.testbit m i).
Proof.
  intros W Hi. cbn. rewrite Z.land_spec. destruct (Z_lt_ge_dec i 32) as [L|G].
  - by rewrite testbit_not32 by lia.
  - by rewrite (word_high w i W) by lia.
Qed.

Lemma clear_mask_word m w : word w -> word (clear_mask m w).
Proof.
  intros W. cbn. unfold word in *. split; [apply Z.land_nonneg; left; lia|].
  apply Z.log2_lt_cancel. destruct (Z.eq_dec w 0) as [->|N]; [by rewrite Z.land_0_l|].
  eapply Z.le_lt_trans; [apply Z.log2_land; [lia|]|].
  - unfold u32. apply Z.mod_pos_bound. lia.
  - apply Z.min_lt_iff. left. rewrite Z.log2_pow2 by lia. apply Z.log2_lt_pow2; lia.
Qed.

(** test_and_set_bit is a test and a set in one. *)
Lemma test_and_set_spec nr w : 0 <= nr -> test_and_set_bit nr w = (test_bit nr w, set_bit nr w).
Proof. intros H. unfold test_and_set_bit, OSBitOrAtomic. by rewrite has_bit. Qed.

Lemma test_and_clear_spec nr w : 0 <= nr -> word w ->
  (test_and_clear_bit nr w).1 = test_bit nr w /\ forall i, 0 <= i -> Z.testbit (test_and_clear_bit nr w).2 i = Z.testbit (clear_bit nr w) i.
Proof.
  intros H W. split; [unfold test_and_clear_bit, OSBitAndAtomic; cbn; by rewrite has_bit|].
  intros i Hi. change (test_and_clear_bit nr w).2 with (clear_mask (BIT nr) w). rewrite clear_mask_spec by done.
  unfold clear_bit. by rewrite Z.ldiff_spec.
Qed.

(** ** Waiting *)

(** What the kernel offers for waiting. Time is in nanoseconds; the waits get the time
    at which they are called and give the time at which the caller goes on. *)
Class Clock := {
  IODelay : Z -> Z -> Z;
  IOSleep : Z -> Z -> Z;
  nanoseconds_to_absolutetime : Z -> Z;
  clock_get_uptime : Z -> Z;
  clock_delay_until : Z -> Z -> Z;
}.

(** As documented, IODelay and IOSleep wait at least the time they are given. A wait
    until a deadline may lack less than a microsecond. How much longer a wait takes is
    not said. *)
Class ClockLaws (C : Clock) := {
  delay_least : forall us t, 0 <= us -> t + us * 1000 <= IODelay us t;
  sleep_least : forall ms t, 0 <= ms -> t + ms * 1000000 <= IOSleep ms t;
  until_least : forall t ns, 0 <= t -> 0 <= ns ->
    t + ns - 1000 < clock_delay_until (clock_get_uptime t + nanoseconds_to_absolutetime ns) t;
}.

(** A kernel in which no wait takes more than [late] longer than it was asked to. *)
Definition waits_within (C : Clock) (late : Z) : Prop :=
  (forall us t, 0 <= us -> IODelay us t <= t + us * 1000 + late) /\
  (forall ms t, 0 <= ms -> IOSleep ms t <= t + ms * 1000000 + late) /\
  (forall t ns, 0 <= t -> 0 <= ns ->
     clock_delay_until (clock_get_uptime t + nanoseconds_to_absolutetime ns) t <= t + ns + late).

Definition NSEC_PER_USEC : Z := 1000.
Definition USEC_PER_MSEC : Z := 1000.

(** The shims of the DriverKit build over the IODelay and IOSleep of the system: the
    uptime is always zero. *)
Definition shim_clock (delay sleep : Z -> Z -> Z) : Clock := {|
  IODelay := delay; IOSleep := sleep;
  nanoseconds_to_absolutetime ns := ns; clock_get_uptime _ := 0;
  clock_delay_until deadline t := delay (deadline / NSEC_PER_USEC) t |}.

#[export] Instance shim_clock_laws delay sleep :
  (forall us t, 0 <= us -> t + us * 1000 <= delay us t) -> (forall ms t, 0 <= ms -> t + ms * 1000000 <= sleep ms t) ->
  ClockLaws (shim_clock delay sleep).
Proof.
  intros Hd Hs. split; [exact Hd|exact Hs|]. intros t ns Ht Hn. cbn. unfold NSEC_PER_USEC. rewrite Z.add_0_l.
  pose proof (Hd (ns / 1000) t ltac:(apply Z.div_pos; lia)). pose proof (Z.div_mod ns 1000 ltac:(lia)).
  pose proof (Z.mod_pos_bound ns 1000 ltac:(lia)). lia.
Qed.

Section Wait.
Context `{C : Clock}.

Definition usleep_range (min max t : Z) : Z :=
  clock_delay_until (clock_get_uptime t + nanoseconds_to_absolutetime (u64 ((min + max) * 500))) t.

Definition max_slack_shift : Z := 2.
Definition USLEEP_RANGE_UPPER_BOUND : Z := Z.shiftl 4000000 max_slack_shift / NSEC_PER_USEC.
Definition DIV_ROUND_UP (n d : Z) : Z := (n + d - 1) / d.

Definition fsleep (usecs t : Z) : Z :=
  if usecs <=? 10 then IODelay usecs t
  else if usecs <? USLEEP_RANGE_UPPER_BOUND then usleep_range usecs (usecs + Z.shiftr usecs max_slack_shift) t
  else IOSleep (DIV_ROUND_UP (u32 usecs) USEC_PER_MSEC) t.

(** C34: fsleep keeps its promise, on every clock whose waits take at least as long as
    they are asked to (IODelay and IOSleep as documented; a wait until a deadline less at
    most a microsecond, as with the DriverKit shims): for every duration of less than 2^32
    microseconds it waits at least as long as asked. And it never asks for more than a
    quarter longer: on a clock whose waits come at most [late] nanoseconds after their time,
    it comes back after at most five quarters of the time and [late]. *)
Theorem fsleep_slack `{!ClockLaws C} (usecs t : Z) : 0 <= t -> 0 <= usecs < 2 ^ 32 ->
  usecs * 1000 <= fsleep usecs t - t /\
  (forall late, waits_within C late -> fsleep usecs t - t <= usecs * 1250 + late).
Proof.
  intros Ht Hu. unfold fsleep. destruct (Z.leb_spec usecs 10) as [L|L].
  { pose proof (delay_least usecs t ltac:(lia)). split; [lia|]. intros late (W&_). specialize (W usecs t ltac:(lia)). lia. }
  change USLEEP_RANGE_UPPER_BOUND with 16000. destruct (Z.ltb_spec usecs 16000) as [M|M].
  - unfold usleep_range, max_slack_shift. rewrite Z.shiftr_div_pow2 by lia. change (2 ^ 2) with 4.
    pose proof (Z.div_mod usecs 4 ltac:(lia)). pose proof (Z.mod_pos_bound usecs 4 ltac:(lia)).
    unfold u64. rewrite Z.mod_small by lia. set (ns := (usecs + (usecs + usecs / 4)) * 500).
    assert (Hns : 0 <= ns) by lia. pose proof (until_least t ns Ht Hns). split; [lia|].
    intros late (_&_&W). specialize (W t ns Ht Hns). lia.
  - unfold u32, DIV_ROUND_UP, USEC_PER_MSEC. rewrite (Z.mod_small usecs) by (change 4294967296 with (2 ^ 32); lia).
    pose proof (Z.div_mod (usecs + 1000 - 1) 1000 ltac:(lia)). pose proof (Z.mod_pos_bound (usecs + 1000 - 1) 1000 ltac:(lia)).
    set (ms := (usecs + 1000 - 1) / 1000) in *. assert (Hms : 0 <= ms) by lia. pose proof (sleep_least ms t Hms).
    split; [lia|]. intros late (_&W&_). specialize (W ms t Hms). lia.
Qed.
End Wait.

(** A system that comes back 50 microseconds late from every wait. *)
Definition slow_delay (us t : Z) : Z := t + us * 1000 + 50000.
Definition slow_sleep (ms t : Z) : Z := t + ms * 1000000 + 50000.

#[export] Instance slow_laws : ClockLaws (shim_clock slow_delay slow_sleep).
Proof. apply shim_clock_laws; intros; unfold slow_delay, slow_sleep; lia. Qed.

Lemma slow_within : waits_within (shim_clock slow_delay slow_sleep) 50000.
Proof.
  split_and!; cbn; unfold slow_delay, slow_sleep, NSEC_PER_USEC; [lia|lia|]. intros t ns Ht Hn. rewrite Z.add_0_l.
  pose proof (Z.div_mod ns 1000 ltac:(lia)). pose proof (Z.mod_pos_bound ns 1000 ltac:(lia)). lia.
Qed.

(** A wait of the firmware, and the longest one. *)
Lemma fsleep_slack_witness :
  let C := shim_clock slow_delay slow_sleep in
  (10000 * 1000 <= fsleep (C := C) 10000 5 - 5 <= 10000 * 1250 + 50000) /\
  (65535000 * 1000 <= fsleep (C := C) 65535000 0 - 0 <= 65535000 * 1250 + 50000).
Proof.
  split.
  - destruct (fsleep_slack (C := shim_clock slow_delay slow_sleep) 10000 5) as [H1 H2]; [lia|lia|].
    split; [exact H1|exact (H2 50000 slow_within)].
  - destruct (fsleep_slack (C := shim_clock slow_delay slow_sleep) 65535000 0) as [H1 H2]; [lia|lia|].
    split; [exact H1|exact (H2 50000 slow_within)].
Defined.

(** The number of milliseconds is cut to 32 bits before the division. *)
Theorem fsleep_wraps `{C : Clock} t : fsleep (2 ^ 32) t = IOSleep 0 t.
Proof. reflexivity. Qed.

(** ** The CRC of Linux *)

Definition crc_le_bit (crc : Z) (bit : bool) : Z :=
  if xorb (has crc 1) bit then Z.shiftr crc 1 .^ 0xedb88320 else Z.shiftr crc 1.

Fixpoint crc_le_octet (n : nat) (octet crc : Z) : Z :=
  match n with O => crc | S n' => crc_le_octet n' (Z.shiftr octet 1) (crc_le_bit crc (has octet 1)) end.

Definition ether_crc_le (data : list Z) : Z := foldl (fun crc octet => crc_le_octet 8 octet crc) 0xffffffff data.

(** Two registers, one the other read backwards. *)
Definition mirror (c c' : Z) : Prop := word c /\ word c' /\ forall i, 0 <= i < 32 -> Z.testbit c' i = Z.testbit c (31 - i).

Lemma poly_mirror i : 0 <= i < 32 -> Z.testbit 0xedb88320 i = Z.testbit poly (31 - i).
Proof.
  intros Hi. assert (forallb (fun n => eqb (Z.testbit 0xedb88320 (Z.of_nat n)) (Z.testbit poly (31 - Z.of_nat n))) (seq 0 32) = true) as H by (vm_compute; reflexivity).
  rewrite forallb_forall in H. specialize (H (Z.to_nat i)). rewrite Z2Nat.id in H by lia. apply eqb_prop, H, in_seq. lia.
Qed.

(** A word is determined by its bits. *)
Lemma word_bits x : 0 <= x -> (forall i, 32 <= i -> Z.testbit x i = false) -> word x.
Proof.
  intros Hx H. split; [done|]. apply Z.lt_nge. intros G. destruct (Z.eq_dec x 0) as [->|N]; [lia|].
  pose proof (Z.log2_le_mono _ _ G) as L. rewrite Z.log2_pow2 in L by lia. specialize (H (Z.log2 x) L). rewrite Z.bit_log2 in H by lia. done.
Qed.

Lemma crc_bit_bits c b i : word c -> 0 <= i ->
  Z.testbit (crc_bit c b) i = xorb ((i <? 32) && Z.testbit c (i - 1)) (xorb (Z.testbit c 31) b && Z.testbit poly i).
Proof.
  intros W Hi. unfold crc_bit. rewrite crc_sign by done. rewrite Z.lxor_spec, u32_bits, Z.shiftl_spec by lia.
  destruct (xorb _ b); [done|by rewrite Z.bits_0].
Qed.

Lemma crc_le_bit_bits c b i : 0 <= i ->
  Z.testbit (crc_le_bit c b) i = xorb (Z.testbit c (i + 1)) (xorb (Z.testbit c 0) b && Z.testbit 0xedb88320 i).
Proof.
  intros Hi. unfold crc_le_bit. change (has c 1) with (has c (BIT 0)). rewrite has_bit by lia.
  destruct (xorb _ b); rewrite ?Z.lxor_spec, Z.shiftr_spec by lia; [done|by rewrite xorb_false_r].
Qed.

Lemma poly_high i : 32 <= i -> Z.testbit poly i = false /\ Z.testbit 0xedb88320 i = false.
Proof. intros Hi. split; apply word_high; [|done| |done]; vm_compute; split; congruence. Qed.

Lemma mirror_bit c c' b : mirror c c' -> mirror (crc_bit c b) (crc_le_bit c' b).
Proof.
  intros (W & W' & H). split_and!.
  - apply crc_bit_range.
  - apply word_bits.
    + unfold crc_le_bit. destruct W' as [W1 _]. assert (0 <= Z.shiftr c' 1) by (by apply Z.shiftr_nonneg).
      destruct (xorb _ b); [apply Z.lxor_nonneg; lia|done].
    + intros i Hi. rewrite crc_le_bit_bits by lia. rewrite (proj2 (poly_high i Hi)), andb_false_r. by rewrite (word_high c') by (done || lia).
  - intros i Hi. rewrite crc_bit_bits by (done || lia). rewrite crc_le_bit_bits by lia. rewrite poly_mirror by done.
    rewrite (H 0) by lia. replace (31 - 0) with 31 by lia. f_equal. rewrite (proj2 (Z.ltb_lt (31 - i) 32)) by lia. cbn [andb].
    destruct (Z.eq_dec i 31) as [->|N].
    + rewrite (word_high c') by (done || lia). symmetry. apply Z.testbit_neg_r. lia.
    + rewrite H by lia. f_equal. lia.
Qed.

Lemma mirror_octet n o c c' : mirror c c' -> mirror (crc_octet n o c) (crc_le_octet n o c').
Proof. revert o c c'. induction n as [|n IH]; intros o c c' H; [done|]. apply IH. by apply mirror_bit. Qed.

(** The CRC of Linux and the CRC of the drivers are the same polynomial read from
    either end: for any frame, [ether_crc_le] is [etherCrc] with its 32 bits in the
    opposite order. *)
Theorem ether_crc_le_mirrors (data : list Z) (i : Z) : 0 <= i < 32 ->
  Z.testbit (ether_crc_le data) i = Z.testbit (etherCrc data) (31 - i).
Proof.
  assert (mirror (etherCrc data) (ether_crc_le data)) as H; [|apply H].
  unfold etherCrc, ether_crc_le.
  assert (mirror 0xffffffff 0xffffffff) as M.
  { split_and!; [done|done|]. intros j Hj. change 0xffffffff with (Z.ones 32). by rewrite !Z.ones_spec_low by lia. }
  revert M. generalize 0xffffffff at 1 3 as c. generalize 0xffffffff as c'. induction data as [|o data IH]; intros c' c M; [done|].
  cbn [foldl]. apply IH. by apply mirror_octet.
Qed.

(** The lowest bit of the CRC of a broadcast address. *)
Lemma ether_crc_le_mirrors_witness :
  Z.testbit (ether_crc_le [255; 255; 255; 255; 255; 255]) 0 = Z.testbit (etherCrc [255; 255; 255; 255; 255; 255]) (31 - 0).
Proof. apply ether_crc_le_mirrors. lia. Defined.
