(* ===== verification/PollLock.v ===== *)
(** How the work loop and the poller thread of the kernel extension share the rings
    (RTL812xLucy.cpp, rtl812xEnable, rtl812xDisable, rtl812xRestart and rtl812xHwConfig of
    RTL812xLucyHardware.cpp): every routine cut at its accesses to stateFlags, with the
    stretches between them that work on the rings. The flag __POLLING is the lock. *)
From S2P Require Import Prelude Mmio Chip Hw BringUp RxFilter RxFilterSpec Compat KextCtl.
#[local] Open Scope Z_scope.

Definition __ENABLED_M : Z := BIT __ENABLED.
Definition __LINK_UP_M : Z := BIT __LINK_UP.
Definition __PROMISC_M : Z := BIT __PROMISC.
Definition __M_CAST_M : Z := BIT __M_CAST.
Definition __POLL_MODE_M : Z := BIT __POLL_MODE.
Definition __POLLING_M : Z := BIT __POLLING.

(** Work on the rings: rxInterrupt and txInterrupt as the interrupt handlers and the
    poller call them, the txInterrupt of txHangCheck, and whatever sets the ring positions
    or the pending fragment anew. *)
Inductive place := ServeRx | ServeTx | CheckTx | Reset.

(** What a thread has still to do. Each constructor is one access to stateFlags, or one
    stretch of work, in which the thread stays for as long as it likes. *)
Inductive code :=
| Done
| IfSet (nr : Z) (yes no : code)
| TestAndSet (nr : Z) (was_set was_clear : code)
| SetBit (nr : Z) (k : code)
| ClearMask (mask : Z) (k : code)
| Work (p : place) (k : code).

(** ** The routines of the work loop, with what follows them *)

Definition setMulticastMode (active : bool) (k : code) : code :=
  if active then SetBit __M_CAST k else ClearMask __M_CAST_M k.
Definition setPromiscuousMode (active : bool) (k : code) : code :=
  if active then SetBit __PROMISC k else ClearMask __PROMISC_M k.

(** The ring positions start again from zero. *)
Definition rtl812xHwConfig (k : code) : code :=
  Work Reset (IfSet __M_CAST (setMulticastMode true k) (setMulticastMode false k)).
Definition rtl812xEnable (k : code) : code := ClearMask __POLL_MODE_M (rtl812xHwConfig k).
Definition rtl812xDisable (k : code) : code := Work Reset (ClearMask __LINK_UP_M k).
Definition rtl812xRestart (k : code) : code := ClearMask __LINK_UP_M (Work Reset (rtl812xEnable k)).

Definition setLinkUp (k : code) : code := Work Reset (SetBit __LINK_UP k).
Definition setLinkDown (k : code) : code := ClearMask (__LINK_UP_M .| __POLL_MODE_M) (Work Reset k).
Definition rtl812xCheckLinkStatus (phy : Z) (k : code) : code :=
  if (phy =? 0xffffffff) || negb (has phy LinkStatus) then setLinkDown (Work Reset k)
  else rtl812xHwConfig (setLinkUp k).

Definition enable (pciOpen : bool) : code :=
  IfSet __ENABLED Done
    (if pciOpen then Done
     else setLinkDown (rtl812xEnable (Work Reset (SetBit __ENABLED (ClearMask __POLL_MODE_M Done))))).

(** The loop of disable: [n] waits are left. *)
Fixpoint wait_polling (n : nat) (k : code) : code :=
  match n with O => IfSet __POLLING k k | S n => IfSet __POLLING (wait_polling n k) k end.
Definition disable : code :=
  IfSet __ENABLED
    (IfSet __POLLING
       (wait_polling 9 (ClearMask (__ENABLED_M .| __LINK_UP_M .| __POLL_MODE_M .| __POLLING_M) (rtl812xDisable (Work Reset Done))))
       (ClearMask (__ENABLED_M .| __LINK_UP_M .| __POLL_MODE_M .| __POLLING_M) (rtl812xDisable (Work Reset Done))))
    Done.

Definition link_change (status phy : Z) : code :=
  if has status LinkChg then rtl812xCheckLinkStatus phy Done else Done.
(** interruptOccurred and interruptOccurredVTD. *)
Definition interruptOccurred (status phy : Z) : code :=
  if (status =? 0xFFFFFFFF) || (status =? 0) then Done else
  let k := link_change status phy in
  let tx := if has status (TxOK .| RxOK .| PCSTimeout) then Work ServeTx (ClearMask __POLLING_M k) else ClearMask __POLLING_M k in
  let rx := if has status (RxOK .| RxDescUnavail) then Work ServeRx tx else tx in
  IfSet __POLL_MODE k (TestAndSet __POLLING k rx).

Definition setInputPacketPollingEnable (enabled : bool) : code :=
  IfSet __ENABLED (if enabled then SetBit __POLL_MODE Done else ClearMask __POLL_MODE_M Done) Done.

(** [stuck]: no descriptor was completed since the last check; [warn]: deadlockWarn. *)
Definition txHangCheck (stuck : bool) (warn : Z) : code :=
  if stuck then
    if u32 (warn + 1) =? kTxCheckTreshhold then Work CheckTx Done
    else if kTxDeadlockTreshhold <=? u32 (warn + 1) then rtl812xRestart Done else Done
  else Done.
Definition timerActionRTL8125 (stuck : bool) (warn : Z) : code := IfSet __LINK_UP (txHangCheck stuck warn) Done.
Definition selectMedium (medium : bool) : code := if medium then setLinkDown Done else Done.
Definition setMaxPacketSize (maxSize : Z) : code :=
  if maxSize <=? kMaxPacketSize then setLinkDown (rtl812xRestart Done) else Done.

(** ** The poller *)

Definition pollInputPackets : code :=
  IfSet __POLL_MODE (TestAndSet __POLLING Done (Work ServeRx (Work ServeTx (ClearMask __POLLING_M Done)))) Done.

(** ** Two threads *)

(** What the work loop can be asked to do. *)
Inductive job :=
| Interrupt (status phy : Z) | Timer (stuck : bool) (warn : Z) | Polling (enabled : bool) | Enable (pciOpen : bool) | Disable
| Medium (medium : bool) | PacketSize (maxSize : Z) | Promiscuous (active : bool) | Multicast (active : bool).

Definition code_of (j : job) : code :=
  match j with
  | Interrupt status phy => interruptOccurred status phy
  | Timer stuck warn => timerActionRTL8125 stuck warn
  | Polling enabled => setInputPacketPollingEnable enabled
  | Enable pciOpen => enable pciOpen
  | Disable => disable
  | Medium medium => selectMedium medium
  | PacketSize maxSize => setMaxPacketSize maxSize
  | Promiscuous active => setPromiscuousMode active Done
  | Multicast active => setMulticastMode active Done
  end.

(** One access, or the end of a stretch of work. *)
Definition exec (c : code) (w : Z) : option (code * Z) :=
  match c with
  | Done => None
  | IfSet nr yes no => Some (if test_bit nr w then yes else no, w)
  | TestAndSet nr was_set was_clear =>
      let '(old, w) := test_and_set_bit nr w in Some (if old then was_set else was_clear, w)
  | SetBit nr k => Some (k, set_bit nr w)
  | ClearMask mask k => Some (k, clear_mask mask w)
  | Work _ k => Some (k, w)
  end.

(** [job_now]: the last job the work loop took. *)
Record sys := mkSys { stateFlags : Z; workloop : code; poller : code; job_now : option job }.

Inductive event := Call (j : job) | Poll | RunWorkloop | RunPoller.

Definition step (e : event) (s : sys) : option sys :=
  match e with
  | Call j => match workloop s with Done => Some (mkSys (stateFlags s) (code_of j) (poller s) (Some j)) | _ => None end
  | Poll => match poller s with Done => Some (mkSys (stateFlags s) (workloop s) pollInputPackets (job_now s)) | _ => None end
  | RunWorkloop =>
      match exec (workloop s) (stateFlags s) with Some (c, w) => Some (mkSys w c (poller s) (job_now s)) | None => None end
  | RunPoller =>
      match exec (poller s) (stateFlags s) with Some (c, w) => Some (mkSys w (workloop s) c (job_now s)) | None => None end
  end.

Fixpoint run (es : list event) (s : sys) : option sys :=
  match es with [] => Some s | e :: es => match step e s with Some s' => run es s' | None => None end end.

(** After start: both threads idle, no flag set. *)
Definition started : sys := mkSys 0 Done Done None.

(** Where a thread is in the rings. *)
Definition at_work (c : code) : option place := match c with Work p _ => Some p | _ => None end.

(** ** The discipline of the lock *)

(** What a thread may rely on: nothing; that it has set __POLLING; or that polling is off
    and the poller is not at work. *)
Inductive mode := Free | Holding | Quiet.
#[export] Instance mode_eq_dec : EqDecision mode.
Proof. solve_decision. Defined.

Definition serving (p : place) : bool := match p with ServeRx | ServeTx => true | _ => false end.

(** Code that serves the rings only while it holds the lock, gives the lock back exactly
    once, and touches __POLLING at no other time. *)
Fixpoint disciplined (m : mode) (c : code) : bool :=
  match c with
  | Done => bool_decide (m <> Holding)
  | IfSet _ yes no => disciplined m yes && disciplined m no
  | TestAndSet nr was_set was_clear =>
      bool_decide (nr = __POLLING) && bool_decide (m = Free) && disciplined Free was_set && disciplined Holding was_clear
  | SetBit nr k =>
      (0 <=? nr) && (nr <? 32) && negb (nr =? __POLLING) && (bool_decide (m <> Quiet) || negb (nr =? __POLL_MODE)) && disciplined m k
  | ClearMask mask k =>
      if Z.testbit mask __POLLING then
        match m with Free => false | Holding => disciplined Free k | Quiet => disciplined Quiet k end
      else disciplined m k
  | Work p k => (bool_decide (m = Holding) || negb (serving p)) && disciplined m k
  end.

(** Every routine but disable keeps the discipline; disable does where polling is off. *)
Definition mode_of (j : job) : mode := match j with Disable => Quiet | _ => Free end.

Lemma disciplined_link_change status phy : disciplined Free (link_change status phy) = true.
Proof. unfold link_change, rtl812xCheckLinkStatus. destruct (has _ _); [|done]. by destruct (_ || _). Qed.

Lemma disciplined_interrupt status phy : disciplined Free (interruptOccurred status phy) = true.
Proof.
  unfold interruptOccurred. destruct (_ || _); [done|]. cbv zeta.
  destruct (has status (RxOK .| RxDescUnavail)), (has status (TxOK .| RxOK .| PCSTimeout));
    cbn [disciplined]; by rewrite !disciplined_link_change.
Qed.

Lemma disciplined_job j : disciplined (mode_of j) (code_of j) = true.
Proof.
  destruct j as [status phy|stuck warn|b|b| |b|n|b|b]; [apply disciplined_interrupt| |by destruct b|by destruct b|done|by destruct b| |by destruct b|by destruct b].
  - cbn [code_of mode_of]. unfold timerActionRTL8125, txHangCheck. cbn [disciplined]. rewrite andb_true_r.
    destruct stuck; [|done]. destruct (_ =? _); [done|]. by destruct (_ <=? _).
  - cbn [code_of mode_of]. unfold setMaxPacketSize. by destruct (_ <=? _).
Qed.

(** A disciplined thread that serves the rings holds the lock, and an idle one does not. *)
Lemma serving_holds m c p : disciplined m c = true -> at_work c = Some p -> serving p = true -> m = Holding.
Proof.
  intros H E S. destruct c as [| | | | |q k]; try done. injection E as ->. cbn [disciplined] in H. rewrite S in H. cbn [negb] in H.
  rewrite orb_false_r in H. apply andb_true_iff in H as [H _]. by apply bool_decide_eq_true in H.
Qed.

(** ** The flag word *)

Lemma set_bit_spec nr w i : 0 <= nr -> 0 <= i -> test_bit i (set_bit nr w) = test_bit i w || bool_decide (i = nr).
Proof. intros Hn Hi. unfold test_bit, set_bit. by rewrite Z.lor_spec, testbit_BIT. Qed.

Lemma set_bit_word nr w : 0 <= nr < 32 -> word w -> word (set_bit nr w).
Proof.
  intros Hn W. apply word_bits.
  - apply Z.lor_nonneg. split; [apply W|]. unfold BIT. lia.
  - intros i Hi. change (test_bit i (set_bit nr w) = false). rewrite set_bit_spec by lia.
    unfold test_bit. rewrite (word_high w i W Hi). apply bool_decide_eq_false. lia.
Qed.

Lemma clear_bits m w i : word w -> 0 <= i -> test_bit i (clear_mask m w) = test_bit i w && negb (Z.testbit m i).
Proof. apply clear_mask_spec. Qed.

(** ** One step of a disciplined thread *)

Definition holds (m : mode) : bool := bool_decide (m = Holding).

(** The lock is set exactly while one of the two threads has it; [o]: the other has it. *)
Definition locked (m : mode) (o : bool) (w : Z) : Prop :=
  word w /\ test_bit __POLLING w = holds m || o /\ holds m && o = false /\ (m = Quiet -> o = false /\ test_bit __POLL_MODE w = false).

(** The modes a step can lead to: only a thread that is quiet stays so. *)
Definition follows (m m' : mode) : Prop := m = Quiet <-> m' = Quiet.

Lemma locked_take o w : locked Free o w -> test_bit __POLLING w = false -> locked Holding o (set_bit __POLLING w).
Proof.
  intros (W & P & X & Q) E. rewrite E in P. change (holds Free) with false in P. cbn [orb] in P. subst o. split_and!; [by apply set_bit_word| |done|done].
  rewrite set_bit_spec by done. by rewrite E.
Qed.

Lemma locked_set nr m o w : 0 <= nr < 32 -> nr <> __POLLING -> (m = Quiet -> nr <> __POLL_MODE) -> locked m o w -> locked m o (set_bit nr w).
Proof.
  intros Hn N M (W & P & X & Q). split_and!; [by apply set_bit_word| |done|].
  - rewrite set_bit_spec by (done || lia). rewrite P. rewrite (bool_decide_eq_false_2 (__POLLING = nr)) by congruence. by rewrite orb_false_r.
  - intros E. destruct (Q E) as [Q1 Q2]. split; [done|]. rewrite set_bit_spec by (done || lia). rewrite Q2.
    apply bool_decide_eq_false. specialize (M E). congruence.
Qed.

Lemma locked_mode mask m o w : word w -> (m = Quiet -> o = false /\ test_bit __POLL_MODE w = false) ->
  m = Quiet -> o = false /\ test_bit __POLL_MODE (clear_mask mask w) = false.
Proof. intros W Q E. destruct (Q E) as [Q1 Q2]. split; [done|]. rewrite clear_bits by done. by rewrite Q2. Qed.

Lemma locked_clear mask m o w : Z.testbit mask __POLLING = false -> locked m o w -> locked m o (clear_mask mask w).
Proof.
  intros N (W & P & X & Q). split_and!; [by apply clear_mask_word| |done|by apply locked_mode].
  rewrite clear_bits by done. by rewrite N, P, andb_true_r.
Qed.

Lemma locked_give mask o w : Z.testbit mask __POLLING = true -> locked Holding o w -> locked Free o (clear_mask mask w).
Proof.
  intros N (W & P & X & Q). change (holds Holding) with true in X. cbn [andb] in X. subst o. split_and!; [by apply clear_mask_word| |done|done].
  rewrite clear_bits by done. by rewrite N, andb_false_r.
Qed.

Lemma locked_quiet mask o w : Z.testbit mask __POLLING = true -> locked Quiet o w -> locked Quiet o (clear_mask mask w).
Proof.
  intros N (W & P & X & Q). destruct (Q eq_refl) as [-> _]. split_and!; [by apply clear_mask_word| |done|by apply locked_mode].
  rewrite clear_bits by done. by rewrite N, andb_false_r.
Qed.

Lemma exec_disciplined m o c c' w w' : disciplined m c = true -> locked m o w -> exec c w = Some (c', w') ->
  exists m', disciplined m' c' = true /\ locked m' o w' /\ follows m m'.
Proof.
  intros H L E. destruct c as [|nr yes no|nr a b|nr k|mask k|p k]; cbn [disciplined exec] in *; [done|..].
  - apply andb_true_iff in H as [H1 H2]. injection E as <- <-. exists m. by destruct (test_bit nr w).
  - rewrite !andb_true_iff, !bool_decide_eq_true in H. destruct H as [[[-> ->] H1] H2].
    rewrite test_and_set_spec in E by done. destruct (test_bit __POLLING w) eqn:T; injection E as <- <-.
    + exists Free. split_and!; [done| |done]. unfold set_bit. replace (w .| BIT __POLLING) with w; [done|].
      apply Z.bits_inj'. intros i Hi. rewrite Z.lor_spec, testbit_BIT by done. case_bool_decide; [subst|by rewrite orb_false_r].
      unfold test_bit in T. by rewrite T.
    + exists Holding. split_and!; [done|by apply locked_take|done].
  - rewrite !andb_true_iff, Z.leb_le, Z.ltb_lt, negb_true_iff, Z.eqb_neq in H. destruct H as [[[[H1 H2] H3] H4] H5].
    injection E as <- <-. exists m. split_and!; [done| |done]. apply locked_set; [lia|done| |done].
    intros ->. cbn in H4. by apply negb_true_iff, Z.eqb_neq in H4.
  - injection E as <- <-. destruct (Z.testbit mask __POLLING) eqn:N; [|exists m; split_and!; [done|by apply locked_clear|done]].
    destruct m; [done|exists Free; split_and!; [done|by apply locked_give|done]|exists Quiet; split_and!; [done|by apply locked_quiet|done]].
  - apply andb_true_iff in H as [_ H]. injection E as <- <-. by exists m.
Qed.

(** ** Both threads *)

(** The states of every interleaving in which disable is called with polling off and the
    poller idle. *)
Inductive reach : sys -> Prop :=
| reach_started : reach started
| reach_step e s s' : reach s -> step e s = Some s' ->
    (e = Call Disable -> poller s = Done /\ test_bit __POLL_MODE (stateFlags s) = false) -> reach s'.

Definition both (m h : mode) (s : sys) : Prop :=
  disciplined m (workloop s) = true /\ disciplined h (poller s) = true /\ h <> Quiet /\
  locked m (holds h) (stateFlags s) /\ (m = Quiet -> poller s = Done \/ poller s = pollInputPackets) /\
  (job_now s = Some Disable -> m = Quiet).

(** The lock, seen from the other thread. *)
Lemma locked_swap m h w : h <> Quiet -> locked m (holds h) w -> locked h (holds m) w.
Proof. intros N (W & P & X & Q). split_and!; [done|by rewrite orb_comm|by rewrite andb_comm|done]. Qed.

(** A quiet work loop needs no lock to become an idle one. *)
Lemma locked_idle m m' o w : m <> Holding -> m' <> Holding -> (m' = Quiet -> o = false /\ test_bit __POLL_MODE w = false) ->
  locked m o w -> locked m' o w.
Proof.
  intros N N' Q' (W & P & X & Q). assert (holds m = false) as E by (by apply bool_decide_eq_false).
  assert (holds m' = false) as E' by (by apply bool_decide_eq_false). unfold locked. rewrite E in P. by rewrite E'.
Qed.

Lemma idle_free h : disciplined h Done = true -> h <> Quiet -> h = Free.
Proof. cbn. rewrite bool_decide_eq_true. by destruct h. Qed.

Lemma both_started : both Free Free started.
Proof. by split_and!. Qed.

Lemma both_call m h j s : both m h s -> workloop s = Done ->
  (j = Disable -> poller s = Done /\ test_bit __POLL_MODE (stateFlags s) = false) ->
  both (mode_of j) h (mkSys (stateFlags s) (code_of j) (poller s) (Some j)).
Proof.
  intros (D & Dh & N & L & _ & _) E A. rewrite E in D. assert (mode_of j = Quiet -> j = Disable) as Hj by (by destruct j).
  split_and!; cbn; [apply disciplined_job|done|done| |intros Q; left; by apply A, Hj|by intros [= ->]].
  apply (locked_idle m); [by apply bool_decide_eq_true in D|by destruct j| |done]. intros Q. destruct (A (Hj Q)) as [P M].
  rewrite P in Dh. rewrite (idle_free h) by done. done.
Qed.

Lemma both_workloop m h s c w : both m h s -> exec (workloop s) (stateFlags s) = Some (c, w) ->
  exists m', both m' h (mkSys w c (poller s) (job_now s)).
Proof.
  intros (D & Dh & N & L & Q & J) E. destruct (exec_disciplined m (holds h) _ _ _ _ D L E) as (m' & D' & L' & F).
  exists m'. split_and!; cbn; [done|done|done|done|intros G; by apply Q, F|intros G; by apply F, J].
Qed.

Lemma both_poller m h s c w : both m h s -> exec (poller s) (stateFlags s) = Some (c, w) ->
  exists h', both m h' (mkSys w (workloop s) c (job_now s)).
Proof.
  intros (D & Dh & N & L & Q & J) E.
  destruct (exec_disciplined h (holds m) _ _ _ _ Dh (locked_swap _ _ _ N L) E) as (h' & D' & L' & F).
  assert (N' : h' <> Quiet) by (by intros G; apply N, F). exists h'. destruct (decide (m = Quiet)) as [->|NQ].
  - destruct (Q eq_refl) as [Q'|Q']; rewrite Q' in E; [done|]. destruct L as (W & P & X & M).
    destruct (M eq_refl) as [O M']. cbn [exec pollInputPackets] in E. rewrite M' in E. injection E as <- <-.
    rewrite (idle_free h' D' N'). split_and!; cbn; [done|done|done| |by left|done]. rewrite O in P. by split_and!.
  - split_and!; cbn; [done|done|done|by apply locked_swap|done|done].
Qed.

Lemma reach_both s : reach s -> exists m h, both m h s.
Proof.
  induction 1 as [|e s s' _ (m & h & B) E A]; [by exists Free, Free; apply both_started|].
  destruct e as [j| | |]; cbn [step] in E.
  - destruct (workloop s) eqn:W; try done. injection E as <-. exists (mode_of j), h. apply (both_call m); [done|done|].
    intros ->. by apply A.
  - destruct (poller s) eqn:P; try done. injection E as <-. exists m, h. destruct B as (D & Dh & N & L & Q & J).
    rewrite P in Dh. rewrite (idle_free h Dh N) in *. split_and!; cbn; [done|done|done|done|by right|done].
  - destruct (exec _ _) as [[c w]|] eqn:X; [|done]. injection E as <-. destruct (both_workloop m h s c w B X) as [m' B']. by exists m', h.
  - destruct (exec _ _) as [[c w]|] eqn:X; [|done]. injection E as <-. destruct (both_poller m h s c w B X) as [h' B']. by exists m, h'.
Qed.

(** The thread serves the rings. *)
Definition serves (c : code) : Prop := exists p, at_work c = Some p /\ serving p = true.

Lemma both_serves_w m h s : both m h s -> serves (workloop s) -> m = Holding.
Proof. intros (D & _) (p & E & S). by apply (serving_holds m (workloop s) p). Qed.
Lemma both_serves_p m h s : both m h s -> serves (poller s) -> h = Holding.
Proof. intros (_ & D & _) (p & E & S). by apply (serving_holds h (poller s) p). Qed.

(** C6: __POLLING is a lock. In every interleaving of the work loop with the poller
    thread in which disable is called with polling off and the poller idle, at every
    access: the interrupt handler and pollInputPackets never serve the rings at the same
    time; __POLLING is set whenever one of them does, and clear when both threads are
    idle, so that it never sticks; and while the last thing the work loop was asked for is
    to disable the interface, the poller does not serve the rings. *)
Theorem poll_lock_exclusive (s : sys) : reach s ->
  ~ (serves (workloop s) /\ serves (poller s)) /\
  (serves (workloop s) \/ serves (poller s) -> test_bit __POLLING (stateFlags s) = true) /\
  (workloop s = Done -> poller s = Done -> test_bit __POLLING (stateFlags s) = false) /\
  (job_now s = Some Disable -> ~ serves (poller s)).
Proof.
  intros R. destruct (reach_both s R) as (m & h & B). pose proof (both_serves_w m h s B) as Sw. pose proof (both_serves_p m h s B) as Sp.
  destruct B as (D & Dh & N & (W & P & X & Q) & _ & J). split_and!.
  - intros [A C]. rewrite (Sw A), (Sp C) in X. done.
  - intros [A|A]; rewrite P; [by rewrite (Sw A)|rewrite (Sp A); apply orb_true_r].
  - intros E1 E2. rewrite E1 in D. rewrite E2 in Dh. rewrite P, (idle_free h Dh N). apply bool_decide_eq_true in D. by destruct m.
  - intros E S. destruct (Q (J E)) as [O _]. by rewrite (Sp S) in O.
Qed.

(** ** Schedules *)

Definition disables (e : event) : bool := match e with Call Disable => true | _ => false end.

Lemma reach_run es s s' : reach s -> forallb (fun e => negb (disables e)) es = true -> run es s = Some s' -> reach s'.
Proof.
  revert s. induction es as [|e es IH]; intros s R A E; [by injection E as <-|]. cbn in A, E. apply andb_true_iff in A as [A1 A2].
  destruct (step e s) as [s1|] eqn:E1; [|done]. apply (IH s1); [|done|done]. apply (reach_step e s); [done|done|]. by intros ->.
Qed.

Definition times (n : nat) (e : event) : list event := replicate n e.

(** The interface is enabled, the link comes up and polling is switched on. *)
Definition polling_on : list event :=
  Call (Enable false) :: times 10 RunWorkloop ++
  Call (Interrupt LinkChg LinkStatus) :: times 8 RunWorkloop ++
  Call (Polling true) :: times 2 RunWorkloop.

(** The poller is in rxInterrupt. *)
Definition poller_in_rx : list event := polling_on ++ [Poll; RunPoller; RunPoller].

(** Polling is switched off while the poller is at work, and an interrupt comes: the
    handler finds the rings taken. *)
Definition taken : list event :=
  poller_in_rx ++ Call (Polling false) :: times 2 RunWorkloop ++ Call (Interrupt RxOK 0) :: times 2 RunWorkloop.

Lemma poll_lock_exclusive_witness :
  let s := default started (run taken started) in
  serves (poller s) /\ test_bit __POLL_MODE (stateFlags s) = false /\ workloop s = Done /\
  ~ (serves (workloop s) /\ serves (poller s)) /\ test_bit __POLLING (stateFlags s) = true.
Proof.
  intros s. assert (R : reach s) by (exact (reach_run taken started s reach_started eq_refl eq_refl)).
  assert (S : serves (poller s)) by (exists ServeRx; split; vm_compute; reflexivity).
  split; [exact S|]. split; [vm_compute; reflexivity|]. split; [vm_compute; reflexivity|].
  destruct (poll_lock_exclusive s R) as (X & L & _). split; [exact X|apply L; right; exact S].
Defined.

(** Where both threads are. *)
Definition places (es : list event) : option (option place * option place) :=
  (fun s => (at_work (workloop s), at_work (poller s))) <$> run es started.

(** setLinkDown clears the rings, and rtl812xRestart too, whether the poller is at work
    or not. *)
Theorem link_down_under_poller :
  places (poller_in_rx ++ Call (Interrupt LinkChg 0) :: times 2 RunWorkloop) = Some (Some Reset, Some ServeRx).
Proof. vm_compute. reflexivity. Qed.

Theorem restart_under_poller :
  places (poller_in_rx ++ Call (Timer true 5) :: times 2 RunWorkloop) = Some (Some Reset, Some ServeRx).
Proof. vm_compute. reflexivity. Qed.

(** txHangCheck calls txInterrupt while the poller is in txInterrupt. *)
Theorem hang_check_under_poller :
  places (poller_in_rx ++ RunPoller :: Call (Timer true 4) :: times 1 RunWorkloop) = Some (Some CheckTx, Some ServeTx).
Proof. vm_compute. reflexivity. Qed.

(** disable finds the poller idle, the poller starts before disable clears the flags, and
    the rings are cleared under it; or it is at work for longer than the nine waits. *)
Theorem disable_under_poller :
  places (polling_on ++ Call Disable :: times 2 RunWorkloop ++ [Poll; RunPoller; RunPoller; RunWorkloop]) = Some (Some Reset, Some ServeRx) /\
  places (poller_in_rx ++ Call Disable :: times 13 RunWorkloop) = Some (Some Reset, Some ServeRx).
Proof. split; vm_compute; reflexivity. Qed.

(** After such a disable the handler and the poller serve the rings at the same time. *)
Theorem lock_broken_by_disable :
  places (poller_in_rx ++ Call Disable :: times 16 RunWorkloop ++ Call (Enable false) :: times 10 RunWorkloop ++
          Call (Interrupt RxOK 0) :: times 2 RunWorkloop) = Some (Some ServeRx, Some ServeRx).
Proof. vm_compute. reflexivity. Qed.
